(* ===== verification/_CoqProject ===== *)
-Q . S2P
Prelude.v
Kmem.v
Kheap.v
KheapInv.v
KheapOps.v
KheapSpec.v
Ram.v
KheapRun.v
Array.v
Queue.v
Bitmap.v
Thread.v
ThreadInv.v
ThreadOps.v
Synch.v
SynchInv.v
ThreadSpec.v
Fair.v
Catsem.v
Cstring.v
Uio.v
Dumbvm.v
DumbvmInv.v
DumbvmSpec.v
DumbvmCopy.v
Device.v
Lhd.v
SfsDisk.v
Sfs.v
SfsBlock.v
SfsBmap.v
SfsFile.v
SfsDir.v
SfsTrunc.v
SfsVol.v
SfsSpec.v
SfsMount.v
SfsTree.v
SfsTable.v
SfsVnodes.v
SfsNames.v
SfsOps.v
SfsSync.v
SfsClient.v
SfsImage.v
SfsMountSpec.v
Vfs.v
VfsInv.v
VfsOps.v
VfsTable.v
VfsAdd.v
VfsNames.v
VfsDev.v
VfsSfs.v
VfsLaws.v
VfsMount.v
VfsSpec.v
Mksfs.v
MksfsSpec.v
Printf.v
PrintfSpec.v
Serial.v
Console.v
ConsoleSpec.v
Menu.v
MenuSpec.v
