(* ===== verification/Prelude.v ===== *)
(** * A verification of the OS/161 kernel in src/src/kern

    OS/161 is a small uniprocessor kernel for the MIPS simulator sys161, in C.
    This development translates parts of it into executable definitions and
    proves what they do.  File names below are relative to src/src; "kern/..."
    is the kernel, "lib/libc/..." the C library files the kernel shares.

    ** The parts and how they fit

    - Memory: physical pages (kern/arch/mips/mips/ram.c), the kernel heap over them
      (kern/lib/kheap.c), and address spaces with their page faults and the TLB
      (kern/arch/mips/mips/dumbvm.c).
    - Containers: growable arrays, ring-buffer queues and bitmaps
      (kern/lib/array.c, queue.c, bitmap.c), allocated with kmalloc.
    - Threads (kern/thread/thread.c, scheduler.c, and the context switch of
      kern/arch/mips): the run queue is a queue, the sleeping and the dead
      threads are arrays.  fork preallocates room in all three so that a switch
      never needs memory.
    - Synchronization (kern/thread/synch.c, hardclock.c): semaphores, locks and
      condition variables, made atomic by turning interrupts off.
    - An exercise on them, cats and mice (kern/asst1/catsem.c).
    - Strings and memory blocks (lib/libc), used everywhere.
    - User memory (kern/lib/copyinout.c, kern/userprog/uio.c): transfers between
      the kernel and a region described by a uio.
    - The disk driver (kern/dev/lamebus/lhd.c), a block device.
    - SFS, the file system (kern/fs/sfs): blocks from the device, a free map that
      is a bitmap, files as an inode with direct and indirect blocks, and one
      directory that is a file of 64-byte entries; and, on a mounted volume, the
      table of the vnodes in memory with their reference counts
      (kern/fs/vfs/vnode.c).
    - The VFS layer (kern/fs/vfs): the table of named devices and what is mounted on
      them, pathnames, the current directory and the boot file system; devices as
      vnodes.  It calls file systems through tables of operations, and shares their
      vnodes with its callers by reference counts.
    - mksfs (sbin/mksfs), the program that makes a volume, outside of the kernel.
    - The console: the serial port and its interrupt (kern/dev/lamebus/lser.c), the
      console device (kern/dev/generic/console.c), printing (lib/libc/__printf.c,
      snprintf.c, kern/lib/kprintf.c), line input (kern/lib/kgets.c, with
      kern/dev/generic/beep.c) and the menu over them (kern/main/menu.c).

    ** The files

    - [Prelude]: machine integers with their wrap-around, the error codes of
      kern/include/kern/errno.h, the option monad in which failed assertions,
      panics and accesses out of bounds are [None], and lemmas about lists cut and
      overwritten in the middle.
    - [Kmem]: what kmalloc and kfree promise, as the class [KmallocLaws]; the
      heap [CountdownHeap], which runs out after a given number of allocations,
      meets it and is used where a theorem is evaluated.
    - [Kheap]: the allocator, over any source of pages (the class [KpagesLaws]);
      [KheapInv], [KheapOps]: the pages, the free lists threaded through their blocks
      and the lists of page descriptors ([rep]); [KheapSpec]: the proof that it meets
      [KmallocLaws]; [Ram]: physical memory, which meets [KpagesLaws]; [KheapRun]: the
      two together.
    - [Dumbvm]: address spaces; [DumbvmInv], [DumbvmSpec]: which memory belongs to
      whom, in every state of a machine with any number of spaces; [DumbvmCopy]:
      copies of a space.
    - [Array], [Queue], [Bitmap]: one definition per C function, the invariants
      [array_wf], [queue_wf], [bitmap_wf], and the lists the structures stand for.
    - [Thread]: the globals of thread.c and scheduler.c as the record [tsys], one
      definition per function, cut where the processor leaves a thread;
      [ThreadInv], [ThreadOps]: the invariant that every thread is in one place,
      and what the operations do to it; [ThreadSpec]: the theorems.
    - [Synch]: the primitives and the machine they run on, as a step function
      over labels (any call by the running thread, any interrupt, the idle loop);
      [SynchInv]: the abstract specification with counts and owners, the
      simulation, and the theorems about runs; [Fair]: which thread runs when.
    - [Catsem]: the cats, the mice and their driver as sequences of actions, the
      invariant of every interleaving, and three runs.
    - [Cstring]: the string and memory functions, on lists of bytes.
    - [Uio]: virtual memory as a partial map from addresses to bytes, an access to
      an unmapped user address being the fault that copyfail recovers from;
      [uio_moved] is the relation every transfer is specified with.
    - [Device]: the contract of a block device, the class [DeviceLaws], with reads and
      writes that may fail, and the disks on which no write fails ([dev_ok]); [Lhd]: the
      driver, which meets it for any card that does what its status codes say
      ([LhdCardLaws]), and a simulated card on which everything can be run.
    - [SfsDisk]: the structs of kern/include/kern/sfs.h and their bytes;
      [Sfs]: sfs_io.c and the file and directory level of sfs_vnode.c;
      [SfsBlock], [SfsBmap], [SfsFile], [SfsDir], [SfsTrunc]: what the functions
      do to the bytes of a file, to the entries of a directory and to the rest
      of the volume; [SfsSpec]: the theorems, and an example volume.
    - [SfsMount]: vnode.c, the operations of sfs_vnode.c on the table of vnodes and
      on names, and sfs_fs.c, on the record [mnt] of a mounted volume;
      [SfsVol] (a volume of many files), [SfsTree] (the directory and the link
      counts agree: [tree_wf]), [SfsTable] (the table and the memory it owns),
      [SfsVnodes] (the invariant [mnt_ok], loading and reclaiming), [SfsNames],
      [SfsOps] (look up, create, link, remove, rename), [SfsSync] (sync, unmount,
      mount); [SfsClient]: the abstract volume and the proof that each call refines
      it; [SfsImage]: a disk that can be mounted; [SfsMountSpec]: the theorems.
    - [Vfs]: vfslist.c, vfslookup.c, vfscwd.c and vfspath.c on the record [vfs], over
      the class [Vnodes] of the operations of vnodes and file systems; [VfsInv]: the
      laws of that class and the invariant, in which each reference to a vnode has one
      owner; [VfsOps], [VfsTable], [VfsAdd]: that the operations on paths, on the table
      and on new devices keep it; [VfsNames]: what a name stands for.
    - [VfsDev]: device.c, devnull.c, and the system [sys] of devices and mounted SFS
      volumes on one heap, as an instance of [Vnodes]; [VfsSfs], [VfsLaws], [VfsMount]:
      the proof that it meets the laws; [VfsSpec]: runs of the layer from the start of
      the kernel, a kernel with one disk, and the theorems.
    - [Mksfs]: mksfs.c and disk.c, over the class [DiskFile] of the system calls;
      [MksfsSpec]: the volume it writes, and that the kernel mounts it.
    - [Printf]: the state machine of __printf.c, and snprintf; [PrintfSpec]: formats as
      lists of pieces, what each prints, and the proof that the machine prints it.
    - [Serial]: lser.c and the part of console.c that talks to it, as steps of threads,
      the card and its interrupt, and the theorems on every interleaving.
    - [Console]: the rest of console.c, kprintf.c, beep.c and kgets.c, on the record
      [console], for the one thread that prints and reads; [ConsoleSpec]: a terminal, the
      line that keys make, and the theorems.
    - [Menu]: menu.c on a line that all words are pointers into, over any commands, and
      strerror; [MenuSpec]: lines as lists of words, what they do, and the theorem.

    ** What the theorems show

    - Memory: for any sequence of calls the heap gives out blocks that do not overlap
      and loses none; a running program reaches its own pages and nothing else; a copy
      of a space has the bytes of the original in pages of its own.
    - Containers: each operation does to the list or the set of bits what its name
      says, keeps the invariant, and changes nothing when it returns ENOMEM; what
      preallocation is good for, and where it falls one short.
    - Threads: fork is all or nothing, wakeup moves exactly the sleepers of an
      address, zombies are freed completely, a preallocated switch cannot fail;
      two programs that do fail: a yield with 32 threads, and a wakeup_one that
      wakes two.
    - Synchronization: in every run locks are exclusive and counts are right, and
      no thread sleeps on an object it need not wait for; a ready thread and one
      whose object is given up get the processor after a bounded number of switches;
      a run in which cv_wait loses a wakeup; in catsem.c no dish is ever shared, but a
      cat and a mouse can eat at the same time.
    - User memory and strings: transfers touch what they say and nothing else for
      any pointer a program may pass; the word and byte loops of memmove are one
      copy.
    - Disk and SFS: the driver is a block device, whatever errors the medium has; on a
      disk on which no write fails, reading, writing, truncating, finding, linking and
      unlinking do to the one file exactly what is stated, and nothing to any other,
      with every error traced to its cause; the on-disk structs lose nothing.  A write
      that the disk refuses is reported as done ([SfsSpec.sfs_wblock_loses_write]),
      which is why the theorems on contents are for disks on which no write fails.
    - Mounted volumes, on such disks: every program of calls that keeps to the rules of
      the vnode interface runs as on an abstract volume of names and contents; mounting,
      running it, and unmounting leaves no memory behind and the result on the
      disk; what was synced is there after the next mount.
    - VFS: after any calls every reference to a vnode has its one owner, so that no
      vnode goes away in use and none stays for ever (but for those lost when a device
      cannot be added); names lead where the table says; a volume that can be unmounted
      is on its disk afterwards; the types of vnodes, and where a device can be sought.
      The disks that are mounted hold a well-formed volume and have no errors.
    - mksfs: what it writes, however its writes are cut up and interrupted, is an empty
      volume for the kernel.
    - Console: every character is sent once and in order, under every interleaving with
      the card; printf prints what its manual page says, but for percent X; what is
      printed before there is a console comes out first; kgets returns the line that the
      terminal shows; a line of the menu does what its words say.

    ** Bounds

    Loops of the source over a counter are structural recursions on that counter.
    Where the source loops on a condition there is fuel, and a lemma that it is
    enough: 32 turns for the doubling of an array's size (a 32-bit word), the
    length of the list of sleepers for the scans of it, one level of nesting for
    [q_addtail], eleven attempts in [rwblock_retry] (the source's own limit),
    the length of the request in [uiomove_loop], and the number of page descriptors,
    256, for the lists of pages in the heap; in mksfs 512 turns and one for each
    interruption for the write of a block; 12 digits for a number printf prints, which
    is the size of its buffer; and in kgets and the menu one turn more than there are
    keys or bytes.  Volumes are limited to 2^31 bytes, the range of off_t, and file
    offsets likewise where a theorem says so.  Requests for memory are limited to 3.5
    gigabytes ([kmalloc_size], [DumbvmSpec.vmop_ok]), above which the 32-bit sums of
    ram.c wrap around ([Ram.ram_stealmem_wraps]), and queues to 2^26 elements.

    ** What is not modelled

    - Exceptions and program loading.
    - The emulated file system of kern/dev/lamebus/emu.c, the one caller of vfs_addfs;
      [vfs_addfs] is a definition, and the runs of [VfsSpec] do not call it.
    - System calls, open files and processes (kern/arch/mips/mips/syscall.c,
      kern/userprog/file.c and process.c), which do not compile or write through
      pointers that were never set; kern/asst1/catlock.c, which stops the kernel as
      soon as three animals have come, and stoplight.c, which is empty.
    - vm/addrspace.c, which is not part of a kernel with dumbvm.c; the statistics of
      kheap.c, which it prints; and the checks under SLOW, which are not compiled.
    - Drivers other than the disk, the console and the serial port, and config_lhd: they
      only access hardware.
    - The commands of the menu, which are a parameter of it; kern/main/main.c, which calls
      the others at startup.
    - Messages that are printed elsewhere than in the files of the console: they have no
      effect on the state of what prints them.
    - User programs other than mksfs.

    Within what is modelled, pointers are addresses (integers, 0 for NULL) into
    maps of structures; buffers that a function only fills and reads are values.
    The SFS functions take no locks in the source and are modelled as sequential
    code; so is the VFS layer, for the one thread that holds its locks: taking a lock
    a second time is [None]; the semaphores of the driver are counted, and the card answers before
    the waiting thread goes on. *)

From stdpp Require Import base option list gmap numbers.
From Stdlib Require Import ZArith Lia.

#[global] Open Scope Z_scope.

(** ** Machine integers

    [int] is a 32-bit two's complement word and [u_int32_t], [size_t],
    [vaddr_t] are 32-bit unsigned words; [u_int16_t] and [unsigned char] are
    16 and 8 bits wide.  A value is a [Z] in range; an operation that can leave
    the range is written with the wrap-around around it. *)

Definition u32 (x : Z) : Z := x `mod` 2 ^ 32.
Definition u16 (x : Z) : Z := x `mod` 2 ^ 16.
Definition u8 (x : Z) : Z := x `mod` 2 ^ 8.
Definition s32 (x : Z) : Z := (x + 2 ^ 31) `mod` 2 ^ 32 - 2 ^ 31.
Definition s8 (x : Z) : Z := (x + 2 ^ 7) `mod` 2 ^ 8 - 2 ^ 7.

Definition is_u32 (x : Z) : Prop := 0 <= x < 2 ^ 32.
Definition is_s32 (x : Z) : Prop := - 2 ^ 31 <= x < 2 ^ 31.
Definition is_byte (x : Z) : Prop := 0 <= x < 256.

Lemma u32_id x : is_u32 x -> u32 x = x.
Proof. intros ?. by apply Z.mod_small. Qed.

Lemma u16_id x : 0 <= x < 2 ^ 16 -> u16 x = x.
Proof. intros ?. by apply Z.mod_small. Qed.

Lemma u8_id x : is_byte x -> u8 x = x.
Proof. intros ?. by apply Z.mod_small. Qed.

Lemma s32_id x : is_s32 x -> s32 x = x.
Proof. unfold is_s32, s32. intros ?. rewrite Z.mod_small; lia. Qed.

Lemma u32_range x : is_u32 (u32 x).
Proof. unfold is_u32, u32. apply Z.mod_pos_bound. lia. Qed.

Lemma s32_range x : is_s32 (s32 x).
Proof.
  unfold is_s32, s32. pose proof (Z.mod_pos_bound (x + 2 ^ 31) (2 ^ 32)). lia.
Qed.

Lemma u32_u32_add x y : u32 (u32 x + y) = u32 (x + y).
Proof. unfold u32. by rewrite Zplus_mod_idemp_l. Qed.

Lemma u32_u32_sub x y : u32 (u32 x - y) = u32 (x - y).
Proof. unfold u32. by rewrite Zminus_mod_idemp_l. Qed.

Lemma s32_s32_add x y : s32 (s32 x + y) = s32 (x + y).
Proof.
  unfold s32. f_equal.
  replace ((x + 2 ^ 31) `mod` 2 ^ 32 - 2 ^ 31 + y + 2 ^ 31)
    with ((x + 2 ^ 31) `mod` 2 ^ 32 + y) by lia.
  rewrite Zplus_mod_idemp_l. f_equal. lia.
Qed.

(** One turn around a ring of [s] slots. *)
Lemma mod_wrap_up x s : s <= x < 2 * s -> x `mod` s = x - s.
Proof. intros ?. symmetry. apply (Z.mod_unique_pos x s 1); lia. Qed.

Lemma mod_wrap_down x s : - s <= x < 0 -> x `mod` s = x + s.
Proof. intros ?. symmetry. apply (Z.mod_unique_pos x s (-1)); lia. Qed.

(** ** Error numbers (kern/include/kern/errno.h) *)

Definition EINVAL : Z := 1.
Definition EFAULT : Z := 2.
Definition ENAMETOOLONG : Z := 3.
Definition ENOMEM : Z := 4.
Definition EIO : Z := 5.
Definition ENOENT : Z := 6.
Definition ENOTDIR : Z := 7.
Definition EISDIR : Z := 8.
Definition EEXIST : Z := 9.
Definition EXDEV : Z := 10.
Definition EAGAIN : Z := 11.
Definition ESPIPE : Z := 12.
Definition EUNIMP : Z := 13.
Definition ENXIO : Z := 14.
Definition ENODEV : Z := 15.
Definition EBUSY : Z := 16.
Definition EIOCTL : Z := 17.
Definition ENOTEMPTY : Z := 18.
Definition ERANGE : Z := 19.
Definition ENOSPC : Z := 20.
Definition EMFILE : Z := 21.
Definition ENFILE : Z := 22.
Definition ENOSYS : Z := 23.
Definition ENOEXEC : Z := 24.
Definition E2BIG : Z := 25.
Definition EBADF : Z := 26.

(** ** The highest interrupt level (kern/arch/mips/include/spl.h) *)

Definition SPL_HIGH : Z := 15.

(** ** Effects

    A kernel function that can hit [assert] or [panic] returns an [option]:
    [None] is the panic (the machine stops), [Some] a normal return.  State is
    passed explicitly; stdpp's option monad sequences the calls, and
    [ASSERT b ;; k] is the source's [assert(b)]. *)

Declare Scope kernel_scope.
Delimit Scope kernel_scope with kernel.
#[global] Open Scope kernel_scope.

Notation "'ASSERT' b ';;' k" := (if b then k else None)
  (at level 10, b at level 99, k at level 200,
   format "'ASSERT'  b ';;' '//' k") : kernel_scope.

(** ** Tactics *)

(** Split a panic check in a hypothesis or in the goal. *)
Ltac step_if :=
  match goal with
  | H : context [if ?b then _ else _] |- _ => destruct b eqn:?; simplify_eq/=
  | |- context [if ?b then _ else _] => destruct b eqn:?; simplify_eq/=
  end.

(** Turn boolean comparisons into propositions. *)
Ltac boolify :=
  repeat match goal with
  | H : (_ && _) = true |- _ => apply andb_prop in H as [? ?]
  | H : (_ && _) = false |- _ => apply andb_false_iff in H
  | H : (_ || _) = true |- _ => apply orb_prop in H
  | H : (_ || _) = false |- _ => apply orb_false_elim in H as [? ?]
  | H : negb _ = true |- _ => apply negb_true_iff in H
  | H : negb _ = false |- _ => apply negb_false_iff in H
  | H : (_ =? _) = true |- _ => apply Z.eqb_eq in H
  | H : (_ =? _) = false |- _ => apply Z.eqb_neq in H
  | H : (_ <? _) = true |- _ => apply Z.ltb_lt in H
  | H : (_ <? _) = false |- _ => apply Z.ltb_ge in H
  | H : (_ <=? _) = true |- _ => apply Z.leb_le in H
  | H : (_ <=? _) = false |- _ => apply Z.leb_gt in H
  | H : bool_decide _ = true |- _ => apply bool_decide_eq_true in H
  | H : bool_decide _ = false |- _ => apply bool_decide_eq_false in H
  end.

(** [lia] with quotients and remainders replaced by their equations. *)
Ltac zdm := Z.div_mod_to_equations; lia.

(** Discharge a wrap-around whose argument is in range. *)
Ltac nowrap :=
  repeat first
    [ rewrite s32_id by (unfold is_s32; lia)
    | rewrite u32_id by (unfold is_u32; lia)
    | rewrite u16_id by lia
    | rewrite u8_id by (unfold is_byte; lia) ].

(** Invert the binds of the option monad in the hypotheses. *)
Ltac inv_bind :=
  repeat match goal with
  | H : mbind _ _ = Some _ |- _ =>
      let x := fresh "r" in let E := fresh "E" in
      apply bind_Some in H as (x & E & H)
  | x : (_ * _)%type |- _ => destruct x
  end; simplify_eq/=.

(** ** Lists shared by the components *)

Create Rewrite HintDb len.
#[export] Hint Rewrite @length_app @length_take @length_drop @length_replicate
  @length_insert @length_fmap @length_cons @length_nil : len.

Ltac len := autorewrite with len in *; try lia.

Lemma list_insert_app_mid {A} (l1 l2 : list A) x y :
  <[length l1 := y]> (l1 ++ x :: l2) = l1 ++ y :: l2.
Proof. rewrite insert_app_r_alt; [|lia]. by rewrite Nat.sub_diag. Qed.

Lemma lookup_replicate_Some {A} (n i : nat) (x y : A) :
  replicate n x !! i = Some y -> y = x.
Proof. intros H. by apply lookup_replicate in H as []. Qed.

(** [splice l i l'] overwrites the elements of [l] from index [i] on with
    [l']; it is what a block copy into an array does. *)
Definition splice {A} (l : list A) (i : nat) (l' : list A) : list A :=
  take i l ++ l' ++ drop (i + length l') l.

Section splice.
Context {A : Type}.
Implicit Types l : list A.

Lemma length_splice l i l' :
  (i + length l' <= length l)%nat -> length (splice l i l') = length l.
Proof. intros ?. unfold splice. len. Qed.

Lemma lookup_splice_lt l i l' j :
  (j < i)%nat -> (i <= length l)%nat -> splice l i l' !! j = l !! j.
Proof.
  intros ??. unfold splice. rewrite lookup_app_l by len.
  by rewrite lookup_take_lt.
Qed.

Lemma lookup_splice_mid l i l' j :
  (i <= j < i + length l')%nat -> (i <= length l)%nat ->
  splice l i l' !! j = l' !! (j - i)%nat.
Proof.
  intros ??. unfold splice. rewrite lookup_app_r by len.
  rewrite lookup_app_l by len. f_equal. len.
Qed.

Lemma lookup_splice_ge l i l' j :
  (i + length l' <= j)%nat -> (i <= length l)%nat ->
  splice l i l' !! j = l !! j.
Proof.
  intros ??. unfold splice. rewrite lookup_app_r by len.
  rewrite lookup_app_r by len. rewrite lookup_drop. f_equal. len.
Qed.

Lemma splice_nil l i : splice l i [] = l.
Proof. unfold splice. simpl. rewrite Nat.add_0_r. apply take_drop. Qed.

Lemma lookup_splice l i l' j :
  (i + length l' <= length l)%nat ->
  splice l i l' !! j =
    if decide (i <= j < i + length l')%nat then l' !! (j - i)%nat else l !! j.
Proof.
  intros ?. case_decide.
  - by rewrite lookup_splice_mid by lia.
  - destruct (decide (j < i)%nat); [by rewrite lookup_splice_lt by lia|].
    by rewrite lookup_splice_ge by lia.
Qed.

Lemma lookup_take_drop l k n j :
  take n (drop k l) !! j = if decide (j < n)%nat then l !! (k + j)%nat else None.
Proof.
  case_decide; [by rewrite lookup_take_lt, lookup_drop|].
  apply lookup_take_ge. lia.
Qed.

(** A block read away from the part that was overwritten is as before. *)
Lemma take_drop_splice_ne l i l' k n :
  (i + length l' <= length l)%nat ->
  (k + n <= i \/ i + length l' <= k)%nat ->
  take n (drop k (splice l i l')) = take n (drop k l).
Proof.
  intros Hl Hk. apply list_eq. intros j. rewrite !lookup_take_drop.
  case_decide; [|done]. rewrite lookup_splice by done. by rewrite decide_False by lia.
Qed.

(** The part that was overwritten reads back. *)
Lemma take_drop_splice l i l' :
  (i + length l' <= length l)%nat -> take (length l') (drop i (splice l i l')) = l'.
Proof.
  intros Hl. apply list_eq. intros j. rewrite lookup_take_drop.
  case_decide.
  - rewrite lookup_splice by done. rewrite decide_True by lia. f_equal. lia.
  - symmetry. apply lookup_ge_None. lia.
Qed.

(** Two adjacent block copies make one, in either order. *)
Lemma splice_adj_r l i l1 l2 :
  (i + length l1 + length l2 <= length l)%nat ->
  splice (splice l i l1) (i + length l1) l2 = splice l i (l1 ++ l2).
Proof.
  intros Hl. apply list_eq. intros j.
  rewrite !lookup_splice by (rewrite ?length_splice, ?length_app; lia).
  rewrite length_app. repeat case_decide; try lia; try done.
  - rewrite lookup_app_r by lia. f_equal. lia.
  - by rewrite lookup_app_l by lia.
Qed.

Lemma splice_adj_l l i l1 l2 :
  (i + length l1 + length l2 <= length l)%nat ->
  splice (splice l (i + length l1) l2) i l1 = splice l i (l1 ++ l2).
Proof.
  intros Hl. apply list_eq. intros j.
  rewrite !lookup_splice by (rewrite ?length_splice, ?length_app; lia).
  rewrite length_app. repeat case_decide; try lia; try done.
  - by rewrite lookup_app_l by lia.
  - rewrite lookup_app_r by lia. f_equal. lia.
Qed.

Lemma insert_splice l i x : (i < length l)%nat -> <[i := x]> l = splice l i [x].
Proof.
  intros ?. unfold splice. rewrite insert_take_drop by done. simpl.
  by rewrite Nat.add_1_r.
Qed.

Lemma take_add_drop l n k m :
  take (n + m) (drop k l) = take n (drop k l) ++ take m (drop (k + n) l).
Proof. by rewrite <- take_take_drop, drop_drop. Qed.
End splice.

(** ** Lists cut into blocks of one size *)

Section blocks.
Context {A : Type} (n : nat).
Implicit Types L : list (list A).

Definition all_of_size L : Prop := Forall (fun l => length l = n) L.

Lemma length_concat_size L : all_of_size L -> length (concat L) = (n * length L)%nat.
Proof.
  intros HL. induction HL as [|l L Hl _ IH]; simpl; [lia|]. rewrite length_app, IH. lia.
Qed.

Lemma concat_middle L k x :
  L !! k = Some x -> concat L = concat (take k L) ++ x ++ concat (drop (S k) L).
Proof.
  intros Hk. rewrite <- (take_drop_middle L k x Hk) at 1. by rewrite concat_app.
Qed.

Lemma length_concat_take L k :
  all_of_size L -> (k <= length L)%nat -> length (concat (take k L)) = (k * n)%nat.
Proof.
  intros HL Hk. rewrite length_concat_size by by apply Forall_take.
  rewrite length_take, Nat.min_l by done. lia.
Qed.

(** A part of one block, read out of the whole. *)
Lemma take_drop_concat L k x j m :
  all_of_size L -> L !! k = Some x -> (j + m <= n)%nat ->
  take m (drop (k * n + j) (concat L)) = take m (drop j x).
Proof.
  intros HL Hk Hj. pose proof (lookup_lt_Some _ _ _ Hk).
  assert (length x = n) as Hx by by eapply Forall_lookup_1 in HL.
  pose proof (length_concat_take L k HL ltac:(lia)) as El.
  rewrite (concat_middle L k x Hk), drop_app_ge by lia. rewrite El. replace (k * n + j - k * n)%nat with j by lia.
  rewrite drop_app_le by lia. rewrite take_app_le by (rewrite length_drop; lia). done.
Qed.

Lemma splice_app_middle (a x c bs : list A) j :
  (j + length bs <= length x)%nat ->
  splice (a ++ x ++ c) (length a + j) bs = a ++ splice x j bs ++ c.
Proof.
  intros Hj. unfold splice. rewrite take_app_add, take_app_le by lia.
  rewrite <- Nat.add_assoc, drop_app_add, drop_app_le by lia. by rewrite <- !app_assoc.
Qed.

(** A part of one block, overwritten in the whole. *)
Lemma splice_concat L k x j bs :
  all_of_size L -> L !! k = Some x -> (j + length bs <= n)%nat ->
  concat (<[k := splice x j bs]> L) = splice (concat L) (k * n + j) bs.
Proof.
  intros HL Hk Hj. pose proof (lookup_lt_Some _ _ _ Hk).
  assert (length x = n) as Hx by by eapply Forall_lookup_1 in HL.
  rewrite (concat_middle L k x Hk), <- (length_concat_take L k) by (done || lia).
  rewrite splice_app_middle by lia. rewrite insert_take_drop by done.
  rewrite concat_app. done.
Qed.
End blocks.

