(* ===== verification/Kmem.v ===== *)
(** * The kernel allocator as the other components see it

    [kmalloc] and [kfree] (kern/include/lib.h, implemented in
    kern/lib/kheap.c) are used by every container of the kernel.  [Kmalloc]
    is the pair of operations over a heap state [H]; [KmallocLaws] is the
    contract its clients are verified against: an allocation either fails with
    [NULL] and changes nothing the clients can see, or returns a fresh block
    disjoint from every live one, and freeing a live block never panics.
    [CountdownHeap] is an executable heap with a bounded number of
    allocations, used where a theorem about a client is evaluated. *)

From stdpp Require Import base option list gmap fin_maps numbers.
From S2P Require Import Prelude.

(** The operations; [None] is a panic and address 0 is [NULL]. *)
Class Kmalloc (H : Type) := {
  kmalloc : Z -> H -> option (Z * H);
  kfree : Z -> H -> option H;
}.

(** The sizes the contract is for, up to 3.5 gigabytes.  Near 2^32 the arithmetic of
    ram.c and of the rounding to pages in kheap.c wraps around. *)
Definition kmalloc_size (sz : Z) : Prop := 0 <= sz <= 7 * 2 ^ 29.

(** [blocks h] maps the address of each live block to the size asked for. *)
Class KmallocLaws (H : Type) `{!Kmalloc H} := {
  heap_ok : H -> Prop;
  blocks : H -> gmap Z Z;
  kmalloc_total h sz :
    heap_ok h -> kmalloc_size sz -> is_Some (kmalloc sz h);
  kmalloc_null h h' sz :
    heap_ok h -> kmalloc_size sz -> kmalloc sz h = Some (0, h') ->
    heap_ok h' /\ blocks h' = blocks h;
  kmalloc_block h h' sz p :
    heap_ok h -> kmalloc_size sz -> kmalloc sz h = Some (p, h') -> p <> 0 ->
    heap_ok h' /\ blocks h !! p = None /\ blocks h' = <[p := sz]> (blocks h);
  kfree_live h p :
    heap_ok h -> is_Some (blocks h !! p) ->
    exists h', kfree p h = Some h' /\ heap_ok h' /\
               blocks h' = delete p (blocks h);
  kfree_null h : kfree 0 h = Some h;
  blocks_range h p n :
    heap_ok h -> blocks h !! p = Some n -> 0 < p /\ 0 <= n /\ p + n <= 2 ^ 32;
  blocks_aligned h p n : heap_ok h -> blocks h !! p = Some n -> p `mod` 4 = 0;
  blocks_disjoint h p q n m :
    heap_ok h -> blocks h !! p = Some n -> blocks h !! q = Some m ->
    p <> q -> p + n <= q \/ q + m <= p;
}.

(** [kstrdup] (kern/lib/misc.c): a fresh block with the bytes of the string and
    its terminating zero.  The result is the pointer with the bytes it points
    to, or [None] for [NULL]. *)
Definition kstrdup {H} `{!Kmalloc H} (s : list Z) (h : H) :
    option (option (Z * list Z) * H) :=
  '(z, h) ← kmalloc (u32 (Z.of_nat (length s) + 1)) h;
  if z =? 0 then Some (None, h) else Some (Some (z, s), h).

(** ** An executable heap that can run dry *)

Module CountdownHeap.
Record heap := Heap {
  next : Z;             (* first address never handed out *)
  left : nat;           (* allocations that will still succeed *)
  used : gmap Z Z;      (* live blocks *)
}.

Definition alloc (sz : Z) (h : heap) : option (Z * heap) :=
  match left h with
  | O => Some (0, h)
  | S n =>
      if 2 ^ 32 <=? next h + sz then Some (0, h)
      else Some (next h, {| next := next h + (sz / 4 + 1) * 4; left := n;
                            used := <[next h := sz]> (used h) |})
  end.

Definition free (p : Z) (h : heap) : option heap :=
  if p =? 0 then Some h
  else ASSERT bool_decide (is_Some (used h !! p)) ;;
       Some {| next := next h; left := left h; used := delete p (used h) |}.

Definition ok (h : heap) : Prop :=
  (1 <= next h <= 2 ^ 32 + 3 /\ next h `mod` 4 = 0) /\
  (forall p n, used h !! p = Some n ->
     (0 < p /\ p `mod` 4 = 0) /\ 0 <= n /\ p + n < next h /\ p + n < 2 ^ 32) /\
  (forall p q n m, used h !! p = Some n -> used h !! q = Some m -> p <> q ->
                   p + n <= q \/ q + m <= p).

#[global] Instance countdown_kmalloc : Kmalloc heap :=
  {| kmalloc := alloc; kfree := free |}.

Lemma alloc_ok h h' sz p :
  ok h -> 0 <= sz -> alloc sz h = Some (p, h') -> p <> 0 ->
  ok h' /\ used h !! p = None /\ used h' = <[p := sz]> (used h).
Proof.
  intros (Hn & Hb & Hd) Hsz Ha Hp. unfold alloc in Ha.
  destruct (left h) as [|k]; simplify_eq. destruct (_ <=? _) eqn:El; boolify; simplify_eq.
  assert (sz < (sz / 4 + 1) * 4 <= sz + 4) by zdm.
  split_and!; simpl; [split_and!; simpl|..].
  - lia.
  - lia.
  - rewrite Z.add_mod, Z.mod_mul, Z.add_0_r, Z.mod_mod by done. apply Hn.
  - intros p n [[<- <-]|[? Hl]]%lookup_insert_Some; [split_and!; lia|].
    apply Hb in Hl. split_and!; lia.
  - intros p q n m [[<- <-]|[? Hl]]%lookup_insert_Some
      [[<- <-]|[? Hl']]%lookup_insert_Some ?; [done|..|eauto].
    + apply Hb in Hl'. lia.
    + apply Hb in Hl. lia.
  - destruct (used h !! next h) eqn:E; [|done]. apply Hb in E. lia.
  - done.
Qed.

#[global] Program Instance countdown_laws : KmallocLaws heap :=
  {| heap_ok := ok; blocks := used |}.
Next Obligation. intros h sz _ _. simpl. unfold alloc.
  destruct (left h); [eauto|]. destruct (_ <=? _); eauto.
Qed.
Next Obligation.
  intros h h' sz Hok _. simpl. unfold alloc.
  destruct (left h); intros; simplify_eq; [done|]. destruct (_ <=? _); simplify_eq; [done|].
  destruct Hok as (? & _). lia.
Qed.
Next Obligation. intros h h' sz p Hok [? _]. by apply alloc_ok. Qed.
Next Obligation.
  intros h p (Hn & Hb & Hd) Hl. simpl. unfold free.
  destruct Hl as [n Hl]. pose proof (Hb _ _ Hl).
  rewrite (proj2 (Z.eqb_neq p 0)) by lia.
  rewrite bool_decide_eq_true_2 by eauto. eexists; split; [done|].
  split; [|done]. split_and!; simpl; [lia|lia|apply Hn|..].
  - intros q m [? ?]%lookup_delete_Some. eauto.
  - intros q r m k [? ?]%lookup_delete_Some [? ?]%lookup_delete_Some. eauto.
Qed.
Next Obligation. done. Qed.
Next Obligation.
  intros h p n (? & Hb & _) Hl. simpl in Hl. apply Hb in Hl. lia.
Qed.
Next Obligation.
  intros h p n (? & Hb & _) Hl. simpl in Hl. apply Hb in Hl. apply Hl.
Qed.
Next Obligation. intros h p q n m (_ & _ & Hd). simpl. eauto. Qed.

Definition fresh (n : nat) : heap := {| next := 4; left := n; used := ∅ |}.

Lemma fresh_ok n : ok (fresh n).
Proof. split_and!; simpl; [lia|lia|done|..]; intros *; by rewrite ?lookup_empty. Qed.
End CountdownHeap.

(** ** Ownership of blocks by a container

    [owns h ps] says the addresses in [ps] are distinct live blocks;
    [same_others h ps h' ps'] says an operation that turned the blocks [ps]
    into [ps'] left every other block alone and that no other block is live
    afterwards: it leaks nothing. *)

Section ownership.
Context {H : Type} `{KmallocLaws H}.

Definition owns (h : H) (ps : list Z) : Prop :=
  NoDup ps /\ forall p, p ∈ ps -> is_Some (blocks h !! p).

Definition same_others (h : H) (ps : list Z) (h' : H) (ps' : list Z) : Prop :=
  forall q n, ((q ∉ ps) /\ blocks h !! q = Some n) <-> ((q ∉ ps') /\ blocks h' !! q = Some n).

Lemma same_others_blocks h ps h' : blocks h' = blocks h -> same_others h ps h' ps.
Proof. intros E q n. by rewrite E. Qed.

Lemma same_others_refl h ps : same_others h ps h ps.
Proof. by apply same_others_blocks. Qed.

Lemma same_others_trans h1 ps1 h2 ps2 h3 ps3 :
  same_others h1 ps1 h2 ps2 -> same_others h2 ps2 h3 ps3 ->
  same_others h1 ps1 h3 ps3.
Proof. intros H1 H2 q n. by rewrite (H1 q n), (H2 q n). Qed.

Lemma same_others_nil h h' : same_others h [] h' [] -> blocks h' = blocks h.
Proof.
  intros Hs. apply map_eq. intros q. apply option_eq. intros n. specialize (Hs q n).
  rewrite !list.elem_of_nil in Hs. tauto.
Qed.

Lemma same_others_live h ps h' ps' q :
  same_others h ps h' ps' -> q ∉ ps -> is_Some (blocks h !! q) ->
  (q ∉ ps') /\ blocks h' !! q = blocks h !! q.
Proof.
  intros Hs Hq [n Hn]. destruct (proj1 (Hs q n)) as [? E]; [done|].
  split; [done|]. by rewrite E, Hn.
Qed.

Lemma owns_fresh h h' sz p ps :
  heap_ok h -> kmalloc_size sz -> kmalloc sz h = Some (p, h') -> p <> 0 ->
  owns h ps -> heap_ok h' /\ owns h' (p :: ps) /\ same_others h ps h' (p :: ps).
Proof.
  intros Hok Hsz Hk Hp [Hnd Hl].
  destruct (kmalloc_block _ _ _ _ Hok Hsz Hk Hp) as (Hok' & Hf & Hb).
  split; [done|]. split; [split|].
  - apply list.NoDup_cons; split; [|done]. intros Hin. apply Hl in Hin. rewrite Hf in Hin.
    by destruct Hin.
  - intros q [->|Hin]%elem_of_cons; rewrite Hb, lookup_insert;
      case_decide; naive_solver.
  - intros q n. rewrite Hb, elem_of_cons, lookup_insert_Some.
    split; [|naive_solver]. intros [Hq Hn].
    assert (q <> p) by (intros ->; rewrite Hf in Hn; done). naive_solver.
Qed.

Lemma owns_free h p ps1 ps2 :
  heap_ok h -> owns h (ps1 ++ p :: ps2) ->
  exists h', kfree p h = Some h' /\ heap_ok h' /\ owns h' (ps1 ++ ps2) /\
             same_others h (ps1 ++ p :: ps2) h' (ps1 ++ ps2).
Proof.
  intros Hok [Hnd Hl]. destruct (kfree_live h p Hok) as (h' & Hk & Hok' & Hb).
  { apply Hl. set_solver. }
  exists h'. apply list.NoDup_app in Hnd as (Hn1 & Hd & Hn2).
  apply list.NoDup_cons in Hn2 as [Hp2 Hn2].
  split; [done|]. split; [done|]. split; [split|].
  - apply list.NoDup_app. split_and!; [done| |done]. intros x Hx. specialize (Hd x Hx).
    set_solver.
  - intros q Hq. assert (q <> p).
    { intros ->. apply elem_of_app in Hq as [Hq|Hq]; [|done].
      specialize (Hd _ Hq). set_solver. }
    rewrite Hb, lookup_delete_ne by done. apply Hl. set_solver.
  - intros q n. rewrite Hb, lookup_delete_Some, !elem_of_app, elem_of_cons.
    specialize (Hd p). set_unfold. naive_solver.
Qed.
(** Ownership does not depend on the order, and splits. *)
#[global] Instance owns_proper h : Proper ((≡ₚ) ==> iff) (owns h).
Proof.
  intros ps ps' E. unfold owns. rewrite E.
  split; intros [? Hl]; (split; [done|]); intros p Hp; apply Hl; by rewrite E in *.
Qed.

Lemma owns_app h ps1 ps2 :
  owns h (ps1 ++ ps2) <->
  owns h ps1 /\ owns h ps2 /\ forall p, p ∈ ps1 -> p ∉ ps2.
Proof.
  unfold owns. rewrite list.NoDup_app. setoid_rewrite elem_of_app. naive_solver.
Qed.

(** An operation on the blocks [ps] keeps what else is owned. *)
Lemma owns_frame h ps h' ps' rest :
  same_others h ps h' ps' -> owns h' ps' -> owns h (ps ++ rest) -> owns h' (ps' ++ rest).
Proof.
  intros Hs Ho' (Ho & Hr & Hd)%owns_app. apply owns_app.
  assert (forall q, q ∈ rest -> (q ∉ ps') /\ blocks h' !! q = blocks h !! q) as Hq.
  { intros q Hq. apply (same_others_live h ps); [done| |by apply Hr].
    intros Hps. by apply (Hd q). }
  split_and!; [done| |].
  - split; [apply Hr|]. intros p Hp. destruct (Hq p Hp) as [_ ->]. by apply Hr.
  - intros p Hp Hr'. by apply (Hq p Hr').
Qed.

(** With the rest of the owned blocks in view, nothing else changes either. *)
Lemma same_others_app h ps h' ps' rest :
  same_others h ps h' ps' -> same_others h (ps ++ rest) h' (ps' ++ rest).
Proof.
  intros Hs q n. specialize (Hs q n). rewrite !elem_of_app. tauto.
Qed.

#[global] Instance same_others_proper h :
  Proper ((≡ₚ) ==> eq ==> (≡ₚ) ==> iff) (same_others h).
Proof.
  intros ps1 ps2 E h' _ <- ps1' ps2' E'. unfold same_others.
  by setoid_rewrite E; setoid_rewrite E'.
Qed.

(** [h'] is [h] with the blocks [ps] freed. *)
Definition freed (h : H) (ps : list Z) (h' : H) : Prop :=
  heap_ok h' /\ forall q, blocks h' !! q = if decide (q ∈ ps) then None else blocks h !! q.

Lemma freed_nil h : heap_ok h -> freed h [] h.
Proof. intros Hok. split; [done|]. intros q. by rewrite decide_False by set_solver. Qed.

Lemma freed_trans h1 ps h2 ps' h3 : freed h1 ps h2 -> freed h2 ps' h3 -> freed h1 (ps ++ ps') h3.
Proof.
  intros [_ H12] [Hok H23]. split; [done|]. intros q. rewrite H23, H12.
  repeat case_decide; set_solver.
Qed.

Lemma freed_owns h ps h' rest :
  freed h ps h' -> owns h (ps ++ rest) -> owns h' rest.
Proof.
  intros [_ Hf] (_ & [Hnd Hl] & Hd)%owns_app. split; [done|]. intros p Hp.
  rewrite Hf, decide_False; [by apply Hl|]. intros Hps. by apply (Hd p).
Qed.

Lemma kfree_freed h p :
  heap_ok h -> is_Some (blocks h !! p) -> exists h', kfree p h = Some h' /\ freed h [p] h'.
Proof.
  intros Hok Hp. destruct (kfree_live h p Hok Hp) as (h' & -> & Hok' & Hb).
  exists h'. split; [done|]. split; [done|]. intros q. rewrite Hb.
  case_decide as Hq; [apply list_elem_of_singleton in Hq as ->; by rewrite lookup_delete_eq|].
  rewrite lookup_delete_ne; [done|]. intros ->. apply Hq. set_solver.
Qed.

Lemma freed_same_others h ps h' rest :
  freed h ps h' -> owns h (ps ++ rest) -> same_others h (ps ++ rest) h' rest.
Proof.
  intros [_ Hf] Ho q n. rewrite Hf, elem_of_app. case_decide; naive_solver.
Qed.

(** A successful allocation. *)
Lemma kmalloc_fresh h h' sz p rest :
  heap_ok h -> kmalloc_size sz -> kmalloc sz h = Some (p, h') -> p <> 0 -> owns h rest ->
  heap_ok h' /\ owns h' (p :: rest) /\ blocks h !! p = None /\
  blocks h' = <[p := sz]> (blocks h).
Proof.
  intros Hok Hsz Hk Hp Ho. destruct (owns_fresh _ _ _ _ _ Hok Hsz Hk Hp Ho) as (? & ? & _).
  destruct (kmalloc_block _ _ _ _ Hok Hsz Hk Hp) as (_ & ? & ?). done.
Qed.
End ownership.
