(* ===== verification/Kheap.v ===== *)
(** * The kernel heap

    kern/lib/kheap.c: pages of blocks of eight sizes, the free blocks of a page being
    linked through their first words, and whole pages for larger requests.  A page of
    blocks has a [pageref], of which there are 256; pointers to them are their
    indexes.  [kmem] is the memory of the pages, word by word, as far as it was
    written.  Interrupts are off in each function, so that each is one step; the
    consistency checks of the source are compiled out. *)

From stdpp Require Import base option list gmap numbers.
From S2P Require Import Prelude Kmem.

(** ** Pages (kern/include/vm.h) *)

Definition PAGE_SIZE : Z := 4096.
Definition PAGE_FRAME : Z := 0xfffff000.

(** Address 0 is no page. *)
Class Kpages (P : Type) := {
  alloc_kpages : Z -> P -> option (Z * P);
  free_kpages : Z -> P -> option P;
}.

(** [kpages s] maps the address of each run of pages in use to their number. *)
Class KpagesLaws (P : Type) `{!Kpages P} := {
  pages_ok : P -> Prop;
  kpages : P -> gmap Z Z;
  alloc_kpages_total s n : pages_ok s -> 0 < n <= 7 * 2 ^ 17 -> is_Some (alloc_kpages n s);
  alloc_kpages_null s s' n :
    pages_ok s -> 0 < n <= 7 * 2 ^ 17 -> alloc_kpages n s = Some (0, s') ->
    pages_ok s' /\ kpages s' = kpages s;
  alloc_kpages_run s s' n p :
    pages_ok s -> 0 < n <= 7 * 2 ^ 17 -> alloc_kpages n s = Some (p, s') -> p <> 0 ->
    pages_ok s' /\ kpages s !! p = None /\ kpages s' = <[p := n]> (kpages s);
  free_kpages_live s p :
    pages_ok s -> is_Some (kpages s !! p) ->
    exists s', free_kpages p s = Some s' /\ pages_ok s' /\ kpages s' = delete p (kpages s);
  kpages_range s p n :
    pages_ok s -> kpages s !! p = Some n ->
    0 < p /\ p `mod` 4096 = 0 /\ 0 < n /\ p + n * 4096 < 2 ^ 32;
  kpages_disjoint s p q n m :
    pages_ok s -> kpages s !! p = Some n -> kpages s !! q = Some m -> p <> q ->
    p + n * 4096 <= q \/ q + m * 4096 <= p;
}.

(** ** The data *)

Definition sizes : list Z := [16; 32; 64; 128; 256; 512; 1024; 2048].
Definition LARGEST_SUBPAGE_SIZE : Z := 2048.

Record pageref := Pageref {
  next_samesize : option nat;
  next_all : option nat;
  pageaddr_and_blocktype : Z;
  freelist_offset : Z;
  nfree : Z;
}.

Definition INVALID_OFFSET : Z := 0xffff.

Definition PR_PAGEADDR (pr : pageref) : Z := Z.land (pageaddr_and_blocktype pr) PAGE_FRAME.
Definition PR_BLOCKTYPE (pr : pageref) : Z := Z.ldiff (pageaddr_and_blocktype pr) PAGE_FRAME.
Definition MKPAB (pa blk : Z) : Z := Z.lor (Z.land pa PAGE_FRAME) (Z.ldiff blk PAGE_FRAME).

Definition NPAGEREFS : nat := 256.       (* PAGE_SIZE / sizeof(struct pageref) *)
Definition INUSE_WORDS : nat := 8.

Record kheap (P : Type) := Kheap {
  pagerefs : list pageref;
  pagerefs_inuse : list Z;
  sizebases : list (option nat);
  allbase : option nat;
  kmem : gmap Z Z;
  kpool : P;
}.
Arguments Kheap {P}.
Arguments pagerefs {P}.
Arguments pagerefs_inuse {P}.
Arguments sizebases {P}.
Arguments allbase {P}.
Arguments kmem {P}.
Arguments kpool {P}.

(** The static data before anything was allocated. *)
Definition kheap_init {P} (s : P) : kheap P :=
  {| pagerefs := replicate NPAGEREFS (Pageref None None 0 0 0); pagerefs_inuse := replicate INUSE_WORDS 0;
     sizebases := replicate (length sizes) None; allbase := None; kmem := ∅; kpool := s |}.

Section kheap.
Context {P : Type} `{!Kpages P}.
Implicit Types hp : kheap P.

Definition set_pr (j : nat) (pr : pageref) hp : kheap P :=
  Kheap (<[j := pr]> (pagerefs hp)) (pagerefs_inuse hp) (sizebases hp) (allbase hp) (kmem hp) (kpool hp).
Definition set_inuse (i : nat) (w : Z) hp : kheap P :=
  Kheap (pagerefs hp) (<[i := w]> (pagerefs_inuse hp)) (sizebases hp) (allbase hp) (kmem hp) (kpool hp).
Definition set_sizebase (k : nat) (p : option nat) hp : kheap P :=
  Kheap (pagerefs hp) (pagerefs_inuse hp) (<[k := p]> (sizebases hp)) (allbase hp) (kmem hp) (kpool hp).
Definition set_allbase (p : option nat) hp : kheap P :=
  Kheap (pagerefs hp) (pagerefs_inuse hp) (sizebases hp) p (kmem hp) (kpool hp).
Definition set_kmem (mem : gmap Z Z) hp : kheap P :=
  Kheap (pagerefs hp) (pagerefs_inuse hp) (sizebases hp) (allbase hp) mem (kpool hp).
Definition set_kpool (s : P) hp : kheap P :=
  Kheap (pagerefs hp) (pagerefs_inuse hp) (sizebases hp) (allbase hp) (kmem hp) s.

Definition set_samesize (p : option nat) (pr : pageref) : pageref :=
  Pageref p (next_all pr) (pageaddr_and_blocktype pr) (freelist_offset pr) (nfree pr).
Definition set_next_all (p : option nat) (pr : pageref) : pageref :=
  Pageref (next_samesize pr) p (pageaddr_and_blocktype pr) (freelist_offset pr) (nfree pr).
Definition set_free (off n : Z) (pr : pageref) : pageref :=
  Pageref (next_samesize pr) (next_all pr) (pageaddr_and_blocktype pr) off n.
Definition set_pab (pab : Z) (pr : pageref) : pageref :=
  Pageref (next_samesize pr) (next_all pr) pab (freelist_offset pr) (nfree pr).

(** [n] words from [ptr] on. *)
Fixpoint fill_deadbeef (n : nat) (ptr : Z) (mem : gmap Z Z) : gmap Z Z :=
  match n with
  | O => mem
  | S n => fill_deadbeef n (ptr + 4) (<[ptr := 0xdeadbeef]> mem)
  end.

(** ** The pagerefs *)

(** The loop over the bits of a word, until the mask [k] is shifted out. *)
Fixpoint inuse_bit (fuel : nat) (k : Z) (j : nat) (w : Z) : option (Z * nat) :=
  match fuel with
  | O => None
  | S fuel =>
      if k =? 0 then None                                (* assert(0) *)
      else if Z.land w k =? 0 then Some (k, j)
      else inuse_bit fuel (u32 (Z.shiftl k 1)) (S j) w
  end.

Fixpoint allocpageref_loop (n i : nat) hp : option (option nat * kheap P) :=
  match n with
  | O => Some (None, hp)
  | S n =>
      w ← pagerefs_inuse hp !! i;
      if w =? 0xffffffff then allocpageref_loop n (S i) hp
      else
        '(k, j) ← inuse_bit 33 1 0 w;
        Some (Some (i * 32 + j)%nat, set_inuse i (Z.lor w k) hp)
  end.

Definition allocpageref hp : option (option nat * kheap P) := allocpageref_loop INUSE_WORDS 0 hp.

Definition freepageref (p : nat) hp : option (kheap P) :=
  ASSERT bool_decide (p < NPAGEREFS)%nat ;;
  let i := (p / 32)%nat in
  let k := Z.shiftl 1 (Z.of_nat (p `mod` 32)) in
  w ← pagerefs_inuse hp !! i;
  ASSERT negb (Z.land w k =? 0) ;;
  Some (set_inuse i (Z.ldiff w k) hp).

(** ** Lists of pagerefs *)

(** [guy] points to a base of a list or to the next field of a pageref. *)
Inductive guy := Base | Next (j : nat).

Definition get_same (blktype : nat) (g : guy) hp : option (option nat) :=
  match g with
  | Base => sizebases hp !! blktype
  | Next j => next_samesize <$> pagerefs hp !! j
  end.

Definition put_same (blktype : nat) (g : guy) (p : option nat) hp : option (kheap P) :=
  match g with
  | Base => Some (set_sizebase blktype p hp)
  | Next j => pr ← pagerefs hp !! j; Some (set_pr j (set_samesize p pr) hp)
  end.

Definition get_all (g : guy) hp : option (option nat) :=
  match g with
  | Base => Some (allbase hp)
  | Next j => next_all <$> pagerefs hp !! j
  end.

Definition put_all (g : guy) (p : option nat) hp : option (kheap P) :=
  match g with
  | Base => Some (set_allbase p hp)
  | Next j => pr ← pagerefs hp !! j; Some (set_pr j (set_next_all p pr) hp)
  end.

(** One loop of [remove_lists]: [get] and [put] read and write what [g] points to. *)
Fixpoint remove_loop (fuel : nat) (get : guy -> kheap P -> option (option nat))
    (put : guy -> option nat -> kheap P -> option (kheap P)) (next : pageref -> option nat)
    (pr : nat) (g : guy) hp : option (kheap P) :=
  match fuel with
  | O => None
  | S fuel =>
      p ← get g hp;
      match p with
      | None => Some hp
      | Some j =>
          if bool_decide (j = pr) then r ← pagerefs hp !! pr; put g (next r) hp
          else remove_loop fuel get put next pr (Next j) hp
      end
  end.

(** A list has at most as many members as there are pagerefs. *)
Definition remove_lists (pr : nat) (blktype : nat) hp : option (kheap P) :=
  ASSERT bool_decide (blktype < length sizes)%nat ;;
  hp ← remove_loop (S NPAGEREFS) (get_same blktype) (put_same blktype) next_samesize pr Base hp;
  remove_loop (S NPAGEREFS) get_all put_all next_all pr Base hp.

(** ** Blocks *)

Fixpoint blocktype_loop (n i : nat) (sz : Z) : option nat :=
  match n with
  | O => None                                            (* panic *)
  | S n =>
      s ← sizes !! i;
      if sz <=? s then Some i else blocktype_loop n (S i) sz
  end.

Definition blocktype (sz : Z) : option nat := blocktype_loop (length sizes) 0 sz.

(** From the label doalloc on: the first free block of the page. *)
Definition doalloc (j : nat) hp : option (Z * kheap P) :=
  pr ← pagerefs hp !! j;
  ASSERT freelist_offset pr <? PAGE_SIZE ;;
  let prpage := PR_PAGEADDR pr in
  let retptr := u32 (prpage + freelist_offset pr) in
  fl ← kmem hp !! retptr;
  let n := u16 (nfree pr - 1) in
  if negb (fl =? 0) then
    ASSERT 0 <? n ;;
    ASSERT u32 (fl - prpage) <? PAGE_SIZE ;;
    Some (retptr, set_pr j (set_free (u16 (fl - prpage)) n pr) hp)
  else
    ASSERT n =? 0 ;;
    Some (retptr, set_pr j (set_free INVALID_OFFSET n pr) hp).

(** The first page of the list with a free block. *)
Fixpoint find_free (fuel : nat) (p : option nat) (blktype : nat) hp : option (option nat) :=
  match fuel with
  | O => None
  | S fuel =>
      match p with
      | None => Some None
      | Some j =>
          pr ← pagerefs hp !! j;
          ASSERT PR_BLOCKTYPE pr =? Z.of_nat blktype ;;
          if 0 <? nfree pr then Some (Some j) else find_free fuel (next_samesize pr) blktype hp
      end
  end.

(** The free list of a new page, from the block [i] on; the result is the last block. *)
Fixpoint link_blocks (n : nat) (i sz fla fl : Z) (mem : gmap Z Z) : option (Z * gmap Z Z) :=
  match n with
  | O => Some (fl, mem)
  | S n =>
      let fl := u32 (fla + i * sz) in
      let next := u32 (fla + (i - 1) * sz) in
      ASSERT negb (fl =? next) ;;
      link_blocks n (i + 1) sz fla fl (<[fl := next]> mem)
  end.

(** A new page, at the head of both lists. *)
Definition new_page (pr : nat) (prpage : Z) (blktype : nat) (sz : Z) hp : option (kheap P) :=
  r ← pagerefs hp !! pr;
  let n := u16 (PAGE_SIZE / sz) in
  '(fl, mem) ← link_blocks (Z.to_nat (n - 1)) 1 sz prpage prpage (<[prpage := 0]> (kmem hp));
  let off := u16 (fl - prpage) in
  ASSERT off =? (n - 1) * sz ;;
  base ← sizebases hp !! blktype;
  let r := Pageref base (allbase hp) (MKPAB prpage (Z.of_nat blktype)) off n in
  Some (set_allbase (Some pr) (set_sizebase blktype (Some pr) (set_pr pr r (set_kmem mem hp)))).

Definition subpage_kmalloc (sz : Z) hp : option (Z * kheap P) :=
  blktype ← blocktype sz;
  sz ← sizes !! blktype;
  base ← sizebases hp !! blktype;
  found ← find_free (S NPAGEREFS) base blktype hp;
  match found with
  | Some j => doalloc j hp
  | None =>
      '(pr, hp) ← allocpageref hp;
      match pr with
      | None => Some (0, hp)
      | Some pr =>
          '(prpage, s) ← alloc_kpages 1 (kpool hp);
          let hp := set_kpool s hp in
          if prpage =? 0 then hp ← freepageref pr hp; Some (0, hp)
          else hp ← new_page pr prpage blktype sz hp; doalloc pr hp
      end
  end.

(** The page that [ptraddr] is on. *)
Fixpoint find_page (fuel : nat) (p : option nat) (ptraddr : Z) hp : option (option nat) :=
  match fuel with
  | O => None
  | S fuel =>
      match p with
      | None => Some None
      | Some j =>
          pr ← pagerefs hp !! j;
          let prpage := PR_PAGEADDR pr in
          ASSERT PR_BLOCKTYPE pr <? Z.of_nat (length sizes) ;;
          if (prpage <=? ptraddr) && (ptraddr <? u32 (prpage + PAGE_SIZE)) then Some (Some j)
          else find_page fuel (next_all pr) ptraddr hp
      end
  end.

(** [false] when the block is on none of the pages. *)
Definition subpage_kfree (ptr : Z) hp : option (bool * kheap P) :=
  found ← find_page (S NPAGEREFS) (allbase hp) ptr hp;
  match found with
  | None => Some (false, hp)
  | Some j =>
      pr ← pagerefs hp !! j;
      let prpage := PR_PAGEADDR pr in
      let blktype := Z.to_nat (PR_BLOCKTYPE pr) in
      sz ← sizes !! blktype;
      let offset := u32 (ptr - prpage) in
      if (PAGE_SIZE <=? offset) || negb (offset `mod` sz =? 0) then None
      else
        let mem := fill_deadbeef (Z.to_nat (sz / 4)) ptr (kmem hp) in
        let next := if freelist_offset pr =? INVALID_OFFSET then 0
                    else u32 (prpage + freelist_offset pr) in
        let mem := <[u32 (prpage + offset) := next]> mem in
        let n := u16 (nfree pr + 1) in
        let hp := set_pr j (set_free (u16 offset) n pr) (set_kmem mem hp) in
        ASSERT n <=? PAGE_SIZE / sz ;;
        if n =? PAGE_SIZE / sz then
          hp ← remove_lists j blktype hp;
          s ← free_kpages prpage (kpool hp);
          hp ← freepageref j (set_kpool s hp);
          Some (true, hp)
        else Some (true, hp)
  end.

(** ** Any size *)

Definition kheap_kmalloc (sz : Z) hp : option (Z * kheap P) :=
  if LARGEST_SUBPAGE_SIZE <=? sz then
    let npages := u32 (sz + PAGE_SIZE - 1) / PAGE_SIZE in
    '(address, s) ← alloc_kpages (s32 npages) (kpool hp);
    Some (address, set_kpool s hp)
  else subpage_kmalloc sz hp.

Definition kheap_kfree (ptr : Z) hp : option (kheap P) :=
  if ptr =? 0 then Some hp
  else
    '(sub, hp) ← subpage_kfree ptr hp;
    if sub : bool then Some hp
    else
      ASSERT ptr `mod` PAGE_SIZE =? 0 ;;
      s ← free_kpages ptr (kpool hp);
      Some (set_kpool s hp).
End kheap.
