(* ===== verification/KheapInv.v ===== *)
(** * The invariant of the kernel heap

    [apage] is a page of blocks as the code means it, with the offsets of its free
    blocks in the order of its free list; [rep] says that the pagerefs, their lists and
    the words in memory represent a list of such pages.  The operations are shown to do
    to that list what they should. *)

From stdpp Require Import base option list gmap numbers.
From S2P Require Import Prelude Kmem Kheap.

(** ** Sizes *)

Definition bsize (k : nat) : Z := 16 * 2 ^ Z.of_nat k.
Definition nblk (k : nat) : Z := 2 ^ Z.of_nat (8 - k).

Lemma sizes_lookup k : (k < 8)%nat -> sizes !! k = Some (bsize k).
Proof. intros Hk. do 8 (destruct k as [|k]; [done|]). lia. Qed.

Lemma bsize_facts k : (k < 8)%nat ->
  16 <= bsize k <= 2048 /\ bsize k `mod` 16 = 0 /\ 2 <= nblk k <= 256 /\ nblk k * bsize k = 4096 /\
  4096 / bsize k = nblk k.
Proof. intros Hk. do 8 (destruct k as [|k]; [done|]). lia. Qed.

(** The offsets of the blocks of a page. *)
Definition slot (k : nat) (o : Z) : Prop := 0 <= o < 4096 /\ o `mod` bsize k = 0.

Definition slots (k : nat) : list Z := (fun i => Z.of_nat i * bsize k) <$> seq 0 (Z.to_nat (nblk k)).

Lemma elem_of_slots k o : (k < 8)%nat -> o ∈ slots k <-> slot k o.
Proof.
  intros Hk. destruct (bsize_facts k Hk) as (Hb & _ & Hn & Hm & _). unfold slots, slot.
  rewrite list_elem_of_fmap. split.
  - intros (i & -> & Hi%elem_of_seq). split; [nia|]. by apply Z.mod_mul; lia.
  - intros [Ho Hd]. exists (Z.to_nat (o / bsize k)). pose proof (Z.div_mod o (bsize k)) as Hdm.
    assert (0 <= o / bsize k < nblk k) by nia.
    split; [rewrite Z2Nat.id by lia; lia|]. apply elem_of_seq. lia.
Qed.

Lemma NoDup_slots k : (k < 8)%nat -> NoDup (slots k).
Proof.
  intros Hk. destruct (bsize_facts k Hk) as (Hb & _). apply NoDup_fmap_2; [|apply NoDup_seq].
  intros i j E. simpl in E. nia.
Qed.

Lemma length_slots k : (k < 8)%nat -> Z.of_nat (length (slots k)) = nblk k.
Proof.
  intros Hk. destruct (bsize_facts k Hk) as (_ & _ & Hn & _). unfold slots.
  rewrite length_fmap, length_seq. lia.
Qed.

(** Distinct blocks of a page are at most as many as fit, and then are all of them. *)
Lemma slots_bound k l : (k < 8)%nat -> NoDup l -> Forall (slot k) l -> Z.of_nat (length l) <= nblk k.
Proof.
  intros Hk Hnd Hf. rewrite <- length_slots by done. apply inj_le, submseteq_length.
  apply NoDup_submseteq; [done|]. intros o Ho. apply elem_of_slots; [done|].
  by apply (proj1 (list.Forall_forall _ _) Hf).
Qed.

Lemma slots_all k l o :
  (k < 8)%nat -> NoDup l -> Forall (slot k) l -> Z.of_nat (length l) = nblk k -> slot k o -> o ∈ l.
Proof.
  intros Hk Hnd Hf Hl Ho. assert (l ⊆+ slots k) as Hs.
  { apply NoDup_submseteq; [done|]. intros o' Ho'. apply elem_of_slots; [done|].
    by apply (proj1 (list.Forall_forall _ _) Hf). }
  apply (submseteq_length_Permutation) in Hs.
  - rewrite Hs. by apply elem_of_slots.
  - pose proof (length_slots k Hk). lia.
Qed.

(** Two blocks of a page do not overlap. *)
Lemma slots_apart k o o' : (k < 8)%nat -> slot k o -> slot k o' -> o <> o' ->
  o + bsize k <= o' \/ o' + bsize k <= o.
Proof.
  intros Hk [Ho Hd] [Ho' Hd'] Hne. destruct (bsize_facts k Hk) as (Hb & _).
  pose proof (Z.div_mod o (bsize k)). pose proof (Z.div_mod o' (bsize k)).
  destruct (decide (o / bsize k < o' / bsize k)); [left; nia|].
  destruct (decide (o' / bsize k < o / bsize k)); [right; nia|]. exfalso. nia.
Qed.

Lemma slot_fits k o : (k < 8)%nat -> slot k o -> o + bsize k <= 4096.
Proof.
  intros Hk [Ho Hd]. destruct (bsize_facts k Hk) as (Hb & _ & Hn & Hm & _).
  pose proof (Z.div_mod o (bsize k)). assert (o / bsize k < nblk k) by nia.
  assert ((o / bsize k + 1) * bsize k <= nblk k * bsize k) by nia. lia.
Qed.

(** The smallest size that is enough. *)
Lemma blocktype_fits sz :
  0 <= sz < 2048 -> exists k, blocktype sz = Some k /\ (k < 8)%nat /\ sz <= bsize k.
Proof.
  intros Hsz. unfold blocktype, sizes. simpl.
  repeat (destruct (sz <=? _) eqn:?; boolify; [eexists; split; [done|]; split; [lia|done]|]).
  lia.
Qed.

(** ** The address and the type in one word *)

Lemma land_frame x : 0 <= x < 2 ^ 32 -> Z.land x PAGE_FRAME = x - x `mod` 4096.
Proof.
  intros Hx. change PAGE_FRAME with (Z.shiftl (Z.ones 20) 12).
  assert (Z.land x (Z.shiftl (Z.ones 20) 12) = Z.shiftl (Z.land (Z.shiftr x 12) (Z.ones 20)) 12) as ->.
  { apply Z.bits_inj'. intros n Hn. rewrite Z.land_spec, !Z.shiftl_spec by done.
    destruct (decide (n < 12)).
    - rewrite !(Z.testbit_neg_r _ (n - 12)) by lia. by rewrite andb_false_r.
    - rewrite Z.land_spec, Z.shiftr_spec by lia. by replace (n - 12 + 12) with n by lia. }
  rewrite Z.land_ones, Z.shiftl_mul_pow2, Z.shiftr_div_pow2 by done.
  change (2 ^ 12) with 4096. rewrite Z.mod_small by (zdm; lia). pose proof (Z.div_mod x 4096). lia.
Qed.

Lemma ldiff_frame x : 0 <= x < 2 ^ 32 -> Z.ldiff x PAGE_FRAME = x `mod` 4096.
Proof.
  intros Hx. assert (x = Z.land x PAGE_FRAME + Z.ldiff x PAGE_FRAME) as E.
  { rewrite <- Z.add_lor_land, (Z.lor_comm (Z.land _ _)), Z.lor_ldiff_and.
    assert (Z.land (Z.land x PAGE_FRAME) (Z.ldiff x PAGE_FRAME) = 0) as ->; [|lia].
    apply Z.bits_inj'. intros n Hn. rewrite !Z.land_spec, Z.ldiff_spec, Z.bits_0.
    by destruct (Z.testbit x n), (Z.testbit PAGE_FRAME n). }
  rewrite land_frame in E by done. lia.
Qed.

Lemma pab_split page k :
  0 < page -> page `mod` 4096 = 0 -> page + 4096 < 2 ^ 32 -> (k < 8)%nat ->
  Z.land (page + Z.of_nat k) PAGE_FRAME = page /\ Z.ldiff (page + Z.of_nat k) PAGE_FRAME = Z.of_nat k.
Proof.
  intros Hp Hm Hr Hk. rewrite land_frame, ldiff_frame by lia.
  rewrite Z.add_mod, Hm, Z.add_0_l, Z.mod_mod, (Z.mod_small (Z.of_nat k)) by lia. lia.
Qed.

Lemma MKPAB_sum page k :
  0 < page -> page `mod` 4096 = 0 -> page + 4096 < 2 ^ 32 -> (k < 8)%nat ->
  MKPAB page (Z.of_nat k) = page + Z.of_nat k.
Proof.
  intros Hp Hm Hr Hk. destruct (pab_split page k Hp Hm Hr Hk) as [E1 E2]. unfold MKPAB.
  rewrite land_frame, Hm, Z.sub_0_r by lia. rewrite ldiff_frame, Z.mod_small by lia.
  rewrite <- (Z.lor_ldiff_and (page + Z.of_nat k) PAGE_FRAME), E1, E2. apply Z.lor_comm.
Qed.

(** ** Lists of pagerefs *)

(** The list from [p] on, through the field [next], has the members [l]. *)
Fixpoint chain (next : pageref -> option nat) (prs : list pageref) (p : option nat) (l : list nat) : Prop :=
  match l with
  | [] => p = None
  | j :: l => p = Some j /\ exists pr, prs !! j = Some pr /\ chain next prs (next pr) l
  end.

Lemma chain_frame next prs prs' p l :
  (forall j pr, j ∈ l -> prs !! j = Some pr -> exists pr', prs' !! j = Some pr' /\ next pr' = next pr) ->
  chain next prs p l -> chain next prs' p l.
Proof.
  revert p. induction l as [|j l IH]; intros p Hf Hc; [done|]. destruct Hc as [-> (pr & Hj & Hc)].
  split; [done|]. destruct (Hf j pr) as (pr' & Hj' & E); [left|done|]. exists pr'. split; [done|].
  rewrite E. apply IH; [|done]. intros i r Hi. apply Hf. by right.
Qed.

Lemma chain_in next prs p l j : chain next prs p l -> j ∈ l -> is_Some (prs !! j).
Proof.
  revert p. induction l as [|i l IH]; intros p Hc Hj; [by apply not_elem_of_nil in Hj|].
  destruct Hc as [_ (pr & Hi & Hc)]. apply elem_of_cons in Hj as [->|Hj]; [by eauto|by eapply IH].
Qed.

Lemma chain_head next prs p l : chain next prs p l -> p = head l.
Proof. destruct l; [done|]. by intros [-> _]. Qed.

(** Taking [j] out: the pageref before it gets its next. *)
Lemma chain_split next prs p l1 j l2 :
  chain next prs p (l1 ++ j :: l2) ->
  exists pr, prs !! j = Some pr /\ next pr = head l2 /\ chain next prs (head l2) l2.
Proof.
  revert p. induction l1 as [|i l1 IH]; intros p Hc.
  - destruct Hc as [_ (pr & Hj & Hc)]. exists pr. split; [done|].
    pose proof (chain_head _ _ _ _ Hc) as E. split; [done|]. by rewrite <- E.
  - destruct Hc as [_ (pr & _ & Hc)]. by eapply IH.
Qed.

Lemma chain_cut next set prs p l1 i j l2 r :
  (forall q pr, next (set q pr) = q) ->
  chain next prs p (l1 ++ i :: j :: l2) -> NoDup (l1 ++ i :: j :: l2) -> prs !! i = Some r ->
  chain next (<[i := set (head l2) r]> prs) p (l1 ++ i :: l2).
Proof.
  intros Hs. revert p. induction l1 as [|k l1 IH]; intros p Hc Hnd Hi.
  - destruct Hc as [-> (pr & Hi' & Hc)]. rewrite Hi in Hi'. injection Hi' as <-.
    split; [done|]. eexists. split; [by apply list_lookup_insert_eq, (lookup_lt_Some _ _ r)|].
    rewrite Hs. destruct (chain_split next prs (next r) [] j l2 Hc) as (pr & _ & _ & Hc2).
    eapply chain_frame; [|exact Hc2]. intros k pr' Hk Hk'. exists pr'. split; [|done].
    rewrite list_lookup_insert_ne; [done|]. intros <-. simpl in Hnd.
    apply list.NoDup_cons in Hnd as [Hnd _]. apply Hnd. by right.
  - destruct Hc as [-> (pr & Hk & Hc)]. simpl in Hnd. apply list.NoDup_cons in Hnd as [Hk' Hnd].
    split; [done|]. exists pr. split; [|by apply IH].
    rewrite list_lookup_insert_ne; [done|]. intros ->. apply Hk'. set_solver.
Qed.

(** ** Pages *)

Record apage := Apage { ap_pr : nat; ap_page : Z; ap_type : nat; ap_free : list Z }.

Definition with_free (l : list Z) (a : apage) : apage := Apage (ap_pr a) (ap_page a) (ap_type a) l.

Record apage_ok (a : apage) : Prop := {
  ao_type : (ap_type a < 8)%nat;
  ao_page : 0 < ap_page a /\ ap_page a `mod` 4096 = 0 /\ ap_page a + 4096 < 2 ^ 32;
  ao_nodup : NoDup (ap_free a);
  ao_slots : Forall (slot (ap_type a)) (ap_free a);
}.

Definition on_page (a : apage) (x : Z) : Prop := ap_page a <= x < ap_page a + 4096.

(** The first word of a block and the pageref's offset. *)
Definition head_ptr (page : Z) (l : list Z) : Z := match l with [] => 0 | o :: _ => page + o end.
Definition head_off (l : list Z) : Z := match l with [] => INVALID_OFFSET | o :: _ => o end.

Fixpoint fl_rep (mem : gmap Z Z) (page : Z) (l : list Z) : Prop :=
  match l with
  | [] => True
  | o :: l => mem !! (page + o) = Some (head_ptr page l) /\ fl_rep mem page l
  end.

Lemma fl_rep_frame mem mem' page l :
  (forall o, o ∈ l -> mem' !! (page + o) = mem !! (page + o)) -> fl_rep mem page l -> fl_rep mem' page l.
Proof.
  induction l as [|o l IH]; [done|]. intros Hf [Ho Hl]. split; [rewrite Hf; [done|left]|].
  apply IH; [|done]. intros. apply Hf. by right.
Qed.

(** Two pages at different aligned addresses have no byte in common. *)
Lemma pages_apart a b x :
  apage_ok a -> apage_ok b -> ap_page a <> ap_page b -> on_page a x -> ~ on_page b x.
Proof.
  intros [_ (_ & Ha & _) _ _] [_ (_ & Hb & _) _ _] Hne H1 H2. unfold on_page in *.
  pose proof (Z.div_mod (ap_page a) 4096). pose proof (Z.div_mod (ap_page b) 4096). lia.
Qed.

Lemma others_ne {A B} (f : A -> B) l1 a l2 b :
  NoDup (f <$> l1 ++ a :: l2) -> b ∈ l1 ++ l2 -> f b <> f a.
Proof.
  rewrite fmap_app, fmap_cons. intros (_ & Hd & [Hn _]%list.NoDup_cons)%list.NoDup_app Hb E.
  apply elem_of_app in Hb as [Hb|Hb].
  - apply (Hd (f a)); [rewrite <- E; by apply list_elem_of_fmap_2|left].
  - apply Hn. rewrite <- E. by apply list_elem_of_fmap_2.
Qed.

Lemma elem_of_middle {A} (l1 l2 : list A) a b : b ∈ l1 ++ a :: l2 <-> b = a \/ b ∈ l1 ++ l2.
Proof. set_solver. Qed.

Lemma fmap_middle {A B} (f : A -> B) l1 a a' l2 : f a' = f a -> f <$> l1 ++ a' :: l2 = f <$> l1 ++ a :: l2.
Proof. intros E. by rewrite !fmap_app, !fmap_cons, E. Qed.

Lemma filter_middle k l1 a l l2 :
  ap_pr <$> filter (fun b => ap_type b = k) (l1 ++ with_free l a :: l2) =
  ap_pr <$> filter (fun b => ap_type b = k) (l1 ++ a :: l2).
Proof. rewrite !list.filter_app, !filter_cons, !fmap_app. simpl. by case_decide. Qed.

Section rep.
Context {P : Type}.
Implicit Types hp : kheap P.
Implicit Types aps : list apage.

Record page_rep hp (a : apage) : Prop := {
  pr_ref : exists pr, pagerefs hp !! ap_pr a = Some pr /\
    pageaddr_and_blocktype pr = ap_page a + Z.of_nat (ap_type a) /\
    freelist_offset pr = head_off (ap_free a) /\ nfree pr = Z.of_nat (length (ap_free a));
  pr_list : fl_rep (kmem hp) (ap_page a) (ap_free a);
}.

(** The pageref [j] is marked. *)
Definition marked hp (j : nat) : Prop :=
  exists w, pagerefs_inuse hp !! (j / 32)%nat = Some w /\ Z.testbit w (Z.of_nat (j `mod` 32)) = true.

(** The pages [aps], with the pagerefs [ex] marked but on no list. *)
Record rep hp (ex : list nat) aps : Prop := {
  rp_prs : length (pagerefs hp) = 256%nat;
  rp_words : length (pagerefs_inuse hp) = 8%nat /\ Forall is_u32 (pagerefs_inuse hp);
  rp_bases : length (sizebases hp) = 8%nat;
  rp_inuse : forall j, (j < 256)%nat -> marked hp j <-> j ∈ ex ++ (ap_pr <$> aps);
  rp_nodup : NoDup (ex ++ (ap_pr <$> aps));
  rp_all : chain next_all (pagerefs hp) (allbase hp) (ap_pr <$> aps);
  rp_same : forall k, (k < 8)%nat -> exists b, sizebases hp !! k = Some b /\
    chain next_samesize (pagerefs hp) b (ap_pr <$> filter (fun a => ap_type a = k) aps);
  rp_page : forall a, a ∈ aps -> page_rep hp a;
  rp_ok : forall a, a ∈ aps -> apage_ok a;
  rp_apart : NoDup (ap_page <$> aps);
}.

Lemma rep_pageref hp ex aps a :
  rep hp ex aps -> a ∈ aps -> exists pr, pagerefs hp !! ap_pr a = Some pr /\
    PR_PAGEADDR pr = ap_page a /\ PR_BLOCKTYPE pr = Z.of_nat (ap_type a) /\
    freelist_offset pr = head_off (ap_free a) /\ nfree pr = Z.of_nat (length (ap_free a)).
Proof.
  intros Hr Ha. destruct (rp_page _ _ _ Hr a Ha) as [(pr & Hj & Hpab & Hoff & Hn) _].
  destruct (rp_ok _ _ _ Hr a Ha) as [Ht (Hp & Hm & Hb) _ _]. exists pr.
  destruct (pab_split _ _ Hp Hm Hb Ht) as [E1 E2]. unfold PR_PAGEADDR, PR_BLOCKTYPE. rewrite Hpab. done.
Qed.

(** At most 256 pages. *)
Lemma rep_length hp ex aps : rep hp ex aps -> (length aps <= 256)%nat.
Proof.
  intros Hr. rewrite <- (length_fmap ap_pr aps).
  assert (ap_pr <$> aps ⊆+ seq 0 256) as Hs%submseteq_length; [|by rewrite length_seq in Hs].
  apply NoDup_submseteq.
  - by destruct (proj1 (list.NoDup_app _ _) (rp_nodup _ _ _ Hr)) as (_ & _ & ?).
  - intros j Hj. destruct (chain_in _ _ _ _ _ (rp_all _ _ _ Hr) Hj) as [pr Hpr].
    apply lookup_lt_Some in Hpr. rewrite (rp_prs _ _ _ Hr) in Hpr. apply elem_of_seq. lia.
Qed.
(** A page's free list changes. *)
Lemma rep_update hp ex l1 a l2 pr l mem :
  rep hp ex (l1 ++ a :: l2) -> pagerefs hp !! ap_pr a = Some pr -> apage_ok (with_free l a) ->
  fl_rep mem (ap_page a) l -> (forall x, ~ on_page a x -> mem !! x = kmem hp !! x) ->
  rep (set_pr (ap_pr a) (set_free (head_off l) (Z.of_nat (length l)) pr) (set_kmem mem hp)) ex
      (l1 ++ with_free l a :: l2).
Proof.
  intros Hr Hpr Hok Hl Hmem. pose proof Hr as [Hp Hw Hb Hi Hnd Hall Hsame Hpg Hpok Hap].
  pose proof (lookup_lt_Some _ _ _ Hpr) as Hlt.
  assert (forall next : pageref -> option nat, (forall off n, next (set_free off n pr) = next pr) ->
    forall j r, pagerefs hp !! j = Some r ->
      exists r', <[ap_pr a := set_free (head_off l) (Z.of_nat (length l)) pr]> (pagerefs hp) !! j = Some r' /\
        next r' = next r) as Hfr.
  { intros next Hn j r Hj. destruct (decide (j = ap_pr a)) as [->|Hne].
    - rewrite Hpr in Hj. injection Hj as <-. eexists. by rewrite list_lookup_insert_eq.
    - exists r. by rewrite list_lookup_insert_ne. }
  constructor; simpl; rewrite ?(fmap_middle ap_pr l1 a (with_free l a)), ?length_insert by done;
    rewrite ?(fmap_middle ap_page l1 a (with_free l a)) by done; try done.
  - eapply chain_frame; [|done]. intros j r _. by apply Hfr.
  - intros k Hk. destruct (Hsame k Hk) as (b & Eb & Hc). exists b. split; [done|].
    rewrite filter_middle. eapply chain_frame; [|done]. intros j r _. by apply Hfr.
  - intros b [->|Hb']%elem_of_middle.
    + destruct (Hpg a) as [(pr' & Hpr' & Hpab & _) _]; [set_solver|]. rewrite Hpr in Hpr'.
      injection Hpr' as <-. constructor; [simpl|done]. eexists. by rewrite list_lookup_insert_eq.
    + assert (b ∈ l1 ++ a :: l2) as Hin by set_solver.
      destruct (Hpg b Hin) as [(pr' & Hpr' & Hrest) Hfl]. constructor; simpl.
      * exists pr'. rewrite list_lookup_insert_ne; [done|].
        destruct (proj1 (list.NoDup_app _ _) Hnd) as (_ & _ & Hnd'). apply not_eq_sym.
        by eapply (others_ne ap_pr).
      * eapply fl_rep_frame; [|done]. intros o Ho. apply Hmem. pose proof (Hpok b Hin) as Hbok.
        apply (pages_apart b a); [done|apply Hpok; set_solver|by eapply (others_ne ap_page)|].
        destruct (proj1 (list.Forall_forall _ _) (ao_slots _ Hbok) o Ho) as [? _]. unfold on_page. lia.
  - intros b [->|Hb']%elem_of_middle; [done|]. apply Hpok. set_solver.
Qed.

(** The search for a page with a free block. *)
Lemma find_free_loop hp ex aps k l fuel p :
  rep hp ex aps -> (forall a, a ∈ l -> a ∈ aps /\ ap_type a = k) -> (length l < fuel)%nat ->
  chain next_samesize (pagerefs hp) p (ap_pr <$> l) ->
  exists r, find_free fuel p k hp = Some r /\
    match r with
    | Some j => exists a, a ∈ l /\ ap_pr a = j /\ ap_free a <> []
    | None => forall a, a ∈ l -> ap_free a = []
    end.
Proof.
  intros Hr. revert fuel p. induction l as [|a l IH]; intros [|fuel] p Hin Hlen Hc; simpl in Hlen; try lia.
  - simpl in Hc. subst p. exists None. split; [done|]. intros a Ha. by apply not_elem_of_nil in Ha.
  - destruct Hc as [-> (pr & Hj & Hc)]. destruct (Hin a) as [Ha Ht]; [left|].
    destruct (rep_pageref hp ex aps a Hr Ha) as (pr' & Hj' & _ & Hbt & _ & Hn).
    rewrite Hj in Hj'. injection Hj' as <-. simpl. rewrite Hj. simpl. rewrite Hbt, Ht, Z.eqb_refl, Hn.
    destruct (ap_free a) as [|o fr] eqn:Ef; simpl.
    + destruct (IH fuel (next_samesize pr)) as (r & E & Hres); [|lia|done|].
      { intros b Hb. apply Hin. by right. }
      exists r. split; [done|]. destruct r as [j|].
      * destruct Hres as (b & Hb & ?). exists b. split; [by right|done].
      * intros b [->|Hb]%elem_of_cons; [done|by apply Hres].
    + exists (Some (ap_pr a)). split; [done|]. exists a. split; [left|]. by rewrite Ef.
Qed.

Lemma find_free_rep hp ex aps k b :
  rep hp ex aps -> (k < 8)%nat -> sizebases hp !! k = Some b ->
  exists r, find_free (S NPAGEREFS) b k hp = Some r /\
    match r with
    | Some j => exists l1 a l2, aps = l1 ++ a :: l2 /\ ap_pr a = j /\ ap_type a = k /\ ap_free a <> []
    | None => True
    end.
Proof.
  intros Hr Hk Hb. destruct (rp_same _ _ _ Hr k Hk) as (b' & Hb' & Hc). rewrite Hb in Hb'. injection Hb' as <-.
  destruct (find_free_loop hp ex aps k (filter (fun a => ap_type a = k) aps) (S NPAGEREFS) b Hr) as (r & E & Hres).
  - intros a [? ?]%list_elem_of_filter. done.
  - pose proof (rep_length _ _ _ Hr). pose proof (length_filter (fun a => ap_type a = k) aps).
    unfold NPAGEREFS. lia.
  - done.
  - exists r. split; [done|]. destruct r as [j|]; [|done].
    destruct Hres as (a & [Ht Ha]%list_elem_of_filter & Hj & Hf).
    apply list_elem_of_split in Ha as (l1 & l2 & ->). by exists l1, a, l2.
Qed.

Lemma set_kmem_same hp : set_kmem (kmem hp) hp = hp.
Proof. by destruct hp. Qed.

Lemma apage_ok_free a l :
  apage_ok a -> NoDup l -> Forall (slot (ap_type a)) l -> apage_ok (with_free l a).
Proof. intros [? ? _ _] ? ?. by constructor. Qed.

(** Taking the first free block of a page. *)
Lemma doalloc_rep hp ex l1 a l2 o l :
  rep hp ex (l1 ++ a :: l2) -> ap_free a = o :: l ->
  exists hp', doalloc (ap_pr a) hp = Some (ap_page a + o, hp') /\ kpool hp' = kpool hp /\
    rep hp' ex (l1 ++ with_free l a :: l2).
Proof.
  intros Hr Ef. assert (a ∈ l1 ++ a :: l2) as Ha by set_solver. pose proof (rp_ok _ _ _ Hr a Ha) as Hok.
  destruct (rep_pageref _ _ _ _ Hr Ha) as (pr & Hj & Hpa & _ & Hoff & Hn).
  destruct (rp_page _ _ _ Hr a Ha) as [_ Hfl]. pose proof Hok as [Ht (Hp & _ & Hb) Hnd Hsl].
  pose proof (slots_bound _ _ Ht Hnd Hsl) as Hlen. destruct (bsize_facts _ Ht) as (_ & _ & Hnb & _).
  rewrite Ef in *. apply list.NoDup_cons in Hnd as [_ Hnd]. apply list.Forall_cons in Hsl as [[Ho _] Hsl].
  destruct Hfl as [Hword Hfl]. simpl in Hoff, Hn, Hlen.
  pose proof (rep_update hp ex l1 a l2 pr l (kmem hp) Hr Hj (apage_ok_free a l Hok Hnd Hsl) Hfl ltac:(done)) as Hup.
  rewrite set_kmem_same in Hup. unfold doalloc, PAGE_SIZE. rewrite Hj. cbn [mbind option_bind].
  rewrite Hoff, (proj2 (Z.ltb_lt o 4096)), Hpa, u32_id, Hword by (unfold is_u32; lia).
  cbn [mbind option_bind]. rewrite Hn.
  assert (u16 (Z.of_nat (S (length l)) - 1) = Z.of_nat (length l)) as En
    by (unfold u16; rewrite Z.mod_small; lia).
  rewrite En. destruct l as [|o' l'].
  - simpl. eexists. by split.
  - apply list.Forall_cons in Hsl as [[Ho' _] _]. simpl head_ptr.
    rewrite (proj2 (Z.eqb_neq (ap_page a + o') 0)) by lia. cbn [negb].
    rewrite (proj2 (Z.ltb_lt 0 _)) by (simpl; lia). replace (ap_page a + o' - ap_page a) with o' by lia.
    rewrite u32_id, (proj2 (Z.ltb_lt o' 4096)) by (unfold is_u32; lia).
    assert (u16 o' = o') as -> by (unfold u16; rewrite Z.mod_small; lia). eexists. by split.
Qed.

(** The search for the page of a block. *)
Lemma find_page_loop hp ex aps l fuel p ptr :
  rep hp ex aps -> (forall a, a ∈ l -> a ∈ aps) -> (length l < fuel)%nat ->

  chain next_all (pagerefs hp) p (ap_pr <$> l) ->
  exists r, find_page fuel p ptr hp = Some r /\
    match r with
    | Some j => exists a, a ∈ l /\ ap_pr a = j /\ on_page a ptr
    | None => forall a, a ∈ l -> ~ on_page a ptr
    end.
Proof.
  intros Hr. revert fuel p. induction l as [|a l IH]; intros [|fuel] p Hin Hlen Hc; simpl in Hlen; try lia.
  - simpl in Hc. subst p. exists None. split; [done|]. intros a Ha. by apply not_elem_of_nil in Ha.
  - destruct Hc as [-> (pr & Hj & Hc)]. assert (a ∈ aps) as Ha by (apply Hin; left).
    destruct (rep_pageref hp ex aps a Hr Ha) as (pr' & Hj' & Hpa & Hbt & _).
    rewrite Hj in Hj'. injection Hj' as <-. destruct (rp_ok _ _ _ Hr a Ha) as [Ht (Hp & _ & Hb) _ _].

    simpl. rewrite Hj. cbn [mbind option_bind]. rewrite Hbt, Hpa, (proj2 (Z.ltb_lt _ _)) by (simpl; lia).
    unfold PAGE_SIZE. rewrite u32_id by (unfold is_u32; lia).
    destruct ((ap_page a <=? ptr) && (ptr <? ap_page a + 4096)) eqn:E; boolify.
    + exists (Some (ap_pr a)). split; [done|]. exists a. split; [left|]. split; [done|]. unfold on_page. lia.
    + destruct (IH fuel (next_all pr)) as (r & E' & Hres); [|lia|done|].
      { intros b Hb'. apply Hin. by right. }
      exists r. split; [done|]. destruct r as [j|].
      * destruct Hres as (b & Hb' & ?). exists b. split; [by right|done].
      * intros b [->|Hb']%elem_of_cons; [unfold on_page; lia|by apply Hres].
Qed.

Lemma find_page_rep hp ex aps ptr :
  rep hp ex aps ->
  exists r, find_page (S NPAGEREFS) (allbase hp) ptr hp = Some r /\
    match r with
    | Some j => exists l1 a l2, aps = l1 ++ a :: l2 /\ ap_pr a = j /\ on_page a ptr
    | None => forall a, a ∈ aps -> ~ on_page a ptr
    end.
Proof.
  intros Hr. destruct (find_page_loop hp ex aps aps (S NPAGEREFS) (allbase hp) ptr Hr) as (r & E & Hres).
  - done.
  - pose proof (rep_length _ _ _ Hr). unfold NPAGEREFS. lia.
  - apply Hr.
  - exists r. split; [done|]. destruct r as [j|]; [|done]. destruct Hres as (a & Ha & ?).
    apply list_elem_of_split in Ha as (l1 & l2 & ->). by exists l1, a, l2.
Qed.

(** ** Marks of the pagerefs *)

Lemma inuse_bit_loop n j w :
  (n + j = 32)%nat -> (exists i, (j <= i < 32)%nat /\ Z.testbit w (Z.of_nat i) = false) ->
  exists i, inuse_bit (S n) (2 ^ Z.of_nat j `mod` 2 ^ 32) j w = Some (2 ^ Z.of_nat i, i) /\ (i < 32)%nat /\
    Z.testbit w (Z.of_nat i) = false.
Proof.
  revert j. induction n as [|n IH]; intros j Hn (i & Hi & Hb); [lia|].
  assert (0 < 2 ^ Z.of_nat j < 2 ^ 32) as Hk by (split; [lia|apply Z.pow_lt_mono_r; lia]).
  rewrite Z.mod_small by lia. cbn [inuse_bit]. rewrite (proj2 (Z.eqb_neq _ 0)) by lia.
  destruct (Z.testbit w (Z.of_nat j)) eqn:Ej.
  - assert ((Z.land w (2 ^ Z.of_nat j) =? 0) = false) as ->.
    { apply Z.eqb_neq. intros E. apply (f_equal (fun x => Z.testbit x (Z.of_nat j))) in E.
      rewrite Z.land_spec, Z.pow2_bits_true, Ej, Z.bits_0 in E by lia. done. }
    rewrite Z.shiftl_mul_pow2 by lia. change (2 ^ 1) with 2. rewrite Z.mul_comm.
    rewrite <- Z.pow_succ_r by lia. rewrite <- Nat2Z.inj_succ. apply IH; [lia|].
    exists i. split; [|done]. assert (i <> j) by congruence. lia.
  - assert ((Z.land w (2 ^ Z.of_nat j) =? 0) = true) as ->.
    { apply Z.eqb_eq, Z.bits_inj'. intros m Hm. rewrite Z.land_spec, Z.bits_0, Z.pow2_bits_eqb by lia.
      destruct (Z.of_nat j =? m) eqn:E; boolify; [subst m; by rewrite Ej|by rewrite andb_false_r]. }
    exists j. split; [done|]. split; [lia|done].
Qed.

Lemma word_free w :
  is_u32 w -> w <> 0xffffffff -> exists i, (0 <= i < 32)%nat /\ Z.testbit w (Z.of_nat i) = false.
Proof.
  intros Hw Hne. destruct (decide (Exists (fun i => Z.testbit w (Z.of_nat i) = false) (seq 0 32))) as [He|Hn].
  - apply list.Exists_exists in He as (i & Hi%elem_of_seq & Hb). exists i. split; [lia|done].
  - exfalso. apply Hne. apply Z.bits_inj'. intros m Hm.
    change 0xffffffff with (Z.ones 32). destruct (decide (m < 32)).
    + rewrite Z.ones_spec_low by lia. apply not_false_iff_true. intros Hf. apply Hn, list.Exists_exists.
      exists (Z.to_nat m). rewrite Z2Nat.id by lia. split; [apply elem_of_seq; lia|done].
    + rewrite Z.ones_spec_high by lia. rewrite <- (Z.mod_small w (2 ^ 32)) by done. apply Z.mod_pow2_bits_high. lia.
Qed.

(** The pageref [i] * 32 + [b] is marked, or its mark taken away. *)
Lemma marked_set hp i b w v j :
  (b < 32)%nat -> pagerefs_inuse hp !! i = Some w ->
  (forall n, (n < 32)%nat -> Z.testbit v (Z.of_nat n) =
     if bool_decide (n = b) then Z.testbit v (Z.of_nat b) else Z.testbit w (Z.of_nat n)) ->
  marked (set_inuse i v hp) j <->
    if decide (j = i * 32 + b)%nat then Z.testbit v (Z.of_nat b) = true else marked hp j.
Proof.
  intros Hb Hw Hv. pose proof (lookup_lt_Some _ _ _ Hw) as Hlt. unfold marked. cbn [pagerefs_inuse set_inuse].
  pose proof (Nat.div_mod j 32) as Hdm. pose proof (Nat.mod_upper_bound j 32) as Hmb.
  case_decide as Hj.
  - assert ((j / 32 = i)%nat /\ (j `mod` 32 = b)%nat) as [-> ->] by lia.
    rewrite list_lookup_insert_eq by done. naive_solver.
  - destruct (decide (j / 32 = i)%nat) as [E|E].
    + rewrite E, list_lookup_insert_eq by done. split.
      * intros (w' & [= <-] & Ht). exists w. split; [done|]. rewrite Hv in Ht by lia.
        rewrite bool_decide_eq_false_2 in Ht by lia. done.
      * intros (w' & Hw' & Ht). exists v. split; [done|]. rewrite Hv by lia.
        rewrite bool_decide_eq_false_2 by lia. congruence.
    + rewrite list_lookup_insert_ne by done. done.
Qed.

Lemma rep_set_inuse hp ex ex' aps i v :
  rep hp ex aps -> is_u32 v -> NoDup (ex' ++ (ap_pr <$> aps)) ->
  (forall j, (j < 256)%nat -> marked (set_inuse i v hp) j <-> j ∈ ex' ++ (ap_pr <$> aps)) ->
  rep (set_inuse i v hp) ex' aps.
Proof.
  intros [? [? ?] ? _ _ ? ? Hpg ? ?] Hv Hnd Hm. constructor; simpl; try done.
  - rewrite length_insert. split; [done|]. by apply Forall_insert.
  - intros a Ha. by destruct (Hpg a Ha).
Qed.

End rep.
