(* ===== verification/KheapOps.v ===== *)
(** * The operations of the kernel heap on its pages

    What taking and giving back a pageref, setting a page up and releasing it do to the
    pages that the heap represents. *)

From stdpp Require Import base option list gmap numbers.
From S2P Require Import Prelude Kmem Kheap KheapInv.

Section ops.
Context {P : Type}.
Implicit Types hp : kheap P.
Implicit Types aps : list apage.

(** ** Pagerefs *)

Lemma u32_high w n : is_u32 w -> 32 <= n -> Z.testbit w n = false.
Proof. intros Hw Hn. rewrite <- (Z.mod_small w (2 ^ 32)) by done. apply Z.mod_pow2_bits_high. lia. Qed.

Lemma u32_bits x : 0 <= x -> (forall n, 32 <= n -> Z.testbit x n = false) -> is_u32 x.
Proof.
  intros Hx Hb. split; [done|]. assert (x = x `mod` 2 ^ 32) as ->; [|by apply Z.mod_pos_bound].
  apply Z.bits_inj'. intros n Hn. destruct (decide (n < 32)).
  - by rewrite Z.mod_pow2_bits_low by lia.
  - rewrite Z.mod_pow2_bits_high by lia. apply Hb. lia.
Qed.

Lemma u32_lor w b : is_u32 w -> (b < 32)%nat -> is_u32 (Z.lor w (2 ^ Z.of_nat b)).
Proof.
  intros Hw Hb. apply u32_bits; [apply Z.lor_nonneg; unfold is_u32 in *; lia|]. intros n Hn.
  rewrite Z.lor_spec, u32_high, Z.pow2_bits_eqb by (done || lia). apply Z.eqb_neq. lia.
Qed.

Lemma allocpageref_loop_rep n i hp ex aps :
  (n + i = 8)%nat -> rep hp ex aps ->
  exists r hp', allocpageref_loop n i hp = Some (r, hp') /\
    match r with
    | Some j => (j < 256)%nat /\ rep hp' (j :: ex) aps /\ kpool hp' = kpool hp /\ kmem hp' = kmem hp
    | None => hp' = hp
    end.
Proof.
  revert i. induction n as [|n IH]; intros i Hn Hr; [by exists None, hp|].
  destruct (rp_words _ _ _ Hr) as [Hl Hu]. cbn [allocpageref_loop].
  destruct (pagerefs_inuse hp !! i) as [w|] eqn:Hw; [|apply lookup_ge_None in Hw; lia].
  cbn [mbind option_bind]. destruct (w =? 0xffffffff) eqn:E; boolify; [by apply (IH (S i)); [lia|]|].
  pose proof (list.Forall_lookup_1 _ _ _ _ Hu Hw) as Hwu.
  destruct (word_free w Hwu E) as (b0 & Hb0 & Hbit0).
  destruct (inuse_bit_loop 32 0 w) as (b & Eb & Hb & Hbit); [done|by exists b0|].
  change (2 ^ Z.of_nat 0 `mod` 2 ^ 32) with 1 in Eb. rewrite Eb. cbn [mbind option_bind].
  assert (forall j, marked (set_inuse i (Z.lor w (2 ^ Z.of_nat b)) hp) j <->
            if decide (j = i * 32 + b)%nat then True else marked hp j) as Hm.
  { intros j. rewrite (marked_set hp i b w) by
      (first [done|intros m Hm; rewrite !Z.lor_spec, !Z.pow2_bits_eqb by lia; rewrite Z.eqb_refl, orb_true_r;
        case_bool_decide as Hmb; [subst m; by rewrite Z.eqb_refl, orb_true_r|];
        rewrite (proj2 (Z.eqb_neq _ _)), orb_false_r by lia; done]).
    case_decide; [|done]. rewrite Z.lor_spec, Z.pow2_bits_true, orb_true_r by lia. done. }
  assert (~ marked hp (i * 32 + b)) as Hnm.
  { intros (w' & Hw' & Ht). rewrite Nat.add_comm, Nat.div_add, Nat.div_small, Nat.add_0_l in Hw' by lia.
    rewrite Nat.add_comm, Nat.Div0.mod_add, Nat.mod_small in Ht by lia. congruence. }
  assert (i * 32 + b < 256)%nat as Hlt by lia.
  eexists _, _. split; [done|]. split; [done|]. split; [|done].
  apply (rep_set_inuse hp ex); [done|by apply u32_lor|..].
  - rewrite <- app_comm_cons. apply list.NoDup_cons. split; [|apply Hr].
    by rewrite <- (rp_inuse _ _ _ Hr).
  - intros j Hj. rewrite Hm, <- app_comm_cons, elem_of_cons. case_decide as Ej.
    + split; [by left|done].
    + rewrite (rp_inuse _ _ _ Hr j Hj). split; [by right|]. by intros [?|?].
Qed.

Lemma allocpageref_rep hp ex aps :
  rep hp ex aps ->
  exists r hp', allocpageref hp = Some (r, hp') /\
    match r with
    | Some j => (j < 256)%nat /\ rep hp' (j :: ex) aps /\ kpool hp' = kpool hp /\ kmem hp' = kmem hp
    | None => hp' = hp
    end.
Proof. by apply allocpageref_loop_rep. Qed.

Lemma freepageref_rep hp ex aps j :
  rep hp (j :: ex) aps -> (j < 256)%nat ->
  exists hp', freepageref j hp = Some hp' /\ rep hp' ex aps /\ kpool hp' = kpool hp.
Proof.
  intros Hr Hj. destruct (rp_words _ _ _ Hr) as [Hl Hu].
  assert (marked hp j) as (w & Hw & Hbit) by (apply (rp_inuse _ _ _ Hr j Hj); left).
  pose proof (list.Forall_lookup_1 _ _ _ _ Hu Hw) as Hwu. pose proof (Nat.mod_upper_bound j 32) as Hb.
  unfold freepageref. rewrite bool_decide_eq_true_2 by (unfold NPAGEREFS; lia). cbn zeta.
  rewrite Hw. cbn [mbind option_bind]. rewrite Z.shiftl_1_l.
  assert ((Z.land w (2 ^ Z.of_nat (j `mod` 32)) =? 0) = false) as ->.
  { apply Z.eqb_neq. intros E. apply (f_equal (fun x => Z.testbit x (Z.of_nat (j `mod` 32)))) in E.
    rewrite Z.land_spec, Z.pow2_bits_true, Hbit, Z.bits_0 in E by lia. done. }
  eexists. split; [done|]. split; [|done]. pose proof (rp_nodup _ _ _ Hr) as Hnd.
  rewrite <- app_comm_cons in Hnd. apply list.NoDup_cons in Hnd as [Hni Hnd].
  apply (rep_set_inuse hp (j :: ex)); [done| |done|].
  - apply u32_bits; [apply Z.ldiff_nonneg; unfold is_u32 in *; lia|]. intros n Hn.
    by rewrite Z.ldiff_spec, (u32_high w).
  - intros j' Hj'. rewrite (marked_set hp _ (j `mod` 32) w); [|lia|done|].
    + replace (j / 32 * 32 + j `mod` 32)%nat with j by (pose proof (Nat.div_mod j 32); lia).
      rewrite Z.ldiff_spec, Z.pow2_bits_true, andb_false_r by lia. case_decide as Ej.
      * subst j'. split; [done|]. by intros ?%Hni.
      * rewrite (rp_inuse _ _ _ Hr j' Hj'), <- app_comm_cons, elem_of_cons. naive_solver.
    + intros m Hm. rewrite !Z.ldiff_spec, !Z.pow2_bits_eqb by lia. case_bool_decide as Hmb; [by subst m|].
      rewrite (proj2 (Z.eqb_neq (Z.of_nat (j `mod` 32)) (Z.of_nat m))), andb_true_r by lia. done.
Qed.
(** ** A new page *)

(** The offsets of the first [n] blocks, the last one first. *)
Fixpoint desc (sz : Z) (n : nat) : list Z :=
  match n with O => [] | S n => Z.of_nat n * sz :: desc sz n end.

Lemma elem_of_desc sz n o : o ∈ desc sz n <-> exists m, (m < n)%nat /\ o = Z.of_nat m * sz.
Proof.
  induction n as [|n IH]; simpl.
  - split; [by intros ?%not_elem_of_nil|]. intros (m & ? & _). lia.
  - rewrite elem_of_cons, IH. split.
    + intros [->|(m & ? & ->)]; [exists n; lia|exists m; lia].
    + intros (m & Hm & ->). destruct (decide (m = n)) as [->|]; [by left|]. right. exists m. lia.
Qed.

Lemma length_desc sz n : length (desc sz n) = n.
Proof. induction n as [|n IH]; [done|]. simpl. by rewrite IH. Qed.

Lemma NoDup_desc sz n : 0 < sz -> NoDup (desc sz n).
Proof.
  intros Hs. induction n as [|n IH]; [constructor|]. simpl. apply list.NoDup_cons. split; [|done].
  rewrite elem_of_desc. intros (m & Hm & E). apply Z.mul_reg_r in E; lia.
Qed.

Lemma desc_slots k : (k < 8)%nat -> Forall (slot k) (desc (bsize k) (Z.to_nat (nblk k))).
Proof.
  intros Hk. destruct (bsize_facts k Hk) as (Hb & _ & Hn & Hm & _). apply list.Forall_forall.
  intros o (m & Hlt & ->)%elem_of_desc. split; [nia|]. apply Z.mod_mul. lia.
Qed.

Lemma link_blocks_rep n i sz fla mem :
  (1 <= i)%nat -> 0 < sz -> 0 < fla -> fla + Z.of_nat (i + n) * sz < 2 ^ 32 -> fl_rep mem fla (desc sz i) ->
  exists mem', link_blocks n (Z.of_nat i) sz fla (fla + (Z.of_nat i - 1) * sz) mem =
      Some (fla + (Z.of_nat (i + n) - 1) * sz, mem') /\ fl_rep mem' fla (desc sz (i + n)) /\
    forall x, x < fla \/ fla + Z.of_nat (i + n) * sz <= x -> mem' !! x = mem !! x.
Proof.
  revert i mem. induction n as [|n IH]; intros i mem Hi Hs Hf Hb Hfl; cbn [link_blocks].
  { exists mem. rewrite !Nat.add_0_r. done. }
  assert (Z.of_nat i * sz <= Z.of_nat (i + S n) * sz) by nia.
  rewrite (u32_id (fla + Z.of_nat i * sz)) by (unfold is_u32; nia).
  rewrite (u32_id (fla + (Z.of_nat i - 1) * sz)) by (unfold is_u32; nia).
  rewrite (proj2 (Z.eqb_neq _ _)) by nia. cbn [negb].
  destruct (IH (S i) (<[fla + Z.of_nat i * sz := fla + (Z.of_nat i - 1) * sz]> mem)) as (mem' & E & Hfl' & Ho);
    [lia|done|done|by rewrite <- Nat.add_succ_comm in Hb|..].
  - split.
    + rewrite lookup_insert_eq. destruct i as [|i']; [lia|]. simpl head_ptr.
      f_equal. f_equal. f_equal. lia.
    + eapply fl_rep_frame; [|done]. intros o (m & Hm & ->)%elem_of_desc.
      rewrite lookup_insert_ne; [done|]. nia.
  - exists mem'. rewrite <- Nat.add_succ_comm. split; [|split; [done|]].
    + rewrite <- E. f_equal; lia.
    + intros x Hx. rewrite Ho by done. rewrite lookup_insert_ne; [done|]. nia.
Qed.

Definition fresh_page (j : nat) (page : Z) (k : nat) : apage :=
  Apage j page k (desc (bsize k) (Z.to_nat (nblk k))).

Lemma fresh_page_ok j page k :
  (k < 8)%nat -> 0 < page -> page `mod` 4096 = 0 -> page + 4096 < 2 ^ 32 -> apage_ok (fresh_page j page k).
Proof.
  intros Hk ? ? ?. destruct (bsize_facts k Hk) as (Hb & _).
  constructor; simpl; [done|done|apply NoDup_desc; lia|by apply desc_slots].
Qed.

(** A page set up and put at the head of the lists. *)
Lemma rep_cons hp ex aps j page k mem :
  rep hp (j :: ex) aps -> (j < 256)%nat -> apage_ok (fresh_page j page k) -> page ∉ (ap_page <$> aps) ->
  fl_rep mem page (desc (bsize k) (Z.to_nat (nblk k))) ->
  (forall x, ~ on_page (fresh_page j page k) x -> mem !! x = kmem hp !! x) ->
  forall b, sizebases hp !! k = Some b ->
  rep (set_allbase (Some j) (set_sizebase k (Some j) (set_pr j
        (Pageref b (allbase hp) (page + Z.of_nat k) ((nblk k - 1) * bsize k) (nblk k)) (set_kmem mem hp))))
      ex (fresh_page j page k :: aps).
Proof.
  intros Hr Hj Hok Hpg Hfl Hmem b Eb. pose proof Hr as [Hp Hw Hb Hi Hnd Hall Hsame Hrep Hpok Hap].
  pose proof Hok as [Hk _ _ _]. simpl in Hk. destruct (bsize_facts k Hk) as (Hbs & _ & Hnb & _).
  rewrite <- app_comm_cons in Hnd. apply list.NoDup_cons in Hnd as [Hnj Hnd].
  rewrite elem_of_app in Hnj. assert (forall i, i ∈ ap_pr <$> aps -> i <> j) as Hne by (intros i ? ->; tauto).
  set (pr := Pageref _ _ _ _ _).
  assert (forall next p l, (forall i, i ∈ l -> i ∈ ap_pr <$> aps) -> chain next (pagerefs hp) p l ->
            chain next (<[j := pr]> (pagerefs hp)) p l) as Hfr.
  { intros next p l Hl Hc. eapply chain_frame; [|done]. intros i r Hi' Hr'. exists r. split; [|done].
    rewrite list_lookup_insert_ne; [done|]. apply not_eq_sym, Hne. by apply Hl. }
  constructor; simpl; rewrite ?length_insert; try done.
  - intros i Hi'. rewrite (Hi i Hi'). set_solver.
  - apply list.NoDup_app. destruct (proj1 (list.NoDup_app _ _) Hnd) as (H1' & H2' & H3').
    split; [done|]. split; [|by apply list.NoDup_cons; split; [tauto|]].
    intros i Hie [->|?]%elem_of_cons; [tauto|by eapply H2'].
  - split; [done|]. exists pr. rewrite list_lookup_insert_eq by lia. split; [done|]. by apply Hfr.
  - intros k' Hk'. rewrite filter_cons. simpl. case_decide as Ek.
    + subst k'. exists (Some j). rewrite list_lookup_insert_eq by lia. split; [done|].
      destruct (Hsame k Hk) as (b' & Eb' & Hc). rewrite Eb in Eb'. injection Eb' as <-.
      split; [done|]. exists pr. rewrite list_lookup_insert_eq by lia. split; [done|].
      apply Hfr; [|done]. intros i (a & -> & [_ Ha]%list_elem_of_filter)%list_elem_of_fmap.
      by apply list_elem_of_fmap_2.
    + destruct (Hsame k' Hk') as (b' & Eb' & Hc). exists b'.
      rewrite list_lookup_insert_ne by done. split; [done|].
      apply Hfr; [|done]. intros i (a & -> & [_ Ha]%list_elem_of_filter)%list_elem_of_fmap.
      by apply list_elem_of_fmap_2.
  - intros a [->|Ha]%elem_of_cons.
    + constructor; simpl; [|done]. exists pr. rewrite list_lookup_insert_eq by lia. split; [done|].
      split; [done|]. rewrite length_desc. split; [|simpl; lia].
      destruct (Z.to_nat (nblk k)) as [|n] eqn:En; [lia|]. simpl. f_equal. lia.
    + destruct (Hrep a Ha) as [(r & Hr' & Hrest) Hl]. constructor; simpl.
      * exists r. rewrite list_lookup_insert_ne; [done|]. by apply not_eq_sym, Hne, list_elem_of_fmap_2.
      * eapply fl_rep_frame; [|done]. intros o Ho. apply Hmem.
        apply (pages_apart a _ _ (Hpok a Ha) Hok).
        -- simpl. intros E. apply Hpg. rewrite <- E. by apply list_elem_of_fmap_2.
        -- destruct (proj1 (list.Forall_forall _ _) (ao_slots _ (Hpok a Ha)) o Ho) as [? _]. unfold on_page. lia.
  - intros a [->|Ha]%elem_of_cons; [done|by apply Hpok].
  - by apply list.NoDup_cons.
Qed.

Lemma new_page_rep hp ex aps j page k :
  rep hp (j :: ex) aps -> (j < 256)%nat -> apage_ok (fresh_page j page k) -> page ∉ (ap_page <$> aps) ->
  exists hp', new_page j page k (bsize k) hp = Some hp' /\ kpool hp' = kpool hp /\
    rep hp' ex (fresh_page j page k :: aps).
Proof.
  intros Hr Hj Hok Hpg. pose proof Hok as [Hk (Hp & Hm & Ht) _ _]. simpl in Hk, Hp, Hm, Ht.
  destruct (bsize_facts k Hk) as (Hbs & _ & Hnb & Hmul & Hdiv). unfold new_page, PAGE_SIZE.
  destruct (lookup_lt_is_Some_2 (pagerefs hp) j) as [r Er]; [rewrite (rp_prs _ _ _ Hr); lia|].
  rewrite Er, Hdiv. cbn [mbind option_bind].
  assert (u16 (nblk k) = nblk k) as -> by (unfold u16; rewrite Z.mod_small; lia).
  destruct (link_blocks_rep (Z.to_nat (nblk k - 1)) 1 (bsize k) page (<[page := 0]> (kmem hp)))
    as (mem & E & Hfl & Ho); [lia..|nia| |].
  { split; [|done]. simpl. by rewrite Z.add_0_r, lookup_insert_eq. }
  replace (1 + Z.to_nat (nblk k - 1))%nat with (Z.to_nat (nblk k)) in * by lia.
  rewrite Z2Nat.id in * by lia. replace (page + (Z.of_nat 1 - 1) * bsize k) with page in E by lia.
  change (Z.of_nat 1) with 1 in E. rewrite E. cbn [mbind option_bind].
  replace (page + (nblk k - 1) * bsize k - page) with ((nblk k - 1) * bsize k) by lia.
  assert (u16 ((nblk k - 1) * bsize k) = (nblk k - 1) * bsize k) as ->
    by (unfold u16; rewrite Z.mod_small; nia).
  rewrite Z.eqb_refl. destruct (rp_same _ _ _ Hr k Hk) as (b & Eb & _). rewrite Eb. cbn [mbind option_bind].
  rewrite MKPAB_sum by done. eexists. split; [done|]. split; [done|]. apply rep_cons; try done.
  intros x Hx. unfold on_page in Hx. simpl in Hx. rewrite Hmul in Ho. rewrite Ho by lia.
  apply lookup_insert_ne. lia.
Qed.

(** ** Releasing a page *)

Lemma exists_last_or_nil {A} (l : list A) : l = [] \/ exists l' x, l = l' ++ [x].
Proof. destruct l as [|x l] using rev_ind; [by left|right; eauto]. Qed.

(** What points to the member after [m]. *)
Fixpoint last_guy (g : guy) (m : list nat) : guy :=
  match m with [] => g | j :: m => last_guy (Next j) m end.

Lemma last_guy_snoc g m i : last_guy g (m ++ [i]) = Next i.
Proof. revert g. induction m as [|j m IH]; intros g; [done|]. apply IH. Qed.

Lemma remove_loop_eq fuel get put (next : pageref -> option nat) pr m1 m2 g p hp :
  (forall j, get (Next j) hp = next <$> pagerefs hp !! j) -> get g hp = Some p ->
  chain next (pagerefs hp) p (m1 ++ pr :: m2) -> pr ∉ m1 -> (length m1 < fuel)%nat ->
  remove_loop fuel get put next pr g hp = put (last_guy g m1) (head m2) hp.
Proof.
  intros Hget. revert fuel g p. induction m1 as [|j m1 IH]; intros [|fuel] g p Hg Hc Hn Hf; simpl in Hf; try lia.
  - destruct (chain_split next (pagerefs hp) p [] pr m2 Hc) as (r & Hr & En & _).
    destruct Hc as [-> _]. simpl. rewrite Hg. cbn [mbind option_bind].
    rewrite bool_decide_eq_true_2 by done. rewrite Hr. cbn [mbind option_bind]. by rewrite En.
  - destruct Hc as [-> (r & Hr & Hc)]. simpl. rewrite Hg. cbn [mbind option_bind].
    rewrite bool_decide_eq_false_2 by set_solver. eapply IH; [by rewrite Hget, Hr|done|set_solver|lia].
Qed.

(** The links changed, and nothing else. *)
Record relinked hp hp' : Prop := {
  rl_prs : length (pagerefs hp') = length (pagerefs hp);
  rl_data : forall j pr, pagerefs hp !! j = Some pr -> exists pr', pagerefs hp' !! j = Some pr' /\
    pageaddr_and_blocktype pr' = pageaddr_and_blocktype pr /\
    freelist_offset pr' = freelist_offset pr /\ nfree pr' = nfree pr;
  rl_inuse : pagerefs_inuse hp' = pagerefs_inuse hp;
  rl_mem : kmem hp' = kmem hp;
  rl_pool : kpool hp' = kpool hp;
}.

Lemma relinked_trans hp1 hp2 hp3 : relinked hp1 hp2 -> relinked hp2 hp3 -> relinked hp1 hp3.
Proof.
  intros [? D1 ? ? ?] [? D2 ? ? ?]. constructor; try congruence. intros j pr Hj.
  destruct (D1 j pr Hj) as (pr1 & Hj1 & ? & ? & ?). destruct (D2 j pr1 Hj1) as (pr2 & Hj2 & ? & ? & ?).
  exists pr2. split; [done|]. split; [congruence|]. split; congruence.
Qed.

Lemma relinked_set hp j pr pr' :
  pagerefs hp !! j = Some pr -> pageaddr_and_blocktype pr' = pageaddr_and_blocktype pr ->
  freelist_offset pr' = freelist_offset pr -> nfree pr' = nfree pr -> relinked hp (set_pr j pr' hp).
Proof.
  intros Hj Ha Ho Hn. constructor; simpl; try done; [by rewrite length_insert|].
  intros i r Hi. destruct (decide (i = j)) as [->|Hne].
  - rewrite Hj in Hi. injection Hi as <-. exists pr'.
    by rewrite list_lookup_insert_eq by (by eapply lookup_lt_Some).
  - exists r. by rewrite list_lookup_insert_ne.
Qed.

(** A list whose members are not [j] does not see a change of [j]. *)
Lemma chain_insert next prs j pr p l :
  j ∉ l -> chain next prs p l -> chain next (<[j := pr]> prs) p l.
Proof.
  intros Hj. apply chain_frame. intros i r Hi Hr. exists r. split; [|done].
  rewrite list_lookup_insert_ne; [done|]. by intros ->.
Qed.

(** Nor one that goes through the other field. *)
Lemma chain_field next prs j pr pr' p l :
  prs !! j = Some pr -> next pr' = next pr -> chain next prs p l -> chain next (<[j := pr']> prs) p l.
Proof.
  intros Hj Hn. apply chain_frame. intros i r Hi Hr. destruct (decide (i = j)) as [->|Hne].
  - exists pr'. rewrite list_lookup_insert_eq by (by eapply lookup_lt_Some). split; [done|]. congruence.
  - exists r. by rewrite list_lookup_insert_ne.
Qed.

Definition same_list k aps : list nat := ap_pr <$> filter (fun a => ap_type a = k) aps.

Lemma same_list_in k aps i : i ∈ same_list k aps -> i ∈ ap_pr <$> aps.
Proof. intros (a & -> & [_ Ha]%list_elem_of_filter)%list_elem_of_fmap. by apply list_elem_of_fmap_2. Qed.

Lemma same_list_other k k' aps i :
  NoDup (ap_pr <$> aps) -> i ∈ same_list k aps -> i ∈ same_list k' aps -> k = k'.
Proof.
  intros Hnd (a & -> & [Ha Ha']%list_elem_of_filter)%list_elem_of_fmap
    (b & E & [Hb Hb']%list_elem_of_filter)%list_elem_of_fmap.
  apply list_elem_of_lookup_1 in Ha' as [x Hx], Hb' as [y Hy].
  assert (x = y) as ->; [|congruence].
  eapply (NoDup_lookup _ _ _ (ap_pr a) Hnd); rewrite list_lookup_fmap; [by rewrite Hx|by rewrite Hy, E].
Qed.

Lemma same_list_nodup k aps : NoDup (ap_pr <$> aps) -> NoDup (same_list k aps).
Proof. intros Hnd. eapply sublist_NoDup; [exact Hnd|]. apply fmap_sublist, sublist_filter. Qed.

Lemma remove_same_rep hp ex l1 a l2 :
  rep hp ex (l1 ++ a :: l2) ->
  exists hp', remove_loop (S NPAGEREFS) (get_same (ap_type a)) (put_same (ap_type a)) next_samesize
      (ap_pr a) Base hp = Some hp' /\ relinked hp hp' /\
    length (sizebases hp') = 8%nat /\ allbase hp' = allbase hp /\
    chain next_all (pagerefs hp') (allbase hp') (ap_pr <$> l1 ++ a :: l2) /\
    forall k, (k < 8)%nat -> exists b, sizebases hp' !! k = Some b /\
      chain next_samesize (pagerefs hp') b (same_list k (l1 ++ l2)).
Proof.
  intros Hr. assert (a ∈ l1 ++ a :: l2) as Ha by set_solver. pose proof (ao_type _ (rp_ok _ _ _ Hr a Ha)) as Ht.
  destruct (proj1 (list.NoDup_app _ _) (rp_nodup _ _ _ Hr)) as (_ & _ & Hnd).
  destruct (rp_same _ _ _ Hr _ Ht) as (b & Eb & Hc). fold (same_list (ap_type a) (l1 ++ a :: l2)) in Hc.
  assert (forall l l', same_list (ap_type a) (l ++ l') = same_list (ap_type a) l ++ same_list (ap_type a) l') as Eapp
    by (intros; unfold same_list; by rewrite list.filter_app, fmap_app).
  assert (same_list (ap_type a) (l1 ++ a :: l2) =
    same_list (ap_type a) l1 ++ ap_pr a :: same_list (ap_type a) l2) as El.
  { rewrite Eapp. unfold same_list. rewrite filter_cons_True by done. done. }
  pose proof (same_list_nodup (ap_type a) _ Hnd) as Hnd1. rewrite El in Hc, Hnd1.
  set (m1 := same_list (ap_type a) l1) in *. set (m2 := same_list (ap_type a) l2) in *.
  assert (forall k', (k' < 8)%nat -> k' <> ap_type a -> exists b', sizebases hp !! k' = Some b' /\
    chain next_samesize (pagerefs hp) b' (same_list k' (l1 ++ l2))) as Hoth.
  { intros k' Hk' Hne. destruct (rp_same _ _ _ Hr k' Hk') as (b' & Eb' & Hc'). exists b'. split; [done|].
    unfold same_list. rewrite list.filter_app in *. rewrite filter_cons_False in Hc' by done. done. }
  rewrite (remove_loop_eq _ _ _ _ _ m1 m2 _ b); [|done|done|done|..].
  2:{ intros Hin. destruct (proj1 (list.NoDup_app _ _) Hnd1) as (_ & Hd & _). apply (Hd _ Hin). left. }
  2:{ pose proof (rep_length _ _ _ Hr) as Hl. rewrite length_app in Hl. unfold m1, same_list.
      rewrite length_fmap. pose proof (length_filter (fun b => ap_type b = ap_type a) l1). unfold NPAGEREFS. lia. }
  destruct (chain_split _ _ _ _ _ _ Hc) as (pr & Hpr & _ & Hc2).
  destruct (exists_last_or_nil m1) as [E1|(m & i & E1)]; rewrite E1 in *.
  - eexists. split; [done|]. split; [by constructor; eauto|]. simpl. rewrite length_insert.
    split; [apply Hr|]. split; [done|]. split; [apply Hr|]. intros k' Hk'.
    destruct (decide (k' = ap_type a)) as [->|Hne].
    + exists (head m2). rewrite list_lookup_insert_eq by (rewrite (rp_bases _ _ _ Hr); lia). split; [done|].
      rewrite Eapp. fold m1 m2. by rewrite E1.
    + destruct (Hoth k' Hk' Hne) as (b' & ? & ?). exists b'. by rewrite list_lookup_insert_ne.
  - rewrite last_guy_snoc. rewrite <- app_assoc in Hc, Hnd1. simpl in Hc, Hnd1.
    destruct (chain_split _ _ _ _ _ _ Hc) as (r & Hi & _ & _). simpl. rewrite Hi. cbn [mbind option_bind].
    eexists. split; [done|]. split; [by eapply relinked_set|]. split; [apply Hr|]. split; [done|]. simpl.
    split; [eapply chain_field; [done|done|apply Hr]|]. intros k' Hk'.
    destruct (decide (k' = ap_type a)) as [->|Hne].
    + exists b. split; [done|]. rewrite Eapp. fold m1 m2. rewrite E1, <- app_assoc.
      eapply (chain_cut next_samesize set_samesize); [done|exact Hc|done|done].
    + destruct (Hoth k' Hk' Hne) as (b' & ? & ?). exists b'. split; [done|]. apply chain_insert; [|done].
      intros Hin. apply Hne. eapply (same_list_other k' (ap_type a) (l1 ++ a :: l2) i); [done|..].
      * unfold same_list in *. rewrite list.filter_app, fmap_app in *. rewrite filter_cons_False by done. done.
      * rewrite El. set_solver.
Qed.

Lemma remove_all_rep hp l1 j l2 :
  chain next_all (pagerefs hp) (allbase hp) (l1 ++ j :: l2) -> NoDup (l1 ++ j :: l2) ->
  (length l1 < S NPAGEREFS)%nat ->
  exists hp', remove_loop (S NPAGEREFS) get_all put_all next_all j Base hp = Some hp' /\ relinked hp hp' /\
    sizebases hp' = sizebases hp /\ chain next_all (pagerefs hp') (allbase hp') (l1 ++ l2) /\
    forall b l, chain next_samesize (pagerefs hp) b l -> chain next_samesize (pagerefs hp') b l.
Proof.
  intros Hc Hnd Hl. rewrite (remove_loop_eq _ _ _ _ _ l1 l2 _ (allbase hp)); [|done|done|done| |done].
  2:{ intros Hin. destruct (proj1 (list.NoDup_app _ _) Hnd) as (_ & Hd & _). apply (Hd _ Hin). left. }
  destruct (chain_split _ _ _ _ _ _ Hc) as (pr & Hpr & _ & Hc2).
  destruct (exists_last_or_nil l1) as [->|(m & i & ->)].
  - eexists. split; [done|]. split; [by constructor; eauto|]. done.
  - rewrite last_guy_snoc. rewrite <- app_assoc in Hc, Hnd. simpl in Hc, Hnd.
    destruct (chain_split _ _ _ _ _ _ Hc) as (r & Hi & _ & _). simpl. rewrite Hi. cbn [mbind option_bind].
    eexists. split; [done|]. split; [by eapply relinked_set|]. split; [done|]. rewrite <- app_assoc. split.
    + eapply (chain_cut next_all set_next_all); [done|exact Hc|done|done].
    + intros b l. by apply chain_field with r.
Qed.

Lemma remove_lists_rep hp ex l1 a l2 :
  rep hp ex (l1 ++ a :: l2) ->
  exists hp', remove_lists (ap_pr a) (ap_type a) hp = Some hp' /\ kpool hp' = kpool hp /\
    rep hp' (ap_pr a :: ex) (l1 ++ l2).
Proof.
  intros Hr. assert (a ∈ l1 ++ a :: l2) as Ha by set_solver. pose proof (ao_type _ (rp_ok _ _ _ Hr a Ha)) as Ht.
  destruct (proj1 (list.NoDup_app _ _) (rp_nodup _ _ _ Hr)) as (_ & _ & Hnd).
  unfold remove_lists. rewrite bool_decide_eq_true_2 by (simpl; lia).
  destruct (remove_same_rep hp ex l1 a l2 Hr) as (hp1 & -> & Hrl1 & Hb1 & Ea1 & Hc1 & Hs1).
  cbn [mbind option_bind]. rewrite fmap_app, fmap_cons in Hc1, Hnd.
  destruct (remove_all_rep hp1 _ _ _ Hc1 Hnd) as (hp2 & -> & Hrl2 & Eb2 & Hc2 & Hs2).
  { pose proof (rep_length _ _ _ Hr) as Hl. rewrite length_app in Hl. rewrite length_fmap. unfold NPAGEREFS. lia. }
  exists hp2. split; [done|]. pose proof (relinked_trans _ _ _ Hrl1 Hrl2) as [Hp Hdat Hin Hmem Hpool].
  split; [done|]. rewrite <- fmap_app in Hc2.
  assert (ap_pr a :: ex ++ (ap_pr <$> l1 ++ l2) ≡ₚ ex ++ (ap_pr <$> l1 ++ a :: l2)) as Hperm.
  { rewrite !fmap_app, fmap_cons. solve_Permutation. }
  constructor.
  - rewrite Hp. apply Hr.
  - rewrite Hin. apply Hr.
  - by rewrite Eb2.
  - intros j Hj. rewrite <- app_comm_cons, Hperm, <- (rp_inuse _ _ _ Hr j Hj). unfold marked. by rewrite Hin.
  - rewrite <- app_comm_cons, Hperm. apply Hr.
  - done.
  - intros k Hk. rewrite Eb2. destruct (Hs1 k Hk) as (b & ? & ?). exists b. split; [done|]. by apply Hs2.
  - intros b Hb. destruct (rp_page _ _ _ Hr b) as [(pr & Hpr & ? & ? & ?) Hfl]; [set_solver|].
    destruct (Hdat _ _ Hpr) as (pr' & Hpr' & ? & ? & ?). constructor; [|by rewrite Hmem].
    exists pr'. split; [done|]. split; [congruence|]. split; congruence.
  - intros b Hb. apply (rp_ok _ _ _ Hr). set_solver.
  - pose proof (rp_apart _ _ _ Hr) as Hap. rewrite fmap_app, fmap_cons in *.
    apply list.NoDup_app in Hap as (? & Hd & [? ?]%list.NoDup_cons). apply list.NoDup_app.
    split; [done|]. split; [|done]. intros x Hx ?. apply (Hd x Hx). by right.
Qed.

End ops.
