(* ===== verification/KheapSpec.v ===== *)
(** * The kernel heap keeps the contract of kmalloc

    [gheap] adds to the heap the sizes that were asked for, which the code does not
    record and does not need: no function of the heap reads them.  With them the heap is
    an instance of [KmallocLaws], the contract that the clients of kmalloc are verified
    against, for any page allocator that keeps [KpagesLaws]. *)

From stdpp Require Import base option list gmap numbers.
From S2P Require Import Prelude Kmem Kheap KheapInv KheapOps.

(** ** Freeing a block of a page *)

Lemma fill_deadbeef_out n ptr mem x :
  x < ptr \/ ptr + Z.of_nat n * 4 <= x -> fill_deadbeef n ptr mem !! x = mem !! x.
Proof.
  revert ptr mem. induction n as [|n IH]; intros ptr mem Hx; [done|]. cbn [fill_deadbeef].
  rewrite IH by lia. apply lookup_insert_ne. lia.
Qed.

Section free.
Context {P : Type} `{!Kpages P, !KpagesLaws P}.
Implicit Types hp : kheap P.

(** The block at [o] at the head of the free list. *)
Lemma free_block_list mem a o :
  apage_ok a -> slot (ap_type a) o -> o ∉ ap_free a -> fl_rep mem (ap_page a) (ap_free a) ->
  fl_rep (<[ap_page a + o := head_ptr (ap_page a) (ap_free a)]>
            (fill_deadbeef (Z.to_nat (bsize (ap_type a) / 4)) (ap_page a + o) mem))
         (ap_page a) (o :: ap_free a).
Proof.
  intros [Ht _ _ Hsl] Ho Hn Hfl. split; [by rewrite lookup_insert_eq|].
  eapply fl_rep_frame; [|done]. intros o' Ho'. assert (o <> o') as Hne by (by intros ->).
  rewrite lookup_insert_ne by lia. apply fill_deadbeef_out.
  destruct (bsize_facts _ Ht) as (Hb & _). rewrite Z2Nat.id by zdm.
  assert (bsize (ap_type a) / 4 * 4 <= bsize (ap_type a)) by zdm.
  destruct (slots_apart _ o o' Ht Ho) as [?|?]; [|done|lia..].
  by apply (proj1 (list.Forall_forall _ _) Hsl).
Qed.

Lemma free_block_out mem a o v x :
  apage_ok a -> slot (ap_type a) o -> ~ on_page a x ->
  <[ap_page a + o := v]> (fill_deadbeef (Z.to_nat (bsize (ap_type a) / 4)) (ap_page a + o) mem) !! x = mem !! x.
Proof.
  intros [Ht _ _ _] Ho Hx. pose proof (slot_fits _ _ Ht Ho). destruct Ho as [Ho _].
  unfold on_page in Hx. destruct (bsize_facts _ Ht) as (Hb & _).
  assert (bsize (ap_type a) / 4 * 4 <= bsize (ap_type a)) by zdm.
  rewrite lookup_insert_ne by lia. apply fill_deadbeef_out. rewrite Z2Nat.id by zdm. lia.
Qed.

(** Freeing: the block goes on the free list of its page, and the page is given back
    when all its blocks are free. *)
Lemma subpage_kfree_rep hp aps a o :
  rep hp [] aps -> pages_ok (kpool hp) -> is_Some (kpages (kpool hp) !! ap_page a) ->
  a ∈ aps -> slot (ap_type a) o -> o ∉ ap_free a ->
  exists hp' l1 l2, subpage_kfree (ap_page a + o) hp = Some (true, hp') /\ aps = l1 ++ a :: l2 /\
    let a' := with_free (o :: ap_free a) a in
    (Z.of_nat (length (ap_free a')) < nblk (ap_type a) /\ rep hp' [] (l1 ++ a' :: l2) /\
       kpool hp' = kpool hp \/
     Z.of_nat (length (ap_free a')) = nblk (ap_type a) /\ rep hp' [] (l1 ++ l2) /\
       pages_ok (kpool hp') /\ kpages (kpool hp') = delete (ap_page a) (kpages (kpool hp))).
Proof.
  intros Hr Hpk Hlive Ha Hslot Hfr. pose proof (rp_ok _ _ _ Hr a Ha) as Hok.
  pose proof Hok as [Ht (Hp & Hm & Htop) Hnd Hsl]. pose proof Hslot as [Ho Hdiv].
  destruct (bsize_facts _ Ht) as (Hb & _ & Hnb & _ & Hdv).
  destruct (find_page_rep hp [] aps (ap_page a + o) Hr) as ([j|] & E & Hf).
  2:{ destruct (Hf a Ha). unfold on_page. lia. }
  destruct Hf as (l1 & b & l2 & -> & Hj & Hon).
  assert (b = a) as ->.
  { apply elem_of_middle in Ha as [?|Ha]; [done|]. exfalso. assert (b ∈ l1 ++ b :: l2) as Hbin by (apply elem_of_middle; by left).
    apply (pages_apart b a _ (rp_ok _ _ _ Hr b Hbin) Hok) in Hon; [apply Hon; unfold on_page; lia|].
    apply not_eq_sym. by eapply (others_ne ap_page); [apply Hr|]. }
  assert (Forall (slot (ap_type a)) (o :: ap_free a)) as Hsl' by (by constructor).
  assert (NoDup (o :: ap_free a)) as Hnd' by (by apply list.NoDup_cons).
  pose proof (slots_bound _ _ Ht Hnd' Hsl') as Hlen. cbn [length] in Hlen.
  destruct (rep_pageref _ _ _ _ Hr Ha) as (pr & Hpr & Hpa & Hbt & Hoff & Hn).
  destruct (rp_page _ _ _ Hr a Ha) as [_ Hfl].
  pose proof (rep_update hp [] l1 a l2 pr (o :: ap_free a) _ Hr Hpr (apage_ok_free a _ Hok Hnd' Hsl')
    (free_block_list _ a o Hok Hslot Hfr Hfl) (fun x => free_block_out _ a o _ x Hok Hslot)) as Hup.
  unfold subpage_kfree. rewrite E. cbn [mbind option_bind]. subst j. rewrite Hpr. cbn [mbind option_bind].
  rewrite Hbt, Nat2Z.id, sizes_lookup by done. cbn [mbind option_bind]. rewrite Hpa, Hoff, Hn.
  replace (ap_page a + o - ap_page a) with o by lia. rewrite (u32_id o) by (unfold is_u32; lia).
  unfold PAGE_SIZE. rewrite (proj2 (Z.leb_gt 4096 o)) by lia. rewrite Hdiv, Hdv. cbn [orb negb Z.eqb].
  rewrite (u32_id (ap_page a + o)) by (unfold is_u32; lia).
  assert (u16 o = o) as -> by (unfold u16; rewrite Z.mod_small; lia).
  assert (u16 (Z.of_nat (length (ap_free a)) + 1) = Z.of_nat (length (o :: ap_free a))) as ->
    by (unfold u16; cbn [length]; rewrite Z.mod_small; lia).
  assert ((if head_off (ap_free a) =? INVALID_OFFSET then 0 else u32 (ap_page a + head_off (ap_free a))) =
          head_ptr (ap_page a) (ap_free a)) as ->.
  { destruct (ap_free a) as [|o' fr]; [done|]. simpl. apply list.Forall_cons in Hsl as [[Ho' _] _].
    unfold INVALID_OFFSET. rewrite (proj2 (Z.eqb_neq o' 65535)) by lia. apply u32_id. unfold is_u32. lia. }
  cbn [head_off] in Hup. set (hp1 := set_pr _ _ _) in *.
  rewrite (proj2 (Z.leb_le _ _)) by (cbn [length]; lia).
  destruct (Z.of_nat (length (o :: ap_free a)) =? nblk (ap_type a)) eqn:En; boolify.
  - destruct (remove_lists_rep hp1 [] l1 _ l2 Hup) as (hp2 & E2 & Epool & Hr2). cbn in E2. rewrite E2.
    cbn [mbind option_bind]. rewrite Epool. change (kpool hp1) with (kpool hp).
    destruct (free_kpages_live _ _ Hpk Hlive) as (s & -> & Hs & Es). cbn [mbind option_bind].
    assert (rep (set_kpool s hp2) [ap_pr a] (l1 ++ l2)) as Hr3.
    { destruct Hr2 as [? ? ? ? ? ? ? Hpg ? ?]. constructor; try done. intros b Hb'. by destruct (Hpg b Hb'). }
    destruct (freepageref_rep _ [] _ (ap_pr a) Hr3) as (hp4 & -> & Hr4 & Ep4).
    { apply lookup_lt_Some in Hpr. rewrite (rp_prs _ _ _ Hr) in Hpr. lia. }
    eexists hp4, l1, l2. split; [done|]. split; [done|]. right. rewrite Ep4. done.
  - eexists _, l1, l2. split; [done|]. split; [done|]. left. split; [cbn [length] in *; simpl; lia|]. done.
Qed.

(** A block on none of the pages. *)
Lemma subpage_kfree_big hp aps p :
  rep hp [] aps -> (forall a, a ∈ aps -> ~ on_page a p) -> subpage_kfree p hp = Some (false, hp).
Proof.
  intros Hr Hn. unfold subpage_kfree. destruct (find_page_rep hp [] aps p Hr) as ([j|] & -> & Hf); [|done].
  destruct Hf as (l1 & a & l2 & -> & _ & Hon). destruct (Hn a); [apply elem_of_middle; by left|done].
Qed.
End free.

(** ** What was asked for *)

(** Where the block at [p] of [sz] bytes is: on a page of blocks, or a run of pages. *)
Definition on_slot (aps : list apage) (p sz : Z) : Prop :=
  exists a o, a ∈ aps /\ slot (ap_type a) o /\ (o ∉ ap_free a) /\ p = ap_page a + o /\ sz <= bsize (ap_type a).
Definition on_run (aps : list apage) (K : gmap Z Z) (p sz : Z) : Prop :=
  exists n, K !! p = Some n /\ (p ∉ (ap_page <$> aps)) /\ sz <= n * 4096.

(** The pages in use are pages of blocks and runs that were asked for; the blocks not
    on a free list are those that were asked for. *)
Record owned (aps : list apage) (K asked : gmap Z Z) : Prop := {
  ow_page : forall a, a ∈ aps -> K !! ap_page a = Some 1;
  ow_slot : forall a o, a ∈ aps -> slot (ap_type a) o -> o ∉ ap_free a ->
    is_Some (asked !! (ap_page a + o));
  ow_run : forall p n, K !! p = Some n -> p ∈ (ap_page <$> aps) \/ is_Some (asked !! p);
  ow_asked : forall p sz, asked !! p = Some sz -> 0 <= sz /\ (on_slot aps p sz \/ on_run aps K p sz);
}.

Record pages_wf (aps : list apage) : Prop := {
  pw_ok : forall a, a ∈ aps -> apage_ok a;
  pw_apart : NoDup (ap_page <$> aps);
}.

Lemma rep_wf {P} (hp : kheap P) ex aps : rep hp ex aps -> pages_wf aps.
Proof. intros Hr. constructor; apply Hr. Qed.

(** Two blocks of pages at one address are one. *)
Lemma slot_inj aps a b o o' :
  pages_wf aps -> a ∈ aps -> b ∈ aps -> slot (ap_type a) o -> slot (ap_type b) o' ->
  ap_page a + o = ap_page b + o' -> a = b /\ o = o'.
Proof.
  intros [Hok Hap] Ha Hb [Ho _] [Ho' _] E.
  destruct (decide (ap_page a = ap_page b)) as [Ep|Hne].
  - split; [|lia]. apply list_elem_of_lookup_1 in Ha as [x Hx], Hb as [y Hy].
    assert (x = y) as ->; [|congruence].
    eapply (NoDup_lookup _ _ _ (ap_page a) Hap); rewrite list_lookup_fmap; [by rewrite Hx|by rewrite Hy, Ep].
  - exfalso. apply (pages_apart a b (ap_page a + o) (Hok a Ha) (Hok b Hb) Hne); unfold on_page; lia.
Qed.

(** Runs of pages do not overlap. *)
Record runs_wf (K : gmap Z Z) : Prop := {
  rw_range : forall p n, K !! p = Some n -> 0 < p /\ p `mod` 4096 = 0 /\ 0 < n /\ p + n * 4096 < 2 ^ 32;
  rw_apart : forall p q n m, K !! p = Some n -> K !! q = Some m -> p <> q ->
    p + n * 4096 <= q \/ q + m * 4096 <= p;
}.

Lemma pages_runs {P} `{!Kpages P, !KpagesLaws P} (s : P) : pages_ok s -> runs_wf (kpages s).
Proof. intros Hs. constructor; [intros p n; by apply kpages_range|intros p q n m; by apply kpages_disjoint]. Qed.

Lemma run_on_page aps K asked a p n :
  runs_wf K -> owned aps K asked -> a ∈ aps -> K !! p = Some n -> on_page a p -> p = ap_page a.
Proof.
  intros [Hrg Hd] Ho Ha Hp Hon. destruct (decide (p = ap_page a)) as [|Hne]; [done|]. exfalso.
  destruct (Hrg p n Hp) as (_ & _ & Hn & _). unfold on_page in Hon.
  destruct (Hd p (ap_page a) n 1 Hp (ow_page _ _ _ Ho a Ha) Hne); lia.
Qed.

(** A block of a page that was asked for is not free. *)
Lemma asked_slot aps K asked a o sz :
  pages_wf aps -> runs_wf K -> owned aps K asked -> a ∈ aps -> slot (ap_type a) o ->
  asked !! (ap_page a + o) = Some sz -> (o ∉ ap_free a) /\ 0 <= sz <= bsize (ap_type a).
Proof.
  intros Hwf Hrw How Ha Ho E.
  destruct (ow_asked _ _ _ How _ _ E) as [? [(b & o2 & Hb & Ho2 & Hf & Ep & ?)|(n & Hn & Hnp & _)]].
  - by destruct (slot_inj _ a b o o2 Hwf Ha Hb Ho Ho2 Ep) as [<- <-].
  - exfalso. apply Hnp. destruct Ho as [? _]. rewrite (run_on_page _ _ _ a _ n Hrw How Ha Hn);
      [by apply list_elem_of_fmap_2|unfold on_page; lia].
Qed.

(** Replacing a page's free list. *)
Lemma owned_replace l1 a l2 l K asked asked' :
  pages_wf (l1 ++ a :: l2) -> runs_wf K -> owned (l1 ++ a :: l2) K asked ->
  (forall o, slot (ap_type a) o -> o ∉ l -> exists sz, asked' !! (ap_page a + o) = Some sz /\
     0 <= sz <= bsize (ap_type a)) ->
  (forall o, slot (ap_type a) o -> o ∈ l -> asked' !! (ap_page a + o) = None) ->
  (forall p, (forall o, slot (ap_type a) o -> p <> ap_page a + o) -> asked' !! p = asked !! p) ->
  owned (l1 ++ with_free l a :: l2) K asked'.
Proof.
  intros Hwf Hrw How Hin Hout Hsame. pose proof How as [Hpg Hsl Hrun Hask].
  assert (a ∈ l1 ++ a :: l2) as Ha by (apply elem_of_middle; by left).
  assert (forall b, b ∈ l1 ++ l2 -> b ∈ l1 ++ a :: l2) as Hsub by (intros b ?; apply elem_of_middle; by right).
  constructor.
  - intros b [->|Hb]%elem_of_middle; [by apply (Hpg a)|by apply Hpg, Hsub].
  - intros b o [->|Hb]%elem_of_middle Ho Hn; simpl in *.
    + destruct (Hin o Ho Hn) as (sz & -> & _). by eexists.
    + rewrite Hsame; [by apply Hsl; [apply Hsub|..]|]. intros o' Ho' E.
      destruct (slot_inj _ b a o o' Hwf (Hsub b Hb) Ha Ho Ho' E) as [-> _].
      by destruct (others_ne ap_page _ _ _ _ (pw_apart _ Hwf) Hb).
  - intros p n Hp. rewrite (fmap_middle ap_page l1 a (with_free l a)) by done.
    destruct (Hrun p n Hp) as [?|Hs]; [by left|].
    destruct (decide (p ∈ ap_page <$> l1 ++ a :: l2)) as [|Hnp]; [by left|]. right.
    rewrite Hsame; [done|]. intros o [Ho _] E. apply Hnp.
    rewrite (run_on_page _ _ _ a p n Hrw How Ha Hp); [by apply list_elem_of_fmap_2|unfold on_page; lia].
  - intros p sz Hp. destruct (decide (on_page a p /\ (p - ap_page a) `mod` bsize (ap_type a) = 0)) as [[Hon Hd]|Hno].
    + assert (slot (ap_type a) (p - ap_page a)) as Ho by (split; [unfold on_page in Hon; lia|done]).
      assert (p = ap_page a + (p - ap_page a)) as Ep by lia. rewrite Ep in Hp.
      destruct (decide (p - ap_page a ∈ l)) as [Hl|Hl]; [by rewrite Hout in Hp|].
      destruct (Hin _ Ho Hl) as (sz' & E & Hsz). rewrite E in Hp. injection Hp as ->. split; [lia|]. left.
      exists (with_free l a), (p - ap_page a). split; [apply elem_of_middle; by left|]. split; [done|]. split; [done|]. simpl. lia.
    + assert (forall o, slot (ap_type a) o -> p <> ap_page a + o) as Hnp.
      { intros o [Ho Hd] ->. apply Hno. replace (ap_page a + o - ap_page a) with o by lia.
        split; [unfold on_page; lia|done]. }
      rewrite Hsame in Hp by done. destruct (Hask p sz Hp) as [Hsz Hpl]. split; [done|].
      destruct Hpl as [(b & o & Hb & Ho & Hf & -> & Hs)|(n & Hn & Hnpg & Hs)].
      * left. exists b, o. apply elem_of_middle in Hb as [->|Hb]; [by destruct (Hnp o Ho)|].
        split; [apply elem_of_middle; by right|done].
      * right. exists n. split; [done|]. by rewrite (fmap_middle ap_page l1 a (with_free l a)).
Qed.

(** Taking the first free block, and freeing one. *)
Lemma owned_take l1 a l2 o l K asked sz :
  pages_wf (l1 ++ a :: l2) -> runs_wf K -> owned (l1 ++ a :: l2) K asked -> ap_free a = o :: l ->
  0 <= sz <= bsize (ap_type a) ->
  asked !! (ap_page a + o) = None /\
  owned (l1 ++ with_free l a :: l2) K (<[ap_page a + o := sz]> asked).
Proof.
  intros Hwf Hrw How Ef Hsz. assert (a ∈ l1 ++ a :: l2) as Ha by (apply elem_of_middle; by left).
  destruct (pw_ok _ Hwf a Ha) as [Ht _ Hnd Hsl]. rewrite Ef in Hnd, Hsl.
  apply list.NoDup_cons in Hnd as [Hno Hnd]. apply list.Forall_cons in Hsl as [Ho Hsl].
  assert (forall o', slot (ap_type a) o' -> o' ∈ ap_free a -> asked !! (ap_page a + o') = None) as Hnone.
  { intros o' Ho' Hf. destruct (asked !! (ap_page a + o')) as [s|] eqn:E; [|done].
    by destruct (asked_slot _ _ _ a o' s Hwf Hrw How Ha Ho' E). }
  split; [apply Hnone; [done|rewrite Ef; left]|]. eapply owned_replace; [done|done|done|..].
  - intros o' Ho' Hl. destruct (decide (o' = o)) as [->|Hne]; [exists sz; by rewrite lookup_insert_eq|].
    rewrite lookup_insert_ne by lia. assert (o' ∉ ap_free a) as Hf by (rewrite Ef; by intros [?|?]%elem_of_cons).
    destruct (ow_slot _ _ _ How a o' Ha Ho' Hf) as [s Hs]. exists s. split; [done|].
    by destruct (asked_slot _ _ _ a o' s Hwf Hrw How Ha Ho' Hs).
  - intros o' Ho' Hl. rewrite lookup_insert_ne; [apply Hnone; [done|rewrite Ef; by right]|].
    intros E. assert (o = o') as -> by lia. done.
  - intros p Hp. apply lookup_insert_ne. apply not_eq_sym. by apply Hp.
Qed.

Lemma owned_give l1 a l2 o K asked :
  pages_wf (l1 ++ a :: l2) -> runs_wf K -> owned (l1 ++ a :: l2) K asked -> slot (ap_type a) o ->
  owned (l1 ++ with_free (o :: ap_free a) a :: l2) K (delete (ap_page a + o) asked).
Proof.
  intros Hwf Hrw How Ho. assert (a ∈ l1 ++ a :: l2) as Ha by (apply elem_of_middle; by left).
  eapply owned_replace; [done|done|done|..].
  - intros o' Ho' Hn. rewrite not_elem_of_cons in Hn. rewrite lookup_delete_ne by lia.
    destruct (ow_slot _ _ _ How a o' Ha Ho') as [sz Hs]; [by apply Hn|]. exists sz. split; [done|].
    by destruct (asked_slot _ _ _ a o' sz Hwf Hrw How Ha Ho' Hs).
  - intros o' Ho' [->|Hin]%elem_of_cons; [apply lookup_delete_eq|].
    apply lookup_delete_None. right. destruct (asked !! (ap_page a + o')) as [s|] eqn:E; [|done].
    by destruct (asked_slot _ _ _ a o' s Hwf Hrw How Ha Ho' E).
  - intros p Hp. apply lookup_delete_ne. apply not_eq_sym. by apply Hp.
Qed.

(** A page with no block in use is given back. *)
Lemma owned_drop l1 a l2 K asked :
  pages_wf (l1 ++ a :: l2) -> owned (l1 ++ a :: l2) K asked ->
  Z.of_nat (length (ap_free a)) = nblk (ap_type a) -> owned (l1 ++ l2) (delete (ap_page a) K) asked.
Proof.
  intros Hwf How Hfull. assert (a ∈ l1 ++ a :: l2) as Ha by (apply elem_of_middle; by left).
  assert (forall b, b ∈ l1 ++ l2 -> b ∈ l1 ++ a :: l2) as Hsub by (intros b ?; apply elem_of_middle; by right).
  destruct (pw_ok _ Hwf a Ha) as [Ht _ Hnd Hsl]. pose proof How as [Hpg Hsm Hrun Hask].
  assert (forall p, p ∈ ap_page <$> l1 ++ a :: l2 <-> p = ap_page a \/ p ∈ ap_page <$> l1 ++ l2) as Hmem.
  { intros p. rewrite !fmap_app, fmap_cons. apply elem_of_middle. }
  constructor.
  - intros b Hb. rewrite lookup_delete_ne; [by apply Hpg, Hsub|].
    apply not_eq_sym. by eapply (others_ne ap_page); [apply Hwf|].
  - intros b o Hb. by apply Hsm, Hsub.
  - intros p n [Hne Hp]%lookup_delete_Some. destruct (Hrun p n Hp) as [Hin|?]; [|by right].
    left. apply Hmem in Hin as [?|?]; [by subst|done].
  - intros p sz Hp. destruct (Hask p sz Hp) as [? Hpl]. split; [done|].
    destruct Hpl as [(b & o & Hb & Ho & Hf & -> & Hs)|(n & Hn & Hnp & Hs)].
    + left. apply elem_of_middle in Hb as [->|Hb]; [|by exists b, o].
      destruct Hf. by eapply slots_all.
    + right. exists n. rewrite Hmem in Hnp. split; [|tauto].
      rewrite lookup_delete_ne; [done|]. intros E. apply Hnp. by left.
Qed.

(** What was asked for is within a run. *)
Lemma asked_run aps K asked p sz :
  pages_wf aps -> runs_wf K -> owned aps K asked -> asked !! p = Some sz ->
  exists q n, K !! q = Some n /\ q <= p < q + n * 4096 /\ p + sz <= q + n * 4096.
Proof.
  intros Hwf Hrw How Hp. destruct (ow_asked _ _ _ How p sz Hp) as [Hsz [(a & o & Ha & Ho & _ & -> & Hs)|(n & Hn & _ & Hs)]].
  - exists (ap_page a), 1. split; [by apply How|]. destruct (pw_ok _ Hwf a Ha) as [Ht _ _ _].
    pose proof (slot_fits _ _ Ht Ho). destruct Ho as [Ho _]. lia.
  - exists p, n. split; [done|]. destruct (rw_range _ Hrw p n Hn) as (_ & _ & Hn0 & _). lia.
Qed.

(** Two blocks that were asked for do not overlap. *)
Lemma asked_disjoint aps K asked p q n m :
  pages_wf aps -> runs_wf K -> owned aps K asked -> asked !! p = Some n -> asked !! q = Some m ->
  p <> q -> p + n <= q \/ q + m <= p.
Proof.
  intros Hwf Hrw How Hp Hq Hne.
  destruct (asked_run _ _ _ _ _ Hwf Hrw How Hp) as (r & x & Hr & Hin & Hend).
  destruct (asked_run _ _ _ _ _ Hwf Hrw How Hq) as (s & y & Hs & Hin' & Hend').
  destruct (decide (r = s)) as [->|Hrs]; [|destruct (rw_apart _ Hrw r s x y Hr Hs Hrs); lia].
  destruct (ow_asked _ _ _ How p n Hp) as [_ [(a & o & Ha & Ho & _ & -> & Hn)|(x' & Hx' & Hnp & _)]].
  - pose proof Ho as [Ho0 _]. assert (s = ap_page a) as ->.
    { destruct (decide (s = ap_page a)) as [|Hsa]; [done|].
      destruct (rw_apart _ Hrw s (ap_page a) x 1 Hr (ow_page _ _ _ How a Ha) Hsa); lia. }
    rewrite (ow_page _ _ _ How a Ha) in Hr, Hs. injection Hr as <-. injection Hs as <-.
    destruct (ow_asked _ _ _ How q m Hq) as [_ [(b & o' & Hb & Ho' & _ & -> & Hm)|(y' & Hy' & Hnq & _)]].
    + destruct (decide (ap_page a = ap_page b)) as [E|Hab].
      * destruct (slot_inj aps a b 0 0 Hwf Ha Hb) as [<- _]; [by split|by split|lia|].
        destruct (pw_ok _ Hwf a Ha) as [Ht _ _ _]. destruct (slots_apart _ o o' Ht Ho Ho'); [congruence|lia..].
      * pose proof Ho' as [Ho0' _].
        destruct (rw_apart _ Hrw (ap_page a) (ap_page b) 1 1 (ow_page _ _ _ How a Ha) (ow_page _ _ _ How b Hb) Hab); lia.
    + exfalso. apply Hnq. rewrite (run_on_page _ _ _ a q y' Hrw How Ha Hy'); [by apply list_elem_of_fmap_2|].
      unfold on_page. lia.
  - assert (s = p) as ->.
    { destruct (decide (s = p)) as [|Hsp]; [done|].
      destruct (rw_range _ Hrw p x' Hx') as (_ & _ & ? & _). destruct (rw_apart _ Hrw s p x x' Hr Hx' Hsp); lia. }
    rewrite Hx' in Hr, Hs. injection Hr as <-. injection Hs as <-.
    destruct (ow_asked _ _ _ How q m Hq) as [_ [(b & o' & Hb & [Ho' _] & _ & -> & Hm)|(y' & Hy' & Hnq & _)]].
    + exfalso. apply Hnp. assert (ap_page b = p) as <-; [|by apply list_elem_of_fmap_2].
      destruct (decide (ap_page b = p)) as [|Hbp]; [done|].
      destruct (rw_apart _ Hrw (ap_page b) p 1 x' (ow_page _ _ _ How b Hb) Hx' Hbp); lia.
    + destruct (rw_apart _ Hrw p q x' y' Hx' Hy' Hne); [lia|].
      destruct (rw_range _ Hrw q y' Hy') as (_ & _ & ? & _). lia.
Qed.

(** A run that was not in use has nothing that was asked for. *)
Lemma asked_fresh aps K asked p n q sz :
  pages_wf aps -> runs_wf K -> owned aps K asked -> K !! p = None -> runs_wf (<[p := n]> K) ->
  asked !! q = Some sz -> q < p \/ p + n * 4096 <= q.
Proof.
  intros Hwf Hrw How Hnew Hrw' Hq. destruct (asked_run _ _ _ _ _ Hwf Hrw How Hq) as (r & m & Hr & Hin & _).
  assert (r <> p) as Hne by congruence.
  destruct (rw_apart _ Hrw' r p m n); [by rewrite lookup_insert_ne|by rewrite lookup_insert_eq|done|lia|lia].
Qed.

Lemma owned_new aps K asked j p k :
  pages_wf aps -> runs_wf K -> owned aps K asked -> K !! p = None -> runs_wf (<[p := 1]> K) -> (k < 8)%nat ->
  owned (fresh_page j p k :: aps) (<[p := 1]> K) asked.
Proof.
  intros Hwf Hrw How Hnew Hrw' Hk. pose proof How as [Hpg Hsm Hrun Hask].
  destruct (bsize_facts k Hk) as (_ & _ & Hnb & _).
  assert (forall a, a ∈ aps -> ap_page a <> p) as Hne.
  { intros a Ha E. by rewrite <- E, (Hpg a Ha) in Hnew. }
  constructor.
  - intros a [->|Ha]%elem_of_cons; [by rewrite lookup_insert_eq|].
    rewrite lookup_insert_ne by (apply not_eq_sym; by apply Hne). by apply Hpg.
  - intros a o [->|Ha]%elem_of_cons Ho Hf; [|by apply Hsm]. exfalso. simpl in *. apply Hf.
    eapply slots_all; [done| |by apply desc_slots| |done].
    + apply NoDup_desc. destruct (bsize_facts k Hk). lia.
    + rewrite length_desc. lia.
  - intros q n [[<- _]|[Hq Hn]]%lookup_insert_Some; [left; left|].
    destruct (Hrun q n Hn) as [?|?]; [left; by right|by right].
  - intros q sz Hq. destruct (Hask q sz Hq) as [? Hpl]. split; [done|].
    destruct Hpl as [(a & o & Ha & ?)|(n & Hn & Hnp & Hs)].
    + left. exists a, o. split; [by right|done].
    + right. exists n. assert (p <> q) by congruence. rewrite lookup_insert_ne by done. split; [done|].
      split; [|done]. simpl. by intros [?|?]%elem_of_cons.
Qed.

(** A run is taken, or given back. *)
Lemma owned_run aps K asked p n sz :
  pages_wf aps -> runs_wf K -> owned aps K asked -> K !! p = None -> runs_wf (<[p := n]> K) ->
  0 <= sz <= n * 4096 ->
  asked !! p = None /\ owned aps (<[p := n]> K) (<[p := sz]> asked).
Proof.
  intros Hwf Hrw How Hnew Hrw' Hsz. pose proof How as [Hpg Hsm Hrun Hask].
  destruct (rw_range _ Hrw' p n) as (_ & _ & Hn & _); [by rewrite lookup_insert_eq|].
  assert (asked !! p = None) as Hno.
  { destruct (asked !! p) as [s|] eqn:E; [|done].
    destruct (asked_fresh _ _ _ p n p s Hwf Hrw How Hnew Hrw' E); lia. }
  split; [done|]. assert (forall a, a ∈ aps -> ap_page a <> p) as Hne.
  { intros a Ha E. by rewrite <- E, (Hpg a Ha) in Hnew. }
  constructor.
  - intros a Ha. rewrite lookup_insert_ne by (apply not_eq_sym; by apply Hne). by apply Hpg.
  - intros a o Ha Ho Hf. destruct (Hsm a o Ha Ho Hf) as [s Hs]. rewrite lookup_insert_ne; [done|]. congruence.
  - intros q m [[<- _]|[Hq Hm]]%lookup_insert_Some; [right; by rewrite lookup_insert_eq|].
    rewrite lookup_insert_ne by done. eauto.
  - intros q s [[<- <-]|[Hq Hs]]%lookup_insert_Some.
    + split; [lia|]. right. exists n. rewrite lookup_insert_eq. split; [done|]. split; [|lia].
      intros (a & E & Ha)%list_elem_of_fmap. by apply (Hne a Ha).
    + destruct (Hask q s Hs) as [? [?|(m & Hm & Hnp & ?)]]; [by eauto|]. split; [done|]. right.
      exists m. by rewrite lookup_insert_ne.
Qed.

Lemma owned_unrun aps K asked p n :
  pages_wf aps -> runs_wf K -> owned aps K asked -> K !! p = Some n -> p ∉ (ap_page <$> aps) ->
  owned aps (delete p K) (delete p asked).
Proof.
  intros Hwf Hrw How Hp Hnp. pose proof How as [Hpg Hsm Hrun Hask].
  constructor.
  - intros a Ha. rewrite lookup_delete_ne; [by apply Hpg|]. intros ->. by apply Hnp, list_elem_of_fmap_2.
  - intros a o Ha Ho Hf. rewrite lookup_delete_ne; [by apply Hsm|]. intros ->. apply Hnp.
    destruct Ho as [Ho _]. rewrite (run_on_page _ _ _ a _ n Hrw How Ha Hp); [by apply list_elem_of_fmap_2|].
    unfold on_page. lia.
  - intros q m [Hne Hq]%lookup_delete_Some. rewrite lookup_delete_ne by done. eauto.
  - intros q s [Hne Hq]%lookup_delete_Some.
    destruct (Hask q s Hq) as [? [?|(m & Hm & ? & ?)]]; [by eauto|]. split; [done|]. right.
    exists m. by rewrite lookup_delete_ne.
Qed.

(** ** The contract *)

Record gheap (P : Type) := Gheap { g_heap : kheap P; g_asked : gmap Z Z }.
Arguments Gheap {P}.
Arguments g_heap {P}.
Arguments g_asked {P}.

Section laws.
Context {P : Type} `{!Kpages P, !KpagesLaws P}.
Implicit Types g : gheap P.

#[global] Instance gheap_kmalloc : Kmalloc (gheap P) := {|
  kmalloc sz g :=
    '(p, hp) ← kheap_kmalloc sz (g_heap g);
    Some (p, Gheap hp (if p =? 0 then g_asked g else <[p := sz]> (g_asked g)));
  kfree p g :=
    hp ← kheap_kfree p (g_heap g);
    Some (Gheap hp (if p =? 0 then g_asked g else delete p (g_asked g)));
|}.

(** No page of blocks is wholly free. *)
Definition part_used (a : apage) : Prop := Z.of_nat (length (ap_free a)) < nblk (ap_type a).

Definition gheap_ok g : Prop :=
  exists aps, rep (g_heap g) [] aps /\ pages_ok (kpool (g_heap g)) /\
    owned aps (kpages (kpool (g_heap g))) (g_asked g) /\ forall a, a ∈ aps -> part_used a.

(** What the heap promises for a request of [sz] bytes. *)
Definition alloc_post (sz : Z) g (p : Z) (hp : kheap P) : Prop :=
  p = 0 /\ gheap_ok (Gheap hp (g_asked g)) \/
  p <> 0 /\ g_asked g !! p = None /\ gheap_ok (Gheap hp (<[p := sz]> (g_asked g))).

(** Taking the first free block of the page [a]. *)
Lemma doalloc_post hp g l1 a l2 sz :
  rep hp [] (l1 ++ a :: l2) -> pages_ok (kpool hp) ->
  owned (l1 ++ a :: l2) (kpages (kpool hp)) (g_asked g) -> (forall b, b ∈ l1 ++ l2 -> part_used b) ->
  ap_free a <> [] -> 0 <= sz <= bsize (ap_type a) ->
  exists p hp', doalloc (ap_pr a) hp = Some (p, hp') /\ alloc_post sz g p hp'.
Proof.
  intros Hr Hpk How Hpart Hne Hsz. destruct (ap_free a) as [|o l] eqn:Ef; [done|].
  assert (a ∈ l1 ++ a :: l2) as Ha by (apply elem_of_middle; by left).
  destruct (doalloc_rep hp [] l1 a l2 o l Hr Ef) as (hp' & E & Epool & Hr').
  destruct (owned_take l1 a l2 o l _ _ sz (rep_wf _ _ _ Hr) (pages_runs _ Hpk) How Ef Hsz) as [Hno How'].
  destruct (rp_ok _ _ _ Hr a Ha) as [Ht (Hp & _) Hnd Hsl].
  pose proof (slots_bound _ _ Ht Hnd Hsl) as Hlen. rewrite Ef in Hlen, Hsl.
  apply list.Forall_cons in Hsl as [[Ho _] _].
  exists (ap_page a + o), hp'. split; [done|]. right. split; [lia|]. split; [done|].
  exists (l1 ++ with_free l a :: l2). simpl. rewrite Epool. split; [done|]. split; [done|]. split; [done|].
  intros b [->|Hb]%elem_of_middle; [|by apply Hpart]. unfold part_used. simpl in *. lia.
Qed.

Lemma subpage_kmalloc_post g sz :
  gheap_ok g -> 0 <= sz < 2048 ->
  exists p hp', subpage_kmalloc sz (g_heap g) = Some (p, hp') /\ alloc_post sz g p hp'.
Proof.
  intros (aps & Hr & Hpk & How & Hpart) Hsz. destruct (blocktype_fits sz Hsz) as (k & Ek & Hk & Hfit).
  unfold subpage_kmalloc. rewrite Ek. cbn [mbind option_bind]. rewrite sizes_lookup by done. cbn [mbind option_bind].
  destruct (rp_same _ _ _ Hr k Hk) as (b & Eb & _). rewrite Eb. cbn [mbind option_bind].
  destruct (find_free_rep _ [] aps k b Hr Hk Eb) as ([j|] & -> & Hf); cbn [mbind option_bind].
  { destruct Hf as (l1 & a & l2 & -> & <- & <- & Hne). apply (doalloc_post _ _ l1 a l2); try done; [|lia].
    intros c Hc. apply Hpart, elem_of_middle. by right. }
  destruct (allocpageref_rep _ [] aps Hr) as ([j|] & hp1 & -> & Hj); cbn [mbind option_bind].
  2:{ exists 0, hp1. split; [done|]. left. split; [done|]. subst hp1. by exists aps. }
  destruct Hj as (Hj & Hr1 & Epool & _). rewrite Epool.
  destruct (alloc_kpages_total _ 1 Hpk) as [[page s] E]; [lia|]. rewrite E. cbn [mbind option_bind].
  assert (rep (set_kpool s hp1) [j] aps) as Hr2.
  { destruct Hr1 as [? ? ? ? ? ? ? Hpg ? ?]. constructor; try done. intros c Hc. by destruct (Hpg c Hc). }
  destruct (page =? 0) eqn:Ep; boolify.
  - subst page. destruct (alloc_kpages_null _ _ 1 Hpk ltac:(lia) E) as [Hs Es].
    destruct (freepageref_rep _ [] aps j Hr2 Hj) as (hp3 & -> & Hr3 & Ep3).
    exists 0, hp3. split; [done|]. left. split; [done|]. exists aps. simpl. rewrite Ep3. simpl. by rewrite Es.
  - destruct (alloc_kpages_run _ _ 1 page Hpk ltac:(lia) E Ep) as (Hs & Hnew & Es).
    pose proof (pages_runs s Hs) as Hrw. pose proof (rw_range _ Hrw page 1) as Hrg.
    rewrite Es, lookup_insert_eq in Hrg. destruct (Hrg eq_refl) as (Hp & Hm & _ & Ht).
    rewrite Es in Hrw. assert (apage_ok (fresh_page j page k)) as Hok by (apply fresh_page_ok; [done..|lia]).
    assert (page ∉ ap_page <$> aps) as Hnp.
    { intros (c & -> & Hc)%list_elem_of_fmap. by rewrite (ow_page _ _ _ How c Hc) in Hnew. }
    destruct (new_page_rep _ [] aps j page k Hr2 Hj Hok Hnp) as (hp3 & -> & Ep3 & Hr3). cbn [mbind option_bind].
    apply (doalloc_post hp3 g [] (fresh_page j page k) aps); rewrite ?Ep3; try done.
    + simpl. rewrite Es. apply owned_new; [by eapply rep_wf|by apply pages_runs|done..].
    + simpl. destruct (bsize_facts k Hk) as (_ & _ & Hnb & _).
      destruct (Z.to_nat (nblk k)) eqn:En; [lia|done].
    + simpl. lia.
Qed.

Lemma kheap_kmalloc_post g sz :
  gheap_ok g -> kmalloc_size sz ->
  exists p hp', kheap_kmalloc sz (g_heap g) = Some (p, hp') /\ alloc_post sz g p hp'.
Proof.
  intros Hok [Hs0 Hs1]. unfold kheap_kmalloc, LARGEST_SUBPAGE_SIZE.
  destruct (2048 <=? sz) eqn:El; boolify; [|by apply subpage_kmalloc_post].
  destruct Hok as (aps & Hr & Hpk & How & Hpart). unfold PAGE_SIZE.
  rewrite u32_id by (unfold is_u32; lia). set (n := (sz + 4096 - 1) / 4096).
  assert (0 < n <= 7 * 2 ^ 17 /\ sz <= n * 4096) as [Hn Hsz] by (unfold n; zdm).
  assert (s32 n = n) as -> by (apply s32_id; unfold is_s32; lia).
  destruct (alloc_kpages_total _ n Hpk Hn) as [[p s] E]. rewrite E. cbn [mbind option_bind].
  exists p, (set_kpool s (g_heap g)). split; [done|].
  assert (rep (set_kpool s (g_heap g)) [] aps) as Hr2.
  { destruct Hr as [? ? ? ? ? ? ? Hpg ? ?]. constructor; try done. intros c Hc. by destruct (Hpg c Hc). }
  destruct (decide (p = 0)) as [->|Hp].
  - destruct (alloc_kpages_null _ _ n Hpk Hn E) as [Hs Es]. left. split; [done|].
    exists aps. simpl. by rewrite Es.
  - destruct (alloc_kpages_run _ _ n p Hpk Hn E Hp) as (Hs & Hnew & Es). right. split; [done|].
    pose proof (pages_runs s Hs) as Hrw. rewrite Es in Hrw.
    destruct (owned_run aps _ _ p n sz (rep_wf _ _ _ Hr) (pages_runs _ Hpk) How Hnew Hrw) as [Hno How']; [lia|].
    split; [done|]. exists aps. simpl. rewrite Es. done.
Qed.

(** Freeing a block that was asked for. *)
Lemma kheap_kfree_post g p sz :
  gheap_ok g -> g_asked g !! p = Some sz ->
  exists hp', kheap_kfree p (g_heap g) = Some hp' /\ gheap_ok (Gheap hp' (delete p (g_asked g))).
Proof.
  intros (aps & Hr & Hpk & How & Hpart) Hp. pose proof (rep_wf _ _ _ Hr) as Hwf. pose proof (pages_runs _ Hpk) as Hrw.
  destruct (ow_asked _ _ _ How p sz Hp) as [_ [(a & o & Ha & Ho & Hf & -> & _)|(n & Hn & Hnp & _)]]; unfold kheap_kfree.
  - destruct (pw_ok _ Hwf a Ha) as [Ht (Hp0 & _) _ _]. pose proof Ho as [Ho0 _].
    rewrite (proj2 (Z.eqb_neq (ap_page a + o) 0)) by lia.
    destruct (subpage_kfree_rep (g_heap g) aps a o Hr Hpk) as (hp' & l1 & l2 & -> & -> & Hc);
      [by rewrite (ow_page _ _ _ How a Ha)|done..|]. cbn [mbind option_bind].
    exists hp'. split; [done|]. pose proof (owned_give l1 a l2 o _ _ Hwf Hrw How Ho) as How'.
    assert (forall b, b ∈ l1 ++ l2 -> part_used b) as Hpart' by (intros b Hb; apply Hpart, elem_of_middle; by right).
    destruct Hc as [(Hlen & Hr' & Ep)|(Hlen & Hr' & Hs & Es)].
    + exists (l1 ++ with_free (o :: ap_free a) a :: l2). simpl. rewrite Ep. split; [done|]. split; [done|].
      split; [done|]. intros b [->|Hb]%elem_of_middle; [done|by apply Hpart'].
    + exists (l1 ++ l2). simpl. rewrite Es. split; [done|]. split; [done|]. split; [|done].
      apply (owned_drop l1 (with_free (o :: ap_free a) a) l2); [|done|done].
      destruct Hwf as [Hok Hap]. constructor.
      * intros b [->|Hb]%elem_of_middle; [|apply Hok, elem_of_middle; by right].
        destruct (Hok a Ha) as [? ? ? ?]. apply apage_ok_free; [by constructor|by apply list.NoDup_cons|by constructor].
      * by rewrite (fmap_middle ap_page l1 a).
  - destruct (rw_range _ Hrw p n Hn) as (Hp0 & Hm & _). rewrite (proj2 (Z.eqb_neq p 0)) by lia.
    rewrite (subpage_kfree_big _ aps p Hr).
    2:{ intros a Ha Hon. apply Hnp. rewrite (run_on_page _ _ _ a p n Hrw How Ha Hn Hon).
        by apply list_elem_of_fmap_2. }
    cbn [mbind option_bind]. unfold PAGE_SIZE. rewrite Hm. cbn [Z.eqb].
    destruct (free_kpages_live (kpool (g_heap g)) p Hpk) as (s & -> & Hs & Es); [by eauto|]. cbn [mbind option_bind].
    eexists. split; [done|]. exists aps. simpl. rewrite Es. split; [|split; [done|split; [|done]]].
    + destruct Hr as [? ? ? ? ? ? ? Hpg ? ?]. constructor; try done. intros c Hc. by destruct (Hpg c Hc).
    + by eapply owned_unrun.
Qed.

#[global] Program Instance gheap_laws : KmallocLaws (gheap P) := {| heap_ok := gheap_ok; blocks := g_asked |}.
Next Obligation.
  intros g sz Hok Hsz. simpl. destruct (kheap_kmalloc_post g sz Hok Hsz) as (p & hp' & -> & _). simpl. eauto.
Qed.
Next Obligation.
  intros g g' sz Hok Hsz. simpl. destruct (kheap_kmalloc_post g sz Hok Hsz) as (p & hp' & -> & Hp). simpl.
  intros [= -> <-]. simpl. by destruct Hp as [[_ ?]|[? _]].
Qed.
Next Obligation.
  intros g g' sz q Hok Hsz. simpl. destruct (kheap_kmalloc_post g sz Hok Hsz) as (p & hp' & -> & Hp). simpl.
  intros [= -> <-] Hq. destruct Hp as [[? _]|(_ & ? & ?)]; [done|]. by rewrite (proj2 (Z.eqb_neq q 0)).
Qed.
Next Obligation.
  intros g p Hok [sz Hp]. simpl. destruct (kheap_kfree_post g p sz Hok Hp) as (hp' & -> & Hok'). simpl.
  assert (p <> 0) as Hp0.
  { intros ->. destruct Hok as (aps & Hr & Hpk & How & _).
    destruct (asked_run aps _ _ 0 sz (rep_wf _ _ _ Hr) (pages_runs _ Hpk) How Hp) as (q & n & Hq & Hin & _).
    destruct (rw_range _ (pages_runs _ Hpk) q n Hq) as (? & _). lia. }
  rewrite (proj2 (Z.eqb_neq p 0) Hp0). eauto.
Qed.
Next Obligation. intros [hp asked]. done. Qed.
Next Obligation.
  intros g p sz (aps & Hr & Hpk & How & _) Hp. simpl in Hp.
  destruct (asked_run aps _ _ p sz (rep_wf _ _ _ Hr) (pages_runs _ Hpk) How Hp) as (q & n & Hq & Hin & Hend).
  destruct (rw_range _ (pages_runs _ Hpk) q n Hq) as (? & _ & _ & ?).
  destruct (ow_asked _ _ _ How p sz Hp) as [? _]. lia.
Qed.
Next Obligation.
  intros g p sz (aps & Hr & Hpk & How & _) Hp. simpl in Hp.
  destruct (ow_asked _ _ _ How p sz Hp) as [_ [(a & o & Ha & [_ Ho] & _ & -> & _)|(n & Hn & _)]].
  - destruct (rp_ok _ _ _ Hr a Ha) as [Ht (_ & Hm & _) _ _]. destruct (bsize_facts _ Ht) as (Hb & Hb4 & _).
    apply Z.mod_divide in Ho, Hm, Hb4; [|lia..]. apply Z.mod_divide; [done|].
    apply Z.divide_add_r; [|apply Z.divide_trans with (bsize (ap_type a)); [|done]].
    + by apply Z.divide_trans with 4096; [exists 1024|].
    + by apply Z.divide_trans with 16; [exists 4|].
  - destruct (rw_range _ (pages_runs _ Hpk) p n Hn) as (_ & Hm & _). apply Z.mod_divide in Hm; [|done].
    apply Z.mod_divide; [done|]. by apply Z.divide_trans with 4096; [exists 1024|].
Qed.
Next Obligation.
  intros g p q n m (aps & Hr & Hpk & How & _) Hp Hq Hne. simpl in Hp, Hq.
  by apply (asked_disjoint aps (kpages (kpool (g_heap g))) (g_asked g)); [by eapply rep_wf|by apply pages_runs|..].
Qed.
End laws.
