(* ===== verification/Ram.v ===== *)
(** * Physical memory

    kern/arch/mips/mips/ram.c, and the page allocator of dumbvm.c: pages are taken from
    the start of the free memory and never given back.  [gram] adds the runs of pages in
    use, which the code does not record; with them the allocator keeps the contract
    [KpagesLaws] of the kernel heap. *)

From stdpp Require Import base option list gmap numbers.
From S2P Require Import Prelude Kmem Kheap.

Definition MIPS_KSEG0 : Z := 0x80000000.
Definition PADDR_TO_KVADDR (paddr : Z) : Z := u32 (paddr + MIPS_KSEG0).

Record ram := Ram { firstpaddr : Z; lastpaddr : Z }.

(** [mips_ramsize] is what the bus reports, [firstfree] what start.S leaves. *)
Definition ram_bootstrap (mips_ramsize firstfree : Z) : ram :=
  let ramsize := if 508 * 1024 * 1024 <? mips_ramsize then 508 * 1024 * 1024 else mips_ramsize in
  Ram (u32 (firstfree - MIPS_KSEG0)) ramsize.

Definition ram_stealmem (npages : Z) (r : ram) : Z * ram :=
  let size := u32 (npages * PAGE_SIZE) in
  if lastpaddr r <? u32 (firstpaddr r + size) then (0, r)
  else (firstpaddr r, Ram (u32 (firstpaddr r + size)) (lastpaddr r)).

(** [*lo] and [*hi]. *)
Definition ram_getsize (r : ram) : Z * Z * ram := (firstpaddr r, lastpaddr r, Ram 0 0).

(** ** Kernel pages (dumbvm.c) *)

Definition getppages (npages : Z) (r : ram) : Z * ram := ram_stealmem npages r.

Definition dumbvm_alloc_kpages (npages : Z) (r : ram) : Z * ram :=
  let '(pa, r) := getppages (u32 npages) r in
  if pa =? 0 then (0, r) else (PADDR_TO_KVADDR pa, r).

Definition dumbvm_free_kpages (addr : Z) (r : ram) : ram := r.

(** Free memory: it starts at a page, and ends within what kseg0 can address. *)
Definition ram_ok (r : ram) : Prop :=
  0 < firstpaddr r < 2 ^ 29 /\ firstpaddr r `mod` 4096 = 0 /\ lastpaddr r <= 508 * 1024 * 1024.

Lemma ram_bootstrap_ok mips_ramsize firstfree :
  0 <= mips_ramsize < 2 ^ 32 -> MIPS_KSEG0 < firstfree < MIPS_KSEG0 + 2 ^ 29 -> firstfree `mod` 4096 = 0 ->
  ram_ok (ram_bootstrap mips_ramsize firstfree).
Proof.
  unfold MIPS_KSEG0. intros Hr Hf Hm. unfold ram_bootstrap, ram_ok, MIPS_KSEG0. simpl.
  rewrite u32_id by (unfold is_u32; lia). split; [lia|]. split.
  - rewrite Zminus_mod, Hm. done.
  - destruct (_ <? mips_ramsize) eqn:E; boolify; lia.
Qed.

(** The memory taken is the start of what was free. *)
Lemma ram_stealmem_ok n r :
  ram_ok r -> 0 < n <= 7 * 2 ^ 17 ->
  (ram_stealmem n r = (0, r) /\ lastpaddr r < firstpaddr r + n * 4096) \/
  (firstpaddr r + n * 4096 <= lastpaddr r /\
   ram_stealmem n r = (firstpaddr r, Ram (firstpaddr r + n * 4096) (lastpaddr r)) /\
   ram_ok (Ram (firstpaddr r + n * 4096) (lastpaddr r))).
Proof.
  intros (Hf & Hm & Hl) Hn. unfold ram_stealmem, PAGE_SIZE.
  rewrite (u32_id (n * 4096)), (u32_id (firstpaddr r + n * 4096)) by (unfold is_u32; lia).
  destruct (lastpaddr r <? _) eqn:E; boolify; [left; done|]. right. split; [done|]. split; [done|].
  split; simpl; [lia|]. split; [|done]. by rewrite Z.mod_add.
Qed.

(** The sum in [ram_stealmem] is not checked for overflow: a request for almost
    four gigabytes is granted, and the pages it ends in are handed out again. *)
Lemma ram_stealmem_wraps r :
  ram_ok r -> 4096 < firstpaddr r <= lastpaddr r ->
  ram_stealmem (2 ^ 20 - 1) r = (firstpaddr r, Ram (firstpaddr r - 4096) (lastpaddr r)).
Proof.
  intros (Hf & _ & _) Hl. unfold ram_stealmem, PAGE_SIZE.
  rewrite (u32_id ((2 ^ 20 - 1) * 4096)) by (unfold is_u32; lia).
  replace (firstpaddr r + (2 ^ 20 - 1) * 4096) with (firstpaddr r - 4096 + 1 * 2 ^ 32) by lia.
  unfold u32. rewrite Z.mod_add, Z.mod_small by lia.
  by rewrite (proj2 (Z.ltb_ge _ _)) by lia.
Qed.

(** ** The contract of pages *)

Record gram := Gram { g_ram : ram; g_runs : gmap Z Z }.

#[global] Instance gram_kpages : Kpages gram := {|
  alloc_kpages n g :=
    let '(p, r) := dumbvm_alloc_kpages n (g_ram g) in
    Some (p, Gram r (if p =? 0 then g_runs g else <[p := n]> (g_runs g)));
  free_kpages p g := Some (Gram (dumbvm_free_kpages p (g_ram g)) (delete p (g_runs g)));
|}.

Definition gram_ok (g : gram) : Prop :=
  ram_ok (g_ram g) /\
  (forall p n, g_runs g !! p = Some n ->
     MIPS_KSEG0 < p /\ p `mod` 4096 = 0 /\ 0 < n /\ p + n * 4096 <= MIPS_KSEG0 + firstpaddr (g_ram g)) /\
  (forall p q n m, g_runs g !! p = Some n -> g_runs g !! q = Some m -> p <> q ->
     p + n * 4096 <= q \/ q + m * 4096 <= p).

Lemma alloc_run g n :
  gram_ok g -> 0 < n <= 7 * 2 ^ 17 ->
  alloc_kpages n g = Some (0, g) \/
  exists p r, alloc_kpages n g = Some (p, Gram r (<[p := n]> (g_runs g))) /\ p <> 0 /\
    g_runs g !! p = None /\ gram_ok (Gram r (<[p := n]> (g_runs g))) /\
    p = MIPS_KSEG0 + firstpaddr (g_ram g) /\ firstpaddr r = firstpaddr (g_ram g) + n * 4096.
Proof.
  intros (Hr & Hrun & Hd) Hn. simpl. unfold dumbvm_alloc_kpages, getppages. rewrite u32_id by (unfold is_u32; lia).
  pose proof Hr as (Hf & Hm & Hl).
  destruct (ram_stealmem_ok n _ Hr Hn) as [[-> _]|(Hle & -> & Hr')].
  - left. simpl. by destruct g.
  - right. rewrite (proj2 (Z.eqb_neq (firstpaddr (g_ram g)) 0)) by lia. unfold PADDR_TO_KVADDR.
    rewrite u32_id by (unfold is_u32, MIPS_KSEG0; lia). set (p := firstpaddr (g_ram g) + MIPS_KSEG0).
    assert (p <> 0) as Hp by (unfold p, MIPS_KSEG0; lia). rewrite (proj2 (Z.eqb_neq p 0) Hp).
    eexists p, _. split; [done|]. split; [done|].
    assert (g_runs g !! p = None) as Hnew.
    { destruct (g_runs g !! p) as [m|] eqn:E; [|done]. apply Hrun in E. unfold p in E. lia. }
    split; [done|]. split; [|split; [unfold p; lia|done]]. split; [done|]. simpl. split.
    + intros q m [[<- <-]|[_ Hq]]%lookup_insert_Some.
      * unfold p, MIPS_KSEG0. split; [lia|]. split; [|lia]. rewrite Z.add_mod, Hm by done. done.
      * apply Hrun in Hq. lia.
    + intros q q' m m' [[<- <-]|[_ Hq]]%lookup_insert_Some [[<- <-]|[_ Hq']]%lookup_insert_Some Hne;
        [done|..|by eapply Hd].
      * apply Hrun in Hq'. unfold p. lia.
      * apply Hrun in Hq. unfold p. lia.
Qed.

#[global] Program Instance gram_laws : KpagesLaws gram := {| pages_ok := gram_ok; kpages := g_runs |}.
Next Obligation. intros g n Hok Hn. simpl. destruct (dumbvm_alloc_kpages n (g_ram g)). eauto. Qed.
Next Obligation.
  intros g g' n Hok Hn E. destruct (alloc_run g n Hok Hn) as [E'|(p & r & E' & Hp & _)]; rewrite E' in E.
  - by injection E as <-.
  - by injection E as ? <-.
Qed.
Next Obligation.
  intros g g' n p Hok Hn E Hp. destruct (alloc_run g n Hok Hn) as [E'|(q & r & E' & _ & Hnew & Hok' & _)]; rewrite E' in E.
  - by injection E as <- <-.
  - by injection E as <- <-.
Qed.
Next Obligation.
  intros g p (Hr & Hrun & Hd) _. eexists. split; [done|]. split; [|done]. split; [done|]. simpl.
  split; intros *; rewrite !lookup_delete_Some; intros; [apply Hrun; tauto|eapply Hd; tauto].
Qed.
Next Obligation.
  intros g p n (Hr & Hrun & _) Hp. simpl in Hp. apply Hrun in Hp. destruct Hr as (Hf & _).
  unfold MIPS_KSEG0 in Hp. split_and!; lia.
Qed.
Next Obligation. intros g p q n m (_ & _ & Hd). simpl. apply Hd. Qed.
