(* ===== verification/KheapRun.v ===== *)
(** * Programs on the kernel heap

    Any sequence of requests, releases, and stores of the clients into their own blocks:
    the heap never panics, the blocks in use never overlap, and when all are released
    every page has been given back. *)

From stdpp Require Import base option list gmap numbers.
From S2P Require Import Prelude Kmem Kheap KheapInv KheapOps KheapSpec Ram.

(** The blocks in use are numbered in the order of the requests. *)
Inductive hop :=
  | Malloc (sz : Z)
  | Free (i : nat)
  | Store (i : nat) (off v : Z).

Definition hop_ok (op : hop) : Prop :=
  match op with Malloc sz => kmalloc_size sz | Free _ => True | Store _ off _ => 0 <= off end.

Section run.
Context {P : Type} `{!Kpages P, !KpagesLaws P}.
Implicit Types g : gheap P.

(** A client stores a word into a block, which changes the memory of the heap. *)
Definition store (x v : Z) g : gheap P :=
  Gheap (set_kmem (<[x := v]> (kmem (g_heap g))) (g_heap g)) (g_asked g).

Definition run_hop (op : hop) (live : list Z) g : option (list Z * gheap P) :=
  match op with
  | Malloc sz => '(p, g) ← kmalloc sz g; Some (if p =? 0 then live else live ++ [p], g)
  | Free i =>
      match live !! i with
      | None => Some (live, g)
      | Some p => g ← kfree p g; Some (delete i live, g)
      end
  | Store i off v =>
      match live !! i with
      | None => Some (live, g)
      | Some p =>
          if off <? default 0 (g_asked g !! p) then Some (live, store (p + off) v g) else Some (live, g)
      end
  end.

Fixpoint run_hops (ops : list hop) (live : list Z) g : option (list Z * gheap P) :=
  match ops with
  | [] => Some (live, g)
  | op :: ops => '(live, g) ← run_hop op live g; run_hops ops live g
  end.

(** The memory of the heap itself is not in a block in use. *)
Lemma store_ok g p sz off v :
  gheap_ok g -> g_asked g !! p = Some sz -> 0 <= off < sz -> gheap_ok (store (p + off) v g).
Proof.
  intros (aps & Hr & Hpk & How & Hpart) Hp Hoff. exists aps. split; [|done].
  pose proof (rep_wf _ _ _ Hr) as Hwf. pose proof (pages_runs _ Hpk) as Hrw.
  destruct Hr as [? ? ? ? ? ? ? Hpg Hok ?]. constructor; try done. intros b Hb.
  destruct (Hpg b Hb) as [Hpr Hfl]. constructor; [done|]. simpl. eapply fl_rep_frame; [|done].
  intros o' Ho'. apply lookup_insert_ne. intros E.
  pose proof (proj1 (list.Forall_forall _ _) (ao_slots _ (Hok b Hb)) o' Ho') as Hs'. pose proof Hs' as [Hs0' _].
  destruct (ow_asked _ _ _ How p sz Hp) as [_ [(a & o & Ha & Ho & Hf & -> & Hsz)|(n & Hn & Hnp & Hsz)]].
  - destruct (pw_ok _ Hwf a Ha) as [Ht _ _ _]. pose proof (slot_fits _ _ Ht Ho) as Hfit. pose proof Ho as [Ho0 _].
    destruct (decide (ap_page a = ap_page b)) as [Ep|Hne].
    + destruct (slot_inj aps a b 0 0 Hwf Ha Hb) as [<- _]; [by split|by split|lia|].
      assert (o <> o') as Hoo by (by intros ->). destruct (slots_apart _ o o' Ht Ho Hs' Hoo); lia.
    + apply (pages_apart a b (ap_page a + o + off) (Hok a Ha) (Hok b Hb) Hne); unfold on_page; lia.
  - assert (p <> ap_page b) as Hne by (intros ->; by apply Hnp, list_elem_of_fmap_2).
    destruct (rw_apart _ Hrw p (ap_page b) n 1 Hn (ow_page _ _ _ How b Hb) Hne); lia.
Qed.

(** With nothing in use there are no pages. *)
Lemma no_leak g : gheap_ok g -> g_asked g = ∅ -> kpages (kpool (g_heap g)) = ∅.
Proof.
  intros (aps & Hr & Hpk & How & Hpart) He. pose proof (rep_wf _ _ _ Hr) as Hwf.
  assert (aps = []) as ->.
  { destruct aps as [|a aps]; [done|]. exfalso. assert (a ∈ a :: aps) as Ha by left.
    destruct (pw_ok _ Hwf a Ha) as [Ht _ Hnd Hsl]. pose proof (Hpart a Ha) as Hp. unfold part_used in Hp.
    assert (Exists (fun o => o ∉ ap_free a) (slots (ap_type a))) as (o & Ho & Hf)%list.Exists_exists.
    { apply not_Forall_Exists; [solve_decision|]. rewrite list.Forall_forall. intros Hall.
      pose proof (submseteq_length _ _ (NoDup_submseteq _ _ (NoDup_slots _ Ht) Hall)) as Hl.
      pose proof (length_slots _ Ht). lia. }
    apply elem_of_slots in Ho; [|done]. destruct (ow_slot _ _ _ How a o Ha Ho Hf) as [s Hs].
    by rewrite He in Hs. }
  apply map_empty. intros p. destruct (kpages (kpool (g_heap g)) !! p) as [n|] eqn:E; [|done].
  destruct (ow_run _ _ _ How p n E) as [Hin|[s Hs]]; [by apply not_elem_of_nil in Hin|by rewrite He in Hs].
Qed.

(** The heap at the start. *)
Lemma init_ok s : pages_ok s -> kpages s = ∅ -> gheap_ok (Gheap (kheap_init s) ∅).
Proof.
  intros Hs He. exists []. split; [|split; [done|split]].
  - constructor; simpl; try done.
    + split; [done|]. by repeat constructor.
    + intros j Hj. split; [|by intros ?%not_elem_of_nil]. intros (w & Hw & Hb). simpl in Hw.
      apply (list_elem_of_lookup_2 (replicate 8 0)), elem_of_replicate in Hw as [-> _].
      by rewrite Z.bits_0 in Hb.
    + constructor.
    + intros k Hk. exists None. split; [|done]. by do 8 (destruct k as [|k]; [done|]); lia.
    + intros a Ha. by apply not_elem_of_nil in Ha.
    + intros a Ha. by apply not_elem_of_nil in Ha.
    + constructor.
  - constructor; [intros a Ha; by apply not_elem_of_nil in Ha|intros a o Ha; by apply not_elem_of_nil in Ha| |done].
    intros p n Hp. simpl in Hp. by rewrite He in Hp.
  - intros a Ha. by apply not_elem_of_nil in Ha.
Qed.

(** The blocks in use. *)
Definition live_ok (live : list Z) g : Prop :=
  gheap_ok g /\ NoDup live /\ forall p, p ∈ live <-> is_Some (g_asked g !! p).

Lemma run_hop_ok op live g :
  live_ok live g -> hop_ok op -> exists live' g', run_hop op live g = Some (live', g') /\ live_ok live' g'.
Proof.
  intros (Hok & Hnd & Hl) Hop. pose proof (Hok : heap_ok g) as Hh. destruct op as [sz|i|i off v]; unfold run_hop.
  - destruct (kmalloc_total g sz Hh Hop) as [[p g'] E]. rewrite E. cbn [mbind option_bind].
    eexists _, g'. split; [done|]. destruct (p =? 0) eqn:Ep; boolify.
    + subst p. destruct (kmalloc_null g g' sz Hh Hop E) as [Hok' Eb]. split; [done|]. split; [done|].
      simpl in Eb. by rewrite Eb.
    + destruct (kmalloc_block g g' sz p Hh Hop E Ep) as (Hok' & Hno & Eb). simpl in Hno, Eb. split; [done|]. split.
      * apply list.NoDup_app. split; [done|]. split; [|apply NoDup_singleton].
        intros q Hq ->%list_elem_of_singleton. apply Hl in Hq. rewrite Hno in Hq. by destruct Hq.
      * intros q. rewrite Eb, elem_of_app, list_elem_of_singleton, Hl, lookup_insert.
        case_decide; naive_solver.
  - destruct (live !! i) as [p|] eqn:Ei; [|by exists live, g].
    destruct (kfree_live g p Hh) as (g' & -> & Hok' & Eb); [apply Hl; by eapply list_elem_of_lookup_2|].
    cbn [mbind option_bind]. eexists _, g'. split; [done|]. split; [done|]. simpl in Eb.
    rewrite <- (take_drop_middle live i p Ei) in Hnd. apply list.NoDup_app in Hnd as (H1 & H2 & [H3 H4]%list.NoDup_cons).
    rewrite delete_take_drop. split.
    + apply list.NoDup_app. split; [done|]. split; [|done]. intros q Hq Hq'. apply (H2 q Hq). by right.
    + intros q. rewrite Eb, lookup_delete_is_Some, <- Hl.
      assert (q ∈ live <-> q = p \/ q ∈ take i live ++ drop (S i) live) as ->
        by (rewrite <- (take_drop_middle live i p Ei) at 1; apply elem_of_middle).
      assert (p ∉ take i live ++ drop (S i) live) as Hnp.
      { intros [Hp|?]%elem_of_app; [|done]. apply (H2 p Hp). left. }
      split; [intros Hq; split; [by intros ->|by right]|]. by intros [? [?|?]].
  - destruct (live !! i) as [p|] eqn:Ei; [|by exists live, g].
    assert (is_Some (g_asked g !! p)) as [sz Hp] by (apply Hl; by eapply list_elem_of_lookup_2).
    rewrite Hp. simpl. destruct (off <? sz) eqn:Eo; boolify; [|by exists live, g].
    eexists live, _. split; [done|]. split; [|done]. by eapply store_ok.
Qed.

Lemma run_hops_ok ops live g :
  live_ok live g -> Forall hop_ok ops ->
  exists live' g', run_hops ops live g = Some (live', g') /\ live_ok live' g'.
Proof.
  revert live g. induction ops as [|op ops IH]; intros live g Hl Hops; [by exists live, g|].
  apply list.Forall_cons in Hops as [Hop Hops]. simpl.
  destruct (run_hop_ok op live g Hl Hop) as (live1 & g1 & -> & Hl1). cbn [mbind option_bind]. by apply IH.
Qed.
End run.

(** C3: The kernel heap is safe for every program that asks for at most 3.5 gigabytes
    at a time, frees what is in use and stores within its blocks.  Starting with no page
    in use, any sequence of kmalloc and kfree calls, with stores into the blocks in
    between, runs without a panic on any page allocator; the blocks in use are aligned, lie in memory
    and do not overlap; and when none is in use, every page has been given back. *)
Theorem kheap_runs {P} `{!Kpages P, !KpagesLaws P} (s : P) ops :
  pages_ok s -> kpages s = ∅ -> Forall hop_ok ops ->
  exists live g, run_hops ops [] (Gheap (kheap_init s) ∅) = Some (live, g) /\ gheap_ok g /\ NoDup live /\
    (forall p, p ∈ live -> exists n, g_asked g !! p = Some n /\ 0 < p /\ p `mod` 4 = 0 /\ p + n <= 2 ^ 32) /\
    (forall p q n m, g_asked g !! p = Some n -> g_asked g !! q = Some m -> p <> q ->
       p + n <= q \/ q + m <= p) /\
    (live = [] -> kpages (kpool (g_heap g)) = ∅).
Proof.
  intros Hs He Hops. destruct (run_hops_ok ops [] (Gheap (kheap_init s) ∅)) as (live & g & E & Hok & Hnd & Hl);
    [|done|].
  { split; [by apply init_ok|]. split; [constructor|]. intros p. simpl. rewrite lookup_empty.
    split; [by intros ?%not_elem_of_nil|by intros [? ?]]. }
  pose proof (Hok : heap_ok g) as Hh.
  exists live, g. split; [done|]. split; [done|]. split; [done|]. split; [|split].
  - intros p Hp. apply Hl in Hp as [n Hn]. exists n. split; [done|].
    destruct (blocks_range g p n Hh Hn) as (? & _ & ?). split; [done|]. split; [|done].
    by eapply (blocks_aligned g p n).
  - intros p q n m. apply (blocks_disjoint g p q n m Hh).
  - intros ->. apply no_leak; [done|]. apply map_empty. intros p.
    destruct (g_asked g !! p) as [n|] eqn:Ep; [|done].
    assert (p ∈ []) as Hin by (apply Hl; by rewrite Ep). by apply not_elem_of_nil in Hin.
Qed.

(** A machine with 4 megabytes. *)
Definition ram4 : gram := Gram (ram_bootstrap (4 * 1024 * 1024) 0x80020000) ∅.

Lemma ram4_ok : pages_ok ram4.
Proof.
  split; [by apply ram_bootstrap_ok|]. split; intros *; by rewrite ?lookup_empty.
Qed.

Definition hops : list hop := [Malloc 100; Malloc 5000; Malloc 100; Store 0 96 7; Free 1; Free 0; Free 0].

Lemma kheap_runs_witness :
  exists live g, run_hops hops [] (Gheap (kheap_init ram4) ∅) = Some (live, g) /\ gheap_ok g /\
    live = [] /\ kpages (kpool (g_heap g)) = ∅.
Proof.
  destruct (kheap_runs ram4 hops ram4_ok eq_refl) as (live & g & E & Hok & _ & _ & _ & Hl).
  { by repeat constructor. }
  exists live, g. split; [exact E|]. split; [exact Hok|].
  assert (live = []) as Hn; [|split; [exact Hn|exact (Hl Hn)]].
  assert (fst <$> run_hops hops [] (Gheap (kheap_init ram4) ∅) = Some []) as E' by (vm_compute; reflexivity).
  rewrite E in E'. by injection E'.
Defined.
