(* ===== verification/Array.v ===== *)
(** * Resizeable arrays of pointers (kern/lib/array.c)

    A [struct array] is the record [array]: the address of the structure
    itself, the counters [num] and [max], and the buffer [v], [NULL] or an
    address with its slots.  A slot that was never written holds [None], the
    indeterminate value.  An access outside the buffer, like a failed
    assertion, has no result.

    The invariant [array_wf] is kept by every operation, and [contents] is the
    list the array stands for: the theorems say what each operation does to
    it, when it allocates, and that a failed operation changes nothing. *)

From stdpp Require Import base option list gmap numbers.
From S2P Require Import Prelude Kmem.

Section array.
Context {Heap : Type} `{!Kmalloc Heap} {V : Type}.

Record array := Array {
  a_self : Z;                              (* where the struct lives *)
  a_num : Z;
  a_max : Z;
  a_v : option (Z * list (option V));
}.

Definition array_create (h : Heap) : option (option array * Heap) :=
  '(a, h) ← kmalloc 12 h;
  if a =? 0 then Some (None, h)
  else Some (Some {| a_self := a; a_num := 0; a_max := 0; a_v := None |}, h).

Definition array_getnum (a : array) : Z := a_num a.

Definition array_getguy (a : array) (index : Z) : option (option V) :=
  ASSERT a_num a <=? a_max a ;;
  ASSERT (0 <=? index) && (index <? a_num a) ;;
  '(_, slots) ← a_v a; slots !! Z.to_nat index.

(** [while (nguys > newmax) newmax = (newmax+1)*2;] *)
Fixpoint grow_newmax (fuel : nat) (nguys newmax : Z) : option Z :=
  if newmax <? nguys then
    match fuel with
    | O => None
    | S fuel => grow_newmax fuel nguys (s32 ((newmax + 1) * 2))
    end
  else Some newmax.

(** [for (i=0; i<a->num; i++) newv[i] = a->v[i];] *)
Fixpoint copy_guys (n i : nat) (src dst : list (option V)) :
    option (list (option V)) :=
  match n with
  | O => Some dst
  | S n =>
      x ← src !! i;
      ASSERT bool_decide (i < length dst)%nat ;;
      copy_guys n (S i) src (<[i := x]> dst)
  end.

(** The 32-bit word in which [newmax] doubles makes 32 turns enough. *)
Definition array_preallocate (a : array) (nguys : Z) (h : Heap) :
    option (Z * array * Heap) :=
  ASSERT (0 <=? a_num a) && (a_num a <=? a_max a) ;;
  newmax ← grow_newmax 32 nguys (a_max a);
  '(newv, h) ← kmalloc (u32 (newmax * 4)) h;
  if newv =? 0 then Some (ENOMEM, a, h) else
  let fresh := replicate (Z.to_nat (u32 (newmax * 4) / 4)) None in
  let old := match a_v a with Some (_, slots) => slots | None => [] end in
  slots ← copy_guys (Z.to_nat (a_num a)) 0 old fresh;
  h ← match a_v a with Some (p, _) => kfree p h | None => Some h end;
  Some (0, {| a_self := a_self a; a_num := a_num a; a_max := newmax;
              a_v := Some (newv, slots) |}, h).

Definition array_setsize (a : array) (nguys : Z) (h : Heap) :
    option (Z * array * Heap) :=
  ASSERT (0 <=? a_num a) && (a_num a <=? a_max a) ;;
  '(result, a, h) ←
    (if a_max a <? nguys then array_preallocate a nguys h
     else if (nguys =? 0) && (16 <? a_max a) then
       '(p, _) ← a_v a;                      (* assert(a->v != NULL) *)
       h ← kfree p h;
       Some (0, {| a_self := a_self a; a_num := a_num a; a_max := 0; a_v := None |}, h)
     else Some (0, a, h));
  if result =? 0 then
    Some (0, {| a_self := a_self a; a_num := nguys; a_max := a_max a; a_v := a_v a |}, h)
  else Some (result, a, h).

(** [a->v[index] = ptr;] *)
Definition set_slot (a : array) (index : Z) (x : option V) : option array :=
  '(p, slots) ← a_v a;
  ASSERT (0 <=? index) && (index <? Z.of_nat (length slots)) ;;
  Some {| a_self := a_self a; a_num := a_num a; a_max := a_max a;
          a_v := Some (p, <[Z.to_nat index := x]> slots) |}.

Definition array_setguy (a : array) (index : Z) (x : V) : option array :=
  ASSERT a_num a <=? a_max a ;;
  ASSERT (0 <=? index) && (index <? a_num a) ;;
  set_slot a index (Some x).

Definition array_add (a : array) (guy : V) (h : Heap) :
    option (Z * array * Heap) :=
  let ix := a_num a in
  '(result, a, h) ← array_setsize a (s32 (ix + 1)) h;
  if result =? 0 then
    a ← set_slot a ix (Some guy); Some (0, a, h)
  else Some (result, a, h).

(** The [memmove] of [array_remove], on slots. *)
Definition move_slots (slots : list (option V)) (dst src n : nat) :
    option (list (option V)) :=
  ASSERT bool_decide (dst + n <= length slots)%nat &&
         bool_decide (src + n <= length slots)%nat ;;
  Some (splice slots dst (take n (drop src slots))).

Definition array_remove (a : array) (index : Z) : option array :=
  ASSERT a_num a <=? a_max a ;;
  ASSERT (0 <=? index) && (index <? a_num a) ;;
  let nmove := a_num a - (index + 1) in
  '(p, slots) ← a_v a;
  slots ← move_slots slots (Z.to_nat index) (Z.to_nat (index + 1)) (Z.to_nat nmove);
  Some {| a_self := a_self a; a_num := a_num a - 1; a_max := a_max a;
          a_v := Some (p, slots) |}.

Definition array_destroy (a : array) (h : Heap) : option Heap :=
  h ← match a_v a with Some (p, _) => kfree p h | None => Some h end;
  kfree (a_self a) h.

(** ** The list an array stands for, and its invariant *)

Definition slots_of (a : array) : list (option V) :=
  match a_v a with Some (_, slots) => slots | None => [] end.

Definition contents (a : array) : list (option V) :=
  take (Z.to_nat (a_num a)) (slots_of a).

(** The blocks the array has allocated. *)
Definition array_blocks (a : array) : list Z :=
  match a_v a with Some (p, _) => [p; a_self a] | None => [a_self a] end.

(** An index stays within the buffer and the buffer size in bytes within a
    machine word. *)
Definition array_bounds (a : array) : Prop :=
  0 <= a_num a <= a_max a /\ a_max a <= 2 ^ 29 /\
  length (slots_of a) = Z.to_nat (a_max a).

Definition array_wf `{!KmallocLaws Heap} (h : Heap) (a : array) : Prop :=
  heap_ok h /\ owns h (array_blocks a) /\ array_bounds a.

End array.
Arguments array V : clear implicits.

(** The largest size the operations are shown correct for; with it no [int]
    and no [size_t] computation of the file overflows. *)
Definition max_guys : Z := 2 ^ 28.

(** ** Lemmas *)

Section lemmas.
Context {Heap : Type} `{KmallocLaws Heap} {V : Type}.
Implicit Types (a : array V) (h : Heap).

Lemma grow_newmax_spec fuel nguys m :
  0 <= m -> nguys <= max_guys -> nguys < (m + 1) * 2 ^ Z.of_nat fuel ->
  exists r, grow_newmax fuel nguys m = Some r /\ m <= r /\ nguys <= r /\
            r <= Z.max m (2 * nguys).
Proof.
  unfold max_guys. revert m. induction fuel as [|fuel IH]; intros m Hm Hg Hf; simpl.
  - destruct (m <? nguys) eqn:E; boolify; [change (2 ^ Z.of_nat 0) with 1 in Hf; lia|].
    exists m. split_and!; lia || done.
  - destruct (m <? nguys) eqn:E; boolify.
    + rewrite s32_id by (unfold is_s32; lia).
      destruct (IH ((m + 1) * 2)) as (r & -> & ? & ? & ?); [lia|lia| |].
      * rewrite Nat2Z.inj_succ, Z.pow_succ_r in Hf by lia. nia.
      * exists r. split_and!; lia || done.
    + exists m. split_and!; lia || done.
Qed.

Lemma copy_guys_spec n i (src dst : list (option V)) :
  (i + n <= length src)%nat -> (i + n <= length dst)%nat ->
  copy_guys n i src dst = Some (splice dst i (take n (drop i src))).
Proof.
  revert i dst. induction n as [|n IH]; intros i dst Hs Hd; simpl.
  { by rewrite take_0, splice_nil. }
  destruct (lookup_lt_is_Some_2 src i) as [x Hx]; [lia|]. rewrite Hx. simpl.
  rewrite bool_decide_eq_true_2 by lia. rewrite IH by len.
  rewrite (drop_S src x i Hx). simpl. f_equal.
  apply list_eq. intros j. destruct (decide (j < i)%nat) as [Hj|Hj].
  { rewrite !lookup_splice_lt by len. by rewrite list_lookup_insert_ne by lia. }
  destruct (decide (j = i)) as [->|Hne].
  { rewrite lookup_splice_lt by len. rewrite list_lookup_insert_eq by lia.
    rewrite lookup_splice_mid by (len; lia). by rewrite Nat.sub_diag. }
  destruct (decide (j < i + S n)%nat) as [Hl|Hl].
  - rewrite !lookup_splice_mid by len.
    replace (j - i)%nat with (S (j - S i)) by lia. done.
  - rewrite !lookup_splice_ge by len. by rewrite list_lookup_insert_ne by lia.
Qed.

Lemma array_wf_intro h a :
  heap_ok h -> owns h (array_blocks a) -> 0 <= a_num a <= a_max a ->
  a_max a <= 2 ^ 29 -> length (slots_of a) = Z.to_nat (a_max a) -> array_wf h a.
Proof. intros. split; [done|]. split; [done|]. unfold array_bounds. auto. Qed.

Lemma contents_length a :
  array_bounds a -> length (contents a) = Z.to_nat (a_num a).
Proof. intros (? & ? & ?). unfold contents. len. Qed.

(** The buffer swap of [array_preallocate], given a fresh block. *)
Lemma swap_buffer h h' a newmax p :
  array_wf h a -> a_num a <= newmax <= 2 ^ 29 ->
  kmalloc (newmax * 4) h = Some (p, h') -> p <> 0 ->
  exists slots h'',
    copy_guys (Z.to_nat (a_num a)) 0 (slots_of a)
      (replicate (Z.to_nat newmax) None) = Some slots /\
    match a_v a with Some (q, _) => kfree q h' | None => Some h' end = Some h'' /\
    let a' := {| a_self := a_self a; a_num := a_num a; a_max := newmax;
                 a_v := Some (p, slots) |} in
    array_wf h'' a' /\ contents a' = contents a /\
    same_others h (array_blocks a) h'' (array_blocks a').
Proof.
  intros (Hok & Hown & Hb & Hm & Hlen) Hn Hk Hp.
  destruct (owns_fresh h h' (newmax * 4) p (array_blocks a) Hok) as (Hok' & Hown' & Hs);
    [unfold kmalloc_size; lia|done|done|exact Hown|].
  rewrite copy_guys_spec by len. eexists.
  assert (exists h'',
    match a_v a with Some (q, _) => kfree q h' | None => Some h' end = Some h'' /\
    heap_ok h'' /\ owns h'' [p; a_self a] /\
    same_others h (array_blocks a) h'' [p; a_self a]) as (h'' & ? & ? & ? & ?).
  { revert Hown' Hs. unfold array_blocks. destruct (a_v a) as [[q l]|]; intros.
    - destruct (owns_free h' q [p] [a_self a] Hok' Hown') as (h'' & ? & ? & ? & ?).
      exists h''. split_and!; eauto using same_others_trans.
    - eauto. }
  exists h''. split; [done|]. split; [done|]. simpl. split_and?; [| |done].
  { apply array_wf_intro; simpl; [done|done|lia|lia|].
    unfold slots_of; simpl. rewrite length_splice; len. }
  unfold contents; simpl. unfold slots_of in *; simpl.
  apply list_eq. intros i. destruct (decide (i < Z.to_nat (a_num a))%nat).
  - rewrite !lookup_take_lt by lia. rewrite lookup_splice_mid by len.
    rewrite lookup_take_lt, lookup_drop by lia. f_equal. lia.
  - by rewrite !lookup_take_ge by lia.
Qed.

Lemma array_preallocate_wp a n h :
  array_wf h a -> n <= max_guys ->
  exists r a' h', array_preallocate a n h = Some (r, a', h') /\
    array_wf h' a' /\ contents a' = contents a /\ a_num a' = a_num a /\
    same_others h (array_blocks a) h' (array_blocks a') /\
    (r = ENOMEM /\ a' = a \/ r = 0 /\ Z.max n (a_max a) <= a_max a').
Proof.
  intros Hwf Hn. pose proof Hwf as (Hok & Hown & Hb & Hm & Hlen).
  unfold max_guys in Hn. unfold array_preallocate.
  rewrite (proj2 (andb_true_iff _ _)) by (split; apply Z.leb_le; lia).
  destruct (grow_newmax_spec 32 n (a_max a)) as (nm & -> & ? & ? & ?);
    [lia|done|lia|]. simpl. rewrite u32_id by (unfold is_u32; lia).
  destruct (kmalloc_total h (nm * 4) Hok) as [[p h1] Hk]; [unfold kmalloc_size; lia|].
  rewrite Hk. simpl. destruct (p =? 0) eqn:Ep; boolify; subst.
  { destruct (kmalloc_null h h1 (nm * 4)) as [Hok1 Hb1]; [done|unfold kmalloc_size; lia|done|].
    exists ENOMEM, a, h1. split_and!; eauto; [|by apply same_others_blocks].
    apply array_wf_intro; auto. destruct Hown as [? Hl]. split; [done|].
    intros q. rewrite Hb1. auto. }
  destruct (swap_buffer h h1 a nm p Hwf) as (slots & h2 & Hc & Hf & Hwf' & Hcon & Hso);
    [lia|done|done|].
  rewrite Z.div_mul by lia. unfold slots_of in Hc. rewrite Hc. simpl. rewrite Hf. simpl.
  eexists _, _, _. split_and!; eauto. right. simpl. lia.
Qed.

(** Growing never disturbs what the array holds; shrinking drops the tail. *)
Lemma array_setsize_wp a n h :
  array_wf h a -> 0 <= n <= max_guys ->
  exists r a' h', array_setsize a n h = Some (r, a', h') /\
    array_wf h' a' /\
    same_others h (array_blocks a) h' (array_blocks a') /\
    (r = ENOMEM /\ a_max a < n /\ a' = a \/
     r = 0 /\ a_num a' = n /\
     take (Z.to_nat (a_num a)) (contents a') = take (Z.to_nat n) (contents a)).
Proof.
  intros Hwf Hn. pose proof Hwf as (Hok & Hown & Hb & Hm & Hlen).
  unfold array_setsize.
  rewrite (proj2 (andb_true_iff _ _)) by (split; apply Z.leb_le; lia).
  destruct (a_max a <? n) eqn:Eg; boolify.
  - destruct (array_preallocate_wp a n h) as
      (r & a' & h' & -> & Hwf' & Hc & Hnum & Hs & Hr); [done|lia|]. simpl.
    destruct Hr as [[-> ->]|[-> Hmax]]; simpl.
    { eexists _, _, _. split_and!; eauto. }
    eexists _, _, _. split_and!; [done|..]; simpl.
    + destruct Hwf' as (? & ? & ? & ? & ?). apply array_wf_intro; simpl; auto; lia.
    + done.
    + right. split_and!; [done..|]. rewrite <- Hc. unfold contents; simpl.
      unfold slots_of; simpl. rewrite Hnum. rewrite !take_take.
      f_equal. lia.
  - destruct ((n =? 0) && (16 <? a_max a)) eqn:Ez; boolify; simpl.
    + subst n. destruct (a_v a) as [[p l]|] eqn:Ev.
      2: { unfold slots_of in Hlen. rewrite Ev in Hlen. simpl in Hlen. lia. }
      unfold array_blocks in Hown. rewrite Ev in Hown.
      destruct (owns_free h p [] [a_self a] Hok Hown) as (h' & Hf & ? & ? & ?).
      simpl. rewrite Hf. simpl. eexists _, _, _. split_and!; [done|..].
      * apply array_wf_intro; simpl; auto; lia.
      * unfold array_blocks. rewrite Ev. simpl. done.
      * right. split_and!; [done..|]. unfold contents; cbn. by rewrite ?take_nil, ?take_0, ?take_nil.
    + eexists _, _, _. split_and!; [done|..].
      * apply array_wf_intro; simpl; auto; lia.
      * apply same_others_refl.
      * right. split_and!; [done..|]. unfold contents; simpl.
        unfold slots_of; simpl. rewrite !take_take. f_equal. lia.
Qed.

Lemma set_slot_wp h a i (x : option V) :
  array_wf h a -> 0 <= i < a_num a ->
  exists a', set_slot a i x = Some a' /\ array_wf h a' /\
    contents a' = <[Z.to_nat i := x]> (contents a) /\
    a_num a' = a_num a /\ a_max a' = a_max a /\ array_blocks a' = array_blocks a.
Proof.
  intros (Hok & Hown & Hb & Hm & Hlen) Hi. unfold set_slot.
  unfold slots_of, array_blocks in *.
  destruct (a_v a) as [[p l]|] eqn:Ev; simpl in *; [|lia].
  rewrite (proj2 (andb_true_iff _ _))
    by (split; [apply Z.leb_le|apply Z.ltb_lt]; lia).
  eexists. split; [done|]. split; [|unfold contents, slots_of; simpl; rewrite Ev].
  - apply array_wf_intro; simpl; auto. unfold slots_of; simpl. len.
  - split_and!; try done. by rewrite take_insert_lt by lia.
Qed.

(** Adding while there is room does not touch the heap. *)
Lemma array_add_room h a (x : V) :
  array_wf h a -> a_num a < a_max a -> a_num a < max_guys ->
  exists a', array_add a x h = Some (0, a', h) /\ array_wf h a' /\
    contents a' = contents a ++ [Some x] /\ a_num a' = a_num a + 1 /\
    a_max a' = a_max a /\ array_blocks a' = array_blocks a.
Proof.
  intros Hwf Hroom Hg. pose proof Hwf as (Hok & Hown & Hb & Hm & Hlen).
  unfold max_guys in Hg. unfold array_add. rewrite s32_id by (unfold is_s32; lia).
  unfold array_setsize.
  rewrite (proj2 (andb_true_iff _ _)) by (split; apply Z.leb_le; lia).
  rewrite (proj2 (Z.ltb_ge _ _)) by lia.
  rewrite (proj2 (Z.eqb_neq (a_num a + 1) 0)) by lia. simpl.
  set (a1 := Array _ _ _ _).
  assert (array_wf h a1) as Hwf1 by (apply array_wf_intro; simpl; auto; lia).
  destruct (set_slot_wp h a1 (a_num a) (Some x) Hwf1) as (a2 & -> & Hwf2 & Hc & Hn & Hmx & Hbl);
    [simpl; lia|]. simpl. exists a2. split_and!; try done.
  rewrite Hc. unfold contents; simpl. unfold slots_of in *; simpl.
  destruct (a_v a) as [[p l]|]; simpl in *; [|lia].
  replace (Z.to_nat (a_num a + 1)) with (S (Z.to_nat (a_num a))) by lia.
  destruct (lookup_lt_is_Some_2 l (Z.to_nat (a_num a))) as [y Hy]; [lia|].
  rewrite (take_S_r _ _ _ Hy).
  rewrite insert_app_r_alt by len.
  replace (_ - _)%nat with 0%nat by len. done.
Qed.

Lemma array_add_wp h a (x : V) :
  array_wf h a -> a_num a < max_guys ->
  exists r a' h', array_add a x h = Some (r, a', h') /\ array_wf h' a' /\
    same_others h (array_blocks a) h' (array_blocks a') /\
    (r = ENOMEM /\ a' = a \/ r = 0 /\ contents a' = contents a ++ [Some x]) /\
    (a_num a < a_max a -> r = 0 /\ a_max a' = a_max a).
Proof.
  intros Hwf Hg. pose proof Hwf as (Hok & Hown & Hb & Hm & Hlen).
  destruct (decide (a_num a < a_max a)) as [Hr|Hr].
  { destruct (array_add_room h a x Hwf Hr Hg) as (a' & -> & ? & ? & ? & ? & Hbl).
    eexists _, _, _. split_and!; eauto. rewrite Hbl. apply same_others_refl. }
  unfold max_guys in Hg. unfold array_add. rewrite s32_id by (unfold is_s32; lia).
  destruct (array_setsize_wp a (a_num a + 1) h) as (r & a1 & h1 & -> & Hwf1 & Hs & Hc);
    [done|unfold max_guys; lia|]. simpl.
  destruct Hc as [(-> & ? & ->)|(-> & Hn1 & Hc1)]; simpl.
  { eexists _, _, _. split_and!; eauto; lia. }
  destruct (set_slot_wp h1 a1 (a_num a) (Some x) Hwf1) as (a2 & -> & Hwf2 & Hc2 & Hn & Hmx & Hbl);
    [lia|]. simpl. eexists _, _, _. split_and!; [done|done|by rewrite Hbl| |lia].
  right. split; [done|]. rewrite Hc2.
  pose proof (contents_length a (proj2 (proj2 Hwf))) as Hl.
  pose proof (contents_length a1 (proj2 (proj2 Hwf1))) as Hl1.
  rewrite (take_ge (contents a)) in Hc1 by lia.
  rewrite <- Hc1. apply list_eq. intros i.
  destruct (decide (i < Z.to_nat (a_num a))%nat).
  - rewrite list_lookup_insert_ne by lia. rewrite lookup_app_l by len.
    by rewrite lookup_take_lt by lia.
  - rewrite lookup_app_r by len. destruct (decide (i = Z.to_nat (a_num a))) as [->|].
    + rewrite list_lookup_insert_eq by lia.
      replace (_ - _)%nat with 0%nat by len. done.
    + rewrite list_lookup_insert_ne by lia. by rewrite !lookup_ge_None_2 by len.
Qed.

Lemma array_remove_wp h a i :
  array_wf h a -> 0 <= i < a_num a ->
  exists a', array_remove a i = Some a' /\ array_wf h a' /\
    contents a' = delete (Z.to_nat i) (contents a) /\
    a_max a' = a_max a /\ a_num a' = a_num a - 1 /\ array_blocks a' = array_blocks a.
Proof.
  intros (Hok & Hown & Hb & Hm & Hlen) Hi. unfold array_remove.
  rewrite (proj2 (Z.leb_le _ _)) by lia.
  rewrite (proj2 (andb_true_iff _ _))
    by (split; [apply Z.leb_le|apply Z.ltb_lt]; lia).
  unfold slots_of, array_blocks in *.
  destruct (a_v a) as [[p l]|] eqn:Ev; simpl in *; [|lia]. unfold move_slots.
  rewrite !bool_decide_eq_true_2 by lia. simpl.
  eexists. split; [done|]. split; [|split; [|done]].
  - apply array_wf_intro; simpl; auto; [lia|]. unfold slots_of; simpl.
    rewrite length_splice; len.
  - unfold contents, slots_of; simpl. rewrite Ev. rewrite delete_take_drop.
    apply list_eq. intros j. destruct (decide (j < Z.to_nat i)%nat).
    + rewrite lookup_take_lt, lookup_splice_lt, lookup_app_l by len.
      by rewrite !lookup_take_lt by lia.
    + rewrite lookup_app_r by len. rewrite lookup_drop.
      destruct (decide (j < Z.to_nat (a_num a - 1))%nat).
      * rewrite !lookup_take_lt by len. rewrite lookup_splice_mid by len.
        rewrite lookup_take_lt, lookup_drop by lia. f_equal. len.
      * by rewrite !lookup_take_ge by len.
Qed.

Lemma array_getguy_wp h a i :
  array_wf h a -> 0 <= i < a_num a ->
  array_getguy a i = contents a !! Z.to_nat i.
Proof.
  intros (Hok & Hown & Hb & Hm & Hlen) Hi. unfold array_getguy.
  rewrite (proj2 (Z.leb_le _ _)) by lia.
  rewrite (proj2 (andb_true_iff _ _))
    by (split; [apply Z.leb_le|apply Z.ltb_lt]; lia).
  unfold contents, slots_of in *. destruct (a_v a) as [[p l]|]; simpl in *; [|lia].
  by rewrite lookup_take_lt by lia.
Qed.
End lemmas.

(** ** The array as a list: one refinement for all operations *)

(** The calls a client can make. *)
Inductive array_op (V : Type) :=
  | OpAdd (x : V)
  | OpRemove (i : Z)
  | OpSet (i : Z) (x : V)
  | OpSetsize (n : Z)
  | OpPreallocate (n : Z).
Arguments OpAdd {V} x.
Arguments OpRemove {V} i.
Arguments OpSet {V} i x.
Arguments OpSetsize {V} n.
Arguments OpPreallocate {V} n.

Section refinement.
Context {Heap : Type} `{KmallocLaws Heap} {V : Type}.

Definition array_exec (op : array_op V) (a : array V) (h : Heap) :
    option (Z * array V * Heap) :=
  match op with
  | OpAdd x => array_add a x h
  | OpRemove i => a' ← array_remove a i; Some (0, a', h)
  | OpSet i x => a' ← array_setguy a i x; Some (0, a', h)
  | OpSetsize n => array_setsize a n h
  | OpPreallocate n => array_preallocate a n h
  end.

(** What the caller must respect: indices in range, sizes within
    [max_guys]. *)
Definition op_legal (op : array_op V) (l : list (option V)) : Prop :=
  match op with
  | OpAdd _ => Z.of_nat (length l) < max_guys
  | OpRemove i | OpSet i _ => 0 <= i < Z.of_nat (length l)
  | OpSetsize n | OpPreallocate n => 0 <= n <= max_guys
  end.

(** What the call does to the list on success.  A slot uncovered by growing
    holds whatever the buffer held. *)
Definition op_spec (op : array_op V) (l l' : list (option V)) : Prop :=
  match op with
  | OpAdd x => l' = l ++ [Some x]
  | OpRemove i => l' = delete (Z.to_nat i) l
  | OpSet i x => l' = <[Z.to_nat i := Some x]> l
  | OpSetsize n => length l' = Z.to_nat n /\
                   take (length l) l' = take (Z.to_nat n) l
  | OpPreallocate _ => l' = l
  end.

(** every call a client may make returns (it neither panics nor leaves the
    buffer), keeps the invariant and the blocks of everybody else, and either
    does to the list of elements exactly what its name says, returning 0, or
    fails with [ENOMEM] and leaves the array as it was. *)
Theorem array_op_refines (op : array_op V) (a : array V) (h : Heap) :
  array_wf h a -> op_legal op (contents a) ->
  exists r a' h', array_exec op a h = Some (r, a', h') /\
    array_wf h' a' /\ same_others h (array_blocks a) h' (array_blocks a') /\
    (r = 0 /\ op_spec op (contents a) (contents a') \/ r = ENOMEM /\ a' = a).
Proof.
  intros Hwf Hl. pose proof Hwf as (_ & _ & Hbnd).
  pose proof (contents_length a Hbnd) as Hlen. destruct Hbnd as (? & ? & ?).
  destruct op as [x|i|i x|n|n]; simpl in *.
  - destruct (array_add_wp h a x Hwf) as (r & a' & h' & -> & ? & ? & ? & _); [lia|].
    eexists _, _, _. split_and!; eauto. tauto.
  - destruct (array_remove_wp h a i Hwf) as (a' & -> & ? & ? & ? & ? & Hb); [lia|].
    eexists _, _, _. split_and!; eauto. rewrite Hb. apply same_others_refl.
  - unfold array_setguy. rewrite (proj2 (Z.leb_le _ _)) by lia.
    rewrite (proj2 (andb_true_iff _ _))
      by (split; [apply Z.leb_le|apply Z.ltb_lt]; lia).
    destruct (set_slot_wp h a i (Some x) Hwf) as (a' & -> & ? & ? & ? & ? & Hb); [lia|].
    eexists _, _, _. split_and!; eauto. rewrite Hb. apply same_others_refl.
  - destruct (array_setsize_wp a n h Hwf) as (r & a' & h' & -> & Hwf' & ? & Hc); [lia|].
    eexists _, _, _. split_and!; eauto.
    destruct Hc as [(-> & ? & ->)|(-> & Hn & Hc)]; [by right|left].
    pose proof (contents_length a' (proj2 (proj2 Hwf'))) as Hlen'.
    split_and!; [done|by rewrite Hlen', Hn|by rewrite Hlen].
  - destruct (array_preallocate_wp a n h Hwf) as (r & a' & h' & -> & ? & ? & ? & ? & Hr); [lia|].
    eexists _, _, _. split_and!; eauto.
    destruct Hr as [?|[? _]]; [by right|by left].
Qed.

(** Adding the elements of a list one by one. *)
Fixpoint array_add_all (xs : list V) (a : array V) (h : Heap) :
    option (array V * Heap) :=
  match xs with
  | [] => Some (a, h)
  | x :: xs =>
      '(r, a, h) ← array_add a x h;
      ASSERT r =? 0 ;; array_add_all xs a h
  end.

Lemma array_add_all_room xs (a : array V) (h : Heap) :
  array_wf h a -> a_num a + Z.of_nat (length xs) <= Z.min (a_max a) max_guys ->
  exists a', array_add_all xs a h = Some (a', h) /\
             contents a' = contents a ++ (Some <$> xs).
Proof.
  revert a. induction xs as [|x xs IH]; intros a Hwf Hr; simpl in *.
  { exists a. by rewrite app_nil_r. }
  destruct (array_add_room h a x Hwf) as (a1 & -> & Hwf1 & Hc & Hn & Hm & _); [lia..|].
  simpl. destruct (IH a1 Hwf1) as (a2 & -> & Hc2); [lia|].
  exists a2. split; [done|]. rewrite Hc2, Hc, <- app_assoc. done.
Qed.

(** after a successful [array_preallocate(a, n)] the array can be filled up
    to [n] elements without a single allocation: every [array_add] returns 0
    and the heap is not touched (array.h: "can be used to prevent anticipated
    calls to setsize from failing"). *)
Theorem array_preallocate_enough (a a' : array V) (h h' : Heap) n xs :
  array_wf h a -> 0 <= n <= max_guys ->
  array_preallocate a n h = Some (0, a', h') ->
  a_num a + Z.of_nat (length xs) <= n ->
  exists a'', array_add_all xs a' h' = Some (a'', h') /\
              contents a'' = contents a ++ (Some <$> xs).
Proof.
  intros Hwf Hn Hp Hxs.
  destruct (array_preallocate_wp a n h Hwf) as (r & a1 & h1 & Hp1 & Hwf1 & Hc & Hnum & _ & Hr);
    [lia|]. rewrite Hp1 in Hp. simplify_eq. destruct Hr as [[? _]|[_ Hr]]; [done|].
  rewrite <- Hc. apply array_add_all_room; [done|lia].
Qed.

(** emptying an array of more than 16 slots with [array_setsize(a, 0)] gives
    the buffer back, so the room an earlier [array_preallocate] made is gone and
    the next [array_add] has to allocate: with no memory left it fails. *)
Theorem array_setsize_0_drops_room (a : array V) (x : V) (h : Heap) :
  array_wf h a -> 16 < a_max a ->
  exists a' h', array_setsize a 0 h = Some (0, a', h') /\ a_max a' = 0 /\
    forall h'', kmalloc 8 h' = Some (0, h'') ->
                array_add a' x h' = Some (ENOMEM, a', h'').
Proof.
  intros Hwf Hm. pose proof Hwf as (Hok & Hown & Hb & Hmx & Hlen).
  unfold array_setsize.
  rewrite (proj2 (andb_true_iff _ _)) by (split; apply Z.leb_le; lia).
  rewrite (proj2 (Z.ltb_ge _ _)) by lia. rewrite (proj2 (Z.ltb_lt _ _)) by lia. simpl.
  unfold array_blocks, slots_of in *.
  destruct (a_v a) as [[p l]|] eqn:Ev; simpl in *; [|lia].
  destruct (owns_free h p [] [a_self a] Hok Hown) as (h' & -> & _). simpl.
  eexists _, _. split_and!; [done|done|]. intros h'' Hk.
  unfold array_add, array_setsize, array_preallocate.
  cbn [a_num a_max a_v a_self]. change (s32 (0 + 1)) with 1.
  change (grow_newmax 32 1 0) with (Some 2). simpl. change (u32 (2 * 4)) with 8.
  by rewrite Hk.
Qed.
End refinement.

(** ** Witnesses *)

Module ArrayExamples.
Import CountdownHeap.

Definition a0 : array Z := {| a_self := 4; a_num := 0; a_max := 0; a_v := None |}.
Definition h0 : heap :=
  {| next := 20; left := 5; used := {[4 := 12]} |}.

Lemma h0_ok : ok h0.
Proof.
  split_and!; simpl; [lia|lia|done|..].
  - by intros p n [<- <-]%lookup_singleton_Some.
  - intros p q n m [<- <-]%lookup_singleton_Some [<- <-]%lookup_singleton_Some. done.
Qed.

Lemma a0_wf : array_wf h0 a0.
Proof.
  apply array_wf_intro; simpl; try done; try lia; [apply h0_ok|].
  split; [by apply NoDup_singleton|]. intros p ->%list_elem_of_singleton. by eexists.
Qed.

Definition a20 : array Z :=
  {| a_self := 4; a_num := 3; a_max := 20;
     a_v := Some (20, replicate 20 (Some 7)) |}.
Definition h20 : heap :=
  {| next := 104; left := 0; used := {[4 := 12; 20 := 80]} |}.

Lemma a20_wf : array_wf h20 a20.
Proof.
  apply array_wf_intro; simpl; try done; try lia.
  - split_and!; simpl; [lia|lia|done|..].
    + by intros p n [[<- <-]|[? [<- <-]%lookup_singleton_Some]]%lookup_insert_Some.
    + intros p q n m [[<- <-]|[? [<- <-]%lookup_singleton_Some]]%lookup_insert_Some
        [[<- <-]|[? [<- <-]%lookup_singleton_Some]]%lookup_insert_Some; lia.
  - split; [apply list.NoDup_cons; split; [set_solver|apply NoDup_singleton]|].
    intros p [->| ->%list_elem_of_singleton]%elem_of_cons; by eexists.
Qed.
End ArrayExamples.
Import ArrayExamples.

Lemma array_op_refines_witness :
  exists r a' h', array_exec (OpAdd 7) a0 h0 = Some (r, a', h') /\
    array_wf h' a' /\ same_others h0 (array_blocks a0) h' (array_blocks a') /\
    (r = 0 /\ op_spec (OpAdd 7) (contents a0) (contents a') \/ r = ENOMEM /\ a' = a0).
Proof. apply (array_op_refines (OpAdd 7) a0 h0); [apply a0_wf|done]. Defined.

Definition a1 : array Z :=
  {| a_self := 4; a_num := 0; a_max := 6; a_v := Some (20, replicate 6 None) |}.

Lemma array_preallocate_enough_witness :
  exists a'', array_add_all [7; 8; 9] a1 {| CountdownHeap.next := 48;
      CountdownHeap.left := 4; CountdownHeap.used := {[20 := 24; 4 := 12]} |}
    = Some (a'', {| CountdownHeap.next := 48;
      CountdownHeap.left := 4; CountdownHeap.used := {[20 := 24; 4 := 12]} |}) /\
    contents a'' = contents a0 ++ (Some <$> [7; 8; 9]).
Proof.
  eapply (array_preallocate_enough a0 a1 h0 _ 4);
    [apply a0_wf|unfold max_guys; lia|vm_compute; reflexivity|simpl; lia].
Defined.

Lemma array_setsize_0_drops_room_witness :
  exists a' h', array_setsize a20 0 h20 = Some (0, a', h') /\ a_max a' = 0 /\
    forall h'', kmalloc 8 h' = Some (0, h'') ->
                array_add a' 9 h' = Some (ENOMEM, a', h'').
Proof. apply array_setsize_0_drops_room; [apply a20_wf|simpl; lia]. Defined.
