(* ===== verification/Queue.v ===== *)
(** * Queues as ring buffers (kern/lib/queue.c)

    A [struct queue] is the record [queue].  The ring holds the slots from
    [q_nextread] up to, not including, [q_nextwrite], cyclically; one slot is
    always left free.  [q_list] is the FIFO list the ring stands for and
    [queue_wf] the invariant.  [q_addtail] and [q_grow] call each other; the
    argument of [q_addtail_n] counts how often growing may nest, and one level
    is shown to be enough. *)

From stdpp Require Import base option list gmap numbers.
From S2P Require Import Prelude Kmem.

Section queue.
  Context {Heap : Type} `{!Kmalloc Heap} {V : Type}.

Record queue := Queue {
  q_self : Z;                       (* where the struct lives *)
  q_size : Z;
  q_nextwrite : Z;
  q_nextread : Z;
  q_dataptr : Z;                    (* the pointer [data] *)
  q_data : list (option V);         (* and the slots it points to *)
}.

Definition q_create (size : Z) (h : Heap) : option (option queue * Heap) :=
  '(q, h) ← kmalloc 16 h;
  if q =? 0 then Some (None, h) else
  '(d, h) ← kmalloc (u32 (size * 4)) h;
  if d =? 0 then h ← kfree q h; Some (None, h)
  else Some (Some {| q_self := q; q_size := size; q_nextwrite := 0;
                     q_nextread := 0; q_dataptr := d;
                     q_data := replicate (Z.to_nat (u32 (size * 4) / 4)) None |}, h).

Definition q_empty (q : queue) : bool := q_nextwrite q =? q_nextread q.

(** [while (nsize < targetsize) { nsize *= 2; assert(nsize > 0); }]; a
    positive [int] can be doubled at most 31 times before the assertion. *)
Fixpoint q_newsize (fuel : nat) (nsize targetsize : Z) : option Z :=
  if nsize <? targetsize then
    match fuel with
    | O => None
    | S fuel =>
        let nsize := s32 (nsize * 2) in
        ASSERT 0 <? nsize ;; q_newsize fuel nsize targetsize
    end
  else Some nsize.

Section grow.
  Context (addtail : queue -> option V -> Heap -> option (Z * queue * Heap)).

(** [for (i=onr; i!=onw; i = (i+1)%osize)], which makes at most [osize]
    turns. *)
Fixpoint q_refill (fuel : nat) (i onw osize : Z) (olddata : list (option V))
    (q : queue) (h : Heap) : option (queue * Heap) :=
  if i =? onw then Some (q, h) else
  match fuel with
  | O => None
  | S fuel =>
      x ← olddata !! Z.to_nat i;
      '(result, q, h) ← addtail q x h;
      ASSERT result =? 0 ;;
      q_refill fuel ((i + 1) `mod` osize) onw osize olddata q h
  end.

Definition q_grow (q : queue) (targetsize : Z) (h : Heap) :
    option (Z * queue * Heap) :=
  nsize ← q_newsize 32 (q_size q) targetsize;
  '(ndata, h) ← kmalloc (u32 (nsize * 4)) h;
  if ndata =? 0 then Some (ENOMEM, q, h) else
  let q' := {| q_self := q_self q; q_size := nsize; q_nextwrite := 0;
               q_nextread := 0; q_dataptr := ndata;
               q_data := replicate (Z.to_nat (u32 (nsize * 4) / 4)) None |} in
  '(q', h) ← q_refill (Z.to_nat (q_size q)) (q_nextread q) (q_nextwrite q)
               (q_size q) (q_data q) q' h;
  h ← kfree (q_dataptr q) h;
  Some (0, q', h).
End grow.

(** [q->data[q->nextwrite] = ptr; q->nextwrite = nextnext;] *)
Definition q_store (q : queue) (x : option V) : option queue :=
  let nextnext := (q_nextwrite q + 1) `mod` q_size q in
  ASSERT bool_decide (Z.to_nat (q_nextwrite q) < length (q_data q))%nat ;;
  Some {| q_self := q_self q; q_size := q_size q; q_nextwrite := nextnext;
          q_nextread := q_nextread q; q_dataptr := q_dataptr q;
          q_data := <[Z.to_nat (q_nextwrite q) := x]> (q_data q) |}.

Fixpoint q_addtail_n (depth : nat) (q : queue) (x : option V) (h : Heap) :
    option (Z * queue * Heap) :=
  ASSERT 0 <? q_size q ;;
  if (q_nextwrite q + 1) `mod` q_size q =? q_nextread q then
    match depth with
    | O => None
    | S depth =>
        '(result, q, h) ← q_grow (q_addtail_n depth) q (s32 (q_size q + 1)) h;
        if result =? 0 then q ← q_store q x; Some (0, q, h)
        else Some (result, q, h)
    end
  else q ← q_store q x; Some (0, q, h).

Definition q_addtail (q : queue) (ptr : V) (h : Heap) : option (Z * queue * Heap) :=
  q_addtail_n 1 q (Some ptr) h.

Definition q_preallocate (q : queue) (size : Z) (h : Heap) :
    option (Z * queue * Heap) :=
  ASSERT 0 <? q_size q ;;
  if q_size q <? size then q_grow (q_addtail_n 0) q size h
  else Some (0, q, h).

Definition q_remhead (q : queue) : option (option V * queue) :=
  ASSERT 0 <? q_size q ;;
  ASSERT negb (q_empty q) ;;
  ret ← q_data q !! Z.to_nat (q_nextread q);
  Some (ret, {| q_self := q_self q; q_size := q_size q;
                q_nextwrite := q_nextwrite q;
                q_nextread := (q_nextread q + 1) `mod` q_size q;
                q_dataptr := q_dataptr q; q_data := q_data q |}).

Definition q_destroy (q : queue) (h : Heap) : option Heap :=
  ASSERT q_empty q ;;
  h ← kfree (q_dataptr q) h;
  kfree (q_self q) h.

Definition q_getstart (q : queue) : Z := q_nextread q.
Definition q_getend (q : queue) : Z := q_nextwrite q.
Definition q_getsize (q : queue) : Z := q_size q.

Definition q_getguy (q : queue) (index : Z) : option (option V) :=
  ASSERT (0 <=? index) && (index <? q_size q) ;;
  q_data q !! Z.to_nat index.

(** ** The list a queue stands for, and its invariant *)

(** The slots in reading order, starting at [q_nextread]. *)
Definition q_rotated (q : queue) : list (option V) :=
  drop (Z.to_nat (q_nextread q)) (q_data q) ++
  take (Z.to_nat (q_nextread q)) (q_data q).

Definition q_len (q : queue) : Z :=
  (q_nextwrite q - q_nextread q) `mod` q_size q.

Definition q_list (q : queue) : list (option V) :=
  take (Z.to_nat (q_len q)) (q_rotated q).

Definition queue_bounds (q : queue) : Prop :=
  0 < q_size q <= 2 ^ 29 /\
  0 <= q_nextread q < q_size q /\ 0 <= q_nextwrite q < q_size q /\
  length (q_data q) = Z.to_nat (q_size q).

Definition queue_blocks (q : queue) : list Z := [q_dataptr q; q_self q].

Definition queue_wf `{!KmallocLaws Heap} (h : Heap) (q : queue) : Prop :=
  heap_ok h /\ owns h (queue_blocks q) /\ queue_bounds q.

End queue.
Arguments queue V : clear implicits.
Arguments q_addtail_n : simpl never.

(** The largest size the operations are shown correct for. *)
Definition max_qsize : Z := 2 ^ 28.

(** ** Lemmas *)

Section lemmas.
  Context {Heap : Type} `{KmallocLaws Heap} {V : Type}.
  Implicit Types (q : queue V) (h : Heap).

Lemma q_newsize_spec fuel s t :
  0 < s <= max_qsize -> t <= max_qsize -> t <= s * 2 ^ Z.of_nat fuel ->
  exists r, q_newsize fuel s t = Some r /\ s <= r /\ t <= r /\
            r <= Z.max s (2 * t).
Proof.
  unfold max_qsize. revert s. induction fuel as [|fuel IH]; intros s Hs Ht Hf; simpl.
  - destruct (s <? t) eqn:E; boolify.
    + change (2 ^ Z.of_nat 0) with 1 in Hf. lia.
    + exists s. split_and!; lia || done.
  - destruct (s <? t) eqn:E; boolify; [|exists s; split_and!; lia || done].
    rewrite s32_id by (unfold is_s32; lia).
    rewrite (proj2 (Z.ltb_lt 0 _)) by lia.
    destruct (decide (t <= s * 2)) as [Hd|Hd].
    + exists (s * 2). split_and!; try lia. destruct fuel; simpl;
        by rewrite (proj2 (Z.ltb_ge _ _)) by lia.
    + destruct (IH (s * 2)) as (r & -> & ? & ? & ?); [lia|lia| |].
      * rewrite Nat2Z.inj_succ, Z.pow_succ_r in Hf by lia. nia.
      * exists r. split_and!; lia || done.
Qed.

Lemma q_newsize_once fuel s t :
  0 < s <= max_qsize -> s < t <= 2 * s -> q_newsize (S fuel) s t = Some (2 * s).
Proof.
  unfold max_qsize. intros Hs Ht. simpl. rewrite (proj2 (Z.ltb_lt _ _)) by lia.
  rewrite s32_id by (unfold is_s32; lia). rewrite (proj2 (Z.ltb_lt 0 _)) by lia.
  rewrite Z.mul_comm. destruct fuel; simpl; by rewrite (proj2 (Z.ltb_ge _ _)) by lia.
Qed.

Lemma length_rotated q :
  queue_bounds q -> length (q_rotated q) = Z.to_nat (q_size q).
Proof. intros (? & ? & ? & ?). unfold q_rotated. len. Qed.

Lemma q_len_range q : queue_bounds q -> 0 <= q_len q < q_size q.
Proof. intros (? & _). unfold q_len. apply Z.mod_pos_bound. lia. Qed.

Lemma length_q_list q :
  queue_bounds q -> length (q_list q) = Z.to_nat (q_len q).
Proof.
  intros Hb. pose proof (q_len_range q Hb). unfold q_list.
  rewrite length_take, length_rotated by done. lia.
Qed.

(** The slot of the [k]-th element from the front. *)
Lemma lookup_rotated q (k : nat) :
  queue_bounds q -> Z.of_nat k < q_size q ->
  q_rotated q !! k = q_data q !! Z.to_nat ((q_nextread q + Z.of_nat k) `mod` q_size q).
Proof.
  intros (? & ? & ? & Hl) Hk. unfold q_rotated.
  destruct (decide (q_nextread q + Z.of_nat k < q_size q)) as [Hd|Hd].
  - rewrite Z.mod_small by lia. rewrite lookup_app_l by len.
    rewrite lookup_drop. f_equal. lia.
  - rewrite mod_wrap_up by lia.
    rewrite lookup_app_r by len. rewrite lookup_take_lt by len.
    f_equal. len.
Qed.

Lemma q_list_lookup q (k : nat) :
  queue_bounds q -> Z.of_nat k < q_len q ->
  q_list q !! k = q_data q !! Z.to_nat ((q_nextread q + Z.of_nat k) `mod` q_size q).
Proof.
  intros Hb Hk. pose proof (q_len_range q Hb). unfold q_list.
  rewrite lookup_take_lt by lia. by apply lookup_rotated; [|lia].
Qed.

Lemma q_empty_iff q : queue_bounds q -> q_empty q = true <-> q_list q = [].
Proof.
  intros Hb. pose proof Hb as (? & ? & ? & ?). unfold q_empty.
  pose proof (length_q_list q Hb) as Hl.
  rewrite <- length_zero_iff_nil, Hl, Z.eqb_eq. unfold q_len.
  split; [intros ->; by rewrite Z.sub_diag|]. intros E.
  destruct (decide (q_nextread q <= q_nextwrite q)).
  - rewrite Z.mod_small in E by lia. lia.
  - rewrite mod_wrap_down in E by lia. lia.
Qed.

(** Two states of one ring have the same list when they agree on the slots in
    use. *)
Lemma q_list_ext q q' :
  queue_bounds q -> queue_bounds q' -> q_len q' = q_len q ->
  (forall k : nat, Z.of_nat k < q_len q ->
     q_data q' !! Z.to_nat ((q_nextread q' + Z.of_nat k) `mod` q_size q') =
     q_data q !! Z.to_nat ((q_nextread q + Z.of_nat k) `mod` q_size q)) ->
  q_list q' = q_list q.
Proof.
  intros Hb Hb' Hn Hk. apply list_eq. intros k.
  pose proof (length_q_list q Hb). pose proof (length_q_list q' Hb').
  destruct (decide (Z.of_nat k < q_len q)).
  - rewrite !q_list_lookup by (done || lia). auto.
  - rewrite !lookup_ge_None_2 by lia. done.
Qed.

Lemma q_nextwrite_eq q :
  queue_bounds q -> q_nextwrite q = (q_nextread q + q_len q) `mod` q_size q.
Proof.
  intros (? & ? & ? & _). unfold q_len. rewrite Zplus_mod_idemp_r.
  rewrite Z.mod_small by lia. lia.
Qed.

Lemma ring_inj s a i j :
  0 < s -> 0 <= i < s -> 0 <= j < s -> (a + i) `mod` s = (a + j) `mod` s -> i = j.
Proof.
  intros Hs Hi Hj E. assert ((i - j) `mod` s = 0) as Em.
  { replace (i - j) with ((a + i) - (a + j)) by lia.
    rewrite Zminus_mod, E, Z.sub_diag. by apply Z.mod_0_l; lia. }
  destruct (decide (j <= i)).
  - rewrite Z.mod_small in Em by lia. lia.
  - rewrite mod_wrap_down in Em by lia. lia.
Qed.

Lemma q_full_iff q :
  queue_bounds q ->
  ((q_nextwrite q + 1) `mod` q_size q =? q_nextread q) =
  (q_len q + 1 =? q_size q).
Proof.
  intros Hb. pose proof (q_len_range q Hb) as Hl.
  rewrite (q_nextwrite_eq q Hb). destruct Hb as (Hs & Hr & Hw & _).
  rewrite Zplus_mod_idemp_l. apply eq_true_iff_eq. rewrite !Z.eqb_eq. split.
  - intros E. destruct (decide (q_len q + 1 < q_size q)); [|lia].
    rewrite <- (Z.mod_small (q_nextread q) (q_size q)) in E at 2 by lia.
    replace (q_nextread q + q_len q + 1) with (q_nextread q + (q_len q + 1)) in E by lia.
    replace (q_nextread q) with (q_nextread q + 0) in E at 2 by lia.
    apply ring_inj in E; lia.
  - intros E. replace (q_nextread q + q_len q + 1) with (q_nextread q + 1 * q_size q) by lia.
    rewrite Z.mod_add by lia. apply Z.mod_small. lia.
Qed.

(** Storing into the free slot appends. *)
Lemma q_store_wp q (x : option V) h :
  queue_wf h q -> q_len q + 1 < q_size q ->
  exists q', q_store q x = Some q' /\ queue_wf h q' /\
    q_list q' = q_list q ++ [x] /\ q_len q' = q_len q + 1 /\
    q_size q' = q_size q /\ queue_blocks q' = queue_blocks q.
Proof.
  intros (Hok & Hown & Hb) Hn. pose proof (q_len_range q Hb) as Hlr.
  pose proof (q_nextwrite_eq q Hb) as Hw. pose proof Hb as (Hs & Hr & Hwr & Hlen).
  unfold q_store. rewrite bool_decide_eq_true_2 by lia. eexists. split; [done|].
  set (q' := Queue _ _ _ _ _ _).
  assert (queue_bounds q') as Hb'.
  { split_and!; simpl; try lia; [apply Z.mod_pos_bound; lia..|len]. }
  assert (q_len q' = q_len q + 1) as Hn'.
  { unfold q_len at 1; simpl. rewrite Hw, Zplus_mod_idemp_l, Zminus_mod_idemp_l.
    rewrite <- (Z.mod_small (q_len q + 1) (q_size q)) by lia. f_equal. lia. }
  split; [done|]. split; [|done].
  pose proof (length_q_list q Hb). pose proof (length_q_list q' Hb').
  apply list_eq. intros k. destruct (decide (Z.of_nat k < q_len q)) as [Hk|Hk].
  - rewrite lookup_app_l by lia. rewrite !q_list_lookup by (done || lia). simpl.
    apply list_lookup_insert_ne. rewrite Hw. intros E%Z2Nat.inj;
      [|apply Z.mod_pos_bound; lia..]. apply ring_inj in E; lia.
  - rewrite lookup_app_r by lia. destruct (decide (Z.of_nat k = q_len q)) as [Ek|Ek].
    + rewrite q_list_lookup by (done || lia). simpl.
      replace (k - length (q_list q))%nat with 0%nat by lia. rewrite Ek, <- Hw.
      apply list_lookup_insert_eq. lia.
    + rewrite !lookup_ge_None_2; [done| |lia]. simpl. lia.
Qed.

Lemma q_addtail_n_eq d q (x : option V) h :
  queue_bounds q ->
  q_addtail_n d q x h =
    if q_len q + 1 =? q_size q then
      match d with
      | O => None
      | S d =>
          '(result, q, h) ← q_grow (q_addtail_n d) q (s32 (q_size q + 1)) h;
          if result =? 0 then q ← q_store q x; Some (0, q, h)
          else Some (result, q, h)
      end
    else q ← q_store q x; Some (0, q, h).
Proof.
  intros Hb. rewrite <- (q_full_iff q Hb). destruct Hb as (Hs & _).
  assert ((0 <? q_size q) = true) as E by (apply Z.ltb_lt; lia).
  destruct d; unfold q_addtail_n; rewrite E; reflexivity.
Qed.

(** With a free slot to spare [q_addtail] does not allocate. *)
Lemma q_addtail_n_room d q (x : option V) h :
  queue_wf h q -> q_len q + 1 < q_size q ->
  exists q', q_addtail_n d q x h = Some (0, q', h) /\ queue_wf h q' /\
    q_list q' = q_list q ++ [x] /\ q_len q' = q_len q + 1 /\
    q_size q' = q_size q /\ queue_blocks q' = queue_blocks q.
Proof.
  intros Hwf Hn. pose proof Hwf as (_ & _ & Hb). pose proof Hb as (Hs & _).
  destruct (q_store_wp q x h Hwf Hn) as (q' & E & Hrest). exists q'.
  split; [|done]. rewrite (q_addtail_n_eq d q x h Hb).
  rewrite (proj2 (Z.eqb_neq _ _)) by lia. by rewrite E.
Qed.

(** Moving the old ring into a larger empty one keeps the list. *)
Lemma q_refill_wp qo fuel (j : nat) q h :
  queue_bounds qo -> queue_wf h q -> q_size qo <= q_size q ->
  Z.of_nat j <= q_len qo -> q_len qo - Z.of_nat j <= Z.of_nat fuel ->
  q_len q = Z.of_nat j -> q_list q = take j (q_list qo) ->
  exists q', q_refill (q_addtail_n 0) fuel
               ((q_nextread qo + Z.of_nat j) `mod` q_size qo)
               (q_nextwrite qo) (q_size qo) (q_data qo) q h = Some (q', h) /\
    queue_wf h q' /\ q_list q' = q_list qo /\ q_size q' = q_size q /\
    queue_blocks q' = queue_blocks q.
Proof.
  intros Hbo. pose proof (q_len_range qo Hbo) as Hlr.
  pose proof (q_nextwrite_eq qo Hbo) as Hw. pose proof (length_q_list qo Hbo) as Hll.
  pose proof Hbo as (Hso & Hro & _ & Hleno).
  revert j q. induction fuel as [|fuel IH]; intros j q Hwf Hs Hj Hf Hlq Hl; simpl.
  - assert (Z.of_nat j = q_len qo) as -> by lia. rewrite <- Hw, Z.eqb_refl.
    exists q. split_and!; try done. rewrite Hl, take_ge by lia. done.
  - destruct (_ =? _) eqn:E; boolify.
    + rewrite Hw in E. apply ring_inj in E; [|lia..].
      exists q. split_and!; try done. rewrite Hl, take_ge by lia. done.
    + assert (Z.of_nat j < q_len qo) as Hlt.
      { destruct (decide (Z.of_nat j = q_len qo)) as [Ej|]; [|lia].
        rewrite Ej in E. congruence. }
      destruct (lookup_lt_is_Some_2 (q_list qo) j) as [x Hx]; [lia|].
      pose proof Hx as Hx'. rewrite q_list_lookup in Hx' by (done || lia).
      rewrite Hx'. simpl.
      destruct (q_addtail_n_room 0 q x h Hwf) as (q1 & -> & Hwf1 & Hl1 & Hn1 & Hs1 & Hbl1);
        [lia|]. simpl. rewrite Zplus_mod_idemp_l.
      replace (q_nextread qo + Z.of_nat j + 1)
        with (q_nextread qo + Z.of_nat (S j)) by lia.
      destruct (IH (S j) q1 Hwf1) as (q2 & -> & ? & ? & ? & ?); try lia.
      { rewrite Hl1, Hl. symmetry. by apply take_S_r. }
      exists q2. split_and!; congruence || done.
Qed.

(** An allocation is refused. *)
Definition refused (h : Heap) : Prop :=
  exists sz h', 0 < sz /\ kmalloc_size sz /\ kmalloc sz h = Some (0, h').

Lemma q_grow_wp q t h :
  queue_wf h q -> q_size q <= max_qsize -> t <= max_qsize ->
  exists r q' h', q_grow (q_addtail_n 0) q t h = Some (r, q', h') /\
    queue_wf h' q' /\ q_list q' = q_list q /\
    same_others h (queue_blocks q) h' (queue_blocks q') /\
    (r = ENOMEM /\ q' = q /\ refused h \/
     r = 0 /\ Z.max t (q_size q) <= q_size q' <= Z.max (q_size q) (2 * t)).
Proof.
  intros Hwf Hqs Ht. pose proof Hwf as (Hok & Hown & Hb).
  pose proof Hb as (Hs & Hr & Hw & Hlen). unfold max_qsize in *. unfold q_grow.
  destruct (q_newsize_spec 32 (q_size q) t) as (ns & -> & ? & ? & ?);
    [unfold max_qsize; lia..|]. simpl. rewrite u32_id by (unfold is_u32; lia).
  destruct (kmalloc_total h (ns * 4) Hok) as [[p h1] Hk]; [unfold kmalloc_size; lia|].
  rewrite Hk. simpl. destruct (p =? 0) eqn:Ep; boolify; subst.
  { destruct (kmalloc_null h h1 (ns * 4)) as [Hok1 Hb1]; [done|unfold kmalloc_size; lia|done|].
    exists ENOMEM, q, h1. split_and!; eauto; [|by apply same_others_blocks|].
    2:{ left. split; [done|]. split; [done|]. exists (ns * 4), h1.
        split; [lia|]. split; [unfold kmalloc_size; lia|done]. }
    split; [done|]. split; [|done]. destruct Hown as [? Hl]. split; [done|].
    intros z. rewrite Hb1. auto. }
  destruct (owns_fresh h h1 (ns * 4) p (queue_blocks q)) as (Hok1 & Hown1 & Hso1);
    [done|unfold kmalloc_size; lia|done|done|done|].
  rewrite Z.div_mul by lia. set (q0 := Queue _ _ _ _ _ _).
  destruct (owns_free h1 (q_dataptr q) [p] [q_self q] Hok1) as (h2 & Hf & Hok2 & Hown2 & Hso2);
    [exact Hown1|].
  assert (queue_bounds q0) as Hb0 by (split_and!; simpl; try lia; len).
  assert (owns h1 (queue_blocks q0)) as Hown0.
  { destruct Hown1 as [Hnd Hl]. unfold queue_blocks in *; simpl in *. split.
    - apply list.NoDup_cons in Hnd as [? Hnd]. apply list.NoDup_cons in Hnd as [_ Hnd].
      apply list.NoDup_cons. split; [set_solver|done].
    - intros z Hz. apply Hl. set_solver. }
  destruct (q_refill_wp q (Z.to_nat (q_size q)) 0 q0 h1 Hb) as (q1 & Hrf & Hwf1 & Hl1 & Hs1 & Hbl1);
    try (simpl; lia).
  { by split_and!. }
  { pose proof (q_len_range q Hb). lia. }
  { pose proof (q_len_range q Hb). lia. }
  { unfold q_len; simpl. done. }
  { unfold q_list, q_len; simpl. by rewrite !take_0. }
  rewrite Z.add_0_r, Z.mod_small in Hrf by lia. rewrite Hrf. simpl. rewrite Hf. simpl.
  assert (queue_blocks q1 = [p; q_self q]) as Eq by (rewrite Hbl1; done).
  eexists _, _, _. split; [done|]. split_and?; try done.
  - destruct Hwf1 as (_ & _ & ?). split; [done|]. split; [by rewrite Eq|done].
  - rewrite Eq. eauto using same_others_trans.
  - right. rewrite Hs1. simpl. lia.
Qed.

Lemma q_addtail_wp q (x : V) h :
  queue_wf h q -> q_size q < max_qsize ->
  exists r q' h', q_addtail q x h = Some (r, q', h') /\ queue_wf h' q' /\
    same_others h (queue_blocks q) h' (queue_blocks q') /\
    (r = ENOMEM /\ q' = q /\ q_len q + 1 = q_size q /\ refused h \/
     r = 0 /\ q_list q' = q_list q ++ [Some x] /\
       (q_len q + 1 < q_size q /\ q_size q' = q_size q \/
        q_len q + 1 = q_size q /\ q_size q < q_size q')) /\
    q_size q <= q_size q' <= Z.max (q_size q) (2 * (q_len q + 2)).
Proof.
  intros Hwf Hsz. pose proof Hwf as (Hok & Hown & Hb). pose proof Hb as (Hs & _).
  pose proof (q_len_range q Hb). unfold max_qsize in Hsz.
  destruct (decide (q_len q + 1 < q_size q)) as [Hn|Hn].
  { destruct (q_addtail_n_room 1 q (Some x) h Hwf Hn) as (q' & E & ? & ? & ? & ? & Hbl).
    unfold q_addtail. rewrite E. eexists _, _, _. split_and!; eauto 6; [|lia|lia].
    rewrite Hbl. apply same_others_refl. }
  unfold q_addtail. rewrite (q_addtail_n_eq 1 q _ h Hb).
  rewrite (proj2 (Z.eqb_eq _ _)) by lia. rewrite s32_id by (unfold is_s32; lia).
  destruct (q_grow_wp q (q_size q + 1) h Hwf) as (r & q1 & h1 & -> & Hwf1 & Hl1 & Hso & Hr);
    [unfold max_qsize; lia..|]. simpl.
  destruct Hr as [(-> & -> & Hk)|[-> Hs1]]; simpl.
  { eexists _, _, _. split_and!; eauto; [|lia|lia]. left. split_and!; auto; lia. }
  assert (q_len q1 = q_len q) as Hn1.
  { pose proof Hwf1 as (_ & _ & Hb1). pose proof (length_q_list q Hb).
    pose proof (length_q_list q1 Hb1). pose proof (q_len_range q1 Hb1).
    rewrite Hl1 in *. lia. }
  destruct (q_store_wp q1 (Some x) h1 Hwf1) as (q2 & -> & Hwf2 & Hl2 & _ & Hs2 & Hbl2); [lia|].
  simpl. eexists _, _, _. split; [done|]. split_and?; [done|by rewrite Hbl2| |lia|lia].
  right. rewrite Hl2, Hl1. split; [done|]. split; [done|]. right. lia.
Qed.

Lemma q_remhead_wp q (x : option V) l h :
  queue_wf h q -> q_list q = x :: l ->
  exists q', q_remhead q = Some (x, q') /\ queue_wf h q' /\ q_list q' = l /\
    q_size q' = q_size q /\ queue_blocks q' = queue_blocks q.
Proof.
  intros (Hok & Hown & Hb) Hl. pose proof (q_len_range q Hb) as Hlr.
  pose proof Hb as (Hs & Hr & Hw & Hlen). pose proof (length_q_list q Hb) as Hll.
  rewrite Hl in Hll. simpl in Hll. unfold q_remhead.
  rewrite (proj2 (Z.ltb_lt _ _)) by lia.
  destruct (q_empty q) eqn:Ee.
  { apply (q_empty_iff q Hb) in Ee. congruence. } simpl.
  assert (q_list q !! 0%nat = Some x) as Hx by (rewrite Hl; done).
  rewrite q_list_lookup in Hx by (done || lia).
  rewrite Z.add_0_r, Z.mod_small in Hx by lia. rewrite Hx. simpl.
  eexists. split; [done|]. set (q' := Queue _ _ _ _ _ _).
  assert (queue_bounds q') as Hb'.
  { split_and!; simpl; try lia; apply Z.mod_pos_bound; lia. }
  assert (q_len q' = q_len q - 1) as Hn'.
  { unfold q_len at 1; simpl. rewrite Zminus_mod_idemp_r.
    rewrite (q_nextwrite_eq q Hb), Zminus_mod_idemp_l.
    rewrite <- (Z.mod_small (q_len q - 1) (q_size q)) by lia. f_equal. lia. }
  split; [done|]. split; [|done].
  assert (l = drop 1 (q_list q)) as -> by (rewrite Hl; done).
  pose proof (length_q_list q' Hb') as Hll'.
  apply list_eq. intros k. rewrite lookup_drop.
  destruct (decide (Z.of_nat k < q_len q')) as [Hk|Hk].
  - rewrite !q_list_lookup by (done || lia). simpl. f_equal. f_equal.
    rewrite Zplus_mod_idemp_l. f_equal. lia.
  - rewrite !lookup_ge_None_2; [done| |lia]. rewrite length_q_list by done. lia.
Qed.

Lemma q_remhead_empty q : q_empty q = true -> q_remhead q = None.
Proof. intros E. unfold q_remhead. rewrite E. by destruct (0 <? q_size q). Qed.
End lemmas.

(** ** First in, first out *)

(** What the clients of a queue do with it (thread/scheduler.c), and what they are
    told. *)
Inductive q_op (V : Type) :=
  | QAdd (x : V)
  | QRem
  | QEmpty
  | QPreallocate (n : Z).
Arguments QAdd {V} x.
Arguments QRem {V}.
Arguments QEmpty {V}.
Arguments QPreallocate {V} n.

Inductive q_out (V : Type) :=
  | Returned (r : Z)
  | Removed (x : option V)
  | Empty (b : bool).
Arguments Returned {V} r.
Arguments Removed {V} x.
Arguments Empty {V} b.

Section fifo.
  Context {Heap : Type} `{KmallocLaws Heap} {V : Type}.

Definition q_step (op : q_op V) (q : queue V) (h : Heap) : option (q_out V * queue V * Heap) :=
  match op with
  | QAdd x => '(r, q, h) ← q_addtail q x h; Some (Returned r, q, h)
  | QRem => '(x, q) ← q_remhead q; Some (Removed x, q, h)
  | QEmpty => Some (Empty (q_empty q), q, h)
  | QPreallocate n => '(r, q, h) ← q_preallocate q n h; Some (Returned r, q, h)
  end.

(** The answers of a sequence of calls, with the states after them, up to the first
    panic. *)
Fixpoint q_run (ops : list (q_op V)) (q : queue V) (h : Heap) : list (q_out V * queue V * Heap) :=
  match ops with
  | [] => []
  | op :: ops =>
      match q_step op q h with
      | Some (out, q, h) => (out, q, h) :: q_run ops q h
      | None => []
      end
  end.

(** What queue.h promises of one call, on the size of the ring and the contents of
    the queue.  A ring of [s] slots holds [s - 1] elements; only a call that needs more
    allocates, and it fails only when memory is refused, without a change. *)
Inductive q_does (no_mem : Prop) : Z * list (option V) -> q_op V -> q_out V -> Z * list (option V) -> Prop :=
  | does_add s l x :
      Z.of_nat (length l) + 1 < s -> q_does no_mem (s, l) (QAdd x) (Returned 0) (s, l ++ [Some x])
  | does_add_grow s s' l x :
      Z.of_nat (length l) + 1 = s -> s < s' ->
      q_does no_mem (s, l) (QAdd x) (Returned 0) (s', l ++ [Some x])
  | does_add_fail s l x :
      Z.of_nat (length l) + 1 = s -> no_mem -> q_does no_mem (s, l) (QAdd x) (Returned ENOMEM) (s, l)
  | does_rem s x l : q_does no_mem (s, x :: l) QRem (Removed x) (s, l)
  | does_empty s l : q_does no_mem (s, l) QEmpty (Empty (bool_decide (l = []))) (s, l)
  | does_room s l n : n <= s -> q_does no_mem (s, l) (QPreallocate n) (Returned 0) (s, l)
  | does_room_grow s s' l n :
      s < n <= s' -> q_does no_mem (s, l) (QPreallocate n) (Returned 0) (s', l)
  | does_room_fail s l n :
      s < n -> no_mem -> q_does no_mem (s, l) (QPreallocate n) (Returned ENOMEM) (s, l).

Definition q_view (q : queue V) : Z * list (option V) := (q_size q, q_list q).

(** A run that keeps these promises; only removing from an empty queue panics. *)
Inductive fifo_run : queue V -> Heap -> list (q_op V) -> list (q_out V * queue V * Heap) -> Prop :=
  | fifo_nil q h : fifo_run q h [] []
  | fifo_panic q h ops : q_list q = [] -> fifo_run q h (QRem :: ops) []
  | fifo_step q h op ops out q' h' tr :
      q_does (refused h) (q_view q) op out (q_view q') -> queue_wf h' q' ->
      same_others h (queue_blocks q) h' (queue_blocks q') ->
      fifo_run q' h' ops tr -> fifo_run q h (op :: ops) ((out, q', h') :: tr).

(** What a run took out, what it added, and the contents at its end. *)
Fixpoint q_taken (tr : list (q_out V * queue V * Heap)) : list (option V) :=
  match tr with
  | [] => []
  | (Removed x, _, _) :: tr => x :: q_taken tr
  | _ :: tr => q_taken tr
  end.
Fixpoint q_added (ops : list (q_op V)) (tr : list (q_out V * queue V * Heap)) : list (option V) :=
  match ops, tr with
  | QAdd x :: ops, (Returned r, _, _) :: tr => (if r =? 0 then [Some x] else []) ++ q_added ops tr
  | _ :: ops, _ :: tr => q_added ops tr
  | _, _ => []
  end.
Fixpoint q_inside (q : queue V) (tr : list (q_out V * queue V * Heap)) : list (option V) :=
  match tr with [] => q_list q | (_, q, _) :: tr => q_inside q tr end.

(** Sizes for which no counter overflows along the run. *)
Definition q_op_small (op : q_op V) : Prop :=
  match op with QPreallocate n => n <= 2 ^ 26 | _ => True end.

Lemma q_step_does op q h :
  queue_wf h q -> q_size q < max_qsize -> q_op_small op ->
  match q_step op q h with
  | None => op = QRem /\ q_list q = []
  | Some (out, q', h') =>
      q_does (refused h) (q_view q) op out (q_view q') /\ queue_wf h' q' /\
      same_others h (queue_blocks q) h' (queue_blocks q') /\
      q_size q' <= Z.max (q_size q) (2 * Z.max (q_len q + 2) (2 ^ 26))
  end.
Proof.
  intros Hwf Hs Hop. pose proof Hwf as (_ & _ & Hb). pose proof (length_q_list q Hb) as Hl.
  pose proof (q_len_range q Hb) as Hr. unfold q_view. destruct op as [x| | |n]; simpl.
  - destruct (q_addtail_wp q x h Hwf Hs) as (r & q1 & h1 & -> & Hwf1 & Hso & Ho & Hs1). simpl.
    split; [|split; [done|split; [done|lia]]].
    destruct Ho as [(-> & -> & He & Hm)|(-> & -> & [[He ->]|[He ?]])].
    + apply does_add_fail; [lia|done].
    + apply does_add. lia.
    + apply does_add_grow; lia.
  - destruct (q_list q) as [|y l] eqn:El.
    { rewrite q_remhead_empty; [done|]. by apply (q_empty_iff q Hb). }
    destruct (q_remhead_wp q y l h Hwf El) as (q1 & -> & Hwf1 & Hl1 & Hs1 & Hbl1). simpl.
    rewrite Hs1, Hl1, Hbl1. split; [constructor|]. split; [done|].
    split; [apply same_others_refl|lia].
  - replace (q_empty q) with (bool_decide (q_list q = [])).
    { split; [constructor|]. split; [done|]. split; [apply same_others_refl|lia]. }
    apply eq_bool_prop_intro. rewrite !Is_true_true, bool_decide_eq_true.
    symmetry. apply (q_empty_iff q Hb).
  - unfold q_preallocate. pose proof Hb as (Hs0 & _). rewrite (proj2 (Z.ltb_lt 0 _)) by lia.
    simpl in Hop. destruct (q_size q <? n) eqn:Eg; boolify; simpl.
    + destruct (q_grow_wp q n h Hwf) as (r & q1 & h1 & -> & Hwf1 & Hl1 & Hso & Ho);
        [unfold max_qsize in *; lia..|]. simpl. rewrite Hl1.
      destruct Ho as [(-> & -> & Hm)|[-> Hs1]]; (split; [|split; [done|split; [done|lia]]]).
      * by apply does_room_fail.
      * apply does_room_grow. lia.
    + split; [by apply does_room|]. split; [done|]. split; [apply same_others_refl|lia].
Qed.

Lemma q_does_length no_mem st op out st' :
  q_does no_mem st op out st' -> (length st'.2 <= S (length st.2))%nat.
Proof. destruct 1; simpl; rewrite ?length_app; simpl; lia. Qed.

Lemma fifo_run_order q h ops tr :
  fifo_run q h ops tr -> q_taken tr ++ q_inside q tr = q_list q ++ q_added ops tr.
Proof.
  induction 1 as [q h|q h ops El|q h op ops out q' h' tr Hd _ _ _ IH]; simpl.
  - by rewrite app_nil_r.
  - by rewrite El.
  - unfold q_view in Hd. inversion Hd; subst; simpl in *; rewrite ?IH; try congruence.
    all: match goal with E : _ = q_list _ |- _ => try rewrite <- E end; simpl; rewrite <- ?app_assoc; done.
Qed.

(** C34: A queue does what queue.h says, for any sequence of calls and whichever
    allocations fail, as long as fewer than 2^26 elements and slots are asked for.
    Removing from an empty queue panics, and nothing else does.  Adding and making
    room return 0 when the ring is large enough, and fail otherwise only when memory is
    refused, with ENOMEM and the queue as it was; [q_empty] tells whether the queue is
    empty.  The queue stays well formed and no other block of the heap is touched.
    First in, first out: what came out followed by what is still inside is what was
    inside at the start followed by what was successfully added, in order. *)
Theorem queue_is_fifo (ops : list (q_op V)) (q : queue V) (h : Heap) :
  queue_wf h q -> q_size q <= 2 ^ 27 + 2 -> Forall q_op_small ops ->
  Z.of_nat (length (q_list q)) + Z.of_nat (length ops) <= 2 ^ 26 - 1 ->
  fifo_run q h ops (q_run ops q h) /\
  q_taken (q_run ops q h) ++ q_inside q (q_run ops q h) = q_list q ++ q_added ops (q_run ops q h).
Proof.
  intros Hwf Hs Hsm Hn. enough (fifo_run q h ops (q_run ops q h)) by eauto using fifo_run_order.
  revert q h Hwf Hs Hn. induction Hsm as [|op ops Hop Hsm IH]; intros q h Hwf Hs Hn; [constructor|].
  cbn [q_run]. cbn [length] in Hn. pose proof Hwf as (_ & _ & Hb). pose proof (length_q_list q Hb).
  pose proof (q_step_does op q h Hwf ltac:(unfold max_qsize; lia) Hop) as Hst.
  destruct (q_step op q h) as [[[out q'] h']|].
  - destruct Hst as (Hd & Hwf' & Hso & Hsz). eapply fifo_step; [done..|].
    apply IH; [done|pose proof (q_len_range q Hb); lia|].
    pose proof (q_does_length _ _ _ _ _ Hd). simpl in *. lia.
  - destruct Hst as [-> El]. by apply fifo_panic.
Qed.

(** [q_preallocate(q, n)] makes room for [n - 1] elements, not [n]: a ring
    of [n] slots holding [n - 1] elements is full, so adding the [n]-th calls
    [kmalloc] and fails when there is no memory. *)
Theorem q_preallocate_one_short (q q' : queue V) (h h' h'' : Heap) n (x : V) :
  queue_wf h q -> q_size q = n -> n < max_qsize -> q_preallocate q n h = Some (0, q', h') ->
  Z.of_nat (length (q_list q')) = n - 1 -> kmalloc (2 * n * 4) h' = Some (0, h'') ->
  q_addtail q' x h' = Some (ENOMEM, q', h'').
Proof.
  intros Hwf Hn Hmx Hp Hl Hk. pose proof Hwf as (_ & _ & Hb). pose proof Hb as (Hs & _).
  unfold q_preallocate in Hp. rewrite (proj2 (Z.ltb_lt 0 _)) in Hp by lia.
  rewrite (proj2 (Z.ltb_ge _ _)) in Hp by lia. simplify_eq.
  pose proof (length_q_list q' Hb). pose proof (q_len_range q' Hb).
  unfold max_qsize in *. unfold q_addtail. rewrite (q_addtail_n_eq 1 q' _ _ Hb).
  rewrite (proj2 (Z.eqb_eq _ _)) by lia. rewrite s32_id by (unfold is_s32; lia).
  unfold q_grow.
  rewrite q_newsize_once by (unfold max_qsize; lia). simpl. rewrite u32_id by (unfold is_u32; lia). by rewrite Hk.
Qed.
End fifo.

Module QueueExamples.
Import CountdownHeap.

(** The scheduler's run queue as [q_create(32)] makes it, with the last
    allocation used up. *)
Definition rq (size : Z) (l : list (option Z)) : queue Z :=
  {| q_self := 4; q_size := size; q_nextwrite := Z.of_nat (length l);
     q_nextread := 0; q_dataptr := 24;
     q_data := l ++ replicate (Z.to_nat size - length l) None |}.
Definition hq (n : nat) (sz : Z) : heap :=
  {| next := 1000; left := n; used := {[4 := 16; 24 := sz]} |}.

Lemma rq_wf n size sz l :
  0 < size <= 100 -> 0 <= sz <= 500 -> (length l < Z.to_nat size)%nat ->
  queue_wf (hq n sz) (rq size l).
Proof.
  intros Hs Hz Hl. split; [|split].
  - split_and!; simpl; [lia|lia|done|..].
    + intros p m [[<- <-]|[? [<- <-]%lookup_singleton_Some]]%lookup_insert_Some; (split; [done|lia]).
    + intros p q m k [[<- <-]|[? [<- <-]%lookup_singleton_Some]]%lookup_insert_Some
        [[<- <-]|[? [<- <-]%lookup_singleton_Some]]%lookup_insert_Some; lia.
  - split; [apply list.NoDup_cons; split; [set_solver|apply NoDup_singleton]|].
    intros p [->| ->%list_elem_of_singleton]%elem_of_cons; by eexists.
  - split_and!; simpl; try lia. len.
Qed.
End QueueExamples.
Import QueueExamples.

Lemma queue_is_fifo_witness :
  let ops := [QAdd 5; QAdd 6; QRem; QAdd 7; QEmpty; QPreallocate 9; QRem] in
  let q := rq 4 [Some 3] in let tr := q_run ops q (hq 0 16) in
  fifo_run q (hq 0 16) ops tr /\ length tr = 7%nat /\
  q_taken tr ++ q_inside q tr = q_list q ++ q_added ops tr.
Proof.
  destruct (queue_is_fifo [QAdd 5; QAdd 6; QRem; QAdd 7; QEmpty; QPreallocate 9; QRem]
    (rq 4 [Some 3]) (hq 0 16)) as [Hr Ho];
    [apply rq_wf; simpl; lia|simpl; lia| |vm_compute; discriminate|].
  - repeat constructor; simpl; lia.
  - split; [exact Hr|]. split; [vm_compute; reflexivity|exact Ho].
Defined.

(** 32 runnable threads do not fit the run queue that was asked to hold 32. *)
Lemma q_preallocate_one_short_witness :
  q_addtail (rq 32 (replicate 31 (Some 4))) 9 (hq 0 128) =
    Some (ENOMEM, rq 32 (replicate 31 (Some 4)), hq 0 128).
Proof.
  apply (q_preallocate_one_short (rq 32 (replicate 31 (Some 4))) _ (hq 0 128) _ _ 32);
    [apply rq_wf; [lia|lia|by apply Nat.ltb_lt]|done|done|
     vm_compute; reflexivity|vm_compute; reflexivity|done].
Defined.
