(* ===== verification/Bitmap.v ===== *)
(** * Arrays of bits (kern/lib/bitmap.c)

    A [struct bitmap] is the record [bitmap], its bits kept in bytes as in the
    source.  [bit] reads the bit of an index; the invariant [bitmap_wf] says
    that the bytes are in range and that the bits beyond [nbits] in the last
    byte are set, which is what keeps [bitmap_alloc] from ever handing one
    out. *)

From stdpp Require Import base option list gmap numbers.
From S2P Require Import Prelude Kmem.

Definition BITS_PER_WORD : Z := 8.
Definition WORD_ALLBITS : Z := 255.

(** [DIVROUNDUP] of kern/include/lib.h, on 32-bit words. *)
Definition DIVROUNDUP (a b : Z) : Z := u32 (u32 (a + b) - 1) / b.

Record bitmap := Bitmap {
  b_self : Z;                       (* where the struct lives *)
  nbits : Z;
  b_vptr : Z;                       (* the pointer [v] *)
  b_v : list Z;                     (* and the bytes it points to *)
}.

Definition set_v (b : bitmap) (v : list Z) : bitmap :=
  {| b_self := b_self b; nbits := nbits b; b_vptr := b_vptr b; b_v := v |}.

(** [for (j=overbits; j<BITS_PER_WORD; j++) b->v[ix] |= ((WORD_TYPE)1 << j);] *)
Fixpoint mark_overbits (n : nat) (j w : Z) : Z :=
  match n with
  | O => w
  | S n => mark_overbits n (j + 1) (u8 (Z.lor w (Z.shiftl 1 j)))
  end.

Definition bitmap_create {Heap} `{!Kmalloc Heap} (n : Z) (h : Heap) :
    option (option bitmap * Heap) :=
  let words := DIVROUNDUP n BITS_PER_WORD in
  '(b, h) ← kmalloc 8 h;
  if b =? 0 then Some (None, h) else
  '(p, h) ← kmalloc words h;
  if p =? 0 then h ← kfree b h; Some (None, h) else
  let v := replicate (Z.to_nat words) 0 in
  if n / BITS_PER_WORD <? words then
    let ix := words - 1 in
    let overbits := n - ix * BITS_PER_WORD in
    ASSERT n / BITS_PER_WORD =? words - 1 ;;
    ASSERT (0 <? overbits) && (overbits <? BITS_PER_WORD) ;;
    w ← v !! Z.to_nat ix;
    let w := mark_overbits (Z.to_nat (BITS_PER_WORD - overbits)) overbits w in
    Some (Some {| b_self := b; nbits := n; b_vptr := p;
                  b_v := <[Z.to_nat ix := w]> v |}, h)
  else Some (Some {| b_self := b; nbits := n; b_vptr := p; b_v := v |}, h).

Definition bitmap_getdata (b : bitmap) : list Z := b_v b.

(** The inner loop of [bitmap_alloc] over the bits of one byte. *)
Fixpoint find_clear (n : nat) (offset w : Z) : option Z :=
  match n with
  | O => None                                          (* assert(0) *)
  | S n =>
      let mask := u8 (Z.shiftl 1 offset) in
      if Z.land w mask =? 0 then Some offset else find_clear n (offset + 1) w
  end.

(** The outer loop: the first byte that is not full, and its clear bit. *)
Fixpoint bitmap_scan (n ix : nat) (v : list Z) : option (option (nat * Z)) :=
  match n with
  | O => Some None
  | S n =>
      w ← v !! ix;
      if w =? WORD_ALLBITS then bitmap_scan n (S ix) v
      else off ← find_clear 8 0 w; Some (Some (ix, off))
  end.

(** Returns the error code and, on success, the index. *)
Definition bitmap_alloc (b : bitmap) : option (Z * option Z * bitmap) :=
  let maxix := DIVROUNDUP (nbits b) BITS_PER_WORD in
  r ← bitmap_scan (Z.to_nat maxix) 0 (b_v b);
  match r with
  | None => Some (ENOSPC, None, b)
  | Some (ix, offset) =>
      w ← b_v b !! ix;
      let mask := u8 (Z.shiftl 1 offset) in
      let index := u32 (Z.of_nat ix * BITS_PER_WORD + offset) in
      ASSERT index <? nbits b ;;
      Some (0, Some index, set_v b (<[ix := Z.lor w mask]> (b_v b)))
  end.

Definition bitmap_translate (bitno : Z) : nat * Z :=
  (Z.to_nat (bitno / BITS_PER_WORD),
   u8 (Z.shiftl 1 (bitno `mod` BITS_PER_WORD))).

Definition bitmap_mark (b : bitmap) (index : Z) : option bitmap :=
  ASSERT index <? nbits b ;;
  let '(ix, mask) := bitmap_translate index in
  w ← b_v b !! ix;
  ASSERT Z.land w mask =? 0 ;;
  Some (set_v b (<[ix := Z.lor w mask]> (b_v b))).

Definition bitmap_unmark (b : bitmap) (index : Z) : option bitmap :=
  ASSERT index <? nbits b ;;
  let '(ix, mask) := bitmap_translate index in
  w ← b_v b !! ix;
  ASSERT negb (Z.land w mask =? 0) ;;
  Some (set_v b (<[ix := u8 (Z.land w (Z.lnot mask))]> (b_v b))).

Definition bitmap_isset (b : bitmap) (index : Z) : option Z :=
  let '(ix, mask) := bitmap_translate index in
  w ← b_v b !! ix;
  Some (Z.land w mask).

Definition bitmap_destroy {Heap} `{!Kmalloc Heap} (b : bitmap) (h : Heap) : option Heap :=
  h ← kfree (b_vptr b) h;
  kfree (b_self b) h.

(** ** The bits, and the invariant *)

Definition bit (b : bitmap) (i : Z) : bool :=
  match b_v b !! Z.to_nat (i / 8) with
  | Some w => Z.testbit w (i `mod` 8)
  | None => false
  end.

Definition bitmap_wf (b : bitmap) : Prop :=
  0 <= nbits b <= 2 ^ 32 - 8 /\
  length (b_v b) = Z.to_nat ((nbits b + 7) / 8) /\
  Forall is_byte (b_v b) /\
  (forall i, nbits b <= i < 8 * Z.of_nat (length (b_v b)) -> bit b i = true).

(** ** Bits of a byte *)

Lemma mask_testbit k i :
  0 <= k < 8 -> 0 <= i -> Z.testbit (u8 (Z.shiftl 1 k)) i = (i =? k).
Proof.
  intros Hk Hi. unfold u8. rewrite <- Z.land_ones, Z.land_spec by lia.
  rewrite Z.shiftl_1_l, Z.pow2_bits_eqb by lia. rewrite Z.eqb_sym.
  destruct (i =? k) eqn:E; boolify; [subst|done].
  rewrite Z.ones_spec_low by lia. done.
Qed.

Lemma land_mask w k :
  0 <= k < 8 -> (Z.land w (u8 (Z.shiftl 1 k)) =? 0) = negb (Z.testbit w k).
Proof.
  intros Hk. apply eq_true_iff_eq. rewrite Z.eqb_eq, negb_true_iff. split.
  - intros E. apply (f_equal (fun z => Z.testbit z k)) in E.
    rewrite Z.land_spec, mask_testbit, Z.eqb_refl, Z.bits_0 in E by lia.
    by destruct (Z.testbit w k).
  - intros E. apply Z.bits_inj'. intros i Hi.
    rewrite Z.land_spec, mask_testbit, Z.bits_0 by lia.
    destruct (i =? k) eqn:Ei; boolify; [subst; by rewrite E|by rewrite andb_false_r].
Qed.

Lemma lor_mask_testbit w k i :
  0 <= k < 8 -> 0 <= i ->
  Z.testbit (Z.lor w (u8 (Z.shiftl 1 k))) i = (i =? k) || Z.testbit w i.
Proof. intros ??. rewrite Z.lor_spec, mask_testbit by lia. apply orb_comm. Qed.

Lemma byte_testbit_high w i : is_byte w -> 8 <= i -> Z.testbit w i = false.
Proof.
  intros Hw Hi. unfold is_byte in Hw. destruct (decide (w = 0)) as [->|].
  - apply Z.bits_0.
  - apply Z.bits_above_log2; [lia|]. apply Z.lt_le_trans with 8; [|lia].
    apply Z.log2_lt_pow2; lia.
Qed.

Lemma byte_of_bits w : 0 <= w -> (forall i, 8 <= i -> Z.testbit w i = false) -> is_byte w.
Proof.
  intros Hw Hb. unfold is_byte. split; [done|].
  destruct (Z.lt_ge_cases w 256) as [|Hge]; [done|exfalso].
  assert (8 <= Z.log2 w) by (apply Z.log2_le_pow2; lia).
  specialize (Hb (Z.log2 w)). rewrite Z.bit_log2 in Hb by lia. by discriminate Hb.
Qed.

Lemma mask_byte k : is_byte (u8 (Z.shiftl 1 k)).
Proof. unfold is_byte, u8. apply Z.mod_pos_bound. lia. Qed.

Lemma lor_mask_byte w k : is_byte w -> is_byte (Z.lor w (u8 (Z.shiftl 1 k))).
Proof.
  intros Hw. pose proof (mask_byte k) as Hm. apply byte_of_bits.
  - apply Z.lor_nonneg. destruct Hw, Hm. done.
  - intros i Hi. by rewrite Z.lor_spec, !byte_testbit_high by done.
Qed.

Lemma clear_mask_testbit w k i :
  0 <= k < 8 -> 0 <= i < 8 ->
  Z.testbit (u8 (Z.land w (Z.lnot (u8 (Z.shiftl 1 k))))) i =
  negb (i =? k) && Z.testbit w i.
Proof.
  intros Hk Hi. unfold u8 at 1. rewrite <- Z.land_ones, !Z.land_spec by lia.
  rewrite Z.ones_spec_low, Z.lnot_spec, mask_testbit by lia.
  rewrite andb_true_r. apply andb_comm.
Qed.

Lemma byte_full w : is_byte w -> (forall i, 0 <= i < 8 -> Z.testbit w i = true) -> w = 255.
Proof.
  intros Hw Hb. apply Z.bits_inj'. intros i Hi. change 255 with (Z.ones 8).
  destruct (decide (i < 8)).
  - rewrite Hb, Z.ones_spec_low by lia. done.
  - rewrite byte_testbit_high, Z.ones_spec_high by (done || lia). done.
Qed.

Lemma find_clear_spec n off w :
  0 <= off -> off + Z.of_nat n = 8 ->
  match find_clear n off w with
  | Some k => off <= k < 8 /\ Z.testbit w k = false /\
              forall i, off <= i < k -> Z.testbit w i = true
  | None => forall i, off <= i < 8 -> Z.testbit w i = true
  end.
Proof.
  revert off. induction n as [|n IH]; intros off Ho Hn; simpl.
  { intros i Hi. lia. }
  rewrite land_mask by lia. destruct (Z.testbit w off) eqn:E; simpl.
  - specialize (IH (off + 1) ltac:(lia) ltac:(lia)).
    destruct (find_clear n (off + 1) w) as [k|].
    + destruct IH as (? & ? & IH). split_and!; [lia|lia|done|]. intros i Hi.
      destruct (decide (i = off)) as [->|]; [done|]. apply IH. lia.
    + intros i Hi. destruct (decide (i = off)) as [->|]; [done|]. apply IH. lia.
  - split_and!; [lia|lia|done|]. intros i Hi. lia.
Qed.

#[local] Arguments find_clear : simpl never.

Lemma bitmap_scan_spec n ix v :
  Forall is_byte v -> (ix + n = length v)%nat ->
  exists r, bitmap_scan n ix v = Some r /\
    match r with
    | None => forall j, (ix <= j < length v)%nat -> v !! j = Some 255
    | Some (k, off) => (ix <= k)%nat /\ 0 <= off < 8 /\
        (exists w, v !! k = Some w /\ Z.testbit w off = false /\
                   forall i, 0 <= i < off -> Z.testbit w i = true) /\
        forall j, (ix <= j < k)%nat -> v !! j = Some 255
    end.
Proof.
  intros Hv. revert ix. induction n as [|n IH]; intros ix Hn; simpl.
  { eexists. split; [done|]. simpl. lia. }
  destruct (lookup_lt_is_Some_2 v ix) as [w Hw]; [lia|]. rewrite Hw. simpl.
  pose proof (Forall_lookup_1 _ _ _ _ Hv Hw) as Hb. simpl in Hb.
  destruct (w =? WORD_ALLBITS) eqn:E; boolify.
  - destruct (IH (S ix)) as ([[k off]|] & -> & Hr); [lia|..]; eexists; (split; [done|]); simpl in *.
    + destruct Hr as (? & ? & ? & Hr). split_and!; [lia|lia|lia|done|].
      intros j Hj. destruct (decide (j = ix)) as [->|]; [by rewrite Hw, E|]. apply Hr. lia.
    + intros j Hj. destruct (decide (j = ix)) as [->|]; [by rewrite Hw, E|]. apply Hr. lia.
  - pose proof (find_clear_spec 8 0 w ltac:(lia) ltac:(lia)) as Hf.
    destruct (find_clear 8 0 w) as [k|] eqn:Ef.
    + eexists. split; [done|]. destruct Hf as (? & ? & ?). split_and!; [lia|lia|lia|by exists w|].
      intros j Hj. lia.
    + exfalso. apply E. by apply byte_full.
Qed.

(** ** Lemmas on the bits of a bitmap *)

Lemma DIVROUNDUP_8 n : 0 <= n <= 2 ^ 32 - 8 -> DIVROUNDUP n 8 = (n + 7) / 8.
Proof.
  intros Hn. unfold DIVROUNDUP. destruct (decide (n + 8 < 2 ^ 32)) as [Hl|Hl].
  - rewrite !u32_id; [f_equal; lia|unfold is_u32; lia..|].
    rewrite u32_id; unfold is_u32; lia.
  - assert (n = 2 ^ 32 - 8) as -> by lia. done.
Qed.

Lemma bit_word b (k : nat) off w :
  b_v b !! k = Some w -> 0 <= off < 8 -> bit b (8 * Z.of_nat k + off) = Z.testbit w off.
Proof.
  intros Hk Ho. unfold bit.
  replace ((8 * Z.of_nat k + off) / 8) with (Z.of_nat k) by zdm.
  replace ((8 * Z.of_nat k + off) `mod` 8) with off by zdm.
  by rewrite Nat2Z.id, Hk.
Qed.

(** Every index is a byte and an offset within it. *)
Lemma index_split i : 0 <= i -> i = 8 * Z.of_nat (Z.to_nat (i / 8)) + i `mod` 8 /\ 0 <= i `mod` 8 < 8.
Proof. intros Hi. split; [|zdm]. rewrite Z2Nat.id; zdm. Qed.

Lemma index_word b i :
  bitmap_wf b -> 0 <= i < nbits b ->
  exists w, b_v b !! Z.to_nat (i / 8) = Some w /\ is_byte w.
Proof.
  intros (Hn & Hl & Hb & _) Hi.
  destruct (lookup_lt_is_Some_2 (b_v b) (Z.to_nat (i / 8))) as [w Hw].
  { rewrite Hl. apply Z2Nat.inj_lt; zdm. }
  exists w. split; [done|]. exact (Forall_lookup_1 _ _ _ _ Hb Hw).
Qed.

(** Changing one bit of a byte changes one bit of the map. *)
Lemma bit_update b (k : nat) off w w' (f : bool) j :
  b_v b !! k = Some w -> 0 <= off < 8 -> 0 <= j ->
  (forall i, 0 <= i < 8 -> Z.testbit w' i = if i =? off then f else Z.testbit w i) ->
  bit (set_v b (<[k := w']> (b_v b))) j =
  if j =? 8 * Z.of_nat k + off then f else bit b j.
Proof.
  intros Hk Ho Hj Hw. unfold bit, set_v; simpl.
  pose proof (index_split j Hj) as [Ej Hm].
  destruct (decide (Z.to_nat (j / 8) = k)) as [<-|Hne].
  - rewrite list_lookup_insert_eq by (by eapply lookup_lt_Some). rewrite Hk, Hw by done.
    destruct (j `mod` 8 =? off) eqn:E1, (j =? _) eqn:E2; boolify; try done; lia.
  - rewrite list_lookup_insert_ne by done.
    destruct (j =? _) eqn:E2; boolify; [|done]. exfalso. apply Hne. subst.
    replace ((8 * Z.of_nat k + off) / 8) with (Z.of_nat k) by zdm. lia.
Qed.

Lemma bitmap_wf_update b (k : nat) w' :
  bitmap_wf b -> is_byte w' -> (k < length (b_v b))%nat ->
  (forall i, nbits b <= i < 8 * Z.of_nat (length (b_v b)) ->
             bit (set_v b (<[k := w']> (b_v b))) i = true) ->
  bitmap_wf (set_v b (<[k := w']> (b_v b))).
Proof.
  intros (Hn & Hl & Hb & Hov) Hw Hk Hbits. split_and!; simpl; [lia|lia|len|..].
  - by apply Forall_insert.
  - intros i Hi. apply Hbits. len.
Qed.

(** Setting a clear bit. *)
Lemma set_bit_wp b i w :
  bitmap_wf b -> 0 <= i < nbits b -> b_v b !! Z.to_nat (i / 8) = Some w ->
  let b' := set_v b (<[Z.to_nat (i / 8) := Z.lor w (u8 (Z.shiftl 1 (i `mod` 8)))]> (b_v b)) in
  bitmap_wf b' /\ forall j, 0 <= j -> bit b' j = (j =? i) || bit b j.
Proof.
  intros Hwf Hi Hw b'. destruct (index_split i ltac:(lia)) as [Ei Hm].
  assert (forall j, 0 <= j -> bit b' j = (j =? i) || bit b j) as Hbits.
  { intros j Hj. unfold b'. rewrite (bit_update b _ (i `mod` 8) w _ true); [|done|done|done|].
    - rewrite <- Ei. by destruct (j =? i).
    - intros x Hx. rewrite lor_mask_testbit by lia. by destruct (x =? i `mod` 8). }
  split; [|done]. pose proof Hwf as (Hn & Hl & Hb & Hov).
  apply bitmap_wf_update; [done| |by eapply lookup_lt_Some|].
  - apply lor_mask_byte. exact (Forall_lookup_1 _ _ _ _ Hb Hw).
  - intros j Hj. fold b'. rewrite Hbits by lia. rewrite Hov by done. apply orb_true_r.
Qed.

(** Clearing a bit. *)
Lemma clear_bit_wp b i w :
  bitmap_wf b -> 0 <= i < nbits b -> b_v b !! Z.to_nat (i / 8) = Some w ->
  let b' := set_v b (<[Z.to_nat (i / 8) :=
              u8 (Z.land w (Z.lnot (u8 (Z.shiftl 1 (i `mod` 8)))))]> (b_v b)) in
  bitmap_wf b' /\ forall j, 0 <= j -> bit b' j = negb (j =? i) && bit b j.
Proof.
  intros Hwf Hi Hw b'. destruct (index_split i ltac:(lia)) as [Ei Hm].
  assert (forall j, 0 <= j -> bit b' j = negb (j =? i) && bit b j) as Hbits.
  { intros j Hj. unfold b'. rewrite (bit_update b _ (i `mod` 8) w _ false); [|done|done|done|].
    - rewrite <- Ei. by destruct (j =? i).
    - intros x Hx. rewrite clear_mask_testbit by lia. by destruct (x =? i `mod` 8). }
  split; [|done]. pose proof Hwf as (Hn & Hl & Hb & Hov).
  apply bitmap_wf_update; [done| |by eapply lookup_lt_Some|].
  - unfold is_byte, u8 at 1. apply Z.mod_pos_bound. lia.
  - intros j Hj. fold b'. rewrite Hbits by lia. rewrite Hov by done.
    rewrite (proj2 (Z.eqb_neq j i)) by lia. done.
Qed.

(** The byte and the mask of an index in range. *)
Lemma bitmap_translate_wp b i :
  bitmap_wf b -> 0 <= i < nbits b ->
  exists w, bitmap_translate i = (Z.to_nat (i / 8), u8 (Z.shiftl 1 (i `mod` 8))) /\
    b_v b !! Z.to_nat (i / 8) = Some w /\
    (Z.land w (u8 (Z.shiftl 1 (i `mod` 8))) =? 0) = negb (bit b i).
Proof.
  intros Hwf Hi. destruct (index_word b i Hwf Hi) as (w & Hw & _).
  exists w. split_and!; [done|done|]. unfold bit. rewrite Hw. apply land_mask. zdm.
Qed.

Lemma mark_overbits_spec n j w :
  0 <= j -> j + Z.of_nat n = 8 -> is_byte w ->
  is_byte (mark_overbits n j w) /\
  forall i, 0 <= i < 8 -> Z.testbit (mark_overbits n j w) i = (j <=? i) || Z.testbit w i.
Proof.
  revert j w. induction n as [|n IH]; intros j w Hj Hn Hw; simpl.
  { split; [done|]. intros i Hi. rewrite (proj2 (Z.leb_gt j i)) by lia. done. }
  assert (u8 (Z.lor w (Z.shiftl 1 j)) = Z.lor w (u8 (Z.shiftl 1 j))) as ->.
  { apply Z.bits_inj'. intros i Hi. unfold u8. rewrite <- !Z.land_ones by lia.
    rewrite !Z.land_spec, !Z.lor_spec, Z.land_spec.
    destruct (decide (i < 8)).
    - rewrite Z.ones_spec_low by lia. by rewrite !andb_true_r.
    - rewrite Z.ones_spec_high by lia. rewrite !andb_false_r, orb_false_r.
      by rewrite byte_testbit_high by (done || lia). }
  destruct (IH (j + 1) (Z.lor w (u8 (Z.shiftl 1 j)))) as [Hb Ht];
    [lia|lia|by apply lor_mask_byte|].
  split; [done|]. intros i Hi. rewrite Ht, lor_mask_testbit by lia.
  destruct (i =? j) eqn:E; boolify.
  - subst. rewrite (proj2 (Z.leb_le j j)) by lia. by rewrite orb_true_r.
  - f_equal. apply eq_true_iff_eq. rewrite !Z.leb_le. lia.
Qed.

(** A bitmap is determined by its bits. *)
Lemma bitmap_ext b b' :
  bitmap_wf b -> bitmap_wf b' ->
  b_self b' = b_self b -> nbits b' = nbits b -> b_vptr b' = b_vptr b ->
  (forall j, 0 <= j -> bit b' j = bit b j) -> b' = b.
Proof.
  intros (_ & Hl & Hb & _) (_ & Hl' & Hb' & _) Hs Hn Hp Hbits.
  destruct b as [s n p v], b' as [s' n' p' v']; simpl in *. subst. f_equal.
  apply list_eq. intros k.
  destruct (v !! k) as [w|] eqn:Ek.
  2:{ apply lookup_ge_None. apply lookup_ge_None in Ek. lia. }
  destruct (lookup_lt_is_Some_2 v' k) as [w' Ek'].
  { apply lookup_lt_Some in Ek. lia. }
  rewrite Ek'. f_equal. pose proof (Forall_lookup_1 _ _ _ _ Hb Ek) as Hw.
  pose proof (Forall_lookup_1 _ _ _ _ Hb' Ek') as Hw'.
  apply Z.bits_inj'. intros x Hx. destruct (decide (x < 8)).
  - specialize (Hbits (8 * Z.of_nat k + x) ltac:(lia)).
    rewrite (bit_word _ k x w'), (bit_word _ k x w) in Hbits by (done || lia). done.
  - rewrite !byte_testbit_high by (done || lia). done.
Qed.

Lemma bitmap_mark_wp b i :
  bitmap_wf b -> 0 <= i < nbits b ->
  if bit b i then bitmap_mark b i = None
  else exists b', bitmap_mark b i = Some b' /\ bitmap_wf b' /\
         (b_self b', nbits b', b_vptr b') = (b_self b, nbits b, b_vptr b) /\
         (forall j, 0 <= j -> bit b' j = (j =? i) || bit b j).
Proof.
  intros Hwf Hi. destruct (bitmap_translate_wp b i Hwf Hi) as (w & Et & Ew & Eb).
  unfold bitmap_mark. rewrite Et, (proj2 (Z.ltb_lt _ _)), Ew by lia. simpl. rewrite Eb.
  destruct (set_bit_wp b i w Hwf Hi Ew) as [Hwf' Hbits].
  destruct (bit b i); simpl; [done|]. eexists. by split_and!.
Qed.

Lemma bitmap_unmark_wp b i :
  bitmap_wf b -> 0 <= i < nbits b ->
  if bit b i then exists b', bitmap_unmark b i = Some b' /\ bitmap_wf b' /\
         (b_self b', nbits b', b_vptr b') = (b_self b, nbits b, b_vptr b) /\
         (forall j, 0 <= j -> bit b' j = negb (j =? i) && bit b j)
  else bitmap_unmark b i = None.
Proof.
  intros Hwf Hi. destruct (bitmap_translate_wp b i Hwf Hi) as (w & Et & Ew & Eb).
  unfold bitmap_unmark. rewrite Et, (proj2 (Z.ltb_lt _ _)), Ew by lia. simpl. rewrite Eb.
  destruct (clear_bit_wp b i w Hwf Hi Ew) as [Hwf' Hbits].
  destruct (bit b i); simpl; [|done]. eexists. by split_and!.
Qed.

(** The bytes [bitmap_create] sets up: clear below [n], set from [n] on. *)
Lemma create_bits_wf s p n w :
  0 <= n <= 2 ^ 32 - 8 -> n `mod` 8 <> 0 -> is_byte w ->
  (forall i, 0 <= i < 8 -> Z.testbit w i = (n `mod` 8 <=? i)) ->
  let b := {| b_self := s; nbits := n; b_vptr := p;
              b_v := <[Z.to_nat (n / 8) := w]> (replicate (Z.to_nat ((n + 7) / 8)) 0) |} in
  bitmap_wf b /\ forall i, 0 <= i < n -> bit b i = false.
Proof.
  intros Hn Hm Hw Ht b.
  assert (length (b_v b) = Z.to_nat ((n + 7) / 8)) as Hl by (simpl; len).
  assert (n / 8 = (n + 7) / 8 - 1) as Elast by zdm.
  assert (forall i, 0 <= i < 8 * Z.of_nat (length (b_v b)) -> bit b i = (n <=? i)) as Hbit.
  { intros i Hi. destruct (index_split i ltac:(lia)) as [Ei Hmi].
    unfold bit. destruct (decide (i / 8 = n / 8)) as [E|E].
    - rewrite E. simpl. rewrite list_lookup_insert_eq by (len; zdm). rewrite Ht by done.
      apply eq_true_iff_eq. rewrite !Z.leb_le. zdm.
    - simpl. rewrite list_lookup_insert_ne by zdm.
      rewrite lookup_replicate_2 by (rewrite Hl in Hi; zdm).
      rewrite Z.bits_0. symmetry. apply Z.leb_gt. rewrite Hl in Hi. zdm. }
  split; [split_and!|].
  - simpl. lia.
  - simpl. lia.
  - done.
  - simpl. apply Forall_insert; [|done]. by apply Forall_replicate.
  - intros i Hi. change (nbits b) with n in Hi. rewrite Hbit by lia. apply Z.leb_le. lia.
  - intros i Hi. rewrite Hbit by (rewrite Hl; zdm). apply Z.leb_gt. lia.
Qed.

Lemma create_bits_full s p n :
  0 <= n <= 2 ^ 32 - 8 -> n `mod` 8 = 0 ->
  let b := {| b_self := s; nbits := n; b_vptr := p;
              b_v := replicate (Z.to_nat ((n + 7) / 8)) 0 |} in
  bitmap_wf b /\ forall i, 0 <= i < n -> bit b i = false.
Proof.
  intros Hn Hm b. split; [split_and!|]; simpl.
  - lia.
  - lia.
  - len.
  - by apply Forall_replicate.
  - intros i Hi. rewrite length_replicate in Hi. zdm.
  - intros i Hi. unfold bit. simpl. rewrite lookup_replicate_2 by zdm. apply Z.bits_0.
Qed.

(** The lowest clear index, or ENOSPC. *)
Lemma bitmap_alloc_wp b :
  bitmap_wf b ->
  (exists i b', bitmap_alloc b = Some (0, Some i, b') /\
     0 <= i < nbits b /\ bit b i = false /\
     (forall j, 0 <= j < i -> bit b j = true) /\
     bitmap_wf b' /\ (b_self b', nbits b', b_vptr b') = (b_self b, nbits b, b_vptr b) /\
     (forall j, 0 <= j -> bit b' j = (j =? i) || bit b j)) \/
  (bitmap_alloc b = Some (ENOSPC, None, b) /\
   forall j, 0 <= j < nbits b -> bit b j = true).
Proof.
  intros Hwf. pose proof Hwf as (Hn & Hl & Hb & Hov). unfold bitmap_alloc, BITS_PER_WORD.
  rewrite DIVROUNDUP_8, <- Hl by done.
  assert (forall j : Z, 0 <= j -> (Z.to_nat (j / 8) < length (b_v b))%nat ->
          b_v b !! Z.to_nat (j / 8) = Some 255 -> bit b j = true) as Hfull.
  { intros j Hj _ Hw. destruct (index_split j Hj) as [Ej Hm].
    rewrite Ej, (bit_word _ _ _ _ Hw Hm). change 255 with (Z.ones 8).
    by apply Z.ones_spec_low. }
  destruct (bitmap_scan_spec (length (b_v b)) 0 (b_v b) Hb) as ([[k off]|] & -> & Hr); [done|..].
  - left. destruct Hr as (_ & Ho & (w & Hw & Hc & Hbelow) & Hr). simpl. rewrite Hw. simpl.
    pose proof (lookup_lt_Some _ _ _ Hw) as Hk.
    set (i := 8 * Z.of_nat k + off).
    assert (bit b i = false) as Hi0 by (unfold i; by rewrite (bit_word _ _ _ w)).
    assert (i < nbits b) as Hi.
    { destruct (decide (i < nbits b)); [done|]. rewrite Hov in Hi0; [done|]. lia. }
    assert (i / 8 = Z.of_nat k) as Ek by zdm. assert (i `mod` 8 = off) as Eo by zdm.
    replace (u32 (Z.of_nat k * 8 + off)) with i by (rewrite u32_id; unfold is_u32; lia).
    rewrite (proj2 (Z.ltb_lt _ _)) by done.
    destruct (set_bit_wp b i w) as [Hwf' Hbits]; [done|lia|by rewrite Ek, Nat2Z.id|].
    rewrite Ek, Eo, Nat2Z.id in Hwf', Hbits.
    eexists i, _. split; [done|]. split_and!; [lia|lia|done| |done|done|done].
    intros j Hj. destruct (index_split j ltac:(lia)) as [Ej Hm].
    destruct (decide (Z.to_nat (j / 8) < k)%nat) as [Hlt|Hge].
    + apply Hfull; [lia|lia|]. apply Hr. lia.
    + assert (Z.to_nat (j / 8) = k) as E8 by zdm.
      rewrite Ej, E8, (bit_word _ _ _ w) by done. apply Hbelow. lia.
  - right. split; [done|]. intros j Hj.
    assert (Z.to_nat (j / 8) < length (b_v b))%nat.
    { rewrite Hl. apply Z2Nat.inj_lt; zdm. }
    apply Hfull; [lia|done|]. apply Hr. lia.
Qed.

Lemma bitmap_isset_wp b i :
  bitmap_wf b -> 0 <= i < nbits b ->
  exists w, bitmap_isset b i = Some w /\ (w =? 0) = negb (bit b i).
Proof.
  intros Hwf Hi. destruct (bitmap_translate_wp b i Hwf Hi) as (w & Et & Ew & Eb).
  unfold bitmap_isset. rewrite Et, Ew. simpl. eexists. split; [done|]. by rewrite Eb.
Qed.

(** ** What the operations do

    The abstract view of a bitmap is the function [bit b] on its indices. *)

(** [bitmap_alloc] never hits its assertions.  It returns the lowest clear
    index, which is always below [nbits], and sets that bit and no other; or
    every bit is in use and it returns [ENOSPC] and changes nothing. *)
Theorem bitmap_alloc_lowest b :
  bitmap_wf b ->
  (exists i b', bitmap_alloc b = Some (0, Some i, b') /\
     0 <= i < nbits b /\ bit b i = false /\
     (forall j, 0 <= j < i -> bit b j = true) /\
     bitmap_wf b' /\ nbits b' = nbits b /\
     (forall j, 0 <= j -> bit b' j = (j =? i) || bit b j)) \/
  (bitmap_alloc b = Some (ENOSPC, None, b) /\
   forall j, 0 <= j < nbits b -> bit b j = true).
Proof.
  intros Hwf. destruct (bitmap_alloc_wp b Hwf) as [(i & b' & ? & ? & ? & ? & ? & [= ???] & ?)|?];
    [left; exists i, b'; naive_solver|by right].
Qed.

(** on an index in range [bitmap_mark] panics exactly when the bit is set
    already and [bitmap_unmark] exactly when it is clear; otherwise they change
    that one bit, so each undoes the other; [bitmap_isset] reads the bit. *)
Theorem bitmap_mark_unmark b i :
  bitmap_wf b -> 0 <= i < nbits b ->
  (exists w, bitmap_isset b i = Some w /\ (negb (w =? 0)) = bit b i) /\
  (if bit b i then bitmap_mark b i = None
   else exists b', bitmap_mark b i = Some b' /\ bitmap_wf b' /\ nbits b' = nbits b /\
          (forall j, 0 <= j -> bit b' j = (j =? i) || bit b j) /\
          bitmap_unmark b' i = Some b) /\
  (if bit b i then exists b', bitmap_unmark b i = Some b' /\ bitmap_wf b' /\
          nbits b' = nbits b /\
          (forall j, 0 <= j -> bit b' j = negb (j =? i) && bit b j) /\
          bitmap_mark b' i = Some b
   else bitmap_unmark b i = None).
Proof.
  intros Hwf Hi. pose proof (bitmap_mark_wp b i Hwf Hi) as Hm.
  pose proof (bitmap_unmark_wp b i Hwf Hi) as Hu. split_and!.
  - destruct (bitmap_isset_wp b i Hwf Hi) as (w & -> & E). exists w. split; [done|].
    by rewrite E, negb_involutive.
  - destruct (bit b i) eqn:Ebi; [done|]. destruct Hm as (b' & E & Hwf' & [= Es En Ep] & Hbits).
    exists b'. split_and!; [done..|]. pose proof (bitmap_unmark_wp b' i Hwf') as Hu'.
    rewrite Hbits, Z.eqb_refl in Hu' by lia. destruct Hu' as (b2 & -> & Hwf2 & [= ???] & Hbits2);
      [by rewrite En|]. f_equal. apply bitmap_ext; [done..|congruence|congruence|congruence|].
    intros j Hj. rewrite Hbits2, Hbits by done.
    destruct (j =? i) eqn:Ej; boolify; [by subst|done].
  - destruct (bit b i) eqn:Ebi; [|done]. destruct Hu as (b' & E & Hwf' & [= Es En Ep] & Hbits).
    exists b'. split_and!; [done..|]. pose proof (bitmap_mark_wp b' i Hwf') as Hu'.
    rewrite Hbits, Z.eqb_refl in Hu' by lia. destruct Hu' as (b2 & -> & Hwf2 & [= ???] & Hbits2);
      [by rewrite En|]. f_equal. apply bitmap_ext; [done..|congruence|congruence|congruence|].
    intros j Hj. rewrite Hbits2, Hbits by done.
    destruct (j =? i) eqn:Ej; boolify; [by subst|done].
Qed.

Lemma bitmap_create_wp {Heap} `{KmallocLaws Heap} n (h : Heap) :
  heap_ok h -> 0 <= n <= 2 ^ 32 - 8 ->
  exists ob h', bitmap_create n h = Some (ob, h') /\ heap_ok h' /\
    match ob with
    | None => same_others h [] h' []
    | Some b => bitmap_wf b /\ nbits b = n /\
        (forall i, 0 <= i < n -> bit b i = false) /\
        owns h' [b_vptr b; b_self b] /\ same_others h [] h' [b_vptr b; b_self b]
    end.
Proof.
  intros Hok Hn. unfold bitmap_create, BITS_PER_WORD. rewrite DIVROUNDUP_8 by done.
  destruct (kmalloc_total h 8 Hok) as [[s h1] E1]; [by split|]. rewrite E1. simpl.
  destruct (s =? 0) eqn:Es; boolify; [subst|].
  { destruct (kmalloc_null _ _ 8 Hok ltac:(by split) E1) as [Hok1 Eb].
    eexists _, _. split_and!; [done..|]. by apply same_others_blocks. }
  destruct (owns_fresh h h1 8 s [] Hok ltac:(by split) E1 Es) as (Hok1 & Hown1 & Hsame1).
  { split; [apply NoDup_nil_2|set_solver]. }
  assert (kmalloc_size ((n + 7) / 8)) as Hw by (unfold kmalloc_size; zdm).
  destruct (kmalloc_total h1 _ Hok1 Hw) as [[p h2] E2]. rewrite E2. simpl.
  destruct (p =? 0) eqn:Ep; boolify; [subst|].
  { destruct (kmalloc_null _ _ _ Hok1 Hw E2) as [Hok2 Eb].
    destruct (owns_free h2 s [] [] Hok2) as (h3 & -> & ? & _ & Hs3).
    { destruct Hown1 as [? Hin]. split; [done|]. by rewrite Eb. }
    eexists _, _. split_and!; [done..|]. apply (same_others_trans _ _ h1 [s]); [done|].
    apply (same_others_trans _ _ h2 [s]); [by apply same_others_blocks|done]. }
  destruct (owns_fresh h1 h2 _ p [s] Hok1 Hw E2 Ep Hown1) as (Hok2 & Hown2 & Hsame2).
  pose proof (same_others_trans _ _ _ _ _ _ Hsame1 Hsame2) as Hsame.
  destruct (decide (n `mod` 8 = 0)) as [Hm|Hm].
  - rewrite (proj2 (Z.ltb_ge _ _)) by zdm.
    destruct (create_bits_full s p n Hn Hm). eexists _, _. by split_and!.
  - assert ((n + 7) / 8 - 1 = n / 8) as -> by zdm.
    replace (n - n / 8 * 8) with (n `mod` 8) by zdm.
    rewrite (proj2 (Z.ltb_lt _ _)) by zdm. rewrite Z.eqb_refl.
    rewrite (proj2 (andb_true_iff _ _)) by (split; apply Z.ltb_lt; zdm).
    rewrite lookup_replicate_2 by zdm. simpl.
    destruct (mark_overbits_spec (Z.to_nat (8 - n `mod` 8)) (n `mod` 8) 0) as [Hb Ht];
      [zdm|zdm|by split|].
    destruct (create_bits_wf s p n _ Hn Hm Hb) as [Hwf Hclear].
    { intros i Hi. by rewrite Ht, Z.bits_0, orb_false_r. }
    eexists _, _. by split_and!.
Qed.

(** [bitmap_create] either fails with [NULL] having given back what it
    allocated, or returns a well-formed bitmap of [n] clear bits made of two new
    blocks; its assertions on the last byte hold for every [n]. *)
Theorem bitmap_create_clear {Heap} `{KmallocLaws Heap} n (h : Heap) :
  heap_ok h -> 0 <= n <= 2 ^ 32 - 8 ->
  exists ob h', bitmap_create n h = Some (ob, h') /\ heap_ok h' /\
    match ob with
    | None => same_others h [] h' []
    | Some b => bitmap_wf b /\ nbits b = n /\
        (forall i, 0 <= i < n -> bit b i = false) /\
        owns h' [b_vptr b; b_self b] /\ same_others h [] h' [b_vptr b; b_self b]
    end.
Proof. apply bitmap_create_wp. Qed.

(** ** Witnesses *)

Module BitmapExamples.
Definition b12 : bitmap :=
  {| b_self := 1; nbits := 12; b_vptr := 10; b_v := [255; 242] |}.

Lemma b12_wf : bitmap_wf b12.
Proof.
  split_and!; simpl; [lia|lia|done|by repeat constructor|].
  intros i Hi. assert (i = 12 \/ i = 13 \/ i = 14 \/ i = 15) as Hc by lia.
  by destruct Hc as [->|[->|[->| ->]]].
Qed.
End BitmapExamples.
Import BitmapExamples.

Lemma bitmap_alloc_lowest_witness :
  (exists i b', bitmap_alloc b12 = Some (0, Some i, b') /\
     0 <= i < nbits b12 /\ bit b12 i = false /\
     (forall j, 0 <= j < i -> bit b12 j = true) /\
     bitmap_wf b' /\ nbits b' = nbits b12 /\
     (forall j, 0 <= j -> bit b' j = (j =? i) || bit b12 j)) \/
  (bitmap_alloc b12 = Some (ENOSPC, None, b12) /\
   forall j, 0 <= j < nbits b12 -> bit b12 j = true).
Proof. apply (bitmap_alloc_lowest b12), b12_wf. Defined.

Lemma bitmap_mark_unmark_witness :
  exists w, bitmap_isset b12 8 = Some w /\ negb (w =? 0) = bit b12 8.
Proof. apply (bitmap_mark_unmark b12 8); [apply b12_wf|simpl; lia]. Defined.

Lemma bitmap_create_clear_witness :
  exists ob h', bitmap_create 12 (CountdownHeap.fresh 2) = Some (ob, h') /\ heap_ok h' /\
    match ob with
    | None => same_others (CountdownHeap.fresh 2) [] h' []
    | Some b => bitmap_wf b /\ nbits b = 12 /\
        (forall i, 0 <= i < 12 -> bit b i = false) /\
        owns h' [b_vptr b; b_self b] /\
        same_others (CountdownHeap.fresh 2) [] h' [b_vptr b; b_self b]
    end.
Proof.
  apply (bitmap_create_clear 12 (CountdownHeap.fresh 2));
    [apply CountdownHeap.fresh_ok|lia].
Defined.
