(* ===== verification/Thread.v ===== *)
(** * Threads and the scheduler

    kern/thread/thread.c, kern/thread/scheduler.c, the context part of
    kern/arch/mips/mips/pcb.c and the interrupt level of
    kern/arch/mips/mips/spl.c.

    The globals of these files are the record [tsys]: [curthread], the arrays
    [sleepers] and [zombies], the run queue, [numthreads], the interrupt level
    and flag, and the thread structures themselves, as a map from their
    addresses.  The two arrays and the run queue are those of [Array] and
    [Queue], allocated on the heap held in the state.

    A function that switches context is cut where the processor leaves the
    thread: [mi_switch_out] is [mi_switch] up to the call of [scheduler],
    [scheduler] one turn of its loop, [switch_to] the assignment of [curthread]
    and [md_switch], [mi_switch_in] the rest, which runs when the thread is
    switched to again. *)

From stdpp Require Import base option list gmap numbers.
From S2P Require Import Prelude Kmem Array Queue.

(** ** Data *)

Definition STACK_SIZE : Z := 4096.
Definition sizeof_thread : Z := 88.
Definition sizeof_switchframe : Z := 44.

Record pcb := Pcb {
  pcb_switchstack : Z;
  pcb_kstack : Z;
  pcb_ininterrupt : Z;
  pcb_badfaultfunc : Z;
}.

Record switchframe := Switchframe {
  sf_s0 : Z; sf_s1 : Z; sf_s2 : Z;
  sf_s3_gp : list Z;                  (* s3 to s8 and gp *)
  sf_ra : Z;
}.

(** The first four bytes of the stack and the switch frame at its top are the
    parts of the stack the thread system itself writes. *)
Record thread := Thread {
  t_pcb : option pcb;                 (* [None]: not initialised yet *)
  t_name : Z;
  t_namestr : list Z;
  t_sleepaddr : Z;
  t_stack : Z;
  t_magic : list Z;
  t_frame : option switchframe;
  t_fileTable : option Z;
  t_pid : option Z;
  t_vmspace : Z;
  t_cwd : Z;
}.

Inductive threadstate_t := S_RUN | S_READY | S_SLEEP | S_ZOMB.

#[global] Instance threadstate_eq_dec : EqDecision threadstate_t.
Proof. solve_decision. Defined.

(** What the thread system uses of the vnode layer, of the address spaces and
    of the assembly: it only passes pointers through. *)
Class ThreadEnv (W : Type) := {
  VOP_INCREF : Z -> W -> W;
  VOP_DECREF : Z -> W -> W;
  as_destroy : Z -> W -> W;
  as_activate : Z -> W -> W;
  mips_threadstart : Z;
  lbolt : Z;                          (* address of the variable of hardclock.c *)
}.

Section thread.
Context {Heap W : Type} `{!Kmalloc Heap} `{!ThreadEnv W}.

Record tsys := Tsys {
  curthread : Z;
  sleepers : option (array Z);
  zombies : option (array Z);
  numthreads : Z;
  runqueue : option (queue Z);
  threads : gmap Z thread;
  curspl : Z;
  IEc : bool;                         (* interrupts enabled in the status register *)
  in_interrupt : Z;
  curkstack : Z;
  heap : Heap;
  world : W;
}.

(** Assignments to the globals. *)
Definition set_curthread x s := Tsys x (sleepers s) (zombies s) (numthreads s) (runqueue s)
  (threads s) (curspl s) (IEc s) (in_interrupt s) (curkstack s) (heap s) (world s).
Definition set_sleepers x s := Tsys (curthread s) x (zombies s) (numthreads s) (runqueue s)
  (threads s) (curspl s) (IEc s) (in_interrupt s) (curkstack s) (heap s) (world s).
Definition set_zombies x s := Tsys (curthread s) (sleepers s) x (numthreads s) (runqueue s)
  (threads s) (curspl s) (IEc s) (in_interrupt s) (curkstack s) (heap s) (world s).
Definition set_numthreads x s := Tsys (curthread s) (sleepers s) (zombies s) x (runqueue s)
  (threads s) (curspl s) (IEc s) (in_interrupt s) (curkstack s) (heap s) (world s).
Definition set_runqueue x s := Tsys (curthread s) (sleepers s) (zombies s) (numthreads s) x
  (threads s) (curspl s) (IEc s) (in_interrupt s) (curkstack s) (heap s) (world s).
Definition set_threads x s := Tsys (curthread s) (sleepers s) (zombies s) (numthreads s)
  (runqueue s) x (curspl s) (IEc s) (in_interrupt s) (curkstack s) (heap s) (world s).
Definition set_spl x i s := Tsys (curthread s) (sleepers s) (zombies s) (numthreads s)
  (runqueue s) (threads s) x i (in_interrupt s) (curkstack s) (heap s) (world s).
Definition set_context i k s := Tsys (curthread s) (sleepers s) (zombies s) (numthreads s)
  (runqueue s) (threads s) (curspl s) (IEc s) i k (heap s) (world s).
Definition set_heap x s := Tsys (curthread s) (sleepers s) (zombies s) (numthreads s)
  (runqueue s) (threads s) (curspl s) (IEc s) (in_interrupt s) (curkstack s) x (world s).
Definition set_world x s := Tsys (curthread s) (sleepers s) (zombies s) (numthreads s)
  (runqueue s) (threads s) (curspl s) (IEc s) (in_interrupt s) (curkstack s) (heap s) x.

(** Access through a thread pointer; a dangling or null one faults. *)
Definition get_thread (t : Z) (s : tsys) : option thread := threads s !! t.

Definition upd_thread (t : Z) (f : thread -> thread) (s : tsys) : option tsys :=
  th ← threads s !! t; Some (set_threads (<[t := f th]> (threads s)) s).

Definition set_t_sleepaddr x th := Thread (t_pcb th) (t_name th) (t_namestr th) x (t_stack th)
  (t_magic th) (t_frame th) (t_fileTable th) (t_pid th) (t_vmspace th) (t_cwd th).
Definition set_t_pcb x th := Thread x (t_name th) (t_namestr th) (t_sleepaddr th) (t_stack th)
  (t_magic th) (t_frame th) (t_fileTable th) (t_pid th) (t_vmspace th) (t_cwd th).
Definition set_t_stack x m th := Thread (t_pcb th) (t_name th) (t_namestr th) (t_sleepaddr th) x
  m (t_frame th) (t_fileTable th) (t_pid th) (t_vmspace th) (t_cwd th).
Definition set_t_frame x th := Thread (t_pcb th) (t_name th) (t_namestr th) (t_sleepaddr th)
  (t_stack th) (t_magic th) x (t_fileTable th) (t_pid th) (t_vmspace th) (t_cwd th).
Definition set_t_vmspace x th := Thread (t_pcb th) (t_name th) (t_namestr th) (t_sleepaddr th)
  (t_stack th) (t_magic th) (t_frame th) (t_fileTable th) (t_pid th) x (t_cwd th).
Definition set_t_cwd x th := Thread (t_pcb th) (t_name th) (t_namestr th) (t_sleepaddr th)
  (t_stack th) (t_magic th) (t_frame th) (t_fileTable th) (t_pid th) (t_vmspace th) x.

(** ** Interrupt level (spl.c) *)

Definition splx (newspl : Z) (s : tsys) : Z * tsys :=
  let on := if 0 <? newspl then false else if newspl =? 0 then true else IEc s in
  (curspl s, set_spl newspl on s).

Definition splhigh (s : tsys) : Z * tsys := splx SPL_HIGH s.
Definition spl0 (s : tsys) : Z * tsys := splx 0 s.

(** ** Machine-dependent context (pcb.c) *)

Definition md_initpcb0 (s : tsys) : pcb :=
  {| pcb_switchstack := 0; pcb_kstack := curkstack s; pcb_ininterrupt := 0;
     pcb_badfaultfunc := 0 |}.

Definition md_initpcb (stack data1 data2 func : Z) : pcb * switchframe :=
  let stacktop := u32 (stack + STACK_SIZE) in
  let sf := u32 (stacktop - sizeof_switchframe) in
  ({| pcb_switchstack := sf; pcb_kstack := stacktop; pcb_ininterrupt := 0;
      pcb_badfaultfunc := 0 |},
   {| sf_s0 := data1; sf_s1 := data2; sf_s2 := func;
      sf_s3_gp := replicate 7 0; sf_ra := mips_threadstart |}).

(** [md_switch] up to the jump. *)
Definition md_switch (old nu : Z) (s : tsys) : option tsys :=
  if old =? nu then Some s else
  oth ← get_thread old s;
  opcb ← t_pcb oth;
  let opcb := {| pcb_switchstack := pcb_switchstack opcb; pcb_kstack := curkstack s;
                 pcb_ininterrupt := in_interrupt s;
                 pcb_badfaultfunc := pcb_badfaultfunc opcb |} in
  s ← upd_thread old (set_t_pcb (Some opcb)) s;
  nth ← get_thread nu s;
  npcb ← t_pcb nth;
  Some (set_context (pcb_ininterrupt npcb) (pcb_kstack npcb) s).

(** ** The scheduler (scheduler.c) *)

Definition scheduler_bootstrap (s : tsys) : option tsys :=
  '(q, h) ← q_create 32 (heap s);
  q ← q;                                               (* else panic *)
  Some (set_runqueue (Some q) (set_heap h s)).

Definition scheduler_preallocate (nthreads : Z) (s : tsys) : option (Z * tsys) :=
  ASSERT 0 <? curspl s ;;
  q ← runqueue s;
  '(r, q, h) ← q_preallocate q nthreads (heap s);
  Some (r, set_runqueue (Some q) (set_heap h s)).

(** [while (!q_empty(runqueue)) q_remhead(runqueue)], at most one turn for each
    slot; the list is that of the threads dropped. *)
Fixpoint drop_all (fuel : nat) (q : queue Z) : option (list Z * queue Z) :=
  if q_empty q then Some ([], q) else
  match fuel with
  | O => None
  | S fuel =>
      '(t, q) ← q_remhead q;
      t ← t;
      '(ts, q) ← drop_all fuel q;
      Some (t :: ts, q)
  end.

Definition scheduler_killall (s : tsys) : option (list Z * tsys) :=
  ASSERT 0 <? curspl s ;;
  q ← runqueue s;
  '(ts, q) ← drop_all (Z.to_nat (q_size q)) q;
  Some (ts, set_runqueue (Some q) s).

Definition scheduler_shutdown (s : tsys) : option tsys :=
  '(_, s) ← scheduler_killall s;
  ASSERT 0 <? curspl s ;;
  q ← runqueue s;
  h ← q_destroy q (heap s);
  Some (set_runqueue None (set_heap h s)).

(** One turn: the head of the run queue, or [None] when the queue is empty and
    [cpu_idle] has to wait for an interrupt before the next turn. *)
Definition scheduler (s : tsys) : option (option Z * tsys) :=
  ASSERT 0 <? curspl s ;;
  q ← runqueue s;
  if q_empty q then Some (None, s) else
  '(t, q) ← q_remhead q;
  t ← t;
  Some (Some t, set_runqueue (Some q) s).

Definition make_runnable (t : Z) (s : tsys) : option (Z * tsys) :=
  ASSERT 0 <? curspl s ;;
  q ← runqueue s;
  '(r, q, h) ← q_addtail q t (heap s);
  Some (r, set_runqueue (Some q) (set_heap h s)).

(** What [print_run_queue] prints: position, name and sleep address. *)
Fixpoint print_queue (fuel : nat) (i k : Z) (q : queue Z) (s : tsys) :
    option (list (Z * list Z * Z)) :=
  if i =? q_getend q then Some [] else
  match fuel with
  | O => None
  | S fuel =>
      t ← q_getguy q i;
      t ← t;
      th ← get_thread t s;
      rest ← print_queue fuel ((i + 1) `mod` q_getsize q) (k + 1) q s;
      Some ((k, t_namestr th, t_sleepaddr th) :: rest)
  end.

Definition print_run_queue (s : tsys) : option (list (Z * list Z * Z) * tsys) :=
  let '(spl, s) := splhigh s in
  q ← runqueue s;
  out ← print_queue (Z.to_nat (q_size q)) (q_getstart q) 0 q s;
  Some (out, snd (splx spl s)).
End thread.
Arguments tsys : clear implicits.

(** ** The thread system (thread.c) *)

Section thread_c.
Context {Heap W : Type} `{!Kmalloc Heap} `{!ThreadEnv W}.
Implicit Types s : tsys Heap W.

Definition thread_magic : list Z := [174; 17; 218; 51].     (* ae 11 da 33 *)

Definition thread_create (name : list Z) s : option (Z * tsys Heap W) :=
  '(t, h) ← kmalloc sizeof_thread (heap s);
  if t =? 0 then Some (0, set_heap h s) else
  '(n, h) ← kstrdup name h;
  match n with
  | None => h ← kfree t h; Some (0, set_heap h s)
  | Some (n, str) =>
      Some (t, set_threads
        (<[t := {| t_pcb := None; t_name := n; t_namestr := str; t_sleepaddr := 0;
                   t_stack := 0; t_magic := []; t_frame := None; t_fileTable := None;
                   t_pid := None; t_vmspace := 0; t_cwd := 0 |}]> (threads s))
        (set_heap h s))
  end.

Definition thread_destroy (t : Z) s : option (tsys Heap W) :=
  ASSERT negb (t =? curthread s) ;;
  th ← get_thread t s;
  ASSERT t_vmspace th =? 0 ;;
  ASSERT t_cwd th =? 0 ;;
  h ← (if t_stack th =? 0 then Some (heap s) else kfree (t_stack th) (heap s));
  h ← kfree (t_name th) h;
  h ← kfree t h;
  Some (set_threads (delete t (threads s)) (set_heap h s)).

(** [for (i=0; i<array_getnum(zombies); i++)]; the loop does not change the
    array, [n] is the number of turns left. *)
Fixpoint exorcise_loop (n : nat) (i : Z) (z : array Z) s : option (tsys Heap W) :=
  match n with
  | O => Some s
  | S n =>
      t ← array_getguy z i;
      t ← t;
      ASSERT negb (t =? curthread s) ;;
      s ← thread_destroy t s;
      exorcise_loop n (i + 1) z s
  end.

Definition exorcise s : option (tsys Heap W) :=
  ASSERT 0 <? curspl s ;;
  z ← zombies s;
  s ← exorcise_loop (Z.to_nat (array_getnum z)) 0 z s;
  '(result, z, h) ← array_setsize z 0 (heap s);
  ASSERT result =? 0 ;;
  Some (set_zombies (Some z) (set_heap h s)).

(** The loop of [thread_killall] only prints. *)
Definition thread_killall s : option (tsys Heap W) :=
  ASSERT 0 <? curspl s ;;
  sl ← sleepers s;
  '(result, sl, h) ← array_setsize sl 0 (heap s);
  ASSERT result =? 0 ;;
  Some (set_sleepers (Some sl) (set_heap h s)).

Definition thread_panic s : option (tsys Heap W) :=
  ASSERT 0 <? curspl s ;;
  s ← thread_killall s;
  '(_, s) ← scheduler_killall s;
  Some s.

Definition boot_name : list Z := [60; 98; 111; 111; 116; 47; 109; 101; 110; 117; 62].

Definition thread_bootstrap s : option (Z * tsys Heap W) :=
  '(sl, h) ← array_create (heap s);
  sl ← sl;                                             (* else panic *)
  '(z, h) ← array_create h;
  z ← z;                                               (* else panic *)
  let s := set_sleepers (Some sl) (set_zombies (Some z) (set_heap h s)) in
  '(me, s) ← thread_create boot_name s;
  ASSERT negb (me =? 0) ;;                             (* else panic *)
  s ← upd_thread me (set_t_pcb (Some (md_initpcb0 s))) s;
  Some (me, set_numthreads 1 (set_curthread me s)).

Definition thread_shutdown s : option (tsys Heap W) :=
  sl ← sleepers s;
  h ← array_destroy sl (heap s);
  z ← zombies s;
  h ← array_destroy z h;
  Some (set_zombies None (set_sleepers None (set_heap h s))).

(** The [fail:] exit of [thread_fork]. *)
Definition thread_fork_fail (newguy spl result : Z) s : option (Z * Z * tsys Heap W) :=
  let '(_, s) := splx spl s in
  th ← get_thread newguy s;
  let w := if t_cwd th =? 0 then world s else VOP_DECREF (t_cwd th) (world s) in
  h ← kfree (t_stack th) (heap s);
  h ← kfree (t_name th) h;
  h ← kfree newguy h;
  Some (result, 0, set_threads (delete newguy (threads s)) (set_heap h (set_world w s))).

(** Everything up to the critical section: the new thread structure with its
    stack, its directory and its initial context; 0 when out of memory. *)
Definition thread_fork_new (name : list Z) (data1 data2 func : Z) s :
    option (Z * tsys Heap W) :=
  '(newguy, s) ← thread_create name s;
  if newguy =? 0 then Some (0, s) else
  '(stack, h) ← kmalloc STACK_SIZE (heap s);
  let s := set_heap h s in
  if stack =? 0 then
    th ← get_thread newguy s;
    h ← kfree (t_name th) (heap s);
    h ← kfree newguy h;
    Some (0, set_threads (delete newguy (threads s)) (set_heap h s))
  else
  s ← upd_thread newguy (set_t_stack stack thread_magic) s;
  cur ← get_thread (curthread s) s;
  s ← (if t_cwd cur =? 0 then Some s else
       let w := VOP_INCREF (t_cwd cur) (world s) in
       upd_thread newguy (set_t_cwd (t_cwd cur)) (set_world w s));
  let '(p, f) := md_initpcb stack data1 data2 func in
  s ← upd_thread newguy (fun th => set_t_frame (Some f) (set_t_pcb (Some p) th)) s;
  Some (newguy, s).

(** The critical section: room for one more thread everywhere, then the new
    thread into the run queue.  Error code and new thread. *)
Definition thread_fork_insert (newguy : Z) s : option (Z * Z * tsys Heap W) :=
  let '(spl, s) := splhigh s in
  sl ← sleepers s;
  '(result, sl, h) ← array_preallocate sl (s32 (numthreads s + 1)) (heap s);
  let s := set_sleepers (Some sl) (set_heap h s) in
  if negb (result =? 0) then thread_fork_fail newguy spl result s else
  z ← zombies s;
  '(result, z, h) ← array_preallocate z (s32 (numthreads s + 1)) (heap s);
  let s := set_zombies (Some z) (set_heap h s) in
  if negb (result =? 0) then thread_fork_fail newguy spl result s else
  '(result, s) ← scheduler_preallocate (s32 (numthreads s + 1)) s;
  if negb (result =? 0) then thread_fork_fail newguy spl result s else
  '(result, s) ← make_runnable newguy s;
  if negb (result =? 0) then thread_fork_fail newguy spl result s else
  let s := set_numthreads (s32 (numthreads s + 1)) s in
  let '(_, s) := splx spl s in
  Some (0, newguy, s).

Definition thread_fork (name : list Z) (data1 data2 func : Z) s :
    option (Z * Z * tsys Heap W) :=
  '(newguy, s) ← thread_fork_new name data1 data2 func s;
  if newguy =? 0 then Some (ENOMEM, 0, s) else thread_fork_insert newguy s.

(** The check of the stack's magic number. *)
Definition stack_intact (th : thread) : bool :=
  (t_stack th =? 0) || bool_decide (t_magic th = thread_magic).

(** Put the thread on the list for its next state; [S_RUN] fails the
    assertion. *)
Definition stash_thread (nextstate : threadstate_t) (cur : Z) s :
    option (Z * tsys Heap W) :=
  match nextstate with
  | S_READY => make_runnable cur s
  | S_SLEEP =>
      sl ← sleepers s;
      '(r, sl, h) ← array_add sl cur (heap s);
      Some (r, set_sleepers (Some sl) (set_heap h s))
  | S_ZOMB =>
      z ← zombies s;
      '(r, z, h) ← array_add z cur (heap s);
      Some (r, set_zombies (Some z) (set_heap h s))
  | S_RUN => None
  end.

(** [mi_switch] up to the call of the scheduler: the thread that gives up the
    processor, or [None] when there is none and [mi_switch] just returns. *)
Definition mi_switch_out (nextstate : threadstate_t) s :
    option (option Z * tsys Heap W) :=
  ASSERT 0 <? curspl s ;;
  if curthread s =? 0 then Some (None, s) else
  let cur := curthread s in
  th ← get_thread cur s;
  ASSERT stack_intact th ;;
  let s := set_curthread 0 s in
  '(result, s) ← stash_thread nextstate cur s;
  ASSERT result =? 0 ;;
  Some (Some cur, s).

(** [curthread = next; md_switch(&cur->t_pcb, &next->t_pcb);] *)
Definition switch_to (cur next : Z) s : option (tsys Heap W) :=
  md_switch cur next (set_curthread next s).

(** [if (curthread->t_vmspace) as_activate(curthread->t_vmspace);] *)
Definition activate_cur s : option (tsys Heap W) :=
  th ← get_thread (curthread s) s;
  if t_vmspace th =? 0 then Some s else
  Some (set_world (as_activate (t_vmspace th) (world s)) s).

(** The rest of [mi_switch], in a thread that comes back. *)
Definition mi_switch_in s : option (tsys Heap W) :=
  s ← exorcise s; activate_cur s.

(** [thread_exit] up to the scheduler; it does not return. *)
Definition thread_exit s : option (option Z * tsys Heap W) :=
  th ← get_thread (curthread s) s;
  ASSERT stack_intact th ;;
  let '(_, s) := splhigh s in
  s ← (if t_vmspace th =? 0 then Some s else
       s ← upd_thread (curthread s) (set_t_vmspace 0) s;
       Some (set_world (as_destroy (t_vmspace th) (world s)) s));
  s ← (if t_cwd th =? 0 then Some s else
       let w := VOP_DECREF (t_cwd th) (world s) in
       upd_thread (curthread s) (set_t_cwd 0) (set_world w s));
  ASSERT 0 <? numthreads s ;;
  mi_switch_out S_ZOMB (set_numthreads (numthreads s - 1) s).

(** [thread_yield] up to the scheduler, with the level to go back to;
    afterwards it does [splx]. *)
Definition thread_yield s : option (Z * option Z * tsys Heap W) :=
  let '(spl, s) := splhigh s in
  _ ← sleepers s;
  '(cur, s) ← mi_switch_out S_READY s;
  Some (spl, cur, s).

Definition thread_sleep (addr : Z) s : option (option Z * tsys Heap W) :=
  ASSERT in_interrupt s =? 0 ;;
  s ← upd_thread (curthread s) (set_t_sleepaddr addr) s;
  mi_switch_out S_SLEEP s.

(** [thread_sleep] after the switch back. *)
Definition thread_sleep_in s : option (tsys Heap W) :=
  s ← mi_switch_in s;
  upd_thread (curthread s) (set_t_sleepaddr 0) s.

(** The loops of [thread_wakeup] and [thread_wakeup_one]; every turn increases
    [i] or shortens the array, so its length bounds the number of turns. *)
Fixpoint wakeup_loop (fuel : nat) (i addr : Z) s : option (tsys Heap W) :=
  sl ← sleepers s;
  if i <? array_getnum sl then
    match fuel with
    | O => None
    | S fuel =>
        t ← array_getguy sl i;
        t ← t;
        th ← get_thread t s;
        if t_sleepaddr th =? addr then
          sl ← array_remove sl i;
          '(result, s) ← make_runnable t (set_sleepers (Some sl) s);
          ASSERT result =? 0 ;;
          wakeup_loop fuel i addr s                    (* i--, then i++ *)
        else wakeup_loop fuel (i + 1) addr s
    end
  else Some s.

Fixpoint wakeup_one_loop (fuel : nat) (i addr : Z) s : option (tsys Heap W) :=
  sl ← sleepers s;
  if i <? array_getnum sl then
    match fuel with
    | O => None
    | S fuel =>
        t ← array_getguy sl i;
        t ← t;
        th ← get_thread t s;
        if t_sleepaddr th =? addr then
          sl ← array_remove sl i;
          '(result, s) ← make_runnable t (set_sleepers (Some sl) s);
          ASSERT result =? 0 ;;
          wakeup_one_loop fuel (i + 1) addr s
        else wakeup_one_loop fuel (i + 1) addr s
    end
  else Some s.

Definition thread_wakeup (addr : Z) s : option (tsys Heap W) :=
  ASSERT 0 <? curspl s ;;
  sl ← sleepers s;
  wakeup_loop (Z.to_nat (array_getnum sl)) 0 addr s.

Definition thread_wakeup_one (addr : Z) s : option (tsys Heap W) :=
  ASSERT 0 <? curspl s ;;
  sl ← sleepers s;
  wakeup_one_loop (Z.to_nat (array_getnum sl)) 0 addr s.

Fixpoint hassleepers_loop (n : nat) (i addr : Z) (sl : array Z) s : option bool :=
  match n with
  | O => Some false
  | S n =>
      t ← array_getguy sl i;
      t ← t;
      th ← get_thread t s;
      if t_sleepaddr th =? addr then Some true else hassleepers_loop n (i + 1) addr sl s
  end.

Definition thread_hassleepers (addr : Z) s : option bool :=
  ASSERT 0 <? curspl s ;;
  sl ← sleepers s;
  hassleepers_loop (Z.to_nat (array_getnum sl)) 0 addr sl s.

(** [mi_threadstart] up to the call of the thread's function. *)
Definition mi_threadstart s : option (tsys Heap W) :=
  s ← activate_cur s;
  Some (snd (spl0 s)).
End thread_c.
