(* ===== verification/ThreadInv.v ===== *)
(** * The invariant of the thread system

    [sys_rep] relates the arrays and the run queue of a state to the lists of
    threads they stand for and says that all the blocks involved are live and
    distinct; [sys_inv] adds that every thread is in exactly one place, that
    [numthreads] counts the threads that are not zombies and that zombies have
    given up what [thread_destroy] wants gone.  The lemmas say what each
    operation of [Thread] does to the lists; the theorems are about whole
    operations. *)

From stdpp Require Import base option list gmap fin_maps numbers.
From S2P Require Import Prelude Kmem Array Queue Thread.

(** The lists of thread addresses behind [sleepers], [runqueue], [zombies]. *)
Record tlists := Tlists {
  l_sleep : list Z;
  l_ready : list Z;
  l_zomb : list Z;
}.

Definition thread_blocks (p : Z * thread) : list Z :=
  p.1 :: t_name p.2 :: (if t_stack p.2 =? 0 then [] else [t_stack p.2]).

Definition threads_blocks (ts : gmap Z thread) : list Z :=
  map_to_list ts ≫= thread_blocks.

(** Sizes for which the queue's counters do not overflow; [thread_count] below
    shows that the address space allows no more threads. *)
Definition max_threads : Z := 2 ^ 26 - 1.
Definition max_ring : Z := 2 ^ 27 + 2.

Section inv.
Context {Heap W : Type} `{KmallocLaws Heap} `{!ThreadEnv W}.
Abbreviation tsys := (tsys Heap W).
Implicit Types (s : tsys) (L : tlists).

Definition sys_blocks (sa za : array Z) (rq : queue Z) (ts : gmap Z thread) : list Z :=
  array_blocks sa ++ array_blocks za ++ queue_blocks rq ++ threads_blocks ts.

Record sys_rep s (sa za : array Z) (rq : queue Z) L : Prop := {
  rep_sleepers : sleepers s = Some sa;
  rep_zombies : zombies s = Some za;
  rep_runqueue : runqueue s = Some rq;
  rep_heap : heap_ok (heap s);
  rep_owns : owns (heap s) (sys_blocks sa za rq (threads s));
  rep_sizes : forall t th, threads s !! t = Some th ->
                           blocks (heap s) !! t = Some sizeof_thread;
  rep_sa : array_bounds sa;
  rep_za : array_bounds za;
  rep_rq : queue_bounds rq;
  rep_ring : q_size rq <= max_ring;
  rep_sleep : contents sa = Some <$> l_sleep L;
  rep_zomb : contents za = Some <$> l_zomb L;
  rep_ready : q_list rq = Some <$> l_ready L;
}.

Definition cur_list s : list Z := if curthread s =? 0 then [] else [curthread s].

Definition live s L : list Z := cur_list s ++ l_sleep L ++ l_ready L.

Record sys_places s L : Prop := {
  inv_nodup : NoDup (live s L ++ l_zomb L);
  inv_dom : forall t, t ∈ live s L ++ l_zomb L <-> is_Some (threads s !! t);
  inv_num : numthreads s = Z.of_nat (length (live s L));
  inv_zomb : forall t th, t ∈ l_zomb L -> threads s !! t = Some th ->
                          t_vmspace th = 0 /\ t_cwd th = 0;
  inv_thread : forall t th, threads s !! t = Some th ->
                            stack_intact th = true /\ is_Some (t_pcb th);
}.

Definition sys_inv s sa za rq L : Prop := sys_rep s sa za rq L /\ sys_places s L.

(** ** Ownership of the parts *)

Lemma rep_sa_wf s sa za rq L : sys_rep s sa za rq L -> array_wf (heap s) sa.
Proof.
  intros HR. pose proof (rep_owns _ _ _ _ _ HR) as Ho. unfold sys_blocks in Ho.
  apply owns_app in Ho as (Ho & _). split; [apply HR|]. split; [done|apply HR].
Qed.

Lemma rep_za_wf s sa za rq L : sys_rep s sa za rq L -> array_wf (heap s) za.
Proof.
  intros HR. pose proof (rep_owns _ _ _ _ _ HR) as Ho. unfold sys_blocks in Ho.
  apply owns_app in Ho as (_ & Ho & _). apply owns_app in Ho as (Ho & _).
  split; [apply HR|]. split; [done|apply HR].
Qed.

Lemma rep_rq_wf s sa za rq L : sys_rep s sa za rq L -> queue_wf (heap s) rq.
Proof.
  intros HR. pose proof (rep_owns _ _ _ _ _ HR) as Ho. unfold sys_blocks in Ho.
  apply owns_app in Ho as (_ & Ho & _). apply owns_app in Ho as (_ & Ho & _).
  apply owns_app in Ho as (Ho & _). split; [apply HR|]. split; [done|apply HR].
Qed.

(** Blocks of a thread are not touched by an operation on a container. *)
Lemma sizes_frame (h h' : Heap) ps ps' rest (ts : gmap Z thread) :
  owns h (ps ++ rest) -> same_others h ps h' ps' ->
  (forall t, t ∈ threads_blocks ts -> t ∈ rest) ->
  (forall t th, ts !! t = Some th -> blocks h !! t = Some sizeof_thread) ->
  forall t th, ts !! t = Some th -> blocks h' !! t = Some sizeof_thread.
Proof.
  intros (_ & Hr & Hd)%owns_app Hs Hin Hsz t th Ht.
  assert (t ∈ rest) as Htr.
  { apply Hin. unfold threads_blocks. apply list_elem_of_bind.
    exists (t, th). split; [set_solver|]. by apply elem_of_map_to_list. }
  destruct (same_others_live _ _ _ _ t Hs) as [_ ->]; [|by apply Hr|by apply (Hsz t th)].
  intros Hps. by apply (Hd t).
Qed.

Lemma rep_update_sa s sa za rq L sa' h' ls :
  sys_rep s sa za rq L -> array_wf h' sa' ->
  same_others (heap s) (array_blocks sa) h' (array_blocks sa') ->
  contents sa' = Some <$> ls ->
  sys_rep (set_sleepers (Some sa') (set_heap h' s)) sa' za rq
    (Tlists ls (l_ready L) (l_zomb L)).
Proof.
  intros HR (Hok & Ho & Hb) Hs Hc. pose proof HR as []. unfold sys_blocks in *.
  split; simpl; try done.
  - by eapply owns_frame.
  - eapply sizes_frame; [done..| |done]. set_solver.
Qed.

Lemma rep_update_za s sa za rq L za' h' ls :
  sys_rep s sa za rq L -> array_wf h' za' ->
  same_others (heap s) (array_blocks za) h' (array_blocks za') ->
  contents za' = Some <$> ls ->
  sys_rep (set_zombies (Some za') (set_heap h' s)) sa za' rq
    (Tlists (l_sleep L) (l_ready L) ls).
Proof.
  intros HR (Hok & Ho & Hb) Hs Hc. pose proof HR as [].
  assert (owns (heap s) (array_blocks za ++ (array_blocks sa ++ queue_blocks rq ++
            threads_blocks (threads s)))) as Ho1.
  { rewrite Permutation_app_swap_app. done. }
  split; simpl; try done.
  - unfold sys_blocks. rewrite Permutation_app_swap_app. by eapply owns_frame.
  - eapply sizes_frame; [done..| |done]. set_solver.
Qed.

Lemma rep_update_rq s sa za rq L rq' h' ls :
  sys_rep s sa za rq L -> queue_wf h' rq' -> q_size rq' <= max_ring ->
  same_others (heap s) (queue_blocks rq) h' (queue_blocks rq') ->
  q_list rq' = Some <$> ls ->
  sys_rep (set_runqueue (Some rq') (set_heap h' s)) sa za rq'
    (Tlists (l_sleep L) ls (l_zomb L)).
Proof.
  intros HR (Hok & Ho & Hb) Hr Hs Hc. pose proof HR as [].
  assert (forall ps, array_blocks sa ++ array_blocks za ++ ps ++ threads_blocks (threads s)
            ≡ₚ ps ++ (array_blocks sa ++ array_blocks za ++ threads_blocks (threads s))) as E.
  { intros ps. by rewrite (Permutation_app_swap_app (array_blocks za) ps),
      (Permutation_app_swap_app (array_blocks sa) ps). }
  unfold sys_blocks in *. rewrite E in rep_owns0. split; simpl; try done.
  - unfold sys_blocks. rewrite E. by eapply owns_frame.
  - eapply sizes_frame; [done..| |done]. set_solver.
Qed.

(** ** How many threads there can be

    Thread structures are disjoint blocks of 88 bytes in a 32-bit address
    space. *)
Lemma thread_count s sa za rq L :
  sys_rep s sa za rq L -> Z.of_nat (size (threads s)) <= max_threads.
Proof.
  intros HR. set (ks := (map_to_list (threads s)).*1).
  assert (forall t, t ∈ ks -> blocks (heap s) !! t = Some sizeof_thread) as Hk.
  { intros t [[t' th] [-> Hin]]%list_elem_of_fmap. apply elem_of_map_to_list in Hin.
    by apply (rep_sizes _ _ _ _ _ HR t' th). }
  assert (NoDup ((fun t => t / 64) <$> ks)) as Hnd.
  { apply NoDup_fmap_2_strong; [|apply NoDup_fst_map_to_list].
    intros x y Hx Hy E. destruct (decide (x = y)); [done|].
    destruct (blocks_disjoint _ x y _ _ (rep_heap _ _ _ _ _ HR) (Hk x Hx) (Hk y Hy));
      unfold sizeof_thread in *; [done|zdm..]. }
  assert (((fun t => t / 64) <$> ks) ⊆ seqZ 0 max_threads) as Hsub.
  { intros x (t & -> & Ht)%list_elem_of_fmap. apply elem_of_seqZ.
    destruct (blocks_range _ t _ (rep_heap _ _ _ _ _ HR) (Hk t Ht)).
    unfold sizeof_thread, max_threads in *. zdm. }
  pose proof (submseteq_length _ _ (NoDup_submseteq _ _ Hnd Hsub)) as Hl.
  rewrite length_seqZ, length_fmap in Hl. unfold ks in Hl.
  rewrite length_fmap, length_map_to_list in Hl. unfold max_threads in *. lia.
Qed.

Lemma places_size s L :
  sys_places s L -> (length (live s L ++ l_zomb L) <= size (threads s))%nat.
Proof.
  intros HP. rewrite <- length_map_to_list, <- (length_fmap fst).
  apply submseteq_length, NoDup_submseteq; [apply HP|]. intros t Ht.
  apply (inv_dom _ _ HP) in Ht as [th Ht].
  apply list_elem_of_fmap. exists (t, th). split; [done|]. by apply elem_of_map_to_list.
Qed.

Lemma places_count s sa za rq L :
  sys_inv s sa za rq L ->
  Z.of_nat (length (live s L ++ l_zomb L)) <= max_threads.
Proof.
  intros [HR HP]. pose proof (thread_count _ _ _ _ _ HR).
  pose proof (places_size _ _ HP). lia.
Qed.

(** ** The scheduler's queue *)

Lemma rep_q_len s sa za rq L :
  sys_rep s sa za rq L -> q_len rq = Z.of_nat (length (l_ready L)).
Proof.
  intros HR. pose proof (length_q_list rq (rep_rq _ _ _ _ _ HR)) as Hl.
  pose proof (q_len_range rq (rep_rq _ _ _ _ _ HR)).
  rewrite (rep_ready _ _ _ _ _ HR) in Hl. rewrite length_fmap in Hl. lia.
Qed.

Lemma make_runnable_wp s sa za rq L t :
  sys_rep s sa za rq L -> 0 < curspl s -> Z.of_nat (length (l_ready L)) <= max_threads ->
  exists r rq' h',
    make_runnable t s = Some (r, set_runqueue (Some rq') (set_heap h' s)) /\
    (r = 0 /\ q_size rq <= q_size rq' /\
       sys_rep (set_runqueue (Some rq') (set_heap h' s)) sa za rq'
         (Tlists (l_sleep L) (l_ready L ++ [t]) (l_zomb L)) \/
     r = ENOMEM /\ q_size rq <= Z.of_nat (length (l_ready L)) + 1 /\ rq' = rq /\
       sys_rep (set_runqueue (Some rq') (set_heap h' s)) sa za rq L).
Proof.
  intros HR Hspl Hn. unfold make_runnable. rewrite (proj2 (Z.ltb_lt _ _)) by done.
  rewrite (rep_runqueue _ _ _ _ _ HR). simpl. pose proof (rep_q_len _ _ _ _ _ HR) as Hql.
  pose proof (rep_ring _ _ _ _ _ HR) as Hring.
  destruct (q_addtail_wp rq t (heap s) (rep_rq_wf _ _ _ _ _ HR)) as
    (r & q' & h' & -> & Hwf & Hs & Hr & Hsz).
  { unfold max_ring, max_qsize in *. lia. }
  simpl. eexists _, _, _. split; [done|]. rewrite Hql in *.
  assert (q_size q' <= max_ring) by (unfold max_ring, max_threads in *; lia).
  destruct Hr as [(-> & -> & Hfull & _)|(-> & Hl & _)]; [right|left]; (split; [done|]).
  - split; [lia|]. split; [done|]. destruct L as [l1 l2 l3].
    apply (rep_update_rq _ _ _ _ _ _ _ _ HR); [done|done|done|apply HR].
  - split; [lia|]. apply (rep_update_rq _ _ _ _ _ _ _ _ HR); [done|done|done|].
    by rewrite Hl, (rep_ready _ _ _ _ _ HR), fmap_app.
Qed.

Lemma scheduler_wp s sa za rq L :
  sys_rep s sa za rq L -> 0 < curspl s ->
  match l_ready L with
  | [] => scheduler s = Some (None, s)
  | t :: l => exists rq', scheduler s = Some (Some t, set_runqueue (Some rq') s) /\
      q_size rq' = q_size rq /\
      sys_rep (set_runqueue (Some rq') s) sa za rq' (Tlists (l_sleep L) l (l_zomb L))
  end.
Proof.
  intros HR Hspl. unfold scheduler. rewrite (proj2 (Z.ltb_lt _ _)) by done.
  rewrite (rep_runqueue _ _ _ _ _ HR). simpl. pose proof (rep_ready _ _ _ _ _ HR) as Hl.
  pose proof (q_empty_iff rq (rep_rq _ _ _ _ _ HR)) as He.
  destruct (l_ready L) as [|t l] eqn:El; simpl in Hl.
  - by rewrite (proj2 He Hl).
  - destruct (q_empty rq) eqn:Ee; [by rewrite (proj1 He eq_refl) in Hl|].
    destruct (q_remhead_wp rq (Some t) (Some <$> l) (heap s) (rep_rq_wf _ _ _ _ _ HR) Hl)
      as (q' & -> & Hwf & Hl' & Hsz & Hb). simpl.
    exists q'. split; [done|]. split; [done|].
    pose proof (rep_ring _ _ _ _ _ HR).
    assert (sys_rep (set_runqueue (Some q') (set_heap (heap s) s)) sa za q'
              (Tlists (l_sleep L) l (l_zomb L))) as HR'.
    { apply (rep_update_rq _ _ _ _ _ _ _ _ HR); [done|lia| |done].
      rewrite Hb. apply same_others_refl. }
    by destruct s.
Qed.

(** ** The arrays *)

Lemma array_add_list (h : Heap) (a : array Z) (l : list Z) t :
  array_wf h a -> contents a = Some <$> l -> Z.of_nat (length l) <= max_threads ->
  exists r a' h', array_add a t h = Some (r, a', h') /\ array_wf h' a' /\
    same_others h (array_blocks a) h' (array_blocks a') /\
    (r = 0 /\ contents a' = Some <$> (l ++ [t]) \/
     r = ENOMEM /\ a' = a /\ a_max a <= Z.of_nat (length l)) /\
    (Z.of_nat (length l) < a_max a -> a_max a' = a_max a).
Proof.
  intros Hwf Hc Hl. pose proof (contents_length a (proj2 (proj2 Hwf))) as Hn.
  pose proof Hwf as (_ & _ & Hb & _). rewrite Hc, length_fmap in Hn.
  destruct (array_add_wp h a t Hwf) as (r & a' & h' & -> & ? & ? & Hr & Hroom).
  { unfold max_guys, max_threads in *. lia. }
  eexists _, _, _. split; [done|]. split_and!; [done|done| |].
  - destruct Hr as [[-> ->]|[-> Hc']]; [right|left].
    + split_and!; [done|done|].
      destruct (decide (a_max a <= Z.of_nat (length l))); [done|].
      destruct Hroom; [lia|done].
    + by rewrite Hc', Hc, fmap_app.
  - intros ?. apply Hroom. lia.
Qed.

Lemma rep_getguy s sa za rq L (i : nat) t :
  sys_rep s sa za rq L -> l_sleep L !! i = Some t ->
  array_getguy sa (Z.of_nat i) = Some (Some t).
Proof.
  intros HR Ht. pose proof (rep_sa_wf _ _ _ _ _ HR) as Hwf.
  pose proof (contents_length sa (proj2 (proj2 Hwf))) as Hn.
  rewrite (rep_sleep _ _ _ _ _ HR), length_fmap in Hn.
  pose proof (lookup_lt_Some _ _ _ Ht).
  rewrite (array_getguy_wp (heap s)) by (done || lia).
  by rewrite Nat2Z.id, (rep_sleep _ _ _ _ _ HR), list_lookup_fmap, Ht.
Qed.

Lemma rep_getnum s sa za rq L :
  sys_rep s sa za rq L -> array_getnum sa = Z.of_nat (length (l_sleep L)).
Proof.
  intros HR. pose proof (contents_length sa (rep_sa _ _ _ _ _ HR)) as Hn.
  rewrite (rep_sleep _ _ _ _ _ HR), length_fmap in Hn.
  pose proof (rep_sa _ _ _ _ _ HR) as (? & _). unfold array_getnum. lia.
Qed.

Lemma rep_remove s sa za rq L (i : nat) :
  sys_rep s sa za rq L -> (i < length (l_sleep L))%nat ->
  exists sa', array_remove sa (Z.of_nat i) = Some sa' /\ a_max sa' = a_max sa /\
    sys_rep (set_sleepers (Some sa') s) sa' za rq
      (Tlists (delete i (l_sleep L)) (l_ready L) (l_zomb L)).
Proof.
  intros HR Hi. pose proof (rep_sa_wf _ _ _ _ _ HR) as Hwf.
  pose proof (rep_getnum _ _ _ _ _ HR) as Hn. unfold array_getnum in Hn.
  destruct (array_remove_wp (heap s) sa (Z.of_nat i) Hwf) as (a' & -> & Hwf' & Hc & Hm & _ & Hb);
    [lia|]. exists a'. split; [done|]. split; [done|].
  assert (sys_rep (set_sleepers (Some a') (set_heap (heap s) s)) a' za rq
            (Tlists (delete i (l_sleep L)) (l_ready L) (l_zomb L))) as HR'; [|by destruct s].
  apply (rep_update_sa _ _ _ _ _ _ _ _ HR); [done|rewrite Hb; apply same_others_refl|].
  by rewrite Hc, Nat2Z.id, (rep_sleep _ _ _ _ _ HR), list_fmap_delete.
Qed.

(** ** Waking up *)

Definition sleeps_on (ts : gmap Z thread) (addr t : Z) : Prop :=
  t_sleepaddr <$> ts !! t = Some addr.

#[global] Instance sleeps_on_dec ts addr t : Decision (sleeps_on ts addr t).
Proof. unfold sleeps_on. apply _. Defined.

Lemma sleeps_on_iff ts addr t th :
  ts !! t = Some th -> sleeps_on ts addr t <-> t_sleepaddr th = addr.
Proof. intros E. unfold sleeps_on. rewrite E. simpl. naive_solver. Qed.

(** What a wakeup changes. *)
Definition set_lists (sa : array Z) (rq : queue Z) (h : Heap) s : tsys :=
  set_sleepers (Some sa) (set_runqueue (Some rq) (set_heap h s)).

Lemma set_lists_id s sa za rq L :
  sys_rep s sa za rq L -> s = set_lists sa rq (heap s) s.
Proof.
  intros [Hs _ Hr _ _ _ _ _ _ _ _ _ _]. destruct s; simpl in *. subst. done.
Qed.

(** The outcome of waking the threads [woken] and keeping [kept] asleep: either
    all of it happens, or there was not enough room in the run queue. *)
Definition woke s (sa za : array Z) (rq : queue Z) L (kept woken : list Z) (o : option tsys) : Prop :=
  match o with
  | Some s' => exists sa' rq' h', s' = set_lists sa' rq' h' s /\
      a_max sa' = a_max sa /\ q_size rq <= q_size rq' /\
      sys_rep s' sa' za rq' (Tlists kept (l_ready L ++ woken) (l_zomb L))
  | None => q_size rq <= Z.of_nat (length (l_ready L) + length woken)
  end.

(** One turn of either loop that finds a thread to wake. *)
Lemma wake_one_turn s sa za rq L kept t rest :
  sys_rep s sa za rq L -> 0 < curspl s -> l_sleep L = kept ++ t :: rest ->
  Z.of_nat (length (l_ready L)) <= max_threads ->
  exists sa', array_remove sa (Z.of_nat (length kept)) = Some sa' /\
    exists r rq' h',
      make_runnable t (set_sleepers (Some sa') s) = Some (r, set_lists sa' rq' h' s) /\
      (r = 0 /\ a_max sa' = a_max sa /\ q_size rq <= q_size rq' /\
         sys_rep (set_lists sa' rq' h' s) sa' za rq'
           (Tlists (kept ++ rest) (l_ready L ++ [t]) (l_zomb L)) \/
       r = ENOMEM /\ q_size rq <= Z.of_nat (length (l_ready L)) + 1).
Proof.
  intros HR Hspl Hl Hn.
  destruct (rep_remove _ _ _ _ _ (length kept) HR) as (sa' & -> & Hm & HR1).
  { rewrite Hl. len. }
  rewrite Hl, delete_middle in HR1. exists sa'. split; [done|].
  destruct (make_runnable_wp _ _ _ _ _ t HR1 Hspl Hn) as (r & rq' & h' & -> & Hr).
  exists r, rq', h'. split; [by destruct s|].
  destruct Hr as [(-> & ? & HR2)|(-> & ? & _)]; [left|by right].
  split_and!; [done|done|done|]. by destruct s.
Qed.

(** The threads [thread_wakeup_one] keeps and wakes: after it has removed a
    thread it steps over the next one without looking at it. *)
Fixpoint wake_skip (ts : gmap Z thread) (addr : Z) (l : list Z) : list Z * list Z :=
  match l with
  | [] => ([], [])
  | t :: l =>
      if decide (sleeps_on ts addr t) then
        match l with
        | [] => ([], [t])
        | u :: l => let '(k, w) := wake_skip ts addr l in (u :: k, t :: w)
        end
      else let '(k, w) := wake_skip ts addr l in (t :: k, w)
  end.

Lemma woke_trans s sa za rq L sa1 rq1 h1 kept t woken o :
  a_max sa1 = a_max sa -> q_size rq <= q_size rq1 ->
  woke (set_lists sa1 rq1 h1 s) sa1 za rq1
    (Tlists [] (l_ready L ++ [t]) (l_zomb L)) kept woken o ->
  woke s sa za rq L kept (t :: woken) o.
Proof.
  intros Hm Hq Hw. destruct o as [s'|]; simpl in *.
  - destruct Hw as (sa' & rq' & h' & -> & ? & ? & HR). exists sa', rq', h'.
    split; [by destruct s|]. split_and!; [congruence|lia|]. rewrite <- app_assoc in HR. done.
  - len.
Qed.

(** What the loops need to know of the list they walk. *)
Definition walkable s L (rest : list Z) : Prop :=
  0 < curspl s /\ (forall t, t ∈ rest -> is_Some (threads s !! t)) /\
  Z.of_nat (length (l_ready L) + length rest) <= max_threads.

Lemma wakeup_loop_wp fuel addr s sa za rq L kept rest :
  sys_rep s sa za rq L -> l_sleep L = kept ++ rest -> walkable s L rest ->
  (length rest <= fuel)%nat ->
  woke s sa za rq L
    (kept ++ filter (fun t => ~ sleeps_on (threads s) addr t) rest)
    (filter (sleeps_on (threads s) addr) rest)
    (wakeup_loop fuel (Z.of_nat (length kept)) addr s).
Proof.
  revert s sa rq L kept rest. induction fuel as [|fuel IH];
    intros s sa rq L kept rest HR Hl (Hspl & Hth & Hn) Hf; simpl;
    rewrite (rep_sleepers _ _ _ _ _ HR); simpl; rewrite (rep_getnum _ _ _ _ _ HR), Hl;
    (destruct rest as [|t rest]; [rewrite (proj2 (Z.ltb_ge _ _)) by len|]).
  1,3: simpl; exists sa, rq, (heap s); rewrite !app_nil_r in *;
       (split; [by eapply set_lists_id|]);
       split_and!; [done|lia|]; destruct L; simpl in *; by subst.
  { simpl in Hf. lia. }
  rewrite (proj2 (Z.ltb_lt _ _)) by len. simpl in Hf, Hn.
  erewrite rep_getguy; [|done|rewrite Hl; apply list_lookup_middle; done]. simpl.
  destruct (Hth t) as [th Eth]; [set_solver|]. unfold get_thread. rewrite Eth. simpl.
  destruct (t_sleepaddr th =? addr) eqn:Ea; boolify.
  - apply (sleeps_on_iff _ _ _ _ Eth) in Ea.
    rewrite (filter_cons_True (sleeps_on _ _)), (filter_cons_False (fun t => ~ _))
      by (done || (intros Hns; by apply Hns)).
    destruct (wake_one_turn _ _ _ _ _ kept t rest HR Hspl Hl) as
      (sa1 & -> & r & rq1 & h1 & Em & Hr); [lia|]. simpl. rewrite Em. simpl.
    destruct Hr as [(-> & Hm & Hq & HR1)|(-> & Hq)]; simpl; [|len].
    apply (woke_trans s sa za rq L sa1 rq1 h1); [done..|].
    apply (IH _ _ _ _ kept rest HR1); [done| |lia].
    split_and!; [done|set_solver|simpl; len].
  - rewrite <- (sleeps_on_iff _ addr _ _ Eth) in Ea.
    rewrite (filter_cons_False (sleeps_on _ _)), (filter_cons_True (fun t => ~ _)) by done.
    replace (Z.of_nat (length kept) + 1) with (Z.of_nat (length (kept ++ [t]))) by len.
    replace (kept ++ t :: filter _ rest) with ((kept ++ [t]) ++ filter
      (fun t => ~ sleeps_on (threads s) addr t) rest) by (by rewrite <- app_assoc).
    apply (IH _ _ _ _ (kept ++ [t]) rest HR); [by rewrite <- app_assoc| |lia].
    split_and!; [done|set_solver|lia].
Qed.

Lemma woke_nothing s sa za rq L :
  sys_rep s sa za rq L -> woke s sa za rq L (l_sleep L) [] (Some s).
Proof.
  intros HR. exists sa, rq, (heap s). split; [by eapply set_lists_id|].
  split_and!; [done|lia|]. rewrite app_nil_r. by destruct L.
Qed.

Lemma wakeup_one_done fuel i addr s sa za rq L :
  sys_rep s sa za rq L -> Z.of_nat (length (l_sleep L)) <= i ->
  wakeup_one_loop fuel i addr s = Some s.
Proof.
  intros HR Hi. destruct fuel; simpl; rewrite (rep_sleepers _ _ _ _ _ HR); simpl;
    rewrite (rep_getnum _ _ _ _ _ HR), (proj2 (Z.ltb_ge _ _)) by done; done.
Qed.

Lemma wakeup_one_loop_wp fuel addr s sa za rq L kept rest :
  sys_rep s sa za rq L -> l_sleep L = kept ++ rest -> walkable s L rest ->
  (length rest <= fuel)%nat ->
  woke s sa za rq L
    (kept ++ (wake_skip (threads s) addr rest).1) (wake_skip (threads s) addr rest).2
    (wakeup_one_loop fuel (Z.of_nat (length kept)) addr s).
Proof.
  revert s sa rq L kept rest. induction fuel as [|fuel IH];
    intros s sa rq L kept rest HR Hl (Hspl & Hth & Hn) Hf;
    (destruct rest as [|t rest]; [erewrite wakeup_one_done by (done || (rewrite Hl; len));
      simpl; rewrite <- Hl; by apply woke_nothing|]).
  { simpl in Hf. lia. }
  simpl in Hf, Hn |- *. rewrite (rep_sleepers _ _ _ _ _ HR). simpl.
  rewrite (rep_getnum _ _ _ _ _ HR), Hl. rewrite (proj2 (Z.ltb_lt _ _)) by len.
  erewrite rep_getguy; [|done|rewrite Hl; apply list_lookup_middle; done]. simpl.
  destruct (Hth t) as [th Eth]; [set_solver|]. unfold get_thread. rewrite Eth. simpl.
  pose proof (sleeps_on_iff _ addr _ _ Eth) as Hs.
  destruct (t_sleepaddr th =? addr) eqn:Ea; boolify.
  - rewrite decide_True by tauto.
    destruct (wake_one_turn _ _ _ _ _ kept t rest HR Hspl Hl) as
      (sa1 & -> & r & rq1 & h1 & Em & Hr); [lia|]. simpl. rewrite Em. simpl.
    destruct Hr as [(-> & Hm & Hq & HR1)|(-> & Hq)]; simpl;
      [|destruct rest as [|u rest]; [|destruct (wake_skip _ _ rest)]; simpl; len].
    destruct rest as [|u rest].
    + erewrite wakeup_one_done; [|done|simpl; len].
      apply (woke_trans s sa za rq L sa1 rq1 h1); [done..|]. by apply woke_nothing in HR1.
    + replace (Z.of_nat (length kept) + 1) with (Z.of_nat (length (kept ++ [u]))) by len.
      assert (walkable (set_lists sa1 rq1 h1 s) (Tlists (kept ++ u :: rest)
                (l_ready L ++ [t]) (l_zomb L)) rest) as Hwalk.
      { split_and!; [done|set_solver|simpl in *; len]. }
      specialize (IH _ _ _ _ (kept ++ [u]) rest HR1 ltac:(simpl; by rewrite <- app_assoc)
        Hwalk ltac:(simpl in Hf; lia)). simpl in IH.
      destruct (wake_skip (threads s) addr rest) as [k w]; simpl in *.
      apply (woke_trans s sa za rq L sa1 rq1 h1); [done..|]. by rewrite <- app_assoc in IH.
  - rewrite decide_False by tauto.
    replace (Z.of_nat (length kept) + 1) with (Z.of_nat (length (kept ++ [t]))) by len.
    specialize (IH _ _ _ _ (kept ++ [t]) rest HR ltac:(by rewrite <- app_assoc)
      ltac:(split_and!; [done|set_solver|lia]) ltac:(lia)).
    destruct (wake_skip (threads s) addr rest) as [k w]; simpl in *.
    by rewrite <- app_assoc in IH.
Qed.

(** ** Threads change place *)

Lemma places_perm s L s' L' :
  sys_places s L -> threads s' = threads s -> l_zomb L' = l_zomb L ->
  live s' L' ≡ₚ live s L -> numthreads s' = numthreads s -> sys_places s' L'.
Proof.
  intros [Hnd Hdom Hnum Hz Hth] Et Ez E En. split.
  - by rewrite Ez, E.
  - intros t. by rewrite Ez, E, Et.
  - by rewrite En, E.
  - rewrite Ez, Et. done.
  - by rewrite Et.
Qed.

Lemma filter_split {A} (P : A -> Prop) `{forall x, Decision (P x)} (l : list A) :
  filter (fun x => ~ P x) l ++ filter P l ≡ₚ l.
Proof.
  induction l as [|x l IH]; [done|]. destruct (decide (P x)).
  - rewrite filter_cons_False, filter_cons_True by tauto.
    rewrite <- Permutation_middle. by rewrite IH.
  - rewrite filter_cons_True, (filter_cons_False P) by tauto. simpl. by rewrite IH.
Qed.

Lemma wake_skip_split ts addr l :
  (wake_skip ts addr l).1 ++ (wake_skip ts addr l).2 ≡ₚ l.
Proof.
  induction l as [l IH] using (induction_ltof1 _ (@length Z)); unfold ltof in IH.
  destruct l as [|t l]; [done|]. simpl. case_decide.
  - destruct l as [|u l]; [done|]. specialize (IH l ltac:(simpl; lia)).
    destruct (wake_skip ts addr l) as [k w]; simpl in *.
    rewrite <- Permutation_middle, IH. apply Permutation_swap.
  - specialize (IH l ltac:(simpl; lia)).
    destruct (wake_skip ts addr l) as [k w]; simpl in *. by rewrite IH.
Qed.

(** A wakeup keeps the invariant, whichever sleepers it picks. *)
Lemma woke_inv s sa za rq L kept woken o :
  sys_inv s sa za rq L -> kept ++ woken ≡ₚ l_sleep L ->
  woke s sa za rq L kept woken o ->
  (Z.of_nat (length (l_ready L) + length woken) < q_size rq -> is_Some o) /\
  forall s', o = Some s' -> exists sa' rq' h', s' = set_lists sa' rq' h' s /\
    a_max sa' = a_max sa /\ q_size rq <= q_size rq' /\
    sys_inv s' sa' za rq' (Tlists kept (l_ready L ++ woken) (l_zomb L)).
Proof.
  intros [HR HP] Hp Hw. destruct o as [s'|]; simpl in Hw; (split; [intros|]).
  - by eexists.
  - intros ? [= <-]. destruct Hw as (sa' & rq' & h' & -> & ? & ? & HR').
    exists sa', rq', h'. split_and!; [done..|]. split; [done|].
    apply (places_perm _ _ _ _ HP); [done|done| |done].
    unfold live, cur_list. simpl. rewrite <- Hp. apply Permutation_app_head.
    rewrite <- !app_assoc. apply Permutation_app_head. apply Permutation_app_comm.
  - lia.
  - done.
Qed.

Lemma inv_walkable s sa za rq L :
  sys_inv s sa za rq L -> 0 < curspl s -> walkable s L (l_sleep L).
Proof.
  intros HI Hspl. pose proof (places_count _ _ _ _ _ HI) as Hc. destruct HI as [HR HP].
  unfold live in *. split_and!; [done| |len].
  intros t Ht. apply (inv_dom _ _ HP). unfold live. set_solver.
Qed.

Lemma thread_wakeup_wp s sa za rq L addr :
  sys_inv s sa za rq L -> 0 < curspl s ->
  let woken := filter (sleeps_on (threads s) addr) (l_sleep L) in
  (Z.of_nat (length (l_ready L) + length woken) < q_size rq ->
     is_Some (thread_wakeup addr s)) /\
  forall s', thread_wakeup addr s = Some s' ->
    exists sa' rq' h', s' = set_lists sa' rq' h' s /\
      a_max sa' = a_max sa /\ q_size rq <= q_size rq' /\
      sys_inv s' sa' za rq'
        (Tlists (filter (fun t => ~ sleeps_on (threads s) addr t) (l_sleep L))
           (l_ready L ++ woken) (l_zomb L)).
Proof.
  intros HI Hspl woken. pose proof HI as [HR _]. unfold thread_wakeup.
  rewrite (proj2 (Z.ltb_lt _ _)), (rep_sleepers _ _ _ _ _ HR) by done. simpl.
  apply woke_inv; [done|apply filter_split|].
  rewrite (rep_getnum _ _ _ _ _ HR), Nat2Z.id.
  apply (wakeup_loop_wp _ _ _ _ _ _ _ [] (l_sleep L) HR); [done| |done].
  by eapply inv_walkable.
Qed.

Lemma thread_wakeup_one_wp s sa za rq L addr :
  sys_inv s sa za rq L -> 0 < curspl s ->
  let '(kept, woken) := wake_skip (threads s) addr (l_sleep L) in
  (Z.of_nat (length (l_ready L) + length woken) < q_size rq ->
     is_Some (thread_wakeup_one addr s)) /\
  forall s', thread_wakeup_one addr s = Some s' ->
    exists sa' rq' h', s' = set_lists sa' rq' h' s /\
      a_max sa' = a_max sa /\ q_size rq <= q_size rq' /\
      sys_inv s' sa' za rq' (Tlists kept (l_ready L ++ woken) (l_zomb L)).
Proof.
  intros HI Hspl. pose proof HI as [HR _].
  pose proof (wake_skip_split (threads s) addr (l_sleep L)) as Hp.
  pose proof (wakeup_one_loop_wp (length (l_sleep L)) addr s sa za rq L [] (l_sleep L) HR
    eq_refl ltac:(by eapply inv_walkable) ltac:(done)) as Hw.
  destruct (wake_skip _ _ _) as [kept woken]; simpl in Hp, Hw.
  unfold thread_wakeup_one.
  rewrite (proj2 (Z.ltb_lt _ _)), (rep_sleepers _ _ _ _ _ HR) by done. simpl.
  rewrite (rep_getnum _ _ _ _ _ HR), Nat2Z.id. by apply woke_inv.
Qed.

(** ** Giving up the processor *)

Lemma rep_ext s s' sa za rq L :
  sys_rep s sa za rq L -> sleepers s' = sleepers s -> zombies s' = zombies s ->
  runqueue s' = runqueue s -> threads s' = threads s -> heap s' = heap s ->
  sys_rep s' sa za rq L.
Proof.
  intros [] Es Ez Er Et Eh. split; try congruence; rewrite ?Et, ?Eh; done.
Qed.

(** The list a thread that stops running goes to. *)
Definition stash (ns : threadstate_t) (t : Z) L : tlists :=
  match ns with
  | S_READY => Tlists (l_sleep L) (l_ready L ++ [t]) (l_zomb L)
  | S_SLEEP => Tlists (l_sleep L ++ [t]) (l_ready L) (l_zomb L)
  | S_ZOMB => Tlists (l_sleep L) (l_ready L) (l_zomb L ++ [t])
  | S_RUN => L
  end.

(** Room for it, in the container as it is. *)
Definition has_room (ns : threadstate_t) (sa za : array Z) (rq : queue Z) L : Prop :=
  match ns with
  | S_READY => Z.of_nat (length (l_ready L)) + 1 < q_size rq
  | S_SLEEP => Z.of_nat (length (l_sleep L)) < a_max sa
  | S_ZOMB => Z.of_nat (length (l_zomb L)) < a_max za
  | S_RUN => False
  end.

Definition set_all (sa za : array Z) (rq : queue Z) (h : Heap) s : tsys :=
  set_zombies (Some za) (set_lists sa rq h s).

Definition small L : Prop :=
  Z.of_nat (length (l_sleep L)) <= max_threads /\
  Z.of_nat (length (l_ready L)) <= max_threads /\
  Z.of_nat (length (l_zomb L)) <= max_threads.

Lemma inv_small s sa za rq L : sys_inv s sa za rq L -> small L.
Proof.
  intros HI. pose proof (places_count _ _ _ _ _ HI). unfold live in *.
  split_and!; len.
Qed.

Lemma set_all_id s sa za rq L :
  sys_rep s sa za rq L -> s = set_all sa za rq (heap s) s.
Proof.
  intros [Hs Hz Hr _ _ _ _ _ _ _ _ _ _]. destruct s; simpl in *. subst. done.
Qed.

(** The outcome of stashing a thread. *)
Definition stashed s (sa za : array Z) (rq : queue Z) L ns t (o : option (Z * tsys)) : Prop :=
  exists r sa' za' rq' h',
    o = Some (r, set_all sa' za' rq' h' s) /\
    (has_room ns sa za rq L -> r = 0 /\ a_max sa' = a_max sa /\ a_max za' = a_max za /\
       q_size rq <= q_size rq') /\
    (r = 0 -> sys_rep (set_all sa' za' rq' h' s) sa' za' rq' (stash ns t L)).

Lemma stash_ready s sa za rq L t :
  sys_rep s sa za rq L -> 0 < curspl s -> small L ->
  stashed s sa za rq L S_READY t (make_runnable t s).
Proof.
  intros HR Hspl (? & ? & ?).
  destruct (make_runnable_wp _ _ _ _ _ t HR Hspl) as (r & rq' & h' & -> & Hr); [done|].
  exists r, sa, za, rq', h'.
  assert (set_runqueue (Some rq') (set_heap h' s) = set_all sa za rq' h' s) as E.
  { pose proof (set_all_id _ _ _ _ _ HR) as E. rewrite E at 1. by destruct s. }
  rewrite E in *. split_and!; [done| |].
  - simpl. intros. destruct Hr as [(-> & ? & _)|(-> & ? & _)]; [done|lia].
  - intros ->. destruct Hr as [(_ & _ & Hr)|(? & _)]; [done|done].
Qed.

Lemma stash_sleep s sa za rq L t :
  sys_rep s sa za rq L -> small L ->
  stashed s sa za rq L S_SLEEP t
    (sl ← sleepers s; '(r, sl, h) ← array_add sl t (heap s);
     Some (r, set_sleepers (Some sl) (set_heap h s))).
Proof.
  intros HR (? & ? & ?). rewrite (rep_sleepers _ _ _ _ _ HR). simpl.
  destruct (array_add_list _ sa (l_sleep L) t (rep_sa_wf _ _ _ _ _ HR)) as
    (r & a' & h' & -> & Hwf & Hs & Hr & Hm); [apply HR|done|]. simpl.
  exists r, a', za, rq, h'.
  assert (set_sleepers (Some a') (set_heap h' s) = set_all a' za rq h' s) as E.
  { pose proof (set_all_id _ _ _ _ _ HR) as E. rewrite E at 1. by destruct s. }
  rewrite E. split_and!; [done| |].
  - simpl. intros Hroom. split_and!; [|by apply Hm|done|done].
    destruct Hr as [[-> _]|(_ & _ & ?)]; [done|lia].
  - intros ->. destruct Hr as [[_ Hc]|(? & _)]; [|done]. rewrite <- E.
    by apply (rep_update_sa _ _ _ _ _ _ _ _ HR).
Qed.

Lemma stash_zomb s sa za rq L t :
  sys_rep s sa za rq L -> small L ->
  stashed s sa za rq L S_ZOMB t
    (z ← zombies s; '(r, z, h) ← array_add z t (heap s);
     Some (r, set_zombies (Some z) (set_heap h s))).
Proof.
  intros HR (? & ? & ?). rewrite (rep_zombies _ _ _ _ _ HR). simpl.
  destruct (array_add_list _ za (l_zomb L) t (rep_za_wf _ _ _ _ _ HR)) as
    (r & a' & h' & -> & Hwf & Hs & Hr & Hm); [apply HR|done|]. simpl.
  exists r, sa, a', rq, h'.
  assert (set_zombies (Some a') (set_heap h' s) = set_all sa a' rq h' s) as E.
  { pose proof (set_all_id _ _ _ _ _ HR) as E. rewrite E at 1. by destruct s. }
  rewrite E. split_and!; [done| |].
  - simpl. intros Hroom. split_and!; [|done|by apply Hm|done].
    destruct Hr as [[-> _]|(_ & _ & ?)]; [done|lia].
  - intros ->. destruct Hr as [[_ Hc]|(? & _)]; [|done]. rewrite <- E.
    by apply (rep_update_za _ _ _ _ _ _ _ _ HR).
Qed.

Lemma mi_switch_out_rep ns s sa za rq L th :
  sys_rep s sa za rq L -> 0 < curspl s -> small L -> ns <> S_RUN ->
  curthread s <> 0 -> threads s !! curthread s = Some th -> stack_intact th = true ->
  (has_room ns sa za rq L -> is_Some (mi_switch_out ns s)) /\
  forall o s', mi_switch_out ns s = Some (o, s') ->
    o = Some (curthread s) /\ exists sa' za' rq' h',
      s' = set_curthread 0 (set_all sa' za' rq' h' s) /\
      (has_room ns sa za rq L -> a_max sa' = a_max sa /\ a_max za' = a_max za /\
         q_size rq <= q_size rq') /\
      sys_rep s' sa' za' rq' (stash ns (curthread s) L).
Proof.
  intros HR Hspl Hsm Hns Hc Eth Hst. unfold mi_switch_out, get_thread.
  rewrite (proj2 (Z.ltb_lt _ _)), (proj2 (Z.eqb_neq _ _)) by done.
  rewrite Eth. simpl. rewrite Hst.
  assert (sys_rep (set_curthread 0 s) sa za rq L) as HR0 by (by apply (rep_ext s)).
  assert (stashed (set_curthread 0 s) sa za rq L ns (curthread s)
            (stash_thread ns (curthread s) (set_curthread 0 s))) as
    (r & sa' & za' & rq' & h' & -> & Hroom & HR').
  { destruct ns; [done|by apply stash_ready|by apply stash_sleep|by apply stash_zomb]. }
  simpl. split.
  - intros Hr. destruct (Hroom Hr) as (-> & _). by eexists.
  - intros o s' E. destruct (r =? 0) eqn:Er; boolify; simplify_eq.
    split; [done|]. exists sa', za', rq', h'. split; [by destruct s|].
    split; [by intros Hr; destruct (Hroom Hr)|by apply HR'].
Qed.

(** ** The thread structures *)

Lemma threads_blocks_insert (ts : gmap Z thread) t th :
  ts !! t = None -> threads_blocks (<[t := th]> ts) ≡ₚ thread_blocks (t, th) ++ threads_blocks ts.
Proof. intros E. unfold threads_blocks. by rewrite map_to_list_insert. Qed.

Lemma threads_blocks_delete (ts : gmap Z thread) t th :
  ts !! t = Some th ->
  threads_blocks ts ≡ₚ thread_blocks (t, th) ++ threads_blocks (delete t ts).
Proof. intros E. unfold threads_blocks. by rewrite <- (map_to_list_delete ts t th E). Qed.

Lemma threads_blocks_update (ts : gmap Z thread) t th th' :
  ts !! t = Some th -> t_name th' = t_name th -> t_stack th' = t_stack th ->
  threads_blocks (<[t := th']> ts) ≡ₚ threads_blocks ts.
Proof.
  intros E En Es. rewrite <- insert_delete_eq.
  rewrite threads_blocks_insert by apply lookup_delete_eq.
  rewrite (threads_blocks_delete ts t th E). unfold thread_blocks. simpl. by rewrite En, Es.
Qed.

(** Freeing a thread structure, as [thread_destroy] and [thread_fork] do. *)
Lemma free_thread (h : Heap) t th rest :
  heap_ok h -> owns h (thread_blocks (t, th) ++ rest) ->
  exists h1 h2 h3,
    (if t_stack th =? 0 then Some h else kfree (t_stack th) h) = Some h1 /\
    kfree (t_name th) h1 = Some h2 /\ kfree t h2 = Some h3 /\
    freed h (thread_blocks (t, th)) h3.
Proof.
  intros Hok Ho. unfold thread_blocks in *. simpl in *.
  destruct (t_stack th =? 0) eqn:Es; boolify; simpl in Ho.
  - destruct Ho as [[Hn1 [Hn2 _]%list.NoDup_cons]%list.NoDup_cons Hl].
    destruct (kfree_freed h (t_name th) Hok) as (h2 & E2 & F2); [apply Hl; set_solver|].
    destruct (kfree_freed h2 t) as (h3 & E3 & F3); [apply F2| |].
    { destruct F2 as [_ F2]. rewrite F2, decide_False by set_solver. apply Hl. set_solver. }
    exists h, h2, h3. split_and!; [done..|].
    destruct (freed_trans _ _ _ _ _ F2 F3) as [? F]. split; [done|]. intros q. rewrite F.
    repeat case_decide; set_solver.
  - destruct Ho as [[Hn1 [Hn2 [Hn3 _]%list.NoDup_cons]%list.NoDup_cons]%list.NoDup_cons Hl].
    destruct (kfree_freed h (t_stack th) Hok) as (h1 & E1 & F1); [apply Hl; set_solver|].
    destruct (kfree_freed h1 (t_name th)) as (h2 & E2 & F2); [apply F1| |].
    { destruct F1 as [_ F1]. rewrite F1, decide_False by set_solver. apply Hl. set_solver. }
    pose proof (freed_trans _ _ _ _ _ F1 F2) as F12.
    destruct (kfree_freed h2 t) as (h3 & E3 & F3); [apply F2| |].
    { destruct F12 as [_ F12]. rewrite F12, decide_False by set_solver. apply Hl. set_solver. }
    exists h1, h2, h3. split_and!; [done..|].
    destruct (freed_trans _ _ _ _ _ F12 F3) as [? F]. split; [done|]. intros q. rewrite F.
    repeat case_decide; set_solver.
Qed.

(** Removing a thread and its blocks. *)
Lemma rep_delete s sa za rq L t th h' :
  sys_rep s sa za rq L -> threads s !! t = Some th ->
  freed (heap s) (thread_blocks (t, th)) h' ->
  sys_rep (set_threads (delete t (threads s)) (set_heap h' s)) sa za rq L /\
  same_others (heap s) (sys_blocks sa za rq (threads s)) h'
    (sys_blocks sa za rq (delete t (threads s))).
Proof.
  intros HR Et F. pose proof HR as [].
  assert (sys_blocks sa za rq (threads s) ≡ₚ
          thread_blocks (t, th) ++ sys_blocks sa za rq (delete t (threads s))) as E.
  { unfold sys_blocks. rewrite (threads_blocks_delete _ _ _ Et).
    rewrite (Permutation_app_swap_app (queue_blocks rq)),
      (Permutation_app_swap_app (array_blocks za)),
      (Permutation_app_swap_app (array_blocks sa)). done. }
  rewrite E in rep_owns0. split; [split; simpl; try done|].
  - apply F.
  - by eapply freed_owns.
  - intros u uh [Hne Eu]%lookup_delete_Some. destruct F as [_ F]. rewrite F.
    rewrite decide_False; [by apply (rep_sizes0 u uh)|]. intros Hin.
    apply owns_app in rep_owns0 as (_ & _ & Hd). apply (Hd u Hin).
    unfold sys_blocks. rewrite !elem_of_app. do 3 right.
    apply list_elem_of_bind. exists (u, uh). split; [set_solver|].
    apply elem_of_map_to_list. by rewrite lookup_delete_ne.
  - rewrite E. by apply freed_same_others.
Qed.

Lemma thread_destroy_wp s sa za rq L t th :
  sys_rep s sa za rq L -> threads s !! t = Some th -> t <> curthread s ->
  t_vmspace th = 0 -> t_cwd th = 0 ->
  exists h', thread_destroy t s = Some (set_threads (delete t (threads s)) (set_heap h' s)) /\
    sys_rep (set_threads (delete t (threads s)) (set_heap h' s)) sa za rq L /\
    same_others (heap s) (sys_blocks sa za rq (threads s)) h'
      (sys_blocks sa za rq (delete t (threads s))).
Proof.
  intros HR Et Hne Hv Hc. pose proof (rep_owns _ _ _ _ _ HR) as Ho.
  destruct (free_thread (heap s) t th (sys_blocks sa za rq (delete t (threads s))))
    as (h1 & h2 & h3 & E1 & E2 & E3 & F); [apply HR| |].
  { unfold sys_blocks in *. rewrite (threads_blocks_delete _ _ _ Et) in Ho.
    rewrite <- (Permutation_app_swap_app (array_blocks sa)),
      <- (Permutation_app_swap_app (array_blocks za)),
      <- (Permutation_app_swap_app (queue_blocks rq)). done. }
  exists h3. split; [|by eapply rep_delete].
  unfold thread_destroy, get_thread. rewrite (proj2 (Z.eqb_neq _ _)), Et by done. simpl.
  rewrite Hv, Hc, E1. simpl. rewrite E2. simpl. by rewrite E3.
Qed.

Lemma exorcise_loop_wp za0 rest (i : nat) s sa za rq L :
  sys_rep s sa za rq L -> NoDup rest -> curthread s ∉ rest ->
  (forall k t, rest !! k = Some t -> array_getguy za0 (Z.of_nat (i + k)) = Some (Some t)) ->
  (forall t, t ∈ rest -> exists th, threads s !! t = Some th /\ t_vmspace th = 0 /\ t_cwd th = 0) ->
  exists ts' h', exorcise_loop (length rest) (Z.of_nat i) za0 s =
      Some (set_threads ts' (set_heap h' s)) /\
    (forall t, ts' !! t = if decide (t ∈ rest) then None else threads s !! t) /\
    sys_rep (set_threads ts' (set_heap h' s)) sa za rq L /\
    same_others (heap s) (sys_blocks sa za rq (threads s)) h' (sys_blocks sa za rq ts').
Proof.
  revert i s. induction rest as [|t rest IH]; intros i s HR Hnd Hcur Hget Hz.
  { exists (threads s), (heap s). split_and!; [by destruct s| |by destruct s|apply same_others_refl].
    intros t. by rewrite decide_False by set_solver. }
  cbn [length exorcise_loop]. apply list.NoDup_cons in Hnd as [Hnin Hnd].
  pose proof (Hget 0%nat t eq_refl) as Eg. rewrite Nat.add_0_r in Eg. rewrite Eg. simpl.
  rewrite (proj2 (Z.eqb_neq _ _)) by set_solver. simpl.
  destruct (Hz t) as (th & Et & Hv & Hc); [set_solver|].
  destruct (thread_destroy_wp s sa za rq L t th HR Et) as (h1 & -> & HR1 & Hs1);
    [set_solver|done|done|]. simpl.
  replace (Z.of_nat i + 1) with (Z.of_nat (S i)) by lia.
  destruct (IH (S i) _ HR1 Hnd) as (ts' & h' & -> & Hts & HR' & Hs').
  { simpl. set_solver. }
  { intros k u Hk. replace (S i + k)%nat with (i + S k)%nat by lia. by apply Hget. }
  { intros u Hu. simpl. rewrite lookup_delete_ne by (intros ->; done). apply Hz. set_solver. }
  exists ts', h'. split_and!; [by destruct s| |by destruct s|by eapply same_others_trans].
  intros u. rewrite Hts. simpl. destruct (decide (u = t)) as [->|Hne].
  - rewrite lookup_delete_eq. repeat case_decide; set_solver.
  - rewrite lookup_delete_ne by done. repeat case_decide; set_solver.
Qed.

Lemma cur_not_zomb s sa za rq L : sys_inv s sa za rq L -> curthread s ∉ l_zomb L.
Proof.
  intros [HR [Hnd Hdom _ _ _]] Hin. destruct (decide (curthread s = 0)) as [E0|E0].
  - destruct (proj1 (Hdom (curthread s))) as [th Et]; [set_solver|].
    pose proof (rep_sizes _ _ _ _ _ HR _ _ Et) as Hb.
    apply blocks_range in Hb; [lia|apply HR].
  - apply list.NoDup_app in Hnd as (_ & Hd & _). apply (Hd (curthread s)); [|done].
    unfold live, cur_list. rewrite (proj2 (Z.eqb_neq _ _)) by done. set_solver.
Qed.

Lemma rep_zomb_getguy s sa za rq L (k : nat) t :
  sys_rep s sa za rq L -> l_zomb L !! k = Some t ->
  array_getguy za (Z.of_nat k) = Some (Some t).
Proof.
  intros HR Hk. pose proof (lookup_lt_Some _ _ _ Hk).
  pose proof (contents_length za (rep_za _ _ _ _ _ HR)) as Hn.
  rewrite (rep_zomb _ _ _ _ _ HR), length_fmap in Hn.
  rewrite (array_getguy_wp (heap s)) by (by eapply rep_za_wf || lia).
  by rewrite Nat2Z.id, (rep_zomb _ _ _ _ _ HR), list_lookup_fmap, Hk.
Qed.

(** [exorcise] always succeeds; it disposes of the zombies and of nothing else. *)
Lemma exorcise_wp s sa za rq L :
  sys_inv s sa za rq L -> 0 < curspl s ->
  exists ts' za' h', let s' := set_zombies (Some za') (set_threads ts' (set_heap h' s)) in
    exorcise s = Some s' /\
    (forall t, ts' !! t = if decide (t ∈ l_zomb L) then None else threads s !! t) /\
    sys_inv s' sa za' rq (Tlists (l_sleep L) (l_ready L) []) /\
    same_others (heap s) (sys_blocks sa za rq (threads s)) h' (sys_blocks sa za' rq ts').
Proof.
  intros HI Hspl. pose proof HI as [HR HP]. unfold exorcise.
  rewrite (proj2 (Z.ltb_lt _ _)), (rep_zombies _ _ _ _ _ HR) by done. simpl.
  pose proof (contents_length za (rep_za _ _ _ _ _ HR)) as Hn.
  rewrite (rep_zomb _ _ _ _ _ HR), length_fmap in Hn. unfold array_getnum.
  rewrite <- Hn. pose proof HP as [Hnd Hdom Hnum Hz Hth].
  apply list.NoDup_app in Hnd as (Hnd1 & Hd & Hnd2).
  destruct (exorcise_loop_wp za (l_zomb L) 0 s sa za rq L HR Hnd2) as
    (ts' & h1 & E1 & Hts & HR1 & Hs1).
  { by eapply cur_not_zomb. }
  { intros k t. by eapply rep_zomb_getguy. }
  { intros t Ht. destruct (proj1 (Hdom t)) as [th Et]; [set_solver|]. exists th.
    destruct (Hz t th Ht Et). done. }
  change (Z.of_nat 0) with 0 in E1. rewrite E1. simpl. destruct (array_setsize_wp za 0 h1) as (r & za' & h' & -> & Hwf & Hs2 & Hr);
    [by apply (rep_za_wf _ _ _ _ _ HR1)|unfold max_guys; lia|]. simpl.
  pose proof (rep_za _ _ _ _ _ HR) as (? & ? & _).
  destruct Hr as [(_ & ? & _)|(-> & Hz0 & _)]; [lia|]. simpl.
  assert (contents za' = Some <$> []) as Hc.
  { unfold contents. rewrite Hz0. apply take_0. }
  pose proof (rep_update_za _ _ _ _ _ _ _ _ HR1 Hwf Hs2 Hc) as HR2.
  exists ts', za', h'. split; [by destruct s|]. split; [done|]. split; [split|].
  - by destruct s.
  - split; simpl.
    + by rewrite app_nil_r.
    + intros t. rewrite app_nil_r, Hts. case_decide as Hin.
      * split; [intros Hl; by destruct (Hd t Hl)|by intros []].
      * rewrite <- Hdom. set_solver.
    + done.
    + set_solver.
    + intros t th. rewrite Hts. case_decide; [done|]. apply Hth.
  - eapply same_others_trans; [exact Hs1|]. unfold sys_blocks. simpl in Hs2.
    rewrite !(Permutation_app_swap_app (array_blocks sa)). by apply same_others_app.
Qed.
End inv.
