(* ===== verification/ThreadOps.v ===== *)
(** * What the thread operations do

    The whole operations of kern/thread/thread.c against the invariant of
    [ThreadInv]: creating, switching, waking and ending threads. *)

From stdpp Require Import base option list gmap fin_maps numbers.
From S2P Require Import Prelude Kmem Array Queue Thread ThreadInv.

Section ops.
Context {Heap W : Type} `{KmallocLaws Heap} `{!ThreadEnv W}.
Abbreviation tsys := (tsys Heap W).
Implicit Types (s : tsys) (L : tlists).

(** Updates of a thread structure that keep the invariant. *)
Definition keeps (f : thread -> thread) : Prop :=
  forall th, t_name (f th) = t_name th /\ t_stack (f th) = t_stack th /\
    t_magic (f th) = t_magic th /\ (is_Some (t_pcb th) -> is_Some (t_pcb (f th))) /\
    (t_vmspace th = 0 -> t_vmspace (f th) = 0) /\ (t_cwd th = 0 -> t_cwd (f th) = 0).

Lemma keeps_sleepaddr a : keeps (set_t_sleepaddr a).
Proof. by intros []. Qed.
Lemma keeps_pcb p : keeps (set_t_pcb (Some p)).
Proof. by intros []. Qed.
Lemma keeps_vmspace : keeps (set_t_vmspace 0).
Proof. by intros []. Qed.
Lemma keeps_cwd : keeps (set_t_cwd 0).
Proof. by intros []. Qed.

Lemma rep_insert_same s sa za rq L t th th' :
  sys_rep s sa za rq L -> threads s !! t = Some th ->
  t_name th' = t_name th -> t_stack th' = t_stack th ->
  sys_rep (set_threads (<[t := th']> (threads s)) s) sa za rq L.
Proof.
  intros HR Et En Es. pose proof HR as []. split; simpl; try done.
  - unfold sys_blocks in *. by rewrite (threads_blocks_update _ t th th' Et En Es).
  - intros u uh [[<- _]|[_ Eu]]%lookup_insert_Some; eauto.
Qed.

Lemma inv_upd_thread s sa za rq L t f th :
  sys_inv s sa za rq L -> keeps f -> threads s !! t = Some th ->
  upd_thread t f s = Some (set_threads (<[t := f th]> (threads s)) s) /\
  sys_inv (set_threads (<[t := f th]> (threads s)) s) sa za rq L.
Proof.
  intros [HR HP] Hf Et. unfold upd_thread. rewrite Et. split; [done|].
  destruct (Hf th) as (En & Es & Em & Hp & Hv & Hc). split; [by eapply rep_insert_same|].
  destruct HP as [Hnd Hdom Hnum Hz Hth]. split; simpl; [done| |done|..].
  - intros u. change (u ∈ live s L ++ l_zomb L <-> is_Some (<[t:=f th]> (threads s) !! u)).
    rewrite Hdom, lookup_insert_is_Some. destruct (decide (t = u)) as [->|]; naive_solver.
  - intros u uh Hu [[<- <-]|[_ Eu]]%lookup_insert_Some; [|eauto].
    destruct (Hz t th Hu Et). auto.
  - intros u uh [[<- <-]|[_ Eu]]%lookup_insert_Some; [|eauto].
    destruct (Hth t th Et) as [Hst ?]. split; [|auto].
    unfold stack_intact in *. by rewrite Es, Em.
Qed.

(** Changes that the invariant does not see. *)
Lemma inv_ext s s' sa za rq L :
  sys_inv s sa za rq L -> sleepers s' = sleepers s -> zombies s' = zombies s ->
  runqueue s' = runqueue s -> threads s' = threads s -> heap s' = heap s ->
  curthread s' = curthread s -> numthreads s' = numthreads s -> sys_inv s' sa za rq L.
Proof.
  intros [HR HP] ????? Ec En. split; [by apply (rep_ext s)|].
  apply (places_perm s L s' L HP); [done|done| |done]. unfold live, cur_list. by rewrite Ec.
Qed.

Lemma inv_splx s sa za rq L n : sys_inv s sa za rq L -> sys_inv (splx n s).2 sa za rq L.
Proof. intros HI. by apply (inv_ext s). Qed.

Lemma inv_set_world s sa za rq L w : sys_inv s sa za rq L -> sys_inv (set_world w s) sa za rq L.
Proof. intros HI. by apply (inv_ext s). Qed.

Lemma inv_cur s sa za rq L :
  sys_inv s sa za rq L -> curthread s <> 0 ->
  exists th, threads s !! curthread s = Some th /\ stack_intact th = true /\ is_Some (t_pcb th).
Proof.
  intros [HR HP] Hc. destruct (proj1 (inv_dom _ _ HP (curthread s))) as [th Et].
  { unfold live, cur_list. rewrite (proj2 (Z.eqb_neq _ _)) by done. set_solver. }
  exists th. split; [done|]. by apply (inv_thread _ _ HP _ _ Et).
Qed.

(** ** Giving up the processor *)

Lemma mi_switch_out_inv ns s sa za rq L :
  sys_inv s sa za rq L -> 0 < curspl s -> curthread s <> 0 -> ns = S_READY \/ ns = S_SLEEP ->
  (has_room ns sa za rq L -> is_Some (mi_switch_out ns s)) /\
  forall o s', mi_switch_out ns s = Some (o, s') ->
    o = Some (curthread s) /\ exists sa' za' rq' h',
      s' = set_curthread 0 (set_all sa' za' rq' h' s) /\
      (has_room ns sa za rq L -> a_max sa' = a_max sa /\ a_max za' = a_max za /\
         q_size rq <= q_size rq') /\
      sys_inv s' sa' za' rq' (stash ns (curthread s) L).
Proof.
  intros HI Hspl Hc Hns. destruct (inv_cur _ _ _ _ _ HI Hc) as (th & Eth & Hst & _).
  pose proof HI as [HR HP].
  destruct (mi_switch_out_rep ns s sa za rq L th HR Hspl (inv_small _ _ _ _ _ HI))
    as [Hroom Hout]; [by destruct Hns as [-> | ->]|done|done|done|].
  split; [done|]. intros o s' E. destruct (Hout o s' E) as (-> & sa' & za' & rq' & h' & -> & Hr & HR').
  split; [done|]. exists sa', za', rq', h'. split_and!; [done|done|]. split; [done|].
  apply (places_perm _ _ _ _ HP); [done|by destruct Hns as [-> | ->]| |done].
  unfold live, cur_list. simpl. rewrite (proj2 (Z.eqb_neq _ _)) by done. simpl.
  destruct Hns as [-> | ->]; simpl.
  - rewrite app_assoc, Permutation_app_comm. done.
  - rewrite <- app_assoc. simpl. by rewrite <- Permutation_middle.
Qed.

(** ** Creating a thread *)

Definition blank_thread (n : Z) (name : list Z) : thread :=
  {| t_pcb := None; t_name := n; t_namestr := name; t_sleepaddr := 0;
     t_stack := 0; t_magic := []; t_frame := None; t_fileTable := None;
     t_pid := None; t_vmspace := 0; t_cwd := 0 |}.

Definition short (name : list Z) : Prop := Z.of_nat (length name) < 2 ^ 31.

(** [h'] is [h] with the new blocks [ps], given with their sizes. *)
Definition grown (h : Heap) (ps : list (Z * Z)) (h' : Heap) : Prop :=
  heap_ok h' /\ NoDup ps.*1 /\ Forall (fun p => blocks h !! p.1 = None /\ p.1 <> 0) ps /\
  blocks h' = list_to_map ps ∪ blocks h.

Lemma grown_nil h : heap_ok h -> grown h [] h.
Proof. intros. split_and!; [done|constructor|done|]. simpl. by rewrite (left_id_L ∅ (∪)). Qed.

Lemma grown_kmalloc h ps h1 sz p h2 :
  grown h ps h1 -> kmalloc_size sz -> kmalloc sz h1 = Some (p, h2) -> p <> 0 ->
  grown h ((p, sz) :: ps) h2.
Proof.
  intros (Hok & Hnd & Hf & Hb) Hsz Hk Hp.
  destruct (kmalloc_block _ _ _ _ Hok Hsz Hk Hp) as (Hok2 & Hn & Hb2).
  rewrite Hb in Hn. apply lookup_union_None in Hn as [Hn1 Hn2].
  apply not_elem_of_list_to_map in Hn1. split_and!; [done| | |].
  - simpl. by apply list.NoDup_cons.
  - by constructor.
  - simpl. by rewrite Hb2, Hb, insert_union_l.
Qed.

Lemma grown_kmalloc_null h ps h1 sz h2 :
  grown h ps h1 -> kmalloc_size sz -> kmalloc sz h1 = Some (0, h2) -> grown h ps h2.
Proof.
  intros (Hok & Hnd & Hf & Hb) Hsz Hk.
  destruct (kmalloc_null _ _ _ Hok Hsz Hk) as (Hok2 & Hb2).
  split_and!; [done..|congruence].
Qed.

Lemma grown_kfree h p sz ps h1 :
  grown h ((p, sz) :: ps) h1 -> exists h2, kfree p h1 = Some h2 /\ grown h ps h2.
Proof.
  intros (Hok & [Hn Hnd]%list.NoDup_cons & Hf & Hb).
  pose proof (Forall_inv Hf) as [Hf0 _]. apply Forall_inv_tail in Hf.
  destruct (kfree_live h1 p Hok) as (h2 & E & Hok2 & Hb2).
  { rewrite Hb. simpl. rewrite <- insert_union_l, lookup_insert_eq. by eexists. }
  exists h2. split; [done|]. split_and!; [done..|]. rewrite Hb2, Hb. simpl.
  rewrite <- insert_union_l, delete_insert_id; [done|].
  apply lookup_union_None. split; [by apply not_elem_of_list_to_map|done].
Qed.

(** New blocks for a new thread keep the representation. *)
Lemma rep_grow s sa za rq L ps t th h' :
  sys_rep s sa za rq L -> grown (heap s) ps h' -> ps.*1 ≡ₚ thread_blocks (t, th) ->
  (t, sizeof_thread) ∈ ps ->
  threads s !! t = None /\
  sys_rep (set_threads (<[t := th]> (threads s)) (set_heap h' s)) sa za rq L /\
  same_others (heap s) (sys_blocks sa za rq (threads s)) h'
    (sys_blocks sa za rq (<[t := th]> (threads s))).
Proof.
  intros HR (Hok & Hnd & Hf & Hb) Hps Ht. pose proof HR as [? ? ? ? Ro Rsz ? ? ? ? ? ? ?].
  rewrite list.Forall_forall in Hf.
  assert (forall q, q ∈ thread_blocks (t, th) -> blocks (heap s) !! q = None) as Hfresh.
  { intros q. rewrite <- Hps. intros ([q' n] & -> & Hin)%list_elem_of_fmap. by apply (Hf _ Hin). }
  assert (threads s !! t = None) as Enew.
  { destruct (threads s !! t) as [th0|] eqn:E; [|done]. apply Rsz in E.
    rewrite Hfresh in E; [done|]. set_solver. }
  assert (forall q, is_Some (blocks (heap s) !! q) -> blocks h' !! q = blocks (heap s) !! q) as Hold.
  { intros q Hq. rewrite Hb. apply lookup_union_r, not_elem_of_list_to_map.
    rewrite Hps. intros Hin. rewrite Hfresh in Hq by done. by destruct Hq. }
  assert (sys_blocks sa za rq (<[t := th]> (threads s)) ≡ₚ
          thread_blocks (t, th) ++ sys_blocks sa za rq (threads s)) as E.
  { unfold sys_blocks. rewrite (threads_blocks_insert _ _ _ Enew).
    by rewrite (Permutation_app_swap_app (queue_blocks rq)),
      (Permutation_app_swap_app (array_blocks za)),
      (Permutation_app_swap_app (array_blocks sa)). }
  assert (forall q n, (q, n) ∈ ps -> blocks h' !! q = Some n) as Hnew.
  { intros q n Hq. rewrite Hb. apply lookup_union_Some_l. by apply elem_of_list_to_map. }
  split; [done|]. split; [split; simpl; try done|].
  - rewrite E. apply owns_app. split_and!.
    + rewrite <- Hps. split; [done|]. intros q ([q' n] & -> & Hin)%list_elem_of_fmap.
      simpl. rewrite (Hnew _ _ Hin). by eexists.
    + split; [apply Ro|]. intros q Hq. apply Ro in Hq. by rewrite (Hold _ Hq).
    + intros q Hq Hin. apply Ro in Hin. rewrite Hfresh in Hin by done. by destruct Hin.
  - intros u uh [[<- _]|[_ Eu]]%lookup_insert_Some; [by apply Hnew|].
    apply Rsz in Eu. rewrite Hold, Eu; [done|by eexists].
  - intros q n. rewrite E, elem_of_app. split.
    + intros [Hq Hn]. rewrite Hold by (rewrite Hn; by eexists). split; [|done].
      intros [Hin|Hin]; [by rewrite Hfresh in Hn|done].
    + intros [Hq Hn]. rewrite Hb in Hn. apply lookup_union_Some_raw in Hn as [Hn|[_ Hn]]; [|tauto].
      apply elem_of_list_to_map_2 in Hn. exfalso. apply Hq. left. rewrite <- Hps.
      by apply (list_elem_of_fmap_2 fst) in Hn.
Qed.

Lemma grown_total h ps h' sz :
  grown h ps h' -> kmalloc_size sz -> is_Some (kmalloc sz h').
Proof. intros (? & _) ?. by apply kmalloc_total. Qed.

Lemma sizeof_thread_size : kmalloc_size sizeof_thread.
Proof. by split. Qed.
Lemma STACK_SIZE_size : kmalloc_size STACK_SIZE.
Proof. by split. Qed.

Lemma thread_create_wp s name h0 ps :
  grown h0 ps (heap s) -> short name ->
  (exists h', thread_create name s = Some (0, set_heap h' s) /\ grown h0 ps h') \/
  (exists t n h', thread_create name s =
     Some (t, set_threads (<[t := blank_thread n name]> (threads s)) (set_heap h' s)) /\
     grown h0 ((n, Z.of_nat (length name) + 1) :: (t, sizeof_thread) :: ps) h').
Proof.
  intros G0 Hn. unfold short in Hn. unfold thread_create.
  destruct (grown_total _ _ _ _ G0 sizeof_thread_size) as [[t h1] E1]. rewrite E1. simpl.
  destruct (t =? 0) eqn:Et; boolify; [subst|].
  { left. eexists. split; [done|]. by apply (grown_kmalloc_null _ _ _ _ _ G0 sizeof_thread_size). }
  pose proof (grown_kmalloc _ _ _ _ _ _ G0 sizeof_thread_size E1 Et) as G1.
  unfold kstrdup. rewrite u32_id by (unfold is_u32; lia).
  assert (kmalloc_size (Z.of_nat (length name) + 1)) as Hu by (unfold kmalloc_size; lia).
  destruct (grown_total _ _ _ _ G1 Hu) as [[n h2] E2]. rewrite E2. simpl.
  destruct (n =? 0) eqn:En; boolify; [subst|]; simpl.
  - pose proof (grown_kmalloc_null _ _ _ _ _ G1 Hu E2) as G2.
    destruct (grown_kfree _ _ _ _ _ G2) as (h3 & E3 & G3). rewrite E3. simpl.
    left. by eexists.
  - right. exists t, n, h2. split; [done|]. by apply (grown_kmalloc _ _ _ _ _ _ G1 Hu E2).
Qed.

(** What the new thread looks like. *)
Definition new_thread (n stack : Z) (name : list Z) (cwd data1 data2 func : Z) : thread :=
  let '(p, f) := md_initpcb (W := W) stack data1 data2 func in
  {| t_pcb := Some p; t_name := n; t_namestr := name; t_sleepaddr := 0;
     t_stack := stack; t_magic := thread_magic; t_frame := Some f; t_fileTable := None;
     t_pid := None; t_vmspace := 0; t_cwd := cwd |}.

(** Taking a reference to the directory, when there is one. *)
Definition incref_cwd (cwd : Z) (w : W) : W :=
  if cwd =? 0 then w else VOP_INCREF cwd w.

Definition decref_cwd (cwd : Z) (w : W) : W :=
  if cwd =? 0 then w else VOP_DECREF cwd w.

Lemma thread_fork_new_wp name d1 d2 f s sa za rq L cur w' :
  sys_rep s sa za rq L -> short name -> threads s !! curthread s = Some cur ->
  incref_cwd (t_cwd cur) (world s) = w' ->
  (exists h', thread_fork_new name d1 d2 f s = Some (0, set_heap h' s) /\
     heap_ok h' /\ blocks h' = blocks (heap s)) \/
  (exists t n stack h', let th := new_thread n stack name (t_cwd cur) d1 d2 f in
     let s' := set_threads (<[t := th]> (threads s)) (set_heap h' (set_world w' s)) in
     thread_fork_new name d1 d2 f s = Some (t, s') /\
     t <> 0 /\ stack <> 0 /\ threads s !! t = None /\ sys_rep s' sa za rq L /\
     same_others (heap s) (sys_blocks sa za rq (threads s)) h'
       (sys_blocks sa za rq (threads s'))).
Proof.
  intros HR Hn Ec Hw. pose proof (rep_heap _ _ _ _ _ HR) as Hok. unfold thread_fork_new.
  assert (forall h', grown (heap s) [] h' -> heap_ok h' /\ blocks h' = blocks (heap s)) as Hnil.
  { intros h' (? & _ & _ & Hb). split; [done|]. rewrite Hb. simpl. apply (left_id_L ∅ (∪)). }
  destruct (thread_create_wp s name _ _ (grown_nil _ Hok) Hn) as [(h' & -> & G)|(t & n & h' & -> & G)]; simpl.
  { left. exists h'. split; [done|]. by apply Hnil. }
  pose proof G as (_ & Hnd & Hf & _). apply Forall_inv_tail, Forall_inv in Hf as [Ht Hp].
  simpl in Ht, Hp. rewrite (proj2 (Z.eqb_neq _ _)) by done.
  assert (threads s !! t = None) as Enew.
  { destruct (threads s !! t) eqn:E; [|done]. apply (rep_sizes _ _ _ _ _ HR) in E. congruence. }
  destruct (grown_total _ _ _ _ G STACK_SIZE_size) as [[st h2] E2]. rewrite E2. simpl.
  destruct (st =? 0) eqn:Est; boolify; [subst|].
  - left. unfold get_thread. simpl. rewrite lookup_insert_eq. simpl.
    pose proof (grown_kmalloc_null _ _ _ _ _ G STACK_SIZE_size E2) as G2.
    destruct (grown_kfree _ _ _ _ _ G2) as (h3 & -> & G3). simpl.
    destruct (grown_kfree _ _ _ _ _ G3) as (h4 & -> & G4). simpl.
    exists h4. split; [|by apply Hnil]. by rewrite delete_insert_id; destruct s.
  - right. exists t, n, st, h2. cbn zeta. pose proof (grown_kmalloc _ _ _ _ _ _ G STACK_SIZE_size E2 Est) as G2.
    destruct (rep_grow s sa za rq L _ t (new_thread n st name (t_cwd cur) d1 d2 f) h2 HR G2)
      as (_ & HR' & Hs'); [|set_solver|].
    { unfold thread_blocks, new_thread. simpl. rewrite (proj2 (Z.eqb_neq _ _)) by done.
      symmetry. apply (reverse_Permutation [st; n; t]). }
    split_and!; [|done|done|done|by apply (rep_ext _ _ _ _ _ _ HR')|done].
    unfold upd_thread, get_thread. simpl. rewrite lookup_insert_eq. simpl.
    assert (t <> curthread s) by (intros E; by rewrite <- E, Enew in Ec).
    do 2 rewrite (lookup_insert_ne _ t (curthread s)) by done. rewrite Ec. simpl.
    unfold incref_cwd in Hw. destruct (t_cwd cur =? 0) eqn:Ecw; boolify.
    + simplify_eq. simpl. rewrite lookup_insert_eq. simpl.
      rewrite !insert_insert_eq. unfold new_thread. rewrite Ecw. by destruct s.
    + rewrite Hw. simpl. rewrite lookup_insert_eq. simpl.
      rewrite lookup_insert_eq. simpl. by rewrite !insert_insert_eq.
Qed.

(** Seen from the whole system, an operation on one container touches no other
    block either. *)
Lemma others_sa h h' sa sa' za rq ts :
  same_others h (array_blocks sa) h' (array_blocks sa') ->
  same_others h (sys_blocks sa za rq ts) h' (sys_blocks sa' za rq ts).
Proof. apply same_others_app. Qed.

Lemma others_za h h' sa za za' rq ts :
  same_others h (array_blocks za) h' (array_blocks za') ->
  same_others h (sys_blocks sa za rq ts) h' (sys_blocks sa za' rq ts).
Proof.
  intros Hs. unfold sys_blocks. rewrite !(Permutation_app_swap_app (array_blocks sa)).
  by apply same_others_app.
Qed.

Lemma others_rq h h' sa za rq rq' ts :
  same_others h (queue_blocks rq) h' (queue_blocks rq') ->
  same_others h (sys_blocks sa za rq ts) h' (sys_blocks sa za rq' ts).
Proof.
  intros Hs. unfold sys_blocks.
  rewrite !(Permutation_app_swap_app (array_blocks za)),
    !(Permutation_app_swap_app (array_blocks sa)). by apply same_others_app.
Qed.

(** A state inside the critical section of [thread_fork], which started in
    [s] with the arrays [sa0], [za0] and the queue [rq0]. *)
Record forking s sa0 za0 rq0 L t th w s1 sa za rq : Prop := {
  fk_rep : sys_rep s1 sa za rq L;
  fk_threads : threads s1 = <[t := th]> (threads s);
  fk_cur : curthread s1 = curthread s;
  fk_num : numthreads s1 = numthreads s;
  fk_spl : curspl s1 = SPL_HIGH;
  fk_int : in_interrupt s1 = in_interrupt s;
  fk_kst : curkstack s1 = curkstack s;
  fk_world : world s1 = w;
  fk_others : same_others (heap s) (sys_blocks sa0 za0 rq0 (threads s)) (heap s1)
                (sys_blocks sa za rq (<[t := th]> (threads s)));
}.

(** What a failed fork leaves behind: the threads as they were, possibly more
    room in the containers, and no block that was not there before. *)
Definition fork_failed s sa za rq L w s' : Prop :=
  exists sa' za' rq', sys_inv s' sa' za' rq' L /\ threads s' = threads s /\
    curthread s' = curthread s /\ curspl s' = curspl s /\ world s' = w /\
    same_others (heap s) (sys_blocks sa za rq (threads s)) (heap s')
      (sys_blocks sa' za' rq' (threads s)).

Lemma thread_fork_fail_wp s sa0 za0 rq0 L t th w s1 sa za rq r w' :
  sys_places s L -> threads s !! t = None -> t_stack th <> 0 ->
  forking s sa0 za0 rq0 L t th w s1 sa za rq -> decref_cwd (t_cwd th) w = w' ->
  exists s', thread_fork_fail t (curspl s) r s1 = Some (r, 0, s') /\
    fork_failed s sa0 za0 rq0 L w' s'.
Proof.
  intros HP Enew Hst [HR Et Ec En Es Ei Ek Ew Ho] Hw.
  pose proof (rep_owns _ _ _ _ _ HR) as Hown.
  assert (threads s1 !! t = Some th) as Eth by (rewrite Et; apply lookup_insert_eq).
  destruct (free_thread (heap s1) t th (sys_blocks sa za rq (delete t (threads s1))))
    as (h1 & h2 & h3 & E1 & E2 & E3 & F); [apply HR| |].
  { unfold sys_blocks in *. rewrite (threads_blocks_delete _ _ _ Eth) in Hown.
    by rewrite <- (Permutation_app_swap_app (array_blocks sa)),
      <- (Permutation_app_swap_app (array_blocks za)),
      <- (Permutation_app_swap_app (queue_blocks rq)). }
  rewrite (proj2 (Z.eqb_neq _ _)) in E1 by done.
  destruct (rep_delete _ _ _ _ _ _ _ _ HR Eth F) as [HR' Hs'].
  assert (delete t (threads s1) = threads s) as Ed by (by rewrite Et, delete_insert_id).
  rewrite Ed in HR', Hs'. rewrite Et in Hs'.
  unfold thread_fork_fail, get_thread. simpl. rewrite Eth. simpl.
  unfold decref_cwd in Hw. rewrite Ew, Hw. simpl. rewrite E1. simpl. rewrite E2. simpl.
  rewrite E3. simpl. eexists. split; [done|].
  exists sa, za, rq. split; [split|]; [|..|split_and!; simpl; try done].
  - rewrite Ed. by apply (rep_ext _ _ _ _ _ _ HR').
  - apply (places_perm s L _ L HP); [by simpl|done| |done].
    unfold live, cur_list. simpl. by rewrite Ec.
  - eapply same_others_trans; [exact Ho|done].
Qed.

Lemma forking_sa s sa0 za0 rq0 L t th w s1 sa za rq n :
  forking s sa0 za0 rq0 L t th w s1 sa za rq -> n <= max_guys ->
  exists r sa' h', array_preallocate sa n (heap s1) = Some (r, sa', h') /\
    forking s sa0 za0 rq0 L t th w (set_sleepers (Some sa') (set_heap h' s1)) sa' za rq /\
    (r = ENOMEM \/ r = 0 /\ n <= a_max sa').
Proof.
  intros [HR Et Ec En Es Ei Ek Ew Ho] Hn.
  destruct (array_preallocate_wp sa n (heap s1) (rep_sa_wf _ _ _ _ _ HR) Hn)
    as (r & sa' & h' & -> & Hwf & Hc & _ & Hs & Hr).
  exists r, sa', h'. split; [done|]. split; [|destruct Hr as [[-> _]|[-> ?]]; [by left|right; lia]].
  rewrite (rep_sleep _ _ _ _ _ HR) in Hc. split; simpl; try done.
  - destruct L. by apply (rep_update_sa _ _ _ _ _ _ _ _ HR).
  - eapply same_others_trans; [exact Ho|]. by apply others_sa.
Qed.

Lemma forking_za s sa0 za0 rq0 L t th w s1 sa za rq n :
  forking s sa0 za0 rq0 L t th w s1 sa za rq -> n <= max_guys ->
  exists r za' h', array_preallocate za n (heap s1) = Some (r, za', h') /\
    forking s sa0 za0 rq0 L t th w (set_zombies (Some za') (set_heap h' s1)) sa za' rq /\
    (r = ENOMEM \/ r = 0 /\ n <= a_max za').
Proof.
  intros [HR Et Ec En Es Ei Ek Ew Ho] Hn.
  destruct (array_preallocate_wp za n (heap s1) (rep_za_wf _ _ _ _ _ HR) Hn)
    as (r & za' & h' & -> & Hwf & Hc & _ & Hs & Hr).
  exists r, za', h'. split; [done|]. split; [|destruct Hr as [[-> _]|[-> ?]]; [by left|right; lia]].
  rewrite (rep_zomb _ _ _ _ _ HR) in Hc. split; simpl; try done.
  - destruct L. by apply (rep_update_za _ _ _ _ _ _ _ _ HR).
  - eapply same_others_trans; [exact Ho|]. by apply others_za.
Qed.

Lemma forking_rq s sa0 za0 rq0 L t th w s1 sa za rq n :
  forking s sa0 za0 rq0 L t th w s1 sa za rq -> n <= max_threads ->
  exists r rq' s2, scheduler_preallocate n s1 = Some (r, s2) /\
    forking s sa0 za0 rq0 L t th w s2 sa za rq' /\
    sleepers s2 = sleepers s1 /\ zombies s2 = zombies s1 /\
    (r = ENOMEM \/ r = 0 /\ n <= q_size rq').
Proof.
  intros Hfk Hn. pose proof Hfk as [HR Et Ec En Es Ei Ek Ew Ho].
  unfold scheduler_preallocate. rewrite Es. change (0 <? SPL_HIGH) with true.
  rewrite (rep_runqueue _ _ _ _ _ HR). simpl. unfold q_preallocate.
  pose proof (rep_rq _ _ _ _ _ HR) as (Hq & _). rewrite (proj2 (Z.ltb_lt _ _)) by lia.
  pose proof (rep_ring _ _ _ _ _ HR) as Hring. unfold max_ring, max_threads in *.
  destruct (q_size rq <? n) eqn:El; boolify; simpl.
  - destruct (q_grow_wp rq n (heap s1) (rep_rq_wf _ _ _ _ _ HR))
      as (r & rq' & h' & -> & Hwf & Hl & Hs & Hr); [unfold max_qsize; lia..|]. simpl.
    exists r, rq', (set_runqueue (Some rq') (set_heap h' s1)). split; [done|].
    split; [|split_and!; [done|done|destruct Hr as [[-> _]|[-> ?]]; [by left|right; lia]]].
    rewrite (rep_ready _ _ _ _ _ HR) in Hl. split; simpl; try done.
    + destruct L. apply (rep_update_rq _ _ _ _ _ _ _ _ HR); [done| |done|done].
      unfold max_ring. destruct Hr as [(_ & -> & _)|[_ ?]]; lia.
    + eapply same_others_trans; [exact Ho|]. by apply others_rq.
  - eexists _, rq, _. split; [done|]. split; [|split_and!; [done|done|right; lia]].
    split; simpl; try done. apply (rep_ext _ _ _ _ _ _ HR); try done.
    simpl. symmetry. apply HR.
Qed.

(** Adding a thread to the places. *)
Lemma places_new s L s' t th :
  sys_places s L -> threads s !! t = None -> t <> 0 ->
  threads s' = <[t := th]> (threads s) -> stack_intact th = true -> is_Some (t_pcb th) ->
  curthread s' = curthread s -> numthreads s' = numthreads s + 1 ->
  sys_places s' (Tlists (l_sleep L) (l_ready L ++ [t]) (l_zomb L)).
Proof.
  intros [Hnd Hdom Hnum Hz Hth] Enew Ht Et Hst Hp Ec En.
  assert (t ∉ live s L ++ l_zomb L) as Hnin.
  { rewrite Hdom, Enew. by intros []. }
  assert (live s' (Tlists (l_sleep L) (l_ready L ++ [t]) (l_zomb L)) ≡ₚ t :: live s L) as E.
  { unfold live, cur_list. rewrite Ec. simpl. rewrite !app_assoc. symmetry.
    apply Permutation_cons_append. }
  split; simpl.
  - rewrite E. simpl. by apply list.NoDup_cons.
  - intros u. rewrite E, Et. simpl. rewrite elem_of_cons, Hdom, lookup_insert_is_Some.
    destruct (decide (t = u)); naive_solver.
  - rewrite E, En, Hnum. simpl. lia.
  - intros u uh Hu. rewrite Et, lookup_insert_ne; [by apply Hz|]. set_solver.
  - intros u uh. rewrite Et. intros [[<- <-]|[_ Eu]]%lookup_insert_Some; [done|]. by eapply Hth.
Qed.

(** With room in the ring [make_runnable] does not touch the heap. *)
Lemma make_runnable_room s sa za rq L t :
  sys_rep s sa za rq L -> 0 < curspl s -> Z.of_nat (length (l_ready L)) + 1 < q_size rq ->
  exists rq', make_runnable t s = Some (0, set_runqueue (Some rq') s) /\
    q_size rq' = q_size rq /\ queue_blocks rq' = queue_blocks rq /\
    sys_rep (set_runqueue (Some rq') s) sa za rq'
      (Tlists (l_sleep L) (l_ready L ++ [t]) (l_zomb L)).
Proof.
  intros HR Hspl Hroom. pose proof (rep_q_len _ _ _ _ _ HR) as Hl.
  destruct (q_addtail_n_room 1 rq (Some t) (heap s) (rep_rq_wf _ _ _ _ _ HR))
    as (rq' & E & Hwf & Hl' & _ & Hsz & Hb); [lia|].
  unfold make_runnable, q_addtail. rewrite (proj2 (Z.ltb_lt _ _)) by done.
  rewrite (rep_runqueue _ _ _ _ _ HR). simpl. rewrite E. simpl.
  exists rq'. split; [by destruct s|]. split_and!; [done|done|].
  assert (sys_rep (set_runqueue (Some rq') (set_heap (heap s) s)) sa za rq'
            (Tlists (l_sleep L) (l_ready L ++ [t]) (l_zomb L))) as HR'; [|by destruct s].
  pose proof (rep_ring _ _ _ _ _ HR).
  apply (rep_update_rq _ _ _ _ _ _ _ _ HR); [done|lia|rewrite Hb; apply same_others_refl|].
  by rewrite Hl', (rep_ready _ _ _ _ _ HR), fmap_app.
Qed.

(** What a successful fork does: the new thread is last in the run queue, and
    the containers have the room that was asked for. *)
Definition fork_done s (sa za : array Z) (rq : queue Z) L t th w s' : Prop :=
  exists sa' za' rq',
    sys_inv s' sa' za' rq' (Tlists (l_sleep L) (l_ready L ++ [t]) (l_zomb L)) /\
    threads s !! t = None /\ threads s' = <[t := th]> (threads s) /\
    curthread s' = curthread s /\ curspl s' = curspl s /\ world s' = w /\
    numthreads s' = numthreads s + 1 /\
    numthreads s' <= a_max sa' /\ numthreads s' <= a_max za' /\ numthreads s' <= q_size rq' /\
    same_others (heap s) (sys_blocks sa za rq (threads s)) (heap s')
      (sys_blocks sa' za' rq' (threads s')).

Lemma fork_finish s sa0 za0 rq0 L t th w s1 sa za rq :
  sys_inv s sa0 za0 rq0 L -> curthread s <> 0 -> threads s !! t = None -> t <> 0 ->
  stack_intact th = true -> is_Some (t_pcb th) -> numthreads s + 1 <= max_threads ->
  forking s sa0 za0 rq0 L t th w s1 sa za rq ->
  numthreads s + 1 <= a_max sa -> numthreads s + 1 <= a_max za ->
  numthreads s + 1 <= q_size rq ->
  exists s2, make_runnable t s1 = Some (0, s2) /\
    fork_done s sa0 za0 rq0 L t th w
      (splx (curspl s) (set_numthreads (s32 (numthreads s2 + 1)) s2)).2.
Proof.
  intros [HR0 HP] Hc Enew Ht Hst Hp Hn [HR Et Ec En Es Ei Ek Ew Ho] H1 H2 H3.
  pose proof (inv_num _ _ HP) as Hnum. unfold live, cur_list in Hnum.
  rewrite (proj2 (Z.eqb_neq _ _)) in Hnum by done.
  destruct (make_runnable_room s1 sa za rq L t HR) as (rq' & -> & Hsz & Hb & HR');
    [rewrite Es; done|simpl in Hnum; rewrite length_app in Hnum; lia|].
  eexists. split; [done|]. exists sa, za, rq'. simpl. unfold max_threads in Hn.
  rewrite En, s32_id by (unfold is_s32; lia).
  split; [split|split_and!; try done; try lia].
  - apply (rep_ext _ _ _ _ _ _ HR'); done.
  - by apply (places_new s L _ t th HP).
  - rewrite Et. unfold sys_blocks in *. by rewrite Hb.
Qed.

(** The critical section, entered with the new thread in the table. *)
Lemma thread_fork_insert_wp s sa za rq L t th w w' s1 :
  sys_inv s sa za rq L -> curthread s <> 0 -> threads s !! t = None -> t <> 0 ->
  t_stack th <> 0 -> stack_intact th = true -> is_Some (t_pcb th) ->
  numthreads s + 1 <= max_threads -> decref_cwd (t_cwd th) w = w' ->
  curspl s1 = curspl s -> forking s sa za rq L t th w (splhigh s1).2 sa za rq ->
  (exists s', thread_fork_insert t s1 = Some (0, t, s') /\ fork_done s sa za rq L t th w s') \/
  (exists s', thread_fork_insert t s1 = Some (ENOMEM, 0, s') /\
     fork_failed s sa za rq L w' s').
Proof.
  intros HI Hc Enew Ht Hst Hint Hpcb Hnum Hw' Espl F1. pose proof HI as [HR HP].
  pose proof (fk_num _ _ _ _ _ _ _ _ _ _ _ _ F1) as En.
  pose proof (rep_sleepers _ _ _ _ _ (fk_rep _ _ _ _ _ _ _ _ _ _ _ _ F1)) as Esl.
  pose proof (rep_zombies _ _ _ _ _ (fk_rep _ _ _ _ _ _ _ _ _ _ _ _ F1)) as Ez.
  simpl in En, Esl, Ez.
  assert (s32 (numthreads s + 1) = numthreads s + 1) as E32.
  { rewrite s32_id; [done|]. pose proof (inv_num _ _ HP). unfold is_s32, max_threads in *. lia. }
  assert (numthreads s + 1 <= max_guys) as Hg by (unfold max_guys, max_threads in *; lia).
  assert (forall s2 sa2 za2 rq2, forking s sa za rq L t th w s2 sa2 za2 rq2 ->
    exists s', thread_fork_fail t (curspl s) ENOMEM s2 = Some (ENOMEM, 0, s') /\
      fork_failed s sa za rq L w' s') as Hfail.
  { intros s2 sa2 za2 rq2 F. by apply (thread_fork_fail_wp s sa za rq L t th w s2 sa2 za2 rq2). }
  unfold thread_fork_insert. simpl. rewrite Espl, Esl, En, E32. simpl.
  destruct (forking_sa _ _ _ _ _ _ _ _ _ _ _ _ _ F1 Hg) as (r & sa2 & h2 & E2 & F2 & Hr2).
  simpl in E2. rewrite E2. simpl.
  destruct Hr2 as [-> |[-> Hm2]]; simpl; [right; by eapply Hfail|].
  rewrite Ez, ?En, ?E32. simpl.
  destruct (forking_za _ _ _ _ _ _ _ _ _ _ _ _ _ F2 Hg) as (r & za3 & h3 & E3 & F3 & Hr3).
  simpl in E3. rewrite E3. simpl.
  destruct Hr3 as [-> |[-> Hm3]]; simpl; [right; by eapply Hfail|]. rewrite ?En, ?E32.
  destruct (forking_rq _ _ _ _ _ _ _ _ _ _ _ _ _ F3 Hnum) as (r & rq4 & s4 & E4 & F4 & _ & _ & Hr4).
  simpl in E4. rewrite E4. simpl. destruct Hr4 as [-> |[-> Hm4]]; simpl; [right; by eapply Hfail|].
  destruct (fork_finish s sa za rq L t th w s4 sa2 za3 rq4 HI Hc Enew Ht Hint) as (s5 & E5 & Hdone);
    [done..|]. rewrite E5. simpl. left. by eexists.
Qed.

Lemma fork_nothing s sa za rq L h' :
  sys_inv s sa za rq L -> heap_ok h' -> blocks h' = blocks (heap s) ->
  fork_failed s sa za rq L (world s) (set_heap h' s).
Proof.
  intros [HR HP] Hok Hb. exists sa, za, rq.
  assert (same_others (heap s) (sys_blocks sa za rq (threads s)) h'
            (sys_blocks sa za rq (threads s))) by (by apply same_others_blocks).
  split; [split|by split_and!]; [|apply (places_perm s L _ L HP); done].
  pose proof HR as [? ? ? ? Ro ? ? ? ? ? ? ? ?]. split; simpl; try done; rewrite ?Hb; try done.
  split; [apply Ro|]. rewrite Hb. apply Ro.
Qed.

Lemma thread_fork_wp name d1 d2 f s sa za rq L cur w w' :
  sys_inv s sa za rq L -> curthread s <> 0 -> short name ->
  threads s !! curthread s = Some cur ->
  incref_cwd (t_cwd cur) (world s) = w -> decref_cwd (t_cwd cur) w = w' ->
  (exists t n stack s', let th := new_thread n stack name (t_cwd cur) d1 d2 f in
     thread_fork name d1 d2 f s = Some (0, t, s') /\ t <> 0 /\ stack <> 0 /\
     fork_done s sa za rq L t th w s') \/
  (exists s' w0, thread_fork name d1 d2 f s = Some (ENOMEM, 0, s') /\
     (w0 = world s \/ w0 = w') /\ fork_failed s sa za rq L w0 s').
Proof.
  intros HI Hc Hn Ecur Hw Hw'. pose proof HI as [HR HP]. unfold thread_fork.
  destruct (thread_fork_new_wp name d1 d2 f s sa za rq L cur w HR Hn Ecur Hw) as
    [(h' & -> & Hok & Hb)|(t & n & stack & h' & -> & Ht & Hst & Enew & HR1 & Hs1)]; simpl.
  { right. eexists _, (world s). split; [done|]. split; [by left|]. by apply fork_nothing. }
  rewrite (proj2 (Z.eqb_neq _ _)) by done.
  set (th := new_thread n stack name (t_cwd cur) d1 d2 f) in *.
  pose proof (thread_count _ _ _ _ _ HR1) as Hcount.
  simpl in Hcount. rewrite map_size_insert_None in Hcount by done.
  edestruct (thread_fork_insert_wp s sa za rq L t th w w') as [(s' & E & Hd)|(s' & E & Hd)];
    [done|done|done|done|done| |done| |done| | |rewrite E|rewrite E].
  - unfold stack_intact, th. simpl. apply orb_true_r.
  - pose proof (places_size _ _ HP) as Hp. rewrite (inv_num _ _ HP).
    rewrite length_app in Hp. lia.
  - done.
  - split; simpl; try done. by apply (rep_ext _ _ _ _ _ _ HR1).
  - left. by eexists _, _, _, _.
  - right. exists s', w'. auto.
Qed.

(** ** Ending a thread *)

(** The state [thread_exit] hands to [mi_switch]: address space and directory
    given up. *)
Lemma thread_exit_release s sa za rq L th :
  sys_inv s sa za rq L -> curthread s <> 0 -> threads s !! curthread s = Some th ->
  forall s1 s2,
  (if t_vmspace th =? 0 then Some s else
     s ← upd_thread (curthread s) (set_t_vmspace 0) s;
     Some (set_world (as_destroy (t_vmspace th) (world s)) s)) = Some s1 ->
  (if t_cwd th =? 0 then Some s1 else
     let w := VOP_DECREF (t_cwd th) (world s1) in
     upd_thread (curthread s1) (set_t_cwd 0) (set_world w s1)) = Some s2 ->
  sys_inv s2 sa za rq L /\ curthread s2 = curthread s /\ numthreads s2 = numthreads s /\
  curspl s2 = curspl s /\ IEc s2 = IEc s /\ in_interrupt s2 = in_interrupt s /\
  (exists th', threads s2 = <[curthread s := th']> (threads s) /\
     t_vmspace th' = 0 /\ t_cwd th' = 0 /\ t_sleepaddr th' = t_sleepaddr th).
Proof.
  intros HI Hc Eth s1 s2 E1 E2.
  assert (sys_inv s1 sa za rq L /\ curthread s1 = curthread s /\
    numthreads s1 = numthreads s /\ curspl s1 = curspl s /\ IEc s1 = IEc s /\
    in_interrupt s1 = in_interrupt s /\ exists th', threads s1 = <[curthread s := th']> (threads s) /\
      t_vmspace th' = 0 /\ t_cwd th' = t_cwd th /\ t_sleepaddr th' = t_sleepaddr th)
    as (HI1 & Ec1 & En1 & Es1 & Ei1 & Et1 & th1 & Eth1 & Hv & Hcw & Hsl).
  { destruct (t_vmspace th =? 0) eqn:Ev; boolify.
    - simplify_eq. split_and!; [done..|]. exists th. split_and!; [|done..].
      by rewrite insert_id.
    - destruct (inv_upd_thread _ _ _ _ _ _ _ _ HI keeps_vmspace Eth) as [E HI'].
      rewrite E in E1. simpl in E1. simplify_eq/=.
      split_and!; [by apply inv_set_world|done..|]. eexists. by split_and!. }
  destruct (t_cwd th =? 0) eqn:Ew; boolify.
  - simplify_eq. split_and!; [done..|]. exists th1. split_and!; [done..|congruence|done].
  - set (w := VOP_DECREF _ _) in E2. cbn zeta in E2.
    destruct (inv_upd_thread (set_world w s1) sa za rq L (curthread s1) (set_t_cwd 0) th1)
      as [E HI2]; [by apply inv_set_world|apply keeps_cwd| |].
    { simpl. rewrite Eth1, Ec1. apply lookup_insert_eq. }
    rewrite E in E2. simplify_eq. simpl. split_and!; [done..|].
    eexists. rewrite Eth1, Ec1, insert_insert_eq. by split_and!.
Qed.

Lemma places_zomb s L s' th :
  sys_places s L -> curthread s <> 0 -> threads s !! curthread s = Some th ->
  t_vmspace th = 0 -> t_cwd th = 0 -> threads s' = threads s -> curthread s' = 0 ->
  numthreads s' = numthreads s - 1 ->
  sys_places s' (stash S_ZOMB (curthread s) L).
Proof.
  intros [Hnd Hdom Hnum Hz Hth] Hc Eth Hv Hw Et Ec En.
  assert (live s L = curthread s :: live s' (stash S_ZOMB (curthread s) L)) as E.
  { unfold live, cur_list. rewrite Ec, (proj2 (Z.eqb_neq _ _)) by done. done. }
  assert (live s' (stash S_ZOMB (curthread s) L) ++ l_zomb L ++ [curthread s] ≡ₚ
          live s L ++ l_zomb L) as Ep.
  { rewrite E. simpl. rewrite Permutation_app_comm, <- app_assoc. simpl.
    rewrite <- Permutation_middle, Permutation_app_comm. done. }
  split.
  - simpl. by rewrite Ep.
  - intros u. simpl. by rewrite Ep, Et.
  - rewrite En, Hnum, E. simpl. lia.
  - intros u uh Hu. rewrite Et. simpl in Hu. rewrite elem_of_app, list_elem_of_singleton in Hu.
    destruct Hu as [Hu| ->]; [by apply Hz|]. intros. by simplify_eq.
  - by rewrite Et.
Qed.

(** [thread_exit] makes the thread a zombie and leaves the processor to the
    scheduler. *)
Lemma thread_exit_wp s sa za rq L o s' :
  sys_inv s sa za rq L -> curthread s <> 0 -> thread_exit s = Some (o, s') ->
  o = Some (curthread s) /\ curthread s' = 0 /\ 0 < curspl s' /\
  numthreads s' = numthreads s - 1 /\
  (forall t, t <> curthread s -> threads s' !! t = threads s !! t) /\
  exists sa' za' rq', sys_inv s' sa' za' rq' (stash S_ZOMB (curthread s) L).
Proof.
  intros HI Hc E. destruct (inv_cur _ _ _ _ _ HI Hc) as (th & Eth & Hst & _).
  unfold thread_exit, get_thread in E. rewrite Eth in E. simpl in E. rewrite Hst in E.
  apply (inv_splx _ _ _ _ _ SPL_HIGH) in HI. inv_bind.
  destruct (thread_exit_release _ _ _ _ _ th HI Hc Eth _ _ E0 E1)
    as (HI2 & Ec2 & En2 & Es2 & Ei2 & Et2 & th' & Eth2 & Hv & Hw & Hsl).
  simpl in *. destruct (0 <? numthreads r0) eqn:Ep; [|done]. boolify.
  pose proof HI2 as [HR2 HP2].
  assert (threads r0 !! curthread r0 = Some th') as Eth'.
  { rewrite Eth2, Ec2. apply lookup_insert_eq. }
  set (s3 := set_numthreads (numthreads r0 - 1) r0) in E.
  destruct (mi_switch_out_rep S_ZOMB s3 sa za rq L th') as [_ Hout];
    [by apply (rep_ext _ _ _ _ _ _ HR2)|simpl; rewrite Es2; done|by eapply inv_small|done|
     simpl; congruence|done|by apply (inv_thread _ _ HP2 _ _ Eth')|].
  destruct (Hout o s' E) as (-> & sa' & za' & rq' & h' & -> & _ & HR').
  change (curthread s3) with (curthread r0) in *. rewrite <- Ec2 in *.
  simpl. split_and!; [done|done|by rewrite Es2|lia| |].
  - intros t Ht. rewrite Eth2. by apply lookup_insert_ne.
  - exists sa', za', rq'. split; [done|]. by apply (places_zomb r0 L _ th' HP2).
Qed.

(** ** Switching in *)

(** Where each thread sleeps. *)
Definition sleepmap s : gmap Z Z := t_sleepaddr <$> threads s.

Lemma sleepmap_upd s t f th :
  threads s !! t = Some th -> t_sleepaddr (f th) = t_sleepaddr th ->
  sleepmap (set_threads (<[t := f th]> (threads s)) s) = sleepmap s.
Proof.
  intros Et Ef. unfold sleepmap. simpl. rewrite fmap_insert, Ef.
  apply insert_id. by rewrite lookup_fmap, Et.
Qed.

(** [md_switch] saves and loads the context; nothing else changes. *)
Lemma md_switch_wp s sa za rq L old nu :
  sys_inv s sa za rq L -> is_Some (threads s !! old) -> is_Some (threads s !! nu) ->
  exists s', md_switch old nu s = Some s' /\ sys_inv s' sa za rq L /\
    curthread s' = curthread s /\ curspl s' = curspl s /\ IEc s' = IEc s /\
    numthreads s' = numthreads s /\ heap s' = heap s /\ sleepmap s' = sleepmap s /\
    (old <> nu -> exists th p, threads s !! nu = Some th /\ t_pcb th = Some p /\
       in_interrupt s' = pcb_ininterrupt p /\ curkstack s' = pcb_kstack p).
Proof.
  intros HI [oth Eo] [nth En]. unfold md_switch, get_thread.
  destruct (old =? nu) eqn:Eon; boolify.
  { exists s. by split_and!. }
  pose proof HI as [_ HP]. destruct (inv_thread _ _ HP _ _ Eo) as [_ [op Eop]].
  destruct (inv_thread _ _ HP _ _ En) as [_ [np Enp]].
  rewrite Eo. simpl. rewrite Eop. simpl.
  match goal with |- context [upd_thread old ?f s] =>
    destruct (inv_upd_thread s sa za rq L old f oth HI) as [-> HI']; [apply keeps_pcb|done|] end.
  simpl. rewrite lookup_insert_ne, En by done. simpl. rewrite Enp. simpl.
  eexists. split; [done|]. split_and!; [by apply (inv_ext _ _ _ _ _ _ HI')|done..| |].
  - by apply (sleepmap_upd _ _ _ _ Eo).
  - intros _. by exists nth, np.
Qed.

(** The scheduler's choice becomes the current thread. *)
Lemma dispatch_wp s sa za rq sl t l z cur :
  sys_inv s sa za rq (Tlists sl (t :: l) z) -> curthread s = 0 -> 0 < curspl s ->
  is_Some (threads s !! cur) ->
  exists s1 s2 rq', scheduler s = Some (Some t, s1) /\ switch_to cur t s1 = Some s2 /\
    sys_inv s2 sa za rq' (Tlists sl l z) /\ q_size rq' = q_size rq /\
    curthread s2 = t /\ curspl s2 = curspl s /\ IEc s2 = IEc s /\
    numthreads s2 = numthreads s /\ sleepmap s2 = sleepmap s /\
    (cur <> t -> exists th p, threads s !! t = Some th /\ t_pcb th = Some p /\
       in_interrupt s2 = pcb_ininterrupt p).
Proof.
  intros [HR HP] Hc Hspl Hcur.
  pose proof (scheduler_wp _ _ _ _ _ HR Hspl) as (rq' & E & Hsz & HR1). simpl in *.
  set (s1 := set_curthread t (set_runqueue (Some rq') s)).
  assert (is_Some (threads s !! t)) as Ht.
  { apply (inv_dom _ _ HP). unfold live. simpl. set_solver. }
  assert (t <> 0) as Ht0.
  { intros ->. destruct Ht as [th Eth]. pose proof (rep_sizes _ _ _ _ _ HR _ _ Eth) as Hb.
    apply blocks_range in Hb; [lia|apply HR]. }
  assert (sys_inv s1 sa za rq' (Tlists sl l z)) as HI1.
  { split; [by apply (rep_ext _ _ _ _ _ _ HR1)|].
    apply (places_perm _ _ _ _ HP); [done|done| |done]. unfold live, cur_list, s1. simpl.
    rewrite Hc, (proj2 (Z.eqb_neq t 0)) by done. simpl. by rewrite <- Permutation_middle. }
  destruct (md_switch_wp s1 sa za rq' _ cur t HI1) as
    (s2 & E2 & HI2 & Ec & Es & Ei & En & Eh & Em & Hint); [done|done|].
  exists (set_runqueue (Some rq') s), s2, rq'. split_and!; try done.
  intros Hne. destruct (Hint Hne) as (th & p & ? & ? & ? & _). by exists th, p.
Qed.

(** Coming back from [mi_switch]: the zombies are gone. *)
Lemma mi_switch_in_wp s sa za rq L s' :
  sys_inv s sa za rq L -> 0 < curspl s -> mi_switch_in s = Some s' ->
  exists za', sys_inv s' sa za' rq (Tlists (l_sleep L) (l_ready L) []) /\
    curthread s' = curthread s /\ curspl s' = curspl s /\ IEc s' = IEc s /\
    in_interrupt s' = in_interrupt s /\ numthreads s' = numthreads s /\
    (forall t, threads s' !! t = if decide (t ∈ l_zomb L) then None else threads s !! t).
Proof.
  intros HI Hspl E. unfold mi_switch_in in E.
  destruct (exorcise_wp _ _ _ _ _ HI Hspl) as (ts' & za' & h' & Ex & Hts & HI' & _).
  cbn zeta in Ex, HI'. rewrite Ex in E. simpl in E.
  unfold activate_cur, get_thread in E. simpl in E. exists za'.
  destruct (ts' !! curthread s) as [th|]; simpl in E; [|done].
  destruct (t_vmspace th =? 0); [simplify_eq; by split_and!|].
  simplify_eq/=.
  split_and!; [by apply inv_set_world|done..].
Qed.

(** ** Booting *)

Lemma rep_boot (s : tsys) (h0 : Heap) ps sa za rq t n :
  grown h0 ps (heap s) -> ps.*1 ≡ₚ [a_self sa; a_self za; q_dataptr rq; q_self rq; t; n] ->
  (t, sizeof_thread) ∈ ps ->
  sa = Array (a_self sa) 0 0 None -> za = Array (a_self za) 0 0 None ->
  rq = Queue (q_self rq) 32 0 0 (q_dataptr rq) (replicate 32 None) ->
  sleepers s = Some sa -> zombies s = Some za -> runqueue s = Some rq ->
  threads s = {[ t := set_t_pcb (Some (md_initpcb0 s)) (blank_thread n boot_name) ]} ->
  sys_rep s sa za rq (Tlists [] [] []).
Proof.
  intros (Hok & Hnd & Hf & Hb) Hps Ht Esa Eza Erq Hs Hz Hr Ets.
  assert (forall q m, (q, m) ∈ ps -> blocks (heap s) !! q = Some m) as Hnew.
  { intros q m Hq. rewrite Hb. apply lookup_union_Some_l. by apply elem_of_list_to_map. }
  assert (sys_blocks sa za rq (threads s) =
          [a_self sa; a_self za; q_dataptr rq; q_self rq; t; n]) as E.
  { rewrite Ets. unfold sys_blocks, threads_blocks. rewrite map_to_list_singleton, Esa, Eza. done. }
  split; try done.
  - rewrite E, <- Hps. split; [done|]. intros q ([q' m] & -> & Hin)%list_elem_of_fmap.
    simpl. rewrite (Hnew _ _ Hin). by eexists.
  - rewrite Ets. intros u uh [<- _]%lookup_singleton_Some. by apply Hnew.
  - rewrite Esa. by split_and!.
  - rewrite Eza. by split_and!.
  - rewrite Erq. by split_and!.
  - by rewrite Erq.
  - by rewrite Esa.
  - by rewrite Eza.
  - by rewrite Erq.
Qed.

Lemma array_create_grown h0 ps h :
  grown h0 ps h ->
  exists o h', array_create (V := Z) h = Some (o, h') /\
    match o with
    | None => grown h0 ps h'
    | Some a => a = Array (a_self a) 0 0 None /\ grown h0 ((a_self a, 12) :: ps) h'
    end.
Proof.
  intros G. unfold array_create. assert (kmalloc_size 12) as Hu by (by split).
  destruct (grown_total _ _ _ _ G Hu) as [[p h1] E]. rewrite E. simpl.
  destruct (p =? 0) eqn:Ep; boolify; [subst|]; (eexists _, _; split; [done|]).
  - by apply (grown_kmalloc_null _ _ _ _ _ G Hu).
  - split; [done|]. by apply (grown_kmalloc _ _ _ _ _ _ G Hu).
Qed.

Lemma q_create_grown h0 ps h :
  grown h0 ps h ->
  exists o h', q_create (V := Z) 32 h = Some (o, h') /\
    match o with
    | None => grown h0 ps h'
    | Some q => q = Queue (q_self q) 32 0 0 (q_dataptr q) (replicate 32 None) /\
                grown h0 ((q_dataptr q, 128) :: (q_self q, 16) :: ps) h'
    end.
Proof.
  intros G. unfold q_create. assert (kmalloc_size 16) as Hu by (by split).
  assert (kmalloc_size 128) as Hu2 by (by split).
  destruct (grown_total _ _ _ _ G Hu) as [[p h1] E]. rewrite E. simpl.
  destruct (p =? 0) eqn:Ep; boolify; [subst; eexists _, _; split; [done|]|].
  { by apply (grown_kmalloc_null _ _ _ _ _ G Hu). }
  pose proof (grown_kmalloc _ _ _ _ _ _ G Hu E Ep) as G1.
  change (u32 (32 * 4)) with 128.
  destruct (grown_total _ _ _ _ G1 Hu2) as [[d h2] E2]. rewrite E2. simpl.
  destruct (d =? 0) eqn:Ed; boolify; [subst|].
  - pose proof (grown_kmalloc_null _ _ _ _ _ G1 Hu2 E2) as G2.
    destruct (grown_kfree _ _ _ _ _ G2) as (h3 & -> & G3). simpl. by eexists _, _.
  - eexists _, _. split; [done|]. split; [done|].
    by apply (grown_kmalloc _ _ _ _ _ _ G1 Hu2 E2).
Qed.

(** [scheduler_bootstrap] and [thread_bootstrap], as [boot] calls them, set the
    invariant up. *)
Lemma bootstrap_inv s0 s1 me s :
  heap_ok (heap s0) -> threads s0 = ∅ ->
  scheduler_bootstrap s0 = Some s1 -> thread_bootstrap s1 = Some (me, s) ->
  exists sa za rq, sys_inv s sa za rq (Tlists [] [] []) /\ curthread s = me /\ me <> 0 /\
    numthreads s = 1 /\ curspl s = curspl s0 /\ q_size rq = 32.
Proof.
  intros Hok Ets Es Eb. unfold scheduler_bootstrap in Es.
  destruct (q_create_grown _ _ _ (grown_nil _ Hok)) as (oq & h1 & Eq & G1).
  rewrite Eq in Es. simpl in Es. destruct oq as [q|]; simplify_eq/=. destruct G1 as [Hq G1].
  unfold thread_bootstrap in Eb. simpl in Eb.
  destruct (array_create_grown _ _ _ G1) as (oa & h2 & Ea & G2). rewrite Ea in Eb. simpl in Eb.
  destruct oa as [sa|]; simplify_eq/=. destruct G2 as [Hsa G2].
  destruct (array_create_grown _ _ _ G2) as (oz & h3 & Ez & G3). rewrite Ez in Eb. simpl in Eb.
  destruct oz as [za|]; simplify_eq/=. destruct G3 as [Hza G3].
  set (s3 := set_sleepers _ _) in Eb.
  destruct (thread_create_wp s3 boot_name _ _ G3) as [(h4 & Et & G4)|(t & n & h4 & Et & G4)];
    [done|rewrite Et in Eb; done|]. rewrite Et in Eb. simpl in Eb.
  assert (t <> 0) as Ht.
  { destruct G4 as (_ & _ & Hf & _). by apply Forall_inv_tail, Forall_inv in Hf as [_ ?]. }
  rewrite (proj2 (Z.eqb_neq _ _)) in Eb by done. unfold upd_thread in Eb. simpl in Eb.
  rewrite Ets, lookup_insert_eq in Eb. simpl in Eb. rewrite insert_insert_eq in Eb. simplify_eq.
  exists sa, za, q. split_and!; try done; [|by rewrite Hq]. split.
  - eapply (rep_boot _ (heap s0) _ sa za q me n); [exact G4| |set_solver|done..].
    simpl. solve_Permutation.
  - split; unfold live, cur_list; simpl; rewrite ?(proj2 (Z.eqb_neq me 0)) by done; simpl.
    + apply NoDup_singleton.
    + intros u. rewrite list_elem_of_singleton, lookup_insert_is_Some, lookup_empty.
      naive_solver.
    + done.
    + set_solver.
    + intros u uh [<- <-]%lookup_singleton_Some. done.
Qed.
End ops.
