(* ===== verification/Synch.v ===== *)
(** * Semaphores, locks and condition variables, and the machine they run on

    kern/thread/synch.c, kern/thread/hardclock.c and the interrupt path of
    kern/arch/mips/mips/trap.c and interrupt.c.

    The synchronization objects live in the map [objs], by address.  A
    primitive that can block is cut at the context switch: it either returns,
    or gives the processor away and leaves a [frame] that says where it will
    continue.  The stack of frames of every thread, the thread system of
    [Thread] and the mode of the processor make up the machine [mach]; [step]
    is one step of it, from one point where an interrupt can arrive to the
    next.  The running thread may call any primitive at any time. *)

From stdpp Require Import base option list gmap numbers.
From S2P Require Import Prelude Kmem Array Queue Thread.

(** ** Objects *)

Record semaphore := Semaphore { sem_name : Z; count : Z }.
Record lock := Lock { lock_name : Z; isHeld : bool; holder : Z }.
Record cv := Cv { cv_name : Z }.

Inductive kobj := KSem (s : semaphore) | KLock (l : lock) | KCv (c : cv).

Definition HZ : Z := 100.

(** Where a thread continues when it has the processor again; the innermost
    call comes first. *)
Inductive frame :=
  | F_P (sem spl : Z)                 (* P, asleep in its loop *)
  | F_acquire (lk spl : Z)            (* lock_acquire, asleep in its loop *)
  | F_cvwindow (c lk : Z)             (* cv_wait, lock released, not yet asleep *)
  | F_cvsleep (c lk spl : Z)          (* cv_wait, asleep *)
  | F_relock (lk : Z)                 (* cv_wait, about to take the lock back *)
  | F_clocksleep (n spl : Z)          (* clocksleep, asleep with n seconds left *)
  | F_yield (spl : Z)                 (* thread_yield *)
  | F_irq (savespl old_in : Z)        (* an interrupt handler *)
  | F_start.                          (* a new thread *)

(** How a call ends: it returns, it goes on with new frames, or the thread has
    given the processor away with new frames to continue at. *)
Inductive outcome :=
  | Returned
  | Continue (fs : list frame)
  | Switched (cur : Z) (fs : list frame).

Section synch.
Context {Heap W : Type} `{!Kmalloc Heap} `{!ThreadEnv W}.

Record ksys := Ksys {
  ts : tsys Heap W;
  objs : gmap Z kobj;
  lbolt_counter : Z;
}.
Implicit Types k : ksys.

Definition set_ts x k : ksys := Ksys x (objs k) (lbolt_counter k).
Definition set_obj a o k : ksys := Ksys (ts k) (<[a := o]> (objs k)) (lbolt_counter k).

Definition get_sem (a : Z) k : option semaphore :=
  match objs k !! a with Some (KSem s) => Some s | _ => None end.
Definition get_lock (a : Z) k : option lock :=
  match objs k !! a with Some (KLock l) => Some l | _ => None end.
Definition get_cv (a : Z) k : option cv :=
  match objs k !! a with Some (KCv c) => Some c | _ => None end.

(** [int spl = splhigh(); ... splx(spl);] on the whole state. *)
Definition ksplx (n : Z) k : ksys := set_ts (splx n (ts k)).2 k.
Definition ksplhigh k : Z * ksys := ((splhigh (ts k)).1, set_ts (splhigh (ts k)).2 k).

(** Going to sleep leaves the frame [f]; [thread_sleep] switches away, there is
    a current thread. *)
Definition ksleep (addr : Z) (f : frame) k : option (outcome * ksys) :=
  '(cur, s) ← thread_sleep addr (ts k);
  cur ← cur;
  Some (Switched cur [f], set_ts s k).

Definition kwakeup (addr : Z) k : option ksys :=
  s ← thread_wakeup addr (ts k); Some (set_ts s k).

(** ** Semaphores *)

Definition sem_create (name : list Z) (initial_count : Z) k : option (Z * ksys) :=
  '(a, h) ← kmalloc 8 (heap (ts k));
  if a =? 0 then Some (0, set_ts (set_heap h (ts k)) k) else
  '(n, h) ← kstrdup name h;
  match n with
  | None => h ← kfree a h; Some (0, set_ts (set_heap h (ts k)) k)
  | Some (n, _) =>
      Some (a, set_obj a (KSem {| sem_name := n; count := initial_count |})
                 (set_ts (set_heap h (ts k)) k))
  end.

Definition sem_destroy (a : Z) k : option ksys :=
  ASSERT negb (a =? 0) ;;
  let '(spl, k) := ksplhigh k in
  b ← thread_hassleepers a (ts k);
  ASSERT negb b ;;
  let k := ksplx spl k in
  sem ← get_sem a k;
  h ← kfree (sem_name sem) (heap (ts k));
  h ← kfree a h;
  Some (Ksys (set_heap h (ts k)) (delete a (objs k)) (lbolt_counter k)).

(** [while (sem->count==0) thread_sleep(sem);] and the rest of [P]: one test. *)
Definition P_loop (a spl : Z) k : option (outcome * ksys) :=
  sem ← get_sem a k;
  if count sem =? 0 then ksleep a (F_P a spl) k
  else
    ASSERT 0 <? count sem ;;
    let k := set_obj a (KSem {| sem_name := sem_name sem; count := count sem - 1 |}) k in
    Some (Returned, ksplx spl k).

Definition P (a : Z) k : option (outcome * ksys) :=
  ASSERT negb (a =? 0) ;;
  ASSERT in_interrupt (ts k) =? 0 ;;
  let '(spl, k) := ksplhigh k in
  P_loop a spl k.

Definition V (a : Z) k : option ksys :=
  ASSERT negb (a =? 0) ;;
  let '(spl, k) := ksplhigh k in
  sem ← get_sem a k;
  let count' := s32 (count sem + 1) in
  let k := set_obj a (KSem {| sem_name := sem_name sem; count := count' |}) k in
  ASSERT 0 <? count' ;;
  k ← kwakeup a k;
  Some (ksplx spl k).

(** ** Locks *)

Definition lock_create (name : list Z) k : option (Z * ksys) :=
  '(a, h) ← kmalloc 12 (heap (ts k));
  if a =? 0 then Some (0, set_ts (set_heap h (ts k)) k) else
  '(n, h) ← kstrdup name h;
  match n with
  | None => h ← kfree a h; Some (0, set_ts (set_heap h (ts k)) k)
  | Some (n, _) =>
      Some (a, set_obj a (KLock {| lock_name := n; isHeld := false; holder := 0 |})
                 (set_ts (set_heap h (ts k)) k))
  end.

Definition lock_destroy (a : Z) k : option ksys :=
  l ← get_lock a k;
  h ← kfree (lock_name l) (heap (ts k));
  h ← kfree a h;
  Some (Ksys (set_heap h (ts k)) (delete a (objs k)) (lbolt_counter k)).

Definition lock_do_i_hold (a : Z) k : option bool :=
  l ← get_lock a k; Some (holder l =? curthread (ts k)).

(** [while(lock->isHeld) thread_sleep(lock);] and the rest: one test. *)
Definition acquire_loop (a spl : Z) k : option (outcome * ksys) :=
  l ← get_lock a k;
  if isHeld l then ksleep a (F_acquire a spl) k
  else
    let k := set_obj a (KLock {| lock_name := lock_name l; isHeld := true;
                                 holder := curthread (ts k) |}) k in
    Some (Returned, ksplx spl k).

Definition lock_acquire (a : Z) k : option (outcome * ksys) :=
  ASSERT negb (a =? 0) ;;
  let '(spl, k) := ksplhigh k in
  b ← lock_do_i_hold a k;
  ASSERT negb b ;;                                     (* else panic *)
  acquire_loop a spl k.

Definition lock_release (a : Z) k : option ksys :=
  ASSERT negb (a =? 0) ;;
  let '(spl, k) := ksplhigh k in
  b ← lock_do_i_hold a k;
  ASSERT (b : bool) ;;                                (* else panic *)
  l ← get_lock a k;
  let k := set_obj a (KLock {| lock_name := lock_name l; isHeld := false; holder := 0 |}) k in
  k ← kwakeup a k;
  Some (ksplx spl k).

(** ** Condition variables *)

Definition cv_create (name : list Z) k : option (Z * ksys) :=
  '(a, h) ← kmalloc 4 (heap (ts k));
  if a =? 0 then Some (0, set_ts (set_heap h (ts k)) k) else
  '(n, h) ← kstrdup name h;
  match n with
  | None => h ← kfree a h; Some (0, set_ts (set_heap h (ts k)) k)
  | Some (n, _) =>
      Some (a, set_obj a (KCv {| cv_name := n |}) (set_ts (set_heap h (ts k)) k))
  end.

Definition cv_destroy (a : Z) k : option ksys :=
  ASSERT negb (a =? 0) ;;
  c ← get_cv a k;
  h ← kfree (cv_name c) (heap (ts k));
  h ← kfree a h;
  Some (Ksys (set_heap h (ts k)) (delete a (objs k)) (lbolt_counter k)).

(** The first part of [cv_wait]: up to [lock_release], after which interrupts
    are as the caller had them.  The argument is a [struct cv]. *)
Definition cv_wait (c a : Z) k : option (outcome * ksys) :=
  ASSERT negb (c =? 0) && negb (a =? 0) ;;
  _ ← get_cv c k;
  k ← lock_release a k;
  Some (Continue [F_cvwindow c a], k).

(** The second part: [splhigh] and [thread_sleep]. *)
Definition cv_wait_sleep (c a : Z) k : option (outcome * ksys) :=
  let '(spl, k) := ksplhigh k in
  ksleep c (F_cvsleep c a spl) k.

Definition cv_signal (c a : Z) k : option ksys :=
  b ← lock_do_i_hold a k;
  ASSERT negb (c =? 0) && b ;;
  let '(spl, k) := ksplhigh k in
  s ← thread_wakeup_one c (ts k);
  Some (ksplx spl (set_ts s k)).

Definition cv_broadcast (c a : Z) k : option ksys :=
  b ← lock_do_i_hold a k;
  ASSERT negb (c =? 0) && b ;;
  let '(spl, k) := ksplhigh k in
  k ← kwakeup c k;
  Some (ksplx spl k).

(** ** The clock (hardclock.c) *)

(** [thread_yield] in the middle of a computation; it just returns when the
    processor is idle. *)
Definition kyield k : option (outcome * ksys) :=
  '(spl, cur, s) ← thread_yield (ts k);
  match cur with
  | Some cur => Some (Switched cur [F_yield spl], set_ts s k)
  | None => Some (Returned, ksplx spl (set_ts s k))
  end.

Definition hardclock k : option (outcome * ksys) :=
  let n := s32 (lbolt_counter k + 1) in
  k ← (if HZ <=? n then kwakeup lbolt (Ksys (ts k) (objs k) 0)
       else Some (Ksys (ts k) (objs k) n));
  kyield k.

(** [while (num_secs > 0) { thread_sleep(&lbolt); num_secs--; }]: one test. *)
Definition clocksleep_loop (n spl : Z) k : option (outcome * ksys) :=
  if 0 <? n then ksleep lbolt (F_clocksleep (n - 1) spl) k
  else Some (Returned, ksplx spl k).

Definition clocksleep (n : Z) k : option (outcome * ksys) :=
  let '(spl, k) := ksplhigh k in clocksleep_loop n spl k.
End synch.
Arguments ksys : clear implicits.

(** ** The machine *)

(** What interrupt handlers do: the timer calls [hardclock], the handlers of
    the other devices do [V] on semaphores their drivers wait for. *)
Inductive irq :=
  | Irq_timer
  | Irq_dev (sems : list Z).

(** What running threads do, besides computing. *)
Inductive call :=
  | C_P (a : Z)
  | C_V (a : Z)
  | C_acquire (a : Z)
  | C_release (a : Z)
  | C_wait (c a : Z)
  | C_signal (c a : Z)
  | C_broadcast (c a : Z)
  | C_yield
  | C_clocksleep (n : Z)
  | C_fork (name : list Z) (data1 data2 func : Z)
  | C_exit.

Inductive mode :=
  | Run                               (* curthread executes *)
  | Idle (cur : Z).                   (* the scheduler, on the stack of cur *)

Inductive label :=
  | L_call (c : call)                 (* the current thread calls a primitive *)
  | L_go                              (* and goes on inside one *)
  | L_dispatch                        (* the scheduler picks the next thread *)
  | L_irq (i : irq).                  (* an interrupt arrives *)

(** What an observer sees: completed operations, with the thread. *)
Inductive event :=
  | EvP (t a : Z)
  | EvV (a : Z)
  | EvAcq (t a : Z)
  | EvRel (t a : Z).

#[global] Instance event_eq_dec : EqDecision event.
Proof. solve_decision. Defined.

Section machine.
Context {Heap W : Type} `{!Kmalloc Heap} `{!ThreadEnv W}.
Implicit Types k : ksys Heap W.

Record mach := Mach {
  kern : ksys Heap W;
  mmode : mode;
  stacks : gmap Z (list frame);
}.

(** *** Interrupts *)

(** Entry through [mips_trap] and [mips_interrupt]: the old level and flag, and
    the state the handler starts in. *)
Definition irq_enter k : Z * Z * ksys Heap W :=
  let s := ts k in
  (curspl s, in_interrupt s,
   set_ts (set_context 1 (curkstack s) (set_spl SPL_HIGH false s)) k).

(** The way back; [on] is the interrupt state the return restores. *)
Definition irq_leave (savespl old_in : Z) (on : bool) k : ksys Heap W :=
  let s := ts k in
  set_ts (set_spl savespl on (set_context old_in (curkstack s) s)) k.

Fixpoint V_all (sems : list Z) k : option (ksys Heap W) :=
  match sems with
  | [] => Some k
  | a :: sems => k ← V a k; V_all sems k
  end.

Definition irq_handler (i : irq) k : option (outcome * ksys Heap W) :=
  ASSERT 0 <? curspl (ts k) ;;
  match i with
  | Irq_timer => hardclock k
  | Irq_dev sems => k ← V_all sems k; Some (Returned, k)
  end.

Definition irq_events (i : irq) : list event :=
  match i with Irq_timer => [] | Irq_dev sems => EvV <$> sems end.

(** *** Frames *)

Definition ksleep_in k : option (ksys Heap W) :=
  s ← thread_sleep_in (ts k); Some (set_ts s k).

(** A thread that was switched to continues. *)
Definition resume_frame (f : frame) k : option (outcome * ksys Heap W) :=
  match f with
  | F_start => s ← mi_threadstart (ts k); Some (Returned, set_ts s k)
  | F_yield spl => s ← mi_switch_in (ts k); Some (Returned, ksplx spl (set_ts s k))
  | F_P a spl => k ← ksleep_in k; P_loop a spl k
  | F_acquire a spl => k ← ksleep_in k; acquire_loop a spl k
  | F_cvsleep c a spl => k ← ksleep_in k; Some (Continue [F_relock a], ksplx spl k)
  | F_clocksleep n spl => k ← ksleep_in k; clocksleep_loop n spl k
  | _ => None
  end.

(** A running thread continues inside a primitive. *)
Definition go_frame (f : frame) k : option (outcome * ksys Heap W) :=
  match f with
  | F_cvwindow c a => cv_wait_sleep c a k
  | F_relock a => lock_acquire a k
  | F_irq savespl old_in => Some (Returned, irq_leave savespl old_in true k)
  | _ => None
  end.

Definition frame_events (f : frame) (t : Z) (o : outcome) : list event :=
  match f, o with
  | F_P a _, Returned => [EvP t a]
  | F_acquire a _, Returned | F_relock a, Returned => [EvAcq t a]
  | _, _ => []
  end.

(** *** Calls *)

Definition exec_call (c : call) k : option (outcome * ksys Heap W) :=
  match c with
  | C_P a => P a k
  | C_V a => k ← V a k; Some (Returned, k)
  | C_acquire a => lock_acquire a k
  | C_release a => k ← lock_release a k; Some (Returned, k)
  | C_wait c a => cv_wait c a k
  | C_signal c a => k ← cv_signal c a k; Some (Returned, k)
  | C_broadcast c a => k ← cv_broadcast c a k; Some (Returned, k)
  | C_yield => kyield k
  | C_clocksleep n => clocksleep n k
  | C_fork name d1 d2 f =>
      '(_, _, s) ← thread_fork name d1 d2 f (ts k); Some (Returned, set_ts s k)
  | C_exit =>
      '(cur, s) ← thread_exit (ts k);
      cur ← cur;
      Some (Switched cur [], set_ts s k)
  end.

Definition call_events (c : call) (t : Z) (o : outcome) : list event :=
  match c, o with
  | C_P a, Returned => [EvP t a]
  | C_V a, _ => [EvV a]
  | C_acquire a, Returned => [EvAcq t a]
  | C_release a, _ | C_wait _ a, _ => [EvRel t a]
  | _, _ => []
  end.

(** The stacks after a call: a forked thread has one, an ended one has not. *)
Definition call_stacks (c : call) k (stks : gmap Z (list frame)) : gmap Z (list frame) :=
  match c with
  | C_fork name d1 d2 f =>
      match thread_fork name d1 d2 f (ts k) with
      | Some (r, t, _) => if r =? 0 then <[t := [F_start]]> stks else stks
      | None => stks
      end
  | C_exit => delete (curthread (ts k)) stks
  | _ => stks
  end.

(** *** Steps *)

(** The machine after thread [t], with [rest] below the call, has come to [o]. *)
Definition settle (t : Z) (rest : list frame) (stks : gmap Z (list frame))
    (o : outcome) k : mach :=
  match o with
  | Returned => Mach k Run (<[t := rest]> stks)
  | Continue fs => Mach k Run (<[t := fs ++ rest]> stks)
  | Switched cur fs => Mach k (Idle cur) (<[t := fs ++ rest]> stks)
  end.

Definition step (l : label) (m : mach) : option (list event * mach) :=
  let k := kern m in
  let t := curthread (ts k) in
  match l, mmode m with
  | L_call c, Run =>
      match stacks m !! t with
      | Some [] =>
          '(o, k') ← exec_call c k;
          let m' := settle t [] (stacks m) o k' in
          Some (call_events c t o, Mach (kern m') (mmode m') (call_stacks c k (stacks m')))
      | _ => None
      end
  | L_go, Run =>
      match stacks m !! t with
      | Some (f :: rest) =>
          '(o, k') ← go_frame f k;
          Some (frame_events f t o, settle t rest (stacks m) o k')
      | _ => None
      end
  | L_dispatch, Idle cur =>
      '(next, s) ← scheduler (ts k);
      next ← next;
      s ← switch_to cur next s;
      match stacks m !! next with
      | Some (f :: rest) =>
          '(o, k') ← resume_frame f (set_ts s k);
          Some (frame_events f next o, settle next rest (stacks m) o k')
      | _ => None
      end
  | L_irq i, Run =>
      if IEc (ts k) then
        let '(savespl, old_in, k1) := irq_enter k in
        '(o, k2) ← irq_handler i k1;
        rest ← stacks m !! t;
        match o with
        | Returned => Some (irq_events i, Mach (irq_leave savespl old_in true k2) Run (stacks m))
        | Switched _ _ => Some (irq_events i,
                            settle t (F_irq savespl old_in :: rest) (stacks m) o k2)
        | Continue _ => None
        end
      else None
  | L_irq i, Idle cur =>
      let '(savespl, old_in, k1) := irq_enter k in
      '(o, k2) ← irq_handler i k1;
      match o with
      | Returned => Some (irq_events i, Mach (irq_leave savespl old_in false k2) (Idle cur) (stacks m))
      | _ => None
      end
  | _, _ => None
  end.

(** A run: the labels are the scheduler's and the outside world's choices. *)
Fixpoint run (ls : list label) (m : mach) : option (list event * mach) :=
  match ls with
  | [] => Some ([], m)
  | l :: ls =>
      '(es, m) ← step l m;
      '(es', m) ← run ls m;
      Some (es ++ es', m)
  end.
End machine.
Arguments mach : clear implicits.
