(* ===== verification/SynchInv.v ===== *)
(** * Correctness of the synchronization primitives

    The abstract specification has a count for every semaphore and an owner for
    every lock, changed by the observable events only; [synch_refines] shows
    that whatever the threads call and whenever interrupts and the scheduler
    intervene, the machine of [Synch] does what the specification allows.
    [no_missed_wakeup] is the other half: a thread sleeps on a semaphore or a
    lock only while it has to. *)

From stdpp Require Import base option list gmap fin_maps numbers.
From S2P Require Import Prelude Kmem Array Queue Thread ThreadInv ThreadOps Synch.

(** ** The specification *)

Inductive aobj := ASem (n : Z) | ALock (owner : option Z) | ACv.

Definition abs_obj (o : kobj) : aobj :=
  match o with
  | KSem s => ASem (count s)
  | KLock l => ALock (if isHeld l then Some (holder l) else None)
  | KCv _ => ACv
  end.

Definition abs_step (e : event) (A : gmap Z aobj) : option (gmap Z aobj) :=
  match e with
  | EvP _ a =>
      match A !! a with
      | Some (ASem n) => if 0 <? n then Some (<[a := ASem (n - 1)]> A) else None
      | _ => None
      end
  | EvV a =>
      match A !! a with
      | Some (ASem n) => Some (<[a := ASem (n + 1)]> A)
      | _ => None
      end
  | EvAcq t a =>
      match A !! a with
      | Some (ALock None) => Some (<[a := ALock (Some t)]> A)
      | _ => None
      end
  | EvRel t a =>
      match A !! a with
      | Some (ALock (Some u)) => if u =? t then Some (<[a := ALock None]> A) else None
      | _ => None
      end
  end.

Fixpoint abs_run (es : list event) (A : gmap Z aobj) : option (gmap Z aobj) :=
  match es with
  | [] => Some A
  | e :: es => A ← abs_step e A; abs_run es A
  end.

Lemma abs_run_app es es' A :
  abs_run (es ++ es') A = (A ← abs_run es A; abs_run es' A).
Proof.
  revert A. induction es as [|e es IH]; intros A; simpl; [done|].
  destruct (abs_step e A); simpl; [apply IH|done].
Qed.

Definition available (o : option kobj) : bool :=
  match o with
  | Some (KSem s) => negb (count s =? 0)
  | Some (KLock l) => negb (isHeld l)
  | _ => false
  end.

Definition obj_ok (o : kobj) : Prop :=
  match o with
  | KSem s => 0 <= count s < 2 ^ 31
  | KLock l => holder l <> 0 -> isHeld l = true
  | KCv _ => True
  end.

Section synch_inv.
Context {Heap W : Type} `{KmallocLaws Heap} `{!ThreadEnv W}.
Abbreviation tsys := (tsys Heap W).
Abbreviation ksys := (ksys Heap W).
Implicit Types (s : tsys) (k : ksys).

Definition abs k : gmap Z aobj := abs_obj <$> objs k.

(** No thread sleeps on an available object, except perhaps on [ex]. *)
Definition asleep_ok (ex : option Z) k (L : tlists) : Prop :=
  forall t a, t ∈ l_sleep L -> sleepmap (ts k) !! t = Some a -> Some a <> ex ->
              available (objs k !! a) = false.

Definition kinv_ex (ex : option Z) k : Prop :=
  exists sa za rq L, sys_inv (ts k) sa za rq L /\ asleep_ok ex k L /\
    objs k !! lbolt = None /\ forall a o, objs k !! a = Some o -> obj_ok o.

Definition kinv k : Prop := kinv_ex None k.

Definition is_cv k (c : Z) : Prop := exists x, objs k !! c = Some (KCv x).

Definition frame_ok k (f : frame) : Prop :=
  match f with F_cvwindow c _ | F_cvsleep c _ _ => is_cv k c | _ => True end.

(** What a call does to the rest of the machine. *)
Definition ctl_ok k (o : outcome) k' : Prop :=
  match o with
  | Returned => curthread (ts k') = curthread (ts k)
  | Continue fs => curthread (ts k') = curthread (ts k) /\ Forall (frame_ok k') fs
  | Switched cur fs =>
      cur = curthread (ts k) /\ curthread (ts k') = 0 /\ 0 < curspl (ts k') /\
      is_Some (threads (ts k') !! cur) /\ Forall (frame_ok k') fs
  end.

(** The threads that wait for the processor, the next one first. *)
Definition ready s : list Z :=
  match runqueue s with Some q => omap id (q_list q) | None => [] end.

Lemma ready_inv s sa za rq L : sys_inv s sa za rq L -> ready s = l_ready L.
Proof.
  intros [HR _]. unfold ready. rewrite (rep_runqueue _ _ _ _ _ HR), (rep_ready _ _ _ _ _ HR).
  induction (l_ready L) as [|t l IH]; simpl; [done|]. by f_equal.
Qed.

Lemma ready_grows s s' sa za rq L sa' za' rq' L' :
  sys_inv s sa za rq L -> sys_inv s' sa' za' rq' L' -> l_ready L `prefix_of` l_ready L' ->
  ready s `prefix_of` ready s'.
Proof. intros HI HI'. by rewrite (ready_inv _ _ _ _ _ HI), (ready_inv _ _ _ _ _ HI'). Qed.

Definition kpost k (es : list event) (o : outcome) k' : Prop :=
  kinv k' /\ abs_run es (abs k) = Some (abs k') /\
  (forall c, is_cv k c -> is_cv k' c) /\ ready (ts k) `prefix_of` ready (ts k') /\ ctl_ok k o k'.

(** ** Changes the invariant does not see *)

Lemma kinv_ts ex k s' :
  kinv_ex ex k -> (forall sa za rq L, sys_inv (ts k) sa za rq L -> sys_inv s' sa za rq L) ->
  sleepmap s' = sleepmap (ts k) -> kinv_ex ex (set_ts s' k).
Proof.
  intros (sa & za & rq & L & HI & Ha & Hl & Ho) Hs Em. exists sa, za, rq, L.
  split_and!; [by apply Hs| |done|done]. intros t a. simpl. rewrite Em. apply Ha.
Qed.

Lemma kinv_splx ex k n : kinv_ex ex k -> kinv_ex ex (ksplx n k).
Proof. intros HK. apply (kinv_ts ex k _ HK); [|done]. intros *. apply inv_splx. Qed.

(** Changing an object, with an exception for its own address. *)
Lemma kinv_set_obj ex k a o :
  kinv_ex ex k -> obj_ok o -> is_Some (objs k !! a) ->
  (ex = None -> available (Some o) = true -> available (objs k !! a) = true) ->
  (ex = None \/ ex = Some a) -> kinv_ex ex (set_obj a o k).
Proof.
  intros (sa & za & rq & L & HI & Ha & Hl & Ho) Hok [o0 E0] Hav Hex. exists sa, za, rq, L.
  split_and!; [done| | |].
  - intros t x Ht Hx Hne. simpl. destruct (decide (a = x)) as [<-|].
    + rewrite lookup_insert_eq. destruct Hex as [->| ->]; [|done].
      specialize (Ha t a Ht Hx Hne). destruct (available (Some o)) eqn:E; [|done].
      rewrite Hav in Ha by done. done.
    + rewrite lookup_insert_ne by done. by apply (Ha t).
  - simpl. rewrite lookup_insert_ne; [done|]. intros ->. congruence.
  - intros x y. simpl. intros [[<- <-]|[_ Hx]]%lookup_insert_Some; [done|]. by eapply Ho.
Qed.

Lemma kinv_weaken a k : kinv k -> kinv_ex (Some a) k.
Proof.
  intros (sa & za & rq & L & HI & Ha & Hl & Ho). exists sa, za, rq, L.
  split_and!; [done| |done|done]. intros t x Ht Hx _. by apply (Ha t).
Qed.

Lemma is_cv_set_obj k a o c :
  is_cv k c -> (forall x, objs k !! a <> Some (KCv x)) -> is_cv (set_obj a o k) c.
Proof.
  intros [x Hc] Hne. exists x. simpl. rewrite lookup_insert_ne; [done|].
  intros ->. by apply (Hne x).
Qed.

Lemma abs_set_obj k a o : abs (set_obj a o k) = <[a := abs_obj o]> (abs k).
Proof. unfold abs. simpl. apply fmap_insert. Qed.

Lemma abs_lookup k a o : objs k !! a = Some o -> abs k !! a = Some (abs_obj o).
Proof. intros E. unfold abs. by rewrite lookup_fmap, E. Qed.

(** ** Sleeping and waking *)

Lemma mi_switch_out_spl ns s o s' : mi_switch_out ns s = Some (o, s') -> 0 < curspl s.
Proof. unfold mi_switch_out. intros E. destruct (0 <? curspl s) eqn:Es; [by boolify|done]. Qed.

Lemma thread_sleep_wp s sa za rq L addr o s' :
  sys_inv s sa za rq L -> curthread s <> 0 -> thread_sleep addr s = Some (o, s') ->
  o = Some (curthread s) /\ curthread s' = 0 /\ 0 < curspl s' /\
  is_Some (threads s' !! curthread s) /\
  sleepmap s' = <[curthread s := addr]> (sleepmap s) /\
  exists sa' za' rq', sys_inv s' sa' za' rq' (stash S_SLEEP (curthread s) L).
Proof.
  intros HI Hc E. unfold thread_sleep in E. destruct (in_interrupt s =? 0); [|done].
  destruct (inv_cur _ _ _ _ _ HI Hc) as (th & Eth & _).
  destruct (inv_upd_thread _ _ _ _ _ _ _ _ HI (keeps_sleepaddr addr) Eth) as [Eu HI1].
  rewrite Eu in E. simpl in E. pose proof (mi_switch_out_spl _ _ _ _ E) as Hspl.
  destruct (mi_switch_out_inv S_SLEEP _ _ _ _ _ HI1 Hspl Hc) as [_ Hout]; [by right|].
  destruct (Hout o s' E) as (-> & sa' & za' & rq' & h' & -> & _ & HI').
  split_and!; [done|done|done| | |by exists sa', za', rq'].
  - simpl. rewrite lookup_insert_eq. by eexists.
  - unfold sleepmap. simpl. by rewrite fmap_insert.
Qed.

Lemma ksleep_wp k addr f o k' :
  kinv k -> curthread (ts k) <> 0 -> available (objs k !! addr) = false -> frame_ok k f ->
  ksleep addr f k = Some (o, k') -> kpost k [] o k'.
Proof.
  intros (sa & za & rq & L & HI & Ha & Hl & Ho) Hc Hav Hf E. unfold ksleep in E.
  destruct (thread_sleep addr (ts k)) as [[cur s']|] eqn:Es; simpl in E; [|done].
  destruct (thread_sleep_wp _ _ _ _ _ _ _ _ HI Hc Es) as
    (-> & Ec & Hspl & Hth & Em & sa' & za' & rq' & HI'). simplify_eq/=.
  split_and!; [|done|done|by apply (ready_grows _ _ _ _ _ _ _ _ _ _ HI HI')|split_and!; try done; by constructor].
  exists sa', za', rq', (stash S_SLEEP (curthread (ts k)) L). split_and!; [done| |done|done].
  intros t a Ht. simpl in *. rewrite Em. rewrite elem_of_app, list_elem_of_singleton in Ht.
  destruct Ht as [Ht| ->].
  - rewrite lookup_insert_ne; [by apply Ha|]. intros <-. destruct HI as [_ HP].
    pose proof (inv_nodup _ _ HP) as Hnd. unfold live, cur_list in Hnd.
    rewrite (proj2 (Z.eqb_neq _ _)) in Hnd by done. simpl in Hnd.
    apply list.NoDup_cons in Hnd as [Hnin _]. set_solver.
  - rewrite lookup_insert_eq. by intros [= <-].
Qed.

Lemma kwakeup_wp ex k a k' :
  kinv_ex ex k -> (ex = None \/ ex = Some a) -> kwakeup a k = Some k' ->
  kinv k' /\ objs k' = objs k /\ curthread (ts k') = curthread (ts k) /\ ready (ts k) `prefix_of` ready (ts k').
Proof.
  intros (sa & za & rq & L & HI & Ha & Hl & Ho) Hex E. unfold kwakeup in E.
  destruct (thread_wakeup a (ts k)) as [s'|] eqn:Es; simpl in E; [|done]. simplify_eq.
  assert (0 < curspl (ts k)) as Hspl.
  { unfold thread_wakeup in Es. destruct (0 <? curspl (ts k)) eqn:E0; [by boolify|done]. }
  destruct (thread_wakeup_wp _ _ _ _ _ a HI Hspl) as [_ Hw].
  destruct (Hw s' Es) as (sa' & rq' & h' & -> & _ & _ & HI').
  split_and!; [|done|done|apply (ready_grows _ _ _ _ _ _ _ _ _ _ HI HI'); by eexists].
  eexists _, _, _, _. split; [exact HI'|]. split_and!; [|done|done].
  intros t x Ht Hx _. simpl in *. apply list_elem_of_filter in Ht as [Hns Ht].
  apply (Ha t x Ht Hx). destruct Hex as [->| ->]; [done|]. intros [= ->]. apply Hns.
  unfold sleeps_on. unfold sleepmap in Hx. by rewrite lookup_fmap in Hx.
Qed.

(** ** Semaphores *)

Lemma get_sem_inv a k sem : get_sem a k = Some sem -> objs k !! a = Some (KSem sem).
Proof. unfold get_sem. intros E. by destruct (objs k !! a) as [[]|]; simplify_eq. Qed.

Lemma get_lock_inv a k l : get_lock a k = Some l -> objs k !! a = Some (KLock l).
Proof. unfold get_lock. intros E. by destruct (objs k !! a) as [[]|]; simplify_eq. Qed.

Lemma get_cv_inv c k : is_Some (get_cv c k) -> is_cv k c.
Proof.
  unfold get_cv. intros [x E]. exists x. by destruct (objs k !! c) as [[]|]; simplify_eq.
Qed.

Lemma P_loop_wp t a spl k o k' :
  kinv k -> curthread (ts k) <> 0 -> P_loop a spl k = Some (o, k') ->
  kpost k (match o with Returned => [EvP t a] | _ => [] end) o k'.
Proof.
  intros HK Hc E. unfold P_loop in E.
  destruct (get_sem a k) as [sem|] eqn:Eg; simpl in E; [|done]. apply get_sem_inv in Eg.
  destruct (count sem =? 0) eqn:E0; boolify.
  - assert (exists cur, o = Switched cur [F_P a spl]) as [cur ->].
    { unfold ksleep in E. destruct (thread_sleep a (ts k)) as [[[c|] ?]|]; simplify_eq/=; eauto. }
    apply (ksleep_wp k a (F_P a spl)); [done|done| |done|done]. rewrite Eg. simpl. by rewrite E0.
  - destruct (0 <? count sem) eqn:Ep; boolify; [|done]. simplify_eq.
    pose proof HK as (sa & za & rq & L & HI & Ha & Hl & Ho). pose proof (Ho _ _ Eg) as Hok.
    simpl in Hok. split_and!; [| | |done|done].
    + apply kinv_splx, kinv_set_obj; [done|simpl; lia|by rewrite Eg| |by left].
      intros _ _. rewrite Eg. simpl. by rewrite (proj2 (Z.eqb_neq _ _)).
    + simpl. rewrite (abs_lookup _ _ _ Eg). simpl. rewrite (proj2 (Z.ltb_lt _ _)) by done.
      simpl. f_equal. symmetry. apply abs_set_obj.
    + intros c Hc'. apply is_cv_set_obj; [done|]. intros x. by rewrite Eg.
Qed.

Lemma kinv_splhigh ex k : kinv_ex ex k -> kinv_ex ex (ksplhigh k).2.
Proof. apply kinv_splx. Qed.

Lemma P_wp t a k o k' :
  kinv k -> curthread (ts k) <> 0 -> P a k = Some (o, k') ->
  kpost k (match o with Returned => [EvP t a] | _ => [] end) o k'.
Proof.
  intros HK Hc E. unfold P in E. destruct (negb (a =? 0)); [|done].
  destruct (in_interrupt (ts k) =? 0); [|done].
  by apply (P_loop_wp t a _ _ _ _ (kinv_splhigh _ _ HK)) in E.
Qed.

Lemma V_wp a k k' : kinv k -> V a k = Some k' -> kpost k [EvV a] Returned k'.
Proof.
  intros HK E. unfold V in E. destruct (negb (a =? 0)); [|done]. simpl in E.
  apply kinv_splhigh in HK. set (k1 := (ksplhigh k).2) in *.
  destruct (get_sem a _) as [sem|] eqn:Eg; simpl in E; [|done].
  apply get_sem_inv in Eg. change (objs k !! a = Some (KSem sem)) in Eg.
  pose proof HK as (sa & za & rq & L & HI & Ha & Hl & Ho). pose proof (Ho _ _ Eg) as Hok.
  simpl in Hok. destruct (0 <? s32 (count sem + 1)) eqn:Ep; [|done]. boolify.
  assert (s32 (count sem + 1) = count sem + 1 /\ count sem + 1 < 2 ^ 31) as [E1 Hlt].
  { unfold s32 in *. destruct (decide (count sem + 1 < 2 ^ 31)).
    - rewrite Z.mod_small by lia. lia.
    - exfalso. replace (count sem + 1) with (2 ^ 31) in Ep by lia. done. }
  rewrite E1 in E. destruct (kwakeup a _) as [k2|] eqn:Ew; simpl in E; [|done]. simplify_eq.
  assert (kinv_ex (Some a) (set_obj a (KSem (Semaphore (sem_name sem) (count sem + 1))) k1)) as HK1.
  { apply kinv_set_obj; [by apply kinv_weaken|simpl; lia|by exists (KSem sem)|done|by right]. }
  destruct (kwakeup_wp _ _ _ _ HK1 (or_intror eq_refl) Ew) as (HK2 & Eo & Ec & Hrd).
  split_and!; [by apply kinv_splx| | |done|done].
  - simpl. rewrite (abs_lookup _ _ _ Eg). simpl. f_equal. unfold abs. simpl. rewrite Eo.
    simpl. by rewrite fmap_insert.
  - intros c Hcv. destruct (is_cv_set_obj k1 a (KSem (Semaphore (sem_name sem) (count sem + 1))) c
      Hcv) as [x Hx]; [intros x Ex; simpl in *; congruence|]. exists x. simpl. by rewrite Eo.
Qed.

(** ** Locks *)

Lemma acquire_loop_wp a spl k o k' :
  kinv k -> curthread (ts k) <> 0 -> acquire_loop a spl k = Some (o, k') ->
  kpost k (match o with Returned => [EvAcq (curthread (ts k)) a] | _ => [] end) o k'.
Proof.
  intros HK Hc E. unfold acquire_loop in E.
  destruct (get_lock a k) as [l|] eqn:Eg; simpl in E; [|done]. apply get_lock_inv in Eg.
  destruct (isHeld l) eqn:Eh.
  - assert (exists cur, o = Switched cur [F_acquire a spl]) as [cur ->].
    { unfold ksleep in E. destruct (thread_sleep a (ts k)) as [[[c|] ?]|]; simplify_eq/=; eauto. }
    apply (ksleep_wp k a (F_acquire a spl)); [done|done| |done|done]. rewrite Eg. simpl. by rewrite Eh.
  - simplify_eq. split_and!; [| | |done|done].
    + apply kinv_splx, kinv_set_obj; [done|done|by rewrite Eg|done|by left].
    + simpl. rewrite (abs_lookup _ _ _ Eg). simpl. rewrite Eh.
      simpl. f_equal. symmetry. apply abs_set_obj.
    + intros c Hc'. apply is_cv_set_obj; [done|]. intros x. by rewrite Eg.
Qed.

Lemma lock_acquire_wp a k o k' :
  kinv k -> curthread (ts k) <> 0 -> lock_acquire a k = Some (o, k') ->
  kpost k (match o with Returned => [EvAcq (curthread (ts k)) a] | _ => [] end) o k'.
Proof.
  intros HK Hc E. unfold lock_acquire in E. destruct (negb (a =? 0)); [|done]. simpl in E.
  destruct (lock_do_i_hold a _) as [b|]; simpl in E; [|done]. destruct (negb b); [|done].
  by apply (acquire_loop_wp a _ _ _ _ (kinv_splhigh _ _ HK)) in E.
Qed.

Lemma lock_release_wp a k k' :
  kinv k -> curthread (ts k) <> 0 -> lock_release a k = Some k' ->
  kpost k [EvRel (curthread (ts k)) a] Returned k'.
Proof.
  intros HK Hc E. unfold lock_release, lock_do_i_hold in E. destruct (negb (a =? 0)); [|done].
  simpl in E. apply kinv_splhigh in HK. set (k1 := (ksplhigh k).2) in *.
  destruct (get_lock a _) as [l|] eqn:Eg; simpl in E; [|done].
  apply get_lock_inv in Eg. change (objs k !! a = Some (KLock l)) in Eg.
  destruct (holder l =? curthread (ts k)) eqn:Eh; [|done]. boolify.
  pose proof HK as (sa & za & rq & L & HI & Ha & Hl & Ho). pose proof (Ho _ _ Eg) as Hok.
  simpl in Hok. rewrite Eh in Hok. specialize (Hok Hc).
  destruct (kwakeup a _) as [k2|] eqn:Ew; simpl in E; [|done]. simplify_eq.
  assert (kinv_ex (Some a) (set_obj a (KLock (Lock (lock_name l) false 0)) k1)) as HK1.
  { apply kinv_set_obj; [by apply kinv_weaken|by intros []|by exists (KLock l)|done|by right]. }
  destruct (kwakeup_wp _ _ _ _ HK1 (or_intror eq_refl) Ew) as (HK2 & Eo & Ec & Hrd).
  split_and!; [by apply kinv_splx| | |done|done].
  - simpl. rewrite (abs_lookup _ _ _ Eg). simpl. rewrite Hok, Eh, Z.eqb_refl. simpl.
    f_equal. unfold abs. simpl. rewrite Eo. simpl. by rewrite fmap_insert.
  - intros c Hcv. destruct (is_cv_set_obj k1 a (KLock (Lock (lock_name l) false 0)) c Hcv)
      as [x Hx]; [intros x Ex; simpl in *; congruence|]. exists x. simpl. by rewrite Eo.
Qed.

(** ** Condition variables and the clock *)

Lemma kpost_same k k' :
  kinv k' -> objs k' = objs k -> curthread (ts k') = curthread (ts k) ->
  ready (ts k) `prefix_of` ready (ts k') -> kpost k [] Returned k'.
Proof.
  intros HK Eo Ec Hrd. split_and!; [done| | |done|done].
  - simpl. f_equal. unfold abs. by rewrite Eo.
  - intros c [x Hx]. exists x. by rewrite Eo.
Qed.

Lemma cv_wait_wp c a k o k' :
  kinv k -> curthread (ts k) <> 0 -> cv_wait c a k = Some (o, k') ->
  kpost k [EvRel (curthread (ts k)) a] o k'.
Proof.
  intros HK Hc E. unfold cv_wait in E. destruct (_ && _); [|done].
  destruct (get_cv c k) as [x|] eqn:Eg; simpl in E; [|done].
  destruct (lock_release a k) as [k1|] eqn:Er; simplify_eq/=.
  destruct (lock_release_wp _ _ _ HK Hc Er) as (HK' & Ha & Hcv & Hrd & Ec).
  split_and!; [done..|]. split; [done|]. constructor; [|done]. apply Hcv, get_cv_inv. by eexists.
Qed.

Lemma cv_wait_sleep_wp c a k o k' :
  kinv k -> curthread (ts k) <> 0 -> is_cv k c -> cv_wait_sleep c a k = Some (o, k') ->
  kpost k [] o k'.
Proof.
  intros HK Hc Hcv E. unfold cv_wait_sleep in E.
  apply (ksleep_wp _ _ _ _ _ (kinv_splhigh _ _ HK)) in E; [done|done| |done].
  destruct Hcv as [x Hx]. simpl. by rewrite Hx.
Qed.

Lemma kinv_wakeup_one k c s' :
  kinv k -> thread_wakeup_one c (ts k) = Some s' ->
  kinv (set_ts s' k) /\ curthread s' = curthread (ts k) /\ ready (ts k) `prefix_of` ready s'.
Proof.
  intros (sa & za & rq & L & HI & Ha & Hl & Ho) E.
  assert (0 < curspl (ts k)) as Hspl.
  { unfold thread_wakeup_one in E. destruct (0 <? curspl (ts k)) eqn:E0; [by boolify|done]. }
  pose proof (thread_wakeup_one_wp _ _ _ _ _ c HI Hspl) as Hw.
  pose proof (wake_skip_split (threads (ts k)) c (l_sleep L)) as Hp.
  destruct (wake_skip _ _ _) as [kept woken]; simpl in Hp. destruct Hw as [_ Hw].
  destruct (Hw s' E) as (sa' & rq' & h' & -> & _ & _ & HI').
  split; [|split; [done|apply (ready_grows _ _ _ _ _ _ _ _ _ _ HI HI'); by eexists]].
  eexists _, _, _, _. split; [exact HI'|]. split_and!; [|done|done].
  intros t x Ht. simpl in *. apply Ha. rewrite <- Hp. set_solver.
Qed.

Lemma cv_signal_wp c a k k' :
  kinv k -> cv_signal c a k = Some k' -> kpost k [] Returned k'.
Proof.
  intros HK E. unfold cv_signal in E. destruct (lock_do_i_hold a k) as [b|]; simpl in E; [|done].
  destruct (_ && _); [|done]. apply kinv_splhigh in HK. simpl in E.
  destruct (thread_wakeup_one c _) as [s'|] eqn:Ew; simplify_eq/=.
  destruct (kinv_wakeup_one _ _ _ HK Ew) as (HK' & Ec & Hrd). apply kpost_same; [|done|done|done].
  by apply (kinv_splx None).
Qed.

Lemma cv_broadcast_wp c a k k' :
  kinv k -> cv_broadcast c a k = Some k' -> kpost k [] Returned k'.
Proof.
  intros HK E. unfold cv_broadcast in E.
  destruct (lock_do_i_hold a k) as [b|]; simpl in E; [|done].
  destruct (_ && _); [|done]. apply kinv_splhigh in HK. simpl in E.
  destruct (kwakeup c _) as [k2|] eqn:Ew; simplify_eq/=.
  destruct (kwakeup_wp _ _ _ _ HK (or_introl eq_refl) Ew) as (HK2 & Eo & Ec & Hrd).
  apply kpost_same; [by apply kinv_splx|done|done|done].
Qed.

Lemma kyield_wp k o k' : kinv k -> kyield k = Some (o, k') -> kpost k [] o k'.
Proof.
  intros (sa & za & rq & L & HI & Ha & Hl & Ho) E. unfold kyield, thread_yield in E. simpl in E.
  destruct (sleepers (ts k)); simpl in E; [|done].
  apply (inv_splx _ _ _ _ _ SPL_HIGH) in HI. set (s1 := (splx SPL_HIGH (ts k)).2) in *.
  change (set_spl SPL_HIGH false (ts k)) with s1 in E.
  destruct (mi_switch_out S_READY s1) as [[cur s']|] eqn:Em; simpl in E; [|done].
  destruct (decide (curthread (ts k) = 0)) as [Hc|Hc].
  - assert (mi_switch_out S_READY s1 = Some (None, s1)) as Em'.
    { unfold mi_switch_out. simpl. rewrite Hc. done. }
    rewrite Em' in Em. simplify_eq/=. apply kpost_same; [|done|done|done].
    exists sa, za, rq, L. split_and!; [by apply (inv_ext _ _ _ _ _ _ HI)|done..].
  - destruct (mi_switch_out_inv S_READY s1 sa za rq L HI) as [_ Hout]; [done|done|by left|].
    destruct (Hout _ _ Em) as (-> & sa' & za' & rq' & h' & -> & _ & HI'). simplify_eq/=.
    split_and!; [|done|done| |split_and!; try done; [|by constructor]].
    + exists sa', za', rq', (stash S_READY (curthread s1) L). by split_and!.
    + apply (ready_grows _ _ _ _ _ _ _ _ _ _ HI HI'). by eexists.
    + destruct (inv_cur _ _ _ _ _ HI Hc) as (th & Eth & _). simpl in Eth |- *. rewrite Eth. by eexists.
Qed.

Lemma kpost_trans k1 k2 es o k3 :
  kpost k1 [] Returned k2 -> kpost k2 es o k3 -> kpost k1 es o k3.
Proof.
  intros (_ & Ha & Hc & Hr & Ec) (HK & Ha' & Hc' & Hr' & Hctl). simpl in Ha, Ec. injection Ha as Ha.
  split_and!; [done|by rewrite Ha|auto|by etrans|]. destruct o; simpl in *; by rewrite <- Ec.
Qed.

Lemma hardclock_wp k o k' : kinv k -> hardclock k = Some (o, k') -> kpost k [] o k'.
Proof.
  intros HK E. unfold hardclock in E.
  assert (forall n, kinv (Ksys (ts k) (objs k) n)) as HKn.
  { intros n. destruct HK as (sa & za & rq & L & ?). by exists sa, za, rq, L. }
  destruct (HZ <=? _).
  - destruct (kwakeup lbolt _) as [k2|] eqn:Ew; simpl in E; [|done].
    destruct (kwakeup_wp _ _ _ _ (HKn 0) (or_introl eq_refl) Ew) as (HK2 & Eo & Ec & Hrd).
    apply (kpost_trans _ k2); [by apply kpost_same|by apply kyield_wp].
  - simpl in E. apply (kyield_wp _ _ _ (HKn _)) in E. eapply kpost_trans; [|exact E].
    by apply kpost_same.
Qed.

Lemma clocksleep_loop_wp n spl k o k' :
  kinv k -> curthread (ts k) <> 0 -> clocksleep_loop n spl k = Some (o, k') -> kpost k [] o k'.
Proof.
  intros HK Hc E. unfold clocksleep_loop in E. destruct (0 <? n).
  - apply (ksleep_wp _ _ _ _ _ HK Hc) in E; [done| |done].
    destruct HK as (? & ? & ? & ? & _ & _ & Hl & _). by rewrite Hl.
  - simplify_eq. apply kpost_same; [by apply kinv_splx|done|done|done].
Qed.

(** ** Forking and exiting *)

Lemma sleeper_not_cur s sa za rq L t :
  sys_inv s sa za rq L -> curthread s <> 0 -> t ∈ l_sleep L -> t <> curthread s.
Proof.
  intros [_ HP] Hc Ht ->. pose proof (inv_nodup _ _ HP) as Hnd. unfold live, cur_list in Hnd.
  rewrite (proj2 (Z.eqb_neq _ _)) in Hnd by done. simpl in Hnd.
  apply list.NoDup_cons in Hnd as [Hnin _]. set_solver.
Qed.

(** The sleepers keep their sleep addresses when their structures do not
    change. *)
Lemma asleep_threads ex k s' L :
  asleep_ok ex k L -> (forall t, t ∈ l_sleep L -> threads s' !! t = threads (ts k) !! t) ->
  forall L', l_sleep L' = l_sleep L -> asleep_ok ex (set_ts s' k) L'.
Proof.
  intros Ha Ht L' El t a. rewrite El. intros Hin. unfold sleepmap. simpl.
  rewrite lookup_fmap, Ht, <- lookup_fmap by done. by apply Ha.
Qed.

Lemma kfork_wp k name d1 d2 f r t s' :
  kinv k -> curthread (ts k) <> 0 -> short name ->
  thread_fork name d1 d2 f (ts k) = Some (r, t, s') ->
  kpost k [] Returned (set_ts s' k).
Proof.
  intros (sa & za & rq & L & HI & Ha & Hl & Ho) Hc Hn E.
  destruct (inv_cur _ _ _ _ _ HI Hc) as (cur & Ecur & _).
  destruct (thread_fork_wp name d1 d2 f _ _ _ _ _ cur _ _ HI Hc Hn Ecur eq_refl eq_refl) as
    [(t1 & n & st & s1 & E1 & _ & _ & sa' & za' & rq' & HI' & Enew & Ets & Ec & _)
    |(s1 & w0 & E1 & _ & sa' & za' & rq' & HI' & Ets & Ec & _)];
    rewrite E1 in E; simplify_eq; (apply kpost_same; [|done|done|apply (ready_grows _ _ _ _ _ _ _ _ _ _ HI HI')]).
  - exists sa', za', rq', (Tlists (l_sleep L) (l_ready L ++ [t]) (l_zomb L)).
    split_and!; [done| |done|done]. apply (asleep_threads _ _ _ _ Ha); [|done].
    intros u Hu. rewrite Ets, lookup_insert_ne; [done|]. intros <-.
    destruct HI as [_ HP]. destruct (proj1 (inv_dom _ _ HP t)) as [th Eth]; [|congruence].
    unfold live. set_solver.
  - by eexists.
  - exists sa', za', rq', L. split_and!; [done| |done|done].
    apply (asleep_threads _ _ _ _ Ha); [|done]. intros u _. by rewrite Ets.
  - done.
Qed.

Lemma kexit_wp k cur s' :
  kinv k -> curthread (ts k) <> 0 -> thread_exit (ts k) = Some (Some cur, s') ->
  kpost k [] (Switched cur []) (set_ts s' k).
Proof.
  intros (sa & za & rq & L & HI & Ha & Hl & Ho) Hc E.
  destruct (thread_exit_wp _ _ _ _ _ _ _ HI Hc E) as
    ([= ->] & Ec & Hspl & _ & Hth & sa' & za' & rq' & HI').
  split_and!; [|done|done|by apply (ready_grows _ _ _ _ _ _ _ _ _ _ HI HI')|split_and!; try done].
  - exists sa', za', rq', (stash S_ZOMB (curthread (ts k)) L).
    split_and!; [done| |done|done]. apply (asleep_threads _ _ _ _ Ha); [|done].
    intros u Hu. apply Hth. by eapply sleeper_not_cur.
  - apply (inv_dom _ _ (proj2 HI')). simpl. set_solver.
Qed.

(** ** Continuing *)

Lemma switch_in_wp k s' :
  kinv k -> 0 < curspl (ts k) -> mi_switch_in (ts k) = Some s' ->
  kpost k [] Returned (set_ts s' k).
Proof.
  intros (sa & za & rq & L & HI & Ha & Hl & Ho) Hspl E.
  destruct (mi_switch_in_wp _ _ _ _ _ _ HI Hspl E) as (za' & HI' & Ec & _ & _ & _ & _ & Hth).
  apply kpost_same; [|done|done|by apply (ready_grows _ _ _ _ _ _ _ _ _ _ HI HI')].
  exists sa, za', rq, (Tlists (l_sleep L) (l_ready L) []). split_and!; [done| |done|done].
  apply (asleep_threads _ _ _ _ Ha); [|done]. intros t Ht. rewrite Hth, decide_False; [done|].
  destruct HI as [_ HP]. pose proof (inv_nodup _ _ HP) as Hnd.
  apply list.NoDup_app in Hnd as (_ & Hd & _). apply Hd. unfold live. set_solver.
Qed.

Lemma ksleep_in_wp k k' :
  kinv k -> curthread (ts k) <> 0 -> 0 < curspl (ts k) -> ksleep_in k = Some k' ->
  kpost k [] Returned k'.
Proof.
  intros HK Hc Hspl E. unfold ksleep_in, thread_sleep_in in E.
  destruct (mi_switch_in (ts k)) as [s1|] eqn:Em; simpl in E; [|done].
  pose proof (switch_in_wp _ _ HK Hspl Em) as Hp.
  pose proof Hp as ((sa & za & rq & L & HI & Ha & Hl & Ho) & _ & _ & Hrd & Ec). simpl in *.
  destruct (inv_cur _ _ _ _ _ HI) as (th & Eth & _); [by rewrite Ec|].
  destruct (inv_upd_thread _ _ _ _ _ _ _ _ HI (keeps_sleepaddr 0) Eth) as [Eu HI1].
  rewrite Eu in E. simplify_eq/=. apply kpost_same; [|done|done|done].
  exists sa, za, rq, L. split_and!; [done| |done|done].
  intros t a Ht. simpl. unfold sleepmap. simpl. rewrite fmap_insert, lookup_insert_ne; [by apply Ha|].
  intros <-. by eapply (sleeper_not_cur s1); [..|exact Ht|]; rewrite ?Ec.
Qed.

Lemma mi_threadstart_wp k s' :
  kinv k -> mi_threadstart (ts k) = Some s' -> kpost k [] Returned (set_ts s' k).
Proof.
  intros (sa & za & rq & L & HI & Ha & Hl & Ho) E. unfold mi_threadstart, activate_cur in E.
  destruct (get_thread _ _) as [th|]; simpl in E; [|done].
  destruct (t_vmspace th =? 0); simplify_eq/=; (apply kpost_same; [|done|done|done]);
    exists sa, za, rq, L; (split_and!; [by apply (inv_ext (ts k))|done..]).
Qed.

Lemma resume_frame_wp f k o k' :
  kinv k -> curthread (ts k) <> 0 -> 0 < curspl (ts k) -> resume_frame f k = Some (o, k') ->
  kpost k (frame_events f (curthread (ts k)) o) o k'.
Proof.
  intros HK Hc Hspl E.
  assert (forall k1 es o' k2, ksleep_in k = Some k1 -> kpost k1 es o' k2 -> kpost k es o' k2) as Htr.
  { intros k1 es o' k2 E1 Hp. eapply kpost_trans; [by apply ksleep_in_wp|done]. }
  assert (forall k1, ksleep_in k = Some k1 -> kinv k1 /\ curthread (ts k1) = curthread (ts k)) as Hin.
  { intros k1 E1. apply ksleep_in_wp in E1 as (? & _ & _ & _ & ?); done. }
  destruct f; simpl in E; try done.
  - destruct (ksleep_in k) as [k1|] eqn:E1; simpl in E; [|done]. destruct (Hin k1) as [HK1 Ec]; [done|].
    apply (Htr k1); [done|]. apply (P_loop_wp (curthread (ts k))) in E; [|done|by rewrite Ec].
    by destruct o.
  - destruct (ksleep_in k) as [k1|] eqn:E1; simpl in E; [|done]. destruct (Hin k1) as [HK1 Ec]; [done|].
    apply (Htr k1); [done|]. apply acquire_loop_wp in E; [|done|by rewrite Ec].
    rewrite Ec in E. by destruct o.
  - destruct (ksleep_in k) as [k1|] eqn:E1; simplify_eq/=. destruct (Hin k1) as [HK1 Ec]; [done|].
    apply (Htr k1); [done|]. split_and!; [by apply kinv_splx|done|done|done|]. split; [done|by constructor].
  - destruct (ksleep_in k) as [k1|] eqn:E1; simpl in E; [|done]. destruct (Hin k1) as [HK1 Ec]; [done|].
    apply (Htr k1); [done|]. apply clocksleep_loop_wp in E; [|done|by rewrite Ec].
    by destruct o.
  - destruct (mi_switch_in (ts k)) as [s1|] eqn:E1; simplify_eq/=.
    pose proof (switch_in_wp _ _ HK Hspl E1) as Hp. eapply kpost_trans; [exact Hp|].
    destruct Hp as (HK1 & _). apply kpost_same; [by apply (kinv_splx None)|done|done|done].
  - destruct (mi_threadstart (ts k)) as [s1|] eqn:E1; simplify_eq/=. by apply mi_threadstart_wp.
Qed.

Lemma irq_leave_wp k savespl old_in on :
  kinv k -> kpost k [] Returned (irq_leave savespl old_in on k).
Proof.
  intros (sa & za & rq & L & HI & Ha & Hl & Ho). apply kpost_same; [|done|done|done].
  exists sa, za, rq, L. split_and!; [by apply (inv_ext (ts k))|done..].
Qed.

Lemma irq_enter_wp k : kinv k -> kpost k [] Returned (irq_enter k).2.
Proof.
  intros (sa & za & rq & L & HI & Ha & Hl & Ho). apply kpost_same; [|done|done|done].
  exists sa, za, rq, L. split_and!; [by apply (inv_ext (ts k))|done..].
Qed.

Lemma go_frame_wp f k o k' :
  kinv k -> curthread (ts k) <> 0 -> frame_ok k f -> go_frame f k = Some (o, k') ->
  kpost k (frame_events f (curthread (ts k)) o) o k'.
Proof.
  intros HK Hc Hf E. destruct f; simpl in E; try done.
  - apply cv_wait_sleep_wp in E; [|done..]. by destruct o.
  - apply lock_acquire_wp in E; [|done..]. by destruct o.
  - simplify_eq. by apply irq_leave_wp.
Qed.

Lemma V_all_wp sems k k' :
  kinv k -> V_all sems k = Some k' -> kpost k (EvV <$> sems) Returned k'.
Proof.
  revert k. induction sems as [|a sems IH]; intros k HK E; simpl in E.
  { simplify_eq. by apply kpost_same. }
  destruct (V a k) as [k1|] eqn:Ev; simpl in E; [|done].
  destruct (V_wp _ _ _ HK Ev) as (HK1 & Ha1 & Hc1 & Hr1 & Ec1).
  destruct (IH _ HK1 E) as (HK2 & Ha2 & Hc2 & Hr2 & Ec2).
  split_and!; [done| |auto|by etrans|].
  - rewrite fmap_cons. change (EvV a :: (EvV <$> sems)) with ([EvV a] ++ (EvV <$> sems)).
    rewrite abs_run_app, Ha1. done.
  - simpl in *. congruence.
Qed.

Lemma irq_handler_wp i k o k' :
  kinv k -> irq_handler i k = Some (o, k') -> kpost k (irq_events i) o k'.
Proof.
  intros HK E. unfold irq_handler in E. destruct (0 <? _); [|done].
  destruct i as [|sems]; [by apply hardclock_wp|].
  destruct (V_all sems k) as [k1|] eqn:Ev; simplify_eq/=. by apply V_all_wp.
Qed.

Definition call_ok (c : call) : Prop :=
  match c with C_fork name _ _ _ => short name | _ => True end.

Lemma exec_call_wp c k o k' :
  kinv k -> curthread (ts k) <> 0 -> call_ok c -> exec_call c k = Some (o, k') ->
  kpost k (call_events c (curthread (ts k)) o) o k'.
Proof.
  intros HK Hc Hok E. destruct c; simpl in E, Hok.
  - apply (P_wp (curthread (ts k))) in E; [|done..]. by destruct o.
  - destruct (V a k) eqn:Ev; simplify_eq/=. by apply V_wp.
  - apply lock_acquire_wp in E; [|done..]. by destruct o.
  - destruct (lock_release a k) eqn:Ev; simplify_eq/=. by apply lock_release_wp.
  - apply cv_wait_wp in E; [|done..]. by destruct o.
  - destruct (cv_signal c a k) eqn:Ev; simplify_eq/=. by eapply cv_signal_wp.
  - destruct (cv_broadcast c a k) eqn:Ev; simplify_eq/=. by eapply cv_broadcast_wp.
  - apply kyield_wp in E; [|done]. by destruct o.
  - apply (clocksleep_loop_wp _ _ _ _ _ (kinv_splhigh _ _ HK)) in E; [|done]. by destruct o.
  - destruct (thread_fork _ _ _ _ _) as [[[r t] s']|] eqn:Ef; simplify_eq/=. by eapply kfork_wp.
  - destruct (thread_exit (ts k)) as [[[cur|] s']|] eqn:Ex; simplify_eq/=. by apply kexit_wp.
Qed.

(** ** The machine *)

Definition minv (m : mach Heap W) : Prop :=
  kinv (kern m) /\
  match mmode m with
  | Run => curthread (ts (kern m)) <> 0
  | Idle cur => curthread (ts (kern m)) = 0 /\ 0 < curspl (ts (kern m)) /\
                is_Some (threads (ts (kern m)) !! cur)
  end /\
  forall t fs, stacks m !! t = Some fs -> Forall (frame_ok (kern m)) fs.

Lemma frames_mono k k' fs :
  (forall c, is_cv k c -> is_cv k' c) -> Forall (frame_ok k) fs -> Forall (frame_ok k') fs.
Proof. intros Hc. apply Forall_impl. intros []; simpl; auto. Qed.

Definition stacks_ok k (stks : gmap Z (list frame)) : Prop :=
  forall t fs, stks !! t = Some fs -> Forall (frame_ok k) fs.

Lemma settle_wp k t rest stks es o k' :
  kpost k es o k' -> curthread (ts k) <> 0 -> stacks_ok k stks -> Forall (frame_ok k) rest ->
  minv (settle t rest stks o k') /\ kern (settle t rest stks o k') = k'.
Proof.
  intros (HK & _ & Hcv & _ & Hctl) Hc Hs Hr. pose proof (frames_mono _ _ _ Hcv Hr) as Hr'.
  assert (forall fs u ufs, Forall (frame_ok k') fs -> <[t := fs]> stks !! u = Some ufs ->
            Forall (frame_ok k') ufs) as Hins.
  { intros fs u ufs Hfs [[<- <-]|[_ Hu]]%lookup_insert_Some; [done|].
    by eapply frames_mono, Hs. }
  destruct o as [|fs|cur fs]; simpl in *; split; try done.
  - split_and!; [done|simpl; congruence|]. intros u ufs Hu. by eapply Hins.
  - destruct Hctl as [Ec Hfs]. split_and!; [done|simpl; congruence|]. intros u ufs Hu.
    simpl in *. eapply Hins; [|exact Hu]. by apply Forall_app.
  - destruct Hctl as (-> & Ec & Hspl & Hth & Hfs). split_and!; [done|done|].
    intros u ufs Hu. simpl in *. eapply Hins; [|exact Hu]. by apply Forall_app.
Qed.

Definition label_ok (l : label) : Prop :=
  match l with L_call c => call_ok c | _ => True end.

(** What a step has to establish. *)
Definition mpost (m : mach Heap W) (r : list event * mach Heap W) : Prop :=
  minv r.2 /\ abs_run r.1 (abs (kern m)) = Some (abs (kern r.2)).

(** The thread that has the processor, or had it last. *)
Definition on_cpu (m : mach Heap W) (t : Z) : Prop :=
  match mmode m with Run => curthread (ts (kern m)) = t | Idle cur => cur = t end.

(** The scheduler takes the first thread that is ready; all others keep their order, and
    new ones come after them. *)
Definition queue_step (l : label) (m m' : mach Heap W) : Prop :=
  match l with
  | L_dispatch => exists t q, ready (ts (kern m)) = t :: q /\ q `prefix_of` ready (ts (kern m')) /\ on_cpu m' t
  | _ => ready (ts (kern m)) `prefix_of` ready (ts (kern m'))
  end.

Lemma settle_on_cpu k t rest stks es o k' :
  kpost k es o k' -> curthread (ts k) = t -> on_cpu (settle t rest stks o k') t.
Proof.
  intros (_ & _ & _ & _ & Hctl) Hc. destruct o; simpl in Hctl |- *; unfold on_cpu; simpl; [congruence|..].
  - by destruct Hctl as [-> _].
  - by destruct Hctl as [-> _].
Qed.

Lemma step_call_wp c m r :
  minv m -> call_ok c -> step (L_call c) m = Some r -> mpost m r /\ queue_step (L_call c) m r.2.
Proof.
  intros (HK & Hm & Hs) Hok E. unfold step in E. destruct (mmode m); [|done].
  destruct (stacks m !! _) as [[|]|] eqn:Est; [|done..].
  destruct (exec_call c (kern m)) as [[o k']|] eqn:Ee; simplify_eq/=.
  pose proof (exec_call_wp _ _ _ _ HK Hm Hok Ee) as Hp.
  destruct (settle_wp _ (curthread (ts (kern m))) [] (stacks m) _ _ _ Hp Hm Hs) as [Hmi Ek]; [done|].
  split; [|simpl; rewrite Ek; apply Hp].
  split; [|simpl; rewrite Ek; apply Hp]. destruct Hmi as (HK' & Hm' & Hs').
  split_and!; [done|done|]. simpl. intros t fs.
  destruct c; simpl; try apply Hs'.
  - destruct (thread_fork _ _ _ _ _) as [[[r u] s']|]; [|apply Hs'].
    destruct (r =? 0); [|apply Hs']. intros [[<- <-]|[_ Hu]]%lookup_insert_Some; [|by eapply Hs'].
    by constructor.
  - intros [_ Hu]%lookup_delete_Some. by eapply Hs'.
Qed.

Lemma step_go_wp m r : minv m -> step L_go m = Some r -> mpost m r /\ queue_step L_go m r.2.
Proof.
  intros (HK & Hm & Hs) E. unfold step in E. destruct (mmode m); [|done].
  destruct (stacks m !! _) as [[|f rest]|] eqn:Est; [done| |done].
  destruct (go_frame f (kern m)) as [[o k']|] eqn:Ee; simplify_eq/=.
  pose proof (Hs _ _ Est) as Hfr. pose proof (Forall_inv Hfr) as Hf. apply Forall_inv_tail in Hfr.
  pose proof (go_frame_wp _ _ _ _ HK Hm Hf Ee) as Hp.
  destruct (settle_wp _ (curthread (ts (kern m))) rest (stacks m) _ _ _ Hp Hm Hs) as [Hmi Ek]; [done|].
  split; [split; [done|]|]; simpl; rewrite Ek; apply Hp.
Qed.

Lemma kdispatch_wp k cur next s1 s2 :
  kinv k -> curthread (ts k) = 0 -> 0 < curspl (ts k) -> is_Some (threads (ts k) !! cur) ->
  scheduler (ts k) = Some (Some next, s1) -> switch_to cur next s1 = Some s2 ->
  kinv (set_ts s2 k) /\ curthread s2 = next /\ next <> 0 /\ 0 < curspl s2 /\ ready (ts k) = next :: ready s2.
Proof.
  intros (sa & za & rq & L & HI & Ha & Hl & Ho) Hc Hspl Hcur E1 E2.
  pose proof (scheduler_wp _ _ _ _ _ (proj1 HI) Hspl) as Hs.
  destruct L as [sl [|t l] z]; simpl in *; [congruence|].
  destruct Hs as (rq0 & Es & _). rewrite Es in E1. simplify_eq.
  destruct (dispatch_wp _ _ _ _ _ _ _ _ _ HI Hc Hspl Hcur) as
    (s1 & s2' & rq' & Es' & Esw & HI' & _ & Ec & Espl & _ & _ & Em & _).
  rewrite Es in Es'. simplify_eq.
  split_and!; [|done| |by rewrite Espl|by rewrite (ready_inv _ _ _ _ _ HI), (ready_inv _ _ _ _ _ HI')].
  - eexists _, _, _, _. split; [exact HI'|]. split_and!; [|done|done].
    intros t a. simpl. rewrite Em. apply (Ha t a).
  - intros E0. rewrite E0 in *. destruct HI' as [HR' HP'].
    destruct HI as [HR HP]. destruct (proj1 (inv_dom _ _ HP 0)) as [th Eth].
    { unfold live. simpl. set_solver. }
    pose proof (rep_sizes _ _ _ _ _ HR _ _ Eth) as Hb. apply blocks_range in Hb; [lia|apply HR].
Qed.

Lemma step_dispatch_wp m r : minv m -> step L_dispatch m = Some r -> mpost m r /\ queue_step L_dispatch m r.2.
Proof.
  intros (HK & Hm & Hs) E. unfold step in E. destruct (mmode m) as [|cur]; [done|].
  destruct Hm as (Hc & Hspl & Hcur).
  destruct (scheduler (ts (kern m))) as [[[next|] s1]|] eqn:E1; simpl in E; [|done..].
  destruct (switch_to cur next s1) as [s2|] eqn:E2; simpl in E; [|done].
  destruct (stacks m !! next) as [[|f rest]|] eqn:Est; [done| |done].
  destruct (kdispatch_wp _ _ _ _ _ HK Hc Hspl Hcur E1 E2) as (HK2 & Ec & Hn & Hspl2 & Hrd).
  destruct (resume_frame f _) as [[o k']|] eqn:Ee; simplify_eq/=.
  pose proof (resume_frame_wp _ _ _ _ HK2 Hn Hspl2 Ee) as Hp.
  pose proof (Hs _ _ Est) as Hfr. apply Forall_inv_tail in Hfr.
  destruct (settle_wp _ (curthread s2) rest (stacks m) _ _ _ Hp Hn) as [Hmi Ek]; [|done|].
  { intros t fs Ht. apply (Hs t fs Ht). }
  split; [split; [done|]; simpl; rewrite Ek; apply Hp|].
  exists (curthread s2), (ready s2). split; [done|]. simpl. rewrite Ek.
  split; [apply Hp|]. by apply (settle_on_cpu _ _ _ _ _ _ _ Hp).
Qed.

(** Interrupt handlers change no thread structure while the processor is idle. *)
Lemma kwakeup_threads a k k' sa za rq L :
  sys_inv (ts k) sa za rq L -> kwakeup a k = Some k' -> threads (ts k') = threads (ts k).
Proof.
  intros HI E. unfold kwakeup in E.
  destruct (thread_wakeup a (ts k)) as [s'|] eqn:Es; simplify_eq/=.
  assert (0 < curspl (ts k)) as Hspl.
  { unfold thread_wakeup in Es. destruct (0 <? curspl (ts k)) eqn:E0; [by boolify|done]. }
  destruct (thread_wakeup_wp _ _ _ _ _ a HI Hspl) as [_ Hw].
  by destruct (Hw s' Es) as (sa' & rq' & h' & -> & _).
Qed.

Lemma V_threads a k k' : kinv k -> V a k = Some k' -> threads (ts k') = threads (ts k).
Proof.
  intros (sa & za & rq & L & HI & _) E. unfold V in E. destruct (negb (a =? 0)); [|done].
  simpl in E. destruct (get_sem a _) as [sem|]; simpl in E; [|done].
  destruct (0 <? _); [|done]. destruct (kwakeup a _) as [k2|] eqn:Ew; simplify_eq/=.
  eapply kwakeup_threads in Ew; [done|]. by apply (inv_splx (ts k)).
Qed.

Lemma V_all_threads sems k k' :
  kinv k -> V_all sems k = Some k' -> threads (ts k') = threads (ts k).
Proof.
  revert k. induction sems as [|a sems IH]; intros k HK E; simpl in E; [by simplify_eq|].
  destruct (V a k) as [k1|] eqn:Ev; simpl in E; [|done].
  pose proof (V_wp _ _ _ HK Ev) as (HK1 & _). by rewrite (IH _ HK1 E), (V_threads _ _ _ HK Ev).
Qed.

Lemma irq_idle_threads i k k' :
  kinv k -> curthread (ts k) = 0 -> irq_handler i k = Some (Returned, k') ->
  threads (ts k') = threads (ts k).
Proof.
  intros HK Hc E. unfold irq_handler in E. destruct (0 <? _); [|done].
  destruct i as [|sems].
  - pose proof HK as (sa & za & rq & L & HI & _). unfold hardclock in E.
    assert (forall k1, curthread (ts k1) = 0 -> threads (ts k1) = threads (ts k) ->
      kyield k1 = Some (Returned, k') -> threads (ts k') = threads (ts k)) as Hy.
    { intros k1 Hc1 Et Ey. unfold kyield, thread_yield, mi_switch_out in Ey. simpl in Ey.
      rewrite Hc1 in Ey. destruct (sleepers (ts k1)); simplify_eq/=. done. }
    destruct (HZ <=? _).
    + destruct (kwakeup lbolt _) as [k2|] eqn:Ew; simpl in E; [|done].
      assert (kinv (Ksys (ts k) (objs k) 0)) as HK0 by (destruct HK as (? & ? & ? & ? & ?); eexists _, _, _, _; eauto).
      destruct (kwakeup_wp _ _ _ _ HK0 (or_introl eq_refl) Ew) as (_ & _ & Ec & _).
      eapply kwakeup_threads in Ew; [|exact HI]. by apply (Hy k2); [rewrite Ec|..].
    + simpl in E. by eapply Hy; [..|exact E].
  - destruct (V_all sems k) as [k1|] eqn:Ev; simplify_eq/=. by eapply V_all_threads.
Qed.

Lemma step_irq_wp i m r : minv m -> step (L_irq i) m = Some r -> mpost m r /\ queue_step (L_irq i) m r.2.
Proof.
  intros (HK & Hm & Hs) E. unfold step in E.
  pose proof (irq_enter_wp _ HK) as Hin.
  assert (threads (ts (irq_enter (kern m)).2) = threads (ts (kern m))) as Et by done.
  assert ((irq_enter (kern m)).1.1 = curspl (ts (kern m))) as Esv by done.
  destruct (irq_enter (kern m)) as [[sv oi] k1]. simpl in Hin, Et, Esv.
  pose proof Hin as (HK1 & _ & _ & _ & Ec1). destruct (mmode m) as [|cur] eqn:Emo.
  - destruct (IEc _); [|done]. destruct (irq_handler i k1) as [[o k2]|] eqn:Eh; simpl in E; [|done].
    pose proof (irq_handler_wp _ _ _ _ HK1 Eh) as Hp1.
    pose proof (kpost_trans _ _ _ _ _ Hin Hp1) as Hp.
    destruct (stacks m !! _) as [rest|] eqn:Est; simpl in E; [|done].
    destruct o as [| |c fs]; simplify_eq.
    + destruct Hp as (HK2 & Ha2 & Hc2 & Hr2 & Ec2).
      destruct (irq_leave_wp k2 (curspl (ts (kern m))) oi true HK2)
        as (HK3 & _ & Hc3 & _ & Ec3).
      split; [|done]. split; [|simpl; by rewrite Ha2]. split_and!; [done|simpl in *; congruence|].
      intros t fs Ht. eapply frames_mono; [|by apply (Hs t)]. simpl. auto.
    + edestruct settle_wp as [Hmi Ek]; [exact Hp|done|exact Hs| |].
      2:{ split; [split; [exact Hmi|]|]; simpl; apply Hp. }
      constructor; [done|]. by eapply Hs.
  - destruct (irq_handler i k1) as [[o k2]|] eqn:Eh; simpl in E; [|done].
    destruct o as [| |]; simplify_eq.
    destruct (kpost_trans _ _ _ _ _ Hin (irq_handler_wp _ _ _ _ HK1 Eh)) as (HK2 & Ha2 & Hc2 & Hr2 & Ec2).
    destruct (irq_leave_wp k2 (curspl (ts (kern m))) oi false HK2)
      as (HK3 & _ & Hc3 & _ & Ec3).
    split; [|done]. split; [|simpl; by rewrite Ha2]. split_and!; [done| |].
    + destruct Hm as (Hc & ? & ?). simpl in Ec1, Ec2, Ec3 |- *.
      split_and!; [congruence|done|].
      rewrite (irq_idle_threads _ _ _ HK1 ltac:(congruence) Eh). by rewrite Et.
    + intros t fs Ht. eapply frames_mono; [|by apply (Hs t)]. simpl. auto.
Qed.

Lemma step_wp l m r : minv m -> label_ok l -> step l m = Some r -> mpost m r /\ queue_step l m r.2.
Proof.
  intros Hm Hl E. destruct l as [c| | |i].
  - by apply step_call_wp in E.
  - by apply step_go_wp in E.
  - by apply step_dispatch_wp in E.
  - by apply step_irq_wp in E.
Qed.

Lemma run_wp ls m es m' :
  minv m -> Forall label_ok ls -> run ls m = Some (es, m') -> mpost m (es, m').
Proof.
  revert m es. induction ls as [|l ls IH]; intros m es Hm Hl E; simpl in E.
  { simplify_eq. by split. }
  pose proof (Forall_inv Hl) as Hl1. apply Forall_inv_tail in Hl.
  destruct (step l m) as [[es1 m1]|] eqn:Es; simpl in E; [|done].
  destruct (run ls m1) as [[es2 m2]|] eqn:Er; simplify_eq/=.
  destruct (step_wp _ _ _ Hm Hl1 Es) as [[Hm1 Ha1] _]. destruct (IH _ _ Hm1 Hl Er) as [Hm2 Ha2].
  split; [done|]. simpl in *. by rewrite abs_run_app, Ha1.
Qed.

(** ** Consequences at the level of the specification *)

Lemma abs_step_held e A A' a t :
  abs_step e A = Some A' -> A !! a = Some (ALock (Some t)) -> e <> EvRel t a ->
  A' !! a = Some (ALock (Some t)).
Proof.
  intros E Ha Hne. destruct e as [u x|x|u x|u x]; simpl in E;
    destruct (A !! x) as [[n|[w|]|]|] eqn:Ex; try done.
  - destruct (0 <? n); simplify_eq. rewrite lookup_insert_ne; [done|]. congruence.
  - simplify_eq. rewrite lookup_insert_ne; [done|]. congruence.
  - simplify_eq. rewrite lookup_insert_ne; [done|]. congruence.
  - destruct (w =? u) eqn:Ew; boolify; simplify_eq. rewrite lookup_insert_ne; [done|].
    intros ->. apply Hne. congruence.
Qed.

Lemma abs_run_held es A A' a t :
  abs_run es A = Some A' -> A !! a = Some (ALock (Some t)) -> EvRel t a ∉ es ->
  A' !! a = Some (ALock (Some t)).
Proof.
  revert A. induction es as [|e es IH]; intros A E Ha Hn; simpl in E; [by simplify_eq|].
  destruct (abs_step e A) as [A1|] eqn:E1; simpl in E; [|done].
  apply not_elem_of_cons in Hn as [Hne Hn]. apply (IH A1 E); [|done].
  eapply abs_step_held; [done..|]. congruence.
Qed.

Definition is_P (a : Z) (e : event) : bool :=
  match e with EvP _ x => x =? a | _ => false end.
Definition is_V (a : Z) (e : event) : bool :=
  match e with EvV x => x =? a | _ => false end.
Definition occ (f : event -> bool) (es : list event) : Z :=
  Z.of_nat (length (List.filter f es)).

Lemma occ_cons f e es : occ f (e :: es) = (if f e then 1 else 0) + occ f es.
Proof. unfold occ. simpl. destruct (f e); simpl; lia. Qed.

Lemma abs_step_count e A A' a n :
  abs_step e A = Some A' -> A !! a = Some (ASem n) ->
  A' !! a = Some (ASem (n + (if is_V a e then 1 else 0) - (if is_P a e then 1 else 0))).
Proof.
  intros E Ha. destruct e as [u x|x|u x|u x]; simpl in E |- *;
    destruct (A !! x) as [[i|[w|]|]|] eqn:Ex; try done.
  - destruct (0 <? i); simplify_eq. destruct (x =? a) eqn:Exa; boolify; [subst|].
    + rewrite lookup_insert_eq. simplify_eq. do 2 f_equal. lia.
    + rewrite lookup_insert_ne by done. rewrite Ha. do 2 f_equal. lia.
  - simplify_eq. destruct (x =? a) eqn:Exa; boolify; [subst|].
    + rewrite lookup_insert_eq. simplify_eq. do 2 f_equal. lia.
    + rewrite lookup_insert_ne by done. rewrite Ha. do 2 f_equal. lia.
  - simplify_eq. rewrite lookup_insert_ne by congruence. rewrite Ha. do 2 f_equal. lia.
  - destruct (w =? u); simplify_eq. rewrite lookup_insert_ne by congruence.
    rewrite Ha. do 2 f_equal. lia.
Qed.

Lemma abs_run_count es A A' a n :
  abs_run es A = Some A' -> A !! a = Some (ASem n) ->
  A' !! a = Some (ASem (n + occ (is_V a) es - occ (is_P a) es)).
Proof.
  revert A n. induction es as [|e es IH]; intros A n E Ha; simpl in E.
  { simplify_eq. rewrite Ha. do 2 f_equal. unfold occ. simpl. lia. }
  destruct (abs_step e A) as [A1|] eqn:E1; simpl in E; [|done].
  rewrite (IH _ _ E (abs_step_count _ _ _ _ _ E1 Ha)). rewrite !occ_cons. do 2 f_equal. lia.
Qed.

(** ** The theorems *)

(** C7: whatever the threads call, whenever interrupts arrive and whichever
    thread the scheduler picks, the observable events of a run are a run of the
    specification: [P] completes only when the count is positive and takes one,
    [V] adds one, a lock is acquired only while nobody owns it and released only
    by its owner. *)
Theorem synch_refines ls m es m' :
  minv m -> Forall label_ok ls -> run ls m = Some (es, m') ->
  abs_run es (abs (kern m)) = Some (abs (kern m')).
Proof. intros Hm Hl E. by apply (run_wp _ _ _ _ Hm Hl E). Qed.

(** C5: mutual exclusion.  Between two acquisitions of a lock in a run the first
    holder has released it, by [lock_release] or by [cv_wait]. *)
Theorem lock_mutual_exclusion ls m es1 es2 es3 t u a m' :
  minv m -> Forall label_ok ls ->
  run ls m = Some (es1 ++ EvAcq t a :: es2 ++ EvAcq u a :: es3, m') ->
  EvRel t a ∈ es2.
Proof.
  intros Hm Hl E. destruct (run_wp _ _ _ _ Hm Hl E) as [_ Ha]. simpl in Ha.
  rewrite abs_run_app in Ha. destruct (abs_run es1 _) as [A1|]; simpl in Ha; [|done].
  destruct (A1 !! a) as [[|[]|]|] eqn:E1; simpl in Ha; try done.
  rewrite abs_run_app in Ha. destruct (decide (EvRel t a ∈ es2)) as [|Hn]; [done|exfalso].
  destruct (abs_run es2 _) as [A2|] eqn:E2; simpl in Ha; [|done].
  apply (abs_run_held _ _ _ a t) in E2; [|apply lookup_insert_eq|done].
  by rewrite E2 in Ha.
Qed.

(** C21: semaphores conserve their count.  After any run the count is the initial
    count plus the completed [V]s minus the completed [P]s, and it is not
    negative. *)
Theorem semaphore_counts ls m es m' a sem :
  minv m -> Forall label_ok ls -> run ls m = Some (es, m') ->
  objs (kern m) !! a = Some (KSem sem) ->
  exists sem', objs (kern m') !! a = Some (KSem sem') /\
    count sem' = count sem + occ (is_V a) es - occ (is_P a) es /\ 0 <= count sem'.
Proof.
  intros Hm Hl E Hs. destruct (run_wp _ _ _ _ Hm Hl E) as [Hm' Ha].
  apply abs_lookup in Hs.
  pose proof (abs_run_count _ _ _ _ _ Ha Hs) as Hs'. simpl in Hs'.
  unfold abs in Hs'. rewrite lookup_fmap in Hs'.
  destruct (objs (kern m') !! a) as [[sem'| |]|] eqn:Eo; simplify_eq/=.
  exists sem'. split; [done|]. split; [congruence|].
  destruct Hm' as ((? & ? & ? & ? & _ & _ & _ & Ho) & _). apply Ho in Eo. simpl in Eo. lia.
Qed.

(** C14: no wakeup is missed.  In every state a run reaches, a thread asleep on a
    semaphore waits for a count that is 0, and a thread asleep on a lock for a
    lock that is held. *)
Theorem no_missed_wakeup ls m es m' sl t a :
  minv m -> Forall label_ok ls -> run ls m = Some (es, m') ->
  sleepers (ts (kern m')) = Some sl -> Some t ∈ contents sl ->
  sleepmap (ts (kern m')) !! t = Some a ->
  (forall sem, objs (kern m') !! a = Some (KSem sem) -> count sem = 0) /\
  (forall l, objs (kern m') !! a = Some (KLock l) -> isHeld l = true).
Proof.
  intros Hm Hl E Esl Ht Ea.
  destruct (run_wp _ _ _ _ Hm Hl E) as [((sa & za & rq & L & [HR _] & Has & _) & _) _].
  simpl in *. rewrite (rep_sleepers _ _ _ _ _ HR) in Esl. simplify_eq.
  rewrite (rep_sleep _ _ _ _ _ HR) in Ht. apply list_elem_of_fmap in Ht as (u & [= <-] & Ht).
  specialize (Has t a Ht Ea ltac:(done)). split; intros x Ex; rewrite Ex in Has; simpl in Has.
  - apply negb_false_iff in Has. by boolify.
  - by apply negb_false_iff in Has.
Qed.
End synch_inv.

(** ** A machine just booted

    [boot_sys n] is the thread system after [scheduler_bootstrap] and
    [thread_bootstrap] on a heap with [n] allocations to give; [mboot] the
    machine with interrupts on, the boot thread running and the objects
    [objs]. *)

Module Boot.
#[global] Instance unit_env : ThreadEnv unit :=
  {| VOP_INCREF _ w := w; VOP_DECREF _ w := w; as_destroy _ w := w;
     as_activate _ w := w; mips_threadstart := 2 ^ 31 + 1024; lbolt := 2 ^ 31 + 4 |}.

Abbreviation bsys := (tsys CountdownHeap.heap unit).

Definition raw (n : nat) : bsys :=
  {| curthread := 0; sleepers := None; zombies := None; numthreads := 0; runqueue := None;
     threads := ∅; curspl := SPL_HIGH; IEc := false; in_interrupt := 0; curkstack := 0;
     heap := CountdownHeap.fresh n; world := tt |}.

Definition boot_sys (n : nat) : bsys :=
  match scheduler_bootstrap (raw n) ≫= thread_bootstrap with
  | Some (_, s) => s
  | None => raw n
  end.

Lemma boot_sys_inv n :
  is_Some (scheduler_bootstrap (raw n) ≫= thread_bootstrap) ->
  exists sa za rq, sys_inv (boot_sys n) sa za rq (Tlists [] [] []) /\
    curthread (boot_sys n) <> 0 /\ q_size rq = 32.
Proof.
  intros [[me s] E]. unfold boot_sys. rewrite E.
  destruct (scheduler_bootstrap (raw n)) as [s1|] eqn:E1; [|done]. simpl in E.
  assert (heap_ok (heap (raw n))) as Hok by apply CountdownHeap.fresh_ok.
  destruct (bootstrap_inv (raw n) s1 me s Hok eq_refl E1 E)
    as (sa & za & rq & HI & <- & Hme & _ & _ & Hq). by exists sa, za, rq.
Qed.

Definition mboot (objs : gmap Z kobj) (n : nat) : mach CountdownHeap.heap unit :=
  Mach (Ksys (spl0 (boot_sys n)).2 objs 0) Run {[ curthread (boot_sys n) := [] ]}.

Lemma mboot_inv objs n :
  is_Some (scheduler_bootstrap (raw n) ≫= thread_bootstrap) ->
  objs !! lbolt = None -> map_Forall (fun _ o => obj_ok o) objs -> minv (mboot objs n).
Proof.
  intros Hb Hl Ho. destruct (boot_sys_inv n Hb) as (sa & za & rq & HI & Hc & _).
  split_and!; [|done|].
  - exists sa, za, rq, (Tlists [] [] []). split_and!; [by apply inv_splx| |done|done].
    intros t a Ht. simpl in Ht. set_solver.
  - intros t fs Ht. simpl in Ht. apply lookup_singleton_Some in Ht as [_ <-]. constructor.
Qed.

(** One semaphore, one lock and one condition variable. *)
Definition sem_a : Z := 2 ^ 31 + 64.
Definition lock_a : Z := 2 ^ 31 + 128.
Definition cv_a : Z := 2 ^ 31 + 192.
Definition objs1 (n : Z) : gmap Z kobj :=
  {[ sem_a := KSem (Semaphore 0 n); lock_a := KLock (Lock 0 false 0); cv_a := KCv (Cv 0) ]}.

Lemma objs1_inv c n :
  0 <= c < 2 ^ 31 -> is_Some (scheduler_bootstrap (raw n) ≫= thread_bootstrap) ->
  minv (mboot (objs1 c) n).
Proof.
  intros Hc Hb. apply mboot_inv; [done|done|].
  unfold objs1. apply map_Forall_insert_2; [simpl; lia|].
  apply map_Forall_insert_2; [by intros []|]. by apply map_Forall_singleton.
Qed.
End Boot.
Import Boot.

(** The boot thread forks a child; both compete for the lock, and the child
    waits on the semaphore until the boot thread does [V]. *)
Definition contend : list label :=
  [ L_call (C_fork [99] 0 0 0); L_call (C_acquire lock_a); L_irq Irq_timer; L_dispatch;
    L_call (C_acquire lock_a); L_dispatch; L_go; L_call (C_release lock_a);
    L_irq Irq_timer; L_dispatch; L_call (C_P sem_a); L_dispatch; L_go; L_call (C_V sem_a);
    L_call (C_yield); L_dispatch; L_call (C_release lock_a) ].

Definition contend_end : list event * mach CountdownHeap.heap unit :=
  default ([], mboot (objs1 0) 20) (run contend (mboot (objs1 0) 20)).

Lemma contend_run : run contend (mboot (objs1 0) 20) = Some contend_end.
Proof. vm_compute. reflexivity. Qed.

Lemma contend_ok : Forall label_ok contend.
Proof. repeat constructor. Qed.

Lemma contend_minv : minv (mboot (objs1 0) 20).
Proof. apply objs1_inv; [lia|]. vm_compute. by eexists. Qed.

(** ** Witnesses *)

Lemma synch_refines_witness :
  abs_run contend_end.1 (abs (kern (mboot (objs1 0) 20))) = Some (abs (kern contend_end.2)).
Proof.
  apply (synch_refines contend (mboot (objs1 0) 20)); [apply contend_minv|apply contend_ok|].
  rewrite contend_run. by destruct contend_end.
Defined.

(** The addresses of the two threads of [contend]. *)
Definition t_boot : Z := 188.
Definition t_child : Z := 296.

Lemma lock_mutual_exclusion_witness : EvRel t_boot lock_a ∈ [EvRel t_boot lock_a].
Proof.
  apply (lock_mutual_exclusion contend (mboot (objs1 0) 20) [] [EvRel t_boot lock_a]
    [EvV sem_a; EvP t_child sem_a; EvRel t_child lock_a] t_boot t_child lock_a contend_end.2);
    [apply contend_minv|apply contend_ok|].
  vm_compute. reflexivity.
Defined.

Lemma semaphore_counts_witness :
  exists sem', objs (kern contend_end.2) !! sem_a = Some (KSem sem') /\
    count sem' = 0 + occ (is_V sem_a) contend_end.1 - occ (is_P sem_a) contend_end.1 /\
    0 <= count sem'.
Proof.
  apply (semaphore_counts contend (mboot (objs1 0) 20) contend_end.1 contend_end.2 sem_a
    (Semaphore 0 0)); [apply contend_minv|apply contend_ok| |].
  - rewrite contend_run. by destruct contend_end.
  - reflexivity.
Defined.

(** After six steps of [contend] the child sleeps on the lock. *)
Definition contend6 : list event * mach CountdownHeap.heap unit :=
  default ([], mboot (objs1 0) 20) (run (take 6 contend) (mboot (objs1 0) 20)).

Lemma no_missed_wakeup_witness :
  (forall sem, objs (kern contend6.2) !! lock_a = Some (KSem sem) -> count sem = 0) /\
  (forall l, objs (kern contend6.2) !! lock_a = Some (KLock l) -> isHeld l = true).
Proof.
  destruct (sleepers (ts (kern contend6.2))) as [sl|] eqn:Esl; [|by vm_compute in Esl].
  apply (no_missed_wakeup (take 6 contend) (mboot (objs1 0) 20) contend6.1 contend6.2 sl
    t_child lock_a); [apply contend_minv|repeat constructor| |exact Esl| |].
  - vm_compute. reflexivity.
  - vm_compute in Esl. injection Esl as <-. vm_compute. apply list_elem_of_here.
  - vm_compute. reflexivity.
Defined.

(** ** A wakeup [cv_wait] can miss

    [cv_wait] releases the lock before it raises the interrupt level and goes to
    sleep.  A timer interrupt in between lets another thread take the lock,
    change whatever the condition is about, signal and release. *)

(** The boot thread has forked a child, taken the lock and called [cv_wait]. *)
Definition waiting : list label :=
  [ L_call (C_fork [99] 0 0 0); L_call (C_acquire lock_a); L_call (C_wait cv_a lock_a) ].

(** The interrupt, the child's signal under the lock, and the boot thread's
    turn again. *)
Definition signalled : list label :=
  [ L_irq Irq_timer; L_dispatch; L_call (C_acquire lock_a); L_call (C_signal cv_a lock_a);
    L_call (C_release lock_a); L_call C_yield; L_dispatch; L_go; L_go ].

(** C39: a thread can sleep through a signal sent after it called [cv_wait]: there
    is a run in which it has released the lock inside [cv_wait], another thread
    then holds the lock and signals, and afterwards the first thread is asleep
    on the condition variable all the same. *)
Theorem cv_wait_loses_wakeup :
  exists es1 m1 es2 m2 sl,
    run waiting (mboot (objs1 0) 20) = Some (es1, m1) /\
    es1 = [EvAcq t_boot lock_a; EvRel t_boot lock_a] /\
    stacks m1 !! t_boot = Some [F_cvwindow cv_a lock_a] /\
    run signalled m1 = Some (es2, m2) /\
    es2 = [EvAcq t_child lock_a; EvRel t_child lock_a] /\
    sleepers (ts (kern m2)) = Some sl /\ contents sl = [Some t_boot] /\
    sleepmap (ts (kern m2)) !! t_boot = Some cv_a.
Proof.
  eexists _, _, _, _, _. split; [vm_compute; reflexivity|].
  split; [reflexivity|]. split; [reflexivity|].
  split; [vm_compute; reflexivity|]. by split_and!.
Qed.
