(* ===== verification/ThreadSpec.v ===== *)
(** * What the thread system promises

    The theorems about kern/thread/thread.c and kern/thread/scheduler.c, stated
    on the model of [Thread] with the lemmas of [ThreadInv] and [ThreadOps];
    their instances start from the booted machine of [SynchInv]. *)

From stdpp Require Import base option list gmap fin_maps numbers.
From S2P Require Import Prelude Kmem Array Queue Thread ThreadInv ThreadOps Synch SynchInv.

Section spec.
Context {Heap W : Type} `{KmallocLaws Heap} `{!ThreadEnv W}.
Implicit Types s : tsys Heap W.

(** C19: in every state the machine reaches, each thread is in exactly one place:
    running, in the run queue, asleep, or a zombie; the table of thread
    structures holds those and no others; [numthreads] counts the ones that are
    not zombies; and every thread that exited has given up its address space and
    its directory. *)
Theorem every_thread_in_one_place ls (m m' : mach Heap W) es :
  minv m -> Forall label_ok ls -> run ls m = Some (es, m') ->
  exists sa za rq sleeping ready dead,
    let s := ts (kern m') in
    let running := if curthread s =? 0 then [] else [curthread s] in
    sleepers s = Some sa /\ contents sa = Some <$> sleeping /\
    runqueue s = Some rq /\ q_list rq = Some <$> ready /\
    zombies s = Some za /\ contents za = Some <$> dead /\
    NoDup (running ++ sleeping ++ ready ++ dead) /\
    (forall t, t ∈ running ++ sleeping ++ ready ++ dead <-> is_Some (threads s !! t)) /\
    numthreads s = Z.of_nat (length (running ++ sleeping ++ ready)) /\
    (forall t th, t ∈ dead -> threads s !! t = Some th -> t_vmspace th = 0 /\ t_cwd th = 0).
Proof.
  intros Hm Hl E. destruct (run_wp _ _ _ _ Hm Hl E) as [((sa & za & rq & L & [HR HP] & _) & _) _].
  simpl in *. exists sa, za, rq, (l_sleep L), (l_ready L), (l_zomb L). cbn zeta.
  destruct HP as [Hnd Hdom Hnum Hz _]. unfold live, cur_list in *. rewrite <- !app_assoc in *.
  split_and!; try apply HR; done.
Qed.

(** C28: [thread_fork] never panics.  Either it succeeds: the new thread is at the
    end of the run queue with its stack marked, its first context set to run
    [func] with its arguments and the directory of its parent, [numthreads] went
    up and the sleep list, the zombie list and the run queue have at least that
    many slots.  Or it returns [ENOMEM], every thread is as it was and no block
    of memory is lost. *)
Theorem thread_fork_all_or_nothing name d1 d2 f s sa za rq L cur :
  sys_inv s sa za rq L -> curthread s <> 0 -> short name ->
  threads s !! curthread s = Some cur ->
  (exists t n stack s' sa' za' rq',
     thread_fork name d1 d2 f s = Some (0, t, s') /\
     threads s !! t = None /\
     threads s' = <[t := new_thread n stack name (t_cwd cur) d1 d2 f]> (threads s) /\
     sys_inv s' sa' za' rq' (Tlists (l_sleep L) (l_ready L ++ [t]) (l_zomb L)) /\
     curspl s' = curspl s /\ numthreads s' = numthreads s + 1 /\
     numthreads s' <= a_max sa' /\ numthreads s' <= a_max za' /\ numthreads s' <= q_size rq') \/
  (exists s' sa' za' rq',
     thread_fork name d1 d2 f s = Some (ENOMEM, 0, s') /\ threads s' = threads s /\
     sys_inv s' sa' za' rq' L /\ curspl s' = curspl s /\
     same_others (heap s) (sys_blocks sa za rq (threads s)) (heap s')
       (sys_blocks sa' za' rq' (threads s))).
Proof.
  intros HI Hc Hn Ecur.
  destruct (thread_fork_wp name d1 d2 f s sa za rq L cur _ _ HI Hc Hn Ecur eq_refl eq_refl) as
    [(t & n & st & s' & E & _ & _ & sa' & za' & rq' & HI' & Enew & Ets & _ & Espl & _ & En & H1 & H2 & H3 & _)
    |(s' & w0 & E & _ & sa' & za' & rq' & HI' & Ets & _ & Espl & _ & Ho)]; [left|right].
  - by exists t, n, st, s', sa', za', rq'.
  - by exists s', sa', za', rq'.
Qed.

(** C33: [thread_wakeup(addr)] moves exactly the threads asleep on [addr] to the
    end of the run queue, in the order they went to sleep, and leaves the other
    sleepers where they are; it cannot panic while the run queue has room for
    them. *)
Theorem thread_wakeup_exact s sa za rq L addr :
  sys_inv s sa za rq L -> 0 < curspl s ->
  let woken := filter (sleeps_on (threads s) addr) (l_sleep L) in
  let kept := filter (fun t => ~ sleeps_on (threads s) addr t) (l_sleep L) in
  (Z.of_nat (length (l_ready L) + length woken) < q_size rq ->
     is_Some (thread_wakeup addr s)) /\
  forall s', thread_wakeup addr s = Some s' ->
    threads s' = threads s /\ numthreads s' = numthreads s /\ curthread s' = curthread s /\
    exists sa' rq', sys_inv s' sa' za rq' (Tlists kept (l_ready L ++ woken) (l_zomb L)).
Proof.
  intros HI Hspl woken kept. destruct (thread_wakeup_wp _ _ _ _ _ addr HI Hspl) as [Hroom Hw].
  split; [done|]. intros s' E. destruct (Hw s' E) as (sa' & rq' & h' & -> & _ & _ & HI').
  split_and!; [done..|]. by exists sa', rq'.
Qed.

(** [thread_wakeup_one], which is to wake up one thread, goes on after it has
    found one: of three threads asleep on [addr] it wakes the first and the
    third. *)
Theorem thread_wakeup_one_wakes_two s sa za rq t1 t2 t3 ready dead addr :
  sys_inv s sa za rq (Tlists [t1; t2; t3] ready dead) -> 0 < curspl s ->
  sleeps_on (threads s) addr t1 -> sleeps_on (threads s) addr t3 ->
  Z.of_nat (length ready) + 2 < q_size rq ->
  exists s' sa' rq', thread_wakeup_one addr s = Some s' /\
    sys_inv s' sa' za rq' (Tlists [t2] (ready ++ [t1; t3]) dead).
Proof.
  intros HI Hspl H1 H3 Hroom. pose proof (thread_wakeup_one_wp _ _ _ _ _ addr HI Hspl) as Hw.
  simpl in Hw. rewrite !decide_True in Hw by done. simpl in Hw.
  destruct Hw as [[s' E] Hw]; [lia|]. destruct (Hw s' E) as (sa' & rq' & h' & _ & _ & _ & HI').
  by exists s', sa', rq'.
Qed.

(** [exorcise] cannot fail.  It frees the structure, the name and the stack of
    every zombie and nothing else, and leaves no zombie behind. *)
Theorem exorcise_frees_zombies s sa za rq L :
  sys_inv s sa za rq L -> 0 < curspl s ->
  exists s' za', exorcise s = Some s' /\
    sys_inv s' sa za' rq (Tlists (l_sleep L) (l_ready L) []) /\
    (forall t, threads s' !! t = if decide (t ∈ l_zomb L) then None else threads s !! t) /\
    same_others (heap s) (sys_blocks sa za rq (threads s)) (heap s')
      (sys_blocks sa za' rq (threads s')).
Proof.
  intros HI Hspl. destruct (exorcise_wp _ _ _ _ _ HI Hspl) as (ts' & za' & h' & E & Hts & HI' & Ho).
  by eexists _, za'.
Qed.

(** with the sleep list as large as the number of threads and the run queue
    larger than it, a thread can always go to sleep or yield: no allocation is
    needed and no assertion fails; with a free slot among the zombies it can
    also exit. *)
Theorem preallocated_switch s sa za rq L :
  sys_inv s sa za rq L -> 0 < curspl s -> curthread s <> 0 ->
  numthreads s <= a_max sa -> numthreads s < q_size rq ->
  is_Some (mi_switch_out S_SLEEP s) /\ is_Some (mi_switch_out S_READY s) /\
  (Z.of_nat (length (l_zomb L)) < a_max za -> is_Some (mi_switch_out S_ZOMB s)).
Proof.
  intros HI Hspl Hc Hsa Hrq. pose proof HI as [HR HP]. pose proof (inv_num _ _ HP) as Hn.
  unfold live, cur_list in Hn. rewrite (proj2 (Z.eqb_neq _ _)) in Hn by done.
  simpl in Hn. rewrite length_app in Hn.
  destruct (inv_cur _ _ _ _ _ HI Hc) as (th & Eth & Hst & _). split_and!.
  - apply (mi_switch_out_inv S_SLEEP _ _ _ _ _ HI); [done|done|by right|simpl; lia].
  - apply (mi_switch_out_inv S_READY _ _ _ _ _ HI); [done|done|by left|simpl; lia].
  - intros Hz. by apply (mi_switch_out_rep S_ZOMB s sa za rq L th HR Hspl (inv_small _ _ _ _ _ HI)).
Qed.
End spec.

(** ** When the preallocation of [thread_fork] is one slot short *)

Import Boot.

Fixpoint fork_many (n : nat) (s : bsys) : option bsys :=
  match n with
  | O => Some s
  | S n =>
      '(r, _, s) ← thread_fork [99] 0 0 0 s;
      ASSERT r =? 0 ;; fork_many n s
  end.

Definition full_sys : bsys := default (boot_sys 161) (fork_many 31 (boot_sys 161)).

Lemma full_sys_eq : fork_many 31 (boot_sys 161) = Some full_sys.
Proof.
  assert (is_Some (fork_many 31 (boot_sys 161))) as [s E] by (vm_compute; by eexists).
  unfold full_sys. by rewrite E.
Qed.

(** C37: the room [thread_fork] makes is not enough for the run queue.  After 31
    successful forks, with 32 threads in all and no memory left, the running
    thread cannot even yield: putting it into the run queue needs a 33rd slot,
    the allocation fails, and [mi_switch] dies on its assertion. *)
Theorem yield_panics_with_32_threads :
  fork_many 31 (boot_sys 161) = Some full_sys /\ numthreads full_sys = 32 /\
  fst <$> make_runnable (curthread full_sys) (splhigh full_sys).2 = Some ENOMEM /\
  thread_yield full_sys = None.
Proof.
  split; [apply full_sys_eq|].
  split; [vm_compute; reflexivity|]. split; vm_compute; reflexivity.
Qed.

(** ** Witnesses *)

(** A run of the booted machine ends in a state with the invariant; the lists
    are those of its arrays and queue. *)
Lemma run_inv ls es m' :
  run ls (mboot (objs1 0) 40) = Some (es, m') -> Forall label_ok ls ->
  exists sa za rq L, sys_inv (ts (kern m')) sa za rq L.
Proof.
  intros E Hl. assert (minv (mboot (objs1 0) 40)) as Hm.
  { apply objs1_inv; [lia|]. vm_compute. by eexists. }
  destruct (run_wp _ _ _ _ Hm Hl E) as [((sa & za & rq & L & HI & _) & _) _].
  by exists sa, za, rq, L.
Qed.

Definition after_run (ls : list label) : list event * mach CountdownHeap.heap unit :=
  default ([], mboot (objs1 0) 40) (run ls (mboot (objs1 0) 40)).
Definition after (ls : list label) : mach CountdownHeap.heap unit := (after_run ls).2.

Lemma after_eq ls :
  is_Some (run ls (mboot (objs1 0) 40)) ->
  run ls (mboot (objs1 0) 40) = Some ((after_run ls).1, after ls).
Proof. unfold after, after_run. intros [[es m'] E]. by rewrite E. Qed.

(** The list behind an array or a queue is what [some_list] reads off it. *)
Definition some_list (l : list (option Z)) : list Z := omap id l.

Lemma some_list_fmap l : some_list (Some <$> l) = l.
Proof. unfold some_list. induction l as [|x l IH]; [done|]. simpl. by f_equal. Qed.

Definition lists_of (s : bsys) : tlists :=
  Tlists (some_list (default [] (contents <$> sleepers s)))
         (some_list (default [] (q_list <$> runqueue s)))
         (some_list (default [] (contents <$> zombies s))).

Lemma lists_of_rep (s : bsys) sa za rq L : sys_rep s sa za rq L -> lists_of s = L.
Proof.
  intros HR. unfold lists_of. rewrite (rep_sleepers _ _ _ _ _ HR), (rep_runqueue _ _ _ _ _ HR),
    (rep_zombies _ _ _ _ _ HR). simpl. rewrite (rep_sleep _ _ _ _ _ HR),
    (rep_ready _ _ _ _ _ HR), (rep_zomb _ _ _ _ _ HR), !some_list_fmap. by destruct L.
Qed.

Lemma after_inv ls :
  is_Some (run ls (mboot (objs1 0) 40)) -> Forall label_ok ls ->
  exists sa za rq, sys_inv (ts (kern (after ls))) sa za rq (lists_of (ts (kern (after ls)))) /\
    sleepers (ts (kern (after ls))) = Some sa /\ runqueue (ts (kern (after ls))) = Some rq.
Proof.
  intros [[es m'] E] Hl. destruct (run_inv _ _ _ E Hl) as (sa & za & rq & L & HI).
  exists sa, za, rq. unfold after, after_run. rewrite E. simpl. rewrite (lists_of_rep _ _ _ _ _ (proj1 HI)).
  pose proof HI as [[] _]. done.
Qed.

(** Three threads asleep on the semaphore, the processor idle. *)
Definition three_asleep : list label :=
  [ L_call (C_fork [99] 0 0 0); L_call (C_fork [99] 0 0 0); L_call (C_P sem_a);
    L_dispatch; L_call (C_P sem_a); L_dispatch; L_call (C_P sem_a) ].

(** A child that has exited. *)
Definition one_dead : list label :=
  [ L_call (C_fork [99] 0 0 0); L_call C_yield; L_dispatch; L_call C_exit ].

Lemma every_thread_in_one_place_witness :
  exists sa za rq sleeping ready dead,
    let s := ts (kern (after one_dead)) in
    let running := if curthread s =? 0 then [] else [curthread s] in
    sleepers s = Some sa /\ contents sa = Some <$> sleeping /\
    runqueue s = Some rq /\ q_list rq = Some <$> ready /\
    zombies s = Some za /\ contents za = Some <$> dead /\
    NoDup (running ++ sleeping ++ ready ++ dead) /\
    (forall t, t ∈ running ++ sleeping ++ ready ++ dead <-> is_Some (threads s !! t)) /\
    numthreads s = Z.of_nat (length (running ++ sleeping ++ ready)) /\
    (forall t th, t ∈ dead -> threads s !! t = Some th -> t_vmspace th = 0 /\ t_cwd th = 0).
Proof.
  eapply (every_thread_in_one_place one_dead (mboot (objs1 0) 40) (after one_dead));
    [apply objs1_inv; [lia|vm_compute; by eexists]|repeat constructor|].
  apply after_eq. vm_compute. by eexists.
Defined.

Lemma thread_fork_all_or_nothing_witness :
  is_Some (thread_fork [99] 1 2 3 (boot_sys 40)).
Proof.
  destruct (boot_sys_inv 40) as (sa & za & rq & HI & Hc & _); [vm_compute; by eexists|].
  destruct (inv_cur _ _ _ _ _ HI Hc) as (cur & Ecur & _).
  destruct (thread_fork_all_or_nothing [99] 1 2 3 (boot_sys 40) sa za rq _ cur HI Hc ltac:(done) Ecur)
    as [(? & ? & ? & ? & ? & ? & ? & E & _)|(? & ? & ? & ? & E & _)]; rewrite E; by eexists.
Defined.

Abbreviation asleep_sys := (ts (kern (after three_asleep))).

Lemma asleep_inv :
  exists sa za rq, sys_inv asleep_sys sa za rq (Tlists [t_boot; t_child; 4516] [] []) /\
    q_size rq = 32.
Proof.
  destruct (after_inv three_asleep) as (sa & za & rq & HI & _ & Erq);
    [vm_compute; by eexists|repeat constructor|].
  assert (lists_of asleep_sys = Tlists [t_boot; t_child; 4516] [] []) as EL
    by (vm_compute; reflexivity).
  assert (q_size <$> runqueue asleep_sys = Some 32) as Hq by (vm_compute; reflexivity).
  rewrite Erq in Hq. injection Hq as Hq. rewrite EL in HI. exists sa, za, rq.
  split; [exact HI|exact Hq].
Qed.

Lemma asleep_spl : 0 < curspl asleep_sys.
Proof. vm_compute. reflexivity. Qed.
Lemma asleep_on t : t ∈ [t_boot; 4516] -> sleeps_on (threads asleep_sys) sem_a t.
Proof.
  intros [->|[->|[]%not_elem_of_nil]%elem_of_cons]%elem_of_cons; vm_compute; reflexivity.
Qed.

Lemma thread_wakeup_exact_witness : is_Some (thread_wakeup sem_a asleep_sys).
Proof.
  destruct asleep_inv as (sa & za & rq & HI & Hq).
  apply (thread_wakeup_exact _ sa za rq _ sem_a HI asleep_spl). rewrite Hq.
  pose proof (length_filter (sleeps_on (threads asleep_sys) sem_a) [t_boot; t_child; 4516]).
  simpl in *. lia.
Defined.

Lemma thread_wakeup_one_wakes_two_witness :
  exists s' sa' za rq', thread_wakeup_one sem_a asleep_sys = Some s' /\
    sys_inv s' sa' za rq' (Tlists [t_child] ([] ++ [t_boot; 4516]) []).
Proof.
  destruct asleep_inv as (sa & za & rq & HI & Hq).
  destruct (thread_wakeup_one_wakes_two asleep_sys sa za rq t_boot t_child 4516 [] [] sem_a HI
    asleep_spl (asleep_on t_boot ltac:(set_solver)) (asleep_on 4516 ltac:(set_solver))
    ltac:(rewrite Hq; reflexivity)) as (s' & sa' & rq' & E & HI').
  exists s', sa', za, rq'. split; [exact E|exact HI'].
Defined.

Abbreviation dead_sys := (ts (kern (after one_dead))).

Lemma dead_inv : exists sa za rq, sys_inv dead_sys sa za rq (lists_of dead_sys).
Proof.
  destruct (after_inv one_dead) as (sa & za & rq & HI & _);
    [vm_compute; by eexists|repeat constructor|]. exists sa, za, rq. exact HI.
Qed.
Lemma dead_facts : 0 < curspl dead_sys /\ l_zomb (lists_of dead_sys) = [t_child].
Proof. split; vm_compute; reflexivity. Qed.

Lemma exorcise_frees_zombies_witness :
  exists s', exorcise dead_sys = Some s' /\ threads s' !! t_child = None.
Proof.
  destruct dead_inv as (sa & za & rq & HI). destruct dead_facts as [Hs Hz].
  destruct (exorcise_frees_zombies _ sa za rq _ HI Hs) as (s' & za' & E & _ & Ht & _).
  exists s'. split; [exact E|]. rewrite Ht.
  apply decide_True. rewrite Hz. apply list_elem_of_here.
Defined.

Abbreviation forked_sys := (ts (kern (after (take 1 one_dead)))).

Lemma forked_inv :
  exists sa za rq, sys_inv forked_sys sa za rq (lists_of forked_sys) /\
    numthreads forked_sys = 2 /\ a_max sa = 2 /\ q_size rq = 32 /\ curthread forked_sys = t_boot.
Proof.
  destruct (after_inv (take 1 one_dead)) as (sa & za & rq & HI & Esa & Erq);
    [vm_compute; by eexists|repeat constructor|].
  assert (q_size <$> runqueue forked_sys = Some 32) as Hq by (vm_compute; reflexivity).
  assert (a_max <$> sleepers forked_sys = Some 2) as Hm by (vm_compute; reflexivity).
  assert (numthreads forked_sys = 2) as Hn by (vm_compute; reflexivity).
  assert (curthread forked_sys = t_boot) as Hc by (vm_compute; reflexivity).
  rewrite Erq in Hq. rewrite Esa in Hm. injection Hq as Hq. injection Hm as Hm.
  exists sa, za, rq. split; [exact HI|]. split; [exact Hn|]. split; [exact Hm|].
  split; [exact Hq|exact Hc].
Qed.

Lemma preallocated_switch_witness : is_Some (mi_switch_out S_SLEEP (splhigh forked_sys).2).
Proof.
  destruct forked_inv as (sa & za & rq & HI & Hn & Hm & Hq & Hc).
  generalize dependent forked_sys. intros s HI Hn Hc.
  apply (preallocated_switch (splhigh s).2 sa za rq _ (inv_splx s _ _ _ _ SPL_HIGH HI)).
  - reflexivity.
  - simpl. rewrite Hc. discriminate.
  - simpl. lia.
  - simpl. lia.
Defined.
