(* ===== verification/Fair.v ===== *)
(** * Fairness

    The scheduler is a FIFO queue, and nothing but the scheduler takes a thread out of
    it: a thread that is ready gets the processor after as many switches as there are
    threads before it, whatever the threads and the interrupts do in between; and a
    thread that waits for a semaphore or a lock is ready when it is given up. *)

From stdpp Require Import base option list gmap numbers.
From S2P Require Import Prelude Kmem Array Queue Thread ThreadInv ThreadOps Synch SynchInv.

(** The number of times the scheduler picks a thread. *)
Fixpoint dispatches (ls : list label) : nat :=
  match ls with
  | [] => 0
  | L_dispatch :: ls => S (dispatches ls)
  | _ :: ls => dispatches ls
  end.

Section fair.
Context {Heap W : Type} `{KmallocLaws Heap} `{!ThreadEnv W}.
Implicit Types (k : ksys Heap W) (m : mach Heap W).

(** [t] gets the processor with the [n]-th switch of the run, counting from 0. *)
Definition runs_at (ls : list label) m (n : nat) (t : Z) : Prop :=
  exists ls1 ls2 es m', ls = ls1 ++ L_dispatch :: ls2 /\ dispatches ls1 = n /\
    run (ls1 ++ [L_dispatch]) m = Some (es, m') /\ on_cpu m' t.

Lemma runs_at_cons l ls m es m1 n t :
  step l m = Some (es, m1) -> runs_at ls m1 n t ->
  runs_at (l :: ls) m (match l with L_dispatch => S n | _ => n end) t.
Proof.
  intros E (ls1 & ls2 & es1 & m' & -> & Hn & Er & Ht). exists (l :: ls1), ls2, (es ++ es1), m'.
  split; [done|]. split; [destruct l; simpl; congruence|]. split; [|done]. simpl. rewrite E. simpl. by rewrite Er.
Qed.

Lemma ready_runs ls m es m' t n :
  minv m -> Forall label_ok ls -> run ls m = Some (es, m') ->
  ready (ts (kern m)) !! n = Some t -> (n < dispatches ls)%nat -> runs_at ls m n t.
Proof.
  revert m n es. induction ls as [|l ls IH]; intros m n es Hm Hl E Ht Hn; [simpl in Hn; lia|].
  pose proof (Forall_inv Hl) as Hl1. apply Forall_inv_tail in Hl. simpl in E.
  destruct (step l m) as [[es1 m1]|] eqn:Es; [|done]. cbn [mbind option_bind] in E.
  destruct (run ls m1) as [[es2 m2]|] eqn:Er; [|done]. cbn [mbind option_bind] in E. injection E as <- <-.
  destruct (step_wp _ _ _ Hm Hl1 Es) as [[Hm1 _] Hq]. simpl in Hm1, Hq.
  assert (l <> L_dispatch -> runs_at (l :: ls) m n t) as Hother.
  { intros Hne. assert (ready (ts (kern m)) `prefix_of` ready (ts (kern m1))) as Hp by (by destruct l).
    assert (n < dispatches ls)%nat as Hn' by (by destruct l).
    pose proof (runs_at_cons _ _ _ _ _ n t Es (IH m1 n es2 Hm1 Hl Er (prefix_lookup_Some _ _ _ _ Ht Hp) Hn')) as Hr.
    by destruct l. }
  destruct l; try (by apply Hother). destruct Hq as (t0 & q & Eq & Hp & Hc). rewrite Eq in Ht.
  destruct n as [|n]; simpl in Ht.
  - injection Ht as <-. exists [], ls, (es1 ++ []), m1. split; [done|]. split; [done|]. split; [|done].
    cbn [run app]. by rewrite Es.
  - simpl in Hn. apply (runs_at_cons _ _ _ _ _ n t Es). eapply IH; [done|done|done| |lia].
    by eapply prefix_lookup_Some.
Qed.

(** C8: No starvation.  In every run, whatever the threads call and whichever
    interrupts arrive: a thread that is ready with [n] threads before it gets the
    processor with the [n]-th switch, counting from 0, no later and no earlier. *)
Theorem ready_thread_runs ls m es m' t n :
  minv m -> Forall label_ok ls -> run ls m = Some (es, m') ->
  ready (ts (kern m)) !! n = Some t -> (n < dispatches ls)%nat ->
  exists ls1 ls2 es1 m1, ls = ls1 ++ L_dispatch :: ls2 /\ dispatches ls1 = n /\
    run (ls1 ++ [L_dispatch]) m = Some (es1, m1) /\ on_cpu m1 t.
Proof. apply ready_runs. Qed.

(** ** Waiting for an object *)

(** The calls that give up what the threads asleep on [a] wait for. *)
Definition gives_up (c : call) (a : Z) : Prop := c = C_V a \/ c = C_release a.

Definition waits_on k (t a : Z) : Prop :=
  exists sl, sleepers (ts k) = Some sl /\ Some t ∈ contents sl /\ sleepmap (ts k) !! t = Some a.

Lemma kwakeup_ready k k' t a sa za rq L :
  sys_inv (ts k) sa za rq L -> waits_on k t a -> kwakeup a k = Some k' -> t ∈ ready (ts k').
Proof.
  intros HI (sl & Esl & Ht & Ea) E. unfold kwakeup in E.
  destruct (thread_wakeup a (ts k)) as [s'|] eqn:Es; [|done]. cbn [mbind option_bind] in E. injection E as <-.
  assert (0 < curspl (ts k)) as Hspl.
  { unfold thread_wakeup in Es. destruct (0 <? curspl (ts k)) eqn:E0; [by boolify|done]. }
  destruct (thread_wakeup_wp _ _ _ _ _ a HI Hspl) as [_ Hw].
  destruct (Hw s' Es) as (sa' & rq' & h' & -> & _ & _ & HI'). cbn [ts set_ts].
  rewrite (ready_inv _ _ _ _ _ HI'). simpl. apply elem_of_app. right.
  rewrite (rep_sleepers _ _ _ _ _ (proj1 HI)) in Esl. injection Esl as <-.
  rewrite (rep_sleep _ _ _ _ _ (proj1 HI)) in Ht. apply list_elem_of_fmap in Ht as (u & [= <-] & Ht).
  apply list_elem_of_filter. split; [|done]. unfold sleeps_on. unfold sleepmap in Ea. by rewrite lookup_fmap in Ea.
Qed.

Lemma V_ready a k k' t : kinv k -> waits_on k t a -> V a k = Some k' -> t ∈ ready (ts k').
Proof.
  intros (sa & za & rq & L & HI & _) Hw E. unfold V in E. destruct (negb (a =? 0)); [|done]. simpl in E.
  destruct (get_sem a _) as [sem|]; simpl in E; [|done]. destruct (0 <? _); [|done].
  destruct (kwakeup a _) as [k2|] eqn:Ew; simpl in E; [|done]. injection E as <-.
  apply (fun H1 H2 => kwakeup_ready _ k2 t a sa za rq L H1 H2 Ew); [by apply (inv_splx (ts k))|exact Hw].
Qed.

Lemma release_ready a k k' t : kinv k -> waits_on k t a -> lock_release a k = Some k' -> t ∈ ready (ts k').
Proof.
  intros (sa & za & rq & L & HI & _) Hw E. unfold lock_release in E. destruct (negb (a =? 0)); [|done]. simpl in E.
  destruct (lock_do_i_hold a _) as [b|]; simpl in E; [|done]. destruct b; [|done].
  destruct (get_lock a _) as [l|]; simpl in E; [|done].
  destruct (kwakeup a _) as [k2|] eqn:Ew; simpl in E; [|done]. injection E as <-.
  apply (fun H1 H2 => kwakeup_ready _ k2 t a sa za rq L H1 H2 Ew); [by apply (inv_splx (ts k))|exact Hw].
Qed.

Lemma gives_up_ready c a m es m1 t :
  minv m -> gives_up c a -> waits_on (kern m) t a -> step (L_call c) m = Some (es, m1) ->
  t ∈ ready (ts (kern m1)).
Proof.
  intros (HK & _) Hc Hw E. simpl in E. destruct (mmode m); [|done].
  destruct (stacks m !! _) as [[|]|]; [|done..].
  destruct (exec_call c (kern m)) as [[o k']|] eqn:Ee; [|done]. cbn [mbind option_bind] in E. injection E as <- <-.
  assert (t ∈ ready (ts k')) as Hin.
  { destruct Hc as [->| ->]; simpl in Ee.
    - destruct (V a (kern m)) as [k1|] eqn:Ev; [|done]. simpl in Ee. injection Ee as <- <-. by eapply V_ready.
    - destruct (lock_release a (kern m)) as [k1|] eqn:Ev; [|done]. simpl in Ee. injection Ee as <- <-.
      by eapply release_ready. }
  by destruct o.
Qed.

(** C9: Waiting ends.  When [V] or [lock_release] is called on the semaphore or the lock
    that a thread is asleep on, the thread gets the processor again within as many
    switches as threads are then ready, in every run that goes on from there. *)
Theorem waiter_runs c a t m es0 m0 ls es m' :
  minv m -> Forall label_ok ls -> gives_up c a -> waits_on (kern m) t a ->
  step (L_call c) m = Some (es0, m0) -> run ls m0 = Some (es, m') ->
  (length (ready (ts (kern m0))) <= dispatches ls)%nat ->
  exists ls1 ls2 es1 m1, ls = ls1 ++ L_dispatch :: ls2 /\
    (dispatches ls1 < length (ready (ts (kern m0))))%nat /\
    run (ls1 ++ [L_dispatch]) m0 = Some (es1, m1) /\ on_cpu m1 t.
Proof.
  intros Hm Hl Hc Hw Es Er Hd. pose proof (gives_up_ready _ _ _ _ _ _ Hm Hc Hw Es) as Hin.
  assert (label_ok (L_call c)) as Hlc by (by destruct Hc as [->| ->]).
  destruct (step_wp _ _ _ Hm Hlc Es) as [[Hm0 _] _]. apply list_elem_of_lookup_1 in Hin as [n Hn].
  pose proof (lookup_lt_Some _ _ _ Hn) as Hlt.
  destruct (ready_runs ls m0 es m' t n Hm0 Hl Er Hn) as (ls1 & ls2 & es1 & m1 & El & Ed & Er1 & Ht); [lia|].
  exists ls1, ls2, es1, m1. split; [done|]. split; [lia|done].
Qed.
End fair.

(** ** Witnesses *)

Import Boot.

(** In [contend], once the child is forked and the boot thread is interrupted, the child
    is the first thread that is ready. *)
Definition contend3 : list event * mach CountdownHeap.heap unit :=
  default ([], mboot (objs1 0) 20) (run (take 3 contend) (mboot (objs1 0) 20)).

Lemma contend_minv_at n es m : run (take n contend) (mboot (objs1 0) 20) = Some (es, m) -> minv m.
Proof.
  intros E. by apply (run_wp (take n contend) (mboot (objs1 0) 20) es m contend_minv (Forall_take _ _ _ contend_ok) E).
Qed.

Lemma ready_thread_runs_witness :
  exists ls1 ls2 es1 m1, drop 3 contend = ls1 ++ L_dispatch :: ls2 /\ dispatches ls1 = 0%nat /\
    run (ls1 ++ [L_dispatch]) contend3.2 = Some (es1, m1) /\ on_cpu m1 t_child.
Proof.
  eapply (ready_thread_runs (drop 3 contend) contend3.2 _ _ t_child 0).
  - apply (contend_minv_at 3 contend3.1). vm_compute. reflexivity.
  - exact (Forall_drop _ _ _ contend_ok).
  - vm_compute. reflexivity.
  - vm_compute. reflexivity.
  - vm_compute. lia.
Defined.

(** The child has called [P] and sleeps; the boot thread calls [V]. *)
Definition contend13 : list event * mach CountdownHeap.heap unit :=
  default ([], mboot (objs1 0) 20) (run (take 13 contend) (mboot (objs1 0) 20)).
Definition contend14 : list event * mach CountdownHeap.heap unit :=
  default ([], mboot (objs1 0) 20) (step (L_call (C_V sem_a)) contend13.2).

Lemma waiter_runs_witness :
  waits_on (kern contend13.2) t_child sem_a /\
  exists ls1 ls2 es1 m1, drop 14 contend = ls1 ++ L_dispatch :: ls2 /\
    (dispatches ls1 < length (ready (ts (kern contend14.2))))%nat /\
    run (ls1 ++ [L_dispatch]) contend14.2 = Some (es1, m1) /\ on_cpu m1 t_child.
Proof.
  assert (waits_on (kern contend13.2) t_child sem_a) as Hw.
  { destruct (sleepers (ts (kern contend13.2))) as [sl|] eqn:Esl; [|by vm_compute in Esl].
    exists sl. split; [exact Esl|]. split; [|vm_compute; reflexivity].
    vm_compute in Esl. injection Esl as <-. vm_compute. apply list_elem_of_here. }
  split; [exact Hw|].
  eapply (waiter_runs (C_V sem_a) sem_a t_child contend13.2 contend14.1 contend14.2 (drop 14 contend)).
  - apply (contend_minv_at 13 contend13.1). vm_compute. reflexivity.
  - exact (Forall_drop _ _ _ contend_ok).
  - left. reflexivity.
  - exact Hw.
  - vm_compute. reflexivity.
  - vm_compute. reflexivity.
  - vm_compute. lia.
Defined.
