(* ===== verification/Catsem.v ===== *)
(** * Cats and mice, with semaphores

    kern/asst1/catsem.c.  A program is a sequence of actions on the shared variables and
    the semaphores; between two actions of one thread the others may do any number of
    theirs.  Semaphores are the counters that [synch_refines] shows them to be.
    Locals are variables of the functions below. *)

From stdpp Require Import base option list numbers.
From S2P Require Import Prelude.

Definition NCATS : nat := 6.
Definition NMICE : nat := 2.

(** The global variables. *)
Record shared := Shared {
  all_dishes_available : bool;
  dish1Busy : bool;
  dish2Busy : bool;
  cats_wait_count : Z;
  no_cat_eat : bool;
  mice_wait_count : Z;
  no_mouse_eat : bool;
  cats_done_eating : Z;
  mice_done_eating : Z;
}.

Inductive sem := mutex | dish_sem | cat_sem | mouse_sem | done_sem | all_done.

#[global] Instance sem_eq_dec : EqDecision sem.
Proof. solve_decision. Defined.

Inductive who := Driver | Cat (catnumber : nat) | Mouse (mousenumber : nat).

(** [Eat my_dish] is the time a thread spends in [clocksleep(1)]. *)
Inductive prog :=
  | Stop
  | Panic
  | P_ (s : sem) (k : prog)
  | V_ (s : sem) (k : prog)
  | Put (f : shared -> shared) (k : prog)
  | If_ (c : shared -> bool) (yes no : prog)
  | Eat (my_dish : Z) (k : prog)
  | Fork (w : who) (k : prog)
  | Destroy (s : sem) (k : prog).

(** ** Assignments *)

Definition set_available b x := Shared b (dish1Busy x) (dish2Busy x) (cats_wait_count x) (no_cat_eat x)
  (mice_wait_count x) (no_mouse_eat x) (cats_done_eating x) (mice_done_eating x).
Definition set_dish1Busy b x := Shared (all_dishes_available x) b (dish2Busy x) (cats_wait_count x) (no_cat_eat x)
  (mice_wait_count x) (no_mouse_eat x) (cats_done_eating x) (mice_done_eating x).
Definition set_dish2Busy b x := Shared (all_dishes_available x) (dish1Busy x) b (cats_wait_count x) (no_cat_eat x)
  (mice_wait_count x) (no_mouse_eat x) (cats_done_eating x) (mice_done_eating x).
Definition add_cats_wait d x := Shared (all_dishes_available x) (dish1Busy x) (dish2Busy x) (s32 (cats_wait_count x + d))
  (no_cat_eat x) (mice_wait_count x) (no_mouse_eat x) (cats_done_eating x) (mice_done_eating x).
Definition set_no_cat_eat b x := Shared (all_dishes_available x) (dish1Busy x) (dish2Busy x) (cats_wait_count x) b
  (mice_wait_count x) (no_mouse_eat x) (cats_done_eating x) (mice_done_eating x).
Definition add_mice_wait d x := Shared (all_dishes_available x) (dish1Busy x) (dish2Busy x) (cats_wait_count x)
  (no_cat_eat x) (s32 (mice_wait_count x + d)) (no_mouse_eat x) (cats_done_eating x) (mice_done_eating x).
Definition set_no_mouse_eat b x := Shared (all_dishes_available x) (dish1Busy x) (dish2Busy x) (cats_wait_count x)
  (no_cat_eat x) (mice_wait_count x) b (cats_done_eating x) (mice_done_eating x).
Definition inc_cats_done x := Shared (all_dishes_available x) (dish1Busy x) (dish2Busy x) (cats_wait_count x)
  (no_cat_eat x) (mice_wait_count x) (no_mouse_eat x) (s32 (cats_done_eating x + 1)) (mice_done_eating x).
Definition inc_mice_done x := Shared (all_dishes_available x) (dish1Busy x) (dish2Busy x) (cats_wait_count x)
  (no_cat_eat x) (mice_wait_count x) (no_mouse_eat x) (cats_done_eating x) (s32 (mice_done_eating x + 1)).

Definition cats_waiting x : bool := 0 <? cats_wait_count x.
Definition mice_waiting x : bool := 0 <? mice_wait_count x.

(** ** A cat *)

(** Signal that it is done eating. *)
Definition cat_end : prog :=
  P_ mutex (Put inc_cats_done (V_ all_done (V_ mutex Stop))).

(** Switch to the mice, let more cats in, or open the kitchen. *)
Definition cat_next : prog :=
  P_ mutex (Put (set_no_cat_eat true) (V_ mutex
  (P_ mutex (If_ mice_waiting (V_ mouse_sem (V_ mutex cat_end))
            (If_ cats_waiting (V_ cat_sem (V_ mutex cat_end))
            (Put (set_available true) (V_ mutex cat_end))))))).

Definition cat_leave (first_cat_eating another_cat_eating : bool) : prog :=
  if first_cat_eating then
    if another_cat_eating then P_ done_sem cat_next else cat_next
  else V_ done_sem cat_next.

Definition cat_eat (first_cat_eating another_cat_eating : bool) (my_dish : Z) : prog :=
  V_ dish_sem (Eat my_dish (P_ dish_sem
  (let rest := V_ dish_sem (P_ mutex (Put (add_cats_wait (-1)) (V_ mutex
                 (cat_leave first_cat_eating another_cat_eating)))) in
   if my_dish =? 1 then Put (set_dish1Busy false) rest
   else if my_dish =? 2 then Put (set_dish2Busy false) rest else Panic))).

Definition cat_dish (first_cat_eating another_cat_eating : bool) : prog :=
  P_ dish_sem
  (If_ (fun x => negb (dish1Busy x))
     (Put (set_dish1Busy true) (cat_eat first_cat_eating another_cat_eating 1))
     (If_ dish2Busy Panic
        (Put (set_dish2Busy true) (cat_eat first_cat_eating another_cat_eating 2)))).

Definition cat_enter (first_cat_eating : bool) : prog :=
  Put (add_cats_wait 1) (V_ mutex (P_ cat_sem (P_ mutex (V_ mutex
  (if first_cat_eating then
     P_ mutex (If_ cats_waiting (V_ cat_sem (V_ mutex (cat_dish true true)))
                                (V_ mutex (cat_dish true false)))
   else cat_dish false false))))).

Definition catsem : prog :=
  P_ mutex
  (If_ all_dishes_available
     (Put (set_available false) (V_ cat_sem (Put (set_no_cat_eat false) (cat_enter true))))
     (cat_enter false)).

(** ** A mouse *)

Definition mouse_end : prog :=
  P_ mutex (Put inc_mice_done (V_ all_done (V_ mutex Stop))).

Definition mouse_next : prog :=
  P_ mutex (Put (set_no_mouse_eat true) (V_ mutex
  (P_ mutex (If_ cats_waiting (V_ cat_sem (V_ mutex mouse_end))
            (If_ mice_waiting (V_ mouse_sem (V_ mutex mouse_end))
            (Put (set_available true) (V_ mutex mouse_end))))))).

Definition mouse_leave (first_mouse_eating another_mouse_eating : bool) : prog :=
  if first_mouse_eating then
    if another_mouse_eating then P_ done_sem mouse_next else mouse_next
  else V_ done_sem mouse_next.

Definition mouse_eat (first_mouse_eating another_mouse_eating : bool) (my_dish : Z) : prog :=
  V_ dish_sem (Eat my_dish (P_ dish_sem
  (let rest := V_ dish_sem (P_ mutex (Put (add_mice_wait (-1)) (V_ mutex
                 (mouse_leave first_mouse_eating another_mouse_eating)))) in
   if my_dish =? 1 then Put (set_dish1Busy false) rest
   else if my_dish =? 2 then Put (set_dish2Busy false) rest else Panic))).

Definition mouse_dish (first_mouse_eating another_mouse_eating : bool) : prog :=
  P_ dish_sem
  (If_ (fun x => negb (dish1Busy x))
     (Put (set_dish1Busy true) (mouse_eat first_mouse_eating another_mouse_eating 1))
     (If_ (fun x => negb (dish2Busy x))
        (Put (set_dish2Busy true) (mouse_eat first_mouse_eating another_mouse_eating 2)) Panic)).

Definition mouse_enter (first_mouse_eating : bool) : prog :=
  Put (add_mice_wait 1) (V_ mutex (P_ mouse_sem (P_ mutex (V_ mutex
  (if first_mouse_eating then
     P_ mutex (If_ mice_waiting (V_ mouse_sem (V_ mutex (mouse_dish true true)))
                                (V_ mutex (mouse_dish true false)))
   else mouse_dish false false))))).

Definition mousesem : prog :=
  P_ mutex
  (If_ all_dishes_available
     (Put (set_available false) (V_ mouse_sem (Put (set_no_mouse_eat false) (mouse_enter true))))
     (mouse_enter false)).

(** ** The driver *)

Definition end_catmousesem : prog :=
  Destroy mutex (Destroy dish_sem (Destroy cat_sem (Destroy mouse_sem (Destroy done_sem (Destroy all_done Stop))))).

Definition hungry x : bool :=
  (cats_done_eating x <? Z.of_nat NCATS) || (mice_done_eating x <? Z.of_nat NMICE).

(** Every animal does [V(all_done)] once, so that there are at most as many turns as
    animals; the last test of [hungry] is the turn after these. *)
Fixpoint wait_loop (turns : nat) : prog :=
  match turns with
  | O => Stop
  | S turns => If_ hungry (P_ all_done (wait_loop turns)) end_catmousesem
  end.

Definition fork_all (ws : list who) (k : prog) : prog := foldr Fork k ws.

Definition catmousesem : prog :=
  fork_all (Cat <$> seq 0 NCATS) (fork_all (Mouse <$> seq 0 NMICE) (wait_loop (S (NCATS + NMICE)))).

(** ** The machine *)

(** [sems s] is [None] when the semaphore has been destroyed. *)
Record kitchen := Kitchen {
  vars : shared;
  sems : sem -> option Z;
  eaters : list (who * prog);
}.

Definition init_catmousesem : kitchen :=
  Kitchen (Shared true false false 0 true 0 true 0 0)
    (fun s => Some (match s with mutex | dish_sem => 1 | _ => 0 end)) [(Driver, catmousesem)].

Definition set_sem (s : sem) (c : option Z) (w : kitchen) : kitchen :=
  Kitchen (vars w) (fun x => if decide (x = s) then c else sems w x) (eaters w).
Definition set_vars (x : shared) (w : kitchen) : kitchen := Kitchen x (sems w) (eaters w).
Definition set_eaters (l : list (who * prog)) (w : kitchen) : kitchen := Kitchen (vars w) (sems w) l.

Definition body (w : who) : prog :=
  match w with Driver => catmousesem | Cat _ => catsem | Mouse _ => mousesem end.

(** A thread stops the kernel, by a panic or by using a semaphore that is gone. *)
Inductive result := Next (w : kitchen) | Panicked.

(** The next action of the thread [i]; [None] when it has ended or is blocked. *)
Definition act (i : nat) (w : kitchen) : option result :=
  '(me, p) ← eaters w !! i;
  let w' k := set_eaters (<[i := (me, k)]> (eaters w)) w in
  match p with
  | Stop => None
  | Panic => Some Panicked
  | P_ s k =>
      match sems w s with
      | None => Some Panicked
      | Some c => if 0 <? c then Some (Next (set_sem s (Some (c - 1)) (w' k))) else None
      end
  | V_ s k =>
      match sems w s with
      | None => Some Panicked
      | Some c => Some (Next (set_sem s (Some (c + 1)) (w' k)))
      end
  | Put f k => Some (Next (set_vars (f (vars w)) (w' k)))
  | If_ c yes no => Some (Next (w' (if c (vars w) then yes else no)))
  | Eat _ k => Some (Next (w' k))
  | Fork a k => Some (Next (set_eaters (eaters (w' k) ++ [(a, body a)]) w))
  | Destroy s k => Some (Next (set_sem s None (w' k)))
  end.

(** A run: which thread acts next. *)
Fixpoint acts (sched : list nat) (w : kitchen) : option result :=
  match sched with
  | [] => Some (Next w)
  | i :: sched => r ← act i w; match r with Next w => acts sched w | Panicked => Some Panicked end
  end.

Definition eats (w : kitchen) (i : nat) (me : who) (d : Z) : Prop :=
  exists k, eaters w !! i = Some (me, Eat d k).

(** ** Ownership

    What a thread holds: [mutex], [dish_sem] with the values the flags of the dishes
    have while it holds it, and a dish. *)

Record own := Own { o_mutex : bool; o_dish_sem : option (bool * bool); o_dish : option Z }.

Definition nothing : own := Own false None None.

Definition flags (x : shared) : bool * bool := (dish1Busy x, dish2Busy x).

(** The flags are what the holder of [dish_sem] thinks. *)
Definition knows (o : own) (x : shared) : Prop :=
  match o_dish_sem o with Some f => flags x = f | None => True end.

(** The effect of an assignment on the dishes. *)
Inductive put_ok (f : shared -> shared) : own -> own -> Prop :=
  | put_other o : (forall x, flags (f x) = flags x) -> put_ok f o o
  | put_take1 m b : (forall x, flags (f x) = (true, dish2Busy x)) ->
      put_ok f (Own m (Some (false, b)) None) (Own m (Some (true, b)) (Some 1))
  | put_take2 m b : (forall x, flags (f x) = (dish1Busy x, true)) ->
      put_ok f (Own m (Some (b, false)) None) (Own m (Some (b, true)) (Some 2))
  | put_give1 m a b : (forall x, flags (f x) = (false, dish2Busy x)) ->
      put_ok f (Own m (Some (a, b)) (Some 1)) (Own m (Some (false, b)) None)
  | put_give2 m a b : (forall x, flags (f x) = (dish1Busy x, false)) ->
      put_ok f (Own m (Some (a, b)) (Some 2)) (Own m (Some (a, false)) None).

(** The rest of a program keeps to the rules, given what it holds. *)
Fixpoint ok (o : own) (p : prog) : Prop :=
  match p with
  | Stop => o = nothing
  | Panic => True
  | P_ mutex k => o_mutex o = false /\ ok (Own true (o_dish_sem o) (o_dish o)) k
  | V_ mutex k => o_mutex o = true /\ ok (Own false (o_dish_sem o) (o_dish o)) k
  | P_ dish_sem k => o_dish_sem o = None /\ forall f, ok (Own (o_mutex o) (Some f) (o_dish o)) k
  | V_ dish_sem k => o_dish_sem o <> None /\ ok (Own (o_mutex o) None (o_dish o)) k
  | P_ _ k | V_ _ k => ok o k
  | Put f k => exists o', put_ok f o o' /\ ok o' k
  | If_ c yes no => (forall x, knows o x -> c x = true -> ok o yes) /\
                    (forall x, knows o x -> c x = false -> ok o no)
  | Eat d k => (d = 1 \/ d = 2) /\ o_dish_sem o = None /\ o_dish o = Some d /\ ok o k
  | Fork _ k => ok o k
  | Destroy _ k => ok o k
  end.

(** *** The programs keep to the rules *)

Lemma cat_next_ok : ok nothing cat_next.
Proof.
  assert (ok nothing cat_end) as He.
  { split; [done|]. eexists. split; [by apply put_other|]. done. }
  split; [done|]. eexists. split; [by apply put_other|]. split; [done|]. split; [done|].
  split; intros x _ _; [done|]. split; intros y _ _; [done|].
  eexists. split; [by apply put_other|]. done.
Qed.

Lemma mouse_next_ok : ok nothing mouse_next.
Proof.
  assert (ok nothing mouse_end) as He.
  { split; [done|]. eexists. split; [by apply put_other|]. done. }
  split; [done|]. eexists. split; [by apply put_other|]. split; [done|]. split; [done|].
  split; intros x _ _; [done|]. split; intros y _ _; [done|].
  eexists. split; [by apply put_other|]. done.
Qed.

(** Eating from the dish that was taken, for either animal: [leave] is what comes after. *)
Lemma eat_ok (d : Z) f (wait : shared -> shared) (leave : prog) :
  d = 1 \/ d = 2 -> (forall x, flags (wait x) = flags x) -> ok nothing leave ->
  ok (Own false (Some f) (Some d))
    (V_ dish_sem (Eat d (P_ dish_sem
      (let rest := V_ dish_sem (P_ mutex (Put wait (V_ mutex leave))) in
       if d =? 1 then Put (set_dish1Busy false) rest
       else if d =? 2 then Put (set_dish2Busy false) rest else Panic)))).
Proof.
  intros Hd Hw Hl. split; [done|]. split; [done|]. split; [done|]. split; [done|]. split; [done|]. intros [a b].
  assert (ok (Own false None None) (P_ mutex (Put wait (V_ mutex leave)))) as Hrest.
  { split; [done|]. eexists. split; [by apply put_other|]. by split. }
  destruct Hd as [->| ->]; simpl.
  - eexists. split; [by apply put_give1|]. by split.
  - eexists. split; [by apply put_give2|]. by split.
Qed.

Lemma cat_dish_ok first another : ok nothing (cat_dish first another).
Proof.
  assert (ok nothing (cat_leave first another)) as Hl.
  { destruct first, another; apply cat_next_ok. }
  split; [done|]. intros [a b]. split; intros x Hk Hc; unfold knows, flags in Hk; simpl in Hk;
    injection Hk as E1 E2; rewrite E1 in Hc; destruct a; try done.
  - eexists. split; [by apply put_take1|]. apply eat_ok; [auto|done|done].
  - split; intros y Hk Hc'; [done|]. unfold knows, flags in Hk. simpl in Hk. injection Hk as _ E2'.
    rewrite E2' in Hc'. destruct b; [done|]. eexists. split; [by apply put_take2|]. apply eat_ok; [auto|done|done].
Qed.

Lemma mouse_dish_ok first another : ok nothing (mouse_dish first another).
Proof.
  assert (ok nothing (mouse_leave first another)) as Hl.
  { destruct first, another; apply mouse_next_ok. }
  split; [done|]. intros [a b]. split; intros x Hk Hc; unfold knows, flags in Hk; simpl in Hk;
    injection Hk as E1 E2; rewrite E1 in Hc; destruct a; try done.
  - eexists. split; [by apply put_take1|]. apply eat_ok; [auto|done|done].
  - split; intros y Hk Hc'; [|done]. unfold knows, flags in Hk. simpl in Hk. injection Hk as _ E2'.
    rewrite E2' in Hc'. destruct b; [done|]. eexists. split; [by apply put_take2|]. apply eat_ok; [auto|done|done].
Qed.

Lemma catsem_ok : ok nothing catsem.
Proof.
  assert (forall b, ok (Own true None None) (cat_enter b)) as He.
  { intros b. eexists. split; [by apply put_other|]. split; [done|]. split; [done|]. split; [done|].
    destruct b; [|apply cat_dish_ok]. split; [done|].
    split; intros x _ _; (split; [done|]; apply cat_dish_ok). }
  split; [done|]. split; intros x _ _; [|apply He].
  eexists. split; [by apply put_other|]. eexists. split; [by apply put_other|]. apply He.
Qed.

Lemma mousesem_ok : ok nothing mousesem.
Proof.
  assert (forall b, ok (Own true None None) (mouse_enter b)) as He.
  { intros b. eexists. split; [by apply put_other|]. split; [done|]. split; [done|]. split; [done|].
    destruct b; [|apply mouse_dish_ok]. split; [done|].
    split; intros x _ _; (split; [done|]; apply mouse_dish_ok). }
  split; [done|]. split; intros x _ _; [|apply He].
  eexists. split; [by apply put_other|]. eexists. split; [by apply put_other|]. apply He.
Qed.

Lemma body_ok a : ok nothing (body a).
Proof.
  destruct a; [|apply catsem_ok|apply mousesem_ok]. simpl. generalize (S (NCATS + NMICE)). intros n.
  induction n as [|n IH]; simpl; [done|]. split; intros x _ _; [done|by repeat split].
Qed.

(** *** The invariant *)

(** How many threads hold something. *)
Fixpoint holders (f : own -> bool) (os : list own) : nat :=
  match os with [] => 0 | o :: os => Nat.b2n (f o) + holders f os end.

Lemma holders_insert f os i o o' :
  os !! i = Some o ->
  (holders f (<[i := o']> os) + Nat.b2n (f o) = holders f os + Nat.b2n (f o'))%nat.
Proof.
  revert i. induction os as [|x os IH]; intros [|i] Hi; simpl in *; [done|done| |].
  - injection Hi as <-. lia.
  - specialize (IH i Hi). lia.
Qed.

Lemma holders_pos f os i o : os !! i = Some o -> f o = true -> (1 <= holders f os)%nat.
Proof.
  revert i. induction os as [|x os IH]; intros [|i] Hi Hf; simpl in *; [done|done| |].
  - injection Hi as <-. rewrite Hf. simpl. lia.
  - specialize (IH i Hi Hf). lia.
Qed.

Lemma holders_app f os o : (holders f (os ++ [o]) = holders f os + Nat.b2n (f o))%nat.
Proof. induction os as [|x os IH]; simpl; [lia|]. rewrite IH. lia. Qed.

(** Only one thread holds what one thread holds. *)
Lemma holders_one f os i j o o' :
  (holders f os <= 1)%nat -> os !! i = Some o -> os !! j = Some o' -> f o = true -> f o' = true -> i = j.
Proof.
  revert i j. induction os as [|x os IH]; intros [|i] [|j] H1 Hi Hj Ho Ho'; simpl in *; try done.
  - injection Hi as ->. rewrite Ho in H1. pose proof (holders_pos f os j o' Hj Ho'). simpl in H1. lia.
  - injection Hj as ->. rewrite Ho' in H1. pose proof (holders_pos f os i o Hi Ho). simpl in H1. lia.
  - f_equal. apply IH; [lia|done..].
Qed.

Definition holds_dish_sem (o : own) : bool := match o_dish_sem o with Some _ => true | None => false end.
Definition holds_dish (d : Z) (o : own) : bool := match o_dish o with Some d' => d =? d' | None => false end.

Record kitchen_inv (w : kitchen) (os : list own) : Prop := {
  ki_ok : Forall2 (fun o t => ok o t.2) os (eaters w);
  ki_mutex : forall c, sems w mutex = Some c -> c + Z.of_nat (holders o_mutex os) = 1;
  ki_dish_sem : forall c, sems w dish_sem = Some c -> c + Z.of_nat (holders holds_dish_sem os) = 1;
  ki_one : (holders holds_dish_sem os <= 1)%nat;
  ki_knows : Forall (fun o => knows o (vars w)) os;
  ki_dish1 : holders (holds_dish 1) os = Nat.b2n (dish1Busy (vars w));
  ki_dish2 : holders (holds_dish 2) os = Nat.b2n (dish2Busy (vars w));
}.

(** One thread acts: what it holds before and after, and the counters. *)
Lemma inv_act w os i me p o x sm k o' :
  kitchen_inv w os -> os !! i = Some o -> eaters w !! i = Some (me, p) -> ok o' k ->
  (forall c, sm mutex = Some c -> exists c0, sems w mutex = Some c0 /\
     c + Z.b2z (o_mutex o') = c0 + Z.b2z (o_mutex o)) ->
  (forall c, sm dish_sem = Some c -> exists c0, sems w dish_sem = Some c0 /\
     c + Z.b2z (holds_dish_sem o') = c0 + Z.b2z (holds_dish_sem o)) ->
  (holds_dish_sem o' = true -> holds_dish_sem o = true \/ holders holds_dish_sem os = 0%nat) ->
  knows o' x -> flags x = flags (vars w) \/ holds_dish_sem o = true ->
  (Nat.b2n (holds_dish 1 o') + Nat.b2n (dish1Busy (vars w)) = Nat.b2n (holds_dish 1 o) + Nat.b2n (dish1Busy x))%nat ->
  (Nat.b2n (holds_dish 2 o') + Nat.b2n (dish2Busy (vars w)) = Nat.b2n (holds_dish 2 o) + Nat.b2n (dish2Busy x))%nat ->
  kitchen_inv (Kitchen x sm (<[i := (me, k)]> (eaters w))) (<[i := o']> os).
Proof.
  intros [Hok Hmu Hds Hone Hkn Hd1 Hd2] Ho Hp Hk Em Ed Hnew Hkx Hfl E1 E2.
  assert (forall b, Z.of_nat (Nat.b2n b) = Z.b2z b) as Hb by (by intros []).
  pose proof (holders_insert o_mutex os i o o' Ho) as I1. pose proof (holders_insert holds_dish_sem os i o o' Ho) as I2.
  pose proof (holders_insert (holds_dish 1) os i o o' Ho) as I3. pose proof (holders_insert (holds_dish 2) os i o o' Ho) as I4.
  constructor; simpl.
  - by apply Forall2_insert.
  - intros c Hc. destruct (Em c Hc) as (c0 & Hc0 & Eq). specialize (Hmu c0 Hc0). rewrite <- !Hb in Eq. lia.
  - intros c Hc. destruct (Ed c Hc) as (c0 & Hc0 & Eq). specialize (Hds c0 Hc0). rewrite <- !Hb in Eq. lia.
  - destruct (holds_dish_sem o'); simpl in I2; [|lia]. destruct Hnew as [Hn|Hn]; [done|rewrite Hn in I2; simpl in I2; lia|lia].
  - apply Forall_lookup. intros j y Hj. destruct (decide (j = i)) as [->|Hne].
    { rewrite list_lookup_insert_eq in Hj by (by eapply lookup_lt_Some). by injection Hj as <-. }
    rewrite list_lookup_insert_ne in Hj by done. pose proof (proj1 (Forall_lookup _ _) Hkn j y Hj) as Hy.
    unfold knows in *. destruct (o_dish_sem y) as [f|] eqn:Ey; [|done]. destruct Hfl as [->|Hh]; [done|].
    destruct Hne. eapply (holders_one holds_dish_sem os); [done|done|done| |done]. unfold holds_dish_sem. by rewrite Ey.
  - lia.
  - lia.
Qed.

(** The assignments to the flags. *)
Lemma put_inv f o o' x :
  put_ok f o o' -> knows o x -> (o_dish o = Some 1 -> dish1Busy x = true) -> (o_dish o = Some 2 -> dish2Busy x = true) ->
  o_mutex o' = o_mutex o /\ holds_dish_sem o' = holds_dish_sem o /\ knows o' (f x) /\
  (flags (f x) = flags x \/ holds_dish_sem o = true) /\
  (Nat.b2n (holds_dish 1 o') + Nat.b2n (dish1Busy x) = Nat.b2n (holds_dish 1 o) + Nat.b2n (dish1Busy (f x)))%nat /\
  (Nat.b2n (holds_dish 2 o') + Nat.b2n (dish2Busy x) = Nat.b2n (holds_dish 2 o) + Nat.b2n (dish2Busy (f x)))%nat.
Proof.
  intros Hp Hk Hb1 Hb2. destruct Hp as [o Hf|m b Hf|m b Hf|m a b Hf|m a b Hf]; specialize (Hf x); unfold knows in *;
    simpl in *; try (pose proof Hk as Hk'; unfold flags in Hk'; injection Hk' as K1 K2);
    pose proof Hf as Hf'; unfold flags in Hf'; injection Hf' as F1 F2; rewrite ?Hf; try rewrite F1; try rewrite F2.
  - split; [done|]. split; [done|]. split; [by destruct (o_dish_sem o)|]. split; [by left|]. lia.
  - rewrite K1, K2. split_and!; try done; auto.
  - rewrite K1, K2. split_and!; try done; auto.
  - rewrite Hb1, K2 by done. split_and!; try done; auto.
  - rewrite Hb2, K1 by done. split_and!; try done; auto.
Qed.

(** A dish that a thread holds is marked as busy. *)
Lemma held_busy w os i o :
  kitchen_inv w os -> os !! i = Some o ->
  (o_dish o = Some 1 -> dish1Busy (vars w) = true) /\ (o_dish o = Some 2 -> dish2Busy (vars w) = true).
Proof.
  intros [_ _ _ _ _ Hd1 Hd2] Ho. split; intros E.
  - pose proof (holders_pos (holds_dish 1) os i o Ho) as Hp. rewrite Hd1 in Hp. unfold holds_dish in Hp.
    rewrite E in Hp. specialize (Hp eq_refl). destruct (dish1Busy (vars w)); [done|simpl in Hp; lia].
  - pose proof (holders_pos (holds_dish 2) os i o Ho) as Hp. rewrite Hd2 in Hp. unfold holds_dish in Hp.
    rewrite E in Hp. specialize (Hp eq_refl). destruct (dish2Busy (vars w)); [done|simpl in Hp; lia].
Qed.

(** A step that changes neither the flags nor what the thread holds. *)
Lemma inv_plain w os i me p o sm k :
  kitchen_inv w os -> os !! i = Some o -> eaters w !! i = Some (me, p) -> ok o k ->
  (forall c, sm mutex = Some c -> sems w mutex = Some c) ->
  (forall c, sm dish_sem = Some c -> sems w dish_sem = Some c) ->
  kitchen_inv (Kitchen (vars w) sm (<[i := (me, k)]> (eaters w))) os.
Proof.
  intros Hinv Ho Hp Hk Hm Hd. rewrite <- (list_insert_id os i o Ho). eapply (inv_act w os i me p o); eauto.
  apply (proj1 (Forall_lookup _ _) (ki_knows _ _ Hinv) i o Ho).
Qed.

Lemma P_inv w os i me s k o c :
  kitchen_inv w os -> os !! i = Some o -> eaters w !! i = Some (me, P_ s k) -> ok o (P_ s k) ->
  sems w s = Some c -> 0 < c ->
  exists os', kitchen_inv (set_sem s (Some (c - 1)) (set_eaters (<[i := (me, k)]> (eaters w)) w)) os'.
Proof.
  intros Hinv Ho Hp Hk Hs Hc. pose proof (proj1 (Forall_lookup _ _) (ki_knows _ _ Hinv) i o Ho) as Hkn. simpl in Hkn.
  destruct s; simpl in Hk; unfold set_sem; simpl;
    try (exists os; eapply inv_plain; [done|done|done|done|done|done]).
  - destruct Hk as [Hm Hk]. eexists. eapply (inv_act w os i me _ o); [done|done|done|exact Hk|..]; simpl; auto.
    + intros c' [= <-]. exists c. split; [done|]. rewrite Hm. simpl. lia.
    + intros c' Hc'. by exists c'.
  - destruct Hk as [Hm Hk]. eexists. eapply (inv_act w os i me _ o); [done|done|done|exact (Hk (flags (vars w)))|..]; simpl; auto.
    + intros c' Hc'. by exists c'.
    + intros c' [= <-]. exists c. split; [done|]. unfold holds_dish_sem. rewrite Hm. simpl. lia.
    + intros _. right. pose proof (ki_dish_sem _ _ Hinv c Hs). lia.
    + done.
Qed.

Lemma V_inv w os i me s k o c :
  kitchen_inv w os -> os !! i = Some o -> eaters w !! i = Some (me, V_ s k) -> ok o (V_ s k) ->
  sems w s = Some c ->
  exists os', kitchen_inv (set_sem s (Some (c + 1)) (set_eaters (<[i := (me, k)]> (eaters w)) w)) os'.
Proof.
  intros Hinv Ho Hp Hk Hs. pose proof (proj1 (Forall_lookup _ _) (ki_knows _ _ Hinv) i o Ho) as Hkn. simpl in Hkn.
  destruct s; simpl in Hk; unfold set_sem; simpl;
    try (exists os; eapply inv_plain; [done|done|done|done|done|done]).
  - destruct Hk as [Hm Hk]. eexists. eapply (inv_act w os i me _ o); [done|done|done|exact Hk|..]; simpl; auto.
    + intros c' [= <-]. exists c. split; [done|]. rewrite Hm. simpl. lia.
    + intros c' Hc'. by exists c'.
  - destruct Hk as [Hm Hk]. eexists. eapply (inv_act w os i me _ o); [done|done|done|exact Hk|..]; simpl; auto; try done.
    + intros c' Hc'. by exists c'.
    + intros c' [= <-]. exists c. split; [done|]. unfold holds_dish_sem. destruct (o_dish_sem o); [|done]. simpl. lia.
Qed.

Lemma act_inv w os i w' : kitchen_inv w os -> act i w = Some (Next w') -> exists os', kitchen_inv w' os'.
Proof.
  intros Hinv E. unfold act in E. destruct (eaters w !! i) as [[me p]|] eqn:Hp; [|done]. cbn [mbind option_bind] in E.
  destruct (Forall2_lookup_r _ _ _ _ _ (ki_ok _ _ Hinv) Hp) as (o & Ho & Hk). simpl in Hk.
  pose proof (proj1 (Forall_lookup _ _) (ki_knows _ _ Hinv) i o Ho) as Hkn. simpl in Hkn. destruct p.
  - done.
  - done.
  - destruct (sems w s) as [c|] eqn:Hs; [|done]. destruct (0 <? c) eqn:Hc; [|done]. boolify. injection E as <-. by eapply P_inv.
  - destruct (sems w s) as [c|] eqn:Hs; [|done]. injection E as <-. by eapply V_inv.
  - injection E as <-. destruct Hk as (o' & Hput & Hk). destruct (held_busy w os i o Hinv Ho) as [Hb1 Hb2].
    destruct (put_inv f o o' (vars w) Hput Hkn Hb1 Hb2) as (Em & Ed & Hkn' & Hfl & E1 & E2).
    eexists. eapply (inv_act w os i me _ o); [done|done|done|exact Hk|..]; simpl; auto; rewrite ?Em, ?Ed; eauto.
  - injection E as <-. exists os. eapply inv_plain; [done|done|done| |done|done].
    destruct Hk as [Hy Hn]. destruct (c (vars w)) eqn:Hc; [by apply (Hy (vars w))|by apply (Hn (vars w))].
  - injection E as <-. exists os. destruct Hk as (_ & _ & _ & Hk). by eapply inv_plain.
  - injection E as <-. exists (os ++ [nothing]).
    assert (kitchen_inv (Kitchen (vars w) (sems w) (<[i := (me, p)]> (eaters w))) os) as [A B C D E1 F G] by (by eapply inv_plain).
    constructor; simpl in *; rewrite ?holders_app; simpl; rewrite ?Nat.add_0_r; try done.
    + apply Forall2_app; [done|]. constructor; [apply body_ok|constructor].
    + apply Forall_app. split; [done|]. by constructor.
  - injection E as <-. exists os. apply (inv_plain w os i me _ o _ p Hinv Ho Hp Hk); intros c; simpl; by case_decide.
Qed.

Lemma acts_inv sched w os w' : kitchen_inv w os -> acts sched w = Some (Next w') -> exists os', kitchen_inv w' os'.
Proof.
  revert w os. induction sched as [|i sched IH]; intros w os Hinv E; simpl in E; [injection E as <-; by exists os|].
  destruct (act i w) as [[w1|]|] eqn:Ea; [|done..]. cbn [mbind option_bind] in E.
  destruct (act_inv _ _ _ _ Hinv Ea) as [os1 Hinv1]. by eapply IH.
Qed.

Lemma init_inv : kitchen_inv init_catmousesem [nothing].
Proof.
  constructor; simpl; try done; try (by intros c [= <-]); try lia.
  - constructor; [apply (body_ok Driver)|constructor].
  - by constructor.
Qed.

(** C27: Dishes are not shared.  In every state that any interleaving of the driver, the
    cats and the mice can reach: two animals that eat at the same time eat from
    different dishes, so that at most two do, and the flag of a dish that an animal
    eats from is set. *)
Theorem dishes_exclusive sched w i j me me' d d' :
  acts sched init_catmousesem = Some (Next w) -> eats w i me d -> eats w j me' d' -> i <> j ->
  d <> d' /\ (d = 1 \/ d = 2) /\ (if d =? 1 then dish1Busy (vars w) else dish2Busy (vars w)) = true.
Proof.
  intros E [k Hi] [k' Hj] Hne. destruct (acts_inv _ _ _ _ init_inv E) as [os Hinv].
  destruct (Forall2_lookup_r _ _ _ _ _ (ki_ok _ _ Hinv) Hi) as (o & Ho & Hdd & _ & Hd & _).
  destruct (Forall2_lookup_r _ _ _ _ _ (ki_ok _ _ Hinv) Hj) as (o' & Ho' & _ & _ & Hd' & _).
  destruct (held_busy w os i o Hinv Ho) as [Hb1 Hb2]. split; [|split; [done|]].
  - intros <-. apply Hne. apply (holders_one (holds_dish d) os i j o o'); [|done|done|unfold holds_dish..].
    + destruct Hdd as [->| ->]; [rewrite (ki_dish1 _ _ Hinv)|rewrite (ki_dish2 _ _ Hinv)];
        [destruct (dish1Busy _)|destruct (dish2Busy _)]; simpl; lia.
    + rewrite Hd. by apply Z.eqb_refl.
    + rewrite Hd'. by apply Z.eqb_refl.
  - destruct Hdd as [->| ->]; simpl; auto.
Qed.

(** ** Runs that go wrong *)

(** Which thread acts how often; the driver is 0, the cats 1 to 6, the mice 7 and 8. *)
Definition schedule (turns : list (nat * nat)) : list nat := turns ≫= fun '(i, n) => replicate n i.

(** Two cats eat; the second one leaves and lets a mouse in while the first one eats. *)
Definition together : list nat := schedule [(0, 8); (1, 18); (2, 12); (7, 4); (2, 15); (7, 8)]%nat.

(** A pair of animals that finds the kitchen empty and leaves it empty; the second one
    is stopped [n] steps before its end. *)
Definition pair (i j n : nat) : list (nat * nat) :=
  [(i, 18); (j, 12); (i, 7); (j, 8); (i, 13); (j, 12 - n)]%nat.

(** The first of two cats opens the kitchen when it leaves, a third one comes in as the
    first of a new pair, and then the second one lets one in as well: the kitchen has
    three cats and two dishes. *)
Definition crowd : list nat :=
  schedule [(0, 8); (1, 18); (2, 12); (1, 7); (2, 8); (1, 13); (3, 14); (2, 8); (4, 7); (5, 7); (3, 4); (4, 5); (5, 3)]%nat.

(** The driver destroys the semaphores before the last mouse is done with them. *)
Definition too_early : list nat :=
  schedule ([(0, 8)] ++ pair 1 2 0 ++ pair 3 4 0 ++ pair 5 6 0 ++ pair 7 8 1 ++ [(0, 2)])%nat.

Definition at_ (o : option result) (f : kitchen -> bool) : bool :=
  match o with Some (Next w) => f w | _ => false end.

Lemma at_true o f : at_ o f = true -> exists w, o = Some (Next w) /\ f w = true.
Proof. destruct o as [[w|]|]; [|done..]. intros E. by exists w. Qed.

(** C40: The solution is not one: a cat and a mouse can eat at the same time; a cat can
    find both dishes busy, and panics; and the driver can destroy [mutex] before the
    last animal releases it. *)
Theorem catsem_goes_wrong :
  (exists sched w i j n m d d', acts sched init_catmousesem = Some (Next w) /\
     eats w i (Cat n) d /\ eats w j (Mouse m) d') /\
  (exists sched w i n, acts sched init_catmousesem = Some (Next w) /\ eaters w !! i = Some (Cat n, Panic)) /\
  (exists sched w i me k, acts sched init_catmousesem = Some (Next w) /\
     eaters w !! i = Some (me, V_ mutex k) /\ sems w mutex = None).
Proof.
  split; [|split].
  - destruct (at_true (acts together init_catmousesem)
      (fun w => match eaters w !! 1%nat, eaters w !! 7%nat with
                | Some (Cat 0, Eat _ _), Some (Mouse 0, Eat _ _) => true | _, _ => false end))
      as (w & E & Hw); [vm_compute; reflexivity|].
    destruct (eaters w !! 1%nat) as [[[|[|]|] []]|] eqn:E1; try discriminate Hw.
    destruct (eaters w !! 7%nat) as [[[| |[|]] []]|] eqn:E2; try discriminate Hw.
    exists together, w, 1%nat, 7%nat, 0%nat, 0%nat, my_dish, my_dish0. split; [exact E|].
    split; eexists; [exact E1|exact E2].
  - destruct (at_true (acts crowd init_catmousesem)
      (fun w => match eaters w !! 5%nat with Some (Cat 4, Panic) => true | _ => false end))
      as (w & E & Hw); [vm_compute; reflexivity|].
    exists crowd, w, 5%nat, 4%nat. split; [exact E|].
    destruct (eaters w !! 5%nat) as [[[|[|[|[|[|[|]]]]]|] []]|]; first [discriminate Hw|reflexivity].
  - destruct (at_true (acts too_early init_catmousesem)
      (fun w => match eaters w !! 8%nat, sems w mutex with
                | Some (_, V_ mutex _), None => true | _, _ => false end))
      as (w & E & Hw); [vm_compute; reflexivity|].
    destruct (eaters w !! 8%nat) as [[me []]|] eqn:E1; try discriminate Hw. destruct s; try discriminate Hw.
    exists too_early, w, 8%nat, me, k. split; [exact E|]. split; [exact E1|].
    destruct (sems w mutex); [discriminate Hw|reflexivity].
Qed.

Lemma dishes_exclusive_witness :
  exists w d d', acts together init_catmousesem = Some (Next w) /\ eats w 1 (Cat 0) d /\ eats w 7 (Mouse 0) d' /\ d <> d'.
Proof.
  destruct (at_true (acts together init_catmousesem)
    (fun w => match eaters w !! 1%nat, eaters w !! 7%nat with
              | Some (Cat 0, Eat _ _), Some (Mouse 0, Eat _ _) => true | _, _ => false end))
    as (w & E & Hw); [vm_compute; reflexivity|].
  destruct (eaters w !! 1%nat) as [[[|[|]|] []]|] eqn:E1; try discriminate Hw.
  destruct (eaters w !! 7%nat) as [[[| |[|]] []]|] eqn:E2; try discriminate Hw.
  assert (eats w 1 (Cat 0) my_dish) as H1 by (eexists; exact E1).
  assert (eats w 7 (Mouse 0) my_dish0) as H2 by (eexists; exact E2).
  exists w, my_dish, my_dish0. split; [exact E|]. split; [exact H1|]. split; [exact H2|].
  apply (dishes_exclusive together w 1 7 (Cat 0) (Mouse 0) my_dish my_dish0 E H1 H2). discriminate.
Defined.
