(* ===== verification/Cstring.v ===== *)
(** * Strings and memory blocks (src/lib/libc, shared with the kernel)

    The kernel is built with the libc sources [memcpy.c], [memmove.c],
    [bzero.c], [strlen.c], [strcpy.c], [strcat.c], [strcmp.c], [strchr.c],
    [strrchr.c], [strtok_r.c] and [atoi.c].  A pointer into a [char] array is
    the list of bytes from there to the end of the array; reading or writing
    past the end is [None].  [memcpy] and [memmove] work on one byte-addressed
    memory (a list indexed by address), so that their source and destination
    can overlap.  A [char] is signed, as on this machine: [s8] of its byte. *)

From stdpp Require Import base option list numbers.
From S2P Require Import Prelude.

(** ** Blocks of memory *)

(** [d[i] = s[i]] on [char]s. *)
Definition copy_byte (m : list Z) (dst src : nat) : option (list Z) :=
  b ← m !! src;
  ASSERT bool_decide (dst < length m)%nat ;;
  Some (<[dst := b]> m).

(** [d[i] = s[i]] on [long]s: four bytes are read, then four are written. *)
Definition copy_word (m : list Z) (dst src : nat) : option (list Z) :=
  ASSERT bool_decide (src + 4 <= length m)%nat ;;
  ASSERT bool_decide (dst + 4 <= length m)%nat ;;
  Some (splice m dst (take 4 (drop src m))).

Fixpoint copy_up (unit : nat) (cp : list Z -> nat -> nat -> option (list Z))
    (n i : nat) (dst src : nat) (m : list Z) : option (list Z) :=
  match n with
  | O => Some m
  | S n => m ← cp m (dst + i * unit)%nat (src + i * unit)%nat;
           copy_up unit cp n (S i) dst src m
  end.

(** [for (i=n; i>0; i--) d[i-1] = s[i-1];] *)
Fixpoint copy_down (unit : nat) (cp : list Z -> nat -> nat -> option (list Z))
    (i : nat) (dst src : nat) (m : list Z) : option (list Z) :=
  match i with
  | O => Some m
  | S i => m ← cp m (dst + i * unit)%nat (src + i * unit)%nat;
           copy_down unit cp i dst src m
  end.

Definition word_aligned (dst src len : nat) : bool :=
  (dst mod 4 =? 0)%nat && (src mod 4 =? 0)%nat && (len mod 4 =? 0)%nat.

Definition memcpy (dst src len : nat) (m : list Z) : option (list Z) :=
  if word_aligned dst src len then copy_up 4 copy_word (len / 4) 0 dst src m
  else copy_up 1 copy_byte len 0 dst src m.

Definition memmove (dst src len : nat) (m : list Z) : option (list Z) :=
  if (dst <? src)%nat then memcpy dst src len m
  else if word_aligned dst src len then copy_down 4 copy_word (len / 4) dst src m
  else copy_down 1 copy_byte len dst src m.

(** [for (i=0; i<n; i++) b[i] = 0;] on units of [unit] bytes. *)
Fixpoint zero_up (unit n i block : nat) (m : list Z) : option (list Z) :=
  match n with
  | O => Some m
  | S n =>
      ASSERT bool_decide (block + i * unit + unit <= length m)%nat ;;
      zero_up unit n (S i) block
        (splice m (block + i * unit) (replicate unit 0))
  end.

Definition bzero (block len : nat) (m : list Z) : option (list Z) :=
  if (block mod 4 =? 0)%nat && (len mod 4 =? 0)%nat then zero_up 4 (len / 4) 0 block m
  else zero_up 1 len 0 block m.

(** ** Strings *)

Fixpoint strlen (s : list Z) : option Z :=
  match s with
  | [] => None
  | c :: s => if c =? 0 then Some 0 else n ← strlen s; Some (u32 (n + 1))
  end.

Fixpoint strcpy (dest src : list Z) : option (list Z) :=
  match src, dest with
  | c :: src, _ :: dest =>
      if c =? 0 then Some (0 :: dest) else d ← strcpy dest src; Some (c :: d)
  | _, _ => None
  end.

Definition strcat (dest src : list Z) : option (list Z) :=
  offset ← strlen dest;
  d ← strcpy (drop (Z.to_nat offset) dest) src;
  Some (take (Z.to_nat offset) dest ++ d).

Fixpoint strcmp (a b : list Z) : option Z :=
  match a, b with
  | x :: a, y :: b =>
      if negb (x =? 0) && (s8 x =? s8 y) then strcmp a b
      else Some (if s8 y <? s8 x then 1 else if s8 x =? s8 y then 0 else -1)
  | _, _ => None
  end.

(** The result is the distance from [s], or [None] for [NULL]. *)
Fixpoint strchr (s : list Z) (ch : Z) : option (option nat) :=
  match s with
  | [] => None
  | c :: s =>
      if c =? 0 then Some (if s8 c =? ch then Some 0%nat else None)
      else if s8 c =? ch then Some (Some 0%nat)
      else r ← strchr s ch; Some (option_map S r)
  end.

Fixpoint strrchr_loop (i : nat) (s : list Z) (ch : Z) : option (option nat) :=
  match i with
  | O => Some None
  | S i => c ← s !! i;
           if s8 c =? ch then Some (Some i) else strrchr_loop i s ch
  end.

Definition strrchr (s : list Z) (ch : Z) : option (option nat) :=
  n ← strlen s; strrchr_loop (Z.to_nat (u32 (n + 1))) s ch.

(** How far the loops [while ( *p && strchr(seps, *p)) p++] and
    [while ( *p && !strchr(seps, *p)) p++] go. *)
Fixpoint skip_while (want : bool) (seps s : list Z) : option nat :=
  match s with
  | [] => None
  | c :: s =>
      if c =? 0 then Some 0%nat
      else r ← strchr seps (s8 c);
           if eqb (bool_decide (is_Some r)) want
           then n ← skip_while want seps s; Some (S n)
           else Some 0%nat
  end.

(** [buf] is the array the string and the saved context point into. *)
Definition strtok_r (string : option nat) (seps : list Z) (context : option nat)
    (buf : list Z) : option (option nat * option nat * list Z) :=
  let context := if string is Some p then Some p else context in
  match context with
  | None => Some (None, None, buf)
  | Some head =>
      k ← skip_while true seps (drop head buf);
      let head := (head + k)%nat in
      c ← buf !! head;
      if c =? 0 then Some (None, None, buf)
      else
        n ← skip_while false seps (drop head buf);
        let tail := (head + n)%nat in
        c ← buf !! tail;
        if c =? 0 then Some (Some head, None, buf)
        else Some (Some head, Some (S tail), <[tail := 0]> buf)
  end.

Definition digits : list Z := [48; 49; 50; 51; 52; 53; 54; 55; 56; 57; 0].

Fixpoint skip_space (s : list Z) : option (list Z) :=
  match s with
  | [] => None
  | c :: s' => if (c =? 32) || (c =? 9) then skip_space s' else Some s
  end.

Fixpoint atoi_loop (val : Z) (s : list Z) : option Z :=
  match s with
  | [] => None
  | c :: s =>
      if c =? 0 then Some val
      else where_ ← strchr digits (s8 c);
           match where_ with
           | None => Some val
           | Some digit => atoi_loop (u32 (u32 (val * 10) + Z.of_nat digit)) s
           end
  end.

Definition atoi (s : list Z) : option Z :=
  s ← skip_space s;
  c ← s !! 0%nat;
  if c =? 45 then v ← atoi_loop 0 (drop 1 s); Some (s32 (- v))
  else v ← atoi_loop 0 s; Some (s32 v).

(** ** Block copies *)

Section copy.
Context (unit : nat) (cp : list Z -> nat -> nat -> option (list Z)).
Hypothesis cp_ok : forall m d s,
  (d + unit <= length m)%nat -> (s + unit <= length m)%nat ->
  cp m d s = Some (splice m d (take unit (drop s m))).

Lemma length_block (m : list Z) s k :
  (s + k <= length m)%nat -> length (take k (drop s m)) = k.
Proof. intros ?. len. Qed.

Lemma copy_up_ok n i dst src m :
  (dst + unit <= src)%nat -> (src + (i + n) * unit <= length m)%nat ->
  copy_up unit cp n i dst src (splice m dst (take (i * unit) (drop src m))) =
  Some (splice m dst (take ((i + n) * unit) (drop src m))).
Proof.
  intros Hd. revert i. induction n as [|n IH]; intros i Hl; simpl.
  { by rewrite Nat.add_0_r. }
  rewrite cp_ok by (rewrite length_splice; rewrite ?length_block by lia; lia). simpl.
  rewrite take_drop_splice_ne by (rewrite ?length_block by lia; lia).
  pose proof (length_block m src (i * unit) ltac:(lia)) as E.
  replace (dst + i * unit)%nat
    with (dst + length (take (i * unit) (drop src m)))%nat by lia.
  rewrite splice_adj_r by (rewrite !length_block by lia; lia).
  rewrite <- take_add_drop.
  replace (i * unit + unit)%nat with (S i * unit)%nat by lia.
  replace (i + S n)%nat with (S i + n)%nat by lia. apply IH. lia.
Qed.

Lemma copy_down_ok i k dst src m :
  (src <= dst)%nat -> (dst + (i + k) * unit <= length m)%nat ->
  copy_down unit cp i dst src
    (splice m (dst + i * unit) (take (k * unit) (drop (src + i * unit) m))) =
  Some (splice m dst (take ((i + k) * unit) (drop src m))).
Proof.
  intros Hd. revert k. induction i as [|i IH]; intros k Hl; simpl.
  { by rewrite !Nat.add_0_r. }
  rewrite cp_ok by (rewrite length_splice; rewrite ?length_block by lia; lia). simpl.
  rewrite take_drop_splice_ne by (rewrite ?length_block by lia; lia).
  pose proof (length_block m (src + i * unit) unit ltac:(lia)) as E.
  replace (dst + (unit + i * unit))%nat
    with (dst + i * unit + length (take unit (drop (src + i * unit) m)))%nat by lia.
  rewrite splice_adj_l by (rewrite !length_block by lia; lia).
  replace (src + (unit + i * unit))%nat with (src + i * unit + unit)%nat by lia.
  rewrite <- take_add_drop.
  replace (unit + k * unit)%nat with (S k * unit)%nat by lia.
  rewrite IH by lia. do 3 f_equal. lia.
Qed.
End copy.

Lemma copy_byte_ok m d s :
  (d + 1 <= length m)%nat -> (s + 1 <= length m)%nat ->
  copy_byte m d s = Some (splice m d (take 1 (drop s m))).
Proof.
  intros ??. unfold copy_byte. destruct (lookup_lt_is_Some_2 m s) as [b Hb]; [lia|].
  rewrite Hb. simpl. rewrite bool_decide_eq_true_2 by lia.
  by rewrite insert_splice, (drop_S m b s Hb) by lia.
Qed.

Lemma copy_word_ok m d s :
  (d + 4 <= length m)%nat -> (s + 4 <= length m)%nat ->
  copy_word m d s = Some (splice m d (take 4 (drop s m))).
Proof. intros ??. unfold copy_word. by rewrite !bool_decide_eq_true_2 by lia. Qed.

Lemma word_aligned_true dst src len :
  word_aligned dst src len = true ->
  exists d s n, dst = (d * 4)%nat /\ src = (s * 4)%nat /\ len = (n * 4)%nat.
Proof.
  unfold word_aligned. rewrite !andb_true_iff, !Nat.eqb_eq. intros [[Hd Hs] Hn].
  exists (dst / 4)%nat, (src / 4)%nat, (len / 4)%nat.
  pose proof (Nat.div_mod_eq dst 4). pose proof (Nat.div_mod_eq src 4).
  pose proof (Nat.div_mod_eq len 4). lia.
Qed.

Lemma memcpy_forward dst src len m :
  (dst < src)%nat -> (src + len <= length m)%nat ->
  memcpy dst src len m = Some (splice m dst (take len (drop src m))).
Proof.
  intros Hd Hl. unfold memcpy. destruct (word_aligned dst src len) eqn:Ew.
  - apply word_aligned_true in Ew as (d & s & n & -> & -> & ->).
    rewrite Nat.div_mul by lia.
    pose proof (copy_up_ok 4 copy_word copy_word_ok n 0 (d * 4) (s * 4) m) as E.
    rewrite Nat.mul_0_l, take_0, splice_nil, Nat.add_0_l in E. apply E; lia.
  - pose proof (copy_up_ok 1 copy_byte copy_byte_ok len 0 dst src m) as E.
    rewrite Nat.mul_0_l, take_0, splice_nil, Nat.add_0_l, !Nat.mul_1_r in E. apply E; lia.
Qed.

Lemma memmove_eq dst src len m :
  (src + len <= length m)%nat -> (dst + len <= length m)%nat ->
  memmove dst src len m = Some (splice m dst (take len (drop src m))).
Proof.
  intros Hs Hd. unfold memmove. destruct (dst <? src)%nat eqn:El.
  { apply Nat.ltb_lt in El. by apply memcpy_forward. }
  apply Nat.ltb_ge in El. destruct (word_aligned dst src len) eqn:Ew.
  - apply word_aligned_true in Ew as (d & s & n & -> & -> & ->).
    rewrite Nat.div_mul by lia.
    pose proof (copy_down_ok 4 copy_word copy_word_ok n 0 (d * 4) (s * 4) m) as E.
    rewrite Nat.mul_0_l, take_0, splice_nil, Nat.add_0_r in E. apply E; lia.
  - pose proof (copy_down_ok 1 copy_byte copy_byte_ok len 0 dst src m) as E.
    rewrite Nat.mul_0_l, take_0, splice_nil, Nat.add_0_r, !Nat.mul_1_r in E. apply E; lia.
Qed.

(** C35: [memmove] copies a block of memory to wherever the destination lies:
    for every overlap of the two regions, on the word path and on the byte
    path, the destination ends with what the source held at the start and no
    other byte of memory changes. *)
Theorem memmove_copies dst src len m :
  (src + len <= length m)%nat -> (dst + len <= length m)%nat ->
  memmove dst src len m = Some (splice m dst (take len (drop src m))).
Proof. apply memmove_eq. Qed.

Lemma memmove_copies_witness : memmove 4 0 8 (seqZ 0 16) =
  Some [0; 1; 2; 3; 0; 1; 2; 3; 4; 5; 6; 7; 12; 13; 14; 15].
Proof. rewrite (memmove_copies 4 0 8); [reflexivity|vm_compute; lia..]. Defined.

(** ** Strings

    [is_str s]: the bytes of a string, without its terminating zero.  A buffer
    that holds [s] is [s ++ 0 :: r]. *)

Definition is_str (s : list Z) : Prop := Forall (fun c => is_byte c /\ c <> 0) s.

#[global] Instance is_byte_dec x : Decision (is_byte x).
Proof. unfold is_byte. apply _. Defined.

#[global] Instance is_str_dec s : Decision (is_str s).
Proof. unfold is_str. apply _. Defined.

Lemma s8_inj x y : is_byte x -> is_byte y -> s8 x = s8 y -> x = y.
Proof. unfold is_byte, s8. intros. zdm. Qed.

Lemma is_str_cons c s : is_str (c :: s) <-> (is_byte c /\ c <> 0) /\ is_str s.
Proof. unfold is_str. by rewrite list.Forall_cons. Qed.

Lemma strlen_str s r :
  is_str s -> (Z.of_nat (length s) < 2 ^ 32) ->
  strlen (s ++ 0 :: r) = Some (Z.of_nat (length s)).
Proof.
  induction s as [|c s IH]; [done|]. intros [[_ Hc] Hs]%is_str_cons Hl.
  cbn [length] in Hl |- *. simpl. rewrite (proj2 (Z.eqb_neq c 0)) by done.
  rewrite IH by (done || lia). simpl. f_equal. rewrite u32_id; unfold is_u32; lia.
Qed.

Lemma strcpy_str dest s r :
  is_str s -> (length s < length dest)%nat ->
  strcpy dest (s ++ 0 :: r) = Some (s ++ 0 :: drop (S (length s)) dest).
Proof.
  revert dest. induction s as [|c s IH]; intros [|d dest] Hs Hl; simpl in Hl; try lia.
  - done.
  - apply is_str_cons in Hs as [[_ Hc] Hs]. simpl.
    rewrite (proj2 (Z.eqb_neq c 0)) by done. by rewrite IH by (done || lia).
Qed.

Lemma strcmp_first_difference s1 r1 s2 r2 :
  is_str s1 -> is_str s2 -> s1 <> s2 ->
  exists i x y, take i (s1 ++ 0 :: r1) = take i (s2 ++ 0 :: r2) /\
    (s1 ++ 0 :: r1) !! i = Some x /\ (s2 ++ 0 :: r2) !! i = Some y /\ s8 x <> s8 y /\
    strcmp (s1 ++ 0 :: r1) (s2 ++ 0 :: r2) = Some (Z.sgn (s8 x - s8 y)).
Proof.
  assert (forall a b : Z, a <> b ->
    (if b <? a then 1 else if a =? b then 0 else -1) = Z.sgn (a - b)) as Hs.
  { intros a b Hne. destruct (Z.ltb_spec b a); [lia|]. destruct (Z.eqb_spec a b); lia. }
  assert (is_byte 0) as Hb0 by (unfold is_byte; lia).
  revert s2. induction s1 as [|x s1 IH]; intros [|y s2] H1 H2 Hne; [done|..].
  - apply is_str_cons in H2 as [[? ?] _]. exists 0%nat, 0, y. simpl.
    assert (s8 0 <> s8 y) by (intros E%s8_inj; congruence).
    by rewrite Hs.
  - apply is_str_cons in H1 as [[? Hx] _]. exists 0%nat, x, 0. simpl.
    assert (s8 x <> s8 0) as E by (intros E%s8_inj; congruence).
    rewrite Hs, (proj2 (Z.eqb_neq _ _) E), andb_false_r by done. done.
  - apply is_str_cons in H1 as [[Hb1 Hx] H1]. apply is_str_cons in H2 as [[Hb2 Hy] H2]. simpl.
    rewrite (proj2 (Z.eqb_neq x 0)) by done. simpl. destruct (s8 x =? s8 y) eqn:E; boolify.
    + apply s8_inj in E as ->; [|done..].
      destruct (IH s2) as (i & a & b & Ht & ? & ? & ? & ?); [done..|congruence|].
      exists (S i), a, b. simpl. by rewrite Ht.
    + exists 0%nat, x, y. rewrite <- Hs, (proj2 (Z.eqb_neq _ _) E) by done. done.
Qed.

Lemma strcmp_refl s r1 r2 : is_str s -> strcmp (s ++ 0 :: r1) (s ++ 0 :: r2) = Some 0.
Proof.
  induction s as [|c s IH]; [done|]. intros [[_ Hc] Hs]%is_str_cons. simpl.
  rewrite (proj2 (Z.eqb_neq c 0)), Z.eqb_refl by done. by apply IH.
Qed.

(** [strcmp] returns, and tells equal strings from different ones. *)
Lemma strcmp_eq s1 r1 s2 r2 :
  is_str s1 -> is_str s2 ->
  exists c, strcmp (s1 ++ 0 :: r1) (s2 ++ 0 :: r2) = Some c /\ (c = 0 <-> s1 = s2).
Proof.
  intros H1 H2. destruct (decide (s1 = s2)) as [->|Hne].
  { exists 0. by rewrite strcmp_refl. }
  destruct (strcmp_first_difference s1 r1 s2 r2) as (i & x & y & _ & _ & _ & Hne' & ->);
    [done..|]. eexists. split; [done|]. rewrite Z.sgn_null_iff. split; [lia|done].
Qed.

(** The string at the start of a buffer. *)
Fixpoint cstr (l : list Z) : list Z :=
  match l with
  | [] => []
  | c :: l => if c =? 0 then [] else c :: cstr l
  end.

Lemma cstr_split l :
  Forall is_byte l -> 0 ∈ l -> exists r, l = cstr l ++ 0 :: r /\ is_str (cstr l).
Proof.
  induction l as [|c l IH]; intros Hb Hin; [by apply not_elem_of_nil in Hin|].
  apply list.Forall_cons in Hb as [Hc Hb]. simpl. destruct (c =? 0) eqn:E; boolify.
  - subst c. exists l. split; [done|]. by apply Forall_nil.
  - destruct IH as (r & Hr & Hs); [done|by apply elem_of_cons in Hin as [?|?]|]. exists r. simpl.
    split; [by rewrite <- Hr|]. by apply is_str_cons.
Qed.

Lemma cstr_str s r : is_str s -> cstr (s ++ 0 :: r) = s.
Proof.
  induction s as [|c s IH]; [done|]. intros [[_ Hc] Hs]%is_str_cons. simpl.
  rewrite (proj2 (Z.eqb_neq c 0)) by done. by rewrite IH.
Qed.
