(* ===== verification/Uio.v ===== *)
(** * Moving data between the kernel and a uio (kern/userprog/uio.c,
      kern/lib/copyinout.c)

    The virtual memory a [struct uio] or a user pointer refers to is the finite
    map [vm_mem] of its mapped bytes; touching an address that is not in the map
    is a fault.  A fault is fatal unless [pcb_badfaultfunc] is set, in which case
    control goes to [copyfail] and back to the [setjmp] of the running copy
    function.  The buffer on the kernel's side of a transfer (a static buffer, a
    struct, the buffer of a device) is the list of its bytes and is passed and
    returned.

    [memcpy] and [memmove] to and from that memory go byte by byte upwards; they
    may go word by word instead, but a word is never mapped in part, so a fault
    stops both at the same place. *)

From stdpp Require Import base option list gmap numbers.
From S2P Require Import Prelude.

(** [MIPS_KSEG0], where the kernel's half of the address space starts. *)
Definition USERTOP : Z := 2 ^ 31.

Record vm := Vm {
  vm_mem : gmap Z Z;
  vm_badfaultfunc : bool;        (* pcb_badfaultfunc is [copyfail], not NULL *)
  vm_space : Z;                  (* curthread->t_vmspace *)
}.

Definition set_mem (m : gmap Z Z) (v : vm) : vm :=
  {| vm_mem := m; vm_badfaultfunc := vm_badfaultfunc v; vm_space := vm_space v |}.
Definition set_badfault (b : bool) (v : vm) : vm :=
  {| vm_mem := vm_mem v; vm_badfaultfunc := b; vm_space := vm_space v |}.

Inductive uio_rw_t := UIO_READ | UIO_WRITE.
Inductive uio_seg_t := UIO_USERSPACE | UIO_SYSSPACE | UIO_USERISPACE.

#[global] Instance uio_rw_eq_dec : EqDecision uio_rw_t.
Proof. solve_decision. Defined.
#[global] Instance uio_seg_eq_dec : EqDecision uio_seg_t.
Proof. solve_decision. Defined.

Record uio := Uio {
  iov_base : Z;                  (* iov_kbase or iov_ubase *)
  iov_len : Z;
  uio_offset : Z;                (* off_t: 32 bits, signed *)
  uio_resid : Z;
  uio_segflg : uio_seg_t;
  uio_rw : uio_rw_t;
  uio_space : Z;                 (* 0 is NULL *)
}.

(** ** copyinout.c *)

(** What happens on a fault in kernel mode. *)
Definition copyfail (v : vm) : option vm :=
  if vm_badfaultfunc v then Some v else None.

(** The result and [stoplen]. *)
Definition copycheck (userptr len : Z) : Z * Z :=
  let bot := userptr in
  let top := u32 (u32 (bot + len) - 1) in
  if top <? bot then (EFAULT, len)
  else if USERTOP <=? bot then (EFAULT, len)
  else if USERTOP <=? top then (0, u32 (USERTOP - bot))
  else (0, len).

(** The bytes read before the end or the first fault, and whether all were. *)
Fixpoint load_bytes (n : nat) (a : Z) (m : gmap Z Z) : list Z * bool :=
  match n with
  | O => ([], true)
  | S n =>
      match m !! a with
      | None => ([], false)
      | Some b => let '(bs, ok) := load_bytes n (a + 1) m in (b :: bs, ok)
      end
  end.

(** The memory after the end or the first fault, and whether all was written. *)
Fixpoint store_bytes (bs : list Z) (a : Z) (m : gmap Z Z) : gmap Z Z * bool :=
  match bs with
  | [] => (m, true)
  | b :: bs =>
      match m !! a with
      | None => (m, false)
      | Some _ => store_bytes bs (a + 1) (<[a := b]> m)
      end
  end.

Definition copyin (usersrc : Z) (dest : list Z) (len : Z) (v : vm) :
    option (Z * list Z * vm) :=
  let '(result, stoplen) := copycheck usersrc len in
  if negb (result =? 0) then Some (result, dest, v)
  else if negb (stoplen =? len) then Some (EFAULT, dest, v)
  else
    let v := set_badfault true v in
    let '(bs, ok) := load_bytes (Z.to_nat len) usersrc (vm_mem v) in
    ASSERT bool_decide (length bs <= length dest)%nat ;;
    let dest := splice dest 0 bs in
    if ok then Some (0, dest, set_badfault false v)
    else v ← copyfail v; Some (EFAULT, dest, set_badfault false v).

Definition copyout (src : list Z) (userdest len : Z) (v : vm) :
    option (Z * vm) :=
  let '(result, stoplen) := copycheck userdest len in
  if negb (result =? 0) then Some (result, v)
  else if negb (stoplen =? len) then Some (EFAULT, v)
  else
    let v := set_badfault true v in
    ASSERT bool_decide (Z.to_nat len <= length src)%nat ;;
    let '(m, ok) := store_bytes (take (Z.to_nat len) src) userdest (vm_mem v) in
    let v := set_mem m v in
    if ok then Some (0, set_badfault false v)
    else v ← copyfail v; Some (EFAULT, set_badfault false v).

(** The loop of [copystr].  [load] and [store] access the two strings: [None]
    is an access out of the kernel's buffer, [Some None] a fault.  [inl] is the
    return value with [*gotlen], [inr tt] the fault. *)
Fixpoint copystr {S} (load : Z -> S -> option (option Z))
    (store : Z -> Z -> S -> option (option S))
    (n : nat) (i maxlen stoplen : Z) (s : S) : option ((Z * option Z + unit) * S) :=
  match n with
  | O => Some (inl (if stoplen <? maxlen then EFAULT else ENAMETOOLONG, None), s)
  | S n =>
      c ← load i s;
      match c with
      | None => Some (inr tt, s)
      | Some c =>
          s' ← store i c s;
          match s' with
          | None => Some (inr tt, s)
          | Some s =>
              if c =? 0 then Some (inl (0, Some (u32 (i + 1))), s)
              else copystr load store n (i + 1) maxlen stoplen s
          end
      end
  end.

(** [for (i=0; i<maxlen && i<stoplen; i++)] *)
Definition copystr_turns (maxlen stoplen : Z) : nat := Z.to_nat (Z.min maxlen stoplen).

Definition store_list (i c : Z) (d : list Z) : option (option (list Z)) :=
  ASSERT bool_decide (Z.to_nat i < length d)%nat ;; Some (Some (<[Z.to_nat i := c]> d)).

Definition store_mem (a c : Z) (m : gmap Z Z) : option (option (gmap Z Z)) :=
  Some (if m !! a is Some _ then Some (<[a := c]> m) else None).

Definition copyinstr (usersrc : Z) (dest : list Z) (len : Z) (v : vm) :
    option (Z * option Z * list Z * vm) :=
  let '(result, stoplen) := copycheck usersrc len in
  if negb (result =? 0) then Some (result, None, dest, v)
  else
    let v := set_badfault true v in
    '(r, dest) ← copystr (fun i _ => Some (vm_mem v !! (usersrc + i))) store_list
                   (copystr_turns len stoplen) 0 len stoplen dest;
    match r with
    | inr _ => v ← copyfail v; Some (EFAULT, None, dest, set_badfault false v)
    | inl (result, actual) => Some (result, actual, dest, set_badfault false v)
    end.

Definition copyoutstr (src : list Z) (userdest len : Z) (v : vm) :
    option (Z * option Z * vm) :=
  let '(result, stoplen) := copycheck userdest len in
  if negb (result =? 0) then Some (result, None, v)
  else
    let v := set_badfault true v in
    '(r, m) ← copystr (fun i _ => c ← src !! Z.to_nat i; Some (Some c))
                   (fun i c m => store_mem (userdest + i) c m)
                   (copystr_turns len stoplen) 0 len stoplen (vm_mem v);
    let v := set_mem m v in
    match r with
    | inr _ => v ← copyfail v; Some (EFAULT, None, set_badfault false v)
    | inl (result, actual) => Some (result, actual, set_badfault false v)
    end.

(** ** uio.c *)

(** The [switch] of [uiomove]: one transfer of [size] bytes between the kernel
    buffer and the iovec.  Returns the error code, the buffer and the memory. *)
Definition uio_transfer (ptr : list Z) (size : Z) (u : uio) (v : vm) :
    option (Z * list Z * vm) :=
  match uio_segflg u with
  | UIO_SYSSPACE =>
      match uio_rw u with
      | UIO_READ =>
          ASSERT bool_decide (Z.to_nat size <= length ptr)%nat ;;
          let '(m, ok) := store_bytes (take (Z.to_nat size) ptr) (iov_base u) (vm_mem v) in
          ASSERT (ok : bool) ;; Some (0, ptr, set_mem m v)
      | UIO_WRITE =>
          let '(bs, ok) := load_bytes (Z.to_nat size) (iov_base u) (vm_mem v) in
          ASSERT bool_decide (length bs <= length ptr)%nat ;;
          ASSERT (ok : bool) ;; Some (0, splice ptr 0 bs, v)
      end
  | UIO_USERSPACE | UIO_USERISPACE =>
      match uio_rw u with
      | UIO_READ =>
          '(result, v) ← copyout ptr (iov_base u) size v; Some (result, ptr, v)
      | UIO_WRITE => copyin (iov_base u) ptr size v
      end
  end.

(** The updates after a transfer of [size] bytes. *)
Definition uio_advance (size : Z) (u : uio) : uio :=
  {| iov_base := u32 (iov_base u + size); iov_len := u32 (iov_len u - size);
     uio_offset := s32 (uio_offset u + size); uio_resid := u32 (uio_resid u - size);
     uio_segflg := uio_segflg u; uio_rw := uio_rw u; uio_space := uio_space u |}.

(** The [while] loop.  One transfer uses up either [n] or the iovec, so the
    third turn is never taken. *)
Fixpoint uiomove_loop (fuel : nat) (ptr : list Z) (n : Z) (u : uio) (v : vm) :
    option (Z * list Z * uio * vm) :=
  if (0 <? n) && (0 <? uio_resid u) then
    match fuel with
    | O => None
    | S fuel =>
        let size := iov_len u in
        let size := if n <? size then n else size in
        if size =? 0 then None                       (* panic *)
        else
          '(result, ptr, v) ← uio_transfer ptr size u v;
          if negb (result =? 0) then Some (result, ptr, u, v)
          else
            '(result, rest, u, v) ←
              uiomove_loop fuel (drop (Z.to_nat size) ptr) (u32 (n - size))
                (uio_advance size u) v;
            Some (result, take (Z.to_nat size) ptr ++ rest, u, v)
    end
  else Some (0, ptr, u, v).

Definition uiomove (ptr : list Z) (n : Z) (u : uio) (v : vm) :
    option (Z * list Z * uio * vm) :=
  ASSERT match uio_segflg u with
         | UIO_SYSSPACE => uio_space u =? 0
         | _ => uio_space u =? vm_space v
         end ;;
  uiomove_loop 2 ptr n u v.

Definition zeros16 : list Z := replicate 16 0.

Fixpoint movezeros_loop (fuel : nat) (n : Z) (u : uio) (v : vm) : option (Z * uio * vm) :=
  if 0 <? n then
    match fuel with
    | O => None
    | S fuel =>
        let amt := if n <? 16 then n else 16 in
        '(result, _, u, v) ← uiomove zeros16 amt u v;
        if negb (result =? 0) then Some (result, u, v)
        else movezeros_loop fuel (u32 (n - amt)) u v
    end
  else Some (0, u, v).

(** Every turn takes at least one byte off [n]. *)
Definition uiomovezeros (n : Z) (u : uio) (v : vm) : option (Z * uio * vm) :=
  ASSERT bool_decide (uio_rw u = UIO_READ) ;;
  movezeros_loop (Z.to_nat n) n u v.

Definition mk_kuio (kbuf len pos : Z) (rw : uio_rw_t) : uio :=
  {| iov_base := kbuf; iov_len := len; uio_offset := pos; uio_resid := len;
     uio_segflg := UIO_SYSSPACE; uio_rw := rw; uio_space := 0 |}.

(** ** Ranges of memory *)

Definition mapped (m : gmap Z Z) (a n : Z) : Prop :=
  forall i, a <= i < a + n -> is_Some (m !! i).

(** The [n] bytes from address [a] on. *)
Definition mem_bytes (m : gmap Z Z) (a : Z) (n : nat) : list Z :=
  (fun i => default 0 (m !! (a + Z.of_nat i))) <$> seq 0 n.

Fixpoint mem_write (m : gmap Z Z) (a : Z) (bs : list Z) : gmap Z Z :=
  match bs with
  | [] => m
  | b :: bs => mem_write (<[a := b]> m) (a + 1) bs
  end.

(** [m'] is [m] with some bytes of the range changed, none mapped or unmapped. *)
Definition mem_changed (m : gmap Z Z) (a n : Z) (m' : gmap Z Z) : Prop :=
  (forall i, is_Some (m' !! i) <-> is_Some (m !! i)) /\
  forall i, ~ (a <= i < a + n) -> m' !! i = m !! i.

Lemma length_mem_bytes m a n : length (mem_bytes m a n) = n.
Proof. unfold mem_bytes. by rewrite length_fmap, length_seq. Qed.
#[export] Hint Rewrite length_mem_bytes : len.

Lemma lookup_mem_bytes m a n i :
  (i < n)%nat -> mem_bytes m a n !! i = Some (default 0 (m !! (a + Z.of_nat i))).
Proof.
  intros Hi. unfold mem_bytes. by rewrite list_lookup_fmap, lookup_seq_lt.
Qed.

Lemma mem_bytes_S m a n :
  mem_bytes m a (S n) = default 0 (m !! a) :: mem_bytes m (a + 1) n.
Proof.
  apply list_eq. intros [|i].
  - rewrite lookup_mem_bytes by lia. simpl. by rewrite Z.add_0_r.
  - rewrite lookup_cons_ne_0 by done. simpl pred. destruct (decide (i < n)%nat).
    + rewrite !lookup_mem_bytes by lia.
      by replace (a + Z.of_nat (S i)) with (a + 1 + Z.of_nat i) by lia.
    + rewrite !lookup_ge_None_2; [done|..]; rewrite length_mem_bytes; lia.
Qed.

Lemma mem_bytes_app m a n k :
  mem_bytes m a (n + k) = mem_bytes m a n ++ mem_bytes m (a + Z.of_nat n) k.
Proof.
  revert a. induction n as [|n IH]; intros a.
  - simpl. by rewrite Z.add_0_r.
  - simpl plus. rewrite !mem_bytes_S. simpl. rewrite IH.
    by replace (a + 1 + Z.of_nat n) with (a + Z.of_nat (S n)) by lia.
Qed.

Lemma lookup_mem_write m a bs i :
  mem_write m a bs !! i =
    if decide (a <= i < a + Z.of_nat (length bs)) then bs !! Z.to_nat (i - a) else m !! i.
Proof.
  revert m a. induction bs as [|b bs IH]; intros m a.
  { simpl. by rewrite decide_False by lia. }
  cbn [mem_write length]. rewrite IH, lookup_insert.
  destruct (decide (i = a)) as [->|Hne].
  - rewrite decide_False by lia. rewrite decide_True by done.
    rewrite decide_True by lia. by rewrite Z.sub_diag.
  - rewrite (decide_False (P := a = i)) by done. repeat case_decide; try lia; [|done].
    replace (Z.to_nat (i - a)) with (S (Z.to_nat (i - (a + 1)))) by lia. done.
Qed.

Lemma mem_write_app m a bs bs' :
  mem_write m a (bs ++ bs') = mem_write (mem_write m a bs) (a + Z.of_nat (length bs)) bs'.
Proof.
  revert m a. induction bs as [|b bs IH]; intros m a; simpl.
  - by rewrite Z.add_0_r.
  - rewrite IH. f_equal. lia.
Qed.

Lemma mem_write_bytes m a bs n :
  n = length bs -> mem_bytes (mem_write m a bs) a n = bs.
Proof.
  intros ->. apply list_eq. intros i. destruct (decide (i < length bs)%nat).
  - rewrite lookup_mem_bytes, lookup_mem_write by done. rewrite decide_True by lia.
    replace (Z.to_nat (a + Z.of_nat i - a)) with i by lia.
    destruct (lookup_lt_is_Some_2 bs i) as [x ->]; done.
  - rewrite !lookup_ge_None_2; [done|..]; rewrite ?length_mem_bytes; lia.
Qed.

Lemma mem_write_changed m a bs n :
  n = Z.of_nat (length bs) -> mapped m a n -> mem_changed m a n (mem_write m a bs).
Proof.
  intros -> Hm. split; intros i.
  - rewrite lookup_mem_write. case_decide; [|done]. split; intros _; [by apply Hm|].
    apply lookup_lt_is_Some_2. lia.
  - intros Hi. rewrite lookup_mem_write. by rewrite decide_False.
Qed.

Lemma mem_changed_refl m a n : mem_changed m a n m.
Proof. done. Qed.

Lemma mem_changed_mapped m a n m' b k :
  mem_changed m a n m' -> mapped m b k <-> mapped m' b k.
Proof. intros [Hd _]. unfold mapped. by setoid_rewrite Hd. Qed.

Lemma mapped_le m a n b k : mapped m a n -> a <= b -> b + k <= a + n -> mapped m b k.
Proof. intros Hm ?? i ?. apply Hm. lia. Qed.

(** A block of kernel memory that holds the bytes [bs]. *)
Lemma mem_write_mapped bs m a n :
  n <= Z.of_nat (length bs) -> mapped (mem_write m a bs) a n.
Proof.
  intros ? i Hi. rewrite lookup_mem_write, decide_True by lia.
  apply lookup_lt_is_Some_2. lia.
Qed.

(** *** The two copy loops *)

Lemma load_bytes_mapped n a m :
  mapped m a (Z.of_nat n) -> load_bytes n a m = (mem_bytes m a n, true).
Proof.
  revert a. induction n as [|n IH]; intros a Hm; [done|].
  rewrite mem_bytes_S. simpl. destruct (Hm a) as [b ->]; [lia|]. simpl.
  rewrite IH; [done|]. intros i ?. apply Hm. lia.
Qed.

Lemma load_bytes_unmapped n a m :
  ~ mapped m a (Z.of_nat n) -> exists bs, load_bytes n a m = (bs, false) /\ (length bs <= n)%nat.
Proof.
  revert a. induction n as [|n IH]; intros a Hm; simpl.
  { destruct Hm. intros i ?. lia. }
  destruct (m !! a) as [b|] eqn:Ea; [|exists []; simpl; by auto with lia].
  destruct (IH (a + 1)) as (bs & -> & ?).
  { intros Hm'. apply Hm. intros i ?. destruct (decide (i = a)) as [->|]; [done|].
    apply Hm'. lia. }
  exists (b :: bs). simpl. auto with lia.
Qed.

Lemma store_bytes_mapped bs a m :
  mapped m a (Z.of_nat (length bs)) -> store_bytes bs a m = (mem_write m a bs, true).
Proof.
  revert a m. induction bs as [|b bs IH]; intros a m Hm; [done|].
  simpl. destruct (Hm a) as [b' ->]; [simpl; lia|]. apply IH.
  intros i ?. destruct (decide (i = a)) as [->|]; [lia|].
  rewrite lookup_insert_ne by done. apply Hm. simpl. lia.
Qed.

Lemma store_bytes_unmapped bs a m :
  ~ mapped m a (Z.of_nat (length bs)) ->
  exists m', store_bytes bs a m = (m', false) /\ mem_changed m a (Z.of_nat (length bs)) m' /\
    (forall i b, m' !! i = Some b -> m !! i = Some b \/ b ∈ bs).
Proof.
  revert a m. induction bs as [|b bs IH]; intros a m Hm.
  { destruct Hm. intros i ?. simpl in *. lia. }
  simpl store_bytes. destruct (m !! a) as [b'|] eqn:Ea.
  2:{ exists m. split; [done|]. split; [done|]. by left. }
  destruct (IH (a + 1) (<[a := b]> m)) as (m' & -> & [Hd Hc] & Hb).
  { intros Hm'. apply Hm. intros i Hi. destruct (decide (i = a)) as [->|]; [done|].
    destruct (Hm' i) as [x Hx]; [simpl in Hi; lia|]. rewrite lookup_insert_ne in Hx by done.
    eauto. }
  exists m'. split; [done|]. split; [split|].
  - intros i. rewrite Hd. destruct (decide (i = a)) as [->|].
    + rewrite lookup_insert_eq, Ea. split; eauto.
    + by rewrite lookup_insert_ne.
  - intros i Hi. cbn [length] in Hi. rewrite Hc by lia. by rewrite lookup_insert_ne by lia.
  - intros i x [Hx|]%Hb; [|set_solver]. apply lookup_insert_Some in Hx as [[_ <-]|[_ ?]];
      [set_solver|by left].
Qed.

Lemma load_bytes_iff n a m : (load_bytes n a m).2 = true <-> mapped m a (Z.of_nat n).
Proof.
  split; [|by intros ->%load_bytes_mapped].
  revert a. induction n as [|n IH]; intros a; simpl; [intros _ i ?; lia|].
  destruct (m !! a) eqn:Ea; [|done]. destruct (load_bytes n (a + 1) m) as [bs ok] eqn:El.
  simpl. intros ->. intros i Hi. destruct (decide (i = a)) as [->|]; [done|].
  apply (IH (a + 1)); [by rewrite El|lia].
Qed.

#[global] Instance mapped_dec m a n : Decision (mapped m a n).
Proof.
  refine (cast_if (decide ((load_bytes (Z.to_nat n) a m).2 = true)));
    rewrite load_bytes_iff in *; intros;
    (assert (mapped m a (Z.of_nat (Z.to_nat n)) <-> mapped m a n) as E;
      [unfold mapped; split; intros Hm i ?; apply Hm; lia|by rewrite <- E]).
Defined.

(** ** User pointers *)

(** A block of [len > 0] bytes of the user's half of the address space. *)
Definition user_range (p len : Z) : Prop := 0 < len /\ p + len <= USERTOP.

#[global] Instance user_range_dec p len : Decision (user_range p len).
Proof. unfold user_range. apply _. Defined.

Lemma copycheck_spec p len :
  is_u32 p -> is_u32 len ->
  copycheck p len =
    if decide (user_range p len) then (0, len)
    else if decide (0 < len /\ p < USERTOP /\ p + len <= 2 ^ 32) then (0, USERTOP - p)
    else if decide (len = 0 /\ p = 0) then (0, USERTOP)
    else (EFAULT, len).
Proof.
  unfold is_u32, copycheck, user_range, USERTOP, u32. intros Hp Hl.
  assert ((2 ^ 31 - p) `mod` 2 ^ 32 = 2 ^ 31 - p \/ 2 ^ 31 < p) as Es.
  { destruct (decide (2 ^ 31 < p)); [by right|left]. apply Z.mod_small. lia. }
  destruct (decide (p + len <= 2 ^ 32)) as [Hs|Hs].
  - assert (((p + len) `mod` 2 ^ 32 - 1) `mod` 2 ^ 32 =
      if decide (p + len = 0) then 2 ^ 32 - 1 else p + len - 1) as ->.
    { destruct (decide (p + len = 2 ^ 32)) as [->|].
      - rewrite Z.mod_same by lia. by rewrite decide_False by lia.
      - rewrite (Z.mod_small (p + len)) by lia. case_decide as E; [by rewrite E|].
        apply Z.mod_small. lia. }
    repeat case_decide; repeat case_match; boolify; try lia; f_equal; lia.
  - assert (((p + len) `mod` 2 ^ 32 - 1) `mod` 2 ^ 32 = p + len - 1 - 2 ^ 32) as ->.
    { rewrite (mod_wrap_up (p + len)) by lia. rewrite Z.mod_small by lia. lia. }
    repeat case_decide; repeat case_match; boolify; try lia; done.
Qed.

Lemma copycheck_bad p len :
  is_u32 p -> is_u32 len -> ~ user_range p len ->
  exists r s, copycheck p len = (r, s) /\ (r = EFAULT \/ r = 0 /\ (s =? len) = false).
Proof.
  intros Hp Hl Hu. rewrite copycheck_spec, decide_False by done. unfold user_range in Hu.
  repeat case_decide; do 2 eexists; (split; [done|]); [right|right|by left];
    (split; [done|]); apply Z.eqb_neq; unfold USERTOP in *; lia.
Qed.

Lemma set_badfault_twice v b :
  vm_badfaultfunc v = false -> set_badfault false (set_badfault b v) = v.
Proof. by destruct v; simpl; intros ->. Qed.

Lemma set_badfault_mem v b m :
  vm_badfaultfunc v = false -> set_badfault false (set_mem m (set_badfault b v)) = set_mem m v.
Proof. by destruct v; simpl; intros ->. Qed.

(** [copyin] succeeds exactly on mapped user memory; any other pointer gives
    EFAULT. *)
Lemma copyin_wp p dest len v :
  is_u32 p -> is_u32 len -> len <= Z.of_nat (length dest) -> vm_badfaultfunc v = false ->
  if decide (user_range p len /\ mapped (vm_mem v) p len)
  then copyin p dest len v =
         Some (0, splice dest 0 (mem_bytes (vm_mem v) p (Z.to_nat len)), v)
  else exists dest', copyin p dest len v = Some (EFAULT, dest', v) /\
         length dest' = length dest.
Proof.
  intros Hp Hl Hd Hv. unfold copyin.
  destruct (decide (user_range p len)) as [Hu|Hu].
  - rewrite copycheck_spec, (decide_True (P := user_range p len)) by done. simpl. rewrite Z.eqb_refl. simpl.
    assert (Z.of_nat (Z.to_nat len) = len) as El by (destruct Hu; lia).
    destruct (decide (mapped (vm_mem v) p len)) as [Hm|Hm].
    + rewrite decide_True by done. rewrite load_bytes_mapped by by rewrite El. simpl.
      rewrite bool_decide_eq_true_2 by (rewrite length_mem_bytes; lia).
      by rewrite set_badfault_twice.
    + rewrite decide_False by naive_solver.
      destruct (load_bytes_unmapped (Z.to_nat len) p (vm_mem v)) as (bs & -> & Hbs);
        [by rewrite El|]. simpl. rewrite bool_decide_eq_true_2 by lia.
      eexists. rewrite (set_badfault_twice v true) by done. split; [done|].
      apply length_splice. lia.
  - rewrite decide_False by naive_solver.
    exists dest. destruct (copycheck_bad p len) as (r & s & -> & [->|[-> ->]]); done.
Qed.

Lemma copyout_wp src p len v :
  is_u32 p -> is_u32 len -> len <= Z.of_nat (length src) -> vm_badfaultfunc v = false ->
  if decide (user_range p len /\ mapped (vm_mem v) p len)
  then copyout src p len v =
         Some (0, set_mem (mem_write (vm_mem v) p (take (Z.to_nat len) src)) v)
  else exists m, copyout src p len v = Some (EFAULT, set_mem m v) /\
         mem_changed (vm_mem v) p len m /\
         (forall i b, m !! i = Some b -> vm_mem v !! i = Some b \/ b ∈ src).
Proof.
  intros Hp Hl Hd Hv. unfold copyout.
  assert (set_mem (vm_mem v) v = v) as Ev by by destruct v.
  destruct (decide (user_range p len)) as [Hu|Hu].
  - rewrite copycheck_spec, (decide_True (P := user_range p len)) by done. simpl. rewrite Z.eqb_refl. simpl. rewrite bool_decide_eq_true_2 by lia.
    assert (Z.of_nat (length (take (Z.to_nat len) src)) = len) as El
      by (rewrite length_take; destruct Hu; lia).
    destruct (decide (mapped (vm_mem v) p len)) as [Hm|Hm].
    + rewrite decide_True by done. rewrite store_bytes_mapped by by rewrite El. simpl.
      by rewrite set_badfault_mem.
    + rewrite decide_False by naive_solver.
      destruct (store_bytes_unmapped (take (Z.to_nat len) src) p (vm_mem v))
        as (m & -> & Hc & Hb); [by rewrite El|]. simpl. exists m. rewrite El in Hc.
      split; [by rewrite set_badfault_mem|]. split; [done|].
      intros i b [|Hin]%Hb; [by left|right]. apply (list.subseteq_take _ _ _ Hin).
  - rewrite decide_False by naive_solver.
    exists (vm_mem v). rewrite Ev. split; [|split; [done|by left]].
    destruct (copycheck_bad p len) as (r & s & -> & [->|[-> ->]]); done.
Qed.

(** ** The uio as its users see it *)

Definition bytes_ok (m : gmap Z Z) : Prop := forall i b, m !! i = Some b -> is_byte b.

(** A uio its creator has set up as uio.h asks for: the offsets do not overflow,
    and kernel memory it points to is there. *)
Definition uio_ok (u : uio) (v : vm) : Prop :=
  is_u32 (iov_base u) /\ is_u32 (iov_len u) /\ 0 <= uio_resid u <= iov_len u /\
  0 <= uio_offset u /\ uio_offset u + uio_resid u < 2 ^ 31 /\
  vm_badfaultfunc v = false /\ bytes_ok (vm_mem v) /\
  match uio_segflg u with
  | UIO_SYSSPACE => uio_space u = 0 /\ mapped (vm_mem v) (iov_base u) (iov_len u) /\
                    iov_base u + iov_len u < 2 ^ 32
  | _ => uio_space u = vm_space v
  end.

(** The next [n] bytes of the region can be accessed. *)
Definition uio_good (u : uio) (v : vm) (n : Z) : Prop :=
  n = 0 \/ uio_segflg u = UIO_SYSSPACE \/
  (user_range (iov_base u) n /\ mapped (vm_mem v) (iov_base u) n).

#[global] Instance uio_good_dec u v n : Decision (uio_good u v n).
Proof. unfold uio_good. apply _. Defined.

Definition moved_mem (ptr : list Z) (n : Z) (u : uio) (v : vm) : gmap Z Z :=
  match uio_rw u with
  | UIO_READ => mem_write (vm_mem v) (iov_base u) (take (Z.to_nat n) ptr)
  | UIO_WRITE => vm_mem v
  end.

Definition moved_buf (ptr : list Z) (n : Z) (u : uio) (v : vm) : list Z :=
  match uio_rw u with
  | UIO_READ => ptr
  | UIO_WRITE => splice ptr 0 (mem_bytes (vm_mem v) (iov_base u) (Z.to_nat n))
  end.

Lemma uio_advance_0 u v : uio_ok u v -> uio_advance 0 u = u.
Proof.
  intros ((? & ?) & (? & ?) & ? & ? & ? & _). unfold uio_advance.
  rewrite !Z.add_0_r, !Z.sub_0_r. nowrap. by destruct u.
Qed.

Lemma set_mem_id v : set_mem (vm_mem v) v = v.
Proof. by destruct v. Qed.

Lemma set_mem_set_mem v m m' : set_mem m (set_mem m' v) = set_mem m v.
Proof. done. Qed.

Lemma splice_0_app {A} (l l' : list A) :
  (length l' <= length l)%nat -> splice l 0 l' = l' ++ drop (length l') l.
Proof. done. Qed.

(** One call of the transfer code. *)
Lemma uio_transfer_wp ptr n u v :
  uio_ok u v -> 0 < n <= uio_resid u -> n <= Z.of_nat (length ptr) ->
  if decide (uio_good u v n)
  then uio_transfer ptr n u v =
         Some (0, moved_buf ptr n u v, set_mem (moved_mem ptr n u v) v)
  else exists ptr' m, uio_transfer ptr n u v = Some (EFAULT, ptr', set_mem m v) /\
         length ptr' = length ptr /\ mem_changed (vm_mem v) (iov_base u) n m /\
         (forall i b, m !! i = Some b -> vm_mem v !! i = Some b \/ b ∈ ptr) /\
         (uio_rw u = UIO_READ -> ptr' = ptr) /\ (uio_rw u = UIO_WRITE -> m = vm_mem v).
Proof.
  intros (Hb & Hi & Hr & _ & _ & Hv & _ & Hseg) Hn Hp.
  assert (is_u32 n) by (unfold is_u32 in *; lia).
  assert (Z.of_nat (Z.to_nat n) = n) as En by lia.
  unfold uio_transfer, moved_buf, moved_mem.
  destruct (uio_segflg u) eqn:Es.
  2:{ rewrite decide_True by (right; by left). destruct Hseg as (_ & Hm & _).
      assert (mapped (vm_mem v) (iov_base u) n) by (eapply mapped_le; [done|lia..]).
      destruct (uio_rw u).
      - rewrite bool_decide_eq_true_2 by lia.
        rewrite store_bytes_mapped; [done|].
        by rewrite length_take, Nat.min_l, En by lia.
      - rewrite load_bytes_mapped by by rewrite En. rewrite bool_decide_eq_true_2
          by (rewrite length_mem_bytes; lia). by rewrite set_mem_id. }
  all: assert (uio_good u v n <-> user_range (iov_base u) n /\ mapped (vm_mem v) (iov_base u) n)
    as Eg by (unfold uio_good; rewrite Es; split; [intros [?|[?|?]]; [lia|done|done]|auto]).
  all: destruct (uio_rw u);
    [pose proof (copyout_wp ptr (iov_base u) n v Hb ltac:(done) Hp Hv) as Hc
    |pose proof (copyin_wp (iov_base u) ptr n v Hb ltac:(done) Hp Hv) as Hc].
  all: destruct (decide (user_range _ _ /\ mapped _ _ _)) as [Hg|Hg];
    [rewrite decide_True by (by rewrite Eg)|rewrite decide_False by (by rewrite Eg)].
  all: try (rewrite Hc; simpl; by rewrite ?set_mem_id).
  1,3: destruct Hc as (m & -> & ? & ?); exists ptr, m; done.
  all: destruct Hc as (dest' & -> & ?); exists dest', (vm_mem v); rewrite set_mem_id.
  all: split; [done|]; split; [done|]; split; [done|]; split; [by left|done].
Qed.

(** [uiomove] moves [n] bytes and updates the uio, or reports EFAULT with the
    uio as it was; it does not panic. *)
Lemma uiomove_wp ptr n u v :
  uio_ok u v -> 0 <= n <= uio_resid u -> n <= Z.of_nat (length ptr) ->
  if decide (uio_good u v n)
  then uiomove ptr n u v =
         Some (0, moved_buf ptr n u v, uio_advance n u, set_mem (moved_mem ptr n u v) v)
  else exists ptr' m, uiomove ptr n u v = Some (EFAULT, ptr', u, set_mem m v) /\
         length ptr' = length ptr /\ mem_changed (vm_mem v) (iov_base u) n m /\
         (forall i b, m !! i = Some b -> vm_mem v !! i = Some b \/ b ∈ ptr) /\
         (uio_rw u = UIO_READ -> ptr' = ptr) /\ (uio_rw u = UIO_WRITE -> m = vm_mem v).
Proof.
  intros Hu Hn Hp. unfold uiomove.
  pose proof Hu as (Hb & Hi & Hr & Ho & Hor & Hv & _ & Hseg).
  replace (match uio_segflg u with UIO_SYSSPACE => _ | _ => _ end) with true
    by (destruct (uio_segflg u); symmetry; apply Z.eqb_eq; naive_solver).
  destruct (decide (n = 0)) as [->|Hn0].
  { rewrite decide_True by by left. unfold moved_buf, moved_mem. simpl.
    rewrite (uio_advance_0 u v) by done. destruct (uio_rw u); by rewrite ?splice_nil, set_mem_id. }
  assert ((if n <? iov_len u then n else iov_len u) = n) as E.
  { destruct (Z.ltb_spec n (iov_len u)); lia. }
  assert ((0 <? n) = true) as E0 by (apply Z.ltb_lt; lia).
  assert ((0 <? uio_resid u) = true) as E1 by (apply Z.ltb_lt; lia).
  cbn [uiomove_loop]. rewrite E, E0, E1, (proj2 (Z.eqb_neq n 0)) by done. cbn [andb].
  pose proof (uio_transfer_wp ptr n u v Hu ltac:(lia) Hp) as Ht. case_decide as Hg.
  - rewrite Ht. simpl. rewrite Z.sub_diag. simpl. rewrite take_drop. done.
  - destruct Ht as (ptr' & m & -> & Hl & Hc & Hrest). exists ptr', m. done.
Qed.

(** Every address the next [n] bytes reach is below 2^32. *)
Lemma uio_good_base u v n :
  uio_ok u v -> 0 <= n <= uio_resid u -> uio_good u v n ->
  u32 (iov_base u + n) = iov_base u + n.
Proof.
  intros ((? & ?) & (? & ?) & ? & ? & ? & Hv & Hm & Hseg) Hn Hg. apply u32_id.
  unfold is_u32. destruct Hg as [->|[Es|[[? ?] _]]].
  - lia.
  - rewrite Es in Hseg. lia.
  - unfold USERTOP in *. lia.
Qed.

Lemma uio_good_mapped u v n :
  uio_ok u v -> 0 <= n <= uio_resid u -> uio_good u v n -> mapped (vm_mem v) (iov_base u) n.
Proof.
  intros (_ & _ & ? & _ & _ & _ & _ & Hseg) Hn [->|[Es|[_ ?]]]; [intros i ?; lia| |done].
  rewrite Es in Hseg. eapply mapped_le; [apply Hseg|lia..].
Qed.

Lemma bytes_ok_changed m m' bs :
  bytes_ok m -> Forall is_byte bs ->
  (forall i b, m' !! i = Some b -> m !! i = Some b \/ b ∈ bs) -> bytes_ok m'.
Proof.
  intros Hm Hbs Hc i b [|Hb]%Hc; [eauto|]. by eapply list.Forall_forall in Hbs.
Qed.

Lemma mem_write_bytes_ok m a bs : bytes_ok m -> Forall is_byte bs -> bytes_ok (mem_write m a bs).
Proof.
  intros Hm Hbs. eapply bytes_ok_changed; [done..|]. intros i b. rewrite lookup_mem_write.
  case_decide; [right; by eapply list_elem_of_lookup_2|by left].
Qed.

Lemma uio_ok_mem u v n m :
  uio_ok u v -> mem_changed (vm_mem v) (iov_base u) n m -> bytes_ok m -> uio_ok u (set_mem m v).
Proof.
  intros (? & ? & ? & ? & ? & ? & _ & Hseg) Hc Hb. do 7 (split; [done|]).
  destruct (uio_segflg u); [done| |done]. by rewrite <- (mem_changed_mapped _ _ _ _ _ _ Hc).
Qed.

(** The uio stays well formed. *)
Lemma uio_ok_advance u v n :
  uio_ok u v -> 0 <= n <= uio_resid u -> uio_good u v n -> uio_ok (uio_advance n u) v.
Proof.
  intros Hu Hn Hg. pose proof (uio_good_base _ _ _ Hu Hn Hg) as Eb.
  pose proof (u32_range (iov_base u + n)) as Hr.
  destruct Hu as ((? & ?) & (? & ?) & ? & ? & ? & Hv & Hm & Hseg).
  unfold uio_ok. simpl. rewrite Eb in *. nowrap. unfold is_u32 in *.
  split_and!; try lia; try done. destruct (uio_segflg u); [done| |done].
  destruct Hseg as (? & ? & ?). split_and!; [done| |lia]. eapply mapped_le; [done|lia..].
Qed.

(** ** Transfers as their users see them

    [uio_moved r bs u v u' v']: a function that returned [r] moved the bytes
    [bs] through the uio, in the direction the uio says, and left the rest of
    the region alone; a failed read may have scribbled over the part of the
    region it did not fill. *)
Definition uio_moved (r : Z) (bs : list Z) (u : uio) (v : vm) (u' : uio) (v' : vm) : Prop :=
  let k := Z.of_nat (length bs) in
  u' = uio_advance k u /\ uio_ok u' v' /\ k <= uio_resid u /\ uio_good u v k /\
  match uio_rw u with
  | UIO_READ =>
      exists m, v' = set_mem m v /\
        (if decide (r = 0) then m = mem_write (vm_mem v) (iov_base u) bs
         else mem_changed (mem_write (vm_mem v) (iov_base u) bs)
                (iov_base u + k) (uio_resid u - k) m)
  | UIO_WRITE => v' = v /\ bs = mem_bytes (vm_mem v) (iov_base u) (length bs)
  end.

Lemma uio_advance_add n k u : uio_advance k (uio_advance n u) = uio_advance (n + k) u.
Proof.
  unfold uio_advance. simpl. rewrite !u32_u32_add, !u32_u32_sub, !s32_s32_add.
  by rewrite !Z.add_assoc, !Z.sub_add_distr.
Qed.

Lemma uio_advance_resid n u v :
  uio_ok u v -> 0 <= n <= uio_resid u ->
  uio_resid (uio_advance n u) = uio_resid u - n /\
  uio_offset (uio_advance n u) = uio_offset u + n.
Proof.
  intros ((? & ?) & (? & ?) & ? & ? & ? & _) ?. simpl. by nowrap.
Qed.

Lemma uio_moved_refl u v : uio_ok u v -> uio_moved 0 [] u v u v.
Proof.
  intros Hu. pose proof Hu as (_ & _ & ? & _). unfold uio_moved.
  cbn [length mem_write]. change (Z.of_nat 0) with 0. rewrite (uio_advance_0 u v) by done.
  split; [done|]. split; [done|]. split; [lia|]. split; [by left|].
  destruct (uio_rw u); [|done]. exists (vm_mem v). by rewrite set_mem_id.
Qed.

(** Two transfers in a row make one. *)
Lemma uio_moved_trans r bs1 bs2 u v u1 v1 u2 v2 :
  uio_ok u v -> uio_moved 0 bs1 u v u1 v1 -> uio_moved r bs2 u1 v1 u2 v2 ->
  uio_moved r (bs1 ++ bs2) u v u2 v2.
Proof.
  intros Hu (-> & Hu1 & Hk1 & Hg1 & Hm1) (-> & Hu2 & Hk2 & Hg2 & Hm2).
  pose proof (uio_good_base _ _ _ Hu (conj (Nat2Z.is_nonneg _) Hk1) Hg1) as Eb.
  destruct (uio_advance_resid (Z.of_nat (length bs1)) u v) as [Er _]; [done|lia|].
  rewrite Er in Hk2, Hm2. unfold uio_moved. rewrite length_app, Nat2Z.inj_add.
  rewrite <- uio_advance_add. split; [done|]. split; [done|]. split; [lia|].
  assert (forall n, mapped (vm_mem v1) (iov_base u + Z.of_nat (length bs1)) n ->
                    mapped (vm_mem v) (iov_base u + Z.of_nat (length bs1)) n) as Hmap.
  { intros n. destruct (uio_rw u); [|by destruct Hm1 as [-> _]].
    destruct Hm1 as (m & -> & ->). simpl.
    eapply (mem_changed_mapped _ (iov_base u) (Z.of_nat (length bs1))).
    apply mem_write_changed; [done|]. eapply uio_good_mapped; [done|lia|done]. }
  split.
  - unfold uio_good in Hg2 |- *. simpl in Hg2. rewrite Eb in Hg2.
    destruct Hg1 as [E|[?|[[? ?] H1]]].
    + rewrite E, !Z.add_0_r in *. destruct Hg2 as [?|[?|[? ?]]]; [by left|by right; left|].
      rewrite !Z.add_0_l. by right; right; auto.
    + by right; left.
    + destruct Hg2 as [E|[?|[[? ?] H2]]]; [|by right; left|].
      { rewrite E, Z.add_0_r. right; right. done. }
      right; right. split; [split; lia|]. intros i Hi.
      destruct (decide (i < iov_base u + Z.of_nat (length bs1))); [apply H1; lia|].
      apply Hmap in H2. apply H2. lia.
  - simpl in Hm2. rewrite Eb in Hm2. destruct (uio_rw u).
    + destruct Hm1 as (m1 & -> & ->), Hm2 as (m2 & -> & Hm2). exists m2. split; [done|].
      simpl in Hm2. rewrite <- mem_write_app in Hm2. case_decide; [done|].
      replace (iov_base u + (Z.of_nat (length bs1) + Z.of_nat (length bs2)))
        with (iov_base u + Z.of_nat (length bs1) + Z.of_nat (length bs2)) by lia.
      by rewrite Z.sub_add_distr.
    + destruct Hm1 as [-> Hm1], Hm2 as [-> Hm2]. split; [done|].
      rewrite mem_bytes_app. by rewrite <- Hm1, <- Hm2.
Qed.

Lemma moved_mem_changed ptr n u v :
  uio_ok u v -> 0 <= n <= uio_resid u -> n <= Z.of_nat (length ptr) -> uio_good u v n ->
  mem_changed (vm_mem v) (iov_base u) n (moved_mem ptr n u v).
Proof.
  intros Hu Hn Hp Hg. unfold moved_mem. destruct (uio_rw u); [|done].
  apply mem_write_changed; [rewrite length_take; lia|by eapply uio_good_mapped].
Qed.

Lemma uio_good_mem u v n a k m :
  mem_changed (vm_mem v) a k m -> uio_good u v n -> uio_good u (set_mem m v) n.
Proof.
  intros Hc [?|[?|[? ?]]]; [by left|by right; left|right; right]. split; [done|].
  by apply (proj1 (mem_changed_mapped _ _ _ _ _ _ Hc)).
Qed.

Lemma moved_ok ptr n u v :
  uio_ok u v -> 0 <= n <= uio_resid u -> n <= Z.of_nat (length ptr) ->
  (uio_rw u = UIO_READ -> Forall is_byte ptr) ->
  uio_good u v n -> uio_ok (uio_advance n u) (set_mem (moved_mem ptr n u v) v).
Proof.
  intros Hu Hn Hp Hb Hg. pose proof (moved_mem_changed _ _ _ _ Hu Hn Hp Hg) as Hc.
  apply uio_ok_advance; [|done|by eapply uio_good_mem]. eapply uio_ok_mem; [done..|].
  pose proof Hu as (_ & _ & _ & _ & _ & _ & Hbm & _). unfold moved_mem.
  destruct (uio_rw u); [|done]. apply mem_write_bytes_ok; [done|]. by apply Forall_take, Hb.
Qed.

(** [uiomove] in these terms: everything or nothing is moved. *)
Lemma uiomove_moved ptr n u v :
  uio_ok u v -> 0 <= n <= uio_resid u -> n <= Z.of_nat (length ptr) ->
  (uio_rw u = UIO_READ -> Forall is_byte ptr) ->
  exists r bs ptr' u' v', uiomove ptr n u v = Some (r, ptr', u', v') /\
    uio_moved r bs u v u' v' /\ length ptr' = length ptr /\
    match uio_rw u with
    | UIO_READ => ptr' = ptr /\ (r = 0 -> bs = take (Z.to_nat n) ptr)
    | UIO_WRITE => r = 0 -> ptr' = splice ptr 0 bs
    end /\
    (r = 0 /\ Z.of_nat (length bs) = n \/ r = EFAULT /\ bs = [] /\ ~ uio_good u v n).
Proof.
  intros Hu Hn Hp Hb. pose proof (uiomove_wp ptr n u v Hu Hn Hp) as Hw.
  pose proof Hu as (_ & _ & _ & _ & _ & _ & Hbm & _). case_decide as Hg.
  - set (bs := match uio_rw u with UIO_READ => take (Z.to_nat n) ptr
               | UIO_WRITE => mem_bytes (vm_mem v) (iov_base u) (Z.to_nat n) end).
    assert (Z.of_nat (length bs) = n) as El.
    { unfold bs. destruct (uio_rw u); [rewrite length_take|rewrite length_mem_bytes]; lia. }
    exists 0, bs. do 3 eexists. split; [exact Hw|].
    split; [|split; [|split; [|by left]]].
    + unfold uio_moved. rewrite El. split; [done|]. split; [by apply moved_ok|].
      split; [lia|]. split; [done|]. unfold moved_mem, bs. destruct (uio_rw u).
      * eexists. split; [done|]. done.
      * rewrite set_mem_id, length_mem_bytes. done.
    + unfold moved_buf. destruct (uio_rw u); [done|]. apply length_splice.
      rewrite length_mem_bytes. lia.
    + unfold moved_buf, bs. by destruct (uio_rw u).
  - destruct Hw as (ptr' & m & E & Hl & Hc & Hbs & Hrd & Hwr).
    exists EFAULT, []. do 3 eexists. split; [exact E|].
    split; [|split; [done|split; [|by right]]].
    + unfold uio_moved. cbn [length mem_write]. change (Z.of_nat 0) with 0.
      rewrite (uio_advance_0 u v) by done. split; [done|].
      assert (bytes_ok m).
      { destruct (uio_rw u); [|by rewrite Hwr].
        apply (bytes_ok_changed (vm_mem v) m ptr); [done|by apply Hb|done]. }
      split; [by eapply uio_ok_mem|]. split; [lia|]. split; [by left|]. destruct (uio_rw u).
      * exists m. split; [done|]. rewrite decide_False by done.
        rewrite Z.add_0_r, Z.sub_0_r. destruct Hc as [Hd Hc]. split; [done|].
        intros i Hi. apply Hc. lia.
      * rewrite Hwr by done. by rewrite set_mem_id.
    + destruct (uio_rw u); [|done]. split; [by apply Hrd|done].
Qed.

(** What remains of a good region is good. *)
Lemma uio_good_rest bs u v u1 v1 n k :
  uio_ok u v -> uio_moved 0 bs u v u1 v1 -> uio_good u v n ->
  0 <= k -> Z.of_nat (length bs) + k <= n -> uio_good u1 v1 k.
Proof.
  intros Hu (-> & _ & Hk & Hg & Hm) Hgn ? ?.
  pose proof (uio_good_base _ _ _ Hu (conj (Nat2Z.is_nonneg _) Hk) Hg) as Eb.
  destruct (decide (k = 0)); [by left|right].
  destruct Hgn as [?|[?|[[? ?] Hmap]]]; [lia|by left|right]. simpl. rewrite Eb.
  split; [split; lia|].
  assert (mapped (vm_mem v) (iov_base u + Z.of_nat (length bs)) k) as Hk'
    by (eapply mapped_le; [done|lia..]).
  destruct (uio_rw u); [|by destruct Hm as [-> _]]. destruct Hm as (m & -> & ->). simpl.
  assert (mapped (vm_mem v) (iov_base u) (Z.of_nat (length bs))) as Hb
    by (eapply uio_good_mapped; [done|lia|done]).
  by apply (proj1 (mem_changed_mapped _ _ _ _ _ _ (mem_write_changed _ _ _ _ eq_refl Hb))).
Qed.

Lemma uio_good_le u v n k : uio_good u v n -> 0 <= k <= n -> uio_good u v k.
Proof.
  intros Hg Hk. destruct (decide (k = 0)); [by left|].
  destruct Hg as [?|[?|[[? ?] Hm]]]; [lia|by right; left|right; right].
  split; [split; lia|]. eapply mapped_le; [done|lia..].
Qed.

(** What a write takes out of the region are bytes. *)
Lemma uio_moved_bytes r bs u v u' v' :
  uio_ok u v -> uio_rw u = UIO_WRITE -> uio_moved r bs u v u' v' -> Forall is_byte bs.
Proof.
  intros (_ & _ & _ & _ & _ & _ & Hb & _) Hrw (_ & _ & _ & _ & Hm). rewrite Hrw in Hm.
  destruct Hm as [_ ->]. apply Forall_fmap, list.Forall_forall. intros i _. simpl.
  destruct (vm_mem v !! (iov_base u + Z.of_nat i)) eqn:E; [by eapply Hb|by unfold is_byte].
Qed.

Lemma uio_moved_fail r r' bs u v u' v' :
  uio_rw u = UIO_WRITE -> uio_moved r bs u v u' v' -> uio_moved r' bs u v u' v'.
Proof. intros Hrw. unfold uio_moved. by rewrite Hrw. Qed.

Lemma uio_moved_rw r bs u v u' v' : uio_moved r bs u v u' v' -> uio_rw u' = uio_rw u.
Proof. by intros [-> _]. Qed.

Lemma movezeros_moved fuel n u v :
  uio_ok u v -> uio_rw u = UIO_READ -> 0 <= n <= uio_resid u -> n <= Z.of_nat fuel ->
  exists r bs u' v', movezeros_loop fuel n u v = Some (r, u', v') /\
    uio_moved r bs u v u' v' /\ bs = replicate (length bs) 0 /\
    (r = 0 /\ Z.of_nat (length bs) = n \/
     r = EFAULT /\ Z.of_nat (length bs) < n /\ ~ uio_good u v n).
Proof.
  revert n u v. induction fuel as [|fuel IH]; intros n u v Hu Hrw Hn Hf.
  { exists 0, [], u, v. simpl. rewrite (proj2 (Z.ltb_ge 0 n)) by lia.
    split; [done|]. split; [by apply uio_moved_refl|]. split; [done|]. left. simpl. lia. }
  simpl. destruct (Z.ltb_spec 0 n) as [Hn0|].
  2:{ exists 0, [], u, v. split; [done|]. split; [by apply uio_moved_refl|].
      split; [done|]. left. simpl. lia. }
  set (amt := if n <? 16 then n else 16).
  assert (0 < amt <= n /\ amt <= 16) as [Ha Ha'] by (unfold amt; destruct (Z.ltb_spec n 16); lia).
  destruct (uiomove_moved zeros16 amt u v) as (r & bs & p & u1 & v1 & -> & Hm & _ & Hbuf & Hr);
    [done|lia|simpl; lia|by repeat constructor|]. simpl. rewrite Hrw in Hbuf.
  pose proof Hu as (_ & (? & ?) & Hres & _).
  destruct Hr as [[-> El]|(-> & -> & Hg)]; simpl.
  - pose proof Hm as (-> & Hu1 & _).
    destruct (uio_advance_resid (Z.of_nat (length bs)) u v) as [Er _]; [done|lia|].
    rewrite u32_id by (unfold is_u32; lia).
    destruct (IH (n - amt) (uio_advance (Z.of_nat (length bs)) u) v1)
      as (r & bs' & u2 & v2 & -> & Hm2 & Hz & Hr); [done|done|lia|lia|].
    exists r, (bs ++ bs'), u2, v2. split; [done|].
    split; [by eapply uio_moved_trans|]. rewrite length_app. split.
    + rewrite replicate_add, <- Hz. f_equal. rewrite (proj2 Hbuf) by done.
      unfold zeros16. rewrite take_replicate, length_replicate. f_equal.
    + destruct Hr as [[-> ?]|(-> & ? & Hg)]; [left; lia|right].
      split; [done|]. split; [lia|]. intros Hgn. apply Hg.
      apply (uio_good_rest bs u v _ _ n); [done|exact Hm|done|lia|lia].
  - exists EFAULT, [], u1, v1. split; [done|]. split; [done|]. split; [done|]. right.
    split; [done|]. split; [simpl; lia|]. intros Hgn. apply Hg.
    eapply uio_good_le; [done|lia].
Qed.

Lemma uiomovezeros_moved n u v :
  uio_ok u v -> uio_rw u = UIO_READ -> 0 <= n <= uio_resid u ->
  exists r bs u' v', uiomovezeros n u v = Some (r, u', v') /\
    uio_moved r bs u v u' v' /\ bs = replicate (length bs) 0 /\
    (r = 0 /\ Z.of_nat (length bs) = n \/
     r = EFAULT /\ Z.of_nat (length bs) < n /\ ~ uio_good u v n).
Proof.
  intros Hu Hrw Hn. unfold uiomovezeros. rewrite bool_decide_eq_true_2 by done.
  apply movezeros_moved; [done..|lia].
Qed.

(** C30: [copyin] and [copyout] never bring the kernel down: for every user
    pointer and length they return 0 exactly when the block is not empty, lies
    in the user's half of the address space and is mapped, and then the bytes
    are copied; in every other case they return EFAULT.  The fault handler is
    uninstalled in both cases, and [copyout] touches no memory outside the
    block. *)
Theorem copyin_copyout_safe p len buf v :
  is_u32 p -> is_u32 len -> len <= Z.of_nat (length buf) -> vm_badfaultfunc v = false ->
  if decide (user_range p len /\ mapped (vm_mem v) p len)
  then copyin p buf len v =
         Some (0, splice buf 0 (mem_bytes (vm_mem v) p (Z.to_nat len)), v) /\
       copyout buf p len v =
         Some (0, set_mem (mem_write (vm_mem v) p (take (Z.to_nat len) buf)) v)
  else (exists buf', copyin p buf len v = Some (EFAULT, buf', v)) /\
       (exists m, copyout buf p len v = Some (EFAULT, set_mem m v) /\
                  mem_changed (vm_mem v) p len m).
Proof.
  intros Hp Hl Hb Hv. pose proof (copyin_wp p buf len v Hp Hl Hb Hv) as Hi.
  pose proof (copyout_wp buf p len v Hp Hl Hb Hv) as Ho. case_decide; naive_solver.
Qed.

Lemma copyin_copyout_safe_witness :
  let v := {| vm_mem := <[2 ^ 31 - 1 := 7]> ∅; vm_badfaultfunc := false; vm_space := 0 |} in
  copyin (2 ^ 31 - 1) [0; 0] 1 v = Some (0, [7; 0], v) /\
  (exists buf', copyin (2 ^ 31 - 1) [0; 0] 2 v = Some (EFAULT, buf', v)).
Proof.
  intros v. split.
  - pose proof (copyin_copyout_safe (2 ^ 31 - 1) 1 [0; 0] v) as Hc.
    apply Hc; [vm_compute; split; congruence..|vm_compute; congruence|done].
  - pose proof (copyin_copyout_safe (2 ^ 31 - 1) 2 [0; 0] v) as Hc.
    apply Hc; [vm_compute; split; congruence..|vm_compute; congruence|done].
Defined.
