(* ===== verification/Dumbvm.v ===== *)
(** * Address spaces

    kern/arch/mips/mips/dumbvm.c: an address space is two regions and a stack, each in
    one run of physical pages.  The state [vmsys] has the TLB, the physical memory and
    the interrupt level; the pages come from [ram]. *)

From stdpp Require Import base option list gmap numbers.
From S2P Require Import Prelude Kmem Kheap KheapSpec Ram Cstring.

Definition DUMBVM_STACKPAGES : Z := 12.
Definition USERSTACK : Z := MIPS_KSEG0.
Definition VM_FAULT_READ : Z := 0.
Definition VM_FAULT_WRITE : Z := 1.
Definition VM_FAULT_READONLY : Z := 2.

(** ** The TLB (kern/arch/mips/include/tlb.h) *)

Definition NUM_TLB : nat := 64.
Definition TLBLO_DIRTY : Z := 0x400.
Definition TLBLO_VALID : Z := 0x200.
Definition TLBHI_INVALID (entryno : Z) : Z := Z.shiftl (0x80000 + entryno) 12.
Definition TLBLO_INVALID : Z := 0.

(** Entries are the high and the low word. *)
Record vmsys := Vmsys {
  v_tlb : list (Z * Z);
  v_mem : list Z;
  v_spl : Z;
}.

Definition set_spl (n : Z) (s : vmsys) : vmsys := Vmsys (v_tlb s) (v_mem s) n.
Definition TLB_Write (ehi elo : Z) (i : nat) (s : vmsys) : vmsys :=
  Vmsys (<[i := (ehi, elo)]> (v_tlb s)) (v_mem s) (v_spl s).
Definition set_mem (m : list Z) (s : vmsys) : vmsys := Vmsys (v_tlb s) m (v_spl s).

(** ** Address spaces *)

Record addrspace := Addrspace {
  as_vbase1 : Z; as_pbase1 : Z; as_npages1 : Z;
  as_vbase2 : Z; as_pbase2 : Z; as_npages2 : Z;
  as_stackpbase : Z;
}.
Definition sizeof_addrspace : Z := 28.

Definition as_empty : addrspace := Addrspace 0 0 0 0 0 0 0.

Section heap.
Context {H : Type} `{!Kmalloc H}.

(** The new space's address and contents. *)
Definition as_create (h : H) : option (option (Z * addrspace) * H) :=
  '(p, h) ← kmalloc sizeof_addrspace h;
  if p =? 0 then Some (None, h) else Some (Some (p, as_empty), h).

Definition as_destroy (p : Z) (h : H) : option H := kfree p h.
End heap.

(** The loop of [as_activate]. *)
Fixpoint flush (n i : nat) (s : vmsys) : vmsys :=
  match n with
  | O => s
  | S n => flush n (S i) (TLB_Write (TLBHI_INVALID (Z.of_nat i)) TLBLO_INVALID i s)
  end.

Definition as_activate (s : vmsys) : vmsys :=
  let spl := v_spl s in
  set_spl spl (flush NUM_TLB 0 (set_spl SPL_HIGH s)).

Definition as_define_region (vaddr sz : Z) (a : addrspace) : Z * addrspace :=
  let sz := u32 (sz + Z.ldiff vaddr PAGE_FRAME) in
  let vaddr := Z.land vaddr PAGE_FRAME in
  let sz := Z.land (u32 (sz + PAGE_SIZE - 1)) PAGE_FRAME in
  let npages := sz / PAGE_SIZE in
  if as_vbase1 a =? 0 then
    (0, Addrspace vaddr (as_pbase1 a) npages (as_vbase2 a) (as_pbase2 a) (as_npages2 a) (as_stackpbase a))
  else if as_vbase2 a =? 0 then
    (0, Addrspace (as_vbase1 a) (as_pbase1 a) (as_npages1 a) vaddr (as_pbase2 a) npages (as_stackpbase a))
  else (EUNIMP, a).

Definition set_pbases (p1 p2 st : Z) (a : addrspace) : addrspace :=
  Addrspace (as_vbase1 a) p1 (as_npages1 a) (as_vbase2 a) p2 (as_npages2 a) st.

Definition as_prepare_load (a : addrspace) (r : ram) : option (Z * addrspace * ram) :=
  ASSERT as_pbase1 a =? 0 ;;
  ASSERT as_pbase2 a =? 0 ;;
  ASSERT as_stackpbase a =? 0 ;;
  let '(p1, r) := getppages (as_npages1 a) r in
  if p1 =? 0 then Some (ENOMEM, set_pbases p1 0 0 a, r)
  else
    let '(p2, r) := getppages (as_npages2 a) r in
    if p2 =? 0 then Some (ENOMEM, set_pbases p1 p2 0 a, r)
    else
      let '(st, r) := getppages DUMBVM_STACKPAGES r in
      if st =? 0 then Some (ENOMEM, set_pbases p1 p2 st a, r)
      else Some (0, set_pbases p1 p2 st a, r).

Definition as_complete_load : Z := 0.

(** [*stackptr]. *)
Definition as_define_stack (a : addrspace) : option Z :=
  ASSERT negb (as_stackpbase a =? 0) ;;
  Some USERSTACK.

(** ** Faults *)

(** The asserts of [vm_fault]. *)
Definition as_set_up (a : addrspace) : bool :=
  negb (as_vbase1 a =? 0) && negb (as_pbase1 a =? 0) && negb (as_npages1 a =? 0) &&
  negb (as_vbase2 a =? 0) && negb (as_pbase2 a =? 0) && negb (as_npages2 a =? 0) &&
  negb (as_stackpbase a =? 0) &&
  (Z.land (as_vbase1 a) PAGE_FRAME =? as_vbase1 a) && (Z.land (as_pbase1 a) PAGE_FRAME =? as_pbase1 a) &&
  (Z.land (as_vbase2 a) PAGE_FRAME =? as_vbase2 a) && (Z.land (as_pbase2 a) PAGE_FRAME =? as_pbase2 a) &&
  (Z.land (as_stackpbase a) PAGE_FRAME =? as_stackpbase a).

(** The physical address of a page, if it is in one of the regions. *)
Definition translate (a : addrspace) (va : Z) : option Z :=
  let vbase1 := as_vbase1 a in
  let vtop1 := u32 (vbase1 + as_npages1 a * PAGE_SIZE) in
  let vbase2 := as_vbase2 a in
  let vtop2 := u32 (vbase2 + as_npages2 a * PAGE_SIZE) in
  let stackbase := USERSTACK - DUMBVM_STACKPAGES * PAGE_SIZE in
  if (vbase1 <=? va) && (va <? vtop1) then Some (u32 (va - vbase1 + as_pbase1 a))
  else if (vbase2 <=? va) && (va <? vtop2) then Some (u32 (va - vbase2 + as_pbase2 a))
  else if (stackbase <=? va) && (va <? USERSTACK) then Some (u32 (va - stackbase + as_stackpbase a))
  else None.

(** The loop over the TLB: the first entry that is not valid is taken. *)
Fixpoint tlb_fill (n i : nat) (ehi elo : Z) (s : vmsys) : option (bool * vmsys) :=
  match n with
  | O => Some (false, s)
  | S n =>
      '(_, lo) ← v_tlb s !! i;
      if negb (Z.land lo TLBLO_VALID =? 0) then tlb_fill n (S i) ehi elo s
      else Some (true, TLB_Write ehi elo i s)
  end.

(** [a] is [curthread->t_vmspace]. *)
Definition vm_fault (faulttype faultaddress : Z) (a : option addrspace) (s : vmsys) : option (Z * vmsys) :=
  let spl := v_spl s in
  let s := set_spl SPL_HIGH s in
  let faultaddress := Z.land faultaddress PAGE_FRAME in
  if faulttype =? VM_FAULT_READONLY then None                      (* panic *)
  else if negb ((faulttype =? VM_FAULT_READ) || (faulttype =? VM_FAULT_WRITE)) then
    Some (EINVAL, set_spl spl s)
  else
    match a with
    | None => Some (EFAULT, s)
    | Some a =>
        ASSERT as_set_up a ;;
        match translate a faultaddress with
        | None => Some (EFAULT, set_spl spl s)
        | Some paddr =>
            ASSERT Z.land paddr PAGE_FRAME =? paddr ;;
            '(done, s) ← tlb_fill NUM_TLB 0 faultaddress
              (Z.lor (Z.lor paddr TLBLO_DIRTY) TLBLO_VALID) s;
            Some (if done : bool then 0 else EFAULT, set_spl spl s)
        end
    end.

(** ** Copies *)

Definition copy_pages (dst src npages : Z) (m : list Z) : option (list Z) :=
  memmove (Z.to_nat dst) (Z.to_nat src) (Z.to_nat (u32 (npages * PAGE_SIZE))) m.

(** The memory of the kernel: the heap, whose pages come from the ram. *)
Definition kmemory : Type := gheap gram.

Definition the_ram (h : kmemory) : ram := g_ram (kpool (g_heap h)).
Definition set_ram (r : ram) (h : kmemory) : kmemory :=
  Gheap (set_kpool (Gram r (g_runs (kpool (g_heap h)))) (g_heap h)) (g_asked h).

(** The result, the new space with its address, the physical memory and the heap. *)
Definition as_copy (old : addrspace) (m : list Z) (h : kmemory) :
    option (Z * option (Z * addrspace) * list Z * kmemory) :=
  '(new, h) ← as_create h;
  match new with
  | None => Some (ENOMEM, None, m, h)
  | Some (p, new) =>
      let new := Addrspace (as_vbase1 old) (as_pbase1 new) (as_npages1 old) (as_vbase2 old)
                   (as_pbase2 new) (as_npages2 old) (as_stackpbase new) in
      '(r, new, rm) ← as_prepare_load new (the_ram h);
      let h := set_ram rm h in
      if negb (r =? 0) then h ← as_destroy p h; Some (ENOMEM, None, m, h)
      else
        ASSERT negb (as_pbase1 new =? 0) ;;
        ASSERT negb (as_pbase2 new =? 0) ;;
        ASSERT negb (as_stackpbase new =? 0) ;;
        m ← copy_pages (as_pbase1 new) (as_pbase1 old) (as_npages1 old) m;
        m ← copy_pages (as_pbase2 new) (as_pbase2 old) (as_npages2 old) m;
        m ← copy_pages (as_stackpbase new) (as_stackpbase old) DUMBVM_STACKPAGES m;
        Some (0, Some (p, new), m, h)
  end.
