(* ===== verification/DumbvmInv.v ===== *)
(** * Pages under the address spaces

    How the operations of the kernel heap and of the address spaces move the free
    memory: memory once taken is never taken again. *)

From stdpp Require Import base option list gmap numbers.
From S2P Require Import Prelude Kmem Kheap KheapInv KheapOps KheapSpec Ram Dumbvm.

(** ** The pages of the heap *)

Section pool.
Context {P : Type} `{!Kpages P}.
Implicit Types hp : kheap P.

Lemma doalloc_pool j hp p hp' : doalloc j hp = Some (p, hp') -> kpool hp' = kpool hp.
Proof.
  unfold doalloc. intros E. repeat (case_match || simplify_option_eq); done.
Qed.

Lemma allocpageref_pool n i hp r hp' : allocpageref_loop n i hp = Some (r, hp') -> kpool hp' = kpool hp.
Proof.
  revert i. induction n as [|n IH]; intros i E; cbn [allocpageref_loop] in E; [by simplify_eq|].
  destruct (pagerefs_inuse hp !! i) as [w|]; [|done]. cbn [mbind option_bind] in E.
  destruct (w =? _); [by eapply IH|]. destruct (inuse_bit 33 1 0 w) as [[k j]|]; [|done].
  cbn [mbind option_bind] in E. by injection E as <- <-.
Qed.

Lemma freepageref_pool j hp hp' : freepageref j hp = Some hp' -> kpool hp' = kpool hp.
Proof. unfold freepageref. intros E. repeat (case_match || simplify_option_eq); done. Qed.

Lemma new_page_pool j p k sz hp hp' : new_page j p k sz hp = Some hp' -> kpool hp' = kpool hp.
Proof. unfold new_page. intros E. repeat (case_match || simplify_option_eq); done. Qed.

Lemma remove_loop_pool fuel get put next pr g hp hp' :
  (forall g p hp hp', put g p hp = Some hp' -> kpool hp' = kpool hp) ->
  remove_loop fuel get put next pr g hp = Some hp' -> kpool hp' = kpool hp.
Proof.
  intros Hput. revert g. induction fuel as [|fuel IH]; intros g E; simpl in E; [done|].
  repeat (case_match || simplify_option_eq); try done; [by eapply Hput|by eapply IH].
Qed.

Lemma put_same_pool k g p hp hp' : put_same k g p hp = Some hp' -> kpool hp' = kpool hp.
Proof. unfold put_same. intros E. destruct g; simplify_option_eq; done. Qed.

Lemma put_all_pool g p hp hp' : put_all g p hp = Some hp' -> kpool hp' = kpool hp.
Proof. unfold put_all. intros E. destruct g; simplify_option_eq; done. Qed.

Lemma remove_lists_pool j k hp hp' : remove_lists j k hp = Some hp' -> kpool hp' = kpool hp.
Proof.
  unfold remove_lists. intros E. case_match; [|done].
  destruct (remove_loop _ (get_same k) _ _ _ _ _) as [hp1|] eqn:E1; [|done]. cbn [mbind option_bind] in E.
  transitivity (kpool hp1).
  - eapply remove_loop_pool; [|exact E]. apply put_all_pool.
  - eapply remove_loop_pool; [|exact E1]. apply put_same_pool.
Qed.

(** kmalloc takes at most one run of pages, kfree gives back at most one. *)
Lemma kmalloc_pool sz hp p hp' :
  kmalloc_size sz -> kheap_kmalloc sz hp = Some (p, hp') ->
  kpool hp' = kpool hp \/ exists n q, 0 < n <= 7 * 2 ^ 17 /\ alloc_kpages n (kpool hp) = Some (q, kpool hp').
Proof.
  intros [Hs0 Hs] E. unfold kheap_kmalloc, LARGEST_SUBPAGE_SIZE, PAGE_SIZE in E.
  destruct (2048 <=? sz) eqn:El; boolify.
  - rewrite u32_id in E by (unfold is_u32; lia). set (n := (sz + 4096 - 1) / 4096) in *.
    assert (0 < n <= 7 * 2 ^ 17) as Hn by (unfold n; zdm).
    assert (s32 n = n) as Es by (apply s32_id; unfold is_s32; lia). rewrite Es in E.
    destruct (alloc_kpages n (kpool hp)) as [[q s]|] eqn:Ea; [|done].
    cbn [mbind option_bind] in E. injection E as <- <-. right. by exists n, q.
  - unfold subpage_kmalloc in E. destruct (blocktype sz) as [k|]; [|done]. cbn [mbind option_bind] in E.
    destruct (sizes !! k) as [b|]; [|done]. cbn [mbind option_bind] in E.
    destruct (sizebases hp !! k) as [base|]; [|done]. cbn [mbind option_bind] in E.
    destruct (find_free _ base k hp) as [[j|]|]; cbn [mbind option_bind] in E; [|..|done].
    { left. by eapply doalloc_pool. }
    destruct (allocpageref hp) as [[[j|] hp1]|] eqn:E1; cbn [mbind option_bind] in E; [|..|done].
    2:{ left. simplify_eq. by eapply allocpageref_pool. }
    apply allocpageref_pool in E1 as Ep. rewrite Ep in E.
    destruct (alloc_kpages 1 (kpool hp)) as [[q s]|] eqn:Ea; [|done]. cbn [mbind option_bind] in E. right.
    exists 1, q. split; [lia|]. destruct (q =? 0).
    + destruct (freepageref j _) as [hp2|] eqn:E2; [|done]. cbn [mbind option_bind] in E. simplify_eq.
      by rewrite (freepageref_pool _ _ _ E2).
    + destruct (new_page j q k b _) as [hp2|] eqn:E2; [|done]. cbn [mbind option_bind] in E.
      rewrite (doalloc_pool _ _ _ _ E). by rewrite (new_page_pool _ _ _ _ _ _ E2).
Qed.

Lemma kfree_pool p hp hp' :
  kheap_kfree p hp = Some hp' ->
  kpool hp' = kpool hp \/ exists q, free_kpages q (kpool hp) = Some (kpool hp').
Proof.
  unfold kheap_kfree. intros E. destruct (p =? 0); [by simplify_eq; left|].
  destruct (subpage_kfree p hp) as [[[|] hp1]|] eqn:E1; cbn [mbind option_bind] in E; [..|done].
  - simplify_eq. unfold subpage_kfree in E1. destruct (find_page _ _ _ _) as [[j|]|]; [..|done]; cbn [mbind option_bind] in E1; [|done].
    destruct (pagerefs hp !! j) as [pr|]; [|done]. cbn [mbind option_bind] in E1.
    destruct (sizes !! _) as [b|]; [|done]. cbn [mbind option_bind] in E1. case_match; [done|].
    case_match; [|done]. case_match; [|by simplify_eq; left].
    destruct (remove_lists j _ _) as [hp2|] eqn:E2; [|done]. cbn [mbind option_bind] in E1.
    apply remove_lists_pool in E2. simpl in E2. rewrite E2 in E1.
    destruct (free_kpages _ (kpool hp)) as [s|] eqn:Ef; [|done]. cbn [mbind option_bind] in E1.
    destruct (freepageref j _) as [hp3|] eqn:E3; [|done]. cbn [mbind option_bind] in E1. simplify_eq.
    right. exists (PR_PAGEADDR pr). by rewrite (freepageref_pool _ _ _ E3).
  - unfold subpage_kfree in E1. destruct (find_page _ _ _ _) as [[j|]|]; [..|done]; cbn [mbind option_bind] in E1;
      [repeat (case_match || simplify_option_eq); done|]. simplify_eq.
    case_match; [|done]. destruct (free_kpages p _) as [s|] eqn:Ef; [|done]. cbn [mbind option_bind] in E. simplify_eq.
    right. by exists p.
Qed.
End pool.

(** ** Memory that is taken *)

(** A run of physical pages: its address and the number of pages. *)
Definition apart (r r' : Z * Z) : Prop :=
  r.1 + r.2 * 4096 <= r'.1 \/ r'.1 + r'.2 * 4096 <= r.1.

(** The run is in the memory that was free between [lo] and [hi]. *)
Definition between (lo hi : Z) (r : Z * Z) : Prop :=
  lo <= r.1 /\ r.1 `mod` 4096 = 0 /\ 0 <= r.2 /\ r.1 + r.2 * 4096 <= hi.

Definition runs (h : kmemory) : gmap Z Z := g_runs (kpool (g_heap h)).
Definition free_from (h : kmemory) : Z := firstpaddr (the_ram h).

(** Memory is only taken from the free part. *)
Definition mem_grow (h h' : kmemory) : Prop :=
  free_from h <= free_from h' /\
  forall q n, runs h' !! q = Some n -> runs h !! q = Some n \/ MIPS_KSEG0 + free_from h <= q.

Lemma mem_grow_refl h : mem_grow h h.
Proof. split; [lia|]. auto. Qed.

Lemma mem_grow_trans h1 h2 h3 : mem_grow h1 h2 -> mem_grow h2 h3 -> mem_grow h1 h3.
Proof.
  intros [F1 R1] [F2 R2]. split; [lia|]. intros q n Hq.
  destruct (R2 q n Hq) as [Hq2|?]; [by apply R1|right; lia].
Qed.

Lemma gheap_gram (h : kmemory) : gheap_ok h -> gram_ok (kpool (g_heap h)).
Proof. by intros (aps & _ & Hp & _). Qed.

Lemma kmalloc_grow sz (h : kmemory) p h' :
  gheap_ok h -> kmalloc_size sz -> kmalloc sz h = Some (p, h') -> mem_grow h h'.
Proof.
  intros Hok Hsz E. simpl in E. destruct (kheap_kmalloc sz (g_heap h)) as [[q hp]|] eqn:Ek; [|done].
  cbn [mbind option_bind] in E. injection E as <- <-. apply gheap_gram in Hok.
  destruct (kmalloc_pool sz _ _ _ Hsz Ek) as [Ep|(n & a & Hn & Ea)].
  - unfold mem_grow, free_from, the_ram, runs. simpl. rewrite Ep. split; [lia|]. auto.
  - destruct (alloc_run _ n Hok Hn) as [E'|(a' & r & E' & _ & _ & _ & Ep & Ef)]; rewrite E' in Ea.
    + injection Ea as _ Es. unfold mem_grow, free_from, the_ram, runs. simpl. rewrite <- Es. split; [lia|]. auto.
    + injection Ea as _ Es. unfold mem_grow, free_from, the_ram, runs. simpl. rewrite <- Es. simpl.
      split; [lia|]. intros x m [[<- <-]|[_ Hx]]%lookup_insert_Some; [right; lia|by left].
Qed.

Lemma kfree_shrink p (h h' : kmemory) :
  kfree p h = Some h' ->
  free_from h' = free_from h /\ forall q n, runs h' !! q = Some n -> runs h !! q = Some n.
Proof.
  intros E. simpl in E. destruct (kheap_kfree p (g_heap h)) as [hp|] eqn:Ek; [|done].
  cbn [mbind option_bind] in E. injection E as <-. unfold free_from, the_ram, runs. simpl.
  destruct (kfree_pool _ _ _ Ek) as [->|(q & Ef)]; [done|].
  simpl in Ef. injection Ef as <-. unfold dumbvm_free_kpages. simpl. split; [done|].
  by intros x m [_ Hx]%lookup_delete_Some.
Qed.

Lemma kfree_grow p (h h' : kmemory) : kfree p h = Some h' -> mem_grow h h'.
Proof. intros [E Hr]%kfree_shrink. split; [lia|]. intros q n Hq. left. by apply Hr. Qed.

Lemma set_ram_ok (h : kmemory) r :
  gheap_ok h -> ram_ok r -> free_from h <= firstpaddr r -> gheap_ok (set_ram r h) /\ mem_grow h (set_ram r h).
Proof.
  intros (aps & Hr & (Hram & Hrun & Hd) & How & Hpart) Hr' Hle. split.
  - exists aps. split; [|split; [|done]].
    + destruct Hr as [? ? ? ? ? ? ? Hpg ? ?]. constructor; try done. intros c Hc. by destruct (Hpg c Hc).
    + split; [done|]. simpl. split; [|done]. intros p n Hp. unfold free_from, the_ram in Hle.
      apply Hrun in Hp. lia.
  - split; [done|]. auto.
Qed.

(** Taking pages of the ram, possibly none. *)
Lemma getppages_ok n r pa r' :
  ram_ok r -> 0 <= n <= 7 * 2 ^ 17 -> getppages n r = (pa, r') ->
  ram_ok r' /\ firstpaddr r <= firstpaddr r' /\ (pa = 0 \/ 0 < pa /\ between (firstpaddr r) (firstpaddr r') (pa, n)).
Proof.
  intros Hr Hn E. unfold getppages in E. pose proof Hr as (Hf & Hm & Hl).
  destruct (decide (n = 0)) as [->|Hne].
  - unfold ram_stealmem in E. change (u32 (0 * PAGE_SIZE)) with 0 in E. rewrite Z.add_0_r, u32_id in E
      by (unfold is_u32; lia). destruct (_ <? _); injection E as <- <-.
    + split; [done|]. split; [lia|by left].
    + split; [done|]. simpl. split; [lia|]. right. split; [lia|]. unfold between. simpl. lia.
  - destruct (ram_stealmem_ok n r Hr ltac:(lia)) as [[E' _]|(_ & E' & Hr')]; rewrite E' in E; injection E as <- <-.
    + split; [done|]. split; [lia|by left].
    + split; [done|]. simpl. split; [lia|]. right. split; [lia|]. unfold between. simpl. lia.
Qed.

(** ** The pages of an address space *)

Definition frames (a : addrspace) : list (Z * Z) :=
  filter (fun r => r.1 <> 0)
    [(as_pbase1 a, as_npages1 a); (as_pbase2 a, as_npages2 a); (as_stackpbase a, DUMBVM_STACKPAGES)].

Definition sizes_ok (a : addrspace) : Prop :=
  0 <= as_npages1 a <= 7 * 2 ^ 17 /\ 0 <= as_npages2 a <= 7 * 2 ^ 17 /\ is_u32 (as_vbase1 a) /\ is_u32 (as_vbase2 a).

Lemma elem_of_frames a r :
  r ∈ frames a <-> r.1 <> 0 /\ (r = (as_pbase1 a, as_npages1 a) \/ r = (as_pbase2 a, as_npages2 a) \/
                               r = (as_stackpbase a, DUMBVM_STACKPAGES)).
Proof. unfold frames. rewrite list_elem_of_filter, !elem_of_cons, elem_of_nil. tauto. Qed.

(** Loading takes fresh pages: those it takes later are above those it took before. *)
Lemma as_prepare_load_ok a r res a' r' :
  ram_ok r -> sizes_ok a -> as_prepare_load a r = Some (res, a', r') ->
  ram_ok r' /\ firstpaddr r <= firstpaddr r' /\ a' = set_pbases (as_pbase1 a') (as_pbase2 a') (as_stackpbase a') a /\
  (forall x, x ∈ frames a' -> 0 < x.1 /\ between (firstpaddr r) (firstpaddr r') x) /\
  (res = 0 -> 0 < as_pbase1 a' /\ as_pbase1 a' + as_npages1 a * 4096 <= as_pbase2 a' /\
     as_pbase2 a' + as_npages2 a * 4096 <= as_stackpbase a').
Proof.
  intros Hr (Hs1 & Hs2 & _) E. unfold as_prepare_load in E. do 3 (case_match; [|done]).
  destruct (getppages (as_npages1 a) r) as [p1 r1] eqn:E1.
  destruct (getppages_ok _ _ _ _ Hr Hs1 E1) as (Hr1 & Hf1 & Hp1).
  destruct (p1 =? 0) eqn:Ez1; boolify.
  { injection E as <- <- <-. split; [done|]. split; [done|]. split; [done|]. split; [|done].
    intros x (Hx & [->|[->| ->]])%elem_of_frames; simpl in *; lia. }
  destruct Hp1 as [?|[Hp1 Hb1]]; [done|].
  destruct (getppages (as_npages2 a) r1) as [p2 r2] eqn:E2.
  destruct (getppages_ok _ _ _ _ Hr1 Hs2 E2) as (Hr2 & Hf2 & Hp2). unfold between in *. simpl in *.
  destruct (p2 =? 0) eqn:Ez2; boolify.
  { injection E as <- <- <-. split; [done|]. split; [lia|]. split; [done|]. split; [|done].
    intros x (Hx & [->|[->| ->]])%elem_of_frames; simpl in *; lia. }
  destruct Hp2 as [?|[Hp2 Hb2]]; [done|].
  destruct (getppages DUMBVM_STACKPAGES r2) as [st r3] eqn:E3.
  assert (0 <= DUMBVM_STACKPAGES <= 7 * 2 ^ 17) as Hst by done.
  destruct (getppages_ok _ _ _ _ Hr2 Hst E3) as (Hr3 & Hf3 & Hp3). unfold between in *. simpl in *.
  destruct (st =? 0) eqn:Ez3; boolify.
  { injection E as <- <- <-. split; [done|]. split; [lia|]. split; [done|]. split; [|done].
    intros x (Hx & [->|[->| ->]])%elem_of_frames; simpl in *; lia. }
  destruct Hp3 as [?|[Hp3 Hb3]]; [done|]. injection E as <- <- <-.
  split; [done|]. split; [lia|]. split; [done|]. simpl. split; [|lia].
  intros x (Hx & [->|[->| ->]])%elem_of_frames; simpl in *; lia.
Qed.
