(* ===== verification/DumbvmSpec.v ===== *)
(** * Isolation of address spaces

    A machine that creates, loads, copies, activates and destroys address spaces, takes
    page faults, and allocates kernel memory, in any order.  In every state that it can
    reach, what the TLB maps is memory of the space that runs, and of nothing else. *)

From stdpp Require Import base option list gmap numbers.
From S2P Require Import Prelude Kmem Kheap KheapInv KheapSpec Ram KheapRun Cstring Dumbvm DumbvmInv.

(** [w_cur] is the [t_vmspace] of the running thread; [w_owner] is the space activated
    last, which the code does not record. *)
Record world := World {
  w_vm : vmsys;
  w_mem : kmemory;
  w_spaces : gmap Z addrspace;
  w_cur : option Z;
  w_owner : option Z;
}.

Inductive vmop :=
  | VCreate
  | VDefine (p vaddr sz : Z)
  | VPrepare (p : Z)
  | VCopy (p : Z)
  | VDestroy (p : Z)
  | VActivate (p : Z)
  | VKernel                        (* a thread without a space runs *)
  | VFault (faulttype va : Z)
  | VMalloc (sz : Z)
  | VFree (q : Z).

Definition vm_step (op : vmop) (w : world) : option world :=
  let '(World s h sp cur own) := w in
  match op with
  | VCreate =>
      '(new, h) ← as_create h;
      match new with
      | None => Some (World s h sp cur own)
      | Some (p, a) => Some (World s h (<[p := a]> sp) cur own)
      end
  | VDefine p vaddr sz =>
      a ← sp !! p;
      Some (World s h (<[p := (as_define_region vaddr sz a).2]> sp) cur own)
  | VPrepare p =>
      a ← sp !! p;
      '(_, a, r) ← as_prepare_load a (the_ram h);
      Some (World s (set_ram r h) (<[p := a]> sp) cur own)
  | VCopy p =>
      a ← sp !! p;
      '(_, new, m, h) ← as_copy a (v_mem s) h;
      let s := set_mem m s in
      match new with
      | None => Some (World s h sp cur own)
      | Some (q, a) => Some (World s h (<[q := a]> sp) cur own)
      end
  | VDestroy p =>
      h ← as_destroy p h;
      Some (World s h (delete p sp) cur (if decide (own = Some p) then None else own))
  | VActivate p => Some (World (as_activate s) h sp (Some p) (Some p))
  | VKernel => Some (World s h sp None own)
  | VFault ft va =>
      '(_, s) ← vm_fault ft va (p ← cur; sp !! p) s;
      Some (World s h sp cur own)
  | VMalloc sz => '(_, h) ← kmalloc sz h; Some (World s h sp cur own)
  | VFree q => h ← kfree q h; Some (World s h sp cur own)
  end.

(** No pages were taken for the space yet. *)
Definition unloaded (a : addrspace) : Prop := as_pbase1 a = 0 /\ as_pbase2 a = 0 /\ as_stackpbase a = 0.

(** The pages that [as_define_region] reckons for a region, in 32-bit arithmetic. *)
Definition region_pages (vaddr sz : Z) : Z :=
  Z.land (u32 (u32 (sz + Z.ldiff vaddr PAGE_FRAME) + PAGE_SIZE - 1)) PAGE_FRAME / PAGE_SIZE.

(** The calls the kernel makes: spaces that exist, regions that are defined before the
    space is loaded, the running space is not destroyed, and memory of a space is not
    freed behind its back.  A region may be anywhere, also in the kernel's half of the
    address space or over its end, and of any size up to 3.5 gigabytes: beyond that
    [ram_stealmem] itself overflows ([Ram.ram_stealmem_wraps]). *)
Definition vmop_ok (op : vmop) (w : world) : Prop :=
  match op with
  | VDefine p vaddr sz =>
      (exists a, w_spaces w !! p = Some a /\ unloaded a) /\ is_u32 vaddr /\ is_u32 sz /\
      region_pages vaddr sz <= 7 * 2 ^ 17
  | VPrepare p | VCopy p | VActivate p => is_Some (w_spaces w !! p)
  | VDestroy p => is_Some (w_spaces w !! p) /\ w_cur w <> Some p
  | VFault _ va => is_u32 va
  | VMalloc sz => kmalloc_size sz
  | VFree q => is_Some (g_asked (w_mem w) !! q) /\ w_spaces w !! q = None
  | _ => True
  end.

(** The machine after startup: [r] is the ram, [m] what it contains. *)
Definition no_entries : list (Z * Z) := (fun i => (TLBHI_INVALID (Z.of_nat i), TLBLO_INVALID)) <$> seq 0 NUM_TLB.
Definition boot (r : ram) (m : list Z) : world :=
  World (Vmsys no_entries m 0) (Gheap (kheap_init (Gram r ∅)) ∅) ∅ None None.

Inductive vm_reach (r : ram) (m : list Z) : world -> Prop :=
  | reach_boot : vm_reach r m (boot r m)
  | reach_step w op w' : vm_reach r m w -> vmop_ok op w -> vm_step op w = Some w' -> vm_reach r m w'.

(** ** The processor *)

(** The entry is valid, and the address that it maps [va] to. *)
Definition valid (e : Z * Z) : Prop := Z.land e.2 TLBLO_VALID <> 0.
Definition maps (tlb : list (Z * Z)) (va pa : Z) : Prop :=
  exists e, e ∈ tlb /\ valid e /\ Z.land e.1 PAGE_FRAME = Z.land va PAGE_FRAME /\
    pa = Z.land e.2 PAGE_FRAME + va `mod` 4096.

(** The physical address is on one of the pages. *)
Definition in_run (r : Z * Z) (pa : Z) : Prop := r.1 <= pa < r.1 + r.2 * 4096.

(** ** Entries *)

Lemma lor_page page x :
  0 <= page < 2 ^ 32 -> page `mod` 4096 = 0 -> 0 <= x < 4096 -> Z.lor page x = page + x.
Proof.
  intros Hp Hm Hx. assert (page + x = Z.lor (Z.ldiff (page + x) PAGE_FRAME) (Z.land (page + x) PAGE_FRAME)) as ->
    by (symmetry; apply Z.lor_ldiff_and).
  pose proof (Z.div_mod page 4096) as Hdm.
  rewrite ldiff_frame, land_frame by lia. rewrite Z.add_mod, Hm, Z.add_0_l, Z.mod_mod, (Z.mod_small x) by lia.
  rewrite Z.lor_comm. f_equal. lia.
Qed.

Definition entry_lo (pa : Z) : Z := Z.lor (Z.lor pa TLBLO_DIRTY) TLBLO_VALID.

Lemma entry_lo_frame pa :
  0 <= pa -> pa + 4096 <= 2 ^ 32 -> pa `mod` 4096 = 0 -> Z.land (entry_lo pa) PAGE_FRAME = pa.
Proof.
  intros H0 Hb Hm. unfold entry_lo. rewrite <- Z.lor_assoc. change (Z.lor TLBLO_DIRTY TLBLO_VALID) with 0x600.
  rewrite lor_page, land_frame by lia. rewrite Z.add_mod, Hm by done. change ((0 + 0x600 `mod` 4096) `mod` 4096) with 0x600. lia.
Qed.

Lemma page_aligned x : is_u32 x -> Z.land x PAGE_FRAME `mod` 4096 = 0 /\ 0 <= Z.land x PAGE_FRAME <= x.
Proof.
  intros Hx. rewrite land_frame by done. unfold is_u32 in Hx. pose proof (Z.div_mod x 4096). pose proof (Z.mod_pos_bound x 4096).
  split; [|lia]. replace (x - x `mod` 4096) with (x / 4096 * 4096) by lia. by apply Z.mod_mul.
Qed.

(** ** The invariant *)

(** What a valid entry is. *)
Record entry_ok (w : world) (e : Z * Z) (pa : Z) : Prop := {
  en_hi : Z.land e.1 PAGE_FRAME = e.1 /\ e.1 `mod` 4096 = 0;
  en_lo : e.2 = entry_lo pa;
  en_free : 0 <= pa /\ pa `mod` 4096 = 0 /\ pa + 4096 <= free_from (w_mem w);
  en_owner : forall p, w_owner w = Some p -> exists a, w_spaces w !! p = Some a /\ as_set_up a = true /\
    translate a e.1 = Some pa;
  en_others : forall p a r, w_spaces w !! p = Some a -> w_owner w <> Some p -> r ∈ frames a -> apart (pa, 1) r;
  en_kernel : forall q n, runs (w_mem w) !! q = Some n -> apart (pa, 1) (q - MIPS_KSEG0, n);
}.

Record vm_inv (w : world) : Prop := {
  vi_heap : gheap_ok (w_mem w);
  vi_tlb : length (v_tlb (w_vm w)) = NUM_TLB;
  vi_struct : forall p, is_Some (w_spaces w !! p) -> is_Some (g_asked (w_mem w) !! p);
  vi_sizes : forall p a, w_spaces w !! p = Some a -> sizes_ok a;
  vi_frames : forall p a r, w_spaces w !! p = Some a -> r ∈ frames a ->
    0 < r.1 /\ between 0 (free_from (w_mem w)) r;
  vi_apart : forall p q a b r r', w_spaces w !! p = Some a -> w_spaces w !! q = Some b -> p <> q ->
    r ∈ frames a -> r' ∈ frames b -> apart r r';
  vi_kernel : forall p a r q n, w_spaces w !! p = Some a -> r ∈ frames a -> runs (w_mem w) !! q = Some n ->
    apart (q - MIPS_KSEG0, n) r;
  vi_cur : forall p, w_cur w = Some p -> w_owner w = Some p /\ is_Some (w_spaces w !! p);
  vi_entry : forall e, e ∈ v_tlb (w_vm w) -> valid e -> exists pa, entry_ok w e pa;
  vi_owner : forall p, w_owner w = Some p -> is_Some (w_spaces w !! p);
}.

Lemma unloaded_frames a : unloaded a -> frames a = [].
Proof. intros (E1 & E2 & E3). unfold frames. rewrite E1, E2, E3. done. Qed.

Lemma unloaded_not_set_up a : unloaded a -> as_set_up a = false.
Proof. intros (E1 & _). unfold as_set_up. rewrite E1. simpl. by rewrite andb_false_r. Qed.

(** The kernel's memory grows, the spaces stay. *)
Lemma inv_mem s h sp cur own h' :
  vm_inv (World s h sp cur own) -> gheap_ok h' -> mem_grow h h' ->
  (forall p, is_Some (sp !! p) -> is_Some (g_asked h' !! p)) -> vm_inv (World s h' sp cur own).
Proof.
  intros [Hh Ht Hs Hz Hf Ha Hk Hc He Hw] Hh' [Hle Hr] Hst. simpl in *. constructor; simpl; try done.
  - intros p a r Hp Hin. destruct (Hf p a r Hp Hin) as (? & ? & ? & ? & ?). unfold between. lia.
  - intros p a r q n Hp Hin Hq. destruct (Hr q n Hq) as [Hq'|Hnew]; [by eapply Hk|].
    destruct (Hf p a r Hp Hin) as (_ & _ & _ & _ & ?). right. simpl. lia.
  - intros e Hin Hv. destruct (He e Hin Hv) as (pa & [Hhi Hlo (H0 & Hm & Hb) Hown Hoth Hker]). exists pa.
    simpl in *. constructor; simpl; try done; [lia|]. intros q n Hq.
    destruct (Hr q n Hq) as [Hq'|Hnew]; [by eapply Hker|]. left. simpl. lia.
Qed.

(** A space is changed that had no pages before, and gets pages that were free in [h]. *)
Lemma inv_space s h sp cur own h' p a :
  vm_inv (World s h sp cur own) -> gheap_ok h' -> mem_grow h h' ->
  (forall q, is_Some (<[p := a]> sp !! q) -> is_Some (g_asked h' !! q)) -> runs h' = runs h ->
  (forall a0, sp !! p = Some a0 -> as_set_up a0 = false) -> sizes_ok a ->
  (forall r, r ∈ frames a -> 0 < r.1 /\ between (free_from h) (free_from h') r) ->
  vm_inv (World s h' (<[p := a]> sp) cur own).
Proof.
  intros Hinv Hh' [Hle _] Hst Hruns Hold Hsz Hfr. pose proof Hinv as [Hh Ht Hs Hz Hf Ha Hk Hc He Hw].
  simpl in *. pose proof (gheap_gram _ Hh) as (_ & Hrun & _).
  assert (forall q b r, sp !! q = Some b -> r ∈ frames b -> r.1 + r.2 * 4096 <= free_from h) as Hbelow.
  { intros q b r Hq Hr. by destruct (Hf q b r Hq Hr) as (_ & _ & _ & _ & ?). }
  assert (forall r r', r ∈ frames a -> r'.1 + r'.2 * 4096 <= free_from h -> apart r r' /\ apart r' r) as Hap.
  { intros r r' Hr Hr'. destruct (Hfr r Hr) as (_ & ? & _). split; [right|left]; lia. }
  constructor; simpl; try done.
  - intros q b [[<- <-]|[_ Hq]]%lookup_insert_Some; [done|by eapply Hz].
  - intros q b r [[<- <-]|[_ Hq]]%lookup_insert_Some Hr.
    + destruct (Hfr r Hr) as (? & ? & ? & ? & ?). unfold between. lia.
    + destruct (Hf q b r Hq Hr) as (? & ? & ? & ? & ?). unfold between. lia.
  - intros q q' b b' r r' [[<- <-]|[_ Hq]]%lookup_insert_Some [[<- <-]|[_ Hq']]%lookup_insert_Some Hne Hr Hr';
      [done|destruct (Hap r r' Hr); [by eapply Hbelow|done]|destruct (Hap r' r Hr'); [by eapply Hbelow|done]|
       by eapply (Ha q q')].
  - rewrite Hruns. intros q b r x n [[<- <-]|[_ Hq]]%lookup_insert_Some Hr Hx; [|by eapply Hk].
    destruct (Hap r (x - MIPS_KSEG0, n) Hr); [|done]. simpl. apply Hrun in Hx. unfold free_from, the_ram. lia.
  - intros q Hq. destruct (Hc q Hq) as [? ?]. split; [done|]. apply lookup_insert_is_Some'. by right.
  - intros e Hin Hv. destruct (He e Hin Hv) as (pa & [Hhi Hlo (H0 & Hm & Hb) Hown Hoth Hker]). exists pa. simpl in *.
    constructor; simpl; [done|done|lia| | |by rewrite Hruns].
    + intros q Hq. destruct (Hown q Hq) as (b & Hb' & Hset & Htr). exists b. split; [|done].
      rewrite lookup_insert_ne; [done|]. intros ->. by rewrite (Hold b Hb') in Hset.
    + intros q b r [[<- <-]|[_ Hq]]%lookup_insert_Some Hne Hr; [|by eapply Hoth].
      destruct (Hap r (pa, 1) Hr); [simpl; lia|done].
  - intros q Hq. apply lookup_insert_is_Some'. right. by apply Hw.
Qed.

(** ** The operations *)

Lemma as_create_ok (h : kmemory) new h' :
  gheap_ok h -> as_create h = Some (new, h') ->
  gheap_ok h' /\ mem_grow h h' /\
  match new with
  | None => g_asked h' = g_asked h
  | Some (p, a) => a = as_empty /\ g_asked h !! p = None /\ g_asked h' = <[p := sizeof_addrspace]> (g_asked h)
  end.
Proof.
  intros Hok E. pose proof (Hok : heap_ok h) as Hh. unfold as_create in E.
  assert (kmalloc_size sizeof_addrspace) as Hsz by done.
  destruct (kmalloc sizeof_addrspace h) as [[p h1]|] eqn:Ek; [|done]. cbn [mbind option_bind] in E.
  pose proof (kmalloc_grow _ _ _ _ Hok Hsz Ek) as Hg. destruct (p =? 0) eqn:Ep; boolify; injection E as <- <-.
  - subst p. by destruct (kmalloc_null _ _ _ Hh Hsz Ek).
  - by destruct (kmalloc_block _ _ _ _ Hh Hsz Ek Ep) as (? & ? & ?).
Qed.

Lemma as_define_sizes vaddr sz a :
  sizes_ok a -> is_u32 vaddr -> region_pages vaddr sz <= 7 * 2 ^ 17 ->
  sizes_ok (as_define_region vaddr sz a).2.
Proof.
  intros (H1 & H2 & H3 & H4) Hv Hle. unfold as_define_region. unfold region_pages in Hle.
  set (x := u32 (u32 _ + _ - 1)) in *. assert (is_u32 x) as Hx by apply u32_range.
  assert (0 <= Z.land x PAGE_FRAME / PAGE_SIZE) as Hn.
  { destruct (page_aligned x Hx) as [_ [? _]]. by apply Z.div_pos. }
  assert (is_u32 (Z.land vaddr PAGE_FRAME)) as Hva.
  { destruct (page_aligned vaddr Hv) as [_ ?]. unfold is_u32 in *. lia. }
  destruct (as_vbase1 a =? 0); [done|]. by destruct (as_vbase2 a =? 0).
Qed.

Lemma flush_entries n i s :
  (i + n <= length (v_tlb s))%nat ->
  length (v_tlb (flush n i s)) = length (v_tlb s) /\
  forall j e, v_tlb (flush n i s) !! j = Some e ->
    if decide (i <= j < i + n)%nat then e.2 = TLBLO_INVALID else v_tlb s !! j = Some e.
Proof.
  revert i s. induction n as [|n IH]; intros i s Hl; simpl.
  { split; [done|]. intros j e Hj. rewrite decide_False by lia. done. }
  destruct (IH (S i) (TLB_Write (TLBHI_INVALID (Z.of_nat i)) TLBLO_INVALID i s)) as [El Hj].
  { simpl. rewrite length_insert. lia. }
  simpl in El. rewrite length_insert in El. split; [done|]. intros j e E. specialize (Hj j e E).
  case_decide as Hd.
  - rewrite decide_True by lia. done.
  - simpl in Hj. destruct (decide (j = i)) as [->|Hne].
    + rewrite list_lookup_insert_eq in Hj by lia. rewrite decide_True by lia. by injection Hj as <-.
    + rewrite list_lookup_insert_ne in Hj by done. rewrite decide_False by lia. done.
Qed.

(** [as_activate], for any number of entries. *)
Lemma flushed n s spl :
  length (v_tlb s) = n ->
  let s' := set_spl spl (flush n 0 (set_spl SPL_HIGH s)) in
  length (v_tlb s') = n /\ forall e, e ∈ v_tlb s' -> ~ valid e.
Proof.
  intros Hl. cbn zeta. destruct (flush_entries n 0 (set_spl SPL_HIGH s)) as [El He]; [simpl; lia|].
  simpl in *. split; [lia|]. intros e [j Hj]%list_elem_of_lookup_1 Hv.
  pose proof (lookup_lt_Some _ _ _ Hj) as Hlt. specialize (He j e Hj).
  rewrite decide_True in He by lia. unfold valid in Hv. by rewrite He in Hv.
Qed.

Lemma as_activate_length s : length (v_tlb s) = NUM_TLB -> length (v_tlb (as_activate s)) = NUM_TLB.
Proof. intros Hl. apply (flushed NUM_TLB s (v_spl s) Hl). Qed.

Lemma as_activate_invalid s e :
  length (v_tlb s) = NUM_TLB -> e ∈ v_tlb (as_activate s) -> ~ valid e.
Proof. intros Hl. apply (flushed NUM_TLB s (v_spl s) Hl). Qed.

Lemma as_set_up_facts a : as_set_up a = true ->
  as_pbase1 a <> 0 /\ as_pbase2 a <> 0 /\ as_stackpbase a <> 0 /\
  Z.land (as_vbase1 a) PAGE_FRAME = as_vbase1 a /\ Z.land (as_vbase2 a) PAGE_FRAME = as_vbase2 a.
Proof. unfold as_set_up. intros E. boolify. done. Qed.

(** A page is mapped to the page of a region at the same place. *)
Lemma translate_frame a va pa F :
  sizes_ok a -> as_set_up a = true -> (forall r, r ∈ frames a -> between 0 F r) -> F < 2 ^ 31 ->
  va `mod` 4096 = 0 -> translate a va = Some pa ->
  pa `mod` 4096 = 0 /\ exists r, r ∈ frames a /\ r.1 <= pa /\ pa + 4096 <= r.1 + r.2 * 4096.
Proof.
  intros (Hn1 & Hn2 & Hv1 & Hv2) Hset Hfr HF Hva Htr.
  destruct (as_set_up_facts a Hset) as (Hp1 & Hp2 & Hp3 & Hal1 & Hal2).
  assert (forall vb pb n lim, is_u32 vb -> Z.land vb PAGE_FRAME = vb -> pb <> 0 -> 0 <= n -> lim <= vb + n * 4096 ->
    between 0 F (pb, n) -> vb <= va < lim ->
    u32 (va - vb + pb) `mod` 4096 = 0 /\ pb <= u32 (va - vb + pb) /\ u32 (va - vb + pb) + 4096 <= pb + n * 4096) as Hreg.
  { intros vb pb n lim Hvb Hal Hpb Hn Hlim (Hb0 & Hm & _ & Hend) Hin. simpl in *.
    destruct (page_aligned vb Hvb) as [Hvm _]. rewrite Hal in Hvm.
    apply Z.mod_divide in Hvm as [x Ex], Hva as [y Ey], Hm as [z Ez]; [|done..].
    assert (u32 (va - vb + pb) = (y - x + z) * 4096) as E by (rewrite u32_id; [lia|unfold is_u32; lia]).
    rewrite E. split; [by apply Z.mod_mul|]. lia. }
  unfold translate in Htr.
  assert (forall vb n, is_u32 vb -> 0 <= n -> u32 (vb + n * PAGE_SIZE) <= vb + n * 4096) as Hu.
  { intros vb n [? ?] Hn. unfold u32, PAGE_SIZE. apply Z.mod_le; [|done]. nia. }
  destruct ((as_vbase1 a <=? va) && _) eqn:E1; [|destruct ((as_vbase2 a <=? va) && _) eqn:E2;
    [|destruct ((_ <=? va) && (va <? USERSTACK)) eqn:E3; [|done]]]; injection Htr as <-; boolify.
  - assert ((as_pbase1 a, as_npages1 a) ∈ frames a) as Hin by (apply elem_of_frames; auto).
    destruct (Hreg (as_vbase1 a) (as_pbase1 a) (as_npages1 a) (u32 (as_vbase1 a + as_npages1 a * PAGE_SIZE)))
      as (Hm & ? & ?); [done|done|done|lia|apply Hu; [done|lia]|by apply Hfr|lia|]. split; [done|]. by eexists.
  - assert ((as_pbase2 a, as_npages2 a) ∈ frames a) as Hin by (apply elem_of_frames; auto).
    destruct (Hreg (as_vbase2 a) (as_pbase2 a) (as_npages2 a) (u32 (as_vbase2 a + as_npages2 a * PAGE_SIZE)))
      as (Hm & ? & ?); [done|done|done|lia|apply Hu; [done|lia]|by apply Hfr|lia|]. split; [done|]. by eexists.
  - assert ((as_stackpbase a, DUMBVM_STACKPAGES) ∈ frames a) as Hin by (apply elem_of_frames; auto).
    destruct (Hreg (USERSTACK - DUMBVM_STACKPAGES * PAGE_SIZE) (as_stackpbase a) DUMBVM_STACKPAGES USERSTACK)
      as (Hm & ? & ?); [done|done|done|done|done|by apply Hfr|lia|]. split; [done|]. by eexists.
Qed.

Lemma tlb_fill_entry n i ehi elo s b s' :
  tlb_fill n i ehi elo s = Some (b, s') ->
  s' = s /\ b = false \/ b = true /\ exists j, (j < length (v_tlb s))%nat /\ s' = TLB_Write ehi elo j s.
Proof.
  revert i. induction n as [|n IH]; intros i E; simpl in E; [injection E as <- <-; by left|].
  destruct (v_tlb s !! i) as [[hi lo]|] eqn:Ei; [|done]. cbn [mbind option_bind] in E.
  destruct (negb _); [by eapply IH|]. injection E as <- <-. right. split; [done|]. exists i.
  split; [by eapply lookup_lt_Some|done].
Qed.

(** A fault changes at most one entry of the TLB, to what the space says. *)
Lemma vm_fault_entry ft va oa s r s' :
  vm_fault ft va oa s = Some (r, s') ->
  v_mem s' = v_mem s /\
  (v_tlb s' = v_tlb s /\ r <> 0 \/
   exists a pa j, oa = Some a /\ r = 0 /\ as_set_up a = true /\ translate a (Z.land va PAGE_FRAME) = Some pa /\
     (j < length (v_tlb s))%nat /\ v_tlb s' = <[j := (Z.land va PAGE_FRAME, entry_lo pa)]> (v_tlb s)).
Proof.
  unfold vm_fault. intros E. destruct (ft =? VM_FAULT_READONLY); [done|].
  destruct (negb _); [injection E as <- <-; split; [done|by left]|].
  destruct oa as [a|]; [|injection E as <- <-; split; [done|by left]].
  destruct (as_set_up a) eqn:Hset; [|done]. destruct (translate a _) as [pa|] eqn:Htr.
  2:{ injection E as <- <-. split; [done|by left]. }
  destruct (_ =? pa); [|done].
  destruct (tlb_fill _ _ _ _ _) as [[b s1]|] eqn:Ef; [|done]. cbn [mbind option_bind] in E.
  destruct (tlb_fill_entry _ _ _ _ _ _ _ Ef) as [[-> ->]|(-> & j & Hj & ->)]; injection E as <- <-.
  - split; [done|by left].
  - split; [done|]. right. by exists a, pa, j.
Qed.

(** ** Every step keeps the invariant *)

Lemma free_bound (h : kmemory) : gheap_ok h -> free_from h < 2 ^ 29.
Proof. intros Hok. destruct (gheap_gram _ Hok) as ((? & _) & _). unfold free_from, the_ram. lia. Qed.

Lemma entry_vm s s' h sp cur cur' own e pa :
  entry_ok (World s h sp cur own) e pa -> entry_ok (World s' h sp cur' own) e pa.
Proof. by intros [? ? ? ? ? ?]. Qed.

Lemma inv_fault s h sp cur own ft va r s' :
  vm_inv (World s h sp cur own) -> is_u32 va -> vm_fault ft va (p ← cur; sp !! p) s = Some (r, s') ->
  vm_inv (World s' h sp cur own).
Proof.
  intros Hinv Hva E. pose proof Hinv as [Hh Ht Hs Hz Hf Ha Hk Hc He Hw]. simpl in *.
  destruct (vm_fault_entry _ _ _ _ _ _ E) as [_ [[Et _]|(a & pa & j & Ea & _ & Hset & Htr & Hj & Et)]].
  { constructor; simpl; rewrite ?Et; try done. intros e Hin Hv. destruct (He e Hin Hv) as [pa Hpa].
    exists pa. by eapply entry_vm. }
  destruct cur as [p|]; [|done]. simpl in Ea. destruct (Hc p eq_refl) as [-> _].
  destruct (page_aligned va Hva) as [Hvm _]. pose proof (free_bound h Hh) as Hfb.
  destruct (translate_frame a (Z.land va PAGE_FRAME) pa (free_from h) (Hz p a Ea) Hset) as (Hpm & fr & Hfr & Hlo & Hhi); [|lia|done|done|].
  { intros fr Hfr. by destruct (Hf p a fr Ea Hfr). }
  destruct (Hf p a fr Ea Hfr) as (Hpos & _ & _ & _ & Hend).
  constructor; simpl; rewrite ?Et, ?length_insert; try done.
  intros e Hin Hv. apply list_elem_of_lookup_1 in Hin as [i Hi].
  destruct (decide (i = j)) as [->|Hne].
  - rewrite list_lookup_insert_eq in Hi by done. injection Hi as <-. exists pa. constructor; simpl.
    + split; [|done]. by rewrite <- Z.land_assoc.
    + done.
    + split; [lia|]. split; [done|lia].
    + intros q [= <-]. by exists a.
    + intros q b r' Hq Hne Hr'. assert (p <> q) as Hpq by congruence.
      destruct (Ha p q a b fr r' Ea Hq Hpq Hfr Hr'); [left|right]; simpl; lia.
    + intros q n Hq. destruct (Hk p a fr q n Ea Hfr Hq) as [Hx|Hx]; simpl in Hx; [right|left]; simpl; lia.
  - rewrite list_lookup_insert_ne in Hi by done. destruct (He e) as [pa' Hpa]; [by eapply list_elem_of_lookup_2|done|].
    exists pa'. by eapply entry_vm.
Qed.

Lemma inv_activate s h sp cur own p :
  vm_inv (World s h sp cur own) -> is_Some (sp !! p) -> vm_inv (World (as_activate s) h sp (Some p) (Some p)).
Proof.
  intros [Hh Ht Hs Hz Hf Ha Hk Hc He Hw] Hp. simpl in *. constructor; cbn [w_vm w_mem w_spaces w_cur w_owner]; try done.
  - by apply as_activate_length.
  - by intros q [= <-].
  - intros e Hin Hv. by apply (as_activate_invalid s e) in Hin.
  - by intros q [= <-].
Qed.

Lemma inv_destroy s h sp cur own p h' :
  vm_inv (World s h sp cur own) -> cur <> Some p -> is_Some (sp !! p) -> kfree p h = Some h' ->
  vm_inv (World s h' (delete p sp) cur (if decide (own = Some p) then None else own)).
Proof.
  intros Hinv Hcur Hp Ek. pose proof Hinv as [Hh Ht Hs Hz Hf Ha Hk Hc He Hw].
  cbn [w_vm w_mem w_spaces w_cur w_owner] in *. destruct (kfree_shrink _ _ _ Ek) as [Ef Hruns].
  pose proof (Hh : heap_ok h) as Hh2. destruct (kfree_live h p Hh2) as (h2 & E2 & Hok & Eb); [by apply Hs|].
  rewrite Ek in E2. injection E2 as <-. simpl in Eb, Hok.
  constructor; simpl; rewrite ?Ef; try done.
  - intros q Hq. rewrite lookup_delete_is_Some in Hq. rewrite Eb, lookup_delete_is_Some. split; [apply Hq|]. apply Hs, Hq.
  - intros q a [_ Hq]%lookup_delete_Some. by eapply Hz.
  - intros q a r [_ Hq]%lookup_delete_Some. by eapply Hf.
  - intros q q' a b r r' [_ Hq]%lookup_delete_Some [_ Hq']%lookup_delete_Some. by eapply Ha.
  - intros q a r x n [_ Hq]%lookup_delete_Some Hr' Hx. eapply Hk; eauto.
  - intros q Hq. destruct (Hc q Hq) as [-> Hq']. rewrite decide_False by congruence. split; [done|].
    apply lookup_delete_is_Some. split; [congruence|done].
  - intros e Hin Hv. destruct (He e Hin Hv) as (pa & [Hhi Hlo Hfr Hown Hoth Hker]). exists pa. simpl in *.
    constructor; simpl; rewrite ?Ef; try done; [..|intros q n Hq; by apply Hker, Hruns].
    + intros q Hq. case_decide as Hd; [done|]. destruct (Hown q Hq) as (a & Ha' & Hrest). exists a. split; [|done].
      rewrite lookup_delete_ne; [done|]. congruence.
    + intros q a r [Hne Hq]%lookup_delete_Some Hq' Hr'. eapply Hoth; [done| |done].
      case_decide as Hd; [|done]. congruence.
  - intros q. case_decide as Hd; [done|]. intros Hq. apply lookup_delete_is_Some. split; [congruence|by apply Hw].
Qed.

Lemma inv_create s h sp cur own p a h' :
  vm_inv (World s h sp cur own) -> as_create h = Some (Some (p, a), h') ->
  a = as_empty /\ g_asked h' !! p <> None /\ sp !! p = None /\ vm_inv (World s h' sp cur own) /\
  vm_inv (World s h' (<[p := a]> sp) cur own).
Proof.
  intros Hinv Ec. pose proof (vi_heap _ Hinv) as Hh. cbn [w_mem] in Hh.
  destruct (as_create_ok _ _ _ Hh Ec) as (Hh' & Hg & -> & Hnew & Eb).
  assert (sp !! p = None) as Hsp.
  { destruct (sp !! p) as [a|] eqn:E; [|done].
    destruct (vi_struct _ Hinv p) as [x Hx]; [cbn; by rewrite E|]. cbn in Hx. congruence. }
  assert (vm_inv (World s h' sp cur own)) as Hinv'.
  { eapply inv_mem; [done|done|done|]. intros q Hq. rewrite Eb. apply lookup_insert_is_Some'. right.
    by apply (vi_struct _ Hinv q). }
  split; [done|]. split; [by rewrite Eb, lookup_insert_eq|]. split; [done|]. split; [done|].
  apply (inv_space s h' sp cur own h' p as_empty Hinv'); try done.
  - apply mem_grow_refl.
  - intros q Hq. rewrite Eb. apply lookup_insert_is_Some' in Hq as [<-|Hq]; apply lookup_insert_is_Some'; [by left|].
    right. by apply (vi_struct _ Hinv q).
  - intros a0. by rewrite Hsp.
  - intros r Hr. rewrite unloaded_frames in Hr by done. by apply not_elem_of_nil in Hr.
Qed.

(** Taking the pages of a space that had none. *)
Lemma inv_load s h sp cur own p a res a' r :
  vm_inv (World s h sp cur own) -> (forall a0, sp !! p = Some a0 -> as_set_up a0 = false) ->
  is_Some (g_asked h !! p) -> sizes_ok a -> as_prepare_load a (the_ram h) = Some (res, a', r) ->
  vm_inv (World s (set_ram r h) (<[p := a']> sp) cur own) /\ vm_inv (World s (set_ram r h) sp cur own).
Proof.
  intros Hinv Hold Hst Hsz E. pose proof (vi_heap _ Hinv) as Hh. cbn [w_mem] in Hh.
  destruct (gheap_gram _ Hh) as (Hram & _).
  destruct (as_prepare_load_ok _ _ _ _ _ Hram Hsz E) as (Hr & Hle & Ea & Hfr & _).
  destruct (set_ram_ok h r Hh Hr Hle) as [Hh' Hg]. split.
  - apply (inv_space s h sp cur own); try done.
    + intros q Hq. apply lookup_insert_is_Some' in Hq as [<-|Hq]; [done|]. by apply (vi_struct _ Hinv q).
    + rewrite Ea. destruct Hsz as (? & ? & ? & ?). done.
  - eapply inv_mem; [done|done|done|]. intros q Hq. by apply (vi_struct _ Hinv q).
Qed.

Lemma as_prepare_unloaded a r x : as_prepare_load a r = Some x -> unloaded a.
Proof. unfold as_prepare_load. intros E. do 3 (case_match; [|done]). boolify. done. Qed.

Lemma inv_malloc s h sp cur own sz p h' :
  vm_inv (World s h sp cur own) -> kmalloc_size sz -> kmalloc sz h = Some (p, h') ->
  vm_inv (World s h' sp cur own).
Proof.
  intros Hinv Hsz Ek. pose proof (vi_heap _ Hinv) as Hok. cbn [w_mem] in Hok. pose proof (Hok : heap_ok h) as Hh.
  pose proof (kmalloc_grow _ _ _ _ Hok Hsz Ek) as Hg. destruct (decide (p = 0)) as [->|Hp].
  - destruct (kmalloc_null _ _ _ Hh Hsz Ek) as [Hok' Eb]. eapply inv_mem; [done|done|done|]. intros q Hq.
    simpl in Eb. rewrite Eb. by apply (vi_struct _ Hinv q).
  - destruct (kmalloc_block _ _ _ _ Hh Hsz Ek Hp) as (Hok' & _ & Eb). eapply inv_mem; [done|done|done|]. intros q Hq.
    simpl in Eb. rewrite Eb. apply lookup_insert_is_Some'. right. by apply (vi_struct _ Hinv q).
Qed.

Lemma inv_free s h sp cur own q h' :
  vm_inv (World s h sp cur own) -> is_Some (g_asked h !! q) -> sp !! q = None -> kfree q h = Some h' ->
  vm_inv (World s h' sp cur own).
Proof.
  intros Hinv Hq Hsp Ek. pose proof (vi_heap _ Hinv) as Hok. cbn [w_mem] in Hok. pose proof (Hok : heap_ok h) as Hh.
  destruct (kfree_live h q Hh Hq) as (h2 & E2 & Hok' & Eb). rewrite Ek in E2. injection E2 as <-.
  eapply inv_mem; [done|done|by eapply kfree_grow|]. intros p Hp. simpl in Eb. rewrite Eb.
  apply lookup_delete_is_Some. split; [|by apply (vi_struct _ Hinv p)]. intros ->. rewrite Hsp in Hp. by destruct Hp.
Qed.

Lemma inv_mem_bytes s h sp cur own m :
  vm_inv (World s h sp cur own) -> vm_inv (World (set_mem m s) h sp cur own).
Proof.
  intros [Hh Ht Hs Hz Hf Ha Hk Hc He Hw]. simpl in *. constructor; try done. intros e Hin Hv.
  destruct (He e Hin Hv) as [pa Hpa]. exists pa. by eapply entry_vm.
Qed.

Lemma inv_copy s h sp cur own p a r new m h' :
  vm_inv (World s h sp cur own) -> sp !! p = Some a -> as_copy a (v_mem s) h = Some (r, new, m, h') ->
  vm_inv (World s h' (match new with Some (q, b) => <[q := b]> sp | None => sp end) cur own).
Proof.
  intros Hinv Hp E. unfold as_copy in E. destruct (as_create h) as [[[[q b]|] h1]|] eqn:Ec; [|..|done];
    cbn [mbind option_bind] in E.
  2:{ injection E as <- <- <- <-. pose proof (vi_heap _ Hinv) as Hh.
      destruct (as_create_ok _ _ _ Hh Ec) as (Hh' & Hg & Eb). eapply inv_mem; [done|done|done|].
      intros x Hx. rewrite Eb. by apply (vi_struct _ Hinv x). }
  destruct (inv_create _ _ _ _ _ _ _ _ Hinv Ec) as (-> & Hst & Hnew & Hinv1 & _).
  set (b := Addrspace _ _ _ _ _ _ _) in E.
  assert (sizes_ok b) as Hsz by exact (vi_sizes _ Hinv p a Hp).
  destruct (as_prepare_load b (the_ram h1)) as [[[res b'] rm]|] eqn:El; [|done]. cbn [mbind option_bind] in E.
  destruct (inv_load s h1 sp cur own q b res b' rm Hinv1) as [Hinv2 Hinv3]; [by rewrite Hnew|by apply not_eq_None_Some|done|done|].
  destruct (negb (res =? 0)).
  - destruct (as_destroy q (set_ram rm h1)) as [h2|] eqn:Ed; [|done]. cbn [mbind option_bind] in E.
    injection E as <- <- <- <-. eapply (inv_free _ _ _ _ _ q); [done|by apply not_eq_None_Some|done|done].
  - do 3 (case_match; [|done]). destruct (copy_pages _ _ _ _) as [m1|]; [|done]. cbn [mbind option_bind] in E.
    destruct (copy_pages _ _ _ m1) as [m2|]; [|done]. cbn [mbind option_bind] in E.
    destruct (copy_pages _ _ _ m2) as [m3|]; [|done]. cbn [mbind option_bind] in E. by injection E as <- <- <- <-.
Qed.

Lemma vm_step_inv op w w' : vm_inv w -> vmop_ok op w -> vm_step op w = Some w' -> vm_inv w'.
Proof.
  intros Hinv Hop E. destruct w as [s h sp cur own]. destruct op; cbn [vm_step] in E; cbn [vmop_ok w_spaces w_cur w_mem] in Hop.
  - destruct (as_create h) as [[[[p a]|] h1]|] eqn:Ec; [|..|done]; cbn [mbind option_bind] in E; injection E as <-.
    + by eapply inv_create.
    + pose proof (vi_heap _ Hinv) as Hh. destruct (as_create_ok _ _ _ Hh Ec) as (Hh' & Hg & Eb).
      eapply inv_mem; [done|done|done|]. intros x Hx. rewrite Eb. by apply (vi_struct _ Hinv x).
  - destruct Hop as [(a & Hp & Hun) (Hv & Hs & Hle)]. rewrite Hp in E. cbn [mbind option_bind] in E. injection E as <-.
    pose proof (as_define_sizes vaddr sz a (vi_sizes _ Hinv p a Hp) Hv Hle) as Hsz.
    assert (unloaded (as_define_region vaddr sz a).2) as Hun'.
    { destruct Hun as (? & ? & ?). unfold as_define_region, unloaded.
      destruct (as_vbase1 a =? 0); simpl; [done|]. by destruct (as_vbase2 a =? 0). }
    apply (inv_space s h sp cur own h); try done; [apply (vi_heap _ Hinv)|apply mem_grow_refl|..].
    + intros q Hq. apply (vi_struct _ Hinv q). apply lookup_insert_is_Some' in Hq as [<-|Hq]; [by eexists|done].
    + intros a0 Ha0. rewrite Hp in Ha0. injection Ha0 as <-. by apply unloaded_not_set_up.
    + intros r Hr. rewrite unloaded_frames in Hr by done. by apply not_elem_of_nil in Hr.
  - destruct Hop as [a Hp]. rewrite Hp in E. cbn [mbind option_bind] in E.
    destruct (as_prepare_load a (the_ram h)) as [[[res a'] r]|] eqn:El; [|done]. cbn [mbind option_bind] in E. injection E as <-.
    destruct (inv_load s h sp cur own p a res a' r Hinv) as [Hinv' _];
      [|by apply (vi_struct _ Hinv p); eexists|by apply (vi_sizes _ Hinv p)|done|done].
    intros a0 Ha0. rewrite Hp in Ha0. injection Ha0 as <-. eapply unloaded_not_set_up, as_prepare_unloaded, El.
  - destruct Hop as [a Hp]. rewrite Hp in E. cbn [mbind option_bind] in E.
    destruct (as_copy a (v_mem s) h) as [[[[r new] m] h1]|] eqn:Ec; [|done]. cbn [mbind option_bind] in E.
    pose proof (inv_copy _ _ _ _ _ _ _ _ _ _ _ Hinv Hp Ec) as Hinv'. apply (inv_mem_bytes _ _ _ _ _ m) in Hinv'.
    by destruct new as [[q b]|]; injection E as <-.
  - destruct Hop as [Hp Hc]. destruct (as_destroy p h) as [h1|] eqn:Ed; [|done]. cbn [mbind option_bind] in E. injection E as <-.
    by eapply inv_destroy.
  - injection E as <-. by eapply inv_activate.
  - injection E as <-. destruct Hinv as [Hh Ht Hs Hz Hf Ha Hk Hc He Hw]. constructor; try done.
    intros e Hin Hv. destruct (He e Hin Hv) as [pa Hpa]. exists pa. by eapply entry_vm.
  - destruct (vm_fault _ _ _ _) as [[r s']|] eqn:Ef; [|done]. cbn [mbind option_bind] in E. injection E as <-.
    by eapply inv_fault.
  - destruct (kmalloc sz h) as [[p h1]|] eqn:Ek; [|done]. cbn [mbind option_bind] in E. injection E as <-.
    by eapply inv_malloc.
  - destruct Hop as [Hq Hsp]. destruct (kfree q h) as [h1|] eqn:Ek; [|done]. cbn [mbind option_bind] in E. injection E as <-.
    by eapply inv_free.
Qed.

Lemma boot_inv r m : ram_ok r -> vm_inv (boot r m).
Proof.
  intros Hr. constructor; simpl; try done.
  - apply init_ok; [|done]. split; [done|]. split; simpl; intros *; by rewrite lookup_empty.
  - intros p [a Ha]. by rewrite lookup_empty in Ha.
  - intros e (i & -> & _)%list_elem_of_fmap Hv. by destruct Hv.
Qed.

Lemma reach_inv r m w : ram_ok r -> vm_reach r m w -> vm_inv w.
Proof.
  intros Hr H. induction H as [|w op w' _ IH Hop E]; [by apply boot_inv|by eapply vm_step_inv].
Qed.

(** C2: Memory protection.  Whatever the kernel did before, in any order, with any
    number of address spaces: when a thread of the space [p] runs and the TLB maps the
    address [va], then [p] itself maps that page there; the memory is not that of any
    other space, and not of the kernel heap.  The kernel's calls are those of
    [vmop_ok]: they name spaces that exist; regions are defined before the space is
    loaded, at any address and with up to 3.5 gigabytes; allocations are for up to
    3.5 gigabytes; the space that runs is not destroyed, and what is freed is a block
    of the heap that is not a space. *)
Theorem vm_isolation r m w p va pa :
  ram_ok r -> vm_reach r m w -> w_cur w = Some p -> maps (v_tlb (w_vm w)) va pa ->
  (exists a page fr, w_spaces w !! p = Some a /\ translate a (Z.land va PAGE_FRAME) = Some page /\
     pa = page + va `mod` 4096 /\ fr ∈ frames a /\ in_run fr pa) /\
  (forall q b fr, q <> p -> w_spaces w !! q = Some b -> fr ∈ frames b -> ~ in_run fr pa) /\
  (forall x n, runs (w_mem w) !! x = Some n -> ~ in_run (x - MIPS_KSEG0, n) pa).
Proof.
  intros Hr Hreach Hcur (e & Hin & Hv & Ehi & ->). pose proof (reach_inv r m w Hr Hreach) as Hinv.
  destruct (vi_cur _ Hinv p Hcur) as [Hown _].
  destruct (vi_entry _ Hinv e Hin Hv) as (page & [[Eh Hhm] Hlo (H0 & Hm & Hb) How Hoth Hker]).
  destruct (How p Hown) as (a & Ha & Hset & Htr). pose proof (free_bound _ (vi_heap _ Hinv)) as Hfb.
  rewrite Hlo, entry_lo_frame by lia. rewrite Eh in Ehi.
  destruct (translate_frame a e.1 page (free_from (w_mem w)) (vi_sizes _ Hinv p a Ha) Hset) as (_ & fr & Hfr & Hlo' & Hhi');
    [|lia|done|done|].
  { intros fr Hfr. by destruct (vi_frames _ Hinv p a fr Ha Hfr). }
  pose proof (Z.mod_pos_bound va 4096) as Hmod. split; [|split].
  - exists a, page, fr. rewrite <- Ehi. split; [done|]. split; [done|]. split; [done|]. split; [done|].
    unfold in_run. lia.
  - intros q b fr' Hne Hq Hfr' Hrun. unfold in_run in Hrun.
    destruct (Hoth q b fr' Hq) as [Hx|Hx]; [congruence|done|simpl in Hx; lia..].
  - intros x n Hx Hrun. unfold in_run in Hrun. simpl in Hrun.
    destruct (Hker x n Hx) as [Hy|Hy]; simpl in Hy; lia.
Qed.

(** ** A run of the machine *)

#[global] Instance vmop_ok_dec op w : Decision (vmop_ok op w).
Proof.
  destruct op; simpl; try apply _. apply and_dec; [|apply _].
  destruct (w_spaces w !! p) as [a|].
  - destruct (decide (as_pbase1 a = 0 /\ as_pbase2 a = 0 /\ as_stackpbase a = 0)) as [Hu|Hu].
    + left. by exists a.
    + right. intros (b & [= <-] & Hb). done.
  - right. by intros (b & ? & _).
Defined.

Fixpoint run_vm (ops : list vmop) (w : world) : option world :=
  match ops with
  | [] => Some w
  | op :: ops => if decide (vmop_ok op w) then w ← vm_step op w; run_vm ops w else None
  end.

Lemma run_vm_reach r m ops w w' : vm_reach r m w -> run_vm ops w = Some w' -> vm_reach r m w'.
Proof.
  revert w. induction ops as [|op ops IH]; intros w Hw E; simpl in E; [by injection E as <-|].
  case_decide as Hop; [|done]. destruct (vm_step op w) as [w1|] eqn:E1; [|done]. cbn [mbind option_bind] in E.
  eapply IH; [|exact E]. by eapply reach_step.
Qed.

(** A program with its code at 0x400000 and its data at 0x10000000 touches its code. *)
Definition ram_small : ram := ram_bootstrap (1024 * 1024) 0x80020000.
Definition prog_as : Z := 0x80020fe0.
Definition vm_ops : list vmop :=
  [VCreate; VDefine prog_as 0x400000 8192; VDefine prog_as 0x10000000 100; VPrepare prog_as; VActivate prog_as;
   VFault VM_FAULT_READ 0x400005].

Lemma ram_small_ok : ram_ok ram_small.
Proof. by apply ram_bootstrap_ok. Qed.

Definition vm_run_good (o : option world) : bool :=
  match o with
  | Some w => bool_decide (w_cur w = Some prog_as) &&
      bool_decide (v_tlb (w_vm w) !! 0%nat = Some (0x400000, entry_lo 0x21000))
  | None => false
  end.

Lemma vm_run_good_inv o : vm_run_good o = true -> exists w, o = Some w /\ w_cur w = Some prog_as /\
  v_tlb (w_vm w) !! 0%nat = Some (0x400000, entry_lo 0x21000).
Proof.
  destruct o as [w|]; [|discriminate]. intros Hc. apply andb_true_iff in Hc as [H1 H2].
  apply bool_decide_eq_true in H1, H2. exists w. split; [reflexivity|]. split; assumption.
Qed.

Lemma vm_isolation_witness :
  exists w pa, vm_reach ram_small [] w /\ w_cur w = Some prog_as /\ maps (v_tlb (w_vm w)) 0x400005 pa /\
    pa = 0x21005 /\ (exists a page, w_spaces w !! prog_as = Some a /\
      translate a (Z.land 0x400005 PAGE_FRAME) = Some page /\ pa = page + 5).
Proof.
  destruct (vm_run_good_inv (run_vm vm_ops (boot ram_small []))) as (w & E & Hcur & He);
    [vm_compute; reflexivity|].
  pose proof (run_vm_reach ram_small [] vm_ops _ w (reach_boot _ _) E) as Hreach.
  assert (maps (v_tlb (w_vm w)) 0x400005 0x21005) as Hmaps.
  { exists (0x400000, entry_lo 0x21000). split; [exact (list_elem_of_lookup_2 _ _ _ He)|]. split; [discriminate|].
    split; reflexivity. }
  exists w, 0x21005. split; [exact Hreach|]. split; [exact Hcur|]. split; [exact Hmaps|]. split; [reflexivity|].
  destruct (vm_isolation ram_small [] w prog_as 0x400005 0x21005 ram_small_ok Hreach Hcur Hmaps)
    as [(a & page & fr & Ha & Htr & Epa & _) _].
  exists a, page. split; [exact Ha|]. split; [exact Htr|exact Epa].
Defined.
