(* ===== verification/DumbvmCopy.v ===== *)
(** * Copies of address spaces

    [as_copy] of dumbvm.c gives the new space pages of its own, with the bytes of the
    old space at every user address. *)

From stdpp Require Import base option list gmap numbers.
From S2P Require Import Prelude Kmem Kheap KheapInv KheapSpec Ram KheapRun Cstring Dumbvm DumbvmInv DumbvmSpec.

(** The byte at a physical address. *)
Definition byte_at (m : list Z) (pa : Z) : option Z := m !! Z.to_nat pa.

#[global] Instance in_run_dec r pa : Decision (in_run r pa).
Proof. unfold in_run. apply _. Defined.

(** ** The end of the ram *)

Lemma ram_stealmem_last n r : lastpaddr (ram_stealmem n r).2 = lastpaddr r.
Proof. unfold ram_stealmem. by destruct (_ <? _). Qed.

Lemma alloc_kpages_last n (g : gram) q g' :
  alloc_kpages n g = Some (q, g') -> lastpaddr (g_ram g') = lastpaddr (g_ram g).
Proof.
  simpl. unfold dumbvm_alloc_kpages, getppages. pose proof (ram_stealmem_last (u32 n) (g_ram g)) as Hl.
  destruct (ram_stealmem _ _) as [pa r]. simpl in Hl. intros E. by destruct (pa =? 0); injection E as _ <-.
Qed.

Lemma kmalloc_last sz (h : kmemory) p h' :
  kmalloc_size sz -> kmalloc sz h = Some (p, h') -> lastpaddr (the_ram h') = lastpaddr (the_ram h).
Proof.
  intros Hsz E. simpl in E. destruct (kheap_kmalloc sz (g_heap h)) as [[q hp]|] eqn:Ek; [|done].
  cbn [mbind option_bind] in E. injection E as <- <-. unfold the_ram. simpl.
  destruct (kmalloc_pool sz _ _ _ Hsz Ek) as [->|(n & a & _ & Ea)]; [done|]. by eapply alloc_kpages_last.
Qed.

Lemma as_create_last (h : kmemory) new h' :
  as_create h = Some (new, h') -> lastpaddr (the_ram h') = lastpaddr (the_ram h).
Proof.
  unfold as_create. destruct (kmalloc sizeof_addrspace h) as [[p h1]|] eqn:Ek; [|done].
  cbn [mbind option_bind]. intros E. rewrite <- (kmalloc_last sizeof_addrspace h p h1); [|done|done].
  by destruct (p =? 0); injection E as _ <-.
Qed.

(** Pages that were taken are memory. *)
Lemma getppages_last n r pa r' :
  ram_ok r -> 0 < n <= 7 * 2 ^ 17 -> getppages n r = (pa, r') -> pa <> 0 -> firstpaddr r' <= lastpaddr r.
Proof.
  intros Hr Hn E Hpa. unfold getppages in E.
  destruct (ram_stealmem_ok n r Hr Hn) as [[E' _]|(Hle & E' & _)]; rewrite E' in E; injection E as <- <-; [done|].
  simpl. lia.
Qed.

Lemma as_prepare_load_last a r a' r' :
  ram_ok r -> sizes_ok a -> as_prepare_load a r = Some (0, a', r') -> firstpaddr r' <= lastpaddr r.
Proof.
  intros Hr (Hs1 & Hs2 & _) E. unfold as_prepare_load in E. do 3 (case_match; [|done]).
  destruct (getppages (as_npages1 a) r) as [p1 r1] eqn:E1.
  destruct (getppages_ok _ _ _ _ Hr Hs1 E1) as (Hr1 & _). destruct (p1 =? 0); [done|].
  destruct (getppages (as_npages2 a) r1) as [p2 r2] eqn:E2.
  destruct (getppages_ok _ _ _ _ Hr1 Hs2 E2) as (Hr2 & _). destruct (p2 =? 0); [done|].
  destruct (getppages DUMBVM_STACKPAGES r2) as [st r3] eqn:E3. destruct (st =? 0) eqn:Ez; [done|]. boolify.
  injection E as _ <-. apply getppages_last in E3; [|done|done|done].
  unfold getppages in E1, E2. pose proof (ram_stealmem_last (as_npages1 a) r) as L1. rewrite E1 in L1.
  pose proof (ram_stealmem_last (as_npages2 a) r1) as L2. rewrite E2 in L2. simpl in L1, L2. lia.
Qed.

(** The asserts of [as_prepare_load] hold for a space without pages. *)
Lemma as_prepare_load_total a r : unloaded a -> is_Some (as_prepare_load a r).
Proof.
  intros (E1 & E2 & E3). unfold as_prepare_load. rewrite E1, E2, E3. simpl.
  destruct (getppages _ r) as [p1 r1]. destruct (p1 =? 0); [by eexists|].
  destruct (getppages _ r1) as [p2 r2]. destruct (p2 =? 0); [by eexists|].
  destruct (getppages _ r2) as [st r3]. destruct (st =? 0); by eexists.
Qed.

(** ** Bytes *)

Lemma copy_pages_ok dst src n m :
  0 <= dst -> 0 <= src -> 0 <= n <= 7 * 2 ^ 17 ->
  dst + n * 4096 <= Z.of_nat (length m) -> src + n * 4096 <= Z.of_nat (length m) ->
  exists m', copy_pages dst src n m = Some m' /\ length m' = length m /\
    forall z, 0 <= z -> byte_at m' z = byte_at m (if decide (in_run (dst, n) z) then z - dst + src else z).
Proof.
  intros Hd Hs Hn Hdl Hsl. unfold copy_pages, PAGE_SIZE. rewrite u32_id by (unfold is_u32; lia).
  rewrite memmove_eq by lia. eexists. split; [done|].
  set (seg := take _ (drop _ m)). assert (length seg = Z.to_nat (n * 4096)) as Hseg by (unfold seg; len).
  split; [apply length_splice; lia|]. intros z Hz. unfold byte_at, in_run. simpl.
  rewrite lookup_splice by lia. case_decide as H1; case_decide as H2; [|lia..|done].
  unfold seg. rewrite lookup_take_drop, decide_True by lia. f_equal. lia.
Qed.

(** Three copies into fresh pages. *)
Lemma copy_three m (d1 d2 d3 s1 s2 s3 n1 n2 n3 F : Z) :
  0 <= s1 -> 0 <= s2 -> 0 <= s3 -> 0 <= n1 <= 7 * 2 ^ 17 -> 0 <= n2 <= 7 * 2 ^ 17 -> 0 <= n3 <= 7 * 2 ^ 17 -> 0 <= F ->
  s1 + n1 * 4096 <= F -> s2 + n2 * 4096 <= F -> s3 + n3 * 4096 <= F ->
  F <= d1 -> d1 + n1 * 4096 <= d2 -> d2 + n2 * 4096 <= d3 -> d3 + n3 * 4096 <= Z.of_nat (length m) ->
  exists m1 m2 m3, copy_pages d1 s1 n1 m = Some m1 /\ copy_pages d2 s2 n2 m1 = Some m2 /\
    copy_pages d3 s3 n3 m2 = Some m3 /\
    forall z, 0 <= z -> byte_at m3 z = byte_at m
      (if decide (in_run (d1, n1) z) then z - d1 + s1
       else if decide (in_run (d2, n2) z) then z - d2 + s2
       else if decide (in_run (d3, n3) z) then z - d3 + s3 else z).
Proof.
  intros Hs1 Hs2 Hs3 Hn1 Hn2 Hn3 HF Hf1 Hf2 Hf3 Hd1 Hd2 Hd3 Hl.
  destruct (copy_pages_ok d1 s1 n1 m) as (m1 & E1 & L1 & B1); [lia..|].
  destruct (copy_pages_ok d2 s2 n2 m1) as (m2 & E2 & L2 & B2); [lia..|].
  destruct (copy_pages_ok d3 s3 n3 m2) as (m3 & E3 & L3 & B3); [lia..|].
  exists m1, m2, m3. split; [done|]. split; [done|]. split; [done|]. intros z Hz.
  rewrite B3 by done. unfold in_run in *. simpl in *.
  assert (forall y, 0 <= y -> (y < d1 \/ d1 + n1 * 4096 <= y) -> byte_at m1 y = byte_at m y) as K1.
  { intros y Hy Hy'. rewrite B1, decide_False by lia. done. }
  assert (forall y, 0 <= y -> (y < d2 \/ d2 + n2 * 4096 <= y) -> byte_at m2 y = byte_at m1 y) as K2.
  { intros y Hy Hy'. rewrite B2, decide_False by lia. done. }
  destruct (decide (d3 <= z < d3 + n3 * 4096)) as [H3|H3].
  { rewrite !decide_False by lia. rewrite K2, K1 by lia. done. }
  destruct (decide (d2 <= z < d2 + n2 * 4096)) as [H2|H2].
  { rewrite B2, decide_True by lia. rewrite decide_False by lia. rewrite K1 by lia. done. }
  rewrite K2 by lia. rewrite B1 by done. done.
Qed.

(** ** User addresses of the two spaces *)

(** The same regions in other memory. *)
Lemma translate_moved a va p1 p2 st F :
  sizes_ok a -> F < 2 ^ 31 ->
  between 0 F (as_pbase1 a, as_npages1 a) -> between 0 F (as_pbase2 a, as_npages2 a) ->
  between 0 F (as_stackpbase a, DUMBVM_STACKPAGES) ->
  between 0 F (p1, as_npages1 a) -> between 0 F (p2, as_npages2 a) -> between 0 F (st, DUMBVM_STACKPAGES) ->
  translate a va = None /\ translate (set_pbases p1 p2 st a) va = None \/
  exists x old new n, translate a va = Some (old + x) /\ translate (set_pbases p1 p2 st a) va = Some (new + x) /\
    0 <= x < n * 4096 /\ (old, new, n) ∈ [(as_pbase1 a, p1, as_npages1 a); (as_pbase2 a, p2, as_npages2 a);
                                         (as_stackpbase a, st, DUMBVM_STACKPAGES)].
Proof.
  intros (Hn1 & Hn2 & Hv1 & Hv2) HF B1 B2 B3 C1 C2 C3. unfold between in *. simpl in *.
  assert (forall vb n, is_u32 vb -> 0 <= n -> u32 (vb + n * PAGE_SIZE) <= vb + n * 4096) as Hu.
  { intros vb n [? ?] Hn. unfold u32, PAGE_SIZE. apply Z.mod_le; [|done]. nia. }
  assert (forall vb pb n, is_u32 vb -> vb <= va < vb + n * 4096 -> 0 <= pb -> pb + n * 4096 <= F ->
    u32 (va - vb + pb) = pb + (va - vb)) as Hid.
  { intros vb pb n _ ???. rewrite u32_id; [lia|]. unfold is_u32. lia. }
  pose proof (Hu (as_vbase1 a) (as_npages1 a) Hv1) as Hu1. pose proof (Hu (as_vbase2 a) (as_npages2 a) Hv2) as Hu2.
  unfold translate. simpl. destruct ((as_vbase1 a <=? va) && _) eqn:E1; [|destruct ((as_vbase2 a <=? va) && _) eqn:E2;
    [|destruct ((_ <=? va) && (va <? USERSTACK)) eqn:E3; [|by left]]]; boolify; right.
  - exists (va - as_vbase1 a), (as_pbase1 a), p1, (as_npages1 a). rewrite !(Hid _ _ (as_npages1 a)) by (done || lia).
    split; [done|]. split; [done|]. split; [lia|]. apply elem_of_cons. by left.
  - exists (va - as_vbase2 a), (as_pbase2 a), p2, (as_npages2 a). rewrite !(Hid _ _ (as_npages2 a)) by (done || lia).
    split; [done|]. split; [done|]. split; [lia|]. rewrite !elem_of_cons. auto.
  - unfold PAGE_SIZE, DUMBVM_STACKPAGES in *. exists (va - (USERSTACK - 12 * 4096)), (as_stackpbase a), st, 12.
    rewrite !(Hid _ _ 12) by (done || lia). split; [done|]. split; [done|]. split; [lia|]. rewrite !elem_of_cons. auto.
Qed.

(** Where the address is mapped before and after, the program sees the same byte. *)
Definition same_byte (m m' : list Z) (pa pb : option Z) : Prop :=
  match pa, pb with
  | Some x, Some y => byte_at m' x = byte_at m x /\ byte_at m' y = byte_at m x
  | None, None => True
  | _, _ => False
  end.

(** What a copy is, as the old space and the rest of the machine see it. *)
Definition copied (w : world) (a : addrspace) (m' : list Z) (q : Z) (b : addrspace) : Prop :=
  w_spaces w !! q = None /\ as_set_up b = true /\
  (forall va, same_byte (v_mem (w_vm w)) m' (translate a va) (translate b va)) /\
  (forall z, 0 <= z -> (forall fr, fr ∈ frames b -> ~ in_run fr z) -> byte_at m' z = byte_at (v_mem (w_vm w)) z) /\
  (forall p' a' fr fr', w_spaces w !! p' = Some a' -> fr ∈ frames a' -> fr' ∈ frames b -> apart fr fr').

Lemma set_up_frames a : as_set_up a = true ->
  (as_pbase1 a, as_npages1 a) ∈ frames a /\ (as_pbase2 a, as_npages2 a) ∈ frames a /\
  (as_stackpbase a, DUMBVM_STACKPAGES) ∈ frames a.
Proof.
  intros Hset. destruct (as_set_up_facts a Hset) as (H1 & H2 & H3 & _). rewrite !elem_of_frames. simpl. tauto.
Qed.

Lemma set_up_moved a p1 p2 st :
  as_set_up a = true -> 0 < p1 < 2 ^ 31 -> 0 < p2 < 2 ^ 31 -> 0 < st < 2 ^ 31 ->
  p1 `mod` 4096 = 0 -> p2 `mod` 4096 = 0 -> st `mod` 4096 = 0 -> as_set_up (set_pbases p1 p2 st a) = true.
Proof.
  unfold as_set_up. simpl. intros E H1 H2 H3 M1 M2 M3. boolify. rewrite (land_frame p1), (land_frame p2), (land_frame st), M1, M2, M3 by lia.
  rewrite !Z.sub_0_r, !Z.eqb_refl. rewrite !(proj2 (Z.eqb_neq _ _)) by (done || lia).
  by rewrite !(proj2 (Z.eqb_eq _ _)) by done.
Qed.

(** The bytes after the three copies of [as_copy], where the new pages are those from
    [F] on. *)
Lemma copy_copied w p a q p1 p2 st F T :
  vm_inv w -> w_spaces w !! p = Some a -> as_set_up a = true -> w_spaces w !! q = None ->
  free_from (w_mem w) <= F -> 0 < p1 -> between F T (p1, as_npages1 a) -> between F T (p2, as_npages2 a) ->
  between F T (st, DUMBVM_STACKPAGES) -> p1 + as_npages1 a * 4096 <= p2 -> p2 + as_npages2 a * 4096 <= st ->
  T <= Z.of_nat (length (v_mem (w_vm w))) -> T < 2 ^ 29 ->
  exists m1 m2 m3, copy_pages p1 (as_pbase1 a) (as_npages1 a) (v_mem (w_vm w)) = Some m1 /\
    copy_pages p2 (as_pbase2 a) (as_npages2 a) m1 = Some m2 /\
    copy_pages st (as_stackpbase a) DUMBVM_STACKPAGES m2 = Some m3 /\
    copied w a m3 q (set_pbases p1 p2 st a).
Proof.
  intros Hinv Hp Hset Hq HF Hp1 C1 C2 C3 Hord1 Hord2 HT HT'.
  destruct (set_up_frames a Hset) as (I1 & I2 & I3). pose proof (vi_sizes _ Hinv p a Hp) as Hsz.
  destruct (vi_frames _ Hinv p a _ Hp I1) as [P1 B1], (vi_frames _ Hinv p a _ Hp I2) as [P2 B2],
    (vi_frames _ Hinv p a _ Hp I3) as [P3 B3]. pose proof Hsz as (Hn1 & Hn2 & _).
  unfold between in *. simpl in *. assert (0 <= DUMBVM_STACKPAGES <= 7 * 2 ^ 17) as Hst by done.
  destruct (copy_three (v_mem (w_vm w)) p1 p2 st (as_pbase1 a) (as_pbase2 a) (as_stackpbase a)
    (as_npages1 a) (as_npages2 a) DUMBVM_STACKPAGES F) as (m1' & m2' & m3' & E1 & E2 & E3 & Hb); [lia..|].
  exists m1', m2', m3'. do 3 (split; [done|]). split; [done|].
  split; [apply set_up_moved; (done || lia)|]. split; [|split].
  - intros va. destruct (translate_moved a va p1 p2 st T Hsz) as [[-> ->]|(x & old & new & n & -> & -> & Hx & Hin)];
      try (unfold between; simpl; lia). simpl.
    rewrite !elem_of_cons, elem_of_nil in Hin. unfold in_run in Hb. simpl in Hb.
    destruct Hin as [[= -> -> ->]|[[= -> -> ->]|[[= -> -> ->]|[]]]]; (split; [rewrite Hb by lia; by rewrite !decide_False by lia|]);
      rewrite Hb by lia.
    + rewrite decide_True by lia. f_equal. lia.
    + rewrite decide_False, decide_True by lia. f_equal. lia.
    + rewrite !decide_False, decide_True by lia. f_equal. lia.
  - intros z Hz Hout. rewrite Hb by done. rewrite !decide_False; [done|..];
      apply Hout, elem_of_frames; simpl; (split; [lia|auto]).
  - intros p' a' fr fr' Hp' Hfr (_ & Hfr')%elem_of_frames. destruct (vi_frames _ Hinv p' a' fr Hp' Hfr) as (_ & _ & _ & _ & Hend).
    simpl in Hfr'. left. destruct Hfr' as [->|[->| ->]]; simpl; lia.
Qed.


(** There are pages for the copy. *)
Definition copy_room (a : addrspace) (h : kmemory) : bool :=
  match as_create h with
  | Some (Some (p, new), h) =>
      match as_prepare_load (Addrspace (as_vbase1 a) 0 (as_npages1 a) (as_vbase2 a) 0 (as_npages2 a) 0) (the_ram h) with
      | Some (res, _, _) => res =? 0
      | None => false
      end
  | _ => false
  end.

Lemma copy_room_some a m (h : kmemory) res m' h' :
  gheap_ok h -> copy_room a h = true -> as_copy a m h <> Some (res, None, m', h').
Proof.
  unfold copy_room, as_copy. intros Hok Hc E. destruct (as_create h) as [[[[p new]|] h1]|] eqn:Ec; [|done..].
  cbn [mbind option_bind] in E. destruct (as_create_ok _ _ _ Hok Ec) as (_ & _ & -> & _).
  simpl in E. destruct (as_prepare_load _ _) as [[[r b] rm]|]; [|done]. cbn [mbind option_bind] in E.
  rewrite Hc in E. simpl in E. repeat (case_match || simplify_option_eq).
Qed.

(** The program of [vm_ops], loaded, on a machine with a megabyte of memory. *)
Definition load_ops : list vmop := take 4 vm_ops.
Definition loaded_as : addrspace := Addrspace 0x400000 0x21000 2 0x10000000 0x23000 1 0x24000.
Definition megabyte : list Z := replicate (Z.to_nat (1024 * 1024)) 0.

Lemma load_run m : exists w, run_vm load_ops (boot ram_small m) = Some w /\
  w_spaces w !! prog_as = Some loaded_as /\ v_mem (w_vm w) = m /\
  lastpaddr (the_ram (w_mem w)) = 1024 * 1024 /\ copy_room loaded_as (w_mem w) = true.
Proof.
  assert ((fun w => w_spaces w !! prog_as) <$> run_vm load_ops (boot ram_small m) = Some (Some loaded_as)) as H1
    by (vm_compute; reflexivity).
  assert ((fun w => v_mem (w_vm w)) <$> run_vm load_ops (boot ram_small m) = Some m) as H2 by (vm_compute; reflexivity).
  assert ((fun w => lastpaddr (the_ram (w_mem w))) <$> run_vm load_ops (boot ram_small m) = Some (1024 * 1024)) as H3
    by (vm_compute; reflexivity).
  assert ((fun w => copy_room loaded_as (w_mem w)) <$> run_vm load_ops (boot ram_small m) = Some true) as H4
    by (vm_compute; reflexivity).
  destruct (run_vm load_ops (boot ram_small m)) as [w|]; [|discriminate].
  injection H1 as H1. injection H2 as H2. injection H3 as H3. injection H4 as H4. exists w. repeat split; assumption.
Qed.

