(* ===== verification/Device.v ===== *)
(** * Block devices as the file system sees them (kern/include/dev.h)

    A [struct device] carries the operation [d_io], which does both reads and
    writes, and the geometry [d_blocks] and [d_blocksize].  [Device] is that
    interface; [DeviceLaws] is what a disk promises its client for transfers of
    one whole block.  A read delivers the block's bytes, or fails without effect.
    A write replaces the bytes of that block and of no other; where the medium
    refuses it the answer is EIO, the uio has been consumed, and what the block
    holds is not known.  A request for no bytes succeeds and does nothing.

    [dev_reliable] and [dev_writable] say that no read, respectively no write,
    fails any more.  [dev_ok], an idle disk that takes every write, is what the
    theorems on the contents of a file system are about; what becomes of a
    write that fails is [SfsSpec.sfs_wblock_loses_write]. *)

From stdpp Require Import base option list gmap numbers.
From S2P Require Import Prelude Uio.

Definition BLOCKSIZE : Z := 512.

Class Device (D : Type) := {
  d_io : uio -> vm -> D -> option (Z * uio * vm * D);
  d_blocks : D -> Z;
  d_blocksize : D -> Z;
}.

(** A uio for the whole block [b]. *)
Definition block_uio (u : uio) (b : Z) : Prop :=
  uio_offset u = b * BLOCKSIZE /\ uio_resid u = BLOCKSIZE.

(** The bytes of a disk after the block [b] has been overwritten. *)
Definition upd_block (data : Z -> list Z) (b : Z) (bs : list Z) : Z -> list Z :=
  fun b' => if decide (b' = b) then bs else data b'.

Class DeviceLaws (D : Type) `{!Device D} := {
  dev_idle : D -> Prop;                         (* between requests *)
  dev_data : D -> Z -> list Z;
  dev_reliable : D -> Prop;                     (* no read will fail any more *)
  dev_writable : D -> Prop;                     (* no write will fail any more *)
  d_blocksize_idle d : dev_idle d -> d_blocksize d = BLOCKSIZE;
  d_blocks_idle d : dev_idle d -> d_blocks d * BLOCKSIZE < 2 ^ 31;   (* off_t *)
  dev_data_idle d b :
    dev_idle d -> 0 <= b < d_blocks d ->
    length (dev_data d b) = 512%nat /\ Forall is_byte (dev_data d b);
  d_io_empty d u v b :
    dev_idle d -> uio_ok u v -> uio_offset u = b * BLOCKSIZE -> uio_resid u = 0 ->
    b <= d_blocks d -> d_io u v d = Some (0, u, v, d);
  d_io_reads d u v b :
    dev_idle d -> uio_ok u v -> uio_rw u = UIO_READ -> block_uio u b -> b < d_blocks d ->
    exists r u' v' d', d_io u v d = Some (r, u', v', d') /\ dev_idle d' /\
      (dev_reliable d -> dev_reliable d') /\ (dev_writable d -> dev_writable d') /\
      d_blocks d' = d_blocks d /\ (forall b', dev_data d' b' = dev_data d b') /\
      (r = 0 /\ uio_moved 0 (dev_data d b) u v u' v' \/
       r = EFAULT /\ uio_moved EFAULT [] u v u' v' /\ ~ uio_good u v BLOCKSIZE \/
       ~ dev_reliable d /\ r = EIO /\ u' = u /\ v' = v);
  d_io_writes d u v b :
    dev_idle d -> uio_ok u v -> uio_rw u = UIO_WRITE -> block_uio u b -> b < d_blocks d ->
    exists r bs u' v' d', d_io u v d = Some (r, u', v', d') /\ dev_idle d' /\
      (dev_reliable d -> dev_reliable d') /\ (dev_writable d -> dev_writable d') /\
      d_blocks d' = d_blocks d /\ uio_moved r bs u v u' v' /\
      (r = 0 /\ length bs = 512%nat /\
         (forall b', dev_data d' b' = upd_block (dev_data d) b bs b') \/
       r = EFAULT /\ bs = [] /\ ~ uio_good u v BLOCKSIZE /\
         (forall b', dev_data d' b' = dev_data d b') \/
       r = EIO /\ length bs = 512%nat /\ ~ dev_writable d /\
         (forall b', b' <> b -> dev_data d' b' = dev_data d b'));
}.

(** ** A disk that takes every write *)
Section writable.
Context {D : Type} `{!Device D, !DeviceLaws D}.
Implicit Types d : D.

Definition dev_ok d : Prop := dev_idle d /\ dev_writable d.

Lemma d_blocksize_block d : dev_ok d -> d_blocksize d = BLOCKSIZE.
Proof. intros [? _]. by apply d_blocksize_idle. Qed.

Lemma d_blocks_range d : dev_ok d -> d_blocks d * BLOCKSIZE < 2 ^ 31.
Proof. intros [? _]. by apply d_blocks_idle. Qed.

Lemma dev_data_block d b :
  dev_ok d -> 0 <= b < d_blocks d ->
  length (dev_data d b) = 512%nat /\ Forall is_byte (dev_data d b).
Proof. intros [? _]. by apply dev_data_idle. Qed.

Lemma d_io_read d u v b :
  dev_ok d -> uio_ok u v -> uio_rw u = UIO_READ -> block_uio u b -> b < d_blocks d ->
  exists r u' v' d', d_io u v d = Some (r, u', v', d') /\ dev_ok d' /\
    (dev_reliable d -> dev_reliable d') /\
    d_blocks d' = d_blocks d /\ (forall b', dev_data d' b' = dev_data d b') /\
    (r = 0 /\ uio_moved 0 (dev_data d b) u v u' v' \/
     r = EFAULT /\ uio_moved EFAULT [] u v u' v' /\ ~ uio_good u v BLOCKSIZE \/
     ~ dev_reliable d /\ r = EIO /\ u' = u /\ v' = v).
Proof.
  intros [Hd Hw] Hu Hrw Hb Hlt.
  destruct (d_io_reads d u v b Hd Hu Hrw Hb Hlt) as (r & u' & v' & d' & ? & ? & ? & ? & Hr).
  exists r, u', v', d'. split; [done|]. split; [by split; auto|]. by split.
Qed.

Lemma d_io_write d u v b :
  dev_ok d -> uio_ok u v -> uio_rw u = UIO_WRITE -> block_uio u b -> b < d_blocks d ->
  exists r bs u' v' d', d_io u v d = Some (r, u', v', d') /\ dev_ok d' /\
    (dev_reliable d -> dev_reliable d') /\
    d_blocks d' = d_blocks d /\ uio_moved r bs u v u' v' /\
    (r = 0 /\ length bs = 512%nat /\
       (forall b', dev_data d' b' = upd_block (dev_data d) b bs b') \/
     r = EFAULT /\ bs = [] /\ ~ uio_good u v BLOCKSIZE /\
       (forall b', dev_data d' b' = dev_data d b')).
Proof.
  intros [Hd Hw] Hu Hrw Hb Hlt.
  destruct (d_io_writes d u v b Hd Hu Hrw Hb Hlt)
    as (r & bs & u' & v' & d' & ? & ? & ? & ? & ? & ? & Hr).
  exists r, bs, u', v', d'. split; [done|]. split; [by split; auto|]. split; [done|].
  split; [done|]. split; [done|]. destruct Hr as [Hr|[Hr|(_ & _ & Hn & _)]]; auto. done.
Qed.
End writable.
