(* ===== verification/Lhd.v ===== *)
(** * The LAMEbus hard disk driver (kern/dev/lamebus/lhd.c)

    The card itself is hardware and a parameter: [LhdCard] is what the driver
    can make it do (run one sector operation on the on-card buffer and report
    a status code), [LhdCardLaws] what it promises: reads and writes of a
    sector may fail with a medium error.  The driver is modelled with its registers,
    its result word and its two semaphores; a thread that waits for the
    completion interrupt gets it from [lhd_irq].  One request is in progress at
    a time, which is what the semaphore [lh_clear] is for: [P] on a count of 0
    is [None].

    [lhd_laws] shows that the driver meets the contract of [DeviceLaws],
    whatever read and write errors the card reports. *)

From stdpp Require Import base option list gmap numbers.
From S2P Require Import Prelude Uio Device.

(** The sector operation: whether it is a write, the sector, the buffer and the
    card give the status code, the buffer and the card. *)
Class LhdCard (C : Type) := {
  card_op : bool -> Z -> list Z -> C -> Z * list Z * C;
}.

Definition LHD_SECTSIZE : Z := 512.

Definition LHD_IDLE : Z := 0.
Definition LHD_WORKING : Z := 1.
Definition LHD_OK : Z := 4.
Definition LHD_INVSECT : Z := 12.
Definition LHD_MEDIA : Z := 20.
Definition LHD_ISWRITE : Z := 2.
Definition LHD_STATEMASK : Z := 29.

Record lhd_softc (C : Type) := Lhd {
  lh_card : C;
  lh_reg_stat : Z;               (* the registers LHD_REG_STAT *)
  lh_reg_sect : Z;               (* and LHD_REG_SECT *)
  lh_buf : list Z;               (* the on-card buffer *)
  lh_result : Z;
  lh_clear : Z;                  (* the counts of the two semaphores *)
  lh_done : Z;
  lh_blocks : Z;                 (* lh_dev.d_blocks *)
}.
Arguments Lhd {C}.
Arguments lh_card {C}.
Arguments lh_reg_stat {C}.
Arguments lh_reg_sect {C}.
Arguments lh_buf {C}.
Arguments lh_result {C}.
Arguments lh_clear {C}.
Arguments lh_done {C}.
Arguments lh_blocks {C}.

Section lhd.
Context {C : Type} `{!LhdCard C}.
Implicit Types lh : lhd_softc C.

Definition set_regs (stat sect : Z) lh : lhd_softc C :=
  Lhd (lh_card lh) stat sect (lh_buf lh) (lh_result lh) (lh_clear lh) (lh_done lh)
      (lh_blocks lh).
Definition set_buf (buf : list Z) lh : lhd_softc C :=
  Lhd (lh_card lh) (lh_reg_stat lh) (lh_reg_sect lh) buf (lh_result lh) (lh_clear lh)
      (lh_done lh) (lh_blocks lh).
Definition set_sems (clear done : Z) lh : lhd_softc C :=
  Lhd (lh_card lh) (lh_reg_stat lh) (lh_reg_sect lh) (lh_buf lh) (lh_result lh) clear
      done (lh_blocks lh).
Definition set_result (r : Z) lh : lhd_softc C :=
  Lhd (lh_card lh) (lh_reg_stat lh) (lh_reg_sect lh) (lh_buf lh) r (lh_clear lh)
      (lh_done lh) (lh_blocks lh).

Definition lhd_code_to_errno (code : Z) : Z :=
  let c := Z.land code LHD_STATEMASK in
  if c =? LHD_OK then 0
  else if c =? LHD_INVSECT then EINVAL
  else if c =? LHD_MEDIA then EIO
  else EAGAIN.

Definition lhd_iodone (err : Z) lh : lhd_softc C :=
  let lh := set_result err lh in
  set_sems (lh_clear lh) (lh_done lh + 1) lh.

Definition lhd_irq lh : lhd_softc C :=
  let val := lh_reg_stat lh in
  let c := Z.land val LHD_STATEMASK in
  if (c =? LHD_OK) || (c =? LHD_INVSECT) || (c =? LHD_MEDIA)
  then lhd_iodone (lhd_code_to_errno val) (set_regs 0 (lh_reg_sect lh) lh)
  else lh.

(** The card does the operation it was started on and interrupts. *)
Definition card_complete lh : lhd_softc C :=
  let '(status, buf, card) :=
    card_op (Z.testbit (lh_reg_stat lh) 1) (lh_reg_sect lh) (lh_buf lh) (lh_card lh) in
  lhd_irq (Lhd card status (lh_reg_sect lh) buf (lh_result lh) (lh_clear lh) (lh_done lh)
             (lh_blocks lh)).

Definition P_clear lh : option (lhd_softc C) :=
  ASSERT 0 <? lh_clear lh ;; Some (set_sems (lh_clear lh - 1) (lh_done lh) lh).
Definition P_done lh : option (lhd_softc C) :=
  ASSERT 0 <? lh_done lh ;; Some (set_sems (lh_clear lh) (lh_done lh - 1) lh).
Definition V_clear lh : lhd_softc C := set_sems (lh_clear lh + 1) (lh_done lh) lh.

Definition lhd_open (openflags : Z) lh : Z := 0.
Definition lhd_close lh : Z := 0.
Definition lhd_ioctl (op data : Z) lh : Z := EIOCTL.

(** The body of the loop of [lhd_io]. *)
Definition lhd_sector (sector statval : Z) (u : uio) (v : vm) lh :
    option (Z * uio * vm * lhd_softc C) :=
  lh ← P_clear lh;
  '(result, u, v, lh) ←
    match uio_rw u with
    | UIO_WRITE =>
        '(result, buf, u, v) ← uiomove (lh_buf lh) LHD_SECTSIZE u v;
        Some (result, u, v, set_buf buf lh)
    | UIO_READ => Some (0, u, v, lh)
    end;
  if negb (result =? 0) then Some (result, u, v, V_clear lh)
  else
    let lh := set_regs (lh_reg_stat lh) sector lh in
    let lh := set_regs statval (lh_reg_sect lh) lh in
    lh ← P_done (card_complete lh);
    let result := lh_result lh in
    '(result, u, v, lh) ←
      match uio_rw u with
      | UIO_READ =>
          if result =? 0 then
            '(result, buf, u, v) ← uiomove (lh_buf lh) LHD_SECTSIZE u v;
            Some (result, u, v, set_buf buf lh)
          else Some (result, u, v, lh)
      | UIO_WRITE => Some (result, u, v, lh)
      end;
    Some (result, u, v, V_clear lh).

Fixpoint lhd_loop (n : nat) (i sector statval : Z) (u : uio) (v : vm) lh :
    option (Z * uio * vm * lhd_softc C) :=
  match n with
  | O => Some (0, u, v, lh)
  | S n =>
      '(result, u, v, lh) ← lhd_sector (u32 (sector + i)) statval u v lh;
      if negb (result =? 0) then Some (result, u, v, lh)
      else lhd_loop n (i + 1) sector statval u v lh
  end.

Definition lhd_io (u : uio) (v : vm) lh : option (Z * uio * vm * lhd_softc C) :=
  let sector := u32 (Z.quot (uio_offset u) LHD_SECTSIZE) in
  let sectoff := u32 (Z.rem (uio_offset u) LHD_SECTSIZE) in
  let len := uio_resid u / LHD_SECTSIZE in
  let lenoff := uio_resid u `mod` LHD_SECTSIZE in
  if negb (sectoff =? 0) || negb (lenoff =? 0) then Some (EINVAL, u, v, lh)
  else if lh_blocks lh <? u32 (sector + len) then Some (EINVAL, u, v, lh)
  else
    let statval := match uio_rw u with
                   | UIO_WRITE => Z.lor LHD_WORKING LHD_ISWRITE
                   | UIO_READ => LHD_WORKING
                   end in
    lhd_loop (Z.to_nat len) 0 sector statval u v lh.

#[global] Instance lhd_device : Device (lhd_softc C) :=
  {| d_io := lhd_io; d_blocks := lh_blocks; d_blocksize := fun _ => LHD_SECTSIZE |}.
End lhd.

(** ** The driver meets the contract of a block device *)

(** Reads and writes may fail with LHD_MEDIA.  A read that fails changes no
    sector; a write that fails changes no other sector. *)
Class LhdCardLaws (C : Type) `{!LhdCard C} := {
  card_ok : C -> Prop;
  card_nsect : C -> Z;                         (* the register LHD_REG_NSECT *)
  card_data : C -> Z -> list Z;
  card_reliable : C -> Prop;                   (* no read will fail any more *)
  card_writable : C -> Prop;                   (* no write will fail any more *)
  card_nsect_range c : card_ok c -> card_nsect c * LHD_SECTSIZE < 2 ^ 31;
  card_data_sector c b :
    card_ok c -> 0 <= b < card_nsect c ->
    length (card_data c b) = 512%nat /\ Forall is_byte (card_data c b);
  card_read c b buf :
    card_ok c -> 0 <= b < card_nsect c ->
    exists st buf' c', card_op false b buf c = (st, buf', c') /\ card_ok c' /\
      (card_reliable c -> card_reliable c') /\ (card_writable c -> card_writable c') /\
      card_nsect c' = card_nsect c /\ (forall b', card_data c' b' = card_data c b') /\
      length buf' = 512%nat /\ Forall is_byte buf' /\
      (Z.land st LHD_STATEMASK = LHD_OK /\ buf' = card_data c b \/
       ~ card_reliable c /\ Z.land st LHD_STATEMASK = LHD_MEDIA);
  card_write c b buf :
    card_ok c -> 0 <= b < card_nsect c -> length buf = 512%nat -> Forall is_byte buf ->
    exists st c', card_op true b buf c = (st, buf, c') /\ card_ok c' /\
      (card_reliable c -> card_reliable c') /\ (card_writable c -> card_writable c') /\
      card_nsect c' = card_nsect c /\
      (Z.land st LHD_STATEMASK = LHD_OK /\
         (forall b', card_data c' b' = upd_block (card_data c) b buf b') \/
       ~ card_writable c /\ Z.land st LHD_STATEMASK = LHD_MEDIA /\
         (forall b', b' <> b -> card_data c' b' = card_data c b'));
}.

Section lhd_laws.
Context {C : Type} `{LhdCardLaws C}.
Implicit Types lh : lhd_softc C.

(** Between requests. *)
Definition lhd_ok lh : Prop :=
  card_ok (lh_card lh) /\ lh_blocks lh = card_nsect (lh_card lh) /\
  lh_clear lh = 1 /\ lh_done lh = 0 /\
  length (lh_buf lh) = 512%nat.

Definition lhd_data lh : Z -> list Z := card_data (lh_card lh).
Definition lhd_reliable lh : Prop := card_reliable (lh_card lh).
Definition lhd_writable lh : Prop := card_writable (lh_card lh).

Lemma lhd_irq_done lh r :
  (Z.land (lh_reg_stat lh) LHD_STATEMASK = LHD_OK /\ r = 0 \/
   Z.land (lh_reg_stat lh) LHD_STATEMASK = LHD_MEDIA /\ r = EIO) ->
  lhd_irq lh = Lhd (lh_card lh) 0 (lh_reg_sect lh) (lh_buf lh) r (lh_clear lh)
                   (lh_done lh + 1) (lh_blocks lh).
Proof.
  intros [[E ->]|[E ->]]; unfold lhd_irq, lhd_iodone, lhd_code_to_errno; by rewrite E.
Qed.

Lemma lhd_io_one u v lh b :
  lhd_ok lh -> uio_ok u v -> block_uio u b -> b < lh_blocks lh ->
  lhd_io u v lh = lhd_sector b (if decide (uio_rw u = UIO_WRITE) then 3 else 1) u v lh.
Proof.
  intros (Hc & Hnb & _) (_ & _ & _ & Ho & _) [Eo Er] Hb.
  pose proof (card_nsect_range _ Hc) as Hn. unfold BLOCKSIZE, LHD_SECTSIZE in *.
  unfold lhd_io. rewrite Eo, Er. unfold LHD_SECTSIZE.
  rewrite Z.quot_mul, Z.rem_mul by lia.
  change (512 / 512) with 1. change (512 `mod` 512) with 0.
  rewrite (u32_id b), (u32_id (b + 1)) by (unfold is_u32; lia).
  rewrite (proj2 (Z.ltb_ge _ _)) by lia. simpl. rewrite Z.add_0_r.
  rewrite (u32_id b) by (unfold is_u32; lia).
  replace (match uio_rw u with
           | UIO_READ => LHD_WORKING | UIO_WRITE => Z.lor LHD_WORKING LHD_ISWRITE end)
    with (if decide (uio_rw u = UIO_WRITE) then 3 else 1) by (destruct (uio_rw u); done).
  destruct (lhd_sector _ _ _ _ _) as [[[[r u'] v'] lh']|]; [|done]. simpl.
  destruct (Z.eqb_spec r 0) as [->|]; done.
Qed.

Lemma lhd_read_wp u v lh b :
  lhd_ok lh -> uio_ok u v -> uio_rw u = UIO_READ -> block_uio u b -> b < lh_blocks lh ->
  exists r u' v' lh', lhd_io u v lh = Some (r, u', v', lh') /\ lhd_ok lh' /\
    (lhd_reliable lh -> lhd_reliable lh') /\ (lhd_writable lh -> lhd_writable lh') /\
    lh_blocks lh' = lh_blocks lh /\ (forall b', lhd_data lh' b' = lhd_data lh b') /\
    (r = 0 /\ uio_moved 0 (lhd_data lh b) u v u' v' \/
     r = EFAULT /\ uio_moved EFAULT [] u v u' v' /\ ~ uio_good u v BLOCKSIZE \/
     ~ lhd_reliable lh /\ r = EIO /\ u' = u /\ v' = v).
Proof.
  intros Hok Hu Hrw Hblk Hb. rewrite (lhd_io_one _ _ _ b) by done.
  pose proof Hok as (Hc & Hnb & Ecl & Edn & Hlen).
  assert (0 <= b) by (destruct Hu as (_ & _ & _ & ? & _), Hblk; unfold BLOCKSIZE in *; lia).
  unfold lhd_sector, P_clear. rewrite Ecl, Hrw. rewrite decide_False by done. simpl.
  unfold card_complete. simpl.
  destruct (card_read (lh_card lh) b (lh_buf lh)) as
    (st & buf & c' & Ec & Hc' & Hrel & Hwr & Hn & Hd & Hl & Hbb & Hst); [done|lia|].
  rewrite Ec. destruct Hst as [[Hst Hbuf]|[Hnr Hst]].
  - rewrite (lhd_irq_done _ 0) by (left; done). simpl. unfold P_done. simpl. rewrite Edn. simpl.
    destruct (uiomove_moved buf LHD_SECTSIZE u v) as
      (r & bs & buf' & u' & v' & -> & Hm & Hl' & Hrd & Hr);
      [done|destruct Hblk as [_ ->]; unfold BLOCKSIZE, LHD_SECTSIZE; lia
      |rewrite Hl; unfold LHD_SECTSIZE; lia|done|]. simpl.
    rewrite Hrw in Hrd |- *. destruct Hrd as [-> Hrd].
    eexists r, u', v', _. split; [done|]. split; [by repeat split; simpl; try lia|].
    split; [exact Hrel|]. split; [exact Hwr|]. split; [done|]. split; [by intros b'; unfold lhd_data; simpl|].
    destruct Hr as [[-> El]|(-> & -> & Hg)]; [left|by right; left]. split; [done|].
    rewrite Hrd in Hm by done. rewrite take_ge in Hm by (rewrite Hl; done). by rewrite Hbuf in Hm.
  - rewrite (lhd_irq_done _ EIO) by (right; done). simpl. unfold P_done. simpl. rewrite Edn. simpl.
    rewrite Hrw. eexists EIO, u, v, _. split; [done|]. split; [by repeat split; simpl; try lia|].
    split; [exact Hrel|]. split; [exact Hwr|]. split; [done|]. split; [by intros b'; unfold lhd_data; simpl|]. by right; right.
Qed.

Lemma lhd_write_wp u v lh b :
  lhd_ok lh -> uio_ok u v -> uio_rw u = UIO_WRITE -> block_uio u b -> b < lh_blocks lh ->
  exists r bs u' v' lh', lhd_io u v lh = Some (r, u', v', lh') /\ lhd_ok lh' /\
    (lhd_reliable lh -> lhd_reliable lh') /\ (lhd_writable lh -> lhd_writable lh') /\
    lh_blocks lh' = lh_blocks lh /\ uio_moved r bs u v u' v' /\
    (r = 0 /\ length bs = 512%nat /\
       (forall b', lhd_data lh' b' = upd_block (lhd_data lh) b bs b') \/
     r = EFAULT /\ bs = [] /\ ~ uio_good u v BLOCKSIZE /\
       (forall b', lhd_data lh' b' = lhd_data lh b') \/
     r = EIO /\ length bs = 512%nat /\ ~ lhd_writable lh /\
       (forall b', b' <> b -> lhd_data lh' b' = lhd_data lh b')).
Proof.
  intros Hok Hu Hrw Hblk Hb. rewrite (lhd_io_one _ _ _ b) by done.
  pose proof Hok as (Hc & Hnb & Ecl & Edn & Hlen).
  assert (0 <= b) by (destruct Hu as (_ & _ & _ & ? & _), Hblk; unfold BLOCKSIZE in *; lia).
  unfold lhd_sector, P_clear. rewrite Ecl, Hrw. rewrite decide_True by done. simpl.
  destruct (uiomove_moved (lh_buf lh) LHD_SECTSIZE u v) as
    (r & bs & buf' & u' & v' & -> & Hm & Hl' & Hrd & Hr);
    [done|destruct Hblk as [_ ->]; unfold BLOCKSIZE, LHD_SECTSIZE; lia
    |rewrite Hlen; unfold LHD_SECTSIZE; lia|by rewrite Hrw|]. simpl. rewrite Hrw in Hrd.
  destruct Hr as [[-> El]|(-> & -> & Hg)]; simpl.
  - assert (length bs = 512%nat) as Ebs by (unfold LHD_SECTSIZE in El; lia).
    rewrite Hrd by done. rewrite splice_0_app, Ebs, drop_ge, app_nil_r by (rewrite ?Ebs; lia).
    assert (Forall is_byte bs) as Hbs by by eapply uio_moved_bytes.
    unfold card_complete. simpl.
    destruct (card_write (lh_card lh) b bs) as (st & c' & Ec & Hc' & Hrel & Hwr & Hn & Hst);
      [done|lia|done..|]. rewrite Ec.
    destruct Hst as [[Hst Hd]|(Hnw & Hst & Hd)].
    1: rewrite (lhd_irq_done _ 0) by (left; done).
    2: rewrite (lhd_irq_done _ EIO) by (right; done).
    all: unfold P_done; simpl; rewrite Edn; simpl;
      rewrite (uio_moved_rw _ _ _ _ _ _ Hm), Hrw; simpl.
    + eexists 0, bs, u', v', _. split; [done|]. split; [by repeat split; simpl; try lia|].
      split; [exact Hrel|]. split; [exact Hwr|]. split; [done|]. split; [done|]. left. done.
    + eexists EIO, bs, u', v', _. split; [done|]. split; [by repeat split; simpl; try lia|].
      split; [exact Hrel|]. split; [exact Hwr|]. split; [done|].
      split; [|by right; right]. exact (uio_moved_fail _ _ _ _ _ _ _ Hrw Hm).
  - eexists EFAULT, [], u', v', _. split; [done|].
    split; [|by split; [done|split; [done|split; [done|split; [done|right; left]]]]].
    repeat split; simpl; try lia; try done.
Qed.

Lemma lhd_empty_wp u v lh b :
  lhd_ok lh -> uio_ok u v -> uio_offset u = b * BLOCKSIZE -> uio_resid u = 0 ->
  b <= lh_blocks lh -> lhd_io u v lh = Some (0, u, v, lh).
Proof.
  intros (Hc & Hnb & _) (_ & _ & _ & Ho & _) Eo Er Hb.
  pose proof (card_nsect_range _ Hc) as Hn. unfold BLOCKSIZE, LHD_SECTSIZE in *.
  unfold lhd_io. rewrite Eo, Er. unfold LHD_SECTSIZE. rewrite Z.quot_mul, Z.rem_mul by lia.
  change (0 / 512) with 0. change (0 `mod` 512) with 0.
  rewrite Z.add_0_r, (u32_id b), (u32_id b) by (unfold is_u32; lia).
  rewrite (proj2 (Z.ltb_ge _ _)) by lia. done.
Qed.

#[global] Program Instance lhd_laws : DeviceLaws (lhd_softc C) :=
  {| dev_idle := lhd_ok; dev_data := lhd_data; dev_reliable := lhd_reliable;
     dev_writable := lhd_writable |}.
Next Obligation. done. Qed.
Next Obligation.
  intros lh (Hc & Hnb & _). simpl. rewrite Hnb. by apply card_nsect_range.
Qed.
Next Obligation.
  intros lh b (Hc & Hnb & _) Hb. apply card_data_sector; [done|]. simpl in Hb. lia.
Qed.
Next Obligation. intros d u v b. exact (lhd_empty_wp u v d b). Qed.
Next Obligation. intros d u v b. exact (lhd_read_wp u v d b). Qed.
Next Obligation. intros d u v b. exact (lhd_write_wp u v d b). Qed.
End lhd_laws.

(** ** A simulated card

    Sectors that were never written read as zeros.  The next reads and writes
    fail with LHD_MEDIA as the two lists say; afterwards all succeed. *)
Module Sim.
Record card := Card {
  nsect : Z;
  sectors : gmap Z (list Z);
  bad_reads : list bool;
  bad_writes : list bool;
}.

Definition sector (c : card) (b : Z) : list Z := default (replicate 512 0) (sectors c !! b).

Definition op (iswrite : bool) (b : Z) (buf : list Z) (c : card) : Z * list Z * card :=
  if iswrite then
    match bad_writes c with
    | true :: bw =>
        (Z.lor LHD_MEDIA LHD_ISWRITE, buf, Card (nsect c) (sectors c) (bad_reads c) bw)
    | bw => (Z.lor LHD_OK LHD_ISWRITE, buf,
             Card (nsect c) (<[b := buf]> (sectors c)) (bad_reads c) (drop 1 bw))
    end
  else
    match bad_reads c with
    | true :: br =>
        (LHD_MEDIA, replicate 512 0, Card (nsect c) (sectors c) br (bad_writes c))
    | br => (LHD_OK, sector c b, Card (nsect c) (sectors c) (drop 1 br) (bad_writes c))
    end.

#[global] Instance sim_card : LhdCard card := {| card_op := op |}.

Definition ok (c : card) : Prop :=
  nsect c * LHD_SECTSIZE < 2 ^ 31 /\
  forall b bs, sectors c !! b = Some bs -> length bs = 512%nat /\ Forall is_byte bs.

Lemma sector_block c b : ok c -> length (sector c b) = 512%nat /\ Forall is_byte (sector c b).
Proof.
  intros (_ & Hs). unfold sector. destruct (sectors c !! b) as [bs|] eqn:E; [by apply (Hs b)|].
  split; [reflexivity|]. apply (Forall_replicate is_byte 512). by unfold is_byte.
Qed.

#[global] Program Instance sim_laws : LhdCardLaws card :=
  {| card_ok := ok; card_nsect := nsect; card_data := sector;
     card_reliable := fun c => bad_reads c = []; card_writable := fun c => bad_writes c = [] |}.
Next Obligation. by intros c (? & _). Qed.
Next Obligation. intros c b Hok _. by apply sector_block. Qed.
Next Obligation.
  intros c b buf Hok Hb. pose proof (sector_block c b Hok) as [? ?]. pose proof Hok as (? & ?).
  simpl. unfold op. destruct (bad_reads c) as [|[] br] eqn:Eb;
    eexists _, _, (Card (nsect c) (sectors c) _ (bad_writes c)); (split; [reflexivity|]);
    (split; [done|]); (split; [done|]); (split; [done|]); (split; [done|]); (split; [done|]).
  1,3: by auto.
  split; [reflexivity|]. split; [|by right].
  apply (Forall_replicate is_byte 512). by unfold is_byte.
Qed.
Next Obligation.
  intros c b buf (Hn & Hs) Hb Hl Hby. simpl. unfold op.
  assert (forall bw, ok (Card (nsect c) (<[b := buf]> (sectors c)) (bad_reads c) bw)) as Hput.
  { intros bw. split; [done|]. intros b' bs. simpl.
    intros [[_ <-]|[_ ?]]%lookup_insert_Some; [done|eauto]. }
  assert (forall bw b', sector (Card (nsect c) (<[b := buf]> (sectors c)) (bad_reads c) bw) b' =
    upd_block (sector c) b buf b') as Hsec.
  { intros bw b'. unfold sector, upd_block. simpl. rewrite lookup_insert.
    repeat case_decide; by subst. }
  destruct (bad_writes c) as [|[] bw] eqn:Ew; do 2 eexists; (split; [reflexivity|]).
  - split; [apply Hput|]. split; [done|]. split; [done|]. split; [done|]. left. split; [done|].
    intros b'. apply Hsec.
  - split; [done|]. split; [done|]. split; [done|]. split; [done|]. right. done.
  - split; [apply Hput|]. split; [done|]. split; [done|]. split; [done|]. left. split; [done|].
    intros b'. apply Hsec.
Qed.

(** A blank disk behind an idle driver. *)
Definition blank (n : Z) : lhd_softc card :=
  Lhd (Card n ∅ [] []) 0 0 (replicate 512 0) 0 1 0 n.

Lemma blank_ok n : n * LHD_SECTSIZE < 2 ^ 31 -> dev_ok (blank n).
Proof. by intros ?. Qed.
End Sim.

(** C31: The driver gives a block device: a one-sector request, with the buffer
    anywhere in memory, comes back with the disk idle again.  A read leaves every
    sector as it was and moves exactly the sector's bytes to the buffer; a write
    replaces that sector by the buffer's bytes and no other.  A buffer that cannot
    be accessed gives EFAULT with no sector changed.  A medium error gives EIO:
    on a read nothing has moved and no sector has changed; on a write the whole
    buffer has been consumed from the uio and no other sector has changed. *)
Theorem lhd_io_block {C} `{LhdCardLaws C} u v (lh : lhd_softc C) b :
  lhd_ok lh -> uio_ok u v -> block_uio u b -> b < lh_blocks lh ->
  exists r bs u' v' lh', lhd_io u v lh = Some (r, u', v', lh') /\ lhd_ok lh' /\
    uio_moved r bs u v u' v' /\
    (r = 0 /\ length bs = 512%nat /\
       match uio_rw u with
       | UIO_READ => bs = lhd_data lh b /\ forall b', lhd_data lh' b' = lhd_data lh b'
       | UIO_WRITE => forall b', lhd_data lh' b' = upd_block (lhd_data lh) b bs b'
       end \/
     bs = [] /\ (forall b', lhd_data lh' b' = lhd_data lh b') /\
       (r = EFAULT /\ ~ uio_good u v BLOCKSIZE \/
        r = EIO /\ uio_rw u = UIO_READ /\ ~ lhd_reliable lh) \/
     r = EIO /\ length bs = 512%nat /\ uio_rw u = UIO_WRITE /\ ~ lhd_writable lh /\
       forall b', b' <> b -> lhd_data lh' b' = lhd_data lh b').
Proof.
  intros Hok Hu Hblk Hb. destruct (uio_rw u) eqn:Hrw.
  - destruct (lhd_read_wp u v lh b Hok Hu Hrw Hblk Hb)
      as (r & u' & v' & lh' & -> & Hok' & _ & _ & _ & Hd & Hr).
    destruct Hr as [[-> Hm]|[(-> & Hm & Hg)|(Hn & -> & -> & ->)]].
    + exists 0, (lhd_data lh b), u', v', lh'. split; [done|]. split; [done|]. split; [done|].
      left. split; [done|]. split; [|done]. pose proof Hok as (Hc & Hnb & _).
      apply (card_data_sector (lh_card lh) b Hc).
      destruct Hu as (_ & _ & _ & ? & _), Hblk. unfold BLOCKSIZE in *. lia.
    + exists EFAULT, [], u', v', lh'. split; [done|]. split; [done|]. split; [done|]. right. left. auto.
    + exists EIO, [], u, v, lh'. split; [done|]. split; [done|].
      split; [|right; left; split; [done|]; split; [done|]; by right].
      pose proof Hu as (_ & _ & ? & _). unfold uio_moved. cbn [length mem_write].
      change (Z.of_nat 0) with 0. rewrite (uio_advance_0 u v), Hrw by done.
      split; [done|]. split; [done|]. split; [lia|]. split; [by left|].
      exists (vm_mem v). rewrite set_mem_id. split; [done|]. rewrite decide_False by done.
      apply mem_changed_refl.
  - destruct (lhd_write_wp u v lh b Hok Hu Hrw Hblk Hb)
      as (r & bs & u' & v' & lh' & -> & Hok' & _ & _ & _ & Hm & Hr).
    exists r, bs, u', v', lh'. split; [done|]. split; [done|]. split; [done|].
    destruct Hr as [(-> & Hl & Hd)|[(-> & -> & Hg & Hd)|(-> & Hl & Hn & Hd)]];
      [by left|right; left; by auto|by right; right].
Qed.

Lemma lhd_io_block_witness :
  let vm0 := {| vm_mem := mem_write ∅ (2 ^ 31) (replicate 512 7);
                vm_badfaultfunc := false; vm_space := 0 |} in
  let u := mk_kuio (2 ^ 31) 512 1024 UIO_WRITE in
  let lh := Lhd (Sim.Card 8 ∅ [] [true]) 0 0 (replicate 512 0) 0 1 0 8 in
  exists r bs u' v' lh', lhd_io u vm0 lh = Some (r, u', v', lh') /\ lhd_ok lh' /\
    uio_moved r bs u vm0 u' v' /\ r = EIO /\ length bs = 512%nat /\
    forall b', b' <> 2 -> lhd_data lh' b' = lhd_data lh b'.
Proof.
  intros vm0 u lh. destruct (lhd_io_block u vm0 lh 2)
    as (r & bs & u' & v' & lh' & E & Hok & Hm & Hr).
  - by split_and!.
  - split; [by vm_compute|]. split; [by vm_compute|]. split; [by vm_compute|].
    split; [by vm_compute|]. split; [by vm_compute|]. split; [done|]. split.
    + apply mem_write_bytes_ok; [|apply Forall_replicate; by unfold is_byte].
      intros i b. by rewrite lookup_empty.
    + split; [done|]. split; [|by vm_compute]. apply mem_write_mapped. by vm_compute.
  - done.
  - by vm_compute.
  - assert (fst <$> (fst <$> (fst <$> lhd_io u vm0 lh)) = Some EIO) as Er by (vm_compute; reflexivity).
    rewrite E in Er. injection Er as ->.
    exists EIO, bs, u', v', lh'. split; [exact E|]. split; [exact Hok|]. split; [exact Hm|].
    destruct Hr as [(Hr & _)|[(_ & _ & [[Hr _]|(_ & Hr & _)])|(_ & Hl & _ & _ & Hd)]];
      [discriminate Hr..|]. split; [reflexivity|]. split; [exact Hl|exact Hd].
Defined.
