(* ===== verification/SfsDisk.v ===== *)
(** * The on-disk structures of SFS (kern/include/kern/sfs.h)

    The superblock, the inode, the directory entry and the indirect block are C
    structs that the file system reads and writes as raw bytes; the machine is
    big-endian.  Each is a record with an encoder to bytes and a decoder, and
    the two are inverse to each other. *)

From stdpp Require Import base option list numbers.
From S2P Require Import Prelude.

Definition SFS_MAGIC : Z := 2880303105.                (* 0xabadf001 *)
Definition SFS_BLOCKSIZE : Z := 512.
Definition SFS_VOLNAME_SIZE : Z := 32.
Definition SFS_NDIRECT : Z := 15.
Definition SFS_DBPERIDB : Z := 128.
Definition SFS_NAMELEN : Z := 60.
Definition SFS_SB_LOCATION : Z := 0.
Definition SFS_ROOT_LOCATION : Z := 1.
Definition SFS_MAP_LOCATION : Z := 2.
Definition SFS_NOINO : Z := 0.
Definition SFS_BLOCKBITS : Z := SFS_BLOCKSIZE * 8.
Definition SFS_TYPE_INVAL : Z := 0.
Definition SFS_TYPE_FILE : Z := 1.
Definition SFS_TYPE_DIR : Z := 2.

(** The macros of sfs.h on 32-bit words. *)
Definition SFS_ROUNDUP (a b : Z) : Z := u32 (u32 (u32 (a + b) - 1) / b * b).
Definition SFS_BITMAPSIZE (nblocks : Z) : Z := SFS_ROUNDUP nblocks SFS_BLOCKBITS.
Definition SFS_BITBLOCKS (nblocks : Z) : Z := SFS_BITMAPSIZE nblocks / SFS_BLOCKBITS.

Record sfs_super := SfsSuper {
  sp_magic : Z;
  sp_nblocks : Z;
  sp_volname : list Z;
  sp_reserved : list Z;
}.

Record sfs_inode := SfsInode {
  sfi_size : Z;
  sfi_type : Z;
  sfi_linkcount : Z;
  sfi_direct : list Z;
  sfi_indirect : Z;
  sfi_waste : list Z;
}.

Record sfs_dir := SfsDir {
  sfd_ino : Z;
  sfd_name : list Z;
}.

(** ** Words in memory *)

Definition be32 (x : Z) : list Z :=
  [x / 2 ^ 24; (x / 2 ^ 16) `mod` 256; (x / 2 ^ 8) `mod` 256; x `mod` 256].
Definition be16 (x : Z) : list Z := [x / 2 ^ 8; x `mod` 256].

(** The value of a list of bytes, most significant first. *)
Definition of_be (bs : list Z) : Z := foldl (fun acc b => acc * 256 + b) 0 bs.

(** [n] consecutive words. *)
Definition enc_words (ws : list Z) : list Z := ws ≫= be32.

Fixpoint dec_words (n : nat) (bs : list Z) : list Z :=
  match n with
  | O => []
  | S n => of_be (take 4 bs) :: dec_words n (drop 4 bs)
  end.

(** ** The structs as bytes *)

Definition enc_super (s : sfs_super) : list Z :=
  be32 (sp_magic s) ++ be32 (sp_nblocks s) ++ sp_volname s ++ enc_words (sp_reserved s).

Definition dec_super (bs : list Z) : sfs_super :=
  {| sp_magic := of_be (take 4 bs); sp_nblocks := of_be (take 4 (drop 4 bs));
     sp_volname := take 32 (drop 8 bs); sp_reserved := dec_words 118 (drop 40 bs) |}.

Definition enc_inode (i : sfs_inode) : list Z :=
  be32 (sfi_size i) ++ be16 (sfi_type i) ++ be16 (sfi_linkcount i) ++
  enc_words (sfi_direct i) ++ be32 (sfi_indirect i) ++ enc_words (sfi_waste i).

Definition dec_inode (bs : list Z) : sfs_inode :=
  {| sfi_size := of_be (take 4 bs); sfi_type := of_be (take 2 (drop 4 bs));
     sfi_linkcount := of_be (take 2 (drop 6 bs)); sfi_direct := dec_words 15 (drop 8 bs);
     sfi_indirect := of_be (take 4 (drop 68 bs)); sfi_waste := dec_words 110 (drop 72 bs) |}.

Definition enc_dir (d : sfs_dir) : list Z := be32 (sfd_ino d) ++ sfd_name d.

Definition dec_dir (bs : list Z) : sfs_dir :=
  {| sfd_ino := of_be (take 4 bs); sfd_name := take 60 (drop 4 bs) |}.

(** ** The values a struct can hold *)

Definition words_ok (n : nat) (ws : list Z) : Prop := length ws = n /\ Forall is_u32 ws.

Definition bytes_of (n : nat) (bs : list Z) : Prop := length bs = n /\ Forall is_byte bs.

Definition inode_ok (i : sfs_inode) : Prop :=
  is_u32 (sfi_size i) /\ 0 <= sfi_type i < 2 ^ 16 /\ 0 <= sfi_linkcount i < 2 ^ 16 /\
  words_ok 15 (sfi_direct i) /\ is_u32 (sfi_indirect i) /\ words_ok 110 (sfi_waste i).

Definition super_ok (s : sfs_super) : Prop :=
  is_u32 (sp_magic s) /\ is_u32 (sp_nblocks s) /\ bytes_of 32 (sp_volname s) /\
  words_ok 118 (sp_reserved s).

Definition dir_ok (d : sfs_dir) : Prop := is_u32 (sfd_ino d) /\ bytes_of 60 (sfd_name d).

(** ** Round trips *)

Lemma length_be32 x : length (be32 x) = 4%nat.
Proof. done. Qed.

Lemma be32_alt x :
  be32 x = [x / 256 / 256 / 256; (x / 256 / 256) `mod` 256; (x / 256) `mod` 256; x `mod` 256].
Proof. unfold be32. rewrite !Z.div_div by lia. reflexivity. Qed.

Lemma of_be_be32 x : of_be (be32 x) = x.
Proof.
  rewrite be32_alt. unfold of_be. simpl.
  pose proof (Z.div_mod x 256). pose proof (Z.div_mod (x / 256) 256).
  pose proof (Z.div_mod (x / 256 / 256) 256). lia.
Qed.

Lemma of_be_be16 x : of_be (be16 x) = x.
Proof. unfold of_be, be16. simpl. change (2 ^ 8) with 256. pose proof (Z.div_mod x 256). lia. Qed.

Lemma be32_bytes x : is_u32 x -> bytes_of 4 (be32 x).
Proof.
  unfold is_u32, be32. intros ?. split; [done|].
  repeat constructor; try apply Z.mod_pos_bound; try done; zdm.
Qed.

Lemma be16_bytes x : 0 <= x < 2 ^ 16 -> bytes_of 2 (be16 x).
Proof.
  unfold be16. intros ?. split; [done|].
  repeat constructor; try apply Z.mod_pos_bound; try done; zdm.
Qed.

Lemma of_be_4 bs : bytes_of 4 bs -> is_u32 (of_be bs) /\ be32 (of_be bs) = bs.
Proof.
  intros [Hl Hb]. destruct bs as [|a [|b [|c [|d []]]]]; try done.
  repeat (apply list.Forall_cons in Hb as [? Hb]). rewrite be32_alt.
  unfold is_byte, is_u32, of_be in *. simpl. rewrite Z.mul_0_l, Z.add_0_l. split; [lia|].
  assert (forall q r, 0 <= r < 256 -> (q * 256 + r) / 256 = q /\ (q * 256 + r) `mod` 256 = r) as Hd
    by (intros q r ?; zdm).
  destruct (Hd ((a * 256 + b) * 256 + c) d) as [-> ->]; [lia|].
  destruct (Hd (a * 256 + b) c) as [-> ->]; [lia|]. by destruct (Hd a b) as [-> ->]; [lia|].
Qed.

Lemma of_be_2 bs : bytes_of 2 bs -> 0 <= of_be bs < 2 ^ 16 /\ be16 (of_be bs) = bs.
Proof.
  intros [Hl Hb]. destruct bs as [|a [|b []]]; try done.
  repeat (apply list.Forall_cons in Hb as [? Hb]). unfold is_byte, of_be, be16 in *. simpl.
  split; [lia|]. repeat f_equal; zdm.
Qed.

(** Pieces of a block are blocks. *)
Lemma bytes_of_take n k bs : bytes_of (n + k) bs -> bytes_of n (take n bs).
Proof. intros [? ?]. split; [len|by apply Forall_take]. Qed.

Lemma bytes_of_drop n k bs : bytes_of (n + k) bs -> bytes_of k (drop n bs).
Proof. intros [? ?]. split; [len|by apply Forall_drop]. Qed.

Lemma bytes_of_app n k bs bs' : bytes_of n bs -> bytes_of k bs' -> bytes_of (n + k) (bs ++ bs').
Proof. intros [<- ?] [<- ?]. split; [by rewrite length_app|by apply Forall_app]. Qed.

Lemma enc_words_cons w ws : enc_words (w :: ws) = be32 w ++ enc_words ws.
Proof. done. Qed.

Lemma length_enc_words ws : length (enc_words ws) = (4 * length ws)%nat.
Proof.
  induction ws as [|w ws IH]; [done|]. rewrite enc_words_cons, length_app, IH, length_be32.
  simpl. lia.
Qed.

Lemma enc_words_bytes n ws : words_ok n ws -> bytes_of (4 * n) (enc_words ws).
Proof.
  intros [<- Hw]. split; [apply length_enc_words|].
  induction Hw as [|w ws Hw _ IH]; [done|]. apply Forall_app. split; [|done].
  by apply be32_bytes.
Qed.

Lemma dec_enc_words n ws r : words_ok n ws -> dec_words n (enc_words ws ++ r) = ws.
Proof.
  intros [<- Hw]. induction Hw as [|w ws Hw _ IH]; [done|]. simpl.
  f_equal; [apply of_be_be32|]. exact IH.
Qed.

Lemma dec_words_ok n bs k : bytes_of (4 * n + k) bs -> words_ok n (dec_words n bs).
Proof.
  revert bs. induction n as [|n IH]; intros bs Hb; [done|].
  replace (4 * S n + k)%nat with (4 + (4 * n + k))%nat in Hb by lia.
  destruct (IH (drop 4 bs)) as [Hl Hw]; [by eapply bytes_of_drop|]. split; simpl; [lia|].
  constructor; [|done]. eapply of_be_4, bytes_of_take, Hb.
Qed.

Lemma enc_dec_words n bs : bytes_of (4 * n) bs -> enc_words (dec_words n bs) = bs.
Proof.
  revert bs. induction n as [|n IH]; intros bs Hb.
  { destruct Hb as [Hl _]. simpl in *. symmetry. by apply nil_length_inv. }
  replace (4 * S n)%nat with (4 + 4 * n)%nat in Hb by lia. cbn [dec_words].
  transitivity (take 4 bs ++ drop 4 bs); [|apply take_drop].
  rewrite enc_words_cons. f_equal.
  - eapply of_be_4, bytes_of_take, Hb.
  - apply IH. by eapply bytes_of_drop.
Qed.

(** *** Whole structs *)

Lemma enc_inode_block i : inode_ok i -> bytes_of 512 (enc_inode i).
Proof.
  intros (? & ? & ? & ? & ? & ?). unfold enc_inode.
  apply (bytes_of_app 4 508); [by apply be32_bytes|].
  apply (bytes_of_app 2 506); [by apply be16_bytes|].
  apply (bytes_of_app 2 504); [by apply be16_bytes|].
  apply (bytes_of_app 60 444); [by apply (enc_words_bytes 15)|].
  apply (bytes_of_app 4 440); [by apply be32_bytes|by apply (enc_words_bytes 110)].
Qed.

Lemma dec_enc_inode i : inode_ok i -> dec_inode (enc_inode i) = i.
Proof.
  intros (? & ? & ? & Hd & ? & Hw). unfold dec_inode, enc_inode.
  set (rest := enc_words (sfi_direct i) ++ be32 (sfi_indirect i) ++ enc_words (sfi_waste i)).
  assert (drop 60 rest = be32 (sfi_indirect i) ++ enc_words (sfi_waste i)) as E.
  { unfold rest. rewrite drop_app_length'; [done|]. rewrite length_enc_words.
    by destruct Hd as [-> _]. }
  set (b := be32 (sfi_size i) ++ be16 (sfi_type i) ++ be16 (sfi_linkcount i) ++ rest).
  change (take 4 b) with (be32 (sfi_size i)). change (take 2 (drop 4 b)) with (be16 (sfi_type i)).
  change (take 2 (drop 6 b)) with (be16 (sfi_linkcount i)). change (drop 8 b) with rest.
  change (drop 68 b) with (drop 60 rest).
  replace (drop 72 b) with (drop 4 (drop 60 rest)) by (by rewrite drop_drop).
  rewrite E, !of_be_be16. change (drop 4 (be32 (sfi_indirect i) ++ enc_words (sfi_waste i)))
    with (enc_words (sfi_waste i)).
  change (take 4 (be32 (sfi_indirect i) ++ enc_words (sfi_waste i)))
    with (be32 (sfi_indirect i)). rewrite !of_be_be32. unfold rest. rewrite dec_enc_words by done.
  rewrite <- (app_nil_r (enc_words (sfi_waste i))), dec_enc_words by done. by destruct i.
Qed.

Lemma dec_inode_ok bs : bytes_of 512 bs -> inode_ok (dec_inode bs).
Proof.
  intros Hb. unfold inode_ok, dec_inode.
  cbn [sfi_size sfi_type sfi_linkcount sfi_direct sfi_indirect sfi_waste].
  split; [eapply of_be_4, (bytes_of_take 4 508), Hb|].
  split; [eapply of_be_2, (bytes_of_take 2 506), (bytes_of_drop 4 508), Hb|].
  split; [eapply of_be_2, (bytes_of_take 2 504), (bytes_of_drop 6 506), Hb|].
  split; [eapply (dec_words_ok 15 _ 444), (bytes_of_drop 8 504), Hb|].
  split; [eapply of_be_4, (bytes_of_take 4 440), (bytes_of_drop 68 444), Hb|].
  eapply (dec_words_ok 110 _ 0), (bytes_of_drop 72 440), Hb.
Qed.

Lemma enc_dir_bytes d : dir_ok d -> bytes_of 64 (enc_dir d).
Proof. intros [? ?]. apply (bytes_of_app 4 60); [by apply be32_bytes|done]. Qed.

Lemma dec_enc_dir d : dir_ok d -> dec_dir (enc_dir d) = d.
Proof.
  intros [Hi [Hl Hn]]. unfold dec_dir, enc_dir.
  change (take 4 (be32 (sfd_ino d) ++ sfd_name d)) with (be32 (sfd_ino d)).
  change (drop 4 (be32 (sfd_ino d) ++ sfd_name d)) with (sfd_name d).
  rewrite of_be_be32, take_ge by lia. by destruct d.
Qed.

Lemma dec_dir_ok bs : bytes_of 64 bs -> dir_ok (dec_dir bs).
Proof.
  intros Hb. unfold dir_ok, dec_dir. cbn [sfd_ino sfd_name].
  split; [eapply of_be_4, (bytes_of_take 4 60), Hb|].
  eapply (bytes_of_take 60 0), (bytes_of_drop 4 60), Hb.
Qed.

Lemma enc_super_block s : super_ok s -> bytes_of 512 (enc_super s).
Proof.
  intros (? & ? & ? & ?). unfold enc_super.
  apply (bytes_of_app 4 508); [by apply be32_bytes|].
  apply (bytes_of_app 4 504); [by apply be32_bytes|].
  apply (bytes_of_app 32 472); [done|by apply (enc_words_bytes 118)].
Qed.

Lemma dec_super_ok bs : bytes_of 512 bs -> super_ok (dec_super bs).
Proof.
  intros Hb. unfold super_ok, dec_super.
  cbn [sp_magic sp_nblocks sp_volname sp_reserved].
  split; [eapply of_be_4, (bytes_of_take 4 508), Hb|].
  split; [eapply of_be_4, (bytes_of_take 4 504), (bytes_of_drop 4 508), Hb|].
  split; [eapply (bytes_of_take 32 472), (bytes_of_drop 8 504), Hb|].
  eapply (dec_words_ok 118 _ 0), (bytes_of_drop 40 472), Hb.
Qed.

Lemma dec_enc_super s : super_ok s -> dec_super (enc_super s) = s.
Proof.
  intros (? & ? & [Hl ?] & ?). unfold dec_super, enc_super.
  set (rest := sp_volname s ++ enc_words (sp_reserved s)).
  set (b := be32 (sp_magic s) ++ be32 (sp_nblocks s) ++ rest).
  change (take 4 b) with (be32 (sp_magic s)).
  change (take 4 (drop 4 b)) with (be32 (sp_nblocks s)). change (drop 8 b) with rest.
  change (drop 40 b) with (drop 32 rest). unfold rest.
  rewrite take_app_length', drop_app_length', !of_be_be32 by done.
  rewrite <- (app_nil_r (enc_words (sp_reserved s))), dec_enc_words by done. by destruct s.
Qed.

Lemma dec_words_take n bs k : (4 * n <= k)%nat -> dec_words n (take k bs) = dec_words n bs.
Proof.
  revert bs k. induction n as [|n IH]; intros bs k Hk; [done|].
  cbn [dec_words]. rewrite take_take, Nat.min_l by lia. f_equal.
  rewrite skipn_firstn_comm. apply IH. lia.
Qed.

Lemma enc_dec_prefix n bs k :
  bytes_of (4 * n + k) bs -> enc_words (dec_words n bs) = take (4 * n) bs.
Proof.
  intros Hb. rewrite <- (dec_words_take n bs (4 * n)) by lia.
  apply enc_dec_words. by eapply bytes_of_take.
Qed.

(** The pieces of a buffer, put together again. *)
Lemma take_then_drop (n m : nat) (bs : list Z) : take n (drop m bs) ++ drop (m + n) bs = drop m bs.
Proof. by rewrite <- drop_drop, take_drop. Qed.

Lemma enc_dec_inode bs : bytes_of 512 bs -> enc_inode (dec_inode bs) = bs.
Proof.
  intros Hb. unfold enc_inode, dec_inode.
  cbn [sfi_size sfi_type sfi_linkcount sfi_direct sfi_indirect sfi_waste].
  rewrite (proj2 (of_be_4 (take 4 bs) (bytes_of_take 4 508 _ Hb))).
  rewrite (proj2 (of_be_2 (take 2 (drop 4 bs)) (bytes_of_take 2 506 _ (bytes_of_drop 4 508 _ Hb)))).
  rewrite (proj2 (of_be_2 (take 2 (drop 6 bs)) (bytes_of_take 2 504 _ (bytes_of_drop 6 506 _ Hb)))).
  rewrite (proj2 (of_be_4 (take 4 (drop 68 bs)) (bytes_of_take 4 440 _ (bytes_of_drop 68 444 _ Hb)))).
  rewrite (enc_dec_prefix 15 _ 444 (bytes_of_drop 8 504 _ Hb)).
  rewrite (enc_dec_words 110 _ (bytes_of_drop 72 440 _ Hb)).
  rewrite (take_then_drop 4 68), (take_then_drop (4 * 15) 8), (take_then_drop 2 6), (take_then_drop 2 4).
  apply take_drop.
Qed.

Lemma enc_dec_super bs : bytes_of 512 bs -> enc_super (dec_super bs) = bs.
Proof.
  intros Hb. unfold enc_super, dec_super. cbn [sp_magic sp_nblocks sp_volname sp_reserved].
  rewrite (proj2 (of_be_4 (take 4 bs) (bytes_of_take 4 508 _ Hb))).
  rewrite (proj2 (of_be_4 (take 4 (drop 4 bs)) (bytes_of_take 4 504 _ (bytes_of_drop 4 508 _ Hb)))).
  rewrite (enc_dec_words 118 _ (bytes_of_drop 40 472 _ Hb)).
  rewrite (take_then_drop 32 8), (take_then_drop 4 4). apply take_drop.
Qed.

Lemma enc_dec_dir bs : bytes_of 64 bs -> enc_dir (dec_dir bs) = bs.
Proof.
  intros Hb. unfold enc_dir, dec_dir. cbn [sfd_ino sfd_name].
  rewrite (proj2 (of_be_4 (take 4 bs) (bytes_of_take 4 60 _ Hb))).
  rewrite (take_ge (drop 4 bs)) by (rewrite length_drop; destruct Hb; lia). apply take_drop.
Qed.

(** The on-disk format loses nothing: a superblock, an inode and a directory
    entry whose fields fit their widths come back from the bytes they are written
    as. *)
Theorem sfs_disk_roundtrip s i d :
  super_ok s -> inode_ok i -> dir_ok d ->
  dec_super (enc_super s) = s /\ dec_inode (enc_inode i) = i /\ dec_dir (enc_dir d) = d.
Proof.
  intros Hs Hi Hd. split; [by apply dec_enc_super|]. split; [by apply dec_enc_inode|].
  by apply dec_enc_dir.
Qed.

(** Every block of 512 bytes is a superblock and an inode, and every 64 bytes a
    directory entry, with all fields within their widths, and writing them back
    gives the same bytes; so what is read from any disk can be held in the structs
    of sfs.h. *)
Theorem sfs_disk_types bs ds :
  bytes_of 512 bs -> bytes_of 64 ds ->
  (super_ok (dec_super bs) /\ enc_super (dec_super bs) = bs) /\
  (inode_ok (dec_inode bs) /\ enc_inode (dec_inode bs) = bs) /\
  (dir_ok (dec_dir ds) /\ enc_dir (dec_dir ds) = ds).
Proof.
  intros Hb Hd. split; [|split].
  - split; [by apply dec_super_ok|by apply enc_dec_super].
  - split; [by apply dec_inode_ok|by apply enc_dec_inode].
  - split; [by apply dec_dir_ok|by apply enc_dec_dir].
Qed.

#[global] Instance bytes_of_dec n l : Decision (bytes_of n l).
Proof. unfold bytes_of, is_byte. apply _. Defined.

#[global] Instance words_ok_dec n l : Decision (words_ok n l).
Proof. unfold words_ok, is_u32. apply _. Defined.

#[global] Instance inode_ok_dec i : Decision (inode_ok i).
Proof. unfold inode_ok, is_u32. apply _. Defined.

Lemma sfs_disk_roundtrip_witness :
  let s := {| sp_magic := SFS_MAGIC; sp_nblocks := 64; sp_volname := replicate 32 65;
              sp_reserved := replicate 118 0 |} in
  let i := {| sfi_size := 513; sfi_type := SFS_TYPE_FILE; sfi_linkcount := 2;
              sfi_direct := replicate 15 7; sfi_indirect := 0; sfi_waste := replicate 110 0 |} in
  let d := {| sfd_ino := 300; sfd_name := replicate 60 97 |} in
  dec_super (enc_super s) = s /\ dec_inode (enc_inode i) = i /\ dec_dir (enc_dir d) = d.
Proof.
  intros s i d. apply (sfs_disk_roundtrip s i d).
  - split; [by vm_compute|]. split; [by vm_compute|].
    split; [apply (bool_decide_unpack (bytes_of 32 _))|apply (bool_decide_unpack (words_ok 118 _))];
      by vm_compute.
  - apply (bool_decide_unpack (inode_ok _)). by vm_compute.
  - split; [by vm_compute|]. apply (bool_decide_unpack (bytes_of 60 _)). by vm_compute.
Defined.

Lemma ff_bytes n : bytes_of n (replicate n 255).
Proof. split; [apply length_replicate|]. apply Forall_replicate. by unfold is_byte. Qed.

Lemma sfs_disk_types_witness :
  inode_ok (dec_inode (replicate 512 255)) /\ sfi_size (dec_inode (replicate 512 255)) = 2 ^ 32 - 1.
Proof.
  split; [|by vm_compute].
  exact (proj1 (proj1 (proj2 (sfs_disk_types (replicate 512 255) (replicate 64 255)
    (ff_bytes 512) (ff_bytes 64))))).
Defined.

#[global] Arguments dec_words : simpl never.
#[global] Arguments dec_inode : simpl never.
#[global] Arguments enc_inode : simpl never.
