(* ===== verification/Sfs.v ===== *)
(** * The SFS file system (kern/fs/sfs/sfs_io.c and the file and directory
      level of kern/fs/sfs/sfs_vnode.c)

    [sfs_fs] is the part of [struct sfs_fs] that the block and file level uses;
    the table of loaded vnodes is in [SfsMount].  A [struct sfs_vnode] is passed
    to the functions that change it and returned by them.  The static buffers
    of the source ([idbuf], [iobuf], [zeros]) are filled before they are read on
    every path, so they are local values here.

    The functions are sequential: the source takes no lock at this level.

    A buffer the kernel hands to [mk_kuio] is put at a kernel address of its own
    for the transfer. *)

From stdpp Require Import base option list gmap numbers.
From S2P Require Import Prelude Cstring Bitmap Uio Device SfsDisk.

(** ** The data *)

(** Which of the two tables of operations a vnode has. *)
Inductive vnode_ops := sfs_fileops | sfs_dirops.

#[global] Instance vnode_ops_eq_dec : EqDecision vnode_ops.
Proof. solve_decision. Defined.

(** [struct vnode].  [vn_countlock] is the lock with its name, as allocated;
    [None] stands for the NULL of a vnode that was killed. *)
Record vnode := Vnode {
  vn_refcount : Z;
  vn_opencount : Z;
  vn_countlock : option (Z * Z);
  vn_ops : option vnode_ops;
}.

Record sfs_vnode := SfsVnode {
  sv_v : vnode;
  sv_i : sfs_inode;
  sv_ino : Z;
  sv_dirty : bool;
}.

Record sfs_fs (D : Type) := SfsFs {
  fs_super : sfs_super;
  fs_superdirty : bool;
  fs_device : D;
  fs_freemap : bitmap;
  fs_freemapdirty : bool;
}.
Arguments SfsFs {D}.
Arguments fs_super {D}.
Arguments fs_superdirty {D}.
Arguments fs_device {D}.
Arguments fs_freemap {D}.
Arguments fs_freemapdirty {D}.

Definition set_device {D} (d : D) (fs : sfs_fs D) : sfs_fs D :=
  {| fs_super := fs_super fs; fs_superdirty := fs_superdirty fs; fs_device := d;
     fs_freemap := fs_freemap fs; fs_freemapdirty := fs_freemapdirty fs |}.
Definition set_freemap {D} (b : bitmap) (fs : sfs_fs D) : sfs_fs D :=
  {| fs_super := fs_super fs; fs_superdirty := fs_superdirty fs;
     fs_device := fs_device fs; fs_freemap := b; fs_freemapdirty := true |}.

Definition set_inode (i : sfs_inode) (dirty : bool) (sv : sfs_vnode) : sfs_vnode :=
  {| sv_v := sv_v sv; sv_i := i; sv_ino := sv_ino sv; sv_dirty := dirty |}.

Definition set_direct (l : list Z) (i : sfs_inode) : sfs_inode :=
  {| sfi_size := sfi_size i; sfi_type := sfi_type i; sfi_linkcount := sfi_linkcount i;
     sfi_direct := l; sfi_indirect := sfi_indirect i; sfi_waste := sfi_waste i |}.
Definition set_indirect (b : Z) (i : sfs_inode) : sfs_inode :=
  {| sfi_size := sfi_size i; sfi_type := sfi_type i; sfi_linkcount := sfi_linkcount i;
     sfi_direct := sfi_direct i; sfi_indirect := b; sfi_waste := sfi_waste i |}.
Definition set_size (n : Z) (i : sfs_inode) : sfs_inode :=
  {| sfi_size := n; sfi_type := sfi_type i; sfi_linkcount := sfi_linkcount i;
     sfi_direct := sfi_direct i; sfi_indirect := sfi_indirect i; sfi_waste := sfi_waste i |}.
Definition set_linkcount (n : Z) (i : sfs_inode) : sfs_inode :=
  {| sfi_size := sfi_size i; sfi_type := sfi_type i; sfi_linkcount := n;
     sfi_direct := sfi_direct i; sfi_indirect := sfi_indirect i; sfi_waste := sfi_waste i |}.
Definition set_type (t : Z) (i : sfs_inode) : sfs_inode :=
  {| sfi_size := sfi_size i; sfi_type := t; sfi_linkcount := sfi_linkcount i;
     sfi_direct := sfi_direct i; sfi_indirect := sfi_indirect i; sfi_waste := sfi_waste i |}.

(** A block of zeros; also what an uninitialised buffer starts as. *)
Definition zeroblock : list Z := replicate 512 0.

(** The same as words of an indirect block. *)
Definition zeroids : list Z := replicate 128 0.

(** Where a kernel buffer sits during a transfer, and the memory around it. *)
Definition KBUF : Z := 2 ^ 31.
Definition kvm (data : list Z) : vm :=
  {| vm_mem := mem_write ∅ KBUF data; vm_badfaultfunc := false; vm_space := 0 |}.

Section sfs.
Context {D : Type} `{!Device D}.
Implicit Types fs : sfs_fs D.

(** ** sfs_io.c *)

(** The loop around [retry]: the first attempt and at most ten more. *)
Fixpoint rwblock_retry (n : nat) (tries : Z) (u : uio) (v : vm) fs :
    option (Z * uio * vm * sfs_fs D) :=
  match n with
  | O => None
  | S n =>
      '(result, u, v, d) ← d_io u v (fs_device fs);
      let fs := set_device d fs in
      if result =? EINVAL then None                    (* panic *)
      else if result =? EIO then
        if tries =? 0 then rwblock_retry n (tries + 1) u v fs
        else if tries <? 10 then rwblock_retry n (tries + 1) u v fs
        else Some (result, u, v, fs)
      else Some (result, u, v, fs)
  end.

Definition sfs_rwblock (u : uio) (v : vm) fs : option (Z * uio * vm * sfs_fs D) :=
  rwblock_retry 11 0 u v fs.

Definition SFSUIO (block : Z) (rw : uio_rw_t) : uio :=
  mk_kuio KBUF SFS_BLOCKSIZE (s32 (s32 block * SFS_BLOCKSIZE)) rw.

Definition sfs_rblock (data : list Z) (block : Z) fs : option (Z * list Z * sfs_fs D) :=
  '(result, _, v, fs) ← sfs_rwblock (SFSUIO block UIO_READ) (kvm data) fs;
  Some (result, mem_bytes (vm_mem v) KBUF (length data), fs).

Definition sfs_wblock (data : list Z) (block : Z) fs : option (Z * sfs_fs D) :=
  '(result, _, _, fs) ← sfs_rwblock (SFSUIO block UIO_WRITE) (kvm data) fs;
  Some (result, fs).

(** ** sfs_vnode.c: simple stuff and space allocation *)

Definition sfs_clearblock (block : Z) fs : option (Z * sfs_fs D) :=
  sfs_wblock zeroblock block fs.

Definition sfs_sync_inode (sv : sfs_vnode) fs : option (Z * sfs_vnode * sfs_fs D) :=
  if sv_dirty sv then
    '(result, fs) ← sfs_wblock (enc_inode (sv_i sv)) (sv_ino sv) fs;
    if negb (result =? 0) then Some (result, sv, fs)
    else Some (0, set_inode (sv_i sv) false sv, fs)
  else Some (0, sv, fs).

(** The result and [*diskblock], which is not set when no block is free. *)
Definition sfs_balloc fs : option (Z * Z * sfs_fs D) :=
  '(result, index, fm) ← bitmap_alloc (fs_freemap fs);
  if negb (result =? 0) then Some (result, 0, fs)
  else
    diskblock ← index;
    let fs := set_freemap fm fs in
    if sp_nblocks (fs_super fs) <=? diskblock then None     (* panic *)
    else
      '(result, fs) ← sfs_clearblock diskblock fs;
      Some (result, diskblock, fs).

Definition sfs_bfree (diskblock : Z) fs : option (sfs_fs D) :=
  fm ← bitmap_unmark (fs_freemap fs) diskblock;
  Some (set_freemap fm fs).

Definition sfs_bused (diskblock : Z) fs : option Z :=
  if sp_nblocks (fs_super fs) <=? diskblock then None       (* panic *)
  else bitmap_isset (fs_freemap fs) diskblock.

(** ** Block mapping *)

(** The last lines of both halves of [sfs_bmap]. *)
Definition bmap_return (block : Z) (sv : sfs_vnode) fs :
    option (Z * Z * sfs_vnode * sfs_fs D) :=
  if block =? 0 then Some (0, block, sv, fs)
  else
    used ← sfs_bused block fs;
    if used =? 0 then None                                  (* panic *)
    else Some (0, block, sv, fs).

Definition bmap_direct (sv : sfs_vnode) (fileblock : Z) (doalloc : bool) fs :
    option (Z * Z * sfs_vnode * sfs_fs D) :=
  block ← sfi_direct (sv_i sv) !! Z.to_nat fileblock;
  if (block =? 0) && doalloc then
    '(result, block, fs) ← sfs_balloc fs;
    if negb (result =? 0) then Some (result, 0, sv, fs)
    else
      let i := set_direct (<[Z.to_nat fileblock := block]> (sfi_direct (sv_i sv))) (sv_i sv) in
      bmap_return block (set_inode i true sv) fs
  else bmap_return block sv fs.

(** From "Get the block out of the indirect block buffer" on. *)
Definition bmap_entry (sv : sfs_vnode) (idblock : Z) (idbuf : list Z) (idoff : Z)
    (doalloc : bool) fs : option (Z * Z * sfs_vnode * sfs_fs D) :=
  block ← idbuf !! Z.to_nat idoff;
  if (block =? 0) && doalloc then
    '(result, block, fs) ← sfs_balloc fs;
    if negb (result =? 0) then Some (result, 0, sv, fs)
    else
      let idbuf := <[Z.to_nat idoff := block]> idbuf in
      '(result, fs) ← sfs_wblock (enc_words idbuf) idblock fs;
      if negb (result =? 0) then Some (result, 0, sv, fs)
      else bmap_return block sv fs
  else bmap_return block sv fs.

Definition bmap_indirect (sv : sfs_vnode) (idoff : Z) (doalloc : bool) fs :
    option (Z * Z * sfs_vnode * sfs_fs D) :=
  let idblock := sfi_indirect (sv_i sv) in
  if (idblock =? 0) && negb doalloc then Some (0, 0, sv, fs)
  else if idblock =? 0 then
    '(result, idblock, fs) ← sfs_balloc fs;
    if negb (result =? 0) then Some (result, 0, sv, fs)
    else
      let sv := set_inode (set_indirect idblock (sv_i sv)) true sv in
      bmap_entry sv idblock zeroids idoff doalloc fs
  else
    '(result, bytes, fs) ← sfs_rblock zeroblock idblock fs;
    if negb (result =? 0) then Some (result, 0, sv, fs)
    else bmap_entry sv idblock (dec_words 128 bytes) idoff doalloc fs.

(** The result and [*diskblock], 0 where the source leaves it unset. *)
Definition sfs_bmap (sv : sfs_vnode) (fileblock : Z) (doalloc : bool) fs :
    option (Z * Z * sfs_vnode * sfs_fs D) :=
  if fileblock <? SFS_NDIRECT then bmap_direct sv fileblock doalloc fs
  else
    let fileblock := u32 (fileblock - SFS_NDIRECT) in
    let idnum := fileblock / SFS_DBPERIDB in
    let idoff := fileblock `mod` SFS_DBPERIDB in
    if 0 <? idnum then Some (EINVAL, 0, sv, fs)
    else bmap_indirect sv idoff doalloc fs.

(** ** File-level I/O *)

(** What an I/O function returns: the result, the uio, the memory, the vnode and
    the file system. *)
Definition io_ret : Type := Z * uio * vm * sfs_vnode * sfs_fs D.

Definition is_write (u : uio) : bool := bool_decide (uio_rw u = UIO_WRITE).

Definition sfs_partialio (sv : sfs_vnode) (u : uio) (v : vm) (skipstart len : Z) fs :
    option io_ret :=
  let doalloc := is_write u in
  ASSERT u32 (skipstart + len) <=? SFS_BLOCKSIZE ;;
  let fileblock := u32 (Z.quot (uio_offset u) SFS_BLOCKSIZE) in
  '(result, diskblock, sv, fs) ← sfs_bmap sv fileblock doalloc fs;
  if negb (result =? 0) then Some (result, u, v, sv, fs)
  else
    '(result, iobuf, fs) ←
      (if diskblock =? 0 then
         ASSERT negb (is_write u) ;; Some (0, zeroblock, fs)
       else sfs_rblock zeroblock diskblock fs);
    if negb (result =? 0) then Some (result, u, v, sv, fs)
    else
      '(result, moved, u, v) ← uiomove (drop (Z.to_nat skipstart) iobuf) len u v;
      if negb (result =? 0) then Some (result, u, v, sv, fs)
      else
        let iobuf := take (Z.to_nat skipstart) iobuf ++ moved in
        if is_write u then
          '(result, fs) ← sfs_wblock iobuf diskblock fs;
          Some (result, u, v, sv, fs)
        else Some (0, u, v, sv, fs).

Definition set_offset_resid (off resid : Z) (u : uio) : uio :=
  {| iov_base := iov_base u; iov_len := iov_len u; uio_offset := off; uio_resid := resid;
     uio_segflg := uio_segflg u; uio_rw := uio_rw u; uio_space := uio_space u |}.

Definition sfs_blockio (sv : sfs_vnode) (u : uio) (v : vm) fs : option io_ret :=
  let doalloc := is_write u in
  let fileblock := u32 (Z.quot (uio_offset u) SFS_BLOCKSIZE) in
  '(result, diskblock, sv, fs) ← sfs_bmap sv fileblock doalloc fs;
  if negb (result =? 0) then Some (result, u, v, sv, fs)
  else if diskblock =? 0 then
    ASSERT negb (is_write u) ;;
    '(result, u, v) ← uiomovezeros SFS_BLOCKSIZE u v;
    Some (result, u, v, sv, fs)
  else
    let saveoff := uio_offset u in
    let diskoff := s32 (u32 (diskblock * SFS_BLOCKSIZE)) in
    ASSERT SFS_BLOCKSIZE <=? uio_resid u ;;
    let saveres := s32 (uio_resid u) in
    let diskres := SFS_BLOCKSIZE in
    '(result, u, v, fs) ← sfs_rwblock (set_offset_resid diskoff diskres u) v fs;
    let u := set_offset_resid (s32 (s32 (uio_offset u - diskoff) + saveoff))
                              (u32 (u32 (uio_resid u - diskres) + saveres)) u in
    Some (result, u, v, sv, fs).

(** The loop over the whole blocks. *)
Fixpoint blockio_loop (n : nat) (sv : sfs_vnode) (u : uio) (v : vm) fs : option io_ret :=
  match n with
  | O => Some (0, u, v, sv, fs)
  | S n =>
      '(result, u, v, sv, fs) ← sfs_blockio sv u v fs;
      if negb (result =? 0) then Some (result, u, v, sv, fs)
      else blockio_loop n sv u v fs
  end.

(** From the leading partial block to the label [out]. *)
Definition io_blocks (sv : sfs_vnode) (u : uio) (v : vm) fs : option io_ret :=
  let blkoff := u32 (Z.rem (uio_offset u) SFS_BLOCKSIZE) in
  '(result, u, v, sv, fs) ←
    (if negb (blkoff =? 0) then
       let len := u32 (SFS_BLOCKSIZE - blkoff) in
       let len := if uio_resid u <? len then uio_resid u else len in
       sfs_partialio sv u v blkoff len fs
     else Some (0, u, v, sv, fs));
  if negb (result =? 0) then Some (result, u, v, sv, fs)
  else if uio_resid u =? 0 then Some (0, u, v, sv, fs)
  else
    ASSERT Z.rem (uio_offset u) SFS_BLOCKSIZE =? 0 ;;
    let nblocks := uio_resid u / SFS_BLOCKSIZE in
    '(result, u, v, sv, fs) ← blockio_loop (Z.to_nat nblocks) sv u v fs;
    if negb (result =? 0) then Some (result, u, v, sv, fs)
    else
      ASSERT uio_resid u <? SFS_BLOCKSIZE ;;
      if 0 <? uio_resid u then sfs_partialio sv u v 0 (uio_resid u) fs
      else Some (0, u, v, sv, fs).

(** What follows the label [out]. *)
Definition io_out (extraresid : Z) (r : io_ret) : io_ret :=
  let '(result, u, v, sv, fs) := r in
  let sv := if is_write u && (s32 (sfi_size (sv_i sv)) <? uio_offset u)
            then set_inode (set_size (u32 (uio_offset u)) (sv_i sv)) true sv else sv in
  (result, set_offset_resid (uio_offset u) (u32 (uio_resid u + extraresid)) u, v, sv, fs).

Definition sfs_io (sv : sfs_vnode) (u : uio) (v : vm) fs : option io_ret :=
  if is_write u then
    r ← io_blocks sv u v fs; Some (io_out 0 r)
  else
    let size := s32 (sfi_size (sv_i sv)) in
    let endpos := s32 (u32 (uio_offset u + uio_resid u)) in
    if size <=? uio_offset u then Some (0, u, v, sv, fs)
    else if size <? endpos then
      let extraresid := u32 (endpos - size) in
      ASSERT extraresid <? uio_resid u ;;
      r ← io_blocks sv (set_offset_resid (uio_offset u) (uio_resid u - extraresid) u) v fs;
      Some (io_out extraresid r)
    else r ← io_blocks sv u v fs; Some (io_out 0 r).

(** ** Directory I/O *)

Definition sizeof_sfs_dir : Z := 64.

(** The result and the entry that was read. *)
Definition sfs_readdir (sv : sfs_vnode) (slot : Z) fs :
    option (Z * sfs_dir * sfs_vnode * sfs_fs D) :=
  let actualpos := s32 (u32 (slot * sizeof_sfs_dir)) in
  let ku := mk_kuio KBUF sizeof_sfs_dir actualpos UIO_READ in
  '(result, ku, v, sv, fs) ← sfs_io sv ku (kvm (replicate 64 0)) fs;
  let sd := dec_dir (mem_bytes (vm_mem v) KBUF 64) in
  if negb (result =? 0) then Some (result, sd, sv, fs)
  else if 0 <? uio_resid ku then None                       (* panic *)
  else Some (0, sd, sv, fs).

Definition sfs_writedir (sv : sfs_vnode) (sd : sfs_dir) (slot : Z) fs :
    option (Z * sfs_vnode * sfs_fs D) :=
  ASSERT 0 <=? slot ;;
  let actualpos := s32 (u32 (slot * sizeof_sfs_dir)) in
  let ku := mk_kuio KBUF sizeof_sfs_dir actualpos UIO_WRITE in
  '(result, ku, v, sv, fs) ← sfs_io sv ku (kvm (enc_dir sd)) fs;
  if negb (result =? 0) then Some (result, sv, fs)
  else if 0 <? uio_resid ku then None                       (* panic *)
  else Some (0, sv, fs).

Definition sfs_dir_nentries (sv : sfs_vnode) : option Z :=
  ASSERT sfi_type (sv_i sv) =? SFS_TYPE_DIR ;;
  let size := s32 (sfi_size (sv_i sv)) in
  if negb (u32 size `mod` sizeof_sfs_dir =? 0) then None    (* panic *)
  else Some (s32 (u32 size / sizeof_sfs_dir)).

(** The loop of [sfs_dir_findname]: [found] is the inode and slot number of the
    name, [empty] the last empty slot seen. *)
Fixpoint findname_loop (n : nat) (i : Z) (name : list Z) (found : option (Z * Z))
    (empty : option Z) (sv : sfs_vnode) fs :
    option (Z * option (Z * Z) * option Z * sfs_vnode * sfs_fs D) :=
  match n with
  | O => Some (if found is Some _ then 0 else ENOENT, found, empty, sv, fs)
  | S n =>
      '(result, tsd, sv, fs) ← sfs_readdir sv i fs;
      if negb (result =? 0) then Some (result, found, empty, sv, fs)
      else if sfd_ino tsd =? SFS_NOINO then
        findname_loop n (i + 1) name found (Some i) sv fs
      else
        c ← strcmp (<[59%nat := 0]> (sfd_name tsd)) (name ++ [0]);
        if c =? 0 then
          ASSERT negb (bool_decide (is_Some found)) ;;
          findname_loop n (i + 1) name (Some (sfd_ino tsd, i)) empty sv fs
        else findname_loop n (i + 1) name found empty sv fs
  end.

Definition sfs_dir_findname (sv : sfs_vnode) (name : list Z) fs :
    option (Z * option (Z * Z) * option Z * sfs_vnode * sfs_fs D) :=
  nentries ← sfs_dir_nentries sv;
  findname_loop (Z.to_nat nentries) 0 name None None sv fs.

(** The result and the slot of the new entry. *)
Definition sfs_dir_link (sv : sfs_vnode) (name : list Z) (ino : Z) fs :
    option (Z * Z * sfs_vnode * sfs_fs D) :=
  '(result, _, empty, sv, fs) ← sfs_dir_findname sv name fs;
  if negb (result =? 0) && negb (result =? ENOENT) then Some (result, 0, sv, fs)
  else if result =? 0 then Some (EEXIST, 0, sv, fs)
  else
    len ← strlen (name ++ [0]);
    if SFS_NAMELEN <? u32 (len + 1) then Some (ENAMETOOLONG, 0, sv, fs)
    else
      emptyslot ← (if empty is Some slot then Some slot else sfs_dir_nentries sv);
      sfd ← strcpy (replicate 60 0) (name ++ [0]);
      '(result, sv, fs) ← sfs_writedir sv {| sfd_ino := ino; sfd_name := sfd |} emptyslot fs;
      Some (result, emptyslot, sv, fs).

Definition sfs_dir_unlink (sv : sfs_vnode) (slot : Z) fs :
    option (Z * sfs_vnode * sfs_fs D) :=
  sfs_writedir sv {| sfd_ino := SFS_NOINO; sfd_name := replicate 60 0 |} slot fs.

(** ** Truncation *)

(** The loop over the direct blocks. *)
Fixpoint truncate_direct (n : nat) (i blocklen : Z) (sv : sfs_vnode) fs :
    option (sfs_vnode * sfs_fs D) :=
  match n with
  | O => Some (sv, fs)
  | S n =>
      block ← sfi_direct (sv_i sv) !! Z.to_nat i;
      if (blocklen <=? i) && negb (block =? 0) then
        fs ← sfs_bfree block fs;
        let ino := set_direct (<[Z.to_nat i := 0]> (sfi_direct (sv_i sv))) (sv_i sv) in
        truncate_direct n (i + 1) blocklen (set_inode ino true sv) fs
      else truncate_direct n (i + 1) blocklen sv fs
  end.

(** The loop over the indirect block: the buffer, [hasnonzero] and [iddirty]. *)
Fixpoint truncate_indirect (n : nat) (j blocklen baseblock : Z) (idbuf : list Z)
    (hasnonzero iddirty : bool) fs : option (list Z * bool * bool * sfs_fs D) :=
  match n with
  | O => Some (idbuf, hasnonzero, iddirty, fs)
  | S n =>
      block ← idbuf !! Z.to_nat j;
      if (blocklen <? baseblock + j) && negb (block =? 0) then
        fs ← sfs_bfree block fs;
        truncate_indirect n (j + 1) blocklen baseblock (<[Z.to_nat j := 0]> idbuf)
          hasnonzero true fs
      else
        truncate_indirect n (j + 1) blocklen baseblock idbuf
          (hasnonzero || negb (block =? 0)) iddirty fs
  end.

(** What is done about the indirect block. *)
Definition truncate_ind_part (blocklen : Z) (sv : sfs_vnode) fs : option (Z * sfs_vnode * sfs_fs D) :=
  let idblock := sfi_indirect (sv_i sv) in
  if (blocklen <? SFS_NDIRECT + SFS_DBPERIDB - 1) && negb (idblock =? 0) then
    '(result, bytes, fs) ← sfs_rblock zeroblock idblock fs;
    if negb (result =? 0) then Some (result, sv, fs)
    else
      '(idbuf, hasnonzero, iddirty, fs) ←
        truncate_indirect 128 0 blocklen SFS_NDIRECT (dec_words 128 bytes) false false fs;
      if negb hasnonzero then
        fs ← sfs_bfree idblock fs;
        Some (0, set_inode (set_indirect 0 (sv_i sv)) true sv, fs)
      else if (iddirty : bool) then
        '(result, fs) ← sfs_wblock (enc_words idbuf) idblock fs;
        Some (result, sv, fs)
      else Some (0, sv, fs)
  else Some (0, sv, fs).

Definition sfs_truncate (sv : sfs_vnode) (len : Z) fs : option (Z * sfs_vnode * sfs_fs D) :=
  let blocklen := u32 (Z.quot (s32 (s32 (len + SFS_BLOCKSIZE) - 1)) SFS_BLOCKSIZE) in
  '(sv, fs) ← truncate_direct 15 0 blocklen sv fs;
  '(result, sv, fs) ← truncate_ind_part blocklen sv fs;
  if negb (result =? 0) then Some (result, sv, fs)
  else Some (0, set_inode (set_size (u32 len) (sv_i sv)) true sv, fs).

(** ** Reading and writing a file *)

Definition sfs_read (sv : sfs_vnode) (u : uio) (v : vm) fs : option io_ret :=
  ASSERT negb (is_write u) ;; sfs_io sv u v fs.

Definition sfs_write (sv : sfs_vnode) (u : uio) (v : vm) fs : option io_ret :=
  ASSERT is_write u ;; sfs_io sv u v fs.
End sfs.
