(* ===== verification/SfsBlock.v ===== *)
(** * SFS: block I/O and space allocation

    The invariant [fs_ok] of a mounted volume, what the block I/O functions of
    sfs_io.c do to the disk against the contract of [Device], and what
    [sfs_balloc], [sfs_bfree] and [sfs_bused] do to the free block map. *)

From stdpp Require Import base option list gmap numbers.
From S2P Require Import Prelude Bitmap Uio Device SfsDisk Sfs.

Section block.
Context {D : Type} `{DeviceLaws D}.
Implicit Types fs : sfs_fs D.

(** The device after an operation that wrote nothing, and after one block was
    written. *)
Definition dev_same (d d' : D) : Prop :=
  dev_ok d' /\ (dev_reliable d -> dev_reliable d') /\ d_blocks d' = d_blocks d /\
  forall b, dev_data d' b = dev_data d b.
Definition dev_upd (d : D) (b : Z) (bs : list Z) (d' : D) : Prop :=
  dev_ok d' /\ (dev_reliable d -> dev_reliable d') /\ d_blocks d' = d_blocks d /\
  forall b', dev_data d' b' = upd_block (dev_data d) b bs b'.

Lemma dev_same_refl d : dev_ok d -> dev_same d d.
Proof. done. Qed.

Lemma dev_same_trans d1 d2 d3 : dev_same d1 d2 -> dev_same d2 d3 -> dev_same d1 d3.
Proof.
  intros (_ & R1 & E1 & H1) (? & R2 & E2 & H2). split; [done|]. split; [auto|].
  split; [congruence|].
  intros b. by rewrite H2, H1.
Qed.

(** ** The retry loop *)

Definition read_outcome (r : Z) (bs : list Z) (u : uio) (v : vm) (u' : uio) (v' : vm) : Prop :=
  r = 0 /\ uio_moved 0 bs u v u' v' \/
  r = EFAULT /\ uio_moved EFAULT [] u v u' v' /\ ~ uio_good u v BLOCKSIZE \/
  r = EIO /\ u' = u /\ v' = v.

Definition reliable fs : Prop := dev_reliable (fs_device fs).

(** Reads are tried again after an I/O error; whatever the number of errors, the
    caller gets the block or an error, and the disk is unchanged. *)
Lemma rwblock_read n tries u v fs b :
  dev_ok (fs_device fs) -> uio_ok u v -> uio_rw u = UIO_READ -> block_uio u b ->
  b < d_blocks (fs_device fs) -> 0 <= tries <= 10 -> Z.of_nat n = 11 - tries ->
  exists r u' v' d', rwblock_retry n tries u v fs = Some (r, u', v', set_device d' fs) /\
    dev_same (fs_device fs) d' /\ read_outcome r (dev_data (fs_device fs) b) u v u' v' /\
    (r = EIO -> ~ reliable fs).
Proof.
  revert tries fs. induction n as [|n IH]; intros tries fs Hd Hu Hrw Hb Hlt Ht Hn; [lia|].
  simpl. destruct (d_io_read _ _ _ _ Hd Hu Hrw Hb Hlt)
    as (r & u' & v' & d' & -> & Hd' & Hrel & Hnb & Hdat & Hr). simpl.
  assert (dev_same (fs_device fs) d') as Hs by done.
  assert ((r =? EINVAL) = false) as ->.
  { apply Z.eqb_neq. unfold EINVAL, EFAULT, EIO in *. intros ->. lia. }
  destruct (r =? EIO) eqn:Er; boolify.
  - subst r. destruct Hr as [[? _]|[[? _]|(Hnr & _ & -> & ->)]]; [done..|].
    destruct (tries =? 0) eqn:E0; [|destruct (tries <? 10) eqn:E1]; boolify.
    3:{ exists EIO, u, v, d'. split; [done|]. split; [done|]. split; [by right; right|done]. }
    all: destruct (IH (tries + 1) (set_device d' fs)) as (r & u' & v' & d2 & E & Hs2 & Ho & Hf);
      [done..|simpl; lia|lia|lia|]; exists r, u', v', d2; rewrite E; split; [done|].
    all: split; [by eapply dev_same_trans|]; simpl in Ho; rewrite Hdat in Ho.
    all: split; [done|]; unfold reliable in *; simpl in Hf; naive_solver.
  - exists r, u', v', d'. split; [done|]. split; [done|]. unfold read_outcome, reliable.
    destruct Hr as [[-> ?]|[(-> & ? & ?)|(? & ? & ? & ?)]]; naive_solver.
Qed.

Lemma sfs_rwblock_read u v fs b :
  dev_ok (fs_device fs) -> uio_ok u v -> uio_rw u = UIO_READ -> block_uio u b ->
  b < d_blocks (fs_device fs) ->
  exists r u' v' d', sfs_rwblock u v fs = Some (r, u', v', set_device d' fs) /\
    dev_same (fs_device fs) d' /\ read_outcome r (dev_data (fs_device fs) b) u v u' v' /\
    (r = EIO -> ~ reliable fs).
Proof. intros. by apply rwblock_read. Qed.

Lemma rwblock_write n tries u v fs b :
  dev_ok (fs_device fs) -> uio_ok u v -> uio_rw u = UIO_WRITE -> block_uio u b ->
  b < d_blocks (fs_device fs) ->
  exists r bs u' v' d',
    rwblock_retry (S n) tries u v fs = Some (r, u', v', set_device d' fs) /\
    uio_moved r bs u v u' v' /\
    (r = 0 /\ length bs = 512%nat /\ dev_upd (fs_device fs) b bs d' \/
     r = EFAULT /\ bs = [] /\ ~ uio_good u v BLOCKSIZE /\ dev_same (fs_device fs) d').
Proof.
  intros Hd Hu Hrw Hb Hlt. cbn [rwblock_retry].
  destruct (d_io_write _ _ _ _ Hd Hu Hrw Hb Hlt)
    as (r & bs & u' & v' & d' & -> & Hd' & Hrel & Hnb & Hm & Hr). simpl.
  exists r, bs, u', v', d'.
  destruct Hr as [(-> & ? & ?)|(-> & ? & ? & ?)]; (split; [done|]; split; [done|]);
    [by left|by right].
Qed.

Lemma sfs_rwblock_write u v fs b :
  dev_ok (fs_device fs) -> uio_ok u v -> uio_rw u = UIO_WRITE -> block_uio u b ->
  b < d_blocks (fs_device fs) ->
  exists r bs u' v' d', sfs_rwblock u v fs = Some (r, u', v', set_device d' fs) /\
    uio_moved r bs u v u' v' /\
    (r = 0 /\ length bs = 512%nat /\ dev_upd (fs_device fs) b bs d' \/
     r = EFAULT /\ bs = [] /\ ~ uio_good u v BLOCKSIZE /\ dev_same (fs_device fs) d').
Proof. apply rwblock_write. Qed.

(** ** Blocks through kernel buffers *)

Lemma kvm_bytes data : Forall is_byte data -> bytes_ok (vm_mem (kvm data)).
Proof. intros Hb. apply mem_write_bytes_ok; [|done]. intros i b. by rewrite lookup_empty. Qed.

(** The uio that [mk_kuio] makes for a kernel buffer is in order. *)
Lemma kuio_ok data len pos rw :
  Forall is_byte data -> len = Z.of_nat (length data) -> 0 <= len < 2 ^ 31 -> 0 <= pos ->
  pos + len < 2 ^ 31 -> uio_ok (mk_kuio KBUF len pos rw) (kvm data).
Proof.
  intros Hb Hl Hr Hp Hpl. unfold uio_ok, KBUF, is_u32. simpl. split_and!; try lia; try done.
  - by apply kvm_bytes.
  - apply mem_write_mapped. lia.
Qed.

Lemma kuio_good len pos rw data n : uio_good (mk_kuio KBUF len pos rw) (kvm data) n.
Proof. by right; left. Qed.

Lemma block_pos b d : dev_idle d -> 0 <= b < d_blocks d ->
  s32 (s32 b * SFS_BLOCKSIZE) = b * BLOCKSIZE /\ b * BLOCKSIZE + 512 < 2 ^ 31.
Proof.
  intros Hd Hb. pose proof (d_blocks_idle d Hd) as Hr. unfold BLOCKSIZE, SFS_BLOCKSIZE in *.
  rewrite (s32_id b) by (unfold is_s32; lia). nowrap. split; [done|lia].
Qed.

Lemma sfs_rblock_wp data b fs :
  dev_ok (fs_device fs) -> bytes_of 512 data -> 0 <= b < d_blocks (fs_device fs) ->
  exists r bs d', sfs_rblock data b fs = Some (r, bs, set_device d' fs) /\
    dev_same (fs_device fs) d' /\ (r = 0 -> bs = dev_data (fs_device fs) b) /\
    (r <> 0 -> r = EIO /\ ~ reliable fs).
Proof.
  intros Hd [Hl Hby] Hb. destruct (block_pos b _ (proj1 Hd) Hb) as [Ep Hp].
  unfold sfs_rblock, SFSUIO. rewrite Ep. unfold SFS_BLOCKSIZE.
  destruct (sfs_rwblock_read (mk_kuio KBUF 512 (b * BLOCKSIZE) UIO_READ) (kvm data) fs b)
    as (r & u' & v' & d' & -> & Hs & Ho & Hf); [done| |done|done|lia|].
  { apply kuio_ok; unfold BLOCKSIZE in *; try lia; try done. }
  simpl. eexists r, _, d'. split; [done|]. 
  split; [done|]. split; [intros ->|intros Hr].
  2:{ destruct Ho as [[? _]|[(_ & _ & Hg)|(-> & _)]]; [done| |by auto].
      destruct Hg. apply kuio_good. }
  destruct Ho as [[_ Hm]|[[? _]|[? _]]]; [|done..].
  destruct Hm as (_ & _ & _ & _ & m & -> & Em). simpl in Em.
  rewrite Em. simpl. rewrite Hl. apply mem_write_bytes. symmetry. by apply dev_data_block.
Qed.

Lemma sfs_wblock_wp data b fs :
  dev_ok (fs_device fs) -> bytes_of 512 data -> 0 <= b < d_blocks (fs_device fs) ->
  exists d', sfs_wblock data b fs = Some (0, set_device d' fs) /\
    dev_upd (fs_device fs) b data d'.
Proof.
  intros Hd [Hl Hby] Hb. destruct (block_pos b _ (proj1 Hd) Hb) as [Ep Hp].
  unfold sfs_wblock, SFSUIO. rewrite Ep. unfold SFS_BLOCKSIZE.
  destruct (sfs_rwblock_write (mk_kuio KBUF 512 (b * BLOCKSIZE) UIO_WRITE) (kvm data) fs b)
    as (r & bs & u' & v' & d' & -> & Hm & Hr); [done| |done|done|lia|].
  { apply kuio_ok; unfold BLOCKSIZE in *; try lia; try done. }
  destruct Hr as [(-> & El & Hu)|(_ & _ & Hg & _)]; [|by destruct Hg; apply kuio_good].
  simpl. exists d'. split; [done|]. destruct Hm as (_ & _ & _ & _ & _ & Ebs). simpl in Ebs.
  rewrite mem_write_bytes in Ebs by lia. by rewrite Ebs in Hu.
Qed.

(** ** The invariant of a volume

    Blocks outside the volume are marked in use in the map, as is block 0, the
    superblock, so that no allocation returns them. *)

Definition blk fs (b : Z) : list Z := dev_data (fs_device fs) b.
Definition used fs (b : Z) : bool := bit (fs_freemap fs) b.
Definition nblocks fs : Z := sp_nblocks (fs_super fs).

Definition fs_ok fs : Prop :=
  dev_ok (fs_device fs) /\ super_ok (fs_super fs) /\
  0 < nblocks fs <= d_blocks (fs_device fs) /\
  bitmap_wf (fs_freemap fs) /\ nblocks fs <= nbits (fs_freemap fs) /\
  (forall b, nblocks fs <= b < nbits (fs_freemap fs) -> used fs b = true) /\
  used fs 0 = true.

Lemma blk_block fs b : fs_ok fs -> 0 <= b < nblocks fs -> bytes_of 512 (blk fs b).
Proof. intros (Hd & _ & Hn & _) Hb. apply dev_data_block; [done|]. lia. Qed.

Lemma fs_ok_device fs d' :
  fs_ok fs -> dev_ok d' -> d_blocks d' = d_blocks (fs_device fs) -> fs_ok (set_device d' fs).
Proof. intros (? & ? & ? & ?) ? E. unfold fs_ok, nblocks, used in *. simpl. by rewrite E. Qed.

Lemma fs_ok_same fs d' :
  fs_ok fs -> dev_same (fs_device fs) d' ->
  fs_ok (set_device d' fs) /\ forall b, blk (set_device d' fs) b = blk fs b.
Proof. intros Hok (? & ? & ? & Hd). split; [by apply fs_ok_device|]. exact Hd. Qed.

Lemma fs_ok_upd fs b bs d' :
  fs_ok fs -> dev_upd (fs_device fs) b bs d' ->
  fs_ok (set_device d' fs) /\
  forall b', blk (set_device d' fs) b' = if decide (b' = b) then bs else blk fs b'.
Proof. intros Hok (? & ? & ? & Hd). split; [by apply fs_ok_device|]. exact Hd. Qed.

Lemma zeroblock_bytes : bytes_of 512 zeroblock.
Proof. split; [done|]. apply Forall_replicate. by unfold is_byte. Qed.

(** What is fixed about the free map: its size and where it is kept. *)
Definition map_shape (b : bitmap) : Z * Z * Z := (b_self b, nbits b, b_vptr b).

(** The superblock does not change, and a changed map is marked dirty. *)
Definition fs_hist fs fs' : Prop :=
  (reliable fs -> reliable fs') /\
  fs_super fs' = fs_super fs /\ fs_superdirty fs' = fs_superdirty fs /\
  map_shape (fs_freemap fs') = map_shape (fs_freemap fs) /\
  (fs_freemapdirty fs' = false ->
   fs_freemapdirty fs = false /\ fs_freemap fs' = fs_freemap fs).

Lemma fs_hist_refl fs : fs_hist fs fs.
Proof. done. Qed.

Lemma fs_hist_trans fs1 fs2 fs3 : fs_hist fs1 fs2 -> fs_hist fs2 fs3 -> fs_hist fs1 fs3.
Proof.
  intros (R1 & E1 & S1 & M1 & F1) (R2 & E2 & S2 & M2 & F2). split; [auto|]. split; [congruence|].
  split; [congruence|]. split; [congruence|]. intros (Hf & E)%F2. apply F1 in Hf as [? ?]. split; [done|congruence].
Qed.

Lemma fs_hist_same fs d : dev_same (fs_device fs) d -> fs_hist fs (set_device d fs).
Proof. by intros (_ & ? & _). Qed.

Lemma fs_hist_upd fs b bs d : dev_upd (fs_device fs) b bs d -> fs_hist fs (set_device d fs).
Proof. by intros (_ & ? & _). Qed.

Lemma fs_hist_nblocks fs fs' : fs_hist fs fs' -> nblocks fs' = nblocks fs.
Proof. intros (_ & E & _). unfold nblocks. by rewrite E. Qed.

(** Reading leaves the volume the same, up to the device's own state. *)
Definition fs_same fs fs' : Prop :=
  dev_same (fs_device fs) (fs_device fs') /\ fs' = set_device (fs_device fs') fs.

Lemma fs_same_refl fs : fs_ok fs -> fs_same fs fs.
Proof. intros [? _]. split; [by apply dev_same_refl|by destruct fs]. Qed.

Lemma fs_same_trans fs1 fs2 fs3 : fs_same fs1 fs2 -> fs_same fs2 fs3 -> fs_same fs1 fs3.
Proof.
  intros [D1 E1] [D2 E2]. split; [by eapply dev_same_trans|]. rewrite E2, E1 at 1. done.
Qed.

Lemma fs_same_device fs d' : dev_same (fs_device fs) d' -> fs_same fs (set_device d' fs).
Proof. done. Qed.

(** No block is free. *)
Definition full fs : Prop := forall b, 0 <= b < nblocks fs -> used fs b = true.

(** ** Allocation *)

(** [fs'] is [fs] with the free block [b] allocated and cleared. *)
Definition allocated fs (b : Z) fs' : Prop :=
  0 < b < nblocks fs /\ used fs b = false /\
  (forall b', 0 <= b' -> used fs' b' = (b' =? b) || used fs b') /\
  (forall b', blk fs' b' = if decide (b' = b) then zeroblock else blk fs b').

Lemma sfs_balloc_wp fs :
  fs_ok fs ->
  exists r b fs', sfs_balloc fs = Some (r, b, fs') /\ fs_ok fs' /\ fs_hist fs fs' /\
    (r = ENOSPC /\ fs' = fs /\ full fs \/
     r = 0 /\ allocated fs b fs').
Proof.
  intros Hok. pose proof Hok as (Hd & Hs & Hn & Hwf & Hnb & Hov & H0).
  unfold sfs_balloc. destruct (bitmap_alloc_wp (fs_freemap fs) Hwf)
    as [(i & fm & -> & Hi & Hf & Hlow & Hwf' & [= Eself Enb Eptr] & Hbits)|[-> Hfull]]; simpl.
  - assert (0 < i < nblocks fs) as Hib.
    { unfold used in *. destruct (decide (i = 0)) as [->|]; [congruence|].
      destruct (decide (nblocks fs <= i)) as [Hge|]; [|lia].
      specialize (Hov i ltac:(lia)). congruence. }
    rewrite (proj2 (Z.leb_gt _ _)) by (unfold nblocks in *; lia).
    set (fs1 := set_freemap fm fs).
    destruct (sfs_wblock_wp zeroblock i fs1) as (d' & Ew & Hu);
      [done|apply zeroblock_bytes|simpl; lia|].
    unfold sfs_clearblock. rewrite Ew. simpl. eexists 0, i, _. split; [done|].
    assert (fs_ok fs1) as Hok1.
    { unfold fs_ok, used, nblocks in *. simpl. rewrite Enb. do 5 (split; [done|]). split.
      - intros b Hb. rewrite Hbits by lia. rewrite Hov by lia. apply orb_true_r.
      - rewrite Hbits by lia. rewrite H0. apply orb_true_r. }
    destruct (fs_ok_upd _ _ _ _ Hok1 Hu) as [? Hblk].
    split; [done|]. split; [|right; split; [done|]].
    { destruct Hu as (_ & ? & _). split; [done|]. do 2 (split; [done|]).
      unfold map_shape. simpl. by rewrite Eself, Enb, Eptr. }
    split; [done|]. split; [done|]. split; [exact Hbits|]. exact Hblk.
  - exists ENOSPC, 0, fs. split; [done|]. split; [done|]. split; [done|]. left.
    split; [done|]. split; [done|]. intros b Hb. apply Hfull. lia.
Qed.

Lemma sfs_bused_wp b fs :
  fs_ok fs -> 0 <= b < nblocks fs ->
  exists w, sfs_bused b fs = Some w /\ (w =? 0) = negb (used fs b).
Proof.
  intros (_ & _ & _ & Hwf & Hnb & _) Hb. unfold sfs_bused.
  rewrite (proj2 (Z.leb_gt _ _)) by (unfold nblocks in *; lia). apply bitmap_isset_wp; [done|lia].
Qed.

Lemma sfs_bfree_wp b fs :
  fs_ok fs -> 0 < b < nblocks fs -> used fs b = true ->
  exists fs', sfs_bfree b fs = Some fs' /\ fs_ok fs' /\ fs_hist fs fs' /\
    (forall b', 0 <= b' -> used fs' b' = negb (b' =? b) && used fs b') /\
    (forall b', blk fs' b' = blk fs b').
Proof.
  intros (Hd & Hs & Hn & Hwf & Hnb & Hov & H0) Hb Hu. unfold sfs_bfree.
  pose proof (bitmap_unmark_wp (fs_freemap fs) b Hwf ltac:(lia)) as Hm.
  unfold used in *. rewrite Hu in Hm. destruct Hm as (fm & -> & Hwf' & [= Es En Ep] & Hbits).
  simpl. eexists. split; [done|]. split.
  2:{ split; [|by split]. split; [done|]. do 2 (split; [done|]).
      unfold map_shape. simpl. by rewrite Es, En, Ep. }
  unfold fs_ok, used, nblocks in *. simpl. rewrite En. do 5 (split; [done|]). split.
  - intros b' Hb'. rewrite Hbits, Hov, andb_true_r by lia. apply negb_true_iff, Z.eqb_neq. lia.
  - rewrite Hbits, H0, andb_true_r by lia. apply negb_true_iff, Z.eqb_neq. lia.
Qed.
End block.
