(* ===== verification/SfsBmap.v ===== *)
(** * SFS: the blocks of a file and [sfs_bmap]

    The inode and its indirect block stand for the list [blockmap] of the 143
    disk blocks of a file, 0 for a hole; [fblocks] are the bytes of those blocks
    and [file_blocks] the disk blocks the file owns.  [file_wf] says that they
    are distinct blocks of the volume that are marked in use.

    [file_step] is what every operation on one file does to the volume: the
    blocks of everybody else, the free ones apart, stay as they are and stay
    theirs, and no block is marked in use without belonging to the file. *)

From stdpp Require Import base option list gmap numbers.
From S2P Require Import Prelude Bitmap Uio Device SfsDisk Sfs SfsBlock.

Section bmap.
Context {D : Type} `{DeviceLaws D}.
Implicit Types fs : sfs_fs D.

Definition imap fs (i : sfs_inode) : list Z :=
  if sfi_indirect i =? 0 then zeroids else dec_words 128 (blk fs (sfi_indirect i)).

Definition blockmap fs (i : sfs_inode) : list Z := sfi_direct i ++ imap fs i.

Definition blkdata fs (b : Z) : list Z := if b =? 0 then zeroblock else blk fs b.

Definition fblocks fs (i : sfs_inode) : list (list Z) := blkdata fs <$> blockmap fs i.

Definition nonzero (l : list Z) : list Z := filter (fun b => b <> 0) l.

Definition file_blocks fs (i : sfs_inode) : list Z :=
  nonzero [sfi_indirect i] ++ nonzero (blockmap fs i).

Definition file_wf fs (i : sfs_inode) : Prop :=
  inode_ok i /\ NoDup (file_blocks fs i) /\
  forall b, b ∈ file_blocks fs i -> 0 < b < nblocks fs /\ used fs b = true.

Definition same_meta (i i' : sfs_inode) : Prop :=
  sfi_type i' = sfi_type i /\ sfi_linkcount i' = sfi_linkcount i /\ sfi_waste i' = sfi_waste i.

(** The file has a block of the disk for its block [k]. *)
Definition has_block fs (i : sfs_inode) (k : nat) : Prop :=
  exists b, blockmap fs i !! k = Some b /\ b <> 0.

Record file_step fs (i : sfs_inode) fs' (i' : sfs_inode) : Prop := {
  fst_ok : fs_ok fs';
  fst_wf : file_wf fs' i';
  fst_hist : fs_hist fs fs';
  fst_meta : same_meta i i';
  fst_mine : forall b, b ∈ file_blocks fs i -> b ∈ file_blocks fs' i';
  fst_others : forall b, 0 <= b -> used fs b = true -> b ∉ file_blocks fs i ->
    used fs' b = true /\ (b ∉ file_blocks fs' i') /\ blk fs' b = blk fs b;
  fst_new : forall b, 0 <= b -> used fs' b = true ->
    used fs b = true \/ b ∈ file_blocks fs' i';
  fst_map : forall k, has_block fs i k -> has_block fs' i' k;
}.

(** The vnode changes only in its inode, and is dirty if it did. *)
Definition sv_step (sv sv' : sfs_vnode) : Prop :=
  sv_v sv' = sv_v sv /\ sv_ino sv' = sv_ino sv /\ (sv_dirty sv' = false -> sv' = sv).

Lemma sv_step_refl sv : sv_step sv sv.
Proof. done. Qed.

Lemma sv_step_trans sv1 sv2 sv3 : sv_step sv1 sv2 -> sv_step sv2 sv3 -> sv_step sv1 sv3.
Proof.
  intros (E1 & F1 & D1) (E2 & F2 & D2). split; [congruence|]. split; [congruence|].
  intros Hd. pose proof (D2 Hd) as ->. by apply D1.
Qed.

Lemma sv_step_inode i sv : sv_step sv (set_inode i true sv).
Proof. done. Qed.

Lemma file_step_refl fs i : fs_ok fs -> file_wf fs i -> file_step fs i fs i.
Proof. intros ??. constructor; try done; auto. Qed.

Lemma file_step_trans fs1 i1 fs2 i2 fs3 i3 :
  file_step fs1 i1 fs2 i2 -> file_step fs2 i2 fs3 i3 -> file_step fs1 i1 fs3 i3.
Proof.
  intros [O1 W1 H1 M1 I1 T1 N1 B1] [O2 W2 H2 M2 I2 T2 N2 B2]. constructor; auto.
  - by eapply fs_hist_trans.
  - destruct M1 as (? & ? & ?), M2 as (? & ? & ?). split_and!; congruence.
  - intros b Hb Hu Hn. destruct (T1 b Hb Hu Hn) as (Hu2 & Hn2 & E2).
    destruct (T2 b Hb Hu2 Hn2) as (? & ? & ?). split_and!; [done..|congruence].
  - intros b Hb [Hu|Hin]%N2; [|by right|done]. destruct (N1 b Hb Hu); auto.
Qed.

Lemma inode_ok_direct l i : inode_ok i -> words_ok 15 l -> inode_ok (set_direct l i).
Proof. unfold inode_ok. simpl. tauto. Qed.

Lemma inode_ok_indirect b i : inode_ok i -> is_u32 b -> inode_ok (set_indirect b i).
Proof. unfold inode_ok. simpl. tauto. Qed.

Lemma inode_ok_size n i : inode_ok i -> is_u32 n -> inode_ok (set_size n i).
Proof. unfold inode_ok. simpl. tauto. Qed.

Lemma block_u32 fs b : fs_ok fs -> 0 < b < nblocks fs -> is_u32 b.
Proof. intros (_ & (_ & ? & _) & _). unfold nblocks, is_u32 in *. lia. Qed.

(** ** The list of blocks *)

Lemma elem_of_nonzero b l : b ∈ nonzero l <-> b ∈ l /\ b <> 0.
Proof. unfold nonzero. rewrite list_elem_of_filter. tauto. Qed.

Lemma nonzero_app l l' : nonzero (l ++ l') = nonzero l ++ nonzero l'.
Proof. apply list.filter_app. Qed.

Lemma nonzero_insert l k b :
  l !! k = Some 0 -> b <> 0 -> nonzero (<[k := b]> l) ≡ₚ b :: nonzero l.
Proof.
  intros Hk Hb. pose proof (lookup_lt_Some _ _ _ Hk) as Hlt.
  rewrite <- (take_drop_middle l k 0 Hk) at 2. rewrite insert_take_drop by done.
  rewrite !nonzero_app. unfold nonzero at 2 4.
  rewrite (filter_cons_True (fun b => b <> 0)), (filter_cons_False (fun b => b <> 0)) by auto.
  symmetry. apply Permutation_middle.
Qed.

Lemma nonzero_zeros n : nonzero (replicate n 0) = [].
Proof. induction n as [|n IH]; [done|]. simpl. exact IH. Qed.

Lemma dec_words_zero : dec_words 128 zeroblock = zeroids.
Proof. reflexivity. Qed.

Lemma elem_of_file_blocks fs i b :
  b ∈ file_blocks fs i <-> b <> 0 /\ (b = sfi_indirect i \/ b ∈ blockmap fs i).
Proof. unfold file_blocks. rewrite elem_of_app, !elem_of_nonzero. set_solver. Qed.

Lemma file_indirect fs i :
  fs_ok fs -> file_wf fs i -> sfi_indirect i <> 0 ->
  0 < sfi_indirect i < nblocks fs /\ used fs (sfi_indirect i) = true.
Proof.
  intros _ (_ & _ & Hb) Hi. apply Hb, elem_of_file_blocks. by split; [|left].
Qed.

Lemma length_imap fs i : fs_ok fs -> file_wf fs i -> words_ok 128 (imap fs i).
Proof.
  intros Hok Hwf. unfold imap. destruct (sfi_indirect i =? 0) eqn:E; boolify.
  - split; [done|]. apply (Forall_replicate is_u32 128). by unfold is_u32.
  - destruct (file_indirect fs i Hok Hwf E) as [? _].
    apply (dec_words_ok 128 _ 0). apply blk_block; [done|lia].
Qed.

Lemma length_blockmap fs i : fs_ok fs -> file_wf fs i -> length (blockmap fs i) = 143%nat.
Proof.
  intros Hok Hwf. unfold blockmap. rewrite length_app.
  destruct (length_imap fs i Hok Hwf) as [-> _].
  by destruct Hwf as [(_ & _ & _ & [-> _] & _) _].
Qed.

Lemma fblocks_ok fs i k bs :
  fs_ok fs -> file_wf fs i -> fblocks fs i !! k = Some bs -> bytes_of 512 bs.
Proof.
  intros Hok (_ & _ & Hb). unfold fblocks. rewrite list_lookup_fmap_Some.
  intros (b & -> & Hk). unfold blkdata. destruct (b =? 0) eqn:E; boolify; [apply zeroblock_bytes|].
  apply blk_block; [done|]. destruct (Hb b) as [? _]; [|lia].
  apply elem_of_file_blocks. split; [done|]. right. by eapply list_elem_of_lookup_2.
Qed.

(** ** Changes of the volume the file does not notice *)

(** Nothing but the state of the device changed. *)
Lemma blockmap_ext fs fs' i :
  (sfi_indirect i <> 0 -> blk fs' (sfi_indirect i) = blk fs (sfi_indirect i)) ->
  blockmap fs' i = blockmap fs i.
Proof.
  intros E. unfold blockmap, imap. destruct (sfi_indirect i =? 0) eqn:Ez; boolify; [done|].
  by rewrite E.
Qed.

Lemma file_same fs i d' :
  fs_ok fs -> file_wf fs i -> dev_same (fs_device fs) d' ->
  file_step fs i (set_device d' fs) i /\ blockmap (set_device d' fs) i = blockmap fs i /\
  fblocks (set_device d' fs) i = fblocks fs i.
Proof.
  intros Hok Hwf Hs. destruct (fs_ok_same _ _ Hok Hs) as [Hok' Hblk].
  assert (blockmap (set_device d' fs) i = blockmap fs i) as Em
    by (apply blockmap_ext; intros _; apply Hblk).
  assert (file_blocks (set_device d' fs) i = file_blocks fs i) as Ef
    by (unfold file_blocks; by rewrite Em).
  split; [|split; [done|]].
  - destruct Hwf as (? & ? & Hb). constructor; [exact Hok'| |by apply fs_hist_same|done|..].
    + split; [done|]. rewrite Ef. split; [done|exact Hb].
    + rewrite Ef. tauto.
    + intros b ? Hu Hn. rewrite Ef. split; [exact Hu|]. split; [exact Hn|apply Hblk].
    + by left.
    + intros k. unfold has_block. by rewrite Em.
  - unfold fblocks. rewrite Em. apply list_fmap_ext. intros k b _. unfold blkdata.
    by rewrite Hblk.
Qed.

(** ** A new block for the file *)

(** A free block is none of the file's. *)
Lemma free_not_mine fs i b : file_wf fs i -> used fs b = false -> b ∉ file_blocks fs i.
Proof. intros (_ & _ & Hb) Hu Hin. apply Hb in Hin as [_ ?]. congruence. Qed.

(** The file gains the block [b], which was free. *)
Lemma file_step_grow fs i fs' i' b :
  file_wf fs i -> fs_ok fs' -> fs_hist fs fs' -> same_meta i i' -> inode_ok i' ->
  0 < b < nblocks fs -> used fs b = false ->
  (forall b', 0 <= b' -> used fs' b' = (b' =? b) || used fs b') ->
  (forall b', b' <> b -> b' ∉ file_blocks fs i -> blk fs' b' = blk fs b') ->
  file_blocks fs' i' ≡ₚ b :: file_blocks fs i ->
  (forall k, has_block fs i k -> has_block fs' i' k) ->
  file_step fs i fs' i'.
Proof.
  intros Hwf Hok' Hh Hm Hi Hb Hfree Hu Hblk Hp Hmap.
  pose proof (free_not_mine _ _ _ Hwf Hfree) as Hnb. destruct Hwf as (_ & Hnd & Hfb).
  assert (forall b', b' ∈ file_blocks fs' i' <-> b' = b \/ b' ∈ file_blocks fs i) as Hin
    by (intros b'; by rewrite Hp, elem_of_cons).
  constructor; [done| |done|done|..].
  - split; [done|]. split; [rewrite Hp; by apply list.NoDup_cons|].
    rewrite (fs_hist_nblocks _ _ Hh). intros b' [->|Hb']%Hin.
    + rewrite Hu, Z.eqb_refl by lia. done.
    + apply Hfb in Hb' as [? Hu']. rewrite Hu, Hu', orb_true_r by lia. done.
  - intros b' Hb'. apply Hin. by right.
  - intros b' H0 Hu' Hn. assert (b' <> b) by (intros ->; congruence).
    rewrite Hu, Hu', orb_true_r by done. split; [done|]. split; [rewrite Hin; naive_solver|].
    by apply Hblk.
  - intros b' H0. rewrite Hu, orb_true_iff, Z.eqb_eq, Hin by done. tauto.
  - done.
Qed.

Lemma has_block_fill fs i k b fs' i' :
  blockmap fs i !! k = Some 0 -> blockmap fs' i' = <[k := b]> (blockmap fs i) ->
  forall j, has_block fs i j -> has_block fs' i' j.
Proof.
  intros Hk Em j (b' & Hj & Hb'). exists b'. split; [|done].
  rewrite Em, list_lookup_insert_ne; [done|]. intros ->. congruence.
Qed.

(** Until the new block is linked in, the file is as it was. *)
Lemma file_allocated fs i b fs' :
  file_wf fs i -> allocated fs b fs' ->
  blockmap fs' i = blockmap fs i /\ fblocks fs' i = fblocks fs i /\
  forall b', b' ∈ file_blocks fs i -> blk fs' b' = blk fs b'.
Proof.
  intros Hwf (Hb & Hf & Hu & Hblk). pose proof (free_not_mine _ _ _ Hwf Hf) as Hnb.
  assert (forall b', b' ∈ file_blocks fs i -> blk fs' b' = blk fs b') as Hsame.
  { intros b' Hb'. rewrite Hblk. rewrite decide_False; [done|]. by intros ->. }
  assert (blockmap fs' i = blockmap fs i) as Em.
  { apply blockmap_ext. intros Hne. apply Hsame, elem_of_file_blocks. by split; [|left]. }
  split; [done|]. split; [|done]. unfold fblocks. rewrite Em. apply list_fmap_ext.
  intros k b' Hk. unfold blkdata. destruct (b' =? 0) eqn:E0; boolify; [done|].
  apply Hsame, elem_of_file_blocks. split; [done|]. right. by eapply list_elem_of_lookup_2.
Qed.

(** Linking a cleared block where there was a hole leaves the bytes as they were. *)
Lemma fblocks_fill fs i k b fs' i' :
  fs_ok fs -> file_wf fs i -> blockmap fs i !! k = Some 0 ->
  blockmap fs' i' = <[k := b]> (blockmap fs i) -> blk fs' b = zeroblock ->
  (forall b', b' ∈ blockmap fs i -> b' <> 0 -> blk fs' b' = blk fs b') ->
  fblocks fs' i' = fblocks fs i.
Proof.
  intros Hok Hwf Hk Em Hz Hsame. unfold fblocks. rewrite Em, list_fmap_insert.
  assert (blkdata fs' <$> blockmap fs i = blkdata fs <$> blockmap fs i) as ->.
  { apply list_fmap_ext. intros j b' Hj. unfold blkdata.
    destruct (b' =? 0) eqn:E; boolify; [done|]. apply Hsame; [|done].
    by eapply list_elem_of_lookup_2. }
  apply list_insert_id. rewrite list_lookup_fmap, Hk. simpl. f_equal.
  unfold blkdata. simpl. destruct (b =? 0); congruence.
Qed.

(** What [sfs_bmap] promises. *)
Record bmap_post (sv : sfs_vnode) (k : Z) (doalloc : bool) fs
    (r b : Z) (sv' : sfs_vnode) fs' : Prop := {
  bp_step : file_step fs (sv_i sv) fs' (sv_i sv');
  bp_bytes : fblocks fs' (sv_i sv') = fblocks fs (sv_i sv);
  bp_size : sfi_size (sv_i sv') = sfi_size (sv_i sv);
  bp_sv : sv_step sv sv';
  bp_read : doalloc = false -> sv' = sv /\ fs_same fs fs';
  bp_block : r = 0 -> blockmap fs' (sv_i sv') !! Z.to_nat k = Some b /\
                      (doalloc = true -> b <> 0);
  bp_fail : r <> 0 -> r = EINVAL /\ 143 <= k \/ r = ENOSPC /\ doalloc = true /\ full fs' \/
                      r = EIO /\ ~ reliable fs;
  bp_hole : r = ENOSPC -> ~ has_block fs (sv_i sv) (Z.to_nat k);
}.

Lemma bmap_return_wp sv fs k b :
  fs_ok fs -> file_wf fs (sv_i sv) -> blockmap fs (sv_i sv) !! k = Some b ->
  bmap_return b sv fs = Some (0, b, sv, fs).
Proof.
  intros Hok (_ & _ & Hb) Hk. unfold bmap_return. destruct (b =? 0) eqn:E; boolify; [done|].
  destruct (Hb b) as [Hr Hu].
  { apply elem_of_file_blocks. split; [done|]. right. by eapply list_elem_of_lookup_2. }
  destruct (sfs_bused_wp b fs Hok) as (w & -> & Ew); [lia|]. simpl. by rewrite Ew, Hu.
Qed.

(** A block that is there already. *)
Lemma bmap_there sv fs k b doalloc :
  fs_ok fs -> file_wf fs (sv_i sv) -> blockmap fs (sv_i sv) !! Z.to_nat k = Some b ->
  (doalloc = true -> b <> 0) -> bmap_post sv k doalloc fs 0 b sv fs.
Proof.
  intros. constructor; try done; [by apply file_step_refl|].
  intros _. split; [done|by apply fs_same_refl].
Qed.

(** An error that left the file alone. *)
Lemma bmap_failed sv k doalloc fs r :
  fs_ok fs -> file_wf fs (sv_i sv) -> r <> 0 ->
  (r = EINVAL /\ 143 <= k \/ r = ENOSPC /\ doalloc = true /\ full fs \/
   r = EIO /\ ~ reliable fs) ->
  (r = ENOSPC -> ~ has_block fs (sv_i sv) (Z.to_nat k)) ->
  bmap_post sv k doalloc fs r 0 sv fs.
Proof.
  intros. constructor; try done; [by apply file_step_refl|].
  intros _. split; [done|by apply fs_same_refl].
Qed.

Lemma bmap_direct_wp sv k doalloc fs :
  fs_ok fs -> file_wf fs (sv_i sv) -> 0 <= k < 15 ->
  exists r b sv' fs', bmap_direct sv k doalloc fs = Some (r, b, sv', fs') /\
    bmap_post sv k doalloc fs r b sv' fs'.
Proof.
  intros Hok Hwf Hk. pose proof Hwf as ((Hi1 & Hi2 & Hi3 & [Hl Hu32] & Hi5 & Hi6) & Hnd & Hfb).
  unfold bmap_direct. destruct (lookup_lt_is_Some_2 (sfi_direct (sv_i sv)) (Z.to_nat k))
    as [b Hb]; [lia|]. rewrite Hb. simpl.
  assert (blockmap fs (sv_i sv) !! Z.to_nat k = Some b) as Hm
    by (unfold blockmap; by rewrite lookup_app_l_Some with (x := b)).
  destruct ((b =? 0) && doalloc) eqn:Ea.
  2:{ rewrite (bmap_return_wp sv fs (Z.to_nat k)) by done. exists 0, b, sv, fs.
      split; [done|]. apply bmap_there; [done..|]. intros ->. rewrite andb_true_r in Ea.
      by boolify. }
  apply andb_true_iff in Ea as [Ea ->]. boolify. subst b.
  destruct (sfs_balloc_wp fs Hok) as (r & b & fs' & -> & Hok' & Hh & Hr). simpl.
  destruct Hr as [(-> & -> & Hfull)|(-> & Ha)]; simpl.
  { exists ENOSPC, 0, sv, fs. split; [done|]. apply bmap_failed; auto.
    intros _ (b' & Hb' & ?). congruence. }
  set (i' := set_direct _ _). pose proof Ha as (Hb0 & Hf & Hus & Hblk).
  destruct (file_allocated _ _ _ _ Hwf Ha) as (Em & Ef & Hsame).
  assert (blockmap fs' i' = <[Z.to_nat k := b]> (blockmap fs (sv_i sv))) as Em'.
  { rewrite <- Em. unfold blockmap, i'. simpl. by rewrite insert_app_l by lia. }
  assert (file_step fs (sv_i sv) fs' i') as Hst.
  { apply (file_step_grow _ _ _ _ b); try done.
    - apply inode_ok_direct; [apply Hwf|]. split; [by rewrite length_insert|].
      apply Forall_insert; [done|]. by apply (block_u32 fs).
    - intros b' Hne _. rewrite Hblk. by rewrite decide_False.
    - unfold file_blocks. rewrite Em', nonzero_insert by (done || lia). simpl.
      symmetry. apply Permutation_middle.
    - by eapply has_block_fill. }
  rewrite (bmap_return_wp _ fs' (Z.to_nat k)); [|done|exact (fst_wf _ _ _ _ Hst)|].
  2:{ simpl. rewrite Em', list_lookup_insert_eq; [done|]. by eapply lookup_lt_Some. }
  exists 0, b, (set_inode i' true sv), fs'. split; [done|].
  constructor; simpl; try done.
  - apply (fblocks_fill fs _ (Z.to_nat k) b); try done.
    + rewrite Hblk. by rewrite decide_True.
    + intros b' Hin Hne. apply Hsame, elem_of_file_blocks. by auto.
  - intros _. rewrite Em', list_lookup_insert_eq by by eapply lookup_lt_Some. split; [done|lia].
Qed.

(** The entry of the indirect block for a new data block is written back. *)
Lemma indirect_filled fs i k b fs1 d' :
  fs_ok fs -> file_wf fs i -> sfi_indirect i <> 0 -> (k < 128)%nat -> imap fs i !! k = Some 0 ->
  allocated fs b fs1 -> fs_ok fs1 -> fs_hist fs fs1 ->
  dev_upd (fs_device fs1) (sfi_indirect i) (enc_words (<[k := b]> (imap fs i))) d' ->
  let fs2 := set_device d' fs1 in
  file_step fs i fs2 i /\ fblocks fs2 i = fblocks fs i /\
  blockmap fs2 i = <[(15 + k)%nat := b]> (blockmap fs i).
Proof.
  intros Hok Hwf Hne Hk Hi Ha Hok1 Hh Hup fs2.
  pose proof Ha as (Hb & Hf & Hus & Hblk). pose proof Hwf as ((_ & _ & _ & [Hl _] & _) & _ & _).
  destruct (fs_ok_upd _ _ _ _ Hok1 Hup) as [Hok2 Hblk2]. fold fs2 in Hok2, Hblk2.
  destruct (file_indirect fs i Hok Hwf Hne) as [Hir Hiu].
  assert (sfi_indirect i <> b) as Hib by (intros E; rewrite E in Hiu; congruence).
  assert (forall b', b' <> b -> b' <> sfi_indirect i -> blk fs2 b' = blk fs b') as Hother.
  { intros b' ??. rewrite Hblk2, decide_False, Hblk, decide_False by done. done. }
  assert (imap fs2 i = <[k := b]> (imap fs i)) as Ei.
  { unfold imap at 1. rewrite (proj2 (Z.eqb_neq _ _)) by done.
    rewrite Hblk2, decide_True by done. rewrite <- (app_nil_r (enc_words _)).
    apply dec_enc_words. destruct (length_imap fs i Hok Hwf) as [Hli Hui].
    split; [by rewrite length_insert|]. apply Forall_insert; [done|]. by apply (block_u32 fs). }
  assert (blockmap fs2 i = <[(15 + k)%nat := b]> (blockmap fs i)) as Em.
  { unfold blockmap. rewrite Ei, insert_app_r_alt by lia. do 2 f_equal. lia. }
  assert (blockmap fs i !! (15 + k)%nat = Some 0) as Hk0.
  { unfold blockmap. rewrite lookup_app_r by lia. by rewrite Hl, Nat.add_sub' with (n := 15%nat). }
  split; [|split; [|done]].
  - apply (file_step_grow _ _ _ _ b);
      [done|done|by eapply fs_hist_trans; [|eapply fs_hist_upd]|done|apply Hwf|done|done|done| | |
       by eapply has_block_fill].
    + intros b' Hnb Hn. apply Hother; [done|]. intros ->. apply Hn, elem_of_file_blocks.
      split; [done|by left].
    + unfold file_blocks. rewrite Em, nonzero_insert by (done || lia).
      symmetry. apply Permutation_middle.
  - apply (fblocks_fill fs _ (15 + k) b); [done..| |].
    + by rewrite Hblk2, decide_False, Hblk, decide_True.
    + intros b' Hin Hn0. apply Hother.
      * intros ->. apply (free_not_mine fs i b Hwf Hf), elem_of_file_blocks. auto.
      * intros ->. destruct Hwf as (_ & Hnd & _). unfold file_blocks in Hnd.
        apply list.NoDup_app in Hnd as (_ & Hnd & _). apply (Hnd (sfi_indirect i));
          apply elem_of_nonzero; split; [set_solver|done|done|done].
Qed.

Lemma bmap_entry_wp sv off doalloc fs :
  fs_ok fs -> file_wf fs (sv_i sv) -> sfi_indirect (sv_i sv) <> 0 -> 0 <= off < 128 ->
  exists r b fs',
    bmap_entry sv (sfi_indirect (sv_i sv)) (imap fs (sv_i sv)) off doalloc fs =
      Some (r, b, sv, fs') /\ bmap_post sv (15 + off) doalloc fs r b sv fs'.
Proof.
  intros Hok Hwf Hne Ho. destruct (length_imap fs (sv_i sv) Hok Hwf) as [Hli Hui].
  pose proof Hwf as ((_ & _ & _ & [Hl _] & _) & _ & _).
  unfold bmap_entry. destruct (lookup_lt_is_Some_2 (imap fs (sv_i sv)) (Z.to_nat off))
    as [b Hb]; [lia|]. rewrite Hb. simpl.
  assert (Z.to_nat (15 + off) = (15 + Z.to_nat off)%nat) as Eo by lia.
  assert (blockmap fs (sv_i sv) !! Z.to_nat (15 + off) = Some b) as Hm.
  { unfold blockmap. rewrite Eo, lookup_app_r by lia. rewrite <- Hb. f_equal. lia. }
  destruct ((b =? 0) && doalloc) eqn:Ea.
  2:{ rewrite (bmap_return_wp sv fs (Z.to_nat (15 + off))) by done. exists 0, b, fs.
      split; [done|]. apply bmap_there; [done..|]. intros ->. rewrite andb_true_r in Ea.
      by boolify. }
  apply andb_true_iff in Ea as [Ea ->]. boolify. subst b.
  destruct (sfs_balloc_wp fs Hok) as (r & b & fs1 & -> & Hok1 & Hh & Hr). simpl.
  destruct Hr as [(-> & -> & Hfull)|(-> & Ha)]; simpl.
  { exists ENOSPC, 0, fs. split; [done|]. apply bmap_failed; auto.
    intros _ (b' & Hb' & ?). congruence. }
  pose proof Ha as (Hbr & _). destruct (file_indirect fs _ Hok Hwf Hne) as [Hir _].
  destruct (sfs_wblock_wp (enc_words (<[Z.to_nat off := b]> (imap fs (sv_i sv))))
    (sfi_indirect (sv_i sv)) fs1) as (d' & -> & Hup).
  { apply Hok1. }
  { apply (enc_words_bytes 128). split; [by rewrite length_insert|].
    apply Forall_insert; [done|]. by apply (block_u32 fs). }
  { destruct Hok1 as (_ & _ & ? & _). rewrite (fs_hist_nblocks _ _ Hh) in *. lia. }
  simpl. destruct (indirect_filled fs (sv_i sv) (Z.to_nat off) b fs1 d')
    as (Hst & Ef & Em); [done..|lia|done|done|done|done|done|].
  assert (blockmap (set_device d' fs1) (sv_i sv) !! Z.to_nat (15 + off) = Some b) as Hm'.
  { rewrite Em, Eo, list_lookup_insert_eq; [done|]. rewrite <- Eo. by eapply lookup_lt_Some. }
  rewrite (bmap_return_wp _ _ (Z.to_nat (15 + off)));
    [|exact (fst_ok _ _ _ _ Hst)|exact (fst_wf _ _ _ _ Hst)|done].
  exists 0, b, (set_device d' fs1). split; [done|]. constructor; try done. intros _. split; [done|lia].
Qed.

(** [sfs_bmap] after a step that kept the bytes of the file. *)
Lemma bmap_post_after sv sv1 k doalloc fs fs1 r b sv' fs' :
  file_step fs (sv_i sv) fs1 (sv_i sv1) -> fblocks fs1 (sv_i sv1) = fblocks fs (sv_i sv) ->
  sfi_size (sv_i sv1) = sfi_size (sv_i sv) -> sv_step sv sv1 ->
  (doalloc = false -> sv1 = sv /\ fs_same fs fs1) ->
  bmap_post sv1 k doalloc fs1 r b sv' fs' -> bmap_post sv k doalloc fs r b sv' fs'.
Proof.
  intros Hst Ef Es Hsv Hd [Hst' Ef' Es' Hsv' Hd' Hb Hf Hh]. constructor.
  - by eapply file_step_trans.
  - congruence.
  - congruence.
  - by eapply sv_step_trans.
  - intros E. destruct (Hd E) as [-> ?], (Hd' E) as [-> ?]. split; [done|].
    by eapply fs_same_trans.
  - done.
  - intros Hr. destruct (fst_hist _ _ _ _ Hst) as [Hrel _]. destruct (Hf Hr) as [?|[?|?]]; tauto.
  - intros Hr Hb0. by apply (Hh Hr), (fst_map _ _ _ _ Hst).
Qed.

(** A fresh indirect block is all holes. *)
Lemma indirect_allocated fs i b fs1 :
  fs_ok fs -> file_wf fs i -> sfi_indirect i = 0 -> allocated fs b fs1 -> fs_ok fs1 ->
  fs_hist fs fs1 ->
  let i1 := set_indirect b i in
  file_step fs i fs1 i1 /\ fblocks fs1 i1 = fblocks fs i /\ imap fs1 i1 = zeroids.
Proof.
  intros Hok Hwf Hi Ha Hok1 Hh i1. pose proof Ha as (Hb & Hf & Hus & Hblk).
  destruct (file_allocated _ _ _ _ Hwf Ha) as (Em & Ef & Hsame).
  assert (imap fs1 i1 = zeroids) as Ei.
  { unfold imap, i1. simpl. rewrite (proj2 (Z.eqb_neq _ _)) by lia.
    rewrite Hblk, decide_True by done. apply dec_words_zero. }
  assert (blockmap fs1 i1 = blockmap fs i) as Em1.
  { unfold blockmap. rewrite Ei. unfold imap. by rewrite Hi. }
  split; [|split; [|done]].
  - apply (file_step_grow _ _ _ _ b); [done..| |done|done|done| | |].
    4:{ intros k. unfold has_block. by rewrite Em1. }
    + apply inode_ok_indirect; [apply Hwf|]. by apply (block_u32 fs).
    + intros b' Hne _. by rewrite Hblk, decide_False.
    + unfold file_blocks. rewrite Em1. unfold i1. simpl. rewrite Hi. unfold nonzero.
      rewrite (filter_cons_True (fun b => b <> 0)) by lia.
      rewrite (filter_cons_False (fun b => b <> 0)) by auto. done.
  - rewrite <- Ef. unfold fblocks. by rewrite Em1, Em.
Qed.

Lemma bmap_indirect_wp sv off doalloc fs :
  fs_ok fs -> file_wf fs (sv_i sv) -> 0 <= off < 128 ->
  exists r b sv' fs', bmap_indirect sv off doalloc fs = Some (r, b, sv', fs') /\
    bmap_post sv (15 + off) doalloc fs r b sv' fs'.
Proof.
  intros Hok Hwf Ho. pose proof Hwf as ((_ & _ & _ & [Hl _] & _) & _ & _).
  unfold bmap_indirect. destruct (sfi_indirect (sv_i sv) =? 0) eqn:Ei; boolify.
  - destruct doalloc; simpl.
    + destruct (sfs_balloc_wp fs Hok) as (r & b & fs1 & -> & Hok1 & Hh & Hr). simpl.
      destruct Hr as [(-> & -> & Hfull)|(-> & Ha)]; simpl.
      { exists ENOSPC, 0, sv, fs. split; [done|]. apply bmap_failed; auto.
        intros _ (b' & Hb' & Hn0). unfold blockmap, imap in Hb'. rewrite Ei in Hb'.
        rewrite lookup_app_r in Hb' by lia. by apply lookup_replicate in Hb' as [-> _]. }
      destruct (indirect_allocated fs (sv_i sv) b fs1) as (Hst & Ef & Eim); [done..|].
      set (sv1 := set_inode _ true sv).
      destruct (bmap_entry_wp sv1 off true fs1) as (r & b' & fs' & E & Hp);
        [done|exact (fst_wf _ _ _ _ Hst)|destruct Ha; simpl; lia|done|].
      change (set_indirect b (sv_i sv)) with (sv_i sv1) in Eim. rewrite Eim in E.
      change (sfi_indirect (sv_i sv1)) with b in E. rewrite E.
      exists r, b', sv1, fs'. split; [done|]. by apply (bmap_post_after _ sv1 _ _ _ fs1).
    + exists 0, 0, sv, fs. split; [done|]. apply bmap_there; [done..| |done].
      unfold blockmap, imap. rewrite Ei, lookup_app_r by lia. apply (lookup_replicate 128). lia.
  - rewrite andb_false_l. destruct (file_indirect fs _ Hok Hwf Ei) as [Hir _].
    destruct (sfs_rblock_wp zeroblock (sfi_indirect (sv_i sv)) fs) as (r & bs & d' & -> & Hs & Hbs & Hf).
    { apply Hok. } { apply zeroblock_bytes. } { destruct Hok as (_ & _ & ? & _). lia. }
    simpl. destruct (file_same fs (sv_i sv) d' Hok Hwf Hs) as (Hst & Em & Ef).
    destruct (r =? 0) eqn:Er; boolify; simpl.
    + rewrite Hbs by done. destruct (bmap_entry_wp sv off doalloc (set_device d' fs))
        as (r' & b & fs' & E & Hp);
        [exact (fst_ok _ _ _ _ Hst)|exact (fst_wf _ _ _ _ Hst)|done|done|].
      replace (imap (set_device d' fs) (sv_i sv))
        with (dec_words 128 (dev_data (fs_device fs) (sfi_indirect (sv_i sv)))) in E.
      2:{ unfold imap. rewrite (proj2 (Z.eqb_neq _ _)) by done.
          destruct (fs_ok_same _ _ Hok Hs) as [_ ->]. done. }
      rewrite E. exists r', b, sv, fs'. split; [done|].
      by apply (bmap_post_after _ sv _ _ _ (set_device d' fs)).
    + exists r, 0, sv, (set_device d' fs). split; [done|].
      constructor; [exact Hst|exact Ef|done|done|done|done| |].
      * intros Hr. right; right. by apply Hf.
      * intros ->. by destruct (Hf Er).
Qed.

(** [sfs_bmap] finds the disk block of a block of the file, allocates it if it is
    asked to, and leaves the bytes of the file, and everything else on the
    volume, as they are; blocks beyond the indirect block are refused. *)
Lemma sfs_bmap_wp sv k doalloc fs :
  fs_ok fs -> file_wf fs (sv_i sv) -> is_u32 k ->
  exists r b sv' fs', sfs_bmap sv k doalloc fs = Some (r, b, sv', fs') /\
    bmap_post sv k doalloc fs r b sv' fs' /\ (143 <= k -> r = EINVAL).
Proof.
  intros Hok Hwf Hk. unfold is_u32 in Hk. unfold sfs_bmap, SFS_NDIRECT, SFS_DBPERIDB.
  destruct (k <? 15) eqn:E15; boolify.
  { destruct (bmap_direct_wp sv k doalloc fs) as (r & b & sv' & fs' & ? & ?); [done|done|lia|].
    exists r, b, sv', fs'. split; [done|]. split; [done|lia]. }
  rewrite u32_id by (unfold is_u32; lia). destruct (0 <? (k - 15) / 128) eqn:Eid; boolify.
  - exists EINVAL, 0, sv, fs. split; [done|]. split; [|done]. apply bmap_failed; [done..| |done].
    left. split; [done|]. zdm.
  - assert (k - 15 < 128) by zdm. rewrite Z.mod_small by lia.
    destruct (bmap_indirect_wp sv (k - 15) doalloc fs) as (r & b & sv' & fs' & ? & Hp);
      [done|done|lia|]. exists r, b, sv', fs'. split; [done|]. split; [|lia].
    by replace (15 + (k - 15)) with k in Hp by lia.
Qed.
End bmap.
