(* ===== verification/SfsFile.v ===== *)
(** * SFS: reading and writing files

    The contents of a file are the bytes [fbytes] of its 143 blocks, holes read
    as zeros; its size says how many of them count.  [io_post] is what the I/O
    functions of sfs_vnode.c promise: the bytes [bs] moved through the uio are
    the file's bytes at the offset, or have replaced them, and nothing else
    changes; an error is one of those the caller can expect. *)

From stdpp Require Import base option list gmap numbers.
From S2P Require Import Prelude Bitmap Uio Device SfsDisk Sfs SfsBlock SfsBmap.

Section file.
Context {D : Type} `{DeviceLaws D}.
Implicit Types fs : sfs_fs D.

Definition fbytes fs (i : sfs_inode) : list Z := concat (fblocks fs i).

(** The largest file: 15 direct and 128 indirect blocks. *)
Definition max_file : Z := 73216.

Lemma fblocks_size fs i :
  fs_ok fs -> file_wf fs i -> all_of_size 512 (fblocks fs i).
Proof.
  intros Hok Hwf. apply Forall_lookup_2. intros k bs Hk.
  by destruct (fblocks_ok _ _ _ _ Hok Hwf Hk).
Qed.

Lemma length_fblocks fs i : fs_ok fs -> file_wf fs i -> length (fblocks fs i) = 143%nat.
Proof. intros. unfold fblocks. rewrite length_fmap. by apply length_blockmap. Qed.

Lemma length_fbytes fs i :
  fs_ok fs -> file_wf fs i -> Z.of_nat (length (fbytes fs i)) = max_file.
Proof.
  intros Hok Hwf. unfold fbytes. rewrite (length_concat_size 512), length_fblocks
    by (done || by apply fblocks_size). done.
Qed.

Lemma nonzero_inj l j k b :
  NoDup (nonzero l) -> l !! j = Some b -> l !! k = Some b -> b <> 0 -> j = k.
Proof.
  assert (forall l j k, (j < k)%nat -> NoDup (nonzero l) ->
    l !! j = Some b -> l !! k = Some b -> b <> 0 -> False) as Hlt.
  { clear l j k. intros l j k Hjk Hnd Hj Hk Hb.
    rewrite <- (take_drop_middle l j b Hj), nonzero_app in Hnd. unfold nonzero at 2 in Hnd.
    rewrite (filter_cons_True (fun b => b <> 0)) in Hnd by done.
    apply list.NoDup_app in Hnd as (_ & _ & Hnd). apply list.NoDup_cons in Hnd as [Hnd _].
    apply Hnd, elem_of_nonzero. split; [|done]. apply (list_elem_of_lookup_2 _ (k - S j)).
    rewrite lookup_drop, <- Hk. f_equal. lia. }
  intros Hnd Hj Hk Hb. destruct (Nat.lt_trichotomy j k) as [?|[?|?]]; [|done|];
    exfalso; eauto.
Qed.

(** One of the file's blocks is overwritten on the disk. *)
Lemma file_write_block fs i k b bs d' :
  fs_ok fs -> file_wf fs i -> blockmap fs i !! k = Some b -> b <> 0 ->
  dev_upd (fs_device fs) b bs d' ->
  file_step fs i (set_device d' fs) i /\
  fblocks (set_device d' fs) i = <[k := bs]> (fblocks fs i).
Proof.
  intros Hok Hwf Hk Hb Hup. destruct (fs_ok_upd _ _ _ _ Hok Hup) as [Hok' Hblk].
  pose proof Hwf as (Hi & Hnd & Hfb). unfold file_blocks in Hnd.
  apply list.NoDup_app in Hnd as (_ & Hdis & Hnd).
  assert (b ∈ blockmap fs i) as Hin by by eapply list_elem_of_lookup_2.
  assert (sfi_indirect i <> b) as Hib.
  { intros E. apply (Hdis b); apply elem_of_nonzero; split; [set_solver|done..]. }
  assert (blockmap (set_device d' fs) i = blockmap fs i) as Em.
  { apply blockmap_ext. intros _. by rewrite Hblk, decide_False. }
  assert (file_blocks (set_device d' fs) i = file_blocks fs i) as Ef
    by (unfold file_blocks; by rewrite Em).
  split.
  - constructor; [exact Hok'| |by eapply fs_hist_upd|done|..].
    + split; [done|]. rewrite Ef. split; [apply Hwf|exact Hfb].
    + rewrite Ef. tauto.
    + intros b' _ Hu Hn. rewrite Ef. split; [exact Hu|]. split; [exact Hn|].
      rewrite Hblk, decide_False; [done|]. intros ->. apply Hn, elem_of_file_blocks. auto.
    + by left.
    + intros j. unfold has_block. by rewrite Em.
  - unfold fblocks. rewrite Em. apply list_eq. intros j.
    destruct (decide (j = k)) as [->|Hjk].
    + rewrite list_lookup_insert_eq by (rewrite length_fmap; by eapply lookup_lt_Some).
      rewrite list_lookup_fmap, Hk. simpl. unfold blkdata. rewrite (proj2 (Z.eqb_neq _ _)) by done.
      by rewrite Hblk, decide_True.
    + rewrite list_lookup_insert_ne, !list_lookup_fmap by done.
      destruct (blockmap fs i !! j) as [b'|] eqn:Hj; [|done]. simpl. f_equal. unfold blkdata.
      destruct (b' =? 0) eqn:E0; boolify; [done|]. rewrite Hblk, decide_False; [done|].
      intros ->. apply Hjk. by eapply nonzero_inj.
Qed.

(** The block of the file that holds a position. *)
Lemma fblocks_lookup fs i k b :
  blockmap fs i !! k = Some b -> fblocks fs i !! k = Some (blkdata fs b).
Proof. intros Hk. unfold fblocks. by rewrite list_lookup_fmap, Hk. Qed.

(** ** The promise of the I/O functions *)

Record io_post (sv : sfs_vnode) (u : uio) (v : vm) fs
    (r : Z) (bs : list Z) (u' : uio) (v' : vm) (sv' : sfs_vnode) fs' : Prop := {
  ip_moved : uio_moved r bs u v u' v';
  ip_step : file_step fs (sv_i sv) fs' (sv_i sv');
  ip_sv : sv_step sv sv';
  ip_size : sfi_size (sv_i sv') = sfi_size (sv_i sv);
  ip_bound : bs <> [] -> uio_offset u + Z.of_nat (length bs) <= max_file;
  ip_data :
    match uio_rw u with
    | UIO_READ =>
        sv' = sv /\ fs_same fs fs' /\ fblocks fs' (sv_i sv') = fblocks fs (sv_i sv) /\
        bs = take (length bs) (drop (Z.to_nat (uio_offset u)) (fbytes fs (sv_i sv)))
    | UIO_WRITE =>
        fbytes fs' (sv_i sv') =
          splice (fbytes fs (sv_i sv)) (Z.to_nat (uio_offset u)) bs
    end;
  ip_fail : r <> 0 ->
    r = EFAULT /\ ~ uio_good u v (uio_resid u) \/
    r = EINVAL /\ max_file < uio_offset u + uio_resid u \/
    r = ENOSPC /\ uio_rw u = UIO_WRITE /\ full fs' \/
    r = EIO /\ ~ reliable fs;
  ip_mapped : uio_rw u = UIO_WRITE -> forall x,
    uio_offset u <= x < uio_offset u + Z.of_nat (length bs) ->
    has_block fs' (sv_i sv') (Z.to_nat (x / 512));
  ip_hole : r = ENOSPC -> 0 < uio_resid u -> exists x,
    uio_offset u <= x < uio_offset u + uio_resid u /\
    ~ has_block fs (sv_i sv) (Z.to_nat (x / 512));
}.

Lemma io_post_trans sv u v fs bs1 u1 v1 sv1 fs1 r bs2 u2 v2 sv2 fs2 :
  fs_ok fs -> file_wf fs (sv_i sv) -> uio_ok u v ->
  (r = ENOSPC -> 0 < uio_resid u -> 0 < uio_resid u1) ->
  io_post sv u v fs 0 bs1 u1 v1 sv1 fs1 -> io_post sv1 u1 v1 fs1 r bs2 u2 v2 sv2 fs2 ->
  io_post sv u v fs r (bs1 ++ bs2) u2 v2 sv2 fs2.
Proof.
  intros Hok Hwf Hu Hpos [M1 S1 V1 Z1 B1 D1 _ P1 _] [M2 S2 V2 Z2 B2 D2 F2 P2 H2].
  pose proof M1 as (Eu & Hu1 & Hk & _).
  destruct (uio_advance_resid (Z.of_nat (length bs1)) u v) as [Er Eo]; [done|lia|].
  rewrite <- Eu in Er, Eo. pose proof (uio_moved_rw _ _ _ _ _ _ M1) as Erw.
  pose proof (length_fbytes _ _ Hok Hwf) as Hlen.
  assert (0 <= uio_offset u) by apply Hu.
  assert (Z.to_nat (uio_offset u1) = (Z.to_nat (uio_offset u) + length bs1)%nat) as Eon by lia.
  constructor.
  - by eapply uio_moved_trans.
  - by eapply file_step_trans.
  - by eapply sv_step_trans.
  - congruence.
  - intros Hne. rewrite length_app. destruct bs2 as [|b bs2].
    + rewrite app_nil_r in Hne. specialize (B1 Hne). simpl. lia.
    + specialize (B2 ltac:(done)). lia.
  - rewrite Erw, Eon in D2. destruct (uio_rw u).
    + destruct D1 as (-> & F1 & Eb1 & Hb1), D2 as (-> & F2' & Eb2 & Hb2). split; [done|].
      split; [by eapply fs_same_trans|]. split; [congruence|]. unfold fbytes in *. rewrite Eb1 in Hb2.
      rewrite length_app, take_add_drop. by rewrite <- Hb1, <- Hb2.
    + rewrite D2, D1. destruct bs2 as [|b bs2]; [by rewrite splice_nil, app_nil_r|].
      apply splice_adj_r. specialize (B2 ltac:(done)). lia.
  - intros Hr. destruct (F2 Hr) as [[-> Hg]|[[-> ?]|[[-> [? ?]]|Hn]]].
    + left. split; [done|]. intros Hg'. apply Hg.
      apply (uio_good_rest bs1 u v _ _ (uio_resid u)); [done|exact M1|done|lia|lia].
    + right; left. split; [done|]. lia.
    + right; right; left. split; [done|]. split; [congruence|done].
    + right; right; right. destruct (fst_hist _ _ _ _ S1) as [Hrel _]. tauto.
  - intros Hw x Hx. rewrite length_app in Hx.
    destruct (decide (x < uio_offset u1)); [|apply P2; [congruence|lia]].
    apply (fst_map _ _ _ _ S2), P1; [done|lia].
  - intros Hr Hp. destruct (H2 Hr (Hpos Hr Hp)) as (x & Hx & Hn). exists x. split; [lia|].
    intros Hh. by apply Hn, (fst_map _ _ _ _ S1).
Qed.

Lemma uio_moved_none r u v : uio_ok u v -> uio_moved r [] u v u v.
Proof.
  intros Hu. pose proof Hu as (_ & _ & ? & _). unfold uio_moved.
  cbn [length mem_write]. change (Z.of_nat 0) with 0. rewrite (uio_advance_0 u v) by done.
  split; [done|]. split; [done|]. split; [lia|]. split; [by left|].
  destruct (uio_rw u); [|done]. exists (vm_mem v). rewrite set_mem_id.
  split; [done|]. by case_decide.
Qed.

(** Nothing was moved, by success or by failure. *)
Lemma io_post_nothing sv u v fs r u' v' sv' fs' :
  uio_moved r [] u v u' v' -> file_step fs (sv_i sv) fs' (sv_i sv') ->
  fblocks fs' (sv_i sv') = fblocks fs (sv_i sv) -> sv_step sv sv' ->
  sfi_size (sv_i sv') = sfi_size (sv_i sv) -> (uio_rw u = UIO_READ -> sv' = sv /\ fs_same fs fs') ->
  (r <> 0 ->
    r = EFAULT /\ ~ uio_good u v (uio_resid u) \/
    r = EINVAL /\ max_file < uio_offset u + uio_resid u \/
    r = ENOSPC /\ uio_rw u = UIO_WRITE /\ full fs' \/
    r = EIO /\ ~ reliable fs) ->
  (r = ENOSPC -> 0 < uio_resid u -> ~ has_block fs (sv_i sv) (Z.to_nat (uio_offset u / 512))) ->
  io_post sv u v fs r [] u' v' sv' fs'.
Proof.
  intros Hm Hst Ef Hsv Hsz Hrd Hf Hh. constructor; [done..| |done|simpl; lia|].
  2:{ intros Hr Hp. exists (uio_offset u). split; [lia|auto]. }
  destruct (uio_rw u); [by destruct (Hrd eq_refl) as [-> ?]|]. rewrite splice_nil.
  unfold fbytes. by rewrite Ef.
Qed.

(** Nothing was moved and the device has the same bytes. *)
Lemma io_post_same sv u v fs r u' v' d' :
  fs_ok fs -> file_wf fs (sv_i sv) -> dev_same (fs_device fs) d' ->
  uio_moved r [] u v u' v' ->
  (r <> 0 -> r = EFAULT /\ ~ uio_good u v (uio_resid u) \/
    r = EIO /\ ~ reliable fs) ->
  io_post sv u v fs r [] u' v' sv (set_device d' fs).
Proof.
  intros Hok Hwf Hs Hm Hf. destruct (file_same fs (sv_i sv) d' Hok Hwf Hs) as (Hst & _ & Ef).
  apply io_post_nothing; [exact Hm|exact Hst|exact Ef|apply sv_step_refl|reflexivity|by split|..].
  - intros Hr. destruct (Hf Hr); auto.
  - intros ->. by destruct Hf as [[? _]|[? _]].
Qed.

(** What [sfs_bmap] did before a transfer. *)
Lemma io_after_bmap sv u v fs k b sv1 fs1 :
  bmap_post sv k (is_write u) fs 0 b sv1 fs1 -> uio_ok u v ->
  io_post sv u v fs 0 [] u v sv1 fs1.
Proof.
  intros [Hst Ef Es Hsv Hrd _ _ _] Hu. apply io_post_nothing; try done.
  - by apply uio_moved_none.
  - intros E. apply Hrd. unfold is_write. by rewrite E.
Qed.

Lemma bmap_failed_io sv u v fs k r b sv1 fs1 :
  bmap_post sv k (is_write u) fs r b sv1 fs1 -> uio_ok u v -> r <> 0 ->
  (143 <= k -> max_file < uio_offset u + uio_resid u) -> k = uio_offset u / 512 ->
  io_post sv u v fs r [] u v sv1 fs1.
Proof.
  intros [Hst Ef Es Hsv Hrd _ Hf Hh] Hu Hr Hk Ek. apply io_post_nothing; try done.
  - by apply uio_moved_none.
  - intros E. apply Hrd. unfold is_write. by rewrite E.
  - intros _. destruct (Hf Hr) as [[-> ?]|[(-> & Hw & ?)|?]]; [right; left; auto| |auto].
    right; right; left. split; [done|]. split; [|done].
    by apply bool_decide_eq_true in Hw.
  - intros E _. rewrite <- Ek. auto.
Qed.

(** Loading the block that holds the position: the bytes of the file there. *)
Lemma load_block sv fs k b :
  fs_ok fs -> file_wf fs (sv_i sv) -> blockmap fs (sv_i sv) !! k = Some b -> b <> 0 ->
  exists r bs d', sfs_rblock zeroblock b fs = Some (r, bs, set_device d' fs) /\
    dev_same (fs_device fs) d' /\ (r = 0 -> bs = blkdata fs b) /\ 
    (r <> 0 -> r = EIO /\ ~ reliable fs).
Proof.
  intros Hok (_ & _ & Hfb) Hk Hb. destruct (Hfb b) as [Hr _].
  { apply elem_of_file_blocks. split; [done|]. right. by eapply list_elem_of_lookup_2. }
  destruct (sfs_rblock_wp zeroblock b fs) as (r & bs & d' & -> & Hs & Hbs & Hf).
  { apply Hok. } { apply zeroblock_bytes. } { destruct Hok as (_ & _ & ? & _). lia. }
  exists r, bs, d'. split; [done|]. split; [done|]. split; [|done]. intros Hr0.
  rewrite Hbs by done. unfold blkdata. by rewrite (proj2 (Z.eqb_neq _ _)).
Qed.

Lemma pos_split off : 0 <= off ->
  off = off / 512 * 512 + off `mod` 512 /\ 0 <= off `mod` 512 < 512 /\ 0 <= off / 512.
Proof. intros. zdm. Qed.

(** A transfer within one block, out of a buffer with the file's bytes. *)
Lemma io_read_part sv u v fs k b skip len bs u' v' :
  fs_ok fs -> file_wf fs (sv_i sv) -> uio_ok u v -> uio_rw u = UIO_READ ->
  blockmap fs (sv_i sv) !! k = Some b -> uio_offset u = Z.of_nat k * 512 + skip ->
  0 <= skip -> 0 <= len -> skip + len <= 512 ->
  uio_moved 0 bs u v u' v' -> bs = take (Z.to_nat len) (drop (Z.to_nat skip) (blkdata fs b)) ->
  io_post sv u v fs 0 bs u' v' sv fs.
Proof.
  intros Hok Hwf Hu Hrw Hk Ho Hs Hl Hsl Hm Hbs.
  pose proof (length_blockmap _ _ Hok Hwf). pose proof (lookup_lt_Some _ _ _ Hk).
  pose proof (fblocks_lookup _ _ _ _ Hk) as Hfk.
  destruct (fblocks_ok _ _ _ _ Hok Hwf Hfk) as [Hbl _].
  assert (length bs = Z.to_nat len) as El by (rewrite Hbs, length_take, length_drop; lia).
  constructor; [done|by apply file_step_refl|done|done| | |done|by rewrite Hrw|done].
  - intros _. unfold max_file. lia.
  - rewrite Hrw. split; [done|]. split; [by apply fs_same_refl|]. split; [done|]. rewrite El. unfold fbytes.
    replace (Z.to_nat (uio_offset u)) with (k * 512 + Z.to_nat skip)%nat by lia.
    rewrite (take_drop_concat 512 _ _ (blkdata fs b)); [done|by apply fblocks_size|done|lia].
Qed.

(** A transfer within one block, the block then written back. *)
Lemma io_write_part sv u v fs k b skip bs u' v' d' :
  fs_ok fs -> file_wf fs (sv_i sv) -> uio_ok u v -> uio_rw u = UIO_WRITE ->
  blockmap fs (sv_i sv) !! k = Some b -> b <> 0 -> uio_offset u = Z.of_nat k * 512 + skip ->
  0 <= skip -> skip + Z.of_nat (length bs) <= 512 ->
  uio_moved 0 bs u v u' v' ->
  dev_upd (fs_device fs) b (splice (blkdata fs b) (Z.to_nat skip) bs) d' ->
  io_post sv u v fs 0 bs u' v' sv (set_device d' fs).
Proof.
  intros Hok Hwf Hu Hrw Hk Hb Ho Hs Hsl Hm Hup.
  pose proof (length_blockmap _ _ Hok Hwf). pose proof (lookup_lt_Some _ _ _ Hk).
  destruct (file_write_block fs (sv_i sv) k b _ d' Hok Hwf Hk Hb Hup) as [Hst Ef].
  constructor; [done|exact Hst|done|done| | |done| |done].
  - intros _. unfold max_file. lia.
  - rewrite Hrw. unfold fbytes. rewrite Ef.
    replace (Z.to_nat (uio_offset u)) with (k * 512 + Z.to_nat skip)%nat by lia.
    apply splice_concat; [by apply fblocks_size|by apply fblocks_lookup|lia].
  - intros _ x Hx. apply (fst_map _ _ _ _ Hst). exists b.
    replace (Z.to_nat (x / 512)) with k; [done|].
    assert (x / 512 = Z.of_nat k) as -> by zdm.
    by rewrite Nat2Z.id.
Qed.

(** The second half of [sfs_partialio], with the block in [iobuf]. *)
Lemma partial_move sv u v fs k b skip len :
  fs_ok fs -> file_wf fs (sv_i sv) -> uio_ok u v ->
  blockmap fs (sv_i sv) !! k = Some b -> (uio_rw u = UIO_WRITE -> b <> 0) ->
  uio_offset u = Z.of_nat k * 512 + skip ->
  0 <= skip -> 0 <= len <= uio_resid u -> skip + len <= 512 ->
  exists r bs u' v' fs',
    ('(result, moved, u1, v1) ← uiomove (drop (Z.to_nat skip) (blkdata fs b)) len u v;
     if negb (result =? 0) then Some (result, u1, v1, sv, fs)
     else
       let iobuf := take (Z.to_nat skip) (blkdata fs b) ++ moved in
       if is_write u1 then
         '(result, fs) ← sfs_wblock iobuf b fs; Some (result, u1, v1, sv, fs)
       else Some (0, u1, v1, sv, fs)) = Some (r, u', v', sv, fs') /\
    io_post sv u v fs r bs u' v' sv fs' /\
    (r = 0 -> Z.of_nat (length bs) = len) /\ (r <> 0 -> bs = []).
Proof.
  intros Hok Hwf Hu Hk Hb Ho Hs Hl Hsl.
  destruct (fblocks_ok _ _ _ _ Hok Hwf (fblocks_lookup _ _ _ _ Hk)) as [Hbl Hby].
  destruct (uiomove_moved (drop (Z.to_nat skip) (blkdata fs b)) len u v)
    as (r & bs & moved & u1 & v1 & -> & Hm & Hlm & Hdir & Hr);
    [done|lia|rewrite length_drop; lia|intros _; by apply Forall_drop|]. simpl.
  destruct Hr as [[-> El]|(-> & -> & Hg)]; simpl.
  2:{ exists EFAULT, [], u1, v1, fs. split; [done|]. split; [|by split].
      apply io_post_nothing; try done; [by apply file_step_refl|by split; [|apply fs_same_refl]|].
      intros _. left. split; [done|].
      intros Hg'. apply Hg. by eapply uio_good_le. }
  unfold is_write. rewrite (uio_moved_rw _ _ _ _ _ _ Hm). destruct (uio_rw u) eqn:Hrw; simpl.
  - exists 0, bs, u1, v1, fs. split; [done|]. split; [|by split].
    apply (io_read_part _ _ _ _ k b skip len); try done; [lia|]. by apply Hdir.
  - assert (splice (blkdata fs b) (Z.to_nat skip) bs =
            take (Z.to_nat skip) (blkdata fs b) ++ moved) as Esp.
    { rewrite Hdir by done. unfold splice. by rewrite take_0, drop_drop. }
    pose proof (uio_moved_bytes _ _ _ _ _ _ Hu Hrw Hm) as Hbb.
    destruct Hwf as (Hi & Hnd & Hfb) eqn:Ewf. destruct (Hfb b) as [Hbr _].
    { apply elem_of_file_blocks. split; [by apply Hb|]. right. by eapply list_elem_of_lookup_2. }
    destruct (sfs_wblock_wp (take (Z.to_nat skip) (blkdata fs b) ++ moved) b fs)
      as (d' & -> & Hup); [apply Hok| |destruct Hok as (_ & _ & ? & _); lia|].
    { rewrite <- Esp. split; [rewrite length_splice; lia|]. unfold splice.
      apply Forall_app. split; [by apply Forall_take|]. apply Forall_app.
      split; [done|by apply Forall_drop]. }
    simpl. exists 0, bs, u1, v1, (set_device d' fs). split; [done|]. split; [|by split].
    rewrite <- Esp in Hup. apply (io_write_part _ _ _ _ k b skip); try done; [by apply Hb|lia].
Qed.

Lemma sfs_partialio_wp sv u v skip len fs :
  fs_ok fs -> file_wf fs (sv_i sv) -> uio_ok u v -> skip = uio_offset u `mod` 512 ->
  0 <= len <= uio_resid u -> skip + len <= 512 -> 0 < len \/ skip <> 0 ->
  exists r bs u' v' sv' fs', sfs_partialio sv u v skip len fs = Some (r, u', v', sv', fs') /\
    io_post sv u v fs r bs u' v' sv' fs' /\
    (r = 0 -> Z.of_nat (length bs) = len) /\ (r <> 0 -> bs = []).
Proof.
  intros Hok Hwf Hu Hs Hl Hsl Hne. pose proof Hu as (_ & (_ & ?) & ? & Ho & Hor & _).
  destruct (pos_split _ Ho) as (Eo & Hm & Hq). rewrite <- Hs in Eo, Hm.
  unfold sfs_partialio, SFS_BLOCKSIZE. rewrite (u32_id (skip + len)) by (unfold is_u32; lia).
  rewrite (proj2 (Z.leb_le _ _)) by lia. rewrite Z.quot_div_nonneg by lia.
  rewrite (u32_id (_ / _)) by (unfold is_u32; lia).
  destruct (sfs_bmap_wp sv (uio_offset u / 512) (is_write u) fs)
    as (r & b & sv1 & fs1 & -> & Hbp & _); [done|done|unfold is_u32; lia|]. simpl.
  destruct (r =? 0) eqn:Er; boolify; simpl.
  2:{ exists r, [], u, v, sv1, fs1. split; [done|]. split; [|by split].
      eapply bmap_failed_io; [done..|unfold max_file; lia|done]. }
  subst r. pose proof (io_after_bmap _ _ v _ _ _ _ _ Hbp Hu) as Hio1.
  destruct (bp_block _ _ _ _ _ _ _ _ Hbp eq_refl) as [Hk Hw].
  pose proof (bp_step _ _ _ _ _ _ _ _ Hbp) as [Hok1 Hwf1 _ _ _ _ _ _].
  assert (forall r bs u' v' sv' fs', io_post sv1 u v fs1 r bs u' v' sv' fs' ->
    io_post sv u v fs r bs u' v' sv' fs') as Hthen.
  { intros r bs ???? Hp. by apply (io_post_trans _ _ _ _ [] u v sv1 fs1). }
  destruct (b =? 0) eqn:Eb; boolify.
  - subst b. destruct (is_write u) eqn:Ew; [by destruct Hw|]. simpl.
    destruct (partial_move sv1 u v fs1 (Z.to_nat (uio_offset u / 512)) 0 skip len)
      as (r & bs & u' & v' & fs' & E & Hp & Hr); try done; try lia.
    { intros E. unfold is_write in Ew. by rewrite E in Ew. }
    change (blkdata fs1 0) with zeroblock in E.
    exists r, bs, u', v', sv1, fs'. split; [exact E|]. split; [by apply Hthen|exact Hr].
  - destruct (load_block sv1 fs1 _ b Hok1 Hwf1 Hk Eb) as (r & iobuf & d' & -> & Hsame & Hbs & Hf).
    simpl. destruct (file_same fs1 (sv_i sv1) d' Hok1 Hwf1 Hsame) as (Hst & Em & Ef).
    destruct (r =? 0) eqn:Er; boolify; simpl.
    + rewrite Hbs by done.
      destruct (partial_move sv1 u v (set_device d' fs1) (Z.to_nat (uio_offset u / 512)) b skip len)
        as (r' & bs & u' & v' & fs' & E & Hp & Hr);
        [exact (fst_ok _ _ _ _ Hst)|exact (fst_wf _ _ _ _ Hst)|done|by rewrite Em|done|lia..|].
      replace (blkdata (set_device d' fs1) b) with (blkdata fs1 b) in E
        by (unfold blkdata; destruct (fs_ok_same _ _ Hok1 Hsame) as [_ ->]; done).
      exists r', bs, u', v', sv1, fs'. split; [exact E|]. split; [|exact Hr].
      apply Hthen, (io_post_trans _ _ _ _ [] u v sv1 (set_device d' fs1));
        [exact Hok1|exact Hwf1|exact Hu|done| |exact Hp].
      apply io_post_same; [done..|by apply uio_moved_none|done].
    + exists r, [], u, v, sv1, (set_device d' fs1). split; [done|]. split; [|by split].
      apply Hthen, io_post_same; [done..|by apply uio_moved_none|by auto].
Qed.

(** ** Whole blocks *)

(** A hole reads as zeros. *)
Lemma io_zeros sv u v fs k r bs u' v' :
  fs_ok fs -> file_wf fs (sv_i sv) -> uio_ok u v -> uio_rw u = UIO_READ ->
  blockmap fs (sv_i sv) !! Z.to_nat k = Some 0 -> 0 <= k -> uio_offset u = k * 512 + 0 ->
  512 <= uio_resid u -> uio_moved r bs u v u' v' -> bs = replicate (length bs) 0 ->
  (r = 0 /\ Z.of_nat (length bs) = 512 \/
   r = EFAULT /\ Z.of_nat (length bs) < 512 /\ ~ uio_good u v 512) ->
  io_post sv u v fs r bs u' v' sv fs.
Proof.
  intros Hok Hwf Hu Hrw Hk Hk0 Ho Hres Hm Hz Hr.
  pose proof (length_blockmap _ _ Hok Hwf). pose proof (lookup_lt_Some _ _ _ Hk).
  pose proof (fblocks_lookup _ _ _ _ Hk) as Hfk. change (blkdata fs 0) with zeroblock in Hfk.
  constructor; [done|by apply file_step_refl|done|done| | | |by rewrite Hrw|].
  4:{ intros ->. by destruct Hr as [[? _]|[? _]]. }
  - intros _. unfold max_file. lia.
  - rewrite Hrw. split; [done|]. split; [by apply fs_same_refl|]. split; [done|]. unfold fbytes.
    replace (Z.to_nat (uio_offset u)) with (Z.to_nat k * 512 + 0)%nat by lia.
    rewrite (take_drop_concat 512 _ _ zeroblock); [|by apply fblocks_size|done|lia].
    unfold zeroblock. rewrite drop_0, take_replicate. rewrite Hz at 1. f_equal. lia.
  - intros Hr0. destruct Hr as [[? _]|(-> & _ & Hg)]; [done|]. left. split; [done|].
    intros Hg'. apply Hg. eapply uio_good_le; [done|lia].
Qed.

Lemma set_offset_ok u v doff :
  uio_ok u v -> 512 <= uio_resid u -> 0 <= doff -> doff + 512 < 2 ^ 31 ->
  uio_ok (set_offset_resid doff 512 u) v.
Proof.
  intros (? & ? & ? & ? & ? & ? & ? & ?) ???. unfold uio_ok. simpl.
  split; [done|]. split; [done|]. split; [lia|]. split; [lia|]. split; [lia|]. done.
Qed.

(** Putting the offset and the residue back after the device has moved them. *)
Lemma uio_moved_restore r bs u v doff u1 v1 :
  uio_ok u v -> 512 <= uio_resid u -> 0 <= doff -> doff + 512 < 2 ^ 31 ->
  uio_moved r bs (set_offset_resid doff 512 u) v u1 v1 ->
  uio_moved r bs u v
    (set_offset_resid (s32 (s32 (uio_offset u1 - doff) + uio_offset u))
       (u32 (u32 (uio_resid u1 - 512) + s32 (uio_resid u))) u1) v1.
Proof.
  intros Hu Hres Hd Hd2 (-> & Hu1 & Hk & Hg & Hm). simpl in Hk, Hm.
  pose proof Hu as ((? & ?) & (? & ?) & ? & ? & ? & Hv & Hb & Hseg).
  set (k := Z.of_nat (length bs)) in *.
  assert (uio_ok (uio_advance k u) v1 /\ uio_advance k u =
    set_offset_resid
      (s32 (s32 (uio_offset (uio_advance k (set_offset_resid doff 512 u)) - doff) + uio_offset u))
      (u32 (u32 (uio_resid (uio_advance k (set_offset_resid doff 512 u)) - 512) +
            s32 (uio_resid u))) (uio_advance k (set_offset_resid doff 512 u))) as [Hok E].
  { split.
    - destruct Hu1 as (Hb1 & Hi1 & Hr1 & Ho1 & Hor1 & Hv1 & Hbm & Hseg1).
      unfold uio_ok in *. simpl in *.
      rewrite (s32_id (uio_offset u + k)), (u32_id (uio_resid u - k)) by (unfold is_s32, is_u32; lia).
      rewrite (u32_id (iov_len u - k)) in * by (unfold is_u32; lia).
      split; [done|]. split; [done|]. split; [lia|]. split; [lia|]. split; [lia|]. done.
    - unfold uio_advance, set_offset_resid. simpl. f_equal.
      + rewrite (s32_id (doff + k)), (s32_id (doff + k - doff)) by (unfold is_s32; lia).
        f_equal. lia.
      + rewrite (u32_id (512 - k)), (s32_id (uio_resid u)) by (unfold is_u32, is_s32; lia).
        rewrite u32_u32_add. f_equal. lia. }
  unfold uio_moved. fold k. rewrite <- E. split; [done|]. split; [done|]. split; [lia|].
  split; [exact Hg|]. destruct (uio_rw u); [|done]. destruct Hm as (m & -> & Hm).
  exists m. split; [done|]. case_decide; [done|]. destruct Hm as [Hdom Hout].
  split; [done|]. intros i Hi. apply Hout. lia.
Qed.

(** The direct transfer between the disk block and the uio's region. *)
Lemma direct_move sv u v fs k b :
  fs_ok fs -> file_wf fs (sv_i sv) -> uio_ok u v -> 512 <= uio_resid u ->
  blockmap fs (sv_i sv) !! k = Some b -> b <> 0 -> uio_offset u = Z.of_nat k * 512 ->
  exists r bs u1 v' fs', sfs_rwblock (set_offset_resid (b * 512) 512 u) v fs = Some (r, u1, v', fs') /\
    let u' := set_offset_resid (s32 (s32 (uio_offset u1 - b * 512) + uio_offset u))
                (u32 (u32 (uio_resid u1 - 512) + s32 (uio_resid u))) u1 in
    io_post sv u v fs r bs u' v' sv fs' /\ (r = 0 -> length bs = 512%nat).
Proof.
  intros Hok Hwf Hu Hres Hk Hb Ho. pose proof Hwf as (_ & _ & Hfb).
  destruct (Hfb b) as [Hbr _].
  { apply elem_of_file_blocks. split; [done|]. right. by eapply list_elem_of_lookup_2. }
  pose proof Hok as (Hd & _ & Hn & _).
  destruct (block_pos b (fs_device fs)) as [_ Hp]; [apply Hd|lia|]. unfold BLOCKSIZE in Hp.
  pose proof (set_offset_ok u v (b * 512) Hu Hres ltac:(lia) ltac:(lia)) as Hu1.
  assert (blkdata fs b = blk fs b) as Ebd by (unfold blkdata; by rewrite (proj2 (Z.eqb_neq _ _))).
  assert (forall r, r = EFAULT -> ~ uio_good (set_offset_resid (b * 512) 512 u) v BLOCKSIZE ->
    r = EFAULT /\ ~ uio_good u v (uio_resid u)) as Hef.
  { intros r -> Hg. split; [done|]. intros Hg'. apply Hg.
    eapply (uio_good_le u); [done|unfold BLOCKSIZE; lia]. }
  destruct (uio_rw u) eqn:Hrw.
  - destruct (sfs_rwblock_read (set_offset_resid (b * 512) 512 u) v fs b)
      as (r & u1 & v' & d' & -> & Hs & Hout & Hf); [done..|lia|].
    destruct (file_same fs (sv_i sv) d' Hok Hwf Hs) as (Hst & Em & Ef).
    destruct Hout as [[-> Hm]|[(-> & Hm & Hg)|(-> & -> & ->)]].
    + exists 0, (blk fs b), u1, v', (set_device d' fs). split; [done|]. split.
      2:{ intros _. by destruct (blk_block fs b Hok ltac:(lia)). }
      apply uio_moved_restore in Hm; [|done|lia..].
      apply (io_post_trans _ _ _ _ [] u v sv (set_device d' fs)) with (bs2 := blk fs b);
        [exact Hok|exact Hwf|exact Hu|done| |].
      { apply io_post_same; [done..|by apply uio_moved_none|done]. }
      apply (io_read_part _ _ _ _ k b 0 512);
        [exact (fst_ok _ _ _ _ Hst)|exact (fst_wf _ _ _ _ Hst)|exact Hu|exact Hrw
        |by rewrite Em|lia|lia|lia|lia|exact Hm|].
      unfold blkdata. rewrite (proj2 (Z.eqb_neq _ _)) by done.
      destruct (fs_ok_same _ _ Hok Hs) as [_ ->].
      destruct (blk_block fs b Hok ltac:(lia)) as [Hbl _]. by rewrite drop_0, take_ge by lia.
    + exists EFAULT, [], u1, v', (set_device d' fs). split; [done|]. split; [|done].
      apply uio_moved_restore in Hm; [|done|lia..]. apply io_post_same; [done..|]. auto.
    + exists EIO, [], (set_offset_resid (b * 512) 512 u), v, (set_device d' fs).
      split; [done|]. split; [|done]. apply io_post_same; [done..| |].
      * apply uio_moved_restore; [done|lia..|]. by apply uio_moved_none.
      * intros _. right. auto.
  - destruct (sfs_rwblock_write (set_offset_resid (b * 512) 512 u) v fs b)
      as (r & bs & u1 & v' & d' & -> & Hm & Hr); [done..|lia|].
    pose proof Hm as Hm'. apply uio_moved_restore in Hm; [|done|lia..].
    exists r, bs, u1, v', (set_device d' fs). split; [done|].
    destruct Hr as [(-> & El & Hup)|(-> & -> & Hg & Hs)].
    + split; [|done]. apply (io_write_part _ _ _ _ k b 0); try done; try lia.
      destruct (blk_block fs b Hok ltac:(lia)) as [Hbl _].
      rewrite Ebd, splice_0_app, drop_ge, app_nil_r by lia. done.
    + split; [|done]. apply io_post_same; [done..|]. auto.
Qed.

Lemma sfs_blockio_wp sv u v fs :
  fs_ok fs -> file_wf fs (sv_i sv) -> uio_ok u v -> uio_offset u `mod` 512 = 0 ->
  512 <= uio_resid u ->
  exists r bs u' v' sv' fs', sfs_blockio sv u v fs = Some (r, u', v', sv', fs') /\
    io_post sv u v fs r bs u' v' sv' fs' /\ (r = 0 -> length bs = 512%nat).
Proof.
  intros Hok Hwf Hu Hs Hres. pose proof Hu as (_ & (_ & ?) & ? & Ho & Hor & _).
  destruct (pos_split _ Ho) as (Eo & Hm & Hq). rewrite Hs in Eo.
  unfold sfs_blockio, SFS_BLOCKSIZE. rewrite Z.quot_div_nonneg by lia.
  rewrite (u32_id (_ / _)) by (unfold is_u32; lia).
  destruct (sfs_bmap_wp sv (uio_offset u / 512) (is_write u) fs)
    as (r & b & sv1 & fs1 & -> & Hbp & _); [done|done|unfold is_u32; lia|]. simpl.
  destruct (r =? 0) eqn:Er; boolify; simpl.
  2:{ exists r, [], u, v, sv1, fs1. split; [done|]. split; [|done].
      eapply bmap_failed_io; [done..|unfold max_file; lia|done]. }
  subst r. pose proof (io_after_bmap _ _ v _ _ _ _ _ Hbp Hu) as Hio1.
  destruct (bp_block _ _ _ _ _ _ _ _ Hbp eq_refl) as [Hk Hw].
  pose proof (bp_step _ _ _ _ _ _ _ _ Hbp) as [Hok1 Hwf1 _ _ _ _ _ _].
  assert (forall r bs u' v' sv' fs', io_post sv1 u v fs1 r bs u' v' sv' fs' ->
    io_post sv u v fs r bs u' v' sv' fs') as Hthen.
  { intros r bs ???? Hp. by apply (io_post_trans _ _ _ _ [] u v sv1 fs1). }
  destruct (b =? 0) eqn:Eb; boolify.
  - subst b. destruct (is_write u) eqn:Ew; [by destruct Hw|]. simpl.
    assert (uio_rw u = UIO_READ) as Hrw.
    { unfold is_write in Ew. destruct (uio_rw u); [done|]. by boolify. }
    destruct (uiomovezeros_moved 512 u v Hu Hrw ltac:(lia))
      as (r & bs & u' & v' & -> & Hmv & Hz & Hr). simpl.
    exists r, bs, u', v', sv1, fs1. split; [done|]. split; [|intros ->; destruct Hr as [[_ ?]|[? _]]; [lia|done]].
    apply Hthen. by apply (io_zeros _ _ _ _ (uio_offset u / 512)).
  - rewrite (proj2 (Z.leb_le _ _)) by lia.
    pose proof Hwf1 as (_ & _ & Hfb). destruct (Hfb b) as [Hbr _].
    { apply elem_of_file_blocks. split; [done|]. right. by eapply list_elem_of_lookup_2. }
    destruct (block_pos b (fs_device fs1)) as [_ Hp];
      [apply Hok1|destruct Hok1 as (_ & _ & ? & _); lia|]. unfold BLOCKSIZE in Hp.
    rewrite (u32_id (b * 512)), (s32_id (b * 512)) by (unfold is_u32, is_s32; lia).
    destruct (direct_move sv1 u v fs1 (Z.to_nat (uio_offset u / 512)) b)
      as (r & bs & u1 & v' & fs' & E & Hp1 & Hr); [done..|lia|].
    rewrite E. simpl. eexists r, bs, _, v', sv1, fs'. split; [done|]. split; [|done].
    by apply Hthen.
Qed.

(** The loop over whole blocks stops at the first error. *)
Lemma blockio_loop_wp n sv u v fs :
  fs_ok fs -> file_wf fs (sv_i sv) -> uio_ok u v -> uio_offset u `mod` 512 = 0 ->
  Z.of_nat n * 512 <= uio_resid u ->
  exists r bs u' v' sv' fs', blockio_loop n sv u v fs = Some (r, u', v', sv', fs') /\
    io_post sv u v fs r bs u' v' sv' fs' /\ (r = 0 -> length bs = (n * 512)%nat).
Proof.
  revert sv u v fs. induction n as [|n IH]; intros sv u v fs Hok Hwf Hu Hm Hn; simpl.
  { exists 0, [], u, v, sv, fs. split; [done|]. split; [|done].
    apply io_post_nothing; try done;
    [by apply uio_moved_none|by apply file_step_refl|by split; [|apply fs_same_refl]]. }
  destruct (sfs_blockio_wp sv u v fs) as (r & bs & u1 & v1 & sv1 & fs1 & -> & Hp & Hl);
    [done..|lia|]. simpl. destruct (r =? 0) eqn:Er; boolify; simpl.
  2:{ exists r, bs, u1, v1, sv1, fs1. done. }
  subst r. specialize (Hl eq_refl). pose proof Hp as [M S _ _ _ _ _ _ _].
  pose proof M as (Eu & Hu1 & _). destruct (uio_advance_resid (Z.of_nat (length bs)) u v)
    as [Er Eo]; [done|lia|]. rewrite <- Eu in Er, Eo.
  destruct (IH sv1 u1 v1 fs1) as (r & bs2 & u2 & v2 & sv2 & fs2 & E2 & Hp2 & Hl2);
    [exact (fst_ok _ _ _ _ S)|exact (fst_wf _ _ _ _ S)|done|rewrite Eo, Hl; zdm|lia|].
  exists r, (bs ++ bs2), u2, v2, sv2, fs2. split; [done|].
  split; [|intros Hr0; rewrite length_app, Hl, Hl2 by done; lia].
  eapply io_post_trans; [exact Hok|exact Hwf|exact Hu| |exact Hp|exact Hp2].
  intros Hr0 _. destruct n; [simpl in E2; by simplify_eq|lia].
Qed.

(** ** A whole request *)

Lemma io_post_start sv u v fs :
  fs_ok fs -> file_wf fs (sv_i sv) -> uio_ok u v -> io_post sv u v fs 0 [] u v sv fs.
Proof.
  intros. apply io_post_nothing; try done;
    [by apply uio_moved_none|by apply file_step_refl|by split; [|apply fs_same_refl]].
Qed.

(** Where the uio stands after a successful step. *)
Lemma io_post_pos sv u v fs bs u' v' sv' fs' :
  uio_ok u v -> io_post sv u v fs 0 bs u' v' sv' fs' ->
  fs_ok fs' /\ file_wf fs' (sv_i sv') /\ uio_ok u' v' /\
  uio_resid u' = uio_resid u - Z.of_nat (length bs) /\
  uio_offset u' = uio_offset u + Z.of_nat (length bs) /\ Z.of_nat (length bs) <= uio_resid u.
Proof.
  intros Hu [M S _ _ _ _ _ _ _]. pose proof M as (Eu & Hu1 & Hk & _).
  destruct (uio_advance_resid (Z.of_nat (length bs)) u v) as [Er Eo]; [done|lia|].
  rewrite <- Eu in Er, Eo.
  split; [exact (fst_ok _ _ _ _ S)|]. split; [exact (fst_wf _ _ _ _ S)|]. done.
Qed.

(** The leading partial block: afterwards the request is done or block-aligned. *)
Lemma io_lead_wp sv u v fs :
  fs_ok fs -> file_wf fs (sv_i sv) -> uio_ok u v ->
  exists r bs u' v' sv' fs',
    (let blkoff := u32 (Z.rem (uio_offset u) SFS_BLOCKSIZE) in
     if negb (blkoff =? 0) then
       let len := u32 (SFS_BLOCKSIZE - blkoff) in
       let len := if uio_resid u <? len then uio_resid u else len in
       sfs_partialio sv u v blkoff len fs
     else Some (0, u, v, sv, fs)) = Some (r, u', v', sv', fs') /\
    io_post sv u v fs r bs u' v' sv' fs' /\
    (r = 0 -> Z.of_nat (length bs) =
                let skip := uio_offset u `mod` 512 in
                if skip =? 0 then 0 else Z.min (uio_resid u) (512 - skip)) /\
    (r <> 0 -> bs = []).
Proof.
  intros Hok Hwf Hu. pose proof Hu as (_ & (_ & ?) & ? & Ho & Hor & _).
  destruct (pos_split _ Ho) as (Eo & Hm & Hq). unfold SFS_BLOCKSIZE.
  rewrite Z.rem_mod_nonneg by lia. set (skip := uio_offset u `mod` 512) in *.
  rewrite (u32_id skip) by (unfold is_u32; lia). cbn zeta.
  destruct (skip =? 0) eqn:Es; boolify; simpl.
  { exists 0, [], u, v, sv, fs. split; [done|]. split; [by apply io_post_start|].
    by split. }
  rewrite (u32_id (512 - skip)) by (unfold is_u32; lia).
  set (len := if uio_resid u <? 512 - skip then uio_resid u else 512 - skip).
  assert (0 <= len <= uio_resid u /\ skip + len <= 512 /\
          len = Z.min (uio_resid u) (512 - skip)) as (Hl & Hsl & Hcase).
  { unfold len. destruct (Z.ltb_spec (uio_resid u) (512 - skip)); lia. }
  destruct (sfs_partialio_wp sv u v skip len fs) as (r & bs & u' & v' & sv' & fs' & E & Hp & Hr);
    [done..|by right|].
  exists r, bs, u', v', sv', fs'. split; [done|]. split; [done|].
  rewrite <- Hcase. exact Hr.
Qed.

(** The rest of a block-aligned request. *)
Lemma io_rest_wp sv u v fs :
  fs_ok fs -> file_wf fs (sv_i sv) -> uio_ok u v -> uio_offset u `mod` 512 = 0 ->
  exists r bs u' v' sv' fs',
    (ASSERT Z.rem (uio_offset u) SFS_BLOCKSIZE =? 0 ;;
     let nblocks := uio_resid u / SFS_BLOCKSIZE in
     '(result, u, v, sv, fs) ← blockio_loop (Z.to_nat nblocks) sv u v fs;
     if negb (result =? 0) then Some (result, u, v, sv, fs)
     else
       ASSERT uio_resid u <? SFS_BLOCKSIZE ;;
       if 0 <? uio_resid u then sfs_partialio sv u v 0 (uio_resid u) fs
       else Some (0, u, v, sv, fs)) = Some (r, u', v', sv', fs') /\
    io_post sv u v fs r bs u' v' sv' fs' /\ (r = 0 -> Z.of_nat (length bs) = uio_resid u) /\
    (r <> 0 -> uio_resid u < 512 -> bs = []).
Proof.
  intros Hok Hwf Hu Hm. pose proof Hu as (_ & (_ & ?) & ? & Ho & Hor & _).
  unfold SFS_BLOCKSIZE. rewrite Z.rem_mod_nonneg, Hm by lia. simpl.
  assert (uio_resid u = uio_resid u / 512 * 512 + uio_resid u `mod` 512 /\
          0 <= uio_resid u `mod` 512 < 512 /\ 0 <= uio_resid u / 512) as (Er & Hrm & Hrq) by zdm.
  destruct (blockio_loop_wp (Z.to_nat (uio_resid u / 512)) sv u v fs)
    as (r & bs & u1 & v1 & sv1 & fs1 & E & Hp & Hl); [done..|lia|]. rewrite E. simpl.
  destruct (r =? 0) eqn:E0; boolify; simpl.
  2:{ exists r, bs, u1, v1, sv1, fs1. split; [done|]. split; [done|]. split; [done|].
      intros _ Hlt. rewrite (Z.div_small (uio_resid u)) in E by lia. simpl in E. congruence. }
  subst r. specialize (Hl eq_refl).
  destruct (io_post_pos _ _ _ _ _ _ _ _ _ Hu Hp) as (Hok1 & Hwf1 & Hu1 & Er1 & Eo1 & _).
  rewrite (proj2 (Z.ltb_lt _ _)) by lia. destruct (0 <? uio_resid u1) eqn:E1; boolify.
  - destruct (sfs_partialio_wp sv1 u1 v1 0 (uio_resid u1) fs1)
      as (r & bs2 & u2 & v2 & sv2 & fs2 & -> & Hp2 & Hl2); [done..| |lia|lia|lia|].
    { rewrite Eo1, Hl. zdm. }
    exists r, (bs ++ bs2), u2, v2, sv2, fs2. split; [done|].
    split; [eapply io_post_trans; [exact Hok|exact Hwf|exact Hu| |exact Hp|exact Hp2]; lia|].
    rewrite length_app. destruct Hl2 as [Hl2 Hn]. split.
    + intros Hr0. specialize (Hl2 Hr0). lia.
    + intros Hr Hlt. rewrite (Hn Hr), app_nil_r. apply nil_length_inv. lia.
  - exists 0, bs, u1, v1, sv1, fs1. split; [done|]. split; [done|]. split; [lia|done].
Qed.

Lemma io_blocks_wp sv u v fs :
  fs_ok fs -> file_wf fs (sv_i sv) -> uio_ok u v ->
  exists r bs u' v' sv' fs', io_blocks sv u v fs = Some (r, u', v', sv', fs') /\
    io_post sv u v fs r bs u' v' sv' fs' /\ (r = 0 -> Z.of_nat (length bs) = uio_resid u) /\
    (r <> 0 -> uio_offset u `mod` 512 + uio_resid u <= 512 -> uio_resid u < 512 -> bs = []).
Proof.
  intros Hok Hwf Hu. unfold io_blocks.
  destruct (io_lead_wp sv u v fs Hok Hwf Hu) as (r & bs & u1 & v1 & sv1 & fs1 & E & Hp & Hl & Hn).
  cbn zeta in E |- *. unfold io_ret in E |- *. rewrite E. cbn [mbind option_bind].
  destruct (r =? 0) eqn:E0; boolify; simpl.
  2:{ exists r, bs, u1, v1, sv1, fs1. split; [done|]. split; [done|]. split; [done|]. auto. }
  subst r. specialize (Hl eq_refl). cbn zeta in Hl.
  assert (0 <= uio_offset u) as Ho by apply Hu. destruct (pos_split _ Ho) as (Eo & Hm & _).
  destruct (io_post_pos _ _ _ _ _ _ _ _ _ Hu Hp) as (Hok1 & Hwf1 & Hu1 & Er1 & Eo1 & _).
  destruct (uio_resid u1 =? 0) eqn:E1; boolify.
  { exists 0, bs, u1, v1, sv1, fs1. split; [done|]. split; [done|]. split; [lia|done]. }
  destruct (io_rest_wp sv1 u1 v1 fs1) as (r & bs2 & u2 & v2 & sv2 & fs2 & E2 & Hp2 & Hl2 & Hn2);
    [done..| |].
  { destruct (Z.eqb_spec (uio_offset u `mod` 512) 0); rewrite Eo1, Hl; [by rewrite Z.add_0_r|].
    replace (uio_offset u + _) with ((uio_offset u / 512 + 1) * 512) by lia. by rewrite Z.mod_mul. }
  exists r, (bs ++ bs2), u2, v2, sv2, fs2. split; [exact E2|].
  split; [eapply io_post_trans; [exact Hok|exact Hwf|exact Hu| |exact Hp|exact Hp2]|].
  { pose proof Hu1 as (_ & _ & ? & _). lia. }
  rewrite length_app. split.
  - intros Hr0. specialize (Hl2 Hr0). lia.
  - intros Hr Hone Hlt. destruct (Z.eqb_spec (uio_offset u `mod` 512) 0); [|lia].
    rewrite (Hn2 Hr), app_nil_r by lia. apply nil_length_inv. lia.
Qed.

(** ** [sfs_io] *)

(** The bytes of a file up to its size. *)
Definition fcontent fs (i : sfs_inode) : list Z := take (Z.to_nat (sfi_size i)) (fbytes fs i).

(** The length of a read at [off] of a file of [size] bytes. *)
Definition read_len (size off resid : Z) : Z := Z.max 0 (Z.min resid (size - off)).

(** A transfer of less than the uio asks for, with the rest added back. *)
Lemma uio_moved_extra r bs u v extra u1 v1 :
  uio_ok u v -> 0 <= extra <= uio_resid u ->
  uio_moved r bs (set_offset_resid (uio_offset u) (uio_resid u - extra) u) v u1 v1 ->
  uio_moved r bs u v (set_offset_resid (uio_offset u1) (u32 (uio_resid u1 + extra)) u1) v1.
Proof.
  intros Hu He (-> & Hu1 & Hk & Hg & Hm). simpl in Hk, Hm.
  pose proof Hu as ((? & ?) & (? & ?) & ? & ? & ? & Hv & Hb & Hseg).
  set (k := Z.of_nat (length bs)) in *.
  assert (set_offset_resid
      (uio_offset (uio_advance k (set_offset_resid (uio_offset u) (uio_resid u - extra) u)))
      (u32 (uio_resid (uio_advance k (set_offset_resid (uio_offset u) (uio_resid u - extra) u))
            + extra))
      (uio_advance k (set_offset_resid (uio_offset u) (uio_resid u - extra) u))
      = uio_advance k u) as E.
  { unfold uio_advance, set_offset_resid. simpl. f_equal. rewrite u32_u32_add. f_equal. lia. }
  unfold uio_moved. fold k. rewrite E. split; [done|]. split.
  { destruct Hu1 as (Hb1 & Hi1 & Hr1 & Ho1 & Hor1 & Hv1 & Hbm & Hseg1).
    unfold uio_ok in *. simpl in *.
    rewrite (s32_id (uio_offset u + k)), (u32_id (uio_resid u - k)) by (unfold is_s32, is_u32; lia).
    rewrite (u32_id (iov_len u - k)) in * by (unfold is_u32; lia).
    split; [done|]. split; [done|]. split; [lia|]. split; [lia|]. split; [lia|]. done. }
  split; [lia|]. split; [exact Hg|]. destruct (uio_rw u); [|done].
  destruct Hm as (m & -> & Hm). exists m. split; [done|]. case_decide; [done|].
  destruct Hm as [Hdom Hout]. split; [done|]. intros i Hi. apply Hout. lia.
Qed.

Lemma less_resid_ok u v extra :
  uio_ok u v -> 0 <= extra <= uio_resid u ->
  uio_ok (set_offset_resid (uio_offset u) (uio_resid u - extra) u) v.
Proof.
  intros (? & ? & ? & ? & ? & ? & ? & ?) ?. unfold uio_ok. simpl.
  split; [done|]. split; [done|]. split; [lia|]. split; [lia|]. split; [lia|]. done.
Qed.

Lemma take_content (k off n : nat) (l : list Z) :
  (off + k <= n)%nat -> take k (drop off (take n l)) = take k (drop off l).
Proof.
  intros. rewrite skipn_firstn_comm, take_take. f_equal. lia.
Qed.

(** What a read does. *)
Record read_post (sv : sfs_vnode) (u : uio) (v : vm) fs
    (r : Z) (bs : list Z) (u' : uio) (v' : vm) fs' : Prop := {
  rp_moved : uio_moved r bs u v u' v';
  rp_same : fs_same fs fs';
  rp_step : file_step fs (sv_i sv) fs' (sv_i sv);
  rp_bytes : fbytes fs' (sv_i sv) = fbytes fs (sv_i sv);
  rp_data : bs = take (length bs) (drop (Z.to_nat (uio_offset u)) (fcontent fs (sv_i sv)));
  rp_all : r = 0 -> Z.of_nat (length bs) =
                    read_len (sfi_size (sv_i sv)) (uio_offset u) (uio_resid u);
  rp_none : r <> 0 -> uio_offset u `mod` 512 + uio_resid u <= 512 -> uio_resid u < 512 -> bs = [];
  rp_fail : r <> 0 ->
    r = EFAULT /\ ~ uio_good u v (uio_resid u) \/
    r = EINVAL /\ max_file < sfi_size (sv_i sv) \/
    r = EIO /\ ~ reliable fs;
}.

Lemma sfs_io_read_wp sv u v fs :
  fs_ok fs -> file_wf fs (sv_i sv) -> uio_ok u v -> uio_rw u = UIO_READ ->
  sfi_size (sv_i sv) < 2 ^ 31 ->
  exists r bs u' v' fs', sfs_io sv u v fs = Some (r, u', v', sv, fs') /\
    read_post sv u v fs r bs u' v' fs'.
Proof.
  intros Hok Hwf Hu Hrw Hsz. pose proof Hu as (_ & (_ & ?) & ? & Ho & Hor & _).
  pose proof Hwf as (((? & _) & _) & _).
  unfold sfs_io, is_write. rewrite Hrw. simpl. rewrite (s32_id (sfi_size _)) by (unfold is_s32; lia).
  rewrite (u32_id (uio_offset u + _)), (s32_id (uio_offset u + _)) by (unfold is_u32, is_s32; lia).
  set (size := sfi_size (sv_i sv)) in *. destruct (size <=? uio_offset u) eqn:Ee; boolify.
  { exists 0, [], u, v, fs. split; [done|].
    constructor; [by apply uio_moved_none|by apply fs_same_refl|by apply file_step_refl|done|done| |done|done].
    intros _. unfold read_len. fold size. simpl. lia. }
  set (extra := if size <? uio_offset u + uio_resid u then uio_offset u + uio_resid u - size else 0).
  assert (0 <= extra <= uio_resid u /\ uio_offset u + (uio_resid u - extra) <= size /\
          uio_resid u - extra = read_len size (uio_offset u) (uio_resid u)) as (Hx & Hend & Hrl).
  { unfold extra, read_len. destruct (Z.ltb_spec size (uio_offset u + uio_resid u)); lia. }
  set (u0 := set_offset_resid (uio_offset u) (uio_resid u - extra) u).
  destruct (io_blocks_wp sv u0 v fs) as (r & bs & u1 & v1 & sv1 & fs1 & E & Hp & Hl & Hn);
    [done|done|by apply less_resid_ok|].
  pose proof Hp as [M S _ _ _ Hd F _ _]. replace (uio_rw u0) with UIO_READ in Hd by done.
  destruct Hd as (-> & Hsame & Hfb & Hbs).
  assert (io_out extra (r, u1, v1, sv, fs1) =
    (r, set_offset_resid (uio_offset u1) (u32 (uio_resid u1 + extra)) u1, v1, sv, fs1)) as Eout.
  { unfold io_out, is_write. rewrite (uio_moved_rw _ _ _ _ _ _ M). simpl. by rewrite Hrw. }
  exists r, bs, (set_offset_resid (uio_offset u1) (u32 (uio_resid u1 + extra)) u1), v1, fs1.
  split.
  - unfold extra in *. destruct (size <? uio_offset u + uio_resid u) eqn:Ex; boolify.
    + rewrite (u32_id (_ - size)) by (unfold is_u32; lia). rewrite (proj2 (Z.ltb_lt _ _)) by lia.
      fold u0. rewrite E. cbn [mbind option_bind]. by rewrite Eout.
    + replace u0 with u in E by (unfold u0; rewrite Z.sub_0_r; by destruct u).
      rewrite E. cbn [mbind option_bind]. by rewrite Eout.
  - pose proof M as (_ & _ & Hk & _). simpl in Hk.
    constructor; [by apply uio_moved_extra|done|done|unfold fbytes; by rewrite Hfb| | | |].
    + unfold fcontent. rewrite take_content by lia. exact Hbs.
    + fold size. rewrite <- Hrl. exact Hl.
    + intros Hr ? ?. apply Hn; [done|simpl; lia..].
    + intros Hr. destruct (F Hr) as [[-> Hg]|[[-> Hm]|[(_ & Hc & _)|?]]].
      * left. split; [done|]. intros Hg'. apply Hg. eapply uio_good_le; [done|simpl; lia].
      * right; left. split; [done|]. simpl in Hm. fold size. lia.
      * simpl in Hc. congruence.
      * auto.
Qed.

Lemma file_step_size fs i fs' i' n :
  file_step fs i fs' i' -> is_u32 n -> file_step fs i fs' (set_size n i').
Proof.
  intros [O W H0 M I T N B] Hn. constructor; [exact O| |exact H0|exact M|exact I|exact T|exact N|exact B].
  destruct W as (Hi & Hnd & Hb). split; [by apply inode_ok_size|]. split; [exact Hnd|exact Hb].
Qed.

(** What a write does. *)
Record write_post (sv : sfs_vnode) (u : uio) (v : vm) fs
    (r : Z) (bs : list Z) (u' : uio) (sv' : sfs_vnode) fs' : Prop := {
  wp_moved : uio_moved r bs u v u' v;
  wp_step : file_step fs (sv_i sv) fs' (sv_i sv');
  wp_sv : sv_step sv sv';
  wp_size : sfi_size (sv_i sv') =
              Z.max (sfi_size (sv_i sv)) (uio_offset u + Z.of_nat (length bs));
  wp_bound : bs <> [] -> uio_offset u + Z.of_nat (length bs) <= max_file;
  wp_bytes : fbytes fs' (sv_i sv') = splice (fbytes fs (sv_i sv)) (Z.to_nat (uio_offset u)) bs;
  wp_all : r = 0 -> Z.of_nat (length bs) = uio_resid u;
  wp_none : r <> 0 -> uio_offset u `mod` 512 + uio_resid u <= 512 -> uio_resid u < 512 -> bs = [];
  wp_fail : r <> 0 ->
    r = EFAULT /\ ~ uio_good u v (uio_resid u) \/
    r = EINVAL /\ max_file < uio_offset u + uio_resid u \/
    r = ENOSPC /\ full fs' \/
    r = EIO /\ ~ reliable fs;
  wp_mapped : forall x, uio_offset u <= x < uio_offset u + Z.of_nat (length bs) ->
    has_block fs' (sv_i sv') (Z.to_nat (x / 512));
  wp_hole : r = ENOSPC -> 0 < uio_resid u -> exists x,
    uio_offset u <= x < uio_offset u + uio_resid u /\
    ~ has_block fs (sv_i sv) (Z.to_nat (x / 512));
}.

Lemma sfs_io_write_wp sv u v fs :
  fs_ok fs -> file_wf fs (sv_i sv) -> uio_ok u v -> uio_rw u = UIO_WRITE ->
  sfi_size (sv_i sv) < 2 ^ 31 ->
  exists r bs u' sv' fs', sfs_io sv u v fs = Some (r, u', v, sv', fs') /\
    write_post sv u v fs r bs u' sv' fs'.
Proof.
  intros Hok Hwf Hu Hrw Hsz. pose proof Hu as ((? & ?) & (? & ?) & ? & Ho & Hor & _).
  pose proof Hwf as (((? & _) & _) & _).
  destruct (io_blocks_wp sv u v fs Hok Hwf Hu)
    as (r & bs & u1 & v1 & sv1 & fs1 & E & Hp & Hl & Hn).
  pose proof Hp as [M S Hsv Hs1 Hbd Hd F Hmap Hhole]. rewrite Hrw in Hd.
  pose proof M as (Eu & _ & Hk & _ & Hv). rewrite Hrw in Hv. destruct Hv as [-> _].
  destruct (uio_advance_resid (Z.of_nat (length bs)) u v) as [Er Eo]; [done|lia|].
  rewrite <- Eu in Er, Eo.
  set (sv' := if sfi_size (sv_i sv1) <? uio_offset u1
              then set_inode (set_size (uio_offset u1) (sv_i sv1)) true sv1 else sv1).
  exists r, bs, u1, sv', fs1. split.
  { unfold sfs_io, is_write. rewrite Hrw. simpl. rewrite E. cbn [mbind option_bind].
    unfold io_out, is_write. rewrite (uio_moved_rw _ _ _ _ _ _ M), Hrw. simpl.
    rewrite (s32_id (sfi_size _)) by (unfold is_s32; lia).
    rewrite (u32_id (uio_offset u1)) by (unfold is_u32; lia). fold sv'.
    rewrite Z.add_0_r, (u32_id (uio_resid u1)) by (unfold is_u32; lia).
    by destruct u1. }
  assert (file_step fs (sv_i sv) fs1 (sv_i sv') /\ sv_step sv sv' /\
          sfi_size (sv_i sv') = Z.max (sfi_size (sv_i sv)) (uio_offset u1) /\
          fbytes fs1 (sv_i sv') = fbytes fs1 (sv_i sv1) /\
          has_block fs1 (sv_i sv') = has_block fs1 (sv_i sv1)) as (S' & Hsv' & Hsz' & Hfb & Hhb).
  { unfold sv'. destruct (Z.ltb_spec (sfi_size (sv_i sv1)) (uio_offset u1)).
    - split; [apply file_step_size; [done|unfold is_u32; lia]|].
      split; [|split; [simpl; lia|by split]].
      destruct Hsv as (? & ? & _). by split; [|split].
    - split; [done|]. split; [done|]. split; [lia|by split]. }
  constructor; [done|done|done|by rewrite Hsz', Eo|done|by rewrite Hfb|done|exact Hn| |..];
    [|by rewrite Hhb; apply Hmap|exact Hhole].
  intros Hr. destruct (F Hr) as [?|[?|[(? & _ & ?)|?]]]; auto.
Qed.
(** ** Contents *)

(** [bs] put over the bytes from [off] on, the list growing if need be. *)
Definition write_at (c : list Z) (off : nat) (bs : list Z) : list Z :=
  take off c ++ bs ++ drop (off + length bs) c.

Lemma write_content (l bs : list Z) (size off : nat) :
  (off <= size)%nat -> (size <= length l)%nat -> (off + length bs <= length l)%nat ->
  take (Nat.max size (off + length bs)) (splice l off bs) = write_at (take size l) off bs.
Proof.
  intros Ho Hs Hb. unfold splice, write_at. rewrite take_take, Nat.min_l by lia.
  rewrite take_app, length_take, Nat.min_l by lia. rewrite take_ge by (rewrite length_take; lia).
  f_equal. rewrite take_app, take_ge by lia. f_equal.
  rewrite skipn_firstn_comm. f_equal. lia.
Qed.

(** The contents after a write that does not start past the end. *)
Lemma content_written fs i fs' i' off bs :
  sfi_size i' = Z.max (sfi_size i) (off + Z.of_nat (length bs)) ->
  fbytes fs' i' = splice (fbytes fs i) (Z.to_nat off) bs ->
  0 <= off <= sfi_size i -> (Z.to_nat (sfi_size i) <= length (fbytes fs i))%nat ->
  (Z.to_nat off + length bs <= length (fbytes fs i))%nat ->
  fcontent fs' i' = write_at (fcontent fs i) (Z.to_nat off) bs.
Proof.
  intros Hs Hb Ho Hl Hl2. unfold fcontent. rewrite Hs, Hb, <- write_content by lia. f_equal. lia.
Qed.
End file.
