(* ===== verification/SfsDir.v ===== *)
(** * Directories of SFS (the directory level of kern/fs/sfs/sfs_vnode.c)

    A directory is a file whose bytes are 64-byte entries.  [dents] is the list of
    its entries; the lemmas give what [sfs_dir_findname], [sfs_dir_link] and
    [sfs_dir_unlink] do to that list. *)

From stdpp Require Import base option list gmap numbers.
From S2P Require Import Prelude Cstring Bitmap Uio Device SfsDisk Sfs SfsBlock SfsBmap SfsFile.

(** The name of an entry, as [sfs_dir_findname] terminates it. *)
Definition dname (d : sfs_dir) : list Z := cstr (<[59%nat := 0]> (sfd_name d)).

Lemma dname_split d :
  dir_ok d -> exists r, <[59%nat := 0]> (sfd_name d) = dname d ++ 0 :: r /\ is_str (dname d).
Proof.
  intros [_ [Hl Hb]]. apply cstr_split.
  - by apply Forall_insert.
  - apply (list_elem_of_lookup_2 _ 59). apply list_lookup_insert_eq. lia.
Qed.

(** Whether an entry is in use and has the name. *)
Definition has_name (name : list Z) (d : sfs_dir) : Prop := sfd_ino d <> 0 /\ dname d = name.

#[global] Instance has_name_dec name d : Decision (has_name name d).
Proof. unfold has_name. apply _. Defined.

(** No two entries in use have the same name. *)
Definition names_unique (l : list sfs_dir) : Prop :=
  forall name j k d e, l !! j = Some d -> l !! k = Some e ->
    has_name name d -> has_name name e -> j = k.

(** What a search reports: the entry with the name, and an empty slot. *)
Definition found_ok (name : list Z) (l : list sfs_dir) (found : option (Z * Z)) : Prop :=
  match found with
  | Some (ino, slot) =>
      0 <= slot /\ exists d, l !! Z.to_nat slot = Some d /\ has_name name d /\ sfd_ino d = ino
  | None => forall d, d ∈ l -> ~ has_name name d
  end.

Definition empty_ok (l : list sfs_dir) (empty : option Z) : Prop :=
  match empty with
  | Some slot => 0 <= slot /\ exists d, l !! Z.to_nat slot = Some d /\ sfd_ino d = 0
  | None => forall d, d ∈ l -> sfd_ino d <> 0
  end.

Lemma found_ok_more name l d found :
  found_ok name l found -> ~ has_name name d -> found_ok name (l ++ [d]) found.
Proof.
  destruct found as [[ino slot]|]; simpl.
  - intros (? & e & He & ?) _. split; [done|]. exists e. by rewrite (lookup_app_l_Some _ _ _ _ He).
  - intros Hf Hd e [?|E]%elem_of_app; [by apply Hf|]. apply list_elem_of_singleton in E as ->. done.
Qed.

Lemma found_ok_here name l d k :
  has_name name d -> k = length l -> found_ok name (l ++ [d]) (Some (sfd_ino d, Z.of_nat k)).
Proof.
  intros Hd ->. simpl. split; [lia|]. exists d. rewrite Nat2Z.id, lookup_app_r by lia.
  by rewrite Nat.sub_diag.
Qed.

Lemma empty_ok_more l d empty :
  empty_ok l empty -> sfd_ino d <> 0 -> empty_ok (l ++ [d]) empty.
Proof.
  destruct empty as [slot|]; simpl.
  - intros (? & e & He & ?) _. split; [done|]. exists e. by rewrite (lookup_app_l_Some _ _ _ _ He).
  - intros Hf Hd e [?|E]%elem_of_app; [by apply Hf|]. apply list_elem_of_singleton in E as ->. done.
Qed.

Lemma empty_ok_here l d k :
  sfd_ino d = 0 -> k = length l -> empty_ok (l ++ [d]) (Some (Z.of_nat k)).
Proof.
  intros Hd ->. simpl. split; [lia|]. exists d. rewrite Nat2Z.id, lookup_app_r by lia.
  by rewrite Nat.sub_diag.
Qed.

Section dir.
Context {D : Type} `{!Device D, !DeviceLaws D}.
Implicit Types fs : sfs_fs D.

(** ** The entries *)

Definition dslot fs (i : sfs_inode) (k : nat) : sfs_dir :=
  dec_dir (take 64 (drop (64 * k) (fbytes fs i))).
Definition nslots (i : sfs_inode) : nat := Z.to_nat (sfi_size i / 64).
Definition dents fs (i : sfs_inode) : list sfs_dir := dslot fs i <$> seq 0 (nslots i).

Record dir_wf fs (i : sfs_inode) : Prop := {
  dw_file : file_wf fs i;
  dw_type : sfi_type i = SFS_TYPE_DIR;
  dw_size : 0 <= sfi_size i <= max_file /\ sfi_size i `mod` 64 = 0;
  dw_full : forall k, (k < nslots i)%nat -> has_block fs i (k / 8);
}.

Arguments dslot : simpl never.
Arguments nslots : simpl never.

Lemma length_dents fs i : length (dents fs i) = nslots i.
Proof. unfold dents. by rewrite length_fmap, length_seq. Qed.

Lemma lookup_dents fs i k : (k < nslots i)%nat -> dents fs i !! k = Some (dslot fs i k).
Proof. intros. unfold dents. by rewrite list_lookup_fmap, lookup_seq_lt. Qed.

Lemma dir_size fs i : dir_wf fs i -> sfi_size i = 64 * Z.of_nat (nslots i) /\ (nslots i <= 1144)%nat.
Proof. intros [_ _ [Hs Hm] _]. unfold nslots, max_file in *. zdm. Qed.

(** A volume that was only read has the same files. *)
Lemma fs_same_file fs fs' i :
  fs_ok fs -> file_wf fs i -> fs_same fs fs' ->
  fs_ok fs' /\ file_wf fs' i /\ file_step fs i fs' i /\ fbytes fs' i = fbytes fs i.
Proof.
  intros Hok Hwf [Hs E]. destruct (file_same fs i (fs_device fs') Hok Hwf Hs) as (Hst & _ & Ef).
  rewrite <- E in Hst, Ef. split; [exact (fst_ok _ _ _ _ Hst)|].
  split; [exact (fst_wf _ _ _ _ Hst)|]. split; [done|]. unfold fbytes. by rewrite Ef.
Qed.

Lemma dents_same fs fs' i : fbytes fs' i = fbytes fs i -> dents fs' i = dents fs i.
Proof. intros E. unfold dents, dslot. by rewrite E. Qed.

Lemma fs_same_dir fs fs' i :
  fs_ok fs -> dir_wf fs i -> fs_same fs fs' ->
  fs_ok fs' /\ dir_wf fs' i /\ dents fs' i = dents fs i.
Proof.
  intros Hok [Hw Ht Hs Hb] Hsame.
  destruct (fs_same_file fs fs' i Hok Hw Hsame) as (? & ? & Hst & Ef).
  split; [done|]. split; [|by apply dents_same]. constructor; [done..|].
  intros k Hk. apply (fst_map _ _ _ _ Hst); auto.
Qed.

Lemma dir_nentries_wp fs sv :
  dir_wf fs (sv_i sv) -> sfs_dir_nentries sv = Some (Z.of_nat (nslots (sv_i sv))).
Proof.
  intros Hw. destruct (dir_size _ _ Hw) as [Es Hn]. destruct Hw as [_ Ht _ _].
  unfold sfs_dir_nentries, sizeof_sfs_dir. rewrite Ht. simpl.
  rewrite (s32_id (sfi_size _)), (u32_id (sfi_size _)) by (unfold is_s32, is_u32; lia).
  rewrite Es, Z.mul_comm, Z.mod_mul, Z.div_mul by lia. simpl.
  rewrite s32_id by (unfold is_s32; lia). done.
Qed.

Lemma dslot_ok fs i k :
  fs_ok fs -> dir_wf fs i -> (k < nslots i)%nat -> dir_ok (dslot fs i k).
Proof.
  intros Hok Hw Hk. destruct (dir_size _ _ Hw) as [_ Hn]. apply dec_dir_ok.
  pose proof (dw_file _ _ Hw) as Hf.
  pose proof (length_fbytes _ _ Hok Hf) as Hl. unfold max_file in Hl. split.
  - rewrite length_take, length_drop. lia.
  - apply Forall_take, Forall_drop, Forall_concat, Forall_lookup_2. intros j bs Hj.
    by destruct (fblocks_ok _ _ _ _ Hok Hf Hj).
Qed.

(** ** Reading an entry *)

Lemma kbuf_dir rw slot (data : list Z) :
  bytes_of 64 data -> 0 <= slot <= 1144 ->
  s32 (u32 (slot * sizeof_sfs_dir)) = slot * 64 /\
  uio_ok (mk_kuio KBUF sizeof_sfs_dir (slot * 64) rw) (kvm data).
Proof.
  intros [Hl Hb] Hs. unfold sizeof_sfs_dir.
  rewrite (u32_id (slot * 64)), (s32_id (slot * 64)) by (unfold is_u32, is_s32; lia).
  split; [done|]. apply kuio_ok; try lia; try done.
Qed.

Lemma sfs_readdir_wp sv slot fs :
  fs_ok fs -> dir_wf fs (sv_i sv) -> 0 <= slot < Z.of_nat (nslots (sv_i sv)) ->
  exists r sd fs', sfs_readdir sv slot fs = Some (r, sd, sv, fs') /\ fs_same fs fs' /\
    (r = 0 -> dents fs (sv_i sv) !! Z.to_nat slot = Some sd) /\
    (r <> 0 -> r = EIO /\ ~ reliable fs).
Proof.
  intros Hok Hw Hslot. destruct (dir_size _ _ Hw) as [Es Hn].
  assert (bytes_of 64 (replicate 64 0)) as Hz
    by (split; [done|apply Forall_replicate; by unfold is_byte]).
  unfold sfs_readdir. set (buf := replicate 64 0) in *. clearbody buf.
  destruct (kbuf_dir UIO_READ slot _ Hz) as [Ep Hu]; [lia|]. rewrite Ep. set (ku := mk_kuio _ _ _ _) in *.
  destruct (sfs_io_read_wp sv ku (kvm buf) fs)
    as (r & bs & u' & v' & fs' & -> & [M Hsame _ _ Hbs Hall _ Hf]); [done|apply Hw|done|done|lia|].
  simpl. exists r, (dec_dir (mem_bytes (vm_mem v') KBUF 64)), fs'. destruct (r =? 0) eqn:Er; boolify; simpl.
  - subst r. specialize (Hall eq_refl). unfold read_len in Hall. simpl in Hall, Hbs.
    unfold sizeof_sfs_dir in Hall. assert (length bs = 64%nat) as Hl by lia.
    destruct M as (-> & _ & _ & _ & m & -> & Em). simpl in Em. rewrite Em.
    rewrite Hl. simpl uio_resid. change (u32 _) with 0. simpl.
    rewrite mem_write_bytes by done. split; [done|]. split; [done|]. split; [|done]. intros _.
    rewrite lookup_dents by lia. f_equal. unfold dslot. f_equal. rewrite Hbs, Hl. unfold fcontent.
    rewrite take_content by lia. do 2 f_equal. lia.
  - split; [done|]. split; [done|]. split; [done|]. intros _.
    destruct (Hf Er) as [[_ Hg]|[[_ ?]|?]]; [by destruct Hg; apply kuio_good| |done].
    pose proof (dw_size _ _ Hw). lia.
Qed.

(** ** Searching *)

(** A search gives the entry and an empty slot, or an I/O error. *)
Definition search_post (name : list Z) fs (i : sfs_inode)
    (r : Z) (found : option (Z * Z)) (empty : option Z) : Prop :=
  r = (if found is Some _ then 0 else ENOENT) /\ found_ok name (dents fs i) found /\
    empty_ok (dents fs i) empty \/
  r = EIO /\ ~ reliable fs.

Lemma strcmp_dname d name :
  dir_ok d -> is_str name ->
  exists c, strcmp (<[59%nat := 0]> (sfd_name d)) (name ++ [0]) = Some c /\
    (c = 0 <-> dname d = name).
Proof.
  intros Hd Hn. destruct (dname_split d Hd) as (r & -> & Hs). by apply strcmp_eq.
Qed.

Lemma take_S_dents fs i (k : nat) :
  (k < nslots i)%nat -> take (S k) (dents fs i) = take k (dents fs i) ++ [dslot fs i k].
Proof. intros Hk. by rewrite (take_S_r _ _ _ (lookup_dents _ _ _ Hk)). Qed.

Lemma not_found_twice fs i name (k : nat) d ino slot :
  names_unique (dents fs i) -> (k < nslots i)%nat -> dents fs i !! k = Some d -> has_name name d ->
  found_ok name (take k (dents fs i)) (Some (ino, slot)) -> False.
Proof.
  intros Hun Hk Hd Hh (Hs & e & He & Hhe & _). apply lookup_take_Some in He as [He Hlt].
  pose proof (Hun name _ _ _ _ He Hd Hhe Hh). lia.
Qed.

Lemma findname_loop_wp n i name found empty sv fs :
  fs_ok fs -> dir_wf fs (sv_i sv) -> names_unique (dents fs (sv_i sv)) -> is_str name ->
  (i + n = nslots (sv_i sv))%nat ->
  found_ok name (take i (dents fs (sv_i sv))) found ->
  empty_ok (take i (dents fs (sv_i sv))) empty ->
  exists r found' empty' fs',
    findname_loop n (Z.of_nat i) name found empty sv fs = Some (r, found', empty', sv, fs') /\
    fs_same fs fs' /\ search_post name fs (sv_i sv) r found' empty'.
Proof.
  revert i found empty fs. induction n as [|n IH]; intros i found empty fs Hok Hw Hun Hn Hin Hf He.
  { rewrite take_ge in Hf, He by (rewrite length_dents; lia). simpl.
    eexists _, found, empty, fs. split; [done|]. split; [by apply fs_same_refl|]. by left. }
  cbn [findname_loop].
  destruct (sfs_readdir_wp sv (Z.of_nat i) fs Hok Hw) as (r & sd & fs1 & -> & Hs1 & Hsd & Hr);
    [lia|]. cbn [mbind option_bind].
  destruct (r =? 0) eqn:Er; boolify; simpl.
  2:{ eexists r, found, empty, fs1. split; [done|]. split; [done|]. right. auto. }
  specialize (Hsd Er). rewrite Nat2Z.id in Hsd.
  destruct (fs_same_dir fs fs1 _ Hok Hw Hs1) as (Hok1 & Hw1 & Ed).
  assert (sd = dslot fs (sv_i sv) i) as -> by (rewrite lookup_dents in Hsd by lia; congruence).
  assert (forall found1 empty1,
    found_ok name (take (S i) (dents fs (sv_i sv))) found1 ->
    empty_ok (take (S i) (dents fs (sv_i sv))) empty1 ->
    exists r found' empty' fs',
      findname_loop n (Z.of_nat i + 1) name found1 empty1 sv fs1 =
        Some (r, found', empty', sv, fs') /\ fs_same fs fs' /\
      search_post name fs (sv_i sv) r found' empty') as Hnext.
  { intros found1 empty1 Hf1 He1. replace (Z.of_nat i + 1) with (Z.of_nat (S i)) by lia.
    destruct (IH (S i) found1 empty1 fs1) as (r' & f' & e' & fs' & E & Hs & Ho);
      rewrite ?Ed; [done..|lia|done|done|].
    exists r', f', e', fs'. split; [exact E|]. split; [by eapply fs_same_trans|].
    unfold search_post in *. rewrite Ed in Ho. destruct Hs1 as [(_ & Hrel & _) _].
    unfold reliable in *. tauto. }
  assert (length (take i (dents fs (sv_i sv))) = i) as Hl
    by (rewrite length_take, length_dents; lia).
  rewrite take_S_dents in Hnext by lia. unfold SFS_NOINO.
  destruct (sfd_ino (dslot fs (sv_i sv) i) =? 0) eqn:Ei; boolify.
  { apply Hnext; [apply found_ok_more; [done|by intros [? _]]|].
    by apply empty_ok_here. }
  pose proof (dslot_ok fs _ i Hok Hw ltac:(lia)) as Hdok.
  destruct (strcmp_dname _ name Hdok Hn) as (c & -> & Hc). cbn [mbind option_bind].
  destruct (c =? 0) eqn:Ec; boolify.
  - apply Hc in Ec. destruct found as [[ino slot]|]; simpl.
    { exfalso. by eapply (not_found_twice fs _ name i); [done|lia|done|split|]. }
    apply Hnext; [|by apply empty_ok_more]. by apply found_ok_here.
  - apply Hnext; [|by apply empty_ok_more]. apply found_ok_more; [done|].
    intros [_ ?]. by apply Ec, Hc.
Qed.

Lemma sfs_dir_findname_wp sv name fs :
  fs_ok fs -> dir_wf fs (sv_i sv) -> names_unique (dents fs (sv_i sv)) -> is_str name ->
  exists r found empty fs', sfs_dir_findname sv name fs = Some (r, found, empty, sv, fs') /\
    fs_same fs fs' /\ search_post name fs (sv_i sv) r found empty.
Proof.
  intros Hok Hw Hun Hn. unfold sfs_dir_findname. rewrite (dir_nentries_wp fs) by done.
  cbn [mbind option_bind]. rewrite Nat2Z.id. apply (findname_loop_wp _ 0); try done.
  - by intros d Hd%not_elem_of_nil.
  - by intros d Hd%not_elem_of_nil.
Qed.

(** ** Writing an entry *)

(** Slot [k] of a list of entries is overwritten, or the entry is added at the end. *)
Definition put_entry (k : nat) (d : sfs_dir) (l : list sfs_dir) : list sfs_dir :=
  if decide (k < length l)%nat then <[k := d]> l else l ++ [d].

Lemma lookup_put_entry k d l j :
  (k <= length l)%nat ->
  put_entry k d l !! j = if decide (j = k) then Some d else l !! j.
Proof.
  intros Hk. unfold put_entry. repeat case_decide; subst.
  - by rewrite list_lookup_insert_eq.
  - by rewrite list_lookup_insert_ne.
  - by rewrite list_lookup_middle by lia.
  - destruct (decide (j < length l)%nat); [by rewrite lookup_app_l|].
    rewrite !lookup_ge_None_2; [done|lia|rewrite length_app; simpl; lia].
Qed.

Lemma length_put_entry k d l :
  (k <= length l)%nat -> length (put_entry k d l) = Nat.max (length l) (S k).
Proof.
  intros. unfold put_entry. case_decide; [rewrite length_insert|rewrite length_app; simpl]; lia.
Qed.

Lemma dents_written fs i fs' i' (k : nat) d :
  fs_ok fs -> dir_wf fs i -> (k <= nslots i)%nat -> (k < 1144)%nat -> dir_ok d ->
  fbytes fs' i' = splice (fbytes fs i) (64 * k) (enc_dir d) ->
  sfi_size i' = Z.max (sfi_size i) (64 * Z.of_nat k + 64) ->
  dents fs' i' = put_entry k d (dents fs i).
Proof.
  intros Hok Hw Hk Hk2 Hd Hb Hs. destruct (dir_size _ _ Hw) as [Es Hn].
  assert (nslots i' = Nat.max (nslots i) (S k)) as Hn' by (unfold nslots in *; rewrite Hs; zdm).
  destruct (enc_dir_bytes d Hd) as [Hl _].
  pose proof (length_fbytes _ _ Hok (dw_file _ _ Hw)) as Hfl. unfold max_file in Hfl.
  apply list_eq. intros j. rewrite lookup_put_entry by (rewrite length_dents; lia).
  destruct (decide (j < nslots i')%nat) as [Hj|Hj].
  - rewrite lookup_dents by done. unfold dslot. rewrite Hb. case_decide as Ejk.
    + subst j. rewrite <- Hl, take_drop_splice by (rewrite Hl; lia). by rewrite dec_enc_dir.
    + rewrite lookup_dents by lia. unfold dslot. rewrite take_drop_splice_ne; [done|lia|lia].
  - rewrite decide_False by lia. rewrite !lookup_ge_None_2 by (rewrite length_dents; lia). done.
Qed.

(** What a write of an entry does. *)
Record writedir_post (sv : sfs_vnode) (k : nat) (d : sfs_dir) fs
    (r : Z) (sv' : sfs_vnode) fs' : Prop := {
  wd_step : file_step fs (sv_i sv) fs' (sv_i sv');
  wd_sv : sv_step sv sv';
  wd_dir : dir_wf fs' (sv_i sv');
  wd_dents : dents fs' (sv_i sv') =
               if decide (r = 0) then put_entry k d (dents fs (sv_i sv)) else dents fs (sv_i sv);
  wd_fail : r <> 0 -> r = EINVAL /\ k = 1144%nat \/
                      r = ENOSPC /\ full fs' /\ k = nslots (sv_i sv) \/
                      r = EIO /\ ~ reliable fs;
}.

Lemma dir_wf_step fs i fs' i' n :
  file_step fs i fs' i' -> dir_wf fs i -> sfi_size i' = 64 * Z.of_nat n -> (n <= 1144)%nat ->
  (forall k, (nslots i <= k < n)%nat -> has_block fs' i' (k / 8)) ->
  dir_wf fs' i'.
Proof.
  intros Hst [_ Ht _ Hb] Es Hn Hnew. constructor.
  - exact (fst_wf _ _ _ _ Hst).
  - destruct (fst_meta _ _ _ _ Hst) as [-> _]. done.
  - rewrite Es. unfold max_file. split; [lia|]. rewrite Z.mul_comm. by apply Z.mod_mul.
  - intros k Hk. destruct (decide (k < nslots i)%nat).
    + apply (fst_map _ _ _ _ Hst); auto.
    + apply Hnew. unfold nslots in *. rewrite Es in Hk. zdm.
Qed.

(** The block an entry is in. *)
Lemma slot_block (k : nat) x :
  Z.of_nat k * 64 <= x < Z.of_nat k * 64 + 64 -> Z.to_nat (x / 512) = (k / 8)%nat.
Proof.
  intros Hx. assert (x / 512 = Z.of_nat k / 8) as -> by zdm.
  rewrite <- (Nat2Z.id (k / 8)), Nat2Z.inj_div. done.
Qed.

Lemma sfs_writedir_wp sv sd (k : nat) fs :
  fs_ok fs -> dir_wf fs (sv_i sv) -> dir_ok sd -> (k <= nslots (sv_i sv))%nat ->
  exists r sv' fs', sfs_writedir sv sd (Z.of_nat k) fs = Some (r, sv', fs') /\
    writedir_post sv k sd fs r sv' fs'.
Proof.
  intros Hok Hw Hsd Hk. destruct (dir_size _ _ Hw) as [Es Hn].
  pose proof (enc_dir_bytes sd Hsd) as Hbd. unfold sfs_writedir.
  rewrite (proj2 (Z.leb_le 0 _)) by lia.
  destruct (kbuf_dir UIO_WRITE (Z.of_nat k) _ Hbd) as [Ep Hu]; [lia|]. rewrite Ep.
  set (ku := mk_kuio _ _ _ _) in *.
  destruct (sfs_io_write_wp sv ku (kvm (enc_dir sd)) fs)
    as (r & bs & u' & sv' & fs' & -> & [M Hst Hsv Hsz Hbd' Hby Hall Hnone Hf Hmap Hhole]);
    [done|apply Hw|done|done|lia|]. cbn [mbind option_bind].
  destruct M as (Eu & _ & _ & _ & _ & Ebs). simpl in Hsz, Hbd', Hby, Hall, Hnone, Hf, Hmap, Hhole.
  unfold sizeof_sfs_dir in *. destruct (r =? 0) eqn:Er; boolify; simpl.
  - subst r. specialize (Hall eq_refl). assert (length bs = 64%nat) as Hl by lia.
    change (vm_mem (kvm (enc_dir sd))) with (mem_write ∅ KBUF (enc_dir sd)) in Ebs.
    rewrite Hl, mem_write_bytes in Ebs by (symmetry; apply Hbd). subst bs.
    replace (uio_resid u') with 0 by (rewrite Eu, Hl; done). simpl.
    exists 0, sv', fs'. split; [done|].
    assert (Z.of_nat k * 64 + 64 <= 73216) by (rewrite Hl in Hbd'; apply Hbd'; intros E; by rewrite E in Hl).
    constructor; [done|done| | |done].
    + apply (dir_wf_step fs (sv_i sv) _ _ (Nat.max (nslots (sv_i sv)) (S k))); [done..|lia|lia|].
      intros j Hj. replace j with k by lia. rewrite <- (slot_block k (Z.of_nat k * 64)) by lia.
      apply Hmap. lia.
    + rewrite decide_True by done. apply dents_written; [done..|lia|done| |lia].
      rewrite Hby. f_equal. lia.
  - assert (bs = []) as ->.
    { destruct (decide (bs = [])) as [|Hne]; [done|]. apply Hnone; [done| |lia]. zdm. }
    rewrite splice_nil in Hby. simpl in Hsz. exists r, sv', fs'. split; [done|].
    constructor; [done|done| | |].
    + apply (dir_wf_step fs (sv_i sv) _ _ (nslots (sv_i sv))); [done..|lia|lia|lia].
    + rewrite decide_False by done. unfold dents, dslot. rewrite Hby.
      replace (nslots (sv_i sv')) with (nslots (sv_i sv)); [done|]. unfold nslots. f_equal. zdm.
    + intros _. destruct (Hf Er) as [[_ Hg]|[[-> Hm]|[[-> ?]|?]]]; [|left|right; left|by auto].
      * destruct Hg. apply kuio_good.
      * split; [done|]. unfold max_file in Hm. lia.
      * split; [done|]. split; [done|]. destruct (Hhole eq_refl) as (x & Hx & Hn'); [lia|].
        rewrite (slot_block k x Hx) in Hn'. destruct (decide (k < nslots (sv_i sv))%nat); [|lia].
        by destruct Hn'; apply (dw_full _ _ Hw).
Qed.

(** ** Linking and unlinking *)

Lemma new_entry_name name ino :
  is_str name -> is_u32 ino -> (length name < 60)%nat ->
  exists sfd, strcpy (replicate 60 0) (name ++ [0]) = Some sfd /\
    dir_ok (SfsDir ino sfd) /\ dname (SfsDir ino sfd) = name.
Proof.
  intros Hn Hi Hl. rewrite strcpy_str by (done || rewrite length_replicate; lia).
  rewrite drop_replicate. eexists. split; [done|].
  assert (length (name ++ 0 :: replicate (60 - S (length name)) 0) = 60%nat) as Hlen
    by (rewrite length_app; simpl; rewrite length_replicate; lia).
  split.
  - split; [done|]. split; [done|]. apply Forall_app. split.
    + eapply list.Forall_impl; [exact Hn|]. by intros ? [? _].
    + apply list.Forall_cons. split; [by unfold is_byte|]. apply Forall_replicate.
      by unfold is_byte.
  - unfold dname. simpl. rewrite insert_app_r_alt by lia.
    destruct (59 - length name)%nat as [|j] eqn:Ej; simpl; [by apply cstr_str|].
    by apply cstr_str.
Qed.

Lemma has_name_put name l k d j e :
  (k <= length l)%nat -> put_entry k d l !! j = Some e -> has_name name e ->
  j = k /\ e = d \/ j <> k /\ l !! j = Some e.
Proof. intros Hk Hj _. rewrite lookup_put_entry in Hj by done. case_decide; naive_solver. Qed.

Lemma names_unique_link l k d name :
  (k <= length l)%nat -> names_unique l -> found_ok name l None -> dname d = name ->
  names_unique (put_entry k d l).
Proof.
  intros Hk Hun Hf Hd nm j1 j2 d1 d2 H1 H2 Hh1 Hh2.
  assert (forall j e, l !! j = Some e -> has_name nm d -> has_name nm e -> False) as Hno.
  { intros j e He [_ E1] [Hi E2]. apply (Hf e); [by eapply list_elem_of_lookup_2|].
    split; [done|congruence]. }
  apply (has_name_put nm) in H1 as [[-> ->]|[? H1]]; [..|done|done];
    apply (has_name_put nm) in H2 as [[-> ->]|[? H2]]; try done;
    try (by exfalso; eauto). by eapply Hun.
Qed.

Lemma names_unique_unlink l k d :
  (k <= length l)%nat -> names_unique l -> sfd_ino d = 0 -> names_unique (put_entry k d l).
Proof.
  intros Hk Hun Hd nm j1 j2 d1 d2 H1 H2 Hh1 Hh2.
  apply (has_name_put nm) in H1 as [[-> ->]|[? H1]]; [..|done|done]; [by destruct Hh1|].
  apply (has_name_put nm) in H2 as [[-> ->]|[? H2]]; [..|done|done]; [by destruct Hh2|].
  by eapply Hun.
Qed.

(** The slot a new entry goes to. *)
Definition free_slot (l : list sfs_dir) (k : nat) : Prop :=
  (k < length l)%nat /\ (exists d, l !! k = Some d /\ sfd_ino d = 0) \/
  k = length l /\ (forall d, d ∈ l -> sfd_ino d <> 0).

(** The directory maps [name] to the inode number [ino]. *)
Definition binds (l : list sfs_dir) (name : list Z) (ino : Z) : Prop :=
  exists k d, l !! k = Some d /\ has_name name d /\ sfd_ino d = ino.

Lemma binds_put l k d name ino :
  free_slot l k -> sfd_ino d <> 0 ->
  binds (put_entry k d l) name ino <-> dname d = name /\ sfd_ino d = ino \/ binds l name ino.
Proof.
  intros Hf Hd. assert (k <= length l)%nat as Hk by (destruct Hf as [[? _]|[-> _]]; lia).
  unfold binds. setoid_rewrite lookup_put_entry; [|done]. split.
  - intros (j & e & Hj & Hh & He). case_decide.
    + injection Hj as <-. left. by destruct Hh.
    + right. eauto.
  - intros [[Hn Hi]|(j & e & Hj & Hh & He)].
    + exists k, d. by rewrite decide_True.
    + exists j, e. rewrite decide_False; [done|]. intros ->.
      destruct Hf as [[_ (e' & He' & H0)]|[-> _]]; [|by apply lookup_lt_Some in Hj; lia].
      rewrite Hj in He'. injection He' as <-. by destruct Hh.
Qed.

Lemma binds_clear l k d name :
  names_unique l -> l !! k = Some d -> has_name name d -> forall name' ino,
  binds (<[k := SfsDir 0 (replicate 60 0)]> l) name' ino <-> binds l name' ino /\ name' <> name.
Proof.
  intros Hun Hk Hh name' ino. pose proof (lookup_lt_Some _ _ _ Hk) as Hlt. unfold binds. split.
  - intros (j & e & Hj & He & Hi). destruct (decide (j = k)) as [->|Hne].
    { rewrite list_lookup_insert_eq in Hj by done. injection Hj as <-. by destruct He. }
    rewrite list_lookup_insert_ne in Hj by done. split; [eauto|]. intros ->.
    by apply Hne, (Hun name j k e d).
  - intros [(j & e & Hj & He & Hi) Hne]. exists j, e. split; [|done].
    rewrite list_lookup_insert_ne; [done|]. intros ->. rewrite Hk in Hj. injection Hj as <-.
    destruct He as [_ He], Hh as [_ Hh]. congruence.
Qed.

Record link_post (sv : sfs_vnode) (name : list Z) (ino : Z) fs
    (r slot : Z) (sv' : sfs_vnode) fs' : Prop := {
  lp_step : file_step fs (sv_i sv) fs' (sv_i sv');
  lp_sv : sv_step sv sv';
  lp_dir : dir_wf fs' (sv_i sv');
  lp_unique : names_unique (dents fs' (sv_i sv'));
  lp_ok : r = 0 ->
    found_ok name (dents fs (sv_i sv)) None /\
    exists d, 0 <= slot /\ free_slot (dents fs (sv_i sv)) (Z.to_nat slot) /\ dir_ok d /\
      sfd_ino d = ino /\ dname d = name /\
      dents fs' (sv_i sv') = put_entry (Z.to_nat slot) d (dents fs (sv_i sv));
  lp_fail : r <> 0 ->
    dents fs' (sv_i sv') = dents fs (sv_i sv) /\
    (r = EEXIST /\ (exists found, found_ok name (dents fs (sv_i sv)) (Some found)) \/
     r = ENAMETOOLONG /\ (60 <= length name)%nat \/
     r = EINVAL /\ free_slot (dents fs (sv_i sv)) 1144 \/
     r = ENOSPC /\ full fs' \/ r = EIO /\ ~ reliable fs);
}.

Lemma link_unchanged sv name ino fs r slot fs' :
  fs_ok fs -> dir_wf fs (sv_i sv) -> names_unique (dents fs (sv_i sv)) -> fs_same fs fs' ->
  r <> 0 ->
  (r = EEXIST /\ (exists found, found_ok name (dents fs (sv_i sv)) (Some found)) \/
   r = ENAMETOOLONG /\ (60 <= length name)%nat \/ r = EIO /\ ~ reliable fs) ->
  link_post sv name ino fs r slot sv fs'.
Proof.
  intros Hok Hw Hun Hs Hr Hc. destruct (fs_same_dir fs fs' _ Hok Hw Hs) as (? & ? & Ed).
  destruct (fs_same_file fs fs' (sv_i sv) Hok (dw_file _ _ Hw) Hs) as (_ & _ & Hst & _).
  constructor; [done|apply sv_step_refl|done|by rewrite Ed|done|]. tauto.
Qed.

Lemma empty_slot fs sv empty :
  dir_wf fs (sv_i sv) -> empty_ok (dents fs (sv_i sv)) empty ->
  exists k, (if empty is Some slot then Some slot else sfs_dir_nentries sv) = Some (Z.of_nat k) /\
    free_slot (dents fs (sv_i sv)) k /\ (k <= nslots (sv_i sv))%nat.
Proof.
  intros Hw He. destruct empty as [slot|].
  - destruct He as (Hs & d & Hd & Hi). pose proof (lookup_lt_Some _ _ _ Hd) as Hlt.
    exists (Z.to_nat slot). rewrite Z2Nat.id by lia. split; [done|].
    split; [left; eauto|]. rewrite length_dents in Hlt. lia.
  - exists (nslots (sv_i sv)). split; [by apply (dir_nentries_wp fs)|]. split; [|lia].
    right. by rewrite length_dents.
Qed.

Lemma link_after_search sv name ino fs fs1 r slot sv' fs' :
  fs_ok fs -> dir_wf fs (sv_i sv) -> fs_same fs fs1 ->
  link_post sv name ino fs1 r slot sv' fs' -> link_post sv name ino fs r slot sv' fs'.
Proof.
  intros Hok Hw Hs [Hst Hsv Hd Hu Hk Hf].
  destruct (fs_same_dir fs fs1 _ Hok Hw Hs) as (_ & _ & Ed).
  destruct (fs_same_file fs fs1 (sv_i sv) Hok (dw_file _ _ Hw) Hs) as (_ & _ & Hst1 & _).
  rewrite Ed in Hk, Hf. constructor; [by eapply file_step_trans|done|done|done|done|].
  intros Hr. destruct (Hf Hr) as [-> Hc]. split; [done|].
  destruct (fst_hist _ _ _ _ Hst1) as [Hrel _]. tauto.
Qed.

#[local] Arguments replicate : simpl never.
#[local] Arguments strcpy : simpl never.

Lemma sfs_dir_link_wp sv name ino fs :
  fs_ok fs -> dir_wf fs (sv_i sv) -> names_unique (dents fs (sv_i sv)) ->
  is_str name -> Z.of_nat (length name) + 1 < 2 ^ 32 -> is_u32 ino ->
  exists r slot sv' fs', sfs_dir_link sv name ino fs = Some (r, slot, sv', fs') /\
    link_post sv name ino fs r slot sv' fs'.
Proof.
  intros Hok Hw Hun Hn Hlen Hino. unfold sfs_dir_link.
  destruct (sfs_dir_findname_wp sv name fs Hok Hw Hun Hn) as (r & found & empty & fs1 & -> & Hs & Hp).
  cbn [mbind option_bind]. destruct Hp as [(-> & Hf & He)|[-> Hrel]]; simpl.
  2:{ exists EIO, 0, sv, fs1. split; [done|]. apply link_unchanged; auto. }
  destruct found as [found|]; simpl.
  { exists EEXIST, 0, sv, fs1. split; [done|]. apply link_unchanged; try done. left. eauto. }
  rewrite strlen_str by (done || lia). cbn [mbind option_bind].
  rewrite u32_id by (unfold is_u32; lia). unfold SFS_NAMELEN.
  destruct (60 <? Z.of_nat (length name) + 1) eqn:El; boolify.
  { exists ENAMETOOLONG, 0, sv, fs1. split; [done|]. apply link_unchanged; try done.
    right; left. split; [done|lia]. }
  destruct (fs_same_dir fs fs1 _ Hok Hw Hs) as (Hok1 & Hw1 & Ed). rewrite <- Ed in Hf, He, Hun.
  destruct (empty_slot fs1 sv empty Hw1 He) as (k & -> & Hfree & Hk). cbn [mbind option_bind].
  destruct (new_entry_name name ino Hn Hino ltac:(lia)) as (sfd & -> & Hd & Hnm).
  cbn [mbind option_bind].
  destruct (sfs_writedir_wp sv (SfsDir ino sfd) k fs1 Hok1 Hw1 Hd Hk)
    as (r & sv' & fs' & -> & [Hst Hsv Hdw Hde Hfl]). cbn [mbind option_bind].
  exists r, (Z.of_nat k), sv', fs'. split; [done|].
  apply (link_after_search _ _ _ _ fs1); [done..|].
  constructor; [done|done|done| |intros ->|intros Hr].
  - rewrite Hde. case_decide; [|done].
    by apply (names_unique_link _ _ _ name); [rewrite length_dents|..].
  - split; [done|]. exists (SfsDir ino sfd). rewrite Nat2Z.id, Hde.
    rewrite decide_True by done. split; [lia|]. done.
  - rewrite Hde, decide_False by done. split; [done|].
    destruct (Hfl Hr) as [[-> ->]|[(? & ? & _)|?]]; tauto.
Qed.

(** [sfs_dir_unlink] empties the slot. *)
Lemma sfs_dir_unlink_wp sv slot fs :
  fs_ok fs -> dir_wf fs (sv_i sv) -> names_unique (dents fs (sv_i sv)) ->
  0 <= slot < Z.of_nat (nslots (sv_i sv)) ->
  exists r sv' fs', sfs_dir_unlink sv slot fs = Some (r, sv', fs') /\
    file_step fs (sv_i sv) fs' (sv_i sv') /\ sv_step sv sv' /\ dir_wf fs' (sv_i sv') /\
    names_unique (dents fs' (sv_i sv')) /\
    dents fs' (sv_i sv') =
      (if decide (r = 0) then <[Z.to_nat slot := SfsDir 0 (replicate 60 0)]> (dents fs (sv_i sv))
       else dents fs (sv_i sv)) /\
    (r <> 0 -> r = EIO /\ ~ reliable fs).
Proof.
  intros Hok Hw Hun Hs. destruct (dir_size _ _ Hw) as [_ Hn]. unfold sfs_dir_unlink, SFS_NOINO.
  destruct (sfs_writedir_wp sv (SfsDir 0 (replicate 60 0)) (Z.to_nat slot) fs)
    as (r & sv' & fs' & E & [Hst Hsv Hdw Hde Hfl]); [done|done| |lia|].
  { split; [by unfold is_u32|]. split; [done|]. apply Forall_replicate. by unfold is_byte. }
  rewrite Z2Nat.id in E by lia. exists r, sv', fs'. split; [done|]. split; [done|].
  split; [done|]. split; [done|]. split; [|split].
  - rewrite Hde. case_decide; [|done]. apply names_unique_unlink; [rewrite length_dents; lia|done..].
  - rewrite Hde. case_decide; [|done]. unfold put_entry. by rewrite decide_True by (rewrite length_dents; lia).
  - intros Hr. destruct (Hfl Hr) as [[_ ?]|[(_ & _ & ?)|?]]; [lia|lia|done].
Qed.
End dir.
