(* ===== verification/SfsTrunc.v ===== *)
(** * SFS: truncation ([sfs_truncate] of kern/fs/sfs/sfs_vnode.c)

    [file_cut] is what truncation does to the volume: blocks of the file become
    free, every other block keeps its bytes and its mark.  Which blocks go is the
    predicate [past] on the index of the block in the file. *)

From stdpp Require Import base option list gmap numbers.
From S2P Require Import Prelude Bitmap Uio Device SfsDisk Sfs SfsBlock SfsBmap SfsFile.

Section trunc.
Context {D : Type} `{!Device D, !DeviceLaws D}.
Implicit Types fs : sfs_fs D.

(** ** Freeing the blocks of a list *)

Definition blocks_ok fs (l : list Z) : Prop :=
  NoDup (nonzero l) /\ forall b, b ∈ nonzero l -> 0 < b < nblocks fs /\ used fs b = true.

Definition freed_blocks fs (bs : list Z) fs' : Prop :=
  fs_ok fs' /\ fs_hist fs fs' /\
  (forall b, 0 <= b -> used fs' b = used fs b && negb (bool_decide (b ∈ bs))) /\
  (forall b, blk fs' b = blk fs b).

Lemma freed_blocks_refl fs : fs_ok fs -> freed_blocks fs [] fs.
Proof.
  intros Hok. split; [done|]. split; [apply fs_hist_refl|]. split; [|done]. intros b _.
  rewrite bool_decide_false by apply not_elem_of_nil. by rewrite andb_true_r.
Qed.

Lemma freed_blocks_trans fs1 bs1 fs2 bs2 fs3 :
  freed_blocks fs1 bs1 fs2 -> freed_blocks fs2 bs2 fs3 -> freed_blocks fs1 (bs1 ++ bs2) fs3.
Proof.
  intros (_ & H1 & U1 & B1) (? & H2 & U2 & B2). split; [done|].
  split; [by eapply fs_hist_trans|]. split; [|congruence]. intros b Hb. rewrite U2, U1 by done.
  rewrite (bool_decide_ext (b ∈ bs1 ++ bs2) (b ∈ bs1 \/ b ∈ bs2)) by apply elem_of_app.
  rewrite bool_decide_or, negb_orb. by rewrite andb_assoc.
Qed.

Lemma nonzero_cut l k b :
  l !! k = Some b -> b <> 0 -> nonzero l ≡ₚ b :: nonzero (<[k := 0]> l).
Proof.
  intros Hk Hb. pose proof (lookup_lt_Some _ _ _ Hk).
  rewrite <- (nonzero_insert (<[k := 0]> l) k b); [|by rewrite list_lookup_insert_eq|done].
  by rewrite list_insert_insert_eq, list_insert_id.
Qed.

Lemma free_step fs l k b :
  fs_ok fs -> blocks_ok fs l -> l !! k = Some b -> b <> 0 ->
  exists fs', sfs_bfree b fs = Some fs' /\ freed_blocks fs [b] fs' /\
    blocks_ok fs' (<[k := 0]> l) /\ nonzero l ≡ₚ b :: nonzero (<[k := 0]> l).
Proof.
  intros Hok [Hnd Hb] Hk Hb0. pose proof (nonzero_cut l k b Hk Hb0) as Hp.
  rewrite Hp in Hnd. apply list.NoDup_cons in Hnd as [Hni Hnd].
  destruct (Hb b) as [Hr Hu]; [rewrite Hp; by left|].
  destruct (sfs_bfree_wp b fs Hok Hr Hu) as (fs' & E & Hok' & Hh & Hus & Hblk).
  exists fs'. split; [done|]. split; [|split; [split; [done|]|done]].
  - split; [done|]. split; [done|]. split; [|done]. intros b' Hb'. rewrite Hus by done.
    rewrite (bool_decide_ext (b' ∈ [b]) (b' = b)) by apply list_elem_of_singleton.
    rewrite andb_comm. f_equal. f_equal. destruct (Z.eqb_spec b' b); by case_bool_decide.
  - intros b' Hb'. rewrite (fs_hist_nblocks _ _ Hh).
    destruct (Hb b') as [? Hu']; [rewrite Hp; by right|]. split; [done|].
    rewrite Hus, Hu', andb_true_r by lia. apply negb_true_iff, Z.eqb_neq. by intros ->.
Qed.

(** The list with the entries of the indices that satisfy [p] set to 0. *)
Definition is_cut (p : nat -> Prop) `{forall k, Decision (p k)} (l l' : list Z) : Prop :=
  length l' = length l /\
  forall k b, l !! k = Some b -> l' !! k = Some (if decide (p k) then 0 else b).

(** ** The direct blocks *)

Definition direct_past (i : nat) (blocklen : Z) (k : nat) : Prop :=
  (i <= k)%nat /\ blocklen <= Z.of_nat k.
#[global] Instance direct_past_dec i bl k : Decision (direct_past i bl k).
Proof. unfold direct_past. apply _. Defined.

Lemma truncate_direct_wp n i bl sv fs :
  (i + n = 15)%nat -> length (sfi_direct (sv_i sv)) = 15%nat -> fs_ok fs ->
  blocks_ok fs (sfi_direct (sv_i sv)) ->
  exists l dirty fs' bs,
    truncate_direct n (Z.of_nat i) bl sv fs =
      Some (set_inode (set_direct l (sv_i sv)) dirty sv, fs') /\
    freed_blocks fs bs fs' /\ is_cut (direct_past i bl) (sfi_direct (sv_i sv)) l /\
    nonzero (sfi_direct (sv_i sv)) ≡ₚ bs ++ nonzero l /\
    sv_step sv (set_inode (set_direct l (sv_i sv)) dirty sv).
Proof.
  revert i sv fs. induction n as [|n IH]; intros i sv fs Hin Hl Hok Hb.
  { exists (sfi_direct (sv_i sv)), (sv_dirty sv), fs, [].
    split; [by destruct sv as [? [] ? ?]|]. split; [by apply freed_blocks_refl|].
    split; [|split; [done|]; by destruct sv as [? [] ? ?]]. split; [done|]. intros k b Hk. rewrite decide_False; [done|]. intros [? _].
    apply lookup_lt_Some in Hk. lia. }
  destruct (lookup_lt_is_Some_2 (sfi_direct (sv_i sv)) i) as [b Hi]; [lia|].
  cbn [truncate_direct]. rewrite Nat2Z.id, Hi. cbn [mbind option_bind].
  replace (Z.of_nat i + 1) with (Z.of_nat (S i)) by lia.
  destruct ((bl <=? Z.of_nat i) && negb (b =? 0)) eqn:Ec.
  - apply andb_true_iff in Ec as [Ec Eb]. rewrite negb_true_iff in Eb. boolify.
    destruct (free_step fs _ i b Hok Hb Hi Eb) as (fs1 & -> & Hf1 & Hb1 & Hp1).
    cbn [mbind option_bind].
    set (sv1 := set_inode (set_direct (<[i := 0]> (sfi_direct (sv_i sv))) (sv_i sv)) true sv).
    destruct (IH (S i) sv1 fs1) as (l & dirty & fs' & bs & -> & Hf & [Hlc Hc] & Hp & Hd);
      [lia|simpl; by rewrite length_insert|apply Hf1|done|].
    exists l, dirty, fs', (b :: bs). split; [done|].
    split; [by apply (freed_blocks_trans fs [b] fs1)|].
    split; [|split; [|apply (sv_step_trans _ sv1); [done|exact Hd]]].
    + simpl in Hlc. rewrite length_insert in Hlc. split; [done|]. intros k b' Hk.
      destruct (decide (k = i)) as [->|Hne].
      * rewrite (Hc i 0); [|simpl; apply list_lookup_insert_eq; lia].
        rewrite decide_False by (intros [? _]; lia). by rewrite decide_True by (split; lia).
      * rewrite (Hc k b'); [|simpl; by rewrite list_lookup_insert_ne]. f_equal.
        apply decide_ext. unfold direct_past. lia.
    + rewrite Hp1. simpl. f_equiv. exact Hp.
  - destruct (IH (S i) sv fs) as (l & dirty & fs' & bs & -> & Hf & [Hlc Hc] & Hp & Hd);
      [lia|done..|]. exists l, dirty, fs', bs. split; [done|]. split; [done|].
    split; [split; [done|]|done]. intros k b' Hk. rewrite (Hc k b' Hk).
    destruct (decide (k = i)) as [->|Hne]; [|f_equal; apply decide_ext; unfold direct_past; lia].
    rewrite decide_False by (intros [? _]; lia). rewrite Hi in Hk. injection Hk as <-.
    case_decide as Hdp; [|done]. destruct Hdp as [_ Hdp].
    rewrite (proj2 (Z.leb_le _ _)) in Ec by done. simpl in Ec.
    by apply negb_false_iff, Z.eqb_eq in Ec as ->.
Qed.

(** ** The indirect block *)

Definition ind_past (j : nat) (blocklen : Z) (k : nat) : Prop :=
  (j <= k)%nat /\ blocklen < 15 + Z.of_nat k.
#[global] Instance ind_past_dec j bl k : Decision (ind_past j bl k).
Proof. unfold ind_past. apply _. Defined.

Lemma nonzero_drop l j b :
  l !! j = Some b -> nonzero (drop j l) = (if b =? 0 then [] else [b]) ++ nonzero (drop (S j) l).
Proof.
  intros Hj. rewrite (drop_S _ _ _ Hj). unfold nonzero. rewrite filter_cons.
  destruct (Z.eqb_spec b 0); by case_decide.
Qed.

Record cut_indirect (j : nat) (bl : Z) (l : list Z) (hasnonzero iddirty : bool) fs
    (l' : list Z) (h d : bool) fs' (bs : list Z) : Prop := {
  ci_freed : freed_blocks fs bs fs';
  ci_cut : is_cut (ind_past j bl) l l';
  ci_perm : nonzero l ≡ₚ bs ++ nonzero l';
  ci_has : h = hasnonzero || negb (bool_decide (nonzero (drop j l') = []));
  ci_dirty : d = false -> iddirty = false /\ fs' = fs /\ l' = l;
}.

Lemma truncate_indirect_wp n j bl l hasnonzero iddirty fs :
  (j + n = 128)%nat -> length l = 128%nat -> fs_ok fs -> blocks_ok fs l ->
  exists l' h d fs' bs,
    truncate_indirect n (Z.of_nat j) bl 15 l hasnonzero iddirty fs = Some (l', h, d, fs') /\
    cut_indirect j bl l hasnonzero iddirty fs l' h d fs' bs.
Proof.
  revert j l hasnonzero iddirty fs.
  induction n as [|n IH]; intros j l hasnonzero iddirty fs Hj Hl Hok Hb.
  { exists l, hasnonzero, iddirty, fs, []. split; [done|]. constructor; [by apply freed_blocks_refl| |done| |done].
    - split; [done|]. intros k b Hk. rewrite decide_False; [done|]. intros [? _].
      apply lookup_lt_Some in Hk. lia.
    - rewrite drop_ge by lia. by rewrite orb_false_r. }
  destruct (lookup_lt_is_Some_2 l j) as [b Hi]; [lia|].
  cbn [truncate_indirect]. rewrite Nat2Z.id, Hi. cbn [mbind option_bind].
  replace (Z.of_nat j + 1) with (Z.of_nat (S j)) by lia.
  destruct ((bl <? 15 + Z.of_nat j) && negb (b =? 0)) eqn:Ec.
  - apply andb_true_iff in Ec as [Ec Eb]. rewrite negb_true_iff in Eb. boolify.
    destruct (free_step fs _ j b Hok Hb Hi Eb) as (fs1 & -> & Hf1 & Hb1 & Hp1).
    cbn [mbind option_bind].
    destruct (IH (S j) (<[j := 0]> l) hasnonzero true fs1)
      as (l' & h & d & fs' & bs & -> & [Hf [Hlc Hc] Hp Hh Hd]);
      [lia|by rewrite length_insert|apply Hf1|done|].
    exists l', h, d, fs', (b :: bs). split; [done|]. rewrite length_insert in Hlc.
    assert (l' !! j = Some 0) as Hj0.
    { rewrite (Hc j 0); [by case_decide|]. apply list_lookup_insert_eq. lia. }
    constructor; [by apply (freed_blocks_trans fs [b] fs1)| | | |].
    + split; [done|]. intros k b' Hk. destruct (decide (k = j)) as [->|Hne].
      * rewrite Hj0. by rewrite decide_True by (split; lia).
      * rewrite (Hc k b'); [|by rewrite list_lookup_insert_ne]. f_equal.
        apply decide_ext. unfold ind_past. lia.
    + rewrite Hp1. simpl. f_equiv. exact Hp.
    + rewrite Hh, (nonzero_drop l' j 0) by done. done.
    + intros Hd0. by destruct (Hd Hd0).
  - destruct (IH (S j) l (hasnonzero || negb (b =? 0)) iddirty fs)
      as (l' & h & d & fs' & bs & -> & [Hf [Hlc Hc] Hp Hh Hd]); [lia|done..|].
    exists l', h, d, fs', bs. split; [done|].
    assert (l' !! j = Some b) as Hjb.
    { rewrite (Hc j b Hi). by rewrite decide_False by (intros [? _]; lia). }
    constructor; [done| |done| |done].
    + split; [done|]. intros k b' Hk. rewrite (Hc k b' Hk).
      destruct (decide (k = j)) as [->|Hne]; [|f_equal; apply decide_ext; unfold ind_past; lia].
      rewrite decide_False by (intros [? _]; lia). rewrite Hi in Hk. injection Hk as <-.
      case_decide as Hdp; [|done]. destruct Hdp as [_ Hdp].
      rewrite (proj2 (Z.ltb_lt _ _)) in Ec by done. simpl in Ec.
      by apply negb_false_iff, Z.eqb_eq in Ec as ->.
    + rewrite Hh, (nonzero_drop l' j b) by done. rewrite <- orb_assoc. f_equal.
      by destruct (b =? 0).
Qed.

(** ** The whole file *)

(** The indices of the blocks that truncation to [blocklen] blocks discards. *)
Definition past (blocklen : Z) (k : nat) : Prop :=
  ((k < 15)%nat /\ blocklen <= Z.of_nat k) \/ ((15 <= k)%nat /\ blocklen < Z.of_nat k).
#[global] Instance past_dec bl k : Decision (past bl k).
Proof. unfold past. apply _. Defined.

Record file_cut fs (i : sfs_inode) fs' (i' : sfs_inode) : Prop := {
  fc_ok : fs_ok fs';
  fc_wf : file_wf fs' i';
  fc_hist : fs_hist fs fs';
  fc_meta : same_meta i i';
  fc_sub : forall b, b ∈ file_blocks fs' i' -> b ∈ file_blocks fs i;
  fc_used : forall b, 0 <= b ->
    used fs' b = true <-> used fs b = true /\ (b ∈ file_blocks fs i -> b ∈ file_blocks fs' i');
  fc_blk : forall b, b ∉ file_blocks fs i -> blk fs' b = blk fs b;
}.

(** Only the indirect block may have been written. *)
Definition blk_kept fs (i : sfs_inode) fs' : Prop :=
  forall b, b <> sfi_indirect i \/ b = 0 -> blk fs' b = blk fs b.

(** The blocks [bs] of the file were freed. *)
Record cut_by fs (i : sfs_inode) (bs : list Z) fs' (i' : sfs_inode) : Prop := {
  cb_ok : fs_ok fs';
  cb_hist : fs_hist fs fs';
  cb_meta : same_meta i i';
  cb_inode : inode_ok i';
  cb_used : forall b, 0 <= b -> used fs' b = used fs b && negb (bool_decide (b ∈ bs));
  cb_kept : blk_kept fs i fs';
  cb_perm : file_blocks fs i ≡ₚ bs ++ file_blocks fs' i';
}.

Lemma cut_by_trans fs1 i1 bs1 fs2 i2 bs2 fs3 i3 :
  sfi_indirect i2 = sfi_indirect i1 ->
  cut_by fs1 i1 bs1 fs2 i2 -> cut_by fs2 i2 bs2 fs3 i3 -> cut_by fs1 i1 (bs1 ++ bs2) fs3 i3.
Proof.
  intros Ei [_ H1 M1 _ U1 K1 P1] [O2 H2 M2 I2 U2 K2 P2].
  constructor; [done|by eapply fs_hist_trans|unfold same_meta in *; intuition congruence|done|..].
  - intros b Hb. rewrite U2, U1 by done.
    rewrite (bool_decide_ext (b ∈ bs1 ++ bs2) (b ∈ bs1 \/ b ∈ bs2)) by apply elem_of_app.
    rewrite bool_decide_or, negb_orb. by rewrite andb_assoc.
  - intros b Hb. rewrite K2, K1; [done|done|by rewrite Ei].
  - by rewrite P1, P2, app_assoc.
Qed.

Lemma file_cut_intro fs i fs' i' bs : file_wf fs i -> cut_by fs i bs fs' i' -> file_cut fs i fs' i'.
Proof.
  intros (_ & Hnd & Hfb) [Hok' Hh Hm Hi Hu Hk Hp]. rewrite Hp in Hnd.
  apply list.NoDup_app in Hnd as (_ & Hdis & Hnd).
  assert (forall b, b ∈ file_blocks fs i <-> b ∈ bs \/ b ∈ file_blocks fs' i') as Hin
    by (intros b; by rewrite Hp, elem_of_app).
  constructor; [done| |done|done|..].
  - split; [done|]. split; [done|]. intros b Hb. rewrite (fs_hist_nblocks _ _ Hh).
    destruct (Hfb b) as [? Hub]; [apply Hin; auto|]. split; [done|]. rewrite Hu, Hub by lia.
    rewrite bool_decide_false; [done|]. intros Hbs. by apply (Hdis b).
  - intros b Hb. apply Hin. auto.
  - intros b Hb. rewrite Hu, andb_true_iff, negb_true_iff, bool_decide_eq_false by done.
    rewrite Hin. split; [|naive_solver]. intros [? Hn]. split; [done|]. naive_solver.
  - intros b Hb. apply Hk. destruct (decide (b = sfi_indirect i)) as [->|]; [|by left].
    right. destruct (decide (sfi_indirect i = 0)) as [|Hne]; [done|].
    destruct Hb. apply elem_of_file_blocks. auto.
Qed.

(** The blocks that stay keep their bytes. *)
Lemma cut_data fs i fs' i' bl k :
  file_wf fs i -> is_cut (past bl) (blockmap fs i) (blockmap fs' i') -> blk_kept fs i fs' ->
  ~ past bl k -> fblocks fs' i' !! k = fblocks fs i !! k.
Proof.
  intros (_ & Hnd & _) [Hl Hc] Hk Hp. unfold fblocks. rewrite !list_lookup_fmap.
  destruct (blockmap fs i !! k) as [b|] eqn:Hb.
  - rewrite (Hc k b Hb), decide_False by done. simpl. f_equal. unfold blkdata.
    destruct (b =? 0) eqn:E0; boolify; [done|]. apply Hk. left. intros Ei.
    unfold file_blocks in Hnd. apply list.NoDup_app in Hnd as (_ & Hdis & _).
    apply (Hdis b); apply elem_of_nonzero; split; [set_solver|done| |done].
    by eapply list_elem_of_lookup_2.
  - apply lookup_ge_None in Hb. by rewrite lookup_ge_None_2 by lia.
Qed.

Lemma is_cut_app l1 l1' l2 l2' bl :
  length l1 = 15%nat -> is_cut (direct_past 0 bl) l1 l1' ->
  is_cut (ind_past 0 bl) l2 l2' -> is_cut (past bl) (l1 ++ l2) (l1' ++ l2').
Proof.
  intros Hl [Hl1 Hc1] [Hl2 Hc2]. split; [rewrite !length_app; lia|]. intros k b Hk.
  apply lookup_app_Some in Hk as [Hk|[Hge Hk]].
  - pose proof (lookup_lt_Some _ _ _ Hk). rewrite (lookup_app_l_Some _ _ _ _ (Hc1 _ _ Hk)). f_equal.
    apply decide_ext. unfold past, direct_past. lia.
  - rewrite lookup_app_r by lia. rewrite Hl1, (Hc2 _ _ Hk). f_equal. apply decide_ext.
    unfold past, ind_past. lia.
Qed.

(** What a truncation does. *)
Record trunc_post (sv : sfs_vnode) (len : Z) fs (r : Z) (sv' : sfs_vnode) fs' : Prop := {
  tp_cut : file_cut fs (sv_i sv) fs' (sv_i sv');
  tp_sv : sv_step sv sv';
  tp_dirty : r = 0 -> sv_dirty sv' = true;
  tp_size : r = 0 -> sfi_size (sv_i sv') = len;
  tp_map : r = 0 ->
    is_cut (past ((len + 511) / 512)) (blockmap fs (sv_i sv)) (blockmap fs' (sv_i sv'));
  tp_data : forall k, r = 0 -> ~ past ((len + 511) / 512) k ->
    fblocks fs' (sv_i sv') !! k = fblocks fs (sv_i sv) !! k;
  tp_ind : r = 0 -> len <= 512 * 14 -> sfi_indirect (sv_i sv') = 0;
  tp_fail : r <> 0 -> r = EIO /\ ~ reliable fs /\ sfi_size (sv_i sv') = sfi_size (sv_i sv);
}.

Lemma words_ok_cut p `{forall k, Decision (p k)} n l l' :
  words_ok n l -> is_cut p l l' -> words_ok n l'.
Proof.
  intros [Hl Hu] [Hl' Hc]. split; [lia|]. apply Forall_lookup_2. intros k b Hk.
  destruct (lookup_lt_is_Some_2 l k) as [b0 Hb0]; [rewrite <- Hl'; by eapply lookup_lt_Some|].
  rewrite (Hc k b0 Hb0) in Hk. injection Hk as <-. case_decide; [by unfold is_u32|].
  by eapply (Forall_lookup_1 is_u32).
Qed.

(** After the loop over the direct blocks. *)
Lemma direct_cut fs i l fs' bs bl :
  fs_ok fs -> file_wf fs i -> freed_blocks fs bs fs' ->
  is_cut (direct_past 0 bl) (sfi_direct i) l -> nonzero (sfi_direct i) ≡ₚ bs ++ nonzero l ->
  imap fs' (set_direct l i) = imap fs i /\ cut_by fs i bs fs' (set_direct l i).
Proof.
  intros Hok (Hi & Hnd & Hfb) (Hok' & Hh & Hu & Hblk) Hc Hp.
  assert (imap fs' (set_direct l i) = imap fs i) as Em by (unfold imap; simpl; by rewrite Hblk).
  split; [done|]. constructor; [done|done|done| |done|by intros b _|].
  - apply inode_ok_direct; [done|]. eapply words_ok_cut; [|done]. apply Hi.
  - unfold file_blocks, blockmap. rewrite Em, !nonzero_app. simpl. rewrite Hp.
    rewrite !app_assoc. f_equiv. f_equiv. apply Permutation_app_comm.
Qed.

Lemma file_blocks_ok fs i :
  file_wf fs i -> blocks_ok fs (sfi_direct i) /\ blocks_ok fs (imap fs i).
Proof.
  intros (_ & Hnd & Hb). unfold file_blocks, blockmap in *. rewrite nonzero_app in *.
  apply list.NoDup_app in Hnd as (_ & _ & Hnd). apply list.NoDup_app in Hnd as (? & _ & ?).
  split; (split; [done|]); intros b ?; apply Hb; set_solver.
Qed.

(** Reading before, freeing after. *)
Lemma freed_after_read fs d bs fs' :
  fs_ok fs -> dev_same (fs_device fs) d -> freed_blocks (set_device d fs) bs fs' ->
  freed_blocks fs bs fs'.
Proof.
  intros Hok Hs (? & Hh & Hu & Hb). split; [done|].
  split; [by eapply fs_hist_trans; [apply fs_hist_same|]|]. split; [exact Hu|].
  intros b. rewrite Hb. by apply (fs_ok_same fs d).
Qed.

(** The file's blocks, with the three places they are kept in. *)
Lemma file_blocks_split fs i :
  file_blocks fs i = nonzero [sfi_indirect i] ++ nonzero (sfi_direct i) ++ nonzero (imap fs i).
Proof. unfold file_blocks, blockmap. by rewrite nonzero_app. Qed.

Lemma nonzero_one b : b <> 0 -> nonzero [b] = [b].
Proof. intros. unfold nonzero. by rewrite (filter_cons_True (fun b => b <> 0)). Qed.

(** The indirect block is left as it is, or written back with entries cut. *)
Lemma indirect_kept fs i fs' bs l' :
  file_wf fs i -> fs_ok fs' -> fs_hist fs fs' ->
  (forall b, 0 <= b -> used fs' b = used fs b && negb (bool_decide (b ∈ bs))) ->
  blk_kept fs i fs' -> imap fs' i = l' -> nonzero (imap fs i) ≡ₚ bs ++ nonzero l' ->
  cut_by fs i bs fs' i.
Proof.
  intros (? & _) ? ? ? ? Em Hp. constructor; try done. rewrite !file_blocks_split, Em, Hp.
  rewrite !(app_assoc (nonzero [_])). apply Permutation_app_swap_app.
Qed.

(** The indirect block is freed with everything in it. *)
Lemma indirect_freed fs i fs2 bs fs' :
  file_wf fs i -> sfi_indirect i <> 0 -> freed_blocks fs bs fs2 ->
  nonzero (imap fs i) ≡ₚ bs -> fs_ok fs' -> fs_hist fs2 fs' ->
  (forall b, 0 <= b -> used fs' b = negb (b =? sfi_indirect i) && used fs2 b) ->
  (forall b, blk fs' b = blk fs2 b) ->
  cut_by fs i (bs ++ [sfi_indirect i]) fs' (set_indirect 0 i).
Proof.
  intros (Hi & _) Hne (_ & Hh2 & Hu2 & Hb2) Hp Hok' Hh Hu Hb.
  constructor; [done|by eapply fs_hist_trans|done| | |by intros b _; rewrite Hb|].
  - apply inode_ok_indirect; [done|]. by unfold is_u32.
  - intros b Hb0. rewrite Hu, Hu2 by done.
    rewrite (bool_decide_ext (b ∈ bs ++ [sfi_indirect i]) (b ∈ bs \/ b = sfi_indirect i))
      by (rewrite elem_of_app, list_elem_of_singleton; done).
    rewrite bool_decide_or, negb_orb, andb_comm, andb_assoc. do 2 f_equal.
    destruct (Z.eqb_spec b (sfi_indirect i)); by case_bool_decide.
  - rewrite !file_blocks_split, (nonzero_one (sfi_indirect i)) by done.
    change (imap fs' (set_indirect 0 i)) with zeroids. unfold zeroids. rewrite nonzero_zeros, Hp.
    simpl. rewrite app_nil_r, <- app_assoc. simpl. rewrite <- Permutation_middle. f_equiv.
    apply Permutation_app_comm.
Qed.

Record ind_post (bl : Z) (sv : sfs_vnode) fs (r : Z) (sv' : sfs_vnode) fs' (bs : list Z) : Prop := {
  np_cut : cut_by fs (sv_i sv) bs fs' (sv_i sv');
  np_sv : sv_step sv sv' /\ sfi_direct (sv_i sv') = sfi_direct (sv_i sv) /\
          sfi_size (sv_i sv') = sfi_size (sv_i sv);
  np_map : r = 0 -> is_cut (ind_past 0 bl) (imap fs (sv_i sv)) (imap fs' (sv_i sv'));
  np_ind : r = 0 -> bl < 15 -> sfi_indirect (sv_i sv') = 0;
  np_fail : r <> 0 -> r = EIO /\ ~ reliable fs;
}.

Lemma all_zero l : nonzero l = [] -> forall k b, l !! k = Some b -> b = 0.
Proof.
  intros Hz k b Hk. destruct (decide (b = 0)) as [|Hb]; [done|].
  assert (b ∈ nonzero l) as Hin by (apply elem_of_nonzero; split; [by eapply list_elem_of_lookup_2|done]).
  rewrite Hz in Hin. by apply not_elem_of_nil in Hin.
Qed.

Lemma ind_part_skipped bl sv fs :
  fs_ok fs -> file_wf fs (sv_i sv) -> 142 <= bl \/ sfi_indirect (sv_i sv) = 0 ->
  ind_post bl sv fs 0 sv fs [].
Proof.
  intros Hok Hwf Hc. pose proof (freed_blocks_refl fs Hok) as (_ & _ & Hu & _).
  constructor; [|done| |intros _ ?; destruct Hc; [lia|done]|done].
  - by apply (indirect_kept _ _ _ [] (imap fs (sv_i sv))).
  - intros _. split; [done|]. intros k b Hk. case_decide as Hp; [|done]. destruct Hp as [_ Hp].
    destruct (length_imap fs _ Hok Hwf) as [Hl _]. pose proof (lookup_lt_Some _ _ _ Hk).
    destruct Hc as [?|Hc]; [lia|]. rewrite Hk. f_equal. unfold imap in Hk. rewrite Hc in Hk.
    simpl in Hk. apply (all_zero zeroids) in Hk; [done|]. apply nonzero_zeros.
Qed.

(** Freeing the whole indirect block. *)
Lemma ind_part_freed bl sv fs fs2 bs l' :
  fs_ok fs -> file_wf fs (sv_i sv) -> sfi_indirect (sv_i sv) <> 0 -> freed_blocks fs bs fs2 ->
  is_cut (ind_past 0 bl) (imap fs (sv_i sv)) l' -> nonzero (imap fs (sv_i sv)) ≡ₚ bs ++ nonzero l' ->
  nonzero l' = [] ->
  exists fs', sfs_bfree (sfi_indirect (sv_i sv)) fs2 = Some fs' /\
    ind_post bl sv fs 0 (set_inode (set_indirect 0 (sv_i sv)) true sv) fs'
      (bs ++ [sfi_indirect (sv_i sv)]).
Proof.
  intros Hok Hwf Hne Hf [Hlc Hc] Hp Hz. rewrite Hz, app_nil_r in Hp.
  pose proof Hf as (Hok2 & Hh2 & Hu2 & _). destruct (file_indirect fs _ Hok Hwf Hne) as [Hir Hiu].
  destruct (sfs_bfree_wp (sfi_indirect (sv_i sv)) fs2 Hok2) as (fs' & -> & Hok' & Hh' & Hu' & Hb').
  { by rewrite (fs_hist_nblocks _ _ Hh2). }
  { rewrite Hu2, Hiu by lia. rewrite bool_decide_false; [done|]. intros Hin.
    pose proof Hwf as (_ & Hnd & _). rewrite file_blocks_split, nonzero_one in Hnd by done.
    apply list.NoDup_app in Hnd as (_ & Hdis & _). apply (Hdis (sfi_indirect (sv_i sv))); [set_solver|].
    rewrite Hp. set_solver. }
  exists fs'. split; [done|]. constructor; [|by split| |done|by intros []].
  { exact (indirect_freed fs (sv_i sv) fs2 bs fs' Hwf Hne Hf Hp Hok' Hh' Hu' Hb'). }
  intros _. change (imap fs' _) with zeroids. destruct (length_imap fs _ Hok Hwf) as [Hl _].
  split; [by rewrite Hl|]. intros k b Hk.
  rewrite (all_zero l' Hz k (if decide (ind_past 0 bl k) then 0 else b)) by by apply Hc.
  pose proof (lookup_lt_Some _ _ _ Hk). unfold zeroids. apply (lookup_replicate 128). lia.
Qed.

(** Writing the indirect block back. *)
Lemma ind_part_written bl sv fs fs2 bs l' :
  fs_ok fs -> file_wf fs (sv_i sv) -> sfi_indirect (sv_i sv) <> 0 -> freed_blocks fs bs fs2 ->
  is_cut (ind_past 0 bl) (imap fs (sv_i sv)) l' -> nonzero (imap fs (sv_i sv)) ≡ₚ bs ++ nonzero l' ->
  15 <= bl ->
  exists fs', sfs_wblock (enc_words l') (sfi_indirect (sv_i sv)) fs2 = Some (0, fs') /\
    ind_post bl sv fs 0 sv fs' bs.
Proof.
  intros Hok Hwf Hne (Hok2 & Hh2 & Hu2 & Hb2) Hc Hp Hbl.
  destruct (file_indirect fs _ Hok Hwf Hne) as [Hir _].
  pose proof (words_ok_cut _ 128 _ _ (length_imap fs _ Hok Hwf) Hc) as Hw.
  destruct (sfs_wblock_wp (enc_words l') (sfi_indirect (sv_i sv)) fs2) as (d' & -> & Hup).
  { apply Hok2. } { by apply (enc_words_bytes 128). }
  { destruct Hok2 as (_ & _ & ? & _). rewrite (fs_hist_nblocks _ _ Hh2) in *. lia. }
  destruct (fs_ok_upd _ _ _ _ Hok2 Hup) as [Hok' Hb']. exists (set_device d' fs2). split; [done|].
  assert (imap (set_device d' fs2) (sv_i sv) = l') as Em.
  { unfold imap. rewrite (proj2 (Z.eqb_neq _ _)), Hb', decide_True by done.
    rewrite <- (app_nil_r (enc_words _)). by apply dec_enc_words. }
  constructor; [|done|by rewrite Em|lia|done].
  apply (indirect_kept _ _ _ bs l'); [done|done| |exact Hu2| |done|done].
  - eapply fs_hist_trans; [done|]. by eapply fs_hist_upd.
  - intros b Hb. rewrite Hb'. rewrite decide_False; [apply Hb2|]. intros ->. tauto.
Qed.

(** Nothing of the indirect block is left when all of it is past the limit. *)
Lemma all_past bl l l' : is_cut (ind_past 0 bl) l l' -> bl < 15 -> nonzero l' = [].
Proof.
  intros [Hl Hc] Hbl. destruct (nonzero l') as [|b bs] eqn:E; [done|exfalso].
  assert (b ∈ nonzero l') as [Hin Hb]%elem_of_nonzero by (rewrite E; by left).
  apply list_elem_of_lookup_1 in Hin as [k Hk].
  destruct (lookup_lt_is_Some_2 l k) as [b0 Hb0]; [rewrite <- Hl; by eapply lookup_lt_Some|].
  rewrite (Hc k b0 Hb0), decide_True in Hk by (unfold ind_past; lia). congruence.
Qed.

Lemma ind_part_wp bl sv fs :
  fs_ok fs -> file_wf fs (sv_i sv) ->
  exists r sv' fs' bs, truncate_ind_part bl sv fs = Some (r, sv', fs') /\
    ind_post bl sv fs r sv' fs' bs.
Proof.
  intros Hok Hwf. unfold truncate_ind_part.
  change (SFS_NDIRECT + SFS_DBPERIDB - 1) with 142. change SFS_NDIRECT with 15.
  destruct ((bl <? 142) && negb (sfi_indirect (sv_i sv) =? 0)) eqn:Ec.
  2:{ exists 0, sv, fs, []. split; [done|]. apply ind_part_skipped; [done|done|].
      apply andb_false_iff in Ec as [Ec|Ec]; [left|right; apply negb_false_iff in Ec]; by boolify. }
  apply andb_true_iff in Ec as [_ Hne]. rewrite negb_true_iff in Hne. boolify.
  destruct (file_indirect fs _ Hok Hwf Hne) as [Hir _].
  destruct (sfs_rblock_wp zeroblock (sfi_indirect (sv_i sv)) fs) as (r & bytes & d & -> & Hs & Hby & Hf).
  { apply Hok. } { apply zeroblock_bytes. } { destruct Hok as (_ & _ & ? & _). lia. }
  cbn [mbind option_bind]. destruct (fs_ok_same fs d Hok Hs) as [Hok1 Hb1].
  destruct (r =? 0) eqn:Er; boolify; simpl negb.
  2:{ exists r, sv, (set_device d fs), []. split; [done|]. constructor; [|done|done|done|auto].
      apply (indirect_kept _ _ _ [] (imap fs (sv_i sv)));
        [done|done|by apply fs_hist_same|by destruct (freed_blocks_refl fs Hok) as (_ & _ & ? & _)|by intros b _| |done].
      unfold imap. by rewrite Hb1. }
  rewrite (Hby Er). replace (dec_words 128 (dev_data _ _)) with (imap fs (sv_i sv)).
  2:{ unfold imap. by rewrite (proj2 (Z.eqb_neq _ _)). }
  destruct (file_blocks_ok fs (sv_i sv) Hwf) as [_ Hbi].
  destruct (truncate_indirect_wp 128 0 bl (imap fs (sv_i sv)) false false (set_device d fs))
    as (l' & h & dt & fs2 & bs & E & [Hfr Hc Hp Hh Hd]);
    [done|by destruct (length_imap fs _ Hok Hwf)|done|exact Hbi|].
  change (Z.of_nat 0) with 0 in E. rewrite E. clear E. cbn [mbind option_bind].
  pose proof (freed_after_read fs d bs fs2 Hok Hs Hfr) as Hfr2.
  rewrite drop_0 in Hh. simpl in Hh. destruct h; simpl negb; symmetry in Hh.
  - assert (15 <= bl) as Hbl.
    { destruct (decide (bl < 15)) as [Hlt|]; [|lia].
      by rewrite (all_past _ _ _ Hc Hlt) in Hh. }
    destruct dt.
    + destruct (ind_part_written bl sv fs fs2 bs l') as (fs' & -> & Hpost); [done..|].
      exists 0, sv, fs', bs. split; [done|exact Hpost].
    + destruct (Hd eq_refl) as (_ & -> & ->). exists 0, sv, (set_device d fs), bs.
      split; [done|]. pose proof Hfr2 as (_ & ? & Hu & Hb).
      assert (imap (set_device d fs) (sv_i sv) = imap fs (sv_i sv)) as Em
        by (unfold imap; by rewrite Hb).
      constructor; [|done|by rewrite Em|lia|done].
      apply (indirect_kept _ _ _ bs (imap fs (sv_i sv))); [done|done|done|exact Hu|by intros b _|done|done].
  - apply negb_false_iff, bool_decide_eq_true in Hh.
    destruct (ind_part_freed bl sv fs fs2 bs l') as (fs' & -> & Hpost); [done..|].
    eexists 0, _, fs', _. split; [done|exact Hpost].
Qed.

Lemma sfs_truncate_wp sv len fs :
  fs_ok fs -> file_wf fs (sv_i sv) -> 0 <= len -> len + 512 < 2 ^ 31 ->
  exists r sv' fs', sfs_truncate sv len fs = Some (r, sv', fs') /\ trunc_post sv len fs r sv' fs'.
Proof.
  intros Hok Hwf Hl Hl2. unfold sfs_truncate, SFS_BLOCKSIZE.
  rewrite (s32_id (len + 512)), (s32_id (len + 512 - 1)) by (unfold is_s32; lia).
  rewrite Z.quot_div_nonneg by lia. replace (len + 512 - 1) with (len + 511) by lia.
  assert (0 <= (len + 511) / 512 < 2 ^ 31) as Hbl by zdm.
  rewrite (u32_id (_ / _)) by (unfold is_u32; lia). set (bl := (len + 511) / 512) in *.
  destruct (file_blocks_ok fs (sv_i sv) Hwf) as [Hbd _]. pose proof Hwf as ((_ & _ & _ & [Hld _] & _) & _).
  destruct (truncate_direct_wp 15 0 bl sv fs) as (l & dirty & fs1 & bs1 & E & Hf & Hc & Hp & Hsv1);
    [done..|]. change (Z.of_nat 0) with 0 in E. rewrite E. cbn [mbind option_bind]. clear E.
  destruct (direct_cut fs (sv_i sv) l fs1 bs1 bl) as [Em Hcut1]; [done..|].
  set (sv1 := set_inode _ dirty sv). pose proof (file_cut_intro _ _ _ _ _ Hwf Hcut1) as Hfc1.
  destruct (ind_part_wp bl sv1 fs1) as (r & sv2 & fs2 & bs2 & -> & [Hcut2 Hsv2 Hm2 Hi2 Hf2]);
    [exact (fc_ok _ _ _ _ Hfc1)|exact (fc_wf _ _ _ _ Hfc1)|]. cbn [mbind option_bind].
  destruct Hsv2 as (Hsv2 & Ed & Es). pose proof (sv_step_trans _ _ _ Hsv1 Hsv2) as Hsv.
  pose proof (cut_by_trans fs (sv_i sv) _ _ (sv_i sv1) _ _ _ eq_refl Hcut1 Hcut2) as Hcut.
  pose proof (file_cut_intro _ _ _ _ _ Hwf Hcut) as Hfc.
  destruct (r =? 0) eqn:Er; boolify; simpl negb; cbn iota.
  2:{ exists r, sv2, fs2. split; [done|]. constructor; try done.
      intros Hr. destruct (Hf2 Hr) as [-> Hn]. split; [done|]. split; [|by rewrite Es].
      destruct (fc_hist _ _ _ _ Hfc1) as [Hrel _]. tauto. }
  subst r. specialize (Hm2 eq_refl). rewrite (u32_id len) by (unfold is_u32; lia).
  exists 0, (set_inode (set_size len (sv_i sv2)) true sv2), fs2. split; [done|].
  assert (is_cut (past bl) (blockmap fs (sv_i sv)) (blockmap fs2 (sv_i sv2))) as Hmap.
  { unfold blockmap. rewrite Ed. apply is_cut_app; [done|exact Hc|]. rewrite <- Em. exact Hm2. }
  constructor; [|by eapply sv_step_trans; [exact Hsv|apply sv_step_inode]|done|done|intros _; exact Hmap| |intros _ ?; apply Hi2; [done|unfold bl; zdm]|done].
  - destruct Hfc as [O W Hh M Sb U B]. constructor; [exact O| |exact Hh|exact M|exact Sb|exact U|exact B].
    destruct W as (Wi & Wn & Wb). split; [apply inode_ok_size; [done|unfold is_u32; lia]|].
    split; [exact Wn|exact Wb].
  - intros k _ Hk. exact (cut_data fs (sv_i sv) fs2 _ bl k Hwf Hmap (cb_kept _ _ _ _ _ Hcut) Hk).
Qed.

Lemma concat_agree (L L' : list (list Z)) (k m : nat) :
  all_of_size 512 L -> length L' = length L -> (forall j, (j < k)%nat -> L' !! j = L !! j) ->
  (m <= k * 512)%nat -> take m (concat L') = take m (concat L).
Proof.
  intros HL Hl Ha Hm. assert (take k L' = take k L) as Et.
  { apply list_eq. intros j. destruct (decide (j < k)%nat).
    - by rewrite !lookup_take_lt, Ha.
    - by rewrite !lookup_take_ge by lia. }
  destruct (decide (length L <= k)%nat).
  { rewrite !take_ge in Et by lia. by rewrite Et. }
  rewrite <- (take_drop k L'), <- (take_drop k L), !concat_app, Et.
  rewrite !take_app_le; [done|rewrite (length_concat_take 512) by (done || lia); lia..].
Qed.

Lemma no_blocks fs i :
  sfi_indirect i = 0 -> (forall k b, blockmap fs i !! k = Some b -> b = 0) -> file_blocks fs i = [].
Proof.
  intros Hi Hz. destruct (file_blocks fs i) as [|b l] eqn:E; [done|exfalso].
  assert (b ∈ file_blocks fs i) as Hin by (rewrite E; by left).
  apply elem_of_file_blocks in Hin as [Hb [?|Hin]]; [lia|].
  apply list_elem_of_lookup_1 in Hin as [k Hk]. by apply Hb, (Hz k).
Qed.

(** What a successful truncation leaves. *)
Lemma trunc_bytes sv len fs r sv' fs' :
  fs_ok fs -> file_wf fs (sv_i sv) -> 0 <= len -> trunc_post sv len fs r sv' fs' -> r = 0 ->
  take (Z.to_nat len) (fbytes fs' (sv_i sv')) = take (Z.to_nat len) (fbytes fs (sv_i sv)).
Proof.
  intros Hok Hwf Hl [Hc _ _ _ _ Hd _ _] Hr.
  unfold fbytes. apply (concat_agree _ _ (Z.to_nat ((len + 511) / 512))).
  - by apply fblocks_size.
  - rewrite !length_fblocks; [done|done..|exact (fc_ok _ _ _ _ Hc)|exact (fc_wf _ _ _ _ Hc)].
  - intros j Hj. apply Hd; [done|]. unfold past. lia.
  - assert (len <= (len + 511) / 512 * 512) by zdm. lia.
Qed.

Lemma trunc_to_zero sv fs r sv' fs' :
  trunc_post sv 0 fs r sv' fs' -> r = 0 -> file_blocks fs' (sv_i sv') = [].
Proof.
  intros [_ _ _ _ Hm _ Hi _] Hr. apply no_blocks; [apply Hi; [done|lia]|]. intros k b Hk.
  destruct (Hm Hr) as [Hlm Hcm].
  destruct (lookup_lt_is_Some_2 (blockmap fs (sv_i sv)) k) as [b0 Hb0].
  { rewrite <- Hlm. by eapply lookup_lt_Some. }
  rewrite (Hcm k b0 Hb0), decide_True in Hk; [congruence|].
  change ((0 + 511) / 512) with 0. unfold past. lia.
Qed.
End trunc.
