(* ===== verification/SfsVol.v ===== *)
(** * The files of a volume together

    [vol_wf] says that the files of a volume, given by their inodes [I], keep out of
    each other's way: no block belongs to two files, and none to a file that holds
    an inode, the superblock or the free map.  An operation on one file, whether it
    grows or shrinks, is a [file_upd], and leaves the rest of the volume as it was. *)

From stdpp Require Import base option list gmap numbers.
From S2P Require Import Prelude Bitmap Uio Device SfsDisk Sfs.
From S2P Require Import SfsBlock SfsBmap SfsFile SfsDir SfsTrunc.

Section vol.
Context {D : Type} `{!Device D, !DeviceLaws D}.
Implicit Types fs : sfs_fs D.

(** Two files share no block. *)
Definition apart fs (i j : sfs_inode) : Prop :=
  forall b, b ∈ file_blocks fs i -> b ∉ file_blocks fs j.

(** The file [j] is as it was. *)
Definition untouched fs fs' (j : sfs_inode) : Prop :=
  file_wf fs' j /\ fbytes fs' j = fbytes fs j /\ blockmap fs' j = blockmap fs j.

Lemma untouched_file_blocks fs fs' j : untouched fs fs' j -> file_blocks fs' j = file_blocks fs j.
Proof. intros (_ & _ & E). unfold file_blocks. by rewrite E. Qed.

(** The blocks of the other files, and all others in use, are left alone. *)
Record file_upd fs (i : sfs_inode) fs' (i' : sfs_inode) : Prop := {
  fu_ok : fs_ok fs';
  fu_wf : file_wf fs' i';
  fu_hist : fs_hist fs fs';
  fu_others : forall b, 0 <= b -> used fs b = true -> b ∉ file_blocks fs i ->
    used fs' b = true /\ (b ∉ file_blocks fs' i') /\ blk fs' b = blk fs b;
}.

Lemma file_step_upd fs i fs' i' : file_step fs i fs' i' -> file_upd fs i fs' i'.
Proof. intros []. by constructor. Qed.

Lemma file_cut_upd fs i fs' i' : file_cut fs i fs' i' -> file_upd fs i fs' i'.
Proof.
  intros [O W Hh M S U B]. constructor; [done..|]. intros b Hb Hu Hn.
  split; [by apply U|]. split; [|by apply B]. intros Hin. by apply Hn, S.
Qed.

Lemma untouched_blocks fs fs' j :
  file_wf fs j -> nblocks fs' = nblocks fs ->
  (forall b, b ∈ file_blocks fs j -> used fs' b = true /\ blk fs' b = blk fs b) ->
  untouched fs fs' j.
Proof.
  intros (Hi & Hnd & Hb) Hn Hs.
  assert (blockmap fs' j = blockmap fs j) as Em.
  { apply blockmap_ext. intros Hne. apply Hs, elem_of_file_blocks. auto. }
  assert (file_blocks fs' j = file_blocks fs j) as Ef by (unfold file_blocks; by rewrite Em).
  split; [|split; [|done]].
  - split; [done|]. rewrite Ef, Hn. split; [done|]. intros b Hin.
    destruct (Hb b Hin), (Hs b Hin). done.
  - unfold fbytes, fblocks. rewrite Em. f_equal. apply list_fmap_ext. intros k b Hk. unfold blkdata.
    destruct (b =? 0) eqn:E; boolify; [done|]. apply Hs, elem_of_file_blocks.
    split; [done|]. right. by eapply list_elem_of_lookup_2.
Qed.

Lemma untouched_refl fs j : file_wf fs j -> untouched fs fs j.
Proof. by split. Qed.

Lemma untouched_trans fs1 fs2 fs3 j :
  untouched fs1 fs2 j -> untouched fs2 fs3 j -> untouched fs1 fs3 j.
Proof. intros (_ & E1 & F1) (? & E2 & F2). split; [done|]. split; congruence. Qed.

Lemma file_upd_other fs i fs' i' j :
  file_upd fs i fs' i' -> file_wf fs j -> apart fs i j -> untouched fs fs' j /\ apart fs' i' j.
Proof.
  intros Hst Hj Ha. pose proof Hj as (_ & _ & Hb).
  assert (forall b, b ∈ file_blocks fs j ->
    used fs' b = true /\ (b ∉ file_blocks fs' i') /\ blk fs' b = blk fs b) as Ho.
  { intros b Hin. destruct (Hb b Hin) as [Hr Hu].
    apply (fu_others _ _ _ _ Hst); [lia|done|]. intros Hi. by apply (Ha b). }
  assert (untouched fs fs' j) as Hun.
  { apply untouched_blocks; [done|apply fs_hist_nblocks; exact (fu_hist _ _ _ _ Hst)|].
    intros b Hin. by destruct (Ho b Hin) as (? & _ & ?). }
  split; [done|]. intros b Hi. rewrite (untouched_file_blocks _ _ _ Hun). intros Hin.
  by destruct (Ho b Hin) as (_ & ? & _).
Qed.

(** ** The volume *)

(** The superblock and the free map. *)
Definition reserved fs (b : Z) : Prop :=
  b = SFS_SB_LOCATION \/ SFS_MAP_LOCATION <= b < SFS_MAP_LOCATION + SFS_BITBLOCKS (nblocks fs).

(** The blocks that do not hold data of a file. *)
Definition meta fs (I : gmap Z sfs_inode) (b : Z) : Prop := reserved fs b \/ is_Some (I !! b).

Record vol_wf fs (I : gmap Z sfs_inode) : Prop := {
  vw_ok : fs_ok fs;
  vw_meta : forall b, meta fs I b -> 0 <= b < nblocks fs /\ used fs b = true;
  vw_ino : forall ino, is_Some (I !! ino) -> ~ reserved fs ino;
  vw_file : forall ino i, I !! ino = Some i -> file_wf fs i /\ sfi_size i < 2 ^ 31;
  vw_own : forall ino i b, I !! ino = Some i -> b ∈ file_blocks fs i -> ~ meta fs I b;
  vw_apart : forall ino1 i1 ino2 i2,
    I !! ino1 = Some i1 -> I !! ino2 = Some i2 -> ino1 <> ino2 -> apart fs i1 i2;
}.

(** All but the file [ino] is as it was: the other files, and the blocks that
    hold the inodes, the superblock and the free map. *)
Record rest_same fs (I : gmap Z sfs_inode) (ino : Z) fs' : Prop := {
  rs_meta : forall b, meta fs I b -> blk fs' b = blk fs b;
  rs_file : forall ino' i', I !! ino' = Some i' -> ino' <> ino -> untouched fs fs' i';
}.

Lemma reserved_same fs fs' b : nblocks fs' = nblocks fs -> reserved fs' b <-> reserved fs b.
Proof. intros E. unfold reserved. by rewrite E. Qed.

Lemma reserved_hist fs fs' b : fs_hist fs fs' -> reserved fs' b <-> reserved fs b.
Proof. intros Hh. by apply reserved_same, fs_hist_nblocks. Qed.

Lemma vol_upd fs I ino i fs' i' :
  vol_wf fs I -> I !! ino = Some i -> file_upd fs i fs' i' -> sfi_size i' < 2 ^ 31 ->
  vol_wf fs' (<[ino := i']> I) /\ rest_same fs I ino fs'.
Proof.
  intros Hv Hi Hu Hsz. destruct Hv as [Hok Hm Hr Hf Ho Ha].
  pose proof (fu_hist _ _ _ _ Hu) as Hh.
  assert (forall b, meta fs' (<[ino := i']> I) b <-> meta fs I b) as Em.
  { intros b. unfold meta. rewrite (reserved_hist _ _ _ Hh). split; intros [?|?]; auto; right.
    - destruct (decide (b = ino)) as [->|]; [by eauto|]. by rewrite lookup_insert_ne in *.
    - destruct (decide (b = ino)) as [->|]; [by rewrite lookup_insert_eq|].
      by rewrite lookup_insert_ne. }
  assert (forall b, meta fs I b -> used fs' b = true /\ (b ∉ file_blocks fs' i') /\
            blk fs' b = blk fs b) as Hmeta.
  { intros b Hb. destruct (Hm b Hb) as [? ?]. apply (fu_others _ _ _ _ Hu); [lia|done|].
    intros Hin. by apply (Ho ino i b). }
  assert (forall ino2 i2, I !! ino2 = Some i2 -> ino <> ino2 ->
            untouched fs fs' i2 /\ apart fs' i' i2) as Hoth.
  { intros ino2 i2 H2 Hne. apply (file_upd_other _ i); [done|by eapply Hf|by eapply (Ha ino)]. }
  split; [constructor|constructor].
  - exact (fu_ok _ _ _ _ Hu).
  - intros b Hb%Em. rewrite (fs_hist_nblocks _ _ Hh). split; [by apply Hm|by apply Hmeta].
  - intros b Hb. rewrite (reserved_hist _ _ _ Hh). apply Hr.
    destruct (decide (b = ino)) as [->|]; [by eauto|]. by rewrite lookup_insert_ne in Hb.
  - intros ino2 i2 [[<- <-]|[Hne H2]]%lookup_insert_Some.
    + split; [exact (fu_wf _ _ _ _ Hu)|done].
    + destruct (Hoth ino2 i2 H2 Hne) as [[? _] _]. by destruct (Hf ino2 i2 H2).
  - intros ino2 i2 b H2 Hb. rewrite Em. apply lookup_insert_Some in H2 as [[<- <-]|[Hne H2]].
    + intros Hb2. by apply Hmeta in Hb2 as (_ & ? & _).
    + destruct (Hoth ino2 i2 H2 Hne) as [E%untouched_file_blocks _]. rewrite E in Hb. by eapply Ho.
  - intros ino1 i1 ino2 i2 [[<- <-]|[Hn1 H1]]%lookup_insert_Some
      [[<- <-]|[Hn2 H2]]%lookup_insert_Some Hne; [done|by apply (Hoth ino2)|..].
    + destruct (Hoth _ _ H1 Hn1) as [_ Hap]. intros b Hb1 Hb2. by apply (Hap b).
    + destruct (Hoth _ _ H1 Hn1) as [E1%untouched_file_blocks _].
      destruct (Hoth _ _ H2 Hn2) as [E2%untouched_file_blocks _].
      unfold apart. rewrite E1, E2. by eapply Ha.
  - intros b Hb. by apply Hmeta.
  - intros ino2 i2 H2 Hne. by apply (Hoth ino2).
Qed.

(** The files of [J] stay when their blocks do. *)
Lemma vol_frame fs I J fs' :
  vol_wf fs I -> J ⊆ I -> fs_ok fs' -> nblocks fs' = nblocks fs ->
  (forall b, meta fs J b -> used fs' b = true) ->
  (forall ino i b, J !! ino = Some i -> b ∈ file_blocks fs i ->
     used fs' b = true /\ blk fs' b = blk fs b) ->
  vol_wf fs' J /\ forall ino i, J !! ino = Some i -> untouched fs fs' i.
Proof.
  intros [_ Hm Hr Hf Ho Ha] Hsub Hok Hh Hmeta Hblk.
  assert (forall ino i, J !! ino = Some i -> I !! ino = Some i) as Hin
    by (intros; by eapply lookup_weaken).
  assert (forall ino i, J !! ino = Some i -> untouched fs fs' i) as Hun.
  { intros ino i Hi. apply untouched_blocks; [by eapply Hf, Hin|done|].
    intros b Hb. by eapply Hblk. }
  assert (forall b, meta fs' J b <-> meta fs J b) as Em.
  { intros b. unfold meta. by rewrite (reserved_same _ _ _ Hh). }
  assert (forall b, meta fs J b -> meta fs I b) as HJ.
  { intros b [?|[i ?]]; [by left|right; eauto]. }
  split; [constructor|done].
  - done.
  - intros b Hb%Em. rewrite Hh. split; [by apply Hm, HJ|by apply Hmeta].
  - intros ino [i Hi]. rewrite (reserved_same _ _ _ Hh). apply Hr. eauto.
  - intros ino i Hi. split; [by eapply Hun|by eapply Hf, Hin].
  - intros ino i b Hi Hb. rewrite (untouched_file_blocks _ _ _ (Hun ino i Hi)) in Hb.
    rewrite Em. intros Hb2%HJ. revert Hb2. by eapply Ho; [apply Hin|].
  - intros ino1 i1 ino2 i2 H1 H2 Hne. unfold apart.
    rewrite (untouched_file_blocks _ _ _ (Hun _ _ H1)), (untouched_file_blocks _ _ _ (Hun _ _ H2)). by eapply Ha; eauto.
Qed.

(** Nothing that is in use is freed or written. *)
Lemma vol_kept fs I fs' :
  vol_wf fs I -> fs_ok fs' -> fs_hist fs fs' ->
  (forall b, 0 <= b < nblocks fs -> used fs b = true -> used fs' b = true /\ blk fs' b = blk fs b) ->
  vol_wf fs' I /\ forall ino, rest_same fs I ino fs'.
Proof.
  intros Hv Hok Hh Hk. destruct (vol_frame fs I I fs' Hv) as [Hv' Hun]; [done|done|by apply fs_hist_nblocks| | |].
  - intros b [? ?]%(vw_meta _ _ Hv). by apply Hk.
  - intros ino i b Hi Hb. destruct (vw_file _ _ Hv _ _ Hi) as [(_ & _ & Hf) _].
    destruct (Hf b Hb). apply Hk; [lia|done].
  - split; [done|]. constructor.
    + intros b [? ?]%(vw_meta _ _ Hv). by apply Hk.
    + intros ino' i' Hi _. by eapply Hun.
Qed.

(** Reading. *)
Lemma vol_same fs I fs' :
  vol_wf fs I -> fs_same fs fs' -> vol_wf fs' I /\ forall ino, rest_same fs I ino fs'.
Proof.
  intros Hv [Hs E]. pose proof (vw_ok _ _ Hv) as Hok. rewrite E.
  destruct (fs_ok_same fs _ Hok Hs) as [Hok' Hb].
  apply vol_kept; [done|done|by apply fs_hist_same|]. intros b _ Hu. split; [exact Hu|apply Hb].
Qed.

(** A block is allocated, and becomes the inode of a file without blocks. *)
Lemma vol_alloc fs I b fs' :
  vol_wf fs I -> fs_ok fs' -> fs_hist fs fs' -> allocated fs b fs' ->
  vol_wf fs' I /\ (forall ino, rest_same fs I ino fs') /\ I !! b = None /\
  forall i, inode_ok i -> file_blocks fs' i = [] -> sfi_size i < 2 ^ 31 ->
    vol_wf fs' (<[b := i]> I).
Proof.
  intros Hv Hok Hh (Hb & Hfree & Hu & Hblk).
  destruct (vol_kept fs I fs' Hv Hok Hh) as [Hv' Hrest].
  { intros b' Hb' Hu'. rewrite Hu, Hu', orb_true_r by lia. split; [done|].
    rewrite Hblk, decide_False; [done|]. congruence. }
  assert (~ meta fs I b) as Hnm by (intros [_ ?]%(vw_meta _ _ Hv); congruence).
  assert (I !! b = None) as Hn by (apply eq_None_not_Some; intros ?; apply Hnm; by right).
  split; [done|]. split; [done|]. split; [done|]. intros i Hi Hfb Hsz.
  destruct Hv' as [_ Hm Hr Hf Ho Ha].
  assert (forall ino' i', I !! ino' = Some i' -> b ∉ file_blocks fs' i') as Hbn.
  { intros ino' i' Hi'. rewrite (untouched_file_blocks fs) by (apply (rs_file _ _ _ _ (Hrest b) ino' i' Hi'); congruence).
    destruct (vw_file _ _ Hv _ _ Hi') as [(_ & _ & Hf') _]. intros [_ ?]%Hf'. congruence. }
  assert (forall b', meta fs' (<[b := i]> I) b' -> b' = b \/ meta fs' I b') as Hmm.
  { intros b' [?|Hs]; [by right; left|]. destruct (decide (b' = b)); [by left|].
    rewrite lookup_insert_ne in Hs by done. by right; right. }
  constructor; [done|..].
  - intros b' [->|Hb']%Hmm; [|by apply Hm]. rewrite (fs_hist_nblocks _ _ Hh). split; [lia|].
    rewrite Hu, Z.eqb_refl by lia. done.
  - intros ino Hs. destruct (decide (ino = b)) as [->|].
    + rewrite (reserved_hist _ _ _ Hh). intros ?. apply Hnm. by left.
    + rewrite lookup_insert_ne in Hs by done. by apply Hr.
  - intros ino' i' [[<- <-]|[? ?]]%lookup_insert_Some; [|by eapply Hf].
    split; [|done]. split; [done|]. rewrite Hfb. split; [apply base.NoDup_nil_2|].
    by intros ? ?%not_elem_of_nil.
  - intros ino' i' b' [[<- <-]|[? Hi']]%lookup_insert_Some Hin.
    + rewrite Hfb in Hin. by apply not_elem_of_nil in Hin.
    + intros [->|Hm']%Hmm; [by apply (Hbn ino' i')|]. by apply (Ho ino' i' b').
  - intros ino1 i1 ino2 i2 [[<- <-]|[? H1]]%lookup_insert_Some [[<- <-]|[? H2]]%lookup_insert_Some Hne;
      [done|..|by eapply Ha]; intros b' Hb1 Hb2; rewrite Hfb in *; by eapply not_elem_of_nil.
Qed.

(** A file without blocks is deleted, and its inode freed. *)
Lemma vol_free fs I ino i fs' :
  vol_wf fs I -> I !! ino = Some i -> fs_ok fs' -> fs_hist fs fs' ->
  (forall b', 0 <= b' -> used fs' b' = negb (b' =? ino) && used fs b') ->
  (forall b', blk fs' b' = blk fs b') ->
  vol_wf fs' (delete ino I) /\ forall ino' i', I !! ino' = Some i' -> ino' <> ino -> untouched fs fs' i'.
Proof.
  intros Hv Hi Hok Hh Hu Hb. destruct (vol_frame fs I (delete ino I) fs' Hv) as [Hv' Hun];
    [apply delete_subseteq|done|by apply fs_hist_nblocks|..].
  - intros b Hm. assert (b <> ino /\ meta fs I b) as [Hne Hm'].
    { destruct Hm as [Hr|[i' [? Hi']%lookup_delete_Some]]; [|by split; [|right; eauto]].
      split; [|by left]. intros ->. apply (vw_ino _ _ Hv ino); eauto. }
    destruct (vw_meta _ _ Hv b Hm') as [? ?]. rewrite Hu by lia.
    by rewrite (proj2 (Z.eqb_neq _ _)).
  - intros ino' i' b [? Hi']%lookup_delete_Some Hin.
    destruct (vw_file _ _ Hv _ _ Hi') as [(_ & _ & Hf) _]. destruct (Hf b Hin) as [? Hub].
    split; [|done]. rewrite Hu, Hub, andb_true_r by lia. apply negb_true_iff, Z.eqb_neq.
    intros ->. apply (vw_own _ _ Hv ino' i' ino); [done|done|]. right; eauto.
  - split; [done|]. intros ino' i' Hi' Hne. apply (Hun ino'). by rewrite lookup_delete_ne.
Qed.

(** A block that holds no file's data is written. *)
Lemma vol_write fs I b bs d' :
  vol_wf fs I -> meta fs I b -> dev_upd (fs_device fs) b bs d' ->
  vol_wf (set_device d' fs) I /\
  (forall ino i, I !! ino = Some i -> untouched fs (set_device d' fs) i) /\
  forall b', blk (set_device d' fs) b' = if decide (b' = b) then bs else blk fs b'.
Proof.
  intros Hv Hm Hd. destruct (fs_ok_upd fs b bs d' (vw_ok _ _ Hv) Hd) as [Hok Hb].
  destruct (vol_frame fs I I (set_device d' fs) Hv) as [Hv' Hun];
    [done|done|done|..]; [| |by split].
  - intros b' Hm'. by apply (vw_meta _ _ Hv) in Hm' as [_ ?].
  - intros ino i b' Hi Hin. split; [by destruct (vw_file _ _ Hv _ _ Hi) as [(_ & _ & Hf) _]; apply Hf|].
    rewrite Hb, decide_False; [done|]. intros ->. by apply (vw_own _ _ Hv ino i b).
Qed.
End vol.
