(* ===== verification/SfsSpec.v ===== *)
(** * What SFS promises about files and directories

    The theorems about reading, writing and truncating files and about looking up,
    linking and unlinking names, for any device that meets [DeviceLaws] and on
    which no write fails ([dev_ok], a part of [fs_ok]), with a small volume on the
    simulated disk as the example; and what becomes of block transfers when the
    device reports errors. *)

From stdpp Require Import base option list gmap numbers.
From S2P Require Import Prelude Cstring Bitmap Uio Device Lhd SfsDisk Sfs.
From S2P Require Import SfsBlock SfsBmap SfsFile SfsDir SfsTrunc SfsVol.

Section spec.
Context {D : Type} `{!Device D, !DeviceLaws D}.
Implicit Types fs : sfs_fs D.

(** ** Contents *)

(** C10: On a disk on which no write fails, [sfs_read] of a file whose size an
    [off_t] can hold always returns, and changes nothing on the volume.  On success
    the uio's region holds exactly the bytes of the file from the uio's offset, up
    to the length asked for or the end of the file; no other byte of memory has
    changed and the uio has advanced by that much.  It fails only with EFAULT,
    when the region is not all user memory that can be written, with EINVAL, when
    the size of the file is beyond what an inode can describe, or with EIO, when
    the disk cannot be read; the bytes transferred until then are the file's. *)
Theorem sfs_read_exact sv u v fs :
  fs_ok fs -> file_wf fs (sv_i sv) -> sfi_size (sv_i sv) < 2 ^ 31 ->
  uio_ok u v -> uio_rw u = UIO_READ ->
  exists r bs u' v' fs', sfs_read sv u v fs = Some (r, u', v', sv, fs') /\ fs_same fs fs' /\
    bs = take (length bs) (drop (Z.to_nat (uio_offset u)) (fcontent fs (sv_i sv))) /\
    u' = uio_advance (Z.of_nat (length bs)) u /\
    (r = 0 -> v' = set_mem (mem_write (vm_mem v) (iov_base u) bs) v /\
       Z.of_nat (length bs) = read_len (sfi_size (sv_i sv)) (uio_offset u) (uio_resid u)) /\
    (r <> 0 -> r = EFAULT /\ ~ uio_good u v (uio_resid u) \/
       r = EINVAL /\ max_file < sfi_size (sv_i sv) \/ r = EIO /\ ~ reliable fs).
Proof.
  intros Hok Hwf Hsz Hu Hrw.
  destruct (sfs_io_read_wp sv u v fs) as (r & bs & u' & v' & fs' & E & [M Hs _ _ Hbs Hall _ Hf]);
    [done..|].
  exists r, bs, u', v', fs'. unfold sfs_read, is_write. rewrite Hrw. simpl.
  pose proof M as (Eu & _ & _ & _ & Hm). rewrite Hrw in Hm. destruct Hm as (m & -> & Hm).
  split; [done|]. split; [done|]. split; [done|]. split; [done|]. split; [|done].
  intros Hr. split; [|by apply Hall]. rewrite decide_True in Hm by done. by rewrite Hm.
Qed.

(** C6: On a disk on which no write fails, [sfs_write] at any offset always returns
    and leaves memory alone.  Some bytes [bs] of the uio's region, all of them on
    success, are put over the file's blocks from the offset on, with no other byte
    of its blocks changed, and the size becomes the end of those bytes, or the
    offset when there are none, if that is more than it was.  So when the offset
    is not past the end of the file, its contents are its old contents with
    those bytes put over them.  Every other file of the volume, with all its
    blocks, is untouched, and still shares no block with this one.  It fails
    only with EFAULT for a bad region, EINVAL beyond the largest file, ENOSPC when
    no block of the volume is free, or EIO. *)
Theorem sfs_write_exact sv u v fs :
  fs_ok fs -> file_wf fs (sv_i sv) -> sfi_size (sv_i sv) < 2 ^ 31 ->
  uio_ok u v -> uio_rw u = UIO_WRITE ->
  exists r bs u' sv' fs', sfs_write sv u v fs = Some (r, u', v, sv', fs') /\
    fs_ok fs' /\ file_wf fs' (sv_i sv') /\
    bs = mem_bytes (vm_mem v) (iov_base u) (length bs) /\
    u' = uio_advance (Z.of_nat (length bs)) u /\
    (bs <> [] -> uio_offset u + Z.of_nat (length bs) <= max_file) /\
    fbytes fs' (sv_i sv') = splice (fbytes fs (sv_i sv)) (Z.to_nat (uio_offset u)) bs /\
    sfi_size (sv_i sv') =
      Z.max (sfi_size (sv_i sv)) (uio_offset u + Z.of_nat (length bs)) /\
    (uio_offset u <= sfi_size (sv_i sv) <= max_file ->
       sfi_size (sv_i sv') <= max_file /\
       fcontent fs' (sv_i sv') =
         write_at (fcontent fs (sv_i sv)) (Z.to_nat (uio_offset u)) bs) /\
    (forall j, file_wf fs j -> apart fs (sv_i sv) j ->
       untouched fs fs' j /\ apart fs' (sv_i sv') j) /\
    (r = 0 -> Z.of_nat (length bs) = uio_resid u) /\
    (r <> 0 -> r = EFAULT /\ ~ uio_good u v (uio_resid u) \/
       r = EINVAL /\ max_file < uio_offset u + uio_resid u \/
       r = ENOSPC /\ full fs' \/ r = EIO /\ ~ reliable fs).
Proof.
  intros Hok Hwf Hsz Hu Hrw.
  destruct (sfs_io_write_wp sv u v fs)
    as (r & bs & u' & sv' & fs' & E & [M Hst Hsv Hsz' Hbd Hby Hall _ Hf]); [done..|].
  exists r, bs, u', sv', fs'. unfold sfs_write, is_write. rewrite Hrw. simpl.
  pose proof M as (Eu & _ & _ & _ & Hm). rewrite Hrw in Hm. destruct Hm as (_ & Hm).
  assert (0 <= uio_offset u) by apply Hu.
  split; [done|]. split; [exact (fst_ok _ _ _ _ Hst)|]. split; [exact (fst_wf _ _ _ _ Hst)|].
  split; [done|]. split; [done|]. split; [done|]. split; [done|]. split; [done|].
  split; [|split; [|done]].
  - unfold max_file. intros Ho. assert (uio_offset u + Z.of_nat (length bs) <= 73216).
    { destruct (decide (bs = [])) as [->|Hne]; [simpl; lia|by apply Hbd]. }
    split; [lia|]. pose proof (length_fbytes _ _ Hok Hwf) as Hl. unfold max_file in Hl.
    apply content_written; [done|done|lia..].
  - intros j Hj Ha. by apply (file_upd_other fs (sv_i sv)); [apply file_step_upd|..].
Qed.

(** ** Truncation *)

(** Whether the block with index [k] is still the file's after it has been cut or
    grown to [n] blocks. *)
Definition block_kept (n : Z) (k : nat) : bool :=
  if (k <? 15)%nat then Z.of_nat k <? n else Z.of_nat k <=? n.

Lemma past_kept n k : past n k <-> block_kept n k = false.
Proof.
  unfold past, block_kept. destruct (Nat.ltb_spec k 15); boolify; lia.
Qed.

(** C20: On a disk on which no write fails, [sfs_truncate] to any length an [off_t]
    can hold rounded up to a block always returns.  A block is in use afterwards
    exactly when it was before and is not one of those the file has given up, so
    nothing leaks and nothing of another file is freed; other files are untouched.
    On success the size is the new length and the block map is known entry by
    entry: with [n] the length in blocks, rounded up, the file keeps its blocks
    with an index below [n], and the indirect block's entry with index [n]; all the
    others it gives up.  The blocks it keeps have the bytes they had, so a file
    that shrinks and grows again has its old bytes there, not zeros; a file
    truncated to length 0 owns no block.  It fails only with EIO, the size then
    being as before. *)
Theorem sfs_truncate_exact sv len fs :
  fs_ok fs -> file_wf fs (sv_i sv) -> 0 <= len -> len + 512 < 2 ^ 31 ->
  exists r sv' fs', sfs_truncate sv len fs = Some (r, sv', fs') /\
    fs_ok fs' /\ file_wf fs' (sv_i sv') /\
    (forall b, b ∈ file_blocks fs' (sv_i sv') -> b ∈ file_blocks fs (sv_i sv)) /\
    (forall b, 0 <= b -> used fs' b = true <->
       used fs b = true /\ (b ∈ file_blocks fs (sv_i sv) -> b ∈ file_blocks fs' (sv_i sv'))) /\
    (forall j, file_wf fs j -> apart fs (sv_i sv) j ->
       untouched fs fs' j /\ apart fs' (sv_i sv') j) /\
    (r = 0 -> sfi_size (sv_i sv') = len /\
       (forall k b, blockmap fs (sv_i sv) !! k = Some b ->
          blockmap fs' (sv_i sv') !! k =
            Some (if block_kept ((len + 511) / 512) k then b else 0)) /\
       (forall k, block_kept ((len + 511) / 512) k = true ->
          fblocks fs' (sv_i sv') !! k = fblocks fs (sv_i sv) !! k) /\
       take (Z.to_nat len) (fbytes fs' (sv_i sv')) = take (Z.to_nat len) (fbytes fs (sv_i sv)) /\
       (len = 0 -> file_blocks fs' (sv_i sv') = [])) /\
    (r <> 0 -> r = EIO /\ ~ reliable fs /\ sfi_size (sv_i sv') = sfi_size (sv_i sv)).
Proof.
  intros Hok Hwf Hl Hl2.
  destruct (sfs_truncate_wp sv len fs)
    as (r & sv' & fs' & -> & Htp); [done|done|lia|lia|].
  pose proof Htp as [Hc _ _ Hs Hm Hd _ Hf].
  exists r, sv', fs'. split; [done|]. split; [exact (fc_ok _ _ _ _ Hc)|].
  pose proof (fc_wf _ _ _ _ Hc) as Hwf'. split; [done|].
  split; [exact (fc_sub _ _ _ _ Hc)|]. split; [exact (fc_used _ _ _ _ Hc)|].
  split; [intros j Hj Ha; by apply (file_upd_other fs (sv_i sv)); [apply file_cut_upd|..]|].
  split; [|done]. intros Hr. split; [auto|].
  split; [|split; [|split]].
  - intros k b Hk. rewrite (proj2 (Hm Hr) k b Hk). f_equal.
    case_decide as Hp; [by rewrite (proj1 (past_kept _ _) Hp)|].
    destruct (block_kept _ k) eqn:Ek; [done|]. by destruct Hp; apply past_kept.
  - intros k Hk. apply Hd; [done|]. intros Hp%past_kept. congruence.
  - apply (trunc_bytes _ _ _ _ _ _ Hok Hwf Hl Htp Hr).
  - intros ->. exact (trunc_to_zero _ _ _ _ _ Htp Hr).
Qed.

(** ** Directories *)

(** [sfs_dir_findname] always returns, without tripping its assertion, and
    changes nothing: it finds the inode number and the slot the directory has for
    the name, says ENOENT exactly when there is none, or fails with EIO. *)
Theorem sfs_dir_findname_exact sv name fs :
  fs_ok fs -> dir_wf fs (sv_i sv) -> names_unique (dents fs (sv_i sv)) -> is_str name ->
  exists r found empty fs', sfs_dir_findname sv name fs = Some (r, found, empty, sv, fs') /\
    fs_same fs fs' /\
    ((exists ino slot d, r = 0 /\ found = Some (ino, Z.of_nat slot) /\
        dents fs (sv_i sv) !! slot = Some d /\ has_name name d /\ sfd_ino d = ino) \/
     r = ENOENT /\ (forall ino, ~ binds (dents fs (sv_i sv)) name ino) \/
     r = EIO /\ ~ reliable fs).
Proof.
  intros Hok Hw Hun Hn.
  destruct (sfs_dir_findname_wp sv name fs Hok Hw Hun Hn) as (r & found & empty & fs' & E & Hs & Hp).
  exists r, found, empty, fs'. split; [done|]. split; [done|].
  destruct Hp as [(-> & Hf & _)|?]; [|by auto]. destruct found as [[ino slot]|].
  - left. destruct Hf as (Hs0 & d & Hd & Hh & Hi). exists ino, (Z.to_nat slot), d.
    rewrite Z2Nat.id by done. done.
  - right; left. split; [done|]. intros ino (k & d & Hk & Hh & _).
    by apply (Hf d); [eapply list_elem_of_lookup_2|].
Qed.

(** [sfs_dir_link] always returns.  On success the directory binds the new name
    to the inode number and all other names as before, the names are still
    distinct, and no other file is touched; otherwise every entry is as it was
    and the error says why: the name exists, it is too long, the directory is as
    large as a file can be, or the disk is full or failed. *)
Theorem sfs_dir_link_exact sv name ino fs :
  fs_ok fs -> dir_wf fs (sv_i sv) -> names_unique (dents fs (sv_i sv)) ->
  is_str name -> Z.of_nat (length name) + 1 < 2 ^ 32 -> 0 < ino < 2 ^ 32 ->
  exists r slot sv' fs', sfs_dir_link sv name ino fs = Some (r, slot, sv', fs') /\
    fs_ok fs' /\ dir_wf fs' (sv_i sv') /\ names_unique (dents fs' (sv_i sv')) /\
    (forall j, file_wf fs j -> apart fs (sv_i sv) j ->
       untouched fs fs' j /\ apart fs' (sv_i sv') j) /\
    (r = 0 -> (forall n, ~ binds (dents fs (sv_i sv)) name n) /\
       forall name' n, binds (dents fs' (sv_i sv')) name' n <->
         name' = name /\ n = ino \/ binds (dents fs (sv_i sv)) name' n) /\
    (r <> 0 -> dents fs' (sv_i sv') = dents fs (sv_i sv) /\
       (r = EEXIST /\ (exists n, binds (dents fs (sv_i sv)) name n) \/
        r = ENAMETOOLONG /\ (60 <= length name)%nat \/
        r = EINVAL /\ sfi_size (sv_i sv) = max_file \/
        r = ENOSPC /\ full fs' \/ r = EIO /\ ~ reliable fs)).
Proof.
  intros Hok Hw Hun Hn Hlen Hi.
  destruct (sfs_dir_link_wp sv name ino fs) as (r & slot & sv' & fs' & E & [Hst _ Hd Hu Hr Hf]);
    [done..|unfold is_u32; lia|].
  exists r, slot, sv', fs'. split; [done|]. split; [exact (fst_ok _ _ _ _ Hst)|].
  split; [done|]. split; [done|]. split; [intros j Hj Ha; by apply (file_upd_other fs (sv_i sv)); [apply file_step_upd|..]|].
  split.
  - intros Hr0. destruct (Hr Hr0) as (Hnf & d & Hs & Hfree & Hdok & Hdi & Hdn & ->). split.
    + intros n (k & e & Hk & Hh & _). by apply (Hnf e); [eapply list_elem_of_lookup_2|].
    + intros name' n. rewrite binds_put by (done || lia). rewrite Hdi, Hdn. intuition congruence.
  - intros Hr0. destruct (Hf Hr0) as [Hde Hc]. split; [done|].
    destruct Hc as [[-> [[n k] Hfo]]|[?|[[-> Hfs]|?]]]; [|by auto| |by auto].
    + left. split; [done|]. destruct Hfo as (_ & d & ? & ? & ?). exists n, (Z.to_nat k), d. done.
    + right; right; left. split; [done|]. destruct (dir_size _ _ Hw) as [Es Hns].
      unfold free_slot in Hfs. rewrite length_dents in Hfs. unfold max_file.
      destruct Hfs as [[? _]|[? _]]; lia.
Qed.

(** [sfs_dir_unlink] of the slot of a name removes exactly that name, and
    nothing when it fails, which only a disk that is not reliable can make it do:
    a directory has no holes, so that a full volume does not matter. *)
Theorem sfs_dir_unlink_exact sv slot d name fs :
  fs_ok fs -> dir_wf fs (sv_i sv) -> names_unique (dents fs (sv_i sv)) ->
  dents fs (sv_i sv) !! slot = Some d -> has_name name d ->
  exists r sv' fs', sfs_dir_unlink sv (Z.of_nat slot) fs = Some (r, sv', fs') /\
    fs_ok fs' /\ dir_wf fs' (sv_i sv') /\ names_unique (dents fs' (sv_i sv')) /\
    (forall j, file_wf fs j -> apart fs (sv_i sv) j ->
       untouched fs fs' j /\ apart fs' (sv_i sv') j) /\
    (r = 0 -> forall name' ino, binds (dents fs' (sv_i sv')) name' ino <->
       binds (dents fs (sv_i sv)) name' ino /\ name' <> name) /\
    (r <> 0 -> dents fs' (sv_i sv') = dents fs (sv_i sv) /\ r = EIO /\ ~ reliable fs).
Proof.
  intros Hok Hw Hun Hd Hh. pose proof (lookup_lt_Some _ _ _ Hd) as Hlt. rewrite length_dents in Hlt.
  destruct (sfs_dir_unlink_wp sv (Z.of_nat slot) fs)
    as (r & sv' & fs' & E & Hst & _ & Hd' & Hu' & Hde & Hf); [done..|lia|].
  exists r, sv', fs'. split; [done|]. split; [exact (fst_ok _ _ _ _ Hst)|]. split; [done|].
  split; [done|]. split; [intros j Hj Ha; by apply (file_upd_other fs (sv_i sv)); [apply file_step_upd|..]|].
  rewrite Nat2Z.id in Hde. split; intros Hr; rewrite Hde.
  - rewrite decide_True by done. by apply (binds_clear _ _ d).
  - rewrite decide_False by done. auto.
Qed.

(** ** Block transfers *)

(** C36: On any disk between requests, whatever errors it has, [sfs_wblock] of a
    block of the disk returns 0.  Only the answer to the driver's first write
    says whether the block was written: when that is EIO, [sfs_rwblock] tries again
    with the uio that the driver has already used up, the disk is not touched any
    more, and the call still reports success. *)
Theorem sfs_wblock_loses_write data b fs :
  dev_idle (fs_device fs) -> bytes_of 512 data -> 0 <= b < d_blocks (fs_device fs) ->
  exists r u' v' d',
    d_io (SFSUIO b UIO_WRITE) (kvm data) (fs_device fs) = Some (r, u', v', d') /\
    sfs_wblock data b fs = Some (0, set_device d' fs) /\ dev_idle d' /\
    (r = 0 /\ (forall b', dev_data d' b' = upd_block (dev_data (fs_device fs)) b data b') \/
     r = EIO /\ ~ dev_writable (fs_device fs) /\
       forall b', b' <> b -> dev_data d' b' = dev_data (fs_device fs) b').
Proof.
  intros Hd [Hl Hby] Hb. destruct (block_pos b _ Hd Hb) as [Ep Hp].
  unfold sfs_wblock, sfs_rwblock. unfold SFSUIO. rewrite Ep. unfold SFS_BLOCKSIZE.
  assert (uio_ok (mk_kuio KBUF 512 (b * BLOCKSIZE) UIO_WRITE) (kvm data)) as Hu.
  { apply kuio_ok; unfold BLOCKSIZE in *; try lia; try done. }
  destruct (d_io_writes (fs_device fs) _ _ b Hd Hu eq_refl) as
    (r & bs & u' & v' & d' & E & Hd' & _ & _ & Hnb & Hm & Hr); [done|lia|].
  exists r, u', v', d'. split; [done|]. change 11%nat with (S (S 9)).
  generalize 9%nat as n; intros n. cbn [rwblock_retry]. rewrite E. cbn [mbind option_bind].
  destruct Hm as (Eu & Hu' & _ & _ & Hm). simpl in Hm. destruct Hm as [-> Ebs].
  destruct Hr as [(-> & El & Hdat)|[(_ & _ & Hg & _)|(-> & El & Hn & Hdat)]];
    [|by destruct Hg; apply kuio_good|].
  - split; [done|]. split; [done|]. left. split; [done|].
    rewrite El, <- Hl, mem_write_bytes in Ebs by done. by subst bs.
  - simpl. rewrite (d_io_empty d' u' (kvm data) (b + 1)); [|done|done|..].
    + simpl. split; [done|]. split; [done|]. by right.
    + subst u'. simpl. rewrite El. unfold BLOCKSIZE in *. nowrap. lia.
    + subst u'. simpl. rewrite El. done.
    + rewrite Hnb. lia.
Qed.
End spec.

(** ** A small volume

    32 blocks: the superblock, the root directory (inode 1, data 5), the map, the
    file a (inode 3, data 4), and a file with an indirect block (6) and one data
    block at index 15 (7). *)

Definition pad (n : nat) (l : list Z) : list Z := l ++ replicate (n - length l) 0.

Definition vol_sectors : gmap Z (list Z) :=
  <[4 := pad 512 [104; 101; 108; 108; 111]]>
  (<[5 := pad 512 (enc_dir (SfsDir 3 (pad 60 [97])))]>
  (<[6 := pad 512 (be32 7)]> ∅)).

Definition vol : sfs_fs (lhd_softc Sim.card) :=
  {| fs_super := {| sp_magic := SFS_MAGIC; sp_nblocks := 32; sp_volname := replicate 32 0;
                    sp_reserved := replicate 118 0 |};
     fs_superdirty := false;
     fs_device := Lhd (Sim.Card 32 vol_sectors [] []) 0 0 (replicate 512 0) 0 1 0 32;
     fs_freemap := {| b_self := 1; nbits := 32; b_vptr := 2; b_v := [255; 0; 0; 0] |};
     fs_freemapdirty := false |}.

Definition mk_inode (size type : Z) (direct : list Z) (indirect : Z) : sfs_inode :=
  {| sfi_size := size; sfi_type := type; sfi_linkcount := 1; sfi_direct := pad 15 direct;
     sfi_indirect := indirect; sfi_waste := replicate 110 0 |}.
Definition mk_vnode (ino : Z) (ops : vnode_ops) (i : sfs_inode) : sfs_vnode :=
  {| sv_v := {| vn_refcount := 1; vn_opencount := 0; vn_countlock := Some (8, 9);
                vn_ops := Some ops |};
     sv_i := i; sv_ino := ino; sv_dirty := false |}.

Definition file_a : sfs_vnode := mk_vnode 3 sfs_fileops (mk_inode 5 SFS_TYPE_FILE [4] 0).
Definition file_b : sfs_vnode := mk_vnode 8 sfs_fileops (mk_inode 8192 SFS_TYPE_FILE [] 6).
Definition root : sfs_vnode := mk_vnode 1 sfs_dirops (mk_inode 64 SFS_TYPE_DIR [5] 0).

Lemma vol_ok : fs_ok vol.
Proof.
  split; [|split; [|split; [|split; [|split; [|split]]]]].
  - split; [|done]. split; [|done]. split; [by vm_compute|]. intros b bs.
    change (Sim.sectors _) with vol_sectors. unfold vol_sectors.
    intros [[_ <-]|[_ [[_ <-]|[_ [[_ <-]|[_ H]]%lookup_insert_Some]]%lookup_insert_Some]]%lookup_insert_Some;
      [..|by rewrite lookup_empty in H];
      apply (bool_decide_unpack (bytes_of 512 _)); by vm_compute.
  - split; [by vm_compute|]. split; [by vm_compute|].
    split; [apply (bool_decide_unpack (bytes_of 32 _))|apply (bool_decide_unpack (words_ok 118 _))];
      by vm_compute.
  - by vm_compute.
  - split; [by vm_compute|]. split; [by vm_compute|].
    split; [apply (bool_decide_unpack (Forall is_byte _)); by vm_compute|].
    intros i Hi. simpl in Hi. lia.
  - by vm_compute.
  - intros b Hb. unfold nblocks in Hb. simpl in Hb. lia.
  - by vm_compute.
Qed.

Definition owned (fs : sfs_fs (lhd_softc Sim.card)) (b : Z) : Prop :=
  0 < b < nblocks fs /\ used fs b = true.
#[global] Instance owned_dec fs b : Decision (owned fs b).
Proof. unfold owned. apply _. Defined.

Lemma file_wf_decide (fs : sfs_fs (lhd_softc Sim.card)) i :
  bool_decide (inode_ok i /\ NoDup (file_blocks fs i) /\ Forall (owned fs) (file_blocks fs i)) = true ->
  file_wf fs i.
Proof.
  intros (? & ? & Hf)%bool_decide_eq_true. split; [done|]. split; [done|].
  by apply list.Forall_forall.
Qed.

Lemma file_a_wf : file_wf vol (sv_i file_a).
Proof. apply file_wf_decide. by vm_compute. Qed.

Lemma file_b_wf : file_wf vol (sv_i file_b).
Proof. apply file_wf_decide. by vm_compute. Qed.

Lemma root_wf : dir_wf vol (sv_i root).
Proof.
  constructor; [apply file_wf_decide; by vm_compute|done|by vm_compute|].
  intros [|k] Hk; [|by vm_compute in Hk; lia]. exists 5. split; [by vm_compute|done].
Qed.

Lemma root_dents : dents vol (sv_i root) = [SfsDir 3 (pad 60 [97])].
Proof. by vm_compute. Qed.

Lemma root_unique : names_unique (dents vol (sv_i root)).
Proof.
  rewrite root_dents. intros name j k d e Hj Hk _ _.
  apply lookup_lt_Some in Hj, Hk. simpl in Hj, Hk. lia.
Qed.

Lemma file_a_blocks : file_blocks vol (sv_i file_a) = [4].
Proof. vm_compute. reflexivity. Qed.

Lemma file_b_blocks : file_blocks vol (sv_i file_b) = [6; 7].
Proof. vm_compute. reflexivity. Qed.

Lemma apart_ab : apart vol (sv_i file_a) (sv_i file_b).
Proof. intros b. rewrite file_a_blocks, file_b_blocks. set_solver. Qed.

(** Kernel buffers to read into and to write from. *)
Definition ku (len off : Z) (rw : uio_rw_t) : uio := mk_kuio KBUF len off rw.

Lemma ku_ok data len off rw :
  bool_decide (Forall is_byte data /\ len = Z.of_nat (length data) /\ 0 <= len < 2 ^ 31 /\
               0 <= off /\ off + len < 2 ^ 31) = true ->
  uio_ok (ku len off rw) (kvm data).
Proof. intros (? & ? & ? & ? & ?)%bool_decide_eq_true. by apply kuio_ok. Qed.

(** Three bytes at offset 3 of the five of file a: two are read. *)
Lemma sfs_read_exact_witness :
  exists r bs u' v' fs',
    sfs_read file_a (ku 3 3 UIO_READ) (kvm [0; 0; 0]) vol = Some (r, u', v', file_a, fs') /\
    fs_same vol fs' /\ bs = take (length bs) [108; 111] /\
    u' = uio_advance (Z.of_nat (length bs)) (ku 3 3 UIO_READ) /\
    (r = 0 -> v' = set_mem (mem_write (vm_mem (kvm [0; 0; 0])) KBUF bs) (kvm [0; 0; 0]) /\
       Z.of_nat (length bs) = 2) /\
    (r <> 0 -> r = EFAULT /\ ~ uio_good (ku 3 3 UIO_READ) (kvm [0; 0; 0]) 3 \/
       r = EINVAL /\ max_file < 5 \/ r = EIO /\ ~ reliable vol).
Proof.
  exact (sfs_read_exact file_a (ku 3 3 UIO_READ) (kvm [0; 0; 0]) vol vol_ok file_a_wf
    ltac:(by vm_compute) (ku_ok [0; 0; 0] 3 3 UIO_READ ltac:(by vm_compute)) eq_refl).
Defined.

(** One byte appended to file a, and one put past its end. *)
Lemma sfs_write_exact_witness :
  (exists r bs u' sv' fs',
    sfs_write file_a (ku 1 5 UIO_WRITE) (kvm [33]) vol = Some (r, u', kvm [33], sv', fs') /\
    fcontent fs' (sv_i sv') = write_at [104; 101; 108; 108; 111] 5 bs /\
    untouched vol fs' (sv_i file_b) /\ (r = 0 -> Z.of_nat (length bs) = 1)) /\
  exists r bs u' sv' fs',
    sfs_write file_a (ku 1 9 UIO_WRITE) (kvm [33]) vol = Some (r, u', kvm [33], sv', fs') /\
    sfi_size (sv_i sv') = Z.max 5 (9 + Z.of_nat (length bs)) /\
    fbytes fs' (sv_i sv') = splice (fbytes vol (sv_i file_a)) 9 bs.
Proof.
  split.
  - destruct (sfs_write_exact file_a (ku 1 5 UIO_WRITE) (kvm [33]) vol vol_ok file_a_wf
      ltac:(by vm_compute) (ku_ok [33] 1 5 UIO_WRITE ltac:(by vm_compute)) eq_refl)
      as (r & bs & u' & sv' & fs' & E & _ & _ & _ & _ & _ & _ & _ & Hc & Ho & Hr & _).
    exists r, bs, u', sv', fs'. split; [exact E|].
    destruct Hc as [_ Hc]; [split; vm_compute; discriminate|].
    split; [exact Hc|]. split; [|exact Hr].
    exact (proj1 (Ho (sv_i file_b) file_b_wf apart_ab)).
  - destruct (sfs_write_exact file_a (ku 1 9 UIO_WRITE) (kvm [33]) vol vol_ok file_a_wf
      ltac:(by vm_compute) (ku_ok [33] 1 9 UIO_WRITE ltac:(by vm_compute)) eq_refl)
      as (r & bs & u' & sv' & fs' & E & _ & _ & _ & _ & _ & Hb & Hs & _).
    exists r, bs, u', sv', fs'. split; [exact E|]. split; [exact Hs|exact Hb].
Defined.

(** File b cut to 15 blocks keeps its block with index 15. *)
Lemma sfs_truncate_exact_witness :
  exists r sv' fs', sfs_truncate file_b 7680 vol = Some (r, sv', fs') /\
    (r = 0 -> sfi_size (sv_i sv') = 7680 /\ blockmap fs' (sv_i sv') !! 15%nat = Some 7).
Proof.
  destruct (sfs_truncate_exact file_b 7680 vol vol_ok file_b_wf ltac:(lia) ltac:(by vm_compute))
    as (r & sv' & fs' & E & _ & _ & _ & _ & _ & Hr & _).
  exists r, sv', fs'. split; [exact E|]. intros Hr0. destruct (Hr Hr0) as (Hs & Hm & _).
  split; [exact Hs|]. rewrite (Hm 15%nat 7 ltac:(vm_compute; reflexivity)). reflexivity.
Defined.

Lemma sfs_dir_findname_exact_witness :
  exists r found empty fs', sfs_dir_findname root [97] vol = Some (r, found, empty, root, fs') /\
    fs_same vol fs' /\
    ((exists ino slot d, r = 0 /\ found = Some (ino, Z.of_nat slot) /\
        dents vol (sv_i root) !! slot = Some d /\ has_name [97] d /\ sfd_ino d = ino) \/
     r = ENOENT /\ (forall ino, ~ binds (dents vol (sv_i root)) [97] ino) \/
     r = EIO /\ ~ reliable vol).
Proof.
  exact (sfs_dir_findname_exact root [97] vol vol_ok root_wf root_unique
    ltac:(apply (bool_decide_unpack _); by vm_compute)).
Defined.

Lemma sfs_dir_link_exact_witness :
  exists r slot sv' fs', sfs_dir_link root [98] 9 vol = Some (r, slot, sv', fs') /\
    (r = 0 -> forall name' n, binds (dents fs' (sv_i sv')) name' n <->
       name' = [98] /\ n = 9 \/ binds (dents vol (sv_i root)) name' n).
Proof.
  destruct (sfs_dir_link_exact root [98] 9 vol vol_ok root_wf root_unique
    ltac:(apply (bool_decide_unpack _); by vm_compute) ltac:(by vm_compute) ltac:(lia))
    as (r & slot & sv' & fs' & E & _ & _ & _ & _ & Hr & _).
  exists r, slot, sv', fs'. split; [exact E|]. intros Hr0. exact (proj2 (Hr Hr0)).
Defined.

Lemma sfs_dir_unlink_exact_witness :
  exists r sv' fs', sfs_dir_unlink root 0 vol = Some (r, sv', fs') /\
    (r = 0 -> forall name' ino, binds (dents fs' (sv_i sv')) name' ino <->
       binds (dents vol (sv_i root)) name' ino /\ name' <> [97]).
Proof.
  destruct (sfs_dir_unlink_exact root 0 (SfsDir 3 (pad 60 [97])) [97] vol vol_ok root_wf
    root_unique ltac:(by rewrite root_dents) ltac:(split; [done|by vm_compute]))
    as (r & sv' & fs' & E & _ & _ & _ & _ & Hr & _).
  exists r, sv', fs'. split; [exact E|exact Hr].
Defined.

(** ** What goes wrong *)

(** A write that starts beyond the largest file fails, but still sets the size
    of the file to the offset it started at: the file is then larger than its
    inode can describe, and reading its end fails with EINVAL. *)
Theorem sfs_write_past_max_grows_size {D} `{!Device D, !DeviceLaws D} sv u v (fs : sfs_fs D) :
  fs_ok fs -> file_wf fs (sv_i sv) -> sfi_size (sv_i sv) <= max_file ->
  uio_ok u v -> uio_rw u = UIO_WRITE -> max_file < uio_offset u -> 0 < uio_resid u ->
  exists r u' sv' fs', sfs_write sv u v fs = Some (r, u', v, sv', fs') /\ r <> 0 /\
    sfi_size (sv_i sv') = uio_offset u.
Proof.
  intros Hok Hwf Hsz Hu Hrw Ho Hr. unfold max_file in *.
  destruct (sfs_io_write_wp sv u v fs)
    as (r & bs & u' & sv' & fs' & E & [M Hst Hsv Hsz' Hbd Hby Hall _ Hf]); [done..|lia|].
  assert (bs = []) as ->.
  { destruct (decide (bs = [])) as [|Hne]; [done|]. specialize (Hbd Hne). unfold max_file in Hbd. lia. }
  exists r, u', sv', fs'. unfold sfs_write, is_write. rewrite Hrw. simpl in *.
  split; [done|]. split; [intros Hr0; specialize (Hall Hr0); lia|lia].
Qed.

Lemma sfs_write_past_max_grows_size_witness :
  exists r u' sv' fs',
    sfs_write file_a (ku 1 100000 UIO_WRITE) (kvm [33]) vol = Some (r, u', kvm [33], sv', fs') /\
    r <> 0 /\ sfi_size (sv_i sv') = 100000.
Proof.
  exact (sfs_write_past_max_grows_size file_a (ku 1 100000 UIO_WRITE) (kvm [33]) vol vol_ok
    file_a_wf ltac:(by vm_compute) (ku_ok [33] 1 100000 UIO_WRITE ltac:(by vm_compute)) eq_refl
    ltac:(by vm_compute) ltac:(by vm_compute)).
Defined.

(** The volume on a disk whose next write fails. *)
Definition vol_bad_write : sfs_fs (lhd_softc Sim.card) :=
  set_device (Lhd (Sim.Card 32 vol_sectors [] [true]) 0 0 (replicate 512 0) 0 1 0 32) vol.

Lemma vol_bad_write_idle : dev_idle (fs_device vol_bad_write).
Proof. exact (proj1 (proj1 vol_ok)). Qed.

Lemma vol_bad_write_io :
  (fun x => Sim.sector (lh_card (snd x)) 4) <$>
    d_io (SFSUIO 4 UIO_WRITE) (kvm (pad 512 [1])) (fs_device vol_bad_write) =
  Some (pad 512 [104; 101; 108; 108; 111]).
Proof. vm_compute. reflexivity. Qed.

(** Block 4 written: the call says so, and the disk has the old block. *)
Lemma sfs_wblock_loses_write_witness :
  exists d', sfs_wblock (pad 512 [1]) 4 vol_bad_write = Some (0, set_device d' vol_bad_write) /\
    dev_idle d' /\ Sim.sector (lh_card d') 4 = pad 512 [104; 101; 108; 108; 111].
Proof.
  destruct (sfs_wblock_loses_write (pad 512 [1]) 4 vol_bad_write vol_bad_write_idle)
    as (r & u' & v' & d' & E & Hw & Hd & _);
    [apply (bool_decide_unpack (bytes_of 512 _)); by vm_compute|by vm_compute|].
  exists d'. split; [exact Hw|]. split; [exact Hd|].
  pose proof vol_bad_write_io as Hs. rewrite E in Hs. injection Hs as Hs. exact Hs.
Defined.
