(* ===== verification/SfsMount.v ===== *)
(** * Mounted volumes (kern/fs/sfs/sfs_fs.c, the vnode level of
      kern/fs/sfs/sfs_vnode.c, and kern/fs/vfs/vnode.c)

    A mounted volume is the record [mnt]: the volume of [Sfs], the table
    sfs_vnodes, the heap, and the [struct sfs_vnode]s in memory by address, so that
    all who hold a pointer to a vnode see the same one.  The address of a
    [struct sfs_vnode] is that of the [struct vnode] it starts with.

    A call VOP_X is [vnode_check] and then the entry of the table of operations
    the vnode has.  The count lock is taken and given back within each function
    and is not contended at this level, so it shows only as the memory it needs. *)

From stdpp Require Import base option list gmap numbers.
From S2P Require Import Prelude Kmem Array Bitmap Cstring Uio Device SfsDisk Sfs.

Definition O_ACCMODE : Z := 3.
Definition O_RDONLY : Z := 0.
Definition O_APPEND : Z := 32.
Definition S_IFREG : Z := 4096.
Definition S_IFDIR : Z := 8192.

(** 24 bytes of vnode, the inode, its number and the dirty flag; 20 bytes of
    struct fs, the superblock, and five words. *)
Definition sizeof_sfs_vnode : Z := 544.
Definition sizeof_sfs_fs : Z := 552.

(** [struct stat]. *)
Record stat := Stat { st_mode : Z; st_nlink : Z; st_size : Z; st_blocks : Z }.

(** The name of the lock, vnode-countlock. *)
Definition countlock_name : list Z :=
  [118; 110; 111; 100; 101; 45; 99; 111; 117; 110; 116; 108; 111; 99; 107].

Record mnt (H D : Type) := Mnt {
  m_self : Z;                          (* the struct sfs_fs *)
  m_fs : sfs_fs D;
  m_vnodes : array Z;
  m_nodes : gmap Z sfs_vnode;
  m_heap : H;
}.
Arguments Mnt {H D}.
Arguments m_self {H D}.
Arguments m_fs {H D}.
Arguments m_vnodes {H D}.
Arguments m_nodes {H D}.
Arguments m_heap {H D}.

Section mnt.
Context {H D : Type} `{!Kmalloc H, !Device D}.
Implicit Types m : mnt H D.

Definition set_fs (fs : sfs_fs D) m : mnt H D :=
  Mnt (m_self m) fs (m_vnodes m) (m_nodes m) (m_heap m).
Definition set_vnodes (a : array Z) m : mnt H D :=
  Mnt (m_self m) (m_fs m) a (m_nodes m) (m_heap m).
Definition set_node (p : Z) (sv : sfs_vnode) m : mnt H D :=
  Mnt (m_self m) (m_fs m) (m_vnodes m) (<[p := sv]> (m_nodes m)) (m_heap m).
Definition del_node (p : Z) m : mnt H D :=
  Mnt (m_self m) (m_fs m) (m_vnodes m) (delete p (m_nodes m)) (m_heap m).
Definition set_mheap (h : H) m : mnt H D :=
  Mnt (m_self m) (m_fs m) (m_vnodes m) (m_nodes m) h.

Definition set_vn (v : vnode) (sv : sfs_vnode) : sfs_vnode :=
  {| sv_v := v; sv_i := sv_i sv; sv_ino := sv_ino sv; sv_dirty := sv_dirty sv |}.
Definition set_refcount (n : Z) (v : vnode) : vnode :=
  {| vn_refcount := n; vn_opencount := vn_opencount v; vn_countlock := vn_countlock v;
     vn_ops := vn_ops v |}.
Definition set_opencount (n : Z) (v : vnode) : vnode :=
  {| vn_refcount := vn_refcount v; vn_opencount := n; vn_countlock := vn_countlock v;
     vn_ops := vn_ops v |}.
Definition set_mapdata (data : list Z) (fs : sfs_fs D) : sfs_fs D :=
  {| fs_super := fs_super fs; fs_superdirty := fs_superdirty fs; fs_device := fs_device fs;
     fs_freemap := set_v (fs_freemap fs) data; fs_freemapdirty := fs_freemapdirty fs |}.
Definition map_clean (fs : sfs_fs D) : sfs_fs D :=
  {| fs_super := fs_super fs; fs_superdirty := fs_superdirty fs; fs_device := fs_device fs;
     fs_freemap := fs_freemap fs; fs_freemapdirty := false |}.
Definition super_clean (fs : sfs_fs D) : sfs_fs D :=
  {| fs_super := fs_super fs; fs_superdirty := false; fs_device := fs_device fs;
     fs_freemap := fs_freemap fs; fs_freemapdirty := fs_freemapdirty fs |}.
Definition set_super (s : sfs_super) (fs : sfs_fs D) : sfs_fs D :=
  {| fs_super := s; fs_superdirty := fs_superdirty fs; fs_device := fs_device fs;
     fs_freemap := fs_freemap fs; fs_freemapdirty := fs_freemapdirty fs |}.

(** The last byte of the volume's name is made a zero. *)
Definition end_volname (s : sfs_super) : sfs_super :=
  {| sp_magic := sp_magic s; sp_nblocks := sp_nblocks s;
     sp_volname := <[31%nat := 0]> (sp_volname s); sp_reserved := sp_reserved s |}.

(** ** vnode.c *)

Definition vnode_init (ops : vnode_ops) (h : H) : option (Z * vnode * H) :=
  let vn := {| vn_refcount := 1; vn_opencount := 0; vn_countlock := None; vn_ops := Some ops |} in
  '(l, h) ← kmalloc 12 h;
  if l =? 0 then Some (ENOMEM, vn, h) else
  '(n, h) ← kstrdup countlock_name h;
  match n with
  | None => h ← kfree l h; Some (ENOMEM, vn, h)
  | Some (n, _) =>
      Some (0, {| vn_refcount := 1; vn_opencount := 0; vn_countlock := Some (l, n);
                  vn_ops := Some ops |}, h)
  end.

Definition vnode_kill (v : vnode) (h : H) : option H :=
  ASSERT vn_refcount v =? 1 ;;
  ASSERT vn_opencount v =? 0 ;;
  '(l, n) ← vn_countlock v;
  h ← kfree n h;
  kfree l h.

(** [lock_acquire] and [lock_release] of a count lock. *)
Definition countlock (sv : sfs_vnode) : option unit :=
  _ ← vn_countlock (sv_v sv); Some tt.

Definition vnode_incref (p : Z) m : option (mnt H D) :=
  ASSERT negb (p =? 0) ;;
  sv ← m_nodes m !! p;
  _ ← countlock sv;
  Some (set_node p (set_vn (set_refcount (s32 (vn_refcount (sv_v sv) + 1)) (sv_v sv)) sv) m).

(** The operation is reclaim or another one. *)
Definition vnode_check (reclaim : bool) (p : Z) m : option vnode_ops :=
  ASSERT negb (p =? 0) && negb (p =? 0xdeadbeef) ;;
  sv ← m_nodes m !! p;
  ops ← vn_ops (sv_v sv);
  _ ← countlock sv;
  ASSERT 0 <=? vn_refcount (sv_v sv) ;;
  ASSERT negb (vn_refcount (sv_v sv) =? 0) || reclaim ;;
  ASSERT 0 <=? vn_opencount (sv_v sv) ;;
  Some ops.

(** ** The operations of one vnode *)

(** Running a function of [Sfs] on the vnode at [p]. *)
Definition on_node {A} (f : sfs_vnode -> sfs_fs D -> option (A * sfs_vnode * sfs_fs D))
    (p : Z) m : option (A * mnt H D) :=
  sv ← m_nodes m !! p;
  '(r, sv, fs) ← f sv (m_fs m);
  Some (r, set_node p sv (set_fs fs m)).

Definition sfs_notdir : Z := ENOTDIR.
Definition sfs_isdir : Z := EISDIR.
Definition sfs_unimp : Z := EUNIMP.

(** The places of the two tables of operations where neither has a function of
    its own, or only the one of files has. *)
Inductive plain_op :=
  OpReadlink | OpGetdirentry | OpSymlink | OpMkdir | OpRmdir | OpMmap | OpTryseek (pos : Z).

Definition sfs_open (openflags : Z) : Z :=
  if negb (Z.land openflags O_APPEND =? 0) then EUNIMP else 0.

Definition sfs_opendir (openflags : Z) : Z :=
  if negb (Z.land openflags O_ACCMODE =? O_RDONLY) then EISDIR
  else if negb (Z.land openflags O_APPEND =? 0) then EISDIR
  else 0.

Definition VOP_OPEN (p openflags : Z) m : option Z :=
  ops ← vnode_check false p m;
  Some (match ops with sfs_fileops => sfs_open openflags | sfs_dirops => sfs_opendir openflags end).

Definition sfs_fsync (p : Z) m : option (Z * mnt H D) := on_node sfs_sync_inode p m.

Definition VOP_FSYNC (p : Z) m : option (Z * mnt H D) :=
  _ ← vnode_check false p m; sfs_fsync p m.

Definition sfs_close (p : Z) m : option (Z * mnt H D) := VOP_FSYNC p m.

Definition VOP_CLOSE (p : Z) m : option (Z * mnt H D) :=
  _ ← vnode_check false p m; sfs_close p m.

Definition VOP_TRUNCATE (p len : Z) m : option (Z * mnt H D) :=
  ops ← vnode_check false p m;
  match ops with
  | sfs_fileops => on_node (fun sv fs => sfs_truncate sv len fs) p m
  | sfs_dirops => Some (sfs_isdir, m)
  end.

Definition VOP_READ (p : Z) (u : uio) (v : vm) m : option (Z * uio * vm * mnt H D) :=
  ops ← vnode_check false p m;
  match ops with
  | sfs_fileops =>
      sv ← m_nodes m !! p;
      '(r, u, v, sv, fs) ← sfs_read sv u v (m_fs m);
      Some (r, u, v, set_node p sv (set_fs fs m))
  | sfs_dirops => Some (sfs_isdir, u, v, m)
  end.

Definition VOP_WRITE (p : Z) (u : uio) (v : vm) m : option (Z * uio * vm * mnt H D) :=
  ops ← vnode_check false p m;
  match ops with
  | sfs_fileops =>
      sv ← m_nodes m !! p;
      '(r, u, v, sv, fs) ← sfs_write sv u v (m_fs m);
      Some (r, u, v, set_node p sv (set_fs fs m))
  | sfs_dirops => Some (sfs_isdir, u, v, m)
  end.

Definition sfs_ioctl (op data : Z) : Z := EINVAL.

Definition sfs_gettype (p : Z) m : option Z :=
  sv ← m_nodes m !! p;
  if sfi_type (sv_i sv) =? SFS_TYPE_FILE then Some S_IFREG
  else if sfi_type (sv_i sv) =? SFS_TYPE_DIR then Some S_IFDIR
  else None.                                                 (* panic *)

Definition sfs_stat (p : Z) m : option stat :=
  mode ← (_ ← vnode_check false p m; sfs_gettype p m);
  sv ← m_nodes m !! p;
  Some {| st_mode := mode; st_nlink := 0; st_size := s32 (sfi_size (sv_i sv)); st_blocks := 0 |}.

Definition sfs_tryseek (pos : Z) : Z := if pos <? 0 then EINVAL else 0.

Definition sfs_mmap : Z := EUNIMP.

Definition plain_entry (op : plain_op) (ops : vnode_ops) : Z :=
  match ops, op with
  | sfs_fileops, OpMmap => sfs_mmap
  | sfs_fileops, OpTryseek pos => sfs_tryseek pos
  | sfs_fileops, _ => sfs_notdir
  | sfs_dirops, (OpReadlink | OpMmap) => sfs_isdir
  | sfs_dirops, _ => sfs_unimp
  end.

Definition VOP_PLAIN (op : plain_op) (p : Z) m : option Z :=
  ops ← vnode_check false p m; Some (plain_entry op ops).

Definition VOP_IOCTL (p op data : Z) m : option Z :=
  _ ← vnode_check false p m; Some (sfs_ioctl op data).

Definition VOP_GETTYPE (p : Z) m : option Z :=
  _ ← vnode_check false p m; sfs_gettype p m.

Definition VOP_STAT (p : Z) m : option stat :=
  _ ← vnode_check false p m; sfs_stat p m.

Definition sfs_namefile (p : Z) m : option Z :=
  sv ← m_nodes m !! p;
  ASSERT sv_ino sv =? SFS_ROOT_LOCATION ;; Some 0.

Definition VOP_NAMEFILE (p : Z) m : option Z :=
  ops ← vnode_check false p m;
  match ops with sfs_fileops => Some sfs_notdir | sfs_dirops => sfs_namefile p m end.

(** ** Giving up a vnode *)

(** The search for the vnode in the table. *)
Fixpoint find_vnode (n : nat) (i p : Z) (a : array Z) : option Z :=
  match n with
  | O => None                                                (* panic *)
  | S n =>
      sv2 ← array_getguy a i;
      if bool_decide (sv2 = Some p) then Some i else find_vnode n (i + 1) p a
  end.

Definition sfs_reclaim (p : Z) m : option (Z * mnt H D) :=
  sv ← m_nodes m !! p;
  _ ← countlock sv;
  if negb (vn_refcount (sv_v sv) =? 1) then
    ASSERT 1 <? vn_refcount (sv_v sv) ;;
    Some (EBUSY, set_node p (set_vn (set_refcount (vn_refcount (sv_v sv) - 1) (sv_v sv)) sv) m)
  else
    '(result, m) ←
      (if sfi_linkcount (sv_i sv) =? 0 then VOP_TRUNCATE p 0 m else Some (0, m));
    if negb (result =? 0) then Some (result, m)
    else
      '(result, m) ← on_node sfs_sync_inode p m;
      if negb (result =? 0) then Some (result, m)
      else
        sv ← m_nodes m !! p;
        m ← (if sfi_linkcount (sv_i sv) =? 0
             then fs ← sfs_bfree (sv_ino sv) (m_fs m); Some (set_fs fs m)
             else Some m);
        ix ← find_vnode (Z.to_nat (array_getnum (m_vnodes m))) 0 p (m_vnodes m);
        a ← array_remove (m_vnodes m) ix;
        h ← vnode_kill (sv_v sv) (m_heap m);
        h ← kfree p h;
        Some (0, del_node p (set_vnodes a (set_mheap h m))).

Definition VOP_RECLAIM (p : Z) m : option (Z * mnt H D) :=
  _ ← vnode_check true p m; sfs_reclaim p m.

(** An error of VOP_RECLAIM is only printed. *)
Definition vnode_decref (p : Z) m : option (mnt H D) :=
  ASSERT negb (p =? 0) ;;
  sv ← m_nodes m !! p;
  _ ← countlock sv;
  ASSERT 0 <? vn_refcount (sv_v sv) ;;
  if 1 <? vn_refcount (sv_v sv) then
    Some (set_node p (set_vn (set_refcount (vn_refcount (sv_v sv) - 1) (sv_v sv)) sv) m)
  else
    '(_, m) ← VOP_RECLAIM p m;
    Some m.

Definition vnode_incopen (p : Z) m : option (mnt H D) :=
  ASSERT negb (p =? 0) ;;
  sv ← m_nodes m !! p;
  _ ← countlock sv;
  Some (set_node p (set_vn (set_opencount (s32 (vn_opencount (sv_v sv) + 1)) (sv_v sv)) sv) m).

(** An error of VOP_CLOSE is only printed. *)
Definition vnode_decopen (p : Z) m : option (mnt H D) :=
  ASSERT negb (p =? 0) ;;
  sv ← m_nodes m !! p;
  _ ← countlock sv;
  ASSERT 0 <? vn_opencount (sv_v sv) ;;
  let n := vn_opencount (sv_v sv) - 1 in
  let m := set_node p (set_vn (set_opencount n (sv_v sv)) sv) m in
  if 0 <? n then Some m
  else
    '(_, m) ← VOP_CLOSE p m;
    Some m.

(** ** Loading a vnode *)

(** The search of the table; the vnode found, or [None]. *)
Fixpoint find_ino (n : nat) (i ino : Z) m : option (option Z) :=
  match n with
  | O => Some None
  | S n =>
      guy ← array_getguy (m_vnodes m) i;
      p ← guy;
      sv ← m_nodes m !! p;
      used ← sfs_bused (sv_ino sv) (m_fs m);
      if used =? 0 then None                                 (* panic *)
      else if sv_ino sv =? ino then Some (Some p)
      else find_ino n (i + 1) ino m
  end.

(** The function table of an object type. *)
Definition ops_of_type (type : Z) : option vnode_ops :=
  if type =? SFS_TYPE_FILE then Some sfs_fileops
  else if type =? SFS_TYPE_DIR then Some sfs_dirops
  else None.                                                 (* panic *)

(** The inode as it is used, and whether it is dirty. *)
Definition force_type (forcetype : Z) (i : sfs_inode) : option (sfs_inode * bool) :=
  if negb (forcetype =? SFS_TYPE_INVAL) then
    ASSERT sfi_type i =? SFS_TYPE_INVAL ;; Some (set_type forcetype i, true)
  else Some (i, false).

(** The result and [*ret]. *)
Definition sfs_loadvnode (ino forcetype : Z) m : option (Z * Z * mnt H D) :=
  found ← find_ino (Z.to_nat (array_getnum (m_vnodes m))) 0 ino m;
  match found with
  | Some p =>
      ASSERT forcetype =? SFS_TYPE_INVAL ;;
      m ← vnode_incref p m;
      Some (0, p, m)
  | None =>
      '(sv, h) ← kmalloc sizeof_sfs_vnode (m_heap m);
      if sv =? 0 then Some (ENOMEM, 0, set_mheap h m)
      else
        used ← sfs_bused ino (m_fs m);
        if used =? 0 then None                               (* panic *)
        else
          '(result, data, fs) ← sfs_rblock zeroblock ino (m_fs m);
          let m := set_fs fs m in
          if negb (result =? 0) then
            h ← kfree sv h; Some (result, 0, set_mheap h m)
          else
            '(i, dirty) ← force_type forcetype (dec_inode data);
            ops ← ops_of_type (sfi_type i);
            '(result, v, h) ← vnode_init ops h;
            if negb (result =? 0) then
              h ← kfree sv h; Some (result, 0, set_mheap h m)
            else
              '(result, a, h) ← array_add (m_vnodes m) sv h;
              let m := set_vnodes a m in
              if negb (result =? 0) then
                h ← vnode_kill v h;
                h ← kfree sv h; Some (result, 0, set_mheap h m)
              else
                Some (0, sv, set_node sv {| sv_v := v; sv_i := i; sv_ino := ino; sv_dirty := dirty |}
                               (set_mheap h m))
  end.

(** Failure is a panic. *)
Definition sfs_getroot m : option (Z * mnt H D) :=
  '(result, p, m) ← sfs_loadvnode SFS_ROOT_LOCATION SFS_TYPE_INVAL m;
  if negb (result =? 0) then None else Some (p, m).

(** ** Names *)

(** The result, [*ret] and [*slot]. *)
Definition sfs_lookonce (dir : Z) (name : list Z) m : option (Z * Z * Z * mnt H D) :=
  sv ← m_nodes m !! dir;
  '(result, found, _, sv, fs) ← sfs_dir_findname sv name (m_fs m);
  let m := set_node dir sv (set_fs fs m) in
  if negb (result =? 0) then Some (result, 0, 0, m)
  else
    '(ino, slot) ← found;
    '(result, p, m) ← sfs_loadvnode ino SFS_TYPE_INVAL m;
    if negb (result =? 0) then Some (result, 0, slot, m)
    else
      f ← m_nodes m !! p;
      if sfi_linkcount (sv_i f) =? 0 then None               (* panic *)
      else Some (0, p, slot, m).

Definition sfs_makeobj (type : Z) m : option (Z * Z * mnt H D) :=
  '(result, ino, fs) ← sfs_balloc (m_fs m);
  let m := set_fs fs m in
  if negb (result =? 0) then Some (result, 0, m)
  else sfs_loadvnode ino type m.

(** The link count, which is 16 bits wide, goes up or down, and the inode is dirty. *)
Definition links_up (sv : sfs_vnode) : sfs_vnode :=
  set_inode (set_linkcount (u16 (sfi_linkcount (sv_i sv) + 1)) (sv_i sv)) true sv.
Definition links_down (sv : sfs_vnode) : sfs_vnode :=
  set_inode (set_linkcount (u16 (sfi_linkcount (sv_i sv) - 1)) (sv_i sv)) true sv.

Definition dir_link (dir : Z) (name : list Z) (ino : Z) m : option (Z * Z * mnt H D) :=
  sv ← m_nodes m !! dir;
  '(result, slot, sv, fs) ← sfs_dir_link sv name ino (m_fs m);
  Some (result, slot, set_node dir sv (set_fs fs m)).

Definition dir_unlink (dir slot : Z) m : option (Z * mnt H D) :=
  on_node (fun sv fs => sfs_dir_unlink sv slot fs) dir m.

(** The part of [sfs_creat] for a name that is not there. *)
Definition creat_new (dir : Z) (name : list Z) m : option (Z * Z * mnt H D) :=
  '(result, newguy, m) ← sfs_makeobj SFS_TYPE_FILE m;
  if negb (result =? 0) then Some (result, 0, m)
  else
    f ← m_nodes m !! newguy;
    '(result, _, m) ← dir_link dir name (sv_ino f) m;
    if negb (result =? 0) then
      m ← vnode_decref newguy m; Some (result, 0, m)
    else
      f ← m_nodes m !! newguy;
      Some (0, newguy, set_node newguy (links_up f) m).

(** The result and [*ret]. *)
Definition sfs_creat (dir : Z) (name : list Z) (excl : bool) m : option (Z * Z * mnt H D) :=
  sv ← m_nodes m !! dir;
  '(result, found, _, sv, fs) ← sfs_dir_findname sv name (m_fs m);
  let m := set_node dir sv (set_fs fs m) in
  if negb (result =? 0) && negb (result =? ENOENT) then Some (result, 0, m)
  else if (result =? 0) && excl then Some (EEXIST, 0, m)
  else if result =? 0 then
    '(ino, _) ← found;
    sfs_loadvnode ino SFS_TYPE_INVAL m
  else creat_new dir name m.

Definition sfs_link (dir : Z) (name : list Z) (file : Z) m : option (Z * mnt H D) :=
  f ← m_nodes m !! file;
  '(result, _, m) ← dir_link dir name (sv_ino f) m;
  if negb (result =? 0) then Some (result, m)
  else
    f ← m_nodes m !! file;
    Some (0, set_node file (links_up f) m).

Definition sfs_remove (dir : Z) (name : list Z) m : option (Z * mnt H D) :=
  '(result, victim, slot, m) ← sfs_lookonce dir name m;
  if negb (result =? 0) then Some (result, m)
  else
    '(result, m) ← dir_unlink dir slot m;
    m ← (if result =? 0 then
           f ← m_nodes m !! victim;
           ASSERT 0 <? sfi_linkcount (sv_i f) ;;
           Some (set_node victim (links_down f) m)
         else Some m);
    m ← vnode_decref victim m;
    Some (result, m).

(** From the label puke_harder on: the link count goes down again, and the
    inode, dirty since it went up, is not marked. *)
Definition rename_undo (dir g1 slot2 result : Z) m : option (Z * mnt H D) :=
  '(result2, m) ← dir_unlink dir slot2 m;
  if negb (result2 =? 0) then None                           (* panic *)
  else
    f ← m_nodes m !! g1;
    let i := set_linkcount (u16 (sfi_linkcount (sv_i f) - 1)) (sv_i f) in
    m ← vnode_decref g1 (set_node g1 (set_inode i (sv_dirty f) f) m);
    Some (result, m).

(** The part of [sfs_rename] after the new link. *)
Definition rename_rest (dir g1 slot1 slot2 : Z) m : option (Z * mnt H D) :=
  '(result, m) ← dir_unlink dir slot1 m;
  if negb (result =? 0) then rename_undo dir g1 slot2 result m
  else
    f ← m_nodes m !! g1;
    ASSERT 0 <? sfi_linkcount (sv_i f) ;;
    m ← vnode_decref g1 (set_node g1 (links_down f) m);
    Some (0, m).

Definition sfs_rename (d1 : Z) (n1 : list Z) (d2 : Z) (n2 : list Z) m : option (Z * mnt H D) :=
  ASSERT d1 =? d2 ;;
  sv ← m_nodes m !! d1;
  ASSERT sv_ino sv =? SFS_ROOT_LOCATION ;;
  '(result, g1, slot1, m) ← sfs_lookonce d1 n1 m;
  if negb (result =? 0) then Some (result, m)
  else
    f ← m_nodes m !! g1;
    ASSERT sfi_type (sv_i f) =? SFS_TYPE_FILE ;;
    '(result, slot2, m) ← dir_link d1 n2 (sv_ino f) m;
    if negb (result =? 0) then m ← vnode_decref g1 m; Some (result, m)
    else
      f ← m_nodes m !! g1;
      rename_rest d1 g1 slot1 slot2 (set_node g1 (links_up f) m).

(** The result, [*ret] and the buffer. *)
Definition sfs_lookparent (dir : Z) (path : list Z) (buf : list Z) m :
    option (Z * Z * list Z * mnt H D) :=
  sv ← m_nodes m !! dir;
  if negb (sfi_type (sv_i sv) =? SFS_TYPE_DIR) then Some (ENOTDIR, 0, buf, m)
  else
    len ← strlen (path ++ [0]);
    if Z.of_nat (length buf) <? u32 (len + 1) then Some (ENAMETOOLONG, 0, buf, m)
    else
      buf ← strcpy buf (path ++ [0]);
      m ← vnode_incref dir m;
      Some (0, dir, buf, m).

(** The result and [*ret]. *)
Definition sfs_lookup (dir : Z) (path : list Z) m : option (Z * Z * mnt H D) :=
  sv ← m_nodes m !! dir;
  if negb (sfi_type (sv_i sv) =? SFS_TYPE_DIR) then Some (ENOTDIR, 0, m)
  else
    '(result, final, _, m) ← sfs_lookonce dir path m;
    if negb (result =? 0) then Some (result, 0, m) else Some (0, final, m).

Definition VOP_CREAT (dir : Z) (name : list Z) (excl : bool) m : option (Z * Z * mnt H D) :=
  ops ← vnode_check false dir m;
  match ops with sfs_fileops => Some (sfs_notdir, 0, m) | sfs_dirops => sfs_creat dir name excl m end.

Definition VOP_LINK (dir : Z) (name : list Z) (file : Z) m : option (Z * mnt H D) :=
  ops ← vnode_check false dir m;
  match ops with sfs_fileops => Some (sfs_notdir, m) | sfs_dirops => sfs_link dir name file m end.

Definition VOP_REMOVE (dir : Z) (name : list Z) m : option (Z * mnt H D) :=
  ops ← vnode_check false dir m;
  match ops with sfs_fileops => Some (sfs_notdir, m) | sfs_dirops => sfs_remove dir name m end.

Definition VOP_RENAME (d1 : Z) (n1 : list Z) (d2 : Z) (n2 : list Z) m : option (Z * mnt H D) :=
  ops ← vnode_check false d1 m;
  match ops with sfs_fileops => Some (sfs_notdir, m) | sfs_dirops => sfs_rename d1 n1 d2 n2 m end.

Definition VOP_LOOKUP (dir : Z) (path : list Z) m : option (Z * Z * mnt H D) :=
  ops ← vnode_check false dir m;
  match ops with sfs_fileops => Some (sfs_notdir, 0, m) | sfs_dirops => sfs_lookup dir path m end.

Definition VOP_LOOKPARENT (dir : Z) (path buf : list Z) m : option (Z * Z * list Z * mnt H D) :=
  ops ← vnode_check false dir m;
  match ops with
  | sfs_fileops => Some (sfs_notdir, 0, buf, m)
  | sfs_dirops => sfs_lookparent dir path buf m
  end.

(** ** sfs_fs.c *)

Definition SFS_FS_BITMAPSIZE (fs : sfs_fs D) : Z := SFS_BITMAPSIZE (sp_nblocks (fs_super fs)).
Definition SFS_FS_BITBLOCKS (fs : sfs_fs D) : Z := SFS_BITBLOCKS (sp_nblocks (fs_super fs)).

(** [j] of the loop is [mapsize - n]; the pointer must be within the data of the bitmap. *)
Fixpoint mapio_loop (n : nat) (j : Z) (rw : uio_rw_t) (fs : sfs_fs D) : option (Z * sfs_fs D) :=
  match n with
  | O => Some (0, fs)
  | S n =>
      let bitdata := bitmap_getdata (fs_freemap fs) in
      let off := Z.to_nat (j * SFS_BLOCKSIZE) in
      let ptr := take 512 (drop off bitdata) in
      ASSERT Z.of_nat (length ptr) =? SFS_BLOCKSIZE ;;
      '(result, fs) ←
        match rw with
        | UIO_READ =>
            '(result, data, fs) ← sfs_rblock ptr (u32 (SFS_MAP_LOCATION + j)) fs;
            Some (result, set_mapdata (splice bitdata off data) fs)
        | UIO_WRITE => sfs_wblock ptr (u32 (SFS_MAP_LOCATION + j)) fs
        end;
      if negb (result =? 0) then Some (result, fs) else mapio_loop n (j + 1) rw fs
  end.

Definition sfs_mapio (rw : uio_rw_t) (fs : sfs_fs D) : option (Z * sfs_fs D) :=
  mapio_loop (Z.to_nat (SFS_FS_BITBLOCKS fs)) 0 rw fs.

(** The loop over the vnodes, from [i] on. *)
Fixpoint sync_vnodes (n : nat) (i : Z) m : option (mnt H D) :=
  match n with
  | O => Some m
  | S n =>
      guy ← array_getguy (m_vnodes m) i;
      p ← guy;
      '(_, m) ← VOP_FSYNC p m;
      sync_vnodes n (i + 1) m
  end.

Definition sfs_sync m : option (Z * mnt H D) :=
  m ← sync_vnodes (Z.to_nat (array_getnum (m_vnodes m))) 0 m;
  '(result, m) ←
    (if fs_freemapdirty (m_fs m) then
       '(result, fs) ← sfs_mapio UIO_WRITE (m_fs m);
       if negb (result =? 0) then Some (result, set_fs fs m)
       else Some (0, set_fs (map_clean fs) m)
     else Some (0, m));
  if negb (result =? 0) then Some (result, m)
  else if fs_superdirty (m_fs m) then
    '(result, fs) ← sfs_wblock (enc_super (fs_super (m_fs m))) SFS_SB_LOCATION (m_fs m);
    if negb (result =? 0) then Some (result, set_fs fs m)
    else Some (0, set_fs (super_clean fs) m)
  else Some (0, m).

Definition sfs_getvolname m : list Z := sp_volname (fs_super (m_fs m)).

(** The result, the volume unless it is gone, and the heap. *)
Definition sfs_unmount m : option (Z * option (mnt H D) * H) :=
  if 0 <? array_getnum (m_vnodes m) then Some (EBUSY, Some m, m_heap m)
  else
    ASSERT negb (fs_superdirty (m_fs m)) ;;
    ASSERT negb (fs_freemapdirty (m_fs m)) ;;
    h ← array_destroy (m_vnodes m) (m_heap m);
    h ← bitmap_destroy (fs_freemap (m_fs m)) h;
    h ← kfree (m_self m) h;
    Some (0, None, h).

(** The [struct sfs_fs] before the superblock and the bitmap are loaded. *)
Definition blank_fs (dev : D) : sfs_fs D :=
  {| fs_super := dec_super zeroblock; fs_superdirty := false; fs_device := dev;
     fs_freemap := {| b_self := 0; nbits := 0; b_vptr := 0; b_v := [] |};
     fs_freemapdirty := false |}.

(** The part of [sfs_domount] after the superblock: loading the free map. *)
Definition domount_map (sfs : Z) (a : array Z) (fs : sfs_fs D) (h : H) :
    option (Z * option (mnt H D) * D * H) :=
  '(b, h) ← bitmap_create (SFS_FS_BITMAPSIZE fs) h;
  match b with
  | None => h ← array_destroy a h; h ← kfree sfs h; Some (ENOMEM, None, fs_device fs, h)
  | Some b =>
      '(result, fs) ← sfs_mapio UIO_READ (map_clean (set_freemap b fs));
      if negb (result =? 0) then
        h ← bitmap_destroy (fs_freemap fs) h;
        h ← array_destroy a h; h ← kfree sfs h; Some (result, None, fs_device fs, h)
      else
        Some (0, Some {| m_self := sfs; m_fs := fs; m_vnodes := a; m_nodes := ∅; m_heap := h |},
              fs_device fs, h)
  end.

(** The result and the volume, with the device and the heap. *)
Definition sfs_domount (dev : D) (h : H) : option (Z * option (mnt H D) * D * H) :=
  if negb (d_blocksize dev =? SFS_BLOCKSIZE) then Some (ENXIO, None, dev, h)
  else
    '(sfs, h) ← kmalloc sizeof_sfs_fs h;
    if sfs =? 0 then Some (ENOMEM, None, dev, h)
    else
      '(a, h) ← array_create h;
      match a with
      | None => h ← kfree sfs h; Some (ENOMEM, None, dev, h)
      | Some a =>
          '(result, data, fs) ← sfs_rblock zeroblock SFS_SB_LOCATION (blank_fs dev);
          if negb (result =? 0) then
            h ← array_destroy a h; h ← kfree sfs h; Some (result, None, fs_device fs, h)
          else
            let super := dec_super data in
            if negb (sp_magic super =? SFS_MAGIC) then
              h ← array_destroy a h; h ← kfree sfs h; Some (EINVAL, None, fs_device fs, h)
            else
              domount_map sfs a (set_super (end_volname super) fs) h
      end.
End mnt.
