(* ===== verification/SfsTree.v ===== *)
(** * A consistent volume

    [tree_wf] is what makes the files of a volume a file system: the root directory
    is in order, its entries name files of the volume, the link count of each file is
    the number of its entries, and the superblock and the free map on the disk are
    those in memory unless they are marked dirty.  The lemmas say which changes of the
    volume keep it so. *)

From stdpp Require Import base option list gmap numbers.
From S2P Require Import Prelude Bitmap Uio Device SfsDisk Sfs.
From S2P Require Import SfsBlock SfsBmap SfsFile SfsDir SfsTrunc SfsVol SfsMount.

(** ** Counting links *)

Definition links (l : list sfs_dir) (ino : Z) : nat := length (filter (fun d => sfd_ino d = ino) l).

Lemma links_app l1 l2 ino : links (l1 ++ l2) ino = (links l1 ino + links l2 ino)%nat.
Proof. unfold links. by rewrite list.filter_app, length_app. Qed.

Lemma links_cons d l ino :
  links (d :: l) ino = ((if decide (sfd_ino d = ino) then 1 else 0) + links l ino)%nat.
Proof. unfold links. rewrite filter_cons. by case_decide. Qed.

Lemma links_insert l k d e ino :
  l !! k = Some e ->
  (links (<[k := d]> l) ino + (if decide (sfd_ino e = ino) then 1 else 0) =
   links l ino + (if decide (sfd_ino d = ino) then 1 else 0))%nat.
Proof.
  intros Hk. pose proof (lookup_lt_Some _ _ _ Hk). rewrite insert_take_drop by done.
  rewrite <- (take_drop_middle l k e Hk) at 3. rewrite !links_app, !links_cons. lia.
Qed.

Lemma links_put l k d ino :
  free_slot l k -> ino <> 0 ->
  links (put_entry k d l) ino = (links l ino + (if decide (sfd_ino d = ino) then 1 else 0))%nat.
Proof.
  intros Hf Hi. unfold put_entry. destruct Hf as [[Hk (e & He & H0)]|[-> _]].
  - rewrite decide_True by done. pose proof (links_insert l k d e ino He) as E.
    rewrite (decide_False (P := sfd_ino e = ino)) in E by congruence. lia.
  - rewrite decide_False by lia. rewrite links_app, links_cons. change (links [] ino) with 0%nat. lia.
Qed.

Lemma links_clear l k d ino :
  l !! k = Some d -> ino <> 0 ->
  links l ino = (links (<[k := SfsDir 0 (replicate 60 0%Z)]> l) ino +
                 (if decide (sfd_ino d = ino) then 1 else 0))%nat.
Proof.
  intros Hk Hi. pose proof (links_insert l k (SfsDir 0 (replicate 60 0)) d ino Hk) as E.
  cbn [sfd_ino] in E. rewrite (decide_False (P := 0 = ino)) in E by congruence. lia.
Qed.

Lemma links_le l ino : (links l ino <= length l)%nat.
Proof. apply list.length_filter. Qed.

Lemma links_pos l ino d : d ∈ l -> sfd_ino d = ino -> (0 < links l ino)%nat.
Proof.
  intros Hd Hi. unfold links. assert (d ∈ filter (fun d => sfd_ino d = ino) l) as Hin
    by by apply list_elem_of_filter.
  destruct (filter _ l); [by apply not_elem_of_nil in Hin|simpl; lia].
Qed.

(** ** Names *)

(** The map from names to inode numbers a directory stands for. *)
Definition names (l : list sfs_dir) : gmap (list Z) Z :=
  list_to_map ((fun d => (dname d, sfd_ino d)) <$> filter (fun d => sfd_ino d <> 0) l).

Lemma names_lookup l name ino :
  names_unique l -> names l !! name = Some ino <-> binds l name ino.
Proof.
  intros Hu. unfold names, binds. split.
  - intros Hin%elem_of_list_to_map_2. apply list_elem_of_fmap in Hin as (d & [= -> ->] & Hd).
    apply list_elem_of_filter in Hd as [Hz Hd]. apply list_elem_of_lookup_1 in Hd as [k Hk].
    exists k, d. by split_and!.
  - intros (k & d & Hk & [Hz Hn] & Hi). apply elem_of_list_to_map_1'.
    + intros y Hy. apply list_elem_of_fmap in Hy as (e & [= En ->] & He).
      apply list_elem_of_filter in He as [Hez He]. apply list_elem_of_lookup_1 in He as [j Hj].
      assert (j = k) as -> by (eapply (Hu name); [exact Hj|exact Hk|by split|by split]).
      congruence.
    + apply list_elem_of_fmap. exists d. split; [by rewrite Hn, Hi|].
      apply list_elem_of_filter. split; [done|]. by eapply list_elem_of_lookup_2.
Qed.

Lemma names_put l k d :
  names_unique l -> names_unique (put_entry k d l) -> free_slot l k -> sfd_ino d <> 0 ->
  (forall ino, ~ binds l (dname d) ino) ->
  names (put_entry k d l) = <[dname d := sfd_ino d]> (names l).
Proof.
  intros Hu Hu' Hf Hz Hno. apply map_eq. intros nm. apply option_eq. intros ino.
  rewrite (names_lookup _ _ _ Hu'), binds_put, lookup_insert_Some, (names_lookup _ _ _ Hu) by done.
  split; [|naive_solver]. intros [?|Hb]; [by left|]. right. split; [|done].
  intros E. apply (Hno ino). by rewrite E.
Qed.

Lemma names_clear l k d name :
  names_unique l -> names_unique (<[k := SfsDir 0 (replicate 60 0)]> l) ->
  l !! k = Some d -> has_name name d ->
  names (<[k := SfsDir 0 (replicate 60 0)]> l) = delete name (names l).
Proof.
  intros Hu Hu' Hk Hn. apply map_eq. intros nm. apply option_eq. intros ino.
  rewrite (names_lookup _ _ _ Hu'), (binds_clear _ _ _ _ Hu Hk Hn), lookup_delete_Some.
  rewrite (names_lookup _ _ _ Hu). naive_solver.
Qed.

Lemma found_binds name l ino slot : found_ok name l (Some (ino, slot)) -> binds l name ino.
Proof. intros (_ & d & Hk & Hh & <-). by exists (Z.to_nat slot), d. Qed.

Lemma not_found_binds name l ino : found_ok name l None -> ~ binds l name ino.
Proof.
  intros Hf (k & d & Hk & Hh & _). apply (Hf d); [by eapply list_elem_of_lookup_2|done].
Qed.

Section tree.
Context {D : Type} `{!Device D, !DeviceLaws D}.
Implicit Types fs : sfs_fs D.

(** ** Superblock and free map *)

Definition map_block fs (j : nat) : list Z := take 512 (drop (j * 512) (b_v (fs_freemap fs))).

Record head_wf fs : Prop := {
  hw_magic : sp_magic (fs_super fs) = SFS_MAGIC;
  hw_volname : end_volname (fs_super fs) = fs_super fs;
  hw_bits : nbits (fs_freemap fs) = SFS_BITMAPSIZE (nblocks fs);
  hw_map : fs_freemapdirty fs = false -> forall j, Z.of_nat j < SFS_BITBLOCKS (nblocks fs) ->
    blk fs (SFS_MAP_LOCATION + Z.of_nat j) = map_block fs j;
  hw_super : fs_superdirty fs = false ->
    fs_super fs = end_volname (dec_super (blk fs SFS_SB_LOCATION));
}.

Lemma head_kept fs fs' :
  head_wf fs -> fs_hist fs fs' -> (forall b, reserved fs b -> blk fs' b = blk fs b) -> head_wf fs'.
Proof.
  intros [Hm Hv Hb Hd Hs] Hh Hr. pose proof (fs_hist_nblocks _ _ Hh) as En.
  destruct Hh as (_ & Es & Ed & [= _ Enb _] & Hc).
  constructor; [by rewrite Es|by rewrite Es|by rewrite Enb, En|..].
  - intros Hf j Hj. destruct (Hc Hf) as [Hf' Em]. rewrite En in Hj.
    rewrite Hr by (unfold reserved; lia). rewrite Hd by done. unfold map_block. by rewrite Em.
  - rewrite Ed, Es. intros Hf. rewrite Hr by (by left). auto.
Qed.

(** ** The tree *)

(** The entries of the root directory. *)
Definition entries fs (I : gmap Z sfs_inode) : list sfs_dir :=
  match I !! SFS_ROOT_LOCATION with Some r => dents fs r | None => [] end.

Record tree_wf fs (I : gmap Z sfs_inode) : Prop := {
  tw_vol : vol_wf fs I;
  tw_head : head_wf fs;
  tw_root : exists r, I !! SFS_ROOT_LOCATION = Some r /\ dir_wf fs r /\ sfi_linkcount r <> 0;
  tw_unique : names_unique (entries fs I);
  tw_type : forall ino i, I !! ino = Some i -> ino <> SFS_ROOT_LOCATION -> sfi_type i = SFS_TYPE_FILE;
  tw_ents : forall d, d ∈ entries fs I -> sfd_ino d <> 0 ->
    sfd_ino d <> SFS_ROOT_LOCATION /\ is_Some (I !! sfd_ino d);
  tw_links : forall ino i, I !! ino = Some i -> ino <> SFS_ROOT_LOCATION ->
    sfi_linkcount i = Z.of_nat (links (entries fs I) ino);
}.

Lemma entries_root fs I r : I !! SFS_ROOT_LOCATION = Some r -> entries fs I = dents fs r.
Proof. intros Hr. unfold entries. by rewrite Hr. Qed.

Lemma tree_ino fs I ino : vol_wf fs I -> is_Some (I !! ino) -> 0 < ino < nblocks fs /\ used fs ino = true.
Proof.
  intros Hv Hi. destruct (vw_meta _ _ Hv ino) as [? ?]; [by right|].
  assert (ino <> 0); [|split; [lia|done]]. intros ->. apply (vw_ino _ _ Hv 0 Hi). by left.
Qed.

(** A link count stays far below the width of its field. *)
Lemma tree_links_bound fs I ino : tree_wf fs I -> (links (entries fs I) ino <= 1144)%nat.
Proof.
  intros Ht. destruct (tw_root _ _ Ht) as (r & Hr & Hd & _).
  etransitivity; [apply links_le|]. rewrite (entries_root _ _ _ Hr), length_dents.
  by destruct (dir_size _ _ Hd).
Qed.

(** A directory whose file is untouched is as it was. *)
Lemma untouched_dir fs fs' r :
  untouched fs fs' r -> dir_wf fs r -> dir_wf fs' r /\ dents fs' r = dents fs r.
Proof.
  intros (Hf & Hb & Em) [_ Ht Hs Hfull]. split; [|by apply dents_same]. constructor; [done..|].
  intros k Hk. unfold has_block. rewrite Em. by apply Hfull.
Qed.

(** ** The contents of the files *)

Definition files fs (I : gmap Z sfs_inode) : gmap Z (list Z) :=
  fcontent fs <$> delete SFS_ROOT_LOCATION I.

Lemma untouched_content fs fs' i : untouched fs fs' i -> fcontent fs' i = fcontent fs i.
Proof. intros (_ & E & _). unfold fcontent. by rewrite E. Qed.

Lemma lookup_files fs I ino :
  ino <> SFS_ROOT_LOCATION -> files fs I !! ino = fcontent fs <$> I !! ino.
Proof. intros Hne. unfold files. by rewrite lookup_fmap, lookup_delete_ne. Qed.

Lemma lookup_files_root fs I : files fs I !! SFS_ROOT_LOCATION = None.
Proof. unfold files. by rewrite lookup_fmap, lookup_delete_eq. Qed.

(** Two states with the same files, up to what does not matter for the contents. *)
Lemma files_ext fs I fs' I' :
  (forall ino, ino <> SFS_ROOT_LOCATION ->
     fcontent fs' <$> I' !! ino = fcontent fs <$> I !! ino) ->
  files fs' I' = files fs I.
Proof.
  intros He. apply map_eq. intros ino. destruct (decide (ino = SFS_ROOT_LOCATION)) as [->|Hne].
  - by rewrite !lookup_files_root.
  - rewrite !lookup_files by done. auto.
Qed.

Lemma files_untouched fs I fs' :
  (forall ino i, I !! ino = Some i -> ino <> SFS_ROOT_LOCATION -> untouched fs fs' i) ->
  files fs' I = files fs I.
Proof.
  intros Hu. apply files_ext. intros ino Hne. destruct (I !! ino) as [i|] eqn:Hi; [|done].
  simpl. f_equal. apply untouched_content. eauto.
Qed.

Lemma files_root fs I fs' r :
  rest_same fs I SFS_ROOT_LOCATION fs' -> files fs' (<[SFS_ROOT_LOCATION := r]> I) = files fs I.
Proof.
  intros Hr. rewrite <- (files_untouched fs I fs').
  - apply files_ext. intros ino Hne. by rewrite lookup_insert_ne.
  - intros ino i Hi Hne. by eapply (rs_file _ _ _ _ Hr).
Qed.

Lemma files_insert fs I ino i :
  ino <> SFS_ROOT_LOCATION -> files fs (<[ino := i]> I) = <[ino := fcontent fs i]> (files fs I).
Proof. intros Hne. unfold files. by rewrite delete_insert_ne, fmap_insert. Qed.

Lemma files_upd fs I ino i' fs' :
  ino <> SFS_ROOT_LOCATION -> rest_same fs I ino fs' ->
  files fs' (<[ino := i']> I) = <[ino := fcontent fs' i']> (files fs I).
Proof.
  intros Hne Hr. apply map_eq. intros ino2. destruct (decide (ino2 = SFS_ROOT_LOCATION)) as [->|Hn2].
  { by rewrite lookup_files_root, lookup_insert_ne, lookup_files_root. }
  rewrite lookup_files by done. destruct (decide (ino2 = ino)) as [->|Hn3].
  { by rewrite !lookup_insert_eq. }
  rewrite !lookup_insert_ne, lookup_files by done. destruct (I !! ino2) as [i2|] eqn:E; [|done].
  simpl. f_equal. apply untouched_content. by eapply (rs_file _ _ _ _ Hr).
Qed.

(** ** Changes that keep the directory *)

(** The other files may change, but not in number, type or link count. *)
Lemma tree_keep fs I fs' I' :
  tree_wf fs I -> vol_wf fs' I' -> head_wf fs' -> I' !! SFS_ROOT_LOCATION = I !! SFS_ROOT_LOCATION ->
  (forall r, I !! SFS_ROOT_LOCATION = Some r -> untouched fs fs' r) ->
  (forall ino i', I' !! ino = Some i' -> ino <> SFS_ROOT_LOCATION ->
     exists i, I !! ino = Some i /\ sfi_type i' = sfi_type i /\ sfi_linkcount i' = sfi_linkcount i) ->
  (forall ino i, I !! ino = Some i -> sfi_linkcount i <> 0 -> is_Some (I' !! ino)) ->
  tree_wf fs' I' /\ entries fs' I' = entries fs I.
Proof.
  intros [Hv Hh (r & Hr & Hd & Hl) Hu Ht He Hln] Hv' Hh' Er Hun Hback Hfwd.
  destruct (untouched_dir fs fs' r (Hun r Hr) Hd) as [Hd' Ede].
  assert (entries fs' I' = entries fs I) as Ee.
  { unfold entries. by rewrite Er, Hr. }
  split; [|done]. constructor; rewrite ?Ee; [done|done| |done|..].
  - exists r. by rewrite Er.
  - intros ino i' Hi' Hne. destruct (Hback ino i' Hi' Hne) as (i & Hi & -> & _). eauto.
  - intros d Hin Hz. destruct (He d Hin Hz) as [Hne [i Hi]]. split; [done|].
    apply (Hfwd _ i Hi). rewrite (Hln _ _ Hi Hne). pose proof (links_pos _ _ d Hin eq_refl). lia.
  - intros ino i' Hi' Hne. destruct (Hback ino i' Hi' Hne) as (i & Hi & _ & ->). eauto.
Qed.

(** A file other than the root changes. *)
Lemma tree_file fs I ino i fs' i' :
  tree_wf fs I -> I !! ino = Some i -> ino <> SFS_ROOT_LOCATION -> file_upd fs i fs' i' ->
  same_meta i i' -> sfi_size i' < 2 ^ 31 ->
  tree_wf fs' (<[ino := i']> I) /\ entries fs' (<[ino := i']> I) = entries fs I /\
  rest_same fs I ino fs'.
Proof.
  intros Ht Hi Hne Hu (Mt & Ml & _) Hs.
  destruct (vol_upd fs I ino i fs' i' (tw_vol _ _ Ht) Hi Hu Hs) as [Hv' Hrest].
  destruct (tree_keep fs I fs' (<[ino := i']> I) Ht Hv') as [? ?].
  - apply (head_kept fs); [apply Ht|apply Hu|]. intros b Hb. apply (rs_meta _ _ _ _ Hrest). by left.
  - by rewrite lookup_insert_ne.
  - intros r Hr. by apply (rs_file _ _ _ _ Hrest SFS_ROOT_LOCATION).
  - intros ino2 i2 [[<- <-]|[? ?]]%lookup_insert_Some _; eauto.
  - intros ino2 i2 Hi2 _. destruct (decide (ino2 = ino)) as [->|]; [by rewrite lookup_insert_eq|].
    rewrite lookup_insert_ne by done. eauto.
  - by split_and!.
Qed.

(** Nothing of the volume's changes. *)
Lemma tree_kept fs I fs' :
  tree_wf fs I -> vol_wf fs' I -> (forall ino, rest_same fs I ino fs') -> fs_hist fs fs' ->
  tree_wf fs' I /\ entries fs' I = entries fs I.
Proof.
  intros Ht Hv Hr Hh. apply (tree_keep fs I); [done|done| |done|..]; eauto.
  - apply (head_kept fs); [apply Ht|done|]. intros b Hb. apply (rs_meta _ _ _ _ (Hr 0)). by left.
  - intros r Hi. by apply (rs_file _ _ _ _ (Hr 0) SFS_ROOT_LOCATION).
Qed.

Lemma tree_same fs I fs' :
  tree_wf fs I -> fs_same fs fs' ->
  tree_wf fs' I /\ entries fs' I = entries fs I /\ forall ino, rest_same fs I ino fs'.
Proof.
  intros Ht Hs. destruct (vol_same fs I fs' (tw_vol _ _ Ht) Hs) as [Hv Hr].
  destruct (tree_kept fs I fs' Ht Hv Hr) as [? ?]; [|done].
  destruct Hs as [? ->]. by apply fs_hist_same.
Qed.

(** A block is allocated for a new file. *)
Lemma tree_alloc fs I b fs' :
  tree_wf fs I -> fs_ok fs' -> fs_hist fs fs' -> allocated fs b fs' ->
  tree_wf fs' I /\ entries fs' I = entries fs I /\ (forall ino, rest_same fs I ino fs') /\
  I !! b = None /\
  forall i, inode_ok i -> file_blocks fs' i = [] -> sfi_size i < 2 ^ 31 ->
    sfi_type i = SFS_TYPE_FILE -> sfi_linkcount i = 0 ->
    tree_wf fs' (<[b := i]> I) /\ entries fs' (<[b := i]> I) = entries fs I.
Proof.
  intros Ht Hok Hh Ha. destruct (vol_alloc fs I b fs' (tw_vol _ _ Ht) Hok Hh Ha) as (Hv & Hr & Hn & Hnew).
  destruct (tree_kept fs I fs' Ht Hv Hr Hh) as [Ht' Ee].
  split; [done|]. split; [done|]. split; [done|]. split; [done|]. intros i Hi Hb Hs Hty Hl.
  destruct Ht' as [_ Hh' (r & Hr' & Hd & Hlr) Hu Hty' He Hln].
  assert (b <> SFS_ROOT_LOCATION) as Hbr by (intros ->; congruence).
  assert (entries fs' (<[b := i]> I) = entries fs' I) as Ee'.
  { unfold entries. by rewrite lookup_insert_ne. }
  rewrite Ee', Ee in *. split; [|done]. constructor; rewrite ?Ee', ?Ee; [by apply Hnew|done| |done|..].
  - exists r. by rewrite lookup_insert_ne.
  - intros ino i' [[<- <-]|[? ?]]%lookup_insert_Some ?; eauto.
  - intros d Hd' Hz. destruct (He d Hd' Hz) as [? ?]. split; [done|].
    destruct (decide (sfd_ino d = b)) as [->|]; [by rewrite lookup_insert_eq|by rewrite lookup_insert_ne].
  - intros ino i' [[<- <-]|[? ?]]%lookup_insert_Some ?; [|by apply Hln].
    rewrite Hl. destruct (links (entries fs I) b) as [|n] eqn:E; [done|exfalso].
    unfold links in E. destruct (filter _ _) as [|d l] eqn:Ef; [done|].
    assert (d ∈ filter (fun d => sfd_ino d = b) (entries fs I)) as [Hdb Hde]%list_elem_of_filter
      by (rewrite Ef; by left).
    destruct (He d Hde) as [_ [? Hs']]; [|congruence]. destruct Ha as [? _]. lia.
Qed.

(** A file without links is deleted. *)
Lemma tree_free fs I ino i fs' :
  tree_wf fs I -> I !! ino = Some i -> ino <> SFS_ROOT_LOCATION -> sfi_linkcount i = 0 ->
  fs_ok fs' -> fs_hist fs fs' ->
  (forall b', 0 <= b' -> used fs' b' = negb (b' =? ino) && used fs b') ->
  (forall b', blk fs' b' = blk fs b') ->
  tree_wf fs' (delete ino I) /\ entries fs' (delete ino I) = entries fs I /\
  forall ino' i', I !! ino' = Some i' -> ino' <> ino -> untouched fs fs' i'.
Proof.
  intros Ht Hi Hne Hl Hok Hh Hu Hb.
  destruct (vol_free fs I ino i fs' (tw_vol _ _ Ht) Hi Hok Hh Hu Hb) as [Hv Hun].
  destruct (tree_keep fs I fs' (delete ino I) Ht Hv) as [? ?]; [|by rewrite lookup_delete_ne|..|by split_and!].
  - apply (head_kept fs); [apply Ht|done|auto].
  - intros r Hr. by apply (Hun SFS_ROOT_LOCATION).
  - intros ino2 i2 [? ?]%lookup_delete_Some _. eauto.
  - intros ino2 i2 Hi2 Hl2. rewrite lookup_delete_ne; [eauto|]. congruence.
Qed.

(** An inode is written to its block. *)
Lemma tree_write fs I ino bs d' :
  tree_wf fs I -> is_Some (I !! ino) -> dev_upd (fs_device fs) ino bs d' ->
  tree_wf (set_device d' fs) I /\ entries (set_device d' fs) I = entries fs I /\
  (forall ino' i, I !! ino' = Some i -> untouched fs (set_device d' fs) i) /\
  forall b', blk (set_device d' fs) b' = if decide (b' = ino) then bs else blk fs b'.
Proof.
  intros Ht Hi Hd.
  destruct (vol_write fs I ino bs d' (tw_vol _ _ Ht)) as (Hv & Hun & Hb); [by right|done|].
  destruct (tree_keep fs I (set_device d' fs) I Ht Hv) as [? ?]; [|done|..|by split_and!]; eauto.
  apply (head_kept fs); [apply Ht|by eapply fs_hist_upd|]. intros b Hr.
  rewrite Hb, decide_False; [done|]. intros ->. by apply (vw_ino _ _ (tw_vol _ _ Ht) ino).
Qed.

(** ** Changes of the directory *)

Lemma file_upd_links fs i n :
  fs_ok fs -> file_wf fs i -> 0 <= n < 2 ^ 16 -> file_upd fs i fs (set_linkcount n i).
Proof.
  intros Hok ((? & ? & ? & ?) & ? & ?) Hn. constructor; [done| |apply fs_hist_refl|done].
  by split_and!.
Qed.

(** The root directory changes, and with it the link count of the file [ino]. *)
Lemma tree_relink fs I r fs' r' ino i L :
  tree_wf fs I -> I !! SFS_ROOT_LOCATION = Some r -> file_upd fs r fs' r' -> same_meta r r' ->
  dir_wf fs' r' -> dents fs' r' = L -> names_unique L ->
  I !! ino = Some i -> ino <> SFS_ROOT_LOCATION ->
  (forall d, d ∈ L -> sfd_ino d <> 0 -> sfd_ino d = ino \/ d ∈ entries fs I) ->
  (forall ino2, ino2 <> 0 -> ino2 <> ino -> links L ino2 = links (entries fs I) ino2) ->
  let I' := <[ino := set_linkcount (Z.of_nat (links L ino)) i]> (<[SFS_ROOT_LOCATION := r']> I) in
  tree_wf fs' I' /\ entries fs' I' = L /\ rest_same fs I SFS_ROOT_LOCATION fs'.
Proof.
  intros Ht Hr Hu (_ & Ml & _) Hd Ede Hun Hi Hne Hel Hli I'.
  destruct (tw_root _ _ Ht) as (r0 & Hr0 & _ & Hl0). rewrite Hr in Hr0. injection Hr0 as <-.
  destruct (dir_size _ _ Hd) as [Hsz Hn].
  assert (links L ino <= 1144)%nat as Hlb.
  { etransitivity; [apply links_le|]. by rewrite <- Ede, length_dents. }
  destruct (vol_upd fs I _ r fs' r' (tw_vol _ _ Ht) Hr Hu) as [Hv1 Hrest]; [lia|].
  assert ((<[SFS_ROOT_LOCATION := r']> I) !! ino = Some i) as Hi1 by by rewrite lookup_insert_ne.
  destruct (vw_file _ _ Hv1 _ _ Hi1) as [Hw1 Hs1].
  destruct (vol_upd fs' _ ino i fs' (set_linkcount (Z.of_nat (links L ino)) i) Hv1 Hi1) as [Hv2 _];
    [apply file_upd_links; [apply Hv1|done|lia]|done|].
  assert (I' !! SFS_ROOT_LOCATION = Some r') as Hr'
    by (unfold I'; by rewrite lookup_insert_ne, lookup_insert_eq).
  assert (entries fs' I' = L) as Ee by by rewrite (entries_root _ _ _ Hr').
  assert (forall ino2 i2, I' !! ino2 = Some i2 -> ino2 <> SFS_ROOT_LOCATION ->
    ino2 = ino /\ i2 = set_linkcount (Z.of_nat (links L ino)) i \/
    ino2 <> ino /\ I !! ino2 = Some i2) as Hcase.
  { intros ino2 i2 [[<- <-]|[? [[<- <-]|[? ?]]%lookup_insert_Some]]%lookup_insert_Some ?; naive_solver. }
  split; [|by split]. constructor; rewrite ?Ee; [done| | |done|..].
  - apply (head_kept fs); [apply Ht|apply Hu|]. intros b Hb. apply (rs_meta _ _ _ _ Hrest). by left.
  - exists r'. split; [done|]. split; [done|]. by rewrite Ml.
  - intros ino2 i2 H2 Hn2. destruct (Hcase _ _ H2 Hn2) as [[-> ->]|[? ?]]; [exact (tw_type _ _ Ht ino i Hi Hne)|by eapply (tw_type _ _ Ht)].
  - intros d Hin Hz. assert (sfd_ino d <> SFS_ROOT_LOCATION /\ is_Some (I !! sfd_ino d)) as [Hdr Hds].
    { destruct (Hel d Hin Hz) as [->|?]; [eauto|by apply (tw_ents _ _ Ht)]. }
    split; [done|]. unfold I'. destruct (decide (sfd_ino d = ino)) as [->|]; [by rewrite lookup_insert_eq|].
    by rewrite !lookup_insert_ne.
  - intros ino2 i2 H2 Hn2. destruct (Hcase _ _ H2 Hn2) as [[-> ->]|[Hn3 H3]]; [done|].
    rewrite Hli; [by apply (tw_links _ _ Ht)| |done].
    destruct (tree_ino fs I ino2 (tw_vol _ _ Ht)) as [? _]; [by eauto|lia].
Qed.

(** The root directory's file changes, but not its entries. *)
Lemma tree_root fs I r fs' r' :
  tree_wf fs I -> I !! SFS_ROOT_LOCATION = Some r -> file_upd fs r fs' r' -> same_meta r r' ->
  dir_wf fs' r' -> dents fs' r' = dents fs r ->
  let I' := <[SFS_ROOT_LOCATION := r']> I in
  tree_wf fs' I' /\ entries fs' I' = entries fs I /\ rest_same fs I SFS_ROOT_LOCATION fs'.
Proof.
  intros Ht Hr Hu (_ & Ml & _) Hd Ede I'. destruct (dir_size _ _ Hd) as [Hsz Hn].
  destruct (vol_upd fs I _ r fs' r' (tw_vol _ _ Ht) Hr Hu) as [Hv1 Hrest]; [lia|].
  assert (I' !! SFS_ROOT_LOCATION = Some r') as Hr' by apply lookup_insert_eq.
  assert (entries fs' I' = entries fs I) as Ee
    by by rewrite (entries_root _ _ _ Hr'), (entries_root _ _ _ Hr).
  assert (forall ino i, ino <> SFS_ROOT_LOCATION -> I' !! ino = Some i -> I !! ino = Some i) as Hc
    by (intros ino i ?; unfold I'; by rewrite lookup_insert_ne).
  split; [|by split]. constructor; rewrite ?Ee; [done| | |apply Ht|..].
  - apply (head_kept fs); [apply Ht|apply Hu|]. intros b Hb. apply (rs_meta _ _ _ _ Hrest). by left.
  - destruct (tw_root _ _ Ht) as (r0 & Hr0 & _ & ?). rewrite Hr in Hr0. injection Hr0 as <-.
    exists r'. by rewrite Ml.
  - intros ino i Hi Hne. by eapply (tw_type _ _ Ht); [apply Hc|].
  - intros d Hin Hz. destruct (tw_ents _ _ Ht d Hin Hz) as [? ?]. split; [done|].
    unfold I'. by rewrite lookup_insert_ne.
  - intros ino i Hi Hne. by apply (tw_links _ _ Ht); [apply Hc|].
Qed.
End tree.
