(* ===== verification/SfsTable.v ===== *)
(** * The table of vnodes of a mounted volume

    [table_wf] ties the array sfs_vnodes to the vnodes in memory and to the heap
    blocks the volume owns.  With it come the vnode functions of vnode.c, the search
    of the table, and the part of [sfs_loadvnode] that makes a new vnode. *)

From stdpp Require Import base option list gmap numbers.
From S2P Require Import Prelude Kmem Array Bitmap Uio Device SfsDisk Sfs.
From S2P Require Import SfsBlock SfsBmap SfsFile SfsMount.

Section table.
Context {H D : Type} `{!Kmalloc H, !KmallocLaws H, !Device D, !DeviceLaws D}.
Implicit Types m : mnt H D.

(** ** What the volume owns *)

Definition table m : list Z := omap id (contents (m_vnodes m)).

Definition node_blocks (nodes : gmap Z sfs_vnode) (p : Z) : list Z :=
  match nodes !! p with
  | Some sv => match vn_countlock (sv_v sv) with Some (l, n) => [n; l; p] | None => [p] end
  | None => []
  end.

Definition base_blocks m : list Z :=
  [b_vptr (fs_freemap (m_fs m)); b_self (fs_freemap (m_fs m)); m_self m].

Definition mnt_blocks m : list Z :=
  array_blocks (m_vnodes m) ++ (table m ≫= node_blocks (m_nodes m)) ++ base_blocks m.

Record table_wf m : Prop := {
  tb_contents : contents (m_vnodes m) = Some <$> table m;
  tb_nodup : NoDup (table m);
  tb_dom : forall p, p ∈ table m <-> is_Some (m_nodes m !! p);
  tb_array : array_wf (m_heap m) (m_vnodes m);
  tb_owns : owns (m_heap m) (mnt_blocks m);
}.

(** No memory of others was touched, and none was lost. *)
Definition heap_step m m' : Prop :=
  same_others (m_heap m) (mnt_blocks m) (m_heap m') (mnt_blocks m') /\ m_self m' = m_self m.

Lemma heap_step_refl m : heap_step m m.
Proof. split; [apply same_others_refl|done]. Qed.

Lemma heap_step_trans m1 m2 m3 : heap_step m1 m2 -> heap_step m2 m3 -> heap_step m1 m3.
Proof. intros [? ?] [? ?]. split; [by eapply same_others_trans|congruence]. Qed.

Lemma table_num m : table_wf m -> a_num (m_vnodes m) = Z.of_nat (length (table m)).
Proof.
  intros [Hc _ _ (_ & _ & Hb) _]. pose proof (contents_length _ Hb) as Hl.
  rewrite Hc, length_fmap in Hl. destruct Hb as (? & _). lia.
Qed.

Lemma table_get m (i : nat) p :
  table_wf m -> table m !! i = Some p -> array_getguy (m_vnodes m) (Z.of_nat i) = Some (Some p).
Proof.
  intros Ht Hi. pose proof (table_num m Ht). pose proof (lookup_lt_Some _ _ _ Hi).
  rewrite (array_getguy_wp (m_heap m)) by (apply Ht || lia).
  by rewrite (tb_contents m Ht), Nat2Z.id, list_lookup_fmap, Hi.
Qed.

(** ** Changing a vnode, and the volume *)

Lemma node_blocks_ext nodes nodes' (l : list Z) :
  (forall p, p ∈ l -> node_blocks nodes' p = node_blocks nodes p) ->
  l ≫= node_blocks nodes' = l ≫= node_blocks nodes.
Proof.
  intros He. induction l as [|p l IH]; [done|]. rewrite !bind_cons, He, IH; [done|set_solver..].
Qed.

Lemma set_node_blocks p sv sv' m :
  m_nodes m !! p = Some sv -> vn_countlock (sv_v sv') = vn_countlock (sv_v sv) ->
  mnt_blocks (set_node p sv' m) = mnt_blocks m.
Proof.
  intros Hp Hl. unfold mnt_blocks. simpl. do 2 f_equal. apply node_blocks_ext. intros q _.
  unfold node_blocks. destruct (decide (q = p)) as [->|]; [|by rewrite lookup_insert_ne].
  by rewrite lookup_insert_eq, Hp, Hl.
Qed.

Lemma set_node_table p sv sv' m :
  table_wf m -> m_nodes m !! p = Some sv -> vn_countlock (sv_v sv') = vn_countlock (sv_v sv) ->
  table_wf (set_node p sv' m) /\ heap_step m (set_node p sv' m).
Proof.
  intros [Hc Hn Hd Ha Ho] Hp Hl. pose proof (set_node_blocks p sv sv' m Hp Hl) as Eb.
  unfold heap_step. rewrite Eb. split; [|by split; [apply same_others_refl|]].
  constructor; [done|done| |done|by rewrite Eb]. intros q. rewrite (Hd q). simpl.
  destruct (decide (q = p)) as [->|]; [|by rewrite lookup_insert_ne].
  rewrite lookup_insert_eq, Hp. split; eauto.
Qed.

Lemma set_fs_table fs m :
  table_wf m -> map_shape (fs_freemap fs) = map_shape (fs_freemap (m_fs m)) ->
  table_wf (set_fs fs m) /\ heap_step m (set_fs fs m).
Proof.
  intros [Hc Hn Hd Ha Ho] [= Es _ Ep].
  assert (mnt_blocks (set_fs fs m) = mnt_blocks m) as Eb.
  { unfold mnt_blocks, base_blocks. simpl. by rewrite Es, Ep. }
  unfold heap_step. rewrite Eb. split; [|by split; [apply same_others_refl|]].
  constructor; [done..|]. by rewrite Eb.
Qed.

(** ** vnode.c *)

Lemma vnode_init_wp ops h ps :
  heap_ok h -> owns h ps ->
  exists r v h', vnode_init ops h = Some (r, v, h') /\ heap_ok h' /\
    (r = 0 /\ (exists l n, v = Vnode 1 0 (Some (l, n)) (Some ops) /\
       owns h' (n :: l :: ps) /\ same_others h ps h' (n :: l :: ps)) \/
     r = ENOMEM /\ blocks h' = blocks h).
Proof.
  intros Hok Ho. unfold vnode_init.
  destruct (kmalloc_total h 12 Hok) as [[l h1] E1]; [by unfold kmalloc_size|]. rewrite E1.
  cbn [mbind option_bind]. destruct (l =? 0) eqn:El; boolify.
  { subst l. destruct (kmalloc_null h h1 12 Hok ltac:(by unfold kmalloc_size) E1) as [? ?].
    eexists _, _, h1. split; [done|]. split; [done|]. by right. }
  destruct (owns_fresh h h1 12 l ps Hok) as (Hok1 & Ho1 & Hs1); [by unfold kmalloc_size|done..|].
  unfold kstrdup. change (u32 _) with 16.
  destruct (kmalloc_total h1 16 Hok1) as [[n h2] E2]; [by unfold kmalloc_size|]. rewrite E2.
  cbn [mbind option_bind]. destruct (n =? 0) eqn:En; boolify; cbn [mbind option_bind].
  - subst n. destruct (kmalloc_null h1 h2 16 Hok1 ltac:(by unfold kmalloc_size) E2) as [Hok2 E].
    destruct (kmalloc_block h h1 12 l Hok) as (_ & Hn & Hb); [by unfold kmalloc_size|done..|].
    destruct (kfree_live h2 l Hok2) as (h3 & -> & Hok3 & Hb3).
    { rewrite E, Hb, lookup_insert_eq. eauto. }
    eexists _, _, h3. split; [done|]. split; [done|]. right. split; [done|].
    by rewrite Hb3, E, Hb, delete_insert_id.
  - destruct (owns_fresh h1 h2 16 n (l :: ps) Hok1) as (Hok2 & Ho2 & Hs2); [by unfold kmalloc_size|done..|].
    eexists 0, _, h2. split; [done|]. split; [done|]. left. split; [done|].
    exists l, n. split; [done|]. split; [done|]. by eapply same_others_trans.
Qed.

Lemma vnode_kill_wp v l n h ps :
  vn_refcount v = 1 -> vn_opencount v = 0 -> vn_countlock v = Some (l, n) ->
  heap_ok h -> owns h (n :: l :: ps) ->
  exists h', vnode_kill v h = Some h' /\ heap_ok h' /\ owns h' ps /\
    same_others h (n :: l :: ps) h' ps.
Proof.
  intros Hr Ho Hl Hok Hown. unfold vnode_kill. rewrite Hr, Ho, Hl. simpl.
  destruct (owns_free h n [] (l :: ps) Hok Hown) as (h1 & -> & Hok1 & Ho1 & Hs1). simpl in *.
  destruct (owns_free h1 l [] ps Hok1 Ho1) as (h2 & E2 & Hok2 & Ho2 & Hs2). simpl in *.
  exists h2. split; [done|]. split; [done|]. split; [done|]. by eapply same_others_trans.
Qed.

(** ** Searching the table *)

(** The vnode for the inode [ino] is in memory. *)
Definition loaded m (ino : Z) : Prop :=
  exists p sv, m_nodes m !! p = Some sv /\ sv_ino sv = ino.

Lemma find_ino_wp n (i : nat) ino m :
  table_wf m -> fs_ok (m_fs m) ->
  (forall p sv, m_nodes m !! p = Some sv ->
     0 <= sv_ino sv < nblocks (m_fs m) /\ used (m_fs m) (sv_ino sv) = true) ->
  (i + n = length (table m))%nat ->
  exists o, find_ino n (Z.of_nat i) ino m = Some o /\
    match o with
    | Some p => exists sv, m_nodes m !! p = Some sv /\ sv_ino sv = ino
    | None => forall p sv, p ∈ drop i (table m) -> m_nodes m !! p = Some sv -> sv_ino sv <> ino
    end.
Proof.
  intros Ht Hok Hn. revert i. induction n as [|n IH]; intros i Hi.
  { exists None. split; [done|]. intros p sv. rewrite drop_ge by lia.
    by intros ?%not_elem_of_nil. }
  destruct (lookup_lt_is_Some_2 (table m) i) as [p Hp]; [lia|]. simpl.
  rewrite (table_get m i p Ht Hp). simpl.
  destruct (proj1 (tb_dom m Ht p)) as [sv Hsv]; [by eapply list_elem_of_lookup_2|].
  rewrite Hsv. simpl. destruct (Hn p sv Hsv) as [Hr Hu].
  destruct (sfs_bused_wp (sv_ino sv) (m_fs m) Hok Hr) as (w & -> & Hw). rewrite Hu in Hw.
  simpl in Hw |- *. rewrite Hw. destruct (sv_ino sv =? ino) eqn:E; boolify; [by exists (Some p); eauto|].
  replace (Z.of_nat i + 1) with (Z.of_nat (S i)) by lia.
  destruct (IH (S i)) as (o & -> & Ho); [lia|]. exists o. split; [done|].
  destruct o; [done|]. intros q sv' Hq Hsv'. rewrite (drop_S _ _ _ Hp) in Hq.
  apply elem_of_cons in Hq as [->|Hq]; [congruence|by eapply Ho].
Qed.

Lemma find_vnode_wp n (i : nat) p m :
  table_wf m -> (i + n = length (table m))%nat -> p ∈ drop i (table m) ->
  exists k, find_vnode n (Z.of_nat i) p (m_vnodes m) = Some (Z.of_nat k) /\ table m !! k = Some p.
Proof.
  intros Ht. revert i. induction n as [|n IH]; intros i Hi Hp.
  { rewrite drop_ge in Hp by lia. by apply not_elem_of_nil in Hp. }
  destruct (lookup_lt_is_Some_2 (table m) i) as [q Hq]; [lia|]. simpl.
  rewrite (table_get m i q Ht Hq). simpl. case_bool_decide as E.
  { injection E as ->. eauto. }
  replace (Z.of_nat i + 1) with (Z.of_nat (S i)) by lia. apply IH; [lia|].
  rewrite (drop_S _ _ _ Hq) in Hp. apply elem_of_cons in Hp as [->|]; [done|done].
Qed.

(** ** Memory *)

Lemma set_mheap_table h m :
  table_wf m -> heap_ok h -> owns h (mnt_blocks m) -> table_wf (set_mheap h m).
Proof.
  intros [Hc Hn Hd (_ & _ & Hb) _] Hok Ho. constructor; [done|done|done| |done].
  split; [done|]. split; [|done]. by apply owns_app in Ho as [? _].
Qed.

(** The heap is what it was, after a failed attempt. *)
Lemma set_mheap_undone h m :
  table_wf m -> heap_ok h -> same_others (m_heap m) (mnt_blocks m) h (mnt_blocks m) ->
  owns h (mnt_blocks m) -> table_wf (set_mheap h m) /\ heap_step m (set_mheap h m).
Proof. intros Ht Hok Hs Ho. split; [by apply set_mheap_table|by split]. Qed.

Lemma owns_blocks h h' ps : blocks h' = blocks h -> owns h ps -> owns h' ps.
Proof. intros E [? Hl]. split; [done|]. by rewrite E. Qed.

(** The array grows by [p], whose blocks are there already. *)
Lemma table_add m p sv l n h a h' :
  table_wf m -> heap_ok h -> owns h (n :: l :: p :: mnt_blocks m) ->
  vn_countlock (sv_v sv) = Some (l, n) -> m_nodes m !! p = None ->
  array_wf h' a -> same_others h (array_blocks (m_vnodes m)) h' (array_blocks a) ->
  contents a = contents (m_vnodes m) ++ [Some p] ->
  let m' := set_node p sv (set_mheap h' (set_vnodes a m)) in
  table_wf m' /\ same_others h (n :: l :: p :: mnt_blocks m) h' (mnt_blocks m').
Proof.
  intros [Hc Hn Hd _ _] Hok Ho Hl Hp Ha Hs Ec m'.
  assert (table m' = table m ++ [p]) as Et.
  { unfold table. simpl. by rewrite Ec, omap_app. }
  set (rest := (table m ≫= node_blocks (m_nodes m)) ++ base_blocks m).
  assert (mnt_blocks m' ≡ₚ array_blocks a ++ ([n; l; p] ++ rest)) as Ep.
  { unfold mnt_blocks. rewrite Et. change (m_vnodes m') with a. apply Permutation_app_head.
    unfold rest. change (base_blocks m') with (base_blocks m). rewrite (app_assoc [n; l; p]).
    apply Permutation_app_tail. change (m_nodes m') with (<[p := sv]> (m_nodes m)).
    rewrite bind_app, bind_cons. change ([] ≫= ?f) with (@nil Z). rewrite app_nil_r.
    replace (node_blocks (<[p := sv]> (m_nodes m)) p) with [n; l; p]
      by (unfold node_blocks; by rewrite lookup_insert_eq, Hl).
    rewrite Permutation_app_comm. apply Permutation_app_head.
    erewrite node_blocks_ext; [reflexivity|]. intros q Hq.
    unfold node_blocks. rewrite lookup_insert_ne; [done|]. intros ->.
    apply Hd in Hq as [? Hq]. congruence. }
  assert (n :: l :: p :: mnt_blocks m ≡ₚ array_blocks (m_vnodes m) ++ ([n; l; p] ++ rest)) as Ep0.
  { unfold mnt_blocks. change (n :: l :: p :: ?x) with ([n; l; p] ++ x).
    apply Permutation_app_swap_app. }
  rewrite Ep0 in Ho. split.
  - constructor.
    + rewrite Et. change (m_vnodes m') with a. by rewrite Ec, Hc, fmap_app.
    + rewrite Et. apply list.NoDup_app. split; [done|]. split; [|apply NoDup_singleton].
      intros q Hq ->%list_elem_of_singleton. apply Hd in Hq as [? Hq]. congruence.
    + intros q. rewrite Et, elem_of_app, Hd, list_elem_of_singleton. simpl.
      destruct (decide (q = p)) as [->|]; [|rewrite lookup_insert_ne by done; tauto].
      rewrite lookup_insert_eq, Hp. split; [eauto|by right].
    + exact Ha.
    + rewrite Ep. eapply owns_frame; [exact Hs|apply Ha|exact Ho].
  - rewrite Ep, Ep0. by apply same_others_app.
Qed.

(** ** Making a vnode *)

Lemma set_fs_same m fs' :
  table_wf m -> fs_same (m_fs m) fs' -> table_wf (set_fs fs' m) /\ heap_step m (set_fs fs' m).
Proof. intros Ht [_ ->]. by apply set_fs_table. Qed.

Lemma same_others_sym h ps h' ps' : same_others h ps h' ps' -> same_others h' ps' h ps.
Proof. intros Hs q k. by rewrite (Hs q k). Qed.

(** The vnode's own block is given back. *)
Lemma undo_node m m1 p h0 h h' :
  table_wf m1 -> m_heap m1 = h0 -> heap_ok h -> owns h (p :: mnt_blocks m1) ->
  same_others h0 (mnt_blocks m1) h (p :: mnt_blocks m1) -> heap_step m m1 ->
  kfree p h = Some h' -> table_wf (set_mheap h' m1) /\ heap_step m (set_mheap h' m1).
Proof.
  intros Ht <- Hok Ho Hs Hst Hk.
  destruct (owns_free h p [] (mnt_blocks m1) Hok Ho) as (h2 & E & Hok2 & Ho2 & Hs2).
  rewrite Hk in E. injection E as <-. simpl in *.
  destruct (set_mheap_undone h' m1 Ht Hok2) as [? ?]; [by eapply same_others_trans|done|].
  split; [done|]. by eapply heap_step_trans.
Qed.

Definition load_new_post ino ops i dirty m (r p : Z) m' : Prop :=
  fs_same (m_fs m) (m_fs m') /\ table_wf m' /\ heap_step m m' /\
  (r = 0 /\ m_nodes m !! p = None /\
   (exists l n, m_nodes m' =
      <[p := SfsVnode (Vnode 1 0 (Some (l, n)) (Some ops)) i ino dirty]> (m_nodes m)) \/
   r <> 0 /\ m_nodes m' = m_nodes m /\ (r = ENOMEM \/ r = EIO /\ ~ reliable (m_fs m))).

Lemma fresh_node m p h :
  table_wf m -> owns h (p :: mnt_blocks m) -> m_nodes m !! p = None.
Proof.
  intros Ht [[Hp _]%list.NoDup_cons _]. apply eq_None_not_Some. intros [sv Hsv]. apply Hp.
  unfold mnt_blocks. rewrite !elem_of_app. right; left. apply list_elem_of_bind. exists p.
  unfold node_blocks. rewrite Hsv. split; [destruct (vn_countlock _) as [[??]|]; set_solver|].
  apply (tb_dom m Ht). eauto.
Qed.

(** The array, when the volume's blocks are owned along with some others. *)
Lemma array_here h ps m :
  table_wf m -> heap_ok h -> owns h (ps ++ mnt_blocks m) -> array_wf h (m_vnodes m).
Proof.
  intros Ht Hok (_ & (Ho & _)%owns_app & _)%owns_app. destruct (tb_array m Ht) as (_ & _ & ?). done.
Qed.

Lemma array_kept h ps m h' :
  array_wf h' (m_vnodes m) ->
  same_others h (array_blocks (m_vnodes m)) h' (array_blocks (m_vnodes m)) ->
  owns h (ps ++ mnt_blocks m) ->
  owns h' (ps ++ mnt_blocks m) /\ same_others h (ps ++ mnt_blocks m) h' (ps ++ mnt_blocks m).
Proof.
  intros Ha Hs Ho. unfold mnt_blocks in *. rewrite Permutation_app_swap_app in Ho |- *.
  split; [by eapply owns_frame; [exact Hs|apply Ha|]|by apply same_others_app].
Qed.

(** From the call of [vnode_init] on. *)
Lemma load_finish ino ops i dirty m fs h p :
  let m1 := set_fs fs m in
  table_wf m1 -> heap_step m m1 -> fs_same (m_fs m) fs -> p <> 0 ->
  Z.of_nat (length (table m)) < max_guys -> heap_ok h -> owns h (p :: mnt_blocks m1) ->
  same_others (m_heap m1) (mnt_blocks m1) h (p :: mnt_blocks m1) ->
  exists r q m',
    ('(result, v, h) ← vnode_init ops h;
     if negb (result =? 0) then
       h ← kfree p h; Some (result, 0, set_mheap h m1)
     else
       '(result, a, h) ← array_add (m_vnodes m1) p h;
       let m := set_vnodes a m1 in
       if negb (result =? 0) then
         h ← vnode_kill v h;
         h ← kfree p h; Some (result, 0, set_mheap h m)
       else
         Some (0, p, set_node p (SfsVnode v i ino dirty) (set_mheap h m))) = Some (r, q, m') /\
    load_new_post ino ops i dirty m r q m'.
Proof.
  intros m1 Ht Hst Hs Hp Hlen Hok Ho Hso. pose proof (fresh_node m1 p h Ht Ho) as Hfr.
  destruct (vnode_init_wp ops h (p :: mnt_blocks m1) Hok Ho)
    as (r & v & h1 & -> & Hok1 & [(-> & l & n & -> & Ho1 & Hs1)|[-> Eb]]); simpl.
  2:{ pose proof (owns_blocks _ _ _ Eb Ho) as Ho1.
      destruct (owns_free h1 p [] (mnt_blocks m1) Hok1 Ho1) as (h2 & E2 & _). rewrite E2. simpl.
      eexists ENOMEM, 0, _. split; [done|].
      destruct (undo_node m m1 p (m_heap m1) h1 h2) as [? ?]; try done.
      { eapply same_others_trans; [exact Hso|]. by apply same_others_blocks. }
      split; [done|]. split; [done|]. split; [done|]. right. auto. }
  pose proof (array_here h1 [n; l; p] m1 Ht Hok1 Ho1) as Ha1.
  destruct (array_add_wp h1 (m_vnodes m1) p Ha1) as (r & a & h2 & E & Ha2 & Hs2 & Hr & _).
  { rewrite (table_num m1 Ht). exact Hlen. }
  simpl in E. rewrite E. simpl. destruct Hr as [[-> ->]|[-> Ec]]; simpl.
  - destruct (array_kept h1 [n; l; p] m1 h2 Ha2 Hs2 Ho1) as [Ho2 Hs2'].
    destruct (vnode_kill_wp (Vnode 1 0 (Some (l, n)) (Some ops)) l n h2 (p :: mnt_blocks m1))
      as (h3 & E3 & Hok3 & Ho3 & Hs3); [done..|apply Ha2|done|]. rewrite E3. simpl.
    destruct (owns_free h3 p [] (mnt_blocks m1) Hok3 Ho3) as (h4 & E4 & _). rewrite E4. simpl.
    eexists ENOMEM, 0, _. split; [done|].
    destruct (undo_node m m1 p (m_heap m1) h3 h4) as [? ?]; try done.
    { eapply same_others_trans; [exact Hso|]. eapply same_others_trans; [exact Hs1|].
      eapply same_others_trans; [exact Hs2'|exact Hs3]. }
    split; [done|]. replace (set_vnodes (m_vnodes m1) m1) with m1 by (by destruct m).
    split; [done|]. split; [done|]. right. auto.
  - eexists 0, p, _. split; [done|].
    destruct (table_add m1 p (SfsVnode (Vnode 1 0 (Some (l, n)) (Some ops)) i ino dirty) l n h1 a h2)
      as [Ht' Hs']; try done.
    split; [done|]. split; [done|]. split; [|left; eauto].
    eapply heap_step_trans; [exact Hst|]. split; [|done]. eapply same_others_trans; [exact Hso|].
    eapply same_others_trans; [exact Hs1|exact Hs'].
Qed.

Lemma load_new ino ft m i dirty ops :
  table_wf m -> fs_ok (m_fs m) -> Z.of_nat (length (table m)) < max_guys ->
  find_ino (Z.to_nat (array_getnum (m_vnodes m))) 0 ino m = Some None ->
  0 <= ino < nblocks (m_fs m) -> used (m_fs m) ino = true ->
  force_type ft (dec_inode (blk (m_fs m) ino)) = Some (i, dirty) ->
  ops_of_type (sfi_type i) = Some ops ->
  exists r p m', sfs_loadvnode ino ft m = Some (r, p, m') /\ load_new_post ino ops i dirty m r p m'.
Proof.
  intros Ht Hok Hlen Hf Hino Hu Hi Hops. unfold sfs_loadvnode. rewrite Hf. cbn [mbind option_bind].
  pose proof (tb_array m Ht) as (Hh & _). unfold sizeof_sfs_vnode.
  destruct (kmalloc_total (m_heap m) 544 Hh) as [[p h] Ek]; [by unfold kmalloc_size|]. rewrite Ek.
  cbn [mbind option_bind]. destruct (p =? 0) eqn:Ep; boolify.
  { subst p. destruct (kmalloc_null (m_heap m) h 544 Hh ltac:(by unfold kmalloc_size) Ek) as [? Eb].
    eexists ENOMEM, 0, _. split; [done|]. split; [by apply fs_same_refl|].
    destruct (set_mheap_undone h m Ht) as [? ?]; [done|by apply same_others_blocks| |].
    { eapply owns_blocks; [done|apply Ht]. }
    split; [done|]. split; [done|]. right. auto. }
  destruct (owns_fresh (m_heap m) h 544 p (mnt_blocks m) Hh) as (Hh1 & Ho1 & Hs1);
    [by unfold kmalloc_size|done|done|apply Ht|].
  destruct (sfs_bused_wp ino (m_fs m) Hok Hino) as (w & -> & Hw). rewrite Hu in Hw.
  cbn [mbind option_bind]. rewrite Hw. cbn [negb].
  destruct (sfs_rblock_wp zeroblock ino (m_fs m)) as (r & bs & d & -> & Hd & Hbs & Hr);
    [apply Hok|apply zeroblock_bytes|destruct Hok as (_ & _ & ? & _); lia|].
  cbn [mbind option_bind]. pose proof (fs_same_device _ _ Hd) as Hsame.
  destruct (set_fs_same m _ Ht Hsame) as [Ht1 Hst1].
  destruct (r =? 0) eqn:Er; boolify; cbn [negb].
  - subst r. rewrite (Hbs eq_refl). unfold blk in Hi. rewrite Hi. cbn [mbind option_bind].
    rewrite Hops. cbn [mbind option_bind]. by apply load_finish.
  - destruct (owns_free h p [] (mnt_blocks m) Hh1 Ho1) as (h2 & E2 & _). rewrite E2.
    cbn [mbind option_bind]. eexists r, 0, _. split; [done|]. split; [exact Hsame|].
    destruct (undo_node m (set_fs (set_device d (m_fs m)) m) p (m_heap m) h h2) as [? ?]; try done.
    split; [done|]. split; [done|]. right. split; [done|]. split; [done|]. right. auto.
Qed.

(** ** Dropping a vnode *)

Lemma omap_id_delete (l : list (option Z)) (ps : list Z) k :
  l = Some <$> ps -> omap id (delete k l) = delete k ps.
Proof.
  intros ->. rewrite <- list_fmap_delete. generalize (delete k ps). intros qs.
  induction qs as [|p qs IH]; [done|]. cbn. by f_equal.
Qed.

Lemma del_node_blocks m p sv l n k a h :
  table_wf m -> table m !! k = Some p -> m_nodes m !! p = Some sv ->
  vn_countlock (sv_v sv) = Some (l, n) -> array_blocks a = array_blocks (m_vnodes m) ->
  contents a = delete k (contents (m_vnodes m)) ->
  let m' := del_node p (set_vnodes a (set_mheap h m)) in
  table m' = delete k (table m) /\ mnt_blocks m ≡ₚ n :: l :: p :: mnt_blocks m'.
Proof.
  intros [Hc Hn Hd _ _] Hk Hp Hl Ea Ec m'.
  assert (table m' = delete k (table m)) as Et.
  { unfold table at 1. change (m_vnodes m') with a. rewrite Ec. by apply omap_id_delete. }
  split; [done|]. unfold mnt_blocks. change (m_vnodes m') with a. rewrite Et, Ea.
  change (n :: l :: p :: ?x) with ([n; l; p] ++ x). rewrite (Permutation_app_swap_app [n; l; p]).
  apply Permutation_app_head. change (base_blocks m') with (base_blocks m).
  rewrite (app_assoc [n; l; p]). apply Permutation_app_tail.
  rewrite <- (take_drop_middle _ _ _ Hk) in Hn |- * at 1.
  rewrite delete_take_drop, !bind_app, bind_cons.
  replace (node_blocks (m_nodes m) p) with [n; l; p] by (unfold node_blocks; by rewrite Hp, Hl).
  rewrite (Permutation_app_swap_app [n; l; p]).
  apply list.NoDup_app in Hn as (_ & Hn1 & [Hn2 _]%list.NoDup_cons).
  change (m_nodes m') with (delete p (m_nodes m)).
  assert (forall q, q <> p -> node_blocks (delete p (m_nodes m)) q = node_blocks (m_nodes m) q) as He.
  { intros q Hq. unfold node_blocks. by rewrite lookup_delete_ne. }
  rewrite !(node_blocks_ext (m_nodes m) (delete p (m_nodes m))); [done|..].
  - intros q Hq. apply He. by intros ->.
  - intros q Hq. apply He. intros ->. apply (Hn1 p Hq). by left.
Qed.

(** The vnode [p] is taken out of the table, killed and freed. *)
Lemma table_drop m p sv :
  table_wf m -> m_nodes m !! p = Some sv -> vn_refcount (sv_v sv) = 1 ->
  vn_opencount (sv_v sv) = 0 -> is_Some (vn_countlock (sv_v sv)) ->
  exists m',
    (ix ← find_vnode (Z.to_nat (array_getnum (m_vnodes m))) 0 p (m_vnodes m);
     a ← array_remove (m_vnodes m) ix;
     h ← vnode_kill (sv_v sv) (m_heap m);
     h ← kfree p h;
     Some (0, del_node p (set_vnodes a (set_mheap h m)))) = Some (0, m') /\
    table_wf m' /\ heap_step m m' /\ m_fs m' = m_fs m /\ m_nodes m' = delete p (m_nodes m).
Proof.
  intros Ht Hp Hr Ho [[l n] Hl].
  destruct (find_vnode_wp (length (table m)) 0 p m Ht) as (k & E & Hk);
    [done|rewrite drop_0; apply (tb_dom m Ht); eauto|].
  pose proof (lookup_lt_Some _ _ _ Hk) as Hlt. unfold array_getnum.
  rewrite (table_num m Ht), Nat2Z.id. change (Z.of_nat 0) with 0 in E. rewrite E.
  cbn [mbind option_bind].
  destruct (array_remove_wp (m_heap m) (m_vnodes m) (Z.of_nat k))
    as (a & -> & Ha & Ec & _ & _ & Ea); [apply Ht|rewrite (table_num m Ht); lia|].
  rewrite Nat2Z.id in Ec. cbn [mbind option_bind].
  pose proof (tb_array m Ht) as (Hh & _).
  destruct (del_node_blocks m p sv l n k a (m_heap m) Ht Hk Hp Hl Ea Ec) as [Et Eb].
  pose proof (tb_owns m Ht) as Hown. rewrite Eb in Hown.
  destruct (vnode_kill_wp (sv_v sv) l n (m_heap m) _ Hr Ho Hl Hh Hown) as (h1 & -> & Hh1 & Ho1 & Hs1).
  cbn [mbind option_bind].
  destruct (owns_free h1 p [] _ Hh1 Ho1) as (h2 & -> & Hh2 & Ho2 & Hs2). cbn [mbind option_bind].
  eexists. split; [reflexivity|]. simpl app in *. set (m' := del_node p _) in Ho2, Hs2, Et, Eb.
  change (mnt_blocks m') with (mnt_blocks (del_node p (set_vnodes a (set_mheap h2 m)))) in *.
  split; [|split; [|done]].
  - constructor.
    + change (contents a = Some <$> table m'). by rewrite Ec, Et, (tb_contents m Ht), list_fmap_delete.
    + change (NoDup (table m')). rewrite Et. eapply sublist_NoDup; [apply Ht|apply sublist_delete].
    + intros q. change (q ∈ table m' <-> is_Some (delete p (m_nodes m) !! q)). rewrite Et.
      rewrite delete_take_drop, elem_of_app. pose proof (tb_nodup m Ht) as Hn.
      pose proof (tb_dom m Ht q) as Hd. rewrite <- (take_drop_middle _ _ _ Hk) in Hn, Hd.
      rewrite elem_of_app, elem_of_cons in Hd.
      apply list.NoDup_app in Hn as (_ & Hn1 & [Hn2 _]%list.NoDup_cons).
      destruct (decide (q = p)) as [->|Hne]; [|rewrite lookup_delete_ne by done; tauto].
      rewrite lookup_delete_eq. split; [|by intros [? ?]].
      intros [Hq|Hq]; [|done]. exfalso. apply (Hn1 p Hq). by left.
    + split; [done|]. split; [|apply Ha]. by apply owns_app in Ho2 as [? _].
    + exact Ho2.
  - unfold heap_step. rewrite Eb. split; [by eapply same_others_trans|done].
Qed.
End table.
