(* ===== verification/SfsVnodes.v ===== *)
(** * The vnodes of a mounted volume

    [mnt_ok m I] is the invariant of a mounted volume whose files have the inodes [I]:
    the volume is consistent ([tree_wf]), the vnodes in memory carry the current
    inodes, each inode at most once, and what is not in memory, or is clean, is on the
    disk.  Here are the operations on one vnode, and those that load it and give it up. *)

From stdpp Require Import base option list gmap numbers.
From S2P Require Import Prelude Kmem Array Bitmap Uio Device SfsDisk Sfs.
From S2P Require Import SfsBlock SfsBmap SfsFile SfsDir SfsTrunc SfsVol SfsMount SfsTree SfsTable.

Section vnodes.
Context {H D : Type} `{!Kmalloc H, !KmallocLaws H, !Device D, !DeviceLaws D}.
Implicit Types m : mnt H D.
Implicit Types fs : sfs_fs D.

Definition root_ops (ino : Z) : vnode_ops :=
  if ino =? SFS_ROOT_LOCATION then sfs_dirops else sfs_fileops.

Record vn_ok (ino : Z) (v : vnode) : Prop := {
  vo_ops : vn_ops v = Some (root_ops ino);
  vo_ref : 1 <= vn_refcount v < 2 ^ 31;
  vo_open : 0 <= vn_opencount v;
  vo_lock : is_Some (vn_countlock v);
}.

Record mem_ok m (I : gmap Z sfs_inode) : Prop := {
  me_table : table_wf m;
  me_node : forall p sv, m_nodes m !! p = Some sv ->
    I !! sv_ino sv = Some (sv_i sv) /\ vn_ok (sv_ino sv) (sv_v sv);
  me_inj : forall p q sv sv', m_nodes m !! p = Some sv -> m_nodes m !! q = Some sv' ->
    sv_ino sv = sv_ino sv' -> p = q;
  me_disk : forall ino i, I !! ino = Some i ->
    (forall p sv, m_nodes m !! p = Some sv -> sv_ino sv = ino -> sv_dirty sv = false) ->
    blk (m_fs m) ino = enc_inode i;
  me_orphan : forall ino i, I !! ino = Some i -> ino <> SFS_ROOT_LOCATION ->
    sfi_linkcount i = 0 -> loaded m ino;
}.

Definition mnt_ok m I : Prop := tree_wf (m_fs m) I /\ mem_ok m I.

(** ** Pointers *)

Lemma node_ptr m p sv :
  table_wf m -> m_nodes m !! p = Some sv -> p <> 0 /\ p <> 0xdeadbeef.
Proof.
  intros Ht Hp. assert (p ∈ mnt_blocks m) as Hin.
  { unfold mnt_blocks. rewrite !elem_of_app. right; left. apply list_elem_of_bind. exists p.
    split; [|apply (tb_dom m Ht); eauto]. unfold node_blocks. rewrite Hp.
    destruct (vn_countlock _) as [[??]|]; set_solver. }
  destruct (tb_owns m Ht) as [_ Hl]. destruct (Hl p Hin) as [n Hn].
  pose proof (tb_array m Ht) as (Hh & _).
  destruct (blocks_range _ _ _ Hh Hn) as [? _]. pose proof (blocks_aligned _ _ _ Hh Hn) as Ha.
  split; [lia|]. intros ->. by vm_compute in Ha.
Qed.

Lemma vnode_check_wp b m I p sv :
  mem_ok m I -> m_nodes m !! p = Some sv -> vnode_check b p m = Some (root_ops (sv_ino sv)).
Proof.
  intros Hm Hp. destruct (me_node _ _ Hm p sv Hp) as [_ [Ho Hr Hc [l Hl]]].
  destruct (node_ptr m p sv (me_table _ _ Hm) Hp) as [? ?]. unfold vnode_check, countlock.
  rewrite (proj2 (Z.eqb_neq p 0)), (proj2 (Z.eqb_neq p 0xdeadbeef)) by done. simpl.
  rewrite Hp. simpl. rewrite Ho. simpl. rewrite Hl. simpl.
  rewrite (proj2 (Z.leb_le 0 (vn_refcount _))), (proj2 (Z.eqb_neq (vn_refcount _) 0)),
    (proj2 (Z.leb_le 0 (vn_opencount _))) by lia. done.
Qed.

Lemma mnt_ino m I p sv :
  mnt_ok m I -> m_nodes m !! p = Some sv ->
  0 < sv_ino sv < nblocks (m_fs m) /\ used (m_fs m) (sv_ino sv) = true.
Proof.
  intros [Ht Hm] Hp. destruct (me_node _ _ Hm p sv Hp) as [Hi _].
  eapply tree_ino; [apply Ht|eauto].
Qed.

(** ** Changing one vnode *)

Record vn_step (v v' : vnode) : Prop := {
  vs_ops : vn_ops v' = vn_ops v;
  vs_lock : vn_countlock v' = vn_countlock v;
  vs_ref : 1 <= vn_refcount v' < 2 ^ 31;
  vs_open : 0 <= vn_opencount v';
}.

Lemma vn_step_same ino v v' : vn_ok ino v -> v' = v -> vn_step v v'.
Proof. intros [? ? ? ?] ->. by constructor. Qed.

Lemma mem_upd m I p sv fs' sv' :
  mem_ok m I -> m_nodes m !! p = Some sv -> vn_step (sv_v sv) (sv_v sv') ->
  sv_ino sv' = sv_ino sv -> map_shape (fs_freemap fs') = map_shape (fs_freemap (m_fs m)) ->
  (forall ino, is_Some (I !! ino) -> ino <> sv_ino sv -> blk fs' ino = blk (m_fs m) ino) ->
  (sv_dirty sv' = false -> blk fs' (sv_ino sv) = enc_inode (sv_i sv')) ->
  let m' := set_node p sv' (set_fs fs' m) in
  mem_ok m' (<[sv_ino sv := sv_i sv']> I) /\ heap_step m m'.
Proof.
  intros [Ht Hn Hj Hd Ho] Hp [Vo Vl Vr Vc] Ei Es Hb Hc m'.
  destruct (set_fs_table fs' m Ht Es) as [Ht1 Hs1].
  destruct (set_node_table p sv sv' (set_fs fs' m) Ht1 Hp Vl) as [Ht2 Hs2].
  split; [|by eapply heap_step_trans].
  assert (forall q s, m_nodes m' !! q = Some s ->
    q = p /\ s = sv' \/ q <> p /\ m_nodes m !! q = Some s) as Hcase.
  { intros q s Hq. change (<[p := sv']> (m_nodes m) !! q = Some s) in Hq.
    apply lookup_insert_Some in Hq as [[<- <-]|[? ?]]; [by left|by right]. }
  destruct (Hn p sv Hp) as [Hip [Oo Or Oc Ol]]. constructor; [done|..].
  - intros q s [[-> ->]|[Hq Hs]]%Hcase.
    + rewrite Ei, lookup_insert_eq. split; [done|]. constructor; [congruence|done|done|congruence].
    + destruct (Hn q s Hs) as [? ?]. split; [|done]. rewrite lookup_insert_ne; [done|].
      intros E. by apply Hq, (Hj q p s sv).
  - intros q1 q2 s1 s2 [[-> ->]|[? H1]]%Hcase [[-> ->]|[? H2]]%Hcase E; [done|..|by eapply Hj].
    + rewrite Ei in E. by eapply Hj.
    + rewrite Ei in E. by eapply Hj.
  - intros ino i Hi Hcl. apply lookup_insert_Some in Hi as [[<- <-]|[Hne Hi]].
    + apply Hc, (Hcl p); [apply lookup_insert_eq|done].
    + change (blk fs' ino = enc_inode i). rewrite Hb by eauto. apply Hd; [done|].
      intros q s Hs Hqi. apply (Hcl q); [|done]. unfold m'. simpl. rewrite lookup_insert_ne; [done|].
      intros ->. congruence.
  - intros ino i Hi Hne Hl. destruct (decide (ino = sv_ino sv)) as [->|Hne2].
    + exists p, sv'. split; [apply lookup_insert_eq|done].
    + rewrite lookup_insert_ne in Hi by done. destruct (Ho ino i Hi Hne Hl) as (q & s & Hs & Hq).
      exists q, s. split; [|done]. unfold m'. simpl. rewrite lookup_insert_ne; [done|]. congruence.
Qed.

(** The counts change, and nothing else. *)
Lemma mnt_counts m I p sv v' :
  mnt_ok m I -> m_nodes m !! p = Some sv -> vn_step (sv_v sv) v' ->
  let m' := set_node p (set_vn v' sv) m in mnt_ok m' I /\ heap_step m m'.
Proof.
  intros [Ht Hm] Hp Hv m'. destruct (me_node _ _ Hm p sv Hp) as [Hi _].
  destruct (mem_upd m I p sv (m_fs m) (set_vn v' sv) Hm Hp Hv) as [Hm' Hs]; [done|done|done| |].
  { intros Hd. change (sv_dirty sv = false) in Hd. apply (me_disk _ _ Hm); [done|]. intros q s Hq E.
    assert (q = p) as -> by (by apply (me_inj _ _ Hm q p s sv)). congruence. }
  rewrite insert_id in Hm' by done.
  replace (set_fs (m_fs m) m) with m in Hm', Hs by by destruct m. by split.
Qed.

Lemma vnode_incref_wp m I p sv :
  mnt_ok m I -> m_nodes m !! p = Some sv -> vn_refcount (sv_v sv) < 2 ^ 31 - 1 ->
  let sv' := set_vn (set_refcount (vn_refcount (sv_v sv) + 1) (sv_v sv)) sv in
  vnode_incref p m = Some (set_node p sv' m) /\
  mnt_ok (set_node p sv' m) I /\ heap_step m (set_node p sv' m).
Proof.
  intros Hok Hp Hr sv'. pose proof Hok as [_ Hm].
  destruct (me_node _ _ Hm p sv Hp) as [_ [Vo Vr Vc Vl]].
  destruct (node_ptr m p sv (me_table _ _ Hm) Hp) as [? _].
  split; [|apply mnt_counts; [done|done|by constructor; simpl; try lia]].
  unfold vnode_incref, countlock. rewrite (proj2 (Z.eqb_neq p 0)) by done. simpl. rewrite Hp. simpl.
  destruct Vl as [l ->]. simpl. by rewrite s32_id by (unfold is_s32; lia).
Qed.

(** ** Loading *)

Lemma pigeon (l : list Z) n : NoDup l -> (forall x, x ∈ l -> 0 <= x < n) -> Z.of_nat (length l) <= Z.max 0 n.
Proof.
  intros Hn Hl. assert (l ⊆+ seqZ 0 n) as Hs%submseteq_length.
  { apply NoDup_submseteq; [done|]. intros x Hx. apply elem_of_seqZ. specialize (Hl x Hx). lia. }
  rewrite length_seqZ in Hs. lia.
Qed.

(** There are never more vnodes than blocks, and so never too many for the array. *)
Lemma table_length m I : mnt_ok m I -> Z.of_nat (length (table m)) < max_guys.
Proof.
  intros [Ht Hm]. set (ino_of := fun p => from_option sv_ino 0 (m_nodes m !! p)).
  pose proof (me_table _ _ Hm) as Hb.
  assert (Z.of_nat (length (ino_of <$> table m)) <= Z.max 0 (nblocks (m_fs m))) as Hl.
  { apply pigeon.
    - apply NoDup_fmap_2_strong; [|apply Hb]. intros p q Hp Hq E.
      apply (tb_dom m Hb) in Hp as [sv Hp], Hq as [sv' Hq]. unfold ino_of in E.
      rewrite Hp, Hq in E. by eapply (me_inj _ _ Hm).
    - intros x (p & -> & Hp)%list_elem_of_fmap. apply (tb_dom m Hb) in Hp as [sv Hp].
      unfold ino_of. rewrite Hp. simpl. destruct (mnt_ino m I p sv) as [? _]; [by split|done|lia]. }
  rewrite length_fmap in Hl. pose proof (vw_ok _ _ (tw_vol _ _ Ht)) as (Hd & _ & Hn & _).
  pose proof (d_blocks_range _ Hd). unfold max_guys, BLOCKSIZE in *. lia.
Qed.

(** The vnodes are the same ones. *)
Lemma mem_ext m I m' :
  mem_ok m I -> table_wf m' -> m_nodes m' = m_nodes m ->
  (forall ino, is_Some (I !! ino) -> blk (m_fs m') ino = blk (m_fs m) ino) -> mem_ok m' I.
Proof.
  intros [Ht Hn Hj Hd Ho] Ht' En Hb. constructor; rewrite ?En; [done..| |].
  - intros ino i Hi Hc. rewrite Hb by eauto. by apply Hd.
  - intros ino i Hi Hne Hl. destruct (Ho ino i Hi Hne Hl) as (p & sv & Hp & ?).
    exists p, sv. by rewrite En.
Qed.

Lemma mnt_same m I fs' :
  mnt_ok m I -> fs_same (m_fs m) fs' ->
  mnt_ok (set_fs fs' m) I /\ heap_step m (set_fs fs' m) /\ entries fs' I = entries (m_fs m) I /\
  files fs' I = files (m_fs m) I.
Proof.
  intros [Ht Hm] Hs. destruct (tree_same _ I fs' Ht Hs) as (Ht' & Ee & Hr).
  destruct (set_fs_same m fs' (me_table _ _ Hm) Hs) as [Hb Hst].
  split; [split; [done|]|split; [done|split; [done|]]].
  - apply (mem_ext m); [done|done|done|]. intros ino Hi. apply (rs_meta _ _ _ _ (Hr 0)). by right.
  - apply files_untouched. intros ino i Hi Hne. apply (rs_file _ _ _ _ (Hr SFS_ROOT_LOCATION) ino i Hi Hne).
Qed.

(** A vnode is added. *)
Lemma mem_new m I m' p sv :
  mem_ok m I -> table_wf m' -> m_nodes m !! p = None -> m_nodes m' = <[p := sv]> (m_nodes m) ->
  ~ loaded m (sv_ino sv) -> vn_ok (sv_ino sv) (sv_v sv) ->
  (forall ino, is_Some (I !! ino) -> blk (m_fs m') ino = blk (m_fs m) ino) ->
  (sv_dirty sv = false -> blk (m_fs m') (sv_ino sv) = enc_inode (sv_i sv)) ->
  mem_ok m' (<[sv_ino sv := sv_i sv]> I).
Proof.
  intros [Ht Hn Hj Hd Ho] Ht' Hp En Hnl Hv Hb Hc.
  assert (forall q s, m_nodes m' !! q = Some s ->
    q = p /\ s = sv \/ q <> p /\ m_nodes m !! q = Some s /\ sv_ino s <> sv_ino sv) as Hcase.
  { intros q s. rewrite En. intros [[<- <-]|[? ?]]%lookup_insert_Some; [by left|right].
    split; [done|]. split; [done|]. intros E. apply Hnl. by exists q, s. }
  constructor; [done|..].
  - intros q s [[-> ->]|(Hq & Hs & Hi)]%Hcase; [by rewrite lookup_insert_eq|].
    rewrite lookup_insert_ne by done. by eapply Hn.
  - intros q1 q2 s1 s2 [[-> ->]|(? & L1 & ?)]%Hcase [[-> ->]|(? & L2 & ?)]%Hcase E;
      [done|congruence|congruence|by eapply Hj].
  - intros ino i [[<- <-]|[Hne Hi]]%lookup_insert_Some Hcl.
    + apply Hc, (Hcl p); [by rewrite En, lookup_insert_eq|done].
    + rewrite Hb by eauto. apply Hd; [done|]. intros q s Hs Hqi. apply (Hcl q); [|done].
      rewrite En, lookup_insert_ne; [done|]. intros ->. congruence.
  - intros ino i Hi Hne Hl. destruct (decide (ino = sv_ino sv)) as [->|Hne2].
    + exists p, sv. by rewrite En, lookup_insert_eq.
    + rewrite lookup_insert_ne in Hi by done. destruct (Ho ino i Hi Hne Hl) as (q & s & Hs & Hq).
      exists q, s. split; [|done]. rewrite En, lookup_insert_ne; [done|]. congruence.
Qed.

(** No count is about to overflow. *)
Definition refs_room m : Prop :=
  forall p sv, m_nodes m !! p = Some sv -> vn_refcount (sv_v sv) < 2 ^ 31 - 1.

(** What a load gives: the vnode with one more reference, or a new one. *)
Record load_post m I (ino r p : Z) m' : Prop := {
  ld_ok : mnt_ok m' I;
  ld_heap : heap_step m m';
  ld_same : fs_same (m_fs m) (m_fs m');
  ld_res :
    r = 0 /\ (exists sv, m_nodes m' = <[p := sv]> (m_nodes m) /\ sv_ino sv = ino /\
      match m_nodes m !! p with
      | Some sv0 => sv = set_vn (set_refcount (vn_refcount (sv_v sv0) + 1) (sv_v sv0)) sv0
      | None => vn_refcount (sv_v sv) = 1 /\ vn_opencount (sv_v sv) = 0 /\ ~ loaded m ino
      end) \/
    r <> 0 /\ m_nodes m' = m_nodes m /\ (r = ENOMEM \/ r = EIO /\ ~ reliable (m_fs m));
}.

Lemma find_ino_mnt m I ino :
  mnt_ok m I ->
  exists o, find_ino (Z.to_nat (array_getnum (m_vnodes m))) 0 ino m = Some o /\
    match o with
    | Some p => exists sv, m_nodes m !! p = Some sv /\ sv_ino sv = ino
    | None => ~ loaded m ino
    end.
Proof.
  intros Hok. pose proof Hok as [Ht Hm]. pose proof (me_table _ _ Hm) as Hb.
  destruct (find_ino_wp (length (table m)) 0 ino m Hb) as (o & E & Ho).
  - apply (tw_vol _ _ Ht).
  - intros p sv Hp. destruct (mnt_ino m I p sv Hok Hp). split; [lia|done].
  - done.
  - exists o. unfold array_getnum. rewrite (table_num m Hb), Nat2Z.id. split; [exact E|].
    destruct o; [done|]. intros (p & sv & Hp & Hi). apply (Ho p sv); [|done|done].
    rewrite drop_0. apply (tb_dom m Hb). eauto.
Qed.

Lemma root_ops_type fs I ino i :
  tree_wf fs I -> I !! ino = Some i -> ops_of_type (sfi_type i) = Some (root_ops ino).
Proof.
  intros Ht Hi. unfold ops_of_type, root_ops. destruct (ino =? SFS_ROOT_LOCATION) eqn:E; boolify.
  - subst ino. destruct (tw_root _ _ Ht) as (r & Hr & Hd & _). rewrite Hi in Hr. injection Hr as ->.
    by rewrite (dw_type _ _ Hd).
  - by rewrite (tw_type _ _ Ht ino i Hi E).
Qed.

Lemma sfs_loadvnode_wp m I ino i :
  mnt_ok m I -> I !! ino = Some i -> refs_room m ->
  exists r p m', sfs_loadvnode ino SFS_TYPE_INVAL m = Some (r, p, m') /\ load_post m I ino r p m'.
Proof.
  intros Hok Hi Hroom. pose proof Hok as [Ht Hm].
  destruct (find_ino_mnt m I ino Hok) as ([p|] & Ef & Ho).
  - destruct Ho as (sv & Hp & Hino).
    destruct (vnode_incref_wp m I p sv Hok Hp (Hroom p sv Hp)) as (Ei & Hok' & Hs).
    eexists 0, p, _. unfold sfs_loadvnode. rewrite Ef. cbn [mbind option_bind]. simpl Z.eqb. cbn iota.
    rewrite Ei. split; [done|]. constructor; [done|done|apply fs_same_refl, Ht|]. left.
    split; [done|]. eexists. split; [done|]. split; [done|]. by rewrite Hp.
  - assert (blk (m_fs m) ino = enc_inode i) as Hb.
    { apply (me_disk _ _ Hm); [done|]. intros p sv Hp Hpi. destruct Ho. by exists p, sv. }
    destruct (tree_ino _ _ ino (tw_vol _ _ Ht)) as [Hr Hu]; [by eauto|].
    destruct (vw_file _ _ (tw_vol _ _ Ht) _ _ Hi) as [[Hii _] _].
    destruct (load_new ino SFS_TYPE_INVAL m i false (root_ops ino)) as (r & p & m' & E & Hs & Hb' & Hst & Hc);
      [apply Hm|apply (tw_vol _ _ Ht)|by eapply table_length|done|lia|done| |by eapply root_ops_type|].
    { by rewrite Hb, dec_enc_inode. }
    exists r, p, m'. split; [done|]. destruct (tree_same _ I _ Ht Hs) as (Ht' & _ & Hr').
    assert (forall ino, is_Some (I !! ino) -> blk (m_fs m') ino = blk (m_fs m) ino) as Hbk.
    { intros ino2 ?. apply (rs_meta _ _ _ _ (Hr' 0)). by right. }
    destruct Hc as [(-> & Hn & l & n & En)|(Hne & En & Hc)].
    + constructor; [split; [done|]|done|done|left].
      * set (sv := SfsVnode _ i ino false) in En.
        pose proof (mem_new m I m' p sv Hm Hb' Hn En Ho) as Hm'. simpl in Hm'.
        rewrite insert_id in Hm' by done. apply Hm'; [by constructor; simpl; try lia|done|].
        intros _. by rewrite Hbk by eauto.
      * split; [done|]. eexists. split; [exact En|]. split; [done|]. by rewrite Hn.
    + constructor; [split; [done|by apply (mem_ext m)]|done|done|right; by split_and!].
Qed.

(** There is no memory to load the root directory. *)
Definition root_starved m : Prop :=
  exists p m', sfs_loadvnode SFS_ROOT_LOCATION SFS_TYPE_INVAL m = Some (ENOMEM, p, m').

Lemma sfs_getroot_none m I :
  mnt_ok m I -> refs_room m -> reliable (m_fs m) -> sfs_getroot m = None -> root_starved m.
Proof.
  intros Hok Hroom Hrel E. pose proof Hok as [Ht _]. destruct (tw_root _ _ Ht) as (i & Hi & _).
  destruct (sfs_loadvnode_wp m I _ i Hok Hi Hroom) as (r & p & m1 & El & [_ _ _ Hres]).
  unfold sfs_getroot in E. rewrite El in E. cbn [mbind option_bind] in E.
  destruct (r =? 0) eqn:Er; [done|]. boolify. exists p, m1. rewrite El.
  by destruct Hres as [[? _]|(_ & _ & [-> |[_ ?]])].
Qed.

(** ** The operations on a file *)

(** What is seen of the volume: the directory and the contents of the files. *)
Definition view m I : list sfs_dir * gmap Z (list Z) := (entries (m_fs m) I, files (m_fs m) I).

(** A step of the volume, with the inodes of its files after it. *)
Record mnt_step m m' I' : Prop := {
  ms_ok : mnt_ok m' I';
  ms_heap : heap_step m m';
  ms_hist : fs_hist (m_fs m) (m_fs m');
}.

Lemma mnt_step_trans m1 m2 I2 m3 I3 : mnt_step m1 m2 I2 -> mnt_step m2 m3 I3 -> mnt_step m1 m3 I3.
Proof.
  intros [_ S1 H1'] [O2 S2 H2']. constructor; [done|by eapply heap_step_trans|by eapply fs_hist_trans].
Qed.

Lemma mnt_step_refl m I : mnt_ok m I -> mnt_step m m I.
Proof. intros ?. constructor; [done|apply heap_step_refl|apply fs_hist_refl]. Qed.

(** The vnode of a file that is not the root, and its file, change together. *)
Lemma mnt_file m I p sv fs' sv' :
  mnt_ok m I -> m_nodes m !! p = Some sv -> sv_ino sv <> SFS_ROOT_LOCATION ->
  file_upd (m_fs m) (sv_i sv) fs' (sv_i sv') -> same_meta (sv_i sv) (sv_i sv') ->
  sfi_size (sv_i sv') < 2 ^ 31 -> sv_step sv sv' ->
  let m' := set_node p sv' (set_fs fs' m) in
  let I' := <[sv_ino sv := sv_i sv']> I in
  mnt_step m m' I' /\
  view m' I' = (entries (m_fs m) I, <[sv_ino sv := fcontent fs' (sv_i sv')]> (files (m_fs m) I)).
Proof.
  intros [Ht Hm] Hp Hne Hu Hme Hs (Ev & Ei & Hd) m' I'.
  destruct (me_node _ _ Hm p sv Hp) as [Hi Hv].
  destruct (tree_file (m_fs m) I _ _ fs' (sv_i sv') Ht Hi Hne Hu Hme Hs) as (Ht' & Ee & Hr).
  pose proof (fu_hist _ _ _ _ Hu) as Hh.
  destruct (mem_upd m I p sv fs' sv' Hm Hp) as [Hm' Hst]; [by eapply vn_step_same|done|apply Hh|..].
  - intros ino Hino _. apply (rs_meta _ _ _ _ Hr). by right.
  - intros Hc. pose proof (Hd Hc) as ->. rewrite (rs_meta _ _ _ _ Hr) by (right; eauto).
    apply (me_disk _ _ Hm); [done|]. intros q s Hq E.
    assert (q = p) as -> by (by apply (me_inj _ _ Hm q p s sv)). congruence.
  - split; [by constructor|]. unfold view, I'. change (m_fs m') with fs'. by rewrite Ee, (files_upd (m_fs m)).
Qed.

(** [sfs_sync_inode] writes the inode if it is dirty. *)
Lemma sync_inode_wp m I p sv :
  mnt_ok m I -> m_nodes m !! p = Some sv ->
  exists m', on_node sfs_sync_inode p m = Some (0, m') /\ mnt_step m m' I /\
    view m' I = view m I /\ m_nodes m' = <[p := set_inode (sv_i sv) false sv]> (m_nodes m) /\
    (forall b', used (m_fs m') b' = used (m_fs m) b') /\
    (forall ino i, I !! ino = Some i -> untouched (m_fs m) (m_fs m') i).
Proof.
  intros [Ht Hm] Hp. destruct (me_node _ _ Hm p sv Hp) as [Hi Hv]. unfold on_node, sfs_sync_inode.
  rewrite Hp. cbn [mbind option_bind]. destruct (sv_dirty sv) eqn:Ed.
  - destruct (mnt_ino m I p sv) as [Hr _]; [by split|done|].
    pose proof (vw_ok _ _ (tw_vol _ _ Ht)) as Hok.
    destruct (vw_file _ _ (tw_vol _ _ Ht) _ _ Hi) as [[Hii _] _].
    destruct (sfs_wblock_wp (enc_inode (sv_i sv)) (sv_ino sv) (m_fs m)) as (d' & -> & Hd);
      [apply Hok|by apply enc_inode_block|destruct Hok as (_ & _ & ? & _); lia|].
    cbn [mbind option_bind]. simpl negb. cbn iota.
    destruct (tree_write _ I _ _ d' Ht ltac:(eauto) Hd) as (Ht' & Ee & Hun & Hb).
    pose proof (fs_hist_upd _ _ _ _ Hd) as Hh.
    destruct (mem_upd m I p sv (set_device d' (m_fs m)) (set_inode (sv_i sv) false sv) Hm Hp)
      as [Hm' Hst]; [by eapply vn_step_same|done|done|..].
    { intros ino _ Hne. by rewrite Hb, decide_False. }
    { intros _. by rewrite Hb, decide_True. }
    simpl sv_i in Hm'. rewrite insert_id in Hm' by done.
    eexists. split; [reflexivity|]. split; [by constructor|]. split; [|done].
    unfold view. simpl m_fs. rewrite Ee. f_equal. apply files_untouched. eauto.
  - eexists. split; [reflexivity|]. replace (set_inode (sv_i sv) false sv) with sv
      by (destruct sv; simpl in *; by subst).
    replace (set_node p sv (set_fs (m_fs m) m)) with m
      by (destruct m; unfold set_node, set_fs; simpl in *; by rewrite insert_id).
    rewrite insert_id by done. split; [by apply mnt_step_refl|]. do 3 (split; [done|]).
    intros ino i ?. apply untouched_refl. by eapply (vw_file _ _ (tw_vol _ _ Ht)).
Qed.

Lemma VOP_FSYNC_wp m I p sv :
  mnt_ok m I -> m_nodes m !! p = Some sv ->
  exists m', VOP_FSYNC p m = Some (0, m') /\ mnt_step m m' I /\
    view m' I = view m I /\ m_nodes m' = <[p := set_inode (sv_i sv) false sv]> (m_nodes m).
Proof.
  intros Hok Hp. unfold VOP_FSYNC, sfs_fsync. rewrite (vnode_check_wp _ m I p sv) by (apply Hok || done).
  cbn [mbind option_bind]. destruct (sync_inode_wp m I p sv Hok Hp) as (m' & ? & ? & ? & ? & _). eauto.
Qed.

Lemma on_node_eq {A} (f : sfs_vnode -> sfs_fs D -> option (A * sfs_vnode * sfs_fs D)) p m sv r sv' fs' :
  m_nodes m !! p = Some sv -> f sv (m_fs m) = Some (r, sv', fs') ->
  on_node f p m = Some (r, set_node p sv' (set_fs fs' m)).
Proof. intros Hp Hf. unfold on_node. rewrite Hp. simpl. by rewrite Hf. Qed.

(** Truncation, of a file. *)
Lemma VOP_TRUNCATE_file m I p sv len r sv' fs' :
  mem_ok m I -> m_nodes m !! p = Some sv -> sv_ino sv <> SFS_ROOT_LOCATION ->
  sfs_truncate sv len (m_fs m) = Some (r, sv', fs') ->
  VOP_TRUNCATE p len m = Some (r, set_node p sv' (set_fs fs' m)).
Proof.
  intros Hm Hp Hne E. unfold VOP_TRUNCATE.
  rewrite (vnode_check_wp _ m I p sv Hm Hp). unfold root_ops. rewrite (proj2 (Z.eqb_neq _ _) Hne).
  apply (on_node_eq (fun sv fs => sfs_truncate sv len fs) p m sv r sv' fs' Hp E).
Qed.

Lemma VOP_TRUNCATE_wp m I p sv len :
  mnt_ok m I -> m_nodes m !! p = Some sv -> sv_ino sv <> SFS_ROOT_LOCATION ->
  0 <= len -> len + 512 < 2 ^ 31 ->
  exists r sv' fs', VOP_TRUNCATE p len m = Some (r, set_node p sv' (set_fs fs' m)) /\
    trunc_post sv len (m_fs m) r sv' fs' /\
    let m' := set_node p sv' (set_fs fs' m) in
    let I' := <[sv_ino sv := sv_i sv']> I in
    mnt_step m m' I' /\
    view m' I' = (entries (m_fs m) I, <[sv_ino sv := fcontent fs' (sv_i sv')]> (files (m_fs m) I)).
Proof.
  intros Hok Hp Hne Hl Hl2. pose proof Hok as [Ht Hm].
  destruct (me_node _ _ Hm p sv Hp) as [Hi _].
  destruct (vw_file _ _ (tw_vol _ _ Ht) _ _ Hi) as [Hw Hsz].
  destruct (sfs_truncate_wp sv len (m_fs m)) as (r & sv' & fs' & E & Htp);
    [apply (tw_vol _ _ Ht)|done|done|done|].
  exists r, sv', fs'. split; [by apply (VOP_TRUNCATE_file m I p sv)|]. split; [done|].
  pose proof Htp as [Hc Hsv _ Hs _ _ _ Hf].
  apply mnt_file; [done..|by apply file_cut_upd|apply Hc| |done].
  destruct (decide (r = 0)) as [Hr|Hr]; [rewrite Hs by done; lia|].
  by destruct (Hf Hr) as (_ & _ & ->).
Qed.

(** Reading and writing. *)
Lemma set_node_same p sv m : m_nodes m !! p = Some sv -> set_node p sv m = m.
Proof. intros Hp. destruct m. unfold set_node. simpl in *. by rewrite insert_id. Qed.

Lemma VOP_READ_wp m I p sv u v :
  mnt_ok m I -> m_nodes m !! p = Some sv -> sv_ino sv <> SFS_ROOT_LOCATION ->
  uio_ok u v -> uio_rw u = UIO_READ ->
  exists r bs u' v' fs', VOP_READ p u v m = Some (r, u', v', set_fs fs' m) /\
    read_post sv u v (m_fs m) r bs u' v' fs' /\ mnt_step m (set_fs fs' m) I /\
    view (set_fs fs' m) I = view m I.
Proof.
  intros Hok Hp Hne Hu Hrw. pose proof Hok as [Ht Hm].
  destruct (me_node _ _ Hm p sv Hp) as [Hi _].
  destruct (vw_file _ _ (tw_vol _ _ Ht) _ _ Hi) as [Hw Hsz].
  destruct (sfs_io_read_wp sv u v (m_fs m)) as (r & bs & u' & v' & fs' & E & Hrp);
    [apply (tw_vol _ _ Ht)|done..|].
  assert (sfs_read sv u v (m_fs m) = Some (r, u', v', sv, fs')) as E'.
  { unfold sfs_read, is_write. rewrite Hrw. exact E. }
  exists r, bs, u', v', fs'. split.
  { unfold VOP_READ. rewrite (vnode_check_wp _ m I p sv Hm Hp). unfold root_ops.
    rewrite (proj2 (Z.eqb_neq _ _) Hne). cbn [mbind option_bind]. rewrite Hp. cbn [mbind option_bind].
    rewrite E'. cbn [mbind option_bind]. rewrite set_node_same; [reflexivity|exact Hp]. }
  split; [done|]. destruct (mnt_same m I fs' Hok (rp_same _ _ _ _ _ _ _ _ _ Hrp)) as (? & ? & Ee & Ef).
  split; [constructor; [done|done|]|unfold view; simpl m_fs; by rewrite Ee, Ef].
  destruct (rp_same _ _ _ _ _ _ _ _ _ Hrp) as [Hs ->]. by apply fs_hist_same.
Qed.

Lemma VOP_WRITE_wp m I p sv u v :
  mnt_ok m I -> m_nodes m !! p = Some sv -> sv_ino sv <> SFS_ROOT_LOCATION ->
  uio_ok u v -> uio_rw u = UIO_WRITE ->
  exists r bs u' sv' fs', VOP_WRITE p u v m = Some (r, u', v, set_node p sv' (set_fs fs' m)) /\
    write_post sv u v (m_fs m) r bs u' sv' fs' /\
    let m' := set_node p sv' (set_fs fs' m) in
    let I' := <[sv_ino sv := sv_i sv']> I in
    mnt_step m m' I' /\
    view m' I' = (entries (m_fs m) I, <[sv_ino sv := fcontent fs' (sv_i sv')]> (files (m_fs m) I)).
Proof.
  intros Hok Hp Hne Hu Hrw. pose proof Hok as [Ht Hm].
  destruct (me_node _ _ Hm p sv Hp) as [Hi _].
  destruct (vw_file _ _ (tw_vol _ _ Ht) _ _ Hi) as [Hw Hsz].
  destruct (sfs_io_write_wp sv u v (m_fs m)) as (r & bs & u' & sv' & fs' & E & Hwp);
    [apply (tw_vol _ _ Ht)|done..|].
  assert (sfs_write sv u v (m_fs m) = Some (r, u', v, sv', fs')) as E'.
  { unfold sfs_write, is_write. rewrite Hrw. exact E. }
  exists r, bs, u', sv', fs'. split.
  { unfold VOP_WRITE. rewrite (vnode_check_wp _ m I p sv Hm Hp). unfold root_ops.
    rewrite (proj2 (Z.eqb_neq _ _) Hne). cbn [mbind option_bind]. rewrite Hp. cbn [mbind option_bind].
    rewrite E'. reflexivity. }
  split; [done|]. pose proof Hwp as [M Hst Hsv Hs _ _ _ _ _].
  apply mnt_file; [done..|by apply file_step_upd|apply Hst| |done].
  destruct M as (_ & _ & Hk & _). pose proof Hu as (_ & _ & _ & ? & ? & _). rewrite Hs. lia.
Qed.

(** ** Giving up a vnode *)

(** The vnode is gone, and its file too if it had no name left; or the file could
    not be truncated, and stays in memory. *)
Record reclaim_post m I (p : Z) sv (r : Z) m' I' : Prop := {
  rc_step : mnt_step m m' I';
  rc_ok : r = 0 -> m_nodes m' = delete p (m_nodes m) /\
    (sfi_linkcount (sv_i sv) <> 0 /\ I' = I /\ view m' I' = view m I /\
       (forall b, used (m_fs m') b = used (m_fs m) b) \/
     sfi_linkcount (sv_i sv) = 0 /\ I' = delete (sv_ino sv) I /\
     view m' I' = (entries (m_fs m) I, delete (sv_ino sv) (files (m_fs m) I)));
  rc_fail : r <> 0 -> r = EIO /\ ~ reliable (m_fs m) /\ sfi_linkcount (sv_i sv) = 0 /\
    exists sv', m_nodes m' = <[p := sv']> (m_nodes m) /\ sv_step sv sv' /\
      I' = <[sv_ino sv := sv_i sv']> I /\
      view m' I' =
        (entries (m_fs m) I, <[sv_ino sv := fcontent (m_fs m') (sv_i sv')]> (files (m_fs m) I));
}.

(** The vnode leaves the table. *)
Lemma mem_del m I p sv m' :
  mem_ok m I -> m_nodes m !! p = Some sv -> sv_dirty sv = false ->
  (sv_ino sv <> SFS_ROOT_LOCATION -> sfi_linkcount (sv_i sv) <> 0) ->
  table_wf m' -> m_nodes m' = delete p (m_nodes m) ->
  (forall ino, is_Some (I !! ino) -> blk (m_fs m') ino = blk (m_fs m) ino) -> mem_ok m' I.
Proof.
  intros [Ht Hn Hj Hd Ho] Hp Hc Hl Ht' En Hb.
  assert (forall q s, m_nodes m' !! q = Some s -> q <> p /\ m_nodes m !! q = Some s) as Hcase.
  { intros q s. rewrite En. intros [? ?]%lookup_delete_Some. by split. }
  constructor; [done|..].
  - intros q s [_ ?]%Hcase. eauto.
  - intros q1 q2 s1 s2 [_ ?]%Hcase [_ ?]%Hcase. by eapply Hj.
  - intros ino i Hi Hcl. rewrite Hb by eauto. apply Hd; [done|]. intros q s Hs Hq.
    destruct (decide (q = p)) as [->|Hne]; [congruence|]. apply (Hcl q); [|done].
    by rewrite En, lookup_delete_ne.
  - intros ino i Hi Hne Hli. destruct (Ho ino i Hi Hne Hli) as (q & s & Hs & Hq). exists q, s.
    split; [|done]. rewrite En, lookup_delete_ne; [done|]. intros <-.
    destruct (Hn p sv Hp) as [Hi' _]. assert (s = sv) as -> by congruence. subst ino.
    apply Hl; [done|]. congruence.
Qed.

(** The vnode of a deleted file leaves the table with the file. *)
Lemma mem_del_file m I p sv m' :
  mem_ok m I -> m_nodes m !! p = Some sv -> table_wf m' -> m_nodes m' = delete p (m_nodes m) ->
  (forall ino, is_Some (I !! ino) -> blk (m_fs m') ino = blk (m_fs m) ino) ->
  mem_ok m' (delete (sv_ino sv) I).
Proof.
  intros [Ht Hn Hj Hd Ho] Hp Ht' En Hb.
  assert (forall q s, m_nodes m' !! q = Some s ->
    q <> p /\ m_nodes m !! q = Some s /\ sv_ino s <> sv_ino sv) as Hcase.
  { intros q s. rewrite En. intros [? ?]%lookup_delete_Some. split; [done|]. split; [done|].
    intros E. by assert (q = p) by by eapply Hj. }
  constructor; [done|..].
  - intros q s (_ & ? & ?)%Hcase. rewrite lookup_delete_ne by done. eauto.
  - intros q1 q2 s1 s2 (_ & ? & _)%Hcase (_ & ? & _)%Hcase. by eapply Hj.
  - intros ino i [Hne Hi]%lookup_delete_Some Hcl. rewrite Hb by eauto. apply Hd; [done|].
    intros q s Hs Hq. apply (Hcl q); [|done]. rewrite En, lookup_delete_ne; [done|]. congruence.
  - intros ino i [Hne2 Hi]%lookup_delete_Some Hne Hli.
    destruct (Ho ino i Hi Hne Hli) as (q & s & Hs & Hq). exists q, s.
    split; [|done]. rewrite En, lookup_delete_ne; [done|]. congruence.
Qed.

(** From the writing of the inode on, for a file with links. *)
Lemma reclaim_linked m I p sv :
  mnt_ok m I -> m_nodes m !! p = Some sv -> vn_refcount (sv_v sv) = 1 ->
  vn_opencount (sv_v sv) = 0 -> sfi_linkcount (sv_i sv) <> 0 ->
  exists m1 m',
    on_node sfs_sync_inode p m = Some (0, m1) /\
    m_nodes m1 !! p = Some (set_inode (sv_i sv) false sv) /\
    (ix ← find_vnode (Z.to_nat (array_getnum (m_vnodes m1))) 0 p (m_vnodes m1);
     a ← array_remove (m_vnodes m1) ix;
     h ← vnode_kill (sv_v sv) (m_heap m1);
     h ← kfree p h;
     Some (0, del_node p (set_vnodes a (set_mheap h m1)))) = Some (0, m') /\
    mnt_step m m' I /\ view m' I = view m I /\ m_nodes m' = delete p (m_nodes m) /\
    forall b, used (m_fs m') b = used (m_fs m) b.
Proof.
  intros Hok Hp Hr Ho Hl.
  destruct (sync_inode_wp m I p sv Hok Hp) as (m1 & E1 & [Hok1 S1 H1'] & Ev1 & En1 & Hus & _).
  pose proof Hok1 as [Ht1 Hm1]. pose proof Hok as [_ Hm].
  destruct (me_node _ _ Hm p sv Hp) as [_ [_ _ _ Vl]].
  assert (m_nodes m1 !! p = Some (set_inode (sv_i sv) false sv)) as Hp1 by by rewrite En1, lookup_insert_eq.
  destruct (table_drop m1 p _ (me_table _ _ Hm1) Hp1 Hr Ho Vl) as (m' & E2 & Ht' & S2 & Ef & En2).
  exists m1, m'. split; [done|]. split; [done|]. split; [exact E2|].
  rewrite <- Ef in Ht1, H1', Hus. split; [|split; [|split; [|exact Hus]]].
  - constructor; [|by eapply heap_step_trans|done]. split; [done|].
    apply (mem_del m1 I p (set_inode (sv_i sv) false sv)); [done|done|done|done|done|done|].
    intros ino _. by rewrite Ef.
  - unfold view in *. by rewrite Ef.
  - by rewrite En2, En1, delete_insert_eq.
Qed.

(** The same for a file without links or blocks: its inode is freed, too. *)
Lemma reclaim_unlinked m I p sv :
  mnt_ok m I -> m_nodes m !! p = Some sv -> vn_refcount (sv_v sv) = 1 ->
  vn_opencount (sv_v sv) = 0 -> sfi_linkcount (sv_i sv) = 0 -> sv_ino sv <> SFS_ROOT_LOCATION ->
  exists m1 fs2 m',
    on_node sfs_sync_inode p m = Some (0, m1) /\
    m_nodes m1 !! p = Some (set_inode (sv_i sv) false sv) /\
    sfs_bfree (sv_ino sv) (m_fs m1) = Some fs2 /\
    (let m2 := set_fs fs2 m1 in
     ix ← find_vnode (Z.to_nat (array_getnum (m_vnodes m2))) 0 p (m_vnodes m2);
     a ← array_remove (m_vnodes m2) ix;
     h ← vnode_kill (sv_v sv) (m_heap m2);
     h ← kfree p h;
     Some (0, del_node p (set_vnodes a (set_mheap h m2)))) = Some (0, m') /\
    mnt_step m m' (delete (sv_ino sv) I) /\
    view m' (delete (sv_ino sv) I) = (entries (m_fs m) I, delete (sv_ino sv) (files (m_fs m) I)) /\
    m_nodes m' = delete p (m_nodes m).
Proof.
  intros Hok Hp Hr Ho Hl Hne.
  destruct (sync_inode_wp m I p sv Hok Hp) as (m1 & E1 & [Hok1 S1 H1'] & Ev1 & En1 & Hu1 & Hun1).
  pose proof Hok1 as [Ht1 Hm1]. pose proof Hok as [_ Hm].
  destruct (me_node _ _ Hm p sv Hp) as [Hi [_ _ _ Vl]].
  assert (m_nodes m1 !! p = Some (set_inode (sv_i sv) false sv)) as Hp1 by by rewrite En1, lookup_insert_eq.
  destruct (mnt_ino m1 I p _ Hok1 Hp1) as [Hir Hiu]. simpl sv_ino in Hir, Hiu.
  destruct (sfs_bfree_wp (sv_ino sv) (m_fs m1)) as (fs2 & E2 & Hok2 & Hh2 & Hu2 & Hb2);
    [apply (tw_vol _ _ Ht1)|done|done|].
  destruct (tree_free (m_fs m1) I (sv_ino sv) (sv_i sv) fs2) as (Ht2 & Ee2 & Hun2); [done..|].
  destruct (set_fs_table fs2 m1 (me_table _ _ Hm1)) as [Hb2' S2]; [apply Hh2|].
  destruct (table_drop (set_fs fs2 m1) p _ Hb2' Hp1 Hr Ho Vl) as (m' & E3 & Ht' & S3 & Ef & En3).
  exists m1, fs2, m'. split; [done|]. split; [done|]. split; [done|]. split; [exact E3|].
  simpl m_fs in Ef. simpl m_nodes in En3.
  assert (fs_hist (m_fs m) (m_fs m')) as Hh by (rewrite Ef; by eapply fs_hist_trans).
  split; [|split].
  - constructor; [split|by do 2 (eapply heap_step_trans; [done|])|done]; [by rewrite Ef|].
    apply (mem_del_file m1 I p (set_inode (sv_i sv) false sv)); [done|done|done|done|].
    intros ino _. by rewrite Ef.
  - unfold view in *. injection Ev1 as Ev1 Ef1. rewrite Ef, Ee2, Ev1. f_equal. rewrite <- Ef1.
    apply map_eq. intros ino. destruct (decide (ino = SFS_ROOT_LOCATION)) as [->|Hn2].
    { by rewrite lookup_delete_ne, !lookup_files_root. }
    rewrite lookup_files by done. destruct (decide (ino = sv_ino sv)) as [->|Hn3].
    { by rewrite !lookup_delete_eq. }
    rewrite !lookup_delete_ne, lookup_files by done. destruct (I !! ino) as [i|] eqn:Hii; [|done].
    simpl. f_equal. apply untouched_content. by apply (Hun2 ino).
  - by rewrite En3, En1, delete_insert_eq.
Qed.

Lemma root_linked m I p sv :
  mnt_ok m I -> m_nodes m !! p = Some sv -> sfi_linkcount (sv_i sv) = 0 ->
  sv_ino sv <> SFS_ROOT_LOCATION.
Proof.
  intros [Ht Hm] Hp Hl E. destruct (me_node _ _ Hm p sv Hp) as [Hi _].
  destruct (tw_root _ _ Ht) as (r & Hr & _ & Hr0). rewrite <- E, Hi in Hr. by injection Hr as <-.
Qed.

Lemma sfs_reclaim_wp m I p sv :
  mnt_ok m I -> m_nodes m !! p = Some sv -> vn_refcount (sv_v sv) = 1 ->
  vn_opencount (sv_v sv) = 0 ->
  exists r m' I', sfs_reclaim p m = Some (r, m') /\ reclaim_post m I p sv r m' I'.
Proof.
  intros Hok Hp Hr Ho. pose proof Hok as [Ht Hm].
  destruct (me_node _ _ Hm p sv Hp) as [Hi [_ _ _ [lk Vl]]].
  unfold sfs_reclaim, countlock. rewrite Hp. cbn [mbind option_bind]. rewrite Vl, Hr.
  cbn [mbind option_bind]. change (negb (1 =? 1)) with false. cbn iota.
  destruct (sfi_linkcount (sv_i sv) =? 0) eqn:El; boolify.
  - pose proof (root_linked m I p sv Hok Hp El) as Hne.
    destruct (VOP_TRUNCATE_wp m I p sv 0 Hok Hp Hne) as (r & sv1 & fs1 & -> & Htp & Hst & Ev); [lia|lia|].
    set (m1 := set_node p sv1 (set_fs fs1 m)) in *. cbn [mbind option_bind].
    pose proof Htp as [Hc Hsv _ _ _ _ _ Hf]. destruct (r =? 0) eqn:Er; boolify; cbn [negb].
    + destruct Hsv as (E1 & E2 & _). destruct (fc_meta _ _ _ _ Hc) as (_ & E3 & _).
      assert (m_nodes m1 !! p = Some sv1) as Hp1 by apply lookup_insert_eq.
      destruct (reclaim_unlinked m1 _ p sv1 (ms_ok _ _ _ Hst) Hp1)
        as (m2 & fs2 & m' & -> & Hp2 & Eb & Ed & Hst2 & Ev2 & En2); [congruence..|].
      cbn [mbind option_bind]. change (negb (0 =? 0)) with false. cbn iota. rewrite Hp2.
      cbn [mbind option_bind]. change (sfi_linkcount (sv_i (set_inode (sv_i sv1) false sv1)))
        with (sfi_linkcount (sv_i sv1)). rewrite E3, El. change (0 =? 0) with true. cbn iota.
      change (sv_ino (set_inode (sv_i sv1) false sv1)) with (sv_ino sv1). rewrite Eb.
      cbn [mbind option_bind]. cbn zeta in Ed. eexists 0, m', _. split; [exact Ed|].
      rewrite E2, delete_insert_eq in Hst2, Ev2. constructor; [by eapply mnt_step_trans| |done].
      intros _. split; [rewrite En2; unfold m1; simpl; apply delete_insert_eq|]. right.
      split; [done|]. split; [done|]. rewrite Ev2. unfold view in Ev. injection Ev as Eva Evb.
      change (m_fs m1) with fs1. by rewrite Eva, Evb, delete_insert_eq.
    + eexists r, m1, _. split; [done|]. constructor; [exact Hst|done|]. intros _.
      destruct (Hf Er) as (-> & Hrel & _). split; [done|]. split; [done|]. split; [done|].
      exists sv1. by split_and!.
  - destruct (reclaim_linked m I p sv Hok Hp Hr Ho El) as (m1 & m' & E1 & Hp1 & Ed & Hst & Ev & En & Hus).
    cbn [mbind option_bind]. change (negb (0 =? 0)) with false. cbn iota. rewrite E1.
    cbn [mbind option_bind]. change (negb (0 =? 0)) with false. cbn iota. rewrite Hp1.
    cbn [mbind option_bind]. change (sfi_linkcount (sv_i (set_inode (sv_i sv) false sv)))
      with (sfi_linkcount (sv_i sv)). rewrite (proj2 (Z.eqb_neq _ _) El). cbn [mbind option_bind].
    eexists 0, m', _. split; [exact Ed|]. constructor; [done| |done]. intros _. split; [done|].
    left. by split_and!.
Qed.

(** [VOP_DECREF]: one reference less, or the vnode is given up. *)
Lemma vnode_decref_wp m I p sv :
  mnt_ok m I -> m_nodes m !! p = Some sv ->
  (vn_refcount (sv_v sv) = 1 -> vn_opencount (sv_v sv) = 0) ->
  exists m' I', vnode_decref p m = Some m' /\
    (1 < vn_refcount (sv_v sv) /\
     m' = set_node p (set_vn (set_refcount (vn_refcount (sv_v sv) - 1) (sv_v sv)) sv) m /\
     mnt_step m m' I /\ I' = I \/
     vn_refcount (sv_v sv) = 1 /\ exists r, reclaim_post m I p sv r m' I').
Proof.
  intros Hok Hp Ho. pose proof Hok as [Ht Hm].
  destruct (me_node _ _ Hm p sv Hp) as [Hi [Vo Vr Vc Vl]].
  destruct (node_ptr m p sv (me_table _ _ Hm) Hp) as [Hp0 _].
  unfold vnode_decref. rewrite (proj2 (Z.eqb_neq p 0)) by done. cbn [negb]. rewrite Hp.
  cbn [mbind option_bind]. unfold countlock at 1. destruct Vl as [lk Vl]. rewrite Vl.
  cbn [mbind option_bind]. rewrite (proj2 (Z.ltb_lt 0 _)) by lia.
  destruct (1 <? vn_refcount (sv_v sv)) eqn:E; boolify.
  - eexists _, I. split; [done|]. left. split; [done|]. split; [done|]. split; [|done].
    destruct (mnt_counts m I p sv (set_refcount (vn_refcount (sv_v sv) - 1) (sv_v sv)) Hok Hp)
      as [? ?]; [by constructor; simpl; try lia|]. constructor; [done|done|apply fs_hist_refl].
  - assert (vn_refcount (sv_v sv) = 1) as E1 by lia.
    destruct (sfs_reclaim_wp m I p sv Hok Hp E1 (Ho E1)) as (r & m' & I' & Er & Hrc).
    unfold VOP_RECLAIM. rewrite (vnode_check_wp _ m I p sv Hm Hp). cbn [mbind option_bind].
    rewrite Er. exists m', I'. split; [done|]. right. eauto.
Qed.
End vnodes.
