(* ===== verification/SfsNames.v ===== *)
(** * Names: looking up, creating, linking, removing and renaming files

    The operations of the directory of a mounted volume.  Each keeps [mnt_ok], and
    its effect is stated on the [view] of the volume. *)

From stdpp Require Import base option list gmap numbers.
From S2P Require Import Prelude Kmem Array Bitmap Cstring Uio Device SfsDisk Sfs.
From S2P Require Import SfsBlock SfsBmap SfsFile SfsDir SfsTrunc SfsVol.
From S2P Require Import SfsMount SfsTree SfsTable SfsVnodes.

Section names.
Context {H D : Type} `{!Kmalloc H, !KmallocLaws H, !Device D, !DeviceLaws D}.
Implicit Types m : mnt H D.
Implicit Types fs : sfs_fs D.

(** ** The root directory in memory *)

(** [dp] is the vnode of the root directory. *)
Definition is_root m (dp : Z) rv : Prop :=
  m_nodes m !! dp = Some rv /\ sv_ino rv = SFS_ROOT_LOCATION.

Lemma root_dir m I dp rv :
  mnt_ok m I -> is_root m dp rv ->
  I !! SFS_ROOT_LOCATION = Some (sv_i rv) /\ dir_wf (m_fs m) (sv_i rv) /\
  entries (m_fs m) I = dents (m_fs m) (sv_i rv) /\ names_unique (dents (m_fs m) (sv_i rv)).
Proof.
  intros [Ht Hm] [Hp Er]. destruct (me_node _ _ Hm dp rv Hp) as [Hi _]. rewrite Er in Hi.
  destruct (tw_root _ _ Ht) as (r & Hr & Hd & _). rewrite Hi in Hr. injection Hr as <-.
  pose proof (entries_root (m_fs m) I _ Hi) as Ee. split; [done|]. split; [done|]. split; [done|].
  rewrite <- Ee. apply Ht.
Qed.

(** The directory's file changes, but not what it says. *)
Lemma mnt_root m I dp rv fs' rv' :
  mnt_ok m I -> is_root m dp rv -> file_upd (m_fs m) (sv_i rv) fs' (sv_i rv') ->
  same_meta (sv_i rv) (sv_i rv') -> sv_step rv rv' -> dir_wf fs' (sv_i rv') ->
  dents fs' (sv_i rv') = dents (m_fs m) (sv_i rv) ->
  let m' := set_node dp rv' (set_fs fs' m) in
  let I' := <[SFS_ROOT_LOCATION := sv_i rv']> I in
  mnt_step m m' I' /\ view m' I' = view m I.
Proof.
  intros Hok Hroot Hu Hme (Ev & Ei & Hd) Hw Ede m' I'. pose proof Hok as [Ht Hm].
  destruct (root_dir m I dp rv Hok Hroot) as (Hi & _). pose proof Hroot as [Hp Er].
  destruct (tree_root _ I _ fs' (sv_i rv') Ht Hi Hu Hme Hw Ede) as (Ht' & Ee & Hr).
  pose proof (fu_hist _ _ _ _ Hu) as Hh. destruct (me_node _ _ Hm dp rv Hp) as [_ Hv].
  destruct (mem_upd m I dp rv fs' rv' Hm Hp) as [Hm' Hst]; [by eapply vn_step_same|done|apply Hh|..].
  - intros ino Hino _. apply (rs_meta _ _ _ _ Hr). by right.
  - intros Hc. pose proof (Hd Hc) as ->. rewrite (rs_meta _ _ _ _ Hr), Er by (right; rewrite Er; eauto).
    apply (me_disk _ _ Hm); [done|]. intros q s Hq E.
    assert (q = dp) as -> by (apply (me_inj _ _ Hm q dp s rv); congruence). congruence.
  - rewrite Er in Hm'. split; [by constructor|]. unfold view, I'. change (m_fs m') with fs'.
    by rewrite Ee, (files_root (m_fs m)).
Qed.

(** The directory gains or loses entries of one file, whose link count follows. *)
Lemma mnt_relink m I dp rv p f fs' rv' n L :
  mnt_ok m I -> is_root m dp rv -> m_nodes m !! p = Some f -> sv_ino f <> SFS_ROOT_LOCATION ->
  file_upd (m_fs m) (sv_i rv) fs' (sv_i rv') -> same_meta (sv_i rv) (sv_i rv') -> sv_step rv rv' ->
  dir_wf fs' (sv_i rv') -> dents fs' (sv_i rv') = L -> names_unique L ->
  (forall d, d ∈ L -> sfd_ino d <> 0 -> sfd_ino d = sv_ino f \/ d ∈ entries (m_fs m) I) ->
  (forall ino2, ino2 <> 0 -> ino2 <> sv_ino f -> links L ino2 = links (entries (m_fs m) I) ino2) ->
  n = Z.of_nat (links L (sv_ino f)) ->
  let f' := set_inode (set_linkcount n (sv_i f)) true f in
  let m' := set_node p f' (set_node dp rv' (set_fs fs' m)) in
  let I' := <[sv_ino f := sv_i f']> (<[SFS_ROOT_LOCATION := sv_i rv']> I) in
  mnt_step m m' I' /\ view m' I' = (L, files (m_fs m) I).
Proof.
  intros Hok Hroot Hp Hne Hu Hme (Ev & Ei & Hd) Hw Ede Hun Hel Hli -> f' m' I'.
  pose proof Hok as [Ht Hm]. pose proof Hroot as [Hdp Er].
  destruct (root_dir m I dp rv Hok Hroot) as (Hi & _). destruct (me_node _ _ Hm p f Hp) as [Hif Hvf].
  destruct (tree_relink _ I _ fs' (sv_i rv') (sv_ino f) (sv_i f) L Ht Hi Hu Hme Hw Ede Hun Hif Hne Hel Hli)
    as (Ht' & Ee & Hr).
  pose proof (fu_hist _ _ _ _ Hu) as Hh. destruct (me_node _ _ Hm dp rv Hdp) as [_ Hv].
  assert (p <> dp) as Hpd by congruence.
  destruct (mem_upd m I dp rv fs' rv' Hm Hdp) as [Hm1 Hst1]; [by eapply vn_step_same|done|apply Hh|..].
  { intros ino Hino _. apply (rs_meta _ _ _ _ Hr). by right. }
  { intros Hc. pose proof (Hd Hc) as ->. rewrite (rs_meta _ _ _ _ Hr), Er by (right; rewrite Er; eauto).
    apply (me_disk _ _ Hm); [done|]. intros q s Hq E.
    assert (q = dp) as -> by (apply (me_inj _ _ Hm q dp s rv); congruence). congruence. }
  rewrite Er in Hm1. set (m1 := set_node dp rv' (set_fs fs' m)) in *.
  assert (m_nodes m1 !! p = Some f) as Hp1 by (unfold m1; simpl; by rewrite lookup_insert_ne).
  destruct (mem_upd m1 _ p f fs' f' Hm1 Hp1) as [Hm2 Hst2]; [by eapply vn_step_same|done|done|done|done|].
  replace (set_fs fs' m1) with m1 in Hm2, Hst2 by by destruct m.
  split; [constructor; [by split|by eapply heap_step_trans|exact Hh]|].
  unfold view. change (m_fs m') with fs'. f_equal; [exact Ee|].
  rewrite <- (files_root _ I fs' (sv_i rv') Hr). apply files_ext. intros ino Hn2. unfold I'.
  destruct (decide (ino = sv_ino f)) as [->|]; [|by rewrite lookup_insert_ne].
  rewrite lookup_insert_eq, lookup_insert_ne, Hif by done. done.
Qed.

(** ** Adding and removing an entry *)

Lemma file_links m I p f :
  mnt_ok m I -> m_nodes m !! p = Some f -> sv_ino f <> SFS_ROOT_LOCATION ->
  sfi_linkcount (sv_i f) = Z.of_nat (links (entries (m_fs m) I) (sv_ino f)) /\
  sfi_linkcount (sv_i f) <= 1144 /\ 0 < sv_ino f < nblocks (m_fs m).
Proof.
  intros Hok Hp Hne. pose proof Hok as [Ht Hm]. destruct (me_node _ _ Hm p f Hp) as [Hi _].
  pose proof (tw_links _ _ Ht _ _ Hi Hne) as E. rewrite E.
  pose proof (tree_links_bound _ _ (sv_ino f) Ht). destruct (mnt_ino m I p f Hok Hp) as [? _]. lia.
Qed.

Lemma elem_of_put k d l e : e ∈ put_entry k d l -> e = d \/ e ∈ l.
Proof.
  unfold put_entry. case_decide.
  - intros [j Hj]%list_elem_of_lookup_1. apply list_lookup_insert_Some in Hj as [(_ & -> & _)|[_ Hj]];
      [by left|right; by eapply list_elem_of_lookup_2].
  - rewrite elem_of_app, list_elem_of_singleton. tauto.
Qed.

Definition link_entry m I (name : list Z) (ino slot : Z) (L : list sfs_dir) : Prop :=
  exists d, 0 <= slot /\ free_slot (entries (m_fs m) I) (Z.to_nat slot) /\
    sfd_ino d = ino /\ dname d = name /\ L = put_entry (Z.to_nat slot) d (entries (m_fs m) I) /\
    names_unique L /\ found_ok name (entries (m_fs m) I) None.

Definition link_fails m I (name : list Z) (r : Z) m' : Prop :=
  r = EEXIST /\ is_Some (names (entries (m_fs m) I) !! name) \/
  r = ENAMETOOLONG /\ (60 <= length name)%nat \/
  r = EINVAL /\ free_slot (entries (m_fs m) I) 1144 \/
  r = ENOSPC /\ full (m_fs m') \/ r = EIO /\ ~ reliable (m_fs m).

Lemma dir_link_wp m I dp rv p f name :
  mnt_ok m I -> is_root m dp rv -> m_nodes m !! p = Some f -> sv_ino f <> SFS_ROOT_LOCATION ->
  is_str name -> Z.of_nat (length name) + 1 < 2 ^ 32 ->
  exists r slot rv' m1 I' L, dir_link dp name (sv_ino f) m = Some (r, slot, m1) /\
    m_nodes m1 = <[dp := rv']> (m_nodes m) /\ sv_step rv rv' /\
    (r = 0 /\ link_entry m I name (sv_ino f) slot L /\
     mnt_step m (set_node p (links_up f) m1) I' /\
     view (set_node p (links_up f) m1) I' = (L, files (m_fs m) I) \/
     r <> 0 /\ link_fails m I name r m1 /\ mnt_step m m1 I' /\ view m1 I' = view m I).
Proof.
  intros Hok Hroot Hp Hne Hn Hlen. pose proof Hok as [Ht Hm].
  destruct (root_dir m I dp rv Hok Hroot) as (Hi & Hd & Ee & Hun). pose proof Hroot as [Hdp Er].
  destruct (file_links m I p f Hok Hp Hne) as (El & Hlb & Hir).
  pose proof (vw_ok _ _ (tw_vol _ _ Ht)) as Hfok.
  destruct (sfs_dir_link_wp rv name (sv_ino f) (m_fs m)) as (r & slot & rv' & fs' & E & Hpost);
    [done|done|done|done|done|by eapply block_u32|].
  destruct Hpost as [Hst Hsv Hd' Hu' Hk Hf].
  exists r, slot, rv', (set_node dp rv' (set_fs fs' m)).
  assert (dir_link dp name (sv_ino f) m = Some (r, slot, set_node dp rv' (set_fs fs' m))) as E1.
  { unfold dir_link. rewrite Hdp. cbn [mbind option_bind]. by rewrite E. }
  destruct (decide (r = 0)) as [->|Hr].
  - destruct (Hk eq_refl) as (Hno & d & Hs & Hfree & Hdok & Hdi & Hdn & Ede). rewrite <- Ee in *.
    set (L := put_entry _ _ _) in Ede.
    destruct (mnt_relink m I dp rv p f fs' rv' (u16 (sfi_linkcount (sv_i f) + 1)) L) as [Hms Hv];
      [done|done|done|done|by apply file_step_upd|apply Hst|done|done|done|by rewrite <- Ede|..].
    + intros e He _. apply elem_of_put in He as [->|He]; auto.
    + intros ino2 H0 Hn2. unfold L. rewrite links_put by done. rewrite decide_False by congruence. lia.
    + unfold L. rewrite links_put by (done || lia). rewrite decide_True by done.
      rewrite u16_id by lia. lia.
    + eexists _, L. split; [done|]. split; [done|]. split; [done|].
      left. split; [done|]. split; [|by split]. exists d. rewrite <- Ede. by split_and!.
  - destruct (Hf Hr) as [Ede Hc].
    destruct (mnt_root m I dp rv fs' rv') as [Hms Hv];
      [done|done|by apply file_step_upd|apply Hst|done|done|done|].
    eexists _, []. split; [done|]. split; [done|]. split; [done|].
    right. split; [done|]. split; [|by split]. unfold link_fails. rewrite <- Ee in *.
    destruct Hc as [[-> [[ino s] Hfo]]|Hc]; [|right; exact Hc]. left. split; [done|].
    exists ino. apply names_lookup; [apply Ht|]. by eapply found_binds.
Qed.

Lemma dir_unlink_wp m I dp rv p f slot d name :
  mnt_ok m I -> is_root m dp rv -> m_nodes m !! p = Some f -> sv_ino f <> SFS_ROOT_LOCATION ->
  0 <= slot -> entries (m_fs m) I !! Z.to_nat slot = Some d -> has_name name d ->
  sfd_ino d = sv_ino f ->
  exists r rv' m1 I', dir_unlink dp slot m = Some (r, m1) /\
    m_nodes m1 = <[dp := rv']> (m_nodes m) /\ sv_step rv rv' /\
    0 < sfi_linkcount (sv_i f) /\
    (r = 0 /\ mnt_step m (set_node p (links_down f) m1) I' /\
     view (set_node p (links_down f) m1) I' =
       (<[Z.to_nat slot := SfsDir 0 (replicate 60 0)]> (entries (m_fs m) I), files (m_fs m) I) /\
     names_unique (<[Z.to_nat slot := SfsDir 0 (replicate 60 0)]> (entries (m_fs m) I)) \/
     r <> 0 /\ mnt_step m m1 I' /\ view m1 I' = view m I /\
     r = EIO /\ ~ reliable (m_fs m)).
Proof.
  intros Hok Hroot Hp Hne Hs Hk Hnm Hdi. pose proof Hok as [Ht Hm].
  destruct (root_dir m I dp rv Hok Hroot) as (Hi & Hd & Ee & Hun). pose proof Hroot as [Hdp Er].
  destruct (file_links m I p f Hok Hp Hne) as (El & Hlb & Hir).
  pose proof (lookup_lt_Some _ _ _ Hk) as Hlt. rewrite Ee, length_dents in Hlt.
  destruct (sfs_dir_unlink_wp rv slot (m_fs m)) as (r & rv' & fs' & E & Hst & Hsv & Hd' & Hu' & Ede & Hf);
    [apply (tw_vol _ _ Ht)|done|done|lia|].
  assert (dir_unlink dp slot m = Some (r, set_node dp rv' (set_fs fs' m))) as E1.
  { by apply (on_node_eq (fun sv fs => sfs_dir_unlink sv slot fs) dp m rv). }
  assert (0 < links (entries (m_fs m) I) (sv_ino f))%nat as Hpos.
  { apply (links_pos _ _ d); [by eapply list_elem_of_lookup_2|done]. }
  exists r, rv', (set_node dp rv' (set_fs fs' m)). rewrite <- Ee in *.
  destruct (decide (r = 0)) as [->|Hr].
  - set (L := <[_ := _]> _) in Ede.
    pose proof (links_clear _ _ d (sv_ino f) Hk ltac:(lia)) as Hcl. rewrite decide_True in Hcl by done.
    destruct (mnt_relink m I dp rv p f fs' rv' (u16 (sfi_linkcount (sv_i f) - 1)) L) as [Hms Hv];
      [done|done|done|done|by apply file_step_upd|apply Hst|done|done|done|by rewrite <- Ede|..].
    + intros e He Hz. right. apply list_elem_of_lookup_1 in He as [j Hj].
      apply list_lookup_insert_Some in Hj as [(_ & <- & _)|[_ Hj]]; [done|by eapply list_elem_of_lookup_2].
    + intros ino2 H0 Hn2. rewrite (links_clear _ _ d ino2 Hk H0).
      rewrite decide_False by congruence. unfold L. lia.
    + unfold L. rewrite u16_id by lia. lia.
    + eexists. split; [done|]. split; [done|]. split; [done|].
      split; [lia|]. left. split; [done|]. split; [exact Hms|]. split; [exact Hv|].
      fold L. by rewrite <- Ede.
  - rewrite Ee in Ede. destruct (mnt_root m I dp rv fs' rv') as [Hms Hv];
      [done|done|by apply file_step_upd|apply Hst|done|done|done|].
    eexists. split; [done|]. split; [done|]. split; [done|].
    split; [lia|]. right. split; [done|]. split; [exact Hms|]. split; [exact Hv|]. by apply Hf.
Qed.

(** ** References *)

(** Who holds a vnode holds it still, with the same counts; and if [rel], no other
    vnode is in memory than before. *)
Definition kept (rel : Prop) m m' : Prop :=
  (forall q sv, m_nodes m !! q = Some sv ->
     exists sv', m_nodes m' !! q = Some sv' /\ sv_v sv' = sv_v sv /\ sv_ino sv' = sv_ino sv) /\
  (rel -> forall q, m_nodes m !! q = None -> m_nodes m' !! q = None).

Definition keeps m m' : Prop := kept True m m'.
Definition stays m m' : Prop := kept (reliable (m_fs m)) m m'.

(** One more reference, to the vnode [p], and nothing else. *)
Definition gives m (p : Z) sv m' : Prop :=
  m_nodes m' !! p = Some sv /\
  match m_nodes m !! p with
  | Some sv0 => sv_v sv = set_refcount (vn_refcount (sv_v sv0) + 1) (sv_v sv0) /\
                sv_ino sv = sv_ino sv0 /\ 1 <= vn_refcount (sv_v sv0)
  | None => vn_refcount (sv_v sv) = 1 /\ vn_opencount (sv_v sv) = 0
  end /\
  (forall q s, m_nodes m !! q = Some s -> q <> p ->
     exists s', m_nodes m' !! q = Some s' /\ sv_v s' = sv_v s /\ sv_ino s' = sv_ino s) /\
  (forall q, m_nodes m !! q = None -> q <> p -> m_nodes m' !! q = None).

Lemma kept_refl rel m m' : m_nodes m' = m_nodes m -> kept rel m m'.
Proof. intros E. split; rewrite E; [eauto|done]. Qed.

Lemma kept_weaken (rel rel' : Prop) m m' : (rel' -> rel) -> kept rel m m' -> kept rel' m m'.
Proof. intros Hr [K N]. split; [done|auto]. Qed.

Lemma keeps_trans m1 m2 m3 : keeps m1 m2 -> keeps m2 m3 -> keeps m1 m3.
Proof.
  intros [K1 N1] [K2 N2]. split; [|auto].
  intros q sv Hq. destruct (K1 q sv Hq) as (sv2 & H2' & E2 & F2).
  destruct (K2 q sv2 H2') as (sv3 & H3' & E3 & F3). exists sv3. split; [done|]. split; congruence.
Qed.

Lemma keeps_insert m m' q s s' :
  m_nodes m !! q = Some s -> m_nodes m' = <[q := s']> (m_nodes m) -> sv_v s' = sv_v s ->
  sv_ino s' = sv_ino s -> keeps m m'.
Proof.
  intros Hq En Ev Ei. split; [intros q2 s2 Hq2|intros _ q2 Hq2]; rewrite En.
  - destruct (decide (q2 = q)) as [->|].
    + exists s'. rewrite lookup_insert_eq. split; [done|]. split; congruence.
    + exists s2. by rewrite lookup_insert_ne.
  - rewrite lookup_insert_ne; [done|congruence].
Qed.


(** A load. *)
Lemma load_gives m I ino p m' :
  mem_ok m I -> load_post m I ino 0 p m' ->
  exists sv, gives m p sv m' /\ sv_ino sv = ino /\ m_nodes m' = <[p := sv]> (m_nodes m) /\
    (m_nodes m !! p = None -> ~ loaded m ino).
Proof.
  intros Hm [_ _ _ [(_ & sv & En & Ei & Hc)|[? _]]]; [|done]. exists sv. split; [|split; [done|]].
  - split; [by rewrite En, lookup_insert_eq|]. split.
    + destruct (m_nodes m !! p) as [sv0|] eqn:E0; [|by destruct Hc as (? & ? & _)].
      subst sv. split; [done|]. split; [done|]. destruct (me_node _ _ Hm p sv0 E0) as [_ [_ ? _ _]]. lia.
    + split; intros q; [intros s|]; intros Hq Hne; rewrite En, lookup_insert_ne by done; eauto.
  - split; [done|]. intros E0. rewrite E0 in Hc. by destruct Hc as (_ & _ & ?).
Qed.

(** Steps after the load keep it. *)
Lemma gives_keeps m p sv m1 m2 sv' :
  gives m p sv m1 -> keeps m1 m2 -> m_nodes m2 !! p = Some sv' -> gives m p sv' m2.
Proof.
  intros (Hp & Hc & Hq & Hn) [K N] Hp2. destruct (K p sv Hp) as (s & Hs & Ev & Ei).
  rewrite Hp2 in Hs. injection Hs as <-. split; [done|]. split.
  - destruct (m_nodes m !! p) as [sv0|]; rewrite Ev; [|done]. by rewrite Ei.
  - split; [|auto]. intros q s Hqs Hne. destruct (Hq q s Hqs Hne) as (s1 & Hs1 & E1 & F1).
    destruct (K q s1 Hs1) as (s2 & Hs2 & E2 & F2). exists s2. split; [done|]. split; congruence.
Qed.

(** The reference is given back: the file is seen as before, unless nobody else had
    it in memory and it has no name; then it is gone. *)
Definition released m I1 (p : Z) sv m1 m2 I2 : Prop :=
  mnt_step m1 m2 I2 /\ kept (reliable (m_fs m1)) m m2 /\ entries (m_fs m2) I2 = entries (m_fs m1) I1 /\
  (forall ino, ino <> sv_ino sv -> files (m_fs m2) I2 !! ino = files (m_fs m1) I1 !! ino) /\
  (is_Some (m_nodes m !! p) \/ sfi_linkcount (sv_i sv) <> 0 ->
     files (m_fs m2) I2 = files (m_fs m1) I1 /\
     forall b, used (m_fs m2) b = used (m_fs m1) b) /\
  (m_nodes m !! p = None -> sfi_linkcount (sv_i sv) = 0 -> reliable (m_fs m1) ->
     files (m_fs m2) I2 = delete (sv_ino sv) (files (m_fs m1) I1)).

Lemma release m p sv m1 I1 :
  mnt_ok m1 I1 -> gives m p sv m1 ->
  exists m2 I2, vnode_decref p m1 = Some m2 /\ released m I1 p sv m1 m2 I2.
Proof.
  intros Hok (Hp & Hc & Hq & Hn).
  destruct (vnode_decref_wp m1 I1 p sv Hok Hp) as (m2 & I2 & E & Hcase).
  { destruct (m_nodes m !! p); [|by destruct Hc]. destruct Hc as (-> & _ & ?). simpl. lia. }
  exists m2, I2. split; [done|]. destruct Hcase as [(Hr & -> & Hst & ->)|(Hr & r & [Hst Hok2 Hf])].
  - split; [done|]. split; [|do 3 (split; [done|]); intros E0; rewrite E0 in Hc; lia].
    split; [intros q s Hqs|intros _ q Hqs]; simpl; destruct (decide (q = p)) as [->|Hne].
    + rewrite lookup_insert_eq. eexists. split; [done|]. rewrite Hqs in Hc. destruct Hc as (Ev & Ei & _).
      simpl. rewrite Ev. simpl. split; [|done]. unfold set_refcount. simpl.
      destruct (sv_v s). simpl. f_equal. lia.
    + rewrite lookup_insert_ne by done. by apply Hq.
    + rewrite Hqs in Hc. lia.
    + rewrite lookup_insert_ne by done. by apply Hn.
  - assert (m_nodes m !! p = None) as Hnone.
    { destruct (m_nodes m !! p); [|done]. destruct Hc as (Ev & _ & ?). rewrite Ev in Hr. simpl in Hr. lia. }
    split; [done|]. split.
    { split.
      - intros q s Hqs. assert (q <> p) as Hne by congruence. destruct (Hq q s Hqs Hne) as (s' & Hs' & ?).
        exists s'. split; [|done]. destruct (decide (r = 0)) as [Hr0|Hr0].
        + destruct (Hok2 Hr0) as [-> _]. by rewrite lookup_delete_ne.
        + destruct (Hf Hr0) as (_ & _ & _ & sv' & -> & _). by rewrite lookup_insert_ne.
      - intros Hrel q Hqs. destruct (decide (r = 0)) as [Hr0|Hr0]; [|by destruct (Hf Hr0) as (_ & ? & _)].
        destruct (Hok2 Hr0) as [-> _]. destruct (decide (q = p)) as [->|]; [by rewrite lookup_delete_eq|].
        rewrite lookup_delete_ne by done. auto. }
    rewrite Hnone. destruct (decide (r = 0)) as [Hr0|Hr0].
    + destruct (Hok2 Hr0) as [_ [(Hl & -> & Ev & Hus)|(Hl & -> & Ev)]]; unfold view in Ev; injection Ev as -> ->.
      * split; [done|]. split; [done|]. split; [done|]. by intros _ ?.
      * split; [done|]. split; [by intros ino Hne; rewrite lookup_delete_ne|].
        split; [by intros [[? ?]|?]|done].
    + destruct (Hf Hr0) as (_ & Hrel & Hl & sv' & _ & _ & -> & Ev). unfold view in Ev.
      injection Ev as -> ->. split; [done|]. split; [by intros ino Hne; rewrite lookup_insert_ne|].
      split; [by intros [[? ?]|?]|done].
Qed.

(** ** Looking up *)

(** The search of the directory, seen from the mounted volume. *)
Lemma mnt_findname m I dp rv name :
  mnt_ok m I -> is_root m dp rv -> is_str name ->
  exists r found empty fs', sfs_dir_findname rv name (m_fs m) = Some (r, found, empty, rv, fs') /\
    set_node dp rv (set_fs fs' m) = set_fs fs' m /\
    mnt_step m (set_fs fs' m) I /\ view (set_fs fs' m) I = view m I /\
    (r = (if found is Some _ then 0 else ENOENT) /\ found_ok name (entries (m_fs m) I) found \/
     r = EIO /\ ~ reliable (m_fs m)).
Proof.
  intros Hok Hroot Hn. pose proof Hok as [Ht Hm].
  destruct (root_dir m I dp rv Hok Hroot) as (Hi & Hd & Ee & Hun). pose proof Hroot as [Hdp Er].
  destruct (sfs_dir_findname_wp rv name (m_fs m)) as (r & found & empty & fs' & E & Hs & Hp);
    [apply (tw_vol _ _ Ht)|done|done|done|].
  exists r, found, empty, fs'. split; [done|]. split; [by apply set_node_same|].
  destruct (mnt_same m I fs' Hok Hs) as (Hok' & Hst & Ee' & Ef').
  split; [constructor; [done|done|]|split; [unfold view; simpl; by rewrite Ee', Ef'|]].
  { destruct Hs as [Hs ->]. by apply fs_hist_same. }
  rewrite Ee. destruct Hp as [(-> & Hf & _)|?]; [by left|by right].
Qed.

(** The vnode found has the name, and one more reference. *)
Definition look_ok m I (name : list Z) (p slot : Z) m' : Prop :=
  exists f d, gives m p f m' /\ m_nodes m' = <[p := f]> (m_nodes m) /\
    (m_nodes m !! p = None -> ~ loaded m (sv_ino f)) /\
    0 <= slot /\ entries (m_fs m) I !! Z.to_nat slot = Some d /\ has_name name d /\
    sfd_ino d = sv_ino f /\ sv_ino f <> SFS_ROOT_LOCATION /\
    names (entries (m_fs m) I) !! name = Some (sv_ino f).

Definition look_fails m I (name : list Z) (r : Z) : Prop :=
  r = ENOENT /\ names (entries (m_fs m) I) !! name = None \/
  r = ENOMEM \/ r = EIO /\ ~ reliable (m_fs m).

Lemma fs_same_hist fs fs' : fs_same fs fs' -> fs_hist fs fs'.
Proof. intros [? ->]. by apply fs_hist_same. Qed.

Lemma load_view m I ino r p m' :
  mnt_ok m I -> load_post m I ino r p m' -> mnt_step m m' I /\ view m' I = view m I.
Proof.
  intros [Ht Hm] [Hok' Hst Hs _]. destruct (tree_same _ I _ Ht Hs) as (_ & Ee & Hr).
  split; [by constructor; [..|apply fs_same_hist]|]. unfold view. rewrite Ee. f_equal.
  apply files_untouched. intros ino' i Hi Hne. by apply (rs_file _ _ _ _ (Hr SFS_ROOT_LOCATION) ino').
Qed.

Lemma names_none l name : names_unique l -> found_ok name l None -> names l !! name = None.
Proof.
  intros Hu Hf. apply eq_None_not_Some. intros [ino Hi]. apply (names_lookup _ _ _ Hu) in Hi.
  by apply (not_found_binds _ _ _ Hf) in Hi.
Qed.

Lemma found_entry fs I name ino slot :
  tree_wf fs I -> found_ok name (entries fs I) (Some (ino, slot)) ->
  exists i, I !! ino = Some i /\ ino <> SFS_ROOT_LOCATION /\ names (entries fs I) !! name = Some ino /\
    sfi_linkcount i <> 0.
Proof.
  intros Ht Hf. pose proof Hf as (Hs & d & Hd & [Hz Hnm] & Hdi).
  destruct (tw_ents _ _ Ht d) as [Hne [i Hi]]; [by eapply list_elem_of_lookup_2|done|].
  rewrite Hdi in *. exists i. split; [done|]. split; [done|].
  split; [apply names_lookup; [apply Ht|by eapply found_binds]|].
  rewrite (tw_links _ _ Ht _ _ Hi Hne).
  assert (0 < links (entries fs I) ino)%nat; [|lia].
  apply (links_pos _ _ d); [by eapply list_elem_of_lookup_2|done].
Qed.

Lemma sfs_lookonce_wp m I dp rv name :
  mnt_ok m I -> is_root m dp rv -> is_str name -> refs_room m ->
  exists r p slot m', sfs_lookonce dp name m = Some (r, p, slot, m') /\
    mnt_step m m' I /\ view m' I = view m I /\
    (r = 0 /\ look_ok m I name p slot m' \/
     r <> 0 /\ m_nodes m' = m_nodes m /\ look_fails m I name r).
Proof.
  intros Hok Hroot Hn Hroom. pose proof Hok as [Ht Hm]. pose proof Hroot as [Hdp Er].
  destruct (mnt_findname m I dp rv name Hok Hroot Hn) as (r & found & empty & fs' & E & Es & Hst & Hv & Hc).
  unfold sfs_lookonce. rewrite Hdp. cbn [mbind option_bind]. rewrite E. cbn [mbind option_bind].
  rewrite Es. cbn zeta. set (m1 := set_fs fs' m) in *.
  destruct Hc as [(-> & Hf)|[-> Hrel]].
  2:{ eexists EIO, 0, 0, m1. split; [done|]. split; [done|]. split; [done|]. right.
      split; [done|]. split; [done|]. unfold look_fails. auto. }
  destruct found as [[ino slot]|]; simpl negb; cbn iota.
  2:{ eexists ENOENT, 0, 0, m1. split; [done|]. split; [done|]. split; [done|]. right.
      split; [done|]. split; [done|]. left. split; [done|]. apply names_none; [apply Ht|done]. }
  destruct (found_entry _ I name ino slot Ht Hf) as (i & Hi & Hne & Hnm & Hl).
  cbn [mbind option_bind]. pose proof (ms_ok _ _ _ Hst) as Hok1.
  destruct (sfs_loadvnode_wp m1 I ino i Hok1 Hi Hroom) as (r & p & m' & -> & Hlp).
  destruct (load_view m1 I ino r p m' Hok1 Hlp) as [Hst2 Hv2]. cbn [mbind option_bind].
  destruct (r =? 0) eqn:Er0; boolify; cbn [negb].
  - subst r. destruct (load_gives m1 I ino p m') as (sv & Hg & Hsi & En & Hnl); [apply Hok1|done|].
    pose proof Hg as (Hp & _). rewrite Hp. cbn [mbind option_bind].
    assert (sv_i sv = i) as ->.
    { destruct (ld_ok _ _ _ _ _ _ Hlp) as [_ Hm']. destruct (me_node _ _ Hm' p sv Hp) as [Hi' _].
      rewrite Hsi, Hi in Hi'. by injection Hi'. }
    rewrite (proj2 (Z.eqb_neq _ _) Hl). eexists 0, p, slot, m'. split; [done|].
    split; [by eapply mnt_step_trans|]. split; [by rewrite Hv2|]. left. split; [done|].
    destruct Hf as (Hs & d & Hd & Hh & Hdi). exists sv, d. rewrite Hsi. by split_and!.
  - eexists r, 0, slot, m'. split; [done|]. split; [by eapply mnt_step_trans|].
    split; [by rewrite Hv2|]. right. split; [done|].
    destruct (ld_res _ _ _ _ _ _ Hlp) as [[? _]|(_ & En & Hc)]; [done|]. split; [done|].
    unfold look_fails. destruct Hc as [?|[? Hr2]]; [by auto|]. right; right. split; [done|].
    destruct (ms_hist _ _ _ Hst) as [Hr3 _]. tauto.
Qed.
End names.
