(* ===== verification/SfsOps.v ===== *)
(** * The directory operations of a mounted volume

    What creating, linking, removing and renaming a file do to the map from names to
    inode numbers and to the contents of the files, errors included. *)

From stdpp Require Import base option list gmap numbers.
From S2P Require Import Prelude Kmem Array Bitmap Cstring Uio Device SfsDisk Sfs.
From S2P Require Import SfsBlock SfsBmap SfsFile SfsDir SfsTrunc SfsVol.
From S2P Require Import SfsMount SfsTree SfsTable SfsVnodes SfsNames.

Lemma links_names l ino :
  names_unique l -> ino <> 0 -> (0 < links l ino)%nat <-> exists name, names l !! name = Some ino.
Proof.
  intros Hu Hz. split.
  - intros Hp. unfold links in Hp. destruct (filter _ l) as [|d ds] eqn:E; [simpl in Hp; lia|].
    assert (d ∈ filter (fun d => sfd_ino d = ino) l) as [Hi Hd]%list_elem_of_filter by (rewrite E; by left).
    exists (dname d). apply names_lookup; [done|]. apply list_elem_of_lookup_1 in Hd as [k Hk].
    exists k, d. split; [done|]. split; [|done]. split; [congruence|done].
  - intros [nm Hn]. apply (names_lookup _ _ _ Hu) in Hn as (k & d & Hk & _ & Hi).
    apply (links_pos _ _ d); [by eapply list_elem_of_lookup_2|done].
Qed.

Section ops.
Context {H D : Type} `{!Kmalloc H, !KmallocLaws H, !Device D, !DeviceLaws D}.
Implicit Types m : mnt H D.
Implicit Types fs : sfs_fs D.
Implicit Types I : gmap Z sfs_inode.

(** The names of the volume, and the contents of its files. *)
Definition mnames m (I : gmap Z sfs_inode) : gmap (list Z) Z := names (entries (m_fs m) I).
Definition mfiles m (I : gmap Z sfs_inode) : gmap Z (list Z) := files (m_fs m) I.

Lemma view_eq m I m' I' :
  view m' I' = view m I -> entries (m_fs m') I' = entries (m_fs m) I /\ mfiles m' I' = mfiles m I.
Proof. unfold view, mfiles. by intros [= -> ->]. Qed.

(** ** After a lookup *)

Lemma look_nodes m dp rv p m1 f :
  is_root m dp rv -> gives m p f m1 -> m_nodes m1 = <[p := f]> (m_nodes m) ->
  sv_ino f <> SFS_ROOT_LOCATION -> p <> dp /\ is_root m1 dp rv.
Proof.
  intros [Hdp Er] (_ & Hc & _) En Hne. assert (p <> dp) as Hpd.
  { intros ->. rewrite Hdp in Hc. destruct Hc as (_ & Ei & _). congruence. }
  split; [done|]. split; [|done]. by rewrite En, lookup_insert_ne.
Qed.

(** The directory's vnode, changed by an operation on its entries. *)
Lemma dir_keeps m1 dp rv rv' m2 :
  is_root m1 dp rv -> m_nodes m2 = <[dp := rv']> (m_nodes m1) -> sv_step rv rv' -> keeps m1 m2.
Proof. intros [Hdp _] En (Ev & Ei & _). by eapply keeps_insert. Qed.

(** The same, with the link count of another vnode. *)
Lemma dir_file_keeps m1 dp rv rv' m2 p f f' :
  is_root m1 dp rv -> m_nodes m2 = <[dp := rv']> (m_nodes m1) -> sv_step rv rv' ->
  m_nodes m1 !! p = Some f -> p <> dp -> sv_v f' = sv_v f -> sv_ino f' = sv_ino f ->
  keeps m1 (set_node p f' m2).
Proof.
  intros Hr En Hsv Hp Hne Ev Ei. eapply keeps_trans; [by eapply dir_keeps|].
  apply (keeps_insert m2 _ p f f'); [|done..]. by rewrite En, lookup_insert_ne.
Qed.

(** ** Removing *)

Definition gone m I (ino : Z) m' I' : Prop :=
  (forall x, x <> ino -> mfiles m' I' !! x = mfiles m I !! x) /\
  (loaded m ino \/ (exists nm, mnames m' I' !! nm = Some ino) -> mfiles m' I' = mfiles m I) /\
  (~ loaded m ino -> (forall nm, mnames m' I' !! nm <> Some ino) -> reliable (m_fs m) ->
     mfiles m' I' = delete ino (mfiles m I)).

Definition remove_fails m I (name : list Z) (r : Z) : Prop :=
  r = ENOENT /\ mnames m I !! name = None \/ r = ENOMEM \/ r = EIO /\ ~ reliable (m_fs m).

Lemma released_gone m I p f m3 I3 m4 I4 :
  mnt_ok m3 I3 -> gives m p f m3 -> (m_nodes m !! p = None -> ~ loaded m (sv_ino f)) ->
  sv_ino f <> SFS_ROOT_LOCATION -> mfiles m3 I3 = mfiles m I ->
  (reliable (m_fs m) -> reliable (m_fs m3)) -> released m I3 p f m3 m4 I4 ->
  gone m I (sv_ino f) m4 I4.
Proof.
  intros Hok (Hp & Hc0 & _) Hnl Hne Ef Hrel (_ & _ & Ee & Hx & Hsame & Hdel).
  destruct (file_links m3 I3 p f Hok Hp Hne) as (El & _ & Hir). pose proof Hok as [Ht _].
  pose proof (links_names _ (sv_ino f) (tw_unique _ _ Ht) ltac:(lia)) as Hln.
  unfold gone, mnames, mfiles in *. rewrite Ee, <- Ef. split; [done|]. split.
  - intros Hc. apply Hsame. destruct Hc as [Hl|Hnm]; [left|right; apply Hln in Hnm; lia].
    destruct (m_nodes m !! p) eqn:E0; [by eauto|]. by destruct (Hnl eq_refl).
  - intros Hl Hnm Hr. apply Hdel; [| |auto].
    + destruct (m_nodes m !! p) as [s|] eqn:E0; [|done]. destruct Hl. exists p, s. split; [done|].
      by destruct Hc0 as (_ & ? & _).
    + destruct (decide (0 < links (entries (m_fs m3) I3) (sv_ino f))%nat) as [Hl0|]; [|lia].
      apply Hln in Hl0 as [nm ?]. by destruct (Hnm nm).
Qed.

Lemma sfs_remove_wp m I dp rv name :
  mnt_ok m I -> is_root m dp rv -> is_str name -> refs_room m ->
  exists r m' I', sfs_remove dp name m = Some (r, m') /\ mnt_step m m' I' /\ stays m m' /\
    (r = 0 /\ (exists ino, mnames m I !! name = Some ino /\
       mnames m' I' = delete name (mnames m I) /\ gone m I ino m' I') \/
     r <> 0 /\ mnames m' I' = mnames m I /\ mfiles m' I' = mfiles m I /\ remove_fails m I name r).
Proof.
  intros Hok Hroot Hn Hroom. pose proof Hok as [Ht Hm].
  destruct (sfs_lookonce_wp m I dp rv name Hok Hroot Hn Hroom) as (r & p & slot & m1 & E & Hst & Hv & Hc).
  unfold sfs_remove. rewrite E. cbn [mbind option_bind]. pose proof (ms_ok _ _ _ Hst) as Hok1.
  destruct (view_eq _ _ _ _ Hv) as [Ee Ef]. destruct Hc as [(-> & Hl)|(Hr & En & Hl)].
  2:{ rewrite (proj2 (Z.eqb_neq _ _) Hr). eexists r, m1, I. split; [done|]. split; [done|].
      split; [by apply kept_refl|]. right. unfold mnames. rewrite Ee. split; [done|]. split; [done|].
      split; [done|]. unfold look_fails in Hl. unfold remove_fails, mnames. tauto. }
  change (negb (0 =? 0)) with false. cbn iota.
  destruct Hl as (f & d & Hg & En & Hnl & Hs & Hd & Hh & Hdi & Hne & Hnm).
  destruct (look_nodes m dp rv p m1 f Hroot Hg En Hne) as [Hpd Hroot1].
  pose proof Hg as (Hp1 & Hcnt & _). rewrite <- Ee in Hd.
  destruct (dir_unlink_wp m1 I dp rv p f slot d name Hok1 Hroot1 Hp1 Hne Hs Hd Hh Hdi)
    as (r & rv' & m2 & I2 & -> & En2 & Hsv & Hlp & Hc). cbn [mbind option_bind].
  assert (m_nodes m2 !! p = Some f) as Hp2 by by rewrite En2, lookup_insert_ne.
  destruct Hc as [(-> & Hst2 & Hv2 & Hu2)|(Hr & Hst2 & Hv2 & Hf2)].
  - change (0 =? 0) with true. cbn iota. rewrite Hp2. cbn [mbind option_bind].
    rewrite (proj2 (Z.ltb_lt _ _) Hlp). cbn [mbind option_bind].
    set (m3 := set_node p (links_down f) m2) in *.
    assert (gives m p (links_down f) m3) as Hg3.
    { eapply gives_keeps; [exact Hg|by eapply dir_file_keeps|apply lookup_insert_eq]. }
    destruct (release m p (links_down f) m3 I2 (ms_ok _ _ _ Hst2) Hg3)
      as (m4 & I4 & -> & Hst4 & Hk & Ee4 & Hx & Hsame & Hdel). cbn [mbind option_bind].
    exists 0, m4, I4. split; [done|].
    split; [eapply mnt_step_trans; [done|]; by eapply mnt_step_trans|].
    assert (reliable (m_fs m) -> reliable (m_fs m3)) as Hrel.
    { intros Hr. apply (ms_hist _ _ _ Hst2), (ms_hist _ _ _ Hst), Hr. }
    split; [by eapply kept_weaken|]. left. split; [done|]. exists (sv_ino f). split; [done|].
    unfold view in Hv2. injection Hv2 as Ee3 Ef3. change (m_fs m2) with (m_fs m3) in Ee3, Ef3.
    rewrite Ee in Ee3, Hd, Hu2. split.
    { unfold mnames. rewrite Ee4, Ee3. by apply (names_clear _ _ d); [apply Ht|..]. }
    apply (released_gone m I p (links_down f) m3 I2); [apply Hst2|done|done|done| |done|by split_and!].
    unfold mfiles in *. congruence.
  - rewrite (proj2 (Z.eqb_neq _ _) Hr). cbn [mbind option_bind].
    assert (gives m p f m2) as Hg2 by (eapply gives_keeps; [exact Hg|by eapply dir_keeps|done]).
    destruct (release m p f m2 I2 (ms_ok _ _ _ Hst2) Hg2)
      as (m4 & I4 & -> & Hst4 & Hk & Ee4 & Hx & Hsame & Hdel). cbn [mbind option_bind].
    exists r, m4, I4. split; [done|].
    split; [eapply mnt_step_trans; [done|]; by eapply mnt_step_trans|].
    split; [eapply kept_weaken; [|done]; intros Hrl; apply (ms_hist _ _ _ Hst2), (ms_hist _ _ _ Hst), Hrl|].
    right. destruct (view_eq _ _ _ _ Hv2) as [Ee2 Ef2]. split; [done|]. unfold mnames, mfiles in *.
    rewrite Ee4, Ee2, Ee, (proj1 (Hsame ltac:(right; lia))). split; [done|]. split; [congruence|].
    right; right. destruct Hf2 as [? Hrel]. split; [done|]. intros Hr2. apply Hrel, (ms_hist _ _ _ Hst), Hr2.
Qed.

(** ** Linking *)

Lemma linked_names m I name ino slot L :
  mnt_ok m I -> ino <> 0 -> link_entry m I name ino slot L ->
  mnames m I !! name = None /\ names L = <[name := ino]> (mnames m I).
Proof.
  intros [Ht _] Hz (d & Hs & Hf & Hdi & Hdn & -> & Hu & Hno). unfold mnames.
  split; [apply names_none; [apply Ht|done]|].
  rewrite (names_put _ _ d), Hdi, Hdn; [done|apply Ht|done|done|congruence|].
  intros ino2 Hb. rewrite Hdn in Hb. by apply (not_found_binds _ _ _ Hno) in Hb.
Qed.

Lemma sfs_link_wp m I dp rv name p f :
  mnt_ok m I -> is_root m dp rv -> m_nodes m !! p = Some f -> sv_ino f <> SFS_ROOT_LOCATION ->
  is_str name -> Z.of_nat (length name) + 1 < 2 ^ 32 ->
  exists r m' I', sfs_link dp name p m = Some (r, m') /\ mnt_step m m' I' /\ keeps m m' /\
    mfiles m' I' = mfiles m I /\
    (r = 0 /\ mnames m I !! name = None /\
       mnames m' I' = <[name := sv_ino f]> (mnames m I) \/
     r <> 0 /\ mnames m' I' = mnames m I /\ link_fails m I name r m').
Proof.
  intros Hok Hroot Hp Hne Hn Hlen.
  destruct (dir_link_wp m I dp rv p f name Hok Hroot Hp Hne Hn Hlen)
    as (r & slot & rv' & m1 & I' & L & E & En & Hsv & Hc).
  assert (p <> dp) as Hpd by (intros ->; destruct Hroot; congruence).
  assert (m_nodes m1 !! p = Some f) as Hp1 by by rewrite En, lookup_insert_ne.
  unfold sfs_link. rewrite Hp. cbn [mbind option_bind]. rewrite E. cbn [mbind option_bind].
  destruct Hc as [(-> & Hl & Hst & Hv)|(Hr & Hf & Hst & Hv)].
  - simpl negb. cbn iota. rewrite Hp1. cbn [mbind option_bind].
    exists 0, (set_node p (links_up f) m1), I'. split; [done|]. split; [done|].
    split; [by eapply dir_file_keeps|]. unfold view in Hv. injection Hv as Ee Ef.
    split; [done|]. left. split; [done|].
    destruct (file_links m I p f Hok Hp Hne) as (_ & _ & ?).
    assert (mnames (set_node p (links_up f) m1) I' = names L) as -> by (unfold mnames; by rewrite <- Ee).
    eapply linked_names; [done|lia|done].
  - rewrite (proj2 (Z.eqb_neq _ _) Hr). exists r, m1, I'. split; [done|]. split; [done|].
    split; [by eapply dir_keeps|]. destruct (view_eq _ _ _ _ Hv) as [Ee Ef].
    split; [done|]. right. unfold mnames. by rewrite Ee.
Qed.

(** ** Creating *)

(** A block of zeros is an inode of no type, empty and without blocks. *)
Definition new_inode : sfs_inode := dec_inode zeroblock.

Lemma new_inode_blocks fs : file_blocks fs (set_type SFS_TYPE_FILE new_inode) = [].
Proof.
  assert (new_inode = SfsInode 0 0 0 (replicate 15 0) 0 (replicate 110 0)) as -> by by vm_compute.
  apply no_blocks; [done|]. intros k b Hk. unfold blockmap, imap, zeroids in Hk. cbn -[replicate] in Hk.
  apply list_elem_of_lookup_2, elem_of_app in Hk. rewrite !elem_of_replicate in Hk. naive_solver.
Qed.

Lemma new_inode_ok : inode_ok (set_type SFS_TYPE_FILE new_inode).
Proof.
  destruct (dec_inode_ok zeroblock zeroblock_bytes) as (? & _ & ?). by split; [|split].
Qed.

Lemma mnt_alloc m I b fs' :
  mnt_ok m I -> fs_ok fs' -> fs_hist (m_fs m) fs' -> allocated (m_fs m) b fs' ->
  mnt_step m (set_fs fs' m) I /\ view (set_fs fs' m) I = view m I.
Proof.
  intros [Ht Hm] Hok Hh Ha. destruct (tree_alloc _ I b fs' Ht Hok Hh Ha) as (Ht' & Ee & Hr & _).
  destruct (set_fs_table fs' m (me_table _ _ Hm)) as [Hb Hst]; [apply Hh|].
  split; [constructor; [split; [done|]|done|done]|].
  - apply (mem_ext m); [done|done|done|]. intros ino Hi. apply (rs_meta _ _ _ _ (Hr 0)). by right.
  - unfold view. simpl. rewrite Ee. f_equal. apply files_untouched. intros ino i Hi Hne.
    by apply (rs_file _ _ _ _ (Hr SFS_ROOT_LOCATION) ino).
Qed.

(** The new file is in memory, with one reference and without a name. *)
Definition makeobj_post m I (r p : Z) m' I' : Prop :=
  mnt_step m m' I' /\
  (r = 0 /\ (exists f, m_nodes m !! p = None /\ m_nodes m' = <[p := f]> (m_nodes m) /\
      vn_refcount (sv_v f) = 1 /\ vn_opencount (sv_v f) = 0 /\
      sv_ino f <> SFS_ROOT_LOCATION /\ I !! sv_ino f = None /\ I' = <[sv_ino f := sv_i f]> I /\
      sfi_linkcount (sv_i f) = 0 /\
      view m' I' = (entries (m_fs m) I, <[sv_ino f := []]> (files (m_fs m) I))) \/
   r <> 0 /\ I' = I /\ m_nodes m' = m_nodes m /\ view m' I' = view m I /\
     (r = ENOSPC /\ full (m_fs m') \/ r = ENOMEM \/ r = EIO /\ ~ reliable (m_fs m))).

Lemma sfs_makeobj_wp m I :
  mnt_ok m I ->
  exists r p m' I', sfs_makeobj SFS_TYPE_FILE m = Some (r, p, m') /\ makeobj_post m I r p m' I'.
Proof.
  intros Hok. pose proof Hok as [Ht Hm]. unfold sfs_makeobj.
  destruct (sfs_balloc_wp (m_fs m)) as (r & b & fs' & E & Hfok & Hh & Hc); [apply (tw_vol _ _ Ht)|].
  rewrite E. cbn [mbind option_bind]. destruct Hc as [(-> & -> & Hfull)|(-> & Ha)].
  { exists ENOSPC, 0, (set_fs (m_fs m) m), I. split; [done|].
    destruct (mnt_same m I (m_fs m) Hok) as (? & ? & _); [by apply fs_same_refl|].
    split; [by constructor|]. right. split; [done|]. split; [done|]. split; [done|]. split; [done|]. by left. }
  simpl negb. cbn iota. destruct (mnt_alloc m I b fs' Hok Hfok Hh Ha) as [Hst1 Hv1].
  set (m1 := set_fs fs' m) in *. pose proof (ms_ok _ _ _ Hst1) as Hok1. pose proof Hok1 as [Ht1 Hm1].
  destruct (tree_alloc _ I b fs' Ht Hfok Hh Ha) as (_ & _ & Hr & Hn & Hnew).
  destruct (Hnew (set_type SFS_TYPE_FILE new_inode)) as [Htn Een];
    [apply new_inode_ok|apply new_inode_blocks|done|done|done|].
  destruct Ha as (Hb & _ & Hus & Hblk). pose proof (Hblk b) as Hz. rewrite decide_True in Hz by done.
  pose proof (fs_hist_nblocks _ _ Hh) as Enb. destruct (find_ino_mnt m1 I b Hok1) as ([q|] & Ef & Ho).
  { destruct Ho as (sv & Hq & Hi). destruct (me_node _ _ Hm1 q sv Hq) as [Hin _]. congruence. }
  destruct (load_new b SFS_TYPE_FILE m1 (set_type SFS_TYPE_FILE new_inode) true sfs_fileops)
    as (r & p & m' & -> & Hs & Hb' & Hst & Hc); [apply Hm1|done|by eapply table_length|done| | | |done|].
  { change (m_fs m1) with fs'. lia. }
  { change (m_fs m1) with fs'. rewrite Hus, Z.eqb_refl by lia. done. }
  { change (m_fs m1) with fs'. by rewrite Hz. }
  exists r, p, m'. pose proof (fs_same_hist _ _ Hs) as Hh2.
  destruct (tree_same _ I _ Ht1 Hs) as (Ht2 & Ee2 & Hr2).
  assert (forall ino, is_Some (I !! ino) -> blk (m_fs m') ino = blk (m_fs m1) ino) as Hbk.
  { intros ino ?. apply (rs_meta _ _ _ _ (Hr2 0)). by right. }
  assert (files (m_fs m') I = files (m_fs m) I) as Efs.
  { injection Hv1 as _ <-. apply files_untouched. intros ino i Hi Hne.
    by apply (rs_file _ _ _ _ (Hr2 SFS_ROOT_LOCATION) ino). }
  assert (entries (m_fs m') I = entries (m_fs m) I) as Ees by (rewrite Ee2; by injection Hv1).
  destruct Hc as [(-> & Hpn & l & n & En)|(Hr0 & En & Hc)].
  - assert (b <> SFS_ROOT_LOCATION) as Hbr.
    { intros ->. destruct (tw_root _ _ Ht) as (? & ? & _). congruence. }
    set (sv := SfsVnode _ _ b true) in En. exists (<[b := sv_i sv]> I). split; [done|].
    destruct (tree_same _ _ _ Htn Hs) as (Ht3 & Ee3 & _). split.
    + eapply mnt_step_trans; [done|]. constructor; [split; [done|]|done|done].
      apply (mem_new m1 I m' p sv); [done..| |done|done]. constructor; simpl; try lia; [|done].
      unfold root_ops. by rewrite (proj2 (Z.eqb_neq _ _) Hbr).
    + left. split; [done|]. exists sv. do 7 (split; [done|]). split; [done|].
      unfold view. change (sv_i sv) with (set_type SFS_TYPE_FILE new_inode).
      change (m_fs m1) with fs' in Ee3. by rewrite Ee3, Een, files_insert, Efs by done.
  - exists I. split; [done|]. split.
    + eapply mnt_step_trans; [done|]. constructor; [split; [done|]|done|done]. by apply (mem_ext m1).
    + right. do 3 (split; [done|]). split; [unfold view; by rewrite Efs, Ees|].
      right. destruct Hc as [?|[? Hrel]]; [by left|right]. split; [done|]. intros ?. apply Hrel.
      by apply Hh.
Qed.

Lemma makeobj_gives m I p f m' :
  mnt_ok m I -> m_nodes m !! p = None -> m_nodes m' = <[p := f]> (m_nodes m) ->
  vn_refcount (sv_v f) = 1 -> vn_opencount (sv_v f) = 0 -> I !! sv_ino f = None ->
  gives m p f m' /\ ~ loaded m (sv_ino f).
Proof.
  intros [_ Hm] Hn En Hrc Ho Hi. split; [split; [by rewrite En, lookup_insert_eq|]|].
  - rewrite Hn. split; [done|].
    split; intros q; [intros s|]; intros Hq Hne; rewrite En, lookup_insert_ne by done; eauto.
  - intros (q & s & Hq & Es). destruct (me_node _ _ Hm q s Hq) as [Hi2 _]. congruence.
Qed.

(** What a failed creation leaves: the same names and files; with a disk that is not
    reliable perhaps one more file, without a name. *)
Definition creat_undone m I m' I' : Prop :=
  mnames m' I' = mnames m I /\ (forall x, is_Some (mfiles m I !! x) -> mfiles m' I' !! x = mfiles m I !! x) /\
  (reliable (m_fs m) -> mfiles m' I' = mfiles m I).

Definition creat_fails m I (name : list Z) (r : Z) : Prop :=
  mnames m I !! name = None /\
    (r = ENAMETOOLONG /\ (60 <= length name)%nat \/
     r = EINVAL /\ free_slot (entries (m_fs m) I) 1144 \/ r = ENOSPC) \/
  r = ENOMEM \/ r = EIO /\ ~ reliable (m_fs m).

(** A new file, linked under a name that is not in use. *)
Lemma creat_new_wp m I dp rv name :
  mnt_ok m I -> is_root m dp rv -> is_str name -> Z.of_nat (length name) + 1 < 2 ^ 32 ->
  mnames m I !! name = None ->
  exists r p m' I', creat_new dp name m = Some (r, p, m') /\ mnt_step m m' I' /\
    (r = 0 /\ (exists f, gives m p f m' /\ ~ loaded m (sv_ino f) /\ mfiles m I !! sv_ino f = None /\
       mnames m' I' = <[name := sv_ino f]> (mnames m I) /\
       mfiles m' I' = <[sv_ino f := []]> (mfiles m I)) \/
     r <> 0 /\ stays m m' /\ creat_undone m I m' I' /\ creat_fails m I name r).
Proof.
  intros Hok Hroot Hn Hlen Hno. unfold creat_new.
  destruct (sfs_makeobj_wp m I Hok) as (r & p & m1 & I1 & -> & Hst1 & Hc). cbn [mbind option_bind].
  pose proof (ms_ok _ _ _ Hst1) as Hok1. destruct Hc as [(-> & Hc)|(Hr & -> & En & Hv & Hc)].
  2:{ rewrite (proj2 (Z.eqb_neq _ _) Hr). exists r, 0, m1, I. destruct (view_eq _ _ _ _ Hv) as [Ee Ef].
      split; [done|]. split; [done|]. right. split; [done|]. split; [by apply kept_refl|].
      unfold creat_undone, creat_fails, mnames in *. rewrite Ee, Ef. split; [done|]. tauto. }
  destruct Hc as (f & Hp & En1 & Hrc & Hop & Hne & Hi & -> & Hl & Hv1).
  destruct (makeobj_gives m I p f m1 Hok Hp En1 Hrc Hop Hi) as [Hg Hnl].
  destruct (look_nodes m dp rv p m1 f Hroot Hg En1 Hne) as [Hpd Hroot1].
  pose proof Hg as (Hp1 & _). simpl negb. cbn iota. rewrite Hp1. cbn [mbind option_bind].
  unfold view in Hv1. injection Hv1 as Ee1 Ef1.
  assert (mfiles m I !! sv_ino f = None) as Hfn by (unfold mfiles; by rewrite lookup_files, Hi).
  destruct (dir_link_wp m1 _ dp rv p f name Hok1 Hroot1 Hp1 Hne Hn Hlen)
    as (r & slot & rv' & m2 & I2 & L & -> & En2 & Hsv & Hc). cbn [mbind option_bind].
  assert (m_nodes m2 !! p = Some f) as Hp2 by by rewrite En2, lookup_insert_ne.
  destruct Hc as [(-> & Hle & Hst2 & Hv2)|(Hr & Hf & Hst2 & Hv2)].
  - simpl negb. cbn iota. rewrite Hp2. cbn [mbind option_bind].
    assert (gives m p (links_up f) (set_node p (links_up f) m2)) as Hg2.
    { eapply gives_keeps; [exact Hg|by eapply dir_file_keeps|apply lookup_insert_eq]. }
    exists 0, p, (set_node p (links_up f) m2), I2. split; [done|]. split; [by eapply mnt_step_trans|].
    left. split; [done|]. exists (links_up f).
    do 3 (split; [done|]). unfold view in Hv2. injection Hv2 as Ee2 Ef2.
    destruct (file_links m1 _ p f Hok1 Hp1 Hne) as (_ & _ & ?).
    destruct (linked_names m1 _ name (sv_ino f) slot L Hok1 ltac:(lia) Hle) as [_ EL].
    unfold mnames, mfiles in *. split; [|simpl; congruence]. simpl. rewrite Ee2, EL. by rewrite Ee1.
  - rewrite (proj2 (Z.eqb_neq _ _) Hr).
    assert (gives m p f m2) as Hg2 by (eapply gives_keeps; [exact Hg|by eapply dir_keeps|done]).
    destruct (release m p f m2 I2 (ms_ok _ _ _ Hst2) Hg2)
      as (m3 & I3 & -> & Hst3 & Hk & Ee3 & Hx & _ & Hdel). cbn [mbind option_bind].
    exists r, 0, m3, I3. split; [done|].
    split; [eapply mnt_step_trans; [done|]; by eapply mnt_step_trans|]. right. split; [done|].
    split; [eapply kept_weaken; [|done]; intros Hrl; apply (ms_hist _ _ _ Hst2), (ms_hist _ _ _ Hst1), Hrl|].
    destruct (view_eq _ _ _ _ Hv2) as [Ee2 Ef2]. unfold creat_undone, creat_fails, mnames, mfiles in *. split.
    + split; [by rewrite Ee3, Ee2, Ee1|]. split.
      * intros x Hxs. assert (x <> sv_ino f) by (intros ->; rewrite Hfn in Hxs; by destruct Hxs).
        by rewrite Hx, Ef2, Ef1, lookup_insert_ne.
      * intros Hrel. rewrite Hdel, Ef2, Ef1, delete_insert_id; [done|done|done|done|].
        apply (ms_hist _ _ _ Hst2), (ms_hist _ _ _ Hst1), Hrel.
    + unfold link_fails in Hf. rewrite Ee1, Hno in Hf. destruct (ms_hist _ _ _ Hst1) as [Hrel _].
      destruct Hf as [[_ [? ?]]|Hf]; [done|]. tauto.
Qed.

Lemma view_undone m I m' : view m' I = view m I -> creat_undone m I m' I.
Proof. intros [Ee Ef]%view_eq. unfold creat_undone, mnames. by rewrite Ee, Ef. Qed.

Lemma mnames_same m m1 I : view m1 I = view m I -> mnames m1 I = mnames m I.
Proof. intros [Ee _]%view_eq. unfold mnames. by rewrite Ee. Qed.

(** The vnode given is that of the name: an old one, which [excl] forbids, or a new
    one. *)
Definition creat_ok m I (name : list Z) (excl : bool) (f : sfs_vnode) m' I' : Prop :=
  excl = false /\ mnames m I !! name = Some (sv_ino f) /\
    mnames m' I' = mnames m I /\ mfiles m' I' = mfiles m I \/
  mnames m I !! name = None /\ ~ loaded m (sv_ino f) /\ mfiles m I !! sv_ino f = None /\
    mnames m' I' = <[name := sv_ino f]> (mnames m I) /\
    mfiles m' I' = <[sv_ino f := []]> (mfiles m I).

Lemma sfs_creat_wp m I dp rv name excl :
  mnt_ok m I -> is_root m dp rv -> is_str name -> Z.of_nat (length name) + 1 < 2 ^ 32 ->
  refs_room m ->
  exists r p m' I', sfs_creat dp name excl m = Some (r, p, m') /\ mnt_step m m' I' /\
    (r = 0 /\ (exists f, gives m p f m' /\ creat_ok m I name excl f m' I') \/
     r <> 0 /\ stays m m' /\ creat_undone m I m' I' /\
       (r = EEXIST /\ excl = true /\ is_Some (mnames m I !! name) \/ creat_fails m I name r)).
Proof.
  intros Hok Hroot Hn Hlen Hroom. pose proof Hok as [Ht Hm]. pose proof Hroot as [Hdp Er].
  destruct (mnt_findname m I dp rv name Hok Hroot Hn) as (r & found & empty & fs' & E & Es & Hst & Hv & Hc).
  unfold sfs_creat. rewrite Hdp. cbn [mbind option_bind]. rewrite E. cbn [mbind option_bind].
  rewrite Es. cbn zeta. set (m1 := set_fs fs' m) in *. pose proof (ms_ok _ _ _ Hst) as Hok1.
  destruct (ms_hist _ _ _ Hst) as [Hrel1 _]. destruct (view_eq _ _ _ _ Hv) as [Ee Ef].
  destruct Hc as [(-> & Hf)|[-> Hrel]].
  2:{ exists EIO, 0, m1, I. split; [done|]. split; [done|]. right. split; [done|].
      split; [by apply kept_refl|]. split; [by apply view_undone|]. right. unfold creat_fails. auto. }
  destruct found as [[ino slot]|]; cbn -[sfs_loadvnode creat_new].
  - destruct (found_entry _ I name ino slot Ht Hf) as (i & Hi & Hne & Hnm & _).
    destruct excl; cbn -[sfs_loadvnode].
    { exists EEXIST, 0, m1, I. split; [done|]. split; [done|]. right. split; [done|].
      split; [by apply kept_refl|]. split; [by apply view_undone|]. left.
      split; [done|]. split; [done|]. unfold mnames. by rewrite Hnm. }
    destruct (sfs_loadvnode_wp m1 I ino i Hok1 Hi Hroom) as (r & p & m' & -> & Hlp).
    destruct (load_view m1 I ino r p m' Hok1 Hlp) as [Hst2 Hv2].
    exists r, p, m', I. split; [done|]. split; [by eapply mnt_step_trans|]. rewrite Hv in Hv2.
    destruct (decide (r = 0)) as [->|Hr0]; [left|right]; (split; [done|]).
    + destruct (load_gives m1 I ino p m') as (sv & Hg & Hsi & _ & _); [apply Hok1|done|].
      exists sv. split; [exact Hg|]. left. rewrite Hsi. destruct (view_eq _ _ _ _ Hv2) as [_ Ef2].
      split; [done|]. split; [done|]. by rewrite (mnames_same m).
    + destruct (ld_res _ _ _ _ _ _ Hlp) as [[? _]|(_ & En & Hc)]; [done|].
      split; [by apply kept_refl|]. split; [by apply view_undone|]. right. unfold creat_fails. tauto.
  - assert (mnames m1 I !! name = None) as Hno.
    { rewrite (mnames_same m) by done. apply names_none; [apply Ht|done]. }
    destruct (creat_new_wp m1 I dp rv name Hok1 Hroot Hn Hlen Hno)
      as (r & p & m' & I' & -> & Hst2 & Hc).
    exists r, p, m', I'. split; [done|]. split; [by eapply mnt_step_trans|].
    unfold creat_undone, creat_fails, creat_ok in *. rewrite (mnames_same m m1 I Hv), Ef, Ee in *.
    destruct Hc as [(-> & f & Hg & Hc)|(Hr0 & Hk & Hu & Hc)]; [left|right]; (split; [done|]).
    + exists f. split; [exact Hg|]. by right.
    + split; [by eapply kept_weaken|]. tauto.
Qed.

(** ** Renaming *)

(** Giving back a reference to a file that has a name. *)
Lemma release_linked m p sv m1 I1 :
  mnt_ok m1 I1 -> gives m p sv m1 -> sfi_linkcount (sv_i sv) <> 0 ->
  exists m2 I2, vnode_decref p m1 = Some m2 /\ mnt_step m1 m2 I2 /\ kept (reliable (m_fs m1)) m m2 /\
    mnames m2 I2 = mnames m1 I1 /\ mfiles m2 I2 = mfiles m1 I1 /\
    (full (m_fs m1) -> full (m_fs m2)).
Proof.
  intros Hok Hg Hl. destruct (release m p sv m1 I1 Hok Hg) as (m2 & I2 & E & Hst & Hk & Ee & _ & Hs & _).
  destruct (Hs (or_intror Hl)) as [Ef Hu]. exists m2, I2. split; [done|]. split; [done|].
  split; [done|]. unfold mnames. rewrite Ee. split; [done|]. split; [done|].
  intros Hf b Hb. rewrite Hu. apply Hf. by rewrite (fs_hist_nblocks _ _ (ms_hist _ _ _ Hst)) in Hb.
Qed.

(** The file is linked under the new name and has still the old one. *)
Lemma link_slots m I name name2 ino slot slot2 d L :
  entries (m_fs m) I !! Z.to_nat slot = Some d -> has_name name d ->
  link_entry m I name2 ino slot2 L -> ino <> 0 ->
  L !! Z.to_nat slot = Some d /\ 0 <= slot2 /\ name <> name2 /\
  exists d2, L !! Z.to_nat slot2 = Some d2 /\ has_name name2 d2 /\ sfd_ino d2 = ino.
Proof.
  intros Hd Hh (d2 & Hs2 & Hfree & Hi2 & Hn2 & -> & _ & Hno) Hz.
  assert (Z.to_nat slot2 <= length (entries (m_fs m) I))%nat as Hle
    by (destruct Hfree as [[? _]|[-> _]]; lia).
  rewrite !lookup_put_entry by done. split; [|split; [done|split]].
  - rewrite decide_False; [done|]. intros E. destruct Hfree as [[_ (d' & Hd' & H0)]|[El _]].
    + rewrite <- E, Hd in Hd'. injection Hd' as <-. by destruct Hh.
    + apply lookup_lt_Some in Hd. lia.
  - intros ->. by apply (Hno d); [eapply list_elem_of_lookup_2|].
  - exists d2. rewrite decide_True by done. split; [done|]. split; [|done]. split; [congruence|done].
Qed.

Definition rename_fails m I (n1 n2 : list Z) (r : Z) m' : Prop :=
  r = ENOENT /\ mnames m I !! n1 = None \/
  r = EEXIST /\ is_Some (mnames m I !! n2) \/
  r = ENAMETOOLONG /\ (60 <= length n2)%nat \/
  r = EINVAL /\ free_slot (entries (m_fs m) I) 1144 \/
  r = ENOSPC /\ full (m_fs m') \/ r = ENOMEM \/ r = EIO /\ ~ reliable (m_fs m).

Definition rename_post m I (n1 n2 : list Z) (r : Z) m' I' : Prop :=
  mnt_step m m' I' /\ stays m m' /\ mfiles m' I' = mfiles m I /\
  (r = 0 /\ (exists ino, mnames m I !! n1 = Some ino /\ mnames m I !! n2 = None /\
     mnames m' I' = <[n2 := ino]> (delete n1 (mnames m I))) \/
   r <> 0 /\ mnames m' I' = mnames m I /\ rename_fails m I n1 n2 r m').

(** A slot of the file [f] is emptied, its link count goes down, and the reference is
    given back. *)
Lemma unlink_release m0 m I dp rv p f name slot d :
  mnt_ok m I -> is_root m dp rv -> gives m0 p f m -> p <> dp -> sv_ino f <> SFS_ROOT_LOCATION ->
  2 <= sfi_linkcount (sv_i f) -> 0 <= slot -> entries (m_fs m) I !! Z.to_nat slot = Some d ->
  has_name name d -> sfd_ino d = sv_ino f ->
  exists r rv' m1 I1, dir_unlink dp slot m = Some (r, m1) /\
    m_nodes m1 = <[dp := rv']> (m_nodes m) /\ sv_step rv rv' /\
    (r = 0 /\ (exists m' I', vnode_decref p (set_node p (links_down f) m1) = Some m' /\
       mnt_step m m' I' /\ kept (reliable (m_fs m)) m0 m' /\ mfiles m' I' = mfiles m I /\
       mnames m' I' = delete name (mnames m I)) \/
     r <> 0 /\ mnt_step m m1 I1 /\ view m1 I1 = view m I /\ r = EIO /\ ~ reliable (m_fs m)).
Proof.
  intros Hok Hroot Hg Hpd Hne Hl Hs Hd Hh Hdi. pose proof Hg as (Hp & _).
  destruct (dir_unlink_wp m I dp rv p f slot d name Hok Hroot Hp Hne Hs Hd Hh Hdi)
    as (r & rv' & m1 & I1 & E & En & Hsv & _ & Hc).
  exists r, rv', m1, I1. split; [done|]. split; [done|]. split; [done|].
  destruct Hc as [(-> & Hst & Hv & Hu)|?]; [left|by right]. split; [done|].
  destruct (file_links m I p f Hok Hp Hne) as (_ & Hlb & _).
  destruct (release_linked m0 p (links_down f) (set_node p (links_down f) m1) I1)
    as (m' & I' & E' & Hst' & Hk & Enm & Ef & _); [apply Hst| |simpl; rewrite u16_id; lia|].
  { eapply gives_keeps; [exact Hg|by eapply dir_file_keeps|apply lookup_insert_eq]. }
  exists m', I'. split; [done|]. split; [by eapply mnt_step_trans|].
  split; [eapply kept_weaken; [apply (ms_hist _ _ _ Hst)|done]|].
  unfold view in Hv. injection Hv as Ee Ef1. unfold mnames, mfiles in *. split; [simpl in *; congruence|].
  rewrite Enm. simpl in *. rewrite Ee. by apply (names_clear _ _ d); [apply Hok|..].
Qed.

(** The end of [sfs_rename], once the file has both names. *)
Lemma rename_rest_wp m0 m I dp rv p f n1 n2 slot1 slot2 d1 d2 :
  mnt_ok m I -> is_root m dp rv -> gives m0 p f m -> p <> dp -> sv_ino f <> SFS_ROOT_LOCATION ->
  2 <= sfi_linkcount (sv_i f) -> sv_dirty f = true -> 0 <= slot1 -> 0 <= slot2 ->
  entries (m_fs m) I !! Z.to_nat slot1 = Some d1 -> has_name n1 d1 -> sfd_ino d1 = sv_ino f ->
  entries (m_fs m) I !! Z.to_nat slot2 = Some d2 -> has_name n2 d2 -> sfd_ino d2 = sv_ino f ->
  (exists r m' I', rename_rest dp p slot1 slot2 m = Some (r, m') /\ mnt_step m m' I' /\ kept (reliable (m_fs m)) m0 m' /\ mfiles m' I' = mfiles m I /\
     (r = 0 /\ mnames m' I' = delete n1 (mnames m I) \/
      r = EIO /\ ~ reliable (m_fs m) /\ mnames m' I' = delete n2 (mnames m I))) \/
  rename_rest dp p slot1 slot2 m = None /\ ~ reliable (m_fs m).
Proof.
  intros Hok Hroot Hg Hpd Hne Hl Hdt Hs1 Hs2 Hd1 Hh1 Hi1 Hd2 Hh2 Hi2. unfold rename_rest.
  destruct (unlink_release m0 m I dp rv p f n1 slot1 d1) as (r & rv1 & m1 & I1 & -> & En1 & Hsv1 & Hc);
    [done..|]. cbn [mbind option_bind]. pose proof Hg as (Hp & _).
  assert (m_nodes m1 !! p = Some f) as Hp1 by by rewrite En1, lookup_insert_ne.
  destruct Hc as [(-> & m' & I' & E & Hst & Hk & Ef & Enm)|(Hr & Hst & Hv & -> & Hrel)].
  { left. simpl negb. cbn iota. rewrite Hp1. cbn [mbind option_bind]. rewrite (proj2 (Z.ltb_lt _ _)) by lia.
    rewrite E. cbn [mbind option_bind]. exists 0, m', I'. split; [done|]. do 3 (split; [done|]). by left. }
  simpl negb. cbn iota. unfold rename_undo.
  assert (is_root m1 dp rv1) as Hroot1.
  { destruct Hroot as [_ Er], Hsv1 as (_ & Ei & _). split; [by rewrite En1, lookup_insert_eq|congruence]. }
  destruct (view_eq _ _ _ _ Hv) as [Ee Ef]. rewrite <- Ee in Hd2.
  destruct (unlink_release m0 m1 I1 dp rv1 p f n2 slot2 d2) as (r & rv2 & m2 & I2 & -> & En2 & _ & Hc);
    [apply Hst|done| |done..|]. { eapply gives_keeps; [exact Hg|by eapply dir_keeps|done]. }
  cbn [mbind option_bind]. destruct Hc as [(-> & m' & I' & E & Hst2 & Hk & Ef2 & Enm)|(Hr2 & _)].
  - left. simpl negb. cbn iota.
    assert (m_nodes m2 !! p = Some f) as -> by by rewrite En2, lookup_insert_ne.
    cbn [mbind option_bind]. rewrite Hdt.
    unfold links_down in E. rewrite E. cbn [mbind option_bind].
    exists EIO, m', I'. split; [done|]. split; [by eapply mnt_step_trans|].
    split; [eapply kept_weaken; [apply (ms_hist _ _ _ Hst)|done]|]. split; [congruence|]. right. split; [done|]. split; [done|]. rewrite Enm. unfold mnames. by rewrite Ee.
  - right. by rewrite (proj2 (Z.eqb_neq _ _) Hr2).
Qed.

Lemma link_root m dp rv rv' m2 p f :
  is_root m dp rv -> m_nodes m2 = <[dp := rv']> (m_nodes m) -> sv_step rv rv' -> p <> dp ->
  is_root (set_node p f m2) dp rv'.
Proof.
  intros [_ Er] En (_ & Ei & _) Hne. split; [|congruence].
  simpl. by rewrite lookup_insert_ne, En, lookup_insert_eq.
Qed.

Lemma rename_linked m m1 I dp rv p f slot d n1 n2 slot2 rv' m2 I2 L :
  mnt_step m m1 I -> view m1 I = view m I -> is_root m1 dp rv -> gives m p f m1 -> p <> dp ->
  sv_ino f <> SFS_ROOT_LOCATION -> mnames m I !! n1 = Some (sv_ino f) -> 0 <= slot ->
  entries (m_fs m1) I !! Z.to_nat slot = Some d -> has_name n1 d -> sfd_ino d = sv_ino f ->
  0 < sfi_linkcount (sv_i f) -> m_nodes m2 = <[dp := rv']> (m_nodes m1) -> sv_step rv rv' ->
  link_entry m1 I n2 (sv_ino f) slot2 L -> mnt_step m1 (set_node p (links_up f) m2) I2 ->
  view (set_node p (links_up f) m2) I2 = (L, files (m_fs m1) I) ->
  let m2' := set_node p (links_up f) m2 in
  (exists r m' I', rename_rest dp p slot slot2 m2' = Some (r, m') /\ rename_post m I n1 n2 r m' I') \/
  rename_rest dp p slot slot2 m2' = None /\ ~ reliable (m_fs m).
Proof.
  intros Hst Hv Hroot Hg Hpd Hne Hnm Hs Hd Hh Hdi Hl En2 Hsv Hle Hst2 Hv2 m2'.
  pose proof (ms_ok _ _ _ Hst) as Hok1. pose proof Hg as (Hp1 & _).
  destruct (view_eq _ _ _ _ Hv) as [Ee Ef]. pose proof (mnames_same m m1 I Hv) as Enm1.
  destruct (file_links m1 I p f Hok1 Hp1 Hne) as (_ & Hlb & Hino).
  destruct (link_slots m1 I n1 n2 (sv_ino f) slot slot2 d L Hd Hh Hle ltac:(lia))
    as (Hd1 & Hs2 & Hnn & d2 & Hd2 & Hh2 & Hi2).
  destruct (linked_names m1 I n2 (sv_ino f) slot2 L Hok1 ltac:(lia) Hle) as [Hno EL].
  injection Hv2 as Ee2 Ef2. change (m_fs m2) with (m_fs m2') in Ee2, Ef2. rewrite <- Ee2 in Hd1, Hd2.
  assert (reliable (m_fs m) -> reliable (m_fs m2')) as Hrel2.
  { intros Hr. apply (ms_hist _ _ _ Hst2), (ms_hist _ _ _ Hst), Hr. }
  destruct (rename_rest_wp m m2' I2 dp rv' p (links_up f) n1 n2 slot slot2 d d2)
    as [(r & m' & I' & -> & Hst' & Hk & Ef' & Hc)|[-> Hrel]]; try done;
    [apply Hst2|by eapply link_root|by eapply gives_keeps; [|eapply dir_file_keeps|apply lookup_insert_eq]
    |simpl; rewrite u16_id; lia| |right; tauto].
  left. exists r, m', I'. split; [done|].
  split; [eapply mnt_step_trans; [done|]; by eapply mnt_step_trans|].
  split; [by eapply kept_weaken|].
  assert (mnames m2' I2 = <[n2 := sv_ino f]> (mnames m I)) as Enm
    by (rewrite <- Enm1, <- EL; unfold mnames; by rewrite Ee2).
  rewrite Enm in Hc. rewrite Enm1 in Hno. unfold mfiles in *. split; [congruence|].
  destruct Hc as [[-> Hc]|(-> & Hrel & Hc)]; [left|right]; (split; [done|]); rewrite Hc.
  - exists (sv_ino f). split; [done|]. split; [done|]. by apply delete_insert_ne.
  - rewrite delete_insert_id by done. split; [done|]. unfold rename_fails. tauto.
Qed.

Lemma sfs_rename_wp m I dp rv n1 n2 :
  mnt_ok m I -> is_root m dp rv -> is_str n1 -> is_str n2 ->
  Z.of_nat (length n2) + 1 < 2 ^ 32 -> refs_room m ->
  (exists r m' I', sfs_rename dp n1 dp n2 m = Some (r, m') /\ rename_post m I n1 n2 r m' I') \/
  sfs_rename dp n1 dp n2 m = None /\ ~ reliable (m_fs m).
Proof.
  intros Hok Hroot Hn1 Hn2 Hlen Hroom. pose proof Hroot as [Hdp Er].
  destruct (sfs_lookonce_wp m I dp rv n1 Hok Hroot Hn1 Hroom) as (r & p & slot & m1 & E & Hst & Hv & Hc).
  unfold sfs_rename. rewrite Z.eqb_refl, Hdp. cbn [mbind option_bind]. rewrite Er, Z.eqb_refl, E.
  cbn [mbind option_bind]. pose proof (ms_ok _ _ _ Hst) as Hok1.
  destruct (view_eq _ _ _ _ Hv) as [Ee Ef]. pose proof (mnames_same m m1 I Hv) as Enm1.
  destruct (ms_hist _ _ _ Hst) as [Hrel1 _].
  destruct Hc as [(-> & Hl)|(Hr & En & Hl)].
  2:{ left. rewrite (proj2 (Z.eqb_neq _ _) Hr). exists r, m1, I. split; [done|]. split; [done|].
      split; [by apply kept_refl|]. split; [done|]. right. split; [done|]. split; [done|].
      unfold look_fails in Hl. unfold rename_fails, mnames. tauto. }
  change (negb (0 =? 0)) with false. cbn iota.
  destruct Hl as (f & d & Hg & En & _ & Hs & Hd & Hh & Hdi & Hne & Hnm).
  destruct (look_nodes m dp rv p m1 f Hroot Hg En Hne) as [Hpd Hroot1]. pose proof Hg as (Hp1 & _).
  destruct (file_links m1 I p f Hok1 Hp1 Hne) as (Elc & Hlb & Hino). rewrite <- Ee in Hd.
  assert (0 < links (entries (m_fs m1) I) (sv_ino f))%nat as Hpos
    by (apply (links_pos _ _ d); [by eapply list_elem_of_lookup_2|done]).
  rewrite Hp1. cbn [mbind option_bind]. destruct Hok1 as [Ht1 Hm1] eqn:Eok.
  destruct (me_node _ _ Hm1 p f Hp1) as [Hi _]. rewrite (tw_type _ _ Ht1 _ _ Hi Hne), Z.eqb_refl.
  destruct (dir_link_wp m1 I dp rv p f n2 Hok1 Hroot1 Hp1 Hne Hn2 Hlen)
    as (r & slot2 & rv' & m2 & I2 & L & -> & En2 & Hsv & Hc). cbn [mbind option_bind].
  assert (m_nodes m2 !! p = Some f) as Hp2 by by rewrite En2, lookup_insert_ne.
  destruct Hc as [(-> & Hle & Hst2 & Hv2)|(Hr & Hf & Hst2 & Hv2)].
  { simpl negb. cbn iota. rewrite Hp2. cbn [mbind option_bind]. eapply rename_linked; eauto. lia. }
  left. rewrite (proj2 (Z.eqb_neq _ _) Hr). simpl negb. cbn iota.
  destruct (release_linked m p f m2 I2) as (m3 & I3 & -> & Hst3 & Hk & Enm3 & Ef3 & Hfull);
    [apply Hst2|by eapply gives_keeps; [|eapply dir_keeps|]|lia|]. cbn [mbind option_bind].
  exists r, m3, I3. split; [done|]. destruct (view_eq _ _ _ _ Hv2) as [Ee2 Ef2].
  split; [eapply mnt_step_trans; [done|]; by eapply mnt_step_trans|].
  split; [eapply kept_weaken; [|done]; intros Hrl; apply (ms_hist _ _ _ Hst2), Hrel1, Hrl|].
  split; [congruence|]. right. split; [done|]. split.
  { rewrite Enm3, <- Enm1. unfold mnames. by rewrite Ee2. }
  unfold link_fails in Hf. unfold rename_fails, mnames. rewrite Ee in Hf. tauto.
Qed.
End ops.
