(* ===== verification/SfsSync.v ===== *)
(** * Writing a volume back, and mounting it (kern/fs/sfs/sfs_fs.c)

    [sfs_sync] leaves on the disk what is in memory; [sfs_domount] of a disk so
    written gives the same names and files; [sfs_unmount] frees all that was
    allocated for the volume. *)

From stdpp Require Import base option list gmap numbers.
From S2P Require Import Prelude Kmem Array Bitmap Cstring Uio Device SfsDisk Sfs.
From S2P Require Import SfsBlock SfsBmap SfsFile SfsDir SfsTrunc SfsVol.
From S2P Require Import SfsMount SfsTree SfsTable SfsVnodes SfsNames SfsOps.

(** ** Sizes of the free map *)

Lemma bitmap_size n :
  0 < n -> n < 2 ^ 31 ->
  SFS_BITMAPSIZE n = 4096 * SFS_BITBLOCKS n /\ 0 < SFS_BITBLOCKS n /\
  n <= SFS_BITMAPSIZE n <= 2 ^ 32 - 8.
Proof.
  intros Hn Hn2. unfold SFS_BITBLOCKS, SFS_BITMAPSIZE, SFS_ROUNDUP, SFS_BLOCKBITS, SFS_BLOCKSIZE.
  change (512 * 8) with 4096. rewrite (u32_id (n + 4096)) by (unfold is_u32; lia).
  rewrite (u32_id (n + 4096 - 1)) by (unfold is_u32; lia). rewrite u32_id by (unfold is_u32; zdm).
  rewrite Z.div_mul by done. zdm.
Qed.

(** Lists of whole blocks are equal when their blocks are. *)
Lemma blocks_eq (n : nat) (l l' : list Z) :
  length l = (n * 512)%nat -> length l' = (n * 512)%nat ->
  (forall j, (j < n)%nat -> take 512 (drop (j * 512) l) = take 512 (drop (j * 512) l')) -> l = l'.
Proof.
  revert l l'. induction n as [|n IH]; intros l l' Hl Hl' Hj.
  { apply nil_length_inv in Hl, Hl'. congruence. }
  rewrite <- (take_drop 512 l), <- (take_drop 512 l'). f_equal; [apply (Hj 0%nat); lia|].
  apply IH; [rewrite length_drop; lia..|]. intros j Hlt. rewrite !drop_drop.
  replace (512 + j * 512)%nat with (S j * 512)%nat by lia. apply Hj. lia.
Qed.

Section sync.
Context {H D : Type} `{!Kmalloc H, !KmallocLaws H, !Device D, !DeviceLaws D}.
Implicit Types m : mnt H D.
Implicit Types fs : sfs_fs D.
Implicit Types I : gmap Z sfs_inode.

(** ** The free map *)

Lemma mapio_write n (j : nat) fs :
  dev_ok (fs_device fs) -> Forall is_byte (b_v (fs_freemap fs)) ->
  length (b_v (fs_freemap fs)) = ((j + n) * 512)%nat ->
  SFS_MAP_LOCATION + Z.of_nat (j + n) <= d_blocks (fs_device fs) ->
  exists d', mapio_loop n (Z.of_nat j) UIO_WRITE fs = Some (0, set_device d' fs) /\
    dev_ok d' /\ (reliable fs -> dev_reliable d') /\ d_blocks d' = d_blocks (fs_device fs) /\
    forall b, dev_data d' b =
      if decide (SFS_MAP_LOCATION + Z.of_nat j <= b < SFS_MAP_LOCATION + Z.of_nat (j + n))
      then map_block fs (Z.to_nat (b - SFS_MAP_LOCATION)) else dev_data (fs_device fs) b.
Proof.
  revert j fs. induction n as [|n IH]; intros j fs Hd Hb Hl Hr.
  { exists (fs_device fs). split; [by destruct fs|]. do 3 (split; [done|]). intros b.
    by rewrite decide_False by lia. }
  pose proof (d_blocks_range _ Hd) as Hdr. unfold SFS_MAP_LOCATION, BLOCKSIZE in *.
  cbn [mapio_loop]. unfold SFS_BLOCKSIZE, bitmap_getdata.
  replace (Z.to_nat (Z.of_nat j * 512)) with (j * 512)%nat by lia. fold (map_block fs j).
  assert (length (map_block fs j) = 512%nat) as El
    by (unfold map_block; rewrite length_take, length_drop; lia).
  rewrite El. change (Z.of_nat 512 =? 512) with true. cbn iota.
  unfold SFS_MAP_LOCATION. rewrite (u32_id (2 + Z.of_nat j)) by (unfold is_u32; lia).
  destruct (sfs_wblock_wp (map_block fs j) (2 + Z.of_nat j) fs) as (d1 & -> & Hd1 & Hr1 & En1 & Hu1);
    [done| |lia|].
  { split; [done|]. unfold map_block. by apply Forall_take, Forall_drop. }
  cbn [mbind option_bind]. simpl negb. cbn iota. replace (Z.of_nat j + 1) with (Z.of_nat (S j)) by lia.
  destruct (IH (S j) (set_device d1 fs)) as (d' & -> & Hd' & Hr' & En' & Hu');
    [done|done|simpl; lia|simpl; lia|].
  exists d'. split; [done|]. split; [done|]. split; [unfold reliable in *; simpl in *; auto|].
  split; [simpl in En'; congruence|]. intros b. rewrite Hu'. simpl fs_device. rewrite Hu1.
  change (map_block (set_device d1 fs)) with (map_block fs). unfold upd_block.
  destruct (decide (b = 2 + Z.of_nat j)) as [->|]; repeat case_decide; try lia; try done.
  f_equal. lia.
Qed.

Lemma mapio_read n (j : nat) fs :
  dev_ok (fs_device fs) -> Forall is_byte (b_v (fs_freemap fs)) ->
  length (b_v (fs_freemap fs)) = ((j + n) * 512)%nat ->
  SFS_MAP_LOCATION + Z.of_nat (j + n) <= d_blocks (fs_device fs) ->
  exists r d' v', mapio_loop n (Z.of_nat j) UIO_READ fs = Some (r, set_mapdata v' (set_device d' fs)) /\
    dev_same (fs_device fs) d' /\ (r <> 0 -> r = EIO /\ ~ reliable fs) /\
    (r = 0 -> length v' = ((j + n) * 512)%nat /\ Forall is_byte v' /\ forall i, (i < j + n)%nat ->
       take 512 (drop (i * 512) v') =
         if decide (j <= i)%nat then dev_data (fs_device fs) (SFS_MAP_LOCATION + Z.of_nat i)
         else map_block fs i).
Proof.
  revert j fs. induction n as [|n IH]; intros j fs Hd Hb Hl Hr.
  { exists 0, (fs_device fs), (b_v (fs_freemap fs)). split; [destruct fs as [? ? ? [] ?]; done|].
    split; [by apply dev_same_refl|]. split; [done|]. intros _. split; [done|]. split; [done|]. intros i Hi. by rewrite decide_False by lia. }
  pose proof (d_blocks_range _ Hd) as Hdr. unfold SFS_MAP_LOCATION, BLOCKSIZE in *.
  cbn [mapio_loop]. unfold SFS_BLOCKSIZE, bitmap_getdata.
  replace (Z.to_nat (Z.of_nat j * 512)) with (j * 512)%nat by lia. fold (map_block fs j).
  assert (length (map_block fs j) = 512%nat) as El
    by (unfold map_block; rewrite length_take, length_drop; lia).
  rewrite El. change (Z.of_nat 512 =? 512) with true. cbn iota.
  unfold SFS_MAP_LOCATION. rewrite (u32_id (2 + Z.of_nat j)) by (unfold is_u32; lia).
  destruct (sfs_rblock_wp (map_block fs j) (2 + Z.of_nat j) fs) as (r & bs & d1 & -> & Hs1 & Hbs & Hf);
    [done| |lia|]. { split; [done|]. unfold map_block. by apply Forall_take, Forall_drop. }
  cbn [mbind option_bind]. destruct (r =? 0) eqn:Er; boolify; simpl negb; cbn iota.
  2:{ eexists r, d1, _. split; [by destruct fs|]. by split_and!. }
  specialize (Hbs Er). destruct (dev_data_block (fs_device fs) (2 + Z.of_nat j) Hd ltac:(lia)) as [Hbl Hbb].
  rewrite <- Hbs in Hbl, Hbb. set (v1 := splice _ _ _). replace (Z.of_nat j + 1) with (Z.of_nat (S j)) by lia.
  assert (length v1 = length (b_v (fs_freemap fs))) as Hv1 by (unfold v1; rewrite length_splice; lia).
  destruct Hs1 as (Hd1 & Hr1 & En1 & Hu1).
  destruct (IH (S j) (set_mapdata v1 (set_device d1 fs))) as (r' & d' & v' & -> & Hs2 & Hf2 & Hok2);
    [done| |cbn [set_mapdata fs_freemap set_v b_v]; lia|cbn [set_mapdata fs_device set_device]; lia|].
  { unfold v1, splice. apply Forall_app. split; [by apply Forall_take|]. apply Forall_app.
    split; [done|by apply Forall_drop]. }
  exists r', d', v'. split; [by destruct fs|]. split; [by eapply dev_same_trans|].
  unfold reliable in *. cbn [set_mapdata set_device fs_device] in *.
  split; [intros; split; [by apply Hf2|]; intros ?; by apply Hf2; auto|].
  intros Hr0. destruct (Hok2 Hr0) as (Hl' & Hb' & Hblk). split; [lia|]. split; [done|]. intros i Hi.
  rewrite Hblk by lia. case_decide; [rewrite decide_True by lia; apply Hu1|].
  unfold map_block at 1. cbn [set_mapdata fs_freemap set_v b_v]. destruct (decide (i = j)) as [->|].
  - rewrite decide_True, <- Hbs by lia.
    pose proof (take_drop_splice (b_v (fs_freemap fs)) (j * 512) bs ltac:(lia)) as Et.
    rewrite Hbl in Et. exact Et.
  - rewrite decide_False by lia. unfold v1. by rewrite take_drop_splice_ne by lia.
Qed.

(** The superblock and the map are written or read: the files do not change.  Those
    without a name may be forgotten. *)
Lemma tree_head fs I J fs' :
  tree_wf fs I -> J ⊆ I -> J !! SFS_ROOT_LOCATION = I !! SFS_ROOT_LOCATION ->
  (forall ino i, I !! ino = Some i -> sfi_linkcount i <> 0 -> is_Some (J !! ino)) ->
  fs_ok fs' -> nblocks fs' = nblocks fs -> (forall b, used fs' b = used fs b) ->
  (forall b, ~ reserved fs b -> blk fs' b = blk fs b) -> head_wf fs' ->
  tree_wf fs' J /\ entries fs' J = entries fs I /\
  forall ino i, J !! ino = Some i -> untouched fs fs' i.
Proof.
  intros Ht Hsub Hroot Hln Hok En Hu Hb Hh. pose proof (tw_vol _ _ Ht) as Hv.
  assert (forall ino i, J !! ino = Some i -> I !! ino = Some i) as Hin
    by (intros; by eapply lookup_weaken).
  destruct (vol_frame fs I J fs' Hv Hsub Hok En) as [Hv' Hun].
  - intros b Hm. rewrite Hu. apply (vw_meta _ _ Hv). destruct Hm as [?|[i ?]]; [by left|right; eauto].
  - intros ino i b Hi Hbi. rewrite Hu. destruct (vw_file _ _ Hv _ _ (Hin _ _ Hi)) as [(_ & _ & Hf) _].
    split; [by apply Hf|]. apply Hb. intros Hr. apply (vw_own _ _ Hv ino i b); [auto|done|by left].
  - destruct (tree_keep fs I fs' J Ht Hv' Hh Hroot) as [? ?]; [..|by split_and!].
    + intros r Hr. apply (Hun SFS_ROOT_LOCATION). by rewrite Hroot.
    + intros ino i Hi _. exists i. auto.
    + done.
Qed.

(** ** Writing all back *)

Lemma VOP_FSYNC_vnodes p m r m' : VOP_FSYNC p m = Some (r, m') -> m_vnodes m' = m_vnodes m.
Proof.
  unfold VOP_FSYNC, sfs_fsync, on_node. intros E. destruct (vnode_check _ _ _); simpl in E; [|done].
  destruct (m_nodes m !! p); simpl in E; [|done].
  destruct (sfs_sync_inode _ _) as [[[??]?]|]; simpl in E; [|done]. by simplify_eq.
Qed.

(** The vnodes with their inodes clean. *)
Definition clean (sv : sfs_vnode) : sfs_vnode := set_inode (sv_i sv) false sv.

Lemma sync_vnodes_wp n (i : nat) m I :
  mnt_ok m I -> (i + n = length (table m))%nat ->
  exists m', sync_vnodes n (Z.of_nat i) m = Some m' /\ mnt_step m m' I /\ view m' I = view m I /\
    forall p, m_nodes m' !! p =
      (fun sv => if decide (p ∈ drop i (table m)) then clean sv else sv) <$> m_nodes m !! p.
Proof.
  revert i m. induction n as [|n IH]; intros i m Hok Hi.
  { exists m. split; [done|]. split; [by apply mnt_step_refl|]. split; [done|]. intros p.
    rewrite drop_ge by lia. by destruct (m_nodes m !! p). }
  pose proof Hok as [Ht Hm]. pose proof (me_table _ _ Hm) as Hb.
  destruct (lookup_lt_is_Some_2 (table m) i) as [p Hp]; [lia|]. cbn [sync_vnodes].
  rewrite (table_get m i p Hb Hp). cbn [mbind option_bind].
  destruct (proj1 (tb_dom m Hb p)) as [sv Hsv]; [by eapply list_elem_of_lookup_2|].
  destruct (VOP_FSYNC_wp m I p sv Hok Hsv) as (m1 & E1 & Hst1 & Hv1 & En1).
  pose proof (VOP_FSYNC_vnodes _ _ _ _ E1) as Ea. rewrite E1. cbn [mbind option_bind].
  assert (table m1 = table m) as Et by (unfold table; by rewrite Ea).
  replace (Z.of_nat i + 1) with (Z.of_nat (S i)) by lia.
  destruct (IH (S i) m1) as (m' & -> & Hst & Hv & Hn); [apply Hst1|rewrite Et; lia|].
  exists m'. split; [done|]. split; [by eapply mnt_step_trans|]. split; [by rewrite Hv|].
  intros q. rewrite Hn, Et, En1, (drop_S _ _ _ Hp). destruct (decide (q = p)) as [->|Hne].
  - rewrite lookup_insert_eq, Hsv. simpl. rewrite (decide_True (P := p ∈ p :: _)) by by left.
    by case_decide.
  - rewrite lookup_insert_ne by done. destruct (m_nodes m !! q); [|done]. simpl. f_equal.
    destruct (decide (q ∈ drop (S i) (table m))) as [Hq|Hq].
    + rewrite decide_True; [done|]. by right.
    + rewrite decide_False; [done|]. intros [?|?]%elem_of_cons; done.
Qed.

(** A step that changes only how the superblock and the map are kept on the disk. *)
Record head_step m m' I : Prop := {
  hs_ok : mnt_ok m' I;
  hs_heap : heap_step m m';
  hs_rel : reliable (m_fs m) -> reliable (m_fs m');
  hs_view : view m' I = view m I;
  hs_nodes : m_nodes m' = m_nodes m;
  hs_vnodes : m_vnodes m' = m_vnodes m;
  hs_blk : forall b, ~ reserved (m_fs m) b -> blk (m_fs m') b = blk (m_fs m) b;
  hs_super : fs_super (m_fs m') = fs_super (m_fs m);
}.

Lemma mnt_head m I fs' :
  mnt_ok m I -> fs_ok fs' -> fs_super fs' = fs_super (m_fs m) ->
  fs_freemap fs' = fs_freemap (m_fs m) -> (reliable (m_fs m) -> reliable fs') ->
  (forall b, ~ reserved (m_fs m) b -> blk fs' b = blk (m_fs m) b) -> head_wf fs' ->
  head_step m (set_fs fs' m) I.
Proof.
  intros [Ht Hm] Hok Es Ef Hr Hb Hh.
  destruct (tree_head (m_fs m) I I fs' Ht) as (Ht' & Ee & Hun);
    [done|done|by eauto|done|by unfold nblocks; rewrite Es|by intros b; unfold used; rewrite Ef|done|done|].
  destruct (set_fs_table fs' m (me_table _ _ Hm)) as [Hb' Hst]; [by rewrite Ef|].
  constructor; try done.
  - split; [done|]. apply (mem_ext m); [done|done|done|]. intros ino Hi. apply Hb, (vw_ino _ _ (tw_vol _ _ Ht) _ Hi).
  - unfold view. simpl. rewrite Ee. f_equal. apply files_untouched. eauto.
Qed.

Lemma head_step_trans m1 m2 m3 I : head_step m1 m2 I -> head_step m2 m3 I -> head_step m1 m3 I.
Proof.
  intros [_ S1 R1 V1 N1 A1 B1 E1] [O2 S2 R2 V2 N2 A2 B2 E2]. constructor; try done; [| | | | | |].
  - by eapply heap_step_trans.
  - auto.
  - congruence.
  - congruence.
  - congruence.
  - intros b Hb. rewrite B2; [by apply B1|]. rewrite (reserved_same (m_fs m1)); [done|].
    unfold nblocks. by rewrite E1.
  - congruence.
Qed.

Lemma head_step_refl m I : mnt_ok m I -> head_step m m I.
Proof. intros Hok. by constructor. Qed.

Lemma map_len fs I :
  tree_wf fs I ->
  length (b_v (fs_freemap fs)) = (Z.to_nat (SFS_BITBLOCKS (nblocks fs)) * 512)%nat /\
  0 < SFS_BITBLOCKS (nblocks fs) /\
  SFS_MAP_LOCATION + SFS_BITBLOCKS (nblocks fs) <= d_blocks (fs_device fs).
Proof.
  intros [Hv Hh _ _ _ _ _]. pose proof (vw_ok _ _ Hv) as (Hd & _ & Hn & (_ & Hl & _) & _).
  pose proof (d_blocks_range _ Hd) as Hr. unfold BLOCKSIZE in Hr.
  destruct (bitmap_size (nblocks fs)) as (Eb & H0 & _); [lia|lia|].
  rewrite (hw_bits _ Hh), Eb in Hl. split; [rewrite Hl; zdm|]. split; [done|].
  destruct (vw_meta _ _ Hv (SFS_MAP_LOCATION + (SFS_BITBLOCKS (nblocks fs) - 1))) as [? _]; [|lia].
  left; right. lia.
Qed.

Lemma sync_map m I :
  mnt_ok m I ->
  exists m',
    (if fs_freemapdirty (m_fs m) then
       '(result, fs) ← sfs_mapio UIO_WRITE (m_fs m);
       if negb (result =? 0) then Some (result, set_fs fs m)
       else Some (0, set_fs (map_clean fs) m)
     else Some (0, m)) = Some (0, m') /\
    head_step m m' I /\ fs_freemapdirty (m_fs m') = false.
Proof.
  intros Hok. pose proof Hok as [Ht Hm]. destruct (fs_freemapdirty (m_fs m)) eqn:Ed.
  2:{ exists m. split; [done|]. split; [by apply head_step_refl|done]. }
  pose proof (vw_ok _ _ (tw_vol _ _ Ht)) as Hfok. pose proof Hfok as (Hd & _ & _ & (_ & _ & Hby & _) & _).
  destruct (map_len _ _ Ht) as (Hl & Hb0 & Hb). unfold sfs_mapio, SFS_FS_BITBLOCKS.
  change (sp_nblocks (fs_super (m_fs m))) with (nblocks (m_fs m)).
  destruct (mapio_write (Z.to_nat (SFS_BITBLOCKS (nblocks (m_fs m)))) 0 (m_fs m))
    as (d' & E & Hd' & Hr & En & Hdat); [done|done|done|lia|].
  change (Z.of_nat 0) with 0 in E. rewrite E. cbn [mbind option_bind]. simpl negb. cbn iota.
  eexists. split; [done|]. split; [|done]. apply mnt_head; [done| |done|done|done| |].
  - by apply (fs_ok_device (m_fs m) d').
  - intros b Hnr. unfold blk. simpl. rewrite Hdat, decide_False; [done|]. intros ?. apply Hnr. right. lia.
  - destruct (tw_head _ _ Ht) as [Hmg Hvn Hbi _ Hsu]. constructor; [done|done|done|..].
    + intros _ j Hj. unfold blk. simpl fs_device. change (map_block _ j) with (map_block (m_fs m) j).
      change (nblocks (map_clean (set_device d' (m_fs m)))) with (nblocks (m_fs m)) in Hj.
      rewrite Hdat, decide_True by lia. f_equal. lia.
    + intros Hf. change (fs_super _) with (fs_super (m_fs m)). rewrite (Hsu Hf). do 2 f_equal.
      unfold blk. simpl. by rewrite Hdat, decide_False by (unfold SFS_SB_LOCATION, SFS_MAP_LOCATION; lia).
Qed.

Lemma sync_super m I :
  mnt_ok m I ->
  exists m',
    (if fs_superdirty (m_fs m) then
       '(result, fs) ← sfs_wblock (enc_super (fs_super (m_fs m))) SFS_SB_LOCATION (m_fs m);
       if negb (result =? 0) then Some (result, set_fs fs m)
       else Some (0, set_fs (super_clean fs) m)
     else Some (0, m)) = Some (0, m') /\
    head_step m m' I /\ fs_superdirty (m_fs m') = false /\
    fs_freemapdirty (m_fs m') = fs_freemapdirty (m_fs m).
Proof.
  intros Hok. pose proof Hok as [Ht Hm]. destruct (fs_superdirty (m_fs m)) eqn:Ed.
  2:{ exists m. split; [done|]. split; [by apply head_step_refl|done]. }
  pose proof (vw_ok _ _ (tw_vol _ _ Ht)) as Hfok. pose proof Hfok as (Hd & Hs & Hn & _).
  destruct (sfs_wblock_wp (enc_super (fs_super (m_fs m))) SFS_SB_LOCATION (m_fs m))
    as (d' & -> & Hup); [done|by apply enc_super_block|unfold SFS_SB_LOCATION; lia|].
  destruct (fs_ok_upd _ _ _ _ Hfok Hup) as [Hok' Hb].
  cbn [mbind option_bind]. simpl negb. cbn iota. eexists. split; [done|]. split; [|done].
  apply mnt_head; [done|exact Hok'|done|done|apply Hup| |].
  - intros b Hnr. rewrite <- (decide_False (P := b = SFS_SB_LOCATION) (enc_super (fs_super (m_fs m))));
      [apply Hb|]. intros ->. apply Hnr. by left.
  - destruct (tw_head _ _ Ht) as [Hmg Hvn Hbi Hmp _]. constructor; [done|done|done|..].
    + intros Hf j Hj. etrans; [|exact (Hmp Hf j Hj)]. etrans; [apply Hb|]. rewrite decide_False; [done|].
      unfold SFS_MAP_LOCATION, SFS_SB_LOCATION. lia.
    + intros _. etrans; [symmetry; apply Hvn|]. simpl fs_super. f_equal.
      etrans; [symmetry; apply dec_enc_super, Hs|]. f_equal. symmetry. etrans; [apply Hb|]. done.
Qed.

(** All that is in memory is on the disk. *)
Record synced m I : Prop := {
  sn_map : fs_freemapdirty (m_fs m) = false;
  sn_super : fs_superdirty (m_fs m) = false;
  sn_inodes : forall ino i, I !! ino = Some i -> blk (m_fs m) ino = enc_inode i;
}.

Lemma sfs_sync_wp m I :
  mnt_ok m I ->
  exists m', sfs_sync m = Some (0, m') /\ mnt_ok m' I /\ heap_step m m' /\
    ((reliable (m_fs m) -> reliable (m_fs m')) /\ fs_super (m_fs m') = fs_super (m_fs m)) /\
    view m' I = view m I /\ m_nodes m' = clean <$> m_nodes m /\ synced m' I.
Proof.
  intros Hok. pose proof Hok as [Ht Hm]. pose proof (me_table _ _ Hm) as Hb. unfold sfs_sync.
  destruct (sync_vnodes_wp (length (table m)) 0 m I Hok) as (m1 & E1 & Hst1 & Hv1 & Hn1); [lia|].
  unfold array_getnum. rewrite (table_num m Hb), Nat2Z.id. change (Z.of_nat 0) with 0 in E1.
  rewrite E1. cbn [mbind option_bind].
  destruct (sync_map m1 I) as (m2 & E2 & Hs2 & Hf2); [apply Hst1|]. rewrite E2. cbn [mbind option_bind].
  simpl negb. cbn iota. destruct (sync_super m2 I) as (m3 & E3 & Hs3 & Hf3 & Hf3'); [apply Hs2|].
  rewrite E3. exists m3. split; [done|].
  pose proof (head_step_trans _ _ _ _ Hs2 Hs3) as [Hok3 Hh3 Hr3 Hv3 Hn3 _ _ Hsu3].
  split; [done|]. split; [eapply heap_step_trans; [apply Hst1|done]|].
  destruct (ms_hist _ _ _ Hst1) as (Hr1 & Hsu1 & _).
  split; [split; [auto|congruence]|]. split; [congruence|].
  assert (m_nodes m3 = clean <$> m_nodes m) as En.
  { rewrite Hn3. apply map_eq. intros p. rewrite Hn1, lookup_fmap.
    destruct (m_nodes m !! p) as [sv|] eqn:Hp; [|done]. simpl. rewrite decide_True; [done|].
    rewrite drop_0. apply (tb_dom m Hb). eauto. }
  split; [done|]. constructor; [congruence|done|]. intros ino i Hi.
  apply (me_disk _ _ (proj2 Hok3)); [done|]. intros p sv Hp _. rewrite En, lookup_fmap in Hp.
  destruct (m_nodes m !! p); [|done]. simpl in Hp. by simplify_eq.
Qed.

(** ** Mounting *)

(** [h] is [h0] with the blocks [ps] in place of [qs]. *)
Definition holding (h0 : H) (qs ps : list Z) (h : H) : Prop :=
  heap_ok h /\ owns h ps /\ same_others h0 qs h ps.

Lemma holding_start h : heap_ok h -> holding h [] [] h.
Proof.
  intros Hok. split; [done|]. split; [|apply same_others_refl].
  split; [apply base.NoDup_nil_2|]. by intros p ?%not_elem_of_nil.
Qed.

Lemma holding_kmalloc h0 qs ps h sz :
  holding h0 qs ps h -> kmalloc_size sz ->
  exists p h', kmalloc sz h = Some (p, h') /\ holding h0 qs (if p =? 0 then ps else p :: ps) h'.
Proof.
  intros (Hok & Ho & Hs) Hsz. destruct (kmalloc_total h sz Hok Hsz) as [[p h'] E].
  exists p, h'. split; [done|]. destruct (p =? 0) eqn:Ep; boolify.
  - subst p. destruct (kmalloc_null h h' sz Hok Hsz E) as [Hok' Eb]. split; [done|]. split.
    + destruct Ho as [? Ho]. split; [done|]. intros q Hq. rewrite Eb. auto.
    + eapply same_others_trans; [done|]. by apply same_others_blocks.
  - destruct (owns_fresh h h' sz p ps Hok Hsz E Ep Ho) as (? & ? & ?).
    split; [done|]. split; [done|]. by eapply same_others_trans.
Qed.

Lemma holding_kfree h0 qs p ps h :
  holding h0 qs (p :: ps) h -> exists h', kfree p h = Some h' /\ holding h0 qs ps h'.
Proof.
  intros (Hok & Ho & Hs). destruct (owns_free h p [] ps Hok Ho) as (h' & -> & ? & ? & ?).
  exists h'. split; [done|]. split; [done|]. split; [done|]. by eapply same_others_trans.
Qed.

Lemma holding_array h0 qs ps h :
  holding h0 qs ps h ->
  exists o h', array_create (V := Z) h = Some (o, h') /\
    match o with
    | None => holding h0 qs ps h'
    | Some a => a = Array (a_self a) 0 0 None /\ holding h0 qs (a_self a :: ps) h'
    end.
Proof.
  intros Hh. destruct (holding_kmalloc h0 qs ps h 12 Hh) as (p & h' & E & Hh'); [by unfold kmalloc_size|].
  unfold array_create. rewrite E. cbn [mbind option_bind]. destruct (p =? 0); by eexists _, _.
Qed.

Lemma holding_array_free h0 qs ps h (a : array Z) :
  holding h0 qs (array_blocks a ++ ps) h -> exists h', array_destroy a h = Some h' /\ holding h0 qs ps h'.
Proof.
  unfold array_blocks, array_destroy. destruct (a_v a) as [[p sl]|]; intros Hh.
  - destruct (holding_kfree _ _ _ _ _ Hh) as (h1 & -> & H1'). by apply holding_kfree.
  - by apply holding_kfree.
Qed.

Lemma holding_bitmap h0 qs ps h n :
  holding h0 qs ps h -> 0 <= n <= 2 ^ 32 - 8 ->
  exists o h', bitmap_create n h = Some (o, h') /\
    match o with
    | None => holding h0 qs ps h'
    | Some b => bitmap_wf b /\ nbits b = n /\ holding h0 qs ([b_vptr b; b_self b] ++ ps) h'
    end.
Proof.
  intros (Hok & Ho & Hs) Hn. destruct (bitmap_create_wp n h Hok Hn) as (o & h' & E & Hok' & Hc).
  exists o, h'. split; [done|]. destruct o as [b|].
  - destruct Hc as (Hw & En & _ & Ho' & Hs'). split; [done|]. split; [done|]. split; [done|].
    split; [by eapply (owns_frame h [])|]. eapply same_others_trans; [exact Hs|].
    by apply (same_others_app h [] h' _ ps).
  - split; [done|]. split; [|eapply same_others_trans; [exact Hs|by apply (same_others_app h [] h' [] ps)]].
    apply (owns_frame h [] h' [] ps); [done| |done].
    split; [apply base.NoDup_nil_2|]. by intros p ?%not_elem_of_nil.
Qed.

Lemma holding_bitmap_free h0 qs ps h b :
  holding h0 qs ([b_vptr b; b_self b] ++ ps) h -> exists h', bitmap_destroy b h = Some h' /\ holding h0 qs ps h'.
Proof.
  intros Hh. unfold bitmap_destroy. destruct (holding_kfree _ _ _ _ _ Hh) as (h1 & -> & H1').
  by apply holding_kfree.
Qed.

Lemma table_empty m : table_wf m -> m_nodes m = ∅ -> table m = [].
Proof.
  intros Ht En. destruct (table m) as [|p l] eqn:E; [done|].
  destruct (proj1 (tb_dom m Ht p)) as [sv Hsv]; [rewrite E; by left|]. by rewrite En in Hsv.
Qed.

Lemma sfs_unmount_wp m I :
  mnt_ok m I -> m_nodes m = ∅ -> synced m I ->
  exists h', sfs_unmount m = Some (0, None, h') /\ heap_ok h' /\
    same_others (m_heap m) (mnt_blocks m) h' [].
Proof.
  intros [_ Hm] En [Hf Hs _]. pose proof (me_table _ _ Hm) as Ht. pose proof (table_empty m Ht En) as Et.
  unfold sfs_unmount, array_getnum. rewrite (table_num m Ht), Et, Hf, Hs. cbn.
  pose proof (tb_array m Ht) as (Hok & _).
  assert (holding (m_heap m) (mnt_blocks m) (array_blocks (m_vnodes m) ++
    [b_vptr (fs_freemap (m_fs m)); b_self (fs_freemap (m_fs m))] ++ [m_self m]) (m_heap m)) as Hh.
  { replace (array_blocks _ ++ _) with (mnt_blocks m) by (unfold mnt_blocks; by rewrite Et).
    split; [done|]. split; [apply Ht|apply same_others_refl]. }
  destruct (holding_array_free _ _ _ _ _ Hh) as (h1 & -> & Hh1). cbn [mbind option_bind].
  destruct (holding_bitmap_free _ _ _ _ _ Hh1) as (h2 & -> & Hh2). cbn [mbind option_bind].
  destruct (holding_kfree _ _ _ _ _ Hh2) as (h3 & -> & ? & _ & ?). by exists h3.
Qed.

(** Some vnode is in use. *)
Lemma sfs_unmount_busy m I p :
  mnt_ok m I -> is_Some (m_nodes m !! p) -> sfs_unmount m = Some (EBUSY, Some m, m_heap m).
Proof.
  intros [_ Hm] Hp. pose proof (me_table _ _ Hm) as Ht. apply (tb_dom m Ht), list_elem_of_lookup_1 in Hp as [k Hk].
  apply lookup_lt_Some in Hk. unfold sfs_unmount, array_getnum. rewrite (table_num m Ht).
  by rewrite (proj2 (Z.ltb_lt _ _)) by lia.
Qed.

(** The files that have a name, and the directory. *)
Definition linked (I : gmap Z sfs_inode) : gmap Z sfs_inode :=
  filter (fun x => x.1 = SFS_ROOT_LOCATION \/ sfi_linkcount x.2 <> 0) I.

(** The disk [d] holds the volume [fs0] with the files [I]. *)
Record on_disk (d : D) fs0 I : Prop := {
  od_device : fs_device fs0 = d;
  od_tree : tree_wf fs0 I;
  od_map : fs_freemapdirty fs0 = false;
  od_super : fs_superdirty fs0 = false;
  od_inodes : forall ino i, I !! ino = Some i -> blk fs0 ino = enc_inode i;
}.

Lemma mounted_tree d fs0 I d' b :
  on_disk d fs0 I -> dev_same d d' -> nbits b = nbits (fs_freemap fs0) ->
  b_v b = b_v (fs_freemap fs0) ->
  let fs := {| fs_super := fs_super fs0; fs_superdirty := false; fs_device := d'; fs_freemap := b;
               fs_freemapdirty := false |} in
  tree_wf fs (linked I) /\ entries fs (linked I) = entries fs0 I /\
  forall ino i, linked I !! ino = Some i -> untouched fs0 fs i.
Proof.
  intros [<- Ht Hm Hs Hi] (Hd & _ & Hn & Hdat) Eb Ev fs.
  pose proof (vw_ok _ _ (tw_vol _ _ Ht)) as (_ & Hsu & Hnb & Hwf & Hnbb & Hov & H0).
  assert (forall k, bit b k = bit (fs_freemap fs0) k) as Ebit by (intros k; unfold bit; by rewrite Ev).
  assert (forall k, blk fs k = blk fs0 k) as Ebk by (intros k; apply Hdat).
  apply tree_head; [done|apply map_filter_subseteq| | | |done|exact Ebit|intros k _; apply Ebk|].
  - destruct (tw_root _ _ Ht) as (r & Hr & _). unfold linked. rewrite Hr.
    apply map_lookup_filter_Some. auto.
  - intros ino i Hino Hl. exists i. apply map_lookup_filter_Some. auto.
  - unfold fs_ok, used. change (nblocks fs) with (nblocks fs0). simpl.
    rewrite Hn, Eb. split; [done|]. split; [done|]. split; [done|]. split.
    + unfold bitmap_wf. rewrite Eb, Ev. setoid_rewrite Ebit. exact Hwf.
    + split; [done|]. setoid_rewrite Ebit. by split.
  - destruct (tw_head _ _ Ht) as [Hmg Hvn Hbi Hmp Hsp]. constructor; [done|done|by simpl; rewrite Eb|..].
    + intros _ j Hj. rewrite Ebk. rewrite (Hmp Hm j Hj). unfold map_block. simpl. by rewrite Ev.
    + intros _. rewrite Ebk. by apply Hsp.
Qed.

(** A freshly mounted volume: nothing is in memory. *)
Lemma mounted_mnt d fs0 I d' b a p h h0 :
  on_disk d fs0 I -> dev_same d d' -> nbits b = nbits (fs_freemap fs0) ->
  b_v b = b_v (fs_freemap fs0) -> a = Array (a_self a) 0 0 None ->
  holding h0 [] ([b_vptr b; b_self b] ++ [a_self a; p]) h ->
  let fs := {| fs_super := fs_super fs0; fs_superdirty := false; fs_device := d'; fs_freemap := b;
               fs_freemapdirty := false |} in
  let m := {| m_self := p; m_fs := fs; m_vnodes := a; m_nodes := ∅; m_heap := h |} in
  mnt_ok m (linked I) /\ synced m (linked I) /\ same_others h0 [] h (mnt_blocks m) /\
  entries fs (linked I) = entries fs0 I /\ files fs (linked I) = files fs0 (linked I).
Proof.
  intros Hod Hs Eb Ev Ea (Hok & Ho & Hso) fs m. destruct a as [s an amx av]. injection Ea as -> -> ->.
  destruct (mounted_tree d fs0 I d' b Hod Hs Eb Ev) as (Ht & Ee & Hun). fold fs in Ht, Ee, Hun.
  assert (mnt_blocks m ≡ₚ [b_vptr b; b_self b] ++ [s; p]) as Ebl.
  { exact (Permutation_middle [b_vptr b; b_self b] [p] s). }
  assert (forall ino i, linked I !! ino = Some i -> blk fs ino = enc_inode i) as Hdk.
  { intros ino i [Hi _]%map_lookup_filter_Some. rewrite <- (od_inodes _ _ _ Hod ino i Hi).
    unfold blk. rewrite (od_device _ _ _ Hod). apply Hs. }
  split; [split; [done|]|split; [by constructor|]].
  - constructor; [|done|done|by intros; apply Hdk|].
    + constructor; [done|apply base.NoDup_nil_2| | |by rewrite Ebl].
      * intros q. split; [by intros ?%not_elem_of_nil|by intros [? ?]].
      * simpl. apply array_wf_intro; [done| |simpl; lia|simpl; lia|done].
        unfold array_blocks. simpl. apply (owns_app h [b_vptr b; b_self b]) in Ho as (_ & Ho & _).
        apply (owns_app h [s]) in Ho. apply Ho.
    + intros ino i [_ [?|?]]%map_lookup_filter_Some; done.
  - rewrite Ebl. split; [done|]. split; [done|]. apply files_untouched. eauto.
Qed.

(** What [sfs_domount] returns: the volume, or an error with all memory given back. *)
Definition mount_post (d : D) fs0 I (h : H) (r : Z) (om : option (mnt H D)) (d' : D) (h' : H) : Prop :=
  dev_same d d' /\
  match om with
  | Some m => r = 0 /\ m_heap m = h' /\ fs_device (m_fs m) = d' /\ m_nodes m = ∅ /\
      mnt_ok m (linked I) /\ synced m (linked I) /\ same_others h [] h' (mnt_blocks m) /\
      entries (m_fs m) (linked I) = entries fs0 I /\
      files (m_fs m) (linked I) = files fs0 (linked I)
  | None => (r = ENOMEM \/ r = EIO /\ ~ dev_reliable d) /\ heap_ok h' /\ same_others h [] h' []
  end.

Lemma mount_fails d fs0 I h r d' h' :
  dev_same d d' -> holding h [] [] h' -> r = ENOMEM \/ r = EIO /\ ~ dev_reliable d ->
  mount_post d fs0 I h r None d' h'.
Proof. intros Hs (? & _ & ?) Hr. by split. Qed.

(** The map read into a new bitmap is that of the disk. *)
Lemma mount_map d fs0 I d1 b fs1 :
  on_disk d fs0 I -> dev_same d d1 -> bitmap_wf b -> nbits b = SFS_BITMAPSIZE (nblocks fs0) ->
  fs_freemap fs1 = b -> fs_device fs1 = d1 -> fs_super fs1 = fs_super fs0 ->
  exists r d2 v, sfs_mapio UIO_READ fs1 = Some (r, set_mapdata v (set_device d2 fs1)) /\
    dev_same d d2 /\ (r <> 0 -> r = EIO /\ ~ dev_reliable d) /\
    (r = 0 -> v = b_v (fs_freemap fs0)).
Proof.
  intros [<- Ht Hm _ _] Hs Hwf Hnb Eb Ed Es. destruct (map_len _ _ Ht) as (Hl & Hb0 & Hb).
  pose proof (vw_ok _ _ (tw_vol _ _ Ht)) as (Hd & _ & Hn & _).
  pose proof (d_blocks_range _ Hd) as Hdr. unfold BLOCKSIZE in Hdr.
  destruct (bitmap_size (nblocks fs0)) as (Ebs & _); [lia|lia|]. destruct Hwf as (_ & Hlb & Hby & _).
  unfold sfs_mapio, SFS_FS_BITBLOCKS. rewrite Es. fold (nblocks fs0).
  set (n := Z.to_nat (SFS_BITBLOCKS (nblocks fs0))) in *. pose proof Hs as (Hd1 & Hr1 & Hn1 & Hdat).
  destruct (mapio_read n 0 fs1) as (r & d2 & v & E & Hs2 & Hf & Hv);
    [by rewrite Ed|by rewrite Eb|rewrite Eb, Hlb, Hnb, Ebs; unfold n; zdm|rewrite Ed, Hn1; lia|].
  exists r, d2, v. change (Z.of_nat 0) with 0 in E. split; [exact E|]. rewrite Ed in *.
  split; [by eapply dev_same_trans|]. unfold reliable in Hf. rewrite Ed in Hf.
  split; [intros Hr; split; [by apply Hf|]; intros ?; apply Hf; auto|]. intros Hr.
  destruct (Hv Hr) as (Hlv & _ & Hblk). apply (blocks_eq n); [done|done|]. intros j Hj.
  rewrite Hblk, decide_True by lia. rewrite Hdat. fold (map_block fs0 j).
  apply (hw_map _ (tw_head _ _ Ht)); [done|]. unfold n in Hj. lia.
Qed.

(** Giving up the array and the struct. *)
Lemma mount_undo h0 (a : array Z) p h :
  holding h0 [] [a_self a; p] h -> a = Array (a_self a) 0 0 None ->
  exists h1 h2, array_destroy a h = Some h1 /\ kfree p h1 = Some h2 /\ holding h0 [] [] h2.
Proof.
  intros Hh Ea. destruct (holding_array_free h0 [] [p] h a) as (h1 & E1 & Hh1); [by rewrite Ea|].
  destruct (holding_kfree _ _ _ _ _ Hh1) as (h2 & E2 & Hh2). eauto.
Qed.

Lemma domount_map_wp d fs0 I h0 a p d1 h :
  on_disk d fs0 I -> dev_same d d1 -> a = Array (a_self a) 0 0 None ->
  holding h0 [] [a_self a; p] h ->
  exists r om d' h', domount_map p a (set_super (fs_super fs0) (set_device d1 (blank_fs d))) h =
      Some (r, om, d', h') /\ mount_post d fs0 I h0 r om d' h'.
Proof.
  intros Hod Hs1 Ea Hh. pose proof Hod as [Ed Ht _ _ _].
  pose proof (vw_ok _ _ (tw_vol _ _ Ht)) as (Hd & _ & Hn & _).
  pose proof (d_blocks_range _ Hd) as Hdr. unfold BLOCKSIZE in Hdr.
  unfold domount_map, SFS_FS_BITMAPSIZE. cbn [set_super fs_super]. fold (nblocks fs0).
  destruct (bitmap_size (nblocks fs0)) as (_ & _ & Hsz); [lia|lia|].
  destruct (holding_bitmap h0 [] _ h (SFS_BITMAPSIZE (nblocks fs0)) Hh) as ([b|] & h1 & -> & Hh1);
    [lia|..]; cbn [mbind option_bind].
  2:{ destruct (mount_undo _ _ _ _ Hh1 Ea) as (h2 & h3 & -> & E3 & Hh3). cbn [mbind option_bind].
      rewrite E3. cbn [mbind option_bind]. exists ENOMEM, None, d1, h3. split; [done|].
      apply mount_fails; auto. }
  destruct Hh1 as (Hwb & Enb & Hh1). set (fs1 := map_clean _).
  destruct (mount_map d fs0 I d1 b fs1 Hod Hs1 Hwb Enb) as (r & d2 & v & -> & Hs2 & Hf & Hv); [done..|].
  cbn [mbind option_bind]. destruct (r =? 0) eqn:Er; boolify; simpl negb; cbn iota.
  - exists 0. eexists _, d2, h1. split; [done|]. split; [done|]. do 4 (split; [done|]).
    destruct (mounted_mnt d fs0 I d2 (set_v b v) a p h1 h0 Hod Hs2) as (? & ? & ? & ? & ?);
      [by rewrite (hw_bits _ (tw_head _ _ Ht))|by apply Hv|done|done|]. by split_and!.
  - destruct (holding_bitmap_free h0 [] [a_self a; p] h1 (set_v b v)) as (h2 & E2 & Hh2); [exact Hh1|].
    change (fs_freemap (set_mapdata _ _)) with (set_v b v). rewrite E2. cbn [mbind option_bind].
    destruct (mount_undo _ _ _ _ Hh2 Ea) as (h3 & h4 & -> & E4 & Hh4). cbn [mbind option_bind].
    rewrite E4. cbn [mbind option_bind]. exists r, None, d2, h4. split; [done|].
    apply mount_fails; auto.
Qed.

Lemma sfs_domount_wp d fs0 I h :
  on_disk d fs0 I -> heap_ok h ->
  exists r om d' h', sfs_domount d h = Some (r, om, d', h') /\ mount_post d fs0 I h r om d' h'.
Proof.
  intros Hod Hok. pose proof Hod as [Ed Ht _ Hsd _]. pose proof (holding_start h Hok) as Hh0.
  pose proof (vw_ok _ _ (tw_vol _ _ Ht)) as (Hd & _ & Hn & _). rewrite Ed in Hd, Hn.
  pose proof (dev_same_refl d Hd) as Hs0. unfold sfs_domount, sizeof_sfs_fs.
  rewrite (d_blocksize_block d Hd). change BLOCKSIZE with SFS_BLOCKSIZE. rewrite Z.eqb_refl.
  simpl negb. cbn iota. destruct (holding_kmalloc h [] [] h 552 Hh0) as (p & h1 & -> & Hh1); [by unfold kmalloc_size|].
  cbn [mbind option_bind]. destruct (p =? 0) eqn:Ep; boolify.
  { exists ENOMEM, None, d, h1. split; [done|]. apply mount_fails; auto. }
  destruct (holding_array _ _ _ _ Hh1) as ([a|] & h2 & -> & Hh2); cbn [mbind option_bind].
  2:{ destruct (holding_kfree _ _ _ _ _ Hh2) as (h3 & -> & Hh3). cbn [mbind option_bind].
      exists ENOMEM, None, d, h3. split; [done|]. apply mount_fails; auto. }
  destruct Hh2 as [Ea Hh2].
  destruct (sfs_rblock_wp zeroblock SFS_SB_LOCATION (blank_fs d)) as (r & data & d1 & -> & Hs1 & Hdata & Hf);
    [done|apply zeroblock_bytes|simpl; unfold SFS_SB_LOCATION; lia|]. cbn [mbind option_bind].
  destruct (r =? 0) eqn:Er; boolify; simpl negb; cbn iota zeta.
  2:{ destruct (mount_undo _ _ _ _ Hh2 Ea) as (h3 & h4 & -> & E4 & Hh4). cbn [mbind option_bind].
      rewrite E4. cbn [mbind option_bind]. exists r, None, d1, h4. split; [done|].
      apply mount_fails; [done|done|right; by apply Hf]. }
  assert (end_volname (dec_super data) = fs_super fs0) as Esup.
  { rewrite (Hdata Er). symmetry. rewrite (hw_super _ (tw_head _ _ Ht) Hsd). unfold blk. by rewrite Ed. }
  assert (of_be (take 4 data) = SFS_MAGIC) as ->.
  { change (sp_magic (end_volname (dec_super data)) = SFS_MAGIC). rewrite Esup. apply (tw_head _ _ Ht). }
  rewrite Z.eqb_refl. simpl negb. cbn iota. rewrite Esup. by apply domount_map_wp.
Qed.
End sync.
