(* ===== verification/SfsClient.v ===== *)
(** * What a mounted volume promises to its clients

    [absfs] is what a client sees of a mounted volume: the names, the contents of
    the files, and the vnodes in memory with their counts.  [spec] says what each
    call does to it, and [refines] that the code does that, and never panics, as
    long as the client keeps to the rules of [legal]. *)

From stdpp Require Import base option list gmap numbers.
From S2P Require Import Prelude Kmem Array Bitmap Cstring Uio Device SfsDisk Sfs.
From S2P Require Import SfsBlock SfsBmap SfsFile SfsDir SfsTrunc SfsVol.
From S2P Require Import SfsMount SfsTree SfsTable SfsVnodes SfsNames SfsOps SfsSync.

(** ** The abstract volume *)

Record anode := Anode { an_ino : Z; an_ref : Z; an_open : Z }.

Record absfs := Absfs {
  a_names : gmap (list Z) Z;
  a_files : gmap Z (list Z);
  a_nodes : gmap Z anode;
}.

Definition set_names (N : gmap (list Z) Z) (A : absfs) : absfs := Absfs N (a_files A) (a_nodes A).
Definition set_files (F : gmap Z (list Z)) (A : absfs) : absfs := Absfs (a_names A) F (a_nodes A).
Definition set_nodes (V : gmap Z anode) (A : absfs) : absfs := Absfs (a_names A) (a_files A) V.

(** The file is in memory; it has a name, or is the directory. *)
Definition held (A : absfs) (ino : Z) : Prop := exists p n, a_nodes A !! p = Some n /\ an_ino n = ino.
Definition named (A : absfs) (ino : Z) : Prop :=
  ino = SFS_ROOT_LOCATION \/ exists nm, a_names A !! nm = Some ino.

(** A reference to the file [ino], at [p]. *)
Definition give (p ino : Z) (A A' : absfs) : Prop :=
  match a_nodes A !! p with
  | Some n => an_ino n = ino /\ A' = set_nodes (<[p := Anode ino (an_ref n + 1) (an_open n)]> (a_nodes A)) A
  | None => ~ held A ino /\ A' = set_nodes (<[p := Anode ino 1 0]> (a_nodes A)) A
  end.

(** ** Calls *)

Inductive call :=
  | Lookup (dir : Z) (path : list Z)
  | Creat (dir : Z) (name : list Z) (excl : bool)
  | Link (dir : Z) (name : list Z) (file : Z)
  | Remove (dir : Z) (name : list Z)
  | Rename (d1 : Z) (n1 : list Z) (d2 : Z) (n2 : list Z)
  | Incref (p : Z)
  | Decref (p : Z)
  | Incopen (p : Z)
  | Decopen (p : Z)
  | Read (p : Z) (u : uio) (v : vm)
  | Write (p : Z) (u : uio) (v : vm)
  | Truncate (p len : Z)
  | Fsync (p : Z)
  | Sync.

(** What a call returns. *)
Inductive obs :=
  | Ret (r : Z)
  | Ptr (r p : Z)
  | Io (r : Z) (u : uio) (v : vm).

(** The rules: only vnodes held are used, the last reference is not given up while
    the vnode is open, and a directory is not linked. *)
Definition name_ok (name : list Z) : Prop := is_str name /\ Z.of_nat (length name) + 1 < 2 ^ 32.

Definition legal (c : call) (A : absfs) : Prop :=
  match c with
  | Lookup dir path => is_Some (a_nodes A !! dir) /\ is_str path
  | Creat dir name _ => is_Some (a_nodes A !! dir) /\ name_ok name
  | Link dir name file =>
      is_Some (a_nodes A !! dir) /\ name_ok name /\
      exists n, a_nodes A !! file = Some n /\ an_ino n <> SFS_ROOT_LOCATION
  | Remove dir name => is_Some (a_nodes A !! dir) /\ is_str name
  | Rename d1 n1 d2 n2 => is_Some (a_nodes A !! d1) /\ d2 = d1 /\ is_str n1 /\ name_ok n2
  | Incref p | Fsync p => is_Some (a_nodes A !! p)
  | Decref p => exists n, a_nodes A !! p = Some n /\ (an_ref n = 1 -> an_open n = 0)
  | Incopen p => exists n, a_nodes A !! p = Some n /\ an_open n < 2 ^ 31 - 1
  | Decopen p => exists n, a_nodes A !! p = Some n /\ 0 < an_open n
  | Read p u v => is_Some (a_nodes A !! p) /\ uio_ok u v /\ uio_rw u = UIO_READ
  | Write p u v => is_Some (a_nodes A !! p) /\ uio_ok u v /\ uio_rw u = UIO_WRITE
  | Truncate p len => is_Some (a_nodes A !! p) /\ 0 <= len /\ len + 512 < 2 ^ 31
  | Sync => True
  end.

(** The counts stay within an int. *)
Definition room (A : absfs) : Prop := forall p n, a_nodes A !! p = Some n -> an_ref n < 2 ^ 31 - 1.

(** ** What the calls do, with a reliable disk *)

(** The operations on a directory are errors for a file, and the other way round. *)
Definition on_dir (A : absfs) (p : Z) (P Q : Prop) : Prop :=
  match a_nodes A !! p with
  | Some n => if an_ino n =? SFS_ROOT_LOCATION then P else Q
  | None => False
  end.

(** The file at [p] and its contents. *)
Definition at_file (A : absfs) (p : Z) (P : Z -> list Z -> Prop) (Q : Prop) : Prop :=
  match a_nodes A !! p with
  | Some n =>
      if an_ino n =? SFS_ROOT_LOCATION then Q
      else exists c, a_files A !! an_ino n = Some c /\ P (an_ino n) c
  | None => False
  end.

(** Why a name cannot be entered. *)
Definition no_entry (A : absfs) (name : list Z) (r : Z) : Prop :=
  r = ENAMETOOLONG /\ (60 <= length name)%nat \/
  r = EINVAL /\ size (a_names A) = 1144%nat \/ r = ENOSPC.

Definition counts (p : Z) (ref open : Z -> Z) (A A' : absfs) : Prop :=
  exists n, a_nodes A !! p = Some n /\
    A' = set_nodes (<[p := Anode (an_ino n) (ref (an_ref n)) (open (an_open n))]> (a_nodes A)) A.

(** [bs] is what a read at [off] of the contents [c] gives. *)
Definition read_spec (c : list Z) (u : uio) (r : Z) (bs : list Z) : Prop :=
  bs = take (length bs) (drop (Z.to_nat (uio_offset u)) c) /\
  (r = 0 -> Z.of_nat (length c) < max_file \/ uio_offset u + uio_resid u <= Z.of_nat (length c) ->
   Z.of_nat (length bs) = read_len (Z.of_nat (length c)) (uio_offset u) (uio_resid u)).

(** [c'] is [c] after [bs] was written at [off]; what is between the old end of the
    file and [off] is not said. *)
Definition write_spec (c c' : list Z) (off : Z) (bs : list Z) : Prop :=
  Z.of_nat (length c') =
    Z.min max_file (Z.max (Z.of_nat (length c)) (off + Z.of_nat (length bs))) /\
  take (length bs) (drop (Z.to_nat off) c') = bs /\
  forall k, (k < length c)%nat -> ~ (off <= Z.of_nat k < off + Z.of_nat (length bs)) -> c' !! k = c !! k.

Definition spec (cl : call) (A : absfs) (o : obs) (A' : absfs) : Prop :=
  match cl with
  | Lookup dir path =>
      on_dir A dir
        (exists r p, o = Ptr r p /\
          (r = 0 /\ (exists ino, a_names A !! path = Some ino /\ give p ino A A') \/
           A' = A /\ (r = ENOENT /\ a_names A !! path = None \/ r = ENOMEM)))
        (o = Ptr ENOTDIR 0 /\ A' = A)
  | Creat dir name excl =>
      on_dir A dir
        (exists r p, o = Ptr r p /\
          (r = 0 /\ excl = false /\ (exists ino, a_names A !! name = Some ino /\ give p ino A A') \/
           r = 0 /\ a_names A !! name = None /\
             (exists ino, a_files A !! ino = None /\ ~ held A ino /\
                give p ino (set_names (<[name := ino]> (a_names A))
                              (set_files (<[ino := []]> (a_files A)) A)) A') \/
           A' = A /\
             (r = EEXIST /\ excl = true /\ is_Some (a_names A !! name) \/
              a_names A !! name = None /\ no_entry A name r \/ r = ENOMEM)))
        (o = Ptr ENOTDIR 0 /\ A' = A)
  | Link dir name file =>
      on_dir A dir
        (exists r, o = Ret r /\
          (r = 0 /\ a_names A !! name = None /\
             (exists n, a_nodes A !! file = Some n /\
                A' = set_names (<[name := an_ino n]> (a_names A)) A) \/
           A' = A /\ (r = EEXIST /\ is_Some (a_names A !! name) \/ no_entry A name r)))
        (o = Ret ENOTDIR /\ A' = A)
  | Remove dir name =>
      on_dir A dir
        (exists r, o = Ret r /\
          (r = 0 /\ (exists ino, a_names A !! name = Some ino /\
             let A1 := set_names (delete name (a_names A)) A in
             (held A ino \/ named A1 ino -> A' = A1) /\
             (~ held A ino -> ~ named A1 ino -> A' = set_files (delete ino (a_files A)) A1)) \/
           A' = A /\ (r = ENOENT /\ a_names A !! name = None \/ r = ENOMEM)))
        (o = Ret ENOTDIR /\ A' = A)
  | Rename d1 n1 _ n2 =>
      on_dir A d1
        (exists r, o = Ret r /\
          (r = 0 /\ (exists ino, a_names A !! n1 = Some ino /\ a_names A !! n2 = None /\
             A' = set_names (<[n2 := ino]> (delete n1 (a_names A))) A) \/
           A' = A /\ (r = ENOENT /\ a_names A !! n1 = None \/ r = EEXIST /\ is_Some (a_names A !! n2) \/
                      no_entry A n2 r \/ r = ENOMEM)))
        (o = Ret ENOTDIR /\ A' = A)
  | Incref p => o = Ret 0 /\ counts p (Z.add 1) id A A'
  | Decref p =>
      o = Ret 0 /\ exists n, a_nodes A !! p = Some n /\
        (1 < an_ref n /\ counts p Z.pred id A A' \/
         an_ref n = 1 /\
           let A1 := set_nodes (delete p (a_nodes A)) A in
           (named A (an_ino n) -> A' = A1) /\
           (~ named A (an_ino n) -> A' = set_files (delete (an_ino n) (a_files A)) A1))
  | Incopen p => o = Ret 0 /\ counts p id (Z.add 1) A A'
  | Decopen p => o = Ret 0 /\ counts p id Z.pred A A'
  | Read p u v =>
      at_file A p
        (fun _ c => exists r bs u' v', o = Io r u' v' /\ A' = A /\ uio_moved r bs u v u' v' /\
           read_spec c u r bs /\
           (r <> 0 -> r = EFAULT /\ ~ uio_good u v (uio_resid u) \/
                      r = EINVAL /\ Z.of_nat (length c) = max_file))
        (o = Io EISDIR u v /\ A' = A)
  | Write p u v =>
      at_file A p
        (fun ino c => exists r bs u' c', o = Io r u' v /\ A' = set_files (<[ino := c']> (a_files A)) A /\
           uio_moved r bs u v u' v /\ write_spec c c' (uio_offset u) bs /\
           (r = 0 -> Z.of_nat (length bs) = uio_resid u) /\
           (r <> 0 -> r = EFAULT /\ ~ uio_good u v (uio_resid u) \/
                      r = EINVAL /\ max_file < uio_offset u + uio_resid u \/ r = ENOSPC))
        (o = Io EISDIR u v /\ A' = A)
  | Truncate p len =>
      at_file A p
        (fun ino c => exists c', o = Ret 0 /\ A' = set_files (<[ino := c']> (a_files A)) A /\
           Z.of_nat (length c') = Z.min len max_file /\
           forall k, (k < length c)%nat -> Z.of_nat k < len -> c' !! k = c !! k)
        (o = Ret EISDIR /\ A' = A)
  | Fsync _ | Sync => o = Ret 0 /\ A' = A
  end.

(** ** Programs of calls, each depending on what the ones before returned *)

Inductive client :=
  | Done
  | Do (c : call) (k : obs -> client).

(** The program keeps to the rules, whatever the specification lets the calls return. *)
Fixpoint ok_client (c : client) (A : absfs) : Prop :=
  match c with
  | Done => True
  | Do c k => legal c A /\ room A /\ forall o A', spec c A o A' -> ok_client (k o) A'
  end.

(** The runs of a program that the specification allows. *)
Inductive spec_run : client -> absfs -> list obs -> absfs -> Prop :=
  | spec_done A : spec_run Done A [] A
  | spec_do c k A o A1 os A2 :
      spec c A o A1 -> spec_run (k o) A1 os A2 -> spec_run (Do c k) A (o :: os) A2.

(** The contents after a write. *)
Lemma content_write {D} `{!Device D, !DeviceLaws D} (fs : sfs_fs D) i (fs' : sfs_fs D) i' off bs :
  sfi_size i' = Z.max (sfi_size i) (off + Z.of_nat (length bs)) ->
  fbytes fs' i' = splice (fbytes fs i) (Z.to_nat off) bs -> 0 <= off -> 0 <= sfi_size i ->
  Z.of_nat (length (fbytes fs i)) = max_file ->
  (bs <> [] -> off + Z.of_nat (length bs) <= max_file) ->
  write_spec (fcontent fs i) (fcontent fs' i') off bs.
Proof.
  intros Hsz Hby Ho Hs Hl Hbd. unfold fcontent. rewrite Hsz, Hby.
  destruct (decide (bs = [])) as [->|Hne].
  - rewrite splice_nil. split; [rewrite !length_take; simpl; lia|]. split; [done|].
    intros k Hk _. rewrite length_take in Hk. simpl. by rewrite !lookup_take_lt by lia.
  - specialize (Hbd Hne). split; [rewrite !length_take, length_splice by lia; lia|]. split.
    + rewrite take_content by lia. apply take_drop_splice. lia.
    + intros k Hk Hout. rewrite length_take in Hk. rewrite !lookup_take_lt by lia.
      rewrite lookup_splice by lia. rewrite decide_False by lia. done.
Qed.

Section client.
Context {H D : Type} `{!Kmalloc H, !KmallocLaws H, !Device D, !DeviceLaws D}.
Implicit Types m : mnt H D.
Implicit Types I : gmap Z sfs_inode.
Implicit Types A : absfs.

Definition run (c : call) m : option (obs * mnt H D) :=
  match c with
  | Lookup dir path => '(r, p, m) ← VOP_LOOKUP dir path m; Some (Ptr r p, m)
  | Creat dir name excl => '(r, p, m) ← VOP_CREAT dir name excl m; Some (Ptr r p, m)
  | Link dir name file => '(r, m) ← VOP_LINK dir name file m; Some (Ret r, m)
  | Remove dir name => '(r, m) ← VOP_REMOVE dir name m; Some (Ret r, m)
  | Rename d1 n1 d2 n2 => '(r, m) ← VOP_RENAME d1 n1 d2 n2 m; Some (Ret r, m)
  | Incref p => m ← vnode_incref p m; Some (Ret 0, m)
  | Decref p => m ← vnode_decref p m; Some (Ret 0, m)
  | Incopen p => m ← vnode_incopen p m; Some (Ret 0, m)
  | Decopen p => m ← vnode_decopen p m; Some (Ret 0, m)
  | Read p u v => '(r, u, v, m) ← VOP_READ p u v m; Some (Io r u v, m)
  | Write p u v => '(r, u, v, m) ← VOP_WRITE p u v m; Some (Io r u v, m)
  | Truncate p len => '(r, m) ← VOP_TRUNCATE p len m; Some (Ret r, m)
  | Fsync p => '(r, m) ← VOP_FSYNC p m; Some (Ret r, m)
  | Sync => '(r, m) ← sfs_sync m; Some (Ret r, m)
  end.

(** ** The view of a client *)

Definition absnode (sv : sfs_vnode) : anode :=
  Anode (sv_ino sv) (vn_refcount (sv_v sv)) (vn_opencount (sv_v sv)).

Definition abs m I : absfs := Absfs (mnames m I) (mfiles m I) (absnode <$> m_nodes m).

Lemma abs_node m I p n :
  a_nodes (abs m I) !! p = Some n <-> exists sv, m_nodes m !! p = Some sv /\ n = absnode sv.
Proof. simpl. rewrite lookup_fmap_Some. naive_solver. Qed.

Lemma abs_node_some m I p : is_Some (a_nodes (abs m I) !! p) -> is_Some (m_nodes m !! p).
Proof. intros [n (sv & Hp & _)%abs_node]. eauto. Qed.

Lemma abs_held m I ino : held (abs m I) ino <-> loaded m ino.
Proof.
  split.
  - intros (p & n & (sv & Hp & ->)%abs_node & Hi). by exists p, sv.
  - intros (p & sv & Hp & Hi). exists p, (absnode sv). split; [|done]. apply abs_node. eauto.
Qed.

Lemma room_refs m I : room (abs m I) -> refs_room m.
Proof. intros Hr p sv Hp. apply (Hr p (absnode sv)), abs_node. eauto. Qed.

Lemma kept_nodes (rel : Prop) m m' :
  kept rel m m' -> rel -> absnode <$> m_nodes m' = absnode <$> m_nodes m.
Proof.
  intros [K N] Hr. apply map_eq. intros p. rewrite !lookup_fmap.
  destruct (m_nodes m !! p) as [sv|] eqn:Hp.
  - destruct (K p sv Hp) as (sv' & -> & Ev & Ei). simpl. unfold absnode. by rewrite Ev, Ei.
  - by rewrite (N Hr p Hp).
Qed.

Lemma gives_nodes m p f m' :
  gives m p f m' -> absnode <$> m_nodes m' = <[p := absnode f]> (absnode <$> m_nodes m).
Proof.
  intros (Hp & _ & Hq & Hn). apply map_eq. intros q. destruct (decide (q = p)) as [->|Hne].
  - by rewrite lookup_insert_eq, lookup_fmap, Hp.
  - rewrite lookup_insert_ne, !lookup_fmap by done. destruct (m_nodes m !! q) as [s|] eqn:Hqs.
    + destruct (Hq q s Hqs Hne) as (s' & -> & Ev & Ei). simpl. unfold absnode. by rewrite Ev, Ei.
    + by rewrite (Hn q Hqs Hne).
Qed.

(** A reference given by the code is one given to the client. *)
Lemma gives_give m p f m' I' A :
  gives m p f m' -> (m_nodes m !! p = None -> ~ loaded m (sv_ino f)) ->
  a_nodes A = absnode <$> m_nodes m -> a_names A = mnames m' I' -> a_files A = mfiles m' I' ->
  give p (sv_ino f) A (abs m' I').
Proof.
  intros Hg Hnl En Enm Ef. pose proof (gives_nodes m p f m' Hg) as En'. destruct Hg as (_ & Hc & _).
  unfold give. rewrite En, lookup_fmap. unfold abs, set_nodes. rewrite En', <- Enm, <- Ef.
  destruct (m_nodes m !! p) as [sv0|] eqn:E0; simpl.
  - destruct Hc as (Ev & Ei & _). split; [congruence|]. unfold absnode. rewrite Ev. done.
  - destruct Hc as (Er & Eo). split.
    + intros (q & n & Hq & Hi). rewrite En, lookup_fmap_Some in Hq. destruct Hq as (sv & <- & Hq).
      apply (Hnl eq_refl). by exists q, sv.
    + unfold absnode. by rewrite Er, Eo.
Qed.

Lemma abs_same (rel : Prop) m I m' I' :
  kept rel m m' -> rel -> mnames m' I' = mnames m I -> mfiles m' I' = mfiles m I ->
  abs m' I' = abs m I.
Proof. intros K Hr En Ef. unfold abs. by rewrite (kept_nodes rel m m' K Hr), En, Ef. Qed.

(** A full directory has 1144 names. *)
Lemma full_names m I :
  mnt_ok m I -> free_slot (entries (m_fs m) I) 1144 -> size (mnames m I) = 1144%nat.
Proof.
  intros [Ht _] Hf. destruct (tw_root _ _ Ht) as (r & Hr & Hd & _). pose proof (tw_unique _ _ Ht) as Hu.
  unfold mnames. rewrite (entries_root _ _ _ Hr) in *. set (l := dents _ _) in *.
  assert (length l <= 1144)%nat as Hl by (unfold l; rewrite length_dents; apply (dir_size _ _ Hd)).
  destruct Hf as [[? _]|[El Hall]]; [lia|]. unfold names.
  assert (filter (fun d => sfd_ino d <> 0) l = l) as ->.
  { clear -Hall. induction l as [|d l IH]; [done|]. rewrite filter_cons_True by (apply Hall; by left).
    f_equal. apply IH. intros e He. apply Hall. by right. }
  rewrite <- length_map_to_list, map_to_list_to_map, length_fmap; [done|].
  rewrite <- list_fmap_compose. apply NoDup_alt.
  intros j k nm Hj Hk. rewrite list_lookup_fmap_Some in Hj, Hk.
  destruct Hj as (d & -> & Hj), Hk as (e & E & Hk). simpl in E.
  apply (Hu (dname d) j k d e); [done|done|..]; (split; [|done]);
    apply Hall; by eapply list_elem_of_lookup_2.
Qed.

(** ** The code does what the specification says *)

Definition refine (c : call) m I : Prop :=
  exists o m' I', run c m = Some (o, m') /\ mnt_ok m' I' /\ heap_step m m' /\
    (reliable (m_fs m') /\ fs_super (m_fs m') = fs_super (m_fs m)) /\
    spec c (abs m I) o (abs m' I').

Lemma dir_case m I p sv :
  mnt_ok m I -> m_nodes m !! p = Some sv ->
  is_root m p sv /\ vnode_check false p m = Some sfs_dirops /\
    (forall P Q, on_dir (abs m I) p P Q = P) /\ (forall P Q, at_file (abs m I) p P Q = Q) \/
  sv_ino sv <> SFS_ROOT_LOCATION /\ vnode_check false p m = Some sfs_fileops /\
    (forall P Q, on_dir (abs m I) p P Q = Q) /\
    (forall P Q, at_file (abs m I) p P Q =
       exists c, mfiles m I !! sv_ino sv = Some c /\ P (sv_ino sv) c).
Proof.
  intros [Ht Hm] Hp. assert (a_nodes (abs m I) !! p = Some (absnode sv)) as Hn by (apply abs_node; eauto).
  pose proof (vnode_check_wp false m I p sv Hm Hp) as Hc. unfold root_ops in Hc.
  unfold on_dir, at_file. rewrite Hn. simpl an_ino.
  destruct (sv_ino sv =? SFS_ROOT_LOCATION) eqn:E; boolify; [left|right]; by split_and!.
Qed.

(** A step whose changes of the volume are none. *)
Lemma refine_same c m I o :
  mnt_ok m I -> reliable (m_fs m) -> run c m = Some (o, m) -> spec c (abs m I) o (abs m I) -> refine c m I.
Proof. intros Hok Hr E Hs. exists o, m, I. split; [done|]. split; [done|].
  split; [apply heap_step_refl|done]. Qed.

Lemma refine_step c m I o m' I' :
  reliable (m_fs m) -> run c m = Some (o, m') -> mnt_step m m' I' ->
  spec c (abs m I) o (abs m' I') -> refine c m I.
Proof.
  intros Hr E [Hok Hh Hi] Hs. exists o, m', I'. split; [done|]. split; [done|]. split; [done|].
  split; [split; [by apply Hi|apply Hi]|done].
Qed.

(** A file has a name if its link count is not zero. *)
Lemma named_inode m I ino i :
  mnt_ok m I -> I !! ino = Some i -> named (abs m I) ino <-> sfi_linkcount i <> 0.
Proof.
  intros [Ht _] Hi. destruct (decide (ino = SFS_ROOT_LOCATION)) as [E|Hne].
  - destruct (tw_root _ _ Ht) as (r & Hr & _ & Hl). subst ino. rewrite Hi in Hr.
    injection Hr as <-. split; [done|by left].
  - pose proof (tw_links _ _ Ht ino i Hi Hne) as El.
    destruct (tree_ino _ _ ino (tw_vol _ _ Ht)) as [Hr _]; [by eauto|].
    pose proof (links_names _ ino (tw_unique _ _ Ht) ltac:(lia)) as Hln.
    unfold named. simpl a_names. unfold mnames. split.
    + intros [?|Hnm]; [done|]. apply Hln in Hnm. lia.
    + intros Hl. right. apply Hln. lia.
Qed.

Section calls.
Context m I (Hok : mnt_ok m I) (Hrel : reliable (m_fs m)) (Hroom : room (abs m I)).

Lemma lookup_refine dir path : legal (Lookup dir path) (abs m I) -> refine (Lookup dir path) m I.
Proof.
  intros [[sv Hp]%abs_node_some Hstr].
  destruct (dir_case m I dir sv Hok Hp) as [(Hr & Hc & Hd & _)|(Hne & Hc & Hd & _)].
  2:{ eapply refine_same; [done|done|simpl; unfold VOP_LOOKUP; by rewrite Hc|]. simpl. by rewrite Hd. }
  destruct (sfs_lookonce_wp m I dir sv path Hok Hr Hstr (room_refs m I Hroom))
    as (r & p & slot & m' & E & Hst & Hv & Hcase).
  destruct (root_dir m I dir sv Hok Hr) as (_ & Hdw & _ & _).
  assert (run (Lookup dir path) m = Some (if r =? 0 then Ptr 0 p else Ptr r 0, m')) as Erun.
  { simpl. unfold VOP_LOOKUP. rewrite Hc. cbn [mbind option_bind]. unfold sfs_lookup. rewrite Hp.
    cbn [mbind option_bind]. rewrite (dw_type _ _ Hdw), Z.eqb_refl, E. cbn [mbind option_bind].
    by destruct (r =? 0). }
  eapply refine_step; [done|exact Erun|exact Hst|]. simpl. rewrite Hd.
  destruct (view_eq _ _ _ _ Hv) as [_ Ef]. pose proof (mnames_same m m' I Hv) as En.
  destruct Hcase as [(-> & Hl)|(Hr0 & Eno & Hl)].
  - exists 0, p. split; [done|]. left. split; [done|].
    destruct Hl as (f & d & Hg & _ & Hnl & _ & _ & _ & _ & _ & Hnm). exists (sv_ino f).
    split; [done|]. by eapply gives_give.
  - rewrite (proj2 (Z.eqb_neq _ _) Hr0). exists r, 0. split; [done|]. right.
    split; [by apply (abs_same True); [apply kept_refl|..]|].
    destruct Hl as [?|[?|[_ ?]]]; [by left|by right|done].
Qed.

Lemma link_refine dir name file :
  legal (Link dir name file) (abs m I) -> refine (Link dir name file) m I.
Proof.
  intros ([sv Hp]%abs_node_some & [Hstr Hlen] & n & (f & Hf & ->)%abs_node & Hfn). simpl in Hfn.
  destruct (dir_case m I dir sv Hok Hp) as [(Hr & Hc & Hd & _)|(Hne & Hc & Hd & _)].
  2:{ eapply refine_same; [done|done|simpl; unfold VOP_LINK; by rewrite Hc|]. simpl. by rewrite Hd. }
  destruct (sfs_link_wp m I dir sv name file f Hok Hr Hf Hfn Hstr Hlen)
    as (r & m' & I' & E & Hst & Hk & Ef & Hcase).
  eapply refine_step; [done| |exact Hst|].
  { simpl. unfold VOP_LINK. rewrite Hc. cbn [mbind option_bind]. by rewrite E. }
  simpl. rewrite Hd. exists r. split; [done|]. destruct Hcase as [(-> & Hno & En)|(Hr0 & En & Hl)].
  - left. split; [done|]. split; [done|]. exists (absnode f). split; [by rewrite lookup_fmap, Hf|].
    unfold abs, set_names. by rewrite (kept_nodes True m m' Hk), En, Ef.
  - right. split; [by apply (abs_same True)|]. unfold no_entry, link_fails in *.
    destruct Hl as [?|[?|[[? Hfull]|[[? _]|[_ ?]]]]]; [by left|by right; left| |by right; right; right|done].
    right; right; left. split; [done|]. by apply full_names.
Qed.

Lemma creat_refine dir name excl :
  legal (Creat dir name excl) (abs m I) -> refine (Creat dir name excl) m I.
Proof.
  intros [[sv Hp]%abs_node_some [Hstr Hlen]].
  destruct (dir_case m I dir sv Hok Hp) as [(Hr & Hc & Hd & _)|(Hne & Hc & Hd & _)].
  2:{ eapply refine_same; [done|done|simpl; unfold VOP_CREAT; by rewrite Hc|]. simpl. by rewrite Hd. }
  destruct (sfs_creat_wp m I dir sv name excl Hok Hr Hstr Hlen (room_refs m I Hroom))
    as (r & p & m' & I' & E & Hst & Hcase).
  eapply refine_step; [done| |exact Hst|].
  { simpl. unfold VOP_CREAT. rewrite Hc. cbn [mbind option_bind]. by rewrite E. }
  simpl. rewrite Hd. exists r, p. split; [done|].
  destruct Hcase as [(-> & f & Hg & [(He & Hnm & En & Ef)|(Hno & Hnl & Hf & En & Ef)])|(Hr0 & Hk & Hu & Hc2)].
  - left. split; [done|]. split; [done|]. exists (sv_ino f). split; [done|].
    eapply gives_give; [done| |done..]. intros Hn (q & s & Hq & Es).
    destruct Hg as (Hp' & _ & Hold & _). destruct (decide (q = p)) as [->|Hqp]; [congruence|].
    destruct (Hold q s Hq Hqp) as (s' & Hs' & _ & Ei).
    apply Hqp, (me_inj _ _ (proj2 (ms_ok _ _ _ Hst)) q p s' f); congruence.
  - right; left. split; [done|]. split; [done|]. exists (sv_ino f). split; [done|].
    split; [by rewrite abs_held|]. by eapply gives_give.
  - right; right. destruct Hu as (En & _ & Ef). split; [by apply (abs_same (reliable (m_fs m))); auto|].
    unfold creat_fails, no_entry in *.
    destruct Hc2 as [?|[(Hno & Hc2)|[?|[_ ?]]]]; [by left| |by right; right|done].
    right; left. split; [done|]. destruct Hc2 as [?|[[? Hfull]|?]]; [by left| |by right; right].
    right; left. split; [done|]. by apply full_names.
Qed.

Lemma remove_refine dir name : legal (Remove dir name) (abs m I) -> refine (Remove dir name) m I.
Proof.
  intros [[sv Hp]%abs_node_some Hstr].
  destruct (dir_case m I dir sv Hok Hp) as [(Hr & Hc & Hd & _)|(Hne & Hc & Hd & _)].
  2:{ eapply refine_same; [done|done|simpl; unfold VOP_REMOVE; by rewrite Hc|]. simpl. by rewrite Hd. }
  destruct (sfs_remove_wp m I dir sv name Hok Hr Hstr (room_refs m I Hroom))
    as (r & m' & I' & E & Hst & Hk & Hcase).
  eapply refine_step; [done| |exact Hst|].
  { simpl. unfold VOP_REMOVE. rewrite Hc. cbn [mbind option_bind]. by rewrite E. }
  simpl. rewrite Hd. exists r. split; [done|].
  destruct Hcase as [(-> & ino & Hnm & En & Hx & Hs & Hg)|(Hr0 & En & Ef & Hc2)].
  - left. split; [done|]. exists ino. split; [done|].
    assert (ino <> SFS_ROOT_LOCATION) as Hir.
    { destruct Hok as [Ht _]. apply (names_lookup _ _ _ (tw_unique _ _ Ht)) in Hnm as (k & d & Hk1 & [Hz _] & <-).
      apply (tw_ents _ _ Ht d); [by eapply list_elem_of_lookup_2|done]. }
    rewrite abs_held. unfold named. simpl a_names. rewrite <- En.
    unfold abs, set_names, set_files. simpl. rewrite (kept_nodes _ m m' Hk Hrel). split.
    + intros Hh. rewrite Hs; [done|]. destruct Hh as [?|[?|?]]; [by left|done|by right].
    + intros Hnh Hnn. rewrite Hg; [done|done| |done]. intros nm Hnm2. apply Hnn. right. eauto.
  - right. split; [by apply (abs_same (reliable (m_fs m)))|].
    destruct Hc2 as [?|[?|[_ ?]]]; [by left|by right|done].
Qed.

Lemma rename_refine d1 n1 d2 n2 :
  legal (Rename d1 n1 d2 n2) (abs m I) -> refine (Rename d1 n1 d2 n2) m I.
Proof.
  intros ([sv Hp]%abs_node_some & -> & Hs1 & Hs2 & Hlen).
  destruct (dir_case m I d1 sv Hok Hp) as [(Hr & Hc & Hd & _)|(Hne & Hc & Hd & _)].
  2:{ eapply refine_same; [done|done|simpl; unfold VOP_RENAME; by rewrite Hc|]. simpl. by rewrite Hd. }
  destruct (sfs_rename_wp m I d1 sv n1 n2 Hok Hr Hs1 Hs2 Hlen (room_refs m I Hroom))
    as [(r & m' & I' & E & Hst & Hk & Ef & Hcase)|[_ ?]]; [|done].
  eapply refine_step; [done| |exact Hst|].
  { simpl. unfold VOP_RENAME. rewrite Hc. cbn [mbind option_bind]. by rewrite E. }
  simpl. rewrite Hd. exists r. split; [done|].
  destruct Hcase as [(-> & ino & Hn1 & Hn2 & En)|(Hr0 & En & Hl)].
  - left. split; [done|]. exists ino. split; [done|]. split; [done|].
    unfold abs, set_names. by rewrite (kept_nodes _ m m' Hk Hrel), En, Ef.
  - right. split; [by apply (abs_same (reliable (m_fs m)))|]. unfold no_entry, rename_fails in *.
    destruct Hl as [?|[?|[?|[[? Hfull]|[[? _]|[?|[_ ?]]]]]]]; try tauto.
    pose proof (full_names m I Hok Hfull). tauto.
Qed.

(** The counts of one vnode change. *)
Lemma abs_counts p sv v' :
  m_nodes m !! p = Some sv ->
  abs (set_node p (set_vn v' sv) m) I =
    set_nodes (<[p := Anode (sv_ino sv) (vn_refcount v') (vn_opencount v')]> (a_nodes (abs m I))) (abs m I).
Proof. intros Hp. unfold abs, set_nodes, mnames, mfiles. simpl. by rewrite fmap_insert. Qed.

Lemma incref_refine p : legal (Incref p) (abs m I) -> refine (Incref p) m I.
Proof.
  intros [sv Hp]%abs_node_some.
  destruct (vnode_incref_wp m I p sv Hok Hp (room_refs m I Hroom p sv Hp)) as (E & Hok' & Hh).
  eexists _, _, I. split; [simpl; by rewrite E|]. do 3 (split; [done|]). split; [done|].
  exists (absnode sv). split; [apply abs_node; eauto|]. rewrite abs_counts by done. simpl.
  by rewrite Z.add_comm.
Qed.

Lemma incopen_refine p : legal (Incopen p) (abs m I) -> refine (Incopen p) m I.
Proof.
  intros (n & (sv & Hp & ->)%abs_node & Ho). simpl in Ho. pose proof Hok as [_ Hm].
  destruct (me_node _ _ Hm p sv Hp) as [_ [Vo Vr Vc [l Vl]]].
  destruct (node_ptr m p sv (me_table _ _ Hm) Hp) as [? _].
  set (v' := set_opencount (vn_opencount (sv_v sv) + 1) (sv_v sv)).
  destruct (mnt_counts m I p sv v' Hok Hp) as [Hok' Hh]; [by constructor; simpl; try lia|].
  exists (Ret 0), (set_node p (set_vn v' sv) m), I. split.
  { simpl. unfold vnode_incopen, countlock. rewrite (proj2 (Z.eqb_neq p 0)) by done. simpl. rewrite Hp. simpl.
    rewrite Vl. simpl. by rewrite s32_id by (unfold is_s32; lia). }
  do 3 (split; [done|]). split; [done|]. exists (absnode sv). split; [apply abs_node; eauto|].
  rewrite abs_counts by done. simpl. by rewrite Z.add_comm.
Qed.

Lemma decopen_refine p : legal (Decopen p) (abs m I) -> refine (Decopen p) m I.
Proof.
  intros (n & (sv & Hp & ->)%abs_node & Ho). simpl in Ho. pose proof Hok as [_ Hm].
  destruct (me_node _ _ Hm p sv Hp) as [_ [Vo Vr Vc [l Vl]]].
  destruct (node_ptr m p sv (me_table _ _ Hm) Hp) as [? _].
  set (v' := set_opencount (vn_opencount (sv_v sv) - 1) (sv_v sv)).
  destruct (mnt_counts m I p sv v' Hok Hp) as [Hok' Hh]; [by constructor; simpl; try lia|].
  set (m1 := set_node p (set_vn v' sv) m) in *.
  assert (m_nodes m1 !! p = Some (set_vn v' sv)) as Hp1 by apply lookup_insert_eq.
  assert (exists m', run (Decopen p) m = Some (Ret 0, m') /\ mnt_step m1 m' I /\ view m' I = view m1 I /\
    kept True m1 m') as (m' & E & Hst & Hv & Hk).
  { simpl. unfold vnode_decopen, countlock. rewrite (proj2 (Z.eqb_neq p 0)) by done. simpl. rewrite Hp. simpl.
    rewrite Vl. simpl. rewrite (proj2 (Z.ltb_lt _ _)) by lia. fold v' m1.
    destruct (0 <? vn_opencount (sv_v sv) - 1).
    - exists m1. split; [done|]. split; [by apply mnt_step_refl|]. split; [done|by apply kept_refl].
    - destruct (VOP_FSYNC_wp m1 I p _ Hok' Hp1) as (m' & E & Hst & Hv & En).
      exists m'. unfold VOP_CLOSE, sfs_close.
      rewrite (vnode_check_wp _ m1 I p _ (proj2 Hok') Hp1). cbn [mbind option_bind]. rewrite E.
      split; [done|]. split; [done|]. split; [done|]. by eapply keeps_insert. }
  exists (Ret 0), m', I. split; [done|]. split; [apply Hst|].
  split; [eapply heap_step_trans; [done|apply Hst]|].
  split; [split; [by apply (ms_hist _ _ _ Hst)|apply (ms_hist _ _ _ Hst)]|].
  split; [done|]. exists (absnode sv). split; [apply abs_node; eauto|].
  destruct (view_eq _ _ _ _ Hv) as [_ Ef].
  rewrite (abs_same True m1 I m' I Hk Logic.I (mnames_same m1 m' I Hv) Ef). unfold m1. by rewrite abs_counts.
Qed.

(** A file has a name if its link count is not zero. *)
Lemma named_links p sv :
  m_nodes m !! p = Some sv -> named (abs m I) (sv_ino sv) <-> sfi_linkcount (sv_i sv) <> 0.
Proof. intros Hp. pose proof Hok as [_ Hm]. apply named_inode; [done|]. by apply (me_node _ _ Hm p). Qed.

Lemma decref_refine p : legal (Decref p) (abs m I) -> refine (Decref p) m I.
Proof.
  intros (n & (sv & Hp & ->)%abs_node & Ho). simpl in Ho.
  destruct (vnode_decref_wp m I p sv Hok Hp Ho) as (m' & I' & E & Hc).
  assert (run (Decref p) m = Some (Ret 0, m')) as Erun by (simpl; by rewrite E).
  assert (a_nodes (abs m I) !! p = Some (absnode sv)) as Hn by (apply abs_node; eauto).
  destruct Hc as [(Hr & -> & Hst & ->)|(Hr & r & [Hst Hok2 Hf])].
  - eapply refine_step; [done|exact Erun|exact Hst|]. split; [done|]. exists (absnode sv).
    split; [done|]. left. split; [done|]. exists (absnode sv). split; [done|]. by rewrite abs_counts.
  - destruct (decide (r = 0)) as [->|Hr0]; [|by destruct (Hf Hr0) as (_ & ? & _)].
    destruct (Hok2 eq_refl) as [En Hc]. eapply refine_step; [done|exact Erun|exact Hst|].
    split; [done|]. exists (absnode sv). split; [done|]. right. split; [done|]. cbn zeta.
    rewrite (named_links p sv Hp). unfold abs, set_nodes, set_files. simpl. rewrite En, fmap_delete.
    destruct Hc as [(Hl & -> & Hv & _)|(Hl & -> & Hv)]; (split; [intros ?|intros Hnn]); try done.
    + destruct (view_eq _ _ _ _ Hv) as [_ ->]. by rewrite (mnames_same m m' I Hv).
    + unfold view in Hv. injection Hv as Ee Ef. unfold mnames, mfiles. by rewrite Ee, Ef.
Qed.

Lemma file_content p sv :
  m_nodes m !! p = Some sv -> sv_ino sv <> SFS_ROOT_LOCATION ->
  mfiles m I !! sv_ino sv = Some (fcontent (m_fs m) (sv_i sv)) /\
  Z.of_nat (length (fbytes (m_fs m) (sv_i sv))) = max_file /\
  Z.of_nat (length (fcontent (m_fs m) (sv_i sv))) = Z.min (sfi_size (sv_i sv)) max_file /\
  0 <= sfi_size (sv_i sv).
Proof.
  intros Hp Hne. pose proof Hok as [Ht Hm]. destruct (me_node _ _ Hm p sv Hp) as [Hi _].
  destruct (vw_file _ _ (tw_vol _ _ Ht) _ _ Hi) as [Hw _]. pose proof Hw as (((? & _) & _) & _).
  pose proof (length_fbytes _ _ (vw_ok _ _ (tw_vol _ _ Ht)) Hw) as Hl.
  split; [unfold mfiles; by rewrite lookup_files, Hi|]. split; [done|].
  split; [|done]. unfold fcontent. rewrite length_take. lia.
Qed.

Lemma read_refine p u v : legal (Read p u v) (abs m I) -> refine (Read p u v) m I.
Proof.
  intros ([sv Hp]%abs_node_some & Hu & Hrw).
  destruct (dir_case m I p sv Hok Hp) as [(Hr & Hc & _ & Hd)|(Hne & Hc & _ & Hd)].
  { eapply refine_same; [done|done|simpl; unfold VOP_READ; by rewrite Hc|]. simpl. by rewrite Hd. }
  destruct (VOP_READ_wp m I p sv u v Hok Hp Hne Hu Hrw) as (r & bs & u' & v' & fs' & E & Hrp & Hst & Hv).
  destruct (file_content p sv Hp Hne) as (Hf & Hlb & Hlc & Hs0).
  eapply refine_step; [done|simpl; by rewrite E|exact Hst|]. simpl. rewrite Hd.
  eexists. split; [exact Hf|]. exists r, bs, u', v'. split; [done|].
  destruct (view_eq _ _ _ _ Hv) as [_ Ef].
  split; [by apply (abs_same True); [apply kept_refl|..|apply mnames_same|]|].
  destruct Hrp as [M _ _ _ Hdat Hall _ Hfl]. split; [done|]. split; [split; [done|]|].
  - intros Hr0 Hsz. rewrite (Hall Hr0). unfold read_len. pose proof Hu as (_ & _ & ? & ? & _).
    rewrite Hlc in *. lia.
  - intros Hr0. destruct (Hfl Hr0) as [?|[[? ?]|[_ ?]]]; [by left|right; split; [done|lia]|done].
Qed.

Lemma fsync_refine p : legal (Fsync p) (abs m I) -> refine (Fsync p) m I.
Proof.
  intros [sv Hp]%abs_node_some. destruct (VOP_FSYNC_wp m I p sv Hok Hp) as (m' & E & Hst & Hv & En).
  eapply refine_step; [done|simpl; by rewrite E|exact Hst|]. split; [done|].
  destruct (view_eq _ _ _ _ Hv) as [_ Ef].
  apply (abs_same True); [by eapply keeps_insert|done|by apply mnames_same|done].
Qed.

Lemma sync_refine : refine Sync m I.
Proof.
  destruct (sfs_sync_wp m I Hok) as (m' & E & Hok' & Hh & [Hr Hsu] & Hv & En & _).
  exists (Ret 0), m', I. split; [simpl; by rewrite E|]. split; [done|]. split; [done|].
  split; [auto|]. split; [done|]. destruct (view_eq _ _ _ _ Hv) as [_ Ef].
  unfold abs. rewrite (mnames_same m m' I Hv), Ef, En, <- map_fmap_compose. done.
Qed.

(** A file changes, and nothing else. *)
Lemma abs_file p sv sv' fs' :
  m_nodes m !! p = Some sv -> sv_step sv sv' ->
  let m' := set_node p sv' (set_fs fs' m) in
  let I' := <[sv_ino sv := sv_i sv']> I in
  view m' I' = (entries (m_fs m) I, <[sv_ino sv := fcontent fs' (sv_i sv')]> (files (m_fs m) I)) ->
  abs m' I' = set_files (<[sv_ino sv := fcontent fs' (sv_i sv')]> (a_files (abs m I))) (abs m I).
Proof.
  intros Hp (Ev & Ei & _) m' I' Hv. unfold view in Hv. injection Hv as Ee Ef.
  unfold abs, set_files, mnames, mfiles. cbn [a_names a_files a_nodes].
  change (m_fs m') with fs'. fold I' in Ee, Ef. rewrite Ee, Ef. f_equal. apply (kept_nodes True m m'); [|done]. by eapply (keeps_insert _ _ p sv sv').
Qed.

Lemma write_refine p u v : legal (Write p u v) (abs m I) -> refine (Write p u v) m I.
Proof.
  intros ([sv Hp]%abs_node_some & Hu & Hrw).
  destruct (dir_case m I p sv Hok Hp) as [(Hr & Hc & _ & Hd)|(Hne & Hc & _ & Hd)].
  { eapply refine_same; [done|done|simpl; unfold VOP_WRITE; by rewrite Hc|]. simpl. by rewrite Hd. }
  destruct (VOP_WRITE_wp m I p sv u v Hok Hp Hne Hu Hrw) as (r & bs & u' & sv' & fs' & E & Hwp & Hst & Hv).
  destruct (file_content p sv Hp Hne) as (Hf & Hlb & Hlc & Hs0). pose proof Hu as (_ & _ & ? & ? & _).
  eapply refine_step; [done|simpl; by rewrite E|exact Hst|]. simpl spec. rewrite Hd.
  eexists. split; [exact Hf|]. destruct Hwp as [M Hfs Hsv Hsz Hbd Hby Hall _ Hfl _ _].
  exists r, bs, u', (fcontent fs' (sv_i sv')). split; [done|]. split; [by apply abs_file|].
  split; [done|]. split; [|split; [done|]].
  - by apply content_write.
  - intros Hr0. destruct (Hfl Hr0) as [?|[?|[[? _]|[_ ?]]]]; auto. done.
Qed.

Lemma truncate_refine p len : legal (Truncate p len) (abs m I) -> refine (Truncate p len) m I.
Proof.
  intros ([sv Hp]%abs_node_some & Hl & Hl2).
  destruct (dir_case m I p sv Hok Hp) as [(Hr & Hc & _ & Hd)|(Hne & Hc & _ & Hd)].
  { eapply refine_same; [done|done|simpl; unfold VOP_TRUNCATE; by rewrite Hc|]. simpl. by rewrite Hd. }
  destruct (VOP_TRUNCATE_wp m I p sv len Hok Hp Hne Hl Hl2) as (r & sv' & fs' & E & Htp & Hst & Hv).
  destruct (file_content p sv Hp Hne) as (Hf & Hlb & Hlc & Hs0).
  destruct (decide (r = 0)) as [->|Hr0]; [|by destruct (tp_fail _ _ _ _ _ _ Htp Hr0) as (_ & ? & _)].
  pose proof Hok as [Ht Hm]. destruct (me_node _ _ Hm p sv Hp) as [Hi _].
  destruct (vw_file _ _ (tw_vol _ _ Ht) _ _ Hi) as [Hw _].
  pose proof (trunc_bytes _ _ _ _ _ _ (vw_ok _ _ (tw_vol _ _ Ht)) Hw Hl Htp eq_refl) as Hby.
  pose proof (tp_size _ _ _ _ _ _ Htp eq_refl) as Hsz. pose proof (tp_cut _ _ _ _ _ _ Htp) as Hcut.
  pose proof (length_fbytes _ _ (fc_ok _ _ _ _ Hcut) (fc_wf _ _ _ _ Hcut)) as Hlb'.
  eapply refine_step; [done|unfold run; rewrite E; reflexivity|exact Hst|]. unfold spec. rewrite Hd.
  eexists. split; [exact Hf|]. exists (fcontent fs' (sv_i sv')). split; [done|].
  split; [apply abs_file; [done|apply Htp|done]|]. unfold fcontent in *. rewrite Hsz, Hby.
  split; [rewrite length_take; lia|]. intros k Hk Hkl. rewrite length_take in Hk.
  by rewrite !lookup_take_lt by lia.
Qed.
End calls.

Lemma call_refines c m I :
  mnt_ok m I -> reliable (m_fs m) -> room (abs m I) -> legal c (abs m I) -> refine c m I.
Proof.
  intros Hok Hrel Hroom Hl. destruct c;
    [eapply lookup_refine|eapply creat_refine|eapply link_refine|eapply remove_refine
    |eapply rename_refine|eapply incref_refine|eapply decref_refine|eapply incopen_refine
    |eapply decopen_refine|eapply read_refine|eapply write_refine|eapply truncate_refine
    |eapply fsync_refine|eapply sync_refine]; eassumption.
Qed.

(** ** Whole programs *)

Fixpoint run_client (c : client) m : option (list obs * mnt H D) :=
  match c with
  | Done => Some ([], m)
  | Do c k => '(o, m) ← run c m; '(os, m) ← run_client (k o) m; Some (o :: os, m)
  end.

Lemma run_client_wp c m I :
  mnt_ok m I -> reliable (m_fs m) -> ok_client c (abs m I) ->
  exists os m' I', run_client c m = Some (os, m') /\ mnt_ok m' I' /\ heap_step m m' /\
    reliable (m_fs m') /\ spec_run c (abs m I) os (abs m' I').
Proof.
  revert m I. induction c as [|c k IH]; intros m I Hok Hrel Hc.
  { exists [], m, I. split; [done|]. split; [done|]. split; [apply heap_step_refl|].
    split; [done|]. constructor. }
  destruct Hc as (Hl & Hr & Hk).
  destruct (call_refines c m I Hok Hrel Hr Hl) as (o & m1 & I1 & E & Hok1 & Hh1 & [Hrel1 _] & Hs1).
  destruct (IH o m1 I1 Hok1 Hrel1 (Hk _ _ Hs1)) as (os & m' & I' & E' & Hok' & Hh' & Hrel' & Hs').
  exists (o :: os), m', I'. cbn [run_client]. rewrite E. cbn [mbind option_bind]. rewrite E'.
  split; [done|]. split; [done|]. split; [by eapply heap_step_trans|]. split; [done|].
  by econstructor.
Qed.
End client.
