(* ===== verification/SfsImage.v ===== *)
(** * A volume on a disk

    [image] is a disk of 32 blocks with one file, as mksfs and a few writes would
    leave it: superblock, root directory, free map, the inode of the file [a], its
    data, and the data of the directory.  The theorems on mounted volumes are applied
    to it. *)

From stdpp Require Import base option list gmap numbers.
From S2P Require Import Prelude Kmem Array Bitmap Cstring Uio Device Lhd SfsDisk Sfs.
From S2P Require Import SfsBlock SfsBmap SfsFile SfsDir SfsTrunc SfsVol SfsSpec.
From S2P Require Import SfsMount SfsTree SfsTable SfsVnodes SfsNames SfsOps SfsSync.

Definition img_super : sfs_super :=
  {| sp_magic := SFS_MAGIC; sp_nblocks := 32; sp_volname := pad 32 [118];
     sp_reserved := replicate 118 0 |}.
Definition img_root : sfs_inode := mk_inode 64 SFS_TYPE_DIR [5] 0.
Definition img_file : sfs_inode := mk_inode 5 SFS_TYPE_FILE [4] 0.
Definition img_map : list Z := [63; 0; 0; 0] ++ replicate 508 255.

Definition image : gmap Z (list Z) :=
  <[0 := enc_super img_super]>
  (<[1 := enc_inode img_root]>
  (<[2 := img_map]>
  (<[3 := enc_inode img_file]>
  (<[4 := pad 512 [104; 101; 108; 108; 111]]>
  (<[5 := pad 512 (enc_dir (SfsDir 3 (pad 60 [97])))]> ∅))))).

Definition img_disk : lhd_softc Sim.card :=
  Lhd (Sim.Card 32 image [] []) 0 0 (replicate 512 0) 0 1 0 32.

Definition img_fs : sfs_fs (lhd_softc Sim.card) :=
  {| fs_super := img_super; fs_superdirty := false; fs_device := img_disk;
     fs_freemap := {| b_self := 1; nbits := 4096; b_vptr := 2; b_v := img_map |};
     fs_freemapdirty := false |}.

Definition img_inodes : gmap Z sfs_inode := {[ 1 := img_root; 3 := img_file ]}.

Lemma img_sectors b bs : image !! b = Some bs -> bytes_of 512 bs.
Proof.
  assert (map_Forall (fun _ bs => bytes_of 512 bs) image) as Hm
    by (apply (bool_decide_unpack (map_Forall _ _)); vm_compute; exact Logic.I).
  apply Hm.
Qed.

Lemma img_fs_ok : fs_ok img_fs.
Proof.
  split; [|split; [|split; [|split; [|split; [|split]]]]].
  - split; [|done]. split; [|done]. split; [by vm_compute|]. apply img_sectors.
  - split; [by vm_compute|]. split; [by vm_compute|].
    split; [apply (bool_decide_unpack (bytes_of 32 _))|apply (bool_decide_unpack (words_ok 118 _))];
      by vm_compute.
  - by vm_compute.
  - split; [by vm_compute|]. split; [by vm_compute|].
    split; [apply (bool_decide_unpack (Forall is_byte _)); by vm_compute|].
    intros i Hi. assert (length (b_v (fs_freemap img_fs)) = 512%nat) as El by by vm_compute.
    rewrite El in Hi. simpl in Hi. lia.
  - by vm_compute.
  - intros b Hb. change (nblocks img_fs) with 32 in Hb. change (nbits _) with 4096 in Hb.
    assert (Forall (fun b => used img_fs b = true) (seqZ 32 4064)) as Hf
      by (apply (bool_decide_unpack (Forall _ _)); vm_compute; exact Logic.I).
    rewrite list.Forall_forall in Hf. apply Hf, elem_of_seqZ. lia.
  - by vm_compute.
Qed.

Lemma img_head : head_wf img_fs.
Proof.
  constructor; [done|by vm_compute|by vm_compute|..].
  - intros _ [|j] Hj; [by vm_compute|]. by change (SFS_BITBLOCKS _) with 1 in Hj; lia.
  - intros _. by vm_compute.
Qed.

Lemma img_inode ino i :
  img_inodes !! ino = Some i -> ino = 1 /\ i = img_root \/ ino = 3 /\ i = img_file.
Proof.
  unfold img_inodes. intros [[-> <-]|[? [-> <-]%lookup_singleton_Some]]%lookup_insert_Some; auto.
Qed.

Lemma img_root_blocks : file_blocks img_fs img_root = [5].
Proof. by vm_compute. Qed.

Lemma img_file_blocks : file_blocks img_fs img_file = [4].
Proof. by vm_compute. Qed.

Lemma img_reserved b : reserved img_fs b <-> b = 0 \/ b = 2.
Proof.
  unfold reserved, SFS_SB_LOCATION, SFS_MAP_LOCATION. change (SFS_BITBLOCKS _) with 1. lia.
Qed.

Lemma img_meta b : meta img_fs img_inodes b -> b = 0 \/ b = 1 \/ b = 2 \/ b = 3.
Proof. intros [[-> | ->]%img_reserved|[i [[-> _]|[-> _]]%img_inode]]; auto. Qed.

Lemma img_vol : vol_wf img_fs img_inodes.
Proof.
  constructor; [apply img_fs_ok|..].
  - intros b [->|[->|[->| ->]]]%img_meta; by vm_compute.
  - intros ino [i [[-> _]|[-> _]]%img_inode] [?|?]%img_reserved; lia.
  - intros ino i [[_ ->]|[_ ->]]%img_inode; (split; [apply file_wf_decide|]; by vm_compute).
  - intros ino i b [[_ ->]|[_ ->]]%img_inode; rewrite ?img_root_blocks, ?img_file_blocks;
      intros ->%list_elem_of_singleton Hm%img_meta; lia.
  - intros ino1 i1 ino2 i2 [[-> ->]|[-> ->]]%img_inode [[-> ->]|[-> ->]]%img_inode Hne b;
      rewrite ?img_root_blocks, ?img_file_blocks, !list_elem_of_singleton; try done; intros ->; lia.
Qed.

Lemma img_entries : entries img_fs img_inodes = [SfsDir 3 (pad 60 [97])].
Proof. by vm_compute. Qed.

Lemma img_tree : tree_wf img_fs img_inodes.
Proof.
  constructor; [apply img_vol|apply img_head|..].
  - exists img_root. split; [done|]. split; [|done].
    constructor; [apply file_wf_decide; by vm_compute|done|by vm_compute|].
    intros [|k] Hk; [|by vm_compute in Hk; lia]. exists 5. split; [by vm_compute|done].
  - rewrite img_entries. intros name j k d e Hj Hk _ _.
    apply lookup_lt_Some in Hj, Hk. simpl in Hj, Hk. lia.
  - intros ino i [[-> ->]|[-> ->]]%img_inode; done.
  - rewrite img_entries. intros d ->%list_elem_of_singleton _. split; [done|]. by eexists.
  - rewrite img_entries. intros ino i [[-> ->]|[-> ->]]%img_inode; done.
Qed.

Lemma img_on_disk : on_disk img_disk img_fs img_inodes.
Proof.
  constructor; [done|apply img_tree|done|done|].
  intros ino i [[-> ->]|[-> ->]]%img_inode; by vm_compute.
Qed.

Lemma img_reliable : dev_reliable img_disk.
Proof. done. Qed.
