(* ===== verification/SfsMountSpec.v ===== *)
(** * The theorems on mounted volumes

    A client of a mounted volume sees the abstract volume of SfsClient.v; what it did
    is on the disk after a sync, and is there again when the disk is mounted; and
    mounting, using and unmounting a volume leaves the kernel's memory as it was. *)

From stdpp Require Import base option list gmap numbers.
From S2P Require Import Prelude Kmem Array Bitmap Cstring Uio Device Lhd SfsDisk Sfs.
From S2P Require Import SfsBlock SfsBmap SfsFile SfsDir SfsTrunc SfsVol SfsSpec.
From S2P Require Import SfsMount SfsTree SfsTable SfsVnodes SfsNames SfsOps SfsSync SfsClient SfsImage.

Section mounted.
Context {H D : Type} `{!Kmalloc H, !KmallocLaws H, !Device D, !DeviceLaws D}.
Implicit Types m : mnt H D.
Implicit Types I : gmap Z sfs_inode.

(** What the disk holds: the names and the files that have one. *)
Definition disk_names (fs : sfs_fs D) I : gmap (list Z) Z := names (entries fs I).
Definition disk_files (fs : sfs_fs D) I : gmap Z (list Z) := files fs (linked I).

(** The disk as a client that holds no vnode sees it. *)
Definition disk_abs (fs : sfs_fs D) I : absfs := Absfs (disk_names fs I) (disk_files fs I) ∅.

Lemma synced_on_disk m I : mnt_ok m I -> synced m I -> on_disk (fs_device (m_fs m)) (m_fs m) I.
Proof. intros [Ht _] [? ? ?]. by constructor. Qed.

Lemma linked_all m I : mnt_ok m I -> m_nodes m = ∅ -> linked I = I.
Proof.
  intros [_ Hm] En. apply map_filter_id. intros ino i Hi. simpl.
  destruct (decide (ino = SFS_ROOT_LOCATION)) as [|Hne]; [by left|]. right. intros Hl.
  destruct (me_orphan _ _ Hm ino i Hi Hne Hl) as (p & sv & Hp & _). by rewrite En in Hp.
Qed.

Lemma sfs_getroot_wp m I rp m' :
  mnt_ok m I -> m_nodes m = ∅ -> sfs_getroot m = Some (rp, m') ->
  mnt_step m m' I /\ view m' I = view m I /\
  abs m' I = set_nodes {[rp := Anode SFS_ROOT_LOCATION 1 0]} (abs m I).
Proof.
  intros Hok En E. pose proof Hok as [Ht Hm]. destruct (tw_root _ _ Ht) as (i & Hi & _).
  assert (refs_room m) as Hroom by (intros p sv; by rewrite En).
  destruct (sfs_loadvnode_wp m I _ i Hok Hi Hroom) as (r & p & m1 & El & Hlp).
  unfold sfs_getroot in E. rewrite El in E. cbn [mbind option_bind] in E.
  destruct (r =? 0) eqn:Er; simpl in E; [|done]. boolify. subst r. injection E as -> ->.
  destruct (load_view m I _ _ _ _ Hok Hlp) as [Hst Hv]. split; [done|]. split; [done|].
  destruct (load_gives m I _ rp m' Hm Hlp) as (sv & Hg & Hsi & En' & _).
  destruct Hg as (_ & Hc & _). rewrite En, lookup_empty in Hc. destruct Hc as [Hr Ho].
  destruct (view_eq _ _ _ _ Hv) as [_ Ef]. pose proof (mnames_same m m' I Hv) as Enm.
  unfold abs, set_nodes. rewrite En', En, Ef, Enm, insert_empty, map_fmap_singleton. unfold absnode.
  by rewrite Hr, Ho, Hsi.
Qed.

(** The files on the disk are those with a name. *)
Lemma linked_files m I ino c :
  mnt_ok m I ->
  disk_files (m_fs m) I !! ino = Some c <-> named (abs m I) ino /\ mfiles m I !! ino = Some c.
Proof.
  intros Hok. unfold disk_files, mfiles, files. rewrite !lookup_fmap_Some. split.
  - intros (i & <- & [Hne [Hi Hl]%map_lookup_filter_Some]%lookup_delete_Some).
    split; [|exists i; split; [done|]; by rewrite lookup_delete_ne].
    apply (named_inode m I ino i Hok Hi). by destruct Hl.
  - intros [Hn (i & <- & [Hne Hi]%lookup_delete_Some)]. exists i. split; [done|].
    rewrite lookup_delete_ne by done. apply map_lookup_filter_Some. split; [done|]. right.
    by apply (named_inode m I ino i Hok Hi).
Qed.

Lemma disk_abs_mounted d fs0 I h r m d' h' :
  mount_post d fs0 I h r (Some m) d' h' -> abs m (linked I) = disk_abs fs0 I.
Proof.
  intros (_ & _ & _ & _ & En & _ & _ & _ & Ee & Ef). unfold abs, disk_abs, mnames, mfiles.
  by rewrite Ee, Ef, En, fmap_empty.
Qed.
End mounted.

(** C1: A mounted volume on a disk on which no read or write fails is what its clients
    are promised.  A program of calls on the
    root directory and the files (look a name up, create, link, remove, rename, read,
    write, truncate, sync, count references), each call depending on what the earlier
    ones returned, never panics, and what the calls return and leave is what the
    abstract volume of names and contents allows, for every program that keeps to the
    rules of the interface. *)
Theorem client_refines {H D} `{!Kmalloc H, !KmallocLaws H, !Device D, !DeviceLaws D}
    (prog : client) (m : mnt H D) I :
  mnt_ok m I -> reliable (m_fs m) -> ok_client prog (abs m I) ->
  exists os m' I', run_client prog m = Some (os, m') /\ mnt_ok m' I' /\
    spec_run prog (abs m I) os (abs m' I').
Proof.
  intros Hok Hrel Hc. destruct (run_client_wp prog m I Hok Hrel Hc) as (os & m' & I' & ? & ? & _ & _ & ?).
  by exists os, m', I'.
Qed.


(** C13: What was synced is not lost, on a disk on which no write fails.  After a sync the machine may stop; when the disk
    is mounted again, with whatever memory there is, the volume has the names it had,
    and the contents of each file that has a name; files without a name, that were
    only kept for their open vnodes, are gone.  The mount fails only when memory runs
    out or the disk fails, and then gives back all memory. *)
Theorem sync_survives {H D} `{!Kmalloc H, !KmallocLaws H, !Device D, !DeviceLaws D}
    (m : mnt H D) I (h : H) :
  mnt_ok m I -> heap_ok h ->
  exists m1 r om d' h', sfs_sync m = Some (0, m1) /\ abs m1 I = abs m I /\
    sfs_domount (fs_device (m_fs m1)) h = Some (r, om, d', h') /\
    match om with
    | Some m2 => exists I2, r = 0 /\ mnt_ok m2 I2 /\ a_names (abs m2 I2) = a_names (abs m I) /\
        forall ino c, a_files (abs m2 I2) !! ino = Some c <->
          named (abs m I) ino /\ a_files (abs m I) !! ino = Some c
    | None => (r = ENOMEM \/ r = EIO /\ ~ reliable (m_fs m1)) /\ blocks h' = blocks h
    end.
Proof.
  intros Hok Hh. destruct (sfs_sync_wp m I Hok) as (m1 & E1 & Hok1 & _ & _ & Hv & En & Hsy).
  destruct (view_eq _ _ _ _ Hv) as [Ee Ef].
  assert (abs m1 I = abs m I) as EA.
  { unfold abs, mnames. rewrite Ee, En, Ef, <- map_fmap_compose. f_equal. }
  destruct (sfs_domount_wp _ _ I h (synced_on_disk m1 I Hok1 Hsy) Hh) as (r & om & d' & h' & E2 & Hp).
  exists m1, r, om, d', h'. split; [done|]. split; [done|]. split; [done|]. rewrite <- EA.
  destruct om as [m2|].
  - exists (linked I). pose proof (disk_abs_mounted _ _ _ _ _ _ _ _ Hp) as ->.
    destruct Hp as (_ & -> & _ & _ & _ & Hok2 & _). split; [done|]. split; [done|]. split; [done|].
    intros ino c. by apply linked_files.
  - destruct Hp as (_ & Hr & _ & Hs). split; [done|]. by apply same_others_nil.
Qed.

(** Renaming within the root directory of a volume on a disk on which no write
    fails.  On success the new name leads to the file of the old one, which is gone; every
    other name, every file and every vnode is as it was.  When the call fails nothing
    has changed, and the code says why: a new name that is there already, be it the
    old one, is refused with EEXIST.  Only on a disk on which a read fails can the
    kernel panic. *)
Theorem rename_exact {H D} `{!Kmalloc H, !KmallocLaws H, !Device D, !DeviceLaws D}
    (m : mnt H D) I dp rv n1 n2 :
  mnt_ok m I -> is_root m dp rv -> is_str n1 -> is_str n2 ->
  Z.of_nat (length n2) + 1 < 2 ^ 32 -> refs_room m ->
  (exists r m' I', sfs_rename dp n1 dp n2 m = Some (r, m') /\ mnt_ok m' I' /\
     heap_step m m' /\ mfiles m' I' = mfiles m I /\
     (r = 0 /\ (exists ino, mnames m I !! n1 = Some ino /\ mnames m I !! n2 = None /\
        mnames m' I' = <[n2 := ino]> (delete n1 (mnames m I))) \/
      r <> 0 /\ mnames m' I' = mnames m I /\ rename_fails m I n1 n2 r m')) \/
  sfs_rename dp n1 dp n2 m = None /\ ~ reliable (m_fs m).
Proof.
  intros Hok Hroot Hn1 Hn2 Hl Hroom.
  destruct (sfs_rename_wp m I dp rv n1 n2 Hok Hroot Hn1 Hn2 Hl Hroom)
    as [(r & m' & I' & E & [Ho Hh _] & _ & Ef & Hc)|?]; [|by right].
  left. by exists r, m', I'.
Qed.

(** ** A program on the volume of SfsImage.v

    It creates a file b, writes one byte to it, and gives its vnodes back. *)

Definition img_prog (rp : Z) : client :=
  Do (Creat rp [98] true) (fun o =>
    match o with
    | Ptr 0 p =>
        Do (Write p (ku 1 0 UIO_WRITE) (kvm [33])) (fun _ =>
        Do (Decref p) (fun _ => Do (Decref rp) (fun _ => Done)))
    | _ => Do (Decref rp) (fun _ => Done)
    end).

Definition root_only (rp : Z) (A : absfs) : Prop := a_nodes A = {[rp := Anode SFS_ROOT_LOCATION 1 0]}.

Lemma decref_drops p ino V A o A' :
  a_nodes A = <[p := Anode ino 1 0]> V -> V !! p = None -> spec (Decref p) A o A' -> a_nodes A' = V.
Proof.
  intros En Hv (_ & n & Hn & Hc). rewrite En, lookup_insert_eq in Hn. injection Hn as <-.
  destruct Hc as [[? _]|(_ & Hc1 & Hc2)]; [simpl in *; lia|]. simpl in Hc1, Hc2.
  assert (A' = set_nodes (delete p (a_nodes A)) A \/
          A' = set_files (delete ino (a_files A)) (set_nodes (delete p (a_nodes A)) A)) as Hd.
  { destruct (decide (ino = SFS_ROOT_LOCATION)) as [E|Hne]; [left; apply Hc1; by left|].
    destruct (decide (ino ∈ map_img (SA := gset Z) (a_names A))) as [Hin|Hin].
    - left. apply Hc1. right. by apply elem_of_map_img in Hin.
    - right. apply Hc2. intros [?|[nm Hnm]]; [done|]. by apply Hin, elem_of_map_img; exists nm. }
  destruct Hd as [-> | ->]; simpl; rewrite En; by apply delete_insert_id.
Qed.

Lemma decref_root rp A : root_only rp A -> legal (Decref rp) A /\ room A /\
  forall o A', spec (Decref rp) A o A' -> a_nodes A' = ∅.
Proof.
  intros En. split; [|split].
  - exists (Anode SFS_ROOT_LOCATION 1 0). split; [|done]. by rewrite En, lookup_singleton_eq.
  - intros p n. rewrite En. intros [_ <-]%lookup_singleton_Some. done.
  - intros o A'. by apply (decref_drops rp SFS_ROOT_LOCATION).
Qed.

Lemma creat_new_node rp A o A' : root_only rp A -> spec (Creat rp [98] true) A o A' ->
  (exists p ino, o = Ptr 0 p /\ p <> rp /\ ino <> SFS_ROOT_LOCATION /\
     a_nodes A' = <[p := Anode ino 1 0]> (a_nodes A)) \/
  (exists r p, o = Ptr r p /\ r <> 0 /\ A' = A).
Proof.
  intros En Hs. simpl in Hs. unfold on_dir in Hs. rewrite En, lookup_singleton_eq in Hs.
  destruct Hs as (r & p & -> & [(_ & ? & _)|[(-> & _ & ino & _ & Hnh & Hg)|[-> Hr]]]); [done|..].
  - left. exists p, ino.
    assert (ino <> SFS_ROOT_LOCATION) as Hi.
    { intros ->. apply Hnh. exists rp, (Anode SFS_ROOT_LOCATION 1 0). by rewrite En, lookup_singleton_eq. }
    unfold give in Hg. simpl in Hg. rewrite En in Hg. destruct (decide (rp = p)) as [<-|Hne].
    + rewrite lookup_singleton_eq in Hg. destruct Hg as [Hg _]. by simpl in Hg.
    + rewrite lookup_singleton_ne in Hg by done. destruct Hg as [_ ->]. simpl. by rewrite En.
  - right. exists r, p. split; [done|]. split; [|done].
    destruct Hr as [(-> & _)|[(_ & [[-> _]|[[-> _]| -> ]])| -> ]]; done.
Qed.

Lemma b_str : is_str [98].
Proof. by repeat constructor. Qed.

(** The program keeps to the rules, and ends where [P] holds. *)
Definition ends (c : client) (A : absfs) (P : absfs -> Prop) : Prop :=
  ok_client c A /\ forall os A', spec_run c A os A' -> P A'.

Lemma ends_done A (P : absfs -> Prop) : P A -> ends Done A P.
Proof. intros HP. split; [done|]. intros os A' Hs. inversion Hs. by subst. Qed.

Lemma ends_do c k A P :
  legal c A -> room A -> (forall o A', spec c A o A' -> ends (k o) A' P) -> ends (Do c k) A P.
Proof.
  intros Hl Hr Hk. split.
  - split; [done|]. split; [done|]. intros o A' Hs. apply (Hk o A' Hs).
  - intros os A' Hs. inversion Hs; subst. by eapply Hk.
Qed.

Lemma ends_decref_root rp A :
  root_only rp A -> ends (Do (Decref rp) (fun _ => Done)) A (fun A => a_nodes A = ∅).
Proof.
  intros En. destruct (decref_root rp A En) as (Hl & Hr & Hd). apply ends_do; [done|done|].
  intros o A' Hs. apply ends_done. by eapply Hd.
Qed.

Lemma img_prog_ends rp A : root_only rp A -> ends (img_prog rp) A (fun A => a_nodes A = ∅).
Proof.
  intros En. destruct (decref_root rp A En) as (_ & Hroom & _).
  apply ends_do; [|done|].
  { split; [by rewrite En, lookup_singleton_eq|]. split; [apply b_str|done]. }
  intros o A1 [(p & ino & -> & Hp & Hi & En1)|(r & p & -> & Hr & ->)]%creat_new_node; [..|done].
  2:{ destruct r; [done|by apply ends_decref_root..]. }
  assert (a_nodes A !! p = None) as Hnp by (by rewrite En, lookup_singleton_ne).
  assert (forall A2, a_nodes A2 = a_nodes A1 -> room A2) as Hroom2.
  { intros A2 E2 q n. rewrite E2, En1. intros [[_ <-]|[_ Hq]]%lookup_insert_Some; [done|by eapply Hroom]. }
  assert (a_nodes A1 !! p = Some (Anode ino 1 0)) as Hp1 by (by rewrite En1, lookup_insert_eq).
  apply ends_do; [|by apply Hroom2|].
  { split; [by rewrite Hp1|]. split; [apply ku_ok; by vm_compute|done]. }
  intros o A2 Hs. assert (a_nodes A2 = a_nodes A1) as En2.
  { simpl in Hs. unfold at_file in Hs. rewrite Hp1 in Hs. simpl in Hs.
    rewrite (proj2 (Z.eqb_neq _ _) Hi) in Hs. by destruct Hs as (c & _ & r & bs & u' & c' & _ & -> & _). }
  apply ends_do; [|by apply Hroom2|].
  { exists (Anode ino 1 0). by rewrite En2, Hp1. }
  intros o3 A3 Hs3. apply ends_decref_root. unfold root_only. rewrite <- En.
  eapply (decref_drops p ino); [|done|done]. by rewrite En2.
Qed.

Definition img_heap : CountdownHeap.heap := CountdownHeap.fresh 64.

Lemma img_heap_ok : heap_ok img_heap.
Proof. apply CountdownHeap.fresh_ok. Qed.

Lemma img_mount : exists m d h rp m1,
  sfs_domount img_disk img_heap = Some (0, Some m, d, h) /\ sfs_getroot m = Some (rp, m1).
Proof.
  assert (match sfs_domount img_disk img_heap with
          | Some (0, Some m, _, _) => bool_decide (is_Some (sfs_getroot m))
          | _ => false
          end = true) as Hc by by vm_compute.
  destruct (sfs_domount img_disk img_heap) as [[[[[| |] [m|]] d] h]|]; try done.
  apply bool_decide_eq_true in Hc as [[rp m1] E]. by exists m, d, h, rp, m1.
Qed.

(** The image mounted, with its root directory in memory. *)
Definition img_abs (rp : Z) : absfs :=
  set_nodes {[rp := Anode SFS_ROOT_LOCATION 1 0]} (disk_abs img_fs img_inodes).

Lemma img_ready : exists rp (m : mnt CountdownHeap.heap (lhd_softc Sim.card)),
  mnt_ok m (linked img_inodes) /\ reliable (m_fs m) /\ abs m (linked img_inodes) = img_abs rp.
Proof.
  destruct img_mount as (m & d & h & rp & m1 & Em & Er).
  destruct (sfs_domount_wp img_disk img_fs img_inodes img_heap img_on_disk img_heap_ok)
    as (r & om & d' & h' & Em' & Hp).
  rewrite Em in Em'. injection Em' as <- <- <- <-. pose proof (disk_abs_mounted _ _ _ _ _ _ _ _ Hp) as EA.
  destruct Hp as (Hds & _ & _ & Ed & En & Hok & _).
  destruct (sfs_getroot_wp m _ rp m1 Hok En Er) as (Hst & _ & EA1). rewrite EA in EA1.
  exists rp, m1. split; [apply Hst|]. split; [|done].
  destruct (ms_hist _ _ _ Hst) as [Hr _]. apply Hr. unfold reliable. rewrite Ed.
  apply Hds, img_reliable.
Qed.

Lemma client_refines_witness : exists rp (m : mnt CountdownHeap.heap (lhd_softc Sim.card)) os m' I',
  run_client (img_prog rp) m = Some (os, m') /\ mnt_ok m' I' /\
  spec_run (img_prog rp) (img_abs rp) os (abs m' I').
Proof.
  destruct img_ready as (rp & m & Hok & Hrel & EA). exists rp, m. rewrite <- EA.
  apply (client_refines (img_prog rp) m (linked img_inodes) Hok Hrel).
  apply img_prog_ends. rewrite EA. reflexivity.
Defined.


Lemma sync_survives_witness : exists (m m1 : mnt CountdownHeap.heap (lhd_softc Sim.card)) r om d' h',
  sfs_sync m = Some (0, m1) /\
  sfs_domount (fs_device (m_fs m1)) img_heap = Some (r, om, d', h').
Proof.
  destruct img_ready as (rp & m & Hok & _ & _). exists m.
  destruct (sync_survives m (linked img_inodes) img_heap Hok img_heap_ok)
    as (m1 & r & om & d' & h' & E & _ & E' & _).
  by exists m1, r, om, d', h'.
Defined.

Lemma rename_exact_witness : exists rp (m : mnt CountdownHeap.heap (lhd_softc Sim.card)) r m',
  sfs_rename rp [97] rp [98] m = Some (r, m').
Proof.
  destruct img_ready as (rp & m & Hok & Hrel & EA). exists rp, m.
  assert (absnode <$> m_nodes m = {[rp := Anode SFS_ROOT_LOCATION 1 0]}) as En.
  { exact (f_equal a_nodes EA). }
  assert (is_Some (m_nodes m !! rp)) as [rv Hrv].
  { apply (fmap_is_Some absnode). rewrite <- lookup_fmap, En, lookup_singleton_eq. done. }
  assert (Anode SFS_ROOT_LOCATION 1 0 = absnode rv) as Erv.
  { apply (inj Some). rewrite <- (lookup_singleton_eq rp), <- En, lookup_fmap, Hrv. done. }
  destruct (rename_exact m (linked img_inodes) rp rv [97] [98] Hok)
    as [(r & m' & I' & E & _)|[_ ?]]; [by split; [|injection Erv]|by repeat constructor|by repeat constructor|done|..].
  - intros p sv Hp. assert (absnode <$> m_nodes m !! p = Some (absnode sv)) as E by (by rewrite Hp).
    rewrite <- lookup_fmap, En, lookup_singleton_Some in E. destruct E as [_ E]. by injection E as _ <- _.
  - by exists r, m'.
  - done.
Defined.
