(* ===== verification/Vfs.v ===== *)
(** * The VFS layer

    kern/fs/vfs: the table of named devices (vfslist.c), names of the form "device:path"
    (vfslookup.c), the current directory (vfscwd.c) and the operations on pathnames
    (vfspath.c).  File systems and devices are below the layer; the class [Vnodes] has
    the operations the layer calls on them.  A vnode, a file system or a device is its
    address, and 0 is NULL.

    A string is its bytes before the terminating zero, and [streq] is [!strcmp].
    [getdevice] cuts a path in its buffer; no caller looks at the buffer again. *)

From stdpp Require Import base option list gmap numbers.
From S2P Require Import Prelude Kmem Array Uio SfsMount.

Definition NAME_MAX : Z := 255.
Definition O_WRONLY : Z := 1.
Definition O_RDWR : Z := 2.
Definition O_CREAT : Z := 4.
Definition O_EXCL : Z := 8.
Definition O_TRUNC : Z := 16.
Definition S_IFMT : Z := 28672.
Definition S_ISDIR (mode : Z) : bool := Z.land mode S_IFMT =? S_IFDIR.

Definition COLON : Z := 58.
Definition SLASH : Z := 47.
Definition raw_suffix : list Z := [114; 97; 119].

Definition streq (a b : list Z) : bool := bool_decide (a = b).

(** ** Below the layer

    An operation returns its error code and what it passes back by reference; [None]
    is a panic.  The heap is shared with the file systems. *)
Class Vnodes (H S : Type) := {
  heap_of : S -> H;
  with_heap : H -> S -> S;
  vop_incref : Z -> S -> option S;
  vop_decref : Z -> S -> option S;
  vop_incopen : Z -> S -> option S;
  vop_decopen : Z -> S -> option S;
  vop_open : Z -> Z -> S -> option (Z * S);
  vop_truncate : Z -> Z -> S -> option (Z * S);
  vop_gettype : Z -> S -> option (Z * Z);
  vop_lookup : Z -> list Z -> S -> option (Z * Z * S);
  vop_lookparent : Z -> list Z -> Z -> S -> option (Z * Z * list Z * S);
  vop_creat : Z -> list Z -> bool -> S -> option (Z * Z * S);
  vop_remove : Z -> list Z -> S -> option (Z * S);
  vop_mkdir : Z -> list Z -> S -> option (Z * S);
  vop_rmdir : Z -> list Z -> S -> option (Z * S);
  vop_symlink : Z -> list Z -> list Z -> S -> option (Z * S);
  vop_link : Z -> list Z -> Z -> S -> option (Z * S);
  vop_rename : Z -> list Z -> Z -> list Z -> S -> option (Z * S);
  vop_readlink : Z -> uio -> vm -> S -> option (Z * uio * vm * S);
  vop_namefile : Z -> uio -> vm -> S -> option (Z * uio * vm * S);
  vn_fs : Z -> S -> option Z;
  fsop_sync : Z -> S -> option (Z * S);
  fsop_getvolname : Z -> S -> option (option (list Z));
  fsop_getroot : Z -> S -> option (Z * S);
  fsop_unmount : Z -> S -> option (Z * S);
  dev_create_vnode : Z -> S -> option (Z * S);
  kfree_vnode : Z -> S -> option S;
}.

(** ** State *)

(** A string in the heap is its address and its bytes. *)
Record knowndev := Knowndev {
  kd_name : Z * list Z;
  kd_rawname : option (Z * list Z);
  kd_device : Z;
  kd_vnode : Z;
  kd_fs : Z;
}.
Definition sizeof_knowndev : Z := 20.

(** A lock says whether the running thread holds it. *)
Record vfs (S : Type) := Vfs {
  knowndevs : array Z;
  v_kds : gmap Z knowndev;             (* the [struct knowndev]s by address *)
  knowndevs_lock : bool;
  bootfs_vnode : Z;
  bootfs_lock : bool;
  t_cwd : Z;                           (* of the running thread *)
  below : S;
}.
Arguments Vfs {S}.
Arguments knowndevs {S}.
Arguments v_kds {S}.
Arguments knowndevs_lock {S}.
Arguments bootfs_vnode {S}.
Arguments bootfs_lock {S}.
Arguments t_cwd {S}.
Arguments below {S}.

Section vfs.
Context {H S : Type} `{!Kmalloc H, !Vnodes H S}.
Implicit Types v : vfs S.

Definition set_below (s : S) v : vfs S :=
  Vfs (knowndevs v) (v_kds v) (knowndevs_lock v) (bootfs_vnode v) (bootfs_lock v) (t_cwd v) s.
Definition set_cwd (p : Z) v : vfs S :=
  Vfs (knowndevs v) (v_kds v) (knowndevs_lock v) (bootfs_vnode v) (bootfs_lock v) p (below v).
Definition set_bootfs (p : Z) v : vfs S :=
  Vfs (knowndevs v) (v_kds v) (knowndevs_lock v) p (bootfs_lock v) (t_cwd v) (below v).
Definition set_kd (p : Z) (kd : knowndev) v : vfs S :=
  Vfs (knowndevs v) (<[p := kd]> (v_kds v)) (knowndevs_lock v) (bootfs_vnode v) (bootfs_lock v)
    (t_cwd v) (below v).
Definition set_devs (a : array Z) v : vfs S :=
  Vfs a (v_kds v) (knowndevs_lock v) (bootfs_vnode v) (bootfs_lock v) (t_cwd v) (below v).
Definition set_dlock (b : bool) v : vfs S :=
  Vfs (knowndevs v) (v_kds v) b (bootfs_vnode v) (bootfs_lock v) (t_cwd v) (below v).
Definition set_block (b : bool) v : vfs S :=
  Vfs (knowndevs v) (v_kds v) (knowndevs_lock v) (bootfs_vnode v) b (t_cwd v) (below v).
Definition set_kd_fs (fs : Z) (kd : knowndev) : knowndev :=
  Knowndev (kd_name kd) (kd_rawname kd) (kd_device kd) (kd_vnode kd) fs.

(** Operations below the layer, and on the heap. *)
Definition on_below {A} (f : S -> option (A * S)) v : option (A * vfs S) :=
  '(x, s) ← f (below v); Some (x, set_below s v).
Definition do_below (f : S -> option S) v : option (vfs S) :=
  s ← f (below v); Some (set_below s v).
Definition on_heap {A} (f : H -> option (A * H)) v : option (A * vfs S) :=
  '(x, h) ← f (heap_of (below v)); Some (x, set_below (with_heap h (below v)) v).
Definition do_heap (f : H -> option H) v : option (vfs S) :=
  h ← f (heap_of (below v)); Some (set_below (with_heap h (below v)) v).

Definition lock_knowndevs v : option (vfs S) := ASSERT negb (knowndevs_lock v) ;; Some (set_dlock true v).
Definition unlock_knowndevs v : option (vfs S) := ASSERT knowndevs_lock v ;; Some (set_dlock false v).
Definition lock_bootfs v : option (vfs S) := ASSERT negb (bootfs_lock v) ;; Some (set_block true v).
Definition unlock_bootfs v : option (vfs S) := ASSERT bootfs_lock v ;; Some (set_block false v).

(** The device with index [i]: its address and what is there. *)
Definition getdev (i : Z) v : option (Z * knowndev) :=
  p ← array_getguy (knowndevs v) i;
  p ← p;
  kd ← v_kds v !! p;
  Some (p, kd).

Definition numdevs v : nat := Z.to_nat (array_getnum (knowndevs v)).

(** ** vfslist.c *)

Fixpoint sync_loop (n : nat) (i : Z) v : option (vfs S) :=
  match n with
  | O => Some v
  | Datatypes.S n =>
      '(_, dev) ← getdev i v;
      v ← (if negb (kd_fs dev =? 0) then '(_, v) ← on_below (fsop_sync (kd_fs dev)) v; Some v
           else Some v);
      sync_loop n (i + 1) v
  end.

Definition vfs_sync v : option (Z * vfs S) :=
  v ← lock_knowndevs v;
  v ← sync_loop (numdevs v) 0 v;
  v ← unlock_knowndevs v;
  Some (0, v).

Definition has_rawname (kd : knowndev) : bool :=
  match kd_rawname kd with Some _ => true | None => false end.

(** The device itself. *)
Definition getroot_device (kd : knowndev) v : option (option (Z * Z) * vfs S) :=
  ASSERT negb (kd_device kd =? 0) ;;
  v ← do_below (vop_incref (kd_vnode kd)) v;
  Some (Some (0, kd_vnode kd), v).

(** The part of the loop's body after the tests of the file system. *)
Definition getroot_names (devname : list Z) (kd : knowndev) v : option (option (Z * Z) * vfs S) :=
  if streq (kd_name kd).2 devname then
    ASSERT kd_fs kd =? 0 ;;
    ASSERT negb (has_rawname kd) ;;
    getroot_device kd v
  else
    match kd_rawname kd with
    | Some n => if streq n.2 devname then getroot_device kd v else Some (None, v)
    | None => Some (None, v)
    end.

(** The loop's body: the error and the vnode, or [None] to go on to the next device. *)
Definition getroot_dev (devname : list Z) (kd : knowndev) v : option (option (Z * Z) * vfs S) :=
  if negb (kd_fs kd =? 0) then
    volname ← fsop_getvolname (kd_fs kd) (below v);
    if streq (kd_name kd).2 devname ||
       match volname with Some n => streq n devname | None => false end
    then
      '(root, v) ← on_below (fsop_getroot (kd_fs kd)) v;
      Some (Some (0, root), v)
    else getroot_names devname kd v
  else
    if has_rawname kd && streq (kd_name kd).2 devname then Some (Some (ENXIO, 0), v)
    else getroot_names devname kd v.

Fixpoint getroot_loop (n : nat) (i : Z) (devname : list Z) v : option (Z * Z * vfs S) :=
  match n with
  | O => Some (ENODEV, 0, v)
  | Datatypes.S n =>
      '(_, kd) ← getdev i v;
      '(r, v) ← getroot_dev devname kd v;
      match r with
      | Some (err, p) => Some (err, p, v)
      | None => getroot_loop n (i + 1) devname v
      end
  end.

(** The error and [*result]. *)
Definition vfs_getroot (devname : list Z) v : option (Z * Z * vfs S) :=
  v ← lock_knowndevs v;
  '(err, p, v) ← getroot_loop (numdevs v) 0 devname v;
  v ← unlock_knowndevs v;
  Some (err, p, v).

Fixpoint getdevname_loop (n : nat) (i : Z) (fs : Z) v : option (option (list Z)) :=
  match n with
  | O => Some None
  | Datatypes.S n =>
      '(_, kd) ← getdev i v;
      if kd_fs kd =? fs then Some (Some (kd_name kd).2) else getdevname_loop n (i + 1) fs v
  end.

Definition vfs_getdevname (fs : Z) v : option (option (list Z) * vfs S) :=
  ASSERT negb (fs =? 0) ;;
  v ← lock_knowndevs v;
  name ← getdevname_loop (numdevs v) 0 fs v;
  v ← unlock_knowndevs v;
  Some (name, v).

Definition mkrawname (name : list Z) (h : H) : option (option (Z * list Z) * H) :=
  '(s, h) ← kmalloc (u32 (Z.of_nat (length name) + 3 + 1)) h;
  if s =? 0 then Some (None, h) else Some (Some (s, name ++ raw_suffix), h).

Definition samestring (a b : option (list Z)) : bool :=
  match a, b with Some a, Some b => streq a b | _, _ => false end.

Definition samestring3 (a b c d : option (list Z)) : bool :=
  samestring a b || samestring a c || samestring a d.

Fixpoint badnames_loop (n : nat) (i : Z) (n1 n2 n3 : option (list Z)) v : option bool :=
  match n with
  | O => Some false
  | Datatypes.S n =>
      '(_, kd) ← getdev i v;
      bad ← (if negb (kd_fs kd =? 0) then
               volname ← fsop_getvolname (kd_fs kd) (below v);
               Some (samestring3 volname n1 n2 n3)
             else Some false);
      if (bad : bool) then Some true
      else if samestring3 (snd <$> kd_rawname kd) n1 n2 n3 || samestring3 (Some (kd_name kd).2) n1 n2 n3
      then Some true
      else badnames_loop n (i + 1) n1 n2 n3 v
  end.

Definition badnames (n1 n2 n3 : option (list Z)) v : option bool :=
  ASSERT knowndevs_lock v ;;
  badnames_loop (numdevs v) 0 n1 n2 n3 v.

(** The code at the label puke: each of the three is freed unless it is NULL. *)
Definition doadd_puke (name rawname : option (Z * list Z)) (vnode : Z) v : option (Z * vfs S) :=
  v ← match name with Some (p, _) => do_heap (kfree p) v | None => Some v end;
  v ← match rawname with Some (p, _) => do_heap (kfree p) v | None => Some v end;
  v ← (if negb (vnode =? 0) then do_below (kfree_vnode vnode) v else Some v);
  Some (ENOMEM, v).

(** The part of [vfs_doadd] with the lock. *)
Definition doadd_enter (kd : Z) (name : list Z) (rawname : option (list Z)) (fs : Z) v :
    option (Z * vfs S) :=
  volname ← (if negb (fs =? 0) then fsop_getvolname fs (below v) else Some None);
  v ← lock_knowndevs v;
  bad ← badnames (Some name) rawname volname v;
  '(err, v) ← (if negb bad then
                 '(err, a, h) ← array_add (knowndevs v) kd (heap_of (below v));
                 Some (err, set_devs a (set_below (with_heap h (below v)) v))
               else Some (EEXIST, v));
  v ← unlock_knowndevs v;
  Some (err, v).

Definition vfs_doadd (dname : list Z) (mountable : bool) (dev fs : Z) v : option (Z * vfs S) :=
  '(name, v) ← on_heap (kstrdup dname) v;
  match name with
  | None => doadd_puke None None 0 v
  | Some (pn, nm) =>
      '(rawname, v) ← (if mountable then on_heap (mkrawname nm) v else Some (None, v));
      if mountable && match rawname with None => true | Some _ => false end then
        doadd_puke name None 0 v
      else
        '(vnode, v) ← on_below (dev_create_vnode dev) v;
        if vnode =? 0 then doadd_puke name rawname 0 v
        else
          '(kd, v) ← on_heap (kmalloc sizeof_knowndev) v;
          if kd =? 0 then doadd_puke name rawname vnode v
          else
            doadd_enter kd nm (snd <$> rawname) fs
              (set_kd kd (Knowndev (pn, nm) rawname dev vnode fs) v)
  end.

Definition vfs_adddev (devname : list Z) (dev : Z) (mountable : bool) v : option (Z * vfs S) :=
  vfs_doadd devname mountable dev 0 v.

Definition vfs_addfs (devname : list Z) (fs : Z) v : option (Z * vfs S) :=
  vfs_doadd devname false 0 fs v.

(** The address and the contents of the device found. *)
Fixpoint findmount_loop (n : nat) (i : Z) (devname : list Z) v : option (option (Z * knowndev)) :=
  match n with
  | O => Some None
  | Datatypes.S n =>
      '(p, dev) ← getdev i v;
      if negb (has_rawname dev) then findmount_loop n (i + 1) devname v
      else if streq devname (kd_name dev).2 then Some (Some (p, dev))
      else findmount_loop n (i + 1) devname v
  end.

Definition findmount (devname : list Z) v : option (option (Z * knowndev)) :=
  ASSERT knowndevs_lock v ;;
  findmount_loop (numdevs v) 0 devname v.

(** [mountfunc] with its data: the error and the file system. *)
Definition vfs_mount (devname : list Z) (mountfunc : Z -> S -> option (Z * Z * S)) v :
    option (Z * vfs S) :=
  v ← lock_knowndevs v;
  found ← findmount devname v;
  '(result, v) ←
    match found with
    | None => Some (ENODEV, v)
    | Some (p, kd) =>
        if negb (kd_fs kd =? 0) then Some (EBUSY, v)
        else
          ASSERT has_rawname kd ;;
          ASSERT negb (kd_device kd =? 0) ;;
          '(result, fs, v) ← on_below (mountfunc (kd_device kd)) v;
          if negb (result =? 0) then Some (result, v)
          else
            ASSERT negb (fs =? 0) ;;
            let v := set_kd p (set_kd_fs fs kd) v in
            _ ← fsop_getvolname fs (below v);
            Some (0, v)
    end;
  v ← unlock_knowndevs v;
  Some (result, v).

Definition vfs_unmount (devname : list Z) v : option (Z * vfs S) :=
  v ← lock_knowndevs v;
  found ← findmount devname v;
  '(result, v) ←
    match found with
    | None => Some (ENODEV, v)
    | Some (p, kd) =>
        if kd_fs kd =? 0 then Some (EINVAL, v)
        else
          ASSERT has_rawname kd ;;
          ASSERT negb (kd_device kd =? 0) ;;
          '(result, v) ← on_below (fsop_sync (kd_fs kd)) v;
          if negb (result =? 0) then Some (result, v)
          else
            '(result, v) ← on_below (fsop_unmount (kd_fs kd)) v;
            if negb (result =? 0) then Some (result, v)
            else Some (0, set_kd p (set_kd_fs 0 kd) v)
    end;
  v ← unlock_knowndevs v;
  Some (result, v).

(** The body of the loop of [vfs_unmountall], for a device with a file system. *)
Definition unmountall_dev (p : Z) (dev : knowndev) v : option (vfs S) :=
  '(result, v) ← on_below (fsop_sync (kd_fs dev)) v;
  '(result, v) ← (if negb (result =? 0) then on_below (fsop_sync (kd_fs dev)) v else Some (0, v));
  if negb (result =? 0) then Some v
  else
    '(result, v) ← on_below (fsop_unmount (kd_fs dev)) v;
    if result =? EBUSY then Some v
    else if negb (result =? 0) then Some v
    else Some (set_kd p (set_kd_fs 0 dev) v).

Fixpoint unmountall_loop (n : nat) (i : Z) v : option (vfs S) :=
  match n with
  | O => Some v
  | Datatypes.S n =>
      '(p, dev) ← getdev i v;
      v ← (if negb (has_rawname dev) then Some v
           else if kd_fs dev =? 0 then Some v
           else unmountall_dev p dev v);
      unmountall_loop n (i + 1) v
  end.

Definition vfs_unmountall v : option (Z * vfs S) :=
  v ← lock_knowndevs v;
  v ← unmountall_loop (numdevs v) 0 v;
  v ← unlock_knowndevs v;
  Some (0, v).

(** ** vfscwd.c, the part without names *)

(** The error and [*ret]. *)
Definition vfs_getcurdir v : option (Z * Z * vfs S) :=
  if negb (t_cwd v =? 0) then
    v ← do_below (vop_incref (t_cwd v)) v;
    Some (0, t_cwd v, v)
  else Some (ENOENT, 0, v).

Definition vfs_setcurdir (dir : Z) v : option (Z * vfs S) :=
  '(result, vtype) ← vop_gettype dir (below v);
  if negb (result =? 0) then Some (result, v)
  else if negb (S_ISDIR vtype) then Some (ENOTDIR, v)
  else
    let old := t_cwd v in
    let v := set_cwd dir v in
    v ← (if negb (old =? 0) then do_below (vop_decref old) v else Some v);
    Some (0, v).

Definition vfs_clearcurdir v : option (Z * vfs S) :=
  let old := t_cwd v in
  let v := set_cwd 0 v in
  v ← (if negb (old =? 0) then do_below (vop_decref old) v else Some v);
  Some (0, v).

(** ** vfslookup.c *)

(** The first loop of [getdevice]: [slash] and [colon]. *)
Fixpoint getdevice_scan (i : Z) (path : list Z) : Z * Z :=
  match path with
  | [] => (-1, -1)
  | c :: path =>
      if c =? COLON then (-1, i)
      else if c =? SLASH then (i, -1)
      else getdevice_scan (i + 1) path
  end.

(** Skipping the slashes at the start of a string. *)
Fixpoint skip_slashes (path : list Z) : list Z :=
  match path with
  | c :: rest => if c =? SLASH then skip_slashes rest else path
  | [] => []
  end.

(** The error, [*subpath] and [*startvn]. *)
Definition getdevice (path : list Z) v : option (Z * list Z * Z * vfs S) :=
  let '(slash, colon) := getdevice_scan 0 path in
  if (colon <? 0) && negb (slash =? 0) then
    '(result, vn, v) ← vfs_getcurdir v;
    Some (result, path, vn, v)
  else if 0 <? colon then
    let name := take (Z.to_nat colon) path in
    let subpath := skip_slashes (drop (Z.to_nat colon + 1) path) in
    '(result, vn, v) ← vfs_getroot name v;
    Some (result, subpath, vn, v)
  else
    ASSERT (colon =? 0) || (slash =? 0) ;;
    c ← path !! 0%nat;
    let subpath := skip_slashes (drop 1 path) in
    if c =? SLASH then
      v ← lock_bootfs v;
      if bootfs_vnode v =? 0 then v ← unlock_bootfs v; Some (ENOENT, path, 0, v)
      else
        v ← do_below (vop_incref (bootfs_vnode v)) v;
        let startvn := bootfs_vnode v in
        v ← unlock_bootfs v;
        Some (0, subpath, startvn, v)
    else
      ASSERT c =? COLON ;;
      '(result, vn, v) ← vfs_getcurdir v;
      if negb (result =? 0) then Some (result, path, 0, v)
      else
        fs ← vn_fs vn (below v);
        ASSERT negb (fs =? 0) ;;
        '(startvn, v) ← on_below (fsop_getroot fs) v;
        v ← do_below (vop_decref vn) v;
        Some (0, subpath, startvn, v).

(** The error, [*retval] and the string in [buf]. *)
Definition vfs_lookparent (path : list Z) (buflen : Z) v : option (Z * Z * list Z * vfs S) :=
  '(result, path, startvn, v) ← getdevice path v;
  if negb (result =? 0) then Some (result, 0, [], v)
  else
    '(result, p, name, v) ←
      (if Z.of_nat (length path) =? 0 then Some (EINVAL, 0, [], v)
       else on_below (vop_lookparent startvn path buflen) v);
    v ← do_below (vop_decref startvn) v;
    Some (result, p, name, v).

Definition vfs_lookup (path : list Z) v : option (Z * Z * vfs S) :=
  '(result, path, startvn, v) ← getdevice path v;
  if negb (result =? 0) then Some (result, 0, v)
  else if Z.of_nat (length path) =? 0 then Some (0, startvn, v)
  else
    '(result, p, v) ← on_below (vop_lookup startvn path) v;
    v ← do_below (vop_decref startvn) v;
    Some (result, p, v).

(** ** vfscwd.c, the part with names *)

Definition vfs_chdir (path : list Z) v : option (Z * vfs S) :=
  '(result, vn, v) ← vfs_lookup path v;
  if negb (result =? 0) then Some (result, v)
  else
    '(result, v) ← vfs_setcurdir vn v;
    v ← (if negb (result =? 0) then do_below (vop_decref vn) v else Some v);
    Some (result, v).

(** The error and the uio, with the memory it points to. *)
Definition vfs_getcwd (u : uio) (w : vm) v : option (Z * uio * vm * vfs S) :=
  ASSERT bool_decide (uio_rw u = UIO_READ) ;;
  '(result, cwd, v) ← vfs_getcurdir v;
  if negb (result =? 0) then Some (result, u, w, v)
  else
    fs ← vn_fs cwd (below v);
    ASSERT negb (fs =? 0) ;;
    name ← fsop_getvolname fs (below v);
    '(name, v) ← match name with Some _ => Some (name, v) | None => vfs_getdevname fs v end;
    name ← name;
    '(result, _, u, w) ← uiomove name (u32 (Z.of_nat (length name))) u w;
    '(result, u, w, v) ←
      (if negb (result =? 0) then Some (result, u, w, v)
       else
         '(result, _, u, w) ← uiomove [COLON] 1 u w;
         if negb (result =? 0) then Some (result, u, w, v)
         else on_below (vop_namefile cwd u w) v);
    v ← do_below (vop_decref cwd) v;
    Some (result, u, w, v).

(** ** The boot file system *)

Definition change_bootfs (newguy : Z) v : option (vfs S) :=
  v ← lock_bootfs v;
  let oldguy := bootfs_vnode v in
  let v := set_bootfs newguy v in
  v ← unlock_bootfs v;
  if negb (oldguy =? 0) then do_below (vop_decref oldguy) v else Some v.

(** The suffix of [s] at its first [c], which is [strchr]'s result. *)
Fixpoint strchr_at (s : list Z) (c : Z) : option (list Z) :=
  match s with
  | [] => None
  | d :: rest => if d =? c then Some s else strchr_at rest c
  end.

(** The buffer [tmp] holds at most 254 bytes of the name after [snprintf]. *)
Definition vfs_setbootfs (fsname : list Z) v : option (Z * vfs S) :=
  let tmp := take (Z.to_nat (NAME_MAX + 1 - 1 - 1)) fsname in
  let s := strchr_at tmp COLON in
  if match s with Some s => 0 <? Z.of_nat (length s) | None => false end then Some (EINVAL, v)
  else
    let tmp := match s with Some _ => tmp | None => tmp ++ [COLON] end in
    '(result, v) ← vfs_chdir tmp v;
    if negb (result =? 0) then Some (result, v)
    else
      '(result, newguy, v) ← vfs_getcurdir v;
      if negb (result =? 0) then Some (result, v)
      else
        v ← change_bootfs newguy v;
        Some (0, v).

Definition vfs_clearbootfs v : option (vfs S) := change_bootfs 0 v.

(** ** vfspath.c *)

(** The error and [*ret]. *)
Definition vfs_open (path : list Z) (openflags : Z) v : option (Z * Z * vfs S) :=
  let how := Z.land openflags O_ACCMODE in
  let canwrite := negb (how =? O_RDONLY) in
  if negb ((how =? O_RDONLY) || (how =? O_WRONLY) || (how =? O_RDWR)) then Some (EINVAL, 0, v)
  else
    '(result, vn, v) ←
      (if negb (Z.land openflags O_CREAT =? 0) then
         let excl := negb (Z.land openflags O_EXCL =? 0) in
         '(result, dir, name, v) ← vfs_lookparent path (NAME_MAX + 1) v;
         if negb (result =? 0) then Some (result, 0, v)
         else
           '(result, vn, v) ← on_below (vop_creat dir name excl) v;
           v ← do_below (vop_decref dir) v;
           Some (result, vn, v)
       else vfs_lookup path v);
    if negb (result =? 0) then Some (result, 0, v)
    else
      ASSERT negb (vn =? 0) ;;
      '(result, v) ← on_below (vop_open vn openflags) v;
      if negb (result =? 0) then
        v ← do_below (vop_decref vn) v;
        Some (result, 0, v)
      else
        v ← do_below (vop_incopen vn) v;
        '(result, v) ←
          (if negb (Z.land openflags O_TRUNC =? 0) then
             if negb canwrite then Some (EINVAL, v)
             else on_below (vop_truncate vn 0) v
           else Some (0, v));
        if negb (result =? 0) then
          v ← do_below (vop_decopen vn) v;
          v ← do_below (vop_decref vn) v;
          Some (result, 0, v)
        else Some (0, vn, v).

Definition vfs_close (vn : Z) v : option (vfs S) :=
  v ← do_below (vop_decopen vn) v;
  do_below (vop_decref vn) v.

Definition vfs_remove (path : list Z) v : option (Z * vfs S) :=
  '(result, dir, name, v) ← vfs_lookparent path (NAME_MAX + 1) v;
  if negb (result =? 0) then Some (result, v)
  else
    '(result, v) ← on_below (vop_remove dir name) v;
    v ← do_below (vop_decref dir) v;
    Some (result, v).

Definition vfs_rename (oldpath newpath : list Z) v : option (Z * vfs S) :=
  '(result, olddir, oldname, v) ← vfs_lookparent oldpath (NAME_MAX + 1) v;
  if negb (result =? 0) then Some (result, v)
  else
    '(result, newdir, newname, v) ← vfs_lookparent newpath (NAME_MAX + 1) v;
    if negb (result =? 0) then
      v ← do_below (vop_decref olddir) v;
      Some (result, v)
    else
      fs1 ← vn_fs olddir (below v);
      fs2 ← vn_fs newdir (below v);
      if (fs1 =? 0) || (fs2 =? 0) || negb (fs1 =? fs2) then
        v ← do_below (vop_decref newdir) v;
        v ← do_below (vop_decref olddir) v;
        Some (EXDEV, v)
      else
        '(result, v) ← on_below (vop_rename olddir oldname newdir newname) v;
        v ← do_below (vop_decref newdir) v;
        v ← do_below (vop_decref olddir) v;
        Some (result, v).

Definition vfs_link (oldpath newpath : list Z) v : option (Z * vfs S) :=
  '(result, oldfile, v) ← vfs_lookup oldpath v;
  if negb (result =? 0) then Some (result, v)
  else
    '(result, newdir, newname, v) ← vfs_lookparent newpath (NAME_MAX + 1) v;
    if negb (result =? 0) then
      v ← do_below (vop_decref oldfile) v;
      Some (result, v)
    else
      fs1 ← vn_fs oldfile (below v);
      fs2 ← vn_fs newdir (below v);
      if (fs1 =? 0) || (fs2 =? 0) || negb (fs1 =? fs2) then
        v ← do_below (vop_decref newdir) v;
        v ← do_below (vop_decref oldfile) v;
        Some (EXDEV, v)
      else
        '(result, v) ← on_below (vop_link newdir newname oldfile) v;
        v ← do_below (vop_decref newdir) v;
        v ← do_below (vop_decref oldfile) v;
        Some (result, v).

Definition vfs_symlink (contents path : list Z) v : option (Z * vfs S) :=
  '(result, newdir, newname, v) ← vfs_lookparent path (NAME_MAX + 1) v;
  if negb (result =? 0) then Some (result, v)
  else
    '(result, v) ← on_below (vop_symlink newdir newname contents) v;
    v ← do_below (vop_decref newdir) v;
    Some (result, v).

Definition vfs_readlink (path : list Z) (u : uio) (w : vm) v : option (Z * uio * vm * vfs S) :=
  '(result, vn, v) ← vfs_lookup path v;
  if negb (result =? 0) then Some (result, u, w, v)
  else
    '(result, u, w, v) ← on_below (vop_readlink vn u w) v;
    v ← do_below (vop_decref vn) v;
    Some (result, u, w, v).

Definition vfs_mkdir (path : list Z) v : option (Z * vfs S) :=
  '(result, parent, name, v) ← vfs_lookparent path (NAME_MAX + 1) v;
  if negb (result =? 0) then Some (result, v)
  else
    '(result, v) ← on_below (vop_mkdir parent name) v;
    v ← do_below (vop_decref parent) v;
    Some (result, v).

Definition vfs_rmdir (path : list Z) v : option (Z * vfs S) :=
  '(result, parent, name, v) ← vfs_lookparent path (NAME_MAX + 1) v;
  if negb (result =? 0) then Some (result, v)
  else
    '(result, v) ← on_below (vop_rmdir parent name) v;
    v ← do_below (vop_decref parent) v;
    Some (result, v).
End vfs.
