(* ===== verification/VfsInv.v ===== *)
(** * What the VFS layer relies on and keeps

    [VnodesLaws] is what the layer is promised by what is below it: how each operation
    changes the counts of the vnodes, and that it keeps to its own memory.  [inv] is
    the invariant of the layer: every reference counted in a vnode has its owner. *)

From stdpp Require Import base option list gmap numbers.
From S2P Require Import Prelude Kmem Array Cstring Uio SfsMount Vfs.

(** ** Results that may be a panic *)

(** A call gives a result with [Q], or panics for the reason [R]. *)
Definition wp {A} (R : Prop) (x : option A) (Q : A -> Prop) : Prop :=
  match x with Some a => Q a | None => R end.

Lemma wp_bind {A B} R (x : option A) (f : A -> option B) Q :
  wp R x (fun a => wp R (f a) Q) -> wp R (x ≫= f) Q.
Proof. by destruct x. Qed.

Lemma wp_mono {A} (R R' : Prop) (x : option A) (Q Q' : A -> Prop) :
  wp R x Q -> (R -> R') -> (forall a, Q a -> Q' a) -> wp R' x Q'.
Proof. destruct x; simpl; auto. Qed.

Lemma wp_some {A} R (x : option A) (Q : A -> Prop) :
  (exists a, x = Some a /\ Q a) -> wp R x Q.
Proof. by intros (a & -> & HQ). Qed.

Lemma wp_eqn {A} R (x : option A) (Q : A -> Prop) : wp R x Q -> wp R x (fun y => Q y /\ x = Some y).
Proof. by destruct x. Qed.

Lemma wp_assert {A} R (b : bool) (k : option A) Q : b = true -> wp R k Q -> wp R (ASSERT b ;; k) Q.
Proof. by intros ->. Qed.

(** ** Counting *)

Definition none (q : Z) : Z := 0.
Definition one (p q : Z) : Z := if q =? p then 1 else 0.
Definition plus (f g : Z -> Z) (q : Z) : Z := f q + g q.

Lemma one_eq p : one p p = 1.
Proof. unfold one. by rewrite Z.eqb_refl. Qed.
Lemma one_ne p q : q <> p -> one p q = 0.
Proof. unfold one. intros Hq. by rewrite (proj2 (Z.eqb_neq _ _) Hq). Qed.
Lemma one_range p q : 0 <= one p q <= 1.
Proof. unfold one. destruct (_ =? _); lia. Qed.
Lemma one_pos p q : 0 < one p q -> q = p.
Proof. unfold one. destruct (_ =? _) eqn:E; boolify; lia. Qed.

(** The other memory is as it was; some may have been lost. *)
Definition kept_others {H} `{!Kmalloc H, !KmallocLaws H} (h : H) (ps : list Z) (h' : H) (ps' : list Z) : Prop :=
  forall q n, (q ∉ ps) -> blocks h !! q = Some n -> (q ∉ ps') /\ blocks h' !! q = Some n.

Section kept.
Context {H : Type} `{!Kmalloc H, !KmallocLaws H}.

Lemma same_others_kept (h : H) ps h' ps' : same_others h ps h' ps' -> kept_others h ps h' ps'.
Proof. intros Hs q n Hq Hb. by apply Hs. Qed.

Lemma kept_others_trans (h1 : H) ps1 h2 ps2 h3 ps3 :
  kept_others h1 ps1 h2 ps2 -> kept_others h2 ps2 h3 ps3 -> kept_others h1 ps1 h3 ps3.
Proof. intros K1 K2 q n Hq Hb. destruct (K1 q n Hq Hb). by apply K2. Qed.

Lemma owns_perm (h : H) ps ps' : ps ≡ₚ ps' -> owns h ps -> owns h ps'.
Proof. intros Hp [Hn Hl]. split; [by rewrite <- Hp|]. intros q Hq. apply Hl. by rewrite Hp. Qed.

Lemma owns_kept (h : H) ps h' ps' rest :
  kept_others h ps h' ps' -> owns h' ps' -> owns h (rest ++ ps) -> owns h' (rest ++ ps').
Proof.
  intros K [Hn Hl] [Hnd Hlv]. apply list.NoDup_app in Hnd as (Hr & Hd & _). split.
  - apply list.NoDup_app. split; [done|]. split; [|done]. intros q Hq.
    destruct (Hlv q) as [n Hb]; [set_solver|]. by apply (K q n (Hd q Hq)).
  - intros q [Hq|Hq]%elem_of_app; [|by apply Hl].
    destruct (Hlv q) as [n Hb]; [set_solver|]. exists n. by apply (K q n (Hd q Hq)).
Qed.
End kept.

(** ** The promises

    [refs] and [opens] are the counts of a vnode, 0 if there is none; [mounted] are the
    file systems, and [root_at fs p] says that [p] is the root of [fs], in memory;
    [idle] are the devices a file system can be mounted on, and [known] those a vnode
    can be made for. *)
Definition dir_at {H S} `{!Vnodes H S} (q : Z) (s : S) : Prop :=
  exists t, vop_gettype q s = Some (0, t) /\ S_ISDIR t = true.

Class VnodesView (S : Type) := {
  below_ok : S -> Prop;
  vn_blocks : S -> list Z;
  refs : S -> Z -> Z;
  opens : S -> Z -> Z;
  mounted : S -> Z -> Prop;
  root_at : Z -> Z -> S -> Prop;
  flushed : Z -> S -> Prop;
  idle : S -> Z -> Prop;
  fs_dev : S -> Z -> Z;
  known : S -> Z -> Prop;
}.

(** What a step leaves alone, except for the file system [f]. *)
Record same_but {H S} `{!Vnodes H S, !VnodesView S} (f : Z) (s s' : S) : Prop := {
  sb_vn : forall q, 0 < refs s q -> 0 < refs s' q ->
    vn_fs q s' = vn_fs q s /\ vop_gettype q s' = vop_gettype q s;
  sb_root : forall fs q, fs <> f -> 0 < refs s q -> 0 < refs s' q -> root_at fs q s -> root_at fs q s';
  sb_mounted : forall fs, fs <> f -> mounted s' fs <-> mounted s fs;
  sb_volname : forall fs, fs <> f -> mounted s fs -> fsop_getvolname fs s' = fsop_getvolname fs s;
  sb_fsdev : forall fs, fs <> f -> mounted s fs -> fs_dev s' fs = fs_dev s fs;
}.

(** A step of the operations on vnodes: [d] and [o] are the changes of the counts. *)
Record vsame {H S} `{!Vnodes H S, !VnodesView S} (s : S) (d o : Z -> Z) (s' : S) : Prop := {
  vs_ok : below_ok s';
  vs_refs : forall q, refs s' q = refs s q + d q;
  vs_opens : forall q, opens s' q = opens s q + o q;
  vs_same : same_but 0 s s';
  vs_idle : forall dev, idle s' dev <-> idle s dev;
  vs_known : forall dev, known s dev -> known s' dev;
}.

Definition vroom {S} `{!VnodesView S} (n : Z) (s : S) : Prop := forall q, refs s q < 2 ^ 31 - n.

Definition good_name (name : list Z) : Prop := is_str name /\ Z.of_nat (length name) <= NAME_MAX.

Definition long_name (name : list Z) : Prop := is_str name /\ Z.of_nat (length name) < 2 ^ 31.

Section laws.
Context {H S : Type} `{!Kmalloc H, !KmallocLaws H, !Vnodes H S, !VnodesView S}.

Definition vstep (s : S) (d o : Z -> Z) (s' : S) : Prop :=
  vsame s d o s' /\ kept_others (heap_of s) (vn_blocks s) (heap_of s') (vn_blocks s').

(** An operation that only returns an error code, or passes back a vnode of the same
    file system. *)
Definition plain (s : S) (x : option (Z * S)) : Prop :=
  exists r s', x = Some (r, s') /\ vstep s none none s'.

Definition gives_vnode (s : S) (dir r p : Z) (s' : S) : Prop :=
  r <> 0 /\ vstep s none none s' \/
  r = 0 /\ vstep s (one p) none s' /\ p <> 0 /\ vn_fs p s' = vn_fs dir s /\ (vn_fs dir s = Some 0 -> p = dir).
End laws.

Class VnodesLaws (H S : Type) `{!Kmalloc H, !KmallocLaws H, !Vnodes H S, !VnodesView S} := {
  (* the state *)
  vn_heap s : below_ok s -> heap_ok (heap_of s) /\ owns (heap_of s) (vn_blocks s);
  vn_counts s q : below_ok s -> 0 <= opens s q /\ 0 <= refs s q;
  vn_live s q : below_ok s -> 0 < refs s q ->
    q <> 0 /\ exists fs, vn_fs q s = Some fs /\ (fs <> 0 -> mounted s fs);
  vn_dir s q : below_ok s -> 0 < refs s q -> dir_at q s -> vn_fs q s <> Some 0;
  mounted_0 s : below_ok s -> ~ mounted s 0;
  root_fs s fs q : below_ok s -> root_at fs q s -> 0 < refs s q -> vn_fs q s = Some fs;
  new_heap s h : below_ok s -> heap_ok h -> owns h (vn_blocks s) ->
    vsame s none none (with_heap h s) /\ vn_blocks (with_heap h s) = vn_blocks s /\
    heap_of (with_heap h s) = h;
  (* the counts *)
  incref_law s q : below_ok s -> vroom 1 s -> 0 < refs s q ->
    exists s', vop_incref q s = Some s' /\ vstep s (one q) none s';
  decref_law s q : below_ok s -> opens s q < refs s q -> 1 < refs s q \/ vn_fs q s <> Some 0 ->
    exists s', vop_decref q s = Some s' /\ vstep s (fun r => - one q r) none s';
  incopen_law s q : below_ok s -> vroom 1 s -> opens s q < refs s q ->
    exists s', vop_incopen q s = Some s' /\ vstep s none (one q) s';
  decopen_law s q : below_ok s -> 0 < opens s q -> 0 < refs s q ->
    exists s', vop_decopen q s = Some s' /\ vstep s none (fun r => - one q r) s';
  (* vnodes *)
  open_law s q flags : below_ok s -> 0 < refs s q -> plain s (vop_open q flags s);
  truncate_law s q : below_ok s -> 0 < refs s q -> plain s (vop_truncate q 0 s);
  gettype_law s q : below_ok s -> 0 < refs s q -> is_Some (vop_gettype q s);
  lookup_law s dir path : below_ok s -> vroom 1 s -> 0 < refs s dir -> long_name path ->
    exists r p s', vop_lookup dir path s = Some (r, p, s') /\ gives_vnode s dir r p s';
  lookparent_law s dir path : below_ok s -> vroom 1 s -> 0 < refs s dir -> long_name path ->
    exists r p name s', vop_lookparent dir path (NAME_MAX + 1) s = Some (r, p, name, s') /\
      gives_vnode s dir r p s' /\ (r = 0 -> dir_at p s' /\ good_name name);
  creat_law s dir name excl : below_ok s -> vroom 1 s -> 0 < refs s dir -> good_name name ->
    exists r p s', vop_creat dir name excl s = Some (r, p, s') /\ gives_vnode s dir r p s';
  remove_law s dir name : below_ok s -> vroom 1 s -> 0 < refs s dir -> good_name name ->
    plain s (vop_remove dir name s);
  mkdir_law s dir name : below_ok s -> 0 < refs s dir -> plain s (vop_mkdir dir name s);
  rmdir_law s dir name : below_ok s -> 0 < refs s dir -> plain s (vop_rmdir dir name s);
  symlink_law s dir name c : below_ok s -> 0 < refs s dir -> plain s (vop_symlink dir name c s);
  link_law s dir name file fs : below_ok s -> 0 < refs s dir -> 0 < refs s file -> good_name name ->
    fs <> 0 -> vn_fs dir s = Some fs -> vn_fs file s = Some fs -> ~ dir_at file s ->
    plain s (vop_link dir name file s);
  rename_law s d1 n1 d2 n2 fs : below_ok s -> vroom 1 s -> 0 < refs s d1 -> 0 < refs s d2 ->
    good_name n1 -> good_name n2 -> dir_at d1 s -> dir_at d2 s ->
    fs <> 0 -> vn_fs d1 s = Some fs -> vn_fs d2 s = Some fs ->
    plain s (vop_rename d1 n1 d2 n2 s);
  readlink_law s q u w : below_ok s -> 0 < refs s q ->
    exists r u' w' s', vop_readlink q u w s = Some (r, u', w', s') /\ vstep s none none s';
  namefile_law s q u w : below_ok s -> 0 < refs s q -> dir_at q s ->
    exists r u' w' s', vop_namefile q u w s = Some (r, u', w', s') /\ vstep s none none s';
  (* file systems *)
  volname_law s fs : below_ok s -> mounted s fs ->
    exists n, fsop_getvolname fs s = Some n /\ (forall name, n = Some name -> long_name name);
  getroot_law s fs : below_ok s -> vroom 1 s -> mounted s fs ->
    wp (forall q, root_at fs q s -> refs s q <= 0) (fsop_getroot fs s) (fun '(p, s') =>
      vstep s (one p) none s' /\ vn_fs p s' = Some fs /\ p <> 0 /\ root_at fs p s');
  sync_law s fs : below_ok s -> mounted s fs ->
    exists r s', fsop_sync fs s = Some (r, s') /\ vstep s none none s' /\ (r = 0 -> flushed fs s');
  unmount_law s fs : below_ok s -> mounted s fs -> flushed fs s ->
    exists r s', fsop_unmount fs s = Some (r, s') /\
      (r <> 0 -> vstep s none none s') /\
      (r = 0 -> (forall q, 0 < refs s q -> vn_fs q s <> Some fs) /\
        below_ok s' /\ kept_others (heap_of s) (vn_blocks s) (heap_of s') (vn_blocks s') /\
        (forall q, refs s' q = refs s q) /\ (forall q, opens s' q = opens s q) /\
        same_but fs s s' /\ ~ mounted s' fs /\
        (forall dev, idle s' dev <-> idle s dev \/ dev = fs_dev s fs));
  create_law s dev : below_ok s -> known s dev ->
    wp True (dev_create_vnode dev s) (fun '(p, s') =>
      p = 0 /\ vstep s none none s' \/
      p <> 0 /\ refs s p = 0 /\ vstep s (one p) none s' /\ vn_fs p s' = Some 0);
  kfree_vnode_law s p : below_ok s -> refs s p = 1 -> opens s p = 0 -> vn_fs p s = Some 0 ->
    exists s', kfree_vnode p s = Some s' /\ vstep s (fun r => - one p r) none s';
}.

(** ** The invariant *)

Section inv.
Context {H S : Type} `{!Kmalloc H, !KmallocLaws H, !Vnodes H S, !VnodesView S, !VnodesLaws H S}.
Implicit Types v : vfs S.

(** The addresses of the devices in the table, and the devices. *)
Definition keys v : list Z := omap id (contents (knowndevs v)).
Definition devs v : list knowndev := omap (fun k => v_kds v !! k) (keys v).

Definition kd_blocks (k : Z) (kd : knowndev) : list Z :=
  k :: (kd_name kd).1 :: match kd_rawname kd with Some n => [n.1] | None => [] end.
Definition key_blocks v (k : Z) : list Z :=
  match v_kds v !! k with Some kd => kd_blocks k kd | None => [] end.
Definition vfs_blocks v : list Z := array_blocks (knowndevs v) ++ (keys v ≫= key_blocks v).

(** The references of the table to the vnode [q], and those of the layer. *)
Definition table_refs v (q : Z) : Z :=
  Z.of_nat (length (filter (fun p => p = q) (kd_vnode <$> devs v))).
Definition owners v (q : Z) : Z := table_refs v q + one (bootfs_vnode v) q + one (t_cwd v) q.

Definition has_fs v (fs : Z) : Prop := exists kd, kd ∈ devs v /\ kd_fs kd = fs.

(** What is so of a device in the table. *)
Record kd_ok (s : S) (kd : knowndev) : Prop := {
  ko_name : long_name (kd_name kd).2;
  ko_vnode : 0 < refs s (kd_vnode kd) /\ vn_fs (kd_vnode kd) s = Some 0;
  ko_fs : kd_fs kd <> 0 -> mounted s (kd_fs kd);
  ko_dev : kd_fs kd = 0 \/ has_rawname kd = true -> kd_device kd <> 0;
  ko_idle : kd_fs kd = 0 -> has_rawname kd = true -> idle s (kd_device kd);
  ko_on : kd_fs kd <> 0 -> has_rawname kd = true -> fs_dev s (kd_fs kd) = kd_device kd;
}.

(** Two devices do not share a file system, nor what it is mounted on. *)
Definition apart (k1 k2 : knowndev) : Prop :=
  (kd_fs k1 = kd_fs k2 -> kd_fs k1 = 0) /\
  (has_rawname k1 = true -> has_rawname k2 = true -> kd_device k1 <> kd_device k2).

Record table_ok v : Prop := {
  to_contents : contents (knowndevs v) = Some <$> keys v;
  to_nodup : NoDup (keys v);
  to_kds : forall k, k ∈ keys v -> is_Some (v_kds v !! k);
  to_array : array_wf (heap_of (below v)) (knowndevs v);
  to_owns : owns (heap_of (below v)) (vfs_blocks v ++ vn_blocks (below v));
  to_kd : forall kd, kd ∈ devs v -> kd_ok (below v) kd;
  to_apart : forall i j k1 k2, devs v !! i = Some k1 -> devs v !! j = Some k2 -> i <> j -> apart k1 k2;
}.

(** [E] are the references of the callers, [O] their opens; [L] are references whose
    owner is gone. *)
Record inv (L E O : Z -> Z) v : Prop := {
  in_ok : below_ok (below v);
  in_table : table_ok v;
  in_refs : forall q, q <> 0 -> refs (below v) q = owners v q + E q + L q;
  in_opens : forall q, opens (below v) q = O q;
  in_callers : forall q, 0 <= O q <= E q /\ 0 <= L q;
  in_dev : forall q, q <> 0 -> 0 < E q -> vn_fs q (below v) = Some 0 -> 0 < table_refs v q;
  in_dirs : forall q, q <> 0 -> q = bootfs_vnode v \/ q = t_cwd v -> vn_fs q (below v) <> Some 0;
  in_cwd : t_cwd v <> 0 -> dir_at (t_cwd v) (below v);
  in_fs : forall q fs, q <> 0 -> 0 < E q \/ q = bootfs_vnode v \/ q = t_cwd v ->
    vn_fs q (below v) = Some fs -> fs <> 0 -> has_fs v fs;
  in_null : E 0 = 0;
}.

Definition unlocked v : Prop := knowndevs_lock v = false /\ bootfs_lock v = false.

(** The table, the boot file system and the current directory are as they were. *)
Definition same_vfs v v' : Prop :=
  knowndevs v' = knowndevs v /\ v_kds v' = v_kds v /\ bootfs_vnode v' = bootfs_vnode v /\
  t_cwd v' = t_cwd v /\ knowndevs_lock v' = knowndevs_lock v /\ bootfs_lock v' = bootfs_lock v.

Definition nodes_kept (s s' : S) : Prop :=
  forall q, 0 < refs s q -> 0 < refs s' q ->
    (vn_fs q s' = vn_fs q s /\ vop_gettype q s' = vop_gettype q s) /\
    forall fs, fs <> 0 -> root_at fs q s -> root_at fs q s'.

(** A panic for want of the root of a file system of the table, which is asked for in
    the state [s], is for the reason [R]. *)
Definition root_or (R : Prop) v (s : S) : Prop :=
  forall fs, has_fs v fs -> fs <> 0 -> below_ok s -> vroom 1 s -> mounted s fs ->
    fsop_getroot fs s = None -> R.

(** A lookup asks for a root right away, or when it has taken the current directory. *)
Definition roots_or (R : Prop) v : Prop :=
  root_or R v (below v) /\ forall s, vop_incref (t_cwd v) (below v) = Some s -> root_or R v s.

(** From [v] to [v'] the references of the callers become [E'], their opens [O']. *)
Definition via (L : Z -> Z) v (E' O' : Z -> Z) v' : Prop :=
  inv L E' O' v' /\ same_vfs v v' /\ nodes_kept (below v) (below v').

Lemma same_refl v : same_vfs v v.
Proof. done. Qed.

Lemma same_trans v1 v2 v3 : same_vfs v1 v2 -> same_vfs v2 v3 -> same_vfs v1 v3.
Proof.
  intros (? & ? & ? & ? & ? & ?) (? & ? & ? & ? & ? & ?).
  split_and!; etransitivity; eassumption.
Qed.

Lemma same_unlocked v v' : same_vfs v v' -> unlocked v -> unlocked v'.
Proof. intros (_ & _ & _ & _ & E1 & E2) [? ?]. split; congruence. Qed.

Lemma same_below s v : same_vfs v (set_below s v).
Proof. done. Qed.

Lemma same_devs v v' : same_vfs v v' -> keys v' = keys v /\ devs v' = devs v.
Proof. intros (E1 & E2 & _). unfold devs, keys. by rewrite E1, E2. Qed.

Lemma same_table_refs v v' q : same_vfs v v' -> table_refs v' q = table_refs v q.
Proof. intros [_ Ed]%same_devs. unfold table_refs. by rewrite Ed. Qed.

Lemma same_owners v v' q : same_vfs v v' -> owners v' q = owners v q.
Proof.
  intros Hs. unfold owners. rewrite (same_table_refs v v') by done.
  by destruct Hs as (_ & _ & -> & -> & _).
Qed.

Lemma same_has_fs v v' fs : same_vfs v v' -> has_fs v' fs <-> has_fs v fs.
Proof. intros [_ Ed]%same_devs. unfold has_fs. by rewrite Ed. Qed.

Lemma table_refs_range v q : 0 <= table_refs v q.
Proof. unfold table_refs. lia. Qed.

Lemma owners_range v q : 0 <= owners v q.
Proof.
  unfold owners. pose proof (table_refs_range v q). pose proof (one_range (bootfs_vnode v) q).
  pose proof (one_range (t_cwd v) q). lia.
Qed.

Lemma table_refs_dev v kd : kd ∈ devs v -> 0 < table_refs v (kd_vnode kd).
Proof.
  intros Hk. unfold table_refs. destruct (filter _ _) as [|x l] eqn:Ef; [|simpl; lia].
  exfalso. eapply (not_elem_of_nil (kd_vnode kd)). rewrite <- Ef. apply list_elem_of_filter.
  split; [done|]. by apply list_elem_of_fmap_2.
Qed.

Lemma vinv_ext L E O E' O' v :
  inv L E O v -> (forall q, E' q = E q) -> (forall q, O' q = O q) -> inv L E' O' v.
Proof.
  intros [] HE HO. constructor; try done.
  - intros q Hq. rewrite HE. auto.
  - intros q. rewrite HO. auto.
  - intros q. rewrite HE, HO. auto.
  - intros q Hq. rewrite HE. auto.
  - intros q fs Hq. rewrite HE. eauto.
  - by rewrite HE.
Qed.

(** ** A step below *)

Lemma refs_0 s : below_ok s -> refs s 0 = 0.
Proof.
  intros Hok. destruct (vn_counts s 0 Hok). destruct (decide (0 < refs s 0)) as [Hp|]; [|lia].
  by destruct (vn_live s 0 Hok Hp).
Qed.

Lemma kd_ok_step s d o s' kd :
  vsame s d o s' -> kd_ok s kd -> 0 < refs s' (kd_vnode kd) -> kd_ok s' kd.
Proof.
  intros [_ _ _ Hsb Hi _] [Hn [Hr Hv] Hf Hd Hid Hon] Hr'. destruct (sb_vn _ _ _ Hsb _ Hr Hr') as [E1 _].
  constructor; [done|by rewrite E1| |done| |].
  - intros Hk. apply (sb_mounted _ _ _ Hsb); auto.
  - intros ? ?. apply Hi. auto.
  - intros Hk Hw. rewrite (sb_fsdev _ _ _ Hsb); auto.
Qed.

Lemma table_step s' v :
  table_ok v -> owns (heap_of s') (vfs_blocks v ++ vn_blocks s') ->
  below_ok s' -> (forall kd, kd ∈ devs v -> kd_ok s' kd) -> table_ok (set_below s' v).
Proof.
  intros [Tc Tn Tk Ta To Td Tp] Ho Hok Hkd. destruct (vn_heap s' Hok) as [Hh _].
  constructor; [done..| |exact Ho|done|done].
  destruct Ta as (_ & _ & ?). split; [done|]. split; [|done]. simpl.
  unfold vfs_blocks in Ho. rewrite <- app_assoc in Ho. by apply owns_app in Ho as [? _].
Qed.

(** The vnodes whose count grew are of the table, or of one of its file systems. *)
Definition well_gotten v (q : Z) (s' : S) : Prop :=
  (vn_fs q s' = Some 0 -> 0 < table_refs v q) /\
  (forall fs, vn_fs q s' = Some fs -> fs <> 0 -> has_fs v fs).

Lemma inv_change L E O v d o s' L' E' O' :
  inv L E O v -> vsame (below v) d o s' -> owns (heap_of s') (vfs_blocks v ++ vn_blocks s') ->
  (forall q, E' q + L' q = E q + L q + d q) -> (forall q, O' q = O q + o q) ->
  (forall q, 0 <= O' q <= E' q /\ 0 <= L' q) -> E' 0 = 0 ->
  (forall q, q <> 0 -> E q < E' q -> well_gotten v q s') ->
  via L' v E' O' (set_below s' v).
Proof.
  intros [Iok It Ir Io Ic Id Idr Icw Ifs In] Hst K HE HO Hr HE0 Hnew.
  pose proof Hst as [Hok' Hrefs Hopens Hsb Hidle _].
  assert (forall q, q <> 0 -> refs s' q = owners v q + E' q + L' q) as Hrefs'.
  { intros q Hq. rewrite Hrefs, Ir by done. specialize (HE q). lia. }
  assert (forall q, q <> 0 -> 0 < owners v q -> 0 < refs s' q /\ 0 < refs (below v) q) as Hown.
  { intros q Hq Ho. rewrite Hrefs', Ir by done. destruct (Hr q), (Ic q). lia. }
  assert (forall q, q <> 0 -> 0 < E' q -> E' q <= E q -> vn_fs q s' = vn_fs q (below v)) as Hold.
  { intros q Hq He Hd. pose proof (owners_range v q). apply (sb_vn _ _ _ Hsb).
    - rewrite Ir by done. destruct (Ic q). lia.
    - rewrite Hrefs' by done. destruct (Hr q). lia. }
  assert (forall q, q <> 0 -> q = bootfs_vnode v \/ q = t_cwd v ->
    vn_fs q s' = vn_fs q (below v) /\ vop_gettype q s' = vop_gettype q (below v)) as Hdir.
  { intros q Hq Hb. apply (sb_vn _ _ _ Hsb); apply Hown; try done; unfold owners;
      pose proof (table_refs_range v q); pose proof (one_range (bootfs_vnode v) q);
      pose proof (one_range (t_cwd v) q); destruct Hb as [->| ->]; rewrite one_eq in *; lia. }
  split; [|split; [done|intros q H1 H2; split; [by apply (sb_vn _ _ _ Hsb)|intros fs Hf; by apply (sb_root _ _ _ Hsb)]]].
  constructor; simpl.
  - done.
  - apply table_step; [done..|]. intros kd Hk. pose proof (to_kd v It kd Hk) as Hko.
    eapply kd_ok_step; [done|done|]. pose proof (table_refs_dev v kd Hk) as Ht.
    destruct (ko_vnode _ _ Hko) as [Hlv _]. destruct (vn_live _ _ Iok Hlv) as [Hne _].
    apply Hown; [done|]. unfold owners. pose proof (one_range (bootfs_vnode v) (kd_vnode kd)).
    pose proof (one_range (t_cwd v) (kd_vnode kd)). lia.
  - exact Hrefs'.
  - intros q. by rewrite Hopens, Io, HO.
  - done.
  - intros q Hq He Hf. destruct (decide (E q < E' q)) as [Hd|Hd]; [by apply (Hnew q Hq Hd)|].
    rewrite (Hold q Hq He) in Hf by lia. apply Id; [done|lia|done].
  - intros q Hq Hb. destruct (Hdir q Hq Hb) as [-> _]. auto.
  - intros Hc. destruct (Icw Hc) as (t & Et & Ht). exists t.
    by destruct (Hdir _ Hc (or_intror eq_refl)) as [_ ->].
  - intros q fs Hq [He|Hb] Hf Hfs.
    + destruct (decide (E q < E' q)) as [Hd|Hd]; [by apply (Hnew q Hq Hd)|].
      rewrite (Hold q Hq He) in Hf by lia. apply (Ifs q fs); [done|left; lia|done|done].
    + destruct (Hdir q Hq Hb) as [E1 _]. apply (Ifs q fs); [done|by right|congruence|done].
  - done.
Qed.

Lemma inv_step L E O v d o s' E' O' :
  inv L E O v -> vstep (below v) d o s' ->
  (forall q, E' q = E q + d q) -> (forall q, O' q = O q + o q) -> (forall q, 0 <= O' q <= E' q) ->
  (forall q, q <> 0 -> 0 < d q -> well_gotten v q s') ->
  via L v E' O' (set_below s' v).
Proof.
  intros Hi [Hst K] HE HO Hr Hnew. pose proof (vs_ok _ _ _ _ Hst) as Hok'.
  eapply inv_change; [exact Hi|exact Hst| | |done| | |].
  - eapply owns_kept; [exact K|apply vn_heap, Hok'|]. apply Hi.
  - intros q. rewrite HE. lia.
  - intros q. split; [auto|apply (in_callers _ _ _ _ Hi q)].
  - rewrite HE, (in_null _ _ _ _ Hi). pose proof (vs_refs _ _ _ _ Hst 0) as E0.
    rewrite (refs_0 s'), (refs_0 (below v)) in E0 by (done || apply (in_ok _ _ _ _ Hi)). lia.
  - intros q Hq Hlt. apply Hnew; [done|]. rewrite HE in Hlt. lia.
Qed.

Lemma via_refl L E O v : inv L E O v -> via L v E O v.
Proof. intros Hi. split; [done|]. split; [apply same_refl|]. by intros q _ _. Qed.

Lemma via_refs L E O v E' O' v' q :
  inv L E O v -> via L v E' O' v' -> refs (below v') q = refs (below v) q + (E' q - E q).
Proof.
  intros Hi (Hi' & Hs & _). destruct (decide (q = 0)) as [->|Hq].
  - rewrite (refs_0 (below v')) by apply (in_ok _ _ _ _ Hi'). rewrite (refs_0 (below v)) by apply (in_ok _ _ _ _ Hi).
    by rewrite (in_null _ _ _ _ Hi), (in_null _ _ _ _ Hi').
  - rewrite (in_refs _ _ _ _ Hi), (in_refs _ _ _ _ Hi'), (same_owners v v') by done. lia.
Qed.

Lemma via_trans L E O v E1 O1 v1 E2 O2 v2 :
  inv L E O v -> via L v E1 O1 v1 -> (forall q, E q <= E1 q) -> via L v1 E2 O2 v2 -> via L v E2 O2 v2.
Proof.
  intros Hi Hv1 He (Hi2 & Hs2 & Hr2). pose proof (via_refs L E O v E1 O1 v1) as Hrefs.
  pose proof Hv1 as (Hi1 & Hs1 & Hr1).
  split; [done|]. split; [by eapply same_trans|]. intros q H0 H2.
  assert (0 < refs (below v1) q) as H1 by (rewrite Hrefs by done; specialize (He q); lia).
  destruct (Hr1 q H0 H1) as [[<- <-] Hk1], (Hr2 q H1 H2) as [? Hk2]. auto.
Qed.

Lemma via_room L E O v E' O' v' n k :
  inv L E O v -> via L v E' O' v' -> (forall q, E' q <= E q + k) -> vroom (n + k) (below v) ->
  vroom n (below v').
Proof.
  intros Hi Hv He Hr q. rewrite (via_refs L E O v E' O' v' q Hi Hv). specialize (Hr q). specialize (He q).
  lia.
Qed.

Lemma room_mono (s : S) n k : k <= n -> vroom n s -> vroom k s.
Proof. intros Hk Hr q. specialize (Hr q). lia. Qed.

Lemma via_ext L v E O E' O' v' :
  via L v E O v' -> (forall q, E' q = E q) -> (forall q, O' q = O q) -> via L v E' O' v'.
Proof. intros (Hi & Hs) HE HO. split; [by eapply vinv_ext|done]. Qed.

Lemma plus_swap E p q r : plus (plus E (one p)) (one q) r = plus (plus E (one q)) (one p) r.
Proof. unfold plus. lia. Qed.

Lemma plus_one_le E p q : E q <= plus E (one p) q <= E q + 1.
Proof. unfold plus. pose proof (one_range p q). lia. Qed.

(** ** The operations on one vnode *)

Lemma plain_wp R L E O v f :
  inv L E O v -> plain (below v) (f (below v)) ->
  wp R (on_below f v) (fun '(r, v') => via L v E O v').
Proof.
  intros Hi (r & s' & Ef & Hst). unfold on_below. rewrite Ef. simpl.
  apply (inv_step L E O v none none s'); try done.
  - intros q. unfold none. lia.
  - intros q. unfold none. lia.
  - intros q. apply (in_callers _ _ _ _ Hi q).
Qed.

Lemma caller_live L E O v q :
  inv L E O v -> 0 < E q -> q <> 0 /\ 0 < refs (below v) q.
Proof.
  intros Hi He. assert (q <> 0) as Hq.
  { intros ->. rewrite (in_null _ _ _ _ Hi) in He. lia. }
  split; [done|]. rewrite (in_refs _ _ _ _ Hi q Hq). pose proof (owners_range v q).
  destruct (in_callers _ _ _ _ Hi q). lia.
Qed.

Lemma caller_fs L E O v q :
  inv L E O v -> 0 < E q ->
  exists fs, vn_fs q (below v) = Some fs /\
    (fs = 0 -> 0 < table_refs v q) /\ (fs <> 0 -> has_fs v fs).
Proof.
  intros Hi He. destruct (caller_live L E O v q Hi He) as [Hq Hlv].
  destruct (vn_live _ q (in_ok _ _ _ _ Hi) Hlv) as (_ & fs & Hf & _). exists fs. split; [done|]. split.
  - intros ->. by apply (in_dev _ _ _ _ Hi).
  - intros Hf0. apply (in_fs _ _ _ _ Hi q fs Hq); [by left|done..].
Qed.

Lemma incref_wp R L E O v q :
  inv L E O v -> vroom 1 (below v) -> 0 < refs (below v) q -> well_gotten v q (below v) ->
  wp R (do_below (vop_incref q) v) (via L v (plus E (one q)) O).
Proof.
  intros Hi Hr Hlv Hw. destruct (incref_law _ q (in_ok _ _ _ _ Hi) Hr Hlv) as (s' & Ef & Hst).
  unfold do_below. rewrite Ef. simpl. apply (inv_step L E O v (one q) none s'); try done.
  - intros p. unfold none. lia.
  - intros p. destruct (in_callers _ _ _ _ Hi p). unfold plus. pose proof (one_range q p). lia.
  - intros p Hp ->%one_pos. destruct Hst as [Hst _]. unfold well_gotten.
    destruct (sb_vn _ _ _ (vs_same _ _ _ _ Hst) q Hlv) as [-> _]; [|done].
    rewrite (vs_refs _ _ _ _ Hst), one_eq. lia.
Qed.

(** A caller gives up a reference it has no open for. *)
Lemma decref_wp R L E O v q :
  inv L (plus E (one q)) O v -> (forall p, 0 <= O p <= E p) ->
  wp R (do_below (vop_decref q) v) (via L v E O).
Proof.
  intros Hi Hoe. pose proof (Hoe q). pose proof (one_eq q) as E1.
  assert (0 < plus E (one q) q) as He by (unfold plus; lia).
  destruct (caller_live _ _ _ _ _ Hi He) as [Hq Hlv].
  destruct (decref_law (below v) q (in_ok _ _ _ _ Hi)) as (s' & Ef & Hst).
  - rewrite (in_refs _ _ _ _ Hi q Hq), (in_opens _ _ _ _ Hi). pose proof (owners_range v q).
    destruct (in_callers _ _ _ _ Hi q). unfold plus. lia.
  - destruct (decide (vn_fs q (below v) = Some 0)) as [Ef|]; [|by right]. left.
    pose proof (in_dev _ _ _ _ Hi q Hq He Ef). rewrite (in_refs _ _ _ _ Hi q Hq). unfold owners.
    pose proof (one_range (bootfs_vnode v) q). pose proof (one_range (t_cwd v) q).
    destruct (in_callers _ _ _ _ Hi q). lia.
  - unfold do_below. rewrite Ef. simpl. eapply (inv_step L (plus E (one q)) O v _ none s'); [done|done|..].
    + intros p. unfold plus. simpl. lia.
    + intros p. unfold none. lia.
    + done.
    + intros p Hp Hd. pose proof (one_range q p). lia.
Qed.

Lemma incopen_wp R L E O v q :
  inv L (plus E (one q)) O v -> (forall p, 0 <= O p <= E p) -> vroom 1 (below v) ->
  wp R (do_below (vop_incopen q) v) (via L v (plus E (one q)) (plus O (one q))).
Proof.
  intros Hi Hoe Hr. pose proof (Hoe q). pose proof (one_eq q) as E1.
  assert (0 < plus E (one q) q) as He by (unfold plus; lia).
  destruct (caller_live _ _ _ _ _ Hi He) as [Hq Hlv].
  destruct (incopen_law (below v) q (in_ok _ _ _ _ Hi) Hr) as (s' & Ef & Hst).
  - rewrite (in_refs _ _ _ _ Hi q Hq), (in_opens _ _ _ _ Hi). pose proof (owners_range v q).
    destruct (in_callers _ _ _ _ Hi q). unfold plus. lia.
  - unfold do_below. rewrite Ef. simpl. eapply (inv_step L (plus E (one q)) O v none _ s'); [done|done|..].
    + intros p. unfold none. lia.
    + done.
    + intros p. unfold plus. pose proof (Hoe p). pose proof (one_range q p). lia.
    + done.
Qed.

Lemma decopen_wp R L E O v q :
  inv L (plus E (one q)) (plus O (one q)) v -> (forall p, 0 <= O p <= E p) ->
  wp R (do_below (vop_decopen q) v) (via L v (plus E (one q)) O).
Proof.
  intros Hi Hoe. pose proof (Hoe q). pose proof (one_eq q) as E1.
  assert (0 < plus E (one q) q) as He by (unfold plus; lia).
  destruct (caller_live _ _ _ _ _ Hi He) as [Hq Hlv].
  destruct (decopen_law (below v) q (in_ok _ _ _ _ Hi)) as (s' & Ef & Hst); [|done|].
  - rewrite (in_opens _ _ _ _ Hi). unfold plus. lia.
  - unfold do_below. rewrite Ef. simpl. eapply (inv_step L _ (plus O (one q)) v none _ s'); [done|done|..].
    + intros p. unfold none. lia.
    + intros p. unfold plus. simpl. lia.
    + intros p. unfold plus. pose proof (Hoe p). pose proof (one_range q p). lia.
    + done.
Qed.

(** ** Getting vnodes *)

(** The callers have one more reference, to [p], unless there was an error. *)
Definition got (r p : Z) (E : Z -> Z) : Z -> Z := if r =? 0 then plus E (one p) else E.

Lemma got_ok p E : got 0 p E = plus E (one p).
Proof. done. Qed.
Lemma got_err r p E : r <> 0 -> got r p E = E.
Proof. intros Hr. unfold got. by rewrite (proj2 (Z.eqb_neq _ _) Hr). Qed.
Lemma got_range r p E q : E q <= got r p E q <= E q + 1.
Proof. unfold got, plus. destruct (_ =? _); [|lia]. pose proof (one_range p q). lia. Qed.

Lemma gives_via L E O v dir r p s' :
  inv L E O v -> 0 < E dir -> gives_vnode (below v) dir r p s' ->
  via L v (got r p E) O (set_below s' v) /\ (r = 0 -> p <> 0).
Proof.
  intros Hi Hd [[Hr Hst]|(-> & Hst & Hp & Hf & Hdev)].
  - rewrite got_err by done. split; [|done]. apply (inv_step L E O v none none s'); try done.
    + intros q. unfold none. lia.
    + intros q. unfold none. lia.
    + apply Hi.
  - split; [|done]. rewrite got_ok. apply (inv_step L E O v (one p) none s'); try done.
    + intros q. unfold none. lia.
    + intros q. destruct (in_callers _ _ _ _ Hi q). unfold plus. pose proof (one_range p q). lia.
    + intros q Hq ->%one_pos. destruct (caller_fs _ _ _ _ _ Hi Hd) as (fs & Ef & H0 & Hn).
      rewrite Ef in Hf, Hdev. split; rewrite Hf.
      * intros [= ->]. rewrite Hdev by done. auto.
      * intros fs' [= <-]. auto.
Qed.
End inv.
