(* ===== verification/VfsOps.v ===== *)
(** * The operations of the VFS layer keep its invariant

    Every operation on pathnames returns, gives its caller the references it says it
    does and no others, and keeps no reference of its own ([vfs_open_wp] and the
    lemmas after it).  The only panic is that of a file system asked for a root that
    is not in memory, when there is none left ([R] in the statements). *)

From stdpp Require Import base option list gmap numbers.
From S2P Require Import Prelude Kmem Array Cstring Uio SfsMount Vfs VfsInv.

(** One call of a monadic program, by a lemma about it. *)
Ltac wp_call lem := apply wp_bind; eapply wp_mono; [lem|done|].

Lemma omap_lookup_total {A B} (f : A -> option B) (l : list A) i :
  (forall x, x ∈ l -> is_Some (f x)) -> omap f l !! i = l !! i ≫= f.
Proof.
  revert i. induction l as [|x l IH]; intros i Hf; [done|]. simpl.
  destruct (Hf x) as [y Hy]; [set_solver|]. rewrite Hy. destruct i as [|i]; simpl; [done|].
  apply IH. set_solver.
Qed.

Section ops.
Context {H S : Type} `{!Kmalloc H, !KmallocLaws H, !Vnodes H S, !VnodesView S, !VnodesLaws H S}.
Implicit Types v : vfs S.

(** ** The table *)

Lemma numdevs_keys v : table_ok v -> numdevs v = length (keys v) /\ length (devs v) = length (keys v).
Proof.
  intros Ht. destruct (to_array v Ht) as (_ & _ & Hb). pose proof (contents_length _ Hb) as Hl.
  rewrite (to_contents v Ht), length_fmap in Hl. unfold numdevs, array_getnum. destruct Hb as (? & _).
  split; [lia|]. unfold devs. clear -Ht. pose proof (to_kds v Ht) as Hk.
  induction (keys v) as [|k ks IH]; [done|]. simpl. destruct (Hk k) as [kd ->]; [set_solver|].
  simpl. f_equal. apply IH. set_solver.
Qed.

Lemma devs_lookup v i : table_ok v -> devs v !! i = keys v !! i ≫= fun k => v_kds v !! k.
Proof. intros Ht. apply omap_lookup_total, (to_kds v Ht). Qed.

Lemma getdev_wp v i :
  table_ok v -> (i < numdevs v)%nat ->
  exists k kd, getdev (Z.of_nat i) v = Some (k, kd) /\ keys v !! i = Some k /\
    v_kds v !! k = Some kd /\ devs v !! i = Some kd.
Proof.
  intros Ht Hi. destruct (numdevs_keys v Ht) as [En El].
  destruct (lookup_lt_is_Some_2 (keys v) i) as [k Hk]; [lia|].
  destruct (to_kds v Ht k) as [kd Hkd]; [by eapply list_elem_of_lookup_2|].
  exists k, kd. split; [|split; [done|split; [done|by rewrite devs_lookup, Hk by done]]].
  unfold getdev. rewrite (array_getguy_wp (heap_of (below v))); [|apply Ht|].
  - rewrite (to_contents v Ht), Nat2Z.id, list_lookup_fmap, Hk. simpl. by rewrite Hkd.
  - unfold numdevs, array_getnum in Hi. lia.
Qed.

Lemma dev_elem v i kd : devs v !! i = Some kd -> kd ∈ devs v.
Proof. apply list_elem_of_lookup_2. Qed.

Lemma dev_gotten L E O v kd :
  inv L E O v -> kd ∈ devs v -> 0 < refs (below v) (kd_vnode kd) /\ well_gotten v (kd_vnode kd) (below v).
Proof.
  intros Hi Hk. destruct (ko_vnode _ _ (to_kd _ (in_table _ _ _ _ Hi) _ Hk)) as [Hr Hf].
  split; [done|]. unfold well_gotten. rewrite Hf. split; [|congruence].
  intros _. by apply table_refs_dev.
Qed.

(** ** Locks *)

Lemma inv_locks L E O v b1 b2 : inv L E O v -> inv L E O (set_block b1 (set_dlock b2 v)).
Proof.
  intros [I1 [T1 T2 T3 T4 T5 T6 T7] I3 I4 I5 I6 I7 I8 I9 I10].
  constructor; [exact I1| |exact I3|exact I4|exact I5|exact I6|exact I7|exact I8|exact I9|exact I10].
  constructor; [exact T1|exact T2|exact T3|exact T4|exact T5|exact T6|exact T7].
Qed.

Lemma inv_dlock L E O v b : inv L E O v -> inv L E O (set_dlock b v).
Proof. apply (inv_locks L E O v (bootfs_lock v)). Qed.

Lemma inv_block L E O v b : inv L E O v -> inv L E O (set_block b v).
Proof. intros Hi. apply (inv_locks L E O v b (knowndevs_lock v)) in Hi. by destruct v. Qed.

Lemma via_unlock L v E O v1 :
  knowndevs_lock v = false -> via L (set_dlock true v) E O v1 ->
  knowndevs_lock v1 = true /\ via L v E O (set_dlock false v1).
Proof.
  intros Hl (Hi & (E1 & E2 & E3 & E4 & E5 & E6) & Hr). split; [done|].
  split; [by apply inv_dlock|]. split; [|done]. by split_and!.
Qed.

Lemma via_bunlock L v E O v1 :
  bootfs_lock v = false -> via L (set_block true v) E O v1 ->
  bootfs_lock v1 = true /\ via L v E O (set_block false v1).
Proof.
  intros Hl (Hi & (E1 & E2 & E3 & E4 & E5 & E6) & Hr). split; [done|].
  split; [by apply inv_block|]. split; [|done]. by split_and!.
Qed.

(** ** vfslist.c: finding the vnode for a name *)

Lemma getroot_device_wp R L E O v kd :
  inv L E O v -> vroom 1 (below v) -> kd ∈ devs v -> kd_fs kd = 0 \/ has_rawname kd = true ->
  wp R (getroot_device kd v) (fun '(r, v') => r = Some (0, kd_vnode kd) /\
    via L v (got 0 (kd_vnode kd) E) O v' /\ kd_vnode kd <> 0).
Proof.
  intros Hi Hr Hk Hd. pose proof (to_kd _ (in_table _ _ _ _ Hi) _ Hk) as Hko.
  destruct (dev_gotten L E O v kd Hi Hk) as [Hlv Hw]. unfold getroot_device.
  apply wp_assert; [by rewrite (proj2 (Z.eqb_neq _ _) (ko_dev _ _ Hko Hd))|].
  wp_call ltac:(by apply incref_wp). intros v' Hv. simpl. split; [done|]. split; [done|].
  by destruct (vn_live _ _ (in_ok _ _ _ _ Hi) Hlv).
Qed.

Lemma getroot_names_wp R L E O v devname kd :
  inv L E O v -> vroom 1 (below v) -> kd ∈ devs v ->
  ((kd_name kd).2 = devname -> kd_fs kd = 0 /\ has_rawname kd = false) ->
  wp R (getroot_names devname kd v) (fun '(r, v') =>
    match r with
    | Some (err, p) => via L v (got err p E) O v' /\ (err = 0 -> p <> 0)
    | None => v' = v
    end).
Proof.
  intros Hi Hr Hk Hn. unfold getroot_names, streq. case_bool_decide as Ed.
  - destruct (Hn Ed) as [Ef Er]. rewrite Ef, Er.
    eapply wp_mono; [by apply getroot_device_wp; eauto|done|]. intros [r v'] (-> & Hv & Hp). by split.
  - unfold has_rawname in *. destruct (kd_rawname kd) as [n|] eqn:Ern; [|done].
    case_bool_decide; [|done]. eapply wp_mono; [apply getroot_device_wp; eauto|done|].
    + right. unfold has_rawname. by rewrite Ern.
    + intros [r v'] (-> & Hv & Hp). by split.
Qed.

Lemma fs_root_wp R L E O v fs :
  inv L E O v -> vroom 1 (below v) -> root_or R v (below v) -> has_fs v fs -> fs <> 0 -> mounted (below v) fs ->
  wp R (on_below (fsop_getroot fs) v) (fun '(p, v') =>
    via L v (plus E (one p)) O v' /\ p <> 0 /\ root_at fs p (below v')).
Proof.
  intros Hi Hr Hro Hf Hf0 Hm. unfold on_below. apply wp_bind.
  pose proof (getroot_law _ fs (in_ok _ _ _ _ Hi) Hr Hm) as Hl.
  destruct (fsop_getroot fs (below v)) as [[p s']|] eqn:Eg; [|by eapply Hro, Eg; try apply Hi].
  destruct Hl as (Hst & Hvf & Hp & Hroot). simpl. split; [|done].
  apply (inv_step L E O v (one p) none s'); try done.
  - intros q. unfold none. lia.
  - intros q. destruct (in_callers _ _ _ _ Hi q). unfold plus. pose proof (one_range p q). lia.
  - intros q Hq ->%one_pos. unfold well_gotten. rewrite Hvf. split; [congruence|]. by intros ? [= <-].
Qed.

Lemma getroot_dev_wp R L E O v devname kd :
  inv L E O v -> vroom 1 (below v) -> root_or R v (below v) -> kd ∈ devs v ->
  wp R (getroot_dev devname kd v) (fun '(r, v') =>
    match r with
    | Some (err, p) => via L v (got err p E) O v' /\ (err = 0 -> p <> 0)
    | None => v' = v
    end).
Proof.
  intros Hi Hr Hro Hk. pose proof (to_kd _ (in_table _ _ _ _ Hi) _ Hk) as Hko. unfold getroot_dev.
  destruct (kd_fs kd =? 0) eqn:Ef; boolify; simpl.
  - destruct (has_rawname kd) eqn:Er; simpl.
    + unfold streq at 1. case_bool_decide; [split; [by apply via_refl|done]|].
      by apply getroot_names_wp.
    + by apply getroot_names_wp.
  - destruct (volname_law _ _ (in_ok _ _ _ _ Hi) (ko_fs _ _ Hko Ef)) as (volname & Ev & _). rewrite Ev. simpl.
    destruct (streq (kd_name kd).2 devname) eqn:Es; simpl.
    2: destruct (match volname with Some _ => _ | None => _ end); [|apply getroot_names_wp; try done].
    3:{ intros En. unfold streq in Es. by rewrite bool_decide_eq_true_2 in Es. }
    all: wp_call ltac:(apply fs_root_wp; eauto; [by exists kd|by apply (ko_fs _ _ Hko)]);
      intros [p v'] (Hv & Hp & _); by split.
Qed.

Lemma getroot_loop_wp R L E O v devname n i :
  inv L E O v -> vroom 1 (below v) -> root_or R v (below v) -> (i + n = numdevs v)%nat ->
  wp R (getroot_loop n (Z.of_nat i) devname v) (fun '(err, p, v') =>
    via L v (got err p E) O v' /\ (err = 0 -> p <> 0)).
Proof.
  intros Hi Hr Hro. revert i. induction n as [|n IH]; intros i Hn; cbn [getroot_loop].
  { split; [by apply via_refl|done]. }
  destruct (getdev_wp v i (in_table _ _ _ _ Hi)) as (k & kd & -> & _ & _ & Hk); [lia|].
  apply dev_elem in Hk. cbn [mbind option_bind]. wp_call ltac:(by apply getroot_dev_wp).
  intros [[[err p]|] v'] Hv; [done|]. subst v'.
  replace (Z.of_nat i + 1) with (Z.of_nat (Datatypes.S i)) by lia. apply IH. lia.
Qed.

Lemma numdevs_dlock v b : numdevs (set_dlock b v) = numdevs v.
Proof. done. Qed.

Lemma vfs_getroot_wp R L E O v devname :
  inv L E O v -> unlocked v -> vroom 1 (below v) -> root_or R v (below v) ->
  wp R (vfs_getroot devname v) (fun '(err, p, v') => via L v (got err p E) O v' /\ (err = 0 -> p <> 0)).
Proof.
  intros Hi [Hl _] Hr Hro. unfold vfs_getroot, lock_knowndevs. rewrite Hl. simpl.
  wp_call ltac:(apply (getroot_loop_wp R L E O (set_dlock true v) devname _ 0);
    [by apply inv_dlock|done|done|done]).
  intros [[err p] v1] [Hv Hp]. apply via_unlock in Hv as [Hl1 Hv]; [|done].
  unfold unlock_knowndevs. rewrite Hl1. simpl. by split.
Qed.

(** ** vfscwd.c and vfslookup.c *)

Lemma dir_gotten L E O v q :
  inv L E O v -> q <> 0 -> q = bootfs_vnode v \/ q = t_cwd v ->
  0 < refs (below v) q /\ well_gotten v q (below v).
Proof.
  intros Hi Hq Hb. split.
  - rewrite (in_refs _ _ _ _ Hi q Hq). unfold owners. pose proof (table_refs_range v q).
    destruct (in_callers _ _ _ _ Hi q). pose proof (one_range (bootfs_vnode v) q).
    pose proof (one_range (t_cwd v) q). destruct Hb as [->| ->]; rewrite one_eq in *; lia.
  - split; [intros Hf; by destruct (in_dirs _ _ _ _ Hi q Hq Hb)|].
    intros fs Hf Hf0. apply (in_fs _ _ _ _ Hi q fs Hq); auto.
Qed.

Lemma vfs_getcurdir_wp R L E O v :
  inv L E O v -> vroom 1 (below v) ->
  wp R (vfs_getcurdir v) (fun '(r, p, v') =>
    via L v (got r p E) O v' /\ (r = 0 -> p <> 0 /\ p = t_cwd v)).
Proof.
  intros Hi Hr. unfold vfs_getcurdir. destruct (t_cwd v =? 0) eqn:Ec; boolify; simpl.
  { split; [by apply via_refl|done]. }
  destruct (dir_gotten L E O v _ Hi Ec (or_intror eq_refl)) as [Hlv Hw].
  wp_call ltac:(by apply incref_wp). intros v' Hv. simpl.
  pose proof Hv as (_ & (_ & _ & _ & E4 & _) & _). by rewrite E4.
Qed.

Lemma vfs_getcurdir_below v p v' :
  vfs_getcurdir v = Some (0, p, v') -> vop_incref (t_cwd v) (below v) = Some (below v').
Proof.
  unfold vfs_getcurdir, do_below. destruct (negb _); [|done].
  destruct (vop_incref _ _) as [s|]; [|done]. simpl. by intros [= _ <-].
Qed.

Lemma skip_slashes_str path : is_str path -> is_str (skip_slashes path) /\ (length (skip_slashes path) <= length path)%nat.
Proof.
  intros Hs. induction path as [|c path IH]; [done|]. simpl. destruct (_ =? _); [|done].
  destruct IH; [by inv Hs|]. split; [done|lia].
Qed.

Lemma skip_slashes_long n path : long_name path -> long_name (skip_slashes (drop n path)).
Proof.
  intros [Hs Hl]. destruct (skip_slashes_str (drop n path)) as [? Hl2]; [by apply list.Forall_drop|].
  rewrite length_drop in Hl2. split; [done|lia].
Qed.

Lemma scan_cases path i slash colon :
  getdevice_scan i path = (slash, colon) -> 0 <= i ->
  (slash = -1 \/ i <= slash) /\ (colon = -1 \/ i <= colon) /\
  (slash = i -> path !! 0%nat = Some SLASH) /\ (colon = i -> path !! 0%nat = Some COLON).
Proof.
  revert i. induction path as [|c path IH]; intros i E Hi; simpl in E.
  { injection E as <- <-. split_and!; lia. }
  destruct (c =? COLON) eqn:Ec; [|destruct (c =? SLASH) eqn:Es]; boolify; simplify_eq.
  - split_and!; [lia|lia|lia|done].
  - split_and!; [lia|lia|done|lia].
  - apply IH in E; [|lia]. destruct E as (? & ? & _). split_and!; lia.
Qed.

(** The boot file system's root, with its lock. *)
Lemma getdevice_boot_wp R L E O v (sub path : list Z) :
  inv L E O v -> unlocked v -> vroom 1 (below v) ->
  wp R (v ← lock_bootfs v;
        if bootfs_vnode v =? 0 then v ← unlock_bootfs v; Some (ENOENT, path, 0, v)
        else
          v ← do_below (vop_incref (bootfs_vnode v)) v;
          let startvn := bootfs_vnode v in
          v ← unlock_bootfs v;
          Some (0, sub, startvn, v))
    (fun '(r, s, p, v') => via L v (got r p E) O v' /\ (r = 0 -> p <> 0) /\ (s = path \/ s = sub)).
Proof.
  intros Hi [_ Hl] Hr. unfold lock_bootfs. rewrite Hl. simpl.
  assert (inv L E O (set_block true v)) as Hi1 by by apply inv_block.
  destruct (bootfs_vnode v =? 0) eqn:Eb; boolify; simpl.
  - split; [|split; [done|by left]]. by apply (via_bunlock L v E O (set_block true v)), via_refl.
  - destruct (dir_gotten L E O _ _ Hi1 Eb (or_introl eq_refl)) as [Hlv Hw].
    wp_call ltac:(by apply incref_wp). intros v' Hv. pose proof Hv as (_ & (_ & _ & E3 & _) & _).
    apply via_bunlock in Hv as [Hl1 Hv]; [|done]. unfold unlock_bootfs. rewrite Hl1. simpl.
    rewrite E3. split; [exact Hv|]. split; [done|by right].
Qed.

(** The root of the current directory's file system. *)
Lemma getdevice_cur_wp R L E O v (sub path : list Z) :
  inv L E O v -> unlocked v -> vroom 2 (below v) -> roots_or R v ->
  wp R ('(result, vn, v) ← vfs_getcurdir v;
        if negb (result =? 0) then Some (result, path, 0, v)
        else
          fs ← vn_fs vn (below v);
          ASSERT negb (fs =? 0) ;;
          '(startvn, v) ← on_below (fsop_getroot fs) v;
          v ← do_below (vop_decref vn) v;
          Some (0, sub, startvn, v))
    (fun '(r, s, p, v') => via L v (got r p E) O v' /\ (r = 0 -> p <> 0) /\ (s = path \/ s = sub)).
Proof.
  intros Hi Hu Hr Hro.
  wp_call ltac:(apply wp_eqn, vfs_getcurdir_wp; [done|by eapply room_mono; [|done]]).
  intros [[r vn] v1] [[Hv1 Hvn] Ecur]. destruct (r =? 0) eqn:Er; boolify; simpl.
  2:{ rewrite got_err in * by done. split; [done|]. split; [done|by left]. }
  subst r. destruct (Hvn eq_refl) as [Hvn0 Ecwd]. rewrite got_ok in Hv1.
  apply vfs_getcurdir_below in Ecur.
  pose proof Hv1 as (Hi1 & Hs1 & _). pose proof Hs1 as (_ & _ & _ & E4 & _).
  assert (vn = t_cwd v1) as Ec1 by congruence.
  destruct (dir_gotten _ _ _ _ _ Hi1 Hvn0 (or_intror Ec1)) as [Hlv Hw].
  destruct (vn_live _ _ (in_ok _ _ _ _ Hi1) Hlv) as (_ & fs & Ef & Hm). rewrite Ef. simpl.
  assert (fs <> 0) as Hf0. { intros ->. by apply (in_dirs _ _ _ _ Hi1 vn Hvn0 (or_intror Ec1)). }
  rewrite (proj2 (Z.eqb_neq _ _) Hf0). simpl.
  wp_call ltac:(apply fs_root_wp; [exact Hi1| | |by apply Hw|done|by apply Hm]).
  { eapply (via_room _ _ _ _ _ _ _ 1 1); [exact Hi|exact Hv1|apply plus_one_le|done]. }
  { intros fs' Hf'. apply (proj2 Hro _ Ecur). by apply (same_has_fs v v1). }
  intros [p v2] (Hv2 & Hp & _). pose proof Hv2 as (Hi2 & _).
  wp_call ltac:(apply (decref_wp R L (plus E (one p)) O)).
  { eapply vinv_ext; [exact Hi2|intros; apply plus_swap|done]. }
  { intros q. destruct (in_callers _ _ _ _ Hi q). pose proof (plus_one_le E p q). lia. }
  intros v3 Hv3. simpl. split; [|split; [done|by right]]. rewrite got_ok.
  eapply via_trans; [exact Hi|exact Hv1|apply plus_one_le|].
  eapply via_trans; [exact Hi1|exact Hv2|apply plus_one_le|exact Hv3].
Qed.

Lemma getdevice_wp R L E O v path :
  inv L E O v -> unlocked v -> vroom 2 (below v) -> roots_or R v -> long_name path ->
  wp R (getdevice path v) (fun '(r, s, p, v') =>
    via L v (got r p E) O v' /\ (r = 0 -> p <> 0) /\ long_name s).
Proof.
  intros Hi Hu Hr Hro Hs. unfold getdevice. destruct (getdevice_scan 0 path) as [slash colon] eqn:Es.
  apply scan_cases in Es as (Hsl & Hco & Hp1 & Hp2); [|done].
  assert (vroom 1 (below v)) as Hr1 by by eapply room_mono; [|done].
  destruct ((colon <? 0) && negb (slash =? 0)) eqn:E1.
  { wp_call ltac:(by apply vfs_getcurdir_wp). intros [[r p] v'] [Hv Hp]. simpl.
    split; [done|]. split; [|done]. intros Hr0. by apply Hp. }
  destruct (0 <? colon) eqn:E2.
  { wp_call ltac:(apply vfs_getroot_wp; [done|done|done|exact (proj1 Hro)]).
    intros [[r p] v'] [Hv Hp]. simpl. split; [done|].
    split; [done|]. by apply skip_slashes_long. }
  assert (slash = 0 \/ colon = 0) as H0 by (destruct (slash =? 0) eqn:?; boolify; lia).
  apply wp_assert; [destruct H0 as [-> | ->]; [by rewrite orb_true_r|done]|].
  assert (long_name (skip_slashes (drop 1 path))) as Hsub by by apply skip_slashes_long.
  assert (exists c, path !! 0%nat = Some c /\ (c = SLASH \/ c = COLON)) as (c & Ec & Hc).
  { destruct H0 as [E0|E0]; [exists SLASH|exists COLON]; auto. }
  rewrite Ec. cbn [mbind option_bind].
  destruct (c =? SLASH) eqn:Ecs.
  - eapply wp_mono; [by apply getdevice_boot_wp|done|]. intros [[[r s] p] v'] (Hv & Hp & [->| ->]); by split.
  - destruct Hc as [->| ->]; [done|]. apply wp_assert; [done|].
    eapply wp_mono; [by apply getdevice_cur_wp|done|]. intros [[[r s] p] v'] (Hv & Hp & [->| ->]); by split.
Qed.

(** ** Steps within an operation

    [v] is the state the operation started from. *)

Section within.
Context (L E O : Z -> Z) v (Hi : inv L E O v).

Lemma within_drop_kept R E1 v1 E2 q :
  via L v E1 O v1 -> (forall p, E1 p = plus E2 (one q) p) -> (forall p, E p <= E2 p) ->
  wp R (do_below (vop_decref q) v1) (fun v2 => via L v E2 O v2 /\ nodes_kept (below v1) (below v2)).
Proof.
  intros Hv HE Hle. pose proof Hv as (Hi1 & _). eapply wp_mono; [apply (decref_wp R L E2 O)|done|].
  - eapply vinv_ext; [exact Hi1|by intros; rewrite HE|done].
  - intros p. destruct (in_callers _ _ _ _ Hi p). specialize (Hle p). lia.
  - intros v2 Hv2. split; [|apply Hv2]. eapply via_trans; [exact Hi|exact Hv| |exact Hv2].
    intros p. rewrite HE. specialize (Hle p). pose proof (plus_one_le E2 q p). lia.
Qed.

Lemma within_drop R E1 v1 E2 q :
  via L v E1 O v1 -> (forall p, E1 p = plus E2 (one q) p) -> (forall p, E p <= E2 p) ->
  wp R (do_below (vop_decref q) v1) (via L v E2 O).
Proof. intros Hv HE Hle. eapply wp_mono; [by apply (within_drop_kept R E1)|done|]. by intros v2 [? _]. Qed.

Lemma within_plain R E1 v1 f :
  via L v E1 O v1 -> (forall p, E p <= E1 p) -> plain (below v1) (f (below v1)) ->
  wp R (on_below f v1) (fun '(r, v2) => via L v E1 O v2).
Proof.
  intros Hv Hle Hf. pose proof Hv as (Hi1 & _). eapply wp_mono; [by apply plain_wp|done|].
  intros [r v2] Hv2. by eapply via_trans.
Qed.

Lemma within_gives E1 v1 dir r p s' :
  via L v E1 O v1 -> (forall q, E q <= E1 q) -> 0 < E1 dir -> gives_vnode (below v1) dir r p s' ->
  via L v (got r p E1) O (set_below s' v1) /\ (r = 0 -> p <> 0).
Proof.
  intros Hv Hle Hd Hg. pose proof Hv as (Hi1 & _).
  destruct (gives_via _ _ _ _ _ _ _ _ Hi1 Hd Hg) as [Hv2 Hp]. split; [|done]. by eapply via_trans.
Qed.

(** A vnode the operation has a reference to. *)
Lemma within_live E1 v1 q :
  via L v (plus E1 (one q)) O v1 -> (forall p, E p <= E1 p) ->
  below_ok (below v1) /\ 0 < refs (below v1) q /\ 0 < plus E1 (one q) q.
Proof.
  intros (Hi1 & _) Hle. assert (0 < plus E1 (one q) q) as Hp.
  { unfold plus. rewrite one_eq. specialize (Hle q). destruct (in_callers _ _ _ _ Hi q). lia. }
  split; [apply Hi1|]. split; [|done]. by eapply caller_live.
Qed.

Lemma within_held E1 v1 q : via L v E1 O v1 -> 0 < E1 q -> 0 < refs (below v1) q.
Proof. intros (Hi1 & _) Hq. by eapply caller_live. Qed.

Lemma within_room E1 v1 n k :
  via L v E1 O v1 -> (forall q, E1 q <= E q + k) -> vroom (n + k) (below v) -> vroom n (below v1).
Proof. intros Hv. by eapply via_room. Qed.

Lemma got_swap r p q E1 x : got r p (plus E1 (one q)) x = plus (got r p E1) (one q) x.
Proof. unfold got. destruct (_ =? _); [apply plus_swap|done]. Qed.

Lemma le_got r p q : E q <= got r p E q.
Proof. apply got_range. Qed.
End within.

Lemma dir_at_kept (s s' : S) q :
  nodes_kept s s' -> 0 < refs s q -> 0 < refs s' q -> dir_at q s -> dir_at q s'.
Proof. intros Hk H1 H2 (t & Et & Ht). exists t. destruct (Hk q H1 H2) as [[_ ->] _]. done. Qed.

Lemma vfs_lookup_wp R L E O v path :
  inv L E O v -> unlocked v -> vroom 2 (below v) -> roots_or R v -> long_name path ->
  wp R (vfs_lookup path v) (fun '(r, p, v') => via L v (got r p E) O v' /\ (r = 0 -> p <> 0)).
Proof.
  intros Hi Hu Hr Hro Hs. unfold vfs_lookup. wp_call ltac:(by apply getdevice_wp).
  intros [[[r sub] st] v1] (Hv & Hp & Hsub). destruct (r =? 0) eqn:Er; boolify; simpl.
  2:{ rewrite got_err in * by done. done. }
  subst r. rewrite got_ok in Hv. destruct (_ =? 0); [simpl; by split; auto|].
  destruct (within_live L E O v Hi E v1 st Hv) as (Hok & Hlv & Hpos); [done|].
  destruct (lookup_law _ st sub Hok) as (r & p & s' & Ef & Hg); [|done|done|].
  { eapply (within_room L E O v Hi _ _ 1 1); [exact Hv|apply plus_one_le|done]. }
  unfold on_below. rewrite Ef. simpl.
  eapply within_gives in Hg as [Hv2 Hp2]; [|done|exact Hv|apply plus_one_le|done].
  wp_call ltac:(eapply within_drop; [exact Hi|exact Hv2|intros; apply got_swap|apply le_got]).
  intros v3 Hv3. simpl. by split.
Qed.

Lemma vfs_lookparent_wp R L E O v path :
  inv L E O v -> unlocked v -> vroom 2 (below v) -> roots_or R v -> long_name path ->
  wp R (vfs_lookparent path (NAME_MAX + 1) v) (fun '(r, p, name, v') =>
    via L v (got r p E) O v' /\ (r = 0 -> p <> 0 /\ dir_at p (below v') /\ good_name name)).
Proof.
  intros Hi Hu Hr Hro Hs. unfold vfs_lookparent. wp_call ltac:(by apply getdevice_wp).
  intros [[[r sub] st] v1] (Hv & Hp & Hsub). destruct (r =? 0) eqn:Er; boolify; simpl.
  2:{ rewrite got_err in * by done. by split. }
  subst r. rewrite got_ok in Hv. destruct (_ =? 0); cbn [mbind option_bind].
  { wp_call ltac:(eapply (within_drop L E O v Hi R _ _ E); [exact Hv|done|done]).
    intros v3 Hv3. simpl. by split. }
  destruct (within_live L E O v Hi E v1 st Hv) as (Hok & Hlv & Hpos); [done|].
  destruct (lookparent_law _ st sub Hok) as (r & p & name & s' & Ef & Hg & Hn); [|done|done|].
  { eapply (within_room L E O v Hi _ _ 1 1); [exact Hv|apply plus_one_le|done]. }
  unfold on_below. rewrite Ef. simpl.
  eapply within_gives in Hg as [Hv2 Hp2]; [|done|exact Hv|apply plus_one_le|done].
  wp_call ltac:(eapply within_drop_kept; [exact Hi|exact Hv2|intros; apply got_swap|apply le_got]).
  intros v3 [Hv3 Hk]. simpl. split; [done|]. intros ->. destruct (Hn eq_refl) as [Hd Hgn].
  rewrite got_ok in Hv2, Hv3. split; [auto|]. split; [|done]. eapply dir_at_kept; [exact Hk|..|exact Hd].
  - eapply within_held; [exact Hv2|]. unfold plus at 1. rewrite one_eq.
    pose proof (plus_one_le E st p). destruct (in_callers _ _ _ _ Hi p). lia.
  - by apply (within_live L E O v Hi E v3 p Hv3).
Qed.

(** ** vfspath.c *)

(** The operations on the directory and the last name of a path. *)
Lemma at_parent_wp R L E O v path (f : Z -> list Z -> S -> option (Z * S)) :
  inv L E O v -> unlocked v -> vroom 3 (below v) -> roots_or R v -> long_name path ->
  (forall s dir name, below_ok s -> vroom 1 s -> 0 < refs s dir -> good_name name -> plain s (f dir name s)) ->
  wp R ('(result, dir, name, v) ← vfs_lookparent path (NAME_MAX + 1) v;
        if negb (result =? 0) then Some (result, v)
        else
          '(result, v) ← on_below (f dir name) v;
          v ← do_below (vop_decref dir) v;
          Some (result, v))
    (fun '(r, v') => via L v E O v').
Proof.
  intros Hi Hu Hr Hro Hs Hf.
  wp_call ltac:(apply vfs_lookparent_wp; [done|done|by eapply room_mono; [|done]|done|done]).
  intros [[[r dir] name] v1] [Hv Hp]. destruct (r =? 0) eqn:Er; boolify; simpl.
  2:{ by rewrite got_err in Hv by done. }
  subst r. rewrite got_ok in Hv. destruct (Hp eq_refl) as (_ & _ & Hn).
  destruct (within_live L E O v Hi E v1 dir Hv) as (Hok & Hlv & _); [done|].
  wp_call ltac:(eapply within_plain; [exact Hi|exact Hv|apply plus_one_le|apply Hf; try done]).
  { eapply (within_room L E O v Hi _ _ 1 1); [exact Hv|apply plus_one_le|].
    by eapply room_mono; [|done]. }
  intros [r v2] Hv2.
  wp_call ltac:(eapply (within_drop L E O v Hi R _ _ E); [exact Hv2|done|done]).
  intros v3 Hv3. exact Hv3.
Qed.

Lemma vfs_remove_wp R L E O v path :
  inv L E O v -> unlocked v -> vroom 3 (below v) -> roots_or R v -> long_name path ->
  wp R (vfs_remove path v) (fun '(r, v') => via L v E O v').
Proof. intros. apply at_parent_wp; try done. intros. by apply remove_law. Qed.

Lemma vfs_mkdir_wp R L E O v path :
  inv L E O v -> unlocked v -> vroom 3 (below v) -> roots_or R v -> long_name path ->
  wp R (vfs_mkdir path v) (fun '(r, v') => via L v E O v').
Proof. intros. apply at_parent_wp; try done. intros. by apply mkdir_law. Qed.

Lemma vfs_rmdir_wp R L E O v path :
  inv L E O v -> unlocked v -> vroom 3 (below v) -> roots_or R v -> long_name path ->
  wp R (vfs_rmdir path v) (fun '(r, v') => via L v E O v').
Proof. intros. apply at_parent_wp; try done. intros. by apply rmdir_law. Qed.

Lemma vfs_symlink_wp R L E O v c path :
  inv L E O v -> unlocked v -> vroom 3 (below v) -> roots_or R v -> long_name path ->
  wp R (vfs_symlink c path v) (fun '(r, v') => via L v E O v').
Proof.
  intros. apply (at_parent_wp R L E O v path (fun d n => vop_symlink d n c)); try done.
  intros. by apply symlink_law.
Qed.

Lemma vfs_readlink_wp R L E O v path u w :
  inv L E O v -> unlocked v -> vroom 2 (below v) -> roots_or R v -> long_name path ->
  wp R (vfs_readlink path u w v) (fun '(r, u', w', v') => via L v E O v').
Proof.
  intros Hi Hu Hr Hro Hs. unfold vfs_readlink. wp_call ltac:(by apply vfs_lookup_wp).
  intros [[r p] v1] [Hv Hp]. destruct (r =? 0) eqn:Er; boolify; simpl.
  2:{ by rewrite got_err in Hv by done. }
  subst r. rewrite got_ok in Hv. destruct (within_live L E O v Hi E v1 p Hv) as (Hok & Hlv & _); [done|].
  destruct (readlink_law _ p u w Hok Hlv) as (r & u' & w' & s' & Ef & Hst).
  assert (wp R (on_below (fun s => Some (r, s')) v1) (fun '(_, v2) => via L v (plus E (one p)) O v2)) as Hw.
  { eapply within_plain; [exact Hi|exact Hv|apply plus_one_le|]. by exists r, s'. }
  unfold on_below. rewrite Ef. simpl in Hw |- *.
  wp_call ltac:(eapply (within_drop L E O v Hi R _ _ E); [exact Hw|done|done]).
  intros v3 Hv3. exact Hv3.
Qed.

(** The two vnodes an operation on two paths has found are given back. *)
Lemma drop_two_wp R L E O v p q v1 (r : Z) :
  inv L E O v -> via L v (plus (plus E (one p)) (one q)) O v1 ->
  wp R (v ← do_below (vop_decref q) v1; v ← do_below (vop_decref p) v; Some (r, v))
    (fun '(_, v') => via L v E O v').
Proof.
  intros Hi Hv. wp_call ltac:(eapply (within_drop L E O v Hi R _ _ (plus E (one p)));
    [exact Hv|done|apply plus_one_le]).
  intros v2 Hv2. wp_call ltac:(eapply (within_drop L E O v Hi R _ _ E); [exact Hv2|done|done]).
  intros v3 Hv3. exact Hv3.
Qed.

(** The second path is looked up while the first vnode is held. *)
Lemma second_parent_wp R L E O v p v1 path :
  inv L E O v -> unlocked v -> vroom 3 (below v) -> roots_or R v1 -> long_name path ->
  via L v (plus E (one p)) O v1 ->
  wp R (vfs_lookparent path (NAME_MAX + 1) v1) (fun '(r, q, name, v2) =>
    via L v (got r q (plus E (one p))) O v2 /\ nodes_kept (below v1) (below v2) /\
    (r = 0 -> dir_at q (below v2) /\ good_name name)).
Proof.
  intros Hi Hu Hr Hro Hs Hv. pose proof Hv as (Hi1 & Hs1 & _).
  eapply wp_mono; [apply (vfs_lookparent_wp R L (plus E (one p)) O); [done|by eapply same_unlocked| |done|done]|done|].
  - eapply (via_room _ _ _ _ _ _ _ 2 1); [exact Hi|exact Hv|apply plus_one_le|done].
  - intros [[[r q] name] v2] [Hv2 Hp]. split; [|split; [apply Hv2|intros Hr0; by apply Hp]].
    eapply via_trans; [exact Hi|exact Hv|apply plus_one_le|exact Hv2].
Qed.

Lemma le_plus_two E p q r : E r <= plus (plus E (one p)) (one q) r <= E r + 2.
Proof. pose proof (plus_one_le E p r). pose proof (plus_one_le (plus E (one p)) q r). lia. Qed.

Lemma live_two L E O v p q v1 :
  inv L E O v -> via L v (plus (plus E (one p)) (one q)) O v1 ->
  below_ok (below v1) /\ 0 < refs (below v1) p /\ 0 < refs (below v1) q /\
  (exists f, vn_fs p (below v1) = Some f) /\ (exists f, vn_fs q (below v1) = Some f).
Proof.
  intros Hi (Hi1 & _). assert (forall x, 0 <= E x) as He by (intros x; destruct (in_callers _ _ _ _ Hi x); lia).
  assert (0 < plus (plus E (one p)) (one q) p) as Hp.
  { unfold plus. rewrite one_eq. pose proof (one_range q p). specialize (He p). lia. }
  assert (0 < plus (plus E (one p)) (one q) q) as Hq.
  { unfold plus. rewrite one_eq. pose proof (one_range p q). specialize (He q). lia. }
  split; [apply Hi1|]. destruct (caller_fs _ _ _ _ _ Hi1 Hp) as (? & ? & _).
  destruct (caller_fs _ _ _ _ _ Hi1 Hq) as (? & ? & _).
  split; [by eapply caller_live|]. split; [by eapply caller_live|]. eauto.
Qed.

Lemma vfs_rename_wp R L E O v oldpath newpath :
  inv L E O v -> unlocked v -> vroom 3 (below v) -> roots_or R v -> long_name oldpath -> long_name newpath ->
  (forall d1 n1 v1, vfs_lookparent oldpath (NAME_MAX + 1) v = Some (0, d1, n1, v1) -> roots_or R v1) ->
  wp R (vfs_rename oldpath newpath v) (fun '(r, v') => via L v E O v').
Proof.
  intros Hi Hu Hr Hro Hs1 Hs2 Hro2. unfold vfs_rename.
  wp_call ltac:(apply wp_eqn, vfs_lookparent_wp; [done|done|by eapply room_mono; [|done]|done|exact Hs1]).
  intros [[[r d1] n1] v1] [[Hv Hp] E1]. destruct (r =? 0) eqn:Er; boolify; simpl.
  2:{ by rewrite got_err in Hv by done. }
  subst r. rewrite got_ok in Hv. destruct (Hp eq_refl) as (_ & Hd1 & Hn1). clear Hp.
  pose proof (within_live L E O v Hi E v1 d1 Hv ltac:(done)) as (_ & Hlv1 & _).
  apply Hro2 in E1. wp_call ltac:(by eapply second_parent_wp). intros [[[r d2] n2] v2] (Hv2 & Hk & Hn2).
  destruct (r =? 0) eqn:Er; boolify; simpl.
  2:{ rewrite got_err in Hv2 by done.
      wp_call ltac:(eapply (within_drop L E O v Hi R _ _ E); [exact Hv2|done|done]).
      intros v3 Hv3. exact Hv3. }
  subst r. rewrite got_ok in Hv2. destruct (Hn2 eq_refl) as [Hd2 Hgn2].
  destruct (live_two L E O v d1 d2 v2 Hi Hv2) as (Hok & Hl1 & Hl2 & [f1 Ef1] & [f2 Ef2]).
  rewrite Ef1, Ef2. cbn [mbind option_bind].
  destruct ((f1 =? 0) || (f2 =? 0) || negb (f1 =? f2)) eqn:Ef; [by apply drop_two_wp|].
  destruct (f1 =? 0) eqn:E3, (f1 =? f2) eqn:E4; boolify; try done. subst f2.
  wp_call ltac:(eapply within_plain; [exact Hi|exact Hv2|apply le_plus_two|]).
  { apply (rename_law _ d1 n1 d2 n2 f1); try done; [|by eapply dir_at_kept].
    eapply (within_room L E O v Hi _ _ 1 2); [exact Hv2|apply le_plus_two|done]. }
  intros [r v3] Hv3. by apply drop_two_wp.
Qed.

(** The file is not a directory. *)
Definition not_dir (path : list Z) v : Prop :=
  forall p v', vfs_lookup path v = Some (0, p, v') -> ~ dir_at p (below v').

Lemma vfs_link_wp R L E O v oldpath newpath :
  inv L E O v -> unlocked v -> vroom 3 (below v) -> roots_or R v -> long_name oldpath -> long_name newpath ->
  not_dir oldpath v ->
  (forall p v1, vfs_lookup oldpath v = Some (0, p, v1) -> roots_or R v1) ->
  wp R (vfs_link oldpath newpath v) (fun '(r, v') => via L v E O v').
Proof.
  intros Hi Hu Hr Hro Hs1 Hs2 Hnd Hro2. unfold vfs_link.
  apply wp_bind. destruct (vfs_lookup oldpath v) as [[[r p] v1]|] eqn:El;
    pose proof (vfs_lookup_wp R L E O v oldpath Hi Hu) as Hl; rewrite El in Hl;
    specialize (Hl ltac:(by eapply room_mono; [|done]) Hro Hs1); [|exact Hl].
  destruct Hl as [Hv Hp]. simpl. destruct (r =? 0) eqn:Er; boolify; simpl.
  2:{ by rewrite got_err in Hv by done. }
  subst r. rewrite got_ok in Hv. pose proof (Hnd p v1 El) as Hdir.
  pose proof (Hro2 p v1 eq_refl) as Hro1.
  destruct (within_live L E O v Hi E v1 p Hv) as (_ & Hlv & _); [done|].
  wp_call ltac:(by eapply second_parent_wp). intros [[[r d2] n2] v2] (Hv2 & Hk & Hn2).
  destruct (r =? 0) eqn:Er; boolify; simpl.
  2:{ rewrite got_err in Hv2 by done.
      wp_call ltac:(eapply (within_drop L E O v Hi R _ _ E); [exact Hv2|done|done]).
      intros v3 Hv3. exact Hv3. }
  subst r. rewrite got_ok in Hv2. destruct (Hn2 eq_refl) as [_ Hgn2].
  destruct (live_two L E O v p d2 v2 Hi Hv2) as (Hok & Hl1 & Hl2 & [f1 E1] & [f2 E2]).
  rewrite E1, E2. cbn [mbind option_bind].
  destruct ((f1 =? 0) || (f2 =? 0) || negb (f1 =? f2)) eqn:Ef; [by apply drop_two_wp|].
  destruct (f1 =? 0) eqn:E3, (f1 =? f2) eqn:E4; boolify; try done. subst f2.
  wp_call ltac:(eapply within_plain; [exact Hi|exact Hv2|apply le_plus_two|]).
  { apply (link_law _ d2 n2 p f1); try done. intros (t & Et & Ht). apply Hdir. exists t.
    destruct (Hk p Hlv Hl1) as [[_ <-] _]. done. }
  intros [r v3] Hv3. by apply drop_two_wp.
Qed.

(** ** Open and close *)

(** The vnode [vfs_open] opens: found, or made. *)
Lemma open_find_wp R L E O v path openflags :
  inv L E O v -> unlocked v -> vroom 3 (below v) -> roots_or R v -> long_name path ->
  wp R (if negb (Z.land openflags O_CREAT =? 0) then
          let excl := negb (Z.land openflags O_EXCL =? 0) in
          '(result, dir, name, v) ← vfs_lookparent path (NAME_MAX + 1) v;
          if negb (result =? 0) then Some (result, 0, v)
          else
            '(result, vn, v) ← on_below (vop_creat dir name excl) v;
            v ← do_below (vop_decref dir) v;
            Some (result, vn, v)
        else vfs_lookup path v)
    (fun '(r, p, v') => via L v (got r p E) O v' /\ (r = 0 -> p <> 0)).
Proof.
  intros Hi Hu Hr Hro Hs. assert (vroom 2 (below v)) as Hr2 by by eapply room_mono; [|done].
  destruct (negb (Z.land openflags O_CREAT =? 0)); [|by apply vfs_lookup_wp].
  cbn zeta. wp_call ltac:(by apply vfs_lookparent_wp).
  intros [[[r dir] name] v1] [Hv Hp]. destruct (r =? 0) eqn:Er; boolify; simpl.
  2:{ rewrite got_err in Hv |- * by done. by split. }
  subst r. rewrite got_ok in Hv. destruct (Hp eq_refl) as (_ & _ & Hn).
  destruct (within_live L E O v Hi E v1 dir Hv) as (Hok & Hlv & Hpos); [done|].
  destruct (creat_law _ dir name (negb (Z.land openflags O_EXCL =? 0)) Hok) as (r & p & s' & Ef & Hg);
    [|done|done|].
  { eapply (within_room L E O v Hi _ _ 1 1); [exact Hv|apply plus_one_le|done]. }
  unfold on_below. rewrite Ef. simpl.
  eapply within_gives in Hg as [Hv2 Hp2]; [|done|exact Hv|apply plus_one_le|done].
  wp_call ltac:(eapply within_drop; [exact Hi|exact Hv2|intros; apply got_swap|apply le_got]).
  intros v3 Hv3. simpl. by split.
Qed.

(** The file is open, and has to be truncated or not. *)
Lemma open_trunc_wp R L E O v vn openflags (canwrite : bool) v1 :
  inv L E O v -> via L v (plus E (one vn)) (plus O (one vn)) v1 ->
  wp R ('(result, v) ←
          (if negb (Z.land openflags O_TRUNC =? 0) then
             if negb canwrite then Some (EINVAL, v1)
             else on_below (vop_truncate vn 0) v1
           else Some (0, v1));
        if negb (result =? 0) then
          v ← do_below (vop_decopen vn) v;
          v ← do_below (vop_decref vn) v;
          Some (result, 0, v)
        else Some (0, vn, v))
    (fun '(r, p, v') => via L v (got r p E) (got r p O) v' /\ (r = 0 -> p = vn)).
Proof.
  intros Hi Hv. pose proof Hv as (Hi1 & _).
  assert (forall q, 0 <= O q <= E q) as Hoe by (intros q; apply (in_callers _ _ _ _ Hi q)).
  assert (0 < refs (below v1) vn) as Hlv.
  { eapply caller_live; [exact Hi1|]. unfold plus. rewrite one_eq. pose proof (Hoe vn). lia. }
  apply wp_bind. eapply (wp_mono R R _ (fun '(_, v') => via L v (plus E (one vn)) (plus O (one vn)) v')).
  - destruct (negb _); [|exact Hv]. destruct canwrite; [|exact Hv]. simpl.
    eapply wp_mono; [eapply plain_wp; [exact Hi1|apply truncate_law; [apply Hi1|done]]|done|].
    intros [r v2] Hv2. eapply via_trans; [exact Hi|exact Hv|apply plus_one_le|exact Hv2].
  - done.
  - intros [r v2] Hv2. destruct (r =? 0) eqn:Er; boolify; simpl; [by split|].
    pose proof Hv2 as (Hi2 & _). wp_call ltac:(by apply (decopen_wp R L E O)).
    intros v3 Hv3. eapply via_trans in Hv3; [|exact Hi|exact Hv2|apply plus_one_le].
    wp_call ltac:(eapply (within_drop L E O v Hi R _ _ E); [exact Hv3|done|done]).
    intros v4 Hv4. simpl. rewrite !got_err by done. by split.
Qed.

Lemma vfs_open_wp R L E O v path openflags :
  inv L E O v -> unlocked v -> vroom 3 (below v) -> roots_or R v -> long_name path ->
  wp R (vfs_open path openflags v) (fun '(r, p, v') =>
    via L v (got r p E) (got r p O) v' /\ (r = 0 -> p <> 0)).
Proof.
  intros Hi Hu Hr Hro Hs. unfold vfs_open. destruct (negb (_ || _)).
  { split; [by apply via_refl|done]. }
  wp_call ltac:(by apply open_find_wp). intros [[r p] v1] [Hv Hp].
  destruct (r =? 0) eqn:Er; boolify; simpl.
  2:{ rewrite !got_err in * by done. by split. }
  subst r. rewrite got_ok in Hv. specialize (Hp eq_refl). rewrite (proj2 (Z.eqb_neq _ _) Hp). simpl.
  destruct (within_live L E O v Hi E v1 p Hv) as (Hok & Hlv & Hpos); [done|].
  wp_call ltac:(eapply within_plain; [exact Hi|exact Hv|apply plus_one_le|by apply open_law]).
  intros [r v2] Hv2. destruct (r =? 0) eqn:Er; boolify; simpl.
  2:{ wp_call ltac:(eapply (within_drop L E O v Hi R _ _ E); [exact Hv2|done|done]).
      intros v3 Hv3. simpl. rewrite !got_err by done. by split. }
  pose proof Hv2 as (Hi2 & _). wp_call ltac:(apply (incopen_wp R L E O); [done| |]).
  { intros q. apply (in_callers _ _ _ _ Hi q). }
  { eapply (via_room _ _ _ _ _ _ _ 1 1); [exact Hi|exact Hv2|apply plus_one_le|].
    by eapply room_mono; [|done]. }
  intros v3 Hv3. eapply via_trans in Hv3; [|exact Hi|exact Hv2|apply plus_one_le].
  eapply wp_mono; [exact (open_trunc_wp R L E O v p openflags _ v3 Hi Hv3)|done|]. intros [[r' q] v4] [Hv4 Hq].
  split; [done|]. intros Hr0. by rewrite (Hq Hr0).
Qed.

Lemma vfs_close_wp R L E O v vn :
  inv L (plus E (one vn)) (plus O (one vn)) v -> (forall q, 0 <= O q <= E q) ->
  wp R (vfs_close vn v) (fun v' => inv L E O v' /\ same_vfs v v').
Proof.
  intros Hi Hoe. unfold vfs_close. wp_call ltac:(by apply (decopen_wp R L E O)).
  intros v1 (Hi1 & Hs1 & _). eapply wp_mono; [by apply (decref_wp R L E O)|done|].
  intros v2 (Hi2 & Hs2 & _). split; [done|]. by eapply same_trans.
Qed.

(** ** The current directory and the boot file system *)

(** The table is as it was. *)
Definition same_table v v' : Prop :=
  knowndevs v' = knowndevs v /\ v_kds v' = v_kds v /\
  knowndevs_lock v' = knowndevs_lock v /\ bootfs_lock v' = bootfs_lock v.

Lemma same_vfs_table v v' : same_vfs v v' -> same_table v v'.
Proof. by intros (? & ? & ? & ? & ? & ?). Qed.

Lemma same_table_trans v1 v2 v3 : same_table v1 v2 -> same_table v2 v3 -> same_table v1 v3.
Proof. intros (? & ? & ? & ?) (? & ? & ? & ?). split_and!; etransitivity; eassumption. Qed.

(** References pass between the callers and the layer. *)
Lemma inv_move L E O v b c E' :
  inv L E O v ->
  (forall q, q <> 0 -> one b q + one c q + E' q = one (bootfs_vnode v) q + one (t_cwd v) q + E q) ->
  (forall q, O q <= E' q) -> E' 0 = 0 ->
  (forall q, q <> 0 -> q = b \/ q = c -> vn_fs q (below v) <> Some 0) ->
  (c <> 0 -> dir_at c (below v)) ->
  inv L E' O (set_cwd c (set_bootfs b v)).
Proof.
  intros [Iok [T1 T2 T3 T4 T5 T6 T7] Ir Io Ic Id Idr Icw Ifs In] HE Hoe H0 Hd Hc.
  assert (forall q, q <> 0 -> 0 < E' q \/ q = b \/ q = c -> 0 < E q \/ q = bootfs_vnode v \/ q = t_cwd v)
    as Hsrc.
  { intros q Hq Hs. specialize (HE q Hq). destruct (Ic q), (decide (q = bootfs_vnode v)); [auto|].
    specialize (Hoe q). destruct (decide (q = t_cwd v)); [auto|]. left.
    rewrite (one_ne (bootfs_vnode v)), (one_ne (t_cwd v)) in HE by done.
    pose proof (one_range b q). pose proof (one_range c q).
    destruct Hs as [?|[->| ->]]; rewrite ?one_eq in *; lia. }
  constructor.
  - done.
  - constructor; [exact T1|exact T2|exact T3|exact T4|exact T5|exact T6|exact T7].
  - intros q Hq. specialize (HE q Hq). specialize (Ir q Hq). unfold owners in Ir.
    change (refs (below v) q = table_refs v q + one b q + one c q + E' q + L q). lia.
  - done.
  - intros q. specialize (Hoe q). destruct (Ic q). lia.
  - intros q Hq He Hf. destruct (Hsrc q Hq (or_introl He)) as [?|Hb]; [by apply Id|].
    by destruct (Idr q Hq Hb).
  - done.
  - done.
  - intros q fs Hq Hs Hf Hf0. apply (Ifs q fs); auto.
  - done.
Qed.

Lemma change_bootfs_wp R L E1 E O v newguy :
  inv L E1 O v -> (forall q, q <> 0 -> E1 q = E q + one newguy q) -> E 0 = 0 ->
  (forall q, 0 <= O q <= E q) -> unlocked v -> (newguy <> 0 -> vn_fs newguy (below v) <> Some 0) ->
  wp R (change_bootfs newguy v) (fun v' =>
    inv L E O v' /\ same_table v v' /\ bootfs_vnode v' = newguy /\ t_cwd v' = t_cwd v).
Proof.
  intros Hi HE He0 Hoe [Hl1 Hl2] Hf. unfold change_bootfs, lock_bootfs, same_table. rewrite Hl2. simpl.
  set (v1 := set_block false (set_bootfs newguy (set_block true v))).
  assert (forall E', (forall q, q <> 0 -> E' q = E q + one (bootfs_vnode v) q) -> E' 0 = 0 ->
    (forall q, O q <= E' q) -> inv L E' O v1) as Hmv.
  { intros E' HE' HE0 Hoe'. apply (inv_locks L E' O (set_cwd (t_cwd v) (set_bootfs newguy v)) false (knowndevs_lock v)).
    eapply inv_move; [exact Hi| |done|done| |apply (in_cwd _ _ _ _ Hi)].
    - intros q Hq. rewrite HE', HE by done. lia.
    - intros q Hq [->| ->]; [auto|]. apply (in_dirs _ _ _ _ Hi); auto. }
  destruct (bootfs_vnode v =? 0) eqn:Eb; boolify; simpl.
  - split; [|by split_and!]. apply Hmv; [|done|apply Hoe]. intros q Hq. rewrite one_ne by congruence. lia.
  - eapply wp_mono; [apply (decref_wp R L E O)|done|].
    + apply Hmv; [done| |].
      * unfold plus. by rewrite one_ne, He0 by done.
      * intros q. specialize (Hoe q). pose proof (plus_one_le E (bootfs_vnode v) q). lia.
    + done.
    + intros v2 (Hi2 & (? & ? & ? & ? & ? & ?) & _). split; [done|]. by split_and!.
Qed.

Lemma vfs_clearbootfs_wp R L E O v :
  inv L E O v -> unlocked v ->
  wp R (vfs_clearbootfs v) (fun v' => inv L E O v' /\ same_table v v').
Proof.
  intros Hi Hu. eapply wp_mono; [apply (change_bootfs_wp R L E E O v 0); try done|done|].
  - intros q Hq. rewrite one_ne by done. lia.
  - apply (in_null _ _ _ _ Hi).
  - intros q. apply (in_callers _ _ _ _ Hi q).
  - intros v' (? & ? & _). by split.
Qed.

(** The vnode becomes the current directory, and the old one is given up. *)
Lemma cwd_change_wp R L E1 E O v dir :
  inv L E1 O v -> (forall q, q <> 0 -> E1 q = E q + one dir q) -> E 0 = 0 ->
  (forall q, 0 <= O q <= E q) -> (dir <> 0 -> dir_at dir (below v) /\ vn_fs dir (below v) <> Some 0) ->
  wp R (if negb (t_cwd v =? 0) then do_below (vop_decref (t_cwd v)) (set_cwd dir v) else Some (set_cwd dir v))
    (fun v' => inv L E O v' /\ same_table v v' /\ t_cwd v' = dir /\ bootfs_vnode v' = bootfs_vnode v).
Proof.
  intros Hi HE He0 Hoe Hd.
  assert (forall E', (forall q, q <> 0 -> E' q = E q + one (t_cwd v) q) -> E' 0 = 0 ->
    (forall q, O q <= E' q) -> inv L E' O (set_cwd dir v)) as Hmv.
  { intros E' HE' HE0 Hoe'. apply (inv_move L E1 O v (bootfs_vnode v) dir E' Hi); [|done|done| |].
    - intros q Hq. rewrite HE', HE by done. lia.
    - intros q Hq [->| ->]; [apply (in_dirs _ _ _ _ Hi); auto|by apply Hd].
    - intros ?. by apply Hd. }
  destruct (t_cwd v =? 0) eqn:Eb; boolify; simpl.
  - split; [|by split_and!]. apply Hmv; [|done|apply Hoe]. intros q Hq. rewrite one_ne by congruence. lia.
  - eapply wp_mono; [apply (decref_wp R L E O)|done|].
    + apply Hmv; [done| |].
      * unfold plus. by rewrite one_ne, He0 by done.
      * intros q. specialize (Hoe q). pose proof (plus_one_le E (t_cwd v) q). lia.
    + done.
    + intros v2 (Hi2 & (? & ? & ? & ? & ? & ?) & _). split; [done|]. by split_and!.
Qed.

Lemma vfs_clearcurdir_wp R L E O v :
  inv L E O v -> wp R (vfs_clearcurdir v) (fun '(r, v') => r = 0 /\ inv L E O v' /\ same_table v v').
Proof.
  intros Hi. unfold vfs_clearcurdir. cbn zeta. wp_call ltac:(apply (cwd_change_wp R L E E O v 0); try done).
  - intros q Hq. rewrite one_ne by done. lia.
  - apply (in_null _ _ _ _ Hi).
  - intros q. apply (in_callers _ _ _ _ Hi q).
  - intros v' (? & ? & _). by split_and!.
Qed.

Lemma vfs_setcurdir_wp R L E O v dir :
  inv L (plus E (one dir)) O v -> dir <> 0 -> (forall q, 0 <= O q <= E q) ->
  wp R (vfs_setcurdir dir v) (fun '(r, v') =>
    r <> 0 /\ v' = v \/ r = 0 /\ inv L E O v' /\ same_table v v' /\ t_cwd v' = dir /\
                       bootfs_vnode v' = bootfs_vnode v).
Proof.
  intros Hi Hd Hoe. unfold vfs_setcurdir.
  assert (0 < plus E (one dir) dir) as He by (unfold plus; rewrite one_eq; pose proof (Hoe dir); lia).
  destruct (caller_live _ _ _ _ _ Hi He) as [_ Hlv].
  destruct (gettype_law _ _ (in_ok _ _ _ _ Hi) Hlv) as [[r t] Et]. rewrite Et. simpl.
  destruct (r =? 0) eqn:Er; boolify; simpl; [|by left].
  destruct (S_ISDIR t) eqn:Est; simpl; [|by left]. subst r.
  assert (dir_at dir (below v)) as Hda by by exists t.
  wp_call ltac:(apply (cwd_change_wp R L (plus E (one dir)) E O v dir); try done).
  - pose proof (in_null _ _ _ _ Hi) as H0. unfold plus in H0. rewrite one_ne in H0 by done. lia.
  - intros _. split; [done|]. by apply (vn_dir _ _ (in_ok _ _ _ _ Hi)).
  - intros v' (? & ? & ? & ?). right. by split_and!.
Qed.

Lemma vfs_chdir_wp R L E O v path :
  inv L E O v -> unlocked v -> vroom 2 (below v) -> roots_or R v -> long_name path ->
  wp R (vfs_chdir path v) (fun '(r, v') =>
    inv L E O v' /\ same_table v v' /\ bootfs_vnode v' = bootfs_vnode v /\ (r = 0 -> t_cwd v' <> 0)).
Proof.
  intros Hi Hu Hr Hro Hs. unfold vfs_chdir. wp_call ltac:(by apply vfs_lookup_wp).
  intros [[r p] v1] [Hv Hp]. pose proof Hv as (Hi1 & Hsv & _). pose proof (same_vfs_table _ _ Hsv) as Hs1.
  assert (bootfs_vnode v1 = bootfs_vnode v) as Eb by apply Hsv.
  assert (forall q, 0 <= O q <= E q) as Hoe by (intros q; apply (in_callers _ _ _ _ Hi q)).
  destruct (r =? 0) eqn:Er; boolify; simpl.
  2:{ rewrite got_err in Hi1 by done. by split_and!. }
  subst r. rewrite got_ok in Hv, Hi1. specialize (Hp eq_refl).
  wp_call ltac:(by apply (vfs_setcurdir_wp R L E O)).
  intros [r v2] [[Hr0 ->]|(-> & Hi2 & Hs2 & Ec & Eb2)]; simpl.
  - rewrite (proj2 (Z.eqb_neq _ _) Hr0). simpl.
    wp_call ltac:(eapply (within_drop L E O v Hi R _ _ E); [exact Hv|done|done]).
    intros v3 (Hi3 & Hs3 & _). simpl. split; [done|]. split; [by apply same_vfs_table|].
    split; [apply Hs3|done].
  - split; [done|]. split; [by eapply same_table_trans|]. split; [congruence|]. intros _. by rewrite Ec.
Qed.

Lemma strchr_at_some s c t : strchr_at s c = Some t -> t <> [].
Proof.
  induction s as [|d s IH]; simpl; [done|]. destruct (_ =? _); [by intros [= <-]|done].
Qed.

Lemma room_boot L E O v v' n :
  inv L E O v -> inv L E O v' -> same_table v v' -> bootfs_vnode v' = bootfs_vnode v ->
  vroom (n + 1) (below v) -> vroom n (below v').
Proof.
  intros Hi Hi' (E1 & E2 & _) Eb Hr q. specialize (Hr q). destruct (decide (q = 0)) as [->|Hq].
  - rewrite refs_0 in * by (apply (in_ok _ _ _ _ Hi) || apply (in_ok _ _ _ _ Hi')). lia.
  - rewrite (in_refs _ _ _ _ Hi) in Hr by done. rewrite (in_refs _ _ _ _ Hi') by done. unfold owners in *.
    assert (table_refs v' q = table_refs v q) as -> by (unfold table_refs, devs, keys; by rewrite E1, E2).
    rewrite Eb. pose proof (one_range (t_cwd v) q). pose proof (one_range (t_cwd v') q). lia.
Qed.

Lemma same_table_unlocked v v' : same_table v v' -> unlocked v -> unlocked v'.
Proof. intros (_ & _ & E1 & E2) [? ?]. split; congruence. Qed.

Lemma vfs_setbootfs_wp R L E O v fsname :
  inv L E O v -> unlocked v -> vroom 2 (below v) -> roots_or R v -> long_name fsname ->
  wp R (vfs_setbootfs fsname v) (fun '(r, v') =>
    inv L E O v' /\ same_table v v' /\ (r = 0 -> bootfs_vnode v' <> 0 /\ t_cwd v' = bootfs_vnode v')).
Proof.
  intros Hi Hu Hr Hro Hs. unfold vfs_setbootfs. cbn zeta. set (tmp := take _ fsname).
  assert (good_name tmp) as [Hst Hlt].
  { destruct Hs. split; [by apply list.Forall_take|]. unfold tmp. rewrite length_take. unfold NAME_MAX. lia. }
  destruct (strchr_at tmp COLON) as [t|] eqn:Et.
  { apply strchr_at_some in Et. rewrite (proj2 (Z.ltb_lt _ _)) by (destruct t; simpl; [done|lia]).
    by split_and!. }
  assert (long_name (tmp ++ [COLON])) as Hst2.
  { unfold NAME_MAX in Hlt. split; [|rewrite length_app; simpl; lia]. apply list.Forall_app. split; [done|]. constructor; [|done]. by unfold is_byte, COLON. }
  wp_call ltac:(by apply vfs_chdir_wp). intros [r v1] (Hi1 & Hs1 & Eb1 & Hc1).
  destruct (r =? 0) eqn:Er; boolify; simpl; [|by split_and!]. specialize (Hc1 Er).
  wp_call ltac:(apply vfs_getcurdir_wp; [exact Hi1|by apply (room_boot L E O v v1)]).
  intros [[r' p] v2] [(Hi2 & Hs2 & _) Hp]. destruct (r' =? 0) eqn:Er'; boolify; simpl.
  2:{ rewrite got_err in Hi2 by done. split; [done|]. split; [|done].
      eapply same_table_trans; [done|by apply same_vfs_table]. }
  subst r'. destruct (Hp eq_refl) as [Hp0 Ep]. rewrite got_ok in Hi2.
  assert (t_cwd v2 = p) as Ec2 by (destruct Hs2 as (_ & _ & _ & -> & _); done).
  wp_call ltac:(apply (change_bootfs_wp R L (plus E (one p)) E O v2 p); try done).
  - apply (in_null _ _ _ _ Hi).
  - intros q. apply (in_callers _ _ _ _ Hi q).
  - eapply same_unlocked; [exact Hs2|]. by eapply same_table_unlocked.
  - intros _. apply (in_dirs _ _ _ _ Hi2); auto.
  - intros v3 (Hi3 & Hs3 & Eb3 & Ec3). simpl. split; [done|]. split; [|intros _; by rewrite Eb3, Ec3].
    eapply same_table_trans; [exact Hs1|]. eapply same_table_trans; [by apply same_vfs_table|done].
Qed.
End ops.
