(* ===== verification/VfsTable.v ===== *)
(** * The table of devices of the VFS layer

    Adding devices, mounting and unmounting keep the invariant of the layer, and the
    names of the devices stay different. *)

From stdpp Require Import base option list gmap numbers.
From S2P Require Import Prelude Kmem Array Cstring Uio SfsMount Vfs VfsInv VfsOps.

(** ** The names of directories *)

(** A uio that has not been used yet takes as much as fits. *)
Lemma uiomove_min ptr n u w :
  uio_ok u w -> iov_len u = uio_resid u -> 0 <= n < 2 ^ 32 ->
  uiomove ptr n u w = uiomove ptr (Z.min n (uio_resid u)) u w.
Proof.
  intros Hu El Hn. pose proof Hu as ((? & ?) & (? & ?) & Hr & _).
  destruct (decide (n <= uio_resid u)); [by rewrite Z.min_l by lia|]. rewrite Z.min_r by lia.
  unfold uiomove. f_equal. destruct (decide (uio_resid u = 0)) as [E0|E0].
  { cbn [uiomove_loop]. by rewrite E0, !andb_false_r. }
  cbn [uiomove_loop]. rewrite El, (proj2 (Z.ltb_lt 0 n)), (proj2 (Z.ltb_lt 0 (uio_resid u))) by lia.
  rewrite (proj2 (Z.ltb_ge n (uio_resid u))), Z.ltb_irrefl by lia. cbn [andb].
  destruct (uio_resid u =? 0); [done|]. destruct (uio_transfer ptr (uio_resid u) u w) as [[[r p'] w']|]; [|done].
  cbn [mbind option_bind]. destruct (negb (r =? 0)); [done|].
  assert (uio_resid (uio_advance (uio_resid u) u) = 0) as ->.
  { simpl. by rewrite Z.sub_diag. }
  rewrite !andb_false_r. done.
Qed.

(** What is moved of a string. *)
Lemma uiomove_str name u w :
  uio_ok u w -> iov_len u = uio_resid u -> uio_rw u = UIO_READ -> long_name name ->
  exists r ptr u' w', uiomove name (u32 (Z.of_nat (length name))) u w = Some (r, ptr, u', w') /\
    uio_ok u' w' /\ (r = 0 -> iov_len u' = uio_resid u' /\ uio_rw u' = UIO_READ).
Proof.
  intros Hu El Hrw [Hs Hl]. rewrite u32_id by (unfold is_u32; lia). rewrite uiomove_min by (done || lia).
  pose proof Hu as (_ & (? & ?) & Hr & _).
  destruct (uiomove_moved name (Z.min (Z.of_nat (length name)) (uio_resid u)) u w Hu)
    as (r & bs & ptr & u' & w' & E & Hm & _); [lia|lia| |].
  { intros _. eapply list.Forall_impl; [exact Hs|]. by intros ? [? _]. }
  exists r, ptr, u', w'. split; [done|]. destruct Hm as (-> & Hok & Hk & _).
  split; [done|]. intros _. simpl. by rewrite El.
Qed.

Section table.
Context {H S : Type} `{!Kmalloc H, !KmallocLaws H, !Vnodes H S, !VnodesView S, !VnodesLaws H S}.
Implicit Types v : vfs S.

Lemma dlock_back v : knowndevs_lock v = false -> set_dlock false (set_dlock true v) = v.
Proof. destruct v. simpl. by intros ->. Qed.

Lemma getdevname_loop_wp v fs n i :
  table_ok v -> (i + n = numdevs v)%nat ->
  (exists j kd, (i <= j)%nat /\ devs v !! j = Some kd /\ kd_fs kd = fs) ->
  exists name, getdevname_loop n (Z.of_nat i) fs v = Some (Some name) /\ long_name name.
Proof.
  intros Ht. revert i. induction n as [|n IH]; intros i Hn (j & kd & Hj & Hk & Hf).
  { apply lookup_lt_Some in Hk. destruct (numdevs_keys v Ht). lia. }
  cbn [getdevname_loop]. destruct (getdev_wp v i Ht) as (k' & kd' & -> & _ & _ & Hk'); [lia|].
  cbn [mbind option_bind]. destruct (kd_fs kd' =? fs) eqn:E; boolify.
  - eexists. split; [done|]. apply (to_kd v Ht kd'). by eapply dev_elem.
  - replace (Z.of_nat i + 1) with (Z.of_nat (Datatypes.S i)) by lia. apply IH; [lia|].
    exists j, kd. split; [|done]. destruct (decide (i = j)) as [->|]; [congruence|lia].
Qed.

Lemma vfs_getdevname_wp v fs :
  table_ok v -> knowndevs_lock v = false -> fs <> 0 -> has_fs v fs ->
  exists name, vfs_getdevname fs v = Some (Some name, v) /\ long_name name.
Proof.
  intros Ht Hl Hf (kd & Hk & Ef). apply list_elem_of_lookup_1 in Hk as [j Hj].
  destruct (getdevname_loop_wp v fs (numdevs v) 0 Ht) as (name & E & Hn); [done|by exists j, kd; auto with lia|].
  exists name. split; [|done]. unfold vfs_getdevname, lock_knowndevs.
  rewrite (proj2 (Z.eqb_neq _ _) Hf), Hl. cbn [mbind option_bind negb].
  assert (forall n i, getdevname_loop n i fs (set_dlock true v) = getdevname_loop n i fs v) as ->.
  { induction n as [|n IH]; intros i; [done|]. cbn [getdevname_loop]. change (getdev i (set_dlock true v)) with (getdev i v).
    destruct (getdev i v) as [[? ?]|]; [|done]. cbn [mbind option_bind]. by rewrite IH. }
  change (numdevs (set_dlock true v)) with (numdevs v). change (Z.of_nat 0) with 0 in E. rewrite E.
  cbn [mbind option_bind]. unfold unlock_knowndevs. simpl. by rewrite dlock_back.
Qed.

Lemma cwd_end_wp R L E O v cwd (r : Z) (u : uio) (w : vm) v1 :
  inv L E O v -> via L v (plus E (one cwd)) O v1 ->
  wp R (v ← do_below (vop_decref cwd) v1; Some (r, u, w, v)) (fun '(_, _, _, v') => via L v E O v').
Proof.
  intros Hi Hv. wp_call ltac:(eapply (within_drop L E O v Hi R _ _ E); [exact Hv|done|done]).
  intros v2 Hv2. exact Hv2.
Qed.

(** The name of the file system of the current directory. *)
Lemma cwd_name v fs :
  below_ok (below v) -> table_ok v -> knowndevs_lock v = false -> fs <> 0 -> mounted (below v) fs -> has_fs v fs ->
  exists on name, fsop_getvolname fs (below v) = Some on /\
    match on with Some _ => Some (on, v) | None => vfs_getdevname fs v end = Some (Some name, v) /\
    long_name name.
Proof.
  intros Hok Ht Hl Hf Hm Hfs. destruct (volname_law _ _ Hok Hm) as (on & Eon & Hon).
  exists on. destruct on as [n|]; [by exists n; auto|].
  destruct (vfs_getdevname_wp v fs Ht Hl Hf Hfs) as (name & E & Hn). by exists name.
Qed.

Lemma vfs_getcwd_wp R L E O v u w :
  inv L E O v -> unlocked v -> vroom 1 (below v) ->
  uio_ok u w -> iov_len u = uio_resid u -> uio_rw u = UIO_READ ->
  wp R (vfs_getcwd u w v) (fun '(r, u', w', v') => via L v E O v').
Proof.
  intros Hi Hu Hr Huo El Hrw. unfold vfs_getcwd. apply wp_assert; [by apply bool_decide_eq_true_2|].
  wp_call ltac:(by apply vfs_getcurdir_wp). intros [[r cwd] v1] [Hv Hp].
  destruct (r =? 0) eqn:Er; boolify; simpl.
  2:{ by rewrite got_err in Hv by done. }
  subst r. rewrite got_ok in Hv. destruct (Hp eq_refl) as [Hc0 Ec]. pose proof Hv as (Hi1 & Hs1 & _).
  assert (cwd = t_cwd v1) as Ec1 by (destruct Hs1 as (_ & _ & _ & -> & _); done).
  destruct (dir_gotten _ _ _ _ _ Hi1 Hc0 (or_intror Ec1)) as [Hlv Hw].
  destruct (vn_live _ _ (in_ok _ _ _ _ Hi1) Hlv) as (_ & fs & Ef & Hm). rewrite Ef. simpl.
  assert (fs <> 0) as Hf0. { intros ->. by apply (in_dirs _ _ _ _ Hi1 cwd Hc0 (or_intror Ec1)). }
  rewrite (proj2 (Z.eqb_neq _ _) Hf0). simpl.
  destruct (cwd_name v1 fs) as (on & name & -> & En & Hname);
    [apply Hi1|apply Hi1|by apply (same_unlocked _ _ Hs1)|done|by apply Hm|by apply Hw|].
  cbn [mbind option_bind]. rewrite En.
  cbn [mbind option_bind]. destruct (uiomove_str name u w Huo El Hrw Hname) as (r & ptr & u1 & w1 & -> & Hu1 & Hr1).
  cbn [mbind option_bind].
  destruct (r =? 0) eqn:Er; boolify; cbn [negb mbind option_bind]; [|by apply cwd_end_wp].
  destruct (Hr1 Er) as [El1 Hrw1].
  destruct (uiomove_str [COLON] u1 w1 Hu1 El1 Hrw1) as (r2 & ptr2 & u2 & w2 & Em & Hu2 & _).
  { split; [|done]. constructor; [|done]. by unfold is_byte, COLON. }
  change (u32 (Z.of_nat (length [COLON]))) with 1 in Em. rewrite Em. cbn [mbind option_bind].
  destruct (r2 =? 0); cbn [negb mbind option_bind]; [|by apply cwd_end_wp].
  destruct (namefile_law (below v1) cwd u2 w2 (in_ok _ _ _ _ Hi1) Hlv) as (r3 & u3 & w3 & s3 & Ef3 & Hst3).
  { rewrite Ec1. apply (in_cwd _ _ _ _ Hi1). congruence. }
  assert (wp R (on_below (fun s => Some (r3, s3)) v1) (fun '(_, v2) => via L v (plus E (one cwd)) O v2)) as Hw3.
  { eapply within_plain; [exact Hi|exact Hv|apply plus_one_le|]. by exists r3, s3. }
  unfold on_below. rewrite Ef3. simpl in Hw3 |- *. by apply cwd_end_wp.
Qed.

(** ** Sync *)

Lemma fsync_wp R L E O v kd :
  inv L E O v -> kd ∈ devs v -> kd_fs kd <> 0 ->
  wp R (on_below (fsop_sync (kd_fs kd)) v) (fun '(r, v') =>
    via L v E O v' /\ (r = 0 -> flushed (kd_fs kd) (below v'))).
Proof.
  intros Hi Hk Hf. pose proof (ko_fs _ _ (to_kd _ (in_table _ _ _ _ Hi) kd Hk) Hf) as Hm.
  destruct (sync_law _ _ (in_ok _ _ _ _ Hi) Hm) as (r & s' & Es & Hst & Hc).
  pose proof (plain_wp R L E O v (fsop_sync (kd_fs kd)) Hi) as Hw. unfold on_below in *. rewrite Es in *.
  split; [|done]. apply Hw. by exists r, s'.
Qed.

Lemma same_numdevs v v' : same_vfs v v' -> numdevs v' = numdevs v.
Proof. intros (E1 & _). unfold numdevs. by rewrite E1. Qed.

Lemma sync_loop_wp R L E O v n i v1 :
  inv L E O v -> via L v E O v1 -> (i + n = numdevs v)%nat ->
  wp R (sync_loop n (Z.of_nat i) v1) (fun v' => via L v E O v').
Proof.
  intros Hi. revert i v1. induction n as [|n IH]; intros i v1 Hv Hn; cbn [sync_loop]; [exact Hv|].
  pose proof Hv as (Hi1 & Hs1 & _).
  destruct (getdev_wp v1 i (in_table _ _ _ _ Hi1)) as (k & kd & -> & _ & _ & Hk).
  { rewrite (same_numdevs v) by done. lia. }
  cbn [mbind option_bind]. apply wp_bind. eapply (wp_mono R R _ (fun v' => via L v E O v')).
  - destruct (kd_fs kd =? 0) eqn:Ef; boolify; [exact Hv|]. cbn [negb].
    wp_call ltac:(apply fsync_wp; [exact Hi1|by eapply dev_elem|done]). intros [r v2] [Hv2 _].
    eapply via_trans; [exact Hi|exact Hv|done|exact Hv2].
  - done.
  - intros v2 Hv2. replace (Z.of_nat i + 1) with (Z.of_nat (Datatypes.S i)) by lia. apply IH; [done|lia].
Qed.

Lemma vfs_sync_wp R L E O v :
  inv L E O v -> unlocked v -> wp R (vfs_sync v) (fun '(r, v') => r = 0 /\ via L v E O v').
Proof.
  intros Hi [Hl _]. unfold vfs_sync, lock_knowndevs. rewrite Hl. simpl.
  assert (inv L E O (set_dlock true v)) as Hi1 by by apply inv_dlock.
  wp_call ltac:(apply (sync_loop_wp R L E O (set_dlock true v) _ 0); [done|by apply via_refl|done]).
  intros v1 Hv. apply via_unlock in Hv as [Hl1 Hv]; [|done].
  unfold unlock_knowndevs. rewrite Hl1. simpl. by split.
Qed.

(** ** One entry of the table changes *)

Lemma keys_nodup_inj v i j k :
  table_ok v -> keys v !! i = Some k -> keys v !! j = Some k -> i = j.
Proof. intros Ht Hi Hj. eapply NoDup_lookup; [apply Ht|done|done]. Qed.

Lemma devs_set_kd v i k kd kd' :
  table_ok v -> keys v !! i = Some k -> v_kds v !! k = Some kd ->
  devs (set_kd k kd' v) = <[i := kd']> (devs v).
Proof.
  intros Ht Hi Hk. apply list_eq. intros j. unfold devs at 1. rewrite omap_lookup_total.
  2:{ intros x Hx. simpl. destruct (decide (x = k)) as [->|]; [rewrite lookup_insert_eq; eauto|].
      rewrite lookup_insert_ne by done. by apply (to_kds v Ht). }
  change (keys (set_kd k kd' v)) with (keys v). change (v_kds (set_kd k kd' v)) with (<[k := kd']> (v_kds v)).
  assert (i < length (devs v))%nat as Hlt.
  { destruct (numdevs_keys v Ht) as [_ ->]. by eapply lookup_lt_Some. }
  destruct (decide (j = i)) as [->|Hne].
  - rewrite Hi, list_lookup_insert_eq by done. simpl. by rewrite lookup_insert_eq.
  - rewrite list_lookup_insert_ne, devs_lookup by done. destruct (keys v !! j) as [x|] eqn:Hj; [|done].
    simpl. rewrite lookup_insert_ne; [done|]. intros ->. apply Hne. by eapply keys_nodup_inj.
Qed.

Lemma set_kd_blocks v k kd kd' :
  v_kds v !! k = Some kd -> kd_blocks k kd' = kd_blocks k kd ->
  vfs_blocks (set_kd k kd' v) = vfs_blocks v.
Proof.
  intros Hk Hb. unfold vfs_blocks. f_equal. change (keys (set_kd k kd' v)) with (keys v).
  induction (keys v) as [|x l IH]; [done|]. rewrite !bind_cons, IH. f_equal. unfold key_blocks. simpl.
  destruct (decide (x = k)) as [->|]; [by rewrite lookup_insert_eq, Hk|by rewrite lookup_insert_ne].
Qed.

(** Only the file system of a device changed; no vnode of its old one is in memory. *)
Record fs_changed v (i : nat) (kd : knowndev) (f : Z) (s' : S) : Prop := {
  fc_ok : below_ok s';
  fc_heap : kept_others (heap_of (below v)) (vn_blocks (below v)) (heap_of s') (vn_blocks s');
  fc_refs : forall q, refs s' q = refs (below v) q;
  fc_opens : forall q, opens s' q = opens (below v) q;
  fc_vn : forall q, 0 < refs (below v) q ->
    vn_fs q s' = vn_fs q (below v) /\ vop_gettype q s' = vop_gettype q (below v);
  fc_gone : forall q, 0 < refs (below v) q -> vn_fs q (below v) = Some (kd_fs kd) -> kd_fs kd = 0;
  fc_kd : kd_ok s' (set_kd_fs f kd);
  fc_others : forall j kj, devs v !! j = Some kj -> j <> i ->
    kd_ok s' kj /\ apart (set_kd_fs f kd) kj /\ apart kj (set_kd_fs f kd);
}.

Lemma table_set_fs v i k kd f s' :
  table_ok v -> keys v !! i = Some k -> v_kds v !! k = Some kd -> fs_changed v i kd f s' ->
  table_ok (set_kd k (set_kd_fs f kd) (set_below s' v)).
Proof.
  intros Ht Hi Hk [Hok K Hrefs Ho Hvn Hg Hkd Hoth].
  pose proof (devs_set_kd v i k kd (set_kd_fs f kd) Ht Hi Hk) as Hd.
  pose proof (set_kd_blocks v k kd (set_kd_fs f kd) Hk eq_refl) as Hb.
  destruct (vn_heap s' Hok) as [Hh Hown]. pose proof Ht as [Tc Tn Tk Ta To Td Tp].
  pose proof (owns_kept _ _ _ _ _ K Hown To) as Hf.
  constructor; [exact Tc|exact Tn| | |simpl; rewrite <- Hb in Hf; exact Hf| |].
  - intros x Hx. simpl. destruct (decide (x = k)) as [->|]; [rewrite lookup_insert_eq; eauto|].
    rewrite lookup_insert_ne by done. by apply Tk.
  - destruct Ta as (_ & _ & ?). split; [done|]. split; [|done].
    unfold vfs_blocks in Hf. rewrite <- app_assoc in Hf. by apply owns_app in Hf as [? _].
  - intros x [j Hj]%list_elem_of_lookup_1.
    change (devs (set_kd k (set_kd_fs f kd) v) !! j = Some x) in Hj. rewrite Hd in Hj.
    apply list_lookup_insert_Some in Hj as [(<- & <- & _)|(Hne & Hj)]; [exact Hkd|].
    destruct (Hoth j x Hj) as [Hx _]; [done|exact Hx].
  - intros a b x y Ha Hb2 Hab.
    change (devs (set_kd k (set_kd_fs f kd) v) !! a = Some x) in Ha. rewrite Hd in Ha.
    change (devs (set_kd k (set_kd_fs f kd) v) !! b = Some y) in Hb2. rewrite Hd in Hb2.
    apply list_lookup_insert_Some in Ha as [(<- & <- & _)|(Hne & Ha)];
      apply list_lookup_insert_Some in Hb2 as [(<- & <- & _)|(Hne2 & Hb2)]; [by destruct Hab|..].
    + by apply (Hoth b).
    + by apply (Hoth a).
    + by eapply Tp.
Qed.

Lemma inv_set_fs L E O v i k kd f s' :
  inv L E O v -> keys v !! i = Some k -> v_kds v !! k = Some kd -> fs_changed v i kd f s' ->
  inv L E O (set_kd k (set_kd_fs f kd) (set_below s' v)).
Proof.
  intros Hv Hi Hk Hc. pose proof (in_table _ _ _ _ Hv) as Ht.
  pose proof (devs_set_kd v i k kd (set_kd_fs f kd) Ht Hi Hk) as Hd.
  pose proof (table_set_fs v i k kd f s' Ht Hi Hk Hc) as Ht'.
  assert (devs v !! i = Some kd) as Hdi by (rewrite devs_lookup, Hi by done; exact Hk).
  set (v' := set_kd _ _ _) in *. change (devs v' = <[i := set_kd_fs f kd]> (devs v)) in Hd.
  assert (forall q, table_refs v' q = table_refs v q) as Htr.
  { intros q. unfold table_refs. rewrite Hd, list_fmap_insert. simpl.
    rewrite list_insert_id; [done|]. by rewrite list_lookup_fmap, Hdi. }
  assert (forall q, q <> 0 -> 0 < E q \/ q = bootfs_vnode v \/ q = t_cwd v -> 0 < refs (below v) q) as Hlv.
  { intros q Hq [He|Hb]; [by eapply caller_live|by eapply dir_gotten]. }
  destruct Hv as [Iok _ Ir Io Ic Id Idr Icw Ifs In]. destruct Hc as [Hok K Hrefs Ho Hvn Hg Hkd Hoth].
  constructor.
  - exact Hok.
  - exact Ht'.
  - intros q Hq. change (refs s' q = owners v' q + E q + L q). rewrite Hrefs, (Ir q Hq).
    unfold owners. by rewrite (Htr q).
  - intros q. simpl. by rewrite Ho.
  - done.
  - intros q Hq He. change (vn_fs q s' = Some 0 -> 0 < table_refs v' q). rewrite (Htr q). destruct (Hvn q) as [-> _]; auto.
  - intros q Hq Hb. change (vn_fs q s' <> Some 0). destruct (Hvn q) as [-> _]; auto.
  - intros Hc. destruct (Icw Hc) as (t & Et & Hst). exists t.
    change (vop_gettype (t_cwd v) s' = Some (0, t) /\ S_ISDIR t = true).
    destruct (Hvn (t_cwd v)) as [_ ->]; auto.
  - intros q fs Hq Hs Hf Hf0. change (vn_fs q s' = Some fs) in Hf. specialize (Hlv q Hq Hs). destruct (Hvn q Hlv) as [E1 _].
    rewrite E1 in Hf. destruct (Ifs q fs Hq Hs Hf Hf0) as (kd2 & [j Hj]%list_elem_of_lookup_1 & E2).
    destruct (decide (j = i)) as [->|Hne].
    + assert (kd2 = kd) as -> by congruence. subst fs. by destruct Hf0; apply (Hg q).
    + exists kd2. split; [|done]. change (kd2 ∈ devs v'). rewrite Hd. apply (list_elem_of_lookup_2 _ j).
      by rewrite list_lookup_insert_ne.
  - exact In.
Qed.

(** ** Mounting *)

(** What [vfs_mount] is promised by the function it is given. *)
Definition mount_law (f : Z -> S -> option (Z * Z * S)) : Prop :=
  forall s dev, below_ok s -> idle s dev -> dev <> 0 ->
    exists r fs s', f dev s = Some (r, fs, s') /\
      (r <> 0 -> vstep s none none s') /\
      (r = 0 -> fs <> 0 /\ ~ mounted s fs /\ mounted s' fs /\ fs_dev s' fs = dev /\
        below_ok s' /\ kept_others (heap_of s) (vn_blocks s) (heap_of s') (vn_blocks s') /\
        (forall q, refs s' q = refs s q) /\ (forall q, opens s' q = opens s q) /\
        same_but fs s s' /\ (forall d, idle s' d <-> idle s d /\ d <> dev)).

Lemma findmount_loop_wp v devname n i :
  table_ok v -> (i + n = numdevs v)%nat ->
  exists found, findmount_loop n (Z.of_nat i) devname v = Some found /\
    forall k kd, found = Some (k, kd) -> exists j, keys v !! j = Some k /\ v_kds v !! k = Some kd /\
      devs v !! j = Some kd /\ has_rawname kd = true /\ (kd_name kd).2 = devname.
Proof.
  intros Ht. revert i. induction n as [|n IH]; intros i Hn; cbn [findmount_loop]; [by eexists|].
  destruct (getdev_wp v i Ht) as (k & kd & -> & Hk & Hkd & Hd); [lia|]. cbn [mbind option_bind].
  destruct (IH (Datatypes.S i)) as (found & E & Hf); [lia|].
  replace (Z.of_nat (Datatypes.S i)) with (Z.of_nat i + 1) in E by lia.
  destruct (has_rawname kd) eqn:Er; simpl; [|by exists found].
  unfold streq. case_bool_decide as Es; [|by exists found].
  eexists. split; [done|]. intros k' kd' [= <- <-]. by exists i.
Qed.

Lemma findmount_wp v devname :
  table_ok v -> knowndevs_lock v = true ->
  exists found, findmount devname v = Some found /\
    forall k kd, found = Some (k, kd) -> exists j, keys v !! j = Some k /\ v_kds v !! k = Some kd /\
      devs v !! j = Some kd /\ has_rawname kd = true /\ (kd_name kd).2 = devname.
Proof.
  intros Ht Hl. unfold findmount. rewrite Hl. apply (findmount_loop_wp v devname _ 0 Ht). lia.
Qed.

(** A device that can be mounted is found by its name. *)
Lemma findmount_found v devname i kd :
  table_ok v -> knowndevs_lock v = true -> devs v !! i = Some kd -> has_rawname kd = true -> (kd_name kd).2 = devname ->
  findmount devname v <> Some None.
Proof.
  intros Ht Hl Hd Hr Hn. unfold findmount. rewrite Hl. destruct (numdevs_keys v Ht) as [En El].
  assert (i < numdevs v)%nat as Hi by (apply lookup_lt_Some in Hd; lia).
  assert (forall n j, (j + n = numdevs v)%nat -> (j <= i)%nat -> findmount_loop n (Z.of_nat j) devname v <> Some None) as Hloop.
  { induction n as [|n IH]; intros j Hj Hij; [lia|]. cbn [findmount_loop].
    destruct (getdev_wp v j Ht) as (k & kj & -> & _ & _ & Hdj); [lia|]. cbn [mbind option_bind].
    replace (Z.of_nat j + 1) with (Z.of_nat (Datatypes.S j)) by lia. destruct (decide (j = i)) as [->|Hne].
    - rewrite Hd in Hdj. injection Hdj as <-. rewrite Hr, Hn. simpl. unfold streq. by rewrite bool_decide_eq_true_2.
    - destruct (negb (has_rawname kj)); [apply IH; lia|]. destruct (streq devname _); [done|apply IH; lia]. }
  apply (Hloop (numdevs v) 0%nat); lia.
Qed.

(** The table is as it was, but for the file systems. *)
Definition same_but_fs v v' : Prop :=
  knowndevs v' = knowndevs v /\ set_kd_fs 0 <$> devs v' = set_kd_fs 0 <$> devs v /\
  bootfs_vnode v' = bootfs_vnode v /\ t_cwd v' = t_cwd v.

Lemma same_but_fs_refl v : same_but_fs v v.
Proof. done. Qed.

Lemma same_but_fs_trans v1 v2 v3 : same_but_fs v1 v2 -> same_but_fs v2 v3 -> same_but_fs v1 v3.
Proof. intros (? & ? & ? & ?) (? & ? & ? & ?). split_and!; etransitivity; eassumption. Qed.

Lemma same_vfs_but v v' : same_vfs v v' -> same_but_fs v v'.
Proof. intros Hs. destruct (same_devs v v' Hs) as [_ E]. destruct Hs as (? & ? & ? & ? & _). unfold same_but_fs. by rewrite E. Qed.

Lemma set_kd_but_fs v i k kd f s' :
  table_ok v -> keys v !! i = Some k -> v_kds v !! k = Some kd -> devs v !! i = Some kd ->
  same_but_fs v (set_kd k (set_kd_fs f kd) (set_below s' v)).
Proof.
  intros Ht Hi Hk Hd. split; [done|]. split; [|done].
  change (devs (set_kd k (set_kd_fs f kd) (set_below s' v))) with (devs (set_kd k (set_kd_fs f kd) v)).
  rewrite (devs_set_kd v i k kd) by done. rewrite list_fmap_insert. apply list_insert_id.
  by rewrite list_lookup_fmap, Hd.
Qed.

(** A device got a file system. *)
Lemma mount_changed L E O v i k kd fs s' :
  inv L E O v -> keys v !! i = Some k -> v_kds v !! k = Some kd -> devs v !! i = Some kd ->
  has_rawname kd = true -> kd_fs kd = 0 -> fs <> 0 -> ~ mounted (below v) fs -> mounted s' fs ->
  fs_dev s' fs = kd_device kd -> below_ok s' ->
  kept_others (heap_of (below v)) (vn_blocks (below v)) (heap_of s') (vn_blocks s') ->
  (forall q, refs s' q = refs (below v) q) -> (forall q, opens s' q = opens (below v) q) ->
  same_but fs (below v) s' -> (forall d, idle s' d <-> idle (below v) d /\ d <> kd_device kd) ->
  fs_changed v i kd fs s'.
Proof.
  intros Hv Hi Hk Hd Hraw Hf0 Hfs Hnm Hm Hdev Hok K Hr Ho Hsb Hidle.
  pose proof (in_table _ _ _ _ Hv) as Ht. pose proof (to_kd _ Ht kd (dev_elem _ _ _ Hd)) as Hko.
  assert (forall q, 0 < refs (below v) q ->
    vn_fs q s' = vn_fs q (below v) /\ vop_gettype q s' = vop_gettype q (below v)) as Hvn.
  { intros q Hq. apply (sb_vn _ _ _ Hsb); [done|]. by rewrite Hr. }
  constructor; try done.
  - destruct Hko as [Kn [Kr Kv] Kf Kd Kid Kon]. constructor; simpl; try done.
    + rewrite Hr. destruct (Hvn _ Kr) as [-> _]. done.
    + intros _. apply Kd. by right.
  - intros j kj Hj Hne. pose proof (to_kd _ Ht kj (dev_elem _ _ _ Hj)) as [Kn [Kr Kv] Kf Kd Kid Kon].
    destruct (to_apart _ Ht j i kj kd Hj Hd Hne) as [Af Ad].
    assert (kd_fs kj <> 0 -> kd_fs kj <> fs) as Hdiff by (intros ? E1; subst fs; auto).
    split; [|split].
    + constructor; [done| | |done| |].
      * rewrite Hr. destruct (Hvn _ Kr) as [-> _]. done.
      * intros Hn. apply (sb_mounted _ _ _ Hsb); auto.
      * intros ? ?. apply Hidle. auto.
      * intros Hn ?. rewrite (sb_fsdev _ _ _ Hsb); auto.
    + split; [|intros _ ?; by apply not_eq_sym, Ad]. simpl. intros E1. destruct (decide (kd_fs kj = 0)); [congruence|].
      by destruct (Hdiff ltac:(done)).
    + split; [|auto]. simpl. intros E1. destruct (decide (kd_fs kj = 0)); [done|]. by destruct (Hdiff ltac:(done)).
Qed.

(** A device lost its file system. *)
Lemma unmount_changed L E O v i k kd s' :
  inv L E O v -> keys v !! i = Some k -> v_kds v !! k = Some kd -> devs v !! i = Some kd ->
  has_rawname kd = true -> kd_fs kd <> 0 ->
  (forall q, 0 < refs (below v) q -> vn_fs q (below v) <> Some (kd_fs kd)) -> below_ok s' ->
  kept_others (heap_of (below v)) (vn_blocks (below v)) (heap_of s') (vn_blocks s') ->
  (forall q, refs s' q = refs (below v) q) -> (forall q, opens s' q = opens (below v) q) ->
  same_but (kd_fs kd) (below v) s' ->
  (forall d, idle s' d <-> idle (below v) d \/ d = fs_dev (below v) (kd_fs kd)) ->
  fs_changed v i kd 0 s'.
Proof.
  intros Hv Hi Hk Hd Hraw Hf0 Hgone Hok K Hr Ho Hsb Hidle.
  pose proof (in_table _ _ _ _ Hv) as Ht. pose proof (to_kd _ Ht kd (dev_elem _ _ _ Hd)) as Hko.
  assert (forall q, 0 < refs (below v) q ->
    vn_fs q s' = vn_fs q (below v) /\ vop_gettype q s' = vop_gettype q (below v)) as Hvn.
  { intros q Hq. apply (sb_vn _ _ _ Hsb); [done|]. by rewrite Hr. }
  constructor; try done.
  - intros q Hq Hf. by destruct (Hgone q Hq).
  - destruct Hko as [Kn [Kr Kv] Kf Kd Kid Kon]. constructor; simpl; try done.
    + rewrite Hr. destruct (Hvn _ Kr) as [-> _]. done.
    + intros _. apply Kd. by right.
    + intros _ _. apply Hidle. right. by rewrite Kon.
  - intros j kj Hj Hne. pose proof (to_kd _ Ht kj (dev_elem _ _ _ Hj)) as [Kn [Kr Kv] Kf Kd Kid Kon].
    destruct (to_apart _ Ht j i kj kd Hj Hd Hne) as [Af Ad].
    assert (kd_fs kj <> 0 -> kd_fs kj <> kd_fs kd) as Hdiff by (intros ? ?; auto).
    split; [|split].
    + constructor; [done| | |done| |].
      * rewrite Hr. destruct (Hvn _ Kr) as [-> _]. done.
      * intros Hn. apply (sb_mounted _ _ _ Hsb); auto.
      * intros ? ?. apply Hidle. auto.
      * intros Hn ?. rewrite (sb_fsdev _ _ _ Hsb); auto.
    + split; [done|]. intros _ ?. by apply not_eq_sym, Ad.
    + by split; [|auto].
Qed.

(** What an operation with the lock of the table leaves. *)
Definition with_lock L E O v v' : Prop :=
  inv L E O v' /\ same_but_fs v v' /\ knowndevs_lock v' = true /\ bootfs_lock v' = false.

Lemma with_lock_refl L E O v :
  inv L E O v -> unlocked v -> with_lock L E O v (set_dlock true v).
Proof. intros Hi [? ?]. by split; [apply inv_dlock|]. Qed.

Lemma with_lock_via L E O v v1 v2 : with_lock L E O v v1 -> via L v1 E O v2 -> with_lock L E O v v2.
Proof.
  intros (Hi & Hs & Hl1 & Hl2) (Hi2 & Hs2 & _). split; [done|].
  split; [eapply same_but_fs_trans; [done|by apply same_vfs_but]|].
  destruct Hs2 as (_ & _ & _ & _ & -> & ->). done.
Qed.

Lemma with_lock_fs L E O v v1 i k kd f s' :
  with_lock L E O v v1 -> keys v1 !! i = Some k -> v_kds v1 !! k = Some kd -> devs v1 !! i = Some kd ->
  fs_changed v1 i kd f s' -> with_lock L E O v (set_kd k (set_kd_fs f kd) (set_below s' v1)).
Proof.
  intros (Hi & Hs & Hl) Hk Hkd Hd Hc. split; [by eapply inv_set_fs|]. split; [|done].
  eapply same_but_fs_trans; [exact Hs|]. by eapply set_kd_but_fs; [apply Hi|..].
Qed.

Lemma with_lock_end L E O v v1 (r : Z) :
  with_lock L E O v v1 ->
  exists v', unlock_knowndevs v1 = Some v' /\ inv L E O v' /\ same_but_fs v v' /\ unlocked v'.
Proof.
  intros (Hi & Hs & Hl1 & Hl2). exists (set_dlock false v1). unfold unlock_knowndevs. rewrite Hl1.
  split; [done|]. split; [by apply inv_dlock|]. split; [exact Hs|]. by split.
Qed.

Lemma vfs_mount_wp R L E O v devname f :
  inv L E O v -> unlocked v -> mount_law f ->
  wp R (vfs_mount devname f v) (fun '(r, v') => inv L E O v' /\ same_but_fs v v' /\ unlocked v').
Proof.
  intros Hi Hu Hf. pose proof (with_lock_refl L E O v Hi Hu) as Hw. pose proof Hu as [Hl _].
  unfold vfs_mount, lock_knowndevs. rewrite Hl. cbn [negb mbind option_bind].
  set (v1 := set_dlock true v) in *. pose proof Hw as (Hi1 & _).
  destruct (findmount_wp v1 devname (in_table _ _ _ _ Hi1) eq_refl) as (found & -> & Hfound).
  cbn [mbind option_bind]. apply wp_bind.
  eapply (wp_mono R R _ (fun '(_, v2) => with_lock L E O v v2)); [|done|].
  2:{ intros [r v2] Hv2. destruct (with_lock_end L E O v v2 r Hv2) as (v' & -> & ?). done. }
  destruct found as [[k kd]|]; [|exact Hw]. destruct (Hfound k kd eq_refl) as (i & Hk & Hkd & Hd & Hr & _).
  destruct (kd_fs kd =? 0) eqn:Ef; boolify; cbn [negb]; [|exact Hw].
  pose proof (to_kd _ (in_table _ _ _ _ Hi1) kd (dev_elem _ _ _ Hd)) as Hko.
  apply wp_assert; [done|]. pose proof (ko_dev _ _ Hko (or_introl Ef)) as Hd0.
  apply wp_assert; [by rewrite (proj2 (Z.eqb_neq _ _) Hd0)|].
  destruct (Hf (below v1) (kd_device kd) (in_ok _ _ _ _ Hi1) (ko_idle _ _ Hko Ef Hr) Hd0)
    as (r & fs & s' & E1 & Hbad & Hgood).
  unfold on_below. rewrite E1. cbn [mbind option_bind].
  destruct (r =? 0) eqn:Er; boolify; cbn [negb].
  2:{ eapply with_lock_via; [exact Hw|]. apply (inv_step L E O v1 none none s'); auto.
      - intros q. unfold none. lia.
      - intros q. unfold none. lia.
      - intros q. apply (in_callers _ _ _ _ Hi1 q).
      - intros q _. unfold none. lia. }
  destruct (Hgood Er) as (Hf0 & Hnm & Hm & Hdev & Hok & K & Hrf & Ho & Hsb & Hidle).
  apply wp_assert; [by rewrite (proj2 (Z.eqb_neq _ _) Hf0)|].
  destruct (volname_law s' fs Hok Hm) as (n & En & _). cbn zeta.
  match goal with |- context [fsop_getvolname fs ?x] => change x with s' end. rewrite En. cbn [mbind option_bind].
  apply (with_lock_fs L E O v v1 i); try done. by eapply mount_changed.
Qed.

(** Unmounting a device, after a sync. *)
Lemma unmount_dev_wp R L E O v v1 i k kd :
  with_lock L E O v v1 -> keys v1 !! i = Some k -> v_kds v1 !! k = Some kd -> devs v1 !! i = Some kd ->
  has_rawname kd = true -> kd_fs kd <> 0 -> flushed (kd_fs kd) (below v1) ->
  wp R (on_below (fsop_unmount (kd_fs kd)) v1) (fun '(r, v2) =>
    if r =? 0 then with_lock L E O v (set_kd k (set_kd_fs 0 kd) v2) else with_lock L E O v v2).
Proof.
  intros Hw Hk Hkd Hd Hr Hf Hc. pose proof Hw as (Hi1 & _).
  pose proof (ko_fs _ _ (to_kd _ (in_table _ _ _ _ Hi1) kd (dev_elem _ _ _ Hd)) Hf) as Hm.
  destruct (unmount_law _ _ (in_ok _ _ _ _ Hi1) Hm Hc) as (r & s' & E1 & Hbad & Hgood).
  unfold on_below. rewrite E1. cbn [mbind option_bind wp].
  destruct (r =? 0) eqn:Er; boolify.
  - destruct (Hgood Er) as (Hgone & Hok & K & Hrf & Ho & Hsb & _ & Hidle).
    apply (with_lock_fs L E O v v1 i); try done. by eapply unmount_changed.
  - eapply with_lock_via; [exact Hw|]. apply (inv_step L E O v1 none none s'); auto.
    + intros q. unfold none. lia.
    + intros q. unfold none. lia.
    + intros q. apply (in_callers _ _ _ _ Hi1 q).
    + intros q _. unfold none. lia.
Qed.

Lemma same_vfs_entry v v' i k kd :
  same_vfs v v' -> keys v !! i = Some k -> v_kds v !! k = Some kd -> devs v !! i = Some kd ->
  keys v' !! i = Some k /\ v_kds v' !! k = Some kd /\ devs v' !! i = Some kd.
Proof. intros Hs. destruct (same_devs v v' Hs) as [-> ->]. by destruct Hs as (_ & -> & _). Qed.

Lemma vfs_unmount_wp R L E O v devname :
  inv L E O v -> unlocked v ->
  wp R (vfs_unmount devname v) (fun '(r, v') => inv L E O v' /\ same_but_fs v v' /\ unlocked v').
Proof.
  intros Hi Hu. pose proof (with_lock_refl L E O v Hi Hu) as Hw. pose proof Hu as [Hl _].
  unfold vfs_unmount, lock_knowndevs. rewrite Hl. cbn [negb mbind option_bind].
  set (v1 := set_dlock true v) in *. pose proof Hw as (Hi1 & _).
  destruct (findmount_wp v1 devname (in_table _ _ _ _ Hi1) eq_refl) as (found & -> & Hfound).
  cbn [mbind option_bind]. apply wp_bind.
  eapply (wp_mono R R _ (fun '(_, v2) => with_lock L E O v v2)); [|done|].
  2:{ intros [r v2] Hv2. destruct (with_lock_end L E O v v2 r Hv2) as (v' & -> & ?). done. }
  destruct found as [[k kd]|]; [|exact Hw]. destruct (Hfound k kd eq_refl) as (i & Hk & Hkd & Hd & Hr & _).
  destruct (kd_fs kd =? 0) eqn:Ef; boolify; [exact Hw|].
  pose proof (to_kd _ (in_table _ _ _ _ Hi1) kd (dev_elem _ _ _ Hd)) as Hko.
  apply wp_assert; [done|].
  apply wp_assert; [by rewrite (proj2 (Z.eqb_neq _ _) (ko_dev _ _ Hko (or_intror Hr)))|].
  wp_call ltac:(apply fsync_wp; [exact Hi1|by eapply dev_elem|done]). intros [r v2] [Hv2 Hc].
  pose proof (with_lock_via _ _ _ _ _ _ Hw Hv2) as Hw2.
  destruct (r =? 0) eqn:Er; boolify; cbn [negb]; [|exact Hw2].
  destruct (same_vfs_entry v1 v2 i k kd (proj1 (proj2 Hv2)) Hk Hkd Hd) as (Hk2 & Hkd2 & Hd2).
  wp_call ltac:(apply (unmount_dev_wp R L E O v v2 i k kd); auto). intros [r' v3] Hv3.
  by destruct (r' =? 0).
Qed.

Lemma unmountall_dev_wp R L E O v v1 i k kd :
  with_lock L E O v v1 -> keys v1 !! i = Some k -> v_kds v1 !! k = Some kd -> devs v1 !! i = Some kd ->
  has_rawname kd = true -> kd_fs kd <> 0 ->
  wp R (unmountall_dev k kd v1) (fun v2 => with_lock L E O v v2).
Proof.
  intros Hw Hk Hkd Hd Hr Hf. pose proof Hw as (Hi1 & _). unfold unmountall_dev.
  wp_call ltac:(apply fsync_wp; [exact Hi1|by eapply dev_elem|done]). intros [r v2] [Hv2 Hc].
  apply wp_bind. eapply (wp_mono R R _ (fun '(r, v3) => via L v1 E O v3 /\ (r = 0 -> flushed (kd_fs kd) (below v3))));
    [|done|].
  - destruct (r =? 0) eqn:Er; boolify; cbn [negb]; [by split; auto|]. pose proof Hv2 as (Hi2 & Hs2 & _).
    eapply wp_mono; [apply fsync_wp; [exact Hi2| |done]|done|].
    + destruct (same_devs _ _ Hs2) as [_ ->]. by eapply dev_elem.
    + intros [r3 v3] [Hv3 Hc3]. split; [|done]. eapply via_trans; [exact Hi1|exact Hv2|done|exact Hv3].
  - intros [r3 v3] [Hv3 Hc3]. pose proof (with_lock_via _ _ _ _ _ _ Hw Hv3) as Hw3.
    destruct (r3 =? 0) eqn:Er3; boolify; cbn [negb]; [|exact Hw3].
    destruct (same_vfs_entry v1 v3 i k kd (proj1 (proj2 Hv3)) Hk Hkd Hd) as (Hk2 & Hkd2 & Hd2).
    wp_call ltac:(apply (unmount_dev_wp R L E O v v3 i k kd); auto). intros [r' v4] Hv4.
    destruct (r' =? EBUSY) eqn:Eb; boolify; [by subst r'|]. by destruct (r' =? 0).
Qed.

Lemma same_but_fs_keys v v' : same_but_fs v v' -> keys v' = keys v /\ numdevs v' = numdevs v.
Proof. intros (E & _). unfold keys, numdevs. by rewrite E. Qed.

Lemma unmountall_loop_wp R L E O v n i v1 :
  with_lock L E O v v1 -> (i + n = numdevs v)%nat ->
  wp R (unmountall_loop n (Z.of_nat i) v1) (fun v2 => with_lock L E O v v2).
Proof.
  revert i v1. induction n as [|n IH]; intros i v1 Hw Hn; cbn [unmountall_loop]; [exact Hw|].
  pose proof Hw as (Hi1 & Hs1 & _). destruct (same_but_fs_keys _ _ Hs1) as [_ En].
  destruct (getdev_wp v1 i (in_table _ _ _ _ Hi1)) as (k & kd & -> & Hk & Hkd & Hd); [lia|].
  cbn [mbind option_bind]. apply wp_bind. eapply (wp_mono R R _ (fun v' => with_lock L E O v v')).
  - destruct (has_rawname kd) eqn:Er; cbn [negb]; [|exact Hw].
    destruct (kd_fs kd =? 0) eqn:Ef; boolify; [exact Hw|]. by eapply unmountall_dev_wp.
  - done.
  - intros v2 Hv2. replace (Z.of_nat i + 1) with (Z.of_nat (Datatypes.S i)) by lia. apply IH; [done|lia].
Qed.

Lemma vfs_unmountall_wp R L E O v :
  inv L E O v -> unlocked v ->
  wp R (vfs_unmountall v) (fun '(r, v') => r = 0 /\ inv L E O v' /\ same_but_fs v v' /\ unlocked v').
Proof.
  intros Hi Hu. pose proof (with_lock_refl L E O v Hi Hu) as Hw. pose proof Hu as [Hl _].
  unfold vfs_unmountall, lock_knowndevs. rewrite Hl. cbn [negb mbind option_bind].
  wp_call ltac:(apply (unmountall_loop_wp R L E O v _ 0); [exact Hw|done]).
  intros v2 Hv2. destruct (with_lock_end L E O v v2 0 Hv2) as (v' & -> & ?). done.
Qed.
End table.
