(* ===== verification/VfsAdd.v ===== *)
(** * Adding devices to the table

    [vfs_doadd] allocates the names, the vnode and the entry before it takes the lock
    and checks the names.  If the name is taken it returns and keeps all of them: the
    reference to the vnode is one without an owner from then on. *)

From stdpp Require Import base option list gmap numbers.
From S2P Require Import Prelude Kmem Array Cstring SfsMount Vfs VfsInv VfsOps VfsTable.

Section add.
Context {H S : Type} `{!Kmalloc H, !KmallocLaws H, !Vnodes H S, !VnodesView S, !VnodesLaws H S}.
Implicit Types v : vfs S.

(** ** Memory on its way into the table *)

(** The blocks [P] are allocated, and not yet in the table. *)
Definition pend (P : list Z) (L E O : Z -> Z) v : Prop :=
  inv L E O v /\ owns (heap_of (below v)) (P ++ vfs_blocks v ++ vn_blocks (below v)).

(** A step that the counts and the table do not show. *)
Definition quiet v v' : Prop := same_vfs v v' /\ vsame (below v) none none (below v').

Lemma pend_start L E O v : inv L E O v -> pend [] L E O v.
Proof. intros Hi. split; [done|]. apply Hi. Qed.

Lemma pend_heap P L E O v h :
  inv L E O v -> heap_ok h -> owns h (P ++ vfs_blocks v ++ vn_blocks (below v)) ->
  let v' := set_below (with_heap h (below v)) v in pend P L E O v' /\ quiet v v' /\ heap_of (below v') = h.
Proof.
  intros Hi Hh Ho v'. pose proof Ho as Ho'. rewrite app_assoc in Ho'. apply owns_app in Ho' as (_ & Hvn & _).
  destruct (new_heap (below v) h (in_ok _ _ _ _ Hi) Hh Hvn) as (Hst & Eb & Eh).
  split; [|split; [by split|done]]. split.
  - apply (inv_change L E O v none none (with_heap h (below v)) L E O); try done.
    + rewrite Eh, Eb. by apply owns_app in Ho as (_ & ? & _).
    + intros q. unfold none. lia.
    + intros q. unfold none. lia.
    + apply Hi.
    + apply Hi.
    + intros q _ ?. lia.
  - change (vfs_blocks v') with (vfs_blocks v). simpl. by rewrite Eh, Eb.
Qed.

Lemma heap_live L E O v : inv L E O v -> heap_ok (heap_of (below v)).
Proof. intros Hi. apply vn_heap, Hi. Qed.

(** [p] joins the blocks, unless it is NULL. *)
Definition with_block (p : Z) (P : list Z) : list Z := if p =? 0 then P else p :: P.

Lemma pend_alloc P L E O v sz :
  pend P L E O v -> kmalloc_size sz ->
  exists p h, kmalloc sz (heap_of (below v)) = Some (p, h) /\
    let v' := set_below (with_heap h (below v)) v in pend (with_block p P) L E O v' /\ quiet v v'.
Proof.
  intros [Hi Ho] Hsz. pose proof (heap_live _ _ _ _ Hi) as Hh.
  destruct (kmalloc_total _ _ Hh Hsz) as [[p h] Ek]. exists p, h. split; [done|].
  unfold with_block. destruct (p =? 0) eqn:Ep; boolify.
  - subst p. destruct (kmalloc_null _ _ _ Hh Hsz Ek) as [Hh' Eb].
    destruct (pend_heap P L E O v h Hi Hh') as (? & ? & _); [|done].
    destruct Ho as [? Hl]. split; [done|]. by rewrite Eb.
  - destruct (owns_fresh _ _ _ _ _ Hh Hsz Ek Ep Ho) as (Hh' & Ho' & _).
    by destruct (pend_heap (p :: P) L E O v h Hi Hh' Ho') as (? & ? & _).
Qed.

Lemma pend_free P p Q L E O v :
  pend (P ++ p :: Q) L E O v ->
  exists v', do_heap (kfree p) v = Some v' /\ pend (P ++ Q) L E O v' /\ quiet v v'.
Proof.
  intros [Hi Ho]. pose proof (heap_live _ _ _ _ Hi) as Hh. rewrite <- app_assoc in Ho.
  destruct (owns_free _ p P (Q ++ vfs_blocks v ++ vn_blocks (below v)) Hh Ho) as (h & Ek & Hh' & Ho' & _).
  unfold do_heap. rewrite Ek. eexists. split; [done|]. rewrite app_assoc in Ho'.
  by destruct (pend_heap (P ++ Q) L E O v h Hi Hh' Ho') as (? & ? & _).
Qed.

Lemma quiet_refl L E O v : inv L E O v -> quiet v v.
Proof.
  intros Hi. split; [done|]. constructor; [apply Hi|..]; unfold none; try (intros; lia); [|done|done].
  by constructor.
Qed.

Lemma quiet_trans v1 v2 v3 : quiet v1 v2 -> quiet v2 v3 -> quiet v1 v3.
Proof.
  intros [Hs1 [A1 B1 C1 D1 F1]] [Hs2 [A2 B2 C2 D2 F2]]. split; [by eapply same_trans|].
  assert (forall q, refs (below v2) q = refs (below v1) q) as Hr by (intros q; rewrite B1; unfold none; lia).
  constructor; [done|..].
  - intros q. rewrite B2, B1. unfold none. lia.
  - intros q. rewrite C2, C1. unfold none. lia.
  - destruct D1 as [a1 b1 c1 d1 e1], D2 as [a2 b2 c2 d2 e2]. constructor.
    + intros q H1 H3. assert (0 < refs (below v2) q) as H2 by by rewrite Hr.
      destruct (a1 q H1 H2) as [<- <-]. auto.
    + intros fs q Hf H1 H3 Hq. assert (0 < refs (below v2) q) as H2 by by rewrite Hr. auto.
    + intros fs Hf. rewrite c2, c1 by done. done.
    + intros fs Hf Hm. rewrite d2, d1; [done|done|done|done|by apply c1].
    + intros fs Hf Hm. rewrite e2, e1; [done|done|done|done|by apply c1].
  - intros d. rewrite F2, F1. done.
  - auto.
Qed.

(** A string made in the heap. *)
Lemma pend_string P L E O v sz (s : list Z) :
  pend P L E O v -> kmalloc_size sz ->
  exists r v', on_heap (fun h => '(z, h) ← kmalloc sz h;
                 if z =? 0 then Some (None, h) else Some (Some (z, s), h)) v = Some (r, v') /\
    quiet v v' /\
    (r = None /\ pend P L E O v' \/ exists p, r = Some (p, s) /\ pend (p :: P) L E O v').
Proof.
  intros Hp Hsz. destruct (pend_alloc P L E O v sz Hp Hsz) as (p & h & Ek & Hp' & Hq).
  unfold on_heap. rewrite Ek. cbn [mbind option_bind]. unfold with_block in Hp'.
  destruct (p =? 0); (eexists _, _; split; [done|]; split; [exact Hq|]); [by left|right; by exists p].
Qed.

(** ** The vnode of the device *)

(** A vnode that nothing refers to but the reference it was made with. *)
Definition new_vnode (p : Z) (s : S) : Prop :=
  p <> 0 /\ refs s p = 1 /\ opens s p = 0 /\ vn_fs p s = Some 0.

Lemma pend_owns P L E O v s' :
  pend P L E O v -> below_ok s' ->
  kept_others (heap_of (below v)) (vn_blocks (below v)) (heap_of s') (vn_blocks s') ->
  owns (heap_of s') (P ++ vfs_blocks v ++ vn_blocks s').
Proof.
  intros [Hi Ho] Hok K. rewrite app_assoc in Ho |- *. eapply owns_kept; [exact K|apply vn_heap, Hok|exact Ho].
Qed.

Lemma pend_vnode P L E O v dev :
  pend P L E O v -> known (below v) dev ->
  wp True (on_below (dev_create_vnode dev) v) (fun '(p, v') =>
    same_vfs v v' /\ (forall fs, fs <> 0 -> mounted (below v') fs <-> mounted (below v) fs) /\
    (forall d, idle (below v') d <-> idle (below v) d) /\ (forall d, known (below v) d -> known (below v') d) /\
    (p = 0 /\ pend P L E O v' \/ new_vnode p (below v') /\ pend P (plus L (one p)) E O v')).
Proof.
  intros Hp Hkn. pose proof Hp as [Hi _]. unfold on_below. apply wp_bind.
  eapply wp_mono; [exact (create_law (below v) dev (in_ok _ _ _ _ Hi) Hkn)|done|].
  intros [p s'] Hc. cbn [wp]. split; [done|].
  assert (exists d, vstep (below v) d none s') as (d & Hst & K).
  { destruct Hc as [[_ ?]|(_ & _ & ? & _)]; eauto. }
  split; [by apply (sb_mounted _ _ _ (vs_same _ _ _ _ Hst))|]. split; [by apply (vs_idle _ _ _ _ Hst)|].
  split; [by apply (vs_known _ _ _ _ Hst)|].
  pose proof (pend_owns P L E O v s' Hp (vs_ok _ _ _ _ Hst) K) as Ho.
  pose proof Ho as (_ & Ho' & _)%owns_app. clear d Hst K.
  destruct Hc as [[-> [Hst K]]|(Hp0 & Hr & [Hst K] & Hf)]; [left|right]; (split; [|split; [|exact Ho]]).
  - done.
  - apply (inv_change L E O v none none s' L E O); try done.
    + intros q. unfold none. lia.
    + intros q. unfold none. lia.
    + apply Hi.
    + apply Hi.
    + intros q _ ?. lia.
  - split; [done|]. cbn [below set_below]. rewrite (vs_refs _ _ _ _ Hst), (vs_opens _ _ _ _ Hst), Hr, one_eq.
    split; [done|]. split; [|done]. destruct (vn_counts _ p (in_ok _ _ _ _ Hi)) as [Ho1 _].
    rewrite (in_opens _ _ _ _ Hi) in Ho1 |- *. destruct (in_callers _ _ _ _ Hi p) as [? ?].
    pose proof (in_refs _ _ _ _ Hi p Hp0). pose proof (owners_range v p). unfold none. lia.
  - apply (inv_change L E O v (one p) none s' (plus L (one p)) E O); try done.
    + intros q. unfold plus. lia.
    + intros q. unfold none. lia.
    + intros q. destruct (in_callers _ _ _ _ Hi q). pose proof (plus_one_le L p q). lia.
    + apply Hi.
    + intros q _ ?. lia.
Qed.

Lemma pend_unvnode P L E O v p :
  pend P (plus L (one p)) E O v -> (forall q, 0 <= L q) -> new_vnode p (below v) ->
  exists v', do_below (kfree_vnode p) v = Some v' /\ inv L E O v' /\ same_vfs v v'.
Proof.
  intros Hp HL (Hp0 & Hr & Hopn & Hf). pose proof Hp as [Hi _].
  destruct (kfree_vnode_law _ p (in_ok _ _ _ _ Hi) Hr Hopn Hf) as (s' & Ek & Hst & K).
  unfold do_below. rewrite Ek. eexists. split; [done|]. split; [|done].
  pose proof (pend_owns _ _ _ _ _ _ Hp (vs_ok _ _ _ _ Hst) K) as (_ & Ho & _)%owns_app.
  apply (inv_change (plus L (one p)) E O v _ none s' L E O Hi Hst Ho).
  - intros q. unfold plus. lia.
  - intros q. unfold none. lia.
  - intros q. destruct (in_callers _ _ _ _ Hi q). auto.
  - apply Hi.
  - intros q _ ?. lia.
Qed.

(** ** Giving up *)

Definition opt_block (o : option (Z * list Z)) : list Z := match o with Some (p, _) => [p] | None => [] end.

Lemma puke_names P L E O v o :
  pend (P ++ opt_block o) L E O v ->
  exists v', match o with Some (p, _) => do_heap (kfree p) v | None => Some v end = Some v' /\
    pend P L E O v' /\ quiet v v'.
Proof.
  destruct o as [[p s]|]; simpl.
  - intros (v' & -> & Hp & Hq)%pend_free. exists v'. by rewrite app_nil_r in Hp.
  - rewrite app_nil_r. intros Hp. exists v. split; [done|]. split; [done|]. by eapply quiet_refl, Hp.
Qed.

Lemma doadd_puke_wp L E O v name rawname :
  pend (opt_block rawname ++ opt_block name) L E O v ->
  exists v', doadd_puke name rawname 0 v = Some (ENOMEM, v') /\ inv L E O v' /\ same_vfs v v'.
Proof.
  intros (v1 & E1 & Hp1 & [Hs1 _])%puke_names. rewrite <- (app_nil_l (opt_block rawname)) in Hp1.
  apply puke_names in Hp1 as (v2 & E2 & [Hi2 _] & [Hs2 _]).
  exists v2. unfold doadd_puke. rewrite E1. cbn [mbind option_bind]. rewrite E2. cbn [mbind option_bind].
  split; [done|]. split; [done|]. by eapply same_trans.
Qed.

Lemma new_vnode_quiet p v v' : new_vnode p (below v) -> quiet v v' -> new_vnode p (below v').
Proof.
  intros (Hp & Hr & Ho & Hf) [_ [A B C D F _]]. split; [done|]. rewrite B, C, Hr, Ho. split; [done|].
  split; [done|]. destruct (sb_vn _ _ _ D p) as [-> _]; [lia| |done]. rewrite B, Hr. done.
Qed.

Lemma doadd_puke_vnode_wp L E O v name rawname p :
  pend (opt_block rawname ++ opt_block name) (plus L (one p)) E O v -> (forall q, 0 <= L q) ->
  new_vnode p (below v) ->
  exists v', doadd_puke name rawname p v = Some (ENOMEM, v') /\ inv L E O v' /\ same_vfs v v'.
Proof.
  intros (v1 & E1 & Hp1 & Hq1)%puke_names HL Hn. rewrite <- (app_nil_l (opt_block rawname)) in Hp1.
  apply puke_names in Hp1 as (v2 & E2 & Hp2 & Hq2).
  pose proof (new_vnode_quiet p v v2 Hn (quiet_trans _ _ _ Hq1 Hq2)) as Hn2.
  destruct (pend_unvnode [] L E O v2 p Hp2 HL Hn2) as (v3 & E3 & Hi3 & Hs3).
  exists v3. unfold doadd_puke. rewrite E1. cbn [mbind option_bind]. rewrite E2. cbn [mbind option_bind].
  destruct Hn as [Hp0 _]. rewrite (proj2 (Z.eqb_neq _ _) Hp0). cbn [negb]. rewrite E3. cbn [mbind option_bind].
  split; [done|]. split; [done|]. destruct Hq1 as [Hs1 _], Hq2 as [Hs2 _].
  eapply same_trans; [exact Hs1|]. by eapply same_trans.
Qed.

(** ** Names *)

(** None of the names [n1], [n2], [n3] is one of the device. *)
Definition no_name (n1 n2 n3 : option (list Z)) (kd : knowndev) : Prop :=
  samestring3 (Some (kd_name kd).2) n1 n2 n3 = false /\ samestring3 (snd <$> kd_rawname kd) n1 n2 n3 = false.

Lemma badnames_loop_wp n1 n2 n3 v n i :
  below_ok (below v) -> table_ok v -> (i + n = numdevs v)%nat ->
  exists bad, badnames_loop n (Z.of_nat i) n1 n2 n3 v = Some bad /\
    (bad = false -> forall j kd, (i <= j)%nat -> devs v !! j = Some kd -> no_name n1 n2 n3 kd).
Proof.
  intros Hok Ht. revert i. induction n as [|n IH]; intros i Hn; cbn [badnames_loop].
  { eexists. split; [done|]. intros _ j kd Hj Hd. apply lookup_lt_Some in Hd. destruct (numdevs_keys v Ht). lia. }
  destruct (getdev_wp v i Ht) as (k & kd & -> & _ & _ & Hd); [lia|]. cbn [mbind option_bind].
  assert (exists b, (if negb (kd_fs kd =? 0) then
             volname ← fsop_getvolname (kd_fs kd) (below v); Some (samestring3 volname n1 n2 n3)
           else Some false) = Some b) as (b & ->).
  { destruct (kd_fs kd =? 0) eqn:Ef; boolify; simpl; [eauto|].
    destruct (volname_law _ _ Hok (ko_fs _ _ (to_kd v Ht kd (dev_elem _ _ _ Hd)) Ef)) as (m & -> & _). simpl. eauto. }
  cbn [mbind option_bind]. destruct b; [by eexists|].
  destruct (samestring3 (snd <$> kd_rawname kd) n1 n2 n3) eqn:E1; [by eexists|].
  destruct (samestring3 (Some (kd_name kd).2) n1 n2 n3) eqn:E2; [by eexists|]. cbn [orb].
  destruct (IH (Datatypes.S i)) as (bad & Eb & Hb); [lia|].
  replace (Z.of_nat (Datatypes.S i)) with (Z.of_nat i + 1) in Eb by lia. exists bad. split; [done|].
  intros Hbf j kj Hj Hdj. destruct (decide (j = i)) as [->|]; [|apply (Hb Hbf j); [lia|done]].
  assert (kj = kd) as -> by congruence. by split.
Qed.

(** ** Entering the device *)

Lemma key_in_blocks v k : table_ok v -> k ∈ keys v -> k ∈ vfs_blocks v.
Proof.
  intros Ht Hk. unfold vfs_blocks. apply elem_of_app. right. apply list_elem_of_bind. exists k.
  split; [|done]. destruct (to_kds v Ht k Hk) as [kd Hkd]. unfold key_blocks. rewrite Hkd. by left.
Qed.

Lemma set_kd_fresh v k kd :
  k ∉ keys v -> devs (set_kd k kd v) = devs v /\ vfs_blocks (set_kd k kd v) = vfs_blocks v.
Proof.
  intros Hk. unfold devs, vfs_blocks. change (keys (set_kd k kd v)) with (keys v). simpl.
  split; [|f_equal]; induction (keys v) as [|x l IH]; try done; apply not_elem_of_cons in Hk as [Hx Hk].
  - simpl. rewrite lookup_insert_ne by congruence. destruct (v_kds v !! x); [f_equal|]; exact (IH Hk).
  - rewrite !bind_cons, IH by done. f_equal. unfold key_blocks. simpl. by rewrite lookup_insert_ne by congruence.
Qed.

Lemma inv_fresh L E O v k kd : inv L E O v -> k ∉ keys v -> inv L E O (set_kd k kd v).
Proof.
  intros Hi Hk. destruct (set_kd_fresh v k kd Hk) as [Ed Eb]. destruct Hi as [I1 [T1 T2 T3 T4 T5 T6 T7] I3 I4 I5 I6 I7 I8 I9 I10].
  assert (forall q, table_refs (set_kd k kd v) q = table_refs v q) as Etr by (intros q; unfold table_refs; by rewrite Ed).
  constructor; [exact I1| |..].
  - constructor; [exact T1|exact T2| |exact T4|by rewrite Eb|by rewrite Ed|by rewrite Ed].
    intros x Hx. simpl. rewrite lookup_insert_ne; [by apply T3|]. by intros ->.
  - intros q Hq. unfold owners. rewrite Etr. by apply I3.
  - exact I4.
  - exact I5.
  - intros q. rewrite Etr. apply I6.
  - exact I7.
  - exact I8.
  - intros q fs. unfold has_fs. rewrite Ed. apply I9.
  - exact I10.
Qed.

(** The table with one device more. *)
Definition add_dev (k : Z) (kd : knowndev) (a : array Z) (h : H) v : vfs S :=
  set_devs a (set_below (with_heap h (below v)) (set_kd k kd v)).

Lemma add_dev_lists k kd a h v :
  table_ok v -> k ∉ keys v -> contents a = contents (knowndevs v) ++ [Some k] ->
  keys (add_dev k kd a h v) = keys v ++ [k] /\ devs (add_dev k kd a h v) = devs v ++ [kd] /\
  vfs_blocks (add_dev k kd a h v) = array_blocks a ++ (keys v ≫= key_blocks v) ++ kd_blocks k kd.
Proof.
  intros Ht Hk Hc. assert (keys (add_dev k kd a h v) = keys v ++ [k]) as Ek.
  { unfold keys. simpl. by rewrite Hc, omap_app. }
  split; [done|]. destruct (set_kd_fresh v k kd Hk) as [Ed Eb].
  assert (v_kds (add_dev k kd a h v) = v_kds (set_kd k kd v)) as Ev by done.
  split.
  - unfold devs at 1. rewrite Ek, omap_app, Ev. simpl. rewrite lookup_insert_eq. f_equal. exact Ed.
  - unfold vfs_blocks. rewrite Ek, bind_app. f_equal. f_equal.
    + unfold vfs_blocks in Eb. apply app_inv_head in Eb. exact Eb.
    + simpl. unfold key_blocks. rewrite Ev. simpl. by rewrite lookup_insert_eq, app_nil_r.
Qed.

Lemma table_refs_snoc v v' kd q : devs v' = devs v ++ [kd] -> table_refs v' q = table_refs v q + one (kd_vnode kd) q.
Proof.
  intros Ed. unfold table_refs. rewrite Ed, fmap_app, list.filter_app, length_app. simpl.
  destruct (decide (kd_vnode kd = q)) as [<-|Hne].
  - rewrite filter_cons_True by done. rewrite one_eq. simpl. lia.
  - rewrite filter_cons_False by done. rewrite one_ne by congruence. simpl. lia.
Qed.

(** What is asked of who adds a device. *)
Record add_ok (dname : list Z) (mountable : bool) (dev fs : Z) v : Prop := {
  ad_name : good_name dname;
  ad_room : Z.of_nat (numdevs v) < max_guys;
  ad_dev : fs = 0 -> dev <> 0;
  ad_known : known (below v) dev;
  ad_mount : mountable = true -> fs = 0 /\ idle (below v) dev /\
    forall kd, kd ∈ devs v -> has_rawname kd = true -> kd_device kd <> dev;
  ad_fs : fs <> 0 -> mounted (below v) fs /\ ~ has_fs v fs;
}.

Lemma add_dev_table L E O k kd a h v s :
  inv L E O v -> k ∉ keys v -> contents a = contents (knowndevs v) ++ [Some k] ->
  array_wf h a -> s = with_heap h (below v) -> heap_of s = h ->
  owns h (vfs_blocks (add_dev k kd a h v) ++ vn_blocks s) ->
  (forall kj, kj ∈ devs v -> kd_ok s kj) -> kd_ok s kd ->
  (forall kj, kj ∈ devs v -> apart kj kd /\ apart kd kj) ->
  table_ok (add_dev k kd a h v).
Proof.
  intros Hi Hk Hc Ha -> Eh Ho Hold Hnew Hap. pose proof (in_table _ _ _ _ Hi) as Ht.
  destruct (add_dev_lists k kd a h v Ht Hk Hc) as (Ek & Ed & _). pose proof Ht as [T1 T2 T3 T4 T5 T6 T7].
  constructor.
  - rewrite Ek, fmap_app, <- T1. exact Hc.
  - rewrite Ek. apply list.NoDup_app. split; [done|]. split; [|apply NoDup_singleton].
    intros x Hx ->%list_elem_of_singleton. done.
  - intros x. rewrite Ek. intros [Hx|Hx]%elem_of_app; simpl.
    + rewrite lookup_insert_ne; [by apply T3|]. by intros ->.
    + apply list_elem_of_singleton in Hx as ->. rewrite lookup_insert_eq. eauto.
  - simpl. by rewrite Eh.
  - simpl. rewrite Eh. exact Ho.
  - intros x. rewrite Ed. intros [Hx|Hx]%elem_of_app; [by apply Hold|].
    by apply list_elem_of_singleton in Hx as ->.
  - intros i j k1 k2. rewrite Ed. intros H1 H2 Hij.
    apply lookup_snoc_Some in H1 as [[_ H1]|[-> <-]]; apply lookup_snoc_Some in H2 as [[_ H2]|[-> <-]].
    + by eapply T7.
    + by apply Hap, (dev_elem v i).
    + by apply Hap, (dev_elem v j).
    + done.
Qed.

Lemma inv_add_dev L E O k kd a h v :
  inv (plus L (one (kd_vnode kd))) E O v -> (forall q, 0 <= L q) -> k ∉ keys v ->
  contents a = contents (knowndevs v) ++ [Some k] -> quiet v (set_below (with_heap h (below v)) v) ->
  table_ok (add_dev k kd a h v) ->
  inv L E O (add_dev k kd a h v).
Proof.
  intros Hi HL Hk Hc [_ Hst] Ht'. pose proof (in_table _ _ _ _ Hi) as Ht.
  destruct (add_dev_lists k kd a h v Ht Hk Hc) as (_ & Ed & _). simpl in Hst.
  pose proof Hst as [A B C D F _]. set (s := with_heap h (below v)) in *.
  assert (forall q, refs s q = refs (below v) q) as Hr by (intros q; rewrite B; unfold none; lia).
  assert (forall q, 0 < refs (below v) q -> vn_fs q s = vn_fs q (below v) /\
    vop_gettype q s = vop_gettype q (below v)) as Hvn.
  { intros q Hq. apply (sb_vn _ _ _ D); [done|]. by rewrite Hr. }
  assert (forall q, q <> 0 -> 0 < E q \/ q = bootfs_vnode v \/ q = t_cwd v -> 0 < refs (below v) q) as Hlv.
  { intros q Hq [He|Hb]; [by eapply caller_live|by eapply dir_gotten]. }
  pose proof (fun q => table_refs_snoc v (add_dev k kd a h v) kd q Ed) as Etr.
  destruct Hi as [I1 _ I3 I4 I5 I6 I7 I8 I9 I10]. constructor.
  - exact A.
  - exact Ht'.
  - intros q Hq. change (refs s q = owners (add_dev k kd a h v) q + E q + L q). rewrite Hr, (I3 q Hq).
    unfold owners. rewrite Etr. unfold plus. simpl. lia.
  - intros q. simpl. fold s. rewrite C, (I4 q). unfold none. lia.
  - intros q. destruct (I5 q). auto.
  - intros q Hq He. change (vn_fs q s = Some 0 -> 0 < table_refs (add_dev k kd a h v) q).
    destruct (Hvn q) as [-> _]; [by apply Hlv; auto|]. intros Hf. rewrite Etr.
    pose proof (I6 q Hq He Hf). pose proof (one_range (kd_vnode kd) q). lia.
  - intros q Hq Hb. change (vn_fs q s <> Some 0). destruct (Hvn q) as [-> _]; auto.
  - intros Hcw. destruct (I8 Hcw) as (t & Et & Hd). exists t.
    change (vop_gettype (t_cwd v) s = Some (0, t) /\ S_ISDIR t = true).
    destruct (Hvn (t_cwd v)) as [_ ->]; auto.
  - intros q fs Hq Hs Hf Hf0. change (vn_fs q s = Some fs) in Hf. destruct (Hvn q (Hlv q Hq Hs)) as [E1 _].
    rewrite E1 in Hf. destruct (I9 q fs Hq Hs Hf Hf0) as (kd2 & Hk2 & E2). exists kd2. split; [|done].
    rewrite Ed. apply elem_of_app. by left.
  - exact I10.
Qed.

Section enter.
Context (L E O : Z -> Z) v (k pn p dev fs : Z) (nm : list Z) (raw : option (Z * list Z)).
Let kd := Knowndev (pn, nm) raw dev p fs.
Context (Hp : pend (k :: opt_block raw ++ [pn]) (plus L (one p)) E O v).
Context (HL : forall q, 0 <= L q) (Hn : new_vnode p (below v)).
Context (Hadd : add_ok nm (has_rawname kd) dev fs v).

Lemma enter_fresh : k ∉ keys v.
Proof.
  destruct Hp as [Hi (_ & _ & Hd)%owns_app]. intros Hk. apply (Hd k); [by left|].
  apply elem_of_app. left. by apply key_in_blocks; [apply Hi|].
Qed.

(** The blocks with the array apart, and after the array has grown. *)
Lemma enter_owns (a : array Z) h :
  same_others (heap_of (below v)) (array_blocks (knowndevs v)) h (array_blocks a) ->
  owns h (array_blocks a) ->
  owns h (array_blocks a ++ (k :: opt_block raw ++ [pn]) ++ (keys v ≫= key_blocks v) ++ vn_blocks (below v)).
Proof.
  intros Hs Ho. destruct Hp as [Hi Hown]. eapply owns_frame; [exact Hs|exact Ho|].
  eapply owns_perm; [|exact Hown]. unfold vfs_blocks. rewrite <- !app_assoc. solve_Permutation.
Qed.

Lemma enter_quiet (a : array Z) h :
  array_wf h a -> same_others (heap_of (below v)) (array_blocks (knowndevs v)) h (array_blocks a) ->
  quiet v (set_below (with_heap h (below v)) v) /\ heap_of (with_heap h (below v)) = h /\
  vn_blocks (with_heap h (below v)) = vn_blocks (below v).
Proof.
  intros (Hh & Ho & _) Hs. pose proof (enter_owns a h Hs Ho) as Ho'. pose proof Hp as [Hi _].
  rewrite !app_assoc in Ho'. apply owns_app in Ho' as (_ & Hvn & _).
  by destruct (new_heap (below v) h (in_ok _ _ _ _ Hi) Hh Hvn) as (Hst & Eb & Eh).
Qed.

Lemma enter_kd s :
  vsame (below v) none none s -> kd_ok s kd /\ forall kj, kj ∈ devs v -> apart kj kd /\ apart kd kj.
Proof.
  intros [_ B _ D F _]. destruct Hn as (Hp0 & Hr & _ & Hf), Hadd as [[A1 A1'] _ A3 _ A4 A5].
  split; [constructor; simpl|].
  - split; [done|]. unfold NAME_MAX in A1'. lia.
  - rewrite B, Hr. split; [done|]. destruct (sb_vn _ _ _ D p) as [-> _]; [lia| |done]. rewrite B, Hr. done.
  - intros Hf0. apply (sb_mounted _ _ _ D); [done|]. by apply A5.
  - intros [?|Hraw]; [auto|]. apply A3. by apply A4.
  - intros _ Hraw. apply F. by apply A4.
  - intros Hf0 Hraw. by destruct (A4 Hraw) as [? _].
  - intros kj Hk. destruct (decide (fs = 0)) as [Ef|Ef].
    + split; (split; simpl; [congruence|]).
      * intros Hj Hraw. by apply A4.
      * intros Hraw Hj. by apply not_eq_sym, A4.
    + destruct (A5 Ef) as [_ Hno]. split; (split; simpl; [intros E1; destruct Hno; exists kj; by split|]).
      * intros _ Hraw. by destruct (A4 Hraw).
      * intros Hraw _. by destruct (A4 Hraw).
Qed.

Lemma enter_done (a : array Z) h :
  array_wf h a -> same_others (heap_of (below v)) (array_blocks (knowndevs v)) h (array_blocks a) ->
  contents a = contents (knowndevs v) ++ [Some k] ->
  inv L E O (add_dev k kd a h v) /\ devs (add_dev k kd a h v) = devs v ++ [kd].
Proof.
  intros Ha Hs Hc. destruct (enter_quiet a h Ha Hs) as (Hq & Eh & Eb). pose proof Hp as [Hi _].
  pose proof enter_fresh as Hk. pose proof (in_table _ _ _ _ Hi) as Ht.
  destruct (add_dev_lists k kd a h v Ht Hk Hc) as (_ & Ed & Ebl).
  pose proof Hq as [_ Hst]. simpl in Hst. destruct (enter_kd _ Hst) as [Hkd Hap].
  split; [|done]. apply inv_add_dev; try done.
  eapply (add_dev_table (plus L (one p)) E O); try done.
  - rewrite Ebl, Eb. eapply owns_perm; [|apply (enter_owns a h Hs); apply Ha].
    unfold kd_blocks, opt_block. simpl. destruct raw as [[r rs]|]; simpl; solve_Permutation.
  - intros kj Hj. eapply kd_ok_step; [exact Hst|by apply (to_kd v Ht)|].
    rewrite (vs_refs _ _ _ _ Hst). unfold none.
    destruct (ko_vnode _ _ (to_kd v Ht kj Hj)). lia.
Qed.

(** What the operation leaves: the device is in the table, or the reference to its
    vnode is lost. *)
Definition entered (vol : option (list Z)) (r : Z) v' : Prop :=
  unlocked v' /\ bootfs_vnode v' = bootfs_vnode v /\ t_cwd v' = t_cwd v /\
  (r = 0 /\ inv L E O v' /\ devs v' = devs v ++ [kd] /\
     (forall kj, kj ∈ devs v -> no_name (Some nm) (snd <$> raw) vol kj) \/
   r <> 0 /\ inv (plus L (one p)) E O v' /\ devs v' = devs v).

Lemma enter_add_wp :
  unlocked v ->
  exists r a h, array_add (knowndevs v) k (heap_of (below v)) = Some (r, a, h) /\
    let v' := set_dlock false (set_devs a (set_below (with_heap h (below v)) (set_dlock true (set_kd k kd v)))) in
    r = 0 /\ inv L E O v' /\ devs v' = devs v ++ [kd] \/
    r <> 0 /\ inv (plus L (one p)) E O v' /\ devs v' = devs v.
Proof.
  intros [Hu1 Hu2]. pose proof Hp as [Hi _]. pose proof (in_table _ _ _ _ Hi) as Ht.
  assert (a_num (knowndevs v) < max_guys) as Hroom.
  { pose proof (ad_room _ _ _ _ _ Hadd) as Hr. destruct (to_array v Ht) as (_ & _ & (Hb & _)).
    unfold numdevs, array_getnum in Hr. lia. }
  destruct (array_add_wp _ _ k (to_array v Ht) Hroom) as (r & a & h & Ea & Hwf & Hs & Hc & _).
  exists r, a, h. split; [done|]. cbn zeta. pose proof enter_fresh as Hk.
  destruct Hc as [[-> ->]|[-> Hc]]; [right|left]; (split; [done|]).
  - destruct (enter_quiet _ h Hwf Hs) as (Hq & Eh & Eb).
    pose proof (enter_owns _ h Hs (proj1 (proj2 Hwf))) as Ho.
    destruct (pend_heap (k :: opt_block raw ++ [pn]) (plus L (one p)) E O v h Hi (proj1 Hwf)) as ([Hi' _] & _).
    { eapply owns_perm; [|exact Ho]. unfold vfs_blocks. rewrite <- !app_assoc. solve_Permutation. }
    split; [|by apply (set_kd_fresh v k kd)].
    apply (inv_fresh _ _ _ _ k kd) in Hi'; [|exact Hk].
    apply (inv_locks _ _ _ _ false false) in Hi'. unfold set_block, set_dlock in *. simpl in *. by rewrite Hu2.
  - destruct (enter_done a h Hwf Hs Hc) as [Hi' Ed]. split; [|exact Ed].
    apply (inv_locks _ _ _ _ false false) in Hi'. unfold add_dev, set_block, set_dlock in *. simpl in *. by rewrite Hu2.
Qed.

Lemma doadd_enter_wp :
  unlocked v ->
  exists vol r v', doadd_enter k nm (snd <$> raw) fs (set_kd k kd v) = Some (r, v') /\ entered vol r v'.
Proof.
  intros Hu. pose proof Hp as [Hi _]. pose proof (in_ok _ _ _ _ Hi) as Hok. pose proof enter_fresh as Hk.
  pose proof (inv_dlock _ _ _ _ true (inv_fresh _ _ _ _ k kd Hi Hk)) as Hi1.
  assert (exists vol, (if negb (fs =? 0) then fsop_getvolname fs (below v) else Some None) = Some vol) as (vol & Evol).
  { destruct (fs =? 0) eqn:Ef; boolify; simpl; [eauto|]. destruct (ad_fs _ _ _ _ _ Hadd Ef) as [Hm _].
    destruct (volname_law _ _ Hok Hm) as (n & -> & _). eauto. }
  destruct (badnames_loop_wp (Some nm) (snd <$> raw) vol (set_dlock true (set_kd k kd v)) (numdevs v) 0)
    as (bad & Ebad & Hbad); [exact Hok|apply Hi1|done|].
  exists vol. unfold doadd_enter. change (below (set_kd k kd v)) with (below v). rewrite Evol. cbn [mbind option_bind].
  unfold lock_knowndevs. pose proof Hu as [Hl1 Hl2]. cbn [knowndevs_lock set_kd]. rewrite Hl1. cbn [negb mbind option_bind].
  unfold badnames. cbn [knowndevs_lock set_dlock]. change (numdevs (set_dlock true (set_kd k kd v))) with (numdevs v).
  change (Z.of_nat 0) with 0 in Ebad. rewrite Ebad. cbn [mbind option_bind].
  change (devs (set_dlock true (set_kd k kd v))) with (devs (set_kd k kd v)) in Hbad.
  rewrite (proj1 (set_kd_fresh v k kd Hk)) in Hbad.
  destruct bad; cbn [negb].
  - cbn [mbind option_bind]. exists EEXIST. eexists. split; [reflexivity|]. split; [by split|]. split; [done|]. split; [done|].
    right. split; [done|]. split; [by apply inv_dlock|]. by apply (set_kd_fresh v k kd).
  - destruct (enter_add_wp Hu) as (r & a & h & Ea & Hr). cbn [knowndevs set_kd set_dlock below].
    rewrite Ea. cbn [mbind option_bind]. exists r. eexists. split; [reflexivity|]. split; [by split|].
    split; [done|]. split; [done|]. destruct Hr as [(-> & ? & ?)|?]; [left|by right].
    split; [done|]. split; [done|]. split; [done|].
    intros kj [j Hj]%list_elem_of_lookup_1. apply (Hbad eq_refl j); [lia|done].
Qed.
End enter.

Lemma add_ok_quiet dname m dev fs v v' :
  add_ok dname m dev fs v -> same_vfs v v' ->
  (forall f, f <> 0 -> mounted (below v') f <-> mounted (below v) f) ->
  (forall d, idle (below v') d <-> idle (below v) d) -> (forall d, known (below v) d -> known (below v') d) ->
  add_ok dname m dev fs v'.
Proof.
  intros [A1 A2 A3 Ak A4 A5] Hs Hm Hi Hkn. destruct (same_devs v v' Hs) as [_ Ed].
  constructor; [done| |done|auto| |].
  - by rewrite (same_numdevs v v').
  - intros Hmt. destruct (A4 Hmt) as (? & ? & Hk). rewrite Ed. split; [done|]. split; [by apply Hi|done].
  - intros Hf. destruct (A5 Hf) as [? Hno]. split; [by apply Hm|]. by rewrite (same_has_fs v v').
Qed.

Lemma quiet_mounted v v' f : quiet v v' -> f <> 0 -> mounted (below v') f <-> mounted (below v) f.
Proof. intros [_ Hst] Hf. by apply (sb_mounted _ _ _ (vs_same _ _ _ _ Hst)). Qed.
Lemma quiet_idle v v' d : quiet v v' -> idle (below v') d <-> idle (below v) d.
Proof. intros [_ Hst]. apply (vs_idle _ _ _ _ Hst). Qed.
Lemma add_ok_still dname m dev fs v v' : add_ok dname m dev fs v -> quiet v v' -> add_ok dname m dev fs v'.
Proof.
  intros Ha Hq. eapply add_ok_quiet; [exact Ha|apply Hq|intros; by apply quiet_mounted|intros; by apply quiet_idle|].
  apply (vs_known _ _ _ _ (proj2 Hq)).
Qed.

(** The names a device is found by. *)
Definition raw_name (mountable : bool) (dname : list Z) : option (list Z) :=
  if mountable then Some (dname ++ raw_suffix) else None.

Definition added L E O v (dname : list Z) (mountable : bool) (dev fs r : Z) v' : Prop :=
  unlocked v' /\ bootfs_vnode v' = bootfs_vnode v /\ t_cwd v' = t_cwd v /\
  (r = 0 /\ inv L E O v' /\
     (exists kd, devs v' = devs v ++ [kd] /\ (kd_name kd).2 = dname /\
        snd <$> kd_rawname kd = raw_name mountable dname /\ kd_device kd = dev /\ kd_fs kd = fs) /\
     (exists vol, forall kj, kj ∈ devs v -> no_name (Some dname) (raw_name mountable dname) vol kj) \/
   r <> 0 /\ devs v' = devs v /\ (inv L E O v' \/ exists p, p <> 0 /\ inv (plus L (one p)) E O v')).

Lemma added_fail L E O v dname m dev fs r v0 v' :
  same_vfs v v0 -> unlocked v -> r <> 0 -> inv L E O v' -> same_vfs v0 v' -> added L E O v dname m dev fs r v'.
Proof.
  intros Hs Hu Hr Hi Hs'. pose proof (same_trans _ _ _ Hs Hs') as Hst.
  split; [by eapply same_unlocked|]. destruct (same_devs _ _ Hst) as [_ Ed].
  destruct Hst as (_ & _ & ? & ? & _). split; [done|]. split; [done|]. right. auto.
Qed.

(** The part of [vfs_doadd] after the names are made. *)
Lemma doadd_rest_wp L E O v0 v pn rn dname m dev fs :
  inv L E O v0 -> unlocked v0 -> same_vfs v0 v -> add_ok dname m dev fs v ->
  snd <$> rn = raw_name m dname -> pend (opt_block rn ++ [pn]) L E O v ->
  wp True ('(vnode, v) ← on_below (dev_create_vnode dev) v;
           if vnode =? 0 then doadd_puke (Some (pn, dname)) rn 0 v
           else
             '(kd, v) ← on_heap (kmalloc sizeof_knowndev) v;
             if kd =? 0 then doadd_puke (Some (pn, dname)) rn vnode v
             else
               doadd_enter kd dname (snd <$> rn) fs
                 (set_kd kd (Knowndev (pn, dname) rn dev vnode fs) v))
    (fun '(r, v') => added L E O v0 dname m dev fs r v').
Proof.
  intros Hi Hu Hs Hadd Ern Hp. assert (forall q, 0 <= L q) as HL by apply Hi.
  wp_call ltac:(exact (pend_vnode _ L E O v dev Hp (ad_known _ _ _ _ _ Hadd))).
  intros [p v1] (Hs1 & Hm1 & Hid1 & Hkn1 & Hc). pose proof (add_ok_quiet _ _ _ _ _ _ Hadd Hs1 Hm1 Hid1 Hkn1) as Hadd1. pose proof (same_trans _ _ _ Hs Hs1) as Hs01.
  destruct Hc as [[-> Hp1]|[Hn Hp1]].
  { simpl. destruct (doadd_puke_wp L E O v1 (Some (pn, dname)) rn Hp1) as (v' & -> & Hi' & Hs').
    by eapply added_fail. }
  rewrite (proj2 (Z.eqb_neq p 0)) by apply Hn.
  destruct (pend_alloc _ _ _ _ _ sizeof_knowndev Hp1) as (k & h & Ek & Hp2 & Hq2); [done|].
  set (v2 := set_below (with_heap h (below v1)) v1) in *.
  assert (on_heap (kmalloc sizeof_knowndev) v1 = Some (k, v2)) as -> by (unfold on_heap; by rewrite Ek).
  cbn [mbind option_bind]. pose proof (new_vnode_quiet _ _ _ Hn Hq2) as Hn2.
  assert (same_vfs v0 v2) as Hs02 by (eapply same_trans; [exact Hs01|apply Hq2]).
  unfold with_block in Hp2. destruct (k =? 0) eqn:Ek0.
  { destruct (doadd_puke_vnode_wp L E O v2 (Some (pn, dname)) rn p Hp2 HL Hn2) as (v' & -> & Hi' & Hs').
    by eapply added_fail. }
  assert (add_ok dname m dev fs v2) as Hadd2.
  { by eapply add_ok_still. }
  destruct (doadd_enter_wp L E O v2 k pn p dev fs dname rn Hp2 HL Hn2) as (vol & r & v' & -> & He).
  { unfold has_rawname. simpl. unfold raw_name in Ern. by destruct m, rn. }
  { by eapply same_unlocked. }
  destruct (same_devs _ _ Hs02) as [_ Ed]. destruct He as (Hu' & Eb & Ec & He). rewrite Ed in He.
  assert (bootfs_vnode v2 = bootfs_vnode v0 /\ t_cwd v2 = t_cwd v0) as [Eb2 Ec2] by by destruct Hs02 as (_ & _ & ? & ? & _).
  split; [done|]. split; [congruence|]. split; [congruence|].
  destruct He as [(-> & Hi' & Ed' & Hno)|(Hr & Hi' & Ed')]; [left|right; split; [done|]; split; [done|]].
  - split; [done|]. split; [done|]. split; [by eexists; split; [exact Ed'|]|]. exists vol. by rewrite <- Ern.
  - right. exists p. split; [apply Hn|done].
Qed.

Lemma vfs_doadd_wp L E O v dname m dev fs :
  inv L E O v -> unlocked v -> add_ok dname m dev fs v ->
  wp True (vfs_doadd dname m dev fs v) (fun '(r, v') => added L E O v dname m dev fs r v').
Proof.
  intros Hi Hu Hadd. pose proof (ad_name _ _ _ _ _ Hadd) as [Hstr Hlen]. unfold NAME_MAX in Hlen.
  unfold vfs_doadd, kstrdup. rewrite u32_id by (unfold is_u32; lia).
  destruct (pend_string [] L E O v (Z.of_nat (length dname) + 1) dname (pend_start _ _ _ _ Hi))
    as (r & v1 & -> & Hq1 & Hc); [unfold kmalloc_size; lia|]. cbn [mbind option_bind].
  pose proof Hq1 as [Hs1 _].
  assert (add_ok dname m dev fs v1) as Hadd1.
  { by eapply add_ok_still. }
  destruct Hc as [[-> Hp1]|(pn & -> & Hp1)].
  { destruct (doadd_puke_wp L E O v1 None None Hp1) as (v' & -> & Hi' & Hs'). by eapply added_fail. }
  destruct m.
  2:{ cbn [mbind option_bind andb]. by apply (doadd_rest_wp L E O v v1 pn None). }
  unfold mkrawname. rewrite u32_id by (unfold is_u32; lia).
  destruct (pend_string [pn] L E O v1 (Z.of_nat (length dname) + 3 + 1) (dname ++ raw_suffix) Hp1)
    as (r & v2 & -> & Hq2 & Hc2); [unfold kmalloc_size; lia|]. cbn [mbind option_bind andb].
  pose proof (same_trans _ _ _ Hs1 (proj1 Hq2)) as Hs2.
  destruct Hc2 as [[-> Hp2]|(pr & -> & Hp2)].
  { destruct (doadd_puke_wp L E O v2 (Some (pn, dname)) None Hp2) as (v' & -> & Hi' & Hs'). by eapply added_fail. }
  apply (doadd_rest_wp L E O v v2 pn (Some (pr, dname ++ raw_suffix))); try done.
  by eapply add_ok_still.
Qed.

(** ** The names of the devices *)

Definition kd_names (kd : knowndev) : list (list Z) :=
  (kd_name kd).2 :: match kd_rawname kd with Some n => [n.2] | None => [] end.

(** No two devices have a name in common. *)
Definition names_apart v : Prop :=
  forall i j k1 k2 n, devs v !! i = Some k1 -> devs v !! j = Some k2 -> i <> j ->
    n ∈ kd_names k1 -> n ∈ kd_names k2 -> False.

Lemma no_name_kd n n1 n2 n3 kd :
  no_name n1 n2 n3 kd -> n ∈ kd_names kd -> n1 <> Some n /\ n2 <> Some n.
Proof.
  intros [E1 E2] Hn. unfold samestring3 in *. apply orb_false_elim in E1 as [[E1 E1']%orb_false_elim _].
  apply orb_false_elim in E2 as [[E2 E2']%orb_false_elim _].
  assert (forall m, samestring (Some m) (Some m) = true) as Hrefl.
  { intros m. simpl. unfold streq. by apply bool_decide_eq_true_2. }
  apply elem_of_cons in Hn as [->|Hn].
  - split; intros ->; by rewrite Hrefl in *.
  - destruct (kd_rawname kd) as [m|]; [|by apply not_elem_of_nil in Hn]. apply list_elem_of_singleton in Hn as ->.
    simpl fmap in *. change (fmap snd (Some m)) with (Some m.2) in *. split; intros ->; by rewrite Hrefl in *.
Qed.

Lemma added_names L E O v dname m dev fs r v' :
  added L E O v dname m dev fs r v' -> names_apart v -> names_apart v'.
Proof.
  intros (_ & _ & _ & [(_ & _ & (kd & Ed & En & Er & _) & vol & Hno)|(_ & Ed & _)]) Hap.
  2:{ unfold names_apart. by rewrite Ed. }
  assert (forall kj n, kj ∈ devs v -> n ∈ kd_names kj -> n ∈ kd_names kd -> False) as Hnew.
  { intros kj n Hj Hn Hk. destruct (no_name_kd n _ _ _ _ (Hno kj Hj) Hn) as [H1 H2].
    apply elem_of_cons in Hk as [->|Hk]; [by rewrite En in H1|].
    destruct (kd_rawname kd) as [x|]; [|by apply not_elem_of_nil in Hk].
    apply list_elem_of_singleton in Hk as ->. apply H2. by rewrite <- Er. }
  intros i j k1 k2 n. rewrite Ed. intros H1 H2 Hij Hn1 Hn2.
  apply lookup_snoc_Some in H1 as [[_ H1]|[-> <-]]; apply lookup_snoc_Some in H2 as [[_ H2]|[-> <-]].
  - by eapply (Hap i j k1 k2).
  - by eapply (Hnew k1), Hn2; [eapply dev_elem|].
  - by eapply (Hnew k2), Hn1; [eapply dev_elem|].
  - done.
Qed.

Lemma same_but_fs_names v v' : same_but_fs v v' -> names_apart v -> names_apart v'.
Proof.
  intros (_ & Ed & _) Hap i j k1 k2 n H1 H2 Hij Hn1 Hn2.
  assert (forall x kx, devs v' !! x = Some kx -> exists ky, devs v !! x = Some ky /\ kd_names ky = kd_names kx) as Hback.
  { intros x kx Hx. apply (f_equal (.!! x)) in Ed. rewrite !list_lookup_fmap, Hx in Ed.
    destruct (devs v !! x) as [ky|]; [|done]. exists ky. split; [done|]. simpl in Ed. injection Ed as E1 E2 _ _.
    unfold kd_names. by rewrite E1, E2. }
  destruct (Hback i k1 H1) as (a & Ha & Ea), (Hback j k2 H2) as (b & Hb & Eb).
  apply (Hap i j a b n); [done..|by rewrite Ea|by rewrite Eb].
Qed.
End add.
