(* ===== verification/VfsNames.v ===== *)
(** * What the name of a device or a volume leads to

    [resolve] reads the table of devices as a list: the first device that answers to
    the name, by its own name, by the label of the volume mounted on it, or by its raw
    name, says what the name leads to.  [vfs_getroot] finds just that. *)

From stdpp Require Import base option list gmap numbers.
From S2P Require Import Prelude Kmem Array Cstring Uio SfsMount Vfs VfsInv VfsOps.

(** A name leads to the root of a file system, to a device, or to an error. *)
Inductive target := TRoot (fs : Z) | TDevice (p : Z) | TNone (err : Z).

Section names.
Context {H S : Type} `{!Kmalloc H, !KmallocLaws H, !Vnodes H S, !VnodesView S, !VnodesLaws H S}.
Implicit Types v : vfs S.

(** The label of the volume mounted on a device. *)
Definition label (s : S) (kd : knowndev) : option (list Z) :=
  if kd_fs kd =? 0 then None else default None (fsop_getvolname (kd_fs kd) s).

Definition means (s : S) (n : list Z) (kd : knowndev) : option target :=
  if decide (kd_fs kd <> 0 /\ ((kd_name kd).2 = n \/ label s kd = Some n)) then Some (TRoot (kd_fs kd))
  else if decide ((kd_name kd).2 = n) then Some (if has_rawname kd then TNone ENXIO else TDevice (kd_vnode kd))
  else if decide (snd <$> kd_rawname kd = Some n) then Some (TDevice (kd_vnode kd))
  else None.

Definition resolve (s : S) (n : list Z) (ds : list knowndev) : target :=
  default (TNone ENODEV) (head (omap (means s n) ds)).

(** What [vfs_getroot] returned is what the name leads to. *)
Definition leads (t : target) (s : S) (r p : Z) (s' : S) : Prop :=
  match t with
  | TRoot fs => r = 0 /\ root_at fs p s'
  | TDevice q => r = 0 /\ p = q
  | TNone e => r = e /\ s' = s
  end.

Lemma label_mounted L E O v kd :
  inv L E O v -> kd ∈ devs v -> kd_fs kd <> 0 -> fsop_getvolname (kd_fs kd) (below v) = Some (label (below v) kd).
Proof.
  intros Hi Hk Hf. pose proof (to_kd _ (in_table _ _ _ _ Hi) _ Hk) as Hko. unfold label.
  rewrite (proj2 (Z.eqb_neq _ _) Hf). by destruct (volname_law _ _ (in_ok _ _ _ _ Hi) (ko_fs _ _ Hko Hf)) as (n & -> & _).
Qed.

(** A device says what the name leads to, or is passed by. *)
Definition said (o : option target) v (r : option (Z * Z)) v' : Prop :=
  match o, r with
  | Some t, Some (err, p) => leads t (below v) err p (below v')
  | None, None => v' = v
  | _, _ => False
  end.

(** The root of [fs] is not in memory. *)
Definition no_root (o : target) (s : S) : Prop :=
  match o with TRoot fs => forall q, root_at fs q s -> refs s q <= 0 | _ => False end.

Lemma getroot_device_said R L E O v kd :
  inv L E O v -> vroom 1 (below v) -> kd ∈ devs v -> kd_fs kd = 0 \/ has_rawname kd = true ->
  wp R (getroot_device kd v) (fun '(r, v') => said (Some (TDevice (kd_vnode kd))) v r v').
Proof.
  intros Hi Hr Hk Hd. eapply wp_mono; [by apply (getroot_device_wp R L E O)|done|].
  intros [r v'] (-> & _). by split.
Qed.

Lemma getroot_dev_said L E O v n kd :
  inv L E O v -> vroom 1 (below v) -> kd ∈ devs v ->
  wp (exists fs, means (below v) n kd = Some (TRoot fs) /\ no_root (TRoot fs) (below v))
    (getroot_dev n kd v) (fun '(r, v') => said (means (below v) n kd) v r v').
Proof.
  intros Hi Hr Hk. pose proof (to_kd _ (in_table _ _ _ _ Hi) _ Hk) as Hko.
  assert (forall R, (kd_name kd).2 <> n \/ kd_fs kd = 0 /\ has_rawname kd = false ->
    ~ (kd_fs kd <> 0 /\ ((kd_name kd).2 = n \/ label (below v) kd = Some n)) ->
    wp R (getroot_names n kd v) (fun '(r, v') => said (means (below v) n kd) v r v')) as Hnames.
  { intros R Hn Hno. unfold getroot_names, means, streq. rewrite decide_False by done.
    case_bool_decide as Es.
    - destruct Hn as [|[Ef Er]]; [done|]. rewrite decide_True by done. rewrite Ef, Er. by apply (getroot_device_said R L E O); auto.
    - rewrite decide_False by done. destruct (kd_rawname kd) as [x|] eqn:Erw.
      + case_bool_decide as Ex; [rewrite decide_True by (by rewrite <- Ex)|rewrite decide_False by (intros [= ?]; done); done].
        apply (getroot_device_said R L E O); auto. right. unfold has_rawname. by rewrite Erw.
      + by rewrite decide_False. }
  unfold getroot_dev. destruct (kd_fs kd =? 0) eqn:Ef; boolify; simpl.
  - destruct (has_rawname kd) eqn:Er; simpl; [|apply Hnames; naive_solver].
    unfold streq at 1. case_bool_decide as Es; [|apply Hnames; naive_solver].
    unfold means. rewrite decide_False by naive_solver. rewrite decide_True, Er by done. done.
  - rewrite (label_mounted L E O v kd Hi Hk Ef). simpl.
    destruct (streq (kd_name kd).2 n || match label (below v) kd with Some m => streq m n | None => false end) eqn:Es.
    + assert (means (below v) n kd = Some (TRoot (kd_fs kd))) as Em.
      { unfold means. rewrite decide_True; [done|]. split; [done|]. unfold streq in Es.
        apply orb_true_iff in Es as [Es|Es]; [left; by apply bool_decide_eq_true in Es|right].
        destruct (label (below v) kd) as [m|]; [|done]. apply bool_decide_eq_true in Es. congruence. }
      rewrite Em. unfold on_below. apply wp_bind, wp_bind.
      eapply wp_mono; [exact (getroot_law _ _ (in_ok _ _ _ _ Hi) Hr (ko_fs _ _ Hko Ef))|intros Hno; by exists (kd_fs kd)|].
      intros [p s'] (_ & _ & _ & Hroot). by split.
    + apply orb_false_elim in Es as [Es1 Es2]. unfold streq in Es1. apply bool_decide_eq_false in Es1.
      apply Hnames; [by left|]. intros [_ [?|El]]; [done|]. rewrite El in Es2. unfold streq in Es2.
      by apply bool_decide_eq_false in Es2.
Qed.

Lemma getroot_loop_leads L E O v n k i :
  inv L E O v -> vroom 1 (below v) -> (i + k = numdevs v)%nat ->
  wp (no_root (resolve (below v) n (drop i (devs v))) (below v))
    (getroot_loop k (Z.of_nat i) n v) (fun '(r, p, v') =>
      leads (resolve (below v) n (drop i (devs v))) (below v) r p (below v')).
Proof.
  intros Hi Hr. pose proof (in_table _ _ _ _ Hi) as Ht. revert i. induction k as [|k IH]; intros i Hn; cbn [getroot_loop].
  { destruct (numdevs_keys v Ht) as [En El]. by rewrite drop_ge by lia. }
  destruct (getdev_wp v i Ht) as (key & kd & -> & _ & _ & Hk); [lia|]. cbn [mbind option_bind].
  rewrite (drop_S _ kd i Hk). unfold resolve. cbn [omap list_omap head].
  apply wp_bind. eapply wp_mono; [apply (getroot_dev_said L E O v n kd Hi Hr), (dev_elem v i kd Hk)|..].
  - intros (fs & Em & Hno). rewrite Em. done.
  - intros [r v'] Hs. unfold said in Hs. destruct (means (below v) n kd) as [t|], r as [[err p]|]; try done. subst v'.
    replace (Z.of_nat i + 1) with (Z.of_nat (Datatypes.S i)) by lia. apply IH. lia.
Qed.

Lemma vfs_getroot_leads L E O v n :
  inv L E O v -> unlocked v -> vroom 1 (below v) ->
  wp (no_root (resolve (below v) n (devs v)) (below v)) (vfs_getroot n v) (fun '(r, p, v') =>
    leads (resolve (below v) n (devs v)) (below v) r p (below v') /\ unlocked v').
Proof.
  intros Hi [Hl Hl2] Hr. unfold vfs_getroot, lock_knowndevs. rewrite Hl. simpl.
  pose proof (getroot_loop_leads L E O (set_dlock true v) n (numdevs v) 0 (inv_dlock _ _ _ _ _ Hi) Hr ltac:(done)) as Hw.
  pose proof (getroot_loop_wp True L E O (set_dlock true v) n (numdevs v) 0 (inv_dlock _ _ _ _ _ Hi) Hr
    ltac:(done) ltac:(done)) as Hw2.
  change (Z.of_nat 0) with 0 in *. change (numdevs (set_dlock true v)) with (numdevs v).
  apply wp_bind. destruct (getroot_loop (numdevs v) 0 n (set_dlock true v)) as [[[r p] v1]|]; [|exact Hw].
  simpl in Hw, Hw2 |- *. destruct Hw2 as [(_ & (_ & _ & _ & _ & E5 & E6) & _) _]. simpl in E5, E6.
  unfold unlock_knowndevs. rewrite E5. simpl. split; [exact Hw|]. split; [done|]. simpl. congruence.
Qed.
End names.
