(* ===== verification/VfsDev.v ===== *)
(** * Devices and mounted volumes under the VFS layer

    The vnodes of devices (kern/fs/vfs/device.c), the null device (devnull.c), and the
    state [sys] of all that is below the layer: the heap, the devices and their vnodes,
    and the mounted SFS volumes, each a [mnt] of SfsMount.v.  A call VOP_X goes to the
    table of operations of the vnode it is given; a vnode is looked for among those of
    the devices and of the volumes, which share one heap.

    A disk is in [s_disks] while nothing is mounted on it; the volume has it
    otherwise. *)

From stdpp Require Import base option list gmap numbers.
From S2P Require Import Prelude Kmem Array Cstring Uio Device SfsDisk Sfs SfsDir SfsMount Vfs.

Definition S_IFCHR : Z := 16384.
Definition S_IFBLK : Z := 20480.

(** ** struct device *)

(** [X] is the state the device works on. *)
Record device (X : Type) := DeviceS {
  dv_open : Z -> Z;
  dv_close : Z;
  dv_io : uio -> vm -> X -> option (Z * uio * vm * X);
  dv_ioctl : Z -> Z -> Z;
  dv_blocks : Z;
  dv_blocksize : Z;
}.
Arguments DeviceS {X}.
Arguments dv_open {X}.
Arguments dv_close {X}.
Arguments dv_io {X}.
Arguments dv_ioctl {X}.
Arguments dv_blocks {X}.
Arguments dv_blocksize {X}.

(** ** devnull.c *)

Definition nullopen (openflags : Z) : Z := 0.
Definition nullclose : Z := 0.

Definition set_resid (n : Z) (u : uio) : uio :=
  Uio (iov_base u) (iov_len u) (uio_offset u) n (uio_segflg u) (uio_rw u) (uio_space u).

Definition nullio {X} (u : uio) (w : vm) (x : X) : option (Z * uio * vm * X) :=
  Some (0, match uio_rw u with UIO_WRITE => set_resid 0 u | UIO_READ => u end, w, x).

Definition nullioctl (op data : Z) : Z := EINVAL.

Definition null_device {X} : device X := DeviceS nullopen nullclose nullio nullioctl 0 1.

(** ** device.c: the entries of [dev_vnode_ops] *)

Section dev.
Context {X : Type}.
Implicit Types d : device X.

Definition dev_open d (flags : Z) : Z :=
  if negb (Z.land flags (Z.lor O_CREAT (Z.lor O_TRUNC (Z.lor O_EXCL O_APPEND))) =? 0) then EINVAL
  else dv_open d flags.

Definition dev_close d : Z := dv_close d.
Definition dev_reclaim : Z := 0.

Definition dev_read d (u : uio) (w : vm) (x : X) : option (Z * uio * vm * X) :=
  ASSERT bool_decide (uio_rw u = UIO_READ) ;; dv_io d u w x.

Definition null_io (u : uio) : Z := EINVAL.

Definition dev_write d (u : uio) (w : vm) (x : X) : option (Z * uio * vm * X) :=
  ASSERT bool_decide (uio_rw u = UIO_WRITE) ;; dv_io d u w x.

Definition dev_ioctl d (op data : Z) : Z := dv_ioctl d op data.

Definition dev_gettype d : Z * Z := if 0 <? dv_blocks d then (0, S_IFBLK) else (0, S_IFCHR).

(** The product is one of two unsigned numbers, and st_size is an off_t. *)
Definition dev_stat d : Z * stat :=
  let '(result, mode) := dev_gettype d in
  if negb (result =? 0) then (result, Stat 0 0 0 0)
  else (0, Stat mode 1 (if 0 <? dv_blocks d then s32 (u32 (dv_blocks d * dv_blocksize d)) else 0) (dv_blocks d)).

(** The remainder and the quotient are unsigned, as [d_blocksize] is. *)
Definition dev_tryseek d (pos : Z) : Z :=
  if 0 <? dv_blocks d then
    if negb (u32 pos `mod` dv_blocksize d =? 0) then EINVAL
    else if pos <? 0 then EINVAL
    else if dv_blocks d <=? u32 pos / dv_blocksize d then EINVAL
    else 0
  else ESPIPE.

Definition null_fsync : Z := 0.
Definition dev_mmap : Z := EUNIMP.

Definition dev_truncate d (len : Z) : Z :=
  if (0 <? dv_blocks d) && (s32 (u32 (dv_blocks d * dv_blocksize d)) =? len) then 0 else EINVAL.

Definition dev_namefile (u : uio) : Z := 0.
Definition null_creat : Z := ENOTDIR.
Definition null_symlink : Z := ENOTDIR.
Definition null_nameop : Z := ENOTDIR.
Definition null_link : Z := ENOTDIR.
Definition null_rename : Z := ENOTDIR.
Definition dev_lookparent : Z := ENOTDIR.
End dev.

(** ** All that is below the layer *)

(** The vnode of a device: the counts, the lock (its address and that of its name),
    and vn_data. *)
Record dnode := Dnode { dn_ref : Z; dn_open : Z; dn_lock : Z * Z; dn_data : Z }.

(** A volume and the device it is on. *)
Record vol (H D : Type) := Vol { vol_dev : Z; vol_mnt : mnt H D }.
Arguments Vol {H D}.
Arguments vol_dev {H D}.
Arguments vol_mnt {H D}.

Record sys (H D : Type) := Sys {
  s_heap : H;
  s_vols : gmap Z (vol H D);          (* by the address of the struct fs *)
  s_dnodes : gmap Z dnode;
  s_devices : gmap Z (device (option D));
  s_disks : gmap Z D;                 (* by the address of the struct device *)
}.
Arguments Sys {H D}.
Arguments s_heap {H D}.
Arguments s_vols {H D}.
Arguments s_dnodes {H D}.
Arguments s_devices {H D}.
Arguments s_disks {H D}.

Definition sizeof_vnode : Z := 24.

Section sys.
Context {H D : Type} `{!Kmalloc H, !Device D}.
Implicit Types s : sys H D.
Implicit Types m : mnt H D.

Definition set_sheap (h : H) s : sys H D := Sys h (s_vols s) (s_dnodes s) (s_devices s) (s_disks s).
Definition set_dnode (p : Z) (n : dnode) s : sys H D :=
  Sys (s_heap s) (s_vols s) (<[p := n]> (s_dnodes s)) (s_devices s) (s_disks s).
Definition del_dnode (p : Z) s : sys H D :=
  Sys (s_heap s) (s_vols s) (delete p (s_dnodes s)) (s_devices s) (s_disks s).

(** The volume at [fs] with the heap it shares, and its state put back. *)
Definition vol_at (fs : Z) s : option (mnt H D) :=
  v ← s_vols s !! fs; Some (set_mheap (s_heap s) (vol_mnt v)).
Definition put_vol (fs : Z) m s : sys H D :=
  match s_vols s !! fs with
  | Some v => Sys (m_heap m) (<[fs := Vol (vol_dev v) m]> (s_vols s)) (s_dnodes s) (s_devices s) (s_disks s)
  | None => s
  end.

(** The volume that has the vnode [p] in memory. *)
Definition vol_of (p : Z) s : option Z :=
  fst <$> head (filter (fun x => is_Some (m_nodes (vol_mnt x.2) !! p)) (map_to_list (s_vols s))).

Definition on_vol {A} (p : Z) (f : mnt H D -> option (A * mnt H D)) s : option (A * sys H D) :=
  fs ← vol_of p s;
  m ← vol_at fs s;
  '(x, m) ← f m;
  Some (x, put_vol fs m s).

Definition do_vol (p : Z) (f : mnt H D -> option (mnt H D)) s : option (sys H D) :=
  fs ← vol_of p s;
  m ← vol_at fs s;
  m ← f m;
  Some (put_vol fs m s).

Definition see_vol {A} (p : Z) (f : mnt H D -> option A) s : option A :=
  fs ← vol_of p s;
  m ← vol_at fs s;
  f m.

(** [vnode_check] of a device vnode, and the device it is for. *)
Definition dnode_check (p : Z) (n : dnode) : option unit :=
  ASSERT negb (p =? 0) && negb (p =? 0xdeadbeef) ;;
  ASSERT 0 <? dn_ref n ;;
  ASSERT 0 <=? dn_open n ;;
  Some tt.

Definition vn_device (n : dnode) s : option (device (option D)) := s_devices s !! dn_data n.

(** ** The counts of device vnodes (vnode.c) *)

Definition dnode_incref (p : Z) (n : dnode) s : option (sys H D) :=
  ASSERT negb (p =? 0) ;;
  Some (set_dnode p (Dnode (s32 (dn_ref n + 1)) (dn_open n) (dn_lock n) (dn_data n)) s).

(** The last reference is kept: [dev_reclaim] does nothing. *)
Definition dnode_decref (p : Z) (n : dnode) s : option (sys H D) :=
  ASSERT negb (p =? 0) ;;
  ASSERT 0 <? dn_ref n ;;
  if 1 <? dn_ref n then Some (set_dnode p (Dnode (dn_ref n - 1) (dn_open n) (dn_lock n) (dn_data n)) s)
  else _ ← dnode_check p n; let _ := dev_reclaim in Some s.

Definition dnode_incopen (p : Z) (n : dnode) s : option (sys H D) :=
  ASSERT negb (p =? 0) ;;
  Some (set_dnode p (Dnode (dn_ref n) (s32 (dn_open n + 1)) (dn_lock n) (dn_data n)) s).

Definition dnode_decopen (p : Z) (n : dnode) s : option (sys H D) :=
  ASSERT negb (p =? 0) ;;
  ASSERT 0 <? dn_open n ;;
  let n := Dnode (dn_ref n) (dn_open n - 1) (dn_lock n) (dn_data n) in
  let s := set_dnode p n s in
  if 0 <? dn_open n then Some s
  else _ ← dnode_check p n; d ← vn_device n s; let _ := dev_close d in Some s.

(** [lock_create]: the lock and its name. *)
Definition new_lock (name : list Z) (h : H) : option (option (Z * Z) * H) :=
  '(l, h) ← kmalloc 12 h;
  if l =? 0 then Some (None, h) else
  '(n, h) ← kstrdup name h;
  match n with
  | None => h ← kfree l h; Some (None, h)
  | Some (n, _) => Some (Some (l, n), h)
  end.

(** [dev_create_vnode]; it panics if [vnode_init] fails. *)
Definition sys_create_vnode (dev : Z) s : option (Z * sys H D) :=
  '(v, h) ← kmalloc sizeof_vnode (s_heap s);
  if v =? 0 then Some (0, set_sheap h s)
  else
    '(l, h) ← new_lock countlock_name h;
    l ← l;                                                   (* panic *)
    Some (v, set_dnode v (Dnode 1 0 l dev) (set_sheap h s)).

Definition sys_kfree_vnode (p : Z) s : option (sys H D) :=
  h ← kfree p (s_heap s);
  Some (del_dnode p (set_sheap h s)).

(** [dev_lookup]: the error, [*result], and the count. *)
Definition dev_lookup (p : Z) (n : dnode) (pathname : list Z) s : option (Z * Z * sys H D) :=
  if 0 <? Z.of_nat (length pathname) then Some (ENOENT, 0, s)
  else s ← dnode_incref p n s; Some (0, p, s).

(** ** The calls, by the kind of vnode *)

Definition by_kind {A} (p : Z) (dev : dnode -> option A) (v : option A) s : option A :=
  match s_dnodes s !! p with Some n => dev n | None => v end.

(** An entry for devices that only returns; with the device, and without. *)
Definition dev_entry {A} (p : Z) (f : device (option D) -> A) (n : dnode) s : option (A * sys H D) :=
  _ ← dnode_check p n; d ← vn_device n s; Some (f d, s).
Definition null_entry {A} (p : Z) (x : A) (n : dnode) s : option (A * sys H D) :=
  _ ← dnode_check p n; Some (x, s).

Definition sys_incref (p : Z) s : option (sys H D) :=
  by_kind p (fun n => dnode_incref p n s) (do_vol p (vnode_incref p) s) s.
Definition sys_decref (p : Z) s : option (sys H D) :=
  by_kind p (fun n => dnode_decref p n s) (do_vol p (vnode_decref p) s) s.
Definition sys_incopen (p : Z) s : option (sys H D) :=
  by_kind p (fun n => dnode_incopen p n s) (do_vol p (vnode_incopen p) s) s.
Definition sys_decopen (p : Z) s : option (sys H D) :=
  by_kind p (fun n => dnode_decopen p n s) (do_vol p (vnode_decopen p) s) s.

Definition sys_open (p flags : Z) s : option (Z * sys H D) :=
  by_kind p (fun n => dev_entry p (fun d => dev_open d flags) n s)
    (r ← see_vol p (VOP_OPEN p flags) s; Some (r, s)) s.

Definition sys_truncate (p len : Z) s : option (Z * sys H D) :=
  by_kind p (fun n => dev_entry p (fun d => dev_truncate d len) n s)
    (on_vol p (VOP_TRUNCATE p len) s) s.

(** The error and the type. *)
Definition sys_gettype (p : Z) s : option (Z * Z) :=
  by_kind p (fun n => _ ← dnode_check p n; d ← vn_device n s; Some (dev_gettype d))
    (t ← see_vol p (VOP_GETTYPE p) s; Some (0, t)) s.

Definition sys_lookup (p : Z) (path : list Z) s : option (Z * Z * sys H D) :=
  by_kind p (fun n => _ ← dnode_check p n; dev_lookup p n path s)
    (on_vol p (VOP_LOOKUP p path) s) s.

(** The name is the string in the buffer. *)
Definition sys_lookparent (p : Z) (path : list Z) (buflen : Z) s : option (Z * Z * list Z * sys H D) :=
  by_kind p (fun n => null_entry p (dev_lookparent, 0, []) n s)
    ('(r, q, buf, s) ← on_vol p (VOP_LOOKPARENT p path (replicate (Z.to_nat buflen) 0)) s;
     Some (r, q, cstr buf, s)) s.

Definition sys_creat (p : Z) (name : list Z) (excl : bool) s : option (Z * Z * sys H D) :=
  by_kind p (fun n => null_entry p (null_creat, 0) n s)
    (on_vol p (VOP_CREAT p name excl) s) s.

Definition sys_remove (p : Z) (name : list Z) s : option (Z * sys H D) :=
  by_kind p (fun n => null_entry p null_nameop n s) (on_vol p (VOP_REMOVE p name) s) s.

(** The entries neither kind of SFS vnode has a function for. *)
Definition plain_call (op : plain_op) (err p : Z) s : option (Z * sys H D) :=
  by_kind p (fun n => null_entry p err n s) (r ← see_vol p (VOP_PLAIN op p) s; Some (r, s)) s.

Definition sys_mkdir (p : Z) (name : list Z) s : option (Z * sys H D) :=
  plain_call OpMkdir null_nameop p s.
Definition sys_rmdir (p : Z) (name : list Z) s : option (Z * sys H D) :=
  plain_call OpRmdir null_nameop p s.
Definition sys_symlink (p : Z) (name contents : list Z) s : option (Z * sys H D) :=
  plain_call OpSymlink null_symlink p s.

Definition sys_link (p : Z) (name : list Z) (file : Z) s : option (Z * sys H D) :=
  by_kind p (fun n => null_entry p null_link n s) (on_vol p (VOP_LINK p name file) s) s.

Definition sys_rename (d1 : Z) (n1 : list Z) (d2 : Z) (n2 : list Z) s : option (Z * sys H D) :=
  by_kind d1 (fun n => null_entry d1 null_rename n s)
    (on_vol d1 (VOP_RENAME d1 n1 d2 n2) s) s.

Definition sys_readlink (p : Z) (u : uio) (w : vm) s : option (Z * uio * vm * sys H D) :=
  '(r, s) ← plain_call OpReadlink (null_io u) p s; Some (r, u, w, s).

Definition sys_namefile (p : Z) (u : uio) (w : vm) s : option (Z * uio * vm * sys H D) :=
  '(r, s) ← by_kind p (fun n => null_entry p (dev_namefile u) n s)
              (r ← see_vol p (VOP_NAMEFILE p) s; Some (r, s)) s;
  Some (r, u, w, s).

(** vn_fs of a vnode. *)
Definition sys_vn_fs (p : Z) s : option Z := by_kind p (fun _ => Some 0) (vol_of p s) s.

(** ** The calls on file systems *)

Definition sys_sync (fs : Z) s : option (Z * sys H D) :=
  m ← vol_at fs s;
  '(r, m) ← sfs_sync m;
  Some (r, put_vol fs m s).

Definition sys_getvolname (fs : Z) s : option (option (list Z)) :=
  m ← vol_at fs s;
  Some (Some (cstr (sfs_getvolname m))).

Definition sys_getroot (fs : Z) s : option (Z * sys H D) :=
  m ← vol_at fs s;
  '(p, m) ← sfs_getroot m;
  Some (p, put_vol fs m s).

(** The disk is free again when the volume is gone. *)
Definition sys_unmount (fs : Z) s : option (Z * sys H D) :=
  v ← s_vols s !! fs;
  m ← vol_at fs s;
  '(r, m', h) ← sfs_unmount m;
  match m' with
  | Some m => Some (r, put_vol fs m s)
  | None => Some (r, Sys h (delete fs (s_vols s)) (s_dnodes s) (s_devices s)
                       (<[vol_dev v := fs_device (m_fs m)]> (s_disks s)))
  end.

(** [sfs_domount] as [vfs_mount] calls it. *)
Definition sys_domount (dev : Z) s : option (Z * Z * sys H D) :=
  d ← s_disks s !! dev;
  '(r, m, d, h) ← sfs_domount d (s_heap s);
  match m with
  | Some m => Some (r, m_self m, Sys h (<[m_self m := Vol dev m]> (s_vols s)) (s_dnodes s) (s_devices s)
                                   (delete dev (s_disks s)))
  | None => Some (r, 0, Sys h (s_vols s) (s_dnodes s) (s_devices s) (<[dev := d]> (s_disks s)))
  end.

#[global] Instance sys_vnodes : Vnodes H (sys H D) := {
  heap_of := s_heap;
  with_heap := set_sheap;
  vop_incref := sys_incref;
  vop_decref := sys_decref;
  vop_incopen := sys_incopen;
  vop_decopen := sys_decopen;
  vop_open := sys_open;
  vop_truncate := sys_truncate;
  vop_gettype := sys_gettype;
  vop_lookup := sys_lookup;
  vop_lookparent := sys_lookparent;
  vop_creat := sys_creat;
  vop_remove := sys_remove;
  vop_mkdir := sys_mkdir;
  vop_rmdir := sys_rmdir;
  vop_symlink := sys_symlink;
  vop_link := sys_link;
  vop_rename := sys_rename;
  vop_readlink := sys_readlink;
  vop_namefile := sys_namefile;
  vn_fs := sys_vn_fs;
  fsop_sync := sys_sync;
  fsop_getvolname := sys_getvolname;
  fsop_getroot := sys_getroot;
  fsop_unmount := sys_unmount;
  dev_create_vnode := sys_create_vnode;
  kfree_vnode := sys_kfree_vnode;
}.

(** [sfs_mount]. *)
Definition sfs_mount (device : list Z) (v : vfs (sys H D)) : option (Z * vfs (sys H D)) :=
  vfs_mount device sys_domount v.

(** ** Starting the layer *)

Definition sizeof_device : Z := 28.

Definition set_device (p : Z) (d : device (option D)) s : sys H D :=
  Sys (s_heap s) (s_vols s) (s_dnodes s) (<[p := d]> (s_devices s)) (s_disks s).

(** The strings null, knowndevs and bootfs_lock. *)
Definition null_name : list Z := [110; 117; 108; 108].
Definition knowndevs_name : list Z := [107; 110; 111; 119; 110; 100; 101; 118; 115].
Definition bootfs_name : list Z := [98; 111; 111; 116; 102; 115; 95; 108; 111; 99; 107].

Definition devnull_create (v : vfs (sys H D)) : option (vfs (sys H D)) :=
  '(dev, v) ← on_heap (kmalloc sizeof_device) v;
  ASSERT negb (dev =? 0) ;;                                  (* panic *)
  '(result, v) ← vfs_adddev null_name dev false (set_below (set_device dev null_device (below v)) v);
  ASSERT result =? 0 ;;                                      (* panic *)
  Some v.

Definition vfs_initbootfs (h : H) : option H :=
  '(l, h) ← new_lock bootfs_name h;
  _ ← l;                                                     (* panic *)
  Some h.

(** The layer starts with nothing below it but the heap and the disks. *)
Definition vfs_bootstrap (h : H) (devices : gmap Z (device (option D))) (disks : gmap Z D) :
    option (vfs (sys H D)) :=
  '(a, h) ← array_create h;
  a ← a;                                                     (* panic *)
  '(l, h) ← new_lock knowndevs_name h;
  _ ← l;                                                     (* panic *)
  h ← vfs_initbootfs h;
  devnull_create (Vfs a ∅ false 0 false 0 (Sys h ∅ ∅ devices disks)).
End sys.
