(* ===== verification/VfsSfs.v ===== *)
(** * SFS volumes and devices keep the promises made to the VFS layer

    [sys_ok] is the invariant of what is below the layer: every volume is well formed,
    the vnodes of devices have sensible counts, and all have their own memory.  With
    it, the operations of VfsDev.v do what [VnodesLaws] says; those of the volumes by
    the theorems on SFS clients. *)

From stdpp Require Import base option list gmap numbers.
From S2P Require Import Prelude Kmem Array Bitmap Cstring Uio Device SfsDisk Sfs.
From S2P Require Import SfsBlock SfsBmap SfsFile SfsDir SfsTrunc SfsVol.
From S2P Require Import SfsMount SfsTree SfsTable SfsVnodes SfsNames SfsOps SfsSync SfsClient SfsMountSpec.
From S2P Require Import Vfs VfsInv VfsDev.

(** ** Lists from maps *)

Section maps.
Context {A : Type}.

Lemma bind_lookup (f : Z * A -> list Z) (m : gmap Z A) k x :
  m !! k = Some x -> map_to_list m ≫= f ≡ₚ f (k, x) ++ (map_to_list (delete k m) ≫= f).
Proof.
  intros Hk. rewrite <- (insert_delete_id m k x Hk) at 1.
  rewrite map_to_list_insert by apply lookup_delete_eq. by rewrite bind_cons.
Qed.

Lemma bind_insert (f : Z * A -> list Z) (m : gmap Z A) k x :
  map_to_list (<[k := x]> m) ≫= f ≡ₚ f (k, x) ++ (map_to_list (delete k m) ≫= f).
Proof. rewrite (bind_lookup f _ k x) by apply lookup_insert_eq. by rewrite delete_insert_eq. Qed.

Lemma bind_elem (f : Z * A -> list Z) (m : gmap Z A) k x q :
  m !! k = Some x -> q ∈ f (k, x) -> q ∈ map_to_list m ≫= f.
Proof. intros Hk Hq. apply list_elem_of_bind. exists (k, x). split; [done|]. by apply elem_of_map_to_list. Qed.

(** What is in two of the lists is in one. *)
Lemma bind_nodup (f : Z * A -> list Z) (m : gmap Z A) k1 x1 k2 x2 q :
  NoDup (map_to_list m ≫= f) -> m !! k1 = Some x1 -> m !! k2 = Some x2 ->
  q ∈ f (k1, x1) -> q ∈ f (k2, x2) -> k1 = k2.
Proof.
  intros Hn H1 H2 Q1 Q2. destruct (decide (k1 = k2)) as [|Hne]; [done|]. exfalso.
  rewrite (bind_lookup f m k1 x1 H1) in Hn. apply list.NoDup_app in Hn as (_ & Hd & _).
  apply (Hd q Q1). apply (bind_elem f _ k2 x2); [by rewrite lookup_delete_ne|done].
Qed.
End maps.

Section frames.
Context {H : Type} `{!Kmalloc H, !KmallocLaws H}.

Lemma kept_frame (h : H) ps h' ps' rest :
  kept_others h ps h' ps' -> kept_others h (ps ++ rest) h' (ps' ++ rest).
Proof.
  intros K q n Hq Hb. apply not_elem_of_app in Hq as [Hq Hr]. destruct (K q n Hq Hb) as [? ?].
  split; [|done]. by apply not_elem_of_app.
Qed.

Lemma kept_perm (h : H) ps ps1 h' ps' ps1' :
  ps ≡ₚ ps1 -> ps' ≡ₚ ps1' -> kept_others h ps h' ps' -> kept_others h ps1 h' ps1'.
Proof. intros E1 E2 K q n. rewrite <- E1, <- E2. apply K. Qed.

Lemma kept_refl_heap (h : H) ps : kept_others h ps h ps.
Proof. by intros q n. Qed.
End frames.

Section sys.
Context {H D : Type} `{!Kmalloc H, !KmallocLaws H, !Device D, !DeviceLaws D}.
Implicit Types s : sys H D.
Implicit Types m : mnt H D.
Implicit Types I : gmap Z sfs_inode.

(** ** The invariant *)

Definition vol_blocks (x : Z * vol H D) : list Z := mnt_blocks (vol_mnt x.2).
Definition dn_blocks (x : Z * dnode) : list Z := [x.1; (dn_lock x.2).1; (dn_lock x.2).2].
Definition sys_blocks s : list Z :=
  (map_to_list (s_vols s) ≫= vol_blocks) ++ (map_to_list (s_dnodes s) ≫= dn_blocks).

Definition vol_ok (h : H) (fs : Z) (v : vol H D) : Prop :=
  m_self (vol_mnt v) = fs /\ (exists I, mnt_ok (set_mheap h (vol_mnt v)) I) /\ reliable (m_fs (vol_mnt v)).

Definition dnode_ok s (n : dnode) : Prop :=
  1 <= dn_ref n /\ 0 <= dn_open n /\ is_Some (s_devices s !! dn_data n).

Record sys_ok s : Prop := {
  so_heap : heap_ok (s_heap s);
  so_owns : owns (s_heap s) (sys_blocks s);
  so_vol : forall fs v, s_vols s !! fs = Some v -> vol_ok (s_heap s) fs v;
  so_dnode : forall p n, s_dnodes s !! p = Some n -> dnode_ok s n;
}.

(** ** What the layer sees *)

Definition node_at (q : Z) s : option sfs_vnode :=
  fs ← vol_of q s; v ← s_vols s !! fs; m_nodes (vol_mnt v) !! q.

Definition sys_refs s (q : Z) : Z :=
  match s_dnodes s !! q with
  | Some n => dn_ref n
  | None => match node_at q s with Some sv => vn_refcount (sv_v sv) | None => 0 end
  end.

Definition sys_opens s (q : Z) : Z :=
  match s_dnodes s !! q with
  | Some n => dn_open n
  | None => match node_at q s with Some sv => vn_opencount (sv_v sv) | None => 0 end
  end.

(** A disk with a volume on it. *)
Definition mountable (d : D) : Prop := dev_reliable d /\ exists fs0 I, on_disk d fs0 I.

Definition sys_root_at (fs q : Z) s : Prop :=
  exists v sv, s_vols s !! fs = Some v /\ m_nodes (vol_mnt v) !! q = Some sv /\ sv_ino sv = SFS_ROOT_LOCATION.

Definition sys_flushed (fs : Z) s : Prop :=
  exists v I, s_vols s !! fs = Some v /\ mnt_ok (set_mheap (s_heap s) (vol_mnt v)) I /\ synced (vol_mnt v) I.

#[global] Instance sys_view : VnodesView (sys H D) := {
  below_ok := sys_ok;
  vn_blocks := sys_blocks;
  refs := sys_refs;
  opens := sys_opens;
  mounted := fun s fs => is_Some (s_vols s !! fs);
  root_at := sys_root_at;
  flushed := sys_flushed;
  idle := fun s dev => exists d, s_disks s !! dev = Some d /\ mountable d;
  fs_dev := fun s fs => match s_vols s !! fs with Some v => vol_dev v | None => 0 end;
  known := fun s dev => is_Some (s_devices s !! dev);
}.

(** ** Where a vnode is *)

Lemma node_block h fs v q sv :
  vol_ok h fs v -> m_nodes (vol_mnt v) !! q = Some sv -> q ∈ vol_blocks (fs, v).
Proof.
  intros (_ & (I & _ & Hm) & _) Hq. unfold vol_blocks, mnt_blocks. simpl. rewrite !elem_of_app. right; left.
  apply list_elem_of_bind. exists q. split; [|apply (tb_dom _ (me_table _ _ Hm)); simpl; eauto].
  unfold node_blocks. rewrite Hq. destruct (vn_countlock _) as [[??]|]; set_solver.
Qed.

Lemma vol_unique s fs1 v1 fs2 v2 q sv1 sv2 :
  sys_ok s -> s_vols s !! fs1 = Some v1 -> s_vols s !! fs2 = Some v2 ->
  m_nodes (vol_mnt v1) !! q = Some sv1 -> m_nodes (vol_mnt v2) !! q = Some sv2 -> fs1 = fs2.
Proof.
  intros Hok H1 H2 Q1 Q2. destruct (so_owns s Hok) as [Hn _]. apply list.NoDup_app in Hn as (Hn & _).
  eapply (bind_nodup vol_blocks); [exact Hn|exact H1|exact H2|..];
    (eapply node_block; [by apply (so_vol s Hok)|eassumption]).
Qed.

Lemma dnode_apart s fs v q sv :
  sys_ok s -> s_vols s !! fs = Some v -> m_nodes (vol_mnt v) !! q = Some sv -> s_dnodes s !! q = None.
Proof.
  intros Hok Hv Hq. apply eq_None_not_Some. intros [n Hn]. destruct (so_owns s Hok) as [Hnd _].
  apply list.NoDup_app in Hnd as (_ & Hd & _). apply (Hd q).
  - eapply bind_elem; [exact Hv|]. eapply node_block; [by apply (so_vol s Hok)|done].
  - eapply bind_elem; [exact Hn|]. by left.
Qed.

Lemma vol_of_some s q fs :
  sys_ok s -> vol_of q s = Some fs <-> exists v sv, s_vols s !! fs = Some v /\ m_nodes (vol_mnt v) !! q = Some sv.
Proof.
  intros Hok. unfold vol_of. set (l := filter _ _).
  assert (forall x, x ∈ l <-> s_vols s !! x.1 = Some x.2 /\ is_Some (m_nodes (vol_mnt x.2) !! q)) as Hl.
  { intros [k v]. unfold l. rewrite list_elem_of_filter, elem_of_map_to_list. simpl. tauto. }
  split.
  - destruct l as [|[k v] l'] eqn:El; simpl; [done|]. intros [= ->].
    destruct (proj1 (Hl (fs, v))) as [Hv [sv Hq]]; [by left|]. by exists v, sv.
  - intros (v & sv & Hv & Hq). destruct l as [|[k w] l'] eqn:El; simpl.
    + exfalso. apply (not_elem_of_nil (fs, v)), Hl. eauto.
    + f_equal. destruct (proj1 (Hl (k, w))) as [Hw [sw Hqw]]; [by left|]. simpl in *.
      by eapply (vol_unique s k w fs v).
Qed.

Lemma node_at_some s q sv :
  sys_ok s -> node_at q s = Some sv <-> exists fs v, s_vols s !! fs = Some v /\ m_nodes (vol_mnt v) !! q = Some sv.
Proof.
  intros Hok. unfold node_at. split.
  - destruct (vol_of q s) as [fs|] eqn:Ef; [|done]. simpl. destruct (s_vols s !! fs) as [v|] eqn:Ev; [|done].
    simpl. intros Hq. eauto.
  - intros (fs & v & Hv & Hq). rewrite (proj2 (vol_of_some s q fs Hok)) by eauto. simpl. by rewrite Hv.
Qed.

(** ** A step of one volume *)

Definition nref m (q : Z) : Z := match m_nodes m !! q with Some sv => vn_refcount (sv_v sv) | None => 0 end.
Definition nopen m (q : Z) : Z := match m_nodes m !! q with Some sv => vn_opencount (sv_v sv) | None => 0 end.

Lemma mnt_new_heap h m I :
  mnt_ok m I -> heap_ok h -> owns h (mnt_blocks m) -> mnt_ok (set_mheap h m) I.
Proof.
  intros [Ht Hm] Hh Ho. split; [done|]. apply (mem_ext m); [done| |done|done].
  by apply set_mheap_table; [apply Hm|..].
Qed.

Lemma vol_new_heap h h' fs v :
  vol_ok h fs v -> heap_ok h' -> owns h' (mnt_blocks (vol_mnt v)) -> vol_ok h' fs v.
Proof.
  intros (E & (I & Hok) & Hr) Hh Ho. split; [done|]. split; [|done]. exists I.
  by apply (mnt_new_heap h' _ I) in Hok.
Qed.

Lemma sys_blocks_vol s fs v :
  s_vols s !! fs = Some v ->
  exists rest, sys_blocks s ≡ₚ mnt_blocks (vol_mnt v) ++ rest /\
    forall m', sys_blocks (put_vol fs m' s) ≡ₚ mnt_blocks m' ++ rest.
Proof.
  intros Hv. exists ((map_to_list (delete fs (s_vols s)) ≫= vol_blocks) ++ (map_to_list (s_dnodes s) ≫= dn_blocks)).
  split.
  - unfold sys_blocks. by rewrite (bind_lookup vol_blocks _ fs v Hv), <- app_assoc.
  - intros m'. unfold sys_blocks, put_vol. rewrite Hv. simpl.
    by rewrite (bind_insert vol_blocks), <- app_assoc.
Qed.

Lemma owns_part (h : H) ps qs rest : owns h ps -> ps ≡ₚ qs ++ rest -> owns h qs.
Proof. intros Ho Ep. eapply owns_perm in Ho; [|exact Ep]. by apply owns_app in Ho as [? _]. Qed.

Lemma sys_part s fs v : sys_ok s -> s_vols s !! fs = Some v -> owns (s_heap s) (mnt_blocks (vol_mnt v)).
Proof.
  intros Hok Hv. destruct (sys_blocks_vol s fs v Hv) as (rest & Ep & _).
  by eapply owns_part; [apply (so_owns s Hok)|].
Qed.

(** The state after a step of the volume [fs] to [m']. *)
Section vol_step.
Context s fs v m' I'
  (Hok : sys_ok s) (Hv : s_vols s !! fs = Some v)
  (Hok' : mnt_ok m' I') (Hstep : heap_step (set_mheap (s_heap s) (vol_mnt v)) m')
  (Hrel : reliable (m_fs m')).

Let s' := put_vol fs m' s.

Lemma step_vols : s_vols s' = <[fs := Vol (vol_dev v) m']> (s_vols s).
Proof. unfold s', put_vol. by rewrite Hv. Qed.
Lemma step_heap : s_heap s' = m_heap m'.
Proof. unfold s', put_vol. by rewrite Hv. Qed.
Lemma step_dnodes : s_dnodes s' = s_dnodes s.
Proof. unfold s', put_vol. by rewrite Hv. Qed.
Lemma step_devices : s_devices s' = s_devices s.
Proof. unfold s', put_vol. by rewrite Hv. Qed.
Lemma step_disks : s_disks s' = s_disks s.
Proof. unfold s', put_vol. by rewrite Hv. Qed.

Lemma step_frame :
  heap_ok (s_heap s') /\ owns (s_heap s') (sys_blocks s') /\
  kept_others (s_heap s) (sys_blocks s) (s_heap s') (sys_blocks s').
Proof.
  destruct (sys_blocks_vol s fs v Hv) as (rest & Ep & Ep'). destruct Hstep as [Hso _].
  pose proof (me_table _ _ (proj2 Hok')) as Ht. rewrite step_heap. split; [apply (tb_array _ Ht)|].
  apply same_others_kept in Hso. cbn [m_heap set_mheap] in Hso.
  change (mnt_blocks (set_mheap _ _)) with (mnt_blocks (vol_mnt v)) in Hso.
  split.
  - eapply owns_perm; [symmetry; apply Ep'|]. rewrite (Permutation_app_comm (mnt_blocks m')).
    eapply owns_kept; [exact Hso|apply Ht|]. eapply owns_perm; [|apply (so_owns s Hok)].
    by rewrite Ep, Permutation_app_comm.
  - eapply kept_perm; [symmetry; exact Ep|symmetry; apply Ep'|]. by apply kept_frame.
Qed.

Lemma step_ok : sys_ok s'.
Proof.
  destruct step_frame as (Hh & Ho & _). constructor; [done|done|..].
  - intros fs2 w. rewrite step_vols. intros [[<- <-]|[Hne Hw]]%lookup_insert_Some.
    + destruct (so_vol s Hok fs v Hv) as (E & _ & _). split; [exact (eq_trans (proj2 Hstep) E)|].
      split; [|done]. exists I'. rewrite step_heap. by destruct m'.
    + eapply vol_new_heap; [by apply (so_vol s Hok)|done|]. eapply owns_part; [exact Ho|].
      unfold sys_blocks. rewrite (bind_lookup vol_blocks _ fs2 w).
      * by rewrite <- app_assoc.
      * by rewrite step_vols, lookup_insert_ne.
  - intros p n. rewrite step_dnodes. intros Hn. destruct (so_dnode s Hok p n Hn) as (? & ? & ?).
    split; [done|]. split; [done|]. by rewrite step_devices.
Qed.
End vol_step.

(** ** The counts *)

Lemma seen_in s fs v q sv :
  sys_ok s -> s_vols s !! fs = Some v -> m_nodes (vol_mnt v) !! q = Some sv ->
  sys_refs s q = vn_refcount (sv_v sv) /\ sys_opens s q = vn_opencount (sv_v sv) /\
  sys_vn_fs q s = Some fs /\ s_dnodes s !! q = None.
Proof.
  intros Hok Hv Hq. pose proof (dnode_apart s fs v q sv Hok Hv Hq) as Hn.
  assert (node_at q s = Some sv) as Ha by (apply node_at_some; eauto).
  unfold sys_refs, sys_opens, sys_vn_fs, by_kind. rewrite Hn, Ha.
  split; [done|]. split; [done|]. split; [|done]. apply vol_of_some; eauto.
Qed.

Lemma node_ext q s1 s2 :
  sys_ok s1 -> sys_ok s2 ->
  (forall fs v sv, s_vols s1 !! fs = Some v -> m_nodes (vol_mnt v) !! q = Some sv ->
     exists v2, s_vols s2 !! fs = Some v2 /\ m_nodes (vol_mnt v2) !! q = Some sv) ->
  (forall fs v sv, s_vols s2 !! fs = Some v -> m_nodes (vol_mnt v) !! q = Some sv ->
     exists v1, s_vols s1 !! fs = Some v1 /\ m_nodes (vol_mnt v1) !! q = Some sv) ->
  node_at q s1 = node_at q s2 /\ vol_of q s1 = vol_of q s2.
Proof.
  intros H1 H2 F B. split; apply option_eq; intros x.
  - rewrite !node_at_some by done. split; intros (fs & v & Hv & Hq).
    + destruct (F fs v x Hv Hq) as (w & ? & ?). eauto.
    + destruct (B fs v x Hv Hq) as (w & ? & ?). eauto.
  - rewrite !vol_of_some by done. split; intros (v & sv & Hv & Hq).
    + destruct (F x v sv Hv Hq) as (w & ? & ?). eauto.
    + destruct (B x v sv Hv Hq) as (w & ? & ?). eauto.
Qed.

Lemma no_node s q : sys_ok s ->
  (forall fs v sv, s_vols s !! fs = Some v -> m_nodes (vol_mnt v) !! q = Some sv -> False) -> node_at q s = None.
Proof.
  intros Hok Hno. apply eq_None_not_Some. intros [sv (fs & v & Hv & Hq)%node_at_some]; eauto.
Qed.

(** The type of a vnode of a volume: there is one directory. *)
Definition ino_type (ino : Z) : Z := if ino =? SFS_ROOT_LOCATION then S_IFDIR else S_IFREG.

Lemma gettype_mnt m I q sv : mnt_ok m I -> m_nodes m !! q = Some sv -> VOP_GETTYPE q m = Some (ino_type (sv_ino sv)).
Proof.
  intros [Ht Hm] Hq. unfold VOP_GETTYPE, sfs_gettype. rewrite (vnode_check_wp _ m I q sv Hm Hq), Hq.
  cbn [mbind option_bind]. destruct (me_node _ _ Hm q sv Hq) as [Hi _]. unfold ino_type.
  destruct (sv_ino sv =? SFS_ROOT_LOCATION) eqn:E; boolify.
  - destruct (tw_root _ _ Ht) as (r & Hr & Hd & _). rewrite E, Hr in Hi. injection Hi as ->.
    by rewrite (dw_type _ _ Hd).
  - by rewrite (tw_type _ _ Ht _ _ Hi E).
Qed.

Lemma gettype_val s fs v q sv :
  sys_ok s -> s_vols s !! fs = Some v -> m_nodes (vol_mnt v) !! q = Some sv ->
  sys_gettype q s = Some (0, ino_type (sv_ino sv)).
Proof.
  intros Hok Hv Hq. destruct (seen_in s fs v q sv Hok Hv Hq) as (_ & _ & Hf & Hn).
  unfold sys_vn_fs, sys_gettype, by_kind in *. rewrite Hn in *. unfold see_vol, vol_at. rewrite Hf. simpl.
  rewrite Hv. simpl. destruct (so_vol s Hok fs v Hv) as (_ & (I & Hm) & _). by rewrite (gettype_mnt _ I q sv Hm Hq).
Qed.

Section vol_view.
Context s fs v m' I'
  (Hok : sys_ok s) (Hv : s_vols s !! fs = Some v)
  (Hok' : mnt_ok m' I') (Hstep : heap_step (set_mheap (s_heap s) (vol_mnt v)) m')
  (Hrel : reliable (m_fs m')).

Let s' := put_vol fs m' s.
Let Hs' : sys_ok s' := step_ok s fs v m' I' Hok Hv Hok' Hstep Hrel.
Let Hdn : s_dnodes s' = s_dnodes s := step_dnodes s fs v m' Hv.

Lemma step_at : s_vols s' !! fs = Some (Vol (vol_dev v) m').
Proof. unfold s'. by rewrite (step_vols s fs v m' Hv), lookup_insert_eq. Qed.

Lemma step_other f : f <> fs -> s_vols s' !! f = s_vols s !! f.
Proof. intros Hf. unfold s'. by rewrite (step_vols s fs v m' Hv), lookup_insert_ne. Qed.

(** A vnode that is not of this volume. *)
Lemma step_out q :
  m_nodes (vol_mnt v) !! q = None -> m_nodes m' !! q = None ->
  node_at q s' = node_at q s /\ vol_of q s' = vol_of q s.
Proof.
  intros N N'. apply node_ext; [done|done|..]; intros f w sv Hw Hq.
  - destruct (decide (f = fs)) as [->|Hf].
    + rewrite step_at in Hw. injection Hw as <-. simpl in Hq. congruence.
    + rewrite step_other in Hw by done. eauto.
  - destruct (decide (f = fs)) as [->|Hf]; [congruence|]. exists w. by rewrite step_other.
Qed.

(** A vnode of another volume is not of this one. *)
Lemma step_apart q f w sv :
  f <> fs -> s_vols s !! f = Some w -> m_nodes (vol_mnt w) !! q = Some sv ->
  m_nodes (vol_mnt v) !! q = None /\ m_nodes m' !! q = None.
Proof.
  intros Hf Hw Hq. split; apply eq_None_not_Some; intros [x Hx]; apply Hf.
  - by eapply (vol_unique s f w fs v).
  - by eapply (vol_unique s' f w fs (Vol (vol_dev v) m')); [|rewrite step_other|apply step_at|..].
Qed.

Lemma step_counts q :
  sys_refs s' q = sys_refs s q + (nref m' q - nref (vol_mnt v) q) /\
  sys_opens s' q = sys_opens s q + (nopen m' q - nopen (vol_mnt v) q).
Proof.
  unfold nref, nopen. destruct (m_nodes (vol_mnt v) !! q) as [sv|] eqn:Eq.
  - destruct (seen_in s fs v q sv Hok Hv Eq) as (-> & -> & _ & Hn).
    destruct (m_nodes m' !! q) as [sv'|] eqn:Eq'.
    + destruct (seen_in s' fs _ q sv' Hs' step_at Eq') as (-> & -> & _). lia.
    + assert (node_at q s' = None) as Hno.
      { apply no_node; [done|]. intros f w x Hw Hq. destruct (decide (f = fs)) as [->|Hf].
        - rewrite step_at in Hw. injection Hw as <-. simpl in Hq. congruence.
        - rewrite step_other in Hw by done. by destruct (step_apart q f w x Hf Hw Hq) as [? _]; congruence. }
      unfold sys_refs, sys_opens. rewrite Hdn, Hn, Hno. lia.
  - destruct (m_nodes m' !! q) as [sv'|] eqn:Eq'.
    + destruct (seen_in s' fs _ q sv' Hs' step_at Eq') as (-> & -> & _ & Hn').
      rewrite Hdn in Hn'.
      assert (node_at q s = None) as Hno.
      { apply no_node; [done|]. intros f w x Hw Hq. destruct (decide (f = fs)) as [->|Hf]; [congruence|].
        by destruct (step_apart q f w x Hf Hw Hq) as [_ ?]; congruence. }
      unfold sys_refs, sys_opens. rewrite Hn', Hno. lia.
    + destruct (step_out q Eq Eq') as [En _]. unfold sys_refs, sys_opens. rewrite Hdn, En. lia.
Qed.

Context (Hsup : fs_super (m_fs m') = fs_super (m_fs (vol_mnt v)))
  (Hino : forall q x x', m_nodes (vol_mnt v) !! q = Some x -> m_nodes m' !! q = Some x' -> sv_ino x' = sv_ino x).

(** A vnode in use before and after is where it was, and of the same file. *)
Lemma step_stays q :
  0 < sys_refs s q -> 0 < sys_refs s' q ->
  (exists n, s_dnodes s !! q = Some n /\ s_dnodes s' !! q = Some n) \/
  exists f w w' x x', s_vols s !! f = Some w /\ s_vols s' !! f = Some w' /\
    m_nodes (vol_mnt w) !! q = Some x /\ m_nodes (vol_mnt w') !! q = Some x' /\ sv_ino x' = sv_ino x /\
    (f <> fs -> w' = w).
Proof.
  intros R R'. unfold sys_refs in R, R'. rewrite Hdn in *. destruct (s_dnodes s !! q) as [n|]; [eauto|]. right.
  destruct (node_at q s) as [x|] eqn:Ex; [|lia]. destruct (node_at q s') as [x'|] eqn:Ex'; [|lia].
  apply (node_at_some s q x Hok) in Ex as (f & w & Hw & Hq).
  apply (node_at_some s' q x' Hs') in Ex' as (f' & w' & Hw' & Hq').
  destruct (decide (f = fs)) as [->|Hf].
  - assert (w = v) as -> by congruence. destruct (decide (f' = fs)) as [->|Hf'].
    + rewrite step_at in Hw'. injection Hw' as <-. exists fs, v, (Vol (vol_dev v) m'), x, x'.
      split_and!; try done; [apply step_at|by eapply Hino].
    + rewrite step_other in Hw' by done. destruct (step_apart q f' w' x' Hf' Hw' Hq'). congruence.
  - destruct (step_apart q f w x Hf Hw Hq) as [_ N']. destruct (decide (f' = fs)) as [->|Hf'].
    + rewrite step_at in Hw'. injection Hw' as <-. simpl in Hq'. congruence.
    + rewrite step_other in Hw' by done. assert (f' = f) as -> by by eapply (vol_unique s f' w' f w).
      assert (w' = w) as -> by congruence. exists f, w, w, x, x. rewrite (step_other f) by done. by split_and!.
Qed.

Lemma step_vsame :
  vstep s (fun q => nref m' q - nref (vol_mnt v) q) (fun q => nopen m' q - nopen (vol_mnt v) q) s'.
Proof.
  split; [|apply (step_frame s fs v m' I' Hok Hv Hok' Hstep)]. constructor; [exact Hs'|..].
  - intros q. apply (step_counts q).
  - intros q. apply (step_counts q).
  - constructor; simpl.
    + intros q R R'. destruct (step_stays q R R') as [(n & Hn & Hn')|(f & w & w' & x & x' & Hw & Hw' & Hx & Hx' & Ei & _)].
      * unfold sys_vn_fs, sys_gettype, by_kind, vn_device. rewrite Hn, Hn'.
        unfold s'. by rewrite (step_devices s fs v m' Hv).
      * destruct (seen_in s f w q x Hok Hw Hx) as (_ & _ & -> & _).
        destruct (seen_in s' f w' q x' Hs' Hw' Hx') as (_ & _ & -> & _).
        rewrite (gettype_val s f w q x Hok Hw Hx), (gettype_val s' f w' q x' Hs' Hw' Hx'). by rewrite Ei.
    + intros f q _ R R' (w & x & Hw & Hx & Er).
      destruct (step_stays q R R') as [(n & Hn & _)|(f2 & w2 & w' & x2 & x' & Hw2 & Hw' & Hx2 & Hx' & Ei & _)].
      * destruct (seen_in s f w q x Hok Hw Hx) as (_ & _ & _ & Hn'). congruence.
      * assert (f2 = f) as -> by by eapply (vol_unique s f2 w2 f w). exists w', x'. split_and!; [done|done|congruence].
    + intros f _. destruct (decide (f = fs)) as [->|Hf]; [|by rewrite step_other].
      rewrite step_at, Hv. split; eauto.
    + intros f _ _. unfold sys_getvolname, vol_at. destruct (decide (f = fs)) as [->|Hf].
      * rewrite step_at, Hv. simpl. unfold sfs_getvolname. simpl. by rewrite Hsup.
      * rewrite step_other by done. by destruct (s_vols s !! f).
    + intros f _ _. destruct (decide (f = fs)) as [->|Hf]; [by rewrite step_at, Hv|by rewrite step_other].
  - intros dev. simpl. unfold s'. by rewrite (step_disks s fs v m' Hv).
  - intros dev. simpl. unfold s'. by rewrite (step_devices s fs v m' Hv).
Qed.
End vol_view.
End sys.
