(* ===== verification/VfsLaws.v ===== *)
(** * The promises to the VFS layer, operation by operation

    The calls of an SFS volume, by what the abstract volume of SfsClient.v says they do
    to the vnodes in memory; those of devices; mounting and unmounting; and with all of
    them the instance [sys_laws] of [VnodesLaws]. *)

From stdpp Require Import base option list gmap numbers.
From S2P Require Import Prelude Kmem Array Bitmap Cstring Uio Device SfsDisk Sfs.
From S2P Require Import SfsBlock SfsBmap SfsFile SfsDir SfsTrunc SfsVol.
From S2P Require Import SfsMount SfsTree SfsTable SfsVnodes SfsNames SfsOps SfsSync SfsClient SfsMountSpec.
From S2P Require Import Vfs VfsInv VfsTable VfsDev VfsSfs.

(** ** The vnodes of the abstract volume *)

Definition aref (A : absfs) (q : Z) : Z := match a_nodes A !! q with Some n => an_ref n | None => 0 end.
Definition aopen (A : absfs) (q : Z) : Z := match a_nodes A !! q with Some n => an_open n | None => 0 end.

(** [d] and [o] are the changes of the counts; no vnode is of another file than before. *)
Record node_step (A A' : absfs) (d o : Z -> Z) : Prop := {
  nst_ino : forall q n n', a_nodes A !! q = Some n -> a_nodes A' !! q = Some n' -> an_ino n' = an_ino n;
  nst_ref : forall q, aref A' q = aref A q + d q;
  nst_open : forall q, aopen A' q = aopen A q + o q;
}.

Lemma step_same A A' : a_nodes A' = a_nodes A -> node_step A A' none none.
Proof.
  intros E. constructor; unfold aref, aopen, none; rewrite E; [congruence|intros; lia..].
Qed.

Lemma step_insert A A' p n (r o : Z) :
  a_nodes A' = <[p := n]> (a_nodes A) ->
  an_ref n = aref A p + r -> an_open n = aopen A p + o ->
  (forall n0, a_nodes A !! p = Some n0 -> an_ino n = an_ino n0) ->
  node_step A A' (fun q => r * one p q) (fun q => o * one p q).
Proof.
  intros E Er Eo Ei. constructor; intros q.
  - intros n1 n2 H1. rewrite E. intros [[<- <-]|[_ H2]]%lookup_insert_Some; [auto|congruence].
  - unfold aref in *. rewrite E. destruct (decide (q = p)) as [->|Hq].
    + rewrite lookup_insert_eq, one_eq. lia.
    + rewrite lookup_insert_ne, one_ne by done. lia.
  - unfold aopen in *. rewrite E. destruct (decide (q = p)) as [->|Hq].
    + rewrite lookup_insert_eq, one_eq. lia.
    + rewrite lookup_insert_ne, one_ne by done. lia.
Qed.

Lemma node_step_ext A A' d o d' o' :
  node_step A A' d o -> (forall q, d' q = d q) -> (forall q, o' q = o q) -> node_step A A' d' o'.
Proof. intros [] Hd Ho. constructor; [done|intros q; rewrite Hd; auto|intros q; rewrite Ho; auto]. Qed.

Lemma step_give A A1 p ino A' :
  a_nodes A1 = a_nodes A -> give p ino A1 A' -> node_step A A' (one p) none /\ is_Some (a_nodes A' !! p).
Proof.
  intros E Hg. unfold give in Hg. rewrite E in Hg.
  assert (exists n, a_nodes A' = <[p := n]> (a_nodes A) /\ an_ref n = aref A p + 1 /\ an_open n = aopen A p + 0 /\
    forall n0, a_nodes A !! p = Some n0 -> an_ino n = an_ino n0) as (n & En & Er & Eo & Ei).
  { unfold aref, aopen. destruct (a_nodes A !! p) as [n|] eqn:Ep; destruct Hg as [Hi ->]; simpl; rewrite ?E.
    - eexists. split; [done|]. simpl. split; [lia|]. split; [lia|]. by intros n0 [= <-].
    - eexists. split; [done|]. by split. }
  split; [|rewrite En, lookup_insert_eq; eauto].
  eapply node_step_ext; [by apply (step_insert A A' p n 1 0)|intros q; cbn beta; lia|intros q; unfold none; cbn beta; lia].
Qed.

Lemma step_counts_of A A' p f g r o :
  counts p f g A A' -> (forall x, f x = x + r) -> (forall x, g x = x + o) ->
  node_step A A' (fun q => r * one p q) (fun q => o * one p q).
Proof.
  intros (n & Hn & ->) Hf Hg. apply (step_insert _ _ p (Anode (an_ino n) (f (an_ref n)) (g (an_open n)))); [done|..].
  - unfold aref. rewrite Hn. apply Hf.
  - unfold aopen. rewrite Hn. apply Hg.
  - intros n0 Hn0. simpl. congruence.
Qed.

Lemma step_drop A A' p n :
  a_nodes A !! p = Some n -> an_ref n = 1 -> an_open n = 0 -> a_nodes A' = delete p (a_nodes A) ->
  node_step A A' (fun q => - one p q) none.
Proof.
  intros Hn Er Eo E. constructor; intros q.
  - intros n1 n2 H1. rewrite E. intros [_ H2]%lookup_delete_Some. congruence.
  - unfold aref. rewrite E. destruct (decide (q = p)) as [->|Hq].
    + rewrite lookup_delete_eq, Hn, one_eq. lia.
    + rewrite lookup_delete_ne, one_ne by done. lia.
  - unfold aopen, none. rewrite E. destruct (decide (q = p)) as [->|Hq].
    + rewrite lookup_delete_eq, Hn. lia.
    + rewrite lookup_delete_ne by done. lia.
Qed.

(** ** What the calls do to them *)

Lemma named_alt A ino : named A ino <-> ino = SFS_ROOT_LOCATION \/ ino ∈ map_img (SA := gset Z) (a_names A).
Proof. unfold named. by rewrite elem_of_map_img. Qed.

Lemma held_alt A ino : held A ino <-> ino ∈ map_img (SA := gset Z) (an_ino <$> a_nodes A).
Proof.
  unfold held. rewrite elem_of_map_img. split.
  - intros (p & n & Hp & <-). exists p. by rewrite lookup_fmap, Hp.
  - intros [p (n & <- & Hp)%lookup_fmap_Some]. eauto.
Qed.

#[global] Instance named_dec A ino : Decision (named A ino).
Proof.
  refine (cast_if (decide (ino = SFS_ROOT_LOCATION \/ ino ∈ map_img (SA := gset Z) (a_names A))));
    by rewrite named_alt.
Defined.
#[global] Instance held_dec A ino : Decision (held A ino).
Proof.
  refine (cast_if (decide (ino ∈ map_img (SA := gset Z) (an_ino <$> a_nodes A)))); by rewrite held_alt.
Defined.

Lemma lookup_nodes A dir path o A' : spec (Lookup dir path) A o A' ->
  exists r p, o = Ptr r p /\ (r <> 0 /\ a_nodes A' = a_nodes A \/ r = 0 /\ exists ino, give p ino A A').
Proof.
  simpl. unfold on_dir. destruct (a_nodes A !! dir) as [n|]; [|done]. destruct (_ =? _).
  - intros (r & p & -> & Hc). exists r, p. split; [done|].
    destruct Hc as [(-> & ino & _ & Hg)|[-> [[-> _]| -> ]]]; [right; eauto|by left..].
  - intros [-> ->]. exists ENOTDIR, 0. split; [done|]. by left.
Qed.

Lemma no_entry_err A name r : no_entry A name r -> r <> 0.
Proof. by intros [[-> _]|[[-> _]| -> ]]. Qed.

Lemma creat_nodes A dir name excl o A' : spec (Creat dir name excl) A o A' ->
  exists r p, o = Ptr r p /\
    (r <> 0 /\ a_nodes A' = a_nodes A \/ r = 0 /\ exists A1 ino, a_nodes A1 = a_nodes A /\ give p ino A1 A').
Proof.
  simpl. unfold on_dir. destruct (a_nodes A !! dir) as [n|]; [|done]. destruct (_ =? _).
  - intros (r & p & -> & Hc). exists r, p. split; [done|].
    destruct Hc as [(-> & _ & ino & _ & Hg)|[(-> & _ & ino & _ & _ & Hg)|[-> Hr]]].
    + right. split; [done|]. by exists A, ino.
    + right. split; [done|]. eexists _, ino. by split; [|exact Hg].
    + left. split; [|done]. destruct Hr as [(-> & _)|[(_ & Hn)| -> ]]; [done| |done].
      by apply no_entry_err in Hn.
  - intros [-> ->]. exists ENOTDIR, 0. split; [done|]. by left.
Qed.

(** The calls that only return a code. *)
Definition code_call (c : call) : bool :=
  match c with Link _ _ _ | Remove _ _ | Rename _ _ _ _ | Truncate _ _ | Fsync _ | Sync => true | _ => false end.

Lemma code_nodes c A o A' : code_call c = true -> spec c A o A' -> exists r, o = Ret r /\ a_nodes A' = a_nodes A.
Proof.
  intros Hc. destruct c; try done; simpl; unfold on_dir, at_file.
  - destruct (a_nodes A !! dir) as [n|]; [|done]. destruct (_ =? _); [|intros [-> ->]; eauto].
    intros (r & -> & [(_ & _ & n2 & _ & ->)|[-> _]]); eauto.
  - destruct (a_nodes A !! dir) as [n|]; [|done]. destruct (_ =? _); [|intros [-> ->]; eauto].
    intros (r & -> & [(_ & ino & _ & H1 & H2)|[-> _]]); exists r; [|done]. split; [done|].
    destruct (decide (held A ino)) as [|Hh]; [rewrite H1; auto|].
    destruct (decide (named (set_names (delete name (a_names A)) A) ino)) as [|Hn]; [rewrite H1; auto|].
    by rewrite H2.
  - destruct (a_nodes A !! d1) as [n|]; [|done]. destruct (_ =? _); [|intros [-> ->]; eauto].
    intros (r & -> & [(_ & ino & _ & _ & ->)|[-> _]]); eauto.
  - destruct (a_nodes A !! p) as [n|]; [|done]. destruct (_ =? _); [intros [-> ->]; eauto|].
    intros (c & _ & c' & -> & -> & _). eauto.
  - intros [-> ->]. eauto.
  - intros [-> ->]. eauto.
Qed.

Lemma decref_nodes A p o A' :
  legal (Decref p) A -> spec (Decref p) A o A' -> node_step A A' (fun q => - one p q) none.
Proof.
  intros (n0 & Hn0 & Hop) (_ & n & Hn & Hc). assert (n0 = n) as -> by congruence. destruct Hc as [[_ Hc]|(Er & H1 & H2)].
  - eapply node_step_ext; [apply (step_counts_of A A' p Z.pred id (-1) 0 Hc); [intros x; lia|intros x; unfold id; lia]|..];
      intros q; unfold none; cbn beta; lia.
  - apply (step_drop A A' p n Hn Er (Hop Er)). cbn zeta in *.
    destruct (decide (named A (an_ino n))) as [Hd|Hd]; [by rewrite H1|by rewrite H2].
Qed.

(** ** The calls of a volume *)

Section calls.
Context {H D : Type} `{!Kmalloc H, !KmallocLaws H, !Device D, !DeviceLaws D}.
Implicit Types s : sys H D.
Implicit Types m : mnt H D.
Implicit Types I : gmap Z sfs_inode.

Lemma vstep_ext s d o d' o' s' :
  vstep s d o s' -> (forall q, d' q = d q) -> (forall q, o' q = o q) -> vstep s d' o' s'.
Proof.
  intros [[] K] Hd Ho. split; [|done]. constructor; try done; intros q; rewrite ?Hd, ?Ho; auto.
Qed.

Lemma vstep_same s : sys_ok s -> vstep s none none s.
Proof.
  intros Hok. split; [|by intros q n]. constructor; [done|..]; unfold none; try (intros; lia); [by constructor|done..].
Qed.

(** The volume with the heap it shares. *)
Definition vmnt (v : vol H D) s : mnt H D := set_mheap (s_heap s) (vol_mnt v).

Lemma vol_moves s fs v m' I I' d op :
  sys_ok s -> s_vols s !! fs = Some v -> mnt_ok m' I' -> heap_step (vmnt v s) m' -> reliable (m_fs m') ->
  fs_super (m_fs m') = fs_super (m_fs (vmnt v s)) -> node_step (abs (vmnt v s) I) (abs m' I') d op ->
  vstep s d op (put_vol fs m' s).
Proof.
  intros Hok Hv Hok' Hh Hrel Hsup [Ni Nr No]. unfold aref, aopen in Nr, No. simpl in Ni, Nr, No.
  eapply vstep_ext; [eapply (step_vsame s fs v m' I'); try done|..].
  - intros q x x' Hx Hx'. apply (Ni q (absnode x) (absnode x')); by rewrite lookup_fmap, ?Hx, ?Hx'.
  - intros q. specialize (Nr q). rewrite !lookup_fmap in Nr. unfold nref.
    destruct (m_nodes m' !! q), (m_nodes (vol_mnt v) !! q); simpl in *; lia.
  - intros q. specialize (No q). rewrite !lookup_fmap in No. unfold nopen.
    destruct (m_nodes m' !! q), (m_nodes (vol_mnt v) !! q); simpl in *; lia.
Qed.

Lemma vol_refine c s fs v I :
  sys_ok s -> s_vols s !! fs = Some v -> refine c (vmnt v s) I ->
  exists o m' I', run c (vmnt v s) = Some (o, m') /\ mnt_ok m' I' /\ sys_ok (put_vol fs m' s) /\
    spec c (abs (vmnt v s) I) o (abs m' I') /\
    forall d op, node_step (abs (vmnt v s) I) (abs m' I') d op -> vstep s d op (put_vol fs m' s).
Proof.
  intros Hok Hv (o & m' & I' & E & Hok' & Hh & [Hrel Hsup] & Hsp). exists o, m', I'.
  split; [done|]. split; [done|]. split; [by eapply (step_ok s fs v m' I')|]. split; [done|].
  intros d op. by apply (vol_moves s fs v m' I I').
Qed.

(** A vnode in use is that of a device, or in memory in a volume. *)
Lemma live_cases s q :
  sys_ok s -> 0 < sys_refs s q ->
  (exists n, s_dnodes s !! q = Some n /\ dnode_ok s n /\ dnode_check q n = Some tt /\ q <> 0) \/
  exists fs v sv, s_vols s !! fs = Some v /\ m_nodes (vol_mnt v) !! q = Some sv.
Proof.
  intros Hok Hr. unfold sys_refs in Hr. destruct (s_dnodes s !! q) as [n|] eqn:En.
  - left. exists n. split; [done|]. pose proof (so_dnode s Hok q n En) as (H1 & H2 & H3). split; [done|].
    destruct (so_owns s Hok) as [_ Hl]. destruct (Hl q) as [sz Hb].
    { unfold sys_blocks. apply elem_of_app. right. eapply bind_elem; [exact En|by left]. }
    destruct (blocks_range _ _ _ (so_heap s Hok) Hb) as [? _].
    pose proof (blocks_aligned _ _ _ (so_heap s Hok) Hb) as Ha.
    assert (q <> 0xdeadbeef) by (intros ->; by vm_compute in Ha). split; [|lia].
    unfold dnode_check. rewrite (proj2 (Z.eqb_neq q 0)), (proj2 (Z.eqb_neq q 0xdeadbeef)) by lia. simpl.
    by rewrite (proj2 (Z.ltb_lt _ _)), (proj2 (Z.leb_le _ _)) by lia.
  - right. destruct (node_at q s) as [sv|] eqn:Ea; [|lia].
    apply (node_at_some s q sv Hok) in Ea as (fs & v & ? & ?). by exists fs, v, sv.
Qed.

Lemma self_block m : m_self m ∈ mnt_blocks m.
Proof. unfold mnt_blocks, base_blocks. rewrite !elem_of_app, !elem_of_cons. auto 10. Qed.

Lemma vols_ne0 s fs v : sys_ok s -> s_vols s !! fs = Some v -> fs <> 0.
Proof.
  intros Hok Hv. destruct (so_vol s Hok fs v Hv) as (Es & _ & _).
  destruct (sys_part s fs v Hok Hv) as [_ Hl]. destruct (Hl (m_self (vol_mnt v))) as [n Hb].
  { apply self_block. }
  destruct (blocks_range _ _ _ (so_heap s Hok) Hb). rewrite <- Es. lia.
Qed.

(** The volume is put back as it was. *)
Lemma volume_same s fs v : sys_ok s -> s_vols s !! fs = Some v -> vstep s none none (put_vol fs (vmnt v s) s).
Proof.
  intros Hok Hv. destruct (so_vol s Hok fs v Hv) as (_ & (I & Hm) & Hrel).
  eapply vstep_ext; [apply (step_vsame s fs v (vmnt v s) I Hok Hv Hm (heap_step_refl _) Hrel eq_refl)|..].
  - simpl. congruence.
  - intros q. unfold none, nref. simpl. lia.
  - intros q. unfold none, nopen. simpl. lia.
Qed.

(** A vnode [q] of the volume [fs]. *)
Section located.
Context s q fs v sv (Hok : sys_ok s) (Hv : s_vols s !! fs = Some v)
  (Hq : m_nodes (vol_mnt v) !! q = Some sv).

Lemma loc_mnt : exists I, mnt_ok (vmnt v s) I /\ reliable (m_fs (vmnt v s)).
Proof. destruct (so_vol s Hok fs v Hv) as (_ & (I & ?) & ?). by exists I. Qed.

Lemma loc_node I : a_nodes (abs (vmnt v s) I) !! q = Some (absnode sv).
Proof. simpl. by rewrite lookup_fmap, Hq. Qed.

Lemma loc_kind {A} (f : dnode -> option A) (x : option A) : by_kind q f x s = x.
Proof. unfold by_kind. by destruct (seen_in s fs v q sv Hok Hv Hq) as (_ & _ & _ & ->). Qed.

Lemma loc_vol : vol_of q s = Some fs.
Proof. apply vol_of_some; eauto. Qed.

Lemma loc_on {A} (f : mnt H D -> option (A * mnt H D)) :
  on_vol q f s = '(x, m) ← f (vmnt v s); Some (x, put_vol fs m s).
Proof. unfold on_vol, vol_at. by rewrite loc_vol; simpl; rewrite Hv. Qed.

Lemma loc_do (f : mnt H D -> option (mnt H D)) :
  do_vol q f s = m ← f (vmnt v s); Some (put_vol fs m s).
Proof. unfold do_vol, vol_at. by rewrite loc_vol; simpl; rewrite Hv. Qed.

Lemma loc_see {A} (f : mnt H D -> option A) : see_vol q f s = f (vmnt v s).
Proof. unfold see_vol, vol_at. by rewrite loc_vol; simpl; rewrite Hv. Qed.

Lemma loc_check b : vnode_check b q (vmnt v s) = Some (root_ops (sv_ino sv)).
Proof. destruct loc_mnt as (I & [_ Hm] & _). by apply (vnode_check_wp b _ I q sv). Qed.

Lemma loc_fs : sys_vn_fs q s = Some fs.
Proof. by destruct (seen_in s fs v q sv Hok Hv Hq) as (_ & _ & ? & _). Qed.

Lemma loc_dir : dir_at q s <-> sv_ino sv = SFS_ROOT_LOCATION.
Proof.
  unfold dir_at. simpl. rewrite (gettype_val s fs v q sv Hok Hv Hq). unfold ino_type.
  destruct (sv_ino sv =? SFS_ROOT_LOCATION) eqn:E; boolify; split; try done.
  - eauto.
  - by intros (t & [= <-] & Ht).
Qed.

(** The counts of the volume are those seen. *)
Lemma loc_room : vroom 1 s -> forall I, room (abs (vmnt v s) I).
Proof.
  intros Hr I p n Hn. apply abs_node in Hn as (x & Hx & ->). specialize (Hr p). simpl in Hr, Hx.
  destruct (seen_in s fs v p x Hok Hv Hx) as (E & _). rewrite E in Hr. simpl. lia.
Qed.

(** A call that returns a code. *)
Lemma loc_code c I f :
  code_call c = true -> refine c (vmnt v s) I ->
  (run c (vmnt v s) = '(r, m) ← f (vmnt v s); Some (Ret r, m)) -> plain s (on_vol q f s).
Proof.
  intros Hc Hre Erun. destruct (vol_refine c s fs v I Hok Hv Hre) as (o & m' & I' & E & _ & _ & Hsp & Hst).
  destruct (code_nodes c _ o _ Hc Hsp) as (r & -> & En). rewrite loc_on. rewrite Erun in E.
  destruct (f (vmnt v s)) as [[r1 m1]|]; [|done]. simpl in E. injection E as -> ->.
  exists r, (put_vol fs m' s). split; [done|]. by apply Hst, step_same.
Qed.

(** A call that gives a vnode of the volume. *)
Lemma loc_gives c I f :
  refine c (vmnt v s) I ->
  (forall o A', spec c (abs (vmnt v s) I) o A' -> exists r p, o = Ptr r p /\
     (r <> 0 /\ a_nodes A' = a_nodes (abs (vmnt v s) I) \/
      r = 0 /\ exists A1 ino, a_nodes A1 = a_nodes (abs (vmnt v s) I) /\ give p ino A1 A')) ->
  (run c (vmnt v s) = '(r, p, m) ← f (vmnt v s); Some (Ptr r p, m)) ->
  exists r p s', on_vol q f s = Some (r, p, s') /\ gives_vnode s q r p s'.
Proof.
  intros Hre Hspec Erun. destruct (vol_refine c s fs v I Hok Hv Hre) as (o & m' & I' & E & _ & Hok' & Hsp & Hst).
  destruct (Hspec o _ Hsp) as (r & p & -> & Hc). rewrite loc_on. rewrite Erun in E.
  destruct (f (vmnt v s)) as [[[r1 p1] m1]|]; [|done]. simpl in E. injection E as -> -> ->.
  exists r, p, (put_vol fs m' s). split; [done|].
  destruct Hc as [[Hr En]|(-> & A1 & ino & E1 & Hg)]; [left|right].
  { split; [done|]. by apply Hst, step_same. }
  destruct (step_give _ A1 p ino _ E1 Hg) as [Hns Hp]. apply abs_node_some in Hp as [x Hx].
  assert (s_vols (put_vol fs m' s) !! fs = Some (Vol (vol_dev v) m')) as Hv' by by apply step_at.
  split; [done|]. split; [by apply Hst|]. change (vn_fs ?p ?s) with (sys_vn_fs p s).
  destruct (seen_in _ fs _ p x Hok' Hv' Hx) as (Er & _ & Ef & _). rewrite loc_fs, Ef. split; [|split; [done|]].
  - intros ->. destruct (live_cases _ 0 Hok') as [(n & _ & _ & _ & ?)|(f1 & v1 & x1 & Hv1 & Hx1)]; [|done|].
    + destruct (so_vol _ Hok' fs _ Hv') as (_ & (I1 & _ & Hm1) & _).
      destruct (me_node _ _ Hm1 0 x Hx) as [_ [_ Hr _ _]]. rewrite Er. lia.
    + destruct (so_vol _ Hok' f1 v1 Hv1) as (_ & (I1 & _ & Hm1) & _).
      by destruct (node_ptr _ 0 x1 (me_table _ _ Hm1) Hx1).
  - intros [= ?]. by destruct (vols_ne0 s fs v Hok Hv).
Qed.
(** A call on the counts. *)
Lemma loc_count c I f d op :
  refine c (vmnt v s) I ->
  (forall o A', spec c (abs (vmnt v s) I) o A' -> node_step (abs (vmnt v s) I) A' d op) ->
  (run c (vmnt v s) = m ← f (vmnt v s); Some (Ret 0, m)) ->
  exists s', do_vol q f s = Some s' /\ vstep s d op s'.
Proof.
  intros Hre Hspec Erun. destruct (vol_refine c s fs v I Hok Hv Hre) as (o & m' & I' & E & _ & _ & Hsp & Hst).
  rewrite loc_do. rewrite Erun in E. destruct (f (vmnt v s)) as [m1|]; [|done]. simpl in E. injection E as _ ->.
  eexists. split; [done|]. by eapply Hst, Hspec.
Qed.
End located.

(** ** The vnodes of devices *)

Lemma dnode_blocks s p n n' :
  s_dnodes s !! p = Some n -> dn_lock n' = dn_lock n -> sys_blocks (set_dnode p n' s) ≡ₚ sys_blocks s.
Proof.
  intros Hn El. unfold sys_blocks. simpl. apply Permutation_app_head.
  rewrite (bind_insert dn_blocks), (bind_lookup dn_blocks _ p n Hn). unfold dn_blocks at 1 3. simpl. by rewrite El.
Qed.

(** Two states with the same volumes, devices and heap. *)
Lemma same_vols_but s s' :
  s_vols s' = s_vols s ->
  (forall q, 0 < sys_refs s q -> 0 < sys_refs s' q -> sys_vn_fs q s' = sys_vn_fs q s /\ sys_gettype q s' = sys_gettype q s) ->
  same_but 0 s s'.
Proof.
  intros E Hq. constructor; simpl; [done|..]; unfold sys_root_at, sys_getvolname, vol_at; rewrite E; try done.
  intros fs _ [v ->]. done.
Qed.

Lemma dnode_type s p n : sys_ok s -> s_dnodes s !! p = Some n -> sys_gettype p s = d ← vn_device n s; Some (dev_gettype d).
Proof.
  intros Hok Hn. destruct (live_cases s p Hok) as [(n2 & Hn2 & _ & Hc & _)|(fs & v & sv & Hv & Hq)].
  - unfold sys_refs. rewrite Hn. destruct (so_dnode s Hok p n Hn). lia.
  - unfold sys_gettype, by_kind. rewrite Hn. rewrite Hn in Hn2. injection Hn2 as <-. by rewrite Hc.
  - by rewrite (dnode_apart s fs v p sv Hok Hv Hq) in Hn.
Qed.

Lemma dnode_step s p n n' :
  sys_ok s -> s_dnodes s !! p = Some n -> dn_lock n' = dn_lock n -> dn_data n' = dn_data n ->
  1 <= dn_ref n' -> 0 <= dn_open n' ->
  vstep s (fun q => (dn_ref n' - dn_ref n) * one p q) (fun q => (dn_open n' - dn_open n) * one p q) (set_dnode p n' s).
Proof.
  intros Hok Hn El Ed Hr Ho. pose proof (dnode_blocks s p n n' Hn El) as Eb.
  assert (sys_ok (set_dnode p n' s)) as Hok'.
  { constructor; [apply Hok|..].
    - eapply owns_perm; [symmetry; exact Eb|apply Hok].
    - apply Hok.
    - intros q x. simpl. intros [[<- <-]|[_ Hx]]%lookup_insert_Some; [|by apply (so_dnode s Hok q)].
      destruct (so_dnode s Hok p n Hn) as (_ & _ & ?). unfold dnode_ok. by rewrite Ed. }
  split; [|eapply kept_perm; [reflexivity|symmetry; exact Eb|apply kept_refl_heap]].
  constructor; [exact Hok'|..]; [| | |done|done].
  - intros q. simpl. unfold sys_refs. simpl. destruct (decide (q = p)) as [->|Hq].
    + rewrite lookup_insert_eq, Hn, one_eq. lia.
    + rewrite lookup_insert_ne, one_ne by done. change (node_at q (set_dnode p n' s)) with (node_at q s). lia.
  - intros q. simpl. unfold sys_opens. simpl. destruct (decide (q = p)) as [->|Hq].
    + rewrite lookup_insert_eq, Hn, one_eq. lia.
    + rewrite lookup_insert_ne, one_ne by done. change (node_at q (set_dnode p n' s)) with (node_at q s). lia.
  - apply same_vols_but; [done|]. intros q _ _. destruct (decide (q = p)) as [->|Hq].
    + split; [unfold sys_vn_fs, by_kind; simpl; by rewrite lookup_insert_eq, Hn|].
      rewrite (dnode_type s p n Hok Hn), (dnode_type _ p n' Hok') by apply lookup_insert_eq.
      unfold vn_device. by rewrite Ed.
    + unfold sys_vn_fs, sys_gettype, by_kind. simpl. by rewrite lookup_insert_ne.
Qed.

Lemma dnode_refs s p n : s_dnodes s !! p = Some n -> sys_refs s p = dn_ref n /\ sys_opens s p = dn_open n /\ sys_vn_fs p s = Some 0.
Proof. intros Hn. unfold sys_refs, sys_opens, sys_vn_fs, by_kind. by rewrite Hn. Qed.

(** ** The counts of vnodes *)

Lemma set_heap_step s h :
  sys_ok s -> heap_ok h -> owns h (sys_blocks s) -> vsame s none none (set_sheap h s).
Proof.
  intros Hok Hh Ho. constructor; [|unfold none; simpl; intros q..| |done|done].
  - constructor; [done|exact Ho| |apply Hok]. intros fs v Hv. eapply vol_new_heap; [by apply (so_vol s Hok)|done|].
    destruct (sys_blocks_vol s fs v Hv) as (rest & Ep & _). exact (owns_part _ _ _ _ Ho Ep).
  - change (sys_refs (set_sheap h s) q) with (sys_refs s q). lia.
  - change (sys_opens (set_sheap h s) q) with (sys_opens s q). lia.
  - apply same_vols_but; [done|]. intros q _ _. split; [done|]. unfold sys_gettype, by_kind, see_vol, vol_at. simpl.
    destruct (s_dnodes s !! q); [done|]. change (vol_of q (set_sheap h s)) with (vol_of q s).
    destruct (vol_of q s) as [fs|]; [|done]. simpl. by destruct (s_vols s !! fs).
Qed.

Lemma sys_incref_law s q :
  sys_ok s -> vroom 1 s -> 0 < sys_refs s q -> exists s', sys_incref q s = Some s' /\ vstep s (one q) none s'.
Proof.
  intros Hok Hr Hlv. destruct (live_cases s q Hok Hlv) as [(n & Hn & (H1 & H2 & _) & _ & Hq0)|(fs & v & sv & Hv & Hq)].
  - destruct (dnode_refs s q n Hn) as (Er & _). specialize (Hr q). simpl in Hr. rewrite Er in Hr.
    unfold sys_incref, by_kind, dnode_incref. rewrite Hn, (proj2 (Z.eqb_neq q 0)) by done. simpl negb. cbn iota.
    eexists. split; [done|]. rewrite s32_id by (unfold is_s32; lia).
    eapply vstep_ext; [apply (dnode_step s q n); simpl; try done; lia|..]; intros r; unfold none; simpl; lia.
  - destruct (loc_mnt s fs v Hok Hv) as (I & Hm & Hrel).
    pose proof (loc_room s fs v Hok Hv Hr I) as Hroom.
    unfold sys_incref. rewrite (loc_kind s q fs v sv Hok Hv Hq).
    apply (loc_count s q fs v sv Hok Hv Hq (Incref q) I); [| |done].
    + apply incref_refine; [done|done|done|]. simpl. rewrite lookup_fmap, Hq. eauto.
    + intros o A' [_ Hc]. eapply node_step_ext;
        [apply (step_counts_of _ _ q _ _ 1 0 Hc); intros x; unfold id; lia|..]; intros r; unfold none; cbn beta; lia.
Qed.

Lemma sys_decref_law s q :
  sys_ok s -> sys_opens s q < sys_refs s q -> 1 < sys_refs s q \/ sys_vn_fs q s <> Some 0 -> 0 < sys_refs s q ->
  exists s', sys_decref q s = Some s' /\ vstep s (fun r => - one q r) none s'.
Proof.
  intros Hok Ho Hr Hlv. destruct (live_cases s q Hok Hlv) as [(n & Hn & (H1 & H2 & _) & _ & Hq0)|(fs & v & sv & Hv & Hq)].
  - destruct (dnode_refs s q n Hn) as (Er & _ & Ef). rewrite Er, Ef in Hr. destruct Hr as [Hr|?]; [|done].
    unfold sys_decref, by_kind, dnode_decref. rewrite Hn, (proj2 (Z.eqb_neq q 0)) by done. simpl negb. cbn iota.
    rewrite (proj2 (Z.ltb_lt 0 _)), (proj2 (Z.ltb_lt 1 _)) by lia. eexists. split; [done|].
    eapply vstep_ext; [apply (dnode_step s q n); simpl; try done; lia|..]; intros r; unfold none; simpl; lia.
  - destruct (loc_mnt s fs v Hok Hv) as (I & Hm & Hrel).
    destruct (seen_in s fs v q sv Hok Hv Hq) as (Er & Eo & _). rewrite Er, Eo in Ho.
    assert (legal (Decref q) (abs (vmnt v s) I)) as Hl.
    { exists (absnode sv). split; [by apply (loc_node s q v sv Hq)|]. simpl. intros Hr1.
      destruct (me_node _ _ (proj2 Hm) q sv Hq) as [_ [_ _ ? _]]. lia. }
    unfold sys_decref. rewrite (loc_kind s q fs v sv Hok Hv Hq).
    apply (loc_count s q fs v sv Hok Hv Hq (Decref q) I); [by apply decref_refine| |done].
    intros o A'. by apply decref_nodes.
Qed.

Lemma sys_incopen_law s q :
  sys_ok s -> vroom 1 s -> sys_opens s q < sys_refs s q -> 0 < sys_refs s q ->
  exists s', sys_incopen q s = Some s' /\ vstep s none (one q) s'.
Proof.
  intros Hok Hr Ho Hlv. specialize (Hr q). simpl in Hr.
  destruct (live_cases s q Hok Hlv) as [(n & Hn & (H1 & H2 & _) & _ & Hq0)|(fs & v & sv & Hv & Hq)].
  - destruct (dnode_refs s q n Hn) as (Er & Eo & _). rewrite Er in Hr. rewrite Er, Eo in Ho.
    unfold sys_incopen, by_kind, dnode_incopen. rewrite Hn, (proj2 (Z.eqb_neq q 0)) by done. simpl negb. cbn iota.
    eexists. split; [done|]. rewrite s32_id by (unfold is_s32; lia).
    eapply vstep_ext; [apply (dnode_step s q n); simpl; try done; lia|..]; intros r; unfold none; simpl; lia.
  - destruct (loc_mnt s fs v Hok Hv) as (I & Hm & Hrel).
    destruct (seen_in s fs v q sv Hok Hv Hq) as (Er & Eo & _). rewrite Er in Hr. rewrite Er, Eo in Ho.
    unfold sys_incopen. rewrite (loc_kind s q fs v sv Hok Hv Hq).
    apply (loc_count s q fs v sv Hok Hv Hq (Incopen q) I); [| |done].
    + apply incopen_refine; [done|done|]. exists (absnode sv). split; [by apply (loc_node s q v sv Hq)|]. simpl. lia.
    + intros o A' [_ Hc]. eapply node_step_ext;
        [apply (step_counts_of _ _ q _ _ 0 1 Hc); intros x; unfold id; lia|..]; intros r; unfold none; cbn beta; lia.
Qed.

Lemma sys_decopen_law s q :
  sys_ok s -> 0 < sys_opens s q -> 0 < sys_refs s q ->
  exists s', sys_decopen q s = Some s' /\ vstep s none (fun r => - one q r) s'.
Proof.
  intros Hok Ho Hlv.
  destruct (live_cases s q Hok Hlv) as [(n & Hn & (H1 & H2 & [d Hd]) & _ & Hq0)|(fs & v & sv & Hv & Hq)].
  - destruct (dnode_refs s q n Hn) as (_ & Eo & _). rewrite Eo in Ho.
    set (n' := Dnode (dn_ref n) (dn_open n - 1) (dn_lock n) (dn_data n)).
    assert (vstep s none (fun r => - one q r) (set_dnode q n' s)) as Hst.
    { eapply vstep_ext; [apply (dnode_step s q n n'); simpl; try done; lia|..]; intros r; unfold none; simpl; lia. }
    exists (set_dnode q n' s). split; [|done].
    unfold sys_decopen, by_kind, dnode_decopen. rewrite Hn, (proj2 (Z.eqb_neq q 0)) by done. simpl negb. cbn iota.
    rewrite (proj2 (Z.ltb_lt 0 (dn_open n))) by lia. fold n'. cbn zeta. destruct (0 <? dn_open n'); [done|].
    pose proof (vs_ok _ _ _ _ (proj1 Hst)) as Hok'. simpl in Hok'.
    destruct (live_cases _ q Hok') as [(n2 & Hn2 & _ & Hc & _)|(fs & v & sv & Hv & Hq)].
    + unfold sys_refs. simpl. rewrite lookup_insert_eq. simpl. lia.
    + simpl in Hn2. rewrite lookup_insert_eq in Hn2. injection Hn2 as <-. rewrite Hc. simpl.
      unfold vn_device. simpl. by rewrite Hd.
    + by rewrite (dnode_apart s fs v q sv Hok Hv Hq) in Hn.
  - destruct (loc_mnt s fs v Hok Hv) as (I & Hm & Hrel).
    destruct (seen_in s fs v q sv Hok Hv Hq) as (_ & Eo & _). rewrite Eo in Ho.
    unfold sys_decopen. rewrite (loc_kind s q fs v sv Hok Hv Hq).
    apply (loc_count s q fs v sv Hok Hv Hq (Decopen q) I); [| |done].
    + apply decopen_refine; [done|done|]. exists (absnode sv). split; [by apply (loc_node s q v sv Hq)|done].
    + intros o A' [_ Hc]. eapply node_step_ext;
        [apply (step_counts_of _ _ q _ _ 0 (-1) Hc); intros x; unfold id; lia|..]; intros r; unfold none; cbn beta; lia.
Qed.

(** ** The other operations *)

Lemma dev_check s q n :
  sys_ok s -> s_dnodes s !! q = Some n -> dnode_check q n = Some tt /\ is_Some (vn_device n s) /\ q <> 0.
Proof.
  intros Hok Hn. pose proof (so_dnode s Hok q n Hn) as (? & _ & ?).
  destruct (live_cases s q Hok) as [(n2 & Hn2 & _ & Hc & ?)|(fs & v & sv & Hv & Hq)].
  - unfold sys_refs. rewrite Hn. lia.
  - rewrite Hn in Hn2. by injection Hn2 as <-.
  - by rewrite (dnode_apart s fs v q sv Hok Hv Hq) in Hn.
Qed.

Lemma dev_entry_wp {A} s q n (f : device (option D) -> A) :
  sys_ok s -> s_dnodes s !! q = Some n -> exists x, dev_entry q f n s = Some (x, s).
Proof.
  intros Hok Hn. destruct (dev_check s q n Hok Hn) as (Hc & [d Hd] & _). unfold dev_entry. rewrite Hc. simpl.
  rewrite Hd. simpl. eauto.
Qed.

Lemma null_entry_wp {A} s q n (x : A) : sys_ok s -> s_dnodes s !! q = Some n -> null_entry q x n s = Some (x, s).
Proof. intros Hok Hn. destruct (dev_check s q n Hok Hn) as (Hc & _). unfold null_entry. by rewrite Hc. Qed.

Lemma plain_same s r : sys_ok s -> plain s (Some (r, s)).
Proof. intros Hok. exists r, s. split; [done|]. by apply vstep_same. Qed.

(** By the kind of the vnode. *)
Lemma by_kind_plain s q f x :
  sys_ok s -> 0 < sys_refs s q ->
  (forall n, s_dnodes s !! q = Some n -> plain s (f n)) ->
  (forall fs v sv, s_vols s !! fs = Some v -> m_nodes (vol_mnt v) !! q = Some sv -> plain s x) ->
  plain s (by_kind q f x s).
Proof.
  intros Hok Hlv Hd Hx. destruct (live_cases s q Hok Hlv) as [(n & Hn & _)|(fs & v & sv & Hv & Hq)].
  - unfold by_kind. rewrite Hn. auto.
  - rewrite (loc_kind s q fs v sv Hok Hv Hq). eauto.
Qed.

Lemma sys_open_law s q flags : sys_ok s -> 0 < sys_refs s q -> plain s (sys_open q flags s).
Proof.
  intros Hok Hlv. apply by_kind_plain; [done|done|..].
  - intros n Hn. destruct (dev_entry_wp s q n (fun d => dev_open d flags) Hok Hn) as [r ->]. by apply plain_same.
  - intros fs v sv Hv Hq. rewrite (loc_see s q fs v sv Hok Hv Hq). unfold VOP_OPEN.
    rewrite (loc_check s q fs v sv Hok Hv Hq). by apply plain_same.
Qed.

Lemma sys_truncate_law s q : sys_ok s -> 0 < sys_refs s q -> plain s (sys_truncate q 0 s).
Proof.
  intros Hok Hlv. apply by_kind_plain; [done|done|..].
  - intros n Hn. destruct (dev_entry_wp s q n (fun d => dev_truncate d 0) Hok Hn) as [r ->]. by apply plain_same.
  - intros fs v sv Hv Hq. destruct (loc_mnt s fs v Hok Hv) as (I & Hm & Hrel).
    apply (loc_code s q fs v sv Hok Hv Hq (Truncate q 0) I); [done| |done]. apply truncate_refine; [done|done|].
    split; [rewrite (loc_node s q v sv Hq); eauto|]. lia.
Qed.

Lemma sys_remove_law s dir name :
  sys_ok s -> vroom 1 s -> 0 < sys_refs s dir -> is_str name -> plain s (sys_remove dir name s).
Proof.
  intros Hok Hr Hlv Hn. apply by_kind_plain; [done|done|..].
  - intros n Hd. rewrite null_entry_wp by done. by apply plain_same.
  - intros fs v sv Hv Hq. destruct (loc_mnt s fs v Hok Hv) as (I & Hm & Hrel).
    apply (loc_code s dir fs v sv Hok Hv Hq (Remove dir name) I); [done| |done].
    apply remove_refine; [done|done|by apply (loc_room s fs v Hok Hv)|].
    split; [rewrite (loc_node s dir v sv Hq); eauto|done].
Qed.

Lemma plain_call_law s op err q : sys_ok s -> 0 < sys_refs s q -> plain s (plain_call op err q s).
Proof.
  intros Hok Hlv. apply by_kind_plain; [done|done|..].
  - intros n Hn. rewrite null_entry_wp by done. by apply plain_same.
  - intros fs v sv Hv Hq. rewrite (loc_see s q fs v sv Hok Hv Hq). unfold VOP_PLAIN.
    rewrite (loc_check s q fs v sv Hok Hv Hq). by apply plain_same.
Qed.

(** Two vnodes of the same file system are in the same volume. *)
Lemma same_vol s q q2 fs v sv :
  sys_ok s -> s_vols s !! fs = Some v -> m_nodes (vol_mnt v) !! q = Some sv ->
  0 < sys_refs s q2 -> sys_vn_fs q2 s = sys_vn_fs q s -> exists sv2, m_nodes (vol_mnt v) !! q2 = Some sv2.
Proof.
  intros Hok Hv Hq Hlv Ef. rewrite (loc_fs s q fs v sv Hok Hv Hq) in Ef.
  destruct (live_cases s q2 Hok Hlv) as [(n & Hn & _)|(f2 & v2 & sv2 & Hv2 & Hq2)].
  - destruct (dnode_refs s q2 n Hn) as (_ & _ & E0). rewrite E0 in Ef. injection Ef as Ef.
    by destruct (vols_ne0 s fs v Hok Hv).
  - rewrite (loc_fs s q2 f2 v2 sv2 Hok Hv2 Hq2) in Ef. injection Ef as ->. exists sv2. congruence.
Qed.

Lemma good_name_ok name : good_name name -> name_ok name.
Proof. unfold NAME_MAX. intros [? ?]. split; [done|]. unfold NAME_MAX in *. lia. Qed.

Lemma sys_link_law s dir name file :
  sys_ok s -> 0 < sys_refs s dir -> 0 < sys_refs s file -> good_name name ->
  sys_vn_fs file s = sys_vn_fs dir s -> ~ dir_at file s -> plain s (sys_link dir name file s).
Proof.
  intros Hok Hd Hf Hn Ef Hnd. apply by_kind_plain; [done|done|..].
  - intros n Hdn. rewrite null_entry_wp by done. by apply plain_same.
  - intros fs v sv Hv Hq. destruct (loc_mnt s fs v Hok Hv) as (I & Hm & Hrel).
    destruct (same_vol s dir file fs v sv Hok Hv Hq Hf Ef) as [sf Hqf].
    apply (loc_code s dir fs v sv Hok Hv Hq (Link dir name file) I); [done| |done].
    apply link_refine; [done|done|]. split; [rewrite (loc_node s dir v sv Hq); eauto|].
    split; [by apply good_name_ok|]. exists (absnode sf). split; [by apply (loc_node s file v sf Hqf)|].
    simpl. by rewrite <- (loc_dir s file fs v sf Hok Hv Hqf).
Qed.

Lemma sys_rename_law s d1 n1 d2 n2 :
  sys_ok s -> vroom 1 s -> 0 < sys_refs s d1 -> 0 < sys_refs s d2 -> good_name n1 -> good_name n2 ->
  dir_at d1 s -> dir_at d2 s -> sys_vn_fs d2 s = sys_vn_fs d1 s -> plain s (sys_rename d1 n1 d2 n2 s).
Proof.
  intros Hok Hr H1 H2 Hn1 Hn2 D1 D2 Ef. apply by_kind_plain; [done|done|..].
  - intros n Hdn. rewrite null_entry_wp by done. by apply plain_same.
  - intros fs v sv Hv Hq. destruct (loc_mnt s fs v Hok Hv) as (I & Hm & Hrel).
    destruct (same_vol s d1 d2 fs v sv Hok Hv Hq H2 Ef) as [sv2 Hq2].
    rewrite (loc_dir s d1 fs v sv Hok Hv Hq) in D1. rewrite (loc_dir s d2 fs v sv2 Hok Hv Hq2) in D2.
    assert (d2 = d1) as -> by (eapply (me_inj _ _ (proj2 Hm)); [exact Hq2|exact Hq|congruence]).
    apply (loc_code s d1 fs v sv Hok Hv Hq (Rename d1 n1 d1 n2) I); [done| |done].
    apply rename_refine; [done|done|by apply (loc_room s fs v Hok Hv)|].
    split; [rewrite (loc_node s d1 v sv Hq); eauto|]. split; [done|]. split; [apply Hn1|by apply good_name_ok].
Qed.

(** ** The operations that give a vnode *)

Lemma gives_err s q r p : sys_ok s -> r <> 0 -> gives_vnode s q r p s.
Proof. intros Hok Hr. left. split; [done|]. by apply vstep_same. Qed.

Lemma sys_lookup_law s dir path :
  sys_ok s -> vroom 1 s -> 0 < sys_refs s dir -> is_str path ->
  exists r p s', sys_lookup dir path s = Some (r, p, s') /\ gives_vnode s dir r p s'.
Proof.
  intros Hok Hr Hlv Hp. destruct (live_cases s dir Hok Hlv) as [(n & Hn & _ & Hc & Hd0)|(fs & v & sv & Hv & Hq)].
  - unfold sys_lookup, by_kind. rewrite Hn, Hc. simpl. unfold dev_lookup.
    destruct (0 <? Z.of_nat (length path)); [by eexists _, _, s; split; [|apply gives_err]|].
    destruct (sys_incref_law s dir Hok Hr Hlv) as (s' & E & Hst). unfold sys_incref, by_kind in E. rewrite Hn in E.
    rewrite E. simpl. exists 0, dir, s'. split; [done|]. right. split; [done|]. split; [done|]. split; [done|].
    destruct (dnode_refs s dir n Hn) as (Er & _ & _). destruct Hst as [Hst _].
    destruct (sb_vn _ _ _ (vs_same _ _ _ _ Hst) dir) as [-> _]; [done| |done].
    rewrite (vs_refs _ _ _ _ Hst), one_eq. simpl. lia.
  - destruct (loc_mnt s fs v Hok Hv) as (I & Hm & Hrel). unfold sys_lookup. rewrite (loc_kind s dir fs v sv Hok Hv Hq).
    apply (loc_gives s dir fs v sv Hok Hv Hq (Lookup dir path) I); [| |done].
    + apply lookup_refine; [done|done|by apply (loc_room s fs v Hok Hv)|].
      split; [rewrite (loc_node s dir v sv Hq); eauto|done].
    + intros o A' Hs. destruct (lookup_nodes _ _ _ _ _ Hs) as (r & p & -> & [?|(-> & ino & Hg)]);
        exists r || exists 0; exists p; (split; [done|]); [by left|right]. split; [done|]. eauto.
Qed.

Lemma sys_creat_law s dir name excl :
  sys_ok s -> vroom 1 s -> 0 < sys_refs s dir -> good_name name ->
  exists r p s', sys_creat dir name excl s = Some (r, p, s') /\ gives_vnode s dir r p s'.
Proof.
  intros Hok Hr Hlv Hp. destruct (live_cases s dir Hok Hlv) as [(n & Hn & _)|(fs & v & sv & Hv & Hq)].
  - unfold sys_creat, by_kind. rewrite Hn, null_entry_wp by done.
    eexists _, _, s. split; [done|]. by apply gives_err.
  - destruct (loc_mnt s fs v Hok Hv) as (I & Hm & Hrel). unfold sys_creat. rewrite (loc_kind s dir fs v sv Hok Hv Hq).
    apply (loc_gives s dir fs v sv Hok Hv Hq (Creat dir name excl) I); [| |done].
    + apply creat_refine; [done|done|by apply (loc_room s fs v Hok Hv)|].
      split; [rewrite (loc_node s dir v sv Hq); eauto|by apply good_name_ok].
    + intros o A'. apply creat_nodes.
Qed.

(** [VOP_LOOKPARENT] of the root directory, with a buffer of [k] bytes. *)
Lemma lookparent_root m I dir sv path k :
  mnt_ok m I -> m_nodes m !! dir = Some sv -> long_name path ->
  let buf := replicate k 0 in
  (exists r, r <> 0 /\ VOP_LOOKPARENT dir path buf m = Some (r, 0, buf, m)) \/
  sv_ino sv = SFS_ROOT_LOCATION /\ (length path < k)%nat /\
  VOP_LOOKPARENT dir path buf m =
    (m' ← vnode_incref dir m; Some (0, dir, path ++ 0 :: drop (S (length path)) buf, m')).
Proof.
  intros Hok Hq [Hs Hl] buf. unfold VOP_LOOKPARENT. rewrite (vnode_check_wp _ m I dir sv (proj2 Hok) Hq).
  cbn [mbind option_bind]. unfold root_ops. destruct (sv_ino sv =? SFS_ROOT_LOCATION) eqn:E; boolify; [|left; by exists ENOTDIR].
  destruct (root_dir m I dir sv Hok (conj Hq E)) as (_ & Hd & _). unfold sfs_lookparent. rewrite Hq.
  cbn [mbind option_bind]. rewrite (dw_type _ _ Hd), Z.eqb_refl. simpl negb. cbn iota.
  rewrite (strlen_str path []) by (done || lia). cbn [mbind option_bind]. rewrite u32_id by (unfold is_u32; lia).
  unfold buf. rewrite length_replicate. destruct (_ <? _) eqn:Ek; boolify; [left; by exists ENAMETOOLONG|right].
  split; [done|]. split; [lia|]. rewrite strcpy_str by (done || rewrite length_replicate; lia). done.
Qed.

Lemma sys_lookparent_law s dir path :
  sys_ok s -> vroom 1 s -> 0 < sys_refs s dir -> long_name path ->
  exists r p name s', sys_lookparent dir path (NAME_MAX + 1) s = Some (r, p, name, s') /\
    gives_vnode s dir r p s' /\ (r = 0 -> dir_at p s' /\ good_name name).
Proof.
  intros Hok Hr Hlv Hp. destruct (live_cases s dir Hok Hlv) as [(n & Hn & _)|(fs & v & sv & Hv & Hq)].
  - unfold sys_lookparent, by_kind. rewrite Hn, null_entry_wp by done.
    eexists _, _, _, s. split; [done|]. split; [by apply gives_err|done].
  - destruct (loc_mnt s fs v Hok Hv) as (I & Hm & Hrel).
    unfold sys_lookparent. rewrite (loc_kind s dir fs v sv Hok Hv Hq), (loc_on s dir fs v sv Hok Hv Hq).
    destruct (lookparent_root (vmnt v s) I dir sv path (Z.to_nat (NAME_MAX + 1)) Hm Hq Hp) as [(r & Hr0 & ->)|(Ei & Hl & ->)].
    + cbn [mbind option_bind]. eexists _, _, _, _. split; [done|]. split; [|done].
      left. split; [done|]. by apply volume_same.
    + destruct (sys_incref_law s dir Hok Hr Hlv) as (s' & E & Hst).
      unfold sys_incref in E. rewrite (loc_kind s dir fs v sv Hok Hv Hq), (loc_do s dir fs v sv Hok Hv Hq) in E.
      destruct (vnode_incref dir (vmnt v s)) as [m'|]; [|done]. cbn [mbind option_bind] in E |- *. injection E as <-.
      eexists _, _, _, _. split; [done|]. destruct Hst as [Hst Hk]. destruct Hp as [Hs _].
      assert (0 < refs (put_vol fs m' s) dir) as Hlv' by (rewrite (vs_refs _ _ _ _ Hst), one_eq; simpl; lia).
      destruct (sb_vn _ _ _ (vs_same _ _ _ _ Hst) dir Hlv Hlv') as [Ef Et]. split.
      * right. split; [done|]. split; [done|]. rewrite Ef. split; [|done].
        by destruct (node_ptr _ dir sv (me_table _ _ (proj2 Hm)) Hq).
      * intros _. split; [|rewrite cstr_str by done; split; [done|lia]].
        unfold dir_at. rewrite Et. by apply (loc_dir s dir fs v sv Hok Hv Hq).
Qed.

Lemma sys_readlink_law s q u w :
  sys_ok s -> 0 < sys_refs s q ->
  exists r u' w' s', sys_readlink q u w s = Some (r, u', w', s') /\ vstep s none none s'.
Proof.
  intros Hok Hlv. destruct (plain_call_law s OpReadlink (null_io u) q Hok Hlv) as (r & s' & E & Hst).
  unfold sys_readlink. rewrite E. cbn [mbind option_bind]. eauto 6.
Qed.

Lemma sys_namefile_law s q u w :
  sys_ok s -> 0 < sys_refs s q ->
  exists r u' w' s', sys_namefile q u w s = Some (r, u', w', s') /\ vstep s none none s'.
Proof.
  intros Hok Hlv.
  assert (plain s (by_kind q (fun n => null_entry q (dev_namefile u) n s)
    (r ← see_vol q (VOP_NAMEFILE q) s; Some (r, s)) s)) as (r & s' & E & Hst).
  { apply by_kind_plain; [done|done|..].
    - intros n Hn. rewrite null_entry_wp by done. by apply plain_same.
    - intros fs v sv Hv Hq. rewrite (loc_see s q fs v sv Hok Hv Hq). unfold VOP_NAMEFILE.
      rewrite (loc_check s q fs v sv Hok Hv Hq). cbn [mbind option_bind]. unfold root_ops, sfs_namefile.
      destruct (sv_ino sv =? SFS_ROOT_LOCATION) eqn:E; cbn [mbind option_bind]; [|by apply plain_same].
      change (m_nodes (vmnt v s)) with (m_nodes (vol_mnt v)). rewrite Hq. cbn [mbind option_bind]. rewrite E.
      by apply plain_same. }
  unfold sys_namefile. rewrite E. cbn [mbind option_bind]. eauto 6.
Qed.

(** ** The operations on file systems *)

Lemma cstr_bytes l : Forall is_byte l -> is_str (cstr l) /\ (length (cstr l) <= length l)%nat.
Proof.
  induction l as [|c l IH]; [by split; [constructor|]|]. intros Hl. inv Hl. simpl.
  destruct (c =? 0) eqn:E; boolify; [split; [by constructor|simpl; lia]|].
  destruct IH; [done|]. split; [by constructor|simpl; lia].
Qed.

Lemma sys_volname_law s fs :
  sys_ok s -> is_Some (s_vols s !! fs) ->
  exists n, sys_getvolname fs s = Some n /\ (forall name, n = Some name -> long_name name).
Proof.
  intros Hok [v Hv]. unfold sys_getvolname, vol_at. rewrite Hv. simpl. eexists. split; [done|].
  intros name [= <-]. destruct (so_vol s Hok fs v Hv) as (_ & (I & Ht & _) & _).
  destruct (vw_ok _ _ (tw_vol _ _ Ht)) as (_ & (_ & _ & [Hl Hb] & _) & _). simpl in Hl, Hb.
  destruct (cstr_bytes _ Hb) as [? Hc]. split; [done|]. unfold sfs_getvolname. simpl. lia.
Qed.

Lemma vol_refs_room s fs v : sys_ok s -> s_vols s !! fs = Some v -> vroom 1 s -> refs_room (vmnt v s).
Proof.
  intros Hok Hv Hr p sv Hp. specialize (Hr p). destruct (seen_in s fs v p sv Hok Hv Hp) as (E & _).
  simpl in Hr. rewrite E in Hr. lia.
Qed.

(** A vnode in memory is found without a load. *)
Lemma load_loaded m I ino :
  mnt_ok m I -> loaded m ino -> refs_room m ->
  exists p m', sfs_loadvnode ino SFS_TYPE_INVAL m = Some (0, p, m').
Proof.
  intros Hok Hl Hr. unfold sfs_loadvnode. destruct (find_ino_mnt m I ino Hok) as ([p|] & -> & Ho); [|done].
  destruct Ho as (sv & Hp & _). cbn [mbind option_bind]. simpl Z.eqb. cbn iota.
  destruct (vnode_incref_wp m I p sv Hok Hp (Hr p sv Hp)) as (-> & _). eauto.
Qed.

Lemma sys_getroot_law s fs :
  sys_ok s -> vroom 1 s -> is_Some (s_vols s !! fs) ->
  wp (forall q, sys_root_at fs q s -> sys_refs s q <= 0) (sys_getroot fs s) (fun '(p, s') =>
    vstep s (one p) none s' /\ sys_vn_fs p s' = Some fs /\ p <> 0 /\ sys_root_at fs p s').
Proof.
  intros Hok Hr [v Hv]. pose proof (vol_refs_room s fs v Hok Hv Hr) as Hroom.
  destruct (loc_mnt s fs v Hok Hv) as (I & Hm & Hrel). unfold sys_getroot, vol_at. rewrite Hv.
  cbn [mbind option_bind]. fold (vmnt v s). unfold sfs_getroot.
  destruct (tw_root _ _ (proj1 Hm)) as (i & Hi & _).
  destruct (sfs_loadvnode_wp _ I _ i Hm Hi Hroom) as (r & p & m' & E & Hlp). rewrite E. cbn [mbind option_bind].
  destruct (r =? 0) eqn:Er; boolify; cbn [negb mbind option_bind wp].
  - subst r. destruct (load_view _ I _ _ _ _ Hm Hlp) as [[Hok' Hh Hhist] Hvw].
    destruct (load_gives _ I _ p m' (proj2 Hm) Hlp) as (x & Hg & Hx & En & Hnl).
    assert (reliable (m_fs m')) as Hrel' by by apply Hhist.
    pose proof (step_ok s fs v m' I Hok Hv Hok' Hh Hrel') as Hs'.
    assert (m_nodes m' !! p = Some x) as Hp by by rewrite En, lookup_insert_eq.
    split; [|split; [|split]].
    + apply (vol_moves s fs v m' I I); [done..|apply Hhist|].
      destruct (view_eq _ _ _ _ Hvw) as [_ Ef]. pose proof (mnames_same (vmnt v s) m' I Hvw) as Enm.
      apply (step_give _ (abs (vmnt v s) I) p (sv_ino x)); [done|]. apply (gives_give (vmnt v s)); try done.
      rewrite Hx. exact Hnl.
    + by destruct (seen_in _ fs _ p x Hs' (step_at s fs v m' Hv) Hp) as (_ & _ & ? & _).
    + by destruct (node_ptr m' p x (me_table _ _ (proj2 Hok')) Hp).
    + exists (Vol (vol_dev v) m'), x. split; [by apply step_at|]. by split.
  - intros q (v2 & sv & Hv2 & Hq & Ei). assert (v2 = v) as -> by congruence. exfalso.
    destruct (load_loaded _ I SFS_ROOT_LOCATION Hm) as (p' & m2 & E2); [by exists q, sv|done|]. congruence.
Qed.

(** The reason why the root of a mounted volume cannot be had. *)
Lemma sys_getroot_none s fs v :
  sys_ok s -> vroom 1 s -> s_vols s !! fs = Some v -> sys_getroot fs s = None -> root_starved (vmnt v s).
Proof.
  intros Hok Hr Hv E. pose proof (vol_refs_room s fs v Hok Hv Hr) as Hroom.
  destruct (loc_mnt s fs v Hok Hv) as (I & Hm & Hrel). unfold sys_getroot, vol_at in E. rewrite Hv in E.
  cbn [mbind option_bind] in E. fold (vmnt v s) in E. apply (sfs_getroot_none _ I); try done.
  by destruct (sfs_getroot (vmnt v s)) as [[]|].
Qed.

Lemma sys_sync_law s fs :
  sys_ok s -> is_Some (s_vols s !! fs) ->
  exists r s', sys_sync fs s = Some (r, s') /\ vstep s none none s' /\ (r = 0 -> sys_flushed fs s').
Proof.
  intros Hok [v Hv]. destruct (loc_mnt s fs v Hok Hv) as (I & Hm & Hrel). unfold sys_sync, vol_at. rewrite Hv.
  cbn [mbind option_bind]. fold (vmnt v s).
  destruct (sfs_sync_wp _ I Hm) as (m' & E & Hok' & Hh & [Hr Hsu] & Hvw & En & Hsy). rewrite E. cbn [mbind option_bind].
  eexists _, _. split; [done|]. split.
  - apply (vol_moves s fs v m' I I); [done..|auto|done|]. apply step_same.
    unfold abs. cbn [a_nodes]. by rewrite En, <- map_fmap_compose.
  - intros _. exists (Vol (vol_dev v) m'), I. split; [by apply step_at|]. simpl.
    rewrite (step_heap s fs v m' Hv). split; [|done]. by destruct m'.
Qed.
End calls.
