(* ===== verification/VfsMount.v ===== *)
(** * Mounting, unmounting and adding devices, and the promises as a whole

    The steps that change what there is below the VFS layer: [sfs_domount],
    [sfs_unmount], and making and freeing the vnode of a device.  With these the
    volumes and devices keep all of [VnodesLaws] ([sys_laws]). *)

From stdpp Require Import base option list gmap numbers.
From S2P Require Import Prelude Kmem Array Bitmap Cstring Uio Device SfsDisk Sfs.
From S2P Require Import SfsBlock SfsBmap SfsFile SfsDir SfsTrunc SfsVol.
From S2P Require Import SfsMount SfsTree SfsTable SfsVnodes SfsNames SfsOps SfsSync SfsClient SfsMountSpec.
From S2P Require Import Vfs VfsInv VfsTable VfsDev VfsSfs VfsLaws.

Section mounts.
Context {H D : Type} `{!Kmalloc H, !KmallocLaws H, !Device D, !DeviceLaws D}.
Implicit Types s : sys H D.
Implicit Types m : mnt H D.
Implicit Types I : gmap Z sfs_inode.

(** ** A volume comes or goes *)

(** Two states whose volumes differ at [fs] only, where no vnode is in memory. *)
Section apart.
Context s s' fs (Hok : sys_ok s) (Hok' : sys_ok s')
  (Hdn : s_dnodes s' = s_dnodes s) (Hdv : s_devices s' = s_devices s)
  (Hother : forall f, f <> fs -> s_vols s' !! f = s_vols s !! f)
  (Hno : forall v, s_vols s !! fs = Some v -> m_nodes (vol_mnt v) = ∅)
  (Hno' : forall v, s_vols s' !! fs = Some v -> m_nodes (vol_mnt v) = ∅).

Lemma apart_node q : node_at q s' = node_at q s /\ vol_of q s' = vol_of q s.
Proof.
  apply node_ext; [done|done|..]; intros f v sv Hv Hq; destruct (decide (f = fs)) as [->|Hf].
  - by rewrite (Hno' v Hv) in Hq.
  - rewrite Hother in Hv by done. eauto.
  - by rewrite (Hno v Hv) in Hq.
  - exists v. by rewrite Hother.
Qed.

Lemma apart_counts q : sys_refs s' q = sys_refs s q /\ sys_opens s' q = sys_opens s q.
Proof. unfold sys_refs, sys_opens. destruct (apart_node q) as [-> _]. by rewrite Hdn. Qed.

Lemma apart_same : same_but fs s s'.
Proof.
  constructor; simpl.
  - intros q R R'. unfold sys_vn_fs, by_kind. destruct (apart_node q) as [_ ->]. split; [by rewrite Hdn|].
    destruct (live_cases s q Hok R) as [(n & Hn & _)|(f & v & sv & Hv & Hq)].
    + rewrite (dnode_type s q n Hok Hn), (dnode_type s' q n Hok') by by rewrite Hdn.
      unfold vn_device. by rewrite Hdv.
    + destruct (decide (f = fs)) as [->|Hf]; [by rewrite (Hno v Hv) in Hq|].
      rewrite (gettype_val s f v q sv Hok Hv Hq), (gettype_val s' f v q sv Hok'); [done|by rewrite Hother|done].
  - intros f q Hf _ _ (v & sv & Hv & ?). exists v, sv. by rewrite Hother.
  - intros f Hf. by rewrite Hother.
  - intros f Hf _. unfold sys_getvolname, vol_at. rewrite Hother by done. by destruct (s_vols s !! f).
  - intros f Hf _. by rewrite Hother.
Qed.
End apart.

(** ** Unmounting *)

Lemma sys_unmount_law s fs :
  sys_ok s -> is_Some (s_vols s !! fs) -> sys_flushed fs s ->
  exists r s', sys_unmount fs s = Some (r, s') /\
    (r <> 0 -> vstep s none none s') /\
    (r = 0 -> (forall q, 0 < sys_refs s q -> sys_vn_fs q s <> Some fs) /\
      sys_ok s' /\ kept_others (s_heap s) (sys_blocks s) (s_heap s') (sys_blocks s') /\
      (forall q, sys_refs s' q = sys_refs s q) /\ (forall q, sys_opens s' q = sys_opens s q) /\
      same_but fs s s' /\ ~ is_Some (s_vols s' !! fs) /\
      (forall dev, idle s' dev <-> idle s dev \/ dev = fs_dev s fs)).
Proof.
  intros Hok _ (v & I & Hv & Hm & Hsy). destruct (so_vol s Hok fs v Hv) as (Es & _ & Hrel).
  unfold sys_unmount, vol_at. rewrite Hv. cbn [mbind option_bind].
  destruct (decide (m_nodes (vol_mnt v) = ∅)) as [En|En].
  2:{ apply map_choose in En as (q & sv & Hq).
      rewrite (sfs_unmount_busy _ I q Hm) by (simpl; eauto). cbn [mbind option_bind].
      eexists _, _. split; [done|]. split; [|done]. intros _. by apply volume_same. }
  destruct (sfs_unmount_wp _ I Hm En) as (h' & -> & Hh' & Hso); [by destruct Hsy|]. cbn [mbind option_bind].
  eexists _, _. split; [done|]. split; [done|]. intros _. set (s' := Sys _ _ _ _ _).
  assert (mountable (fs_device (m_fs (vol_mnt v)))) as Hmt.
  { split; [done|]. exists (m_fs (vol_mnt v)), I. apply (synced_on_disk _ I Hm). by destruct Hsy. }
  apply same_others_kept in Hso. simpl in Hso.
  change (mnt_blocks (set_mheap _ _)) with (mnt_blocks (vol_mnt v)) in Hso.
  assert (sys_blocks s ≡ₚ mnt_blocks (vol_mnt v) ++ sys_blocks s') as Eb.
  { unfold sys_blocks. by rewrite (bind_lookup vol_blocks _ fs v Hv), <- app_assoc. }
  assert (owns h' (sys_blocks s')) as Ho'.
  { pose proof (owns_kept _ _ _ _ (sys_blocks s') Hso) as Hk. rewrite app_nil_r in Hk. apply Hk.
    - split; [constructor|]. intros q Hq. by apply not_elem_of_nil in Hq.
    - eapply owns_perm; [|apply (so_owns s Hok)]. by rewrite Eb, Permutation_app_comm. }
  assert (forall f, f <> fs -> s_vols s' !! f = s_vols s !! f) as Hother by (intros; simpl; by rewrite lookup_delete_ne).
  assert (sys_ok s') as Hok'.
  { constructor; [done|done| |apply Hok]. intros f w Hw. simpl in Hw. apply lookup_delete_Some in Hw as [Hf Hw].
    eapply vol_new_heap; [by apply (so_vol s Hok)|done|]. eapply owns_part; [exact Ho'|].
    unfold sys_blocks. rewrite (bind_lookup vol_blocks _ f w).
    - by rewrite <- app_assoc.
    - simpl. by rewrite lookup_delete_ne. }
  assert (s_vols s' !! fs = None) as Hgone by (simpl; apply lookup_delete_eq).
  assert (forall w, s_vols s !! fs = Some w -> m_nodes (vol_mnt w) = ∅) as Hno by (intros w; congruence).
  assert (forall w, s_vols s' !! fs = Some w -> m_nodes (vol_mnt w) = ∅) as Hno' by (intros w; congruence).
  split; [|split; [done|split; [|split; [|split; [|split; [|split]]]]]].
  - intros q R Ef. destruct (live_cases s q Hok R) as [(n & Hn & _)|(f & w & sv & Hw & Hq)].
    + destruct (dnode_refs s q n Hn) as (_ & _ & E0). rewrite E0 in Ef. injection Ef as <-.
      by destruct (vols_ne0 s 0 v Hok Hv).
    + rewrite (loc_fs s q f w sv Hok Hw Hq) in Ef. injection Ef as ->. by rewrite (Hno w Hw) in Hq.
  - eapply kept_perm; [symmetry; exact Eb|reflexivity|]. by apply (kept_frame _ _ _ []).
  - intros q. by apply (apart_counts s s' fs).
  - intros q. by apply (apart_counts s s' fs).
  - by apply apart_same.
  - rewrite Hgone. by intros [? ?].
  - intros dev. simpl. rewrite Hv. split.
    + intros (d & [[<- _]|[_ Hd]]%lookup_insert_Some & Hmd); [by right|left; eauto].
    + intros Hd. destruct (decide (dev = vol_dev v)) as [->|Hne]; [eexists; by rewrite lookup_insert_eq|].
      destruct Hd as [(d & Hd & Hmd)|?]; [|done]. exists d. by rewrite lookup_insert_ne.
Qed.

(** ** Mounting *)

Lemma mountable_same d d' : mountable d -> dev_same d d' -> mountable d'.
Proof.
  intros [Hr (fs0 & I & Hod)] Hs. split; [by apply Hs|].
  destruct (mounted_tree d fs0 I d' (fs_freemap fs0) Hod Hs eq_refl eq_refl) as (Ht & _ & _).
  eexists. exists (linked I). econstructor; [|exact Ht|done|done|]; [done|].
  intros ino i [Hi _]%map_lookup_filter_Some. rewrite <- (od_inodes _ _ _ Hod ino i Hi).
  unfold blk. rewrite (od_device _ _ _ Hod). apply Hs.
Qed.

(** A new volume, with memory of its own. *)
Section mounted.
Context s (dev : Z) m I (Hok : sys_ok s) (Hm : mnt_ok m I) (Hrel : reliable (m_fs m))
  (Hso : same_others (s_heap s) [] (m_heap m) (mnt_blocks m)).

Let s' := Sys (m_heap m) (<[m_self m := Vol dev m]> (s_vols s)) (s_dnodes s) (s_devices s) (delete dev (s_disks s)).

Lemma mount_fresh : s_vols s !! m_self m = None.
Proof.
  apply eq_None_not_Some. intros [v Hv]. destruct (so_vol s Hok _ v Hv) as (Es & _ & _).
  destruct (sys_part s _ v Hok Hv) as [_ Hl]. destruct (Hl (m_self m)) as [n Hb].
  { rewrite <- Es at 1. apply self_block. }
  destruct (same_others_kept _ _ _ _ Hso (m_self m) n) as [Hno _]; [by apply not_elem_of_nil|done|].
  apply Hno, self_block.
Qed.

Lemma mount_blocks : sys_blocks s' ≡ₚ sys_blocks s ++ mnt_blocks m.
Proof.
  unfold sys_blocks. simpl. rewrite (bind_insert vol_blocks), delete_id by apply mount_fresh.
  unfold vol_blocks at 1. simpl. rewrite <- app_assoc. by rewrite Permutation_app_comm, <- app_assoc.
Qed.

Lemma mount_owns : owns (m_heap m) (sys_blocks s').
Proof.
  eapply owns_perm; [symmetry; apply mount_blocks|].
  eapply owns_kept; [by apply same_others_kept|apply (me_table _ _ (proj2 Hm))|].
  rewrite app_nil_r. apply Hok.
Qed.

Lemma mount_ok : sys_ok s'.
Proof.
  pose proof mount_owns as Ho. pose proof (tb_array _ (me_table _ _ (proj2 Hm))) as (Hh & _).
  constructor; [done|exact Ho| |apply Hok]. intros f w. simpl. intros [[<- <-]|[Hf Hw]]%lookup_insert_Some.
  - split; [done|]. split; [|done]. exists I. by destruct m.
  - eapply vol_new_heap; [by apply (so_vol s Hok)|done|]. eapply owns_part; [exact Ho|].
    unfold sys_blocks. rewrite (bind_lookup vol_blocks _ f w).
    + by rewrite <- app_assoc.
    + simpl. by rewrite lookup_insert_ne.
Qed.

Lemma mount_self : m_self m <> 0.
Proof. eapply (vols_ne0 s' _ _ mount_ok). simpl. apply lookup_insert_eq. Qed.

Lemma mount_kept : kept_others (s_heap s) (sys_blocks s) (m_heap m) (sys_blocks s').
Proof.
  eapply kept_perm; [reflexivity| |by apply (kept_frame _ [] _ (mnt_blocks m) (sys_blocks s)), same_others_kept].
  by rewrite mount_blocks, Permutation_app_comm.
Qed.
End mounted.

Lemma sys_domount_law : mount_law (S := sys H D) sys_domount.
Proof.
  intros s dev Hok (d & Hd & Hmt) Hd0. simpl in Hok. pose proof Hmt as [Hrel (fs0 & I & Hod)].
  destruct (sfs_domount_wp d fs0 I (s_heap s) Hod (so_heap s Hok)) as (r & om & d' & h' & E & Hds & Hp).
  unfold sys_domount. rewrite Hd. cbn [mbind option_bind]. rewrite E. cbn [mbind option_bind].
  destruct om as [m|].
  - destruct Hp as (-> & <- & <- & En & Hm & _ & Hso & _). eexists 0, _, _. split; [done|]. split; [done|].
    intros _. assert (reliable (m_fs m)) as Hrel' by by apply Hds.
    set (s' := Sys _ _ _ _ _). pose proof (mount_ok s dev m _ Hok Hm Hrel' Hso) as Hok'. fold s' in Hok'.
    pose proof (mount_fresh s m Hok Hso) as Hfr.
    assert (forall f, f <> m_self m -> s_vols s' !! f = s_vols s !! f) as Hother by (intros; simpl; by rewrite lookup_insert_ne).
    assert (forall w, s_vols s !! m_self m = Some w -> m_nodes (vol_mnt w) = ∅) as Hno by (intros w; congruence).
    assert (forall w, s_vols s' !! m_self m = Some w -> m_nodes (vol_mnt w) = ∅) as Hno'.
    { intros w. simpl. rewrite lookup_insert_eq. by intros [= <-]. }
    split; [by eapply (mount_self s dev m)|]. split; [simpl; rewrite Hfr; by intros [? ?]|].
    split; [simpl; rewrite lookup_insert_eq; eauto|]. split; [simpl; by rewrite lookup_insert_eq|].
    split; [done|]. split; [by eapply (mount_kept s dev m)|].
    split; [intros q; by apply (apart_counts s s' (m_self m))|].
    split; [intros q; by apply (apart_counts s s' (m_self m))|]. split; [by apply apart_same|].
    intros d2. simpl. split.
    + intros (d3 & [Hne Hd3]%lookup_delete_Some & ?). split; [eauto|done].
    + intros [(d3 & Hd3 & ?) Hne]. exists d3. by rewrite lookup_delete_ne.
  - destruct Hp as (Hr & Hh' & Hso). eexists r, 0, _. split; [done|].
    assert (r <> 0) as Hr0 by by destruct Hr as [->|[-> _]]. split; [intros _|done].
    apply same_others_kept in Hso. pose proof (kept_frame _ _ _ _ (sys_blocks s) Hso) as Hk. simpl in Hk.
    assert (owns h' (sys_blocks s)) as Ho.
    { pose proof (owns_kept _ _ _ _ (sys_blocks s) Hso) as Hx. rewrite app_nil_r in Hx. apply Hx; [|apply Hok].
      split; [constructor|]. intros q Hq. by apply not_elem_of_nil in Hq. }
    destruct (set_heap_step s h' Hok Hh' Ho) as [S1 S2 S3 S4 _ _].
    split; [|exact Hk]. constructor; [|exact S2|exact S3| | |done].
    + destruct S1 as [A1 A2 A3 A4]. by constructor.
    + destruct S4 as [A1 A2 A3 A4 A5]. constructor; [exact A1|exact A2|exact A3|exact A4|exact A5].
    + intros d2. simpl. split.
      * intros (d3 & [[<- <-]|[_ Hd3]]%lookup_insert_Some & ?); eauto.
      * intros (d3 & Hd3 & ?). destruct (decide (d2 = dev)) as [->|Hne]; [|exists d3; by rewrite lookup_insert_ne].
        exists d'. rewrite lookup_insert_eq. split; [done|]. exact (mountable_same d d' Hmt Hds).
Qed.

(** ** The vnode of a device *)

Lemma new_lock_wp name (h : H) ps :
  heap_ok h -> owns h ps -> kmalloc_size (Z.of_nat (length name) + 1) ->
  exists ol h', new_lock name h = Some (ol, h') /\ heap_ok h' /\
    match ol with
    | Some (l, n) => owns h' (n :: l :: ps) /\ same_others h ps h' (n :: l :: ps)
    | None => blocks h' = blocks h
    end.
Proof.
  intros Hok Ho Hsz. unfold new_lock.
  destruct (kmalloc_total h 12 Hok) as [[l h1] E1]; [by unfold kmalloc_size|]. rewrite E1.
  cbn [mbind option_bind]. destruct (l =? 0) eqn:El; boolify.
  { subst l. destruct (kmalloc_null h h1 12 Hok ltac:(by unfold kmalloc_size) E1) as [? ?].
    by exists None, h1. }
  destruct (owns_fresh h h1 12 l ps Hok) as (Hok1 & Ho1 & Hs1); [by unfold kmalloc_size|done..|].
  unfold kstrdup. rewrite u32_id by (unfold kmalloc_size, is_u32 in *; lia).
  destruct (kmalloc_total h1 _ Hok1 Hsz) as [[n h2] E2]. rewrite E2.
  cbn [mbind option_bind]. destruct (n =? 0) eqn:En; boolify; cbn [mbind option_bind].
  - subst n. destruct (kmalloc_null h1 h2 _ Hok1 Hsz E2) as [Hok2 E].
    destruct (kmalloc_block h h1 12 l Hok) as (_ & Hn & Hb); [by unfold kmalloc_size|done..|].
    destruct (kfree_live h2 l Hok2) as (h3 & -> & Hok3 & Hb3).
    { rewrite E, Hb, lookup_insert_eq. eauto. }
    exists None, h3. split; [done|]. split; [done|]. by rewrite Hb3, E, Hb, delete_insert_id.
  - destruct (owns_fresh h1 h2 _ n (l :: ps) Hok1 Hsz E2 En Ho1) as (Hok2 & Ho2 & Hs2).
    exists (Some (l, n)), h2. split; [done|]. split; [done|]. split; [done|]. by eapply same_others_trans.
Qed.

(** A device vnode is put at [p], where nothing was. *)
Lemma dnode_new s p l n dev h :
  sys_ok s -> heap_ok h -> owns h (n :: l :: p :: sys_blocks s) -> is_Some (s_devices s !! dev) ->
  let s' := set_dnode p (Dnode 1 0 (l, n) dev) (set_sheap h s) in
  sys_refs s p = 0 /\ vsame s (one p) none s' /\ sys_blocks s' ≡ₚ [n; l; p] ++ sys_blocks s /\ sys_vn_fs p s' = Some 0.
Proof.
  intros Hok Hh Ho Hdev s'.
  assert (p ∉ sys_blocks s) as Hp.
  { destruct Ho as [Hnd _]. by apply list.NoDup_cons in Hnd as [_ [_ [? _]%list.NoDup_cons]%list.NoDup_cons]. }
  assert (s_dnodes s !! p = None) as Hdn.
  { apply eq_None_not_Some. intros [x Hx]. apply Hp. unfold sys_blocks. apply elem_of_app. right.
    eapply bind_elem; [exact Hx|by left]. }
  assert (node_at p s = None) as Hna.
  { apply no_node; [done|]. intros fs v sv Hv Hq. apply Hp. unfold sys_blocks. apply elem_of_app. left.
    eapply bind_elem; [exact Hv|]. eapply node_block; [by apply (so_vol s Hok)|done]. }
  assert (sys_blocks s' ≡ₚ [n; l; p] ++ sys_blocks s) as Eb.
  { unfold sys_blocks. simpl. rewrite (bind_insert dn_blocks), delete_id by done. unfold dn_blocks at 1. simpl.
    solve_Permutation. }
  assert (owns h (sys_blocks s)) as Ho2 by exact (proj1 (proj2 (proj1 (owns_app h [n; l; p] _) Ho))).
  pose proof (set_heap_step s h Hok Hh Ho2) as [S1 S2 S3 S4 _ _].
  assert (sys_ok s') as Hok'.
  { destruct S1 as [A1 A2 A3 A4]. constructor; [done|by eapply owns_perm; [symmetry; exact Eb|]|done|].
    intros q x. simpl. intros [[<- <-]|[_ Hx]]%lookup_insert_Some; [|by apply (so_dnode s Hok q)].
    split; [simpl; lia|]. split; [simpl; lia|done]. }
  split; [unfold sys_refs; by rewrite Hdn, Hna|]. split; [|split; [done|unfold sys_vn_fs, by_kind; simpl; by rewrite lookup_insert_eq]].
  constructor; [exact Hok'|..]; [| | |done|done].
  - intros q. simpl. unfold sys_refs. simpl. destruct (decide (q = p)) as [->|Hq].
    + by rewrite lookup_insert_eq, Hdn, Hna, one_eq.
    + rewrite lookup_insert_ne, one_ne by done. change (node_at q s') with (node_at q s). lia.
  - intros q. simpl. unfold sys_opens, none. simpl. destruct (decide (q = p)) as [->|Hq].
    + by rewrite lookup_insert_eq, Hdn, Hna.
    + rewrite lookup_insert_ne by done. change (node_at q s') with (node_at q s). lia.
  - apply same_vols_but; [done|]. intros q R _. destruct (decide (q = p)) as [->|Hq].
    + unfold sys_refs in R. rewrite Hdn, Hna in R. lia.
    + destruct (sb_vn _ _ _ S4 q R) as [E1 E2]; [exact R|]. simpl in E1, E2. rewrite <- E1, <- E2.
      unfold sys_vn_fs, sys_gettype, by_kind. simpl. by rewrite lookup_insert_ne.
Qed.

Lemma sys_create_law s dev :
  sys_ok s -> is_Some (s_devices s !! dev) ->
  wp True (sys_create_vnode dev s) (fun '(p, s') =>
    p = 0 /\ vstep s none none s' \/ p <> 0 /\ sys_refs s p = 0 /\ vstep s (one p) none s' /\ sys_vn_fs p s' = Some 0).
Proof.
  intros Hok Hdev. unfold sys_create_vnode, sizeof_vnode. pose proof (so_heap s Hok) as Hh.
  destruct (kmalloc_total (s_heap s) 24 Hh) as [[p h] E]; [by unfold kmalloc_size|]. rewrite E.
  cbn [mbind option_bind]. destruct (p =? 0) eqn:Ep; boolify.
  { subst p. destruct (kmalloc_null _ h 24 Hh ltac:(by unfold kmalloc_size) E) as [Hh' Eb]. left. split; [done|].
    split; [|by intros q n; simpl; rewrite Eb].
    apply set_heap_step; [done|done|]. by apply (owns_blocks (s_heap s)); [|apply Hok]. }
  destruct (owns_fresh _ h 24 p (sys_blocks s) Hh) as (Hh1 & Ho1 & Hs1); [by unfold kmalloc_size|done|done|apply Hok|].
  destruct (new_lock_wp countlock_name h _ Hh1 Ho1) as ([[l n]|] & h2 & -> & Hh2 & Hc); [by unfold kmalloc_size| |done].
  cbn [mbind option_bind wp]. destruct Hc as [Ho2 Hs2].
  destruct (dnode_new s p l n dev h2 Hok Hh2 Ho2 Hdev) as (Hr & Hst & Eb & Ef). right. split; [done|]. split; [done|].
  split; [|done]. split; [done|]. eapply kept_perm; [reflexivity|symmetry; exact Eb|].
  apply same_others_kept. by eapply same_others_trans.
Qed.

Lemma sys_kfree_law s p :
  sys_ok s -> sys_refs s p = 1 -> sys_opens s p = 0 -> sys_vn_fs p s = Some 0 ->
  exists s', sys_kfree_vnode p s = Some s' /\ vstep s (fun r => - one p r) none s'.
Proof.
  intros Hok Hr Ho Hf. destruct (live_cases s p Hok) as [(n & Hn & _)|(fs & v & sv & Hv & Hq)]; [lia| |].
  2:{ rewrite (loc_fs s p fs v sv Hok Hv Hq) in Hf. injection Hf as ->. by destruct (vols_ne0 s 0 v Hok Hv). }
  destruct (dnode_refs s p n Hn) as (Er & Eo & _). rewrite Er in Hr. rewrite Eo in Ho.
  assert (node_at p s = None) as Hna.
  { apply no_node; [done|]. intros fs v sv Hv Hq. by rewrite (dnode_apart s fs v p sv Hok Hv Hq) in Hn. }
  assert (sys_blocks s ≡ₚ p :: [(dn_lock n).1; (dn_lock n).2] ++ sys_blocks (del_dnode p s)) as Eb.
  { unfold sys_blocks. simpl. rewrite (bind_lookup dn_blocks _ p n Hn). unfold dn_blocks at 1. simpl. solve_Permutation. }
  destruct (owns_free (s_heap s) p [] ([(dn_lock n).1; (dn_lock n).2] ++ sys_blocks (del_dnode p s)) (so_heap s Hok))
    as (h & E & Hh & Ho' & Hs); [by eapply owns_perm; [exact Eb|apply Hok]|].
  unfold sys_kfree_vnode. rewrite E. cbn [mbind option_bind]. eexists. split; [done|].
  apply (owns_app h [(dn_lock n).1; (dn_lock n).2]) in Ho' as (_ & Ho2 & _).
  set (s' := del_dnode p (set_sheap h s)). change (sys_blocks (del_dnode p s)) with (sys_blocks s') in *.
  assert (sys_ok s') as Hok'.
  { constructor; [done|exact Ho2|..].
    - intros fs v Hv. eapply vol_new_heap; [by apply (so_vol s Hok)|done|]. eapply owns_part; [exact Ho2|].
      unfold sys_blocks. rewrite (bind_lookup vol_blocks _ fs v Hv). by rewrite <- app_assoc.
    - intros q x. simpl. intros [_ Hx]%lookup_delete_Some. by apply (so_dnode s Hok q). }
  split.
  - constructor; [exact Hok'|..]; [| | |done|done].
    + intros q. simpl. unfold sys_refs. simpl. destruct (decide (q = p)) as [->|Hq].
      * rewrite lookup_delete_eq, Hn, one_eq. change (node_at p s') with (node_at p s). rewrite Hna. lia.
      * rewrite lookup_delete_ne, one_ne by done. change (node_at q s') with (node_at q s). lia.
    + intros q. simpl. unfold sys_opens, none. simpl. destruct (decide (q = p)) as [->|Hq].
      * rewrite lookup_delete_eq, Hn. change (node_at p s') with (node_at p s). rewrite Hna. lia.
      * rewrite lookup_delete_ne by done. change (node_at q s') with (node_at q s). lia.
    + apply same_vols_but; [done|]. intros q R R'. destruct (decide (q = p)) as [->|Hq].
      * unfold sys_refs in R'. simpl in R'. rewrite lookup_delete_eq in R'.
        change (node_at p s') with (node_at p s) in R'. rewrite Hna in R'. lia.
      * unfold sys_vn_fs, sys_gettype, by_kind, see_vol, vol_at. simpl. rewrite lookup_delete_ne by done.
        change (vol_of q s') with (vol_of q s). split; [done|]. destruct (s_dnodes s !! q); [done|].
        destruct (vol_of q s) as [fs|]; [|done]. simpl. by destruct (s_vols s !! fs).
  - intros q k Hq Hb. rewrite Eb in Hq. destruct (same_others_kept _ _ _ _ Hs q k) as [Hq' Hb']; [done|done|].
    split; [|done]. intros Hin. apply Hq'. rewrite !elem_of_app. right; right. exact Hin.
Qed.

(** ** All of the promises *)

Lemma sys_live_law s q :
  sys_ok s -> 0 < sys_refs s q ->
  q <> 0 /\ exists fs, sys_vn_fs q s = Some fs /\ (fs <> 0 -> is_Some (s_vols s !! fs)).
Proof.
  intros Hok Hr. destruct (live_cases s q Hok Hr) as [(n & Hn & _ & _ & ?)|(fs & v & sv & Hv & Hq)].
  - split; [done|]. exists 0. by destruct (dnode_refs s q n Hn) as (_ & _ & ->).
  - destruct (loc_mnt s fs v Hok Hv) as (I & [_ Hm] & _). split; [by destruct (node_ptr _ q sv (me_table _ _ Hm) Hq)|].
    exists fs. rewrite (loc_fs s q fs v sv Hok Hv Hq). eauto.
Qed.

Lemma sys_counts_law s q : sys_ok s -> 0 <= sys_opens s q /\ 0 <= sys_refs s q.
Proof.
  intros Hok. unfold sys_opens, sys_refs. destruct (s_dnodes s !! q) as [n|] eqn:En.
  - destruct (so_dnode s Hok q n En) as (? & ? & _). lia.
  - destruct (node_at q s) as [sv|] eqn:Ea; [|lia]. apply (node_at_some s q sv Hok) in Ea as (fs & v & Hv & Hq).
    destruct (loc_mnt s fs v Hok Hv) as (I & [_ Hm] & _). destruct (me_node _ _ Hm q sv Hq) as [_ [_ ? ? _]]. lia.
Qed.

Lemma dev_no_dir s q : sys_ok s -> 0 < sys_refs s q -> dir_at q s -> sys_vn_fs q s <> Some 0.
Proof.
  intros Hok Hr (t & Et & Ht). destruct (live_cases s q Hok Hr) as [(n & Hn & _)|(fs & v & sv & Hv & Hq)].
  - simpl in Et. rewrite (dnode_type s q n Hok Hn) in Et. destruct (vn_device n s) as [d|]; [|done]. simpl in Et.
    unfold dev_gettype in Et. destruct (0 <? dv_blocks d); injection Et as <-; done.
  - rewrite (loc_fs s q fs v sv Hok Hv Hq). intros [= ->]. by destruct (vols_ne0 s 0 v Hok Hv).
Qed.

#[global] Instance sys_laws : VnodesLaws H (sys H D).
Proof.
  constructor; simpl.
  - intros s [? ? _ _]. done.
  - apply sys_counts_law.
  - apply sys_live_law.
  - apply dev_no_dir.
  - intros s Hok [v Hv]. by destruct (vols_ne0 s 0 v Hok Hv).
  - intros s fs q Hok (v & sv & Hv & Hq & _) _. exact (loc_fs s q fs v sv Hok Hv Hq).
  - intros s h Hok Hh Ho. split; [by apply set_heap_step|done].
  - apply sys_incref_law.
  - intros s q Hok Ho Hr. apply sys_decref_law; [done..|]. destruct (sys_counts_law s q Hok). lia.
  - intros s q Hok Hr Ho. apply sys_incopen_law; [done..|]. destruct (sys_counts_law s q Hok). lia.
  - apply sys_decopen_law.
  - apply sys_open_law.
  - apply sys_truncate_law.
  - intros s q Hok Hr. destruct (live_cases s q Hok Hr) as [(n & Hn & (_ & _ & [d Hd]) & _)|(fs & v & sv & Hv & Hq)].
    + rewrite (dnode_type s q n Hok Hn). unfold vn_device. by rewrite Hd.
    + by rewrite (gettype_val s fs v q sv Hok Hv Hq).
  - intros s dir path Hok Hr Hlv [Hs _]. by apply sys_lookup_law.
  - apply sys_lookparent_law.
  - apply sys_creat_law.
  - intros s dir name Hok Hr Hlv [Hs _]. by apply sys_remove_law.
  - intros s dir name. apply plain_call_law.
  - intros s dir name. apply plain_call_law.
  - intros s dir name c. apply plain_call_law.
  - intros s dir name file fs ? ? ? ? _ E1 E2 ?. apply sys_link_law; try done. congruence.
  - intros s d1 n1 d2 n2 fs ? ? ? ? ? ? ? ? _ E1 E2. apply sys_rename_law; try done. congruence.
  - apply sys_readlink_law.
  - intros s q u w ? ? _. by apply sys_namefile_law.
  - apply sys_volname_law.
  - apply sys_getroot_law.
  - apply sys_sync_law.
  - apply sys_unmount_law.
  - apply sys_create_law.
  - apply sys_kfree_law.
Qed.
End mounts.
