(* ===== verification/VfsSpec.v ===== *)
(** * The theorems on the VFS layer

    The layer as a whole, from [vfs_bootstrap] on, over the SFS volumes and devices of
    VfsDev.v: whatever its callers do, every reference counted in a vnode has its
    owner.  And what a name of a device or a volume leads to. *)

From stdpp Require Import base option list gmap numbers.
From S2P Require Import Prelude Kmem Array Bitmap Cstring Uio Device Lhd SfsDisk Sfs.
From S2P Require Import SfsBlock SfsBmap SfsFile SfsDir SfsTrunc SfsVol.
From S2P Require Import SfsMount SfsTree SfsTable SfsVnodes SfsNames SfsOps SfsSync SfsClient SfsImage SfsMountSpec.
From S2P Require Import Vfs VfsInv VfsOps VfsTable VfsAdd VfsNames VfsDev VfsSfs VfsLaws VfsMount.

(** ** The calls of the layer *)

Inductive vcall :=
  | VOpen (path : list Z) (flags : Z)
  | VClose (p : Z)
  | VLookup (path : list Z)
  | VRelease (p : Z)                   (* VOP_DECREF of what a lookup gave *)
  | VRemove (path : list Z)
  | VRename (oldpath newpath : list Z)
  | VLink (oldpath newpath : list Z)
  | VSymlink (contents path : list Z)
  | VReadlink (path : list Z) (u : uio) (w : vm)
  | VMkdir (path : list Z)
  | VRmdir (path : list Z)
  | VChdir (path : list Z)
  | VGetcwd (u : uio) (w : vm)
  | VClearcurdir
  | VSetbootfs (fsname : list Z)
  | VClearbootfs
  | VSync
  | VMount (devname : list Z)
  | VUnmount (devname : list Z)
  | VUnmountall
  | VAdddev (devname : list Z) (dev : Z) (mountable : bool).

Inductive vobs :=
  | VRet (r : Z)
  | VPtr (r p : Z)
  | VIo (r : Z) (u : uio) (w : vm).

(** The references and opens of the callers after a call. *)
Definition minus (f g : Z -> Z) (q : Z) : Z := f q - g q.

Definition held_after (c : vcall) (o : vobs) (E : Z -> Z) : Z -> Z :=
  match c, o with
  | (VOpen _ _ | VLookup _), VPtr r p => got r p E
  | (VClose p | VRelease p), _ => minus E (one p)
  | _, _ => E
  end.
Definition open_after (c : vcall) (o : vobs) (O : Z -> Z) : Z -> Z :=
  match c, o with
  | VOpen _ _, VPtr r p => got r p O
  | VClose p, _ => minus O (one p)
  | _, _ => O
  end.

(** An attempt to add a device that failed. *)
Definition failed_add (c : vcall) (o : vobs) : nat :=
  match c, o with VAdddev _ _ _, VRet r => if r =? 0 then 0 else 1 | _, _ => 0 end.

Section calls.
Context {H S : Type} `{!Kmalloc H, !KmallocLaws H, !Vnodes H S, !VnodesView S, !VnodesLaws H S}.
Context (mountfunc : Z -> S -> option (Z * Z * S)).
Implicit Types v : vfs S.

Definition vrun (c : vcall) v : option (vobs * vfs S) :=
  match c with
  | VOpen path flags => '(r, p, v) ← vfs_open path flags v; Some (VPtr r p, v)
  | VClose p => v ← vfs_close p v; Some (VRet 0, v)
  | VLookup path => '(r, p, v) ← vfs_lookup path v; Some (VPtr r p, v)
  | VRelease p => v ← do_below (vop_decref p) v; Some (VRet 0, v)
  | VRemove path => '(r, v) ← vfs_remove path v; Some (VRet r, v)
  | VRename p1 p2 => '(r, v) ← vfs_rename p1 p2 v; Some (VRet r, v)
  | VLink p1 p2 => '(r, v) ← vfs_link p1 p2 v; Some (VRet r, v)
  | VSymlink c p => '(r, v) ← vfs_symlink c p v; Some (VRet r, v)
  | VReadlink p u w => '(r, u, w, v) ← vfs_readlink p u w v; Some (VIo r u w, v)
  | VMkdir p => '(r, v) ← vfs_mkdir p v; Some (VRet r, v)
  | VRmdir p => '(r, v) ← vfs_rmdir p v; Some (VRet r, v)
  | VChdir p => '(r, v) ← vfs_chdir p v; Some (VRet r, v)
  | VGetcwd u w => '(r, u, w, v) ← vfs_getcwd u w v; Some (VIo r u w, v)
  | VClearcurdir => '(r, v) ← vfs_clearcurdir v; Some (VRet r, v)
  | VSetbootfs n => '(r, v) ← vfs_setbootfs n v; Some (VRet r, v)
  | VClearbootfs => v ← vfs_clearbootfs v; Some (VRet 0, v)
  | VSync => '(r, v) ← vfs_sync v; Some (VRet r, v)
  | VMount n => '(r, v) ← vfs_mount n mountfunc v; Some (VRet r, v)
  | VUnmount n => '(r, v) ← vfs_unmount n v; Some (VRet r, v)
  | VUnmountall => '(r, v) ← vfs_unmountall v; Some (VRet r, v)
  | VAdddev n dev m => '(r, v) ← vfs_adddev n dev m v; Some (VRet r, v)
  end.

(** The rules: names are strings, a caller closes what it opened and releases what it
    was given, a directory is not linked, and a device is added once. *)
Definition vlegal (c : vcall) (E O : Z -> Z) v : Prop :=
  match c with
  | VOpen path _ | VLookup path | VRemove path | VSymlink _ path | VReadlink path _ _ | VMkdir path
  | VRmdir path | VChdir path | VSetbootfs path => long_name path
  | VRename p1 p2 => long_name p1 /\ long_name p2
  | VLink p1 p2 => long_name p1 /\ long_name p2 /\ not_dir p1 v
  | VClose p => 0 < O p
  | VRelease p => O p < E p
  | VGetcwd u w => uio_ok u w /\ iov_len u = uio_resid u /\ uio_rw u = UIO_READ
  | VAdddev n dev m => add_ok n m dev 0 v
  | _ => True
  end.

(** The states in which a call asks for the root of a mounted file system: as it starts,
    when it has taken the current directory, and for the second of two paths, when it
    has looked up the first. *)
Definition asks_in v (s : S) : Prop := s = below v \/ vop_incref (t_cwd v) (below v) = Some s.
Definition asks (c : vcall) v (s : S) : Prop :=
  asks_in v s \/
  match c with
  | VRename p1 _ =>
      exists d1 n1 v1, vfs_lookparent p1 (NAME_MAX + 1) v = Some (0, d1, n1, v1) /\ asks_in v1 s
  | VLink p1 _ => exists p v1, vfs_lookup p1 v = Some (0, p, v1) /\ asks_in v1 s
  | _ => False
  end.

(** In one of these states the root of a mounted file system cannot be had. *)
Definition root_fails (c : vcall) v : Prop :=
  exists fs s, asks c v s /\ fs <> 0 /\ below_ok s /\ vroom 1 s /\ mounted s fs /\ fsop_getroot fs s = None.

Definition adds (c : vcall) : Prop := match c with VAdddev _ _ _ => True | _ => False end.

(** References to the vnodes [l] that nobody has. *)
Definition lost (l : list Z) (q : Z) : Z := Z.of_nat (length (filter (fun p => p = q) l)).

(** What holds between calls. *)
Definition vgood (k : nat) (E O : Z -> Z) v : Prop :=
  unlocked v /\ names_apart v /\ exists l, (length l <= k)%nat /\ inv (lost l) E O v.

Lemma lost_range l q : 0 <= lost l q.
Proof. unfold lost. lia. Qed.

Lemma lost_cons l p q : lost (p :: l) q = plus (lost l) (one p) q.
Proof.
  unfold lost, plus. rewrite filter_cons. destruct (decide (p = q)) as [->|Hne]; simpl; [rewrite one_eq; lia|].
  rewrite one_ne by done. lia.
Qed.

Lemma good_via k v E' O' v' l :
  unlocked v -> names_apart v -> (length l <= k)%nat -> via (lost l) v E' O' v' -> vgood k E' O' v'.
Proof.
  intros Hu Hn Hl (Hi & Hs & _). split; [by eapply same_unlocked|]. split; [|by exists l].
  destruct (same_devs _ _ Hs) as [_ Ed]. unfold names_apart. by rewrite Ed.
Qed.

Lemma good_table k E O v v' l :
  unlocked v -> names_apart v -> (length l <= k)%nat -> same_table v v' -> inv (lost l) E O v' -> vgood k E O v'.
Proof.
  intros Hu Hn Hl Hs Hi. split; [by eapply same_table_unlocked|]. split; [|by exists l].
  unfold names_apart, devs, keys. by destruct Hs as (-> & -> & _).
Qed.

Lemma good_mounts k E O v v' l :
  names_apart v -> (length l <= k)%nat -> unlocked v' -> same_but_fs v v' -> inv (lost l) E O v' -> vgood k E O v'.
Proof. intros Hn Hl Hu Hs Hi. split; [done|]. split; [by eapply same_but_fs_names|by exists l]. Qed.

Lemma inv_lost L L' E O v : inv L E O v -> (forall q, L' q = L q) -> inv L' E O v.
Proof.
  intros [] HL. constructor; try done.
  - intros q Hq. rewrite HL. auto.
  - intros q. rewrite HL. auto.
Qed.

Lemma give_back L E O p v :
  inv L E O v -> inv L (plus (minus E (one p)) (one p)) O v.
Proof. intros Hi. eapply vinv_ext; [exact Hi|..]; intros q; unfold plus, minus; lia. Qed.

(** A call after which the table is the same. *)
Local Ltac via_call lem :=
  wp_call lem;
  let x := fresh in intros x; repeat match goal with y : (_ * _)%type |- _ => destruct y end;
  let y := fresh in intros y; match type of y with via _ _ _ _ _ => idtac | _ => destruct y as [y _] end;
  simpl; rewrite Nat.add_0_r; by eapply good_via.

Lemma vcall_wp k E O v c :
  mount_law mountfunc -> vgood k E O v -> vroom 3 (below v) -> vlegal c E O v ->
  wp (root_fails c v \/ adds c) (vrun c v) (fun '(o, v') =>
    vgood (k + failed_add c o) (held_after c o E) (open_after c o O) v').
Proof.
  intros Hmf (Hu & Hn & l & Hl & Hi) Hr Hc. set (R := root_fails c v \/ adds c).
  assert (forall w, (forall s, asks_in w s -> asks c v s) -> roots_or R w) as Hrw.
  { intros w Hw. split; [|intros s Hs]; intros fs Hf Hf0 Hok1 Hr1 Hm Hg; left;
      [exists fs, (below w)|exists fs, s]; (split; [apply Hw; first [by left|by right]|done]). }
  assert (roots_or R v) as Hro by (apply Hrw; by left).
  assert (vroom 2 (below v)) as Hr2 by by eapply room_mono; [|done].
  assert (vroom 1 (below v)) as Hr1 by by eapply room_mono; [|done].
  pose proof (in_callers _ _ _ _ Hi) as Hcl.
  assert (forall p, 0 < O p -> forall q, 0 <= minus O (one p) q <= minus E (one p) q) as Hcl1.
  { intros p Hp q. specialize (Hcl q). unfold minus. destruct (decide (q = p)) as [->|]; [rewrite one_eq|rewrite one_ne by done]; lia. }
  assert (forall p, O p < E p -> forall q, 0 <= O q <= minus E (one p) q) as Hcl2.
  { intros p Hp q. specialize (Hcl q). unfold minus. destruct (decide (q = p)) as [->|]; [rewrite one_eq|rewrite one_ne by done]; lia. }
  destruct c; unfold vlegal in Hc; unfold vrun.
  - via_call ltac:(by apply (vfs_open_wp R (lost l) E O)).
  - wp_call ltac:(apply (vfs_close_wp R (lost l) (minus E (one p)) (minus O (one p))); [|by apply Hcl1]).
    { eapply vinv_ext; [exact Hi|..]; intros q; unfold plus, minus; lia. }
    intros v' [Hi' Hs]. simpl. rewrite Nat.add_0_r. by eapply good_table; [..|apply same_vfs_table|].
  - via_call ltac:(by apply (vfs_lookup_wp R (lost l) E O)).
  - via_call ltac:(apply (decref_wp R (lost l) (minus E (one p)) O); [by apply give_back|by apply Hcl2]).
  - via_call ltac:(by apply (vfs_remove_wp R (lost l) E O)).
  - destruct Hc. via_call ltac:(apply (vfs_rename_wp R (lost l) E O); try done;
      intros; apply Hrw; intros; right; eauto).
  - destruct Hc as (? & ? & ?). via_call ltac:(apply (vfs_link_wp R (lost l) E O); try done;
      intros; apply Hrw; intros; right; eauto).
  - via_call ltac:(by apply (vfs_symlink_wp R (lost l) E O)).
  - via_call ltac:(by apply (vfs_readlink_wp R (lost l) E O)).
  - via_call ltac:(by apply (vfs_mkdir_wp R (lost l) E O)).
  - via_call ltac:(by apply (vfs_rmdir_wp R (lost l) E O)).
  - wp_call ltac:(by apply (vfs_chdir_wp R (lost l) E O)). intros [r v'] (? & ? & _). simpl. rewrite Nat.add_0_r. by eapply good_table.
  - destruct Hc as (? & ? & ?). via_call ltac:(by apply (vfs_getcwd_wp R (lost l) E O)).
  - wp_call ltac:(by apply (vfs_clearcurdir_wp R (lost l) E O)). intros [r v'] (_ & ? & ?). simpl. rewrite Nat.add_0_r. by eapply good_table.
  - wp_call ltac:(by apply (vfs_setbootfs_wp R (lost l) E O)). intros [r v'] (? & ? & _). simpl. rewrite Nat.add_0_r. by eapply good_table.
  - wp_call ltac:(by apply (vfs_clearbootfs_wp R (lost l) E O)). intros v' (? & ?). simpl. rewrite Nat.add_0_r. by eapply good_table.
  - wp_call ltac:(by apply (vfs_sync_wp R (lost l) E O)). intros [r v'] [_ ?]. simpl. rewrite Nat.add_0_r. by eapply good_via.
  - wp_call ltac:(by apply (vfs_mount_wp R (lost l) E O)). intros [r v'] (? & ? & ?). simpl. rewrite Nat.add_0_r. by eapply good_mounts.
  - wp_call ltac:(by apply (vfs_unmount_wp R (lost l) E O)). intros [r v'] (? & ? & ?). simpl. rewrite Nat.add_0_r. by eapply good_mounts.
  - wp_call ltac:(by apply (vfs_unmountall_wp R (lost l) E O)). intros [r v'] (_ & ? & ? & ?). simpl. rewrite Nat.add_0_r. by eapply good_mounts.
  - apply wp_bind. eapply wp_mono; [by apply (vfs_doadd_wp (lost l) E O)|by right|]. intros [r v'] Ha. simpl.
    pose proof (added_names _ _ _ _ _ _ _ _ _ _ Ha Hn) as Hn'. destruct Ha as (Hu' & _ & _ & Ha).
    split; [done|]. split; [done|]. destruct Ha as [(-> & Hi' & _)|(Hr0 & _ & Hi')]; [exists l; split; [simpl; lia|done]|].
    rewrite (proj2 (Z.eqb_neq _ _) Hr0). destruct Hi' as [Hi'|(p & _ & Hi')]; [exists l; split; [lia|done]|].
    exists (p :: l). split; [simpl; lia|]. eapply inv_lost; [exact Hi'|]. intros q. apply lost_cons.
Qed.

(** The states reached from [v0], with what the callers hold, and the number of failed
    attempts to add a device. *)
Inductive vreach (v0 : vfs S) : nat -> (Z -> Z) -> (Z -> Z) -> vfs S -> Prop :=
  | vr_start : vreach v0 0 none none v0
  | vr_step k E O v c o v' :
      vreach v0 k E O v -> vlegal c E O v -> vroom 3 (below v) -> vrun c v = Some (o, v') ->
      vreach v0 (k + failed_add c o) (held_after c o E) (open_after c o O) v'.

Lemma vreach_good v0 k E O v :
  mount_law mountfunc -> vgood 0 none none v0 -> vreach v0 k E O v -> vgood k E O v.
Proof.
  intros Hmf H0 Hr. induction Hr as [|k E O v c o v' _ IH Hc Hroom Hrun]; [done|].
  pose proof (vcall_wp k E O v c Hmf IH Hroom Hc) as Hw. by rewrite Hrun in Hw.
Qed.
End calls.

(** ** Starting the layer *)

Section boot.
Context {H D : Type} `{!Kmalloc H, !KmallocLaws H, !Device D, !DeviceLaws D}.
Implicit Types v : vfs (sys H D).

Lemma vboot_inv (a : array Z) (h : H) devices (disks : gmap Z D) :
  array_wf h a -> contents a = [] -> inv none none none (Vfs a ∅ false 0 false 0 (Sys h ∅ ∅ devices disks)).
Proof.
  intros Ha Hc. pose proof Ha as (Hh & Ho & _). set (v := Vfs _ _ _ _ _ _ _).
  assert (keys v = []) as Ek by (unfold keys; simpl; by rewrite Hc).
  assert (devs v = []) as Ed by (unfold devs; by rewrite Ek).
  assert (forall q, refs (below v) q = 0 /\ opens (below v) q = 0) as Hz by done.
  assert (sys_ok (below v)) as Hok.
  { constructor; [done|simpl; split; [constructor|by intros q ?%not_elem_of_nil]|done|done]. }
  constructor; [done| |..]; unfold none; try done.
  - constructor; [by rewrite Ek|rewrite Ek; constructor| |done| | |].
    + intros k. rewrite Ek. by intros ?%not_elem_of_nil.
    + unfold vfs_blocks. rewrite Ek. simpl. by rewrite !app_nil_r.
    + intros kd. rewrite Ed. by intros ?%not_elem_of_nil.
    + intros i j k1 k2. by rewrite Ed.
  - intros q Hq. destruct (Hz q) as [-> _]. unfold owners, table_refs. rewrite Ed. simpl.
    by rewrite one_ne by done.
Qed.

Lemma vfs_bootstrap_good (h : H) devices (disks : gmap Z D) v :
  heap_ok h -> vfs_bootstrap h devices disks = Some v ->
  vgood 0 none none v /\ exists kd, devs v = [kd] /\ (kd_name kd).2 = null_name /\ has_rawname kd = false /\ kd_fs kd = 0.
Proof.
  intros Hh. unfold vfs_bootstrap, array_create.
  destruct (kmalloc_total h 12 Hh) as [[p h1] E1]; [by unfold kmalloc_size|]. rewrite E1. cbn [mbind option_bind].
  destruct (p =? 0) eqn:Ep; boolify; cbn [mbind option_bind]; [done|].
  destruct (owns_fresh h h1 12 p [] Hh) as (Hh1 & Ho1 & _); [by unfold kmalloc_size|done|done| |].
  { split; [constructor|by intros q ?%not_elem_of_nil]. }
  destruct (new_lock_wp knowndevs_name h1 [p] Hh1 Ho1) as ([[l2 n2]|] & h2 & -> & Hh2 & Hc2); [by unfold kmalloc_size| |done].
  cbn [mbind option_bind]. destruct Hc2 as [Ho2 _]. unfold vfs_initbootfs.
  destruct (new_lock_wp bootfs_name h2 _ Hh2 Ho2) as ([[l3 n3]|] & h3 & -> & Hh3 & Hc3); [by unfold kmalloc_size| |done].
  cbn [mbind option_bind]. destruct Hc3 as [Ho3 _]. unfold devnull_create, on_heap. simpl heap_of.
  destruct (kmalloc_total h3 sizeof_device Hh3) as [[dev h4] E4]; [by unfold kmalloc_size, sizeof_device|]. rewrite E4.
  cbn [mbind option_bind]. destruct (dev =? 0) eqn:Ed; boolify; [done|]. simpl negb. cbn iota.
  destruct (owns_fresh h3 h4 sizeof_device dev _ Hh3 ltac:(by unfold kmalloc_size, sizeof_device) E4 Ed Ho3) as (Hh4 & Ho4 & _).
  set (a := Array p 0 0 None). set (v1 := set_below _ _).
  assert (array_wf h4 a) as Ha.
  { apply array_wf_intro; [done| |simpl; lia|simpl; lia|done].
    apply (owns_app h4 [dev; n3; l3; n2; l2]) in Ho4. apply Ho4. }
  assert (inv none none none v1) as Hi by by apply (vboot_inv a h4 (<[dev := null_device]> devices) disks).
  assert (devs v1 = []) as Edv by done.
  assert (add_ok null_name false dev 0 v1) as Hadd.
  { constructor; try done; [by split; [apply (bool_decide_unpack (is_str null_name))|]|].
    simpl. rewrite lookup_insert_eq. eauto. }
  pose proof (vfs_doadd_wp none none none v1 null_name false dev 0 Hi ltac:(done) Hadd) as Hw.
  unfold vfs_adddev. destruct (vfs_doadd null_name false dev 0 v1) as [[r v2]|]; [|done]. simpl in Hw |- *.
  destruct (r =? 0) eqn:Er; boolify; [|done]. intros [= <-].
  assert (names_apart v1) as Hn by (intros i j k1 k2 n; by rewrite Edv).
  pose proof (added_names _ _ _ _ _ _ _ _ _ _ Hw Hn) as Hn2. destruct Hw as (Hu2 & _ & _ & [(_ & Hi2 & (kd & Ek & En & Erw & _ & Ef) & _)|[? _]]); [|done].
  split.
  - split; [done|]. split; [done|]. exists []. split; [done|]. by eapply inv_lost.
  - exists kd. rewrite Ek, Edv. split; [done|]. split; [done|]. split; [|done]. unfold has_rawname. by destruct (kd_rawname kd).
Qed.
End boot.

(** A call that asks for the root of a mounted volume when there is no memory to load
    it. *)
Definition root_unloadable {H D} `{!Kmalloc H, !Device D} (c : vcall) (v : vfs (sys H D)) : Prop :=
  exists fs w s, asks c v s /\ s_vols s !! fs = Some w /\ root_starved (vmnt w s).

(** C4: No reference to a vnode is lost or made up.  From the start of the kernel, after
    any calls of the layer (open, close, lookups, the operations on names, the current
    directory, the boot file system, mounting, unmounting, adding devices), the count of
    every vnode is the number of table entries for it, plus the boot file system and the
    current directory if they are it, plus the references the callers were given and
    have not given back, plus at most one lost reference for each device that could not
    be added; its open count is what the callers have open; and no two devices share a
    name.  The next call panics only if it needs the root of a mounted volume and there
    is no memory to load it, or when a device is added.  The callers keep to the rules
    [vlegal]: paths are strings of less than 2^31 bytes, only what was opened is closed
    and only what was given is released, the existing name of a link is not that of a
    directory, the names of devices have at most 255 bytes, and a device that can be
    mounted on is added once and is a disk on which no read or write fails and which
    holds a volume in order.  And before each call the counts of the vnodes are below
    2^31 - 3. *)
Theorem vfs_refs_balanced {H D} `{!Kmalloc H, !KmallocLaws H, !Device D, !DeviceLaws D}
    (h : H) devices (disks : gmap Z D) v0 k E O v :
  heap_ok h -> vfs_bootstrap h devices disks = Some v0 -> vreach sys_domount v0 k E O v ->
  names_apart v /\ (forall q, opens (below v) q = O q) /\
  (exists l, (length l <= k)%nat /\ forall q, q <> 0 ->
     refs (below v) q =
       table_refs v q + one (bootfs_vnode v) q + one (t_cwd v) q + E q + lost l q) /\
  forall c, vlegal c E O v -> vroom 3 (below v) -> vrun sys_domount c v = None ->
    root_unloadable c v \/ adds c.
Proof.
  intros Hh Hb Hr. destruct (vfs_bootstrap_good h devices disks v0 Hh Hb) as [Hg _].
  pose proof (vreach_good sys_domount v0 k E O v sys_domount_law Hg Hr) as Hv.
  pose proof Hv as (_ & Hn & l & Hl & Hi).
  split; [done|]. split; [apply Hi|]. split.
  - exists l. split; [done|]. intros q Hq. rewrite (in_refs _ _ _ _ Hi q Hq). unfold owners. lia.
  - intros c Hc Hroom Hrun. pose proof (vcall_wp sys_domount k E O v c sys_domount_law Hv Hroom Hc) as Hw.
    rewrite Hrun in Hw. destruct Hw as [(fs & s & Ha & _ & Hok & Hr1 & [w Hw] & Hno)|?]; [left|by right].
    exists fs, w, s. split; [done|]. split; [done|]. by eapply sys_getroot_none.
Qed.

(** ** A kernel with one disk

    The disk of SfsImage.v is the device lhd0. *)

Definition lhd0 : Z := 0x80001000.
Definition lhd0_name : list Z := [108; 104; 100; 48].
Definition lhd0_device {X} : device X := DeviceS nullopen nullclose nullio nullioctl 32 512.

Definition kern_heap : CountdownHeap.heap := CountdownHeap.fresh 200.

Lemma kern_heap_ok : heap_ok kern_heap.
Proof. apply CountdownHeap.fresh_ok. Qed.

Definition kern_devices : gmap Z (device (option (lhd_softc Sim.card))) := {[lhd0 := lhd0_device]}.
Definition kern_disks : gmap Z (lhd_softc Sim.card) := {[lhd0 := img_disk]}.

Local Abbreviation kern := (vfs_bootstrap kern_heap kern_devices kern_disks).

(** The counts are small. *)
Definition few_refs {H D} (s : sys H D) : bool :=
  bool_decide (map_Forall (fun _ n => dn_ref n < 1000) (s_dnodes s)) &&
  bool_decide (map_Forall (fun _ v => map_Forall (fun _ sv => vn_refcount (sv_v sv) < 1000) (m_nodes (vol_mnt v))) (s_vols s)).

Lemma few_refs_room {H D} `{!Kmalloc H, !KmallocLaws H, !Device D, !DeviceLaws D} (s : sys H D) :
  few_refs s = true -> vroom 3 s.
Proof.
  intros [H1%bool_decide_eq_true H2%bool_decide_eq_true]%andb_prop q. simpl. unfold sys_refs.
  destruct (s_dnodes s !! q) as [n|] eqn:En; [specialize (H1 q n En); simpl in H1; lia|].
  destruct (node_at q s) as [sv|] eqn:Ea; [|lia]. unfold node_at in Ea.
  destruct (vol_of q s) as [fs|]; [|done]. simpl in Ea. destruct (s_vols s !! fs) as [v|] eqn:Ev; [|done].
  simpl in Ea. specialize (H2 fs v Ev q sv Ea). simpl in H2. lia.
Qed.

(** Calls that are legal by their names alone. *)
Definition good_path (p : list Z) : bool := bool_decide (is_str p) && (Z.of_nat (length p) <? 2 ^ 31).
Definition plain_path (c : vcall) : bool :=
  match c with
  | VOpen p _ | VLookup p | VChdir p => good_path p
  | VMount _ | VUnmount _ | VSync => true
  | _ => false
  end.

Fixpoint vruns {H D} `{!Kmalloc H, !Device D} (cs : list vcall) (v : vfs (sys H D)) :
    option (list vobs * vfs (sys H D)) :=
  match cs with
  | [] => Some ([], v)
  | c :: cs =>
      ASSERT plain_path c && few_refs (below v) ;;
      '(o, v) ← vrun sys_domount c v; '(os, v) ← vruns cs v; Some (o :: os, v)
  end.

Lemma good_path_long p : good_path p = true -> long_name p.
Proof. intros [H1%bool_decide_eq_true H2%Z.ltb_lt]%andb_prop. by split. Qed.

Lemma vruns_reach {H D} `{!Kmalloc H, !KmallocLaws H, !Device D, !DeviceLaws D} cs v0 k E O (v : vfs (sys H D)) os v' :
  vreach sys_domount v0 k E O v -> vruns cs v = Some (os, v') -> exists k' E' O', vreach sys_domount v0 k' E' O' v'.
Proof.
  revert k E O v os. induction cs as [|c cs IH]; intros k E O v os Hr; simpl.
  { intros [= <- <-]. eauto. }
  destruct (plain_path c && few_refs (below v)) eqn:Ec; [|done]. apply andb_prop in Ec as [Hc Hf].
  destruct (vrun sys_domount c v) as [[o v1]|] eqn:E1; [|done]. simpl.
  destruct (vruns cs v1) as [[os1 v2]|] eqn:E2; [|done]. intros [= <- <-].
  eapply (IH _ _ _ v1); [|exact E2]. apply (vr_step _ _ _ _ _ _ c o v1 Hr); [|by apply few_refs_room|done].
  destruct c; try done; by apply good_path_long.
Qed.

(** The disk is added, its volume mounted and made the current directory, and its file
    opened. *)
Local Abbreviation kern_added :=
  (v ← kern; '(_, v) ← vrun sys_domount (VAdddev lhd0_name lhd0 true) v; Some v).
Definition kern_calls : list vcall := [VMount lhd0_name; VChdir (lhd0_name ++ [COLON]); VOpen [97] 0].

Definition kern_open (os : list vobs) (v : vfs (sys CountdownHeap.heap (lhd_softc Sim.card))) : Prop :=
  match os with
  | [VRet 0; VRet 0; VPtr 0 p] => sys_opens (below v) p = 1 /\ sys_refs (below v) p = 1
  | _ => False
  end.

Lemma kern_runs : match kern_added ≫= vruns kern_calls with Some (os, v) => kern_open os v | None => False end.
Proof. by vm_compute. Qed.

Lemma kern_open_live os v : kern_open os v -> exists p, 0 < opens (below v) p /\ 0 < refs (below v) p.
Proof.
  destruct os as [|[[| |]| |] [|[[| |]| |] [|[|[| |] p|] [|]]]]; try contradiction.
  intros [H1 H2]. exists p. simpl. lia.
Qed.

Lemma kern_start :
  match kern with
  | Some v => s_disks (below v) = kern_disks /\ is_Some (s_devices (below v) !! lhd0) /\ few_refs (below v) = true
  | None => False
  end.
Proof. vm_compute. split; [done|]. split; [by eexists|done]. Qed.

Lemma img_mountable : mountable img_disk.
Proof. split; [apply img_reliable|]. exists img_fs, img_inodes. apply img_on_disk. Qed.

Lemma kern_add_legal v : kern = Some v -> add_ok lhd0_name true lhd0 0 v.
Proof.
  intros Hv. pose proof kern_start as Hd. rewrite Hv in Hd. destruct Hd as (Hd & Hk & _).
  apply vfs_bootstrap_good in Hv; [|apply kern_heap_ok]. destruct Hv as [(_ & _ & l & _ & Hi) (kd & Ed & _ & Hr & _)].
  constructor.
  - split; [apply (bool_decide_unpack (is_str lhd0_name)); by vm_compute|done].
  - destruct (numdevs_keys v (in_table _ _ _ _ Hi)) as [-> <-]. rewrite Ed. by vm_compute.
  - done.
  - done.
  - intros _. split; [done|]. split.
    + exists img_disk. rewrite Hd. unfold kern_disks. rewrite lookup_singleton_eq. split; [done|apply img_mountable].
    + intros kd' Hin. rewrite Ed in Hin. apply list_elem_of_singleton in Hin as ->. by rewrite Hr.
  - done.
Qed.

Lemma kern_reach cs os v :
  kern_added ≫= vruns cs = Some (os, v) -> exists v0 k E O, kern = Some v0 /\ vreach sys_domount v0 k E O v.
Proof.
  intros E. destruct kern as [v0|] eqn:E0; [|discriminate E]. cbn [mbind option_bind] in E.
  destruct (vrun sys_domount (VAdddev lhd0_name lhd0 true) v0) as [[o v1]|] eqn:E1; [|discriminate E].
  cbn [mbind option_bind] in E. pose proof kern_start as Hd. rewrite E0 in Hd.
  pose proof (vr_step sys_domount v0 0 none none v0 (VAdddev lhd0_name lhd0 true) o v1 (vr_start _ v0) (kern_add_legal v0 E0)
    (few_refs_room _ (proj2 (proj2 Hd))) E1) as Hr.
  destruct (vruns_reach _ _ _ _ _ _ _ _ Hr E) as (k & EE & O & Hr').
  exists v0, k, EE, O. split; [reflexivity|exact Hr'].
Qed.

(** The state after the calls, with what [P] says of it. *)
Lemma kern_state cs (P : list vobs -> vfs (sys CountdownHeap.heap (lhd_softc Sim.card)) -> Prop) :
  match kern_added ≫= vruns cs with Some (os, v) => P os v | None => False end ->
  exists os v v0 k E O, P os v /\ kern = Some v0 /\ vreach sys_domount v0 k E O v.
Proof.
  destruct (kern_added ≫= vruns cs) as [[os v]|] eqn:E; [|contradiction]. intros HP.
  destruct (kern_reach cs os v E) as (v0 & k & EE & O & E0 & Hr).
  exists os, v, v0, k, EE, O. split; [exact HP|]. split; [exact E0|exact Hr].
Qed.

Lemma vfs_refs_balanced_witness : exists E O (v : vfs (sys CountdownHeap.heap (lhd_softc Sim.card))) k l,
  (exists p, 0 < opens (below v) p) /\ names_apart v /\ (length l <= k)%nat /\
  forall q, q <> 0 -> refs (below v) q =
    table_refs v q + one (bootfs_vnode v) q + one (t_cwd v) q + E q + lost l q /\ opens (below v) q = O q.
Proof.
  destruct (kern_state kern_calls kern_open kern_runs) as (os & v & v0 & k & E & O & [p [Hp _]]%kern_open_live & E0 & Hr).
  destruct (vfs_refs_balanced kern_heap kern_devices kern_disks v0 k E O v kern_heap_ok E0 Hr)
    as (Hn & Ho & (l & Hl & Hb) & _).
  exists E, O, v, k, l. split; [exists p; exact Hp|]. split; [exact Hn|]. split; [exact Hl|].
  intros q Hq. split; [exact (Hb q Hq)|apply Ho].
Defined.

(** ** What names lead to *)

(** C16: What a name leads to.  In any state the layer can get into, [vfs_getroot] finds
    what the table of devices, read as a list, says: the first device that answers to
    the name, by its own name, by the label of the volume mounted on it, or by its raw
    name, gives the root directory of its volume, or its own vnode, or ENXIO when it
    can be mounted on and nothing is; a name nobody answers to is ENODEV.  It panics
    only when the root of that volume is not in memory and cannot be loaded. *)
Theorem getroot_resolves {H D} `{!Kmalloc H, !KmallocLaws H, !Device D, !DeviceLaws D}
    (h : H) devices (disks : gmap Z D) v0 k E O v (name : list Z) :
  heap_ok h -> vfs_bootstrap h devices disks = Some v0 -> vreach sys_domount v0 k E O v -> vroom 1 (below v) ->
  match vfs_getroot name v with
  | Some (r, p, v') => leads (resolve (below v) name (devs v)) (below v) r p (below v')
  | None => no_root (resolve (below v) name (devs v)) (below v)
  end.
Proof.
  intros Hh Hb Hr Hroom. destruct (vfs_bootstrap_good h devices disks v0 Hh Hb) as [Hg _].
  destruct (vreach_good sys_domount v0 k E O v sys_domount_law Hg Hr) as (Hu & _ & l & _ & Hi).
  pose proof (vfs_getroot_leads (lost l) E O v name Hi Hu Hroom) as Hw.
  destruct (vfs_getroot name v) as [[[r p] v']|]; [by destruct Hw|done].
Qed.

Definition kern_named (os : list vobs) (v : vfs (sys CountdownHeap.heap (lhd_softc Sim.card))) : Prop :=
  few_refs (below v) = true /\ resolve (below v) lhd0_name (devs v) <> TNone ENODEV.

Lemma kern_good : match kern_added ≫= vruns kern_calls with Some (os, v) => kern_named os v | None => False end.
Proof. vm_compute. done. Qed.

Lemma getroot_resolves_witness : exists (v : vfs (sys CountdownHeap.heap (lhd_softc Sim.card))),
  resolve (below v) lhd0_name (devs v) <> TNone ENODEV /\
  match vfs_getroot lhd0_name v with
  | Some (r, p, v') => leads (resolve (below v) lhd0_name (devs v)) (below v) r p (below v')
  | None => no_root (resolve (below v) lhd0_name (devs v)) (below v)
  end.
Proof.
  destruct (kern_state kern_calls kern_named kern_good) as (os & v & v0 & k & E & O & [Hf Hn] & E0 & Hr).
  exists v. split; [exact Hn|].
  apply (getroot_resolves kern_heap kern_devices kern_disks v0 k E O v lhd0_name kern_heap_ok E0 Hr).
  eapply room_mono; [|apply few_refs_room; exact Hf]. lia.
Defined.

(** A boot file system named with its colon is refused.  [vfs_setbootfs] of a name
    that has a colon among the bytes it looks at returns EINVAL and changes nothing,
    also when the colon is the last byte, which the comment in the code allows. *)
Theorem setbootfs_colon {H S} `{!Kmalloc H, !Vnodes H S} (fsname : list Z) (v : vfs S) :
  COLON ∈ take 254 fsname -> vfs_setbootfs fsname v = Some (EINVAL, v).
Proof.
  intros Hc. unfold vfs_setbootfs. change (Z.to_nat (NAME_MAX + 1 - 1 - 1)) with 254%nat. cbn zeta.
  assert (exists x l, strchr_at (take 254 fsname) COLON = Some (x :: l)) as (x & l & ->).
  { induction (take 254 fsname) as [|c l IH]; [by apply not_elem_of_nil in Hc|]. simpl.
    destruct (c =? COLON) eqn:E; [eauto|]. boolify. apply elem_of_cons in Hc as [?|Hc]; [done|auto]. }
  done.
Qed.

Lemma setbootfs_colon_witness : exists (v : vfs (sys CountdownHeap.heap (lhd_softc Sim.card))),
  vfs_setbootfs (lhd0_name ++ [COLON]) v = Some (EINVAL, v).
Proof.
  exists (Vfs (Array 0 0 0 None) ∅ false 0 false 0 (Sys kern_heap ∅ ∅ ∅ ∅)).
  apply (setbootfs_colon (lhd0_name ++ [COLON])). apply (bool_decide_unpack (COLON ∈ _)). by vm_compute.
Defined.

(** ** Devices *)

(** C32: Where a device can be sought to.  [dev_tryseek] accepts a position just when the
    device has blocks, and the position is that of a whole block within the device, in
    exact arithmetic, for every 32-bit position and every size of the device.  The size
    that [dev_stat] reports is the true one just when it fits in an off_t. *)
Theorem dev_tryseek_exact {X} (d : device X) (pos : Z) :
  is_s32 pos -> is_u32 (dv_blocks d) -> 0 < dv_blocksize d < 2 ^ 32 ->
  (dev_tryseek d pos = 0 <->
     0 <= pos /\ (dv_blocksize d | pos) /\ pos + dv_blocksize d <= dv_blocks d * dv_blocksize d) /\
  (0 < dv_blocks d ->
     st_size (dev_stat d).2 = dv_blocks d * dv_blocksize d <-> dv_blocks d * dv_blocksize d < 2 ^ 31).
Proof.
  unfold is_s32, is_u32. intros Hp Hb Hs. split.
  - unfold dev_tryseek. destruct (0 <? dv_blocks d) eqn:E0; boolify.
    2:{ split; [done|]. intros (? & _ & ?). nia. }
    destruct (pos <? 0) eqn:En; boolify.
    { split; [destruct (negb _); done|]. lia. }
    rewrite u32_id by (unfold is_u32; lia).
    destruct (pos `mod` dv_blocksize d =? 0) eqn:Em; boolify; simpl.
    2:{ split; [done|]. intros (_ & Hd & _). apply Z.mod_divide in Hd; lia. }
    apply Z.mod_divide in Em; [|lia]. destruct Em as [q ->].
    rewrite Z.div_mul by lia. destruct (dv_blocks d <=? q) eqn:Eq; boolify; split; try done.
    + intros (_ & _ & ?). nia.
    + intros _. split; [lia|]. split; [by exists q|]. nia.
  - intros H0. unfold dev_stat, dev_gettype. rewrite (proj2 (Z.ltb_lt _ _) H0). simpl.
    assert (0 <= dv_blocks d * dv_blocksize d) by nia. split.
    + intros <-. unfold s32. zdm.
    + intros Hlt. rewrite u32_id, s32_id by (unfold is_u32, is_s32; lia). done.
Qed.

Lemma dev_tryseek_exact_witness :
  dev_tryseek (X := unit) lhd0_device 1024 = 0 /\ dev_tryseek (X := unit) lhd0_device 16384 = EINVAL /\
  st_size (dev_stat (X := unit) lhd0_device).2 = 16384.
Proof.
  destruct (dev_tryseek_exact (X := unit) lhd0_device 1024) as [H1 H2]; [by unfold is_s32|by unfold is_u32|by simpl|].
  split; [apply H1; split; [lia|]; split; [by exists 2|by simpl]|]. split; [done|]. by apply H2.
Defined.

(** C29: The types of vnodes.  Below the layer every vnode in use has one of four types: a
    regular file or a directory if it is in a volume, a block or a character device if
    it is not; and the directories are just the roots of the mounted volumes. *)
Theorem vnode_types {H D} `{!Kmalloc H, !KmallocLaws H, !Device D, !DeviceLaws D}
    (h : H) devices (disks : gmap Z D) v0 k E O v q :
  heap_ok h -> vfs_bootstrap h devices disks = Some v0 -> vreach sys_domount v0 k E O v -> 0 < refs (below v) q ->
  exists fs t, vn_fs q (below v) = Some fs /\ vop_gettype q (below v) = Some (0, t) /\
    (fs <> 0 -> t = S_IFREG \/ t = S_IFDIR) /\ (fs = 0 -> t = S_IFCHR \/ t = S_IFBLK) /\
    (t = S_IFDIR <-> root_at fs q (below v)).
Proof.
  intros Hh Hb Hr Hlv. destruct (vfs_bootstrap_good h devices disks v0 Hh Hb) as [Hg _].
  destruct (vreach_good sys_domount v0 k E O v sys_domount_law Hg Hr) as (_ & _ & l & _ & Hi).
  pose proof (in_ok _ _ _ _ Hi) as Hok. simpl in Hok, Hlv |- *.
  destruct (live_cases (below v) q Hok Hlv) as [(n & Hn & (_ & _ & [d Hd]) & _)|(fs & w & sv & Hw & Hq)].
  - destruct (dnode_refs (below v) q n Hn) as (_ & _ & Ef). rewrite Ef, (dnode_type (below v) q n Hok Hn).
    unfold vn_device. rewrite Hd. simpl. exists 0, (dev_gettype d).2. unfold dev_gettype.
    destruct (0 <? dv_blocks d); simpl; (split; [done|]; split; [done|]; split; [done|]; split; [by auto|]).
    all: split; [done|]; intros (w & sv & Hw & _); by destruct (vols_ne0 (below v) 0 w Hok Hw).
  - pose proof (vols_ne0 (below v) fs w Hok Hw). exists fs, (ino_type (sv_ino sv)).
    rewrite (loc_fs (below v) q fs w sv Hok Hw Hq), (gettype_val (below v) fs w q sv Hok Hw Hq). unfold ino_type.
    split; [done|]. split; [done|]. split; [destruct (_ =? _); auto|]. split; [done|].
    destruct (sv_ino sv =? SFS_ROOT_LOCATION) eqn:Er; boolify; (split; [intros Ht|]); try done.
    + by exists w, sv.
    + intros (w2 & sv2 & Hw2 & Hq2 & E2). congruence.
Qed.

Lemma vnode_types_witness : exists (v : vfs (sys CountdownHeap.heap (lhd_softc Sim.card))) q fs t,
  vn_fs q (below v) = Some fs /\ vop_gettype q (below v) = Some (0, t) /\ (t = S_IFDIR <-> root_at fs q (below v)).
Proof.
  destruct (kern_state kern_calls kern_open kern_runs) as (os & v & v0 & k & E & O & [q [_ Hq]]%kern_open_live & E0 & Hr).
  destruct (vnode_types kern_heap kern_devices kern_disks v0 k E O v q kern_heap_ok E0 Hr Hq)
    as (fs & t & H1 & H2 & _ & _ & H3).
  exists v, q, fs, t. split; [exact H1|]. split; [exact H2|exact H3].
Defined.

(** ** Unmounting *)

Section unmount.
Context {H D : Type} `{!Kmalloc H, !KmallocLaws H, !Device D, !DeviceLaws D}.
Implicit Types s : sys H D.

(** A sync and then an unmount of the volume at [fs]. *)
Lemma sync_unmount s fs w I :
  sys_ok s -> s_vols s !! fs = Some w -> mnt_ok (vmnt w s) I ->
  exists s1, sys_sync fs s = Some (0, s1) /\
    ((exists q, is_Some (m_nodes (vol_mnt w) !! q)) /\ (exists s2, sys_unmount fs s1 = Some (EBUSY, s2)) \/
     m_nodes (vol_mnt w) = ∅ /\ exists s2 d fs3 I3, sys_unmount fs s1 = Some (0, s2) /\
       s_disks s2 !! vol_dev w = Some d /\ on_disk d fs3 I3 /\ disk_abs fs3 I3 = abs (vmnt w s) I).
Proof.
  intros Hok Hw Hm. unfold sys_sync, vol_at. rewrite Hw. cbn [mbind option_bind]. fold (vmnt w s).
  destruct (sfs_sync_wp _ I Hm) as (m' & -> & Hok' & _ & _ & Hvw & En & Hsy). cbn [mbind option_bind].
  eexists. split; [done|]. unfold sys_unmount, vol_at. rewrite (step_at s fs w m' Hw). cbn [mbind option_bind vol_mnt].
  rewrite (step_heap s fs w m' Hw). replace (set_mheap (m_heap m') m') with m' by by destruct m'.
  change (m_nodes (vmnt w s)) with (m_nodes (vol_mnt w)) in En.
  destruct (decide (m_nodes (vol_mnt w) = ∅)) as [Ee|Ee]; [right|left]; (split; [|]).
  - done.
  - rewrite Ee, fmap_empty in En. destruct (sfs_unmount_wp m' I Hok' En Hsy) as (h' & -> & _). cbn [mbind option_bind].
    eexists _, _, (m_fs m'), I. split; [done|]. simpl. rewrite lookup_insert_eq. split; [done|].
    split; [by apply synced_on_disk|]. destruct (view_eq _ _ _ _ Hvw) as [Eee Ef].
    unfold disk_abs, disk_names, disk_files, abs, mnames. rewrite (linked_all m' I Hok' En), Eee. f_equal; [exact Ef|].
    simpl. by rewrite Ee, fmap_empty.
  - apply map_choose in Ee as (q & sv & Hq). by exists q, sv.
  - apply map_choose in Ee as (q & sv & Hq).
    rewrite (sfs_unmount_busy m' I q Hok') by (rewrite En, lookup_fmap, Hq; eauto). cbn [mbind option_bind]. eauto.
Qed.
End unmount.

(** C15: Unmounting through the layer, in any state that the calls of [vfs_refs_balanced]
    lead to, so that no read or write of the disk fails.  [vfs_unmount] of a mounted device is refused with
    EBUSY just when some vnode of the volume is in memory; otherwise it succeeds, the
    device is free, and its disk holds the names and the contents of the files that the
    volume had when it was called. *)
Theorem vfs_unmount_exact {H D} `{!Kmalloc H, !KmallocLaws H, !Device D, !DeviceLaws D}
    (h : H) devices (disks : gmap Z D) v0 k E O v i kd w I :
  heap_ok h -> vfs_bootstrap h devices disks = Some v0 -> vreach sys_domount v0 k E O v ->
  devs v !! i = Some kd -> has_rawname kd = true -> s_vols (below v) !! kd_fs kd = Some w -> mnt_ok (vmnt w (below v)) I ->
  exists r v', vfs_unmount (kd_name kd).2 v = Some (r, v') /\
    (r = EBUSY /\ (exists q, is_Some (m_nodes (vol_mnt w) !! q)) \/
     r = 0 /\ m_nodes (vol_mnt w) = ∅ /\ exists d fs3 I3, s_disks (below v') !! kd_device kd = Some d /\
       on_disk d fs3 I3 /\ disk_abs fs3 I3 = abs (vmnt w (below v)) I).
Proof.
  intros Hh Hb Hr Hd Hrw Hw Hm. destruct (vfs_bootstrap_good h devices disks v0 Hh Hb) as [Hg _].
  destruct (vreach_good sys_domount v0 k E O v sys_domount_law Hg Hr) as ([Hl _] & Hn & l & _ & Hi).
  pose proof (inv_dlock _ _ _ _ true Hi) as Hi1. pose proof (in_table _ _ _ _ Hi1) as Ht.
  pose proof (in_ok _ _ _ _ Hi) as Hok. simpl in Hok. unfold vfs_unmount, lock_knowndevs. rewrite Hl. cbn [negb mbind option_bind].
  destruct (findmount_wp (set_dlock true v) (kd_name kd).2 Ht eq_refl) as (found & Ef & Hf).
  pose proof (findmount_found _ _ i kd Ht eq_refl Hd Hrw eq_refl) as Hne. rewrite Ef in *.
  destruct found as [[key kd']|]; [|done]. destruct (Hf key kd' eq_refl) as (j & _ & _ & Hdj & _ & Enm).
  change (devs (set_dlock true v)) with (devs v) in Hdj.
  assert (kd' = kd) as ->.
  { destruct (decide (j = i)) as [->|Hji]; [congruence|]. exfalso.
    apply (Hn j i kd' kd (kd_name kd).2 Hdj Hd Hji); [rewrite <- Enm|]; by left. }
  cbn [mbind option_bind]. pose proof (vols_ne0 (below v) _ w Hok Hw) as Hf0. rewrite (proj2 (Z.eqb_neq _ _) Hf0), Hrw.
  pose proof (to_kd _ (in_table _ _ _ _ Hi) kd (dev_elem _ _ _ Hd)) as Hko.
  rewrite (proj2 (Z.eqb_neq _ _) (ko_dev _ _ Hko (or_intror Hrw))). cbn [negb]. cbn iota.
  pose proof (ko_on _ _ Hko Hf0 Hrw) as Edev. simpl in Edev. rewrite Hw in Edev.
  unfold on_below. destruct (sync_unmount (below v) _ w I Hok Hw Hm) as (s1 & E1 & Hc).
  change (fsop_sync ?f (below ?x)) with (sys_sync f (below v)). rewrite E1. cbn [mbind option_bind negb]. simpl Z.eqb. cbn iota.
  change (fsop_unmount ?f (below ?x)) with (sys_unmount f s1).
  destruct Hc as [(Hq & s2 & E2)|(Hno & s2 & d & fs3 & I3 & E2 & Hdk & Hod & Ha)]; rewrite E2; cbn [mbind option_bind].
  - eexists _, _. split; [done|]. by left.
  - simpl Z.eqb. cbn iota. cbn [mbind option_bind negb]. eexists _, _. split; [done|]. right.
    split; [done|]. split; [done|]. exists d, fs3, I3. rewrite <- Edev. done.
Qed.

(** The volume of the disk is mounted, and nothing of it is in memory. *)
Definition kern_mounted (os : list vobs) (v : vfs (sys CountdownHeap.heap (lhd_softc Sim.card))) : Prop :=
  match devs v !! 1%nat with
  | Some kd => has_rawname kd = true /\ match s_vols (below v) !! kd_fs kd with Some w => m_nodes (vol_mnt w) = ∅ | None => False end
  | None => False
  end.

Lemma kern_mounts : match kern_added ≫= vruns [VMount lhd0_name] with Some (os, v) => kern_mounted os v | None => False end.
Proof. by vm_compute. Qed.

Lemma vfs_unmount_exact_witness : exists (v v' : vfs (sys CountdownHeap.heap (lhd_softc Sim.card))) name dev d fs3 I3,
  vfs_unmount name v = Some (0, v') /\ s_disks (below v') !! dev = Some d /\ on_disk d fs3 I3.
Proof.
  destruct (kern_state [VMount lhd0_name] kern_mounted kern_mounts) as (os & v & v0 & k & E & O & Hk & E0 & Hr).
  unfold kern_mounted in Hk. destruct (devs v !! 1%nat) as [kd|] eqn:Hd; [|contradiction]. destruct Hk as [Hrw Hk].
  destruct (s_vols (below v) !! kd_fs kd) as [w|] eqn:Hw; [|contradiction].
  assert (exists I, mnt_ok (vmnt w (below v)) I) as [I Hm].
  { destruct (vfs_bootstrap_good kern_heap kern_devices kern_disks v0 kern_heap_ok E0) as [Hg _].
    destruct (vreach_good sys_domount v0 k E O v sys_domount_law Hg Hr) as (_ & _ & l & _ & Hi).
    destruct (so_vol _ (in_ok _ _ _ _ Hi) _ w Hw) as (_ & Hex & _). exact Hex. }
  destruct (vfs_unmount_exact kern_heap kern_devices kern_disks v0 k E O v 1 kd w I kern_heap_ok E0 Hr Hd Hrw Hw Hm)
    as (r & v' & E1 & [(_ & q & Hq)|(-> & _ & d & fs3 & I3 & Hdk & Hod & _)]).
  - rewrite Hk in Hq. destruct Hq as [x Hx]. rewrite lookup_empty in Hx. discriminate Hx.
  - exists v, v', (kd_name kd).2, (kd_device kd), d, fs3, I3. split; [exact E1|]. split; [exact Hdk|exact Hod].
Defined.
