(* ===== verification/Mksfs.v ===== *)
(** * Making a volume (src/src/sbin/mksfs)

    mksfs writes an empty SFS volume to a disk: the superblock, the root directory and
    the free map.  The definitions are those of the program built for OS/161 (without
    HOST, a macro for a build on another system).

    The disk is a file that disk.c gets at with open, fstat, lseek, write and close.
    These calls are not part of the program; the class [DiskFile] has them, and
    [DiskFileLaws] says what disk.c relies on.  A call of write may transfer less than
    it was asked for, or be interrupted.

    The program ends by returning from main, or with exit in err and errx; a failed
    assertion is [None]. *)

From stdpp Require Import base option list gmap numbers.
From S2P Require Import Prelude Bitmap Cstring SfsDisk Sfs.

Definition MAXBITBLOCKS : Z := 32.
Definition DISK_BLOCKSIZE : Z := 512.
Definition EINTR : Z := 0.
Definition CHAR_BIT : Z := 8.

(** ** The disk as a file *)

(** A call returns what the C function returns; a negative number is a failure, with
    its reason in [f_errno]. *)
Class DiskFile (F : Type) := {
  f_open : list Z -> F -> Z * F;
  f_fstat : F -> Z * Z * F;                  (* also st_size *)
  f_lseek : Z -> F -> Z * F;
  f_write : list Z -> F -> Z * F;
  f_close : F -> Z * F;
  f_errno : F -> Z;
}.

(** The static variables, and the file. *)
Record mkst (F : Type) := Mkst { k_fd : Z; k_nblocks : Z; k_bitbuf : list Z; k_file : F }.
Arguments Mkst {F}.
Arguments k_fd {F}.
Arguments k_nblocks {F}.
Arguments k_bitbuf {F}.
Arguments k_file {F}.

Inductive outcome (A : Type) :=
| Done (x : A)
| Exit (code : Z).
Arguments Done {A}.
Arguments Exit {A}.

Definition prog (F A : Type) : Type := mkst F -> option (outcome A * mkst F).

#[global] Instance prog_ret F : MRet (prog F) := fun A x s => Some (Done x, s).
#[global] Instance prog_bind F : MBind (prog F) := fun A B k p s =>
  match p s with
  | Some (Done x, s) => k x s
  | Some (Exit c, s) => Some (Exit c, s)
  | None => None
  end.

Section prog.
Context {F : Type} `{!DiskFile F}.

Definition exit {A} (code : Z) : prog F A := fun s => Some (Exit code, s).
Definition abort {A} : prog F A := fun _ => None.
Definition gets {A} (g : mkst F -> A) : prog F A := fun s => Some (Done (g s), s).
Definition modify (g : mkst F -> mkst F) : prog F unit := fun s => Some (Done tt, g s).
Definition passert (b : bool) : prog F unit := if b then mret tt else abort.
Definition call {A} (g : F -> A * F) : prog F A := fun s =>
  let '(x, f) := g (k_file s) in Some (Done x, Mkst (k_fd s) (k_nblocks s) (k_bitbuf s) f).

Definition set_fd (fd : Z) (s : mkst F) : mkst F := Mkst fd (k_nblocks s) (k_bitbuf s) (k_file s).
Definition set_nblocks (n : Z) (s : mkst F) : mkst F := Mkst (k_fd s) n (k_bitbuf s) (k_file s).
Definition set_bitbuf (b : list Z) (s : mkst F) : mkst F := Mkst (k_fd s) (k_nblocks s) b (k_file s).

(** ** disk.c *)

Definition opendisk (path : list Z) : prog F unit :=
  fd ← gets k_fd;
  _ ← passert (fd <? 0);
  fd ← call (f_open path);
  _ ← modify (set_fd fd);
  if fd <? 0 then exit 1
  else
    r ← call (fun f => let '(r, size, f) := f_fstat f in ((r, size), f));
    if negb (r.1 =? 0) then exit 1
    else modify (set_nblocks (u32 (r.2 `quot` DISK_BLOCKSIZE))).

Definition diskblocksize : prog F Z :=
  fd ← gets k_fd;
  _ ← passert (0 <=? fd);
  mret DISK_BLOCKSIZE.

Definition diskblocks : prog F Z :=
  fd ← gets k_fd;
  _ ← passert (0 <=? fd);
  gets k_nblocks.

(** The loop of [diskwrite], for at most [fuel] turns. *)
Fixpoint diskwrite_loop (fuel : nat) (tot : Z) (data : list Z) : prog F unit :=
  match fuel with
  | O => abort
  | S fuel =>
      if tot <? DISK_BLOCKSIZE then
        len ← call (f_write (take (Z.to_nat (DISK_BLOCKSIZE - tot)) (drop (Z.to_nat tot) data)));
        if len <? 0 then
          errno ← gets (fun s => f_errno (k_file s));
          if (errno =? EINTR) || (errno =? EAGAIN) then diskwrite_loop fuel tot data else exit 1
        else if len =? 0 then exit 1
        else diskwrite_loop fuel (u32 (tot + len)) data
      else mret tt
  end.

Definition diskwrite (fuel : nat) (data : list Z) (block : Z) : prog F unit :=
  fd ← gets k_fd;
  _ ← passert (0 <=? fd);
  r ← call (f_lseek (s32 (u32 (block * DISK_BLOCKSIZE))));
  if r <? 0 then exit 1 else diskwrite_loop fuel 0 data.

Definition closedisk : prog F unit :=
  fd ← gets k_fd;
  _ ← passert (0 <=? fd);
  r ← call f_close;
  if negb (r =? 0) then exit 1 else modify (set_fd (-1)).

(** ** mksfs.c *)

Definition sizeof_sfs_super : Z := 4 + 4 + SFS_VOLNAME_SIZE + 118 * 4.
Definition sizeof_sfs_inode : Z := 4 + 2 + 2 + SFS_NDIRECT * 4 + 4 + (128 - 3 - SFS_NDIRECT) * 4.

Definition check : prog F unit :=
  _ ← passert (sizeof_sfs_super =? SFS_BLOCKSIZE);
  _ ← passert (sizeof_sfs_inode =? SFS_BLOCKSIZE);
  passert (SFS_BLOCKSIZE `mod` sizeof_sfs_dir =? 0).

(** The struct is cleared and then filled in. *)
Definition new_super (volname : list Z) (nblocks : Z) : sfs_super :=
  SfsSuper SFS_MAGIC nblocks
    (splice (replicate (Z.to_nat SFS_VOLNAME_SIZE) 0) 0 (volname ++ [0])) (replicate 118 0).

Definition writesuper (fuel : nat) (volname : list Z) (nblocks : Z) : prog F unit :=
  if SFS_VOLNAME_SIZE <=? Z.of_nat (length volname) then exit 1
  else diskwrite fuel (enc_super (new_super volname nblocks)) SFS_SB_LOCATION.

Definition new_root : sfs_inode :=
  SfsInode 0 SFS_TYPE_DIR 1 (replicate 15 0) 0 (replicate 110 0).

Definition writerootdir (fuel : nat) : prog F unit :=
  diskwrite fuel (enc_inode new_root) SFS_ROOT_LOCATION.

(** An access outside of [bitbuf] is [None]. *)
Definition doallocbit (bit : Z) : prog F unit :=
  let byte := Z.to_nat (bit / CHAR_BIT) in
  let mask := u8 (Z.shiftl 1 (bit `mod` CHAR_BIT)) in
  buf ← gets k_bitbuf;
  match buf !! byte with
  | None => abort
  | Some w =>
      _ ← passert (Z.land w mask =? 0);
      modify (set_bitbuf (<[byte := Z.lor w mask]> buf))
  end.

(** [doallocbit] for [n] numbers from [i] on: the bodies of two loops. *)
Fixpoint alloc_loop (n : nat) (i : Z) : prog F unit :=
  match n with
  | O => mret tt
  | S n => _ ← doallocbit i; alloc_loop n (u32 (i + 1))
  end.

Fixpoint writemap_loop (fuel n : nat) (i : Z) : prog F unit :=
  match n with
  | O => mret tt
  | S n =>
      buf ← gets k_bitbuf;
      _ ← diskwrite fuel (take 512 (drop (Z.to_nat (i * SFS_BLOCKSIZE)) buf)) (SFS_MAP_LOCATION + i);
      writemap_loop fuel n (i + 1)
  end.

Definition writebitmap (fuel : nat) (fsblocks : Z) : prog F unit :=
  let nbits := SFS_BITMAPSIZE fsblocks in
  let nblocks := SFS_BITBLOCKS fsblocks in
  if MAXBITBLOCKS <? nblocks then exit 1
  else
    _ ← doallocbit SFS_SB_LOCATION;
    _ ← doallocbit SFS_ROOT_LOCATION;
    _ ← alloc_loop (Z.to_nat nblocks) SFS_MAP_LOCATION;
    _ ← alloc_loop (Z.to_nat (nbits - fsblocks)) fsblocks;
    writemap_loop fuel (Z.to_nat nblocks) 0.

(** The checks of the name: the position of a colon, if there is one, cuts it off. *)
Definition volume_name (volname : list Z) : prog F (list Z) :=
  match strchr (volname ++ [0]) 58 with
  | None => abort
  | Some s =>
      volname ← match s with
                | Some k => if negb (Z.of_nat (length volname) - Z.of_nat k =? 1) then exit 1
                            else mret (take k volname)
                | None => mret volname
                end;
      match strchr (volname ++ [0]) 47 with
      | None => abort
      | Some (Some _) => exit 1
      | Some None => mret volname
      end
  end.

(** [main], with the program's two arguments. *)
Definition mksfs (fuel : nat) (argc : Z) (path volname : list Z) : prog F Z :=
  if negb (argc =? 3) then exit 1
  else
    _ ← check;
    volname ← volume_name volname;
    _ ← opendisk path;
    blocksize ← diskblocksize;
    if negb (blocksize =? SFS_BLOCKSIZE) then exit 1
    else
      size ← diskblocks;
      _ ← writesuper fuel volname size;
      _ ← writerootdir fuel;
      _ ← writebitmap fuel size;
      _ ← closedisk;
      mret 0.

Definition mksfs_start (f : F) : mkst F := Mkst (-1) 0 (replicate (Z.to_nat (MAXBITBLOCKS * SFS_BLOCKSIZE)) 0) f.
End prog.
