(* ===== verification/MksfsSpec.v ===== *)
(** * A volume made by mksfs can be mounted

    What the writes of mksfs leave on the disk, bit by bit of the free map, and that the
    kernel mounts it as an empty volume with the name it was given.  The program and
    the kernel agree here on the bytes of the structures, on the order of the bits in
    the map and on the size of the map. *)

From stdpp Require Import base option list gmap numbers.
From S2P Require Import Prelude Kmem Array Bitmap Cstring Uio Device Lhd SfsDisk Sfs.
From S2P Require Import SfsBlock SfsBmap SfsFile SfsDir SfsTrunc SfsVol SfsSpec.
From S2P Require Import SfsMount SfsTree SfsTable SfsVnodes SfsNames SfsOps SfsSync SfsClient.
From S2P Require Import SfsImage SfsMountSpec Mksfs.

(** ** What disk.c relies on

    [f_reliable]: no call fails from now on, but for interruptions of write; they do not
    go on for ever, and [f_delays] is a bound on them. *)
Class DiskFileLaws (F : Type) `{!DiskFile F} := {
  f_bytes : F -> list Z;
  f_pos : F -> Z;
  f_reliable : F -> Prop;
  f_delays : F -> nat;
  f_open_law path f fd f' :
    f_open path f = (fd, f') ->
    f_bytes f' = f_bytes f /\ f_delays f' = f_delays f /\ (f_reliable f -> 0 <= fd /\ f_reliable f');
  f_fstat_law f r size f' :
    f_fstat f = (r, size, f') ->
    f_bytes f' = f_bytes f /\ f_delays f' = f_delays f /\ (f_reliable f -> r = 0 /\ f_reliable f') /\
    (r = 0 -> size = Z.of_nat (length (f_bytes f)));
  f_lseek_law off f r f' :
    0 <= off <= Z.of_nat (length (f_bytes f)) -> f_lseek off f = (r, f') ->
    f_bytes f' = f_bytes f /\ f_delays f' = f_delays f /\ (f_reliable f -> 0 <= r /\ f_reliable f') /\
    (0 <= r -> f_pos f' = off);
  f_write_law bs f r f' :
    bs <> [] -> 0 <= f_pos f -> f_pos f + Z.of_nat (length bs) <= Z.of_nat (length (f_bytes f)) ->
    f_write bs f = (r, f') ->
    (f_reliable f -> f_reliable f' /\ (0 < r \/ r < 0 /\ (f_errno f' = EINTR \/ f_errno f' = EAGAIN))) /\
    (0 <= r <= Z.of_nat (length bs) /\ (f_delays f' <= f_delays f)%nat /\ f_pos f' = f_pos f + r /\
       f_bytes f' = splice (f_bytes f) (Z.to_nat (f_pos f)) (take (Z.to_nat r) bs) \/
     r < 0 /\ f_pos f' = f_pos f /\ f_bytes f' = f_bytes f /\
       (f_errno f' = EINTR \/ f_errno f' = EAGAIN -> (f_delays f' < f_delays f)%nat));
  f_close_law f r f' :
    f_close f = (r, f') -> f_bytes f' = f_bytes f /\ (f_reliable f -> r = 0);
}.

(** Equations between comparisons. *)
Ltac bool_lia :=
  apply eq_true_iff_eq; rewrite ?orb_true_iff, ?andb_true_iff, ?orb_true_iff, ?Z.ltb_lt, ?Z.leb_le, ?Z.eqb_eq; lia.

(** ** Running the program *)

Section wp.
Context {F : Type} `{!DiskFile F, !DiskFileLaws F}.
Implicit Types s : mkst F.

(** It goes on with [Q], or exits with 1, and then not if [G]. *)
Definition wpm (G : Prop) {A} (p : prog F A) s (Q : A -> mkst F -> Prop) : Prop :=
  match p s with
  | Some (Done x, s') => Q x s'
  | Some (Exit c, _) => c = 1 /\ ~ G
  | None => False
  end.

Lemma wpm_bind G {A B} (p : prog F A) (k : A -> prog F B) s Q :
  wpm G p s (fun x s' => wpm G (k x) s' Q) -> wpm G (p ≫= k) s Q.
Proof. unfold wpm, mbind, prog_bind. destruct (p s) as [[[x|c] s']|]; done. Qed.

Lemma wpm_mono G {A} (p : prog F A) s (Q Q' : A -> mkst F -> Prop) :
  wpm G p s Q -> (forall x s', Q x s' -> Q' x s') -> wpm G p s Q'.
Proof. unfold wpm. destruct (p s) as [[[x|c] s']|]; auto. Qed.

Lemma wpm_gets G {A} (g : mkst F -> A) s (Q : A -> mkst F -> Prop) : Q (g s) s -> wpm G (gets g) s Q.
Proof. done. Qed.

Lemma wpm_assert G b s (Q : unit -> mkst F -> Prop) : b = true -> Q tt s -> wpm G (passert b) s Q.
Proof. by intros ->. Qed.

Definition set_file (f : F) s : mkst F := Mkst (k_fd s) (k_nblocks s) (k_bitbuf s) f.

Lemma wpm_call G {A} (g : F -> A * F) s (Q : A -> mkst F -> Prop) :
  (forall x f, g (k_file s) = (x, f) -> Q x (set_file f s)) -> wpm G (call g) s Q.
Proof. intros HQ. unfold wpm, call. destruct (g (k_file s)) as [x f] eqn:E. by apply HQ. Qed.

(** The file of [s] after a step from [s0]: fewer interruptions are to come, and the
    calls do not fail if [G]. *)
Record goes (G : Prop) s0 (f : F) : Prop := {
  go_rel : G -> f_reliable f;
  go_delays : (f_delays f <= f_delays (k_file s0))%nat;
}.

(** Not enough turns of the loop is the one case [fuel] has to exclude. *)
Lemma diskwrite_loop_wp G (base : nat) bytes0 data fuel tot s :
  length data = 512%nat -> (base + 512 <= length bytes0)%nat -> 0 <= tot <= 512 ->
  (Z.to_nat (512 - tot) + f_delays (k_file s) < fuel)%nat ->
  (G -> f_reliable (k_file s)) -> f_pos (k_file s) = Z.of_nat base + tot ->
  f_bytes (k_file s) = splice bytes0 base (take (Z.to_nat tot) data) ->
  wpm G (diskwrite_loop fuel tot data) s (fun _ s' =>
    exists f, s' = set_file f s /\ goes G s f /\ f_bytes f = splice bytes0 base data).
Proof.
  intros Hdl Hb. revert tot s. induction fuel as [|fuel IH]; intros tot s Ht Hf Hg Hp Hby; [lia|].
  cbn [diskwrite_loop]. unfold DISK_BLOCKSIZE. destruct (tot <? 512) eqn:Et; boolify.
  2:{ assert (tot = 512) as -> by lia. exists (k_file s). split; [by destruct s|]. split; [by constructor|].
      rewrite Hby. by rewrite firstn_all2 by lia. }
  assert (length (f_bytes (k_file s)) = length bytes0) as El by (rewrite Hby; apply length_splice; len).
  set (bs := take _ _). assert (length bs = Z.to_nat (512 - tot)) as Hbl by (unfold bs; len).
  apply wpm_bind, wpm_call. intros r f E. apply f_write_law in E as [Hrel Hc].
  2:{ intros E0. rewrite E0 in Hbl. simpl in Hbl. lia. }
  2:{ lia. }
  2:{ rewrite Hp, El, Hbl. lia. }
  destruct Hc as [(Hr & Hd & Hp' & Hby')|(Hr & Hp' & Hby' & Hd)].
  - rewrite (proj2 (Z.ltb_ge r 0)) by lia. destruct (r =? 0) eqn:Er; boolify.
    { split; [done|]. intros HG. destruct (Hrel (Hg HG)) as [_ ?]. lia. }
    rewrite u32_id by (unfold is_u32; lia).
    eapply wpm_mono; [apply IH|]; simpl; try lia.
    + intros HG. by apply Hrel, Hg.
    + rewrite Hby', Hp, Hby. replace (Z.to_nat (Z.of_nat base + tot)) with (base + length (take (Z.to_nat tot) data))%nat by len.
      rewrite splice_adj_r by (subst bs; len). f_equal. unfold bs. rewrite take_take.
      replace (Z.to_nat (tot + r)) with (Z.to_nat tot + Z.to_nat r)%nat by lia.
      rewrite Nat.min_l by lia. by rewrite take_take_drop.
    + intros _ s' (f' & -> & [? Hd'] & ?). exists f'. split; [by destruct s|]. split; [|done].
      constructor; [done|]. simpl in Hd'. lia.
  - rewrite (proj2 (Z.ltb_lt r 0)) by lia. apply wpm_bind, wpm_gets. simpl.
    destruct ((f_errno f =? EINTR) || (f_errno f =? EAGAIN)) eqn:Ee.
    2:{ split; [done|]. boolify. intros HG. destruct (Hrel (Hg HG)) as [_ ?]. lia. }
    assert (f_errno f = EINTR \/ f_errno f = EAGAIN) as He by (apply orb_prop in Ee as [?|?]; boolify; auto).
    specialize (Hd He). eapply wpm_mono; [apply IH|]; simpl; try lia; try congruence.
    + intros HG. by apply Hrel, Hg.
    + intros _ s' (f' & -> & [? Hd'] & ?). exists f'. split; [by destruct s|]. split; [|done].
      constructor; [done|]. simpl in Hd'. lia.
Qed.

(** ** Blocks of the disk *)

Definition file_sector (f : F) (b : Z) : list Z := take 512 (drop (Z.to_nat b * 512) (f_bytes f)).

(** Enough turns of the loop for every interruption to come, and the calls succeed if [G]. *)
Record ready (G : Prop) (fuel : nat) (n : Z) s : Prop := {
  rd_fd : 0 <= k_fd s;
  rd_len : n * 512 <= Z.of_nat (length (f_bytes (k_file s))) < 2 ^ 31;
  rd_fuel : (512 + f_delays (k_file s) < fuel)%nat;
  rd_rel : G -> f_reliable (k_file s);
}.

(** The blocks [P] have been written, with [data]. *)
Definition wrote (G : Prop) fuel n s (P : Z -> Prop) `{!forall b, Decision (P b)} (data : Z -> list Z) s' : Prop :=
  ready G fuel n s' /\ k_nblocks s' = k_nblocks s /\ k_bitbuf s' = k_bitbuf s /\
  forall b, 0 <= b -> file_sector (k_file s') b = if decide (P b) then data b else file_sector (k_file s) b.

Lemma diskwrite_wp G fuel n s data b :
  ready G fuel n s -> length data = 512%nat -> 0 <= b < n ->
  wpm G (diskwrite fuel data b) s (fun _ s' => wrote G fuel n s (fun b' => b' = b) (fun _ => data) s').
Proof.
  intros [Hfd Hlen Hfu Hrel] Hd Hb. unfold diskwrite. apply wpm_bind, wpm_gets, wpm_bind, wpm_assert; [by apply Z.leb_le|].
  unfold DISK_BLOCKSIZE. rewrite u32_id by (unfold is_u32; lia). rewrite s32_id by (unfold is_s32; lia).
  apply wpm_bind, wpm_call. intros r f E. apply f_lseek_law in E as (Eb & Ed & Hr & Hp); [|lia].
  destruct (r <? 0) eqn:Er; boolify. { split; [done|]. intros HG. destruct (Hr (Hrel HG)). lia. }
  eapply wpm_mono; [apply (diskwrite_loop_wp G (Z.to_nat b * 512) (f_bytes f) data)|]; simpl; try lia.
  - rewrite Eb. lia.
  - intros HG. by apply Hr, Hrel.
  - symmetry. apply splice_nil.
  - intros _ s' (f' & -> & [Hr' Hd'] & Eb'). simpl in Hd'.
    assert (length (f_bytes f') = length (f_bytes (k_file s))) as El
      by (rewrite Eb', length_splice, Eb; [done|rewrite ?Eb; lia]).
    split; [|split; [done|split; [done|]]].
    + constructor; simpl; [done|by rewrite El|lia|done].
    + intros b' Hb'. unfold file_sector. simpl. rewrite Eb'. case_decide as Ec.
      * subst b'. rewrite <- Hd. apply take_drop_splice. rewrite Eb. lia.
      * rewrite take_drop_splice_ne; [by rewrite Eb|rewrite Eb; lia|lia].
Qed.

(** ** The bits of the free map *)

Definition bufmap (buf : list Z) : bitmap := {| b_self := 0; nbits := 131072; b_vptr := 0; b_v := buf |}.

(** The bits [P] have been set. *)
Definition marked s (P : Z -> bool) s' : Prop :=
  exists buf, s' = set_bitbuf buf s /\ bitmap_wf (bufmap buf) /\
    forall j, 0 <= j -> bit (bufmap buf) j = P j || bit (bufmap (k_bitbuf s)) j.

Lemma doallocbit_wp G i s :
  bitmap_wf (bufmap (k_bitbuf s)) -> 0 <= i < 131072 -> bit (bufmap (k_bitbuf s)) i = false ->
  wpm G (doallocbit i) s (fun _ s' => marked s (fun j => j =? i) s').
Proof.
  intros Hwf Hi Hf. pose proof (bitmap_mark_wp _ i Hwf Hi) as Hm. rewrite Hf in Hm.
  destruct Hm as (b' & Em & Hwf' & [= E1 E2 E3] & Hb). unfold bitmap_mark, bitmap_translate in Em.
  rewrite (proj2 (Z.ltb_lt _ _)) in Em by (simpl; lia). unfold BITS_PER_WORD in Em. simpl in Em.
  unfold doallocbit, CHAR_BIT. apply wpm_bind, wpm_gets.
  apply bind_Some in Em as (w & Ew & Em). assert (k_bitbuf s !! Z.to_nat (i / 8) = Some w) as -> by exact Ew.
  destruct (Z.land w _ =? 0) eqn:Ez; [|done]. simplify_eq/=.
  eexists. split; [done|]. split; [exact Hwf'|]. exact Hb.
Qed.

Lemma alloc_loop_wp G n i s :
  bitmap_wf (bufmap (k_bitbuf s)) -> 0 <= i -> i + Z.of_nat n <= 131072 ->
  (forall j, i <= j < i + Z.of_nat n -> bit (bufmap (k_bitbuf s)) j = false) ->
  wpm G (alloc_loop n i) s (fun _ s' => marked s (fun j => (i <=? j) && (j <? i + Z.of_nat n)) s').
Proof.
  revert i s. induction n as [|n IH]; intros i s Hwf Hi Hn Hf; cbn [alloc_loop].
  - exists (k_bitbuf s). split; [by destruct s|]. split; [done|]. intros j Hj.
    destruct ((i <=? j) && (j <? _)) eqn:E; [|done]. boolify. lia.
  - apply wpm_bind. eapply wpm_mono; [apply doallocbit_wp; [done|lia|apply Hf; lia]|].
    intros _ s1 (buf & -> & Hwf1 & Hb1). rewrite u32_id by (unfold is_u32; lia).
    eapply wpm_mono; [apply IH; simpl; [done|lia|lia|]|].
    + intros j Hj. rewrite Hb1 by lia. rewrite (proj2 (Z.eqb_neq _ _)) by lia. apply Hf. lia.
    + intros _ s2 (buf2 & -> & Hwf2 & Hb2). exists buf2. split; [done|]. split; [done|].
      intros j Hj. rewrite Hb2 by lia. simpl. rewrite Hb1 by lia. rewrite orb_assoc. f_equal.
      bool_lia.
Qed.

(** The size of [bitbuf], as an opaque number. *)
Definition bufsize : nat := Z.to_nat 16384.

Lemma bufsize_Z : Z.of_nat bufsize = 16384.
Proof. apply Z2Nat.id. lia. Qed.

Lemma mksfs_start_eq (f : F) : mksfs_start f = Mkst (-1) 0 (replicate bufsize 0) f.
Proof. unfold mksfs_start. by change (MAXBITBLOCKS * SFS_BLOCKSIZE) with 16384. Qed.
#[local] Opaque bufsize.

Definition buf_block (buf : list Z) (j : Z) : list Z := take 512 (drop (Z.to_nat (j * 512)) buf).

Lemma writemap_loop_wp G fuel n cnt i s :
  ready G fuel n s -> length (k_bitbuf s) = bufsize -> 0 <= i -> i + Z.of_nat cnt <= 32 ->
  2 + i + Z.of_nat cnt <= n ->
  wpm G (writemap_loop fuel cnt i) s (fun _ s' =>
    wrote G fuel n s (fun b => 2 + i <= b < 2 + i + Z.of_nat cnt) (fun b => buf_block (k_bitbuf s) (b - 2)) s').
Proof.
  pose proof bufsize_Z as HZ. revert i s. induction cnt as [|cnt IH]; intros i s Hr Hl Hi Hc Hn; cbn [writemap_loop].
  - split; [done|]. split; [done|]. split; [done|]. intros b Hb. by rewrite decide_False by lia.
  - apply wpm_bind, wpm_gets, wpm_bind. unfold SFS_BLOCKSIZE, SFS_MAP_LOCATION.
    eapply wpm_mono; [apply (diskwrite_wp G fuel n); [done|len|lia]|].
    intros _ s1 (Hr1 & En & Eb & Hs1). eapply wpm_mono; [apply IH; [done|by rewrite Eb|lia..]|].
    intros _ s2 (Hr2 & En2 & Eb2 & Hs2). split; [done|]. split; [congruence|]. split; [congruence|].
    clear HZ Hl. intros b Hb. rewrite Hs2, Hs1, Eb by done. repeat case_decide; try lia; try done.
    subst b. unfold buf_block. do 3 f_equal. lia.
Qed.

(** ** The whole program *)

(** The bits that are set on a new volume of [n] blocks. *)
Definition new_bit (n j : Z) : bool := (j <? 2 + SFS_BITBLOCKS n) || (n <=? j).

(** The blocks that mksfs writes. *)
Definition new_volume (n : Z) (label : list Z) (sector : Z -> list Z) : Prop :=
  sector 0 = enc_super (new_super label n) /\ sector 1 = enc_inode new_root /\
  exists buf, length buf = bufsize /\ bitmap_wf (bufmap buf) /\
    (forall j, 0 <= j < SFS_BITMAPSIZE n -> bit (bufmap buf) j = new_bit n j) /\
    forall j, 0 <= j < SFS_BITBLOCKS n -> sector (2 + j) = buf_block buf j.

Lemma new_blocks n : 3 <= n <= 131072 ->
  SFS_BITMAPSIZE n = 4096 * SFS_BITBLOCKS n /\ 0 < SFS_BITBLOCKS n <= 32 /\ 2 + SFS_BITBLOCKS n <= n <= SFS_BITMAPSIZE n.
Proof.
  intros Hn. destruct (bitmap_size n) as (E & H0 & H1); [lia..|].
  unfold SFS_BITBLOCKS, SFS_BITMAPSIZE, SFS_ROUNDUP, SFS_BLOCKBITS, SFS_BLOCKSIZE in *.
  change (512 * 8) with 4096 in *. rewrite (u32_id (n + 4096)) in * by (unfold is_u32; lia).
  rewrite (u32_id (n + 4096 - 1)) in * by (unfold is_u32; lia). rewrite u32_id in * by (unfold is_u32; zdm). zdm.
Qed.

Lemma empty_buf : bitmap_wf (bufmap (replicate bufsize 0)) /\ forall j, 0 <= j -> bit (bufmap (replicate bufsize 0)) j = false.
Proof.
  pose proof bufsize_Z as HZ. assert (forall j, 0 <= j -> bit (bufmap (replicate bufsize 0)) j = false) as Hb.
  { intros j Hj. unfold bit. simpl b_v. destruct (replicate bufsize 0 !! Z.to_nat (j / 8)) as [w|] eqn:E; [|done].
    apply lookup_replicate_Some in E as ->. apply Z.bits_0. }
  split; [|done]. unfold bitmap_wf. simpl nbits. simpl b_v. rewrite length_replicate.
  split; [lia|]. split; [change ((131072 + 7) / 8) with 16384; lia|]. split; [|lia].
  apply Forall_replicate. unfold is_byte. lia.
Qed.

Lemma writebitmap_wp G fuel n s :
  ready G fuel n s -> k_bitbuf s = replicate bufsize 0 -> 3 <= n <= 131072 ->
  wpm G (writebitmap fuel n) s (fun _ s' =>
    ready G fuel n s' /\ (forall b, 0 <= b < 2 -> file_sector (k_file s') b = file_sector (k_file s) b) /\
    exists buf, length buf = bufsize /\ bitmap_wf (bufmap buf) /\
      (forall j, 0 <= j < SFS_BITMAPSIZE n -> bit (bufmap buf) j = new_bit n j) /\
      forall j, 0 <= j < SFS_BITBLOCKS n -> file_sector (k_file s') (2 + j) = buf_block buf j).
Proof.
  intros Hr Eb Hn. destruct (new_blocks n Hn) as (Es & HB & HB2). destruct empty_buf as [Hwf0 Hb0].
  unfold writebitmap, MAXBITBLOCKS. rewrite (proj2 (Z.ltb_ge _ _)) by lia.
  apply wpm_bind. eapply wpm_mono; [apply doallocbit_wp; rewrite ?Eb; [done|by unfold SFS_SB_LOCATION|by apply Hb0]|].
  intros _ s1 (b1 & -> & Hw1 & H1). rewrite Eb in H1.
  apply wpm_bind. eapply wpm_mono; [apply doallocbit_wp; simpl; [done|by unfold SFS_ROOT_LOCATION|]|].
  { rewrite H1, Hb0 by done. done. }
  intros _ s2 (b2 & -> & Hw2 & H2). simpl in H2.
  apply wpm_bind. eapply wpm_mono; [apply alloc_loop_wp; simpl; unfold SFS_MAP_LOCATION; [done|lia..|]|].
  { intros j Hj. rewrite H2, H1, Hb0 by lia. unfold SFS_ROOT_LOCATION, SFS_SB_LOCATION.
    rewrite !(proj2 (Z.eqb_neq _ _)) by lia. done. }
  intros _ s3 (b3 & -> & Hw3 & H3). simpl in H3. unfold SFS_MAP_LOCATION in H3.
  apply wpm_bind. eapply wpm_mono; [apply alloc_loop_wp; simpl; [done|lia..|]|].
  { intros j Hj. rewrite H3, H2, H1, Hb0 by lia. unfold SFS_ROOT_LOCATION, SFS_SB_LOCATION.
    rewrite (proj2 (Z.ltb_ge _ _)), andb_false_r, !(proj2 (Z.eqb_neq _ _)) by lia. done. }
  intros _ s4 (b4 & -> & Hw4 & H4). simpl in H4.
  assert (length b4 = bufsize) as Hl.
  { destruct Hw4 as (_ & El & _). simpl nbits in El. change ((131072 + 7) / 8) with 16384 in El. pose proof bufsize_Z. simpl b_v in El. lia. }
  eapply wpm_mono; [apply (writemap_loop_wp G fuel n); [by destruct Hr; constructor|done|lia..]|].
  intros _ s5 (Hr5 & _ & _ & H5). split; [done|]. split.
  - intros b Hb. rewrite H5 by lia. by rewrite decide_False by lia.
  - exists b4. split; [done|]. split; [done|]. split.
    + intros j Hj. rewrite H4, H3, H2, H1, Hb0 by lia. unfold new_bit, SFS_ROOT_LOCATION, SFS_SB_LOCATION.
      bool_lia.
    + intros j Hj. rewrite H5 by lia. rewrite decide_True by lia. simpl. f_equal. lia.
Qed.

(** ** The name *)

Lemma strchr_none l c :
  c <> 0 -> Forall (fun x => x <> 0 /\ s8 x <> c) l -> strchr (l ++ [0]) c = Some None.
Proof.
  intros Hc. induction 1 as [|x l [Hx Hs] _ IH]; cbn [strchr app].
  - change (s8 0) with 0. by rewrite (proj2 (Z.eqb_neq 0 c)).
  - rewrite (proj2 (Z.eqb_neq x 0)), (proj2 (Z.eqb_neq _ c)) by done. by rewrite IH.
Qed.

Lemma strchr_some l x r c :
  x <> 0 -> s8 x = c -> Forall (fun x => x <> 0 /\ s8 x <> c) l -> strchr (l ++ x :: r) c = Some (Some (length l)).
Proof.
  intros Hx Hc. induction 1 as [|y l [Hy Hs] _ IH]; cbn [strchr app].
  - by rewrite (proj2 (Z.eqb_neq x 0)), (proj2 (Z.eqb_eq _ c)).
  - rewrite (proj2 (Z.eqb_neq y 0)), (proj2 (Z.eqb_neq _ c)) by done. by rewrite IH.
Qed.

(** A name for a volume: no colon, no slash, and short. *)
Definition label_ok (label : list Z) : Prop :=
  Forall (fun c => 0 < c < 256 /\ c <> 58 /\ c <> 47) label /\ (length label < 32)%nat.

Lemma volume_name_wp G label arg s (Q : list Z -> mkst F -> Prop) :
  label_ok label -> arg = label \/ arg = label ++ [58] -> Q label s -> wpm G (volume_name arg) s Q.
Proof.
  intros [Hl _] Harg HQ.
  assert (forall c, c = 58 \/ c = 47 -> Forall (fun x => x <> 0 /\ s8 x <> c) label) as Hf.
  { intros c Hc. eapply list.Forall_impl; [exact Hl|]. simpl. unfold s8. intros x Hx. zdm. }
  unfold volume_name. destruct Harg as [-> | ->].
  - rewrite strchr_none by auto. apply wpm_bind. unfold mret at 1, prog_ret at 1, wpm at 1.
    by rewrite strchr_none by auto.
  - rewrite <- app_assoc. simpl. rewrite strchr_some by auto. rewrite length_app. simpl.
    rewrite (proj2 (Z.eqb_eq _ 1)) by lia. simpl. apply wpm_bind. unfold mret at 1, prog_ret at 1, wpm at 1.
    rewrite take_app_length. by rewrite strchr_none by auto.
Qed.

(** ** main *)

Lemma opendisk_wp G fuel n f s :
  s = mksfs_start f -> (512 + f_delays f < fuel)%nat -> (G -> f_reliable f) ->
  Z.of_nat (length (f_bytes f)) < 2 ^ 31 -> n = Z.of_nat (length (f_bytes f)) / 512 ->
  forall path, wpm G (opendisk path) s (fun _ s' =>
    ready G fuel n s' /\ k_nblocks s' = n /\ k_bitbuf s' = replicate bufsize 0).
Proof.
  rewrite mksfs_start_eq. intros -> Hfu Hg Hlen -> path. unfold opendisk. apply wpm_bind, wpm_gets, wpm_bind, wpm_assert; [done|].
  apply wpm_bind, wpm_call. intros fd f1 E. apply f_open_law in E as (Eb1 & Ed1 & Hr1). simpl in *.
  apply wpm_bind. unfold wpm at 1. simpl. destruct (fd <? 0) eqn:Efd; boolify.
  { split; [done|]. intros HG. destruct (Hr1 (Hg HG)). lia. }
  apply wpm_bind, wpm_call. intros [r size] f2 E. simpl in E. destruct (f_fstat f1) as [[r' size'] f2'] eqn:E2.
  injection E as -> -> ->. apply f_fstat_law in E2 as (Eb2 & Ed2 & Hr2 & Hs2). simpl.
  destruct (r =? 0) eqn:Er; boolify; simpl.
  2:{ split; [done|]. intros HG. destruct (Hr2 (proj2 (Hr1 (Hg HG)))). done. }
  unfold wpm, modify, set_nblocks. simpl. unfold DISK_BLOCKSIZE. rewrite (Hs2 Er), Eb1.
  rewrite Z.quot_div_nonneg by lia. rewrite u32_id by (unfold is_u32; zdm). split; [|done].
  constructor; simpl; [done|rewrite Eb2, Eb1; zdm|lia|]. intros HG. by apply Hr2, Hr1, Hg.
Qed.

Lemma length_new_super label n : (length label < 32)%nat -> length (enc_super (new_super label n)) = 512%nat.
Proof.
  intros Hl. assert (length (sp_volname (new_super label n)) = 32%nat) as E.
  { unfold new_super. cbn [sp_volname]. rewrite length_splice; [done|]. rewrite length_app, length_replicate.
    change (Z.to_nat SFS_VOLNAME_SIZE) with 32%nat. simpl. lia. }
  unfold enc_super. rewrite !length_app, E. done.
Qed.

Lemma mksfs_wp G fuel n f path label arg :
  label_ok label -> arg = label \/ arg = label ++ [58] -> 3 <= n <= 131072 ->
  n = Z.of_nat (length (f_bytes f)) / 512 -> (512 + f_delays f < fuel)%nat -> (G -> f_reliable f) ->
  wpm G (mksfs fuel 3 path arg) (mksfs_start f) (fun r s' => r = 0 /\ new_volume n label (file_sector (k_file s'))).
Proof.
  intros Hlab Harg Hn En Hfu Hg. unfold mksfs. simpl negb. cbn iota. apply wpm_bind.
  unfold wpm at 1. simpl. apply wpm_bind. apply (volume_name_wp G label); [done|done|].
  apply wpm_bind. eapply wpm_mono; [apply (opendisk_wp G fuel n f); [done|done|done|zdm|done]|].
  intros _ s1 (Hr1 & En1 & Eb1). pose proof (rd_fd _ _ _ _ Hr1) as Hfd.
  apply wpm_bind. unfold diskblocksize. apply wpm_bind, wpm_gets, wpm_bind, wpm_assert; [by apply Z.leb_le|].
  unfold mret at 1, prog_ret at 1, wpm at 1. simpl negb. cbn iota.
  apply wpm_bind. unfold diskblocks. apply wpm_bind, wpm_gets, wpm_bind, wpm_assert; [by apply Z.leb_le|].
  apply wpm_gets. rewrite En1. apply wpm_bind. unfold writesuper, SFS_VOLNAME_SIZE.
  destruct Hlab as [_ Hl32]. rewrite (proj2 (Z.leb_gt _ _)) by lia.
  eapply wpm_mono; [apply (diskwrite_wp G fuel n); [done|by apply length_new_super|unfold SFS_SB_LOCATION; lia]|].
  intros _ s2 (Hr2 & _ & Eb2 & H2). apply wpm_bind. unfold writerootdir.
  eapply wpm_mono; [apply (diskwrite_wp G fuel n); [done|done|unfold SFS_ROOT_LOCATION; lia]|].
  intros _ s3 (Hr3 & _ & Eb3 & H3). apply wpm_bind.
  eapply wpm_mono; [apply (writebitmap_wp G fuel n); [done|congruence|done]|].
  intros _ s4 (Hr4 & H4 & buf & Hbuf). apply wpm_bind. unfold closedisk.
  apply wpm_bind, wpm_gets, wpm_bind, wpm_assert; [apply Z.leb_le, Hr4|].
  apply wpm_bind, wpm_call. intros r f5 E. apply f_close_law in E as [Eb5 Hr5]. destruct (r =? 0) eqn:Er; boolify; simpl.
  2:{ split; [done|]. intros HG. by apply Er, Hr5, Hr4. }
  split; [done|]. unfold file_sector in *. simpl. rewrite Eb5. split; [|split; [|by exists buf]].
  - rewrite H4, H3, H2 by done. done.
  - rewrite H4, H3 by done. done.
Qed.
End wp.

(** ** Mounting it *)

Section mount.
Context {D : Type} `{!Device D, !DeviceLaws D}.

Definition new_inodes : gmap Z sfs_inode := {[ SFS_ROOT_LOCATION := new_root ]}.

Definition new_fs (d : D) (n : Z) (label buf : list Z) : sfs_fs D :=
  {| fs_super := new_super label n; fs_superdirty := false; fs_device := d;
     fs_freemap := {| b_self := 0; nbits := SFS_BITMAPSIZE n; b_vptr := 0;
                      b_v := take (Z.to_nat (SFS_BITBLOCKS n * 512)) buf |};
     fs_freemapdirty := false |}.

Lemma new_super_ok label n : label_ok label -> is_u32 n -> super_ok (new_super label n).
Proof.
  intros [Hl Hn] ?. split; [done|]. split; [done|]. split; [|split; [done|by apply Forall_replicate]].
  unfold new_super. cbn [sp_volname]. change (Z.to_nat SFS_VOLNAME_SIZE) with 32%nat. split.
  - apply length_splice. rewrite length_app. simpl. lia.
  - unfold splice. rewrite !list.Forall_app. split; [done|]. split; [|by apply Forall_drop, Forall_replicate].
    split; [|by repeat constructor]. eapply list.Forall_impl; [exact Hl|]. simpl. unfold is_byte. lia.
Qed.

(** The name ends in the field for it. *)
Lemma new_super_name label n : label_ok label ->
  end_volname (new_super label n) = new_super label n /\ cstr (sp_volname (new_super label n)) = label.
Proof.
  intros [Hl Hn]. unfold end_volname, new_super. cbn [sp_magic sp_nblocks sp_volname sp_reserved].
  change (Z.to_nat SFS_VOLNAME_SIZE) with 32%nat. unfold splice. rewrite take_0. cbn [app].
  rewrite drop_replicate, length_app. split.
  - f_equal. apply list_insert_id. rewrite <- app_assoc. rewrite lookup_app_r by lia. simpl.
    change (0 :: replicate ?k 0) with (replicate (S k) 0). apply lookup_replicate_2. lia.
  - rewrite <- app_assoc. simpl. apply cstr_str. eapply list.Forall_impl; [exact Hl|]. simpl. unfold is_byte. lia.
Qed.

Section vol.
Context (d : D) (n : Z) (label buf : list Z).
Context (Hd : dev_ok d) (Hdn : n <= d_blocks d) (Hn : 3 <= n <= 131072) (Hlab : label_ok label).
Context (Hl : length buf = bufsize) (Hwf : bitmap_wf (bufmap buf)).
Context (Hb : forall j, 0 <= j < SFS_BITMAPSIZE n -> bit (bufmap buf) j = new_bit n j).
Context (H0 : dev_data d 0 = enc_super (new_super label n)) (H1 : dev_data d 1 = enc_inode new_root).
Context (H2 : forall j, 0 <= j < SFS_BITBLOCKS n -> dev_data d (2 + j) = buf_block buf j).
Let fs := new_fs d n label buf.

Lemma new_used j : 0 <= j < SFS_BITMAPSIZE n -> used fs j = new_bit n j.
Proof.
  intros Hj. destruct (new_blocks n Hn) as (Es & HB & _). rewrite <- Hb by done. unfold used, bit. simpl.
  rewrite lookup_take_lt; [done|]. zdm.
Qed.

Lemma new_map_wf : bitmap_wf (fs_freemap fs).
Proof.
  destruct (new_blocks n Hn) as (Es & HB & _). pose proof bufsize_Z as HZ. destruct Hwf as (_ & _ & Hby & _).
  unfold bitmap_wf. simpl. rewrite length_take, Hl, Es. split; [lia|]. split; [zdm|].
  split; [by apply Forall_take|]. zdm.
Qed.

Lemma new_fs_ok : fs_ok fs.
Proof.
  destruct (new_blocks n Hn) as (Es & HB & Hsz). pose proof (new_super_ok label n Hlab) as Hs.
  split; [done|]. split; [apply Hs; unfold is_u32; lia|]. unfold nblocks. simpl. split; [lia|].
  split; [apply new_map_wf|]. split; [lia|]. split.
  - intros b Hbb. rewrite new_used by lia. unfold new_bit. rewrite (proj2 (Z.leb_le _ _)) by lia. apply orb_true_r.
  - rewrite new_used by lia. unfold new_bit. by rewrite (proj2 (Z.ltb_lt _ _)) by lia.
Qed.

Lemma new_head : head_wf fs.
Proof.
  destruct (new_blocks n Hn) as (Es & HB & Hsz). destruct (new_super_name label n Hlab) as [Ev _].
  constructor; [done|done|done|..].
  - intros _ j Hj. unfold nblocks in Hj. simpl in Hj. unfold blk. simpl. rewrite H2 by lia.
    unfold map_block, buf_block. simpl. apply list_eq. intros k. rewrite !lookup_take_drop. case_decide; [|done].
    rewrite lookup_take_lt by lia. f_equal. lia.
  - intros _. change (blk fs SFS_SB_LOCATION) with (dev_data d 0). rewrite H0, dec_enc_super; [by rewrite Ev|].
    apply new_super_ok; [done|]. unfold is_u32. lia.
Qed.

Lemma new_inode ino i : new_inodes !! ino = Some i -> ino = 1 /\ i = new_root.
Proof. unfold new_inodes. intros [E1 E2]%lookup_singleton_Some. by subst. Qed.

Lemma new_root_blocks : file_blocks fs new_root = [].
Proof. done. Qed.

Lemma new_root_wf : file_wf fs new_root.
Proof.
  split; [|rewrite new_root_blocks; split; [constructor|by intros b ?%not_elem_of_nil]].
  split; [done|]. split; [done|]. split; [done|]. split; [|split; [done|]].
  all: split; [done|]. all: apply Forall_replicate; done.
Qed.

Lemma new_vol : vol_wf fs new_inodes.
Proof.
  destruct (new_blocks n Hn) as (Es & HB & Hsz).
  assert (forall b, reserved fs b -> 0 <= b < 2 + SFS_BITBLOCKS n /\ b <> 1) as Hres.
  { unfold reserved, SFS_SB_LOCATION, SFS_MAP_LOCATION, nblocks. simpl. lia. }
  constructor; [apply new_fs_ok|..].
  - intros b Hm. assert (0 <= b < 2 + SFS_BITBLOCKS n) as Hbb.
    { destruct Hm as [?%Hres|[i [-> _]%new_inode]]; lia. }
    unfold nblocks. simpl. split; [lia|]. rewrite new_used by lia. unfold new_bit. by rewrite (proj2 (Z.ltb_lt _ _)) by lia.
  - intros ino [i [-> _]%new_inode] []%Hres. done.
  - intros ino i [_ ->]%new_inode. split; [apply new_root_wf|done].
  - intros ino i b [_ ->]%new_inode. rewrite new_root_blocks. by intros ?%not_elem_of_nil.
  - intros ino1 i1 ino2 i2 [-> _]%new_inode [-> _]%new_inode. done.
Qed.

Lemma new_entries : entries fs new_inodes = [].
Proof. unfold entries, new_inodes. by rewrite lookup_singleton_eq. Qed.

Lemma new_on_disk : on_disk d fs new_inodes.
Proof.
  constructor; [done| |done|done|].
  - constructor; [apply new_vol|apply new_head|..]; rewrite ?new_entries.
    + exists new_root. split; [apply lookup_singleton_eq|]. split; [|done].
      constructor; [apply new_root_wf|done|done|]. intros k Hk. by apply Nat.nlt_0_r in Hk.
    + by intros name j k d' e Hj.
    + by intros ino i [-> _]%new_inode.
    + by intros e ?%not_elem_of_nil.
    + by intros ino i [-> _]%new_inode.
  - intros ino i [-> ->]%new_inode. exact H1.
Qed.
End vol.

(** The map in memory is the one on the disk. *)
Lemma map_read (fs1 fs2 : sfs_fs D) b :
  head_wf fs1 -> head_wf fs2 -> fs_freemapdirty fs1 = false -> fs_freemapdirty fs2 = false ->
  nblocks fs2 = nblocks fs1 -> 0 < nblocks fs1 < 2 ^ 31 -> (forall b, blk fs2 b = blk fs1 b) ->
  0 <= b < SFS_BITMAPSIZE (nblocks fs1) -> used fs2 b = used fs1 b.
Proof.
  intros Hh1 Hh2 Hf1 Hf2 En Hn Hblk Hb. destruct (bitmap_size (nblocks fs1)) as (Es & HB & _); [lia..|].
  set (k := Z.to_nat (b / 8)). set (j := (k / 512)%nat).
  assert (Z.of_nat j < SFS_BITBLOCKS (nblocks fs1)) as Hj by (unfold j, k; rewrite Nat2Z.inj_div, Z2Nat.id by zdm; simpl; zdm).
  pose proof (hw_map _ Hh1 Hf1 j Hj) as E1. rewrite <- En in Hj. pose proof (hw_map _ Hh2 Hf2 j Hj) as E2.
  rewrite Hblk, E1 in E2. unfold used, bit. fold k.
  apply (f_equal (fun l => l !! (k mod 512)%nat)) in E2. unfold map_block in E2. rewrite !lookup_take_drop in E2.
  pose proof (Nat.mod_upper_bound k 512). rewrite !decide_True in E2 by lia.
  pose proof (Nat.div_mod k 512 ltac:(done)). replace (j * 512 + k mod 512)%nat with k in E2 by (unfold j; lia).
  by rewrite E2.
Qed.

Context {H : Type} `{!Kmalloc H, !KmallocLaws H}.

Lemma new_mounts (d : D) n label (h : H) :
  dev_ok d -> n <= d_blocks d -> 3 <= n <= 131072 -> label_ok label -> new_volume n label (dev_data d) -> heap_ok h ->
  exists r om d' h', sfs_domount d h = Some (r, om, d', h') /\
    match om with
    | Some m => r = 0 /\ cstr (sfs_getvolname m) = label /\ (exists I, mnt_ok m I /\ abs m I = Absfs ∅ ∅ ∅) /\
        forall b, 0 <= b < n -> used (m_fs m) b = false <-> 2 + SFS_BITBLOCKS n <= b
    | None => r = ENOMEM \/ r = EIO /\ ~ dev_reliable d
    end.
Proof.
  intros Hd Hdn Hn Hlab (H0 & H1 & buf & Hl & Hwf & Hb & H2) Hh.
  pose proof (new_on_disk d n label buf Hd Hdn Hn Hlab Hl Hwf Hb H0 H1 H2) as Hod.
  destruct (sfs_domount_wp d _ _ h Hod Hh) as (r & om & d' & h' & E & Hs & Hp). exists r, om, d', h'.
  split; [done|]. destruct om as [m|]; [|by destruct Hp].
  destruct Hp as (-> & _ & Ed & Enod & Hm & [Hmd Hsd _] & _ & Eent & Efil). split; [done|].
  destruct Hs as (_ & _ & _ & Hdat). pose proof Hm as [Ht _].
  assert (forall b, blk (m_fs m) b = blk (new_fs d n label buf) b) as Hblk by (intros b; unfold blk; rewrite Ed; apply Hdat).
  destruct (new_super_name label n Hlab) as [Ev Ec]. pose proof (new_blocks n Hn) as (Es & HB & Hsz).
  assert (fs_super (m_fs m) = new_super label n) as Esup.
  { rewrite (hw_super _ (tw_head _ _ Ht) Hsd), Hblk. change (blk (new_fs _ _ _ _) _) with (dev_data d 0).
    rewrite H0, dec_enc_super; [done|]. apply new_super_ok; [done|]. unfold is_u32. lia. }
  split; [by unfold sfs_getvolname; rewrite Esup|]. split.
  - exists (linked new_inodes). split; [done|]. unfold abs, mnames, mfiles. rewrite Eent, Efil, Enod, new_entries.
    by rewrite fmap_empty.
  - intros b Hbb. rewrite (map_read (new_fs d n label buf) (m_fs m) b); try done.
    + rewrite (new_used d n label buf Hn Hl Hb) by lia. unfold new_bit. rewrite orb_false_iff, Z.ltb_ge, Z.leb_gt. lia.
    + apply (tw_head _ _ (od_tree _ _ _ Hod)).
    + apply Ht.
    + unfold nblocks. by rewrite Esup.
    + unfold nblocks. simpl. lia.
    + unfold nblocks. simpl. lia.
Qed.
End mount.

(** C17: A volume made by mksfs can be mounted.  For every disk of 3 to 131072 blocks and
    every legal name, with or without its colon, mksfs returns 0 unless a call on the
    disk fails, however the writes are cut up and interrupted; and the kernel mounts a
    disk with those blocks as an empty volume of that name, in which just the blocks
    after the free map are free.  The mount fails only for lack of memory or if the disk
    cannot be read. *)
Theorem mksfs_mounts {F D H} `{!DiskFile F, !DiskFileLaws F, !Device D, !DeviceLaws D, !Kmalloc H, !KmallocLaws H}
    (fuel : nat) (f : F) (path label arg : list Z) (n : Z) :
  label_ok label -> arg = label \/ arg = label ++ [58] ->
  n = Z.of_nat (length (f_bytes f)) / 512 -> 3 <= n <= 131072 -> (512 + f_delays f < fuel)%nat ->
  exists out s, mksfs fuel 3 path arg (mksfs_start f) = Some (out, s) /\
    (out = Exit 1 /\ ~ f_reliable f \/
     out = Done 0 /\ forall (d : D) (h : H), dev_ok d -> n <= d_blocks d -> heap_ok h ->
       (forall b, 0 <= b < n -> dev_data d b = file_sector (k_file s) b) ->
       exists r om d' h', sfs_domount d h = Some (r, om, d', h') /\
         match om with
         | Some m => r = 0 /\ cstr (sfs_getvolname m) = label /\
             (exists I, mnt_ok m I /\ abs m I = Absfs ∅ ∅ ∅) /\
             forall b, 0 <= b < n -> used (m_fs m) b = false <-> 2 + SFS_BITBLOCKS n <= b
         | None => r = ENOMEM \/ r = EIO /\ ~ dev_reliable d
         end).
Proof.
  intros Hlab Harg En Hn Hfu. pose proof (mksfs_wp (f_reliable f) fuel n f path label arg Hlab Harg Hn En Hfu id) as Hw.
  unfold wpm in Hw. destruct (mksfs fuel 3 path arg (mksfs_start f)) as [[[r|c] s]|]; [| |done].
  - destruct Hw as [-> (H0 & H1 & buf & Hbuf & Hwf & Hb & H2)]. exists (Done 0), s. split; [done|]. right.
    split; [done|]. intros d h Hd Hdn Hh Heq. pose proof (new_blocks n Hn) as (_ & HB & Hsz).
    apply new_mounts; [done..| |done]. split; [by rewrite Heq by lia|]. split; [by rewrite Heq by lia|].
    exists buf. split; [done|]. split; [done|]. split; [done|]. intros j Hj. rewrite Heq by lia. by apply H2.
  - destruct Hw as [-> Hr]. exists (Exit 1), s. split; [done|]. by left.
Qed.

(** ** A file to run it on

    Each call of write takes an answer from a list: a negative one is an interruption,
    another one the most it transfers. *)
Module MemFile.
Record file := File { bytes : list Z; pos : Z; answers : list Z }.

Definition write (bs : list Z) (f : file) : Z * file :=
  let put k := (Z.of_nat k, File (splice (bytes f) (Z.to_nat (pos f)) (take k bs)) (pos f + Z.of_nat k) (tail (answers f))) in
  match answers f with
  | [] => put (length bs)
  | a :: rest => if a <? 0 then (-1, File (bytes f) (pos f) rest) else put (Nat.min (S (Z.to_nat a)) (length bs))
  end.

#[global] Instance mem_file : DiskFile file := {
  f_open _ f := (3, f);
  f_fstat f := (0, Z.of_nat (length (bytes f)), f);
  f_lseek off f := (off, File (bytes f) off (answers f));
  f_write := write;
  f_close f := (0, f);
  f_errno _ := EINTR;
}.

#[global] Program Instance mem_laws : DiskFileLaws file := {
  f_bytes := bytes;
  f_pos := pos;
  f_reliable _ := True;
  f_delays f := length (answers f);
}.
Next Obligation. by intros path f fd f' [= <- <-]. Qed.
Next Obligation. by intros f r size f' [= <- <- <-]. Qed.
Next Obligation. intros off f r f' Hoff [= <- <-]. split; [done|]. split; [done|]. split; [split; [lia|done]|done]. Qed.
Next Obligation.
  intros bs f r f' Hne Hp Hl. simpl. unfold write. assert (0 < length bs)%nat by (destruct bs; [done|simpl; lia]).
  destruct (answers f) as [|a rest]; [|destruct (a <? 0)].
  - intros [= <- <-]. simpl. split; [split; [done|lia]|]. left. rewrite Nat2Z.id. split; [lia|]. done.
  - intros [= <- <-]. simpl. split; [split; [done|right; split; [done|by left]]|]. right. repeat split; lia.
  - assert (0 < Nat.min (S (Z.to_nat a)) (length bs) <= length bs)%nat as Hk by lia. revert Hk.
    generalize (Nat.min (S (Z.to_nat a)) (length bs)). intros k Hk [= <- <-]. simpl.
    split; [split; [done|lia]|]. left. rewrite Nat2Z.id. split; [lia|]. split; [lia|]. done.
Qed.
Next Obligation. by intros f r f' [= <- <-]. Qed.
End MemFile.

(** A disk of 8 blocks; the first write is interrupted, the second one short. *)
Definition demo_file : MemFile.file := MemFile.File (replicate (Z.to_nat 4096) 0) 0 [-1; 100].
Definition demo_name : list Z := [118; 111; 108].

Definition demo_disk (f : MemFile.file) : lhd_softc Sim.card :=
  Lhd (Sim.Card 8 (list_to_map ((fun b => (b, file_sector f b)) <$> seqZ 0 8)) [] []) 0 0 (replicate 512 0) 0 1 0 8.

Definition demo_ok (f : MemFile.file) : bool :=
  forallb (fun b => bool_decide (dev_data (demo_disk f) b = file_sector f b)) (seqZ 0 8) &&
  bool_decide (map_Forall (fun _ bs => bytes_of 512 bs) (Sim.sectors (lh_card (demo_disk f)))).

Lemma demo_disk_ok f : demo_ok f = true -> dev_ok (demo_disk f) /\
  forall b, 0 <= b < 8 -> dev_data (demo_disk f) b = file_sector f b.
Proof.
  unfold demo_ok. intros [Hd Hs]%andb_prop. apply bool_decide_eq_true in Hs. split.
  - split; [|done]. split; [|done]. split; [by vm_compute|]. exact Hs.
  - intros b Hb. rewrite forallb_forall in Hd. specialize (Hd b).
    rewrite <- list_elem_of_In, elem_of_seqZ in Hd. by apply bool_decide_eq_true in Hd.
Qed.

Lemma demo_runs :
  match mksfs 600 3 [] (demo_name ++ [58]) (mksfs_start demo_file) with
  | Some (Done _, s) => demo_ok (k_file s) &&
      match sfs_domount (demo_disk (k_file s)) img_heap with Some (_, Some _, _, _) => true | _ => false end
  | _ => false
  end = true.
Proof. by vm_compute. Qed.

Lemma mksfs_mounts_witness :
  exists s, mksfs 600 3 [] (demo_name ++ [58]) (mksfs_start demo_file) = Some (Done 0, s) /\
    exists m d h, sfs_domount (demo_disk (k_file s)) img_heap = Some (0, Some m, d, h) /\
      cstr (sfs_getvolname m) = demo_name.
Proof.
  destruct (mksfs_mounts (D := lhd_softc Sim.card) (H := CountdownHeap.heap) 600 demo_file [] demo_name (demo_name ++ [58]) 8)
    as (out & s & E & Hc).
  - split; [|simpl; lia]. repeat constructor; lia.
  - by right.
  - by vm_compute.
  - lia.
  - apply Nat.ltb_lt. by vm_compute.
  - pose proof demo_runs as Hr. rewrite E in Hr. destruct Hc as [[-> Hc]|[-> Hc]]; [discriminate Hr|].
    exists s. split; [exact E|]. apply andb_prop in Hr as [Hr Hmt]. destruct (demo_disk_ok (k_file s) Hr) as [Hok Heq].
    destruct (Hc (demo_disk (k_file s)) img_heap Hok ltac:(done) img_heap_ok Heq) as (r & om & d' & h' & Em & Hm).
    rewrite Em in Hmt. destruct om as [m|]; [|discriminate Hmt]. destruct Hm as (-> & Hv & _).
    exists m, d', h'. split; [exact Em|exact Hv].
Defined.
