(* ===== verification/Printf.v ===== *)
(** * printf (src/src/lib/libc/__printf.c and snprintf.c, shared with the kernel)

    [__vprintf] sends each character of the format to a state machine, the struct [PF];
    what is printed goes to a function with its own data.  [snprintf] is [__vprintf] with
    a function that fills a buffer.

    Characters are their codes, strings their bytes before the terminating zero.  An
    argument is a word or a string (a null pointer is [None]); an argument that is
    missing or of the other kind has no meaning in C, and is [None] like a failed
    assertion.  An int and a long have 32 bits. *)

From stdpp Require Import base option list numbers.
From S2P Require Import Prelude Cstring.

Inductive arg :=
| Word (w : Z)
| Str (s : option (list Z)).

Inductive intsize := INTSZ | LONGSZ.

Record PF (C : Type) := Pf {
  clientdata : C;
  ap : list arg;
  charcount : Z;
  in_pct : bool;
  size : intsize;
  num : Z;
  sign : Z;
  spacing : Z;
  rightspc : bool;
  fillchar : Z;
  base : Z;
  baseprefix : bool;
  altformat : bool;
}.
Arguments Pf {C}.
Arguments clientdata {C}.
Arguments ap {C}.
Arguments charcount {C}.
Arguments in_pct {C}.
Arguments size {C}.
Arguments num {C}.
Arguments sign {C}.
Arguments spacing {C}.
Arguments rightspc {C}.
Arguments fillchar {C}.
Arguments base {C}.
Arguments baseprefix {C}.
Arguments altformat {C}.

Definition NUMBER_BUF_SIZE : Z := 4 * 8 / 3 + 2.

(** The digits, the prefixes, and the two strings of characters [__pf_send] looks for. *)
Definition numdigits : list Z := [48; 49; 50; 51; 52; 53; 54; 55; 56; 57; 97; 98; 99; 100; 101; 102].
Definition modifiers : list Z := [35; 45; 113; 108; 48; 49; 50; 51; 52; 53; 54; 55; 56; 57].
Definition int_types : list Z := [100; 111; 117; 112; 120].
Definition null_string : list Z := [40; 110; 117; 108; 108; 41].

(** [strchr(s, ch)], as a condition. *)
Definition in_string (s : list Z) (ch : Z) : bool :=
  match strchr (s ++ [0]) (s8 ch) with Some (Some _) => true | _ => false end.

Section printf.
Context {C : Type} (sendfunc : list Z -> C -> C).
Implicit Types pf : PF C.

Definition set_sent (c : C) (n : Z) pf : PF C :=
  Pf c (ap pf) n (in_pct pf) (size pf) (num pf) (sign pf) (spacing pf) (rightspc pf) (fillchar pf) (base pf)
    (baseprefix pf) (altformat pf).
Definition set_ap (l : list arg) pf : PF C :=
  Pf (clientdata pf) l (charcount pf) (in_pct pf) (size pf) (num pf) (sign pf) (spacing pf) (rightspc pf)
    (fillchar pf) (base pf) (baseprefix pf) (altformat pf).
Definition set_in_pct pf : PF C :=
  Pf (clientdata pf) (ap pf) (charcount pf) true (size pf) (num pf) (sign pf) (spacing pf) (rightspc pf)
    (fillchar pf) (base pf) (baseprefix pf) (altformat pf).
Definition set_size (z : intsize) pf : PF C :=
  Pf (clientdata pf) (ap pf) (charcount pf) (in_pct pf) z (num pf) (sign pf) (spacing pf) (rightspc pf)
    (fillchar pf) (base pf) (baseprefix pf) (altformat pf).
Definition set_num (sg n : Z) pf : PF C :=
  Pf (clientdata pf) (ap pf) (charcount pf) (in_pct pf) (size pf) n sg (spacing pf) (rightspc pf)
    (fillchar pf) (base pf) (baseprefix pf) (altformat pf).
Definition set_spacing (n : Z) pf : PF C :=
  Pf (clientdata pf) (ap pf) (charcount pf) (in_pct pf) (size pf) (num pf) (sign pf) n (rightspc pf)
    (fillchar pf) (base pf) (baseprefix pf) (altformat pf).
Definition set_rightspc pf : PF C :=
  Pf (clientdata pf) (ap pf) (charcount pf) (in_pct pf) (size pf) (num pf) (sign pf) (spacing pf) true
    (fillchar pf) (base pf) (baseprefix pf) (altformat pf).
Definition set_fillchar (c : Z) pf : PF C :=
  Pf (clientdata pf) (ap pf) (charcount pf) (in_pct pf) (size pf) (num pf) (sign pf) (spacing pf) (rightspc pf)
    c (base pf) (baseprefix pf) (altformat pf).
Definition set_base (b : Z) (prefix : bool) pf : PF C :=
  Pf (clientdata pf) (ap pf) (charcount pf) (in_pct pf) (size pf) (num pf) (sign pf) (spacing pf) (rightspc pf)
    (fillchar pf) b prefix (altformat pf).
Definition set_altformat pf : PF C :=
  Pf (clientdata pf) (ap pf) (charcount pf) (in_pct pf) (size pf) (num pf) (sign pf) (spacing pf) (rightspc pf)
    (fillchar pf) (base pf) (baseprefix pf) true.

Definition __pf_print (txt : list Z) pf : PF C :=
  set_sent (sendfunc txt (clientdata pf)) (s32 (charcount pf + Z.of_nat (length txt))) pf.

Definition __pf_endfield pf : PF C :=
  Pf (clientdata pf) (ap pf) (charcount pf) false INTSZ 0 0 0 false 32 0 false false.

Definition __pf_modifier (ch : Z) pf : option (PF C) :=
  if ch =? 35 then Some (set_altformat pf)
  else if ch =? 45 then Some (set_rightspc pf)
  else if ch =? 108 then Some (match size pf with LONGSZ => pf | INTSZ => set_size LONGSZ pf end)
  else if ch =? 113 then Some (set_size LONGSZ pf)
  else if ch =? 48 then
    if 0 <? spacing pf then Some (set_spacing (s32 (spacing pf * 10)) pf) else Some (set_fillchar 48 pf)
  else
    ASSERT (48 <? ch) && (ch <=? 57) ;;
    Some (set_spacing (s32 (spacing pf * 10 + (ch - 48))) pf).

(** [va_arg], for a word. *)
Definition va_word pf : option (Z * PF C) :=
  match ap pf with Word w :: l => Some (w, set_ap l pf) | _ => None end.

(** The cases of the size are alike, as int and long are. *)
Definition __pf_getnum (ch : Z) pf : option (PF C) :=
  '(w, pf) ← va_word pf;
  if ch =? 112 then Some (set_num (sign pf) (u32 w) pf)
  else if ch =? 100 then
    let signednum := s32 w in
    if signednum <? 0 then Some (set_num (-1) (u32 (- signednum)) pf)
    else Some (set_num (sign pf) signednum pf)
  else Some (set_num (sign pf) (u32 w) pf).

Definition __pf_setbase (ch : Z) pf : PF C :=
  let b := if (ch =? 100) || (ch =? 117) then 10
           else if (ch =? 120) || (ch =? 112) then 16
           else if ch =? 111 then 8
           else base pf in
  set_base b (if altformat pf || (ch =? 112) then true else baseprefix pf) pf.

Fixpoint fill_loop (n : nat) (f : Z) pf : PF C :=
  match n with O => pf | S n => fill_loop n f (__pf_print [f] pf) end.

Definition __pf_fill (spc : Z) pf : PF C := fill_loop (Z.to_nat spc) (u8 (fillchar pf)) pf.

Definition __pf_printstuff (prefix prefix2 stuff : list Z) pf : PF C :=
  let len := s32 (Z.of_nat (length prefix) + Z.of_nat (length prefix2) + Z.of_nat (length stuff)) in
  let spc := if len <? spacing pf then spacing pf - len else 0 in
  let pf := if (0 <? spc) && negb (rightspc pf) && negb (fillchar pf =? 48) then __pf_fill spc pf else pf in
  let pf := __pf_print prefix pf in
  let pf := __pf_print prefix2 pf in
  let pf := if (0 <? spc) && negb (rightspc pf) && (fillchar pf =? 48) then __pf_fill spc pf else pf in
  let pf := __pf_print stuff pf in
  if (0 <? spc) && rightspc pf then __pf_fill spc pf else pf.

(** The loop of [__pf_printnum]: the buffer and [x].  A turn without a slot in the
    buffer is [None]. *)
Fixpoint printnum_loop (fuel : nat) (b xnum x : Z) (buf : list Z) : option (list Z * Z) :=
  match fuel with
  | O => None
  | S fuel =>
      d ← numdigits !! Z.to_nat (xnum `mod` b);
      ASSERT (0 <=? x) && (x <? Z.of_nat (length buf)) ;;
      let buf := <[Z.to_nat x := d]> buf in
      let x := x - 1 in
      let xnum := xnum / b in
      if 0 <? xnum then printnum_loop fuel b xnum x buf else Some (buf, x)
  end.

Definition __pf_printnum pf : option (PF C) :=
  let buf := replicate (Z.to_nat NUMBER_BUF_SIZE) 0 in
  let x := NUMBER_BUF_SIZE - 1 in
  let buf := <[Z.to_nat x := 0]> buf in
  '(buf, x) ← printnum_loop (Z.to_nat NUMBER_BUF_SIZE) (base pf) (num pf) (x - 1) buf;
  let s := drop (Z.to_nat (x + 1)) buf in
  n ← strlen s;
  let bprefix := if baseprefix pf && (base pf =? 16) then [48; 120]
                 else if baseprefix pf && (base pf =? 8) then [48] else [] in
  let sprefix := if negb (sign pf =? 0) then [45] else [] in
  Some (__pf_printstuff sprefix bprefix (take (Z.to_nat n) s) pf).

Definition __pf_send (ch : Z) pf : option (PF C) :=
  ASSERT negb (ch =? 0) ;;
  if negb (in_pct pf) && negb (ch =? 37) then Some (__pf_print [ch] pf)
  else if negb (in_pct pf) then Some (set_in_pct pf)
  else if in_string modifiers ch then __pf_modifier ch pf
  else if in_string int_types ch then
    pf ← __pf_getnum ch pf;
    pf ← __pf_printnum (__pf_setbase ch pf);
    Some (__pf_endfield pf)
  else if ch =? 115 then
    match ap pf with
    | Str s :: l =>
        let str := match s with None => null_string | Some s => s end in
        Some (__pf_endfield (__pf_printstuff [] [] str (set_ap l pf)))
    | _ => None
    end
  else
    '(x, pf) ← (if ch =? 99 then '(w, pf) ← va_word pf; Some (u8 w, pf) else Some (ch, pf));
    Some (__pf_endfield (__pf_printstuff [] [] (if x =? 0 then [] else [x]) pf)).

Fixpoint send_loop (format : list Z) pf : option (PF C) :=
  match format with
  | [] => Some pf
  | ch :: format => pf ← __pf_send ch pf; send_loop format pf
  end.

(** What was printed, as the data of [sendfunc], and the number of characters. *)
Definition __vprintf (c : C) (format : list Z) (args : list arg) : option (Z * C) :=
  let pf := __pf_endfield (Pf c args 0 false INTSZ 0 0 0 false 0 0 false false) in
  pf ← send_loop format pf;
  Some (charcount pf, clientdata pf).
End printf.

(** ** snprintf.c *)

Record SNP := Snp { snp_buf : list Z; snp_buflen : Z; snp_bufpos : Z }.

(** A store outside of the buffer is [None]. *)
Fixpoint __snprintf_send (data : list Z) (snp : option SNP) : option SNP :=
  match data with
  | [] => snp
  | c :: data =>
      __snprintf_send data
        (s ← snp;
         if snp_bufpos s <? snp_buflen s then
           ASSERT snp_bufpos s <? Z.of_nat (length (snp_buf s)) ;;
           Some (Snp (<[Z.to_nat (snp_bufpos s) := c]> (snp_buf s)) (snp_buflen s) (u32 (snp_bufpos s + 1)))
         else Some s)
  end.

Definition vsnprintf (buf : list Z) (len : Z) (fmt : list Z) (args : list arg) : option (Z * list Z) :=
  let snp := Snp buf (if len =? 0 then 0 else len - 1) 0 in
  '(chars, snp) ← __vprintf __snprintf_send (Some snp) fmt args;
  s ← snp;
  if 0 <? len then
    ASSERT snp_bufpos s <? Z.of_nat (length (snp_buf s)) ;;
    Some (chars, <[Z.to_nat (snp_bufpos s) := 0]> (snp_buf s))
  else Some (chars, snp_buf s).

Definition snprintf (buf : list Z) (len : Z) (fmt : list Z) (args : list arg) : option (Z * list Z) :=
  vsnprintf buf len fmt args.
