(* ===== verification/PrintfSpec.v ===== *)
(** * What printf prints

    A format is a list of characters and of conversions with their flags; [render] says
    what each of them prints, by the length of the field and the numeral of the number.
    The state machine of __printf.c prints just that, its buffer for numbers is large
    enough, and snprintf keeps to its buffer. *)

From stdpp Require Import base option list numbers.
From S2P Require Import Prelude Cstring Printf.

(** ** Numerals *)

Definition digit (d : Z) : Z := if d <? 10 then 48 + d else 87 + d.

(** The numeral of [n] in base [b], for [n] with at most [k] digits. *)
Fixpoint numeral_n (k : nat) (b n : Z) : list Z :=
  match k with
  | O => []
  | S k => (if n <? b then [] else numeral_n k b (n / b)) ++ [digit (n `mod` b)]
  end.

(** A word has at most 11 digits in the bases 8, 10 and 16. *)
Definition numeral (b n : Z) : list Z := numeral_n 12 b n.

(** ** Formats *)

Inductive piece :=
| Lit (c : Z)
| Conv (mods : list Z) (c : Z)
| Open (mods : list Z).                (* the format ends before the conversion does *)

(** [mods]: the modifiers since the last percent sign, if it is still open. *)
Fixpoint parse (mods : option (list Z)) (fmt : list Z) : list piece :=
  match fmt with
  | [] => match mods with None => [] | Some l => [Open l] end
  | c :: fmt =>
      match mods with
      | None => if c =? 37 then parse (Some []) fmt else Lit c :: parse None fmt
      | Some l => if bool_decide (c ∈ modifiers) then parse (Some (l ++ [c])) fmt
                  else Conv l c :: parse None fmt
      end
  end.

(** The digits among the modifiers give the width of the field; if the first one is 0
    the field is filled with zeros. *)
Definition is_digit (c : Z) : Prop := 48 <= c <= 57.
#[global] Instance is_digit_dec c : Decision (is_digit c).
Proof. unfold is_digit. apply _. Defined.

Definition width_digits (mods : list Z) : list Z := filter is_digit mods.
Definition value (ds : list Z) : Z := foldl (fun acc c => acc * 10 + (c - 48)) 0 ds.
Definition width (mods : list Z) : Z := value (width_digits mods).
Definition zeros (mods : list Z) : bool := bool_decide (head (width_digits mods) = Some 48).
Definition left_aligned (mods : list Z) : bool := bool_decide (45 ∈ mods).
Definition alternate (mods : list Z) : bool := bool_decide (35 ∈ mods).

(** A field: the text [body] after [prefix], filled up to the width. *)
Definition field (mods prefix body : list Z) : list Z :=
  let fill := replicate (Z.to_nat (width mods) - length (prefix ++ body)) (if zeros mods then 48 else 32) in
  if left_aligned mods then prefix ++ body ++ fill
  else if zeros mods then prefix ++ fill ++ body
  else fill ++ prefix ++ body.

Definition number (mods : list Z) (c w : Z) : list Z :=
  if c =? 100 then field mods (if s32 w <? 0 then [45] else []) (numeral 10 (Z.abs (s32 w)))
  else if c =? 117 then field mods [] (numeral 10 (u32 w))
  else if c =? 111 then field mods (if alternate mods then [48] else []) (numeral 8 (u32 w))
  else field mods (if alternate mods || (c =? 112) then [48; 120] else []) (numeral 16 (u32 w)).

Definition uppercase (c : Z) : Z := if (97 <=? c) && (c <=? 122) then c - 32 else c.

(** What a piece prints, and the arguments left, after man/libc/printf.html.  What that
    page does not say is as the code has it: a null pointer printed as a string is
    "(null)", a zero printed as a character is nothing, and a character that is no
    conversion stands for itself. *)
Definition render_piece (p : piece) (args : list arg) : option (list Z * list arg) :=
  match p with
  | Lit c => Some ([c], args)
  | Open _ => Some ([], args)
  | Conv mods c =>
      if bool_decide (c ∈ int_types) then
        match args with Word w :: args => Some (number mods c w, args) | _ => None end
      else if c =? 88 then
        match args with
        | Word w :: args =>
            Some (field mods (if alternate mods then [48; 88] else [])
                    (uppercase <$> numeral 16 (u32 w)), args)
        | _ => None
        end
      else if c =? 115 then
        match args with
        | Str s :: args => Some (field mods [] (match s with None => null_string | Some s => s end), args)
        | _ => None
        end
      else if c =? 99 then
        match args with Word w :: args => Some (field mods [] (if u8 w =? 0 then [] else [u8 w]), args) | _ => None end
      else Some (field mods [] [c], args)
  end.

Fixpoint render (ps : list piece) (args : list arg) : option (list Z) :=
  match ps with
  | [] => Some []
  | p :: ps => '(s, args) ← render_piece p args; rest ← render ps args; Some (s ++ rest)
  end.

(** ** What is asked of formats and arguments: widths and strings that an int can count,
    and no percent X, which the code does not know *)

Definition piece_ok (p : piece) : Prop :=
  match p with
  | Lit _ => True
  | Conv mods c => width mods < 2 ^ 31 /\ c <> 88
  | Open mods => width mods < 2 ^ 31
  end.

Definition arg_ok (a : arg) : Prop :=
  match a with Str (Some s) => Z.of_nat (length s) < 2 ^ 31 | _ => True end.


(** ** Numbers *)

Lemma digit_lookup d : 0 <= d < 16 -> numdigits !! Z.to_nat d = Some (digit d).
Proof.
  intros Hd. assert (Forall (fun d => numdigits !! Z.to_nat d = Some (digit d)) (seqZ 0 16)) as Hf
    by (apply (bool_decide_unpack (Forall _ _)); by vm_compute).
  rewrite list.Forall_forall in Hf. apply Hf, elem_of_seqZ. lia.
Qed.

Lemma printnum_loop_wp fuel b xnum x buf :
  2 <= b <= 16 -> 0 <= xnum -> 0 <= x < Z.of_nat (length buf) -> x < Z.of_nat fuel -> xnum < b ^ (x + 1) ->
  exists buf' x', printnum_loop fuel b xnum x buf = Some (buf', x') /\ -1 <= x' /\
    drop (Z.to_nat (x' + 1)) buf' = numeral_n fuel b xnum ++ drop (Z.to_nat (x + 1)) buf.
Proof.
  intros Hb. revert xnum x buf. induction fuel as [|fuel IH]; intros xnum x buf Hn Hx Hf Hlt; [lia|].
  cbn [printnum_loop numeral_n]. pose proof (Z.mod_pos_bound xnum b ltac:(lia)) as Hm.
  rewrite digit_lookup by lia. cbn [mbind option_bind].
  rewrite (proj2 (Z.leb_le 0 x)), (proj2 (Z.ltb_lt x _)) by lia. cbn [andb].
  set (buf1 := <[Z.to_nat x := digit (xnum `mod` b)]> buf).
  assert (drop (Z.to_nat x) buf1 = digit (xnum `mod` b) :: drop (Z.to_nat (x + 1)) buf) as Ed.
  { unfold buf1. rewrite insert_take_drop by lia. rewrite drop_app_length' by (rewrite length_take; lia).
    do 2 f_equal. lia. }
  pose proof (Z.div_pos xnum b ltac:(lia) ltac:(lia)).
  destruct (0 <? xnum / b) eqn:E0; boolify.
  - assert (b <= xnum) by (destruct (decide (xnum < b)); [rewrite Z.div_small in E0 by lia; lia|lia]).
    rewrite (proj2 (Z.ltb_ge xnum b)) by lia.
    assert (x <> 0) by (intros ->; change (0 + 1) with 1 in Hlt; rewrite Z.pow_1_r in Hlt; lia).
    destruct (IH (xnum / b) (x - 1) buf1) as (buf' & x' & -> & Hx' & E'); [done| |lia| |].
    { unfold buf1. rewrite length_insert. lia. }
    { apply Z.div_lt_upper_bound; [lia|]. replace (x - 1 + 1) with x by lia.
      by rewrite <- Z.pow_succ_r by lia. }
    exists buf', x'. split; [done|]. split; [done|]. rewrite E', <- app_assoc. f_equal.
    replace (x - 1 + 1) with x by lia. rewrite Ed. done.
  - assert (xnum < b) by (destruct (decide (xnum < b)); [done|]; assert (1 <= xnum / b) by (apply Z.div_le_lower_bound; lia); lia).
    rewrite (proj2 (Z.ltb_lt xnum b)) by lia. exists buf1, (x - 1). split; [done|]. split; [lia|].
    replace (x - 1 + 1) with x by lia. by rewrite Ed.
Qed.

Lemma numeral_str k b n : 2 <= b <= 16 -> is_str (numeral_n k b n).
Proof.
  intros Hb. revert n. induction k as [|k IH]; intros n; cbn [numeral_n]; [constructor|].
  apply list.Forall_app. split; [destruct (n <? b); [constructor|apply IH]|]. constructor; [|constructor].
  pose proof (Z.mod_pos_bound n b ltac:(lia)). unfold digit, is_byte. destruct (_ <? 10) eqn:E; boolify; lia.
Qed.

Lemma length_numeral k b n : (length (numeral_n k b n) <= k)%nat.
Proof.
  revert n. induction k as [|k IH]; intros n; cbn [numeral_n]; [simpl; lia|]. rewrite length_app. simpl.
  destruct (n <? b); [simpl; lia|]. specialize (IH (n / b)). lia.
Qed.

Lemma in_string_spec s c : is_str s -> is_byte c -> c <> 0 -> in_string s c = bool_decide (c ∈ s).
Proof.
  intros Hs Hc H0. assert (exists r, strchr (s ++ [0]) (s8 c) = Some r /\ (is_Some r <-> c ∈ s)) as (r & E & Hr).
  { induction s as [|x s IH].
    - exists None. split; [|split; [by intros [? [=]]|by intros ?%not_elem_of_nil]]. cbn [app strchr Z.eqb].
      destruct (s8 0 =? s8 c) eqn:E; [|done]. boolify. destruct H0. by apply s8_inj.
    - apply is_str_cons in Hs as [[Hx Hx0] Hs]. cbn [app strchr]. rewrite (proj2 (Z.eqb_neq x 0)) by done.
      destruct (s8 x =? s8 c) eqn:E; boolify.
      + apply s8_inj in E as ->; [|done|done]. exists (Some 0%nat). split; [done|]. split; [|by eauto]. intros _. left.
      + destruct (IH Hs) as (r & -> & Hr). exists (option_map S r). split; [done|]. rewrite elem_of_cons, <- Hr.
        split; [destruct r; [by right; eauto|by intros [? [=]]]|]. intros [->|[k ->]]; [done|by eexists]. }
  unfold in_string. rewrite E. destruct r as [k|]; symmetry; [apply bool_decide_true|apply bool_decide_false]; naive_solver.
Qed.

(** ** Fields *)

Section fields.
Context {C : Type} (send : list Z -> C -> C).
Context (send_nil : forall c, send [] c = c).
Context (send_app : forall s1 s2 c, send (s1 ++ s2) c = send s2 (send s1 c)).
Implicit Types pf : PF C.

(** [pf] after it has printed [s]. *)
Definition printed (s : list Z) pf : PF C :=
  set_sent (send s (clientdata pf)) (s32 (charcount pf + Z.of_nat (length s))) pf.

Lemma printed_app s1 s2 pf : printed s2 (printed s1 pf) = printed (s1 ++ s2) pf.
Proof.
  unfold printed, set_sent. simpl. f_equal; [by rewrite send_app|]. rewrite length_app.
  rewrite s32_s32_add. f_equal. lia.
Qed.

Lemma fill_printed n f pf : is_s32 (charcount pf) -> fill_loop send n f pf = printed (replicate n f) pf.
Proof.
  revert pf. induction n as [|n IH]; intros pf Hc; cbn [fill_loop replicate].
  - unfold printed. simpl. rewrite Z.add_0_r, s32_id, send_nil by done. by destruct pf.
  - change (__pf_print send [f] pf) with (printed [f] pf). rewrite IH by apply s32_range. by rewrite printed_app.
Qed.

(** The state within a conversion, after the modifiers [mods]. *)
Record within (mods : list Z) pf : Prop := {
  wi_count : is_s32 (charcount pf);
  wi_pct : in_pct pf = true;
  wi_sign : sign pf = 0;
  wi_spacing : spacing pf = width mods;
  wi_right : rightspc pf = left_aligned mods;
  wi_fill : fillchar pf = if zeros mods then 48 else 32;
  wi_alt : altformat pf = alternate mods;
  wi_prefix : baseprefix pf = false;
}.

(** The flags that [__pf_printstuff] looks at. *)
Definition flags (mods : list Z) pf : Prop :=
  is_s32 (charcount pf) /\ spacing pf = width mods /\ rightspc pf = left_aligned mods /\
  fillchar pf = if zeros mods then 48 else 32.

Lemma printed_right s pf : rightspc (printed s pf) = rightspc pf.
Proof. done. Qed.
Lemma printed_fillchar s pf : fillchar (printed s pf) = fillchar pf.
Proof. done. Qed.
Lemma printed_count s pf : is_s32 (charcount (printed s pf)).
Proof. apply s32_range. Qed.

Lemma printstuff_printed mods p1 p2 s pf :
  flags mods pf -> Z.of_nat (length (p1 ++ p2 ++ s)) < 2 ^ 31 -> 0 <= width mods ->
  __pf_printstuff send p1 p2 s pf = printed (field mods (p1 ++ p2) s) pf.
Proof.
  intros (Hc & Hsp & Hr & Hf) Hl Hw. rewrite !length_app in Hl. unfold __pf_printstuff.
  rewrite s32_id by (unfold is_s32; lia). unfold field. rewrite !length_app, Hsp. cbv zeta.
  set (n := Z.of_nat (length p1) + Z.of_nat (length p2) + Z.of_nat (length s)).
  set (spc := if n <? width mods then width mods - n else 0).
  replace (Z.to_nat (width mods) - (length p1 + length p2 + length s))%nat with (Z.to_nat spc)
    by (unfold spc, n; destruct (_ <? _) eqn:E; boolify; lia).
  assert (0 <= spc) as H0 by (unfold spc; destruct (_ <? _) eqn:E; boolify; lia). clearbody spc n.
  assert (forall q, is_s32 (charcount q) -> fillchar q = fillchar pf ->
            __pf_fill send spc q = printed (replicate (Z.to_nat spc) (if zeros mods then 48 else 32)) q) as Hfill.
  { intros q Hq Eq. unfold __pf_fill. rewrite Eq, Hf, fill_printed by done. by destruct (zeros mods). }
  repeat change (__pf_print send ?a ?q) with (printed a q).
  destruct (0 <? spc) eqn:E0; boolify; cbn [andb].
  2:{ assert (spc = 0) as -> by lia. simpl replicate. rewrite !printed_app, <- !app_assoc.
      destruct (left_aligned mods), (zeros mods); simpl; by rewrite ?app_nil_r. }
  rewrite Hr, Hf. destruct (left_aligned mods) eqn:El, (zeros mods) eqn:Ez; cbn [andb negb Z.eqb Pos.eqb];
    rewrite ?printed_right, ?printed_fillchar, ?Hr, ?Hf; cbn [andb negb Z.eqb Pos.eqb];
    rewrite ?Hfill, ?printed_right, ?printed_fillchar, ?Hr, ?Hf by (apply printed_count || done); cbn [andb negb Z.eqb Pos.eqb];
    rewrite ?printed_right, ?printed_fillchar, ?Hr, ?Hf; rewrite ?Hfill by (apply printed_count || done);
    by rewrite !printed_app, <- ?app_assoc.
Qed.
End fields.

(** ** Modifiers *)

Lemma width_digits_snoc mods c :
  width_digits (mods ++ [c]) = width_digits mods ++ (if bool_decide (is_digit c) then [c] else []).
Proof. unfold width_digits. rewrite list.filter_app. f_equal. rewrite list.filter_cons. case_decide; by case_bool_decide. Qed.

Lemma width_snoc mods c :
  width (mods ++ [c]) = if bool_decide (is_digit c) then width mods * 10 + (c - 48) else width mods.
Proof.
  unfold width. rewrite width_digits_snoc. unfold value. case_bool_decide; [by rewrite foldl_snoc|by rewrite app_nil_r].
Qed.

Lemma width_nonneg mods : 0 <= width mods.
Proof.
  induction mods as [|c mods IH] using rev_ind; [done|]. rewrite width_snoc.
  case_bool_decide as Hd; [unfold is_digit in Hd; lia|done].
Qed.

(** A field without a width has no digits but zeros. *)
Lemma width_0 mods : width mods = 0 -> Forall (fun c => c = 48) (width_digits mods).
Proof.
  induction mods as [|c mods IH] using rev_ind; [constructor|]. rewrite width_snoc, width_digits_snoc.
  pose proof (width_nonneg mods). case_bool_decide as Hd; [unfold is_digit in Hd|rewrite app_nil_r; auto].
  intros E. apply list.Forall_app. split; [apply IH; lia|]. constructor; [lia|constructor].
Qed.

Lemma zeros_snoc mods c :
  zeros (mods ++ [c]) = if bool_decide (c = 48 /\ width mods = 0) then true else zeros mods.
Proof.
  unfold zeros. rewrite width_digits_snoc. destruct (decide (c = 48 /\ width mods = 0)) as [Hc|Hc].
  - rewrite (bool_decide_true (_ /\ _) Hc). destruct Hc as [-> Hw]. apply width_0 in Hw. apply bool_decide_true.
    rewrite bool_decide_true by done. destruct (width_digits mods) as [|d l]; [done|]. by inversion Hw as [|? ? ->].
  - rewrite (bool_decide_false (_ /\ _) Hc).
    destruct (bool_decide (is_digit c)); [|by rewrite app_nil_r]. destruct (width_digits mods) as [|d l] eqn:E; [|done]. simpl.
    apply bool_decide_false. intros [= ->]. destruct Hc. split; [done|]. unfold width. by rewrite E.
Qed.

Lemma flag_snoc x mods c : bool_decide (x ∈ mods ++ [c]) = bool_decide (x ∈ mods) || (c =? x).
Proof.
  apply eq_true_iff_eq. rewrite orb_true_iff, Z.eqb_eq, !bool_decide_eq_true, elem_of_app, list_elem_of_singleton.
  naive_solver.
Qed.

Lemma modifier_cases c : c ∈ modifiers ->
  c = 35 \/ c = 45 \/ c = 113 \/ c = 108 \/ is_digit c.
Proof. unfold modifiers, is_digit. rewrite !elem_of_cons, elem_of_nil. lia. Qed.

Section modifier.
Context {C : Type}.
Implicit Types pf : PF C.

Lemma modifier_within mods c pf :
  within mods pf -> c ∈ modifiers -> width (mods ++ [c]) < 2 ^ 31 ->
  exists pf', __pf_modifier c pf = Some pf' /\ within (mods ++ [c]) pf' /\
    clientdata pf' = clientdata pf /\ ap pf' = ap pf /\ charcount pf' = charcount pf.
Proof.
  intros [Hc Hp Hs Hw Hr Hf Ha Hx] Hm Hlt. pose proof (width_nonneg mods) as H0. rewrite width_snoc in Hlt.
  assert (forall pf', is_s32 (charcount pf') -> in_pct pf' = true -> sign pf' = 0 -> spacing pf' = width (mods ++ [c]) ->
    rightspc pf' = left_aligned mods || (c =? 45) -> altformat pf' = alternate mods || (c =? 35) ->
    fillchar pf' = (if zeros (mods ++ [c]) then 48 else 32) -> baseprefix pf' = false -> within (mods ++ [c]) pf') as Hi.
  { intros pf'. intros. constructor; try done; unfold left_aligned, alternate; by rewrite flag_snoc. }
  rewrite zeros_snoc, width_snoc in Hi. unfold __pf_modifier. destruct (modifier_cases c Hm) as [->|[->|[->|[->|Hd]]]].
  1-4: simpl; eexists; split; [done|]; split; [|by destruct (size pf)].
  1-4: apply Hi; try done; simpl; try (by destruct (size pf)); rewrite ?orb_false_r, ?orb_true_r; try done.
  1-2: by destruct (size pf).
  unfold is_digit in Hd. rewrite !(proj2 (Z.eqb_neq c _)) in * by lia. rewrite bool_decide_true in * by (unfold is_digit; lia).
  destruct (decide (c = 48)) as [->|Hn]; simpl.
  - rewrite Hw. destruct (0 <? width mods) eqn:E; boolify.
    + eexists. split; [done|]. split; [|done]. apply Hi; simpl; rewrite ?orb_false_r; try done.
      * rewrite s32_id by (unfold is_s32; lia). lia.
      * rewrite bool_decide_false by lia. done.
    + eexists. split; [done|]. split; [|done]. apply Hi; simpl; rewrite ?orb_false_r; try done; [lia|].
      rewrite bool_decide_true by lia. done.
  - rewrite (proj2 (Z.eqb_neq c 48)), (proj2 (Z.ltb_lt 48 c)), (proj2 (Z.leb_le c 57)) by lia. simpl.
    eexists. split; [done|]. split; [|done]. apply Hi; simpl; rewrite ?orb_false_r; try done.
    + rewrite Hw, s32_id by (unfold is_s32; lia). done.
    + rewrite bool_decide_false by lia. done.
Qed.
End modifier.

(** ** Conversions *)

Section conv.
Context {C : Type} (send : list Z -> C -> C).
Context (send_nil : forall c, send [] c = c).
Context (send_app : forall s1 s2 c, send (s1 ++ s2) c = send s2 (send s1 c)).
Implicit Types pf : PF C.

(** The state outside of conversions. *)
Definition idle (c : C) (args : list arg) (n : Z) : PF C := Pf c args n false INTSZ 0 0 0 false 32 0 false false.

Lemma endfield_printed s pf :
  __pf_endfield (printed send s pf) =
  idle (send s (clientdata pf)) (ap pf) (s32 (charcount pf + Z.of_nat (length s))).
Proof. done. Qed.

(** The number always fits in the buffer. *)
Lemma printnum_printed mods pf :
  flags mods pf -> base pf = 8 \/ base pf = 10 \/ base pf = 16 -> is_u32 (num pf) ->
  __pf_printnum send pf =
  Some (printed send (field mods ((if negb (sign pf =? 0) then [45] else []) ++
          (if baseprefix pf && (base pf =? 16) then [48; 120]
           else if baseprefix pf && (base pf =? 8) then [48] else [])) (numeral (base pf) (num pf))) pf).
Proof.
  intros Hf Hb [Hn0 Hn]. unfold __pf_printnum. change (Z.to_nat NUMBER_BUF_SIZE) with 12%nat.
  change (NUMBER_BUF_SIZE - 1) with 11. cbv zeta. change (11 - 1) with 10.
  set (buf := <[Z.to_nat 11 := 0]> (replicate 12 0)).
  destruct (printnum_loop_wp 12 (base pf) (num pf) 10 buf) as (buf' & x' & -> & Hx & Ed); [lia|done|done|done| |].
  { change (10 + 1) with 11. eapply Z.lt_le_trans; [exact Hn|]. apply (Z.le_trans _ (8 ^ 11)); [done|].
    apply Z.pow_le_mono_l. lia. }
  cbn [mbind option_bind]. rewrite Ed. change (drop (Z.to_nat (10 + 1)) buf) with [0]. fold (numeral (base pf) (num pf)).
  pose proof (length_numeral 12 (base pf) (num pf)) as Hl. change (numeral_n 12 ?b ?n) with (numeral b n) in Hl.
  rewrite strlen_str; [|apply numeral_str; lia|lia]. cbn [mbind option_bind].
  rewrite Nat2Z.id, take_app_length. f_equal. apply printstuff_printed; [done|done|done| |apply width_nonneg].
  rewrite !length_app. repeat match goal with |- context [if ?b then _ else _] => destruct b end; simpl; lia.
Qed.

Lemma within_flags mods pf : within mods pf -> flags mods pf.
Proof. by intros []. Qed.

Lemma int_conv_wp mods c w l pf :
  within mods pf -> c ∈ int_types -> ap pf = Word w :: l ->
  exists pf1, __pf_getnum c pf = Some pf1 /\
    __pf_printnum send (__pf_setbase c pf1) = Some (printed send (number mods c w) (__pf_setbase c pf1)) /\
    clientdata pf1 = clientdata pf /\ ap pf1 = l /\ charcount pf1 = charcount pf.
Proof.
  intros [Hc Hp Hs Hw Hr Hf Ha Hx] Hm Hap. unfold __pf_getnum, va_word. rewrite Hap. cbn [mbind option_bind].
  pose proof (s32_range w) as Hsr. unfold is_s32 in Hsr. pose proof (u32_range w) as Hur.
  assert (c = 100 \/ c = 111 \/ c = 117 \/ c = 112 \/ c = 120) as Hcs.
  { unfold int_types in Hm. rewrite !elem_of_cons, elem_of_nil in Hm. lia. }
  assert (forall x, flags mods (__pf_setbase c (set_num (sign (set_ap l pf)) x (set_ap l pf)))) as Hfl by done.
  unfold number. destruct Hcs as [->|Hcs]; simpl.
  - destruct (s32 w <? 0) eqn:E; boolify; eexists; (split; [done|]); (split; [|done]).
    + rewrite (printnum_printed mods); [|done|by right; left|apply u32_range]. simpl. rewrite Ha, Hx, !andb_false_r.
      do 4 f_equal. rewrite u32_id by (unfold is_u32; lia). by rewrite Z.abs_neq by lia.
    + rewrite (printnum_printed mods); [|done|by right; left|unfold is_u32; simpl; lia]. simpl.
      rewrite Hs, Ha, Hx, !andb_false_r. simpl. by rewrite Z.abs_eq by lia.
  - exists (set_num (sign (set_ap l pf)) (u32 w) (set_ap l pf)). split; [by destruct Hcs as [->|[->|[->| ->]]]|]. split; [|done].
    rewrite (printnum_printed mods); [|done|by destruct Hcs as [->|[->|[->| ->]]]; simpl; auto|apply u32_range].
    destruct Hcs as [->|[->|[->| ->]]]; simpl; rewrite Hs, Ha, Hx; simpl; rewrite ?orb_false_r, ?orb_true_r; try done.
    all: by destruct (alternate mods).
Qed.

Lemma parse_width l fmt : Forall piece_ok (parse (Some l) fmt) -> width l < 2 ^ 31.
Proof.
  revert l. induction fmt as [|c fmt IH]; intros l; cbn [parse]; [by intros [? _]%list.Forall_cons|].
  case_bool_decide; [|by intros [[? _] _]%list.Forall_cons]. intros Hw%IH. rewrite width_snoc in Hw.
  pose proof (width_nonneg l). case_bool_decide as Hd; [unfold is_digit in Hd; lia|done].
Qed.

Lemma conv_wp mods c pf s args :
  within mods pf -> is_byte c -> c <> 0 -> (c ∉ modifiers) -> c <> 88 -> Forall arg_ok (ap pf) ->
  render_piece (Conv mods c) (ap pf) = Some (s, args) ->
  __pf_send send c pf = Some (idle (send s (clientdata pf)) args (s32 (charcount pf + Z.of_nat (length s)))) /\
  Forall arg_ok args.
Proof.
  intros Hw Hc H0 Hm HX Ha Hr. pose proof (within_flags _ _ Hw) as Hf. pose proof (width_nonneg mods) as Hw0.
  assert (forall x l, Z.of_nat (length x) < 2 ^ 31 ->
    __pf_endfield (__pf_printstuff send [] [] x (set_ap l pf)) =
    idle (send (field mods [] x) (clientdata pf)) l (s32 (charcount pf + Z.of_nat (length (field mods [] x))))) as Hst.
  { intros x l Hx. rewrite (printstuff_printed send send_nil send_app mods) by done. by rewrite endfield_printed. }
  unfold __pf_send. rewrite (proj2 (Z.eqb_neq c 0)), (wi_pct _ _ Hw) by done. cbn [negb andb].
  assert (is_str modifiers /\ is_str int_types) as [Hs1 Hs2].
  { split; apply (bool_decide_unpack (is_str _)); by vm_compute. }
  rewrite !in_string_spec by done. rewrite (bool_decide_false (c ∈ modifiers)) by done.
  unfold render_piece in Hr. destruct (bool_decide (c ∈ int_types)) eqn:Ei; boolify.
  - destruct (ap pf) as [|[w|?] l] eqn:Eap; [done| |done]. injection Hr as <- <-. apply list.Forall_cons in Ha as [_ Ha].
    destruct (int_conv_wp mods c w l pf Hw Ei Eap) as (pf1 & -> & Ep & E1 & E2 & E3). cbn [mbind option_bind].
    rewrite Ep. cbn [mbind option_bind]. rewrite endfield_printed. simpl. by rewrite E1, E2, E3.
  - rewrite (proj2 (Z.eqb_neq c 88) HX) in Hr. destruct (c =? 115) eqn:Es; boolify.
    + destruct (ap pf) as [|[?|str] l] eqn:Eap; [done|done|]. injection Hr as <- <-.
      apply list.Forall_cons in Ha as [Hstr Ha]. rewrite Hst; [done|]. by destruct str.
    + destruct (c =? 99) eqn:E9; boolify.
      * unfold va_word. destruct (ap pf) as [|[w|?] l] eqn:Eap; [done| |done]. injection Hr as <- <-.
        apply list.Forall_cons in Ha as [_ Ha]. cbn [mbind option_bind]. rewrite Hst; [done|]. by destruct (u8 w =? 0).
      * injection Hr as <- <-. cbn [mbind option_bind]. rewrite (proj2 (Z.eqb_neq c 0)) by done.
        pose proof (Hst [c] (ap pf) ltac:(done)) as E. replace (set_ap (ap pf) pf) with pf in E by (by destruct pf).
        by rewrite E.
Qed.

Lemma send_loop_renders fmt mods pf out :
  is_str fmt -> Forall piece_ok (parse mods fmt) -> Forall arg_ok (ap pf) -> is_s32 (charcount pf) ->
  match mods with None => pf = idle (clientdata pf) (ap pf) (charcount pf) | Some l => within l pf end ->
  render (parse mods fmt) (ap pf) = Some out ->
  exists pf', send_loop send fmt pf = Some pf' /\ clientdata pf' = send out (clientdata pf) /\
    charcount pf' = s32 (charcount pf + Z.of_nat (length out)).
Proof.
  revert mods pf out. induction fmt as [|c fmt IH]; intros mods pf out Hs Hp Ha Hn Hst Hr; cbn [parse send_loop] in *.
  { exists pf. assert (out = []) as -> by (destruct mods; cbn in Hr; congruence).
    split; [done|]. split; [by rewrite send_nil|]. simpl. by rewrite Z.add_0_r, s32_id. }
  apply is_str_cons in Hs as [[Hc H0] Hs]. destruct mods as [l|].
  - case_bool_decide as Hm.
    + pose proof (parse_width _ _ Hp) as Hw. destruct (modifier_within l c pf Hst Hm Hw) as (pf1 & E & Hw1 & E1 & E2 & E3).
      unfold __pf_send. rewrite (proj2 (Z.eqb_neq c 0)), (wi_pct _ _ Hst) by done. cbn [negb andb].
      rewrite in_string_spec; [|apply (bool_decide_unpack (is_str _)); by vm_compute|done|done].
      rewrite bool_decide_true by done. rewrite E. cbn [mbind option_bind]. rewrite <- E1, <- E3.
      rewrite <- E2 in Ha, Hr. apply (IH (Some (l ++ [c]))); try done. by rewrite E3.
    + apply list.Forall_cons in Hp as [[_ HX] Hp]. cbn [render] in Hr.
      apply bind_Some in Hr as ([s args] & Er & Hr). apply bind_Some in Hr as (rest & Er2 & Hr). injection Hr as <-.
      destruct (conv_wp l c pf s args Hst Hc H0 Hm HX Ha Er) as [-> Ha']. cbn [mbind option_bind].
      destruct (IH None (idle (send s (clientdata pf)) args (s32 (charcount pf + Z.of_nat (length s)))) rest)
        as (pf' & E & E1 & E2); try done; [apply s32_range|]. exists pf'. split; [done|].
      rewrite E1, E2. simpl. split; [by rewrite send_app|]. rewrite s32_s32_add, length_app. f_equal. lia.
  - unfold __pf_send. rewrite (proj2 (Z.eqb_neq c 0)) by done.
    assert (in_pct pf = false) as -> by (by rewrite Hst). cbn [negb andb].
    destruct (c =? 37) eqn:E37; cbn [negb andb]; cbn [mbind option_bind].
    + apply (IH (Some []) (set_in_pct pf) out); try done. rewrite Hst. by constructor.
    + apply list.Forall_cons in Hp as [_ Hp]. cbn [render render_piece mbind option_bind] in Hr.
      apply bind_Some in Hr as (rest & Er2 & Hr). injection Hr as <-.
      replace (__pf_print send [c] pf) with (idle (send [c] (clientdata pf)) (ap pf) (s32 (charcount pf + 1)))
        by (by rewrite Hst).
      destruct (IH None (idle (send [c] (clientdata pf)) (ap pf) (s32 (charcount pf + 1))) rest)
        as (pf' & E & E1 & E2); try done; [apply s32_range|]. exists pf'. split; [exact E|].
      rewrite E1, E2. simpl. split; [by rewrite <- send_app|]. rewrite s32_s32_add. f_equal. lia.
Qed.
End conv.

(** ** A buffer *)

Lemma snprintf_send_app s1 s2 snp : __snprintf_send (s1 ++ s2) snp = __snprintf_send s2 (__snprintf_send s1 snp).
Proof. revert snp. induction s1 as [|c s1 IH]; intros snp; [done|]. apply IH. Qed.

(** [pre] is in the buffer already. *)
Lemma snprintf_send_wp buf L pre out :
  Z.of_nat (length pre) <= L -> L <= Z.of_nat (length buf) -> L < 2 ^ 32 ->
  __snprintf_send out (Some (Snp (splice buf 0 pre) L (Z.of_nat (length pre)))) =
  Some (Snp (splice buf 0 (take (Z.to_nat L) (pre ++ out))) L (Z.of_nat (length (take (Z.to_nat L) (pre ++ out))))).
Proof.
  revert pre. induction out as [|c out IH]; intros pre Hp HL H32; cbn [__snprintf_send].
  { rewrite app_nil_r, firstn_all2 by lia. done. }
  cbn [mbind option_bind snp_bufpos snp_buflen snp_buf]. destruct (Z.of_nat (length pre) <? L) eqn:E; boolify.
  - rewrite length_splice by (simpl; lia). rewrite (proj2 (Z.ltb_lt _ _)) by lia.
    rewrite u32_id by (unfold is_u32; lia). rewrite Nat2Z.id.
    rewrite insert_splice by (rewrite length_splice; simpl; lia).
    change (length pre) with (0 + length pre)%nat at 1. rewrite splice_adj_r by (simpl; lia).
    replace (Z.of_nat (length pre) + 1) with (Z.of_nat (length (pre ++ [c]))) by (rewrite length_app; simpl; lia).
    rewrite IH by (rewrite ?length_app; simpl; lia). by rewrite <- app_assoc.
  - assert (Z.of_nat (length pre) = L) as HLe by lia. clear IH E.
    assert (take (Z.to_nat L) (pre ++ c :: out) = pre) as -> by (rewrite <- HLe, Nat2Z.id; apply take_app_length).
    rewrite HLe. induction out as [|d out IH]; [done|]. cbn [__snprintf_send mbind option_bind snp_bufpos snp_buflen].
    by rewrite Z.ltb_irrefl.
Qed.

(** ** Reading numbers back *)

Lemma numeral_S k b n :
  numeral_n (S k) b n = (if n <? b then [] else numeral_n k b (n / b)) ++ [digit (n `mod` b)].
Proof. done. Qed.

Lemma numeral_value k n : 0 <= n < 10 ^ Z.of_nat k -> value (numeral_n k 10 n) = n.
Proof.
  revert n. induction k as [|k IH]; intros n Hn; [unfold value; simpl in *; lia|]. rewrite numeral_S. unfold value.
  rewrite foldl_snoc. fold (value (if n <? 10 then [] else numeral_n k 10 (n / 10))).
  pose proof (Z.mod_pos_bound n 10 ltac:(lia)). unfold digit. rewrite (proj2 (Z.ltb_lt (n `mod` 10) 10)) by lia.
  rewrite Nat2Z.inj_succ, Z.pow_succ_r in Hn by lia. destruct (n <? 10) eqn:E; boolify.
  - rewrite Z.mod_small by lia. unfold value. simpl. lia.
  - rewrite IH by zdm. pose proof (Z.div_mod n 10). lia.
Qed.

Lemma numeral_digits k n : 0 <= n -> Forall is_digit (numeral_n k 10 n).
Proof.
  revert n. induction k as [|k IH]; intros n Hn; [constructor|]. rewrite numeral_S. apply list.Forall_app. split.
  - destruct (n <? 10); [constructor|]. apply IH. zdm.
  - constructor; [|constructor]. pose proof (Z.mod_pos_bound n 10 ltac:(lia)). unfold digit, is_digit.
    rewrite (proj2 (Z.ltb_lt (n `mod` 10) 10)) by lia. lia.
Qed.

Lemma numeral_length k j n : 0 <= n < 10 ^ Z.of_nat j -> (0 < j)%nat -> (length (numeral_n k 10 n) <= j)%nat.
Proof.
  revert j n. induction k as [|k IH]; intros j n Hn Hj; [simpl; lia|]. rewrite numeral_S, length_app. simpl.
  destruct (n <? 10) eqn:E; boolify; [simpl; lia|]. destruct j as [|[|j]]; [lia|simpl in Hn; lia|].
  rewrite Nat2Z.inj_succ, Z.pow_succ_r in Hn by lia. specialize (IH (S j) (n / 10)). cut (length (numeral_n k 10 (n / 10)) <= S j)%nat; [lia|].
  apply IH; [zdm|lia].
Qed.

Lemma atoi_loop_digits ds val r :
  Forall is_digit ds -> atoi_loop (u32 val) (ds ++ 0 :: r) = Some (u32 (foldl (fun acc c => acc * 10 + (c - 48)) val ds)).
Proof.
  intros Hd. revert val. induction Hd as [|c ds Hc _ IH]; intros val; [done|]. cbn [app atoi_loop foldl].
  unfold is_digit in Hc. rewrite (proj2 (Z.eqb_neq c 0)) by lia.
  assert (strchr digits (s8 c) = Some (Some (Z.to_nat (c - 48)))) as ->.
  { assert (Forall (fun c => strchr digits (s8 c) = Some (Some (Z.to_nat (c - 48)))) (seqZ 48 10)) as Hf
      by (apply (bool_decide_unpack (Forall _ _)); by vm_compute).
    rewrite list.Forall_forall in Hf. apply Hf, elem_of_seqZ. lia. }
  cbn [mbind option_bind]. rewrite Z2Nat.id by lia. rewrite <- IH, u32_u32_add. f_equal.
  rewrite <- (u32_u32_add (u32 val * 10)). unfold u32. rewrite Zmult_mod_idemp_l. apply Zplus_mod_idemp_l.
Qed.

Lemma vprintf_sends {C} (send : list Z -> C -> C) (c : C) (fmt : list Z) (args : list arg) (out : list Z) :
  (forall c, send [] c = c) -> (forall s1 s2 c, send (s1 ++ s2) c = send s2 (send s1 c)) ->
  is_str fmt -> Forall piece_ok (parse None fmt) -> Forall arg_ok args ->
  render (parse None fmt) args = Some out ->
  __vprintf send c fmt args = Some (s32 (Z.of_nat (length out)), send out c).
Proof.
  intros Hn Ha Hf Hp Har Hr. unfold __vprintf.
  destruct (send_loop_renders send Hn Ha fmt None (idle c args 0) out) as (pf & E & E1 & E2); try done.
  change (__pf_endfield _) with (idle c args 0). rewrite E. cbn [mbind option_bind]. by rewrite E1, E2.
Qed.

(** C25: printf prints what man/libc/printf.html says, but for percent X.  For every format
    without that conversion, with field widths below 2^31, and every list of arguments
    that fits it, [__vprintf] sends exactly the text of the format: each character
    outside of a conversion as it is, and for each conversion the number in its base,
    the string or the character, with its prefix, filled up to the width on the side
    and with the character its flags ask for.  No assertion fails, every number fits in
    the buffer for it, and the result is the number of characters.  Percent X prints the
    letter X and takes no argument, where the page has the number in uppercase. *)
Theorem vprintf_renders {C} (send : list Z -> C -> C) (c : C) :
  (forall c, send [] c = c) -> (forall s1 s2 c, send (s1 ++ s2) c = send s2 (send s1 c)) ->
  (forall fmt args out,
     is_str fmt -> Forall piece_ok (parse None fmt) -> Forall arg_ok args ->
     render (parse None fmt) args = Some out ->
     __vprintf send c fmt args = Some (s32 (Z.of_nat (length out)), send out c)) /\
  (forall w, __vprintf send c [37; 88] [Word w] = Some (1, send [88] c) /\
     render (parse None [37; 88]) [Word w] = Some (uppercase <$> numeral 16 (u32 w))).
Proof.
  intros Hn Ha. split; [intros; by apply vprintf_sends|]. intros w. split.
  - vm_compute. by rewrite !Hn.
  - cbn [parse]. change (37 =? 37) with true. cbn iota.
    rewrite bool_decide_false by (apply (bool_decide_unpack (88 ∉ modifiers)); by vm_compute).
    cbn [render render_piece]. change (bool_decide (88 ∈ int_types)) with false. cbn [Z.eqb Pos.eqb mbind option_bind].
    unfold field. change (left_aligned []) with false. change (zeros []) with false. change (width []) with 0.
    change (alternate []) with false.
    rewrite Z2Nat.inj_0, Nat.sub_0_l. cbn [replicate app]. by rewrite app_nil_r.
Qed.

Lemma vsnprintf_renders (buf : list Z) (len : Z) fmt args out :
  0 <= len <= Z.of_nat (length buf) -> len < 2 ^ 32 ->
  is_str fmt -> Forall piece_ok (parse None fmt) -> Forall arg_ok args ->
  render (parse None fmt) args = Some out ->
  vsnprintf buf len fmt args = Some (s32 (Z.of_nat (length out)),
    if len =? 0 then buf else splice buf 0 (take (Z.to_nat (len - 1)) out ++ [0])).
Proof.
  intros Hl H32 Hf Hp Har Hr. unfold vsnprintf, __vprintf.
  set (L := if len =? 0 then 0 else len - 1).
  assert (0 <= L <= Z.of_nat (length buf) /\ L < 2 ^ 32) as HL by (unfold L; destruct (len =? 0) eqn:E; boolify; lia).
  destruct (send_loop_renders __snprintf_send ltac:(done) snprintf_send_app fmt None (idle (Some (Snp buf L 0)) args 0) out)
    as (pf & E & E1 & E2); try done.
  change (__pf_endfield _) with (idle (Some (Snp buf L 0)) args 0). rewrite E. cbn [mbind option_bind]. rewrite E1, E2.
  pose proof (snprintf_send_wp buf L [] out) as Hs. rewrite splice_nil in Hs. cbn [app] in Hs.
  change (clientdata (idle (Some (Snp buf L 0)) args 0)) with (Some (Snp buf L (Z.of_nat (@length Z [])))).
  rewrite Hs by (simpl; lia). cbn [mbind option_bind snp_bufpos snp_buf idle charcount]. rewrite Z.add_0_l.
  destruct (len =? 0) eqn:E0; boolify; unfold L in *; clear L Hs E E1 E2.
  - subst len. change (Z.to_nat 0) with 0%nat. rewrite take_0, splice_nil. done.
  - rewrite (proj2 (Z.ltb_lt 0 len)) by lia. set (o := take _ out).
    assert (Z.of_nat (length o) < len) as Ho by (unfold o; rewrite length_take; lia).
    rewrite length_splice by (simpl; lia). rewrite (proj2 (Z.ltb_lt _ _)) by lia. rewrite Nat2Z.id.
    rewrite insert_splice by (rewrite length_splice; simpl; lia).
    change (length o) with (0 + length o)%nat. by rewrite splice_adj_r by (simpl; lia).
Qed.

Definition percent_d : list Z := [37; 100].

Lemma render_d w : render (parse None percent_d) [Word w] =
  Some ((if s32 w <? 0 then [45] else []) ++ numeral 10 (Z.abs (s32 w))).
Proof.
  change (parse None percent_d) with [Conv [] 100]. cbn [render render_piece].
  change (bool_decide (100 ∈ int_types)) with true. cbn iota. cbn [mbind option_bind].
  change (number [] 100 w) with (field [] (if s32 w <? 0 then [45] else []) (numeral 10 (Z.abs (s32 w)))).
  unfold field. change (left_aligned []) with false. change (zeros []) with false. change (width []) with 0.
  rewrite Z2Nat.inj_0, Nat.sub_0_l. cbn [replicate app]. by rewrite app_nil_r.
Qed.

(** The format "<%-6s|%#06x>%d%%", with a string and two numbers. *)
Definition demo_format : list Z :=
  [60; 37; 45; 54; 115; 124; 37; 35; 48; 54; 120; 62; 37; 100; 37; 37].
Definition demo_args : list arg := [Str (Some [97; 98]); Word 255; Word (2 ^ 32 - 7)].
Definition demo_out : list Z :=
  [60; 97; 98; 32; 32; 32; 32; 124; 48; 120; 48; 48; 102; 102; 62; 45; 55; 37].

Lemma vprintf_renders_witness :
  __vprintf (fun s c => c ++ s) [] demo_format demo_args = Some (18, demo_out).
Proof.
  apply (vprintf_renders (fun s c => c ++ s) []) with (out := demo_out).
  - intros c. apply app_nil_r.
  - intros s1 s2 c. apply app_assoc.
  - apply (bool_decide_unpack (is_str _)). by vm_compute.
  - change (parse None demo_format) with
      [Lit 60; Conv [45; 54] 115; Lit 124; Conv [35; 48; 54] 120; Lit 62; Conv [] 100; Conv [] 37].
    repeat constructor; discriminate.
  - repeat constructor.
  - by vm_compute.
Defined.

(** C26: snprintf keeps to its buffer, and numbers come back.  For every format and list of
    arguments as in [vprintf_renders] and every length up to the size of the buffer,
    [snprintf] stores the text, cut to one character less than the length, and a zero
    after it, and nothing behind; with length 0 it stores nothing, not even the zero.  It returns the
    length of the whole text.  Every int that is printed with percent d into at least 12
    bytes is what atoi reads from there. *)
Theorem snprintf_exact (buf : list Z) (len : Z) :
  0 <= len <= Z.of_nat (length buf) -> len < 2 ^ 32 ->
  (forall fmt args out, is_str fmt -> Forall piece_ok (parse None fmt) -> Forall arg_ok args ->
     render (parse None fmt) args = Some out ->
     snprintf buf len fmt args = Some (s32 (Z.of_nat (length out)),
       if len =? 0 then buf else splice buf 0 (take (Z.to_nat (len - 1)) out ++ [0]))) /\
  (12 <= len -> forall n, is_s32 n -> exists r buf',
     snprintf buf len percent_d [Word (u32 n)] = Some (r, buf') /\ atoi buf' = Some n).
Proof.
  intros Hl H32. unfold snprintf. split; [intros; by apply vsnprintf_renders|]. intros H12 n Hn.
  assert (s32 (u32 n) = n) as En by (unfold is_s32 in Hn; unfold s32, u32; zdm).
  eexists _, _. split.
  { apply vsnprintf_renders; [done|done| | |by repeat constructor|apply render_d].
    - apply (bool_decide_unpack (is_str _)). by vm_compute.
    - by repeat constructor. }
  rewrite (proj2 (Z.eqb_neq len 0)) by lia. rewrite En. unfold numeral.
  assert (0 <= Z.abs n < 10 ^ Z.of_nat 10) as Ha by (unfold is_s32 in Hn; simpl; lia).
  pose proof (numeral_length 12 10 (Z.abs n) Ha ltac:(lia)) as Hlen. unfold splice. rewrite take_0. cbn [app].
  pose proof (numeral_digits 12 (Z.abs n) ltac:(lia)) as Hd. pose proof (numeral_value 12 (Z.abs n) ltac:(simpl; lia)) as Hv.
  set (ds := numeral_n 12 10 (Z.abs n)) in *. assert (exists d l, ds = d :: l /\ is_digit d) as (d & l & Ed & Hd0).
  { destruct ds as [|d l] eqn:E; [|apply list.Forall_cons in Hd as [? _]; eauto].
    exfalso. apply (f_equal length) in E. unfold ds in E. rewrite numeral_S, length_app in E. simpl in E. lia. }
  assert (forall r, atoi_loop 0 (ds ++ 0 :: r) = Some (u32 (Z.abs n))) as Hat.
  { intros r. pose proof (atoi_loop_digits ds 0 r Hd) as E. fold (value ds) in E. by rewrite Hv in E. }
  unfold is_digit in Hd0. unfold atoi. destruct (n <? 0) eqn:E0; boolify; cbn [app].
  - rewrite firstn_all2 by (simpl; lia). cbn [app skip_space Z.eqb Pos.eqb orb mbind option_bind].
    rewrite <- app_assoc. cbn [app]. cbn [lookup list_lookup mbind option_bind]. simpl Z.eqb. cbn iota. simpl drop.
    rewrite drop_0, Hat. cbn [mbind option_bind].
    f_equal. unfold u32, s32, is_s32 in *. zdm.
  - rewrite firstn_all2 by (simpl; lia). rewrite <- app_assoc. cbn [app]. rewrite Ed. cbn [app skip_space].
    rewrite (proj2 (Z.eqb_neq d 32)), (proj2 (Z.eqb_neq d 9)) by lia. cbn [orb mbind option_bind lookup list_lookup].
    rewrite (proj2 (Z.eqb_neq d 45)) by lia. rewrite app_comm_cons, <- Ed. rewrite Hat. cbn [mbind option_bind].
    f_equal. unfold u32, s32, is_s32 in *. zdm.
Qed.

Lemma snprintf_exact_witness :
  exists r buf, snprintf (replicate 16 0) 12 percent_d [Word (u32 (- 2 ^ 31))] = Some (r, buf) /\ atoi buf = Some (- 2 ^ 31).
Proof. apply (snprintf_exact (replicate 16 0) 12); [simpl; lia|lia|lia|unfold is_s32; lia]. Defined.

(** The name [vfs_setbootfs] works on: at most 254 bytes of the one it is given. *)
Lemma snprintf_name (s buf : list Z) :
  is_str s -> Z.of_nat (length s) < 2 ^ 31 -> length buf = 256%nat ->
  exists r, snprintf buf 255 [37; 115] [Str (Some s)] = Some (r, splice buf 0 (take 254 s ++ [0])).
Proof.
  intros Hs Hl Hb. eexists. apply (vsnprintf_renders buf 255); [lia|done| | |by repeat constructor|].
  - apply (bool_decide_unpack (is_str _)). by vm_compute.
  - by repeat constructor.
  - change (parse None [37; 115]) with [Conv [] 115]. cbn [render render_piece].
    change (bool_decide (115 ∈ int_types)) with false. cbn iota. cbn [mbind option_bind Z.eqb Pos.eqb].
    unfold field. change (left_aligned []) with false. change (zeros []) with false. change (width []) with 0.
    rewrite Z2Nat.inj_0, Nat.sub_0_l. cbn [replicate app]. by rewrite app_nil_r.
Qed.
