(* ===== verification/Serial.v ===== *)
(** * The console (kern/dev/generic/console.c) on its serial port (kern/dev/lamebus/lser.c)

    Characters go out one at a time: a thread waits for the semaphore [cs_wsem], hands
    its character to the card, and the card's interrupt gives the semaphore back.  Code
    that may not sleep (an interrupt handler, or with interrupts off) polls the card
    instead, in the middle of what threads are doing.  Characters come in by an
    interrupt, which stores them in [cs_gotchar] and does V on [cs_rsem].

    The machine [step] runs one uninterruptible piece of code at a time, or one action
    of the card, in any order.  The card sends what is written to its character
    register, then raises the write interrupt until its status register is written; a
    character that comes in raises the read interrupt.  A character that is written
    while another one is being sent, or waiting for a card that has nothing to send, is
    [None], like a panic. *)

From stdpp Require Import base option list numbers.
From S2P Require Import Prelude.

(** ** The card *)

Record card := Card {
  c_sending : option Z;
  c_wirq : bool;                 (* LSER_IRQ_ACTIVE of LSER_REG_WIRQ *)
  c_rirq : bool;                 (* and of LSER_REG_RIRQ *)
  c_rchar : Z;
  c_out : list Z;                (* what was sent *)
}.

Definition write_char (ch : Z) (c : card) : option card :=
  match c_sending c with
  | Some _ => None
  | None => Some (Card (Some ch) (c_wirq c) (c_rirq c) (c_rchar c) (c_out c))
  end.

(** Writing LSER_IRQ_ENABLE to a status register. *)
Definition clear_wirq (c : card) : card := Card (c_sending c) false (c_rirq c) (c_rchar c) (c_out c).
Definition clear_rirq (c : card) : card := Card (c_sending c) (c_wirq c) false (c_rchar c) (c_out c).

(** The character is out; a character comes in. *)
Definition card_sent (c : card) : option card :=
  match c_sending c with
  | None => None
  | Some ch => Some (Card None true (c_rirq c) (c_rchar c) (c_out c ++ [ch]))
  end.
Definition card_recv (ch : Z) (c : card) : card := Card (c_sending c) (c_wirq c) true ch (c_out c).

(** ** The state *)

(** [s_writers]: the characters of the threads in [putch_intr] that have got [cs_wsem]
    and have not called [cs_send] yet; [s_log]: what was handed to the card, and whether it
    was by polling. *)
Record serial := Serial {
  ls_wbusy : bool;
  ls_card : card;
  cs_rsem : Z;
  cs_wsem : Z;
  cs_gotchar : Z;
  s_writers : list Z;
  s_log : list (bool * Z);
}.

Definition set_card (c : card) (s : serial) : serial :=
  Serial (ls_wbusy s) c (cs_rsem s) (cs_wsem s) (cs_gotchar s) (s_writers s) (s_log s).
Definition set_wbusy (b : bool) (s : serial) : serial :=
  Serial b (ls_card s) (cs_rsem s) (cs_wsem s) (cs_gotchar s) (s_writers s) (s_log s).
Definition set_wsem (n : Z) (s : serial) : serial :=
  Serial (ls_wbusy s) (ls_card s) (cs_rsem s) n (cs_gotchar s) (s_writers s) (s_log s).
Definition set_rsem (n : Z) (s : serial) : serial :=
  Serial (ls_wbusy s) (ls_card s) n (cs_wsem s) (cs_gotchar s) (s_writers s) (s_log s).
Definition set_gotchar (ch : Z) (s : serial) : serial :=
  Serial (ls_wbusy s) (ls_card s) (cs_rsem s) (cs_wsem s) ch (s_writers s) (s_log s).
Definition set_writers (l : list Z) (s : serial) : serial :=
  Serial (ls_wbusy s) (ls_card s) (cs_rsem s) (cs_wsem s) (cs_gotchar s) l (s_log s).
Definition log (polled : bool) (ch : Z) (s : serial) : serial :=
  Serial (ls_wbusy s) (ls_card s) (cs_rsem s) (cs_wsem s) (cs_gotchar s) (s_writers s) (s_log s ++ [(polled, ch)]).

(** Writing to LSER_REG_CHAR. *)
Definition bus_write_char (polled : bool) (ch : Z) (s : serial) : option serial :=
  c ← write_char ch (ls_card s); Some (log polled ch (set_card c s)).

(** ** console.c, called by the port *)

Definition con_input (ch : Z) (s : serial) : serial :=
  let s := set_gotchar ch s in set_rsem (cs_rsem s + 1) s.

Definition con_start (s : serial) : serial := set_wsem (cs_wsem s + 1) s.

(** ** lser.c *)

Definition lser_irq (s : serial) : serial :=
  let clear_to_write := c_wirq (ls_card s) in
  let s := if clear_to_write then set_card (clear_wirq (ls_card s)) (set_wbusy false s) else s in
  let got_a_read := c_rirq (ls_card s) in
  let ch := c_rchar (ls_card s) in
  let s := if got_a_read then set_card (clear_rirq (ls_card s)) s else s in
  let s := if clear_to_write then con_start s else s in
  if got_a_read then con_input ch s else s.

Definition lser_write (ch : Z) (s : serial) : option serial :=
  if ls_wbusy s then None                                    (* panic *)
  else bus_write_char false ch (set_wbusy true s).

(** The loop ends when the card has sent its character. *)
Definition lser_spin_until_write (s : serial) : option serial :=
  if c_wirq (ls_card s) then Some s
  else c ← card_sent (ls_card s); Some (set_card c s).

Definition lser_writepolled (ch : Z) (s : serial) : option serial :=
  let irqpending := ls_wbusy s in
  s ← (if ls_wbusy s then
         s ← lser_spin_until_write s;
         Some (set_card (clear_wirq (ls_card s)) s)
       else Some s);
  s ← bus_write_char true ch s;
  s ← lser_spin_until_write s;
  Some (if negb irqpending then set_card (clear_wirq (ls_card s)) s else s).

(** ** console.c, called by threads *)

(** [putch_intr], up to and after the return of P. *)
Definition putch_P (ch : Z) (s : serial) : serial :=
  set_writers (s_writers s ++ [ch]) (set_wsem (cs_wsem s - 1) s).
Definition putch_send (s : serial) : option serial :=
  match s_writers s with
  | [] => Some s
  | ch :: l => lser_write ch (set_writers l s)
  end.

(** [putch_polled]. *)
Definition putch_polled (ch : Z) (s : serial) : option serial := lser_writepolled ch s.

(** [getch_intr]: P returns, and then the character is read. *)
Definition getch_P (s : serial) : serial := set_rsem (cs_rsem s - 1) s.
Definition getch_read (s : serial) : Z := cs_gotchar s.

(** ** The machine *)

Inductive label :=
| Putch (ch : Z)               (* a thread gets through P in putch_intr *)
| Send                         (* a thread in putch_intr calls cs_send *)
| Polled (ch : Z)              (* putch in an interrupt handler, or with interrupts off *)
| Getch                        (* a thread gets through P in getch_intr *)
| Sent                         (* the card has sent its character *)
| Recv (ch : Z)                (* a character comes in *)
| Irq.                         (* the interrupt of the card *)

Definition enabled (l : label) (s : serial) : bool :=
  match l with
  | Putch _ => 0 <? cs_wsem s
  | Send => negb (bool_decide (s_writers s = []))
  | Getch => 0 <? cs_rsem s
  | Sent => bool_decide (is_Some (c_sending (ls_card s)))
  | Irq => c_wirq (ls_card s) || c_rirq (ls_card s)
  | Polled _ | Recv _ => true
  end.

Definition step (l : label) (s : serial) : option serial :=
  match l with
  | Putch ch => Some (putch_P ch s)
  | Send => putch_send s
  | Polled ch => putch_polled ch s
  | Getch => Some (getch_P s)
  | Sent => c ← card_sent (ls_card s); Some (set_card c s)
  | Recv ch => Some (set_card (card_recv ch (ls_card s)) s)
  | Irq => Some (lser_irq s)
  end.

(** The state [config_lser] and [config_con] leave. *)
Definition serial_start : serial := Serial false (Card None false false 0 []) 0 1 0 [] [].

(** [sreach t s]: the steps [t] lead to [s]. *)
Inductive sreach : list label -> serial -> Prop :=
| sreach_start : sreach [] serial_start
| sreach_step t s l s' : sreach t s -> enabled l s = true -> step l s = Some s' -> sreach (t ++ [l]) s'.

(** The characters that threads, and code that polls, have put. *)
Definition put_by (polled : bool) (t : list label) : list Z :=
  omap (fun l => match l with
                 | Putch ch => if polled then None else Some ch
                 | Polled ch => if polled then Some ch else None
                 | _ => None
                 end) t.
Definition handed (polled : bool) (s : serial) : list Z :=
  (filter (fun x => x.1 = polled) (s_log s)).*2.

(** ** The invariant

    There is one token: it is in [cs_wsem], or with a thread that is about to send, or
    with the port while it is busy; and the port is busy as long as the card sends or
    has its write interrupt on. *)
Record serial_ok (s : serial) : Prop := {
  so_token : cs_wsem s + Z.of_nat (length (s_writers s)) + (if ls_wbusy s then 1 else 0) = 1;
  so_wsem : 0 <= cs_wsem s;
  so_busy : if ls_wbusy s then (if c_wirq (ls_card s) then c_sending (ls_card s) = None
                                else is_Some (c_sending (ls_card s)))
            else c_wirq (ls_card s) = false /\ c_sending (ls_card s) = None;
  so_log : (s_log s).*2 = c_out (ls_card s) ++ option_list (c_sending (ls_card s));
  so_rsem : 0 <= cs_rsem s;
}.

Lemma lser_irq_ok s : serial_ok s -> serial_ok (lser_irq s).
Proof.
  intros [Ht Hw Hb Hl Hr]. destruct s as [wb [sd wi ri rc out] rs ws gc wr lg]. unfold lser_irq. cbn in *.
  destruct wi, ri, wb; cbn in *; try (by destruct Hb); subst; constructor; cbn; try done; try lia; by destruct Hb.
Qed.

Lemma lser_writepolled_ok ch s :
  serial_ok s -> exists s', lser_writepolled ch s = Some s' /\ serial_ok s' /\ s_log s' = s_log s ++ [(true, ch)] /\
    s_writers s' = s_writers s /\ c_sending (ls_card s') = None /\ ls_wbusy s' = ls_wbusy s.
Proof.
  intros [Ht Hw Hb Hl Hr]. destruct s as [wb [sd wi ri rc out] rs ws gc wr lg]. unfold lser_writepolled, lser_spin_until_write.
  cbn in *. destruct wb; [destruct wi|]; cbn in *.
  - subst sd. cbn. eexists. split; [done|]. split; [|done]. constructor; cbn; try done; try lia. by rewrite fmap_app, Hl, !app_nil_r.
  - destruct Hb as [c ->]. cbn in *. eexists. split; [done|]. split; [|done].
    constructor; cbn; try done; try lia. by rewrite ?fmap_app, Hl, app_nil_r.
  - destruct Hb as [-> ->]. cbn in *. eexists. split; [done|]. split; [|done].
    constructor; cbn; try done; try lia. by rewrite fmap_app, Hl, !app_nil_r.
Qed.

Lemma step_serial_ok l s : serial_ok s -> enabled l s = true -> exists s', step l s = Some s' /\ serial_ok s'.
Proof.
  intros Hok He. destruct l as [ch| |ch| | |ch|]; cbn [step].
  3:{ destruct (lser_writepolled_ok ch s Hok) as (s' & E & ? & _). by exists s'. }
  6:{ eexists. split; [done|]. by apply lser_irq_ok. }
  all: destruct Hok as [Ht Hw Hb Hl Hr]; destruct s as [wb [sd wi ri rc out] rs ws gc wr lg]; cbn in *.
  - boolify. eexists. split; [done|]. constructor; cbn; try done; try lia. rewrite length_app. simpl. lia.
  - unfold putch_send, lser_write, bus_write_char. cbn. destruct wr as [|ch wr]; [done|]. cbn in *.
    destruct wb; [lia|]. destruct Hb as [-> ->]. cbn. eexists. split; [done|]. constructor; cbn; try done; try lia.
    by rewrite ?fmap_app, Hl, app_nil_r.
  - boolify. eexists. split; [done|]. constructor; cbn; try done; try lia.
  - boolify. destruct He as [c ->]. cbn. eexists. split; [done|]. destruct wb; [|by destruct Hb].
    constructor; cbn; try done; try lia. by rewrite ?fmap_app, Hl, app_nil_r.
  - eexists. split; [done|]. by constructor.
Qed.

Lemma sreach_ok t s : sreach t s -> serial_ok s.
Proof.
  induction 1 as [|t s l s' _ IH He Es]; [by constructor|].
  destruct (step_serial_ok l s IH He) as (s1 & E & Hok). congruence.
Qed.

(** ** What is printed *)

Lemma lser_irq_log s : s_log (lser_irq s) = s_log s /\ s_writers (lser_irq s) = s_writers s.
Proof. unfold lser_irq. by destruct (c_wirq (ls_card s)); cbn; destruct (c_rirq (ls_card s)). Qed.

Lemma handed_snoc b s s' p ch :
  s_log s' = s_log s ++ [(p, ch)] -> handed b s' = handed b s ++ (if bool_decide (p = b) then [ch] else []).
Proof.
  intros E. unfold handed. rewrite E, list.filter_app, fmap_app. f_equal. rewrite list.filter_cons. simpl.
  case_decide; by case_bool_decide.
Qed.

Lemma step_streams l s s' :
  serial_ok s -> enabled l s = true -> step l s = Some s' ->
  handed false s' ++ s_writers s' = (handed false s ++ s_writers s) ++ put_by false [l] /\
  handed true s' = handed true s ++ put_by true [l].
Proof.
  intros Hok He Es. destruct l as [ch| |ch| | |ch|]; cbn [step] in Es.
  - injection Es as <-. split; [by rewrite <- app_assoc|by rewrite app_nil_r].
  - unfold putch_send, lser_write, bus_write_char in Es. destruct s as [wb c rs ws gc wr lg]. cbn in *.
    destruct wr as [|ch wr]; [done|]. cbn in Es. destruct wb; [done|]. destruct (write_char ch c) as [c'|]; [|done].
    injection Es as <-. rewrite !app_nil_r. split; [|by rewrite (handed_snoc true (Serial false c rs ws gc wr lg) _ false ch), app_nil_r].
    rewrite (handed_snoc false (Serial false c rs ws gc wr lg) _ false ch) by done. cbn. by rewrite <- app_assoc.
  - destruct (lser_writepolled_ok ch s Hok) as (s1 & E & _ & El & Ew & _). unfold putch_polled in Es.
    rewrite E in Es. injection Es as <-. rewrite !(handed_snoc _ s s1 true ch El), Ew. cbn. by rewrite !app_nil_r.
  - injection Es as <-. by rewrite !app_nil_r.
  - apply bind_Some in Es as (c & _ & [= <-]). by rewrite !app_nil_r.
  - injection Es as <-. by rewrite !app_nil_r.
  - injection Es as <-. destruct (lser_irq_log s) as [E1 E2]. unfold handed. rewrite E1, E2. by rewrite !app_nil_r.
Qed.

Lemma sreach_streams t s :
  sreach t s -> handed false s ++ s_writers s = put_by false t /\ handed true s = put_by true t.
Proof.
  induction 1 as [|t s l s' Hs [IH1 IH2] He Es]; [done|].
  destruct (step_streams l s s' (sreach_ok t s Hs) He Es) as [E1 E2]. unfold put_by. rewrite !omap_app.
  fold (put_by false t) (put_by true t) (put_by false [l]) (put_by true [l]). by rewrite E1, E2, IH1, IH2.
Qed.

(** Steps of the thread that is about to send, of the card and of its interrupt, in a row. *)
Fixpoint steps (t : list label) (s : serial) : option serial :=
  match t with
  | [] => Some s
  | l :: t => ASSERT enabled l s ;; s ← step l s; steps t s
  end.

Definition drains (l : label) : Prop := l = Send \/ l = Sent \/ l = Irq.

Lemma serial_drains s : serial_ok s ->
  exists t s', (length t <= 3)%nat /\ Forall drains t /\ steps t s = Some s' /\ cs_wsem s' = 1 /\
    s_writers s' = [] /\ (s_log s').*2 = c_out (ls_card s').
Proof.
  intros [Ht Hw Hb Hl Hr]. destruct s as [wb [sd wi ri rc out] rs ws gc wr lg]. cbn in *.
  assert (Forall drains [Send; Sent; Irq] /\ Forall drains [Sent; Irq] /\ Forall drains [Irq] /\ Forall drains []) as (D3 & D2 & D1 & D0).
  { unfold drains. split_and!; repeat (apply List.Forall_cons; [tauto|]); apply List.Forall_nil. }
  destruct wb.
  - assert (wr = []) as -> by (destruct wr; [done|simpl in Ht; lia]). destruct wi.
    + subst sd. exists [Irq]. destruct ri; (eexists; split; [simpl; lia|]; split; [done|]; split; [done|]; cbn in *; split; [lia|]; by rewrite Hl, app_nil_r).
    + destruct Hb as [c ->]. exists [Sent; Irq]. destruct ri; (eexists; split; [simpl; lia|]; split; [done|]; split; [done|]; cbn in *; split; [lia|done]).
  - destruct Hb as [-> ->]. destruct wr as [|ch wr].
    + exists []. eexists. split; [simpl; lia|]. split; [done|]. split; [done|]. cbn in *. split; [lia|]. by rewrite Hl, app_nil_r.
    + assert (wr = []) as -> by (destruct wr; [done|simpl in Ht; lia]). exists [Send; Sent; Irq].
      destruct ri; (eexists; split; [simpl; lia|]; split; [done|]; split; [done|]; cbn in *; split; [lia|]; split; [done|]; by rewrite fmap_app, Hl, app_nil_r).
Qed.

(** C18: The console prints everything once and in order.  Whatever threads, interrupt
    handlers and code with interrupts off print, and whenever the card finishes a
    character or one comes in: no step panics, no character is written to a card that
    is sending, and no polling loop waits for ever; what the card has sent, with the
    character it is sending, is what it was handed; the characters of threads and those
    that were polled are each handed over in the order they were put, without loss or
    repetition; and after at most three steps of the writer, the card and its interrupt
    the next thread can print. *)
Theorem console_prints (t : list label) (s : serial) :
  sreach t s ->
  (forall l, enabled l s = true -> step l s <> None) /\
  (s_log s).*2 = c_out (ls_card s) ++ option_list (c_sending (ls_card s)) /\
  handed false s ++ s_writers s = put_by false t /\ handed true s = put_by true t /\
  (exists t' s', (length t' <= 3)%nat /\ Forall drains t' /\ steps t' s = Some s' /\ cs_wsem s' = 1 /\
     s_writers s' = [] /\ (s_log s').*2 = c_out (ls_card s')).
Proof.
  intros Hs. pose proof (sreach_ok t s Hs) as Hok. destruct (sreach_streams t s Hs) as [E1 E2].
  split; [intros l He; destruct (step_serial_ok l s Hok He) as (s' & -> & _); done|].
  split; [apply Hok|]. split; [done|]. split; [done|]. by apply serial_drains.
Qed.

Definition demo_trace : list label := [Putch 97; Polled 33; Send; Polled 34; Recv 120; Irq; Putch 98].

Lemma sreach_steps t s t' s' : sreach t s -> steps t' s = Some s' -> sreach (t ++ t') s'.
Proof.
  revert t s. induction t' as [|l t' IH]; intros t s Hs E; cbn [steps] in E.
  - injection E as <-. by rewrite app_nil_r.
  - destruct (enabled l s) eqn:He; [|done]. apply bind_Some in E as (s1 & E1 & E).
    change (l :: t') with ([l] ++ t'). rewrite app_assoc. eapply IH; [|done]. by eapply sreach_step.
Qed.

Lemma console_prints_witness :
  exists s, sreach demo_trace s /\ handed false s ++ s_writers s = [97; 98] /\ handed true s = [33; 34].
Proof.
  destruct (steps demo_trace serial_start) as [s|] eqn:E; [|by vm_compute in E].
  pose proof (sreach_steps [] serial_start demo_trace s sreach_start E) as Hs. exists s. split; [exact Hs|].
  destruct (console_prints demo_trace s Hs) as (_ & _ & E1 & E2 & _). split; [exact E1|exact E2].
Defined.

(** C38: What is read from the console.  A character that comes in when all earlier ones
    have been read is what [getch] returns.  Of two that come in before a thread reads,
    both calls of [getch] return the second: the first is lost, and the second is read
    twice. *)
Theorem console_reads (t : list label) (s : serial) (a b : Z) :
  sreach t s -> cs_rsem s = 0 ->
  (exists s', steps [Recv a; Irq; Getch] s = Some s' /\ getch_read s' = a /\ cs_rsem s' = 0) /\
  (exists s1 s2, steps [Recv a; Irq; Recv b; Irq; Getch] s = Some s1 /\ getch_read s1 = b /\
     steps [Getch] s1 = Some s2 /\ getch_read s2 = b /\ cs_rsem s2 = 0).
Proof.
  intros _ Hr. destruct s as [wb [sd wi ri rc out] rs ws gc wr lg]. cbn in Hr. subst rs.
  destruct wi; (split; [eexists; split; [cbv; reflexivity|]; done|eexists _, _; split; [cbv; reflexivity|]; split; [done|]; split; [cbv; reflexivity|done]]).
Qed.

Lemma console_reads_witness :
  exists s1 s2, steps [Recv 97; Irq; Recv 98; Irq; Getch] serial_start = Some s1 /\ getch_read s1 = 98 /\
    steps [Getch] s1 = Some s2 /\ getch_read s2 = 98 /\ cs_rsem s2 = 0.
Proof. apply (console_reads [] serial_start 97 98 sreach_start eq_refl). Defined.
