(* ===== verification/Console.v ===== *)
(** * Printing and reading lines on the console

    The part of kern/dev/generic/console.c that does not depend on the card, kprintf
    (kern/lib/kprintf.c), beep (kern/dev/generic/beep.c) and kgets (kern/lib/kgets.c).
    Characters that are sent, by interrupts or by polling, come out in order (file
    [Serial]); here they are appended to [con_out], and what is typed is [con_in].  A call
    that waits for ever, for a character that is never typed or for a lock that is held,
    is [None] like a panic.  A char is its byte. *)

From Stdlib Require Import String Ascii.
From stdpp Require Import base option list numbers.
From S2P Require Import Prelude Cstring Uio Printf.

(** The bytes of a string literal. *)
Definition c_str (s : string) : list Z := map (fun a => Z.of_N (N_of_ascii a)) (list_ascii_of_string s).

Definition DELAYBUFSIZE : Z := 1024.

(** The globals.  A lock is [None] before it is created, and then says whether it is
    held; [delayed_outbuf] has the characters before [delayed_outbuf_pos]. *)
Record console := Con {
  the_console : bool;
  con_userlock_read : option bool;
  con_userlock_write : option bool;
  delayed_outbuf : list Z;
  the_beep : bool;
  kprintf_lock : option bool;
  in_interrupt : bool;
  curspl : Z;
  con_in : list Z;
  con_out : list Z;
  con_beeps : Z;
}.

Definition set_delayed (l : list Z) (c : console) : console :=
  Con (the_console c) (con_userlock_read c) (con_userlock_write c) l (the_beep c) (kprintf_lock c)
    (in_interrupt c) (curspl c) (con_in c) (con_out c) (con_beeps c).
Definition set_attached (c : console) : console :=
  Con true (Some false) (Some false) (delayed_outbuf c) (the_beep c) (kprintf_lock c)
    (in_interrupt c) (curspl c) (con_in c) (con_out c) (con_beeps c).
Definition set_userlock (rw : uio_rw_t) (l : option bool) (c : console) : console :=
  Con (the_console c) (match rw with UIO_READ => l | UIO_WRITE => con_userlock_read c end)
    (match rw with UIO_READ => con_userlock_write c | UIO_WRITE => l end) (delayed_outbuf c) (the_beep c)
    (kprintf_lock c) (in_interrupt c) (curspl c) (con_in c) (con_out c) (con_beeps c).
Definition set_kprintf_lock (l : option bool) (c : console) : console :=
  Con (the_console c) (con_userlock_read c) (con_userlock_write c) (delayed_outbuf c) (the_beep c) l
    (in_interrupt c) (curspl c) (con_in c) (con_out c) (con_beeps c).
Definition set_in (l : list Z) (c : console) : console :=
  Con (the_console c) (con_userlock_read c) (con_userlock_write c) (delayed_outbuf c) (the_beep c) (kprintf_lock c)
    (in_interrupt c) (curspl c) l (con_out c) (con_beeps c).
Definition set_out (l : list Z) (c : console) : console :=
  Con (the_console c) (con_userlock_read c) (con_userlock_write c) (delayed_outbuf c) (the_beep c) (kprintf_lock c)
    (in_interrupt c) (curspl c) (con_in c) l (con_beeps c).
Definition set_beeps (n : Z) (c : console) : console :=
  Con (the_console c) (con_userlock_read c) (con_userlock_write c) (delayed_outbuf c) (the_beep c) (kprintf_lock c)
    (in_interrupt c) (curspl c) (con_in c) (con_out c) n.

(** [lock_acquire] and [lock_release] on a lock that only the caller uses. *)
Definition acquire (l : option bool) : option (option bool) :=
  match l with Some false => Some (Some true) | _ => None end.
Definition release (l : option bool) : option (option bool) :=
  match l with Some true => Some (Some false) | _ => None end.

(** ** console.c *)

Definition putch_delayed (ch : Z) (c : console) : option console :=
  ASSERT Z.of_nat (length (delayed_outbuf c)) <? DELAYBUFSIZE ;;
  Some (set_delayed (delayed_outbuf c ++ [u8 ch]) c).

(** The card sends the low 8 bits. *)
Definition cs_send (ch : Z) (c : console) : console := set_out (con_out c ++ [u8 ch]) c.
Definition cs_sendpolled (ch : Z) (c : console) : console := set_out (con_out c ++ [u8 ch]) c.

Definition putch (ch : Z) (c : console) : option console :=
  if negb (the_console c) then putch_delayed ch c
  else if in_interrupt c || (0 <? curspl c) then Some (cs_sendpolled ch c)
  else Some (cs_send ch c).

Fixpoint flush_loop (l : list Z) (c : console) : option console :=
  match l with
  | [] => Some c
  | ch :: l => c ← putch ch c; flush_loop l c
  end.

Definition flush_delay_buf (c : console) : option console :=
  c ← flush_loop (delayed_outbuf c) c; Some (set_delayed [] c).

(** [got] says whether the two semaphores and the two locks could be created; those that
    were created before one that could not are destroyed again.  [attached] is what
    [attach_console_to_vfs] returned. *)
Definition config_con (unit : Z) (got : bool) (attached : Z) (c : console) : option (Z * console) :=
  if 0 <? unit then ASSERT the_console c ;; Some (ENODEV, c)
  else
    ASSERT negb (the_console c) ;;
    if negb got then Some (ENOMEM, c)
    else c ← flush_delay_buf (set_attached c); Some (attached, c).

Definition getch (c : console) : option (Z * console) :=
  ASSERT the_console c ;;
  ASSERT negb (in_interrupt c) && (curspl c =? 0) ;;
  match con_in c with
  | [] => None
  | ch :: l => Some (ch, set_in l c)
  end.

(** The loop of [con_io]; every turn moves a byte or returns. *)
Fixpoint con_io_loop (fuel : nat) (u : uio) (v : vm) (c : console) : option (Z * uio * vm * console) :=
  if 0 <? uio_resid u then
    match fuel with
    | O => None
    | S fuel =>
        match uio_rw u with
        | UIO_READ =>
            '(ch, c) ← getch c;
            let ch := u8 ch in
            let ch := if ch =? 13 then 10 else ch in
            '(result, _, u, v) ← uiomove [ch] 1 u v;
            if negb (result =? 0) then Some (result, u, v, c)
            else if ch =? 10 then Some (0, u, v, c)
            else con_io_loop fuel u v c
        | UIO_WRITE =>
            '(result, p, u, v) ← uiomove [0] 1 u v;
            if negb (result =? 0) then Some (result, u, v, c)
            else
              ch ← p !! 0%nat;
              c ← (if ch =? 10 then putch 13 c else Some c);
              c ← putch ch c;
              con_io_loop fuel u v c
        end
    end
  else Some (0, u, v, c).

Definition con_io (u : uio) (v : vm) (c : console) : option (Z * uio * vm * console) :=
  let lk c := match uio_rw u with UIO_READ => con_userlock_read c | UIO_WRITE => con_userlock_write c end in
  l ← acquire (lk c);
  let c := set_userlock (uio_rw u) l c in
  '(result, u', v, c) ← con_io_loop (Z.to_nat (uio_resid u)) u v c;
  l ← release (lk c);
  Some (result, u', v, set_userlock (uio_rw u) l c).

(** ** kprintf.c and beep.c *)

Fixpoint console_send (data : list Z) (c : option console) : option console :=
  match data with
  | [] => c
  | ch :: data => console_send data (c ← c; putch ch c)
  end.

Definition kprintf_locks (c : console) : bool :=
  bool_decide (is_Some (kprintf_lock c)) && negb (in_interrupt c) && (curspl c =? 0).

Definition kprintf_bootstrap (c : console) : option console :=
  ASSERT bool_decide (kprintf_lock c = None) ;; Some (set_kprintf_lock (Some false) c).

Definition kprintf (fmt : list Z) (args : list arg) (c : console) : option (Z * console) :=
  c ← (if kprintf_locks c then l ← acquire (kprintf_lock c); Some (set_kprintf_lock l c) else Some c);
  '(chars, c) ← __vprintf console_send (Some c) fmt args;
  c ← c;
  c ← (if kprintf_locks c then l ← release (kprintf_lock c); Some (set_kprintf_lock l c) else Some c);
  Some (chars, c).

Definition no_beep_msg : list Z := c_str "beep: Warning: no beep device" ++ [10].

Definition beep (c : console) : option console :=
  if the_beep c then Some (set_beeps (con_beeps c + 1) c)
  else '(_, c) ← kprintf no_beep_msg [] c; Some c.

(** ** kgets.c *)

Definition backsp (c : console) : option console :=
  c ← putch 8 c; c ← putch 32 c; putch 8 c.

(** The loops of ^U and ^W. *)
Fixpoint erase_line (pos : nat) (c : console) : option console :=
  match pos with
  | O => Some c
  | S pos => c ← backsp c; erase_line pos c
  end.

Fixpoint erase_while (p : Z -> bool) (buf : list Z) (pos : nat) (c : console) : option (nat * console) :=
  match pos with
  | O => Some (O, c)
  | S pos' =>
      ch ← buf !! pos';
      if p ch then c ← backsp c; erase_while p buf pos' c else Some (pos, c)
  end.

Definition store (i : nat) (ch : Z) (buf : list Z) : option (list Z) :=
  ASSERT bool_decide (i < length buf)%nat ;; Some (<[i := ch]> buf).

Definition reprint_format : list Z := c_str "^R" ++ [10] ++ c_str "%s".

(** One turn of the loop: whether it ends, [pos] and [buf]. *)
Definition kgets_key (ch maxlen : Z) (pos : nat) (buf : list Z) (c : console) :
    option (bool * nat * list Z * console) :=
  if (ch =? 10) || (ch =? 13) then c ← putch 10 c; Some (true, pos, buf, c)
  else if (32 <=? ch) && (ch <? 127) && (Z.of_nat pos <? u32 (maxlen - 1)) then
    c ← putch ch c; buf ← store pos ch buf; Some (false, S pos, buf, c)
  else if ((ch =? 8) || (ch =? 127)) && (0 <? Z.of_nat pos) then
    c ← backsp c; Some (false, Nat.pred pos, buf, c)
  else if ch =? 3 then
    c ← putch 94 c; c ← putch 67 c; c ← putch 10 c; Some (true, O, buf, c)
  else if ch =? 18 then
    buf ← store pos 0 buf;
    '(_, c) ← kprintf reprint_format [Str (Some (cstr buf))] c;
    Some (false, pos, buf, c)
  else if ch =? 21 then c ← erase_line pos c; Some (false, O, buf, c)
  else if ch =? 23 then
    '(pos, c) ← erase_while (fun x => x =? 32) buf pos c;
    '(pos, c) ← erase_while (fun x => negb (x =? 32)) buf pos c;
    Some (false, pos, buf, c)
  else c ← beep c; Some (false, pos, buf, c).

Fixpoint kgets_loop (fuel : nat) (maxlen : Z) (pos : nat) (buf : list Z) (c : console) : option (nat * list Z * console) :=
  match fuel with
  | O => None
  | S fuel =>
      '(ch, c) ← getch c;
      '(stop, pos, buf, c) ← kgets_key ch maxlen pos buf c;
      if stop : bool then Some (pos, buf, c) else kgets_loop fuel maxlen pos buf c
  end.

(** Every turn reads a character, so that a turn more than there are characters does not
    happen. *)
Definition kgets (buf : list Z) (maxlen : Z) (c : console) : option (list Z * console) :=
  '(pos, buf, c) ← kgets_loop (S (length (con_in c))) maxlen 0 buf c;
  buf ← store pos 0 buf;
  Some (buf, c).
