(* ===== verification/ConsoleSpec.v ===== *)
(** * What the console shows, and what kgets and con_io return

    A terminal as long lines ([term]) reads what the kernel prints; [edit] is what a key
    does to the line that is being typed. *)

From Stdlib Require Import String.
From stdpp Require Import base option list gmap numbers.
From S2P Require Import Prelude Cstring Uio Printf PrintfSpec Console.

(** ** What is printed *)

(** [l] is printed and [n] beeps sound. *)
Definition con_put (l : list Z) (n : Z) (c : console) : console :=
  set_beeps (con_beeps c + n) (set_out (con_out c ++ l) c).

Lemma con_put_put l1 l2 n1 n2 c : con_put l2 n2 (con_put l1 n1 c) = con_put (l1 ++ l2) (n1 + n2) c.
Proof. unfold con_put, set_beeps, set_out. simpl. by rewrite app_assoc, Z.add_assoc. Qed.

Lemma con_put_nil c : con_put [] 0 c = c.
Proof. destruct c. unfold con_put, set_beeps, set_out. simpl. by rewrite app_nil_r, Z.add_0_r. Qed.

Lemma u8_byte b : is_byte b -> u8 b = b.
Proof. unfold is_byte, u8. intros. by apply Z.mod_small. Qed.

Lemma putch_put ch c : the_console c = true -> is_byte ch -> putch ch c = Some (con_put [ch] 0 c).
Proof.
  intros Hc Hb. unfold putch, cs_send, cs_sendpolled, con_put. rewrite Hc, (u8_byte ch Hb). simpl.
  unfold set_beeps. simpl. rewrite Z.add_0_r. by destruct (in_interrupt c || (0 <? curspl c)).
Qed.

Lemma putch_late ch c : the_console c = false -> is_byte ch -> Z.of_nat (length (delayed_outbuf c)) < 1024 ->
  putch ch c = Some (set_delayed (delayed_outbuf c ++ [ch]) c).
Proof.
  intros Hc Hb Hl. unfold putch, putch_delayed, DELAYBUFSIZE. rewrite Hc. simpl.
  rewrite (proj2 (Z.ltb_lt _ _) Hl). by rewrite u8_byte.
Qed.

Lemma flush_loop_put l c : the_console c = true -> Forall is_byte l -> flush_loop l c = Some (con_put l 0 c).
Proof.
  revert c. induction l as [|ch l IH]; intros c Hc Hl; cbn [flush_loop]; [by rewrite con_put_nil|].
  apply list.Forall_cons in Hl as [Hch Hl]. rewrite putch_put by done. cbn [mbind option_bind].
  rewrite IH by done. by rewrite con_put_put.
Qed.

Lemma console_send_app l1 l2 c : console_send (l1 ++ l2) c = console_send l2 (console_send l1 c).
Proof. revert c. induction l1 as [|ch l1 IH]; intros c; [done|]. cbn [app console_send]. apply IH. Qed.

Lemma console_send_None l : console_send l None = None.
Proof. induction l as [|ch l IH]; [done|]. cbn. exact IH. Qed.

Lemma console_send_put l c : the_console c = true -> Forall is_byte l -> console_send l (Some c) = Some (con_put l 0 c).
Proof.
  revert c. induction l as [|ch l IH]; intros c Hc Hl; cbn [console_send]; [by rewrite con_put_nil|].
  apply list.Forall_cons in Hl as [Hch Hl]. cbn [mbind option_bind]. rewrite putch_put by done.
  rewrite IH by done. by rewrite con_put_put.
Qed.

Lemma console_send_late l c : the_console c = false -> Forall is_byte l ->
  Z.of_nat (length (delayed_outbuf c)) <= 1024 ->
  console_send l (Some c) =
    if Z.of_nat (length (delayed_outbuf c ++ l)) <=? 1024 then Some (set_delayed (delayed_outbuf c ++ l) c) else None.
Proof.
  revert c. induction l as [|ch l IH]; intros c Hc Hl Hn; cbn [console_send].
  - rewrite app_nil_r, (proj2 (Z.leb_le _ _) Hn). by destruct c.
  - apply list.Forall_cons in Hl as [Hch Hl]. cbn [mbind option_bind].
    destruct (decide (Z.of_nat (length (delayed_outbuf c)) < 1024)) as [Hlt|Hge].
    + rewrite putch_late by done. rewrite IH; [|done|done|cbn; rewrite length_app; simpl; lia].
      cbn. by rewrite <- app_assoc.
    + unfold putch, putch_delayed, DELAYBUFSIZE. rewrite Hc. simpl.
      rewrite (proj2 (Z.ltb_ge _ _)) by lia. rewrite console_send_None.
      rewrite (proj2 (Z.leb_gt _ _)); [done|]. rewrite length_app. simpl. lia.
Qed.

(** ** kprintf *)

(** The message [(fmt, args)] is the text [out]. *)
Definition says (msg : list Z * list arg) (out : list Z) : Prop :=
  is_str msg.1 /\ Forall piece_ok (parse None msg.1) /\ Forall arg_ok msg.2 /\
  render (parse None msg.1) msg.2 = Some out /\ Forall is_byte out.

Definition unlocked (c : console) : Prop := kprintf_lock c <> Some true.

Lemma putch_lock ch k c : putch ch (set_kprintf_lock k c) = set_kprintf_lock k <$> putch ch c.
Proof.
  unfold putch, putch_delayed. cbn. destruct (the_console c); cbn; [by destruct (in_interrupt c || (0 <? curspl c))|].
  by destruct (Z.of_nat (length (delayed_outbuf c)) <? DELAYBUFSIZE).
Qed.

Lemma console_send_lock l k c :
  console_send l (Some (set_kprintf_lock k c)) = set_kprintf_lock k <$> console_send l (Some c).
Proof.
  revert c. induction l as [|ch l IH]; intros c; [done|]. cbn [console_send mbind option_bind]. rewrite putch_lock.
  destruct (putch ch c) as [c'|]; cbn [fmap option_fmap option_map]; [apply IH|]. by rewrite console_send_None.
Qed.

Definition env (c : console) : option bool * bool * Z := (kprintf_lock c, in_interrupt c, curspl c).

Lemma putch_env ch c c' : putch ch c = Some c' -> env c' = env c.
Proof.
  unfold putch, putch_delayed. intros E. repeat case_match; simplify_eq/=; done.
Qed.

Lemma console_send_env l c c' : console_send l (Some c) = Some c' -> env c' = env c.
Proof.
  revert c. induction l as [|ch l IH]; intros c E; cbn [console_send mbind option_bind] in E; [by injection E as <-|].
  destruct (putch ch c) as [c1|] eqn:E1; [|by rewrite console_send_None in E].
  rewrite (IH c1 E). by eapply putch_env.
Qed.

Lemma set_kprintf_lock_id c : set_kprintf_lock (kprintf_lock c) c = c.
Proof. by destruct c. Qed.

Lemma kprintf_says msg out c : says msg out -> unlocked c ->
  kprintf msg.1 msg.2 c = (c' ← console_send out (Some c); Some (s32 (Z.of_nat (length out)), c')).
Proof.
  intros (Hf & Hp & Ha & Hr & _) Hu. unfold kprintf.
  assert (forall c, __vprintf console_send (Some c) msg.1 msg.2 = Some (s32 (Z.of_nat (length out)), console_send out (Some c))) as Ev.
  { intros c0. apply vprintf_sends; [done|intros; apply console_send_app|done..]. }
  destruct (kprintf_locks c) eqn:El; cbn [mbind option_bind].
  - assert (kprintf_lock c = Some false) as Ek.
    { unfold kprintf_locks in El. unfold unlocked in Hu. destruct (kprintf_lock c) as [[]|]; [done|done|].
      by rewrite bool_decide_eq_false_2 in El by (by intros [? ?]). }
    rewrite Ek. cbn [acquire mbind option_bind]. rewrite Ev. cbn [mbind option_bind]. rewrite console_send_lock.
    destruct (console_send out (Some c)) as [c'|] eqn:Ec; [|done]. cbn [fmap option_fmap option_map mbind option_bind].
    pose proof (console_send_env _ _ _ Ec) as He. injection He as He1 He2 He3.
    unfold kprintf_locks in *. cbn [set_kprintf_lock kprintf_lock in_interrupt curspl]. rewrite He2, He3.
    rewrite Ek in El. change (bool_decide (is_Some (Some true))) with true. change (bool_decide (is_Some (Some false))) with true in El.
    rewrite El. cbn [release mbind option_bind]. do 2 f_equal. rewrite Ek in He1.
    destruct c' as [? ? ? ? ? k ? ? ? ? ?]. cbn in He1. by subst k.
  - rewrite Ev. cbn [mbind option_bind]. destruct (console_send out (Some c)) as [c'|] eqn:Ec; [|done].
    cbn [mbind option_bind]. pose proof (console_send_env _ _ _ Ec) as He. injection He as He1 He2 He3.
    replace (kprintf_locks c') with false; [done|]. unfold kprintf_locks in *. by rewrite He1, He2, He3.
Qed.

Lemma kprintf_put msg out c : says msg out -> unlocked c -> the_console c = true ->
  kprintf msg.1 msg.2 c = Some (s32 (Z.of_nat (length out)), con_put out 0 c).
Proof. intros Hs Hu Hc. rewrite (kprintf_says msg out) by done. rewrite console_send_put; [done|done|apply Hs]. Qed.

(** ** Before the console is found *)

Fixpoint print_all (msgs : list (list Z * list arg)) (c : console) : option console :=
  match msgs with
  | [] => Some c
  | msg :: msgs => '(_, c) ← kprintf msg.1 msg.2 c; print_all msgs c
  end.

Lemma print_all_put msgs outs c :
  Forall2 says msgs outs -> unlocked c -> the_console c = true -> print_all msgs c = Some (con_put (concat outs) 0 c).
Proof.
  intros Hs. revert c. induction Hs as [|msg out msgs outs H1 Hs IH]; intros c Hu Hc; cbn [print_all concat].
  - by rewrite con_put_nil.
  - rewrite (kprintf_put msg out) by done. cbn [mbind option_bind]. rewrite IH by done. by rewrite con_put_put.
Qed.

Lemma print_all_late msgs outs c :
  Forall2 says msgs outs -> unlocked c -> the_console c = false -> Z.of_nat (length (delayed_outbuf c)) <= 1024 ->
  print_all msgs c = if Z.of_nat (length (delayed_outbuf c ++ concat outs)) <=? 1024
    then Some (set_delayed (delayed_outbuf c ++ concat outs) c) else None.
Proof.
  intros Hs. revert c. induction Hs as [|msg out msgs outs H1 Hs IH]; intros c Hu Hc Hn; cbn [print_all concat].
  - rewrite app_nil_r, (proj2 (Z.leb_le _ _) Hn). by destruct c.
  - rewrite (kprintf_says msg out) by done. rewrite console_send_late by (done || apply H1).
    destruct (Z.of_nat (length (delayed_outbuf c ++ out)) <=? 1024) eqn:E; boolify; cbn [mbind option_bind].
    + rewrite IH; [|done|done|exact E]. cbn [delayed_outbuf set_delayed]. by rewrite <- app_assoc.
    + rewrite (proj2 (Z.leb_gt _ _)); [done|]. rewrite !length_app in *. lia.
Qed.

(** C24: Nothing printed while the kernel starts is lost.  What is printed before the console
    is found, up to the 1024 characters of the buffer, comes out before everything that
    is printed afterwards, in order; one character more and the kernel stops.  This is
    so for messages with any formats and arguments that fit them, with the lock of
    kprintf created and free or not created, in interrupt handlers and with interrupts
    off.  When [config_con] has no memory for the console, what was printed stays in the
    buffer; a second console is refused and changes nothing. *)
Theorem boot_prints (c : console) (early later : list (list Z * list arg)) (outs outs' : list (list Z)) (attached : Z) :
  the_console c = false -> delayed_outbuf c = [] -> unlocked c ->
  Forall2 says early outs -> Forall2 says later outs' ->
  (Z.of_nat (length (concat outs)) <= 1024 ->
     exists c1 c2 c3, print_all early c = Some c1 /\
       config_con 0 false attached c1 = Some (ENOMEM, c1) /\ delayed_outbuf c1 = concat outs /\
       config_con 0 true attached c1 = Some (attached, c2) /\ delayed_outbuf c2 = [] /\
       config_con 1 true attached c2 = Some (ENODEV, c2) /\
       print_all later c2 = Some c3 /\ con_out c3 = con_out c ++ concat outs ++ concat outs') /\
  (1024 < Z.of_nat (length (concat outs)) -> print_all early c = None).
Proof.
  intros Hc Hd Hu H1 H2. rewrite (print_all_late early outs c) by (done || by rewrite Hd; simpl; lia). rewrite Hd. cbn [app].
  split; intros Hn; [|by rewrite (proj2 (Z.leb_gt _ _))].
  rewrite (proj2 (Z.leb_le _ _) Hn). set (c1 := set_delayed (concat outs) c).
  assert (the_console c1 = false) as Hc1 by done.
  set (c2 := set_delayed [] (con_put (concat outs) 0 (set_attached c1))).
  assert (config_con 0 true attached c1 = Some (attached, c2)) as E2.
  { unfold config_con, flush_delay_buf. rewrite Hc1. simpl Z.ltb. cbn iota. cbn [negb].
    change (delayed_outbuf (set_attached c1)) with (concat outs). rewrite flush_loop_put; [done|done|].
    clear -H1. induction H1 as [|? ? ? ? Hs _ IH]; [by constructor|]. simpl. apply list.Forall_app. split; [apply Hs|done]. }
  eexists c1, c2, _. split; [done|]. split; [unfold config_con; by rewrite Hc1|]. do 4 (split; [done|]).
  split; [by apply print_all_put|]. cbn. by rewrite <- app_assoc.
Qed.

(** ** kgets: the terminal *)

(** The line the cursor is in, and its column. *)
Record term := Term { t_line : list Z; t_col : nat }.

Definition term_put (t : term) (ch : Z) : term :=
  if ch =? 8 then Term (t_line t) (Nat.pred (t_col t))
  else if ch =? 10 then Term [] 0
  else Term (take (t_col t) (t_line t) ++ [ch] ++ drop (S (t_col t)) (t_line t)) (S (t_col t)).

Definition screen (t : term) (out : list Z) : term := foldl term_put t out.

(** The line [t] after the prompt [p], with [k] blanks behind, and the cursor after it. *)
Definition shows (p t : list Z) (k : nat) : term := Term (p ++ t ++ replicate k 32) (length p + length t).

Lemma screen_app t o1 o2 : screen t (o1 ++ o2) = screen (screen t o1) o2.
Proof. apply foldl_app. Qed.

Lemma shows_type p t k ch : 32 <= ch -> screen (shows p t k) [ch] = shows p (t ++ [ch]) (Nat.pred k).
Proof.
  intros Hch. unfold screen, shows, term_put. cbn [foldl t_line t_col].
  rewrite (proj2 (Z.eqb_neq ch 8)), (proj2 (Z.eqb_neq ch 10)) by lia. rewrite length_app. simpl. f_equal; [|lia].
  rewrite app_assoc, <- length_app, take_app_length. rewrite <- !app_assoc. cbn [app]. do 3 f_equal.
  rewrite app_assoc, drop_app_ge by (rewrite length_app; lia). rewrite length_app.
  replace (S (length p + length t) - (length p + length t))%nat with 1%nat by lia. destruct k; [done|]. simpl. by rewrite drop_0.
Qed.

Lemma shows_backsp p t k x : screen (shows p (t ++ [x]) k) [8; 32; 8] = shows p t (S k).
Proof.
  unfold screen, shows, term_put. cbn [foldl t_line t_col Z.eqb Pos.eqb Nat.pred].
  replace (Nat.pred (length p + length (t ++ [x]))) with (length (p ++ t)) by (rewrite !length_app; simpl; lia).
  rewrite <- (app_assoc t), (app_assoc p), take_app_length.
  f_equal; [|rewrite length_app; done]. rewrite <- app_assoc. cbn [app]. do 2 f_equal. cbn [replicate]. f_equal.
  rewrite drop_app_ge by lia.
  replace (S (length (p ++ t)) - length (p ++ t))%nat with 1%nat by lia. simpl. by rewrite drop_0.
Qed.

(** ** kgets: what the keys do *)

Fixpoint drop_while (q : Z -> bool) (l : list Z) : list Z :=
  match l with
  | [] => []
  | x :: l' => if q x then drop_while q l' else l
  end.

(** Characters off the end of a line, as long as they satisfy [q]. *)
Definition strip (q : Z -> bool) (t : list Z) : list Z := rev (drop_while q (rev t)).

Definition is_space (x : Z) : bool := x =? 32.
Definition not_space (x : Z) : bool := negb (x =? 32).

Definition is_text (ch : Z) : Prop := 32 <= ch < 127.
#[global] Instance is_text_dec ch : Decision (is_text ch).
Proof. unfold is_text. apply _. Defined.

(** A key that ends the line: newline, return and ^C. *)
Definition ends_line (ch : Z) : bool := (ch =? 10) || (ch =? 13) || (ch =? 3).

(** What the other keys do to the line: a character is added if it fits; backspace and
    delete take one off, ^U all, ^W a word and the blanks after it. *)
Definition edit (maxlen : Z) (t : list Z) (ch : Z) : list Z :=
  if bool_decide (is_text ch) then (if Z.of_nat (length t) + 1 <? maxlen then t ++ [ch] else t)
  else if (ch =? 8) || (ch =? 127) then take (Nat.pred (length t)) t
  else if ch =? 21 then []
  else if ch =? 23 then strip not_space (strip is_space t)
  else t.

(** ^R starts a line without a prompt. *)
Definition prompt (p : list Z) (ch : Z) : list Z := if ch =? 18 then [] else p.

Lemma strip_snoc q t x : strip q (t ++ [x]) = if q x then strip q t else t ++ [x].
Proof.
  unfold strip. rewrite rev_app_distr. cbn [rev app drop_while]. destruct (q x); [done|].
  cbn [rev]. by rewrite rev_involutive.
Qed.

Lemma strip_prefix q t : exists r, t = strip q t ++ r.
Proof.
  induction t as [|x t [r IH]] using rev_ind; [by exists []|]. rewrite strip_snoc.
  destruct (q x); [exists (r ++ [x]); by rewrite app_assoc, <- IH|exists []; by rewrite app_nil_r].
Qed.

Section kgets.
Context (maxlen : Z) (buf0 : list Z).
Context (Hmax : 1 <= maxlen <= Z.of_nat (length buf0)) (H31 : maxlen < 2 ^ 31).

(** The buffer while the line is [t]. *)
Definition holds (buf t : list Z) : Prop :=
  length buf = length buf0 /\ drop (Z.to_nat maxlen) buf = drop (Z.to_nat maxlen) buf0 /\
  take (length t) buf = t /\ Z.of_nat (length t) < maxlen /\ Forall is_text t.

Lemma holds_prefix buf t t' r : holds buf t -> t = t' ++ r -> holds buf t'.
Proof.
  intros (Hl & Hd & Ht & Hn & Hx) ->. rewrite length_app in Hn. split; [done|]. split; [done|]. split; [|split; [lia|]].
  - rewrite length_app in Ht. apply (f_equal (take (length t'))) in Ht.
    rewrite take_take, take_app_length in Ht. by rewrite Nat.min_l in Ht by lia.
  - by apply list.Forall_app in Hx as [? _].
Qed.

Lemma holds_store buf t ch : holds buf t ->
  store (length t) ch buf = Some (<[length t := ch]> buf) /\
  (forall t', t' = t \/ t' = t ++ [ch] /\ is_text ch /\ Z.of_nat (length t) + 1 < maxlen -> holds (<[length t := ch]> buf) t') /\
  take (S (length t)) (<[length t := ch]> buf) = t ++ [ch].
Proof.
  intros (Hl & Hd & Ht & Hn & Hx). unfold store. rewrite bool_decide_eq_true_2 by lia. split; [done|].
  assert (take (S (length t)) (<[length t := ch]> buf) = t ++ [ch]) as E.
  { rewrite (take_S_r _ _ ch) by (apply list_lookup_insert_eq; lia). by rewrite take_insert_ge, Ht by lia. }
  split; [|done]. intros t' Ht'. split; [by rewrite length_insert|]. split; [by rewrite drop_insert_lt by lia|].
  destruct Ht' as [->|(-> & Hc & Hf)].
  - split; [by rewrite take_insert_ge by lia|]. by split; [lia|].
  - rewrite length_app. simpl. split; [by rewrite Nat.add_1_r|]. split; [lia|]. apply list.Forall_app. split; [done|]. by constructor.
Qed.

Lemma backsp_put c : the_console c = true -> backsp c = Some (con_put [8; 32; 8] 0 c).
Proof.
  intros Hc. unfold backsp. rewrite putch_put by done. cbn [mbind option_bind]. rewrite putch_put by done.
  cbn [mbind option_bind]. rewrite putch_put by done. by rewrite !con_put_put.
Qed.

Lemma erase_line_put t c : the_console c = true ->
  exists o, erase_line (length t) c = Some (con_put o 0 c) /\
    forall p k, exists k', screen (shows p t k) o = shows p [] k'.
Proof.
  revert c. induction t as [|x t IH] using rev_ind; intros c Hc.
  - exists []. cbn. rewrite con_put_nil. split; [done|]. intros p k. by exists k.
  - rewrite length_app, Nat.add_1_r. cbn [erase_line]. rewrite backsp_put by done. cbn [mbind option_bind].
    destruct (IH (con_put [8; 32; 8] 0 c) Hc) as (o & -> & Ho). exists ([8; 32; 8] ++ o). rewrite con_put_put.
    split; [done|]. intros p k. destruct (Ho p (S k)) as [k' E]. exists k'. by rewrite screen_app, shows_backsp.
Qed.

Lemma erase_while_put q buf t c : the_console c = true -> take (length t) buf = t ->
  exists o, erase_while q buf (length t) c = Some (length (strip q t), con_put o 0 c) /\
    forall p k, exists k', screen (shows p t k) o = shows p (strip q t) k'.
Proof.
  revert c. induction t as [|x t IH] using rev_ind; intros c Hc Ht.
  - exists []. cbn. rewrite con_put_nil. split; [done|]. intros p k. by exists k.
  - rewrite length_app, Nat.add_1_r in Ht. rewrite length_app, Nat.add_1_r. cbn [erase_while].
    assert (buf !! length t = Some x) as ->.
    { rewrite <- (lookup_take_lt _ (S (length t))) by lia. rewrite Ht. by apply list_lookup_middle. }
    cbn [mbind option_bind]. rewrite strip_snoc. destruct (q x).
    + rewrite backsp_put by done. cbn [mbind option_bind].
      destruct (IH (con_put [8; 32; 8] 0 c) Hc) as (o & -> & Ho).
      { apply (f_equal (take (length t))) in Ht. rewrite take_take, take_app_length in Ht. by rewrite Nat.min_l in Ht by lia. }
      exists ([8; 32; 8] ++ o). rewrite con_put_put. split; [done|]. intros p k. destruct (Ho p (S k)) as [k' E].
      exists k'. by rewrite screen_app, shows_backsp.
    + exists []. rewrite con_put_nil, length_app, Nat.add_1_r. split; [done|]. intros p k. by exists k.
Qed.

Lemma reprint_says t : is_str t -> Z.of_nat (length t) < 2 ^ 31 ->
  says (reprint_format, [Str (Some t)]) ([94; 82; 10] ++ t).
Proof.
  intros Ht Hl. unfold says. cbn [fst snd]. change (parse None reprint_format) with [Lit 94; Lit 82; Lit 10; Conv [] 115].
  split; [apply (bool_decide_unpack (is_str _)); by vm_compute|]. split; [by repeat constructor|].
  split; [by repeat constructor|]. split.
  - cbn [render render_piece]. change (bool_decide (115 ∈ int_types)) with false. cbn [Z.eqb Pos.eqb mbind option_bind].
    unfold field. change (left_aligned []) with false. change (zeros []) with false. change (width []) with 0.
    rewrite Z2Nat.inj_0, Nat.sub_0_l. cbn [replicate app]. by rewrite app_nil_r.
  - repeat (apply List.Forall_cons; [done|]). eapply list.Forall_impl; [exact Ht|]. by intros ? [? _].
Qed.

Lemma text_str t : Forall is_text t -> is_str t.
Proof. intros Ht. eapply list.Forall_impl; [exact Ht|]. unfold is_text, is_byte. simpl. lia. Qed.

Lemma text_byte ch : is_text ch -> is_byte ch.
Proof. unfold is_text, is_byte. lia. Qed.

(** A console on which one can type. *)
Definition typable (c : console) : Prop :=
  the_console c = true /\ the_beep c = true /\ unlocked c /\ in_interrupt c = false /\ curspl c = 0.

(** What one key does: to the buffer, and to the screen. *)
Definition key_done (ch : Z) (t buf : list Z) (c : console) (res : option (bool * nat * list Z * console)) : Prop :=
  exists buf' o n, let t' := edit maxlen t ch in
    res = Some (false, length t', buf', con_put o n c) /\ holds buf' t' /\
    forall p k, exists k', screen (shows p t k) o = shows (prompt p ch) t' k'.

Lemma key_beep ch t buf c : typable c -> holds buf t -> edit maxlen t ch = t -> ch <> 18 ->
  key_done ch t buf c (c ← beep c; Some (false, length t, buf, c)).
Proof.
  intros (_ & Hb & _) Hh He H18. unfold key_done. rewrite He. exists buf, [], 1. unfold beep. rewrite Hb. cbn [mbind option_bind].
  split; [|split; [done|]].
  - do 2 f_equal. unfold con_put, set_beeps, set_out. simpl. rewrite app_nil_r. by destruct c.
  - intros p k. exists k. unfold prompt. by rewrite (proj2 (Z.eqb_neq ch 18)).
Qed.

Lemma key_reprint t buf c : typable c -> holds buf t -> Z.of_nat (length t) < 2 ^ 31 ->
  key_done 18 t buf c (buf ← store (length t) 0 buf;
    '(_, c) ← kprintf reprint_format [Str (Some (cstr buf))] c; Some (false, length t, buf, c)).
Proof.
  intros (Hc & _ & Hu & _) Hh Hl. destruct (holds_store buf t 0 Hh) as (-> & Hh' & Et). cbn [mbind option_bind].
  assert (Forall is_text t) as Hx by apply Hh.
  assert (cstr (<[length t := 0]> buf) = t) as ->.
  { rewrite <- (take_drop (S (length t)) (<[length t := 0]> buf)), Et, <- app_assoc. by apply cstr_str, text_str. }
  pose proof (kprintf_put _ _ c (reprint_says t (text_str t Hx) Hl) Hu Hc) as E. cbn [fst snd] in E. rewrite E.
  cbn [mbind option_bind]. exists (<[length t := 0]> buf), ([94; 82; 10] ++ t), 0. change (edit maxlen t 18) with t.
  split; [done|]. split; [apply Hh'; by left|]. intros p k. unfold prompt. cbn [Z.eqb Pos.eqb].
  rewrite screen_app. clear -Hx. set (T := screen _ [94; 82; 10]). assert (T = shows [] [] 0) as -> by (unfold T, screen, shows, term_put; by cbn).
  clear p k. exists 0%nat. induction t as [|x t IH] using rev_ind; [done|].
  apply list.Forall_app in Hx as [Hx Hxx]. apply list.Forall_cons in Hxx as [Hxx _]. rewrite screen_app, (IH Hx).
  unfold is_text in Hxx. by rewrite shows_type by lia.
Qed.

Lemma edit_text t ch : is_text ch -> edit maxlen t ch = if Z.of_nat (length t) + 1 <? maxlen then t ++ [ch] else t.
Proof. intros H. unfold edit. by rewrite bool_decide_eq_true_2. Qed.

Lemma key_text ch t buf c :
  typable c -> holds buf t -> is_text ch -> key_done ch t buf c (kgets_key ch maxlen (length t) buf c).
Proof.
  intros Hty Hh Htx. pose proof Hty as (Hc & _). pose proof Hh as (_ & _ & _ & Hn & _). unfold kgets_key. pose proof Htx as [Hc1 Hc2].
  assert (u32 (maxlen - 1) = maxlen - 1) as -> by (unfold u32; apply Z.mod_small; lia).
  rewrite (proj2 (Z.eqb_neq ch 10)), (proj2 (Z.eqb_neq ch 13)) by lia. cbn [orb].
  rewrite (proj2 (Z.leb_le 32 ch)), (proj2 (Z.ltb_lt ch 127)) by done. cbn [andb].
  pose proof (edit_text t ch Htx) as Ee. destruct (Z.of_nat (length t) <? maxlen - 1) eqn:Ef; boolify.
  - rewrite (proj2 (Z.ltb_lt _ _)) in Ee by lia. rewrite putch_put by (done || by apply text_byte). cbn [mbind option_bind].
    destruct (holds_store buf t ch Hh) as (-> & Hh' & _). cbn [mbind option_bind]. exists (<[length t := ch]> buf), [ch], 0.
    cbn zeta. rewrite Ee. split; [by rewrite length_app, Nat.add_1_r|]. split; [apply Hh'; right; split; [done|]; split; [done|lia]|].
    intros p k. exists (Nat.pred k). unfold prompt. rewrite (proj2 (Z.eqb_neq ch 18)) by lia. by apply shows_type.
  - rewrite (proj2 (Z.ltb_ge _ _)) in Ee by lia. repeat (rewrite (proj2 (Z.eqb_neq ch _)) by lia). cbn [orb andb].
    apply key_beep; [done|done|done|lia].
Qed.

Lemma kgets_key_done ch t buf c :
  typable c -> holds buf t -> ends_line ch = false ->
  key_done ch t buf c (kgets_key ch maxlen (length t) buf c).
Proof.
  intros Hty Hh He. pose proof Hty as (Hc & Hb & Hu & _). pose proof Hh as (Hl & Hd & Ht & Hn & Hx). unfold ends_line in He.
  destruct (decide (is_text ch)) as [Htx|Htx]; [by apply key_text|].
  apply orb_false_iff in He as [[He1%Z.eqb_neq He2%Z.eqb_neq]%orb_false_iff He3%Z.eqb_neq]. unfold kgets_key. rewrite (proj2 (Z.eqb_neq ch 10)), (proj2 (Z.eqb_neq ch 13)) by done. cbn [orb].
  replace ((32 <=? ch) && (ch <? 127)) with false.
  2:{ symmetry. apply andb_false_iff. unfold is_text in Htx. destruct (32 <=? ch) eqn:E1; boolify; [|by left]. right. apply Z.ltb_ge. lia. }
  cbn [andb]. destruct ((ch =? 8) || (ch =? 127)) eqn:Eb.
  { assert (edit maxlen t ch = take (Nat.pred (length t)) t) as Ee by (unfold edit; by rewrite bool_decide_eq_false_2, Eb by done).
    assert (ch <> 18) as H18 by (boolify; lia). destruct t as [|x t _] using rev_ind; cbn [length andb].
    - cbn [Z.of_nat Z.ltb Z.compare]. repeat (rewrite (proj2 (Z.eqb_neq ch _)) by (boolify; lia)). cbn [andb]. by apply key_beep.
    - rewrite length_app, Nat.add_1_r in *. cbn [Nat.pred] in Ee. rewrite take_app_length in Ee.
      rewrite (proj2 (Z.ltb_lt 0 _)) by lia. cbn [andb]. rewrite backsp_put by done. cbn [mbind option_bind Nat.pred].
      exists buf, [8; 32; 8], 0. cbn zeta. rewrite Ee. split; [done|]. split; [by eapply holds_prefix|].
      intros p k. exists (S k). unfold prompt. rewrite (proj2 (Z.eqb_neq ch 18)) by done. apply shows_backsp. }
  cbn [andb]. rewrite (proj2 (Z.eqb_neq ch 3)) by done.
  destruct (ch =? 18) eqn:E18; [apply Z.eqb_eq in E18 as ->; apply key_reprint; [done|done|lia]|].
  assert (forall t0, t0 = (if ch =? 21 then [] else if ch =? 23 then strip not_space (strip is_space t) else t) -> edit maxlen t ch = t0) as Ee.
  { intros t0 ->. unfold edit. by rewrite bool_decide_eq_false_2, Eb by done. }
  destruct (ch =? 21) eqn:E21.
  { destruct (erase_line_put t c Hc) as (o & -> & Ho). cbn [mbind option_bind]. exists buf, o, 0. cbn zeta. rewrite (Ee [] eq_refl).
    split; [done|]. split; [by eapply holds_prefix|]. intros p k. unfold prompt. rewrite E18. apply Ho. }
  destruct (ch =? 23) eqn:E23.
  { destruct (erase_while_put is_space buf t c Hc Ht) as (o & E1 & Ho). unfold is_space in E1 at 1. rewrite E1. cbn [mbind option_bind].
    destruct (strip_prefix is_space t) as [r1 Hr1]. pose proof (holds_prefix buf t _ r1 Hh Hr1) as Hh1.
    destruct (erase_while_put not_space buf (strip is_space t) (con_put o 0 c) Hc) as (o' & E2 & Ho'); [apply Hh1|].
    unfold not_space in E2 at 1. rewrite E2. cbn [mbind option_bind]. exists buf, (o ++ o'), 0. cbn zeta. rewrite (Ee _ eq_refl), con_put_put.
    split; [done|]. destruct (strip_prefix not_space (strip is_space t)) as [r2 Hr2]. split; [by eapply holds_prefix|].
    intros p k. unfold prompt. rewrite E18, screen_app. destruct (Ho p k) as [k1 ->]. apply Ho'. }
  apply key_beep; [done|done|by apply Ee|by apply Z.eqb_neq].
Qed.

Definition bye (stop : Z) : list Z := (if stop =? 3 then [94; 67] else []) ++ [10].

Lemma kgets_key_stop stop pos buf c : the_console c = true -> ends_line stop = true ->
  kgets_key stop maxlen pos buf c = Some (true, if stop =? 3 then O else pos, buf, con_put (bye stop) 0 c).
Proof.
  intros Hc Hs. unfold ends_line in Hs. apply orb_true_iff in Hs as [[->%Z.eqb_eq| ->%Z.eqb_eq]%orb_true_iff| ->%Z.eqb_eq];
    unfold kgets_key, bye; cbn [Z.eqb Pos.eqb orb andb Z.leb Z.compare Pos.compare Pos.compare_cont];
    repeat (rewrite putch_put by done; cbn [mbind option_bind]); by rewrite ?con_put_put.
Qed.

Lemma getch_in ch l c : typable c -> con_in c = ch :: l -> getch c = Some (ch, set_in l c).
Proof. intros (Hc & _ & _ & Hi & Hs) E. unfold getch. by rewrite Hc, Hi, Hs, E. Qed.

Lemma kgets_loop_done keys stop rest fuel t buf c :
  typable c -> holds buf t -> Forall (fun ch => ends_line ch = false) keys -> ends_line stop = true ->
  con_in c = keys ++ stop :: rest -> (length keys < fuel)%nat ->
  exists buf' o n, let t' := foldl (edit maxlen) t keys in
    kgets_loop fuel maxlen (length t) buf c =
      Some (if stop =? 3 then O else length t', buf', set_in rest (con_put (o ++ bye stop) n c)) /\ holds buf' t' /\
    forall p k, exists k', screen (shows p t k) o = shows (foldl prompt p keys) t' k'.
Proof.
  revert fuel t buf c. induction keys as [|ch keys IH]; intros fuel t buf c Hty Hh Hk Hs Ei Hf;
    (destruct fuel as [|fuel]; [simpl in Hf; lia|]); cbn [kgets_loop].
  - rewrite (getch_in stop rest) by done. cbn [mbind option_bind]. rewrite kgets_key_stop by (done || apply Hty). cbn [mbind option_bind].
    exists buf, [], 0. split; [done|]. split; [done|]. intros p k. by exists k.
  - apply list.Forall_cons in Hk as [Hch Hk]. rewrite (getch_in ch (keys ++ stop :: rest)) by done. cbn [mbind option_bind].
    destruct (kgets_key_done ch t buf (set_in (keys ++ stop :: rest) c) Hty Hh Hch) as (buf1 & o1 & n1 & -> & Hh1 & Ho1).
    cbn [mbind option_bind].
    destruct (IH fuel (edit maxlen t ch) buf1 (con_put o1 n1 (set_in (keys ++ stop :: rest) c))) as (buf' & o & n & -> & Hh' & Ho);
      [done|done|done|done|done|simpl in Hf; lia|].
    exists buf', (o1 ++ o), (n1 + n). rewrite con_put_put, <- app_assoc. split; [done|]. split; [done|].
    intros p k. destruct (Ho1 p k) as [k1 E1]. destruct (Ho (prompt p ch) k1) as [k2 E2]. exists k2. by rewrite screen_app, E1, E2.
Qed.
End kgets.

Lemma kgets_line (c : console) (buf keys rest p : list Z) (maxlen stop : Z) :
  typable c -> 1 <= maxlen <= Z.of_nat (length buf) -> maxlen < 2 ^ 31 ->
  Forall (fun ch => ends_line ch = false) keys -> ends_line stop = true -> con_in c = keys ++ stop :: rest ->
  exists buf' o n, let t := foldl (edit maxlen) [] keys in let t' := if stop =? 3 then [] else t in
    kgets buf maxlen c = Some (buf', set_in rest (con_put (o ++ bye stop) n c)) /\
    take (S (length t')) buf' = t' ++ [0] /\ Forall is_text t' /\ Z.of_nat (length t') < maxlen /\
    length buf' = length buf /\ drop (Z.to_nat maxlen) buf' = drop (Z.to_nat maxlen) buf /\
    exists k, screen (Term p (length p)) o = shows (foldl prompt p keys) t k.
Proof.
  intros Hty Hm H31 Hk Hs Ei. unfold kgets.
  assert (holds maxlen buf buf []) as Hh.
  { split; [done|]. split; [done|]. split; [done|]. split; [simpl; lia|]. constructor. }
  destruct (kgets_loop_done maxlen buf Hm H31 keys stop rest (S (length (con_in c))) [] buf c) as (buf1 & o & n & E & Hh1 & Ho);
    [done|done|done|done|done|rewrite Ei, length_app; lia|].
  cbn [length] in E. rewrite E. cbn [mbind option_bind]. set (t := foldl (edit maxlen) [] keys) in *.
  set (t' := if stop =? 3 then [] else t). replace (if stop =? 3 then 0%nat else length t) with (length t') by (unfold t'; by destruct (stop =? 3)).
  assert (holds maxlen buf buf1 t') as Hh' by (unfold t'; destruct (stop =? 3); [by eapply holds_prefix|done]).
  destruct (holds_store maxlen buf Hm buf1 t' 0 Hh') as (-> & Hst & Et). cbn [mbind option_bind].
  destruct (Hst t' ltac:(by left)) as (Hl & Hd & _ & Hn & Hx). eexists _, o, n. split; [done|].
  do 5 (split; [done|]). destruct (Ho p 0%nat) as [k Ek]. exists k. rewrite <- Ek. unfold shows. cbn [replicate app length].
  by rewrite app_nil_r, Nat.add_0_r.
Qed.


(** "ab x", ^W, delete, "c", and return. *)
Definition demo_keys : list Z := [97; 98; 32; 120; 23; 127; 99].
Definition demo_con : console := Con true (Some false) (Some false) [] true (Some false) false 0 (demo_keys ++ [13; 65]) [] 0.


(** ** con_io *)

Definition crlf (bs : list Z) : list Z := flat_map (fun ch => if ch =? 10 then [13; 10] else [ch]) bs.

(** What a read of [n] bytes takes of the input: up to a newline, return being one too;
    [None] if there is not enough. *)
Fixpoint typed (n : nat) (inp : list Z) : option (list Z) :=
  match n, inp with
  | O, _ => Some []
  | S _, [] => None
  | S n, ch :: inp =>
      if (ch =? 13) || (ch =? 10) then Some [10] else l ← typed n inp; Some (ch :: l)
  end.

Lemma typed_length n inp l : typed n inp = Some l -> (length l <= n)%nat.
Proof.
  revert inp l. induction n as [|n IH]; intros [|ch inp] l Hl; cbn in Hl; simplify_eq; [simpl; lia..|].
  destruct ((ch =? 13) || (ch =? 10)); [injection Hl as <-; simpl; lia|].
  apply bind_Some in Hl as (l1 & Hl & [= <-]). apply IH in Hl. simpl. lia.
Qed.

Lemma con_io_loop_write fuel u v c :
  uio_ok u v -> uio_rw u = UIO_WRITE -> the_console c = true -> (Z.to_nat (uio_resid u) <= fuel)%nat ->
  exists r bs u' v', con_io_loop fuel u v c = Some (r, u', v', con_put (crlf bs) 0 c) /\ uio_moved r bs u v u' v' /\
    (r = 0 /\ Z.of_nat (length bs) = uio_resid u \/
     r = EFAULT /\ Z.of_nat (length bs) < uio_resid u /\ ~ uio_good u v (Z.of_nat (length bs) + 1)).
Proof.
  revert u v c. induction fuel as [|fuel IH]; intros u v c Hu Hrw Hc Hf; cbn [con_io_loop];
    pose proof Hu as (_ & _ & [Hr0 _] & _); destruct (0 <? uio_resid u) eqn:E0; boolify; try lia.
  1,3: exists 0, [], u, v; rewrite con_put_nil; split; [done|]; split; [by apply uio_moved_refl|]; left; split; [done|simpl; lia].
  rewrite Hrw. destruct (uiomove_moved [0] 1 u v) as (r & bs1 & p & u1 & v1 & -> & Hm & Hlp & Hp & Hres); [done|lia|simpl; lia|by rewrite Hrw|].
  rewrite Hrw in Hp. cbn [mbind option_bind]. destruct Hres as [[-> Hl1]|(-> & -> & Hng)].
  2:{ exists EFAULT, [], u1, v1. rewrite con_put_nil. split; [done|]. split; [done|]. right. split; [done|]. split; [simpl; lia|done]. }
  rewrite (Hp eq_refl). destruct bs1 as [|b [|? ?]]; [simpl in Hl1; lia| |simpl in Hl1; lia]. cbn [negb Z.eqb splice take app lookup list_lookup mbind option_bind].
  assert (is_byte b) as Hb by (pose proof (uio_moved_bytes _ _ _ _ _ _ Hu Hrw Hm) as Hbs; by apply list.Forall_cons in Hbs as [? _]).
  assert (forall k, (c ← (if b =? 10 then putch 13 c else Some c); c ← putch b c; k c) = k (con_put (crlf [b]) 0 c)) as ->.
  { intros k. unfold crlf. cbn [flat_map app]. destruct (b =? 10) eqn:E; boolify; [subst b|].
    - rewrite putch_put by done. cbn [mbind option_bind]. rewrite putch_put by done. cbn [mbind option_bind]. by rewrite con_put_put.
    - cbn [mbind option_bind]. by rewrite putch_put by done. }
  assert (uio_ok u1 v1 /\ uio_rw u1 = UIO_WRITE /\ uio_resid u1 = uio_resid u - 1) as (Hu1 & Hrw1 & Er1).
  { destruct Hm as (-> & ? & _). split; [done|]. split; [done|]. by apply (uio_advance_resid 1 u v); [|lia]. }
  destruct (IH u1 v1 (con_put (crlf [b]) 0 c)) as (r & bs & u' & v' & -> & Hm' & Hres); [done|done|done|lia|].
  exists r, ([b] ++ bs), u', v'. split; [unfold crlf; by rewrite con_put_put, flat_map_app|].
  split; [by eapply uio_moved_trans|]. rewrite length_app. cbn [length].
  destruct Hres as [[-> Hl]|(-> & Hl & Hng)]; [left; split; [done|lia]|right]. split; [done|]. split; [lia|].
  intros Hg. apply Hng. eapply uio_good_rest; [exact Hu|exact Hm|exact Hg|lia|simpl; lia].
Qed.

Lemma con_io_loop_read fuel u v c l :
  uio_ok u v -> uio_rw u = UIO_READ -> typable c -> Forall is_byte (con_in c) -> (Z.to_nat (uio_resid u) <= fuel)%nat ->
  typed (Z.to_nat (uio_resid u)) (con_in c) = Some l ->
  exists r bs inp u' v', con_io_loop fuel u v c = Some (r, u', v', set_in inp c) /\ uio_moved r bs u v u' v' /\
    (r = 0 /\ bs = l /\ inp = drop (length l) (con_in c) \/
     r = EFAULT /\ bs = take (length bs) l /\ (length bs < length l)%nat /\ inp = drop (S (length bs)) (con_in c) /\
     ~ uio_good u v (Z.of_nat (length bs) + 1)).
Proof.
  revert u v c l. induction fuel as [|fuel IH]; intros u v c l Hu Hrw Hty Hin Hf Hl; cbn [con_io_loop];
    pose proof Hu as (_ & _ & [Hr0 _] & _); destruct (0 <? uio_resid u) eqn:E0; boolify; try lia.
  1,3: replace (Z.to_nat (uio_resid u)) with 0%nat in Hl by lia; injection Hl as <-; exists 0, [], (con_in c), u, v;
    split; [by destruct c|]; split; [by apply uio_moved_refl|]; by left.
  rewrite Hrw. destruct (Z.to_nat (uio_resid u)) as [|n] eqn:En; [lia|]. cbn [typed] in Hl.
  destruct (con_in c) as [|ch inp] eqn:Ei; [done|]. apply list.Forall_cons in Hin as [Hch Hin].
  rewrite (getch_in ch inp) by done. cbn [mbind option_bind]. rewrite (u8_byte ch Hch). set (x := if ch =? 13 then 10 else ch).
  assert (is_byte x) as Hx by (unfold x; by destruct (ch =? 13)).
  destruct (uiomove_moved [x] 1 u v) as (r & bs1 & p & u1 & v1 & -> & Hm & _ & Hp & Hres); [done|lia|simpl; lia|by constructor|].
  rewrite Hrw in Hp. cbn [mbind option_bind]. destruct Hres as [[-> Hl1]|(-> & -> & Hng)].
  2:{ exists EFAULT, [], inp, u1, v1. split; [done|]. split; [done|]. right. split; [done|]. split; [done|]. split; [|done].
      destruct ((ch =? 13) || (ch =? 10)); [injection Hl as <-; simpl; lia|]. apply bind_Some in Hl as (? & _ & [= <-]). simpl. lia. }
  rewrite (proj2 Hp eq_refl) in Hm. change (take (Z.to_nat 1) [x]) with [x] in Hm. cbn [negb Z.eqb].
  assert ((x =? 10) = (ch =? 13) || (ch =? 10)) as -> by (unfold x; by destruct (ch =? 13)).
  destruct ((ch =? 13) || (ch =? 10)) eqn:Enl.
  { injection Hl as <-. assert (x = 10) as Ex by (unfold x; destruct (ch =? 13) eqn:E; [done|by apply Z.eqb_eq in Enl]). rewrite Ex in Hm.
    exists 0, [10], inp, u1, v1. split; [done|]. split; [done|]. by left. }
  assert (x = ch) as Ex by (unfold x; apply orb_false_iff in Enl as [-> _]; done). rewrite Ex in Hm.
  apply bind_Some in Hl as (l1 & Hl & [= <-]).
  assert (uio_ok u1 v1 /\ uio_rw u1 = UIO_READ /\ uio_resid u1 = uio_resid u - 1) as (Hu1 & Hrw1 & Er1).
  { destruct Hm as (-> & ? & _). split; [done|]. split; [done|]. by apply (uio_advance_resid 1 u v); [|lia]. }
  destruct (IH u1 v1 (set_in inp c) l1) as (r & bs & inp' & u' & v' & -> & Hm' & Hres); [done|done|done|done|lia| |].
  { cbn. by replace (Z.to_nat (uio_resid u1)) with n by lia. }
  exists r, ([ch] ++ bs), inp', u', v'. split; [done|]. split; [by eapply uio_moved_trans|].
  destruct Hres as [(-> & -> & ->)|(-> & Hb & Hlt & -> & Hng)]; [by left|right]. split; [done|]. split; [simpl; by f_equal|].
  split; [simpl; lia|]. split; [done|]. intros Hg. apply Hng. eapply uio_good_rest; [exact Hu|exact Hm|exact Hg|lia|simpl; lia].
Qed.

(** Reads and writes of the console device.  A write prints the bytes of the caller's
    region, with a return before each newline, and returns 0 when all are printed; a read
    stores what is typed, up to the length of the region or a newline (return counts
    as one), and takes no more of the input.  If a byte of the region cannot be accessed
    the call returns EFAULT with everything before it moved; a read then has lost one
    character of the input.  Both give their lock back. *)
Theorem con_io_exact (c : console) (u : uio) (v : vm) (l : list Z) :
  typable c -> con_userlock_read c = Some false -> con_userlock_write c = Some false ->
  uio_ok u v -> Forall is_byte (con_in c) ->
  (uio_rw u = UIO_READ -> typed (Z.to_nat (uio_resid u)) (con_in c) = Some l) ->
  exists r bs c' u' v', con_io u v c = Some (r, u', v', c') /\ uio_moved r bs u v u' v' /\
    (r = 0 \/ r = EFAULT /\ Z.of_nat (length bs) < uio_resid u /\ ~ uio_good u v (Z.of_nat (length bs) + 1)) /\
    match uio_rw u with
    | UIO_WRITE => (r = 0 -> Z.of_nat (length bs) = uio_resid u) /\ c' = con_put (crlf bs) 0 c
    | UIO_READ => bs = take (length bs) l /\ (r = 0 -> bs = l) /\
        c' = set_in (drop (if decide (r = 0) then length bs else S (length bs)) (con_in c)) c
    end.
Proof.
  intros Hty Hlr Hlw Hu Hin Hl. pose proof Hty as (Hc & _). unfold con_io. destruct (uio_rw u) eqn:Erw.
  - rewrite Hlr. cbn [acquire mbind option_bind].
    destruct (con_io_loop_read (Z.to_nat (uio_resid u)) u v (set_userlock UIO_READ (Some true) c) l)
      as (r & bs & inp & u' & v' & -> & Hm & Hres); [done..|by apply Hl|]. cbn [mbind option_bind set_in set_userlock con_userlock_read release].
    exists r, bs. do 3 eexists. split; [done|]. split; [done|]. destruct c as [x1 x2 x3 x4 x5 x6 x7 x8 x9 x10 x11]. cbn in *. subst x2.
    destruct Hres as [(-> & -> & ->)|(-> & Hb & Hlt & -> & Hng)].
    + split; [by left|]. rewrite firstn_all. split; [done|]. split; [done|]. by rewrite decide_True by done.
    + split; [|split; [done|]; split; [done|by rewrite decide_False by done]]. right. split; [done|]. split; [|done].
      pose proof (typed_length _ _ _ (Hl eq_refl)).
      lia.
  - rewrite Hlw. cbn [acquire mbind option_bind].
    destruct (con_io_loop_write (Z.to_nat (uio_resid u)) u v (set_userlock UIO_WRITE (Some true) c))
      as (r & bs & u' & v' & -> & Hm & Hres); [done..|]. cbn [mbind option_bind con_put set_beeps set_out set_userlock con_userlock_write release].
    exists r, bs. do 3 eexists. split; [done|]. split; [done|]. destruct c as [x1 x2 x3 x4 x5 x6 x7 x8 x9 x10 x11]. cbn in *. subst x3.
    destruct Hres as [(-> & Hb)|(-> & Hb & Hng)].
    + split; [by left|]. split; [done|]. unfold con_put, set_beeps, set_out. by cbn.
    + split; [by right|]. split; [done|]. unfold con_put, set_beeps, set_out. by cbn.
Qed.

(** Two bytes of user memory, a newline and an "x", and a write of them; and a read of
    three bytes to the same place, where there are two. *)
Definition demo_vm : vm := Vm (<[4096 := 10]> (<[4097 := 120]> ∅)) false 7.
Definition demo_uio (rw : uio_rw_t) (n : Z) : uio := Uio 4096 n 0 n UIO_USERSPACE rw 7.

Lemma demo_uio_ok rw n : 0 <= n < 100 -> uio_ok (demo_uio rw n) demo_vm.
Proof.
  intros Hn. assert (bytes_ok (vm_mem demo_vm)) as Hb.
  { unfold demo_vm. cbn [vm_mem]. intros i b Hb. apply lookup_insert_Some in Hb as [[_ <-]|[_ Hb]]; [done|].
    apply lookup_insert_Some in Hb as [[_ <-]|[_ Hb]]; [done|]. by rewrite lookup_empty in Hb. }
  unfold uio_ok, is_u32. cbn. split_and!; try lia; done.
Qed.

Lemma con_io_exact_witness :
  (exists c' u' v', con_io (demo_uio UIO_WRITE 2) demo_vm demo_con = Some (0, u', v', c') /\ con_out c' = [13; 10; 120]) /\
  (exists c' u' v', con_io (demo_uio UIO_READ 3) demo_vm demo_con = Some (EFAULT, u', v', c') /\ con_in c' = drop 3 (con_in demo_con)).
Proof.
  split.
  - destruct (con_io_exact demo_con (demo_uio UIO_WRITE 2) demo_vm []) as (r & bs & c' & u' & v' & E & Hm & Hr & Hw & Ec);
      [by repeat split|done|done|by apply demo_uio_ok|by repeat constructor|done|].
    assert (r = 0) as -> by (vm_compute in E; congruence). do 3 eexists. split; [exact E|]. rewrite Ec.
    destruct Hm as (_ & _ & _ & _ & _ & Eb). rewrite Eb. specialize (Hw eq_refl). cbn in Hw.
    replace (length bs) with 2%nat by lia. by vm_compute.
  - destruct (con_io_exact demo_con (demo_uio UIO_READ 3) demo_vm [97; 98; 32]) as (r & bs & c' & u' & v' & E & Hm & Hr & Hb & H0 & Ec);
      [by repeat split|done|done|by apply demo_uio_ok|by repeat constructor|done|].
    assert (r = EFAULT) as -> by (vm_compute in E; by injection E). do 3 eexists. split; [exact E|].
    vm_compute in E. injection E; intros Hc' _ _; rewrite <- Hc'. by vm_compute.
Defined.

(** A console before the kernel has found it, and two messages. *)
Definition early_con : console := Con false None None [] false None true 0 [] [] 0.
Definition demo_msg (n : Z) : list Z * list arg := (c_str "n=%d", [Word n]).

Lemma boot_prints_witness :
  exists c1 c2 c3, print_all [demo_msg 7] early_con = Some c1 /\
    config_con 0 true 0 c1 = Some (0, c2) /\ print_all [demo_msg 12] c2 = Some c3 /\
    con_out c3 = c_str "n=7n=12".
Proof.
  destruct (boot_prints early_con [demo_msg 7] [demo_msg 12] [c_str "n=7"] [c_str "n=12"] 0) as [Hb _];
    [done|done|done|repeat constructor; by vm_compute|repeat constructor; by vm_compute|].
  destruct Hb as (c1 & c2 & c3 & E1 & _ & _ & E2 & _ & _ & E3 & Eo); [by vm_compute|].
  exists c1, c2, c3. split; [exact E1|]. split; [exact E2|]. split; [exact E3|exact Eo].
Defined.
