(* ===== verification/Menu.v ===== *)
(** * The kernel's menu (kern/main/menu.c)

    A line is cut into commands at the semicolons and a command into words at blanks and
    tabs, both by [strtok_r], which writes zeros into the line; the words are then
    pointers into it.  Here the line is one buffer that all of them share, and a pointer
    an index into it.  The commands of the table are functions on the words, the buffer,
    the console and the rest of the kernel, given as a parameter; so is the clock. *)

From Stdlib Require Import String.
From stdpp Require Import base option list numbers.
From S2P Require Import Prelude Cstring Printf Console.

(** ** misc.c and errmsg.h *)

Definition sys_errlist : list string :=
  ["Operation succeeded"; "Invalid argument"; "Bad memory address"; "String too long"; "Out of memory";
   "Input/output error"; "No such file or directory"; "Not a directory"; "Is a directory";
   "File or object exists"; "Cross-device link"; "Try again later"; "Illegal seek"; "Unimplemented feature";
   "Device not available"; "No such device"; "Device or resource busy"; "Invalid/inappropriate ioctl";
   "Directory not empty"; "Result too large"; "No space left on device"; "Too many open files";
   "Too many open files in system"; "No such system call"; "File is not executable";
   "Argument list too long"; "Bad file number"]%string.

Definition sys_nerr : Z := Z.of_nat (length sys_errlist).

Definition strerror (errcode : Z) : option (list Z) :=
  if (0 <=? errcode) && (errcode <? sys_nerr) then s ← sys_errlist !! Z.to_nat errcode; Some (c_str s)
  else None.                                                 (* panic *)

(** ** menu.c *)

Definition MAXMENUARGS : Z := 16.

Definition getinterval (s1 ns1 s2 ns2 : Z) : Z * Z :=
  let '(ns2, s2) := if ns2 <? ns1 then (u32 (ns2 + 1000000000), s32 (s2 - 1)) else (ns2, s2) in
  (s32 (s2 - s1), u32 (ns2 - ns1)).

Inductive cmdfunc :=
| cmd_mainmenu | cmd_opsmenu | cmd_testmenu
| cmd_shell | cmd_prog | cmd_mount | cmd_unmount | cmd_bootfs | printfile | cmd_chdir | cmd_pwd | cmd_sync
| cmd_panic | cmd_quit | catmousesem | catmouselock | createcars | cmd_kheapstats
| arraytest | bitmaptest | queuetest | malloctest | mallocstress | nettest | threadtest | threadtest2 | threadtest3
| semtest | locktest | cvtest | fstest | readstress | writestress | writestress2 | createstress.

Definition cmdtable (OPT_SYNCHPROBS OPT_NET : bool) : list (string * cmdfunc) :=
  [("?", cmd_mainmenu); ("h", cmd_mainmenu); ("help", cmd_mainmenu); ("?o", cmd_opsmenu); ("?t", cmd_testmenu);
   ("s", cmd_shell); ("p", cmd_prog); ("mount", cmd_mount); ("unmount", cmd_unmount); ("bootfs", cmd_bootfs);
   ("pf", printfile); ("cd", cmd_chdir); ("pwd", cmd_pwd); ("sync", cmd_sync); ("panic", cmd_panic);
   ("q", cmd_quit); ("exit", cmd_quit); ("halt", cmd_quit)]%string ++
  (if OPT_SYNCHPROBS then [("1a", catmousesem); ("1b", catmouselock); ("1c", createcars)]%string else []) ++
  [("kh", cmd_kheapstats); ("at", arraytest); ("bt", bitmaptest); ("qt", queuetest); ("km1", malloctest);
   ("km2", mallocstress)]%string ++
  (if OPT_NET then [("net", nettest)]%string else []) ++
  [("tt1", threadtest); ("tt2", threadtest2); ("tt3", threadtest3); ("sy1", semtest); ("sy2", locktest);
   ("sy3", cvtest); ("fs1", fstest); ("fs2", readstress); ("fs3", writestress); ("fs4", writestress2);
   ("fs5", createstress)]%string.

Section menu.
Context {S : Type} (opt_synchprobs opt_net : bool).
Context (run : cmdfunc -> list nat -> list Z -> console -> S -> option (Z * list Z * console * S)).
Context (gettime : S -> (Z * Z) * S).

Definition print (fmt : list Z) (args : list arg) (c : console) : option console :=
  '(_, c) ← kprintf fmt args c; Some c.

(** The string at a pointer, as an argument of kprintf. *)
Definition arg_at (buf : list Z) (p : nat) : arg := Str (Some (cstr (drop p buf))).

(** The first loop of [cmd_dispatch]: the words, or [None] when there are too many.
    Every turn takes a word of the line. *)
Fixpoint dispatch_words (fuel : nat) (string context : option nat) (args : list nat) (buf : list Z) :
    option (option (list nat) * list Z) :=
  match fuel with
  | O => None
  | Datatypes.S fuel =>
      '(word, context, buf) ← strtok_r string [32; 9; 0] context buf;
      match word with
      | None => Some (Some args, buf)
      | Some word =>
          if MAXMENUARGS <=? Z.of_nat (length args) then Some (None, buf)
          else dispatch_words fuel None context (args ++ [word]) buf
      end
  end.

(** The second loop: the function of the command. *)
Fixpoint find_command (name : list Z) (table : list (string * cmdfunc)) : option (option cmdfunc) :=
  match table with
  | [] => Some None
  | (n, f) :: table =>
      if negb (bool_decide (c_str n = [])) then
        r ← strcmp name (c_str n ++ [0]);
        if r =? 0 then Some (Some f) else find_command name table
      else find_command name table
  end.

Definition too_many_msg : list Z := c_str "Command line has too many words" ++ [10].
Definition took_format : list Z := c_str "Operation took %lu.%09lu seconds" ++ [10].
Definition not_found_format : list Z := c_str "%s: Command not found" ++ [10].
Definition kernel_format : list Z := c_str "OS/161 kernel: %s" ++ [10].
Definition failed_format : list Z := c_str "Menu command failed: %s" ++ [10].
Definition prompt_msg : list Z := c_str "OS/161 kernel [? for menu]: ".

Definition cmd_dispatch (cmd : nat) (buf : list Z) (c : console) (s : S) : option (Z * list Z * console * S) :=
  '(args, buf) ← dispatch_words (Datatypes.S (length buf)) (Some cmd) None [] buf;
  match args with
  | None => c ← print too_many_msg [] c; Some (E2BIG, buf, c, s)
  | Some [] => Some (0, buf, c, s)
  | Some ((a0 :: _) as args) =>
      f ← find_command (drop a0 buf) (cmdtable opt_synchprobs opt_net);
      match f with
      | None => c ← print not_found_format [arg_at buf a0] c; Some (EINVAL, buf, c, s)
      | Some f =>
          let '((beforesecs, beforensecs), s) := gettime s in
          '(result, buf, c, s) ← run f args buf c s;
          let '((aftersecs, afternsecs), s) := gettime s in
          let '(secs, nsecs) := getinterval beforesecs beforensecs aftersecs afternsecs in
          c ← print took_format [Word (u32 secs); Word (u32 nsecs)] c;
          Some (result, buf, c, s)
      end
  end.

(** One turn for each command of the line. *)
Fixpoint execute_loop (fuel : nat) (isargs : bool) (string context : option nat) (buf : list Z) (c : console) (s : S) :
    option (list Z * console * S) :=
  match fuel with
  | O => None
  | Datatypes.S fuel =>
      '(command, context, buf) ← strtok_r string [59; 0] context buf;
      match command with
      | None => Some (buf, c, s)
      | Some command =>
          c ← (if isargs then print kernel_format [arg_at buf command] c else Some c);
          '(result, buf, c, s) ← cmd_dispatch command buf c s;
          if negb (result =? 0) then
            e ← strerror result;
            c ← print failed_format [Str (Some e)] c;
            if isargs then None                              (* panic *)
            else execute_loop fuel isargs None context buf c s
          else execute_loop fuel isargs None context buf c s
      end
  end.

Definition menu_execute (line : list Z) (isargs : bool) (c : console) (s : S) : option (list Z * console * S) :=
  execute_loop (Datatypes.S (length line)) isargs (Some O) None line c s.

(** A turn of the loop of [menu]. *)
Definition menu_turn (buf : list Z) (c : console) (s : S) : option (list Z * console * S) :=
  c ← print prompt_msg [] c;
  '(buf, c) ← kgets buf 64 c;
  menu_execute buf false c s.

Fixpoint menu_turns (n : nat) (buf : list Z) (c : console) (s : S) : option (list Z * console * S) :=
  match n with
  | O => Some (buf, c, s)
  | Datatypes.S n => '(buf, c, s) ← menu_turn buf c s; menu_turns n buf c s
  end.

(** [menu], for [n] turns; [buf0] is what its buffer happens to hold. *)
Definition menu (n : nat) (args buf0 : list Z) (c : console) (s : S) : option (list Z * console * S) :=
  '(_, c, s) ← menu_execute args true c s;
  menu_turns n buf0 c s.
End menu.
