(* ===== verification/MenuSpec.v ===== *)
(** * What a line typed at the menu does

    [words] cuts a string at separators; [line_does] is what the commands of a line do,
    one after the other, in terms of their words. *)

From Stdlib Require Import String.
From stdpp Require Import base option list numbers.
From S2P Require Import Prelude Cstring Uio Printf PrintfSpec Console ConsoleSpec Menu.

(** ** Words *)

Definition flush (cur : list Z) : list (list Z) := match cur with [] => [] | _ => [cur] end.

(** [cur]: the part of a word that was read. *)
Fixpoint words (q : Z -> bool) (cur s : list Z) : list (list Z) :=
  match s with
  | [] => flush cur
  | c :: s => if q c then flush cur ++ words q [] s else words q (cur ++ [c]) s
  end.

Lemma words_word q cur w rest : Forall (fun c => q c = false) w -> words q cur (w ++ rest) = words q (cur ++ w) rest.
Proof.
  revert cur. induction w as [|c w IH]; intros cur Hw; [by rewrite app_nil_r|].
  apply list.Forall_cons in Hw as [Hc Hw]. cbn [app words]. rewrite Hc, IH by done. by rewrite <- app_assoc.
Qed.

Lemma words_seps q s rest : Forall (fun c => q c = true) s -> words q [] (s ++ rest) = words q [] rest.
Proof. induction s as [|c s IH]; intros Hs; [done|]. apply list.Forall_cons in Hs as [Hc Hs]. cbn [app words]. by rewrite Hc, IH. Qed.

(** A string starts with separators, and then comes a word, or the end. *)
Lemma words_split q s :
  Forall (fun c => q c = true) s /\ words q [] s = [] \/
  exists pre w rest, s = pre ++ w ++ rest /\ Forall (fun c => q c = true) pre /\ Forall (fun c => q c = false) w /\ w <> [] /\
    (rest = [] /\ words q [] s = [w] \/
     exists x rest', rest = x :: rest' /\ q x = true /\ words q [] s = w :: words q [] rest').
Proof.
  induction s as [|c s IH]; [left; split; [constructor|done]|]. destruct (q c) eqn:Eq.
  - cbn [words]. rewrite Eq. destruct IH as [[Hs Hw]|(pre & w & rest & -> & Hp & Hw & Hn & Hr)].
    + left. split; [by constructor|done].
    + right. exists (c :: pre), w, rest. split; [done|]. split; [by constructor|]. done.
  - right. assert (exists w rest, s = w ++ rest /\ Forall (fun c => q c = false) w /\ (rest = [] \/ exists x rest', rest = x :: rest' /\ q x = true)) as (w & rest & -> & Hw & Hr).
    { clear IH. induction s as [|x s (w & rest & -> & Hw & Hr)]; [exists [], []; auto using List.Forall_nil|]. destruct (q x) eqn:Ex.
      - exists [], (x :: w ++ rest). split; [done|]. split; [constructor|]. right. eauto.
      - exists (x :: w), rest. split; [done|]. split; [by constructor|done]. }
    exists [], (c :: w), rest. split; [done|]. split; [constructor|]. split; [by constructor|]. split; [done|].
    change (c :: w ++ rest) with ((c :: w) ++ rest). rewrite words_word by (by constructor). cbn [app].
    destruct Hr as [->|(x & rest' & -> & Hx)]; [by left|right]. exists x, rest'. split; [done|]. split; [done|]. cbn [words]. by rewrite Hx.
Qed.

Lemma words_str q s : is_str s -> Forall is_str (words q [] s).
Proof.
  assert (forall cur, is_str cur -> is_str s -> Forall is_str (words q cur s)) as H; [|intros; apply H; [apply List.Forall_nil|done]].
  assert (forall cur, is_str cur -> Forall is_str (flush cur)) as Hf.
  { intros [|x cur] Hc; [apply List.Forall_nil|]. by apply List.Forall_cons; [|apply List.Forall_nil]. }
  induction s as [|c s IH]; intros cur Hcur Hs; cbn [words]; [by apply Hf|]. apply is_str_cons in Hs as [Hc Hs]. destruct (q c).
  - apply list.Forall_app. split; [by apply Hf|]. apply IH; [apply List.Forall_nil|done].
  - apply IH; [|done]. apply list.Forall_app. split; [done|]. by apply List.Forall_cons; [|apply List.Forall_nil].
Qed.

(** ** Strings in a buffer *)

Definition str_at (buf : list Z) (p : nat) (w : list Z) : Prop :=
  (forall i, (i < length w)%nat -> buf !! (p + i)%nat = w !! i) /\ buf !! (p + length w)%nat = Some 0.

(** [buf'] is [buf] but for the [n] bytes from [p] on. *)
Definition inside (p n : nat) (buf buf' : list Z) : Prop :=
  length buf' = length buf /\ forall i, (i < p \/ p + n <= i)%nat -> buf' !! i = buf !! i.

Lemma inside_refl p n buf : inside p n buf buf.
Proof. done. Qed.

Lemma inside_trans p n p1 n1 p2 n2 buf buf1 buf2 :
  inside p1 n1 buf buf1 -> inside p2 n2 buf1 buf2 ->
  (p <= p1)%nat -> (p1 + n1 <= p + n)%nat -> (p <= p2)%nat -> (p2 + n2 <= p + n)%nat -> inside p n buf buf2.
Proof.
  intros [L1 H1] [L2 H2] ? ? ? ?. split; [lia|]. intros i Hi. rewrite H2 by lia. apply H1. lia.
Qed.

Lemma inside_le p n p1 n1 buf buf1 :
  inside p1 n1 buf buf1 -> (p <= p1)%nat -> (p1 + n1 <= p + n)%nat -> inside p n buf buf1.
Proof. intros [L1 H1] ? ?. split; [done|]. intros i Hi. apply H1. lia. Qed.

Lemma str_at_frame buf buf' p w a n :
  str_at buf p w -> inside a n buf buf' -> (p + length w < a \/ a + n <= p)%nat -> str_at buf' p w.
Proof.
  intros [H1 H2] [_ Hi] Hd. split; [intros i ?; rewrite Hi by lia; by apply H1|]. rewrite Hi by lia. done.
Qed.

Lemma str_at_drop buf p w : str_at buf p w -> exists r, drop p buf = w ++ 0 :: r.
Proof.
  intros [H1 H2]. exists (drop (S (p + length w)) buf). apply list_eq. intros i. rewrite lookup_drop.
  destruct (decide (i < length w)%nat) as [?|?].
  - rewrite lookup_app_l by done. by apply H1.
  - rewrite lookup_app_r by lia. destruct (i - length w)%nat as [|k] eqn:E.
    + replace i with (length w) by lia. done.
    + change ((0 :: drop (S (p + length w)) buf) !! S k) with (drop (S (p + length w)) buf !! k).
      rewrite lookup_drop. f_equal. lia.
Qed.

Lemma drop_str_at buf p w r : drop p buf = w ++ 0 :: r -> str_at buf p w.
Proof.
  intros E. split; [intros i Hi|]; rewrite <- lookup_drop, E.
  - by rewrite lookup_app_l by done.
  - by rewrite list_lookup_middle.
Qed.

Lemma str_at_lookup buf p s1 c s2 : str_at buf p (s1 ++ c :: s2) -> buf !! (p + length s1)%nat = Some c.
Proof. intros [H _]. rewrite H by (rewrite length_app; simpl; lia). by apply list_lookup_middle. Qed.

Lemma str_at_app buf p s1 s2 : str_at buf p (s1 ++ s2) -> str_at buf (p + length s1) s2.
Proof.
  intros (r & E)%str_at_drop. apply (drop_str_at _ _ _ r). rewrite <- drop_drop, E, <- app_assoc. by rewrite drop_app_length.
Qed.

Lemma str_at_cut buf p w x s : str_at buf p (w ++ x :: s) ->
  str_at (<[(p + length w)%nat := 0]> buf) p w /\ str_at (<[(p + length w)%nat := 0]> buf) (S (p + length w)) s.
Proof.
  intros H. pose proof H as [H1 H2]. rewrite length_app in *. simpl in *. pose proof (str_at_lookup _ _ _ _ _ H) as Hx.
  apply lookup_lt_Some in Hx. split.
  - split; [|by rewrite list_lookup_insert_eq by done]. intros i Hi. rewrite list_lookup_insert_ne by lia.
    rewrite H1 by lia. by rewrite lookup_app_l.
  - split; [intros i Hi|]; rewrite list_lookup_insert_ne by lia.
    + replace (S (p + length w) + i)%nat with (p + (length w + S i))%nat by lia. rewrite H1 by lia.
      rewrite lookup_app_r by lia. by replace (length w + S i - length w)%nat with (S i) by lia.
    + rewrite <- H2. f_equal. lia.
Qed.

Lemma inside_insert buf p n i x : (p <= i < p + n)%nat -> inside p n buf (<[i := x]> buf).
Proof. intros Hi. split; [by rewrite length_insert|]. intros j Hj. by rewrite list_lookup_insert_ne by lia. Qed.

(** ** strtok_r *)

(** How many bytes a loop [while ( *p && q( *p)) p++] passes. *)
Fixpoint skip (q : Z -> bool) (l : list Z) : option nat :=
  match l with
  | [] => None
  | c :: l => if negb (c =? 0) && q c then n ← skip q l; Some (S n) else Some O
  end.

Lemma strchr_returns s ch : is_Some (strchr (s ++ [0]) ch).
Proof.
  induction s as [|c s [r IH]]; cbn [app strchr]; [by eexists|]. destruct (c =? 0); [by eexists|]. destruct (s8 c =? ch); [by eexists|].
  rewrite IH. by eexists.
Qed.

Lemma skip_while_skip want seps l : skip_while want (seps ++ [0]) l = skip (fun c => Bool.eqb (in_string seps c) want) l.
Proof.
  induction l as [|c l IH]; [done|]. cbn [skip_while skip]. destruct (c =? 0); [done|]. cbn [negb andb]. unfold in_string.
  destruct (strchr_returns seps (s8 c)) as [r ->]. cbn [mbind option_bind]. rewrite IH.
  replace (bool_decide (is_Some r)) with (match r with Some _ => true | None => false end); [done|].
  destruct r; [by rewrite bool_decide_eq_true_2|]. by rewrite bool_decide_eq_false_2 by (by intros [? ?]).
Qed.

Lemma skip_run q s1 c r : is_str s1 -> Forall (fun c => q c = true) s1 -> c = 0 \/ q c = false ->
  skip q (s1 ++ c :: r) = Some (length s1).
Proof.
  intros Hs Hq Hc. induction s1 as [|x s1 IH]; cbn [app skip length].
  - destruct Hc as [->| ->]; [done|]. by rewrite andb_false_r.
  - apply is_str_cons in Hs as [[_ Hx] Hs]. apply list.Forall_cons in Hq as [Hqx Hq].
    rewrite (proj2 (Z.eqb_neq x 0) Hx), Hqx. cbn [negb andb]. by rewrite IH.
Qed.

Definition at_context (string context : option nat) (p : nat) : Prop :=
  match string with Some x => x = p | None => context = Some p end.

Lemma strtok_spec seps string context buf p s :
  let q := in_string seps in at_context string context p -> str_at buf p s -> is_str s ->
  words q [] s = [] /\ strtok_r string (seps ++ [0]) context buf = Some (None, None, buf) \/
  exists pre w rest, s = pre ++ w ++ rest /\ w <> [] /\ Forall (fun c => q c = false) w /\ let h := (p + length pre)%nat in
    (rest = [] /\ words q [] s = [w] /\ strtok_r string (seps ++ [0]) context buf = Some (Some h, None, buf) \/
     exists x rest', rest = x :: rest' /\ words q [] s = w :: words q [] rest' /\
       strtok_r string (seps ++ [0]) context buf = Some (Some h, Some (S (h + length w)), <[(h + length w)%nat := 0]> buf)).
Proof.
  intros q Hat Hs Hstr. unfold strtok_r. replace (match string with Some p => Some p | None => context end) with (Some p)
    by (unfold at_context in Hat; destruct string; congruence). rewrite skip_while_skip.
  assert (forall l, skip (fun c => Bool.eqb (in_string seps c) true) l = skip q l) as ->.
  { intros l. unfold q. induction l as [|c l IH]; [done|]. cbn [skip]. rewrite IH. by destruct (in_string seps c). }
  assert (forall l, skip_while false (seps ++ [0]) l = skip (fun c => negb (q c)) l) as Hneg.
  { intros l. rewrite skip_while_skip. unfold q. induction l as [|c l IH]; [done|]. cbn [skip]. rewrite IH. by destruct (in_string seps c). }
  destruct (str_at_drop _ _ _ Hs) as [r E]. destruct (words_split q s) as [[Hall Hw]|(pre & w & rest & -> & Hp & Hw & Hn & Hr)].
  - left. split; [done|]. rewrite E, skip_run by (done || by left). cbn [mbind option_bind].
    destruct Hs as [_ ->]. done.
  - right. exists pre, w, rest. split; [done|]. split; [done|]. split; [done|]. set (h := (p + length pre)%nat).
    destruct w as [|c w]; [done|]. apply list.Forall_app in Hstr as [Hsp Hstr]. apply list.Forall_app in Hstr as [Hsw Hsr].
    pose proof Hsw as Hsw'. apply is_str_cons in Hsw' as [[_ Hc0] _]. pose proof Hw as Hw'. apply list.Forall_cons in Hw' as [Hqc _].
    assert (drop h buf = (c :: w) ++ rest ++ 0 :: r) as Eh.
    { unfold h. rewrite <- drop_drop, E, <- !app_assoc. by rewrite drop_app_length. }
    assert (skip q (drop p buf) = Some (length pre)) as ->.
    { rewrite E, <- app_assoc. cbn [app]. apply skip_run; [done|done|by right]. }
    cbn [mbind option_bind]. fold h.
    rewrite (str_at_lookup buf p pre c (w ++ rest) Hs : buf !! h = Some c). cbn [mbind option_bind].
    rewrite (proj2 (Z.eqb_neq c 0) Hc0), Hneg, Eh.
    assert (Forall (fun c => negb (q c) = true) (c :: w)) as Hw2 by (eapply list.Forall_impl; [exact Hw|]; simpl; intros ? ->; done).
    pose proof (str_at_app buf p pre ((c :: w) ++ rest) Hs) as Hs1. fold h in Hs1.
    destruct Hr as [[-> Hws]|(x & rest' & -> & Hx & Hws)].
    + left. split; [done|]. split; [done|]. change ([] ++ 0 :: r) with (0 :: r). rewrite (skip_run (fun c => negb (q c)) (c :: w) 0 r) by (done || by left).
      cbn [mbind option_bind]. rewrite app_nil_r in Hs1. destruct Hs1 as [_ ->]. done.
    + right. exists x, rest'. split; [done|]. split; [done|]. change ((x :: rest') ++ 0 :: r) with (x :: rest' ++ 0 :: r).
      rewrite (skip_run (fun c => negb (q c)) (c :: w) x (rest' ++ 0 :: r)) by (done || by right; rewrite Hx). cbn [mbind option_bind].
      rewrite (str_at_lookup buf h (c :: w) x rest' Hs1). cbn [mbind option_bind]. apply is_str_cons in Hsr as [[_ Hx0] _].
      by rewrite (proj2 (Z.eqb_neq x 0) Hx0).
Qed.

Lemma strtok_end seps buf : strtok_r None seps None buf = Some (None, None, buf).
Proof. done. Qed.

(** ** cmd_dispatch: the words *)

Definition blank : Z -> bool := in_string [32; 9].
Definition semicolon : Z -> bool := in_string [59].

(** The words [ws] are at [args], within the [n] bytes from [p] on. *)
Definition args_at (buf : list Z) (p n : nat) (args : list nat) (ws : list (list Z)) : Prop :=
  Forall2 (fun a w => str_at buf a w /\ (p <= a)%nat /\ (a + length w <= p + n)%nat) args ws.

Lemma dispatch_words_spec fuel string context args buf p s :
  at_context string context p -> str_at buf p s -> is_str s -> (length s < fuel)%nat -> Z.of_nat (length args) <= 16 ->
  exists buf' new, inside p (length s) buf buf' /\
    if Z.of_nat (length args + length (words blank [] s)) <=? 16
    then dispatch_words fuel string context args buf = Some (Some (args ++ new), buf') /\ args_at buf' p (length s) new (words blank [] s)
    else dispatch_words fuel string context args buf = Some (None, buf').
Proof.
  revert string context args buf p s. induction fuel as [|fuel IH]; intros string context args buf p s Hat Hs Hstr Hf Hn; [lia|].
  cbn [dispatch_words]. pose proof (strtok_spec [32; 9] string context buf p s Hat Hs Hstr) as Hk. cbn zeta in Hk.
  change (in_string [32; 9]) with blank in Hk. change ([32; 9] ++ [0]) with [32; 9; 0] in Hk. destruct Hk as [[-> ->]|(pre & w & rest & -> & Hw & _ & Hcase)].
  - exists buf, []. split; [done|]. rewrite Nat.add_0_r, (proj2 (Z.leb_le _ _) Hn). cbn [mbind option_bind]. rewrite app_nil_r. split; [done|constructor].
  - set (h := (p + length pre)%nat) in *. assert (0 < length w)%nat as Hw0 by (destruct w; [done|simpl; lia]).
    rewrite !length_app in *. pose proof (str_at_app buf p pre (w ++ rest) Hs) as Hs1. fold h in Hs1.
    destruct Hcase as [(-> & -> & ->)|(x & rest' & -> & -> & ->)]; cbn [mbind option_bind length]; unfold MAXMENUARGS.
    + rewrite app_nil_r in Hs1. exists buf, [h]. split; [done|]. destruct (16 <=? Z.of_nat (length args)) eqn:E16; boolify.
      * by rewrite (proj2 (Z.leb_gt _ _)) by lia.
      * rewrite (proj2 (Z.leb_le _ _)) by lia. destruct fuel as [|fuel]; [lia|]. cbn [dispatch_words]. rewrite strtok_end. cbn [mbind option_bind].
        split; [done|]. constructor; [|constructor]. split; [done|]. unfold h. simpl. lia.
    + destruct (str_at_cut buf h w x rest' Hs1) as [Hw1 Hr1]. set (buf1 := <[(h + length w)%nat := 0]> buf) in *.
      assert (inside p (length pre + (length w + S (length rest'))) buf buf1) as Hi1 by (apply inside_insert; unfold h; lia).
      simpl in Hf. destruct (16 <=? Z.of_nat (length args)) eqn:E16; boolify.
      * exists buf1, []. split; [done|]. by rewrite (proj2 (Z.leb_gt _ _)) by lia.
      * destruct (IH None (Some (S (h + length w))) (args ++ [h]) buf1 (S (h + length w)) rest') as (buf' & new & Hi & Hd);
          [done|done| |lia|rewrite length_app; simpl; lia|].
        { apply list.Forall_app in Hstr as [_ Hstr]. apply list.Forall_app in Hstr as [_ Hstr]. by apply is_str_cons in Hstr as [_ ?]. }
        exists buf', (h :: new). split; [eapply inside_trans; [exact Hi1|exact Hi|unfold h in *; lia..]|].
        rewrite length_app in Hd. cbn [length] in Hd. replace (length args + 1 + length (words blank [] rest'))%nat
          with (length args + S (length (words blank [] rest')))%nat in Hd by lia.
        destruct (Z.of_nat (length args + S (length (words blank [] rest'))) <=? 16); [|done]. destruct Hd as [-> Ha].
        rewrite <- app_assoc. split; [done|]. constructor.
        { split; [|unfold h; simpl; lia]. eapply str_at_frame; [exact Hw1|exact Hi|]. lia. }
        eapply list.Forall2_impl; [exact Ha|]. simpl. intros a w' (? & ? & ?). split; [done|]. unfold h in *. lia.
Qed.

(** ** The messages *)

Lemma parse_lits l r : 37 ∉ l -> parse None (l ++ r) = map Lit l ++ parse None r.
Proof.
  induction l as [|c l IH]; intros Hl; [done|]. apply not_elem_of_cons in Hl as [Hc Hl]. cbn [app parse map].
  rewrite (proj2 (Z.eqb_neq c 37)) by done. by rewrite IH.
Qed.

Lemma render_lits l ps args : render (map Lit l ++ ps) args = (out ← render ps args; Some (l ++ out)).
Proof.
  induction l as [|c l IH]; cbn [map app]; [by destruct (render ps args)|]. cbn [render render_piece mbind option_bind].
  rewrite IH. by destruct (render ps args).
Qed.

Lemma lits_ok l ps : Forall piece_ok ps -> Forall piece_ok (map Lit l ++ ps).
Proof. intros H. induction l; [done|]. by constructor. Qed.

Lemma str_bytes s : is_str s -> Forall is_byte s.
Proof. intros Hs. eapply list.Forall_impl; [exact Hs|]. by intros ? [? _]. Qed.

Lemma says_lits l : is_str l -> 37 ∉ l -> says (l, []) l.
Proof.
  intros Hs Hl. unfold says. cbn [fst snd]. pose proof (parse_lits l [] Hl) as E. rewrite app_nil_r in E. rewrite E.
  split; [done|]. split; [apply lits_ok; constructor|]. split; [constructor|]. rewrite render_lits. cbn. rewrite app_nil_r.
  split; [done|]. by apply str_bytes.
Qed.

(** A format with one "%s". *)
Lemma says_s A B t : is_str A -> is_str B -> 37 ∉ A -> 37 ∉ B -> is_str t -> Z.of_nat (length t) < 2 ^ 31 ->
  says (A ++ [37; 115] ++ B, [Str (Some t)]) (A ++ t ++ B).
Proof.
  intros HA HB H1 H2 Ht Hl. unfold says. cbn [fst snd]. rewrite parse_lits by done. cbn [app].
  change (parse None (37 :: 115 :: B)) with (Conv [] 115 :: parse None B).
  pose proof (parse_lits B [] H2) as E. rewrite app_nil_r in E. change (parse None []) with (@nil piece) in E. rewrite E. cbn [app].
  split; [apply list.Forall_app; split; [done|]; by repeat (apply List.Forall_cons; [done|])|].
  split; [apply lits_ok; constructor; [done|]; apply lits_ok; constructor|]. split; [by repeat constructor|]. split.
  - rewrite render_lits. cbn [render render_piece]. change (bool_decide (115 ∈ int_types)) with false. cbn [Z.eqb Pos.eqb mbind option_bind].
    rewrite render_lits. cbn [render mbind option_bind]. unfold field. change (left_aligned []) with false. change (zeros []) with false.
    change (width []) with 0. rewrite Z2Nat.inj_0, Nat.sub_0_l. cbn [replicate app]. by rewrite !app_nil_r.
  - apply str_bytes. by repeat (apply list.Forall_app; split).
Qed.

Definition took_text (secs nsecs : Z) : list Z :=
  c_str "Operation took " ++ numeral 10 secs ++ [46] ++ replicate (9 - length (numeral 10 nsecs)) 48 ++ numeral 10 nsecs ++
  c_str " seconds" ++ [10].

Lemma says_took a b : is_u32 a -> is_u32 b -> says (took_format, [Word a; Word b]) (took_text a b).
Proof.
  intros Ha Hb. unfold says. cbn [fst snd].
  assert (parse None took_format = map Lit (c_str "Operation took ") ++ [Conv [108] 117; Lit 46; Conv [48; 57; 108] 117] ++
    map Lit (c_str " seconds" ++ [10]) ++ []) as E by reflexivity. rewrite E.
  split; [apply (bool_decide_unpack (is_str _)); by vm_compute|].
  split; [apply lits_ok; do 3 (apply List.Forall_cons; [done|]); apply lits_ok; constructor|]. split; [by repeat constructor|]. split.
  - rewrite render_lits. cbn [app render render_piece]. change (bool_decide (117 ∈ int_types)) with true. cbn [mbind option_bind].
    rewrite render_lits. cbn [render mbind option_bind].
    change (number [108] 117 a) with (field [108] [] (numeral 10 (u32 a))).
    change (number [48; 57; 108] 117 b) with (field [48; 57; 108] [] (numeral 10 (u32 b))).
    rewrite (Z.mod_small a (2 ^ 32) Ha : u32 a = a), (Z.mod_small b (2 ^ 32) Hb : u32 b = b). unfold field.
    change (left_aligned [108]) with false. change (left_aligned [48; 57; 108]) with false. change (zeros [108]) with false.
    change (zeros [48; 57; 108]) with true. change (width [108]) with 0. change (width [48; 57; 108]) with 9. cbn [app].
    change (Z.to_nat 0) with 0%nat. change (Z.to_nat 9) with 9%nat. rewrite Nat.sub_0_l. cbn [replicate app]. unfold took_text.
    f_equal. f_equal. f_equal. cbn [app]. f_equal. by rewrite <- app_assoc, app_nil_r.
  - assert (forall n, Forall is_byte (numeral 10 n)) as Hn by (intros n; apply str_bytes, numeral_str; lia).
    assert (Forall is_byte (c_str "Operation took ") /\ Forall is_byte (c_str " seconds") /\ Forall is_byte [46] /\ Forall is_byte [10]) as (H1 & H2 & H3 & H4).
    { split_and!; apply (bool_decide_unpack (Forall is_byte _)); by vm_compute. }
    unfold took_text. rewrite !list.Forall_app. split_and!; [exact H1|apply Hn|exact H3| |apply Hn|exact H2|exact H4]. by apply Forall_replicate.
Qed.

(** ** The table *)

Fixpoint command_named (name : list Z) (table : list (string * cmdfunc)) : option cmdfunc :=
  match table with
  | [] => None
  | (n, f) :: table => if bool_decide (name = c_str n) then Some f else command_named name table
  end.

Lemma find_command_spec w r table :
  is_str w -> Forall (fun x => is_str (c_str x.1) /\ c_str x.1 <> []) table ->
  find_command (w ++ 0 :: r) table = Some (command_named w table).
Proof.
  intros Hw. induction table as [|[n f] table IH]; intros Ht; [done|]. apply list.Forall_cons in Ht as [[Hn Hne] Ht].
  cbn [fst] in Hn, Hne. cbn [find_command command_named]. rewrite (bool_decide_eq_false_2 _ Hne). cbn [negb].
  destruct (strcmp_eq w r (c_str n) [] Hw Hn) as (x & -> & Hx). cbn [mbind option_bind].
  destruct (x =? 0) eqn:E; boolify.
  - by rewrite bool_decide_eq_true_2 by (by apply Hx).
  - rewrite bool_decide_eq_false_2 by (by intros ?%Hx). by apply IH.
Qed.

Lemma cmdtable_ok sp net : Forall (fun x => is_str (c_str x.1) /\ c_str x.1 <> []) (cmdtable sp net).
Proof. destruct sp, net; apply (bool_decide_unpack (Forall _ _)); by vm_compute. Qed.

Lemma strerror_str r e : strerror r = Some e -> is_str e /\ (37 ∉ e) /\ Z.of_nat (length e) < 2 ^ 31.
Proof.
  unfold strerror. destruct ((0 <=? r) && (r <? sys_nerr)); [|done]. intros E. apply bind_Some in E as (x & E & [= <-]).
  assert (Forall (fun x => is_str (c_str x) /\ (37 ∉ c_str x) /\ Z.of_nat (length (c_str x)) < 2 ^ 31) sys_errlist) as Hf
    by (apply (bool_decide_unpack (Forall _ _)); by vm_compute).
  by eapply Forall_lookup_1 in Hf.
Qed.

(** ** Commands *)

(** A console that kprintf can use. *)
Definition talks (c : console) : Prop := the_console c = true /\ unlocked c.

(** Only bytes of the words have changed. *)
Definition scribbles (args : list nat) (ws : list (list Z)) (buf buf' : list Z) : Prop :=
  length buf' = length buf /\
  forall i, buf' !! i <> buf !! i -> exists j a w, args !! j = Some a /\ ws !! j = Some w /\ (a <= i < a + length w)%nat.

(** What is asked of the commands: they depend on their words only, not on where these
    are, and write to nothing else in the buffer. *)
Class CommandLaws {S} (run : cmdfunc -> list nat -> list Z -> console -> S -> option (Z * list Z * console * S))
    (spec : cmdfunc -> list (list Z) -> console -> S -> option (Z * console * S)) : Prop := {
  run_spec f args ws buf c s :
    Forall2 (str_at buf) args ws -> Forall is_str ws -> talks c ->
    match spec f ws c s with
    | None => run f args buf c s = None
    | Some (r, c', s') => talks c' /\ exists buf', run f args buf c s = Some (r, buf', c', s') /\ scribbles args ws buf buf'
    end
}.

Section spec.
Context {S : Type} (sp net : bool) (gettime : S -> (Z * Z) * S).
Context (run : cmdfunc -> list nat -> list Z -> console -> S -> option (Z * list Z * console * S)).
Context (spec : cmdfunc -> list (list Z) -> console -> S -> option (Z * console * S)).

(** The command of the words [ws]: its result, and the console and the kernel after it. *)
Definition command_does (ws : list (list Z)) (c : console) (s : S) : option (Z * console * S) :=
  if 16 <? Z.of_nat (length ws) then Some (E2BIG, con_put too_many_msg 0 c, s)
  else match ws with
  | [] => Some (0, c, s)
  | w :: _ =>
      match command_named w (cmdtable sp net) with
      | None => Some (EINVAL, con_put (w ++ c_str ": Command not found" ++ [10]) 0 c, s)
      | Some f =>
          let '((s1, n1), s) := gettime s in
          '(r, c, s) ← spec f ws c s;
          let '((s2, n2), s) := gettime s in
          let '(secs, nsecs) := getinterval s1 n1 s2 n2 in
          Some (r, con_put (took_text (u32 secs) (u32 nsecs)) 0 c, s)
      end
  end.

(** The commands [cmds] of a line; for the line of the boot loader an error is fatal. *)
Fixpoint line_does (isargs : bool) (cmds : list (list Z)) (c : console) (s : S) : option (console * S) :=
  match cmds with
  | [] => Some (c, s)
  | cmd :: cmds =>
      let c := if isargs then con_put (c_str "OS/161 kernel: " ++ cmd ++ [10]) 0 c else c in
      '(r, c, s) ← command_does (words blank [] cmd) c s;
      if r =? 0 then line_does isargs cmds c s
      else
        e ← strerror r;
        if isargs then None
        else line_does isargs cmds (con_put (c_str "Menu command failed: " ++ e ++ [10]) 0 c) s
  end.

Context {Hlaws : CommandLaws run spec}.

Lemma print_says fmt args out c : says (fmt, args) out -> talks c -> print fmt args c = Some (con_put out 0 c).
Proof. intros Hs [Hc Hu]. unfold print. pose proof (kprintf_put (fmt, args) out c Hs Hu Hc) as E. cbn [fst snd] in E. by rewrite E. Qed.

Lemma talks_put out n c : talks c -> talks (con_put out n c).
Proof. done. Qed.

Lemma args_scribbled buf buf' p n args ws : args_at buf p n args ws -> scribbles args ws buf buf' -> inside p n buf buf'.
Proof.
  intros Ha [Hl Hs]. split; [done|]. intros i Hi. destruct (decide (buf' !! i = buf !! i)) as [?|Hne]; [done|].
  apply Hs in Hne as (j & a & w & Hja & Hjw & Hr). eapply Forall2_lookup_lr in Ha as (_ & ? & ?); [|done|done]. lia.
Qed.

Lemma says_s_at A B fmt t : fmt = A ++ [37; 115] ++ B ->
  bool_decide (is_str A /\ is_str B /\ (37 ∉ A) /\ (37 ∉ B)) = true -> is_str t -> Z.of_nat (length t) < 2 ^ 31 ->
  says (fmt, [Str (Some t)]) (A ++ t ++ B).
Proof. intros -> (HA & HB & H1 & H2)%bool_decide_eq_true Ht Hl. by apply says_s. Qed.

Lemma says_not_found w : is_str w -> Z.of_nat (length w) < 2 ^ 31 ->
  says (not_found_format, [Str (Some w)]) (w ++ c_str ": Command not found" ++ [10]).
Proof. intros Hw Hl. by apply (says_s_at [] (c_str ": Command not found" ++ [10]) not_found_format w). Qed.

Lemma says_too_many : says (too_many_msg, []) too_many_msg.
Proof. apply says_lits; [apply (bool_decide_unpack (is_str _))|apply (bool_decide_unpack (37 ∉ _))]; by vm_compute. Qed.

Lemma cmd_dispatch_spec p buf t c s :
  str_at buf p t -> is_str t -> Z.of_nat (length buf) < 2 ^ 31 -> talks c ->
  match command_does (words blank [] t) c s with
  | None => cmd_dispatch sp net run gettime p buf c s = None
  | Some (r, c', s') => talks c' /\ exists buf', cmd_dispatch sp net run gettime p buf c s = Some (r, buf', c', s') /\ inside p (length t) buf buf'
  end.
Proof.
  intros Ht Hstr Hlen Hc. unfold cmd_dispatch, command_does. assert (p + length t < length buf)%nat as Hin.
  { destruct Ht as [_ H]. by apply lookup_lt_Some in H. }
  destruct (dispatch_words_spec (Datatypes.S (length buf)) (Some p) None [] buf p t) as (buf1 & args & Hi & Hd); [done..|lia|done|].
  cbn [length Nat.add] in Hd. set (ws := words blank [] t) in *. pose proof (words_str blank t Hstr) as Hws. fold ws in Hws.
  destruct (Z.of_nat (length ws) <=? 16) eqn:E16; boolify.
  2:{ rewrite (proj2 (Z.ltb_lt 16 _)) by lia. rewrite Hd. cbn [mbind option_bind]. split; [done|]. exists buf1. split; [|done].
      by rewrite (print_says _ _ too_many_msg c says_too_many Hc). }
  rewrite (proj2 (Z.ltb_ge 16 _)) by lia. destruct Hd as [-> Ha]. cbn [app mbind option_bind]. pose proof Ha as Hlw. apply Forall2_length in Hlw.
  destruct ws as [|w ws'] eqn:Ews; [destruct args; [|done]; split; [done|]; by exists buf1|]. destruct args as [|a0 args']; [done|].
  pose proof Ha as Ha'. unfold args_at in Ha'. apply list.Forall2_cons in Ha' as [(Ha0 & _ & Ha0l) _]. pose proof Hws as Hws'. apply list.Forall_cons in Hws' as [Hw _].
  destruct (str_at_drop _ _ _ Ha0) as [r0 E0]. rewrite E0, find_command_spec by (done || apply cmdtable_ok). cbn [mbind option_bind].
  destruct (command_named w (cmdtable sp net)) as [f|].
  - destruct (gettime s) as [[s1 n1] st1]. pose proof (run_spec f (a0 :: args') (w :: ws') buf1 c st1) as Hrun.
    destruct (spec f (w :: ws') c st1) as [[[r c'] s']|]; cbn [mbind option_bind].
    2:{ rewrite Hrun; [done| |done|done]. eapply list.Forall2_impl; [exact Ha|]. by intros ? ? [? _]. }
    destruct Hrun as (Hc' & buf2 & -> & Hsc); [|done|done|]. { eapply list.Forall2_impl; [exact Ha|]. by intros ? ? [? _]. }
    cbn [mbind option_bind]. destruct (gettime s') as [[s2 n2] st2]. destruct (getinterval s1 n1 s2 n2) as [secs nsecs].
    rewrite (print_says _ _ _ c' (says_took _ _ (u32_range secs) (u32_range nsecs)) Hc'). cbn [mbind option_bind].
    split; [done|]. exists buf2. split; [done|]. pose proof (args_scribbled _ _ _ _ _ _ Ha Hsc) as Hi2.
    eapply inside_trans; [exact Hi|exact Hi2|lia..].
  - unfold arg_at. rewrite E0, cstr_str by done. destruct Hi as [Hl1 Hi].
    rewrite (print_says _ _ (w ++ c_str ": Command not found" ++ [10])); [|apply says_not_found; [done|lia]|done]. cbn [mbind option_bind].
    split; [done|]. exists buf1. by split; [|split].
Qed.

Lemma says_kernel t : is_str t -> Z.of_nat (length t) < 2 ^ 31 ->
  says (kernel_format, [Str (Some t)]) (c_str "OS/161 kernel: " ++ t ++ [10]).
Proof. intros Ht Hl. by apply (says_s_at (c_str "OS/161 kernel: ") [10] kernel_format t). Qed.

Lemma says_failed r e : strerror r = Some e -> says (failed_format, [Str (Some e)]) (c_str "Menu command failed: " ++ e ++ [10]).
Proof. intros (He & _ & Hl)%strerror_str. by apply (says_s_at (c_str "Menu command failed: ") [10] failed_format e). Qed.

(** The body of the loop of [menu_execute], with [k] as the rest of the line. *)
Definition execute_body (isargs : bool) (p : nat) (buf : list Z) (c : console) (s : S)
    (k : list Z -> console -> S -> option (list Z * console * S)) : option (list Z * console * S) :=
  c ← (if isargs then print kernel_format [arg_at buf p] c else Some c);
  '(result, buf, c, s) ← cmd_dispatch sp net run gettime p buf c s;
  if negb (result =? 0) then
    e ← strerror result; c ← print failed_format [Str (Some e)] c; if isargs then None else k buf c s
  else k buf c s.

(** [out] is what [line_does] gives, with a buffer of [n] bytes. *)
Definition as_line (n : nat) (res : option (console * S)) (out : option (list Z * console * S)) : Prop :=
  match res with
  | None => out = None
  | Some (c, s) => exists buf, out = Some (buf, c, s) /\ length buf = n
  end.

Lemma execute_command isargs p buf t c s cmds k :
  str_at buf p t -> is_str t -> Z.of_nat (length buf) < 2 ^ 31 -> talks c ->
  (forall buf' c' s', inside p (length t) buf buf' -> talks c' ->
     as_line (length buf) (line_does isargs cmds c' s') (k buf' c' s')) ->
  as_line (length buf) (line_does isargs (t :: cmds) c s) (execute_body isargs p buf c s k).
Proof.
  intros Ht Hstr Hlen Hc Hk. unfold execute_body. cbn [line_does]. set (c1 := if isargs then con_put (c_str "OS/161 kernel: " ++ t ++ [10]) 0 c else c).
  assert (talks c1) as Hc1 by (unfold c1; by destruct isargs). assert (p + length t < length buf)%nat as Hin.
  { destruct Ht as [_ H]. by apply lookup_lt_Some in H. }
  assert ((if isargs then print kernel_format [arg_at buf p] c else Some c) = Some c1) as ->.
  { unfold c1. destruct isargs; [|done]. destruct (str_at_drop _ _ _ Ht) as [r E]. unfold arg_at. rewrite E, cstr_str by done.
    apply print_says; [apply says_kernel; [done|lia]|done]. }
  cbn [mbind option_bind]. pose proof (cmd_dispatch_spec p buf t c1 s Ht Hstr Hlen Hc1) as Hd.
  destruct (command_does (words blank [] t) c1 s) as [[[r c2] s2]|]; [|by rewrite Hd]. destruct Hd as (Hc2 & buf2 & -> & Hi).
  cbn [mbind option_bind]. destruct (r =? 0); cbn [negb].
  - by apply Hk.
  - destruct (strerror r) as [e|] eqn:Ee; [|done]. cbn [mbind option_bind]. rewrite (print_says _ _ _ c2 (says_failed r e Ee) Hc2).
    cbn [mbind option_bind]. destruct isargs; [done|]. by apply Hk.
Qed.

Lemma execute_loop_spec fuel isargs string context buf p t c s :
  at_context string context p -> str_at buf p t -> is_str t -> Z.of_nat (length buf) < 2 ^ 31 -> (length t < fuel)%nat -> talks c ->
  as_line (length buf) (line_does isargs (words semicolon [] t) c s) (execute_loop sp net run gettime fuel isargs string context buf c s).
Proof.
  revert string context buf p t c s. induction fuel as [|fuel IH]; intros string context buf p t c s Hat Ht Hstr Hlen Hf Hc; [lia|].
  cbn [execute_loop]. pose proof (strtok_spec [59] string context buf p t Hat Ht Hstr) as Hk. cbn zeta in Hk.
  change (in_string [59]) with semicolon in Hk. change ([59] ++ [0]) with [59; 0] in Hk. destruct Hk as [[-> ->]|(pre & w & rest & -> & Hw & _ & Hcase)]; [by exists buf|].
  set (h := (p + length pre)%nat) in *. assert (0 < length w)%nat as Hw0 by (destruct w; [done|simpl; lia]). rewrite !length_app in Hf.
  pose proof (str_at_app buf p pre (w ++ rest) Ht) as Ht1. fold h in Ht1.
  apply list.Forall_app in Hstr as [_ Hstr]. apply list.Forall_app in Hstr as [Hsw Hsr].
  destruct Hcase as [(-> & -> & ->)|(x & rest' & -> & -> & ->)]; cbn [mbind option_bind].
  - rewrite app_nil_r in Ht1. apply (execute_command isargs h buf w c s [] (fun buf c s => execute_loop sp net run gettime fuel isargs None None buf c s)); [done..|].
    intros buf' c' s' [Hl _] Hc'. destruct fuel as [|fuel]; [lia|]. cbn [line_does execute_loop]. rewrite strtok_end. by exists buf'.
  - destruct (str_at_cut buf h w x rest' Ht1) as [Hw1 Hr1]. set (buf1 := <[(h + length w)%nat := 0]> buf) in *. simpl in Hf.
    assert (length buf1 = length buf) as Hl1 by apply length_insert. rewrite <- Hl1 in *. apply is_str_cons in Hsr as [_ Hsr].
    apply (execute_command isargs h buf1 w c s (words semicolon [] rest') (fun buf c s => execute_loop sp net run gettime fuel isargs None (Some (Datatypes.S (h + length w))) buf c s)); [done..|].
    intros buf' c' s' Hi Hc'. pose proof Hi as [Hl _]. rewrite <- Hl.
    apply (IH None (Some (Datatypes.S (h + length w))) buf' (Datatypes.S (h + length w)) rest'); [done| |done|lia|lia|done].
    eapply str_at_frame; [exact Hr1|exact Hi|lia].
Qed.
End spec.

(** C22: The menu does what a line says.  A line is cut into commands at the semicolons and
    each command into words at blanks and tabs.  The commands are executed in order:
    each gets exactly its words, whatever earlier commands have written over theirs; a
    name that is not in the table, more than 16 words and the result of a command that
    fails are reported, and stop the kernel only for the line of the boot loader.  A line
    that is typed at the prompt is executed as it was edited. *)
Theorem menu_exact {S} (sp net : bool) (gettime : S -> (Z * Z) * S)
    (run : cmdfunc -> list nat -> list Z -> console -> S -> option (Z * list Z * console * S))
    (spec : cmdfunc -> list (list Z) -> console -> S -> option (Z * console * S)) `{!CommandLaws run spec} (c : console) (s : S) :
  (forall line t isargs, str_at line 0 t -> is_str t -> Z.of_nat (length line) < 2 ^ 31 -> talks c ->
     as_line (length line) (line_does sp net gettime spec isargs (words semicolon [] t) c s)
       (menu_execute sp net run gettime line isargs c s)) /\
  (forall buf keys stop rest, typable c -> length buf = 64%nat -> Forall (fun ch => ends_line ch = false) keys ->
     ends_line stop = true -> con_in c = keys ++ stop :: rest ->
     exists o n, let t := if stop =? 3 then [] else foldl (edit 64) [] keys in
       as_line 64 (line_does sp net gettime spec false (words semicolon [] t)
                     (set_in rest (con_put (prompt_msg ++ o ++ bye stop) n c)) s)
         (menu_turn sp net run gettime buf c s)).
Proof.
  split.
  - intros line t isargs Ht Hstr Hl Hc. unfold menu_execute. apply execute_loop_spec with 0%nat; [done..| |done].
    destruct Ht as [_ H]. apply lookup_lt_Some in H. lia.
  - intros buf keys stop rest Hty Hb Hk Hs Hi. unfold menu_turn.
    assert (talks c) as Hc by (destruct Hty as (? & _ & ? & _); by split).
    rewrite (print_says _ _ prompt_msg) by (done || apply says_lits; apply (bool_decide_unpack _); by vm_compute). cbn [mbind option_bind].
    destruct (kgets_line (con_put prompt_msg 0 c) buf keys rest [] 64 stop) as (buf' & o & n & -> & Et & Htx & Hn & Hl & _);
      [done|rewrite Hb; lia|lia|done..|]. cbn [mbind option_bind]. rewrite con_put_put. exists o, n. cbn zeta. unfold menu_execute.
    set (t := if stop =? 3 then [] else foldl (edit 64) [] keys) in *. rewrite Hb in Hl. rewrite <- Hl at 1.
    assert (str_at buf' 0 t) as Ht.
    { apply (drop_str_at _ _ _ (drop (Datatypes.S (length t)) buf')). rewrite drop_0.
      rewrite <- (take_drop (Datatypes.S (length t)) buf') at 1. by rewrite Et, <- app_assoc. }
    apply execute_loop_spec with 0%nat; [done|done|done|by apply text_str|rewrite Hl; lia|lia|done].
Qed.

(** Commands that count their words, and write over the first byte of their name; chdir
    succeeds, the others fail with ENOENT. *)
Definition demo_spec (f : cmdfunc) (ws : list (list Z)) (c : console) (s : Z) : option (Z * console * Z) :=
  Some (match f with cmd_chdir => 0 | _ => ENOENT end, c, s + Z.of_nat (length ws)).
Definition demo_run (f : cmdfunc) (args : list nat) (buf : list Z) (c : console) (s : Z) : option (Z * list Z * console * Z) :=
  let buf' := match args with
              | a :: _ => if bool_decide (buf !! a = Some 0) then buf else <[a := 120]> buf
              | [] => buf
              end in
  Some (match f with cmd_chdir => 0 | _ => ENOENT end, buf', c, s + Z.of_nat (length args)).

#[global] Instance demo_laws : CommandLaws demo_run demo_spec.
Proof.
  constructor. intros f args ws buf c s Ha Hw Hc. unfold demo_spec, demo_run. split; [done|]. eexists.
  rewrite (Forall2_length Ha). split; [done|]. destruct args as [|a args]; [done|]. case_bool_decide as Hb; [done|].
  split; [by rewrite length_insert|]. intros i Hi. destruct (decide (i = a)) as [->|?]; [|by rewrite list_lookup_insert_ne in Hi].
  destruct ws as [|w ws]; [by inversion Ha|]. apply list.Forall2_cons in Ha as [[_ H0] _]. exists 0%nat, a, w.
  split; [done|]. split; [done|]. destruct w; [rewrite Nat.add_0_r in H0; done|simpl; lia].
Qed.

Definition demo_line : list Z := c_str "cd a ; cd b  c;;q".
Definition demo_time (s : Z) : (Z * Z) * Z := ((s, 5), s).

(** Two commands succeed, and the third is reported. *)
Definition demo_report : list Z :=
  took_text 2 0 ++ took_text 3 0 ++ took_text 1 0 ++ c_str "Menu command failed: No such file or directory" ++ [10].

Lemma demo_line_does :
  line_does false false demo_time demo_spec false (words semicolon [] demo_line) demo_con 0 = Some (con_put demo_report 0 demo_con, 6).
Proof. vm_compute. reflexivity. Qed.

Lemma menu_exact_witness :
  exists buf, menu_execute false false demo_run demo_time (demo_line ++ [0]) false demo_con 0 = Some (buf, con_put demo_report 0 demo_con, 6) /\
    length buf = length (demo_line ++ [0]).
Proof.
  pose proof (proj1 (menu_exact false false demo_time demo_run demo_spec demo_con 0) (demo_line ++ [0]) demo_line false) as Hm.
  rewrite demo_line_does in Hm. apply Hm.
  - by apply (drop_str_at _ _ _ []).
  - apply (bool_decide_unpack (is_str _)). vm_compute. exact I.
  - vm_compute. reflexivity.
  - split; [reflexivity|discriminate].
Defined.
